(* ===== verification/_CoqProject ===== *)
-Q . S2P
Prelude.v
Arrays.v
RtlsdrI2c.v
I2cSim.v
R82xx.v
R82xxTune.v
R82xxInv.v
R82xxOps.v
R82xxSpec.v
R82xxPll.v
R82xxFields.v
E4k.v
E4kInv.v
E4kSpec.v
E4kTune.v
E4kSession.v
Fc0012.v
Fc0013.v
FcPll.v
FcSpec.v
Fc0013Spec.v
Fc2580.v
Fc2580Spec.v
FcSafe.v
Double.v
Usb.v
UsbSpec.v
Demod.v
DemodSpec.v
Eeprom.v
Device.v
Repeater.v
DeviceInv.v
DeviceSession.v
Async.v
AsyncSpec.v
Enumerate.v
Convenience.v
ConvenienceSpec.v
RtlEeprom.v
Adsb.v
AdsbSpec.v
AdsbThreads.v
Streams.v
RtlFm.v
RtlFmSpec.v
RtlTcp.v
RtlTcpSpec.v
Fft.v
FftSpec.v
DoubleOrder.v
RtlPower.v
RtlPowerSpec.v
RtlPowerPlan.v
RtlPowerScan.v
Single.v
Coeff.v
Downsample.v
DownsampleSpec.v
HpsdrPacket.v
HpsdrPacketSpec.v
HpsdrSend.v
HpsdrSendSpec.v
HpsdrControl.v
HpsdrControlSpec.v
HpsdrThreads.v
HpsdrConf.v
HpsdrConfSpec.v
HpsdrCal.v
HpsdrCalSpec.v
RtlSdr.v
RtlTest.v
RtlFmControl.v
RtlFmThreads.v
RtlFmControlSpec.v
EepromSession.v
Mains.v
RtlPowerSession.v
HpsdrFile.v
RtlFmResample.v
