(* ===== verification/Prelude.v ===== *)
(** * librtlsdr: a verification library (root file)

    librtlsdr drives DVB-T sticks with the RTL2832 as software radios.  This
    library models the program in Rocq, part by part, and proves what makes
    each part correct.  All definitions are executable; they follow the C
    code function by function and keep its names.  The line before a
    definition names the file and function it models.

    ** Conventions (Prelude.v, Arrays.v)

    An integer of C is a [Z] with its conversions written out: [u8], [u16],
    [u32], [u64], [i8], [i16], [i32].  A C function that works on a state [S]
    is a term of the monad [M S A := S -> option (A * S)]; [None] stands for a
    run without a defined result (division by zero, an access outside an
    array, a loop that does not end, a value that C leaves undefined).  [wp m
    Q s] says that [m], run in [s], has a defined result that satisfies [Q];
    [preserves I m] that it keeps the invariant [I] and is defined wherever
    [I] holds; [moves P m Q] is a triple.  Arrays are lists with [arr_get] and
    [arr_set]; [has_at] describes a part of an array, [getz] makes it a function
    of the index, and [for_arr] is a loop over an array with its rules.
    Streams.v has machines that take a stream sample by sample.  Threads are
    events with a guard and an effect ([step_by], [runs_by]).

    ** The device

    - The tuner drivers reach the device through three functions
      (rtlsdr_i2c.h).  RtlsdrI2c.v makes them the class [RtlsdrI2c] with a log of
      events and the class [DevInv] of invariants that the functions keep;
      a driver is proved against the classes.  I2cSim.v has a bus whose transfers
      fail as a schedule says, and a chip with registers.  Usb.v and
      Demod.v give the real instance, over USB control transfers.
    - tuner_r82xx.c: R82xx.v has every function; R82xxTune.v treats the
      calculations, R82xxInv.v and R82xxOps.v the invariant "the shadow
      registers are what the chip was sent" per operation, R82xxSpec.v puts them
      together, R82xxPll.v shows which frequency the PLL is set to, R82xxFields.v
      what the mux, gain and bandwidth functions leave in the registers.
    - tuner_e4k.c: E4k.v; E4kInv.v (register access), E4kSpec.v (fields, PLL
      parameters), E4kTune.v (the registers after tuning), E4kSession.v
      (every session is defined).
    - tuner_fc0012.c, tuner_fc0013.c, tuner_fc2580.c: Fc0012.v, Fc0013.v,
      Fc2580.v; FcPll.v shares the arithmetic of the first two; FcSpec.v,
      Fc0013Spec.v and Fc2580Spec.v have the registers after tuning, FcSafe.v
      that the functions are defined.
    - librtlsdr.c, from the bottom: Usb.v (control transfers, register access,
      GPIO, the FIR filter, initialisation, the EEPROM) with UsbSpec.v and
      Eeprom.v; Double.v (binary64, on SpecFloat) for Demod.v (IF frequency,
      sample frequency correction, crystal frequencies) with DemodSpec.v;
      Device.v (struct rtlsdr_dev: the table of tuners, probing, every setter and
      getter) with Repeater.v, DeviceInv.v and DeviceSession.v; Async.v
      (asynchronous reading) with AsyncSpec.v; Enumerate.v (finding a device).

    ** The programs

    - rtl_adsb.c: Adsb.v (magnitudes, Manchester code, messages, printing);
      AdsbSpec.v; AdsbThreads.v (the two threads and their buffer).
    - rtl_sdr.c and rtl_biast.c: RtlSdr.v (options, setup, recording).
      rtl_test.c: RtlTest.v (lost bytes, the clock, the benchmark).
    - Mains.v has the options and the setup of rtl_adsb, rtl_tcp, rtl_power and
      rtl_test, the clients of rtl_tcp and the main loop of rtl_power, and shows
      that they use the dongle safely.
    - rtl_fm.c: RtlFm.v (the signal path) with RtlFmSpec.v; RtlFmControl.v (options,
      the list of frequencies, rate and frequency of the dongle, hopping) with
      RtlFmControlSpec.v, on top of DeviceSession.v; RtlFmThreads.v (the threads as
      events that can come in any order); RtlFmResample.v (the
      resamplers, which nothing calls).
    - rtl_tcp.c: RtlTcp.v (queue and commands); RtlTcpSpec.v, on top of
      DeviceSession.v.
    - rtl_eeprom.c: RtlEeprom.v (configuration and image); EepromSession.v (options,
      and a session over the EEPROM of Eeprom.v).
    - rtl_power.c: Fft.v (the fixed-point transform) with FftSpec.v; RtlPower.v
      (windows, plan of the hops, filters, scan, report) with RtlPowerSpec.v (a
      buffer), RtlPowerPlan.v (the plan) and RtlPowerScan.v (the scan of the
      plan, on top of DeviceSession.v), RtlPowerSession.v (from the options to the
      lines written); DoubleOrder.v compares doubles.
    - convenience.c: Convenience.v (suffixes, gains, device selection, dates,
      command lines); ConvenienceSpec.v.
    - rtl_hpsdr.c, which serves dongles as an HPSDR radio, with downsample.c and
      coeff.c.  Single.v (binary32), Coeff.v (the filters), Downsample.v and
      DownsampleSpec.v (decimation); HpsdrPacket.v and HpsdrPacketSpec.v (the
      layout of a datagram); HpsdrSend.v and HpsdrSendSpec.v (a block of a
      dongle, cut to datagrams); HpsdrControl.v and HpsdrControlSpec.v (what
      clients send); HpsdrFile.v (samples of a recorded file,
      changed settings); HpsdrThreads.v (the threads as a step relation);
      HpsdrConf.v and HpsdrConfSpec.v (options, choice and setup of the dongles,
      on top of DeviceSession.v); HpsdrCal.v and HpsdrCalSpec.v (calibration).
      A block goes through [dc_block], [downsample], [load_packet] (all in
      [sendiq_turn]); a datagram of the client through [handle_datagram] and
      [process_ep2] to [tune_pending], which calls Device.v.

    ** What is shown

    - Sessions.  [DeviceSession.library_session_safe]: opened, called in any
      order and closed, with any tuner and any failing transfers, the library
      is defined and reaches the tuner only through the open repeater.
      [RtlTcpSpec.client_commands]: so do the commands of a network client,
      however its bytes are cut; [HpsdrConfSpec.receiver_session_safe]: and a
      receiver of rtl_hpsdr, whatever its options; [RtlFmControlSpec.controller_hops]:
      and rtl_fm, which goes round its list of frequencies;
      [RtlPowerSession.power_session]: and rtl_power, whose lines cover the range
      asked for; [Mains.server_session_safe]: and rtl_tcp with its clients.
      [EepromSession.eeprom_session_writes]: a session of rtl_eeprom leaves the
      configuration asked for.  [HpsdrControlSpec.hpsdr_serves]:
      no datagram makes the main loop of rtl_hpsdr undefined.  [E4kSession.e4k_session_defined] and
      [R82xxSpec.r82xx_session_coherent] are the same for a driver alone.
    - Recursion and loops.  [DeviceInv.set_center_freq_terminates]: setting a
      frequency can change the sampling mode, which sets the frequency again;
      three levels are always enough, two are not.
      [AdsbSpec.adsb_demod_ends]: the search for messages ends.
      [AsyncSpec.read_async_cancelled]: a cancelled read ends, with all
      transfers settled if libusb is prompt; [AsyncSpec.read_async_stalls]: one
      whose transfers have failed goes on for ever, with nothing in flight.
      [HpsdrThreads.datagrams_keep_coming]: the threads of rtl_hpsdr never block
      each other; [HpsdrCalSpec.calibration_turns]: nor does its calibration, while
      the callbacks of the receivers do not overlap.
    - Threads.  [RtlFmThreads.audio_in_time]: if each thread of rtl_fm is ready for
      what it is given, the file has the audio of all blocks, and the threads
      come to rest; [RtlFmThreads.written_in_order]: in any case whole results in
      order.  [RtlFmThreads.main_joins_all]: the program ends, unless a signal is
      lost ([RtlFmThreads.exit_can_hang]).  [AdsbThreads.blocks_printed]: so does
      rtl_adsb print all messages.
    - Signals.  [FftSpec.fix_fft_is_dft]: the transform in place, with its swaps
      and passes, is the recursive one, number by number.
      [RtlPowerPlan.scan_plan]: the hops lie side by side, at a rate the dongle
      can do.  [RtlFmControlSpec.optimal_settings_tunes]: rtl_fm puts the signal
      where its signal path looks for it.  [RtlPowerScan.planned_scan]: a scan of such a plan has no access
      outside of its arrays and collects the spectra of what was read.
      [DownsampleSpec.downsample_spec]: the two filters in place are
      convolutions, decimated.
    - Streams.  [RtlSdr.recording_bytes]: a recording has the bytes asked for;
      [RtlTest.lost_bytes]: gaps are found wherever the blocks are cut.
      [RtlFmSpec.demod_stream]: the audio does not depend on the
      buffers.  [HpsdrSendSpec.sendiq_stream]: nor do datagrams lose or repeat
      samples between blocks; [HpsdrPacketSpec.client_reads_samples]: a client
      that follows the protocol reads from a datagram the samples that were
      written; [HpsdrFile.file_turn_samples]: a block of a file is what was
      recorded; [HpsdrThreads.datagrams_in_step]: datagram [n] has sample group [n]
      of each receiver, or the one before, in whatever order the threads run that
      leaves the flags as they were cleared.  [RtlTcpSpec.tcp_stream]: the client gets whole buffers in order.
      [AdsbSpec.adsb_frame_decoded]: a frame sent is the frame printed.
    - Options.  [HpsdrConfSpec.set_option_fills],
      [HpsdrConfSpec.parse_config_lines]: numbers and lines of a configuration
      take effect; [HpsdrControlSpec.process_ep2_words]: so do control words.
    - Registers.  For each tuner the registers after tuning, and through
      them the frequency ([R82xxPll.r82xx_set_pll_synth],
      [E4kTune.e4k_tune_freq_registers], [Fc2580Spec.fc2580_tune_exact],
      [FcSpec.fc0012_set_params_pll], [Fc0013Spec.fc0013_set_params_pll]);
      those of the demodulator ([DemodSpec], [UsbSpec]); fields left alone
      by masked writes.
    - Selection: a device by number or serial, the nearest gain.
    - Round trips: EEPROM contents, its configuration, filter coefficients,
      E4000 bandwidths, dates, samples in datagrams.
    - Errors: what goes wrong when transfers fail, with the cases that the code
      does not handle.

    ** Bounds and fuel

    [rtlsdr_set_center_freq] is [set_center_freq_fuel 3].  The event loop of
    rtlsdr_read_async and the loops of rtl_adsb take fuel; their theorems say how
    much is enough (for [manchester] three turns per sample).  Loops over a
    list, a counter or a table are structural.  [fix_fft] has 32 for the passes and
    for the search of the next index, which [wave_ok] (28 bits) makes enough; the
    boxcar filter has the length of its buffer.  The runs of the threads of rtl_fm
    have at most 27 events without a new block and 23 at the end, those of rtl_adsb
    six.  [put_rows] has the length of a
    datagram, [load_loop] the number of samples that are left, [parse_config] the
    length of the file.  The mixer divider of the R82xx has
    7 values, the sigma-delta loop 16 steps.

    ** Parameters

    What comes from outside is a parameter: the results and data of
    libusb_control_transfer ([usb_env]) and of libusb_handle_events, the list of
    USB devices, the results of conversions that C leaves undefined ([oor]), the
    functions of math.h in rtl_fm ([libm], [log2], [exp]) and rtl_power ([math]), atof
    ([libc]), the files, the room in them, the results of getopt, the clock of
    rtl_test and rtl_power, the answer of the user of rtl_eeprom, rand, FFTW.  No property assumes more of
    them than its statement says.

    ** Not modelled

    getopt itself, printing to stderr, sockets, signal handlers (in
    RtlFmThreads.v and AdsbThreads.v an event) and the starting of threads; libusb's enumeration calls, the detaching of kernel drivers; of
    rtl_hpsdr the filters with SIMD instructions and downsample_hb.c (not
    compiled); local time in convenience.c; local_sound.c (calls of sound
    libraries); getopt.c (third-party); everything for Windows only. *)

From stdpp Require Export base gmap list strings.
From Stdlib Require Export ZArith Lia ZifyBool.

#[global] Set Default Goal Selector "!".
Open Scope Z_scope.

(** ** C strings *)

(** The characters before the end, as bytes. *)
Definition chars (s : string) : list Z := map (fun c => Z.of_N (Ascii.N_of_ascii c)) (String.list_ascii_of_string s).

(** The characters of a char array as C sees them: up to the first NUL. *)
Fixpoint c_string (l : list Z) : list Z :=
  match l with [] => [] | c :: l' => if c =? 0 then [] else c :: c_string l' end.

(** ** C integers of a fixed width

    A C value of type [uint8_t] is a [Z] in the range of the type.  A
    conversion to a narrower unsigned type reduces modulo the width; a
    conversion to a signed type wraps around (gcc and clang). *)

Definition u8 (x : Z) : Z := x mod 2 ^ 8.
Definition u16 (x : Z) : Z := x mod 2 ^ 16.
Definition u32 (x : Z) : Z := x mod 2 ^ 32.
Definition u64 (x : Z) : Z := x mod 2 ^ 64.
Definition i8 (x : Z) : Z := (x + 2 ^ 7) mod 2 ^ 8 - 2 ^ 7.
Definition i16 (x : Z) : Z := (x + 2 ^ 15) mod 2 ^ 16 - 2 ^ 15.
Definition i32 (x : Z) : Z := (x + 2 ^ 31) mod 2 ^ 32 - 2 ^ 31.

(** C's conversion of a condition to [int]. *)
Definition b2z (b : bool) : Z := if b then 1 else 0.

(** C's truth value of an integer: non-zero. *)
Definition truthy (x : Z) : bool := negb (x =? 0).

Declare Scope c_scope.
Delimit Scope c_scope with c.
Infix ".&" := Z.land (at level 40, left associativity) : Z_scope.
Infix ".|" := Z.lor (at level 50, left associativity) : Z_scope.
Notation "~~ x" := (Z.lnot x) (at level 35, right associativity) : Z_scope.

Definition is_u8 (x : Z) : Prop := 0 <= x < 2 ^ 8.
Definition is_u16 (x : Z) : Prop := 0 <= x < 2 ^ 16.
Definition is_u32 (x : Z) : Prop := 0 <= x < 2 ^ 32.
Definition is_i16 (x : Z) : Prop := - 2 ^ 15 <= x < 2 ^ 15.
Definition is_i32 (x : Z) : Prop := - 2 ^ 31 <= x < 2 ^ 31.

Lemma i32_small x : is_i32 x -> i32 x = x.
Proof. unfold is_i32, i32. intros Hx. rewrite Z.mod_small; lia. Qed.
Lemma u32_small x : is_u32 x -> u32 x = x.
Proof. unfold is_u32, u32. intros Hx. by apply Z.mod_small. Qed.
Lemma u8_small x : is_u8 x -> u8 x = x.
Proof. unfold is_u8, u8. intros Hx. by apply Z.mod_small. Qed.
Lemma u32_i32 x : u32 (i32 x) = u32 x.
Proof. unfold u32, i32. rewrite Zminus_mod_idemp_l. f_equal. lia. Qed.
Lemma u64_small x : 0 <= x < 2 ^ 64 -> u64 x = x.
Proof. apply Z.mod_small. Qed.
Lemma u16_small x : is_u16 x -> u16 x = x.
Proof. apply Z.mod_small. Qed.
Lemma u8_range x : is_u8 (u8 x).
Proof. unfold is_u8, u8. by apply Z.mod_pos_bound. Qed.
Lemma i16_small x : is_i16 x -> i16 x = x.
Proof. unfold is_i16, i16. intros H. rewrite Z.mod_small; lia. Qed.
Lemma i16_range x : is_i16 (i16 x).
Proof. unfold is_i16, i16. pose proof (Z.mod_pos_bound (x + 2 ^ 15) (2 ^ 16)). lia. Qed.

(** Wrapping twice is wrapping once, so that a sum may be wrapped at its end. *)
Lemma wrap_add h m x y : m <> 0 -> ((x + h) mod m - h + y + h) mod m = (x + y + h) mod m.
Proof.
  intros Hm. replace ((x + h) mod m - h + y + h) with ((x + h) mod m + y) by lia.
  rewrite Z.add_mod_idemp_l by done. f_equal. lia.
Qed.
Lemma i16_add x y : i16 (i16 x + y) = i16 (x + y).
Proof. unfold i16. by rewrite wrap_add by lia. Qed.
Lemma i32_add x y : i32 (i32 x + y) = i32 (x + y).
Proof. unfold i32. by rewrite wrap_add by lia. Qed.
Lemma i16_i32 x : i16 (i32 x) = i16 x.
Proof.
  unfold i16, i32. f_equal. pose proof (Z.div_mod (x + 2 ^ 31) (2 ^ 32) ltac:(lia)).
  replace ((x + 2 ^ 31) mod 2 ^ 32 - 2 ^ 31 + 2 ^ 15) with (x + 2 ^ 15 + (- ((x + 2 ^ 31) / 2 ^ 32) * 2 ^ 16) * 2 ^ 16) by lia.
  by rewrite Z.mod_add by lia.
Qed.

#[export] Instance is_u8_dec x : Decision (is_u8 x).
Proof. unfold is_u8. apply _. Defined.
#[export] Instance is_u32_dec x : Decision (is_u32 x).
Proof. unfold is_u32. apply _. Defined.

#[export] Instance is_u16_dec x : Decision (is_u16 x).
Proof. unfold is_u16. apply _. Defined.
#[export] Instance is_i32_dec x : Decision (is_i32 x).
Proof. unfold is_i32. apply _. Defined.

(** Decide a closed proposition by computation. *)
Ltac by_compute := apply (bool_decide_unpack _); vm_compute; exact I.

(** [0, 1, ..., n-1] as C's loop counter. *)
Definition zseq (n : nat) : list Z := map Z.of_nat (seq 0 n).

Lemma elem_of_zseq n x : x ∈ zseq n <-> 0 <= x < Z.of_nat n.
Proof.
  unfold zseq. rewrite list_elem_of_fmap. split.
  - intros (y & -> & Hy%elem_of_seq). lia.
  - intros Hx. exists (Z.to_nat x). rewrite elem_of_seq. lia.
Qed.

(** A fact about a byte, or a pair of bytes, by going through all of them. *)
Lemma zseq_all (P : Z -> bool) n : forallb P (zseq n) = true -> forall x, 0 <= x < Z.of_nat n -> P x = true.
Proof.
  rewrite forallb_forall. intros H x Hx. by apply H, list_elem_of_In, elem_of_zseq.
Qed.

Lemma u8_all (P : Z -> bool) : forallb P (zseq 256) = true -> forall x, is_u8 x -> P x = true.
Proof. apply zseq_all. Qed.

(** ** Bit fields *)

(** The masked write: only the bits of [bit_mask] change. *)
Definition masked (old val bit_mask : Z) : Z := (old .& ~~ bit_mask) .| (val .& bit_mask).

Lemma masked_bits old val mask i :
  0 <= i ->
  Z.testbit (masked old val mask) i = if Z.testbit mask i then Z.testbit val i else Z.testbit old i.
Proof.
  intros Hi. unfold masked. rewrite Z.lor_spec, !Z.land_spec, Z.lnot_spec by done.
  destruct (Z.testbit mask i), (Z.testbit val i), (Z.testbit old i); done.
Qed.

Lemma u8_bits_above x i : is_u8 x -> 8 <= i -> Z.testbit x i = false.
Proof.
  unfold is_u8. intros Hx Hi. destruct (decide (x = 0)) as [->|]; [apply Z.testbit_0_l|].
  apply Z.bits_above_log2; [lia|]. assert (Z.log2 x < 8) by (apply Z.log2_lt_pow2; lia). lia.
Qed.

Lemma u8_of_bits x : 0 <= x -> (forall i, 8 <= i -> Z.testbit x i = false) -> is_u8 x.
Proof.
  intros H0 Hb. unfold is_u8. split; [done|]. destruct (Z.ltb_spec x (2 ^ 8)); [done|].
  exfalso. assert (8 <= Z.log2 x) by (apply Z.log2_le_pow2; lia).
  specialize (Hb (Z.log2 x) ltac:(lia)). rewrite Z.bit_log2 in Hb by lia. done.
Qed.

Lemma masked_u8 old val mask : is_u8 old -> is_u8 val -> is_u8 (masked old val mask).
Proof.
  intros Ho Hv. apply u8_of_bits.
  - unfold masked, is_u8 in *. apply Z.lor_nonneg. rewrite !Z.land_nonneg. lia.
  - intros i Hi. rewrite masked_bits by lia. rewrite (u8_bits_above old), (u8_bits_above val) by done. by destruct (Z.testbit mask i).
Qed.

Lemma masked_inside old val mask : masked old val mask .& mask = val .& mask.
Proof.
  apply Z.bits_inj'. intros i Hi. rewrite !Z.land_spec, masked_bits by done.
  destruct (Z.testbit mask i); [done|]. by rewrite !andb_false_r.
Qed.

Lemma masked_outside old val mask m :
  m .& mask = 0 -> masked old val mask .& m = old .& m.
Proof.
  intros E. apply Z.bits_inj'. intros i Hi. rewrite !Z.land_spec, masked_bits by done.
  assert (Z.testbit (m .& mask) i = false) as Eb by (rewrite E; apply Z.testbit_0_l).
  rewrite Z.land_spec in Eb.
  destruct (Z.testbit mask i), (Z.testbit m i); try done; by rewrite !andb_false_r.
Qed.

Lemma masked_all old val : is_u8 old -> is_u8 val -> masked old val 0xff = val.
Proof.
  intros Ho Hv. apply Z.bits_inj'. intros i Hi. rewrite masked_bits by done.
  change 0xff with (Z.ones 8). destruct (Z.ltb_spec i 8).
  - by rewrite Z.ones_spec_low by lia.
  - rewrite Z.ones_spec_high by lia. by rewrite !u8_bits_above.
Qed.

(** A field: register, mask and the value under the mask. *)
Definition field : Type := Z * Z * Z.

(** ** The effect monad

    [M S A] is a C function that reads and writes a state [S] and returns
    an [A].  [None] is a run that has no defined result in C: a division by
    zero, an access outside an array, or a loop that does not end.  The
    theorems show that this does not happen. *)

Definition M (S A : Type) : Type := S -> option (A * S).

#[export] Instance M_ret {S} : MRet (M S) := fun A a s => Some (a, s).
#[export] Instance M_bind {S} : MBind (M S) :=
  fun A B k m s => match m s with Some (a, s') => k a s' | None => None end.

Definition trap {S A} : M S A := fun _ => None.
Definition gets {S A} (f : S -> A) : M S A := fun s => Some (f s, s).
Definition modify {S} (f : S -> S) : M S unit := fun s => Some (tt, f s).

(** [rc = c; if (rc < 0) return rc; k] *)
Definition check {S} (c k : M S Z) : M S Z :=
  rc ← c; if rc <? 0 then mret rc else k.
Notation "c ;? k" := (check c k) (at level 100, k at level 200, right associativity).

(** [ret = c; if (ret) return ret; k] *)
Definition check_nz {S} (c k : M S Z) : M S Z :=
  rc ← c; if truthy rc then mret rc else k.
Notation "c ;! k" := (check_nz c k) (at level 100, k at level 200, right associativity).

(** [for (x in l) body]: a loop over a fixed sequence of values. *)
Fixpoint for_each {S X} (l : list X) (body : X -> M S unit) : M S unit :=
  match l with
  | [] => mret tt
  | x :: l' => body x;; for_each l' body
  end.

(** A loop over a fixed sequence left at the first negative result. *)
Fixpoint for_check {S X} (l : list X) (body : X -> M S Z) : M S Z :=
  match l with
  | [] => mret 0
  | x :: l' => body x ;? for_check l' body
  end.

(** A loop over a fixed sequence left at the first non-zero result. *)
Fixpoint for_check_nz {S X} (l : list X) (body : X -> M S Z) : M S Z :=
  match l with
  | [] => mret 0
  | x :: l' => body x ;! for_check_nz l' body
  end.

(** A function on a part [S] of a larger state [T]. *)
Definition zoom {T S A} (get : T -> S) (put : S -> T -> T) (m : M S A) : M T A :=
  fun t => match m (get t) with Some (a, s) => Some (a, put s t) | None => None end.

(** Array access: [a[i]] with [i] an int.  Outside the array there is no
    value. *)
Definition arr_get {A} (l : list A) (i : Z) : option A :=
  if i <? 0 then None else l !! Z.to_nat i.
Definition arr_set {A} (l : list A) (i : Z) (v : A) : option (list A) :=
  if (0 <=? i) && (i <? Z.of_nat (length l)) then Some (<[Z.to_nat i := v]> l) else None.
Definition from_option_trap {S A} (o : option A) : M S A :=
  match o with Some a => mret a | None => trap end.

(** ** Weakest preconditions

    [wp m Q s]: run in [s], [m] has a defined result, and [Q] holds of it. *)

Definition wp {S A} (m : M S A) (Q : A -> S -> Prop) (s : S) : Prop :=
  match m s with Some (a, s') => Q a s' | None => False end.

(** [m] keeps the invariant [I] and has a defined result in every state that
    satisfies it. *)
Definition preserves {S A} (I : S -> Prop) (m : M S A) : Prop :=
  forall s, I s -> wp m (fun _ s' => I s') s.

(** [m] keeps [I], and its result satisfies [Q]. *)
Definition returns {S A} (I : S -> Prop) (m : M S A) (Q : A -> Prop) : Prop :=
  forall s, I s -> wp m (fun a s' => Q a /\ I s') s.

(** From a state that satisfies [P], [m] has a defined result and ends in a
    state that satisfies [Q]. *)
Definition moves {S A} (P : S -> Prop) (m : M S A) (Q : S -> Prop) : Prop :=
  forall s, P s -> wp m (fun _ s' => Q s') s.

Section wp.
Context {S : Type}.
Implicit Types (s : S) (I : S -> Prop).

Lemma wp_mono {A} (m : M S A) (Q Q' : A -> S -> Prop) s :
  (forall a s', Q a s' -> Q' a s') -> wp m Q s -> wp m Q' s.
Proof. unfold wp. destruct (m s) as [[a s']|]; eauto. Qed.

Lemma wp_conj {A} (m : M S A) (Q Q' : A -> S -> Prop) s :
  wp m Q s -> wp m Q' s -> wp m (fun a s' => Q a s' /\ Q' a s') s.
Proof. unfold wp. destruct (m s) as [[a s']|]; done. Qed.

Lemma wp_ret {A} (a : A) (Q : A -> S -> Prop) s : Q a s -> wp (mret a) Q s.
Proof. done. Qed.

Lemma wp_gets {A} (f : S -> A) (Q : A -> S -> Prop) s : Q (f s) s -> wp (gets f) Q s.
Proof. done. Qed.

Lemma wp_modify (f : S -> S) (Q : unit -> S -> Prop) s : Q tt (f s) -> wp (modify f) Q s.
Proof. done. Qed.

Lemma wp_bind_iff {A B} (m : M S A) (k : A -> M S B) Q s :
  wp (m ≫= k) Q s <-> wp m (fun a s' => wp (k a) Q s') s.
Proof. unfold wp, mbind, M_bind. destruct (m s) as [[a s']|]; done. Qed.

Lemma wp_bind {A B} (m : M S A) (k : A -> M S B) Q s :
  wp m (fun a s' => wp (k a) Q s') s -> wp (m ≫= k) Q s.
Proof. apply wp_bind_iff. Qed.

Lemma wp_check (c k : M S Z) Q s :
  wp c (fun rc s' => if rc <? 0 then Q rc s' else wp k Q s') s -> wp (check c k) Q s.
Proof.
  intros H. apply wp_bind. revert H. apply wp_mono. intros rc s'.
  destruct (rc <? 0); done.
Qed.

Lemma wp_check_nz (c k : M S Z) Q s :
  wp c (fun rc s' => if truthy rc then Q rc s' else wp k Q s') s -> wp (check_nz c k) Q s.
Proof.
  intros H. apply wp_bind. revert H. apply wp_mono. intros rc s'.
  destruct (truthy rc); done.
Qed.

Lemma wp_inv {A} (m : M S A) (Q : A -> S -> Prop) s :
  wp m Q s -> exists a s', m s = Some (a, s') /\ Q a s'.
Proof. unfold wp. destruct (m s) as [[a s']|]; [eauto | done]. Qed.

Lemma wp_eq {A} (m : M S A) (Q : A -> S -> Prop) s a s' :
  m s = Some (a, s') -> Q a s' -> wp m Q s.
Proof. unfold wp. by intros ->. Qed.

Lemma preserves_wp {A} I (m : M S A) s (Q : A -> S -> Prop) :
  preserves I m -> I s -> (forall a s', I s' -> Q a s') -> wp m Q s.
Proof. intros Hm HI HQ. eapply wp_mono, Hm, HI. eauto. Qed.

(** A call that keeps [I], in a function whose early exits are errors. *)
Lemma wp_check_keep I (c k : M S Z) Q s :
  preserves I c -> I s -> (forall rc s', rc < 0 -> Q rc s') ->
  (forall s', I s' -> wp k Q s') -> wp (check c k) Q s.
Proof.
  intros Hc HI Hneg Hk. apply wp_check. eapply preserves_wp; [done..|].
  intros rc s' HI'. destruct (Z.ltb_spec rc 0); auto.
Qed.

Lemma wp_check_post (c k : M S Z) (P : Z -> S -> Prop) Q s :
  wp c P s -> (forall rc s', rc < 0 -> Q rc s') ->
  (forall rc s', P rc s' -> 0 <= rc -> wp k Q s') -> wp (check c k) Q s.
Proof.
  intros Hc Hneg Hk. apply wp_check. eapply wp_mono; [|exact Hc].
  intros rc s' HP. destruct (Z.ltb_spec rc 0); eauto.
Qed.

Lemma wp_check_nz_post (c k : M S Z) (P : Z -> S -> Prop) Q s :
  wp c P s -> (forall rc s', P rc s' -> rc <> 0 -> Q rc s') ->
  (forall s', P 0 s' -> wp k Q s') -> wp (check_nz c k) Q s.
Proof.
  intros Hc Hneg Hk. apply wp_check_nz. eapply wp_mono; [|exact Hc].
  intros rc s' HP. unfold truthy. destruct (Z.eqb_spec rc 0) as [->|]; cbn [negb]; auto.
Qed.

Lemma wp_bind_keep {A B} I (c : M S A) (k : A -> M S B) Q s :
  preserves I c -> I s -> (forall a s', I s' -> wp (k a) Q s') -> wp (c ≫= k) Q s.
Proof. intros Hc HI Hk. apply wp_bind. eapply preserves_wp; eauto. Qed.

Lemma preserves_ret {A} I (a : A) : preserves I (mret a).
Proof. intros s HI. done. Qed.

Lemma preserves_gets {A} I (f : S -> A) : preserves I (gets f).
Proof. intros s HI. done. Qed.

Lemma preserves_modify I (f : S -> S) : (forall s, I s -> I (f s)) -> preserves I (modify f).
Proof. intros Hf s HI. by apply Hf. Qed.

Lemma preserves_bind {A B} I (m : M S A) (k : A -> M S B) :
  preserves I m -> (forall a, preserves I (k a)) -> preserves I (m ≫= k).
Proof. intros Hm Hk s HI. apply wp_bind. eapply preserves_wp; eauto. Qed.

Lemma preserves_if {A} I (b : bool) (m1 m2 : M S A) :
  preserves I m1 -> preserves I m2 -> preserves I (if b then m1 else m2).
Proof. by destruct b. Qed.

Lemma preserves_check I (c k : M S Z) :
  preserves I c -> preserves I k -> preserves I (check c k).
Proof.
  intros Hc Hk. apply preserves_bind; [done|]. intros rc.
  apply preserves_if; [apply preserves_ret | done].
Qed.

Lemma preserves_check_nz I (c k : M S Z) :
  preserves I c -> preserves I k -> preserves I (check_nz c k).
Proof.
  intros Hc Hk. apply preserves_bind; [done|]. intros rc.
  apply preserves_if; [apply preserves_ret | done].
Qed.

Lemma preserves_for_each {X} I (l : list X) (body : X -> M S unit) :
  (forall x, x ∈ l -> preserves I (body x)) -> preserves I (for_each l body).
Proof.
  induction l as [|x l IH]; intros Hb; simpl; [apply preserves_ret|].
  apply preserves_bind; [apply Hb; set_solver|]. intros _. apply IH. set_solver.
Qed.

Lemma preserves_for_check {X} I (l : list X) (body : X -> M S Z) :
  (forall x, x ∈ l -> preserves I (body x)) -> preserves I (for_check l body).
Proof.
  induction l as [|x l IH]; intros Hb; simpl; [apply preserves_ret|].
  apply preserves_check; [apply Hb; set_solver|]. apply IH. set_solver.
Qed.

Lemma preserves_for_check_nz {X} I (l : list X) (body : X -> M S Z) :
  (forall x, x ∈ l -> preserves I (body x)) -> preserves I (for_check_nz l body).
Proof.
  induction l as [|x l IH]; intros Hb; simpl; [apply preserves_ret|].
  apply preserves_check_nz; [apply Hb; set_solver|]. apply IH. set_solver.
Qed.

Lemma returns_bind {A B} I (m : M S A) (k : A -> M S B) P Q :
  returns I m P -> (forall a, P a -> returns I (k a) Q) -> returns I (m ≫= k) Q.
Proof.
  intros Hm Hk s HI. apply wp_bind. eapply wp_mono, Hm, HI. simpl.
  intros a s' [HP HI']. by apply Hk.
Qed.

Lemma moves_bind {A B} (P Q R : S -> Prop) (m : M S A) (k : A -> M S B) :
  moves P m Q -> (forall a, moves Q (k a) R) -> moves P (m ≫= k) R.
Proof. intros Hm Hk s HP. apply wp_bind. eapply wp_mono, Hm, HP. intros a s' HQ. by apply Hk. Qed.

Lemma moves_ret {A} (P Q : S -> Prop) (a : A) : (forall s, P s -> Q s) -> moves P (mret a) Q.
Proof. intros HPQ s HP. by apply HPQ. Qed.

Lemma moves_modify (P Q : S -> Prop) f : (forall s, P s -> Q (f s)) -> moves P (modify f) Q.
Proof. intros HPQ s HP. by apply HPQ. Qed.

Lemma moves_gets {A B} (P Q : S -> Prop) (f : S -> A) (k : A -> M S B) :
  (forall s, P s -> moves (fun s' => s' = s) (k (f s)) Q) -> moves P (gets f ≫= k) Q.
Proof. intros Hk s HP. apply wp_bind, wp_gets. by apply (Hk s HP). Qed.

Lemma moves_if {A} (P Q : S -> Prop) (b : bool) (m1 m2 : M S A) :
  moves P m1 Q -> moves P m2 Q -> moves P (if b then m1 else m2) Q.
Proof. by destruct b. Qed.

Lemma moves_mono {A} (P P' Q Q' : S -> Prop) (m : M S A) :
  moves P' m Q' -> (forall s, P s -> P' s) -> (forall s, Q' s -> Q s) -> moves P m Q.
Proof. intros Hm HP HQ s Hs. eapply wp_mono, Hm, HP, Hs. intros a s'. apply HQ. Qed.

Lemma preserves_moves {A} I (m : M S A) : preserves I m -> moves I m I.
Proof. done. Qed.

Lemma preserves_trap_bind {A B} I (o : option A) (a : A) (k : A -> M S B) :
  o = Some a -> preserves I (k a) -> preserves I (from_option_trap o ≫= k).
Proof. by intros ->. Qed.

Lemma preserves_returns_bind {A B} I (m : M S A) (k : A -> M S B) P :
  returns I m P -> (forall a, P a -> preserves I (k a)) -> preserves I (m ≫= k).
Proof.
  intros Hm Hk s HI. apply wp_bind. eapply wp_mono, Hm, HI. simpl.
  intros a s' [HP HI']. by apply Hk.
Qed.

Lemma returns_ret {A} I (a : A) (Q : A -> Prop) : Q a -> returns I (mret a) Q.
Proof. intros HQ s HI. done. Qed.

Lemma returns_preserves {A} I (m : M S A) Q : returns I m Q -> preserves I m.
Proof. intros Hm s HI. eapply wp_mono, Hm, HI. by intros a s' [_ ?]. Qed.

Lemma preserves_returns {A} I (m : M S A) :
  preserves I m -> returns I m (fun _ => True).
Proof. intros Hm s HI. eapply wp_mono, Hm, HI. done. Qed.
End wp.

Lemma wp_zoom {T S A} (get : T -> S) (put : S -> T -> T) (m : M S A) Q t :
  wp m (fun a s => Q a (put s t)) (get t) -> wp (zoom get put m) Q t.
Proof. unfold wp, zoom. destruct (m (get t)) as [[a s]|]; done. Qed.

(** The hint database of the lemmas on [preserves]. *)
Create HintDb pres.
#[export] Hint Resolve preserves_ret preserves_gets : pres.

(** Goes through the structure of a program: every branch, every call.  Calls
    are solved from the database. *)
Ltac pres_step :=
  intros; cbv beta zeta;
  lazymatch goal with
  | |- preserves _ (check _ _) => apply preserves_check
  | |- preserves _ (check_nz _ _) => apply preserves_check_nz
  | |- preserves _ (if ?b then _ else _) => destruct b
  | |- preserves _ (match ?x with _ => _ end) => destruct x
  | |- preserves _ (mret _) => apply preserves_ret
  | |- preserves _ (gets _) => apply preserves_gets
  | |- preserves _ (mbind _ _) => apply preserves_bind
  | |- preserves _ _ => solve [eauto 4 with pres nocore]
  end.
Ltac solve_pres := repeat pres_step.

(** One step of a symbolic run. *)
Ltac wp_step :=
  cbv zeta;
  lazymatch goal with
  | |- wp (check _ _) _ _ => apply wp_check
  | |- wp (check_nz _ _) _ _ => apply wp_check_nz
  | |- wp (mret _) _ _ => apply wp_ret
  | |- wp (gets _) _ _ => apply wp_gets
  | |- wp (modify _) _ _ => apply wp_modify
  | |- wp (mbind _ _) _ _ => apply wp_bind
  end.

(** ** Threads

    A loop [while (!do_exit) { safe_cond_wait(..); .. }] is before its test, between
    the test and the wait, in the wait, after it, or has ended.  The wait has no
    predicate: a signal to a thread that does not wait is lost. *)
Inductive loop_at : Type := Testing | Entering | Waiting | Woken | Ended.

#[export] Instance loop_at_dec : EqDecision loop_at.
Proof. solve_decision. Defined.

(* src/rtl_fm.c:257-257 safe_cond_signal *)
Definition signal (l : loop_at) : loop_at := match l with Waiting => Woken | _ => l end.

(** Events, each with the states in which it can happen and with what it does
    ([None]: no defined result); a run has only events that [ok] admits. *)
Section events.
Context {St Ev : Type} (enabled : Ev -> St -> bool) (run : Ev -> St -> option St).

Definition step_by (e : Ev) (s s' : St) : Prop := enabled e s = true /\ run e s = Some s'.

Inductive runs_by (ok : Ev -> St -> Prop) : list Ev -> St -> St -> Prop :=
| runs_nil s : runs_by ok [] s s
| runs_cons e es s s1 s2 : ok e s -> step_by e s s1 -> runs_by ok es s1 s2 -> runs_by ok (e :: es) s s2.

(** The same, computed. *)
Fixpoint run_if (okb : Ev -> St -> bool) (es : list Ev) (s : St) : option St :=
  match es with [] => Some s | e :: es => if okb e s && enabled e s then s1 ← run e s; run_if okb es s1 else None end.

Lemma run_if_runs (ok : Ev -> St -> Prop) okb : (forall e s, okb e s = true -> ok e s) ->
  forall es s s', run_if okb es s = Some s' -> runs_by ok es s s'.
Proof.
  intros Hok. induction es as [|e es IH]; intros s s' E; cbn [run_if] in E; [injection E as <-; constructor|].
  destruct (okb e s && enabled e s) eqn:He; [|done]. apply andb_prop in He as [Ho He].
  destruct (run e s) as [s1|] eqn:Hr; [|done]. econstructor; [by apply Hok|by split|]. by apply IH.
Qed.

Lemma runs_inv ok (I : St -> Prop) : (forall e s s', ok e s -> step_by e s s' -> I s -> I s') ->
  forall es s s', runs_by ok es s s' -> I s -> I s'.
Proof. intros Hstep es s s' Hr. induction Hr as [|e es s s1 s2 Hok Hs _ IH]; [done|]. intros Hi. by apply IH, (Hstep e s). Qed.

Lemma runs_measure ok (I : St -> Prop) (work : St -> nat) :
  (forall e s s', ok e s -> step_by e s s' -> I s -> I s' /\ (work s' < work s)%nat) ->
  forall es s s', runs_by ok es s s' -> I s -> (length es + work s' <= work s)%nat.
Proof.
  intros Hstep es s s' Hr. induction Hr as [|e es s s1 s2 Hok Hs _ IH]; intros Hi; [done|].
  destruct (Hstep e s s1 Hok Hs Hi) as [Hi1 Hw]. specialize (IH Hi1). cbn [length]. lia.
Qed.
End events.

Definition any {St Ev : Type} (_ : Ev) (_ : St) : Prop := True.
