(* ===== verification/Arrays.v ===== *)
(** * Arrays: reading and writing by index

    Lemmas on [arr_get] and [arr_set] of Prelude.v, with C's indices in Z,
    for the components that work on one array in place. *)

From S2P Require Import Prelude.

(** Division of [int]s. *)
Definition c_div (a b : Z) : option Z :=
  if (b =? 0) || ((a =? - 2 ^ 31) && (b =? -1)) then None else Some (Z.quot a b).

(** [for (k = 0; k < n; k++) body]: a loop over an array. *)
Fixpoint for_arr {T} (ks : list Z) (body : Z -> T -> option T) (arr : T) : option T :=
  match ks with [] => Some arr | i :: ks' => arr ← body i arr; for_arr ks' body arr end.

(** [0, step, 2 * step, ...] below [len]. *)
Definition stepped (len step : Z) : list Z := map (fun k => k * step) (zseq (Z.to_nat ((len + step - 1) / step))).

Section arrays.
Context {A : Type}.
Implicit Types (l : list A) (i k : Z).

Lemma arr_set_ok l i v : 0 <= i < Z.of_nat (length l) -> arr_set l i v = Some (<[Z.to_nat i := v]> l).
Proof. intros Hi. unfold arr_set. by replace ((0 <=? i) && (i <? Z.of_nat (length l))) with true by lia. Qed.

Lemma arr_get_ok l i : 0 <= i < Z.of_nat (length l) -> exists x, arr_get l i = Some x.
Proof.
  intros Hi. unfold arr_get. replace (i <? 0) with false by lia.
  apply lookup_lt_is_Some_2. lia.
Qed.

Lemma arr_get_lookup l i : 0 <= i -> arr_get l i = l !! Z.to_nat i.
Proof. intros Hi. unfold arr_get. by replace (i <? 0) with false by lia. Qed.

Lemma arr_get_nat l (n : nat) : arr_get l (Z.of_nat n) = l !! n.
Proof. rewrite arr_get_lookup by lia. by rewrite Nat2Z.id. Qed.

Lemma arr_get_range l i x : arr_get l i = Some x -> 0 <= i < Z.of_nat (length l).
Proof.
  unfold arr_get. destruct (Z.ltb_spec i 0); [done|]. intros Hx%lookup_lt_Some. lia.
Qed.

Lemma arr_get_set l i v l' k : arr_set l i v = Some l' -> arr_get l' k = if k =? i then Some v else arr_get l k.
Proof.
  unfold arr_set, arr_get. destruct ((0 <=? i) && (i <? Z.of_nat (length l))) eqn:E; [|done]. intros [= <-].
  destruct (Z.eqb_spec k i) as [->|Hne].
  - replace (i <? 0) with false by lia. apply list_lookup_insert_eq. lia.
  - destruct (Z.ltb_spec k 0); [done|]. apply list_lookup_insert_ne. lia.
Qed.

Lemma arr_set_length l i v l' : arr_set l i v = Some l' -> length l' = length l.
Proof.
  unfold arr_set. destruct ((0 <=? i) && (i <? Z.of_nat (length l))); [|done]. intros [= <-]. apply length_insert.
Qed.

(** Both in one. *)
Lemma arr_set_spec l i v :
  0 <= i < Z.of_nat (length l) ->
  exists l', arr_set l i v = Some l' /\ length l' = length l /\ forall k, arr_get l' k = if k =? i then Some v else arr_get l k.
Proof.
  intros Hi. destruct (arr_set l i v) as [l'|] eqn:E; [|rewrite arr_set_ok in E by lia; done].
  exists l'. split; [done|]. split; [by eapply arr_set_length|]. intros k. by apply arr_get_set.
Qed.

(** [l] has the elements of [x] from [i] on. *)
Definition has_at l i (x : list A) : Prop := forall n v, x !! n = Some v -> arr_get l (i + Z.of_nat n) = Some v.

Lemma has_at_cons l i v x : has_at l i (v :: x) <-> arr_get l i = Some v /\ has_at l (i + 1) x.
Proof.
  split.
  - intros H. split; [rewrite <- (Z.add_0_r i); by apply (H O)|].
    intros n w Hn. replace (i + 1 + Z.of_nat n) with (i + Z.of_nat (S n)) by lia. by apply H.
  - intros [H0 H] [|n] w; cbn [lookup list_lookup].
    + intros [= <-]. by rewrite Z.add_0_r.
    + intros Hn. replace (i + Z.of_nat (S n)) with (i + 1 + Z.of_nat n) by lia. by apply H.
Qed.

Lemma has_at_nil l i : has_at l i [].
Proof. by intros n v Hn. Qed.

Lemma has_at_app l i x y : has_at l i (x ++ y) <-> has_at l i x /\ has_at l (i + Z.of_nat (length x)) y.
Proof.
  revert i. induction x as [|v x IH]; intros i; cbn [app length].
  - rewrite Z.add_0_r. split; [by intros; split; [apply has_at_nil|]|by intros [_ ?]].
  - rewrite !has_at_cons, IH. replace (i + Z.of_nat (S (length x))) with (i + 1 + Z.of_nat (length x)) by lia. tauto.
Qed.

Lemma has_at_self l : has_at l 0 l.
Proof. intros n v Hn. by rewrite Z.add_0_l, arr_get_nat. Qed.

Lemma has_at_ext l l' i x :
  has_at l i x -> (forall k, i <= k < i + Z.of_nat (length x) -> arr_get l' k = arr_get l k) -> has_at l' i x.
Proof. intros H Hk n v Hn. rewrite Hk; [by apply H|]. apply lookup_lt_Some in Hn. lia. Qed.

Lemma has_at_range l i x : has_at l i x -> x <> [] -> 0 <= i /\ i + Z.of_nat (length x) <= Z.of_nat (length l).
Proof.
  intros H Hx. destruct x as [|v x]; [done|]. pose proof (arr_get_range _ _ _ (H O v eq_refl)).
  destruct (lookup_lt_is_Some_2 (v :: x) (length x)) as [w Hw]; [cbn; lia|].
  pose proof (arr_get_range _ _ _ (H _ _ Hw)). cbn [length]. lia.
Qed.

Lemma has_at_take l x : has_at l 0 x -> take (length x) l = x.
Proof.
  intros H. apply list_eq. intros n. destruct (decide (n < length x)%nat) as [Hn|Hn].
  - rewrite lookup_take_lt by done. destruct (lookup_lt_is_Some_2 x n Hn) as [v Hv]. rewrite Hv.
    specialize (H n v Hv). by rewrite Z.add_0_l, arr_get_nat in H.
  - rewrite lookup_take_ge by lia. symmetry. apply lookup_ge_None_2. lia.
Qed.

Lemma has_at_prefix l x : has_at l 0 x -> exists r, l = x ++ r.
Proof.
  intros H. exists (drop (length x) l). apply list_eq. intros n.
  destruct (decide (n < length x)%nat) as [Hn|Hn].
  - rewrite lookup_app_l by done. destruct (lookup_lt_is_Some_2 x n Hn) as [v Hv]. rewrite Hv.
    specialize (H n v Hv). by rewrite Z.add_0_l, arr_get_nat in H.
  - rewrite lookup_app_r, lookup_drop by lia. f_equal. lia.
Qed.
End arrays.

(** ** Loops *)

(** [0, 1, ..., n] from the front. *)
Lemma zseq_S n : zseq (S n) = 0 :: map (Z.add 1) (zseq n).
Proof.
  unfold zseq. cbn [seq map]. f_equal. rewrite <- seq_shift, !map_map. apply map_ext. intros k. lia.
Qed.

Lemma stepped_eq len step n :
  0 < step -> (Z.of_nat n - 1) * step < len <= Z.of_nat n * step -> stepped len step = map (fun k => k * step) (zseq n).
Proof.
  intros Hs Hn. unfold stepped. f_equal. f_equal.
  assert ((len + step - 1) / step = Z.of_nat n) as ->; [|lia].
  symmetry. apply (Z.div_unique _ _ _ (len + step - 1 - Z.of_nat n * step)); lia.
Qed.

Lemma stepped_1 n : stepped n 1 = zseq (Z.to_nat n).
Proof.
  unfold stepped. replace (n + 1 - 1) with n by lia. rewrite Z.div_1_r. transitivity (map id (zseq (Z.to_nat n))).
  - apply map_ext. intros k. unfold id. lia.
  - apply map_id.
Qed.

(** A loop that keeps an invariant, which counts the rounds. *)
Lemma for_arr_inv {T} (body : Z -> T -> option T) (I : Z -> T -> Prop) n : forall g l,
  I 0 l -> (forall k l, 0 <= k < Z.of_nat n -> I k l -> exists l', body (g k) l = Some l' /\ I (k + 1) l') ->
  exists l', for_arr (map g (zseq n)) body l = Some l' /\ I (Z.of_nat n) l'.
Proof.
  revert I. induction n as [|n IH]; intros I g l H0 Hs; [by exists l|].
  rewrite zseq_S. cbn [map for_arr]. rewrite map_map. destruct (Hs 0 l ltac:(lia) H0) as (l1 & -> & H1).
  cbn [mbind option_bind]. destruct (IH (fun k => I (1 + k)) (fun k => g (1 + k)) l1) as (l' & E & H'); [done| |].
  - intros k l2 Hk H2. destruct (Hs (1 + k) l2 ltac:(lia) H2) as (l3 & E3 & H3). exists l3. split; [done|].
    by rewrite Z.add_assoc.
  - exists l'. split; [done|]. by replace (Z.of_nat (S n)) with (1 + Z.of_nat n) by lia.
Qed.

(** ** Arrays as functions *)

(** The element, or [d] outside of the array. *)
Definition get_or {A} (d : A) (l : list A) (i : Z) : A := default d (arr_get l i).

(** [memmove]: [n] elements from [i] of [src] to [j] of [dst]. *)
Definition copy_to {A} (dst : list A) (j : Z) (src : list A) (i n : Z) : option (list A) :=
  if (0 <=? i) && (i + n <=? Z.of_nat (length src)) && (0 <=? j) && (j + n <=? Z.of_nat (length dst)) then
    Some (take (Z.to_nat j) dst ++ take (Z.to_nat n) (drop (Z.to_nat i) src) ++ drop (Z.to_nat (j + n)) dst)
  else None.

Section functions.
Context {A : Type} (d : A).
Implicit Types l : list A.

Lemma get_or_some l i x : arr_get l i = Some x -> get_or d l i = x.
Proof. unfold get_or. by intros ->. Qed.

Lemma arr_get_get_or l i : 0 <= i < Z.of_nat (length l) -> arr_get l i = Some (get_or d l i).
Proof. intros Hi. destruct (arr_get_ok l i Hi) as [x Hx]. by rewrite (get_or_some _ _ _ Hx). Qed.

Lemma arr_set_get_or l i v :
  0 <= i < Z.of_nat (length l) ->
  exists l', arr_set l i v = Some l' /\ length l' = length l /\ forall k, get_or d l' k = if k =? i then v else get_or d l k.
Proof.
  intros Hi. destruct (arr_set_spec l i v Hi) as (l' & E & L & H). exists l'. split_and!; [done..|].
  intros k. unfold get_or. rewrite H. by destruct (k =? i).
Qed.

Lemma get_or_outside l i : ~ 0 <= i < Z.of_nat (length l) -> get_or d l i = d.
Proof.
  intros Hi. unfold get_or. destruct (arr_get l i) as [x|] eqn:E; [|done]. apply arr_get_range in E. lia.
Qed.

(** A loop whose round [r] changes the elements [k] with [owner k = r], each by
    itself. *)
Lemma for_arr_pointwise (body : Z -> list A -> option (list A)) g n (owner : Z -> Z) (h : Z -> A -> A) l :
  (forall r a, 0 <= r < Z.of_nat n -> length a = length l ->
    exists a', body (g r) a = Some a' /\ length a' = length a /\
      forall k, get_or d a' k = if owner k =? r then h k (get_or d a k) else get_or d a k) ->
  exists a', for_arr (map g (zseq n)) body l = Some a' /\ length a' = length l /\
    forall k, get_or d a' k = if (0 <=? owner k) && (owner k <? Z.of_nat n) then h k (get_or d l k) else get_or d l k.
Proof.
  intros Hb. destruct (for_arr_inv body (fun r a => length a = length l /\
    forall k, get_or d a k = if (0 <=? owner k) && (owner k <? r) then h k (get_or d l k) else get_or d l k) n g l) as (a' & E & L & H).
  - split; [done|]. intros k. by replace ((0 <=? owner k) && (owner k <? 0)) with false by lia.
  - intros r a Hr [La Ha]. destruct (Hb r a Hr La) as (a' & E & L & H). exists a'. split; [done|]. split; [lia|].
    intros k. rewrite H, Ha. destruct (Z.eqb_spec (owner k) r) as [->|Hne].
    + replace ((0 <=? r) && (r <? r + 1)) with true by lia. by replace ((0 <=? r) && (r <? r)) with false by lia.
    + by replace ((0 <=? owner k) && (owner k <? r + 1)) with ((0 <=? owner k) && (owner k <? r)) by lia.
  - by exists a'.
Qed.
Lemma copy_to_get_or dst j src i n :
  0 <= i -> 0 <= j -> 0 <= n -> i + n <= Z.of_nat (length src) -> j + n <= Z.of_nat (length dst) ->
  exists l, copy_to dst j src i n = Some l /\ length l = length dst /\
    forall k, get_or d l k = if (j <=? k) && (k <? j + n) then get_or d src (i + (k - j)) else get_or d dst k.
Proof.
  intros Hi Hj Hn Hs Hd. unfold copy_to. replace (_ && _) with true by lia. eexists. split; [done|].
  assert (length (take (Z.to_nat j) dst) = Z.to_nat j) as L1 by (rewrite length_take; lia).
  assert (length (take (Z.to_nat n) (drop (Z.to_nat i) src)) = Z.to_nat n) as L2 by (rewrite length_take, length_drop; lia).
  split; [rewrite !length_app, L1, L2, length_drop; lia|]. intros k. unfold get_or.
  destruct (Z.leb_spec 0 k) as [Hk|Hk].
  2:{ replace (_ && _) with false by lia. unfold arr_get. by replace (k <? 0) with true by lia. }
  destruct (Z.leb_spec j k), (Z.ltb_spec k (j + n)); cbn [andb]; rewrite !arr_get_lookup by lia.
  - rewrite lookup_app_r, lookup_app_l, L1, lookup_take_lt, lookup_drop by lia. do 2 f_equal. lia.
  - rewrite lookup_app_r, lookup_app_r, L1, L2, lookup_drop by lia. do 2 f_equal. lia.
  - rewrite lookup_app_l, lookup_take_lt by lia. done.
  - lia.
Qed.
End functions.

(** Of integers. *)
Abbreviation getz := (get_or 0).
