(* ===== verification/RtlsdrI2c.v ===== *)
(** * The device as the tuner drivers see it

    The tuner drivers reach the dongle through include/rtlsdr_i2c.h only: two
    I2C transfers, the tuner clock and the model check.
    [RtlsdrI2c] is that interface, [RtlsdrI2cLaws] what a driver may rely on:
    every transfer is recorded, in order, with its result.  The tuner files
    are proved against the interface; Transport.v implements it with USB
    control transfers.  The result of a transfer and the bytes read are
    whatever the chip and the USB stack return.

    The second half is the view of the chip: the register file obtained by
    replaying the acknowledged writes to one I2C address. *)

From S2P Require Import Prelude.

Inductive i2c_event : Type :=
  | I2cWrite (addr : Z) (buf : list Z) (rc : Z)
  | I2cRead (addr : Z) (data : list Z) (rc : Z).

#[export] Instance i2c_event_eq_dec : EqDecision i2c_event.
Proof. solve_decision. Defined.

(* include/rtlsdr_i2c.h:4-7 rtlsdr_i2c_write_fn *)
Class RtlsdrI2c (D : Type) : Type := {
  rtlsdr_get_tuner_clock : D -> Z;
  rtlsdr_check_dongle_model : D -> string -> string -> bool;
  rtlsdr_i2c_write_fn : Z -> list Z -> M D Z;
  rtlsdr_i2c_read_fn : Z -> Z -> M D (Z * list Z);
  (** the transfers made so far, oldest first *)
  i2c_log : D -> list i2c_event;
}.

(** A transfer leaves the clock and the model strings alone. *)
Definition same_dev {D} `{RtlsdrI2c D} (d d' : D) : Prop :=
  rtlsdr_get_tuner_clock d' = rtlsdr_get_tuner_clock d /\
  rtlsdr_check_dongle_model d' = rtlsdr_check_dongle_model d.

Class RtlsdrI2cLaws (D : Type) `{RtlsdrI2c D} : Prop := {
  write_fn_law (addr : Z) (buf : list Z) (d : D) :
    is_u8 addr -> Z.of_nat (length buf) < 256 ->
    wp (rtlsdr_i2c_write_fn addr buf)
      (fun rc d' => i2c_log d' = i2c_log d ++ [I2cWrite addr buf rc] /\ same_dev d d') d;
  read_fn_law (addr len : Z) (d : D) :
    is_u8 addr -> 0 <= len < 256 ->
    wp (rtlsdr_i2c_read_fn addr len)
      (fun p d' => i2c_log d' = i2c_log d ++ [I2cRead addr p.2 p.1] /\
        Z.of_nat (length p.2) = len /\ Forall is_u8 p.2 /\ same_dev d d') d;
}.

(** What a caller of a driver may want kept through the driver's calls: a
    property of the device that every transfer keeps. *)
Class DevInv {D} `{RtlsdrI2c D} (J : D -> Prop) : Prop := {
  write_fn_inv (addr : Z) (buf : list Z) :
    is_u8 addr -> Z.of_nat (length buf) < 256 -> preserves J (rtlsdr_i2c_write_fn addr buf);
  read_fn_inv (addr len : Z) :
    is_u8 addr -> 0 <= len < 256 -> preserves J (rtlsdr_i2c_read_fn addr len);
}.

#[export] Instance dev_inv_true {D} `{RtlsdrI2cLaws D} : DevInv (D:=D) (fun _ => True).
Proof.
  split.
  - intros addr buf Ha Hl d _. eapply wp_mono; [|by apply write_fn_law]. done.
  - intros addr len Ha Hl d _. eapply wp_mono; [|by apply read_fn_law]. done.
Qed.

(** ** The chip's registers *)

(** A write of [vals] from register [reg] on: the register pointer of the chip
    moves on after every byte. *)
Fixpoint write_regs (m : gmap Z Z) (reg : Z) (vals : list Z) : gmap Z Z :=
  match vals with
  | [] => m
  | v :: vs => write_regs (<[reg := v]> m) (reg + 1) vs
  end.

(** A write was acknowledged when the transfer reports all its bytes. *)
Definition ev_acked (addr : Z) (ev : i2c_event) : bool :=
  match ev with
  | I2cWrite a buf rc => negb (a =? addr) || (rc =? Z.of_nat (length buf))
  | I2cRead _ _ _ => true
  end.

Definition apply_event (addr : Z) (m : gmap Z Z) (ev : i2c_event) : gmap Z Z :=
  match ev with
  | I2cWrite a (reg :: vals) rc =>
      if (a =? addr) && (rc =? Z.of_nat (length (reg :: vals))) then write_regs m reg vals else m
  | _ => m
  end.

Definition replay (addr : Z) (log : list i2c_event) : gmap Z Z :=
  fold_left (apply_event addr) log ∅.

Definition all_acked (addr : Z) (log : list i2c_event) : Prop := Forall (fun ev => ev_acked addr ev = true) log.

#[export] Instance all_acked_dec addr log : Decision (all_acked addr log).
Proof. unfold all_acked. apply _. Defined.

Lemma replay_snoc addr log ev :
  replay addr (log ++ [ev]) = apply_event addr (replay addr log) ev.
Proof. unfold replay. by rewrite fold_left_app. Qed.

Lemma all_acked_snoc addr log ev :
  all_acked addr (log ++ [ev]) <-> all_acked addr log /\ ev_acked addr ev = true.
Proof. unfold all_acked. by rewrite Forall_app, Forall_singleton. Qed.

Lemma replay_app addr l1 l2 :
  replay addr (l1 ++ l2) = fold_left (apply_event addr) l2 (replay addr l1).
Proof. unfold replay. by rewrite fold_left_app. Qed.

Lemma all_acked_app addr l1 l2 :
  all_acked addr (l1 ++ l2) <-> all_acked addr l1 /\ all_acked addr l2.
Proof. unfold all_acked. by rewrite Forall_app. Qed.

Lemma write_regs_lookup vals reg r m :
  write_regs m reg vals !! r =
    if (reg <=? r) && (r <? reg + Z.of_nat (length vals))
    then vals !! Z.to_nat (r - reg) else m !! r.
Proof.
  revert reg m. induction vals as [|v vs IH]; intros reg m; cbn [write_regs length].
  - by replace ((reg <=? r) && (r <? reg + Z.of_nat 0)) with false by lia.
  - rewrite IH. destruct (decide (r = reg)) as [->|Hne].
    + replace (reg + 1 <=? reg) with false by lia. cbn [andb].
      replace ((reg <=? reg) && (reg <? reg + Z.of_nat (S (length vs)))) with true by lia.
      by rewrite lookup_insert_eq, Z.sub_diag.
    + rewrite lookup_insert_ne by done.
      replace ((reg + 1 <=? r) && (r <? reg + 1 + Z.of_nat (length vs)))
        with ((reg <=? r) && (r <? reg + Z.of_nat (S (length vs)))) by (apply eq_true_iff_eq; lia).
      destruct (_ && _) eqn:E; [|done].
      by replace (Z.to_nat (r - reg)) with (S (Z.to_nat (r - (reg + 1)))) by lia.
Qed.

(** Two block writes, one after the other, are one block write. *)
Lemma write_regs_app m reg vs1 vs2 :
  write_regs m reg (vs1 ++ vs2) = write_regs (write_regs m reg vs1) (reg + Z.of_nat (length vs1)) vs2.
Proof.
  revert m reg. induction vs1 as [|v vs1 IH]; intros m reg; simpl.
  - f_equal. lia.
  - rewrite IH. f_equal. lia.
Qed.

(** A transfer to another address does not touch the chip. *)
Lemma apply_event_other addr a buf rc m :
  a <> addr -> apply_event addr m (I2cWrite a buf rc) = m.
Proof. intros Hne. destruct buf; simpl; [done|]. by rewrite (proj2 (Z.eqb_neq a addr)). Qed.

Lemma apply_event_acked addr m reg vals rc :
  ev_acked addr (I2cWrite addr (reg :: vals) rc) = true ->
  apply_event addr m (I2cWrite addr (reg :: vals) rc) = write_regs m reg vals.
Proof. simpl. rewrite Z.eqb_refl. simpl. by intros ->. Qed.

(** ** A driver's struct and the device

    The state of a tuner driver is its C struct and the device. *)
Section driver.
Context {P D : Type}.

Definition priv {A} (f : P -> A) : M (P * D) A := gets (fun s => f s.1).
Definition upd (f : P -> P) : M (P * D) unit := modify (fun s => (f s.1, s.2)).
Definition on_dev {A} (m : M D A) : M (P * D) A := zoom snd (fun d s => (s.1, d)) m.
End driver.
