(* ===== verification/I2cSim.v ===== *)
(** * A simulated bus

    A concrete device for the interface of RtlsdrI2c.v, used to run the drivers
    on examples: the [n]-th transfer is acknowledged or fails as [sim_ack]
    says, byte [i] of a read is [sim_rd i]. *)

From S2P Require Import Prelude RtlsdrI2c.

Record sim : Type := mk_sim {
  sim_ack : nat -> bool;
  sim_rd : Z -> Z;
  sim_clock : Z;
  sim_v4 : bool;
  sim_log : list i2c_event;
}.

Definition sim_push (ev : i2c_event) (d : sim) : sim :=
  mk_sim (sim_ack d) (sim_rd d) (sim_clock d) (sim_v4 d) (sim_log d ++ [ev]).

Definition sim_write (addr : Z) (buf : list Z) : M sim Z := fun d =>
  let rc := if sim_ack d (length (sim_log d)) then Z.of_nat (length buf) else -1 in
  Some (rc, sim_push (I2cWrite addr buf rc) d).

Definition sim_read (addr len : Z) : M sim (Z * list Z) := fun d =>
  let data := map (fun i => u8 (sim_rd d i)) (zseq (Z.to_nat len)) in
  let rc := if sim_ack d (length (sim_log d)) then len else -1 in
  Some ((rc, data), sim_push (I2cRead addr data rc) d).

#[export] Instance sim_i2c : RtlsdrI2c sim := {
  rtlsdr_get_tuner_clock := sim_clock;
  rtlsdr_check_dongle_model := fun d _ _ => sim_v4 d;
  rtlsdr_i2c_write_fn := sim_write;
  rtlsdr_i2c_read_fn := sim_read;
  i2c_log := sim_log;
}.

#[export] Instance sim_laws : RtlsdrI2cLaws sim.
Proof.
  split.
  - intros addr buf d _ _. by split.
  - intros addr len d _ Hlen. cbn. split_and!; [done| |  |done..].
    + unfold zseq. rewrite !length_map, length_seq. lia.
    + apply Forall_map, Forall_true. intros. apply u8_range.
Qed.

(** Every transfer acknowledged, all bits read as one. *)
Definition sim_good : sim := mk_sim (fun _ => true) (fun _ => 255) 28800000 false [].

(** ** A chip that stores what is written to it

    The drivers without shadow registers (E4000, FC0012, FC0013, FC2580) read
    a register before they change a part of it.  What they leave in the chip
    can be said only of a chip that gives back what was written.  [good log]
    says that of a log: every transfer to the chip succeeded, and the storage
    bits that were read are those of the register at the register pointer.
    The power-on values [init] and the storage bits [storage] (status bits
    excluded) belong to the chip and are parameters.

    [knows L d]: if the log of [d] is good, the registers hold the fields
    [L]. *)

Section chip.
Context (addr : Z) (init storage : Z -> Z).

(** Value of a register: as last written, else the power-on value. *)
Definition creg (m : gmap Z Z) (r : Z) : Z := u8 (default (init r) (m !! r)).

(** Registers written and the register pointer. *)
Definition chip_step (st : gmap Z Z * Z) (ev : i2c_event) : gmap Z Z * Z :=
  match ev with
  | I2cWrite a (r :: vals) _ =>
      if a =? addr then (write_regs st.1 r vals, r + Z.of_nat (length vals)) else st
  | _ => st
  end.

(** The bytes [data] are those of the registers from [r] on. *)
Fixpoint reads_back (m : gmap Z Z) (r : Z) (data : list Z) : bool :=
  match data with
  | [] => true
  | v :: data' => (v .& storage r =? creg m r .& storage r) && reads_back m (r + 1) data'
  end.

Definition ev_good (st : gmap Z Z * Z) (ev : i2c_event) : bool :=
  match ev with
  | I2cWrite a buf rc => negb (a =? addr) || (rc =? Z.of_nat (length buf))
  | I2cRead a data rc =>
      negb (a =? addr) || ((rc =? Z.of_nat (length data)) && reads_back st.1 st.2 data)
  end.

Definition run_step (s : bool * (gmap Z Z * Z)) (ev : i2c_event) : bool * (gmap Z Z * Z) :=
  (s.1 && ev_good s.2 ev, chip_step s.2 ev).
Definition chip_run (log : list i2c_event) : bool * (gmap Z Z * Z) := fold_left run_step log (true, (∅, 0)).

Definition good (log : list i2c_event) : Prop := (chip_run log).1 = true.
Definition chip (log : list i2c_event) : gmap Z Z := (chip_run log).2.1.

Lemma chip_run_snoc log ev : chip_run (log ++ [ev]) = run_step (chip_run log) ev.
Proof. unfold chip_run. by rewrite fold_left_app. Qed.

Lemma good_snoc log ev : good (log ++ [ev]) -> good log /\ ev_good (chip_run log).2 ev = true.
Proof. unfold good. rewrite chip_run_snoc. cbn [run_step fst]. apply andb_true_iff. Qed.

(** A register has the bits of a field. *)
Definition has (m : gmap Z Z) (f : field) : Prop :=
  let '(reg, mask, val) := f in creg m reg .& mask = val .& mask.

Lemma creg_u8 m r : is_u8 (creg m r).
Proof. apply u8_range. Qed.

Lemma creg_insert m r v r' :
  is_u8 v -> creg (<[r := v]> m) r' = if decide (r' = r) then v else creg m r'.
Proof.
  intros Hv. unfold creg. destruct (decide (r' = r)) as [->|Hne].
  - rewrite lookup_insert_eq. by apply u8_small.
  - by rewrite lookup_insert_ne.
Qed.

(** What is left of the fields after a write to the bits [mask] of [reg]. *)
Definition keeps (reg mask : Z) (f : field) : bool :=
  let '(r, m, _) := f in negb (r =? reg) || ((m .& mask =? 0) && (m .& storage reg =? m)).
Definition forget (reg mask : Z) (L : list field) : list field := List.filter (keeps reg mask) L.

Lemma forget_in reg mask L f : f ∈ forget reg mask L -> f ∈ L /\ keeps reg mask f = true.
Proof. rewrite !list_elem_of_In. apply filter_In. Qed.

(** No field of [L] is in one of the registers [regs]. *)
Definition avoids (regs : list Z) (L : list field) : bool :=
  forallb (fun '(r, _, _) => negb (existsb (Z.eqb r) regs)) L.

Lemma avoids_cons regs r m v L :
  avoids regs ((r, m, v) :: L) = negb (existsb (Z.eqb r) regs) && avoids regs L.
Proof. done. Qed.

Lemma avoids_sub regs regs' L : avoids regs L = true -> regs' ⊆ regs -> avoids regs' L = true.
Proof.
  unfold avoids. rewrite !forallb_forall. intros HL Hsub [[r m] v] Hin.
  specialize (HL _ Hin). cbv beta iota in *. apply negb_true_iff, not_true_iff_false in HL.
  apply negb_true_iff, not_true_iff_false. intros (y & Hy & Hr)%existsb_exists. apply HL, existsb_exists.
  exists y. split; [|done]. apply list_elem_of_In, Hsub, list_elem_of_In, Hy.
Qed.

Lemma forget_avoids reg regs mask L : avoids regs L = true -> reg ∈ regs -> forget reg mask L = L.
Proof.
  intros HL Hin. unfold forget. induction L as [|[[r m] v] L IH]; [done|].
  cbn [avoids forallb] in HL. apply andb_true_iff in HL as [Hr HL]. cbn [List.filter keeps].
  destruct (Z.eqb_spec r reg) as [->|]; cbn [negb orb]; [|by rewrite IH].
  apply negb_true_iff, not_true_iff_false in Hr. exfalso. apply Hr, existsb_exists.
  exists reg. split; [by apply list_elem_of_In|by apply Z.eqb_eq].
Qed.

(** A write of [v], made from a byte that has the storage bits of [reg]. *)
Lemma has_masked m reg mask val tmp L :
  is_u8 tmp -> is_u8 val -> Forall (has m) L -> tmp .& storage reg = creg m reg .& storage reg ->
  Forall (has (<[reg := masked tmp val mask]> m)) ((reg, mask, val) :: forget reg mask L).
Proof.
  intros Ht8 Hv8 HL Htmp. pose proof (masked_u8 tmp val mask Ht8 Hv8) as Hm8. constructor.
  { cbn [has]. rewrite creg_insert, decide_True by done. apply masked_inside. }
  apply Forall_forall. intros [[r k] v] [Hf Hk]%forget_in.
  pose proof (proj1 (Forall_forall _ _) HL _ Hf) as Hh. cbn [has keeps] in *.
  rewrite creg_insert by done. destruct (decide (r = reg)) as [->|]; [|done].
  rewrite Z.eqb_refl in Hk. cbn [negb orb] in Hk. apply andb_true_iff in Hk as [Hk1 Hk2].
  rewrite masked_outside by lia. rewrite <- Hh.
  apply Z.eqb_eq in Hk2. rewrite <- Hk2.
  rewrite !(Z.land_comm k (storage reg)), !Z.land_assoc, Htmp. done.
Qed.

(** Without a write: the field was there already. *)
Lemma has_already m reg mask val tmp L :
  Forall (has m) L -> tmp .& storage reg = creg m reg .& storage reg ->
  mask .& storage reg = mask -> tmp .& mask = val -> val .& mask = val ->
  Forall (has m) ((reg, mask, val) :: forget reg mask L).
Proof.
  intros HL Htmp Hmask Heq Hval. constructor.
  { cbn [has]. rewrite Hval, <- Heq. rewrite <- Hmask.
    rewrite !(Z.land_comm mask (storage reg)), !Z.land_assoc, Htmp. done. }
  apply Forall_forall. intros f [Hf _]%forget_in. by apply (proj1 (Forall_forall _ _) HL).
Qed.

Section device.
Context {D : Type} `{RtlsdrI2cLaws D}.
Implicit Types (d : D) (L : list field).

Definition knows L d : Prop :=
  good (i2c_log d) -> Forall (has (chip (i2c_log d))) L.

Lemma knows_weaken L L' d : knows L d -> Forall (fun f => f ∈ L) L' -> knows L' d.
Proof.
  intros Hk HL Hg. apply Forall_forall. intros f Hf.
  apply (proj1 (Forall_forall _ _) (Hk Hg)), (proj1 (Forall_forall _ _) HL f Hf).
Qed.

(** The register pointer is at [reg]. *)
Definition points_to (reg : Z) d : Prop := good (i2c_log d) -> (chip_run (i2c_log d)).2.2 = reg.

(** A register write that succeeds. *)
Lemma dev_write_wp reg val tmp mask L d :
  is_u8 addr -> knows L d -> is_u8 tmp -> is_u8 val ->
  (good (i2c_log d) -> tmp .& storage reg = creg (chip (i2c_log d)) reg .& storage reg \/ mask = 0xff) ->
  wp (rtlsdr_i2c_write_fn addr [reg; masked tmp val mask])
    (fun rc d' => knows ((reg, mask, val) :: forget reg mask L) d' /\ same_dev d d' /\
       (good (i2c_log d') -> good (i2c_log d) /\ rc = 2)) d.
Proof.
  intros Haddr HL Htmp Hval Hst.
  eapply wp_mono; [|apply write_fn_law; [done|cbn; lia]].
  intros rc d' [Hlog Hsame].
  assert (Hgood : good (i2c_log d') -> good (i2c_log d) /\ rc = 2).
  { rewrite Hlog. intros [Hg Hev]%good_snoc. split; [done|]. cbn in Hev. lia. }
  assert (Hchip : chip (i2c_log d') = <[reg := masked tmp val mask]> (chip (i2c_log d))).
  { unfold chip. rewrite Hlog, chip_run_snoc. cbn [run_step chip_step snd fst]. by rewrite Z.eqb_refl. }
  split; [|by split]. intros Hg. destruct (Hgood Hg) as [Hg0 _]. rewrite Hchip.
  destruct (Hst Hg0) as [Ht|Hff]; [apply has_masked; auto|]. subst mask.
  pose proof (creg_u8 (chip (i2c_log d)) reg).
  replace (masked tmp val 0xff) with (masked (creg (chip (i2c_log d)) reg) val 0xff)
    by (by rewrite !masked_all).
  apply has_masked; auto.
Qed.

Lemma dev_set_wp reg val L d :
  is_u8 addr -> knows L d -> is_u8 val ->
  wp (rtlsdr_i2c_write_fn addr [reg; val])
    (fun rc d' => knows ((reg, 0xff, val) :: forget reg 0xff L) d' /\ same_dev d d' /\
       (good (i2c_log d') -> good (i2c_log d) /\ rc = 2)) d.
Proof.
  intros Haddr Hk Hval. rewrite <- (masked_all val val) at 1 by done.
  by apply dev_write_wp; [..|auto].
Qed.

(** The register pointer is set. *)
Lemma dev_point_wp reg L d :
  is_u8 addr -> knows L d ->
  wp (rtlsdr_i2c_write_fn addr [reg])
    (fun rc d' => knows L d' /\ points_to reg d' /\ same_dev d d' /\
       (good (i2c_log d') -> good (i2c_log d) /\ rc = 1)) d.
Proof.
  intros Haddr HL. eapply wp_mono; [|apply write_fn_law; [done|cbn; lia]].
  intros rc d' [Hlog Hsame].
  assert (Hgood : good (i2c_log d') -> good (i2c_log d) /\ rc = 1).
  { rewrite Hlog. intros [Hg Hev]%good_snoc. split; [done|]. cbn in Hev. lia. }
  assert (Hrun : (chip_run (i2c_log d')).2 = (chip (i2c_log d), reg)).
  { rewrite Hlog, chip_run_snoc. cbn [run_step chip_step snd]. rewrite Z.eqb_refl. cbn. f_equal. lia. }
  split; [|split; [|by split]].
  - unfold knows, chip. rewrite Hrun. cbn [fst]. intros [Hg _]%Hgood. auto.
  - intros _. by rewrite Hrun.
Qed.

(** A register read. *)
Lemma dev_read_wp reg L d :
  is_u8 addr -> knows L d -> points_to reg d ->
  wp (rtlsdr_i2c_read_fn addr 1)
    (fun p d' => exists v, p.2 = [v] /\ is_u8 v /\ knows L d' /\ same_dev d d' /\
       (good (i2c_log d') -> good (i2c_log d) /\ p.1 = 1 /\
          v .& storage reg = creg (chip (i2c_log d')) reg .& storage reg)) d.
Proof.
  intros Haddr HL Hpt. eapply wp_mono; [|apply read_fn_law; [done|lia]].
  intros [rc data] d' (Hlog & Hlen & Hu8 & Hsame). cbn [fst snd] in *.
  destruct data as [|v [|? ?]]; cbn [length] in Hlen; try lia.
  exists v. split; [done|]. split; [by inversion Hu8|].
  assert (Hrun : (chip_run (i2c_log d')).2 = (chip_run (i2c_log d)).2)
    by (rewrite Hlog, chip_run_snoc; done).
  assert (Hgood : good (i2c_log d') -> good (i2c_log d) /\ rc = 1 /\
    v .& storage reg = creg (chip (i2c_log d')) reg .& storage reg).
  { unfold chip. rewrite Hrun, Hlog. intros [Hg Hev]%good_snoc. split; [done|].
    cbn [ev_good] in Hev. rewrite Z.eqb_refl in Hev. cbn in Hev.
    rewrite (Hpt Hg) in Hev. lia. }
  split; [|by split]. unfold knows, chip. rewrite Hrun. intros [Hg _]%Hgood. auto.
Qed.
End device.
End chip.

(** ** A simulated chip

    A register file behind the bus: every transfer succeeds and reads give
    what was written.  [rf_status] is or-ed into every byte read (status
    bits). *)

Record rf : Type := mk_rf {
  rf_regs : gmap Z Z;
  rf_ptr : Z;
  rf_status : Z -> Z;
  rf_clock : Z;
  rf_log : list i2c_event;
}.

Definition rf_write (addr : Z) (buf : list Z) : M rf Z := fun d =>
  let rc := Z.of_nat (length buf) in
  match buf with
  | [] => Some (rc, mk_rf (rf_regs d) (rf_ptr d) (rf_status d) (rf_clock d) (rf_log d ++ [I2cWrite addr buf rc]))
  | r :: vals => Some (rc, mk_rf (write_regs (rf_regs d) r vals) (r + Z.of_nat (length vals)) (rf_status d)
                             (rf_clock d) (rf_log d ++ [I2cWrite addr buf rc]))
  end.

Definition rf_read (addr len : Z) : M rf (Z * list Z) := fun d =>
  let data := map (fun i => u8 (default 0 (rf_regs d !! (rf_ptr d + i)) .| rf_status d (rf_ptr d + i)))
                (zseq (Z.to_nat len)) in
  Some ((len, data), mk_rf (rf_regs d) (rf_ptr d) (rf_status d) (rf_clock d) (rf_log d ++ [I2cRead addr data len])).

#[export] Instance rf_i2c : RtlsdrI2c rf := {
  rtlsdr_get_tuner_clock := rf_clock;
  rtlsdr_check_dongle_model := fun _ _ _ => false;
  rtlsdr_i2c_write_fn := rf_write;
  rtlsdr_i2c_read_fn := rf_read;
  i2c_log := rf_log;
}.

#[export] Instance rf_laws : RtlsdrI2cLaws rf.
Proof.
  split.
  - intros addr [|r vals] d _ _; by split.
  - intros addr len d _ Hlen. cbn. split_and!; [done| |  |done..].
    + unfold zseq. rewrite !length_map, length_seq. lia.
    + apply Forall_map, Forall_true. intros. apply u8_range.
Qed.

(** Computes the [forget]s of a list of fields with concrete registers and
    masks in the hypothesis [Hk]; the values may be variables. *)
Ltac norm_fields Hk :=
  unfold forget in Hk; cbn [List.filter] in Hk;
  repeat (match type of Hk with
    | context [keeps ?st ?reg ?mask (?r, ?m, ?v)] =>
        let b := eval vm_compute in (keeps st reg mask (r, m, 0)) in
        change (keeps st reg mask (r, m, v)) with b in Hk
    end; cbn beta iota in Hk; cbn [List.filter] in Hk).

(** Membership of concrete fields in a concrete list. *)
Ltac in_fields := repeat apply Forall_cons_2; try apply Forall_nil_2;
  repeat first [apply list_elem_of_here | apply list_elem_of_further].
