(* ===== verification/R82xx.v ===== *)
(** * The R820T/R828D tuner driver (src/tuner_r82xx.c): data and operations

    State: [r82xx_priv], the C struct with the configuration it points to
    ([priv->cfg] is [&dev->r82xx_c] from r820t_init on, so the record holds
    it as [cfg]).  The scratch buffer [priv->buf] is written before it is read
    in every call, so only its size is kept (a transfer longer than the buffer
    is a [trap]).  A function of the file is a computation of the monad [M] on the pair of this struct and
    the device. *)

From S2P Require Import Prelude RtlsdrI2c.

(** ** Constants and data (include/tuner_r82xx.h) *)

Definition R820T_I2C_ADDR : Z := 0x34.
Definition R828D_I2C_ADDR : Z := 0x74.
Definition R828D_XTAL_FREQ : Z := 16000000.
Definition R82XX_CHECK_ADDR : Z := 0x00.
Definition R82XX_CHECK_VAL : Z := 0x69.
Definition R82XX_IF_FREQ : Z := 3570000.
Definition REG_SHADOW_START : Z := 5.
Definition NUM_REGS : Z := 30.
Definition VER_NUM : Z := 49.

Definition MHZ (x : Z) : Z := x * 1000 * 1000.
Definition HF : Z := 1.
Definition VHF : Z := 2.
Definition UHF : Z := 3.

(* include/tuner_r82xx.h: r82xx_chip *)
Inductive r82xx_chip : Type :=
  CHIP_R820T | CHIP_R620D | CHIP_R828D | CHIP_R828 | CHIP_R828S | CHIP_R820C.

#[export] Instance r82xx_chip_eq_dec : EqDecision r82xx_chip.
Proof. solve_decision. Defined.

(** The enum fields [type] and [delsys] are stored as the C integers: the
    driver also stores -1 in [type]. *)
Definition TUNER_RADIO : Z := 1.
Definition TUNER_ANALOG_TV : Z := 2.
Definition TUNER_DIGITAL_TV : Z := 3.

Definition SYS_UNDEFINED : Z := 0.
Definition SYS_DVBT : Z := 1.
Definition SYS_DVBT2 : Z := 2.
Definition SYS_ISDBT : Z := 3.

(* include/tuner_r82xx.h: r82xx_xtal_cap_value *)
Inductive r82xx_xtal_cap_value : Type :=
  XTAL_LOW_CAP_30P | XTAL_LOW_CAP_20P | XTAL_LOW_CAP_10P | XTAL_LOW_CAP_0P | XTAL_HIGH_CAP_0P.

Definition xtal_cap_z (c : r82xx_xtal_cap_value) : Z :=
  match c with
  | XTAL_LOW_CAP_30P => 0 | XTAL_LOW_CAP_20P => 1 | XTAL_LOW_CAP_10P => 2
  | XTAL_LOW_CAP_0P => 3 | XTAL_HIGH_CAP_0P => 4
  end.

(* include/tuner_r82xx.h: r82xx_config *)
Record r82xx_config : Type := mk_config {
  i2c_addr : Z;
  xtal : Z;
  rafael_chip : r82xx_chip;
  max_i2c_msg_len : Z;
  use_predetect : Z;
}.

(* include/tuner_r82xx.h: r82xx_priv *)
Record r82xx_priv : Type := mk_priv {
  cfg : r82xx_config;
  regs : list Z;
  xtal_cap_sel : r82xx_xtal_cap_value;
  int_freq : Z;
  fil_cal_code : Z;
  input : Z;
  has_lock : Z;
  init_done : Z;
  delsys : Z;
  type : Z;
  bw : Z;
}.

Definition set_cfg (v : r82xx_config) (p : r82xx_priv) : r82xx_priv :=
  mk_priv v (regs p) (xtal_cap_sel p) (int_freq p) (fil_cal_code p) (input p) (has_lock p) (init_done p) (delsys p) (type p) (bw p).
Definition set_regs (v : list Z) (p : r82xx_priv) : r82xx_priv :=
  mk_priv (cfg p) v (xtal_cap_sel p) (int_freq p) (fil_cal_code p) (input p) (has_lock p) (init_done p) (delsys p) (type p) (bw p).
Definition set_xtal_cap_sel (v : r82xx_xtal_cap_value) (p : r82xx_priv) : r82xx_priv :=
  mk_priv (cfg p) (regs p) v (int_freq p) (fil_cal_code p) (input p) (has_lock p) (init_done p) (delsys p) (type p) (bw p).
Definition set_int_freq (v : Z) (p : r82xx_priv) : r82xx_priv :=
  mk_priv (cfg p) (regs p) (xtal_cap_sel p) v (fil_cal_code p) (input p) (has_lock p) (init_done p) (delsys p) (type p) (bw p).
Definition set_fil_cal_code (v : Z) (p : r82xx_priv) : r82xx_priv :=
  mk_priv (cfg p) (regs p) (xtal_cap_sel p) (int_freq p) v (input p) (has_lock p) (init_done p) (delsys p) (type p) (bw p).
Definition set_input (v : Z) (p : r82xx_priv) : r82xx_priv :=
  mk_priv (cfg p) (regs p) (xtal_cap_sel p) (int_freq p) (fil_cal_code p) v (has_lock p) (init_done p) (delsys p) (type p) (bw p).
Definition set_has_lock (v : Z) (p : r82xx_priv) : r82xx_priv :=
  mk_priv (cfg p) (regs p) (xtal_cap_sel p) (int_freq p) (fil_cal_code p) (input p) v (init_done p) (delsys p) (type p) (bw p).
Definition set_init_done (v : Z) (p : r82xx_priv) : r82xx_priv :=
  mk_priv (cfg p) (regs p) (xtal_cap_sel p) (int_freq p) (fil_cal_code p) (input p) (has_lock p) v (delsys p) (type p) (bw p).
Definition set_type (v : Z) (p : r82xx_priv) : r82xx_priv :=
  mk_priv (cfg p) (regs p) (xtal_cap_sel p) (int_freq p) (fil_cal_code p) (input p) (has_lock p) (init_done p) (delsys p) v (bw p).
(** [delsys], [type] and [bw] are stored together (r82xx_set_tv_standard). *)
Definition set_standard (ds ty b : Z) (p : r82xx_priv) : r82xx_priv :=
  mk_priv (cfg p) (regs p) (xtal_cap_sel p) (int_freq p) (fil_cal_code p) (input p) (has_lock p) (init_done p) ds ty b.

(* include/tuner_r82xx.h: r82xx_freq_range *)
Record r82xx_freq_range : Type := mk_range {
  range_freq : Z;
  open_d : Z;
  rf_mux_ploy : Z;
  tf_c : Z;
  xtal_cap20p : Z;
  xtal_cap10p : Z;
  xtal_cap0p : Z;
}.

(** Initial values, from REG_SHADOW_START on.  The C array has NUM_REGS
    entries, the last three are zero. *)
(* src/tuner_r82xx.c: r82xx_init_array *)
Definition r82xx_init_array : list Z :=
  [0x83; 0x32; 0x75;
   0xc0; 0x40; 0xd6; 0x6c;
   0xf5; 0x63; 0x75; 0x68;
   0x6c; 0x83; 0x80; 0x00;
   0x0f; 0x00; 0xc0; 0x30;
   0x48; 0xcc; 0x60; 0x00;
   0x54; 0xae; 0x4a; 0xc0;
   0; 0; 0].

(** start freq (MHz), open_d, rf_mux_ploy, tf_c, xtal_cap20p, 10p, 0p *)
(* src/tuner_r82xx.c: freq_ranges *)
Definition freq_ranges : list r82xx_freq_range :=
  [
    mk_range 0 0x08 0x02 0xdf 0x02 0x01 0x00;
    mk_range 50 0x08 0x02 0xbe 0x02 0x01 0x00;
    mk_range 55 0x08 0x02 0x8b 0x02 0x01 0x00;
    mk_range 60 0x08 0x02 0x7b 0x02 0x01 0x00;
    mk_range 65 0x08 0x02 0x69 0x02 0x01 0x00;
    mk_range 70 0x08 0x02 0x58 0x02 0x01 0x00;
    mk_range 75 0x00 0x02 0x44 0x02 0x01 0x00;
    mk_range 80 0x00 0x02 0x44 0x02 0x01 0x00;
    mk_range 90 0x00 0x02 0x34 0x01 0x01 0x00;
    mk_range 100 0x00 0x02 0x34 0x01 0x01 0x00;
    mk_range 110 0x00 0x02 0x24 0x01 0x01 0x00;
    mk_range 120 0x00 0x02 0x24 0x01 0x01 0x00;
    mk_range 140 0x00 0x02 0x14 0x01 0x01 0x00;
    mk_range 180 0x00 0x02 0x13 0x00 0x00 0x00;
    mk_range 220 0x00 0x02 0x13 0x00 0x00 0x00;
    mk_range 250 0x00 0x02 0x11 0x00 0x00 0x00;
    mk_range 280 0x00 0x02 0x00 0x00 0x00 0x00;
    mk_range 310 0x00 0x41 0x00 0x00 0x00 0x00;
    mk_range 450 0x00 0x41 0x00 0x00 0x00 0x00;
    mk_range 588 0x00 0x40 0x00 0x00 0x00 0x00;
    mk_range 650 0x00 0x40 0x00 0x00 0x00 0x00
  ].

(* src/tuner_r82xx.c: r82xx_xtal_capacitor *)
Definition r82xx_xtal_capacitor : list (Z * r82xx_xtal_cap_value) :=
  [(0x0b, XTAL_LOW_CAP_30P);
   (0x02, XTAL_LOW_CAP_20P);
   (0x01, XTAL_LOW_CAP_10P);
   (0x00, XTAL_LOW_CAP_0P);
   (0x10, XTAL_HIGH_CAP_0P)].

(* src/tuner_r82xx.c: r82xx_vga_gain_steps *)
Definition r82xx_vga_gain_steps : list Z :=
  [0; 26; 26; 30; 42; 35; 24; 13; 14; 32; 36; 34; 35; 37; 35; 36].
(* src/tuner_r82xx.c: r82xx_lna_gain_steps *)
Definition r82xx_lna_gain_steps : list Z :=
  [0; 9; 13; 40; 38; 13; 31; 22; 26; 31; 26; 14; 19; 5; 35; 13].
(* src/tuner_r82xx.c: r82xx_mixer_gain_steps *)
Definition r82xx_mixer_gain_steps : list Z :=
  [0; 5; 10; 10; 19; 9; 10; 25; 17; 10; 8; 16; 13; 6; 3; -8].

(** Bandwidth contribution by low-pass filter. *)
(* src/tuner_r82xx.c: r82xx_if_low_pass_bw_table *)
Definition r82xx_if_low_pass_bw_table : list Z :=
  [1700000; 1600000; 1550000; 1450000; 1200000; 900000; 700000; 550000; 450000; 350000].

Definition FILT_HP_BW1 : Z := 350000.
Definition FILT_HP_BW2 : Z := 380000.

(** Byte [k] of a block that was read. *)
Definition byte_at (data : list Z) (k : nat) : Z := nth k data 0.

(** ** Pure parts *)

(** [memcpy(&priv->regs[r], val, len)] after clipping to the shadow array.
    A negative length would be a [size_t] beyond every object: no value. *)
(* src/tuner_r82xx.c: shadow_store *)
Definition shadow_store (rs : list Z) (reg : Z) (val : list Z) : option (list Z) :=
  let r := reg - REG_SHADOW_START in
  let len := Z.of_nat (length val) in
  let '(r, len) := if r <? 0 then (0, len + r) else (r, len) in
  if len <=? 0 then Some rs else
  let len := if NUM_REGS - r <? len then NUM_REGS - r else len in
  if len <? 0 then None else
  Some (list_inserts (Z.to_nat r) (take (Z.to_nat len) val) rs).

(* src/tuner_r82xx.c: r82xx_bitrev *)
Definition r82xx_bitrev (byte : Z) : Z :=
  let lut := [0x0; 0x8; 0x4; 0xc; 0x2; 0xa; 0x6; 0xe;
              0x1; 0x9; 0x5; 0xd; 0x3; 0xb; 0x7; 0xf] in
  u8 ((nth (Z.to_nat (byte .& 0xf)) lut 0 ≪ 4) .| nth (Z.to_nat (byte ≫ 4)) lut 0).

(** The search loop of r82xx_set_mux: stop at the first range whose successor
    starts above [freq] (in MHz), else take the last one. *)
(* src/tuner_r82xx.c:376-379 r82xx_set_mux *)
Fixpoint find_range (cur : r82xx_freq_range) (rest : list r82xx_freq_range) (freq : Z)
  : r82xx_freq_range :=
  match rest with
  | [] => cur
  | nxt :: rest' => if freq <? range_freq nxt then cur else find_range nxt rest' freq
  end.

(* src/tuner_r82xx.c:374-380 r82xx_set_mux *)
Definition freq_range_of (freq : Z) : option r82xx_freq_range :=
  match freq_ranges with
  | [] => None
  | r :: rest => Some (find_range r rest (freq / 1000000))
  end.

Definition vco_min : Z := 1770000.
Definition vco_max : Z := vco_min * 2.

(** [while (div_buf > 2) { div_buf >>= 1; div_num++; }] *)
(* src/tuner_r82xx.c:473-476 r82xx_set_pll *)
Fixpoint div_num_loop (fuel : nat) (div_buf div_num : Z) : option Z :=
  match fuel with
  | O => None
  | S fuel =>
      if 2 <? div_buf then div_num_loop fuel (div_buf ≫ 1) (u8 (div_num + 1)) else Some div_num
  end.

(** [while (mix_div <= 64) ...]: the divider and its number.  When no divider
    fits, [mix_div] ends at 128 and [div_num] stays 0. *)
(* src/tuner_r82xx.c:468-480 r82xx_set_pll *)
Fixpoint mix_div_loop (fuel : nat) (freq_khz mix_div : Z) : option (Z * Z) :=
  match fuel with
  | O => None
  | S fuel =>
      if mix_div <=? 64 then
        if (vco_min <=? u32 (freq_khz * mix_div)) && (u32 (freq_khz * mix_div) <? vco_max) then
          match div_num_loop 8 mix_div 0 with
          | Some n => Some (mix_div, n)
          | None => None
          end
        else mix_div_loop fuel freq_khz (u8 (mix_div ≪ 1))
      else Some (mix_div, 0)
  end.

(** The sdm calculator: [vco_fra] (kHz) as a binary fraction of the doubled
    reference.  A zero [n_sdm] is a division by zero. *)
(* src/tuner_r82xx.c:526-535 r82xx_set_pll *)
Fixpoint sdm_loop (fuel : nat) (pll_ref_khz vco_fra sdm n_sdm : Z) : option Z :=
  match fuel with
  | O => None
  | S fuel =>
      if 1 <? vco_fra then
        if n_sdm =? 0 then None else
        if u32 (2 * pll_ref_khz) / n_sdm <? vco_fra then
          let sdm := u16 (sdm + 32768 / (n_sdm / 2)) in
          let vco_fra := u32 (vco_fra - u32 (2 * pll_ref_khz) / n_sdm) in
          if 0x8000 <=? n_sdm then Some sdm
          else sdm_loop fuel pll_ref_khz vco_fra sdm (u16 (n_sdm ≪ 1))
        else sdm_loop fuel pll_ref_khz vco_fra sdm (u16 (n_sdm ≪ 1))
      else Some sdm
  end.

(** The gain loop of r82xx_set_gain: LNA and mixer steps in turn until the
    requested gain is reached. *)
(* src/tuner_r82xx.c:992-1002 r82xx_set_gain *)
Fixpoint gain_loop (n : nat) (gain total_gain lna_index mix_index : Z) : option (Z * Z) :=
  match n with
  | O => Some (lna_index, mix_index)
  | S n =>
      if gain <=? total_gain then Some (lna_index, mix_index) else
      match arr_get r82xx_lna_gain_steps (u8 (lna_index + 1)) with
      | None => None
      | Some g =>
          let lna_index := u8 (lna_index + 1) in
          let total_gain := i32 (total_gain + g) in
          if gain <=? total_gain then Some (lna_index, mix_index) else
          match arr_get r82xx_mixer_gain_steps (u8 (mix_index + 1)) with
          | None => None
          | Some g => gain_loop n gain (i32 (total_gain + g)) lna_index (u8 (mix_index + 1))
          end
      end
  end.

(** [for (i = 0; i < ARRAY_SIZE(table); ++i) if (bw > table[i]) break;] *)
(* src/tuner_r82xx.c:1084-1088 r82xx_set_bandwidth *)
Fixpoint find_low_pass (l : list Z) (i : Z) (bw : Z) : Z :=
  match l with
  | [] => i
  | t :: l' => if t <? bw then i else find_low_pass l' (i + 1) bw
  end.

(** The settings of r82xx_set_bandwidth: reg_0a, reg_0b and the new
    [int_freq]. *)
(* src/tuner_r82xx.c: r82xx_set_bandwidth *)
Definition bandwidth_settings (bw : Z) : option (Z * Z * Z) :=
  let t0 := byte_at r82xx_if_low_pass_bw_table 0 in
  if 7000000 <? bw then Some (0x10, 0x0b, 4570000)
  else if 6000000 <? bw then Some (0x10, 0x2a, 4570000)
  else if t0 + FILT_HP_BW1 + FILT_HP_BW2 <? bw then Some (0x10, 0x6b, 3570000)
  else
    let '(bw, int_f, real_bw, reg_0b) :=
      if t0 + FILT_HP_BW1 <? bw
      then (bw - FILT_HP_BW2, u32 (2300000 + FILT_HP_BW2), FILT_HP_BW2, 0x80)
      else (bw, 2300000, 0, 0x80 .| 0x20) in
    let '(bw, int_f, real_bw, reg_0b) :=
      if t0 <? bw
      then (bw - FILT_HP_BW1, u32 (int_f + FILT_HP_BW1), real_bw + FILT_HP_BW1, reg_0b)
      else (bw, int_f, real_bw, reg_0b .| 0x40) in
    let i := u32 (find_low_pass r82xx_if_low_pass_bw_table 0 bw - 1) in
    let reg_0b := u8 (reg_0b .| u32 (15 - i)) in
    match arr_get r82xx_if_low_pass_bw_table i with
    | None => None
    | Some f =>
        let real_bw := real_bw + f in
        Some (0x00, reg_0b, u32 (int_f - Z.quot real_bw 2))
    end.

(** ** Operations *)

Section r82xx.
Context {D : Type} `{RtlsdrI2c D}.

(** The [do ... while (len > 0)] loop of r82xx_write: [val] is what is left
    to send.  One I2C message carries the register number and at most
    [max_i2c_msg_len - 1] values. *)
(* src/tuner_r82xx.c:264-290 r82xx_write *)
Fixpoint r82xx_write_loop (fuel : nat) (reg : Z) (val : list Z) : M (r82xx_priv * D) Z :=
  match fuel with
  | O => trap
  | S fuel =>
      max_len ← priv (fun p => max_i2c_msg_len (cfg p));
      addr ← priv (fun p => i2c_addr (cfg p));
      let len := Z.of_nat (length val) in
      let size := i32 (if u32 (max_len - 1) <? len then u32 (max_len - 1) else len) in
      if (size <? 0) || (NUM_REGS <? size) then trap else
      rc ← on_dev (rtlsdr_i2c_write_fn addr (reg :: take (Z.to_nat size) val));
      if negb (rc =? size + 1) then mret (if rc <? 0 then rc else -1) else
      let val := drop (Z.to_nat size) val in
      if 0 <? Z.of_nat (length val)
      then r82xx_write_loop fuel (u8 (reg + size)) val
      else mret 0
  end.

(* src/tuner_r82xx.c: r82xx_write *)
Definition r82xx_write (reg : Z) (val : list Z) : M (r82xx_priv * D) Z :=
  rs ← priv regs;
  rs' ← from_option_trap (shadow_store rs reg val);
  upd (set_regs rs');;
  r82xx_write_loop (S (length val)) reg val.

(* src/tuner_r82xx.c: r82xx_write_reg *)
Definition r82xx_write_reg (reg val : Z) : M (r82xx_priv * D) Z := r82xx_write reg [u8 val].

(* src/tuner_r82xx.c: r82xx_read_cache_reg *)
Definition r82xx_read_cache_reg (reg : Z) : M (r82xx_priv * D) Z :=
  rs ← priv regs;
  let reg := reg - REG_SHADOW_START in
  if (0 <=? reg) && (reg <? NUM_REGS) then from_option_trap (arr_get rs reg) else mret (-1).

(* src/tuner_r82xx.c: r82xx_write_reg_mask *)
Definition r82xx_write_reg_mask (reg val bit_mask : Z) : M (r82xx_priv * D) Z :=
  r82xx_read_cache_reg reg ≫= fun rc =>
  if rc <? 0 then mret rc else
  r82xx_write reg [u8 ((rc .& ~~ u8 bit_mask) .| (u8 val .& u8 bit_mask))].

(** The second component is the output buffer: [len] bytes when the result
    is 0, not written otherwise. *)
(* src/tuner_r82xx.c: r82xx_read *)
Definition r82xx_read (reg len : Z) : M (r82xx_priv * D) (Z * list Z) :=
  addr ← priv (fun p => i2c_addr (cfg p));
  rc ← on_dev (rtlsdr_i2c_write_fn addr [reg]);
  if negb (rc =? 1) then mret (if rc <? 0 then rc else -1, []) else
  if NUM_REGS <? len then trap else
  p ← on_dev (rtlsdr_i2c_read_fn addr len);
  if negb (p.1 =? len) then mret (if p.1 <? 0 then p.1 else -1, []) else
  mret (0, map r82xx_bitrev p.2).

(* src/tuner_r82xx.c: r82xx_set_mux *)
Definition r82xx_set_mux (freq : Z) : M (r82xx_priv * D) Z :=
  range ← from_option_trap (freq_range_of freq);
  (* Open Drain *)
  r82xx_write_reg_mask 0x17 (open_d range) 0x08 ;?
  (* RF_MUX, Polymux *)
  r82xx_write_reg_mask 0x1a (rf_mux_ploy range) 0xc3 ;?
  (* TF BAND *)
  r82xx_write_reg 0x1b (tf_c range) ;?
  (* XTAL CAP & Drive *)
  cap ← priv xtal_cap_sel;
  let val :=
    match cap with
    | XTAL_LOW_CAP_30P | XTAL_LOW_CAP_20P => xtal_cap20p range .| 0x08
    | XTAL_LOW_CAP_10P => xtal_cap10p range .| 0x08
    | XTAL_HIGH_CAP_0P => xtal_cap0p range .| 0x00
    | XTAL_LOW_CAP_0P => xtal_cap0p range .| 0x08
    end in
  r82xx_write_reg_mask 0x10 val 0x0b ;?
  r82xx_write_reg_mask 0x08 0x00 0x3f ;?
  r82xx_write_reg_mask 0x09 0x00 0x3f.

(** Poll the lock bit twice; between the polls the VCO current is set to the
    maximum.  The second component is [data[2]]. *)
(* src/tuner_r82xx.c:544-562 r82xx_set_pll *)
Definition r82xx_poll_lock : M (r82xx_priv * D) (Z * Z) :=
  '(rc, data) ← r82xx_read 0x00 3;
  if rc <? 0 then mret (rc, 0) else
  if truthy (byte_at data 2 .& 0x40) then mret (rc, byte_at data 2) else
  rc ← r82xx_write_reg_mask 0x12 0x06 0xff;
  if rc <? 0 then mret (rc, 0) else
  '(rc, data) ← r82xx_read 0x00 3;
  if rc <? 0 then mret (rc, 0) else mret (rc, byte_at data 2).

(* src/tuner_r82xx.c: r82xx_set_pll *)
Definition r82xx_set_pll (freq : Z) : M (r82xx_priv * D) Z :=
  let freq_khz := u32 (freq + 500) / 1000 in
  pll_ref ← priv (fun p => xtal (cfg p));
  let pll_ref_khz := u32 (pll_ref + 500) / 1000 in
  r82xx_write_reg_mask 0x10 0 0x10 ;?
  (* set pll autotune = 128kHz *)
  r82xx_write_reg_mask 0x1a 0x00 0x0c ;?
  (* set VCO current to MAX *)
  r82xx_write_reg_mask 0x12 0x06 0xff ;?
  (* Calculate divider *)
  '(mix_div, div_num) ← from_option_trap (mix_div_loop 8 freq_khz 2);
  '(rc, data) ← r82xx_read 0x00 5;
  if rc <? 0 then mret rc else
  chip ← priv (fun p => rafael_chip (cfg p));
  let vco_power_ref := if decide (chip = CHIP_R828D) then 1 else 2 in
  let vco_fine_tune := (byte_at data 4 .& 0x30) ≫ 4 in
  let div_num :=
    if vco_power_ref <? vco_fine_tune then u8 (div_num - 1)
    else if vco_fine_tune <? vco_power_ref then u8 (div_num + 1)
    else div_num in
  r82xx_write_reg_mask 0x10 (div_num ≪ 5) 0xe0 ;?
  let vco_freq := u64 (freq * mix_div) in
  if u32 (2 * pll_ref) =? 0 then trap else
  let nint := u8 (vco_freq / u32 (2 * pll_ref)) in
  let vco_fra := u32 (u64 (vco_freq - u32 (u32 (2 * pll_ref) * nint)) / 1000) in
  if 128 / vco_power_ref - 1 <? nint then mret (-1) else
  let ni := u8 (Z.quot (nint - 13) 4) in
  let si := u8 (nint - 4 * ni - 13) in
  r82xx_write_reg 0x14 (ni + (si ≪ 6)) ;?
  (* pw_sdm *)
  r82xx_write_reg_mask 0x12 (if vco_fra =? 0 then 0x08 else 0x00) 0x08 ;?
  (* sdm calculator *)
  sdm ← from_option_trap (sdm_loop 16 pll_ref_khz vco_fra 0 2);
  r82xx_write_reg 0x16 (sdm ≫ 8) ;?
  r82xx_write_reg 0x15 (sdm .& 0xff) ;?
  '(rc, data2) ← r82xx_poll_lock;
  if rc <? 0 then mret rc else
  if negb (truthy (data2 .& 0x40)) then upd (set_has_lock 0);; mret 0 else
  upd (set_has_lock 1);;
  (* set pll autotune = 8kHz *)
  r82xx_write_reg_mask 0x1a 0x08 0x08.

(** The register settings of a delivery system: mixer_top, lna_top, cp_cur,
    lna_vth_l, mixer_vth_l, air_cable1_in, cable2_in, pre_dect,
    lna_discharge, filter_cur.  ([div_buf_cur] is overwritten below the
    switch.) *)
(* src/tuner_r82xx.c:586-647 r82xx_sysfreq_sel *)
Definition sysfreq_settings (freq delsys : Z) : Z * Z * Z * Z * Z * Z * Z * Z * Z * Z :=
  if delsys =? SYS_DVBT then
    if (freq =? 506000000) || (freq =? 666000000) || (freq =? 818000000)
    then (0x14, 0xe5, 0x28, 0x53, 0x75, 0x00, 0x00, 0x40, 14, 0x40)
    else (0x24, 0xe5, 0x38, 0x53, 0x75, 0x00, 0x00, 0x40, 14, 0x40)
  else if delsys =? SYS_DVBT2 then
    (0x24, 0xe5, 0x38, 0x53, 0x75, 0x00, 0x00, 0x40, 14, 0x40)
  else if delsys =? SYS_ISDBT then
    (0x24, 0xe5, 0x38, 0x75, 0x75, 0x00, 0x00, 0x40, 14, 0x40)
  else
    (0x24, 0xe5, 0x38, 0x53, 0x75, 0x00, 0x00, 0x40, 14, 0x40).

(* src/tuner_r82xx.c: r82xx_sysfreq_sel *)
Definition r82xx_sysfreq_sel (freq type delsys : Z) : M (r82xx_priv * D) Z :=
  let '(mixer_top, lna_top, cp_cur, lna_vth_l, mixer_vth_l, air_cable1_in, cable2_in,
        pre_dect, lna_discharge, filter_cur) := sysfreq_settings freq delsys in
  predetect ← priv (fun p => use_predetect (cfg p));
  (if truthy predetect then r82xx_write_reg_mask 0x06 pre_dect 0x40 else mret 0) ;?
  r82xx_write_reg_mask 0x1d lna_top 0xc7 ;?
  r82xx_write_reg_mask 0x1c mixer_top 0xf8 ;?
  r82xx_write_reg 0x0d lna_vth_l ;?
  r82xx_write_reg 0x0e mixer_vth_l ;?
  upd (set_input air_cable1_in);;
  (* Air-IN only for Astrometa *)
  r82xx_write_reg_mask 0x05 air_cable1_in 0x60 ;?
  r82xx_write_reg_mask 0x06 cable2_in 0x08 ;?
  r82xx_write_reg_mask 0x11 cp_cur 0x38 ;?
  (* PLL drop out to 2.0v *)
  r82xx_write_reg_mask 0x17 0xa0 0x30 ;?
  r82xx_write_reg_mask 0x0a filter_cur 0x60 ;?
  if negb (type =? TUNER_ANALOG_TV) then
    (* LNA TOP: lowest *)
    r82xx_write_reg_mask 0x1d 0 0x38 ;?
    (* 0: normal mode *)
    r82xx_write_reg_mask 0x1c 0 0x04 ;?
    (* 0: PRE_DECT off *)
    r82xx_write_reg_mask 0x06 0 0x40 ;?
    (* agc clk 250hz *)
    r82xx_write_reg_mask 0x1a 0x30 0x30 ;?
    (* write LNA TOP = 3 *)
    r82xx_write_reg_mask 0x1d 0x18 0x38 ;?
    (* write discharge mode *)
    r82xx_write_reg_mask 0x1c mixer_top 0x04 ;?
    (* LNA discharge current *)
    r82xx_write_reg_mask 0x1e lna_discharge 0x1f ;?
    (* agc clk 60hz *)
    r82xx_write_reg_mask 0x1a 0x20 0x30 ;?
    mret 0
  else
    (* PRE_DECT off *)
    r82xx_write_reg_mask 0x06 0 0x40 ;?
    (* write LNA TOP *)
    r82xx_write_reg_mask 0x1d lna_top 0x38 ;?
    (* write discharge mode *)
    r82xx_write_reg_mask 0x1c mixer_top 0x04 ;?
    (* LNA discharge current *)
    r82xx_write_reg_mask 0x1e lna_discharge 0x1f ;?
    (* agc clk 1Khz, external det1 cap 1u *)
    r82xx_write_reg_mask 0x1a 0x00 0x30 ;?
    r82xx_write_reg_mask 0x10 0x00 0x04 ;?
    mret 0.

(** The calibration loop of r82xx_set_tv_standard, [n] passes at most,
    followed by [k].  It leaves the function when the PLL fails or has no
    lock, and the loop when the calibration code is a proper one. *)
(* src/tuner_r82xx.c:829-875 r82xx_set_tv_standard *)
Fixpoint filter_calibration (n : nat) (hp_cor filt_cal_lo : Z) (k : M (r82xx_priv * D) Z)
  : M (r82xx_priv * D) Z :=
  match n with
  | O => k
  | S n =>
      (* Set filt_cap *)
      r82xx_write_reg_mask 0x0b hp_cor 0x60 ;?
      (* set cali clk = on *)
      r82xx_write_reg_mask 0x0f 0x04 0x04 ;?
      (* X'tal cap 0pF for PLL *)
      r82xx_write_reg_mask 0x10 0x00 0x03 ;?
      rc ← r82xx_set_pll (u32 (filt_cal_lo * 1000));
      lock ← priv has_lock;
      if (rc <? 0) || negb (truthy lock) then mret rc else
      (* Start Trigger *)
      r82xx_write_reg_mask 0x0b 0x10 0x10 ;?
      (* Stop Trigger *)
      r82xx_write_reg_mask 0x0b 0x00 0x10 ;?
      (* set cali clk = off *)
      r82xx_write_reg_mask 0x0f 0x00 0x04 ;?
      (* Check if calibration worked *)
      '(rc, data) ← r82xx_read 0x00 5;
      if rc <? 0 then mret rc else
      upd (set_fil_cal_code (byte_at data 4 .& 0x0f));;
      code ← priv fil_cal_code;
      if truthy code && negb (code =? 0x0f) then k
      else filter_calibration n hp_cor filt_cal_lo k
  end.

(* src/tuner_r82xx.c: r82xx_set_tv_standard *)
Definition r82xx_set_tv_standard (bw type delsys : Z) : M (r82xx_priv * D) Z :=
  (* BW < 6 MHz *)
  let if_khz := 3570 in
  let filt_cal_lo := 56000 in
  let filt_gain := 0x10 in
  let img_r := 0x00 in
  let filt_q := 0x10 in
  let hp_cor := 0x6b in
  let ext_enable := 0x60 in
  let loop_through := 0x01 in
  let lt_att := 0x00 in
  let flt_ext_widest := 0x00 in
  let polyfil_cur := 0x60 in
  (* Initialize the shadow registers *)
  upd (set_regs r82xx_init_array);;
  (* Init Flag & Xtal_check Result (inits VGA gain, needed?) *)
  r82xx_write_reg_mask 0x0c 0x00 0x0f ;?
  (* version *)
  r82xx_write_reg_mask 0x13 VER_NUM 0x3f ;?
  (* for LT Gain test *)
  (if negb (type =? TUNER_ANALOG_TV) then r82xx_write_reg_mask 0x1d 0x00 0x38 else mret 0) ;?
  upd (set_int_freq (u32 (if_khz * 1000)));;
  filter_calibration 2 hp_cor filt_cal_lo (
    (* narrowest *)
    code ← priv fil_cal_code;
    (if code =? 0x0f then upd (set_fil_cal_code 0) else mret tt);;
    code ← priv fil_cal_code;
    r82xx_write_reg_mask 0x0a (filt_q .| code) 0x1f ;?
    (* Set BW, Filter_gain, & HP corner *)
    r82xx_write_reg_mask 0x0b hp_cor 0xef ;?
    (* Set Img_R *)
    r82xx_write_reg_mask 0x07 img_r 0x80 ;?
    (* Set filt_3dB, V6MHz *)
    r82xx_write_reg_mask 0x06 filt_gain 0x30 ;?
    (* channel filter extension *)
    r82xx_write_reg_mask 0x1e ext_enable 0x60 ;?
    (* Loop through *)
    r82xx_write_reg_mask 0x05 loop_through 0x80 ;?
    (* Loop through attenuation *)
    r82xx_write_reg_mask 0x1f lt_att 0x80 ;?
    (* filter extension widest *)
    r82xx_write_reg_mask 0x0f flt_ext_widest 0x80 ;?
    (* RF poly filter current *)
    r82xx_write_reg_mask 0x19 polyfil_cur 0x60 ;?
    (* Store current standard. *)
    upd (set_standard delsys type bw);;
    mret 0).

(* src/tuner_r82xx.c: r82xx_read_gain *)
Definition r82xx_read_gain : M (r82xx_priv * D) Z :=
  '(rc, data) ← r82xx_read 0x00 4;
  if rc <? 0 then mret rc else
  mret (((byte_at data 3 .& 0x0f) ≪ 1) + ((byte_at data 3 .& 0xf0) ≫ 4)).

(* src/tuner_r82xx.c: r82xx_set_gain *)
Definition r82xx_set_gain (set_manual_gain gain : Z) : M (r82xx_priv * D) Z :=
  if truthy set_manual_gain then
    (* LNA auto off *)
    r82xx_write_reg_mask 0x05 0x10 0x10 ;?
    (* Mixer auto off *)
    r82xx_write_reg_mask 0x07 0 0x10 ;?
    '(rc, data) ← r82xx_read 0x00 4;
    if rc <? 0 then mret rc else
    (* set fixed VGA gain for now (16.3 dB) *)
    r82xx_write_reg_mask 0x0c 0x08 0x9f ;?
    '(lna_index, mix_index) ← from_option_trap (gain_loop 15 gain 0 0 0);
    (* set LNA gain *)
    r82xx_write_reg_mask 0x05 lna_index 0x0f ;?
    (* set Mixer gain *)
    r82xx_write_reg_mask 0x07 mix_index 0x0f ;?
    mret 0
  else
    (* LNA *)
    r82xx_write_reg_mask 0x05 0 0x10 ;?
    (* Mixer *)
    r82xx_write_reg_mask 0x07 0x10 0x10 ;?
    (* set fixed VGA gain for now (26.5 dB) *)
    r82xx_write_reg_mask 0x0c 0x0b 0x9f ;?
    mret 0.

(* src/tuner_r82xx.c: r82xx_set_bandwidth *)
Definition r82xx_set_bandwidth (bw rate : Z) : M (r82xx_priv * D) Z :=
  '(reg_0a, reg_0b, int_f) ← from_option_trap (bandwidth_settings bw);
  upd (set_int_freq int_f);;
  r82xx_write_reg_mask 0x0a reg_0a 0x10 ;?
  r82xx_write_reg_mask 0x0b reg_0b 0xef ;?
  f ← priv int_freq;
  mret (i32 f).

(* src/tuner_r82xx.c: r82xx_toggle_test *)
Definition r82xx_toggle_test (toggle : Z) : M (r82xx_priv * D) Z :=
  if truthy toggle
  then r82xx_write_reg_mask 0x17 0x08 0x08 (* open_d notch on *)
  else r82xx_write_reg_mask 0x17 0x00 0x08 (* open_d notch off *).

(** The input selection of the Blog V4 dongle. *)
(* src/tuner_r82xx.c:1155-1195 r82xx_set_freq *)
Definition r82xx_v4_inputs (freq : Z) : M (r82xx_priv * D) Z :=
  let open_d :=
    if (freq <=? 2200000) || ((MHZ 85 <=? freq) && (freq <=? MHZ 112)) ||
       ((MHZ 172 <=? freq) && (freq <=? MHZ 242)) then 0x00 else 0x08 in
  r82xx_write_reg_mask 0x17 open_d 0x08 ;?
  let band :=
    if freq <=? 28800000 then HF
    else if (28800000 <? freq) && (freq <? MHZ 250) then VHF else UHF in
  inp ← priv input;
  if negb (band =? inp) then
    upd (set_input band);;
    (* activate cable 2 (HF input) *)
    r82xx_write_reg_mask 0x06 (if band =? HF then 0x08 else 0x00) 0x08 ;?
    (* activate cable 1 (VHF input) *)
    r82xx_write_reg_mask 0x05 (if band =? VHF then 0x40 else 0x00) 0x40 ;?
    (* activate air_in (UHF input) *)
    r82xx_write_reg_mask 0x05 (if band =? UHF then 0x00 else 0x20) 0x20
  else mret 0.

(** The frequency to tune the mixer to: below 28.8 MHz the Blog V4 dongle has
    an upconverter.  [MHZ(28.8)] and [MHZ(2.2)] are the doubles 28800000 and
    2200000. *)
(* src/tuner_r82xx.c:1139-1143 r82xx_set_freq *)
Definition upconverted (is_rtlsdr_blog_v4 : bool) (freq : Z) : Z :=
  if is_rtlsdr_blog_v4 then (if freq <? 28800000 then freq + 28800000 else freq) else freq.

(* src/tuner_r82xx.c: r82xx_set_freq *)
Definition r82xx_set_freq (freq : Z) : M (r82xx_priv * D) Z :=
  is_rtlsdr_blog_v4 ← gets (fun s => rtlsdr_check_dongle_model s.2 "RTLSDRBlog" "Blog V4");
  int_f ← priv int_freq;
  let lo_freq := u32 (upconverted is_rtlsdr_blog_v4 freq + int_f) in
  r82xx_set_mux lo_freq ;?
  rc ← r82xx_set_pll lo_freq;
  lock ← priv has_lock;
  if (rc <? 0) || negb (truthy lock) then mret rc else
  if is_rtlsdr_blog_v4 then r82xx_v4_inputs freq else
  let air_cable1_in := if MHZ 345 <? freq then 0x00 else 0x60 in
  chip ← priv (fun p => rafael_chip (cfg p));
  inp ← priv input;
  if decide (chip = CHIP_R828D) then
    if negb (air_cable1_in =? inp) then
      upd (set_input air_cable1_in);;
      r82xx_write_reg_mask 0x05 air_cable1_in 0x60
    else mret rc
  else mret rc.

(* src/tuner_r82xx.c: r82xx_standby *)
Definition r82xx_standby : M (r82xx_priv * D) Z :=
  (* If device was not initialized yet, don't need to standby *)
  done ← priv init_done;
  if negb (truthy done) then mret 0 else
  r82xx_write_reg 0x06 0xb1 ;?
  r82xx_write_reg 0x05 0xa0 ;?
  r82xx_write_reg 0x07 0x3a ;?
  r82xx_write_reg 0x08 0x40 ;?
  r82xx_write_reg 0x09 0xc0 ;?
  r82xx_write_reg 0x0a 0x36 ;?
  r82xx_write_reg 0x0c 0x35 ;?
  r82xx_write_reg 0x0f 0x68 ;?
  r82xx_write_reg 0x11 0x03 ;?
  r82xx_write_reg 0x17 0xf4 ;?
  rc ← r82xx_write_reg 0x19 0x0c;
  (* Force initial calibration *)
  upd (set_type (-1));;
  mret rc.

(** The capacitor search of r82xx_xtal_check. *)
(* src/tuner_r82xx.c:1300-1327 r82xx_xtal_check *)
Fixpoint xtal_cap_search (l : list (Z * r82xx_xtal_cap_value)) : M (r82xx_priv * D) Z :=
  match l with
  | [] => mret (-1)
  | (v, cap) :: l' =>
      r82xx_write_reg_mask 0x10 v 0x1b ;?
      '(rc, data) ← r82xx_read 0x00 3;
      if rc <? 0 then mret rc else
      if negb (truthy (byte_at data 2 .& 0x40)) then xtal_cap_search l' else
      let val := byte_at data 2 .& 0x3f in
      x ← priv (fun p => xtal (cfg p));
      if ((x =? 16000000) && ((29 <? val) || (val <? 23))) || negb (val =? 0x3f)
      then mret (xtal_cap_z cap)
      else xtal_cap_search l'
  end.

(* src/tuner_r82xx.c: r82xx_xtal_check *)
Definition r82xx_xtal_check : M (r82xx_priv * D) Z :=
  upd (set_regs r82xx_init_array);;
  (* cap 30pF & Drive Low *)
  r82xx_write_reg_mask 0x10 0x0b 0x0b ;?
  (* set pll autotune = 128kHz *)
  r82xx_write_reg_mask 0x1a 0x00 0x0c ;?
  (* set manual initial reg = 111111 *)
  r82xx_write_reg_mask 0x13 0x7f 0x7f ;?
  (* set auto *)
  r82xx_write_reg_mask 0x13 0x00 0x40 ;?
  xtal_cap_search r82xx_xtal_capacitor.

(* src/tuner_r82xx.c: r82xx_init *)
Definition r82xx_init : M (r82xx_priv * D) Z :=
  upd (set_xtal_cap_sel XTAL_HIGH_CAP_0P);;
  (* Initialize registers *)
  r82xx_write 0x05 r82xx_init_array;;
  r82xx_set_tv_standard 3 TUNER_DIGITAL_TV 0 ;?
  rc ← r82xx_sysfreq_sel 0 TUNER_DIGITAL_TV SYS_DVBT;
  upd (set_init_done 1);;
  mret rc.
End r82xx.
