(* ===== verification/R82xxTune.v ===== *)
(** * R820T/R828D: the arithmetic of tuning

    Facts about the pure parts of the driver: the divider search and the
    sigma-delta calculator of r82xx_set_pll, the range search of
    r82xx_set_mux, the gain loop of r82xx_set_gain and the filter choice of
    r82xx_set_bandwidth. *)

From S2P Require Import Prelude RtlsdrI2c R82xx.

(** ** The divider search *)

Definition in_octave (f : Z) : bool := (vco_min <=? u32 f) && (u32 f <? vco_max).

Lemma mix_div_loop_unfold f :
  mix_div_loop 8 f 2 =
    if in_octave (f * 2) then Some (2, 0) else if in_octave (f * 4) then Some (4, 1)
    else if in_octave (f * 8) then Some (8, 2) else if in_octave (f * 16) then Some (16, 3)
    else if in_octave (f * 32) then Some (32, 4) else if in_octave (f * 64) then Some (64, 5)
    else Some (128, 0).
Proof. reflexivity. Qed.

Lemma mix_div_loop_total f : is_Some (mix_div_loop 8 f 2).
Proof. rewrite mix_div_loop_unfold. repeat case_match; eauto. Qed.

(** The divider found is a power of two, [div_num] its logarithm less one, and
    the VCO is in its octave; 128 stands for "none found". *)
Lemma mix_div_loop_spec f m n :
  0 <= f <= 4294968 -> mix_div_loop 8 f 2 = Some (m, n) ->
  (m = 2 ^ (n + 1) /\ 0 <= n <= 5 /\ vco_min <= f * m < vco_max) \/
  (m = 128 /\ n = 0 /\ forall k, 1 <= k <= 6 -> ~ vco_min <= f * 2 ^ k < vco_max).
Proof.
  intros Hf. rewrite mix_div_loop_unfold. unfold in_octave, vco_max, vco_min.
  rewrite !u32_small by (unfold is_u32; lia).
  repeat case_match; intros [= <- <-]; first [left; split; [reflexivity|lia] | right].
  split_and!; [done..|]. intros k Hk.
  assert (k = 1 \/ k = 2 \/ k = 3 \/ k = 4 \/ k = 5 \/ k = 6) as Hc by lia.
  destruct Hc as [->|[->|[->|[->|[->| ->]]]]];
    match goal with |- context [2 ^ ?x] => let y := eval vm_compute in (2 ^ x) in change (2 ^ x) with y end;
    lia.
Qed.

(** ** The sigma-delta calculator *)

Lemma sdm_loop_done fuel ref fra sdm n : fra <= 1 -> sdm_loop (S fuel) ref fra sdm n = Some sdm.
Proof. intros Hf. cbn. by replace (1 <? fra) with false by lia. Qed.

Lemma pow2_step k : 0 <= k -> 2 ^ k * 2 = 2 ^ (k + 1).
Proof. intros. rewrite Z.pow_add_r by lia. lia. Qed.

(** One halving step: with [q = R / 2^k], the value still to be represented
    stays below [q + k]. *)
Lemma sdm_step_bound R k fra :
  0 <= R -> 1 <= k -> fra <= R / 2 ^ (k - 1) + (k - 1) ->
  fra - R / 2 ^ k <= R / 2 ^ k + k.
Proof.
  intros HR Hk Hf. enough (R / 2 ^ (k - 1) <= 2 * (R / 2 ^ k) + 1) by lia.
  assert (0 < 2 ^ (k - 1)) by lia.
  replace (2 ^ k) with (2 ^ (k - 1) * 2) by (rewrite pow2_step by lia; f_equal; lia).
  rewrite <- Z.div_div by lia.
  pose proof (Z.div_mod (R / 2 ^ (k - 1)) 2 ltac:(lia)).
  pose proof (Z.mod_pos_bound (R / 2 ^ (k - 1)) 2 ltac:(lia)). lia.
Qed.

(** The weight added to [sdm] stands for [q] up to one kHz. *)
Lemma sdm_weight R k :
  0 <= R -> 1 <= k <= 15 ->
  65536 * (R / 2 ^ k) <= R * 2 ^ (16 - k) < 65536 * (R / 2 ^ k) + 65536.
Proof.
  intros HR Hk. assert (E : 65536 = 2 ^ k * 2 ^ (16 - k)).
  { rewrite <- Z.pow_add_r by lia. by replace (k + (16 - k)) with 16 by lia. }
  pose proof (Z.div_mod R (2 ^ k) ltac:(lia)) as HR'.
  pose proof (Z.mod_pos_bound R (2 ^ k) ltac:(lia)) as Hm.
  set (q := R / 2 ^ k) in *. set (r := R mod 2 ^ k) in *. rewrite E.
  assert (0 < 2 ^ (16 - k)) by lia. clearbody q r. subst R. nia.
Qed.

Lemma sdm_loop_S fuel ref fra sdm n :
  sdm_loop (S fuel) ref fra sdm n =
    if 1 <? fra then
      if n =? 0 then None else
      if u32 (2 * ref) / n <? fra then
        if 0x8000 <=? n then Some (u16 (sdm + 32768 / (n / 2)))
        else sdm_loop fuel ref (u32 (fra - u32 (2 * ref) / n)) (u16 (sdm + 32768 / (n / 2))) (u16 (n ≪ 1))
      else sdm_loop fuel ref fra sdm (u16 (n ≪ 1))
    else Some sdm.
Proof. reflexivity. Qed.

(** From step [k] on: the loop ends, does not divide by zero, and what it adds
    to [sdm] represents [fra] up to 16 kHz. *)
Lemma sdm_loop_step j : forall k ref fra sdm,
  k = 15 - Z.of_nat j -> 1 <= k -> 0 <= 2 * ref < 65536 ->
  0 <= fra <= 2 * ref / 2 ^ (k - 1) + (k - 1) ->
  0 <= sdm <= 65536 - 2 ^ (17 - k) ->
  exists sdm', sdm_loop (S (S j)) ref fra sdm (2 ^ k) = Some sdm' /\
    0 <= sdm' < 65536 /\
    - (16 - k) * 65536 <= 65536 * fra - 2 * ref * (sdm' - sdm) <= 16 * 65536.
Proof.
  induction j as [|j IH]; intros k ref fra sdm Hk Hk1 Href Hfra Hsdm.
  all: remember (2 ^ k) as n eqn:Hn; set (R := 2 * ref) in *; rewrite sdm_loop_S.
  all: destruct (1 <? fra) eqn:H1; [|exists sdm; split; [done|]; lia].
  all: assert (Hpos : 0 < n <= 2 ^ 15) by (subst n; split; [lia|apply Z.pow_le_mono_r; lia]).
  all: replace (n =? 0) with false by lia.
  all: fold R; rewrite (u32_small R) by (unfold is_u32; lia).
  all: pose proof (sdm_step_bound R k fra ltac:(lia) Hk1 ltac:(lia)) as Hb.
  all: pose proof (sdm_weight R k ltac:(lia) ltac:(lia)) as Hw.
  all: rewrite <- Hn in Hb, Hw.
  all: assert (Hwt : 32768 / (n / 2) = 2 ^ (16 - k)).
  1, 3: subst n; replace (2 ^ k) with (2 ^ (k - 1) * 2) by (rewrite pow2_step by lia; f_equal; lia);
        rewrite Z.div_mul by lia; change 32768 with (2 ^ 15);
        rewrite <- Z.pow_sub_r by lia; f_equal; lia.
  all: assert (Hnn : 2 ^ (17 - k) = 2 * 2 ^ (16 - k))
         by (rewrite Z.mul_comm, pow2_step by lia; f_equal; lia).
  all: assert (0 < 2 ^ (16 - k)) by lia.
  - assert (k = 15) as -> by lia. change (2 ^ 15) with 32768 in Hn. subst n.
    assert (Hq : R / 32768 <= 1) by (apply Z.lt_succ_r, Z.div_lt_upper_bound; lia).
    destruct (R / 32768 <? fra) eqn:H2; [|lia].
    change (32768 <=? 32768) with true. cbv iota. eexists. split; [reflexivity|].
    rewrite Hwt. unfold u16. rewrite Z.mod_small by lia. change (2 ^ (16 - 15)) with 2 in *. lia.
  - assert (Hn2 : 2 ^ k <= 2 ^ 14) by (apply Z.pow_le_mono_r; lia).
    replace (32768 <=? n) with false by lia.
    replace (u16 (n ≪ 1)) with (2 ^ (k + 1)).
    2: { unfold u16. rewrite Z.shiftl_mul_pow2 by lia.
         rewrite <- pow2_step, Z.mod_small by lia. subst n. lia. }
    assert (Hdiv : 0 <= R / n) by (apply Z.div_pos; lia).
    destruct (R / n <? fra) eqn:H2.
    + rewrite Hwt. unfold u16. rewrite Z.mod_small by lia.
      rewrite (u32_small (fra - R / n)).
      2: { assert (R / 2 ^ (k - 1) <= R) by (apply Z.div_le_upper_bound; nia). unfold is_u32. lia. }
      destruct (IH (k + 1) ref (fra - R / n) (sdm + 2 ^ (16 - k))) as (sdm' & -> & Hr & He);
        [lia..| | |].
      * replace (k + 1 - 1) with k by lia. fold R. rewrite <- Hn. lia.
      * replace (17 - (k + 1)) with (16 - k) by lia. lia.
      * exists sdm'. split; [done|]. split; [done|]. fold R in He. nia.
    + destruct (IH (k + 1) ref fra sdm) as (sdm' & -> & Hr & He); [lia..| | |].
      * replace (k + 1 - 1) with k by lia. fold R. rewrite <- Hn. lia.
      * replace (17 - (k + 1)) with (16 - k) by lia. lia.
      * exists sdm'. split; [done|]. split; [done|]. fold R in He. lia.
Qed.

Lemma sdm_loop_spec ref fra :
  0 <= ref < 32768 -> 0 <= fra <= 2 * ref ->
  exists sdm, sdm_loop 16 ref fra 0 2 = Some sdm /\ 0 <= sdm < 65536 /\
    - 15 * 65536 <= 65536 * fra - 2 * ref * sdm <= 16 * 65536.
Proof.
  intros Hr Hf.
  destruct (sdm_loop_step 14 1 ref fra 0) as (sdm & Hs & Hb & He); [lia..| |cbn; lia|].
  { replace (1 - 1) with 0 by lia. rewrite Z.pow_0_r, Z.div_1_r. lia. }
  exists sdm. split; [exact Hs|]. split; [done|]. lia.
Qed.

(** Whatever the value to represent, the calculator ends without dividing by
    zero: the reference is below 32768 kHz, so the last quotient is at most 1. *)
Lemma sdm_loop_total_step j : forall k ref fra sdm,
  k = 15 - Z.of_nat j -> 1 <= k -> 0 <= 2 * ref < 65536 ->
  is_Some (sdm_loop (S (S j)) ref fra sdm (2 ^ k)).
Proof.
  induction j as [|j IH]; intros k ref fra sdm Hk Hk1 Href; rewrite sdm_loop_S.
  all: destruct (1 <? fra) eqn:H1; [|eauto].
  all: replace (2 ^ k =? 0) with false by lia.
  all: rewrite (u32_small (2 * ref)) by (unfold is_u32; lia).
  - assert (k = 15) as -> by lia. change (2 ^ 15) with 32768.
    destruct (2 * ref / 32768 <? fra) eqn:H2; [eauto|].
    assert (2 * ref / 32768 <= 1) by (apply Z.lt_succ_r, Z.div_lt_upper_bound; lia). lia.
  - assert (2 ^ k <= 2 ^ 14) by (apply Z.pow_le_mono_r; lia).
    replace (32768 <=? 2 ^ k) with false by lia.
    replace (u16 (2 ^ k ≪ 1)) with (2 ^ (k + 1)).
    2: { unfold u16. rewrite Z.shiftl_mul_pow2 by lia.
         rewrite <- pow2_step, Z.mod_small by lia. lia. }
    destruct (2 * ref / 2 ^ k <? fra); apply IH; lia.
Qed.

Lemma sdm_loop_total ref fra : 0 <= 2 * ref < 65536 -> is_Some (sdm_loop 16 ref fra 0 2).
Proof. intros Href. apply (sdm_loop_total_step 14 1); lia. Qed.

(** ** The frequency ranges of r82xx_set_mux *)

(** Start frequencies go up. *)
Lemma freq_ranges_sorted :
  forall i r r', freq_ranges !! i = Some r -> freq_ranges !! S i = Some r' -> range_freq r < range_freq r'.
Proof.
  intros i. do 21 (destruct i as [|i]; [intros r r' [= <-] [= <-]; vm_compute; reflexivity|]). done.
Qed.

Lemma find_range_spec rest : forall cur f,
  range_freq cur <= f ->
  exists i, (cur :: rest) !! i = Some (find_range cur rest f) /\
    range_freq (find_range cur rest f) <= f /\
    forall r', (cur :: rest) !! S i = Some r' -> f < range_freq r'.
Proof.
  induction rest as [|nxt rest IH]; intros cur f Hcur; cbn [find_range].
  - exists 0%nat. done.
  - destruct (f <? range_freq nxt) eqn:E.
    + exists 0%nat. split_and!; [done..|]. intros r' [= <-]. lia.
    + destruct (IH nxt f ltac:(lia)) as (i & ? & ? & ?). by exists (S i).
Qed.

Lemma freq_range_of_spec f :
  0 <= f ->
  exists i r, freq_range_of f = Some r /\ freq_ranges !! i = Some r /\
    range_freq r <= f / 1000000 /\
    forall r', freq_ranges !! S i = Some r' -> f / 1000000 < range_freq r'.
Proof.
  intros Hf.
  destruct (find_range_spec (tail freq_ranges) (mk_range 0 0x08 0x02 0xdf 0x02 0x01 0x00) (f / 1000000))
    as (i & H1 & H2 & H3).
  { cbn [range_freq]. apply Z.div_pos; lia. }
  exists i, (find_range (mk_range 0 0x08 0x02 0xdf 0x02 0x01 0x00) (tail freq_ranges) (f / 1000000)).
  split_and!; [reflexivity|exact H1|exact H2|exact H3].
Qed.

(** ** The gain loop of r82xx_set_gain *)

(** Gain (tenths of a dB) of a pair of indices: the steps up to them. *)
Definition steps_to (l : list Z) (i : Z) : Z := fold_right Z.add 0 (take (S (Z.to_nat i)) l).
Definition total_gain (lna mix : Z) : Z :=
  steps_to r82xx_lna_gain_steps lna + steps_to r82xx_mixer_gain_steps mix.

(** The gains the loop can stop at, in the order in which it tries them. *)
Definition gain_stops : list (Z * Z * Z) :=
  [(0,0,0); (9,1,0); (14,1,1); (27,2,1); (37,2,2); (77,3,2); (87,3,3); (125,4,3); (144,4,4);
   (157,5,4); (166,5,5); (197,6,5); (207,6,6); (229,7,6); (254,7,7); (280,8,7); (297,8,8);
   (328,9,8); (338,9,9); (364,10,9); (372,10,10); (386,11,10); (402,11,11); (421,12,11);
   (434,12,12); (439,13,12); (445,13,13); (480,14,13); (483,14,14); (496,15,14)].

Fixpoint first_stop (l : list (Z * Z * Z)) (gain : Z) : Z * Z :=
  match l with
  | [] => (15, 15)
  | (t, i, j) :: l' => if gain <=? t then (i, j) else first_stop l' gain
  end.

Fixpoint first_stop_opt (l : list (Z * Z * Z)) (gain : Z) : option (Z * Z) :=
  match l with
  | [] => Some (15, 15)
  | (t, i, j) :: l' => if gain <=? t then Some (i, j) else first_stop_opt l' gain
  end.

Lemma first_stop_opt_eq l gain : first_stop_opt l gain = Some (first_stop l gain).
Proof. induction l as [|[[t i] j] l IH]; simpl; [done|]. by case_match. Qed.

(** The loop is a search of the table of stops. *)
Lemma gain_loop_stops gain : gain_loop 15 gain 0 0 0 = Some (first_stop gain_stops gain).
Proof. rewrite <- first_stop_opt_eq. reflexivity. Qed.

Lemma gain_stops_total : Forall (fun '(t, i, j) => t = total_gain i j /\ 0 <= j <= i /\ i <= 15) gain_stops.
Proof. repeat constructor; vm_compute; congruence. Qed.

Lemma first_stop_spec l gain :
  (exists k t, l !! k = Some (t, (first_stop l gain).1, (first_stop l gain).2) /\ gain <= t /\
     forall k' t' i' j', (k' < k)%nat -> l !! k' = Some (t', i', j') -> t' < gain) \/
  (first_stop l gain = (15, 15) /\ forall k t i j, l !! k = Some (t, i, j) -> t < gain).
Proof.
  induction l as [|[[t i] j] l IH]; cbn [first_stop].
  - right. split; [done|]. intros k ? ? ? H. by rewrite lookup_nil in H.
  - destruct (gain <=? t) eqn:E.
    + left. exists 0%nat, t. split_and!; [done|lia|]. lia.
    + destruct IH as [(k & t' & Hk & Hg & Hmin)|[Hf Hall]].
      * left. exists (S k), t'. split_and!; [done..|].
        intros [|k'] t'' i' j' Hlt; simpl; [intros [= <- <- <-]; lia|]. intros. eapply Hmin; [|done]. lia.
      * right. split; [done|]. intros [|k] ? ? ?; simpl; [intros [= <- <- <-]; lia|eauto].
Qed.

(** ** The filters of r82xx_set_bandwidth *)

Lemma find_low_pass_spec l : forall i bw,
  let r := find_low_pass l i bw in
  i <= r <= i + Z.of_nat (length l) /\
  (forall k t, i <= k < r -> l !! Z.to_nat (k - i) = Some t -> bw <= t) /\
  (forall t, l !! Z.to_nat (r - i) = Some t -> t < bw).
Proof.
  induction l as [|t l IH]; intros i bw; cbn [find_low_pass length].
  - split_and!; [lia..|]. intros t Ht. by rewrite lookup_nil in Ht.
  - destruct (t <? bw) eqn:E.
    + split_and!; [lia..|]. rewrite Z.sub_diag. intros ? [= <-]. lia.
    + destruct (IH (i + 1) bw) as (Hr & Hbelow & Hat).
      set (r := find_low_pass l (i + 1) bw) in *. split; [lia|]. split.
      * intros k t' Hk. destruct (decide (k = i)) as [->|].
        -- rewrite Z.sub_diag. intros [= <-]. lia.
        -- replace (Z.to_nat (k - i)) with (S (Z.to_nat (k - (i + 1)))) by lia. simpl.
           apply Hbelow. lia.
      * intros t'. replace (Z.to_nat (r - i)) with (S (Z.to_nat (r - (i + 1)))) by lia. apply Hat.
Qed.

Lemma byte_at_lookup l k : (k < length l)%nat -> l !! k = Some (byte_at l k).
Proof. intros Hk. unfold byte_at. destruct (nth_lookup_or_length l k 0); [done|lia]. Qed.

(** The index the search ends at, for a width not above the widest filter: the
    last filter that is wide enough. *)
Lemma low_pass_choice bw :
  bw <= 1700000 ->
  exists i, find_low_pass r82xx_if_low_pass_bw_table 0 bw = i + 1 /\ 0 <= i <= 9 /\
    (bw <= byte_at r82xx_if_low_pass_bw_table (Z.to_nat i)) /\
    (i = 9 \/ byte_at r82xx_if_low_pass_bw_table (Z.to_nat (i + 1)) < bw).
Proof.
  intros Hbw. destruct (find_low_pass_spec r82xx_if_low_pass_bw_table 0 bw) as (Hr & Hbelow & Hat).
  set (r := find_low_pass _ _ _) in *. exists (r - 1). cbn [length r82xx_if_low_pass_bw_table] in Hr.
  assert (r <> 0) as Hr0.
  { intros E. rewrite E in Hat. specialize (Hat 1700000 eq_refl). lia. }
  split_and!; [lia..| |].
  - apply (Hbelow (r - 1)); [lia|]. rewrite Z.sub_0_r. apply byte_at_lookup. change (length r82xx_if_low_pass_bw_table) with 10%nat. lia.
  - destruct (decide (r = 10)); [left; lia|right]. apply Hat.
    replace (Z.to_nat (r - 1 + 1)) with (Z.to_nat (r - 0)) by lia. apply byte_at_lookup. change (length r82xx_if_low_pass_bw_table) with 10%nat. lia.
Qed.

(** What a setting of register 0x0b stands for: the contributions of the two
    high-pass corners (bits 5 and 6 switch them off) and the low-pass filter. *)
Definition high_pass_width (reg_0b : Z) : Z :=
  (if Z.testbit reg_0b 5 then 0 else FILT_HP_BW2) + (if Z.testbit reg_0b 6 then 0 else FILT_HP_BW1).
Definition low_pass_index (reg_0b : Z) : Z := 15 - (reg_0b .& 0x0f).
Definition low_pass_width (reg_0b : Z) : Z :=
  byte_at r82xx_if_low_pass_bw_table (Z.to_nat (low_pass_index reg_0b)).
Definition real_width (reg_0b : Z) : Z := high_pass_width reg_0b + low_pass_width reg_0b.

(** The narrow part of r82xx_set_bandwidth, with the search result as a
    parameter. *)
Lemma bandwidth_narrow_cases i b :
  0 <= i <= 9 -> (b = 0x80 \/ b = 0xa0 \/ b = 0xc0 \/ b = 0xe0) ->
  let r := u8 (b .| u32 (15 - u32 (i + 1 - 1))) in
  arr_get r82xx_if_low_pass_bw_table (u32 (i + 1 - 1)) =
    Some (byte_at r82xx_if_low_pass_bw_table (Z.to_nat i)) /\
  low_pass_index r = i /\ Z.testbit r 5 = Z.testbit b 5 /\ Z.testbit r 6 = Z.testbit b 6.
Proof.
  intros Hi Hb.
  assert (i = 0 \/ i = 1 \/ i = 2 \/ i = 3 \/ i = 4 \/ i = 5 \/ i = 6 \/ i = 7 \/ i = 8 \/ i = 9) as Hc by lia.
  repeat (destruct Hc as [->|Hc] || subst i);
    destruct Hb as [->|[->|[->| ->]]]; vm_compute; done.
Qed.

Definition narrow_bw : Z := 1700000 + FILT_HP_BW1 + FILT_HP_BW2.

Lemma bandwidth_narrow bw :
  bw <= narrow_bw ->
  exists reg_0b, bandwidth_settings bw =
      Some (0x00, reg_0b, u32 (2300000 + high_pass_width reg_0b - Z.quot (real_width reg_0b) 2)) /\
    bw <= real_width reg_0b /\
    (low_pass_index reg_0b = 9 \/
     byte_at r82xx_if_low_pass_bw_table (Z.to_nat (low_pass_index reg_0b + 1)) < bw - high_pass_width reg_0b).
Proof.
  unfold narrow_bw, FILT_HP_BW1, FILT_HP_BW2. intros Hbw. unfold bandwidth_settings.
  change (byte_at r82xx_if_low_pass_bw_table 0) with 1700000. unfold FILT_HP_BW1, FILT_HP_BW2.
  replace (7000000 <? bw) with false by lia. replace (6000000 <? bw) with false by lia.
  replace (1700000 + 350000 + 380000 <? bw) with false by lia.
  rewrite !u32_small by (unfold is_u32; lia).
  assert (Hfin : forall b x hp, (b = 0x80 \/ b = 0xa0 \/ b = 0xc0 \/ b = 0xe0) ->
    hp = (if Z.testbit b 5 then 0 else 380000) + (if Z.testbit b 6 then 0 else 350000) ->
    x <= 1700000 -> bw = x + hp ->
    exists reg_0b,
      match arr_get r82xx_if_low_pass_bw_table (u32 (find_low_pass r82xx_if_low_pass_bw_table 0 x - 1)) with
      | Some f => Some (0, u8 (b .| u32 (15 - u32 (find_low_pass r82xx_if_low_pass_bw_table 0 x - 1))),
                        u32 (2300000 + hp - Z.quot (hp + f) 2))
      | None => None
      end = Some (0, reg_0b, u32 (2300000 + high_pass_width reg_0b - Z.quot (real_width reg_0b) 2)) /\
      bw <= real_width reg_0b /\
      (low_pass_index reg_0b = 9 \/
       byte_at r82xx_if_low_pass_bw_table (Z.to_nat (low_pass_index reg_0b + 1)) < bw - high_pass_width reg_0b)).
  { intros b x hp Hb Hhp Hx Hsum. destruct (low_pass_choice x Hx) as (i & Hi & Hr & Hle & Hnext).
    rewrite Hi. destruct (bandwidth_narrow_cases i b Hr Hb) as (-> & Hidx & H5 & H6).
    eexists. split; [|].
    - unfold real_width, low_pass_width, high_pass_width. rewrite Hidx, H5, H6.
      unfold FILT_HP_BW1, FILT_HP_BW2. by rewrite <- Hhp.
    - unfold real_width, low_pass_width, high_pass_width. rewrite Hidx, H5, H6.
      unfold FILT_HP_BW1, FILT_HP_BW2. rewrite <- Hhp. split; [lia|]. destruct Hnext; [by left|right; lia]. }
  destruct (1700000 + 350000 <? bw) eqn:E1; cbv beta iota.
  - destruct (1700000 <? bw - 380000) eqn:E2; cbv beta iota.
    + apply (Hfin 0x80 (bw - 380000 - 350000) 730000); [auto|done|lia..].
    + apply (Hfin 0xc0 (bw - 380000) 380000); [auto|done|lia..].
  - destruct (1700000 <? bw) eqn:E2; cbv beta iota.
    + apply (Hfin 0xa0 (bw - 350000) 350000); [auto|done|lia..].
    + apply (Hfin 0xe0 bw 0); [auto|done|lia..].
Qed.

Lemma bandwidth_settings_total bw : is_Some (bandwidth_settings bw).
Proof.
  destruct (Z.leb_spec bw narrow_bw) as [Hn|Hw].
  - destruct (bandwidth_narrow bw Hn) as (r & -> & _). eauto.
  - unfold bandwidth_settings. change (byte_at r82xx_if_low_pass_bw_table 0) with 1700000.
    unfold narrow_bw in Hw. replace (1700000 + FILT_HP_BW1 + FILT_HP_BW2 <? bw) with true by lia.
    repeat case_match; eauto; congruence.
Qed.
