(* ===== verification/R82xxInv.v ===== *)
(** * R820T/R828D: register access and the shadow invariant

    What r82xx_write puts on the bus is one block write cut into messages, and
    the shadow registers agree with the chip as long as every write is
    acknowledged.  The invariant [r82xx_inv] is kept by every operation of the
    driver, and no operation runs into a trap (division by zero, buffer or
    array overrun, endless loop). *)

From S2P Require Import Prelude RtlsdrI2c R82xx.

(** ** Well-formed states *)

(** A configuration as r820t_init makes it: the chunk size leaves room for one
    value and fits [priv->buf]; the crystal is between 1 MHz and the 32.7675
    MHz above which the sdm calculator could divide by zero. *)
Definition cfg_ok (c : r82xx_config) : Prop :=
  is_u8 (i2c_addr c) /\ 2 <= max_i2c_msg_len c <= NUM_REGS + 1 /\
  1000000 <= xtal c < 32767500.

Definition priv_ok (p : r82xx_priv) : Prop :=
  cfg_ok (cfg p) /\ Z.of_nat (length (regs p)) = NUM_REGS /\ Forall is_u8 (regs p).

Section inv.
Context {D : Type} `{RtlsdrI2cLaws D} (J : D -> Prop) `{!DevInv J}.
Implicit Types (p : r82xx_priv) (d : D) (s : r82xx_priv * D).

Definition chip_regs (s : r82xx_priv * D) : gmap Z Z :=
  replay (i2c_addr (cfg s.1)) (i2c_log s.2).

(** Every write to the chip since transfer number [base] was acknowledged. *)
Definition acked (base : nat) (s : r82xx_priv * D) : Prop :=
  all_acked (i2c_addr (cfg s.1)) (drop base (i2c_log s.2)).

(** The shadow register of every register of the chip holds what the chip
    holds. *)
Definition coherent (s : r82xx_priv * D) : Prop :=
  forall i : nat, Z.of_nat i < NUM_REGS ->
    chip_regs s !! (Z.of_nat i + REG_SHADOW_START) = regs s.1 !! i.

(** Coherence is tracked from transfer number [base] on, if there is one. *)
Definition tracked (base : option nat) (s : r82xx_priv * D) : Prop :=
  match base with
  | Some b => (b <= length (i2c_log s.2))%nat /\ (acked b s -> coherent s)
  | None => True
  end.

(** [J] is a property of the device that transfers keep. *)
Definition r82xx_inv (base : option nat) (s : r82xx_priv * D) : Prop :=
  priv_ok s.1 /\ J s.2 /\ tracked base s.

Lemma same_dev_trans d1 d2 d3 : same_dev d1 d2 -> same_dev d2 d3 -> same_dev d1 d3.
Proof. intros [H1 H2] [H3 H4]. split; congruence. Qed.

(** ** The message loop *)

(** The outcome of a block write: acknowledged in full, with the effect of
    one block write, or not acknowledged. *)
Definition block_written (addr reg : Z) (val : list Z) (rc : Z) (evs : list i2c_event) : Prop :=
  (rc = 0 /\ all_acked addr evs /\
   forall m, fold_left (apply_event addr) evs m = write_regs m reg val) \/
  (rc < 0 /\ ~ all_acked addr evs).

(** A message of at most [n] bytes to the chip. *)
Definition message (addr n : Z) (ev : i2c_event) : Prop :=
  exists buf rc, ev = I2cWrite addr buf rc /\ Z.of_nat (length buf) <= n.

Lemma chunk_size n len :
  2 <= n <= 31 -> 0 <= len < 256 -> i32 (if u32 (n - 1) <? len then u32 (n - 1) else len) = Z.min (n - 1) len.
Proof.
  intros Hn Hl. rewrite (u32_small (n - 1)) by (unfold is_u32; lia).
  destruct (Z.ltb_spec (n - 1) len); rewrite i32_small by (unfold is_i32; lia); lia.
Qed.

Lemma write_loop_wp fuel reg val s :
  cfg_ok (cfg s.1) -> 0 <= reg -> reg + Z.of_nat (length val) < 256 ->
  (length val < fuel)%nat ->
  wp (r82xx_write_loop fuel reg val)
    (fun rc s' => s'.1 = s.1 /\ same_dev s.2 s'.2 /\
       exists evs, i2c_log s'.2 = i2c_log s.2 ++ evs /\
         Forall (message (i2c_addr (cfg s.1)) (max_i2c_msg_len (cfg s.1))) evs /\
         block_written (i2c_addr (cfg s.1)) reg val rc evs) s.
Proof.
  destruct s as [p d]. cbn [fst snd].
  intros (Haddr & Hmax & _). revert reg val d.
  induction fuel as [|fuel IH]; intros reg val d Hreg Hlen Hfuel; [lia|].
  cbn [r82xx_write_loop]. do 2 (wp_step; apply wp_gets). cbn [fst].
  set (addr := i2c_addr (cfg p)) in *. set (maxlen := max_i2c_msg_len (cfg p)) in *.
  unfold NUM_REGS in *.
  set (size := i32 _).
  assert (Hsize : size = Z.min (maxlen - 1) (Z.of_nat (length val))) by (apply chunk_size; lia).
  clearbody size.
  replace ((size <? 0) || (30 <? size)) with false by lia.
  assert (Htk : Z.of_nat (length (take (Z.to_nat size) val)) = size)
    by (rewrite length_take; lia).
  wp_step. apply wp_zoom. cbn [snd fst].
  eapply wp_mono; [|apply write_fn_law; [done|cbn [length]; lia]].
  intros rc d' [Hlog Hsame].
  set (ev := I2cWrite addr (reg :: take (Z.to_nat size) val) rc) in *.
  assert (Hev : ev_acked addr ev = (rc =? size + 1)).
  { unfold ev. simpl. rewrite Z.eqb_refl. simpl. f_equal. lia. }
  assert (Hmsg : message addr maxlen ev).
  { eexists _, _. split; [done|]. cbn [length]. lia. }
  destruct (rc =? size + 1) eqn:Hrc; simpl.
  2: { split; [done|]. split; [done|]. exists [ev]. split; [done|].
       split; [by repeat constructor|]. right.
       split; [destruct (rc <? 0) eqn:?; lia|].
       unfold all_acked. rewrite Forall_singleton, Hev. done. }
  destruct (0 <? Z.of_nat (length (drop (Z.to_nat size) val))) eqn:Hmore.
  - rewrite length_drop in Hmore.
    rewrite (u8_small (reg + size)) by (unfold is_u8; lia).
    eapply wp_mono; [|apply IH; rewrite ?length_drop; lia].
    intros rc' [p' d''] (Hp & Hsame' & evs & Hlog' & Hmsgs & Hbw). cbn [fst snd] in *.
    split; [done|]. split; [by eapply same_dev_trans|].
    exists (ev :: evs). split.
    { rewrite Hlog', Hlog, <- app_assoc. done. }
    split; [by constructor|].
    destruct Hbw as [(-> & Hack & Hm)|(Hneg & Hnack)].
    + left. split; [done|]. split; [by constructor|]. intros m. cbn [fold_left].
      rewrite Hm. unfold ev. rewrite apply_event_acked by done.
      rewrite <- (take_drop (Z.to_nat size) val) at 3. rewrite write_regs_app, Htk. done.
    + right. split; [done|]. intros Hall. apply Hnack. by inversion Hall.
  - split; [done|]. split; [done|]. exists [ev]. split; [done|].
    split; [by repeat constructor|]. left. split; [done|].
    rewrite length_drop in Hmore.
    assert (take (Z.to_nat size) val = val) as Htake by (apply take_ge; lia).
    split; [by constructor|]. intros m. cbn [fold_left].
    rewrite <- Htake. by apply apply_event_acked.
Qed.

(** ** Register access *)

Lemma shadow_store_ok rs reg val :
  Z.of_nat (length rs) = NUM_REGS -> REG_SHADOW_START <= reg -> val <> [] ->
  reg + Z.of_nat (length val) <= REG_SHADOW_START + NUM_REGS ->
  shadow_store rs reg val = Some (list_inserts (Z.to_nat (reg - REG_SHADOW_START)) val rs).
Proof.
  unfold shadow_store, NUM_REGS, REG_SHADOW_START. intros Hrs Hreg Hval Hlen.
  assert (0 < Z.of_nat (length val)) by (destruct val; [done|cbn; lia]).
  replace (reg - 5 <? 0) with false by lia.
  replace (Z.of_nat (length val) <=? 0) with false by lia.
  replace (30 - (reg - 5) <? Z.of_nat (length val)) with false by lia.
  replace (Z.of_nat (length val) <? 0) with false by lia.
  by rewrite Nat2Z.id, take_ge.
Qed.

(** A block write stores the values in the shadow registers and, when it
    returns 0, in the chip. *)
Lemma r82xx_write_wp reg val s :
  priv_ok s.1 -> REG_SHADOW_START <= reg -> val <> [] -> Forall is_u8 val ->
  reg + Z.of_nat (length val) <= REG_SHADOW_START + NUM_REGS ->
  wp (r82xx_write reg val)
    (fun rc s' =>
       s'.1 = set_regs (list_inserts (Z.to_nat (reg - REG_SHADOW_START)) val (regs s.1)) s.1 /\
       same_dev s.2 s'.2 /\
       exists evs, i2c_log s'.2 = i2c_log s.2 ++ evs /\
         Forall (message (i2c_addr (cfg s.1)) (max_i2c_msg_len (cfg s.1))) evs /\
         block_written (i2c_addr (cfg s.1)) reg val rc evs) s.
Proof.
  intros (Hcfg & Hlen & Hu8) Hreg Hne Hval Hfit.
  unfold r82xx_write. wp_step. apply wp_gets. wp_step.
  rewrite shadow_store_ok by done. cbn [from_option_trap]. apply wp_ret.
  wp_step. apply wp_modify.
  unfold REG_SHADOW_START, NUM_REGS in *.
  eapply wp_mono; [|apply write_loop_wp; [done|lia|lia|lia]].
  cbn [fst snd cfg set_regs]. intros rc s' (Hp & Hsame & Hevs). by split.
Qed.

Lemma Forall_list_inserts (Q : Z -> Prop) k l1 l2 :
  Forall Q l1 -> Forall Q l2 -> Forall Q (list_inserts k l1 l2).
Proof.
  revert k. induction l1 as [|x l1 IH]; intros k H1 H2; simpl; [done|].
  inversion H1; subst. apply Forall_insert; auto.
Qed.

Lemma priv_ok_set_regs rs p :
  priv_ok p -> Z.of_nat (length rs) = NUM_REGS -> Forall is_u8 rs -> priv_ok (set_regs rs p).
Proof. by intros (Hcfg & _ & _). Qed.

(** The transfers of a block write keep [J]. *)
Lemma write_loop_J fuel reg val s :
  cfg_ok (cfg s.1) -> 0 <= reg -> reg + Z.of_nat (length val) < 256 ->
  (length val < fuel)%nat -> J s.2 ->
  wp (r82xx_write_loop fuel reg val) (fun _ s' => J s'.2) s.
Proof.
  destruct s as [p d]. cbn [fst snd]. intros Hcfg. pose proof Hcfg as (Haddr & Hmax & _).
  revert reg val d. induction fuel as [|fuel IH]; intros reg val d Hreg Hlen Hfuel HJ; [lia|].
  cbn [r82xx_write_loop]. do 2 (wp_step; apply wp_gets). cbn [fst].
  unfold NUM_REGS in *. set (size := i32 _).
  assert (Hsize : size = Z.min (max_i2c_msg_len (cfg p) - 1) (Z.of_nat (length val))) by (apply chunk_size; lia).
  clearbody size.
  replace ((size <? 0) || (30 <? size)) with false by lia.
  wp_step. apply wp_zoom. cbn [snd fst].
  eapply wp_mono; [|apply write_fn_inv; [done|cbn [length]; rewrite length_take; lia|exact HJ]].
  intros rc d' HJ'. cbv beta. destruct (negb _); [exact HJ'|].
  destruct (0 <? Z.of_nat (length (drop (Z.to_nat size) val))) eqn:Hmore; [|exact HJ'].
  rewrite length_drop in Hmore.
  apply IH; [|rewrite length_drop; rewrite ?u8_small by (unfold is_u8; lia); lia..|exact HJ'].
  apply u8_range.
Qed.

Lemma r82xx_write_J reg val s :
  priv_ok s.1 -> REG_SHADOW_START <= reg -> val <> [] ->
  reg + Z.of_nat (length val) <= REG_SHADOW_START + NUM_REGS -> J s.2 ->
  wp (r82xx_write reg val) (fun _ s' => J s'.2) s.
Proof.
  intros (Hcfg & Hlen & _) Hreg Hne Hfit HJ. unfold r82xx_write. wp_step. apply wp_gets. wp_step.
  rewrite shadow_store_ok by done. cbn [from_option_trap]. apply wp_ret. wp_step. apply wp_modify.
  unfold REG_SHADOW_START, NUM_REGS in *. apply write_loop_J; [done|lia|lia|lia|exact HJ].
Qed.

Lemma r82xx_write_inv base reg val :
  REG_SHADOW_START <= reg -> val <> [] -> Forall is_u8 val ->
  reg + Z.of_nat (length val) <= REG_SHADOW_START + NUM_REGS ->
  preserves (r82xx_inv base) (r82xx_write reg val).
Proof.
  intros Hreg Hne Hval Hfit s (Hok & HJ & Htr).
  eapply wp_mono; [|apply wp_conj; [by apply r82xx_write_wp|by apply r82xx_write_J]].
  intros rc s' [(Hp & _ & evs & Hlog & _ & Hbw) HJ']. destruct s as [p d], s' as [p' d'].
  cbn [fst snd] in *. subst p'. destruct Hok as (Hcfg & Hlen & Hu8).
  split; [|split; [exact HJ'|]].
  { cbn [fst]. apply priv_ok_set_regs; [done| |by apply Forall_list_inserts].
    by rewrite length_inserts. }
  destruct base as [b|]; [|done]. destruct Htr as [Hbase Hcoh]. cbn [snd] in Hbase. split.
  { cbn [snd]. rewrite Hlog, length_app. lia. }
  unfold acked, coherent, chip_regs in *. cbn [fst snd cfg set_regs regs] in *. rewrite Hlog.
  rewrite drop_app_le, all_acked_app by done. intros [Hack Hevs].
  destruct Hbw as [(_ & _ & Hm)|[_ Hn]]; [|done].
  specialize (Hcoh Hack). intros i Hi. rewrite replay_app, Hm, write_regs_lookup.
  unfold REG_SHADOW_START, NUM_REGS in *.
  destruct ((reg <=? Z.of_nat i + 5) && _) eqn:E.
  - rewrite list_lookup_inserts by lia. f_equal. lia.
  - rewrite Hcoh by done. destruct (decide (i < Z.to_nat (reg - 5))%nat).
    + by rewrite list_lookup_inserts_lt.
    + by rewrite list_lookup_inserts_ge by lia.
Qed.

Lemma write_reg_inv base reg val :
  REG_SHADOW_START <= reg < REG_SHADOW_START + NUM_REGS ->
  preserves (r82xx_inv base) (r82xx_write_reg reg val).
Proof.
  unfold REG_SHADOW_START, NUM_REGS. intros Hreg. unfold r82xx_write_reg.
  apply r82xx_write_inv; unfold REG_SHADOW_START, NUM_REGS;
    [lia|done|repeat constructor; apply u8_range|cbn; lia].
Qed.

Lemma read_cache_wp reg s :
  priv_ok s.1 -> REG_SHADOW_START <= reg < REG_SHADOW_START + NUM_REGS ->
  wp (r82xx_read_cache_reg reg)
    (fun rc s' => s' = s /\ regs s.1 !! Z.to_nat (reg - REG_SHADOW_START) = Some rc /\ is_u8 rc) s.
Proof.
  unfold REG_SHADOW_START, NUM_REGS. intros (_ & Hlen & Hu8) Hreg.
  unfold r82xx_read_cache_reg. wp_step. apply wp_gets.
  unfold REG_SHADOW_START, NUM_REGS in *.
  replace ((0 <=? reg - 5) && (reg - 5 <? 30)) with true by lia.
  unfold arr_get. replace (reg - 5 <? 0) with false by lia.
  destruct (regs s.1 !! Z.to_nat (reg - 5)) as [v|] eqn:E.
  - apply wp_ret. split_and!; [done..|]. by eapply Forall_lookup_1.
  - apply lookup_ge_None in E. lia.
Qed.

Lemma write_reg_mask_inv base reg val bit_mask :
  REG_SHADOW_START <= reg < REG_SHADOW_START + NUM_REGS ->
  preserves (r82xx_inv base) (r82xx_write_reg_mask reg val bit_mask).
Proof.
  intros Hreg s Hinv. unfold r82xx_write_reg_mask. wp_step.
  eapply wp_mono; [|apply read_cache_wp; [apply Hinv|done]].
  intros rc s' (-> & _ & Hrc). replace (rc <? 0) with false by (unfold is_u8 in Hrc; lia).
  by apply write_reg_inv.
Qed.

(** ** Reading the chip *)

Lemma bitrev_u8 b : is_u8 (r82xx_bitrev b).
Proof. apply u8_range. Qed.

(** Setting the register pointer, or reading, changes no register. *)
Lemma tracked_snoc base p d d' ev :
  tracked base (p, d) -> i2c_log d' = i2c_log d ++ [ev] ->
  (ev_acked (i2c_addr (cfg p)) ev = true -> forall m, apply_event (i2c_addr (cfg p)) m ev = m) ->
  tracked base (p, d').
Proof.
  intros Htr Hlog Hev. destruct base as [b|]; [|done]. destruct Htr as [Hbase Hcoh].
  cbn [fst snd] in *. split; cbn [snd].
  { rewrite Hlog, length_app. lia. }
  unfold acked, coherent, chip_regs in *. cbn [fst snd] in *.
  rewrite Hlog, drop_app_le, all_acked_snoc, replay_snoc by done.
  intros [Hack Ha] i Hi. rewrite Hev by done. by apply Hcoh.
Qed.

(** A read returns 0 and [len] bytes, or a negative error. *)
Lemma r82xx_read_wp base reg len s :
  r82xx_inv base s -> 0 <= len <= NUM_REGS ->
  wp (r82xx_read reg len)
    (fun r s' => r82xx_inv base s' /\ s'.1 = s.1 /\
       ((r.1 = 0 /\ Z.of_nat (length r.2) = len /\ Forall is_u8 r.2) \/ r.1 < 0)) s.
Proof.
  destruct s as [p d]. intros (Hok & HJ & Htr) Hlen. unfold r82xx_read, NUM_REGS in *.
  pose proof Hok as ((Haddr & _) & _). cbn [fst snd] in *.
  wp_step. apply wp_gets. wp_step. apply wp_zoom. cbn [snd fst].
  eapply wp_mono; [|apply wp_conj; [apply write_fn_law|apply write_fn_inv]; [done|cbn; lia|done|cbn; lia|done]].
  intros rc d1 [[Hlog1 Hsame1] HJ1]. cbn [snd fst].
  assert (Hinv1 : r82xx_inv base (p, d1)).
  { split_and!; [apply Hok..|exact HJ1|]. eapply tracked_snoc; [exact Htr|exact Hlog1|].
    intros Ha m. by rewrite apply_event_acked. }
  destruct (rc =? 1) eqn:Hrc; simpl.
  2: { split; [done|]. split; [done|]. right. destruct (rc <? 0) eqn:?; simpl; lia. }
  replace (30 <? len) with false by lia.
  wp_step. apply wp_zoom. cbn [snd fst].
  eapply wp_mono; [|apply wp_conj; [apply read_fn_law|apply read_fn_inv]; [done|lia|done|lia|done]].
  intros [rc2 data] d2 [(Hlog2 & Hdl & Hdata & Hsame2) HJ2]. cbn [snd fst] in *.
  assert (Hinv2 : r82xx_inv base (p, d2)).
  { destruct Hinv1 as (_ & _ & Htr1). split_and!; [apply Hok..|exact HJ2|].
    by eapply tracked_snoc; [exact Htr1|exact Hlog2|]. }
  destruct (rc2 =? len) eqn:Hrc2; simpl; split; [done| |done|]; (split; [done|]).
  - left. cbn [fst snd]. rewrite length_map. split_and!; [done..|].
    apply Forall_map, Forall_true. intros. apply bitrev_u8.
  - right. destruct (rc2 <? 0) eqn:?; simpl; lia.
Qed.

Lemma r82xx_read_inv base reg len :
  0 <= len <= NUM_REGS -> preserves (r82xx_inv base) (r82xx_read reg len).
Proof.
  intros Hlen s Hinv. eapply wp_mono; [|by apply r82xx_read_wp].
  by intros r s' [? _].
Qed.

(** A change of the struct that leaves configuration and shadow alone. *)
Lemma upd_inv base (f : r82xx_priv -> r82xx_priv) :
  (forall p, cfg (f p) = cfg p /\ regs (f p) = regs p) ->
  preserves (r82xx_inv base) (upd (D:=D) f).
Proof.
  intros Hf [p d] (Hok & HJ & Htr). destruct (Hf p) as [Hc Hr].
  unfold wp, upd, modify. cbn [fst snd].
  unfold r82xx_inv, tracked, acked, coherent, chip_regs, priv_ok in *. cbn [fst snd] in *.
  by rewrite Hc, Hr.
Qed.

Lemma from_option_trap_inv {S A} (I : S -> Prop) (o : option A) :
  is_Some o -> preserves I (from_option_trap o).
Proof. intros [a ->]. apply preserves_ret. Qed.

Lemma priv_inv {A} base (f : r82xx_priv -> A) : preserves (r82xx_inv base) (priv (D:=D) f).
Proof. apply preserves_gets. Qed.
End inv.

#[export] Hint Resolve write_reg_inv write_reg_mask_inv r82xx_read_inv upd_inv priv_inv
  from_option_trap_inv : pres.
#[export] Hint Extern 1 (_ <= _ < _) => unfold REG_SHADOW_START, NUM_REGS; lia : pres.
#[export] Hint Extern 1 (_ <= _ <= _) => unfold NUM_REGS; lia : pres.
#[export] Hint Extern 1 (forall p, cfg _ = _ /\ regs _ = _) => done : pres.
