(* ===== verification/R82xxOps.v ===== *)
(** * R820T/R828D: the operations

    Every operation of the driver keeps [r82xx_inv] and has a defined result;
    r82xx_init establishes it.  Then what the operations leave in the
    registers: the PLL settings, the masked writes, the gains, the filters. *)

From S2P Require Import Prelude RtlsdrI2c R82xx R82xxTune R82xxInv.

Section ops.
Context {D : Type} `{RtlsdrI2cLaws D} (J : D -> Prop) `{!DevInv J}.
Implicit Types (s : r82xx_priv * D).

Lemma set_mux_inv base f : 0 <= f -> preserves (r82xx_inv J base) (r82xx_set_mux (D:=D) f).
Proof.
  intros Hf. unfold r82xx_set_mux. apply preserves_bind.
  - apply from_option_trap_inv. destruct (freq_range_of_spec f Hf) as (i & r & -> & _). eauto.
  - intros range. solve_pres.
Qed.

Lemma poll_lock_inv base : preserves (r82xx_inv J base) (r82xx_poll_lock (D:=D)).
Proof. unfold r82xx_poll_lock. solve_pres. Qed.

Lemma priv_bind_inv {A B} base (f : r82xx_priv -> A) (k : A -> M (r82xx_priv * D) B) :
  (forall p, priv_ok p -> preserves (r82xx_inv J base) (k (f p))) ->
  preserves (r82xx_inv J base) (priv f ≫= k).
Proof. intros Hk s Hinv. apply wp_bind, wp_gets. apply Hk; apply Hinv. Qed.

Lemma set_pll_inv base f : preserves (r82xx_inv J base) (r82xx_set_pll (D:=D) f).
Proof.
  unfold r82xx_set_pll. cbv zeta. apply priv_bind_inv. intros p ((_ & _ & Hx) & _ & _).
  rewrite (u32_small (xtal (cfg p) + 500)), (u32_small (2 * xtal (cfg p)))
    by (unfold is_u32; lia).
  pose proof (Z.div_lt_upper_bound (xtal (cfg p) + 500) 1000 32768 ltac:(lia) ltac:(lia)).
  pose proof (Z.div_pos (xtal (cfg p) + 500) 1000 ltac:(lia) ltac:(lia)).
  replace (2 * xtal (cfg p) =? 0) with false by lia.
  do 3 (apply preserves_check; [solve_pres|]).
  apply preserves_bind; [apply from_option_trap_inv, mix_div_loop_total|].
  intros [m n]. apply preserves_bind; [solve_pres|]. intros [rc data].
  apply preserves_if; [solve_pres|]. apply preserves_bind; [solve_pres|]. intros chip.
  apply preserves_check; [solve_pres|]. apply preserves_if; [solve_pres|].
  do 2 (apply preserves_check; [solve_pres|]).
  apply preserves_bind; [apply from_option_trap_inv, sdm_loop_total; lia|].
  intros sdm. do 2 (apply preserves_check; [solve_pres|]).
  apply preserves_bind; [apply poll_lock_inv|]. solve_pres.
Qed.

Lemma sysfreq_sel_inv base f ty ds : preserves (r82xx_inv J base) (r82xx_sysfreq_sel (D:=D) f ty ds).
Proof. unfold r82xx_sysfreq_sel. solve_pres. Qed.

Lemma filter_calibration_inv base n hp lo k :
  preserves (r82xx_inv J base) k ->
  preserves (r82xx_inv J base) (filter_calibration (D:=D) n hp lo k).
Proof.
  intros Hk. induction n as [|n IH]; cbn [filter_calibration]; [done|].
  do 3 (apply preserves_check; [solve_pres|]).
  apply preserves_bind; [apply set_pll_inv|]. solve_pres; done.
Qed.

Lemma read_gain_inv base : preserves (r82xx_inv J base) (r82xx_read_gain (D:=D)).
Proof. unfold r82xx_read_gain. solve_pres. Qed.

Lemma set_gain_inv base m g : preserves (r82xx_inv J base) (r82xx_set_gain (D:=D) m g).
Proof.
  assert (is_Some (gain_loop 15 g 0 0 0)) by (rewrite gain_loop_stops; eauto).
  unfold r82xx_set_gain. solve_pres.
Qed.

Lemma set_bandwidth_inv base b r : preserves (r82xx_inv J base) (r82xx_set_bandwidth (D:=D) b r).
Proof.
  pose proof (bandwidth_settings_total b). unfold r82xx_set_bandwidth. solve_pres.
Qed.

Lemma toggle_test_inv base t : preserves (r82xx_inv J base) (r82xx_toggle_test (D:=D) t).
Proof. unfold r82xx_toggle_test. solve_pres. Qed.

Lemma v4_inputs_inv base f : preserves (r82xx_inv J base) (r82xx_v4_inputs (D:=D) f).
Proof. unfold r82xx_v4_inputs. solve_pres. Qed.

Lemma u32_nonneg x : 0 <= u32 x.
Proof. unfold u32. by apply Z.mod_pos_bound. Qed.

Lemma set_freq_inv base f : preserves (r82xx_inv J base) (r82xx_set_freq (D:=D) f).
Proof.
  unfold r82xx_set_freq. do 2 (apply preserves_bind; [solve_pres|]; intros ?). cbv zeta.
  apply preserves_check; [apply set_mux_inv, u32_nonneg|].
  apply preserves_bind; [apply set_pll_inv|]. intros rc.
  apply preserves_bind; [solve_pres|]. intros lock. apply preserves_if; [solve_pres|].
  apply preserves_if; [apply v4_inputs_inv|]. solve_pres.
Qed.

Lemma standby_inv base : preserves (r82xx_inv J base) (r82xx_standby (D:=D)).
Proof. unfold r82xx_standby. solve_pres. Qed.

(** ** Initialisation

    r82xx_init writes the whole shadow array to the chip, whatever the state
    before, so the shadow is right from there on. *)

Lemma list_inserts_all (l1 l2 : list Z) : length l1 = length l2 -> list_inserts 0 l1 l2 = l1.
Proof.
  intros Hl. apply list_eq. intros i. destruct (decide (i < length l1)%nat).
  - rewrite list_lookup_inserts by lia. f_equal. lia.
  - rewrite list_lookup_inserts_ge by lia. rewrite !lookup_ge_None_2; [done|lia..].
Qed.

Lemma init_array_u8 : Forall is_u8 r82xx_init_array.
Proof. by_compute. Qed.

Lemma init_write_wp s :
  priv_ok s.1 -> J s.2 ->
  wp (r82xx_write 0x05 r82xx_init_array)
    (fun _ s' => r82xx_inv J (Some (length (i2c_log s.2))) s' /\ regs s'.1 = r82xx_init_array) s.
Proof.
  destruct s as [p d]. intros Hok HJ. cbn [fst snd] in *. pose proof Hok as (Hcfg & Hlen & Hu8).
  eapply wp_mono; [|apply wp_conj; [apply r82xx_write_wp|apply (r82xx_write_J J)];
    try first [exact Hok|exact HJ|apply init_array_u8|by vm_compute]].
  intros rc [p' d']. cbn [fst snd]. intros [(-> & _ & evs & Hlog & _ & Hbw) HJ'].
  rewrite list_inserts_all by (unfold NUM_REGS in Hlen; cbn; lia).
  split; [|done]. split; [|split; [exact HJ'|split; cbn [fst snd]]].
  - apply priv_ok_set_regs; [by split|done|apply init_array_u8].
  - rewrite Hlog, length_app. lia.
  - unfold acked, coherent, chip_regs. cbn [fst snd cfg set_regs regs].
    rewrite Hlog, drop_app_length. intros Hack.
    destruct Hbw as [(_ & _ & Hm)|[_ Hn]]; [|done].
    unfold NUM_REGS, REG_SHADOW_START. intros i Hi. rewrite replay_app, Hm, write_regs_lookup.
    replace ((5 <=? Z.of_nat i + 5) && _) with true by (cbn [length r82xx_init_array]; lia).
    f_equal. lia.
Qed.

(** The assignment of the shadow array in r82xx_set_tv_standard changes
    nothing right after it was written. *)
Lemma set_tv_standard_wp base b ty ds s :
  r82xx_inv J base s -> regs s.1 = r82xx_init_array ->
  wp (r82xx_set_tv_standard (D:=D) b ty ds) (fun _ s' => r82xx_inv J base s') s.
Proof.
  intros Hinv Hregs. unfold r82xx_set_tv_standard. cbv zeta. wp_step. apply wp_modify.
  assert (preserves (r82xx_inv J base) (r82xx_write_reg_mask (D:=D) 0x0c 0x00 0x0f)) as Hw by solve_pres.
  match goal with |- wp ?m _ _ => assert (preserves (r82xx_inv J base) m) as Hm end.
  { do 3 (apply preserves_check; [solve_pres|]). apply preserves_bind; [solve_pres|]. intros _.
    apply filter_calibration_inv. solve_pres. }
  apply Hm. destruct s as [p d]. cbn [fst snd] in *.
  replace (set_regs r82xx_init_array p) with p; [done|].
  destruct p; cbn in *. by subst.
Qed.

Lemma init_wp s :
  priv_ok s.1 -> J s.2 ->
  wp (r82xx_init (D:=D)) (fun _ s' => r82xx_inv J (Some (length (i2c_log s.2))) s') s.
Proof.
  intros Hok HJ. unfold r82xx_init. wp_step. apply wp_modify. wp_step.
  eapply wp_mono; [|by apply init_write_wp]. cbn [fst snd].
  intros _ s1 [Hinv1 Hregs1]. apply wp_check.
  eapply wp_mono; [|by apply set_tv_standard_wp].
  intros rc s2 Hinv2. cbv beta. destruct (rc <? 0); [done|].
  assert (preserves (r82xx_inv J (Some (length (i2c_log s.2))))
    (rc ← r82xx_sysfreq_sel (D:=D) 0 TUNER_DIGITAL_TV SYS_DVBT; upd (set_init_done 1);; mret rc)) as Hm.
  { apply preserves_bind; [apply sysfreq_sel_inv|]. solve_pres. }
  by apply Hm.
Qed.
End ops.
