(* ===== verification/R82xxSpec.v ===== *)
(** * R820T/R828D: what the driver promises *)

From S2P Require Import Prelude RtlsdrI2c I2cSim R82xx R82xxTune R82xxInv R82xxOps.

(** ** A session: initialisation and a sequence of calls *)

Inductive r82xx_call : Type :=
  | CallStandby
  | CallSetFreq (freq : Z)
  | CallSetGain (manual gain : Z)
  | CallSetBandwidth (bw rate : Z)
  | CallToggleTest (toggle : Z)
  | CallReadGain.

Section session.
Context {D : Type} `{RtlsdrI2c D}.

Definition run_call (c : r82xx_call) : M (r82xx_priv * D) Z :=
  match c with
  | CallStandby => r82xx_standby
  | CallSetFreq f => r82xx_set_freq f
  | CallSetGain m g => r82xx_set_gain m g
  | CallSetBandwidth b r => r82xx_set_bandwidth b r
  | CallToggleTest t => r82xx_toggle_test t
  | CallReadGain => r82xx_read_gain
  end.

Definition session (calls : list r82xx_call) : M (r82xx_priv * D) unit :=
  r82xx_init;; for_each calls (fun c => run_call c;; mret tt).
End session.

(** The struct as rtlsdr_open leaves it (memset) with the configuration of
    r820t_init. *)
Definition priv0 (chip : r82xx_chip) (xtal : Z) : r82xx_priv :=
  mk_priv (mk_config (if decide (chip = CHIP_R828D) then R828D_I2C_ADDR else R820T_I2C_ADDR) xtal chip 8 0)
    (replicate 30 0) XTAL_LOW_CAP_30P 0 0 0 0 0 0 0 0.

Lemma priv0_ok : priv_ok (priv0 CHIP_R820T 28800000).
Proof. split_and!; try (by vm_compute); by_compute. Qed.

(** Example states: fresh, and with the initial register values. *)
Definition st0 : r82xx_priv * sim := (priv0 CHIP_R820T 28800000, sim_good).
Definition st1 : r82xx_priv * sim := (set_regs r82xx_init_array (priv0 CHIP_R820T 28800000), sim_good).

Lemma st1_ok : priv_ok st1.1.
Proof. split_and!; try (by vm_compute); by_compute. Qed.

Lemma run_call_inv {D : Type} `{RtlsdrI2cLaws D} (J : D -> Prop) `{!DevInv J} base c :
  preserves (r82xx_inv J base) (run_call (D:=D) c).
Proof.
  by destruct c; [apply standby_inv|apply set_freq_inv|apply set_gain_inv|apply set_bandwidth_inv
    |apply toggle_test_inv|apply read_gain_inv].
Qed.

(** C16: for a tuner whose crystal has 1 MHz to 32.7675 MHz and whose messages can
    have 2 to 31 bytes ([priv_ok]; rtlsdr_open sets 28.8 MHz, or 16 MHz for an
    R828D, and 8 bytes; a clock of 0, from rtlsdr_set_xtal_freq or a correction of
    -1000000 ppm, is a division by zero, [RtlTcpSpec.client_stops_server]): after r82xx_init and any
    sequence of calls of the driver's interface, for any behaviour of the chip, the
    run has a defined result (no division by zero, no overrun, no endless loop),
    and if every write since the start was acknowledged, each of the 30 shadow
    registers holds the value of the chip's register. *)
Theorem r82xx_session_coherent {D : Type} `{RtlsdrI2cLaws D} (calls : list r82xx_call)
    (s : r82xx_priv * D) :
  priv_ok s.1 ->
  wp (session calls)
    (fun _ s' => priv_ok s'.1 /\ (acked (length (i2c_log s.2)) s' -> coherent s')) s.
Proof.
  intros Hok. apply wp_bind. eapply wp_mono; [|by apply (init_wp (fun _ => True))].
  intros ? s1 Hinv. cbv beta.
  assert (preserves (r82xx_inv (fun _ => True) (Some (length (i2c_log s.2)))) (for_each calls (fun c => run_call (D:=D) c;; mret tt))) as Hm.
  { apply preserves_for_each. intros c _. apply preserves_bind; [|solve_pres].
    apply (run_call_inv (fun _ => True)). }
  eapply wp_mono; [|by apply Hm]. by intros ? s' (? & _ & _ & ?).
Qed.

Lemma r82xx_session_coherent_witness :
  priv_ok (priv0 CHIP_R820T 28800000) /\
  wp (session [CallSetFreq 100000000; CallSetGain 1 297; CallSetBandwidth 2000000 2400000])
    (fun _ s' => priv_ok s'.1 /\ (acked 0 s' -> coherent s'))
    (priv0 CHIP_R820T 28800000, sim_good).
Proof.
  split; [exact priv0_ok|].
  exact (r82xx_session_coherent
    [CallSetFreq 100000000; CallSetGain 1 297; CallSetBandwidth 2000000 2400000]
    (priv0 CHIP_R820T 28800000, sim_good) priv0_ok).
Defined.

(** ** Register writes *)

(** C20: r82xx_write cuts a block into messages of at most [max_i2c_msg_len]
    bytes.  When it returns 0 all of them were acknowledged and their effect on
    the chip is that of the whole block in one transfer; otherwise it returns
    a negative number and some message was not acknowledged.  The shadow
    registers take the block in either case, and nothing else changes. *)
Theorem r82xx_write_block {D : Type} `{RtlsdrI2cLaws D} (reg : Z) (val : list Z)
    (s : r82xx_priv * D) :
  priv_ok s.1 -> val <> [] -> Forall is_u8 val ->
  REG_SHADOW_START <= reg -> reg + Z.of_nat (length val) <= REG_SHADOW_START + NUM_REGS ->
  wp (r82xx_write reg val)
    (fun rc s' =>
       s'.1 = set_regs (list_inserts (Z.to_nat (reg - REG_SHADOW_START)) val (regs s.1)) s.1 /\
       exists msgs, i2c_log s'.2 = i2c_log s.2 ++ msgs /\
         Forall (message (i2c_addr (cfg s.1)) (max_i2c_msg_len (cfg s.1))) msgs /\
         ((rc = 0 /\ all_acked (i2c_addr (cfg s.1)) msgs /\ chip_regs s' = write_regs (chip_regs s) reg val) \/
          (rc < 0 /\ ~ all_acked (i2c_addr (cfg s.1)) msgs))) s.
Proof.
  intros Hok Hne Hval Hreg Hfit. eapply wp_mono; [|by apply r82xx_write_wp].
  intros rc s' (Hp & _ & msgs & Hlog & Hmsg & Hbw). split; [done|]. exists msgs.
  split_and!; [done..|]. destruct Hbw as [(-> & Hack & Hm)|Hn]; [left|by right].
  split_and!; [done..|]. unfold chip_regs. rewrite Hp, Hlog, replay_app. apply Hm.
Qed.

Lemma r82xx_write_block_witness :
  wp (r82xx_write 0x05 r82xx_init_array)
    (fun rc s' =>
       s'.1 = set_regs (list_inserts (Z.to_nat (0x05 - REG_SHADOW_START)) r82xx_init_array (regs st0.1)) st0.1 /\
       exists msgs, i2c_log s'.2 = i2c_log st0.2 ++ msgs /\
         Forall (message (i2c_addr (cfg st0.1)) (max_i2c_msg_len (cfg st0.1))) msgs /\
         ((rc = 0 /\ all_acked (i2c_addr (cfg st0.1)) msgs /\
           chip_regs s' = write_regs (chip_regs st0) 0x05 r82xx_init_array) \/
          (rc < 0 /\ ~ all_acked (i2c_addr (cfg st0.1)) msgs))) st0.
Proof.
  refine (r82xx_write_block 0x05 r82xx_init_array st0 _ _ _ _ _).
  - exact priv0_ok.
  - done.
  - by_compute.
  - by vm_compute.
  - by vm_compute.
Defined.

Section masked_write.
Context {D : Type} `{RtlsdrI2cLaws D}.

(** The full effect of a masked write. *)
Lemma write_reg_mask_wp reg val bit_mask (s : r82xx_priv * D) :
  priv_ok s.1 -> REG_SHADOW_START <= reg < REG_SHADOW_START + NUM_REGS -> is_u8 val -> is_u8 bit_mask ->
  wp (r82xx_write_reg_mask reg val bit_mask)
    (fun rc s' => exists old msgs,
       regs s.1 !! Z.to_nat (reg - REG_SHADOW_START) = Some old /\ is_u8 old /\
       s'.1 = set_regs (<[Z.to_nat (reg - REG_SHADOW_START) := masked old val bit_mask]> (regs s.1)) s.1 /\
       priv_ok s'.1 /\
       i2c_log s'.2 = i2c_log s.2 ++ msgs /\
       block_written (i2c_addr (cfg s.1)) reg [masked old val bit_mask] rc msgs) s.
Proof.
  intros Hok Hreg Hval Hmask. unfold r82xx_write_reg_mask. wp_step.
  eapply wp_mono; [|by apply read_cache_wp].
  intros old s1 (-> & Hold & Hu8). cbv beta. unfold REG_SHADOW_START, NUM_REGS in *.
  replace (old <? 0) with false by (unfold is_u8 in Hu8; lia).
  rewrite (u8_small val), (u8_small bit_mask) by done.
  change ((old .& ~~ bit_mask) .| (val .& bit_mask)) with (masked old val bit_mask).
  pose proof (masked_u8 old val bit_mask Hu8 Hval) as Hm. rewrite (u8_small _ Hm).
  eapply wp_mono; [|apply r82xx_write_wp; unfold REG_SHADOW_START, NUM_REGS;
    [done|lia|done|by apply Forall_singleton|cbn; lia]].
  intros rc s' (Hp & _ & msgs & Hlog & _ & Hbw). exists old, msgs.
  do 3 (split; [done|]). split; [|by split].
  rewrite Hp. destruct Hok as (? & Hl & ?). apply priv_ok_set_regs; [done| |].
  - by rewrite length_inserts.
  - apply Forall_list_inserts; [by apply Forall_singleton|done].
Qed.
End masked_write.

(** A masked write replaces exactly the bits of the mask: bit [i] of the
    shadow register is bit [i] of the value where the mask has a one and the
    old bit elsewhere, all other shadow registers stay, and a result of 0 means
    that the chip has the new value in that register and nothing else of it
    changed. *)
Theorem r82xx_write_reg_mask_bits {D : Type} `{RtlsdrI2cLaws D} (reg val bit_mask old : Z)
    (s : r82xx_priv * D) :
  priv_ok s.1 -> REG_SHADOW_START <= reg < REG_SHADOW_START + NUM_REGS ->
  is_u8 val -> is_u8 bit_mask ->
  regs s.1 !! Z.to_nat (reg - REG_SHADOW_START) = Some old ->
  wp (r82xx_write_reg_mask reg val bit_mask)
    (fun rc s' => exists new, is_u8 new /\
       (forall i, 0 <= i -> Z.testbit new i = if Z.testbit bit_mask i then Z.testbit val i else Z.testbit old i) /\
       regs s'.1 = <[Z.to_nat (reg - REG_SHADOW_START) := new]> (regs s.1) /\
       (rc = 0 -> chip_regs s' = <[reg := new]> (chip_regs s))) s.
Proof.
  intros Hok Hreg Hval Hmask Hold. eapply wp_mono; [|by apply write_reg_mask_wp].
  intros rc s' (old' & msgs & Hold' & Hu8 & Hp & _ & Hlog & Hbw).
  assert (old' = old) as -> by congruence.
  exists (masked old val bit_mask). split; [|split; [|split]].
  - by apply masked_u8.
  - intros i Hi. by apply masked_bits.
  - by rewrite Hp.
  - intros ->. destruct Hbw as [(_ & _ & Hm)|[? _]]; [|lia].
    unfold chip_regs. rewrite Hp, Hlog, replay_app. cbn [cfg set_regs]. by rewrite Hm.
Qed.

Lemma r82xx_write_reg_mask_bits_witness :
  wp (r82xx_write_reg_mask 0x0c 0x08 0x9f)
    (fun rc s' => exists new, is_u8 new /\
       (forall i, 0 <= i -> Z.testbit new i = if Z.testbit 0x9f i then Z.testbit 0x08 i else Z.testbit 0xf5 i) /\
       regs s'.1 = <[Z.to_nat (0x0c - REG_SHADOW_START) := new]> (regs st1.1) /\
       (rc = 0 -> chip_regs s' = <[0x0c := new]> (chip_regs st1))) st1.
Proof.
  refine (r82xx_write_reg_mask_bits 0x0c 0x08 0x9f 0xf5 st1 _ _ _ _ _).
  - exact st1_ok.
  - unfold REG_SHADOW_START, NUM_REGS. lia.
  - by_compute.
  - by_compute.
  - reflexivity.
Defined.
