(* ===== verification/R82xxPll.v ===== *)
(** * R820T/R828D: what the tuning calls leave in the registers

    The PLL registers stand for the requested frequency, the mux registers for
    the entry of the range table, the gain and filter registers for the
    requested gain and bandwidth. *)

From S2P Require Import Prelude RtlsdrI2c I2cSim R82xx R82xxTune R82xxInv R82xxOps R82xxSpec.

(** ** Framing

    [framed p0 F s]: the struct is [p0] up to the shadow registers, and those
    with an index in [F] are as in [p0]. *)

Section frame.
Context {D : Type} `{RtlsdrI2cLaws D}.
Implicit Types (s : r82xx_priv * D) (F : list nat).

Definition framed (p0 : r82xx_priv) (F : list nat) (s : r82xx_priv * D) : Prop :=
  priv_ok s.1 /\ s.1 = set_regs (regs s.1) p0 /\ forall k, k ∈ F -> regs s.1 !! k = regs p0 !! k.

Lemma set_regs_id p : set_regs (regs p) p = p.
Proof. by destruct p. Qed.

Lemma framed_start s F : priv_ok s.1 -> framed s.1 F s.
Proof. intros Hok. split; [done|]. by rewrite set_regs_id. Qed.

Lemma framed_cfg p0 F s : framed p0 F s -> cfg s.1 = cfg p0.
Proof. intros (_ & -> & _). done. Qed.

Lemma write_reg_framed p0 F reg val :
  REG_SHADOW_START <= reg < REG_SHADOW_START + NUM_REGS ->
  Z.to_nat (reg - REG_SHADOW_START) ∉ F ->
  preserves (framed p0 F) (r82xx_write_reg (D:=D) reg val).
Proof.
  unfold REG_SHADOW_START, NUM_REGS. intros Hreg HF s (Hok & Hp & Hk).
  eapply wp_mono; [|apply r82xx_write_wp; unfold REG_SHADOW_START, NUM_REGS;
    [done|lia|done|apply Forall_singleton, u8_range|cbn; lia]].
  intros rc s' (Hp' & _). unfold REG_SHADOW_START in *. cbn [list_inserts] in Hp'.
  split; [|split].
  - rewrite Hp'. destruct Hok as (? & Hl & ?). apply priv_ok_set_regs; [done| |].
    + by rewrite length_insert.
    + apply Forall_insert; [done|apply u8_range].
  - rewrite Hp', Hp. done.
  - intros k Hin. rewrite Hp'. cbn [regs set_regs].
    rewrite list_lookup_insert_ne by (intros E; rewrite E in HF; done). by apply Hk.
Qed.

Lemma write_reg_mask_framed p0 F reg val bit_mask :
  REG_SHADOW_START <= reg < REG_SHADOW_START + NUM_REGS ->
  Z.to_nat (reg - REG_SHADOW_START) ∉ F ->
  preserves (framed p0 F) (r82xx_write_reg_mask (D:=D) reg val bit_mask).
Proof.
  intros Hreg HF s Hs. unfold r82xx_write_reg_mask. wp_step.
  eapply wp_mono; [|apply read_cache_wp; [apply Hs|done]].
  intros rc s' (-> & _ & Hrc). replace (rc <? 0) with false by (unfold is_u8 in Hrc; lia).
  by apply write_reg_framed.
Qed.

(** A read leaves the struct alone. *)
Lemma read_same reg len s :
  priv_ok s.1 -> 0 <= len <= NUM_REGS ->
  wp (r82xx_read (D:=D) reg len) (fun _ s' => s'.1 = s.1) s.
Proof.
  unfold NUM_REGS. destruct s as [p d]. intros ((Haddr & _) & _) Hlen. cbn [fst] in *.
  unfold r82xx_read, NUM_REGS. wp_step. apply wp_gets. wp_step. apply wp_zoom. cbn [snd fst].
  eapply wp_mono; [|apply write_fn_law; [done|cbn; lia]].
  intros rc d1 _. destruct (negb (rc =? 1)); [done|].
  replace (30 <? len) with false by lia. wp_step. apply wp_zoom. cbn [snd fst].
  eapply wp_mono; [|apply read_fn_law; [done|lia]].
  intros q d2 _. by destruct (negb (q.1 =? len)).
Qed.

Lemma read_framed p0 F reg len :
  0 <= len <= NUM_REGS -> preserves (framed p0 F) (r82xx_read (D:=D) reg len).
Proof.
  intros Hlen s Hs. eapply wp_mono; [|apply read_same; [apply Hs|done]].
  intros ? s' E. unfold framed. by rewrite E.
Qed.

Lemma priv_framed {A} p0 F (f : r82xx_priv -> A) : preserves (framed p0 F) (priv (D:=D) f).
Proof. apply preserves_gets. Qed.

(** The register that a write sets. *)
Lemma write_reg_sets p0 F reg val s :
  framed p0 F s -> REG_SHADOW_START <= reg < REG_SHADOW_START + NUM_REGS ->
  wp (r82xx_write_reg (D:=D) reg val)
    (fun _ s' => priv_ok s'.1 /\
       s'.1 = set_regs (<[Z.to_nat (reg - REG_SHADOW_START) := u8 val]> (regs s.1)) p0 /\
       regs s'.1 !! Z.to_nat (reg - REG_SHADOW_START) = Some (u8 val)) s.
Proof.
  unfold REG_SHADOW_START, NUM_REGS. intros (Hok & Hp & Hk) Hreg.
  eapply wp_mono; [|apply r82xx_write_wp; unfold REG_SHADOW_START, NUM_REGS;
    [done|lia|done|apply Forall_singleton, u8_range|cbn; lia]].
  intros rc s' (Hp' & _). unfold REG_SHADOW_START in *. cbn [list_inserts] in Hp'.
  destruct Hok as (? & Hl & ?). unfold NUM_REGS in Hl.
  split; [|split; [rewrite Hp', Hp; done|]].
  - rewrite Hp'. apply priv_ok_set_regs; [done| |].
    + by rewrite length_insert.
    + apply Forall_insert; [done|apply u8_range].
  - rewrite Hp'. cbn [regs set_regs]. apply list_lookup_insert_eq. lia.
Qed.

Lemma write_reg_mask_sets p0 F reg val bit_mask s :
  framed p0 F s -> REG_SHADOW_START <= reg < REG_SHADOW_START + NUM_REGS ->
  is_u8 val -> is_u8 bit_mask ->
  wp (r82xx_write_reg_mask (D:=D) reg val bit_mask)
    (fun _ s' => priv_ok s'.1 /\ exists old,
       regs s.1 !! Z.to_nat (reg - REG_SHADOW_START) = Some old /\ is_u8 old /\
       s'.1 = set_regs (<[Z.to_nat (reg - REG_SHADOW_START) := masked old val bit_mask]> (regs s.1)) p0) s.
Proof.
  intros (Hok & Hp & Hk) Hreg Hval Hmask.
  eapply wp_mono; [|by apply write_reg_mask_wp].
  intros rc s' (old & msgs & Hold & Hu8 & Hp' & Hok' & _). split; [done|]. exists old.
  split; [done|]. split; [done|]. rewrite Hp', Hp. done.
Qed.

Lemma poll_lock_framed p0 F :
  Z.to_nat (0x12 - REG_SHADOW_START) ∉ F -> preserves (framed p0 F) (r82xx_poll_lock (D:=D)).
Proof.
  intros HF. unfold r82xx_poll_lock.
  assert (preserves (framed p0 F) (r82xx_read (D:=D) 0x00 3)) by (by apply read_framed).
  assert (preserves (framed p0 F) (r82xx_write_reg_mask (D:=D) 0x12 0x06 0xff))
    by (by apply write_reg_mask_framed).
  solve_pres; eauto.
Qed.
End frame.

#[export] Hint Resolve write_reg_framed write_reg_mask_framed read_framed priv_framed
  poll_lock_framed : pres.
#[export] Hint Extern 1 (Z.to_nat _ ∉ _) => by_compute : pres.

(** ** The PLL *)

(** The integer and the fractional part that the PLL registers stand for. *)
Definition reg_of (rs : list Z) (reg : Z) : Z := byte_at rs (Z.to_nat (reg - REG_SHADOW_START)).
Definition pll_nint (rs : list Z) : Z := 4 * (reg_of rs 0x14 .& 0x3f) + (reg_of rs 0x14 ≫ 6) + 13.
Definition pll_sdm (rs : list Z) : Z := 256 * reg_of rs 0x16 + reg_of rs 0x15.

(** The VCO frequency (Hz, times 65536) with these registers. *)
Definition vco_synth (xtal : Z) (rs : list Z) : Z := 2 * xtal * (65536 * pll_nint rs + pll_sdm rs).

Lemma ni_si_roundtrip nint :
  13 <= nint < 128 ->
  let b := u8 (u8 (Z.quot (nint - 13) 4) + (u8 (nint - 4 * u8 (Z.quot (nint - 13) 4) - 13) ≪ 6)) in
  4 * (b .& 0x3f) + (b ≫ 6) + 13 = nint.
Proof.
  intros Hn. assert (forallb (fun n => if n <? 13 then true else if n <? 128 then
    let b := u8 (u8 (Z.quot (n - 13) 4) + (u8 (n - 4 * u8 (Z.quot (n - 13) 4) - 13) ≪ 6)) in
    4 * (b .& 0x3f) + (b ≫ 6) + 13 =? n else true) (zseq 256) = true) as Hall by (vm_compute; reflexivity).
  pose proof (u8_all _ Hall nint ltac:(unfold is_u8; lia)) as E. cbv beta zeta in *.
  replace (nint <? 13) with false in E by lia. replace (nint <? 128) with true in E by lia. lia.
Qed.

Lemma vco_synth_regs x rs nint sdm :
  13 <= nint < 128 -> 0 <= sdm < 65536 ->
  rs !! 15%nat = Some (u8 (u8 (Z.quot (nint - 13) 4) + (u8 (nint - 4 * u8 (Z.quot (nint - 13) 4) - 13) ≪ 6))) ->
  rs !! 16%nat = Some (u8 (sdm .& 0xff)) -> rs !! 17%nat = Some (u8 (sdm ≫ 8)) ->
  vco_synth x rs = 2 * x * (65536 * nint + sdm).
Proof.
  intros Hn Hs E15 E16 E17. unfold vco_synth, pll_nint, pll_sdm, reg_of, byte_at.
  change (Z.to_nat (0x14 - REG_SHADOW_START)) with 15%nat.
  change (Z.to_nat (0x15 - REG_SHADOW_START)) with 16%nat.
  change (Z.to_nat (0x16 - REG_SHADOW_START)) with 17%nat.
  rewrite (nth_lookup_Some _ _ _ _ E15), (nth_lookup_Some _ _ _ _ E16), (nth_lookup_Some _ _ _ _ E17).
  rewrite ni_si_roundtrip by done. do 2 f_equal.
  assert (0 <= sdm / 2 ^ 8 < 2 ^ 8)
    by (split; [apply Z.div_pos; lia|apply Z.div_lt_upper_bound; lia]).
  change 0xff with (Z.ones 8). rewrite Z.land_ones, Z.shiftr_div_pow2 by lia. unfold u8.
  rewrite Z.mod_mod by lia. rewrite (Z.mod_small (sdm / 2 ^ 8) (2 ^ 8)) by done.
  pose proof (Z.div_mod sdm (2 ^ 8) ltac:(lia)). change (2 ^ 8) with 256 in *. lia.
Qed.

(** The arithmetic of r82xx_set_pll in the octave of a divider. *)
Lemma pll_arith x freq m n :
  7000000 <= x < 32767500 -> is_u32 freq -> mix_div_loop 8 (u32 (freq + 500) / 1000) 2 = Some (m, n) -> m <= 64 ->
  let q := u64 (freq * m) / u32 (2 * x) in
  let fra := u32 (u64 (u64 (freq * m) - u32 (u32 (2 * x) * u8 q)) / 1000) in
  let ref := u32 (x + 500) / 1000 in
  13 <= u8 q /\ 0 <= ref < 32768 /\ 0 <= fra <= 2 * ref /\
  u32 (2 * x) <> 0 /\
  forall sdm, 0 <= sdm < 65536 -> - 15 * 65536 <= 65536 * fra - 2 * ref * sdm <= 16 * 65536 ->
    Z.abs (65536 * (freq * m) - 2 * x * (65536 * u8 q + sdm)) <= 65536 * 18000.
Proof.
  intros Hx Hf Hmix Hm. cbv zeta. unfold is_u32 in Hf.
  assert (Hkhz : 0 <= u32 (freq + 500) / 1000 <= 4294968).
  { split; [apply Z.div_pos; [apply u32_nonneg|lia]|]. apply Z.div_le_upper_bound; [lia|].
    pose proof (Z.mod_pos_bound (freq + 500) (2 ^ 32) ltac:(lia)). unfold u32. lia. }
  destruct (mix_div_loop_spec _ m n Hkhz Hmix) as [(Hmn & Hn & Hvco)|(-> & _)]; [|lia].
  unfold vco_min, vco_max, vco_min in Hvco.
  assert (Hm2 : 2 <= m).
  { subst m. replace 2 with (2 ^ 1) at 1 by lia. apply Z.pow_le_mono_r; lia. }
  (* the addition of 500 does not wrap: the octave would not fit *)
  assert (Hnw : u32 (freq + 500) = freq + 500).
  { unfold u32. destruct (Z.ltb_spec (freq + 500) (2 ^ 32)); [apply Z.mod_small; lia|].
    exfalso. assert ((freq + 500) mod 2 ^ 32 < 500) as Hsm.
    { replace (freq + 500) with ((freq + 500 - 2 ^ 32) + 1 * 2 ^ 32) by lia.
      rewrite Z.mod_add by lia. rewrite Z.mod_small; lia. }
    unfold u32 in Hvco. rewrite Z.div_small in Hvco; [lia|].
    split; [by apply Z.mod_pos_bound|lia]. }
  rewrite Hnw in *.
  pose proof (Z.div_mod (freq + 500) 1000 ltac:(lia)) as Hdk.
  pose proof (Z.mod_pos_bound (freq + 500) 1000 ltac:(lia)) as Hmk.
  set (k := (freq + 500) / 1000) in *.
  assert (Hfm : 1769968000 <= freq * m < 3540032000) by nia.
  rewrite (u32_small (2 * x)), (u32_small (x + 500)) by (unfold is_u32; lia).
  assert (u64 (freq * m) = freq * m) as -> by (unfold u64; apply Z.mod_small; lia).
  pose proof (Z.div_mod (freq * m) (2 * x) ltac:(lia)) as Hdq.
  pose proof (Z.mod_pos_bound (freq * m) (2 * x) ltac:(lia)) as Hmq.
  set (q := freq * m / (2 * x)) in *. set (rem := freq * m mod (2 * x)) in *.
  assert (Hq : 13 <= q < 253) by nia.
  rewrite (u8_small q) by (unfold is_u8; lia).
  rewrite (u32_small (2 * x * q)) by (unfold is_u32; nia).
  replace (freq * m - 2 * x * q) with rem by lia.
  assert (u64 rem = rem) as -> by (unfold u64; apply Z.mod_small; lia).
  pose proof (Z.div_mod rem 1000 ltac:(lia)) as Hdr.
  pose proof (Z.mod_pos_bound rem 1000 ltac:(lia)) as Hmr.
  set (fra := rem / 1000) in *.
  assert (Hfra0 : 0 <= fra) by lia.
  rewrite (u32_small fra) by (unfold is_u32; lia).
  pose proof (Z.div_mod (x + 500) 1000 ltac:(lia)) as Hdx.
  pose proof (Z.mod_pos_bound (x + 500) 1000 ltac:(lia)) as Hmx.
  set (ref := (x + 500) / 1000) in *.
  split; [lia|]. split; [lia|]. split; [lia|]. split; [lia|].
  intros sdm Hs Herr.
  assert (Hrx : - 1000 <= 1000 * (2 * ref) - 2 * x <= 1000) by lia.
  assert (Heta : - 1000 * 65536 <= (1000 * (2 * ref) - 2 * x) * sdm <= 1000 * 65536) by nia.
  apply Z.abs_le. nia.
Qed.

(** One checked call of a run that keeps the frame [Hs]. *)
Ltac run_keep Hs Hneg :=
  cbv beta zeta;
  lazymatch type of Hs with
  | ?J _ =>
      lazymatch goal with
      | |- wp (check _ _) _ _ =>
          apply (wp_check_keep J); [solve_pres|exact Hs|exact Hneg|clear Hs; intros ? Hs]
      | |- wp (mbind _ _) _ _ =>
          apply (wp_bind_keep J); [solve_pres|exact Hs|clear Hs; intros ? ? Hs]
      end
  end.

(** The registers 0x14, then 0x16, then 0x15 are written, and kept from then on. *)
Lemma vco_synth_written x nint sdm (r4 r5 r6 r7 rs : list Z) :
  13 <= nint < 128 -> 0 <= sdm < 65536 ->
  r4 !! 15%nat = Some (u8 (u8 (Z.quot (nint - 13) 4) + (u8 (nint - 4 * u8 (Z.quot (nint - 13) 4) - 13) ≪ 6))) ->
  r5 !! 15%nat = r4 !! 15%nat ->
  r6 = <[17%nat := u8 (sdm ≫ 8)]> r5 -> r6 !! 17%nat = Some (u8 (sdm ≫ 8)) ->
  r7 = <[16%nat := u8 (sdm .& 0xff)]> r6 -> r7 !! 16%nat = Some (u8 (sdm .& 0xff)) ->
  (forall k, k ∈ [15%nat; 16%nat; 17%nat] -> rs !! k = r7 !! k) ->
  vco_synth x rs = 2 * x * (65536 * nint + sdm).
Proof.
  intros Hn Hs E4 E5 E6 E6' E7 E7' Hk. apply vco_synth_regs; [done|done|..].
  - rewrite Hk by by_compute. subst r7 r6. by rewrite !list_lookup_insert_ne, E5.
  - by rewrite Hk by by_compute.
  - rewrite Hk by by_compute. subst r7. by rewrite list_lookup_insert_ne.
Qed.

Lemma nint_below a nint : (128 / (if decide (a = CHIP_R828D) is left _ then 1 else 2) - 1 <? nint) = false -> nint < 128.
Proof.
  destruct (decide (a = CHIP_R828D)); cbv beta iota; [change (128 / 1 - 1) with 127|change (128 / 2 - 1) with 63]; lia.
Qed.

Section pll.
Context {D : Type} `{RtlsdrI2cLaws D}.

(** C19: when a divider fits the frequency and r82xx_set_pll returns 0, the
    registers 0x14 to 0x16 hold an integer and a fractional part with which
    the VCO runs at [freq * mix_div] up to 18 kHz: the local oscillator is
    off by at most 18 kHz divided by [mix_div].  This holds for every
    crystal between 7 and 32.7675 MHz and whatever the chip answers. *)
Theorem r82xx_set_pll_synth (freq m n : Z) (s : r82xx_priv * D) :
  priv_ok s.1 -> 7000000 <= xtal (cfg s.1) -> is_u32 freq ->
  mix_div_loop 8 (u32 (freq + 500) / 1000) 2 = Some (m, n) -> m <= 64 ->
  wp (r82xx_set_pll freq)
    (fun rc s' => rc = 0 ->
       Z.abs (65536 * (freq * m) - vco_synth (xtal (cfg s.1)) (regs s'.1)) <= 65536 * 18000) s.
Proof.
  intros Hok Hx Hf Hmix Hm. pose proof Hok as ((_ & _ & Hxu) & _ & _).
  pose proof (pll_arith (xtal (cfg s.1)) freq m n ltac:(lia) Hf Hmix Hm) as Har.
  cbv zeta in Har. destruct Har as (Hn13 & Href & Hfra & Hnz & Hsynth).
  unfold r82xx_set_pll. wp_step. apply wp_gets. cbv zeta.
  replace (u32 (2 * xtal (cfg s.1)) =? 0) with false by lia.
  assert (Hneg : forall rc (s' : r82xx_priv * D), rc < 0 -> rc = 0 ->
    Z.abs (65536 * (freq * m) - vco_synth (xtal (cfg s.1)) (regs s'.1)) <= 65536 * 18000) by lia.
  pose proof (framed_start s [] Hok) as Hs.
  do 3 run_keep Hs Hneg.
  rewrite Hmix. cbn [from_option_trap]. wp_step. apply wp_ret.
  run_keep Hs Hneg. destruct a as [rc data]. destruct (Z.ltb_spec rc 0); [by apply wp_ret, Hneg|].
  run_keep Hs Hneg. run_keep Hs Hneg.
  set (q := u64 (freq * m) / u32 (2 * xtal (cfg s.1))) in *.
  set (ref := u32 (xtal (cfg s.1) + 500) / 1000) in *.
  set (fra := u32 (u64 (u64 (freq * m) - u32 (u32 (2 * xtal (cfg s.1)) * u8 q)) / 1000)) in *.
  destruct (_ <? u8 q) eqn:Hnint; [by apply wp_ret, Hneg|].
  assert (Hn128 : 13 <= u8 q < 128) by (split; [done|by apply (nint_below a)]).
  (* register 0x14 *)
  eapply wp_check_post; [eapply write_reg_sets; [exact Hs|done]|exact Hneg|].
  intros ? s4 (Hok4 & Hp4 & Hr4) _. clear Hs.
  pose proof (framed_start s4 [15%nat] Hok4) as Hs.
  run_keep Hs Hneg.
  destruct (sdm_loop_spec ref fra Href Hfra) as (sdm & -> & Hsr & Hse).
  cbn [from_option_trap]. wp_step. apply wp_ret.
  (* registers 0x16 and 0x15 *)
  eapply wp_check_post; [eapply write_reg_sets; [exact Hs|done]|exact Hneg|].
  intros ? s6 (Hok6 & Hp6 & Hr6) _.
  pose proof (framed_start s6 [15%nat; 17%nat] Hok6) as Hs6.
  eapply wp_check_post; [eapply write_reg_sets; [exact Hs6|done]|exact Hneg|].
  intros ? s7 (Hok7 & Hp7 & Hr7) _.
  pose proof (framed_start s7 [15%nat; 16%nat; 17%nat] Hok7) as Hs7.
  assert (Hfin : forall (rc : Z) (sf : r82xx_priv * D),
    (forall k, k ∈ [15%nat; 16%nat; 17%nat] -> regs sf.1 !! k = regs s7.1 !! k) -> rc = 0 ->
    Z.abs (65536 * (freq * m) - vco_synth (xtal (cfg s.1)) (regs sf.1)) <= 65536 * 18000).
  { intros _ sf Hk _. destruct Hs as (_ & _ & Hs15). specialize (Hs15 15%nat ltac:(by_compute)).
    rewrite (vco_synth_written _ (u8 q) sdm (regs s4.1) (regs s'5.1) (regs s6.1) (regs s7.1)); [by apply Hsynth|try done..].
    - by rewrite Hp6.
    - by rewrite Hp7. }
  run_keep Hs7 Hneg. destruct a0 as [rc' data2].
  destruct Hs7 as (Hok8 & _ & Hk8).
  destruct (rc' <? 0); [exact (Hfin rc' _ Hk8)|].
  destruct (negb _); (wp_step; apply wp_modify).
  - exact (Hfin 0 (set_has_lock 0 _, _) Hk8).
  - match goal with |- wp _ _ ?st => pose proof (framed_start st [15%nat; 16%nat; 17%nat] Hok8) as Hs9 end.
    eapply preserves_wp; [|exact Hs9|]; [solve_pres|].
    intros rc'' s9 (_ & _ & Hk9). apply Hfin. intros k Hk. rewrite Hk9 by done. by apply Hk8.
Qed.
End pll.

Lemma r82xx_set_pll_synth_witness :
  mix_div_loop 8 (u32 (103570000 + 500) / 1000) 2 = Some (32, 4) /\
  wp (r82xx_set_pll 103570000)
    (fun rc s' => rc = 0 ->
       Z.abs (65536 * (103570000 * 32) - vco_synth (xtal (cfg st1.1)) (regs s'.1)) <= 65536 * 18000) st1.
Proof.
  split; [reflexivity|].
  refine (r82xx_set_pll_synth 103570000 32 4 st1 _ _ _ _ _).
  - exact st1_ok.
  - by vm_compute.
  - by_compute.
  - reflexivity.
  - by vm_compute.
Defined.

(** The run of the witness returns 0. *)
Example set_pll_returns_0 : option_map fst (r82xx_set_pll 103570000 st1) = Some 0.
Proof. vm_compute. reflexivity. Qed.

(** r82xx_set_pll with no divider that fits.  The guard against it looks at
    [nint] after it was cut to 8 bits: at 1.85 GHz with a 28.8 MHz crystal the
    multiplier is 4111, cut to 15, the guard passes, and the function returns 0
    with a VCO setting (864 MHz) that is 236 GHz away from [freq * mix_div]. *)
Lemma r82xx_pll_guard_truncated :
  mix_div_loop 8 (u32 (1850000000 + 500) / 1000) 2 = Some (128, 0) /\
  exists s', r82xx_set_pll 1850000000 st1 = Some (0, s') /\ has_lock s'.1 = 1 /\
    vco_synth (xtal (cfg st1.1)) (regs s'.1) / 65536 < 1000000000 /\ 1850000000 * 128 > 236000000000.
Proof.
  split; [reflexivity|]. eexists. split; [vm_compute; reflexivity|]. by vm_compute.
Qed.
