(* ===== verification/R82xxFields.v ===== *)
(** * R820T/R828D: mux, gain and filter registers

    A small logic for the masked writes: [fields p0 L s] says that, from the
    struct [p0] on, exactly the bit fields of [L] were written to the shadow
    registers.  The calls that set the input filter, the gain and the bandwidth
    are specified with it. *)

From S2P Require Import Prelude RtlsdrI2c I2cSim R82xx R82xxTune R82xxInv R82xxOps R82xxSpec R82xxPll.

Definition has_field (rs : list Z) (f : field) : Prop :=
  let '(reg, mask, val) := f in reg_of rs reg .& mask = val .& mask.

(** No field of [L] shares a bit with [mask] of [reg]. *)
Definition apart (reg mask : Z) (L : list field) : bool :=
  forallb (fun '(r, m, _) => negb (r =? reg) || (m .& mask =? 0)) L.

Definition fields_of (p0 p : r82xx_priv) (L : list field) : Prop :=
  priv_ok p /\ p = set_regs (regs p) p0 /\ Forall (has_field (regs p)) L /\
  forall reg mask, REG_SHADOW_START <= reg -> apart reg mask L = true ->
    reg_of (regs p) reg .& mask = reg_of (regs p0) reg .& mask.

Lemma fields_start p : priv_ok p -> fields_of p p [].
Proof. intros Hok. split_and!; [done|by rewrite set_regs_id|done|done]. Qed.

Lemma reg_of_insert_same rs reg v :
  (Z.to_nat (reg - REG_SHADOW_START) < length rs)%nat ->
  reg_of (<[Z.to_nat (reg - REG_SHADOW_START) := v]> rs) reg = v.
Proof. intros Hl. unfold reg_of, byte_at. apply nth_lookup_Some. by rewrite list_lookup_insert_eq. Qed.

Lemma reg_of_insert_ne rs reg r v :
  REG_SHADOW_START <= reg -> REG_SHADOW_START <= r -> r <> reg ->
  reg_of (<[Z.to_nat (reg - REG_SHADOW_START) := v]> rs) r = reg_of rs r.
Proof.
  unfold reg_of, byte_at, REG_SHADOW_START. intros Hr Hr' Hne.
  rewrite !nth_lookup. by rewrite list_lookup_insert_ne by lia.
Qed.

Lemma reg_of_lookup rs reg v :
  rs !! Z.to_nat (reg - REG_SHADOW_START) = Some v -> reg_of rs reg = v.
Proof. intros E. unfold reg_of, byte_at. by apply nth_lookup_Some. Qed.

(** All fields of [L] are in shadow registers. *)
Definition in_shadow (L : list field) : bool := forallb (fun '(r, _, _) => REG_SHADOW_START <=? r) L.

(** Adding a field. *)
Lemma fields_insert p0 p L reg mask val old :
  fields_of p0 p L -> in_shadow L = true -> apart reg mask L = true ->
  REG_SHADOW_START <= reg < REG_SHADOW_START + NUM_REGS ->
  regs p !! Z.to_nat (reg - REG_SHADOW_START) = Some old ->
  let p' := set_regs (<[Z.to_nat (reg - REG_SHADOW_START) := masked old val mask]> (regs p)) p in
  priv_ok p' -> fields_of p0 p' ((reg, mask, val) :: L).
Proof.
  intros (Hok & Hp & HL & Hrest) Hin Hap Hreg Hold p' Hok'.
  assert (Hlen : (Z.to_nat (reg - REG_SHADOW_START) < length (regs p))%nat)
    by (by eapply lookup_lt_Some).
  split; [done|]. split; [subst p'; rewrite Hp; done|]. split.
  - constructor.
    { subst p'. cbn [has_field regs set_regs]. rewrite reg_of_insert_same by done. apply masked_inside. }
    unfold in_shadow, apart in *. rewrite forallb_forall in Hin, Hap.
    apply Forall_forall. intros [[r m] v] Hf.
    pose proof (proj1 (Forall_forall _ _) HL _ Hf) as Hfv. cbn [has_field] in *.
    specialize (Hin _ (proj1 (list_elem_of_In _ _) Hf)).
    specialize (Hap _ (proj1 (list_elem_of_In _ _) Hf)). cbv beta iota in *.
    subst p'. cbn [regs set_regs]. destruct (decide (r = reg)) as [->|Hne].
    + rewrite reg_of_insert_same by done. rewrite masked_outside by lia.
      by rewrite <- (reg_of_lookup _ _ _ Hold).
    + by rewrite reg_of_insert_ne by lia.
  - intros r m Hr Ha. cbn [apart forallb] in Ha. apply andb_true_iff in Ha as [Ha1 Ha2].
    subst p'. cbn [regs set_regs]. destruct (decide (r = reg)) as [->|Hne].
    + rewrite reg_of_insert_same by done. rewrite masked_outside by (rewrite Z.land_comm; lia).
      rewrite <- (reg_of_lookup _ _ _ Hold). by apply Hrest.
    + rewrite reg_of_insert_ne by lia. by apply Hrest.
Qed.

Section fields.
Context {D : Type} `{RtlsdrI2cLaws D}.

Definition fields (p0 : r82xx_priv) (L : list field) (s : r82xx_priv * D) : Prop :=
  fields_of p0 s.1 L /\ in_shadow L = true.

Lemma fields_init s : priv_ok s.1 -> fields s.1 [] s.
Proof. intros Hok. split; [by apply fields_start|done]. Qed.

Lemma write_mask_field p0 L reg val mask s :
  fields p0 L s -> REG_SHADOW_START <= reg < REG_SHADOW_START + NUM_REGS ->
  is_u8 val -> is_u8 mask -> apart reg mask L = true ->
  wp (r82xx_write_reg_mask (D:=D) reg val mask)
    (fun _ s' => fields p0 ((reg, mask, val) :: L) s') s.
Proof.
  intros [Hf Hin] Hreg Hval Hmask Hap.
  eapply wp_mono; [|apply write_reg_mask_wp; [apply Hf|done..]].
  intros rc s' (old & msgs & Hold & _ & Hp' & Hok' & _).
  rewrite Hp' in Hok'. split; [rewrite Hp'; by eapply fields_insert|].
  cbn [in_shadow forallb]. fold (in_shadow L). rewrite Hin. lia.
Qed.

Lemma write_reg_field p0 L reg val s :
  fields p0 L s -> REG_SHADOW_START <= reg < REG_SHADOW_START + NUM_REGS ->
  is_u8 val -> apart reg 0xff L = true ->
  wp (r82xx_write_reg (D:=D) reg val) (fun _ s' => fields p0 ((reg, 0xff, val) :: L) s') s.
Proof.
  intros [Hf Hin] Hreg Hval Hap. pose proof Hf as ((Hcfg & Hlen & Hu8) & _).
  unfold REG_SHADOW_START, NUM_REGS in *.
  destruct (lookup_lt_is_Some_2 (regs s.1) (Z.to_nat (reg - 5)) ltac:(lia)) as [old Hold].
  pose proof (Forall_lookup_1 _ _ _ _ Hu8 Hold) as Ho.
  eapply wp_mono; [|apply r82xx_write_wp; unfold REG_SHADOW_START, NUM_REGS;
    [apply Hf|lia|done|apply Forall_singleton, u8_range|cbn; lia]].
  intros rc s' (Hp' & _). rewrite u8_small in Hp' by done.
  rewrite <- (masked_all old val) in Hp' by done.
  split; [|cbn [in_shadow forallb]; fold (in_shadow L); rewrite Hin; unfold REG_SHADOW_START; lia].
  rewrite Hp'. cbn [list_inserts].
  eapply fields_insert; unfold REG_SHADOW_START, NUM_REGS; [done..|].
  rewrite masked_all by done. apply priv_ok_set_regs; [apply Hf|by rewrite length_insert|].
  by apply Forall_insert.
Qed.

Lemma read_fields p0 L reg len :
  0 <= len <= NUM_REGS -> preserves (fields p0 L) (r82xx_read (D:=D) reg len).
Proof.
  intros Hlen s [Hf Hin]. eapply wp_mono; [|apply read_same; [apply Hf|done]].
  intros ? s' E. unfold fields. by rewrite E.
Qed.
End fields.

(** One masked write, plain write or read of a run with the fields [Hs]; the
    call after it is in the success branch. *)
Ltac run_field Hs Hneg :=
  cbv beta zeta in *;
  lazymatch type of Hs with
  | fields ?p ?L _ =>
      lazymatch goal with
      | |- wp (check (r82xx_write_reg_mask _ _ _) _) _ _ =>
          eapply wp_check_post; [apply (write_mask_field p L); [exact Hs|by vm_compute|..]|exact Hneg|
                                 clear Hs; intros ? ? Hs _]
      | |- wp (check (r82xx_write_reg _ _) _) _ _ =>
          eapply wp_check_post; [apply (write_reg_field p L); [exact Hs|by vm_compute|..]|exact Hneg|
                                 clear Hs; intros ? ? Hs _]
      | |- wp (r82xx_write_reg_mask _ _ _) _ _ =>
          eapply wp_mono; [|apply (write_mask_field p L); [exact Hs|by vm_compute|..]];
          [clear Hs; intros ? ? Hs|..]
      | |- wp (mbind _ (r82xx_read _ _)) _ _ =>
          apply (wp_bind_keep (fields p L)); [apply read_fields; by vm_compute|exact Hs|clear Hs; intros ? ? Hs]
      end
  end; try by_compute.

(** ** The input filter *)

(** Drive strength and capacitor for a crystal setting. *)
Definition xtal_drive (cap : r82xx_xtal_cap_value) (r : r82xx_freq_range) : Z :=
  match cap with
  | XTAL_LOW_CAP_30P | XTAL_LOW_CAP_20P => xtal_cap20p r
  | XTAL_LOW_CAP_10P => xtal_cap10p r
  | XTAL_LOW_CAP_0P | XTAL_HIGH_CAP_0P => xtal_cap0p r
  end .| (match cap with XTAL_HIGH_CAP_0P => 0 | _ => 0x08 end).

Definition mux_fields (cap : r82xx_xtal_cap_value) (r : r82xx_freq_range) : list field :=
  [(0x17, 0x08, open_d r); (0x1a, 0xc3, rf_mux_ploy r); (0x1b, 0xff, tf_c r);
   (0x10, 0x0b, xtal_drive cap r); (0x08, 0x3f, 0x00); (0x09, 0x3f, 0x00)].

Lemma freq_ranges_u8 : Forall (fun r => is_u8 (open_d r) /\ is_u8 (rf_mux_ploy r) /\ is_u8 (tf_c r) /\
  forall cap, is_u8 (xtal_drive cap r)) freq_ranges.
Proof.
  repeat apply Forall_cons_2; try apply Forall_nil_2; split_and!;
    try by_compute; intros []; by_compute.
Qed.

Lemma ranges_u8 i r :
  freq_ranges !! i = Some r ->
  is_u8 (open_d r) /\ is_u8 (rf_mux_ploy r) /\ is_u8 (tf_c r) /\ forall cap, is_u8 (xtal_drive cap r).
Proof. apply (Forall_lookup_1 _ _ _ _ freq_ranges_u8). Qed.

Section mux.
Context {D : Type} `{RtlsdrI2cLaws D}.

(** When r82xx_set_mux returns 0, the tracking filter, the mixer mux and
    the crystal capacitor registers hold the entry of [freq_ranges] whose
    interval contains the frequency (MHz), with the capacitor column and the
    drive strength of the crystal setting, and no other bit of the shadow
    registers changed. *)
Theorem r82xx_set_mux_fields (freq : Z) (s : r82xx_priv * D) :
  priv_ok s.1 -> 0 <= freq ->
  wp (r82xx_set_mux freq)
    (fun rc s' => 0 <= rc -> exists i r,
       freq_ranges !! i = Some r /\ range_freq r <= freq / 1000000 /\
       (forall r', freq_ranges !! S i = Some r' -> freq / 1000000 < range_freq r') /\
       fields_of s.1 s'.1 (rev (mux_fields (xtal_cap_sel s.1) r))) s.
Proof.
  intros Hok Hf. destruct (freq_range_of_spec freq Hf) as (i & r & Hfr & Hi & Hlo & Hhi).
  destruct (ranges_u8 i r Hi) as (Ho & Hm & Ht & Hx).
  pose proof (fields_init s Hok) as Hs.
  unfold r82xx_set_mux. rewrite Hfr. cbn [from_option_trap]. wp_step. apply wp_ret.
  match goal with |- wp _ ?Q _ => assert (Hneg : forall rc s', rc < 0 -> Q rc s') by (intros; lia) end.
  do 3 (run_field Hs Hneg; [done..|]). wp_step. apply wp_gets.
  assert (Hcap : xtal_cap_sel s'1.1 = xtal_cap_sel s.1) by (destruct Hs as ((_ & -> & _) & _); done).
  match goal with |- wp (check (r82xx_write_reg_mask _ ?v _) _) _ _ =>
    assert (v = xtal_drive (xtal_cap_sel s.1) r) as -> by (rewrite Hcap; by destruct (xtal_cap_sel s.1)) end.
  run_field Hs Hneg; [done|]. run_field Hs Hneg. run_field Hs Hneg.
  intros _. exists i, r. split_and!; [done..|]. apply Hs.
Qed.
End mux.

Lemma r82xx_set_mux_fields_witness :
  wp (r82xx_set_mux 103570000)
    (fun rc s' => 0 <= rc -> exists i r,
       freq_ranges !! i = Some r /\ range_freq r <= 103570000 / 1000000 /\
       (forall r', freq_ranges !! S i = Some r' -> 103570000 / 1000000 < range_freq r') /\
       fields_of st1.1 s'.1 (rev (mux_fields (xtal_cap_sel st1.1) r))) st1.
Proof.
  refine (r82xx_set_mux_fields 103570000 st1 _ _).
  - exact st1_ok.
  - by vm_compute.
Defined.

(** ** The gain *)

(** The stop of the gain loop: the first pair of indices, in the order LNA,
    mixer, LNA, ..., whose total reaches the gain. *)
Definition gain_choice (gain : Z) (i j : Z) : Prop :=
  (exists k, gain_stops !! k = Some (total_gain i j, i, j) /\ gain <= total_gain i j /\
     forall k' t i' j', (k' < k)%nat -> gain_stops !! k' = Some (t, i', j') -> t < gain) \/
  (i = 15 /\ j = 15 /\ forall k t i' j', gain_stops !! k = Some (t, i', j') -> t < gain).

Lemma first_stop_choice gain :
  gain_choice gain (first_stop gain_stops gain).1 (first_stop gain_stops gain).2 /\
  0 <= (first_stop gain_stops gain).1 <= 15 /\ 0 <= (first_stop gain_stops gain).2 <= 15.
Proof.
  destruct (first_stop_spec gain_stops gain) as [(k & t & Hk & Hg & Hmin)|[E Hall]].
  - pose proof (Forall_lookup_1 _ _ _ _ gain_stops_total Hk) as (-> & Hr). cbv beta iota in Hr.
    split; [left; exists k; by split_and!|lia].
  - rewrite E. cbn [fst snd]. split; [by right|lia].
Qed.

Section gain.
Context {D : Type} `{RtlsdrI2cLaws D}.

(** In manual mode, when r82xx_set_gain returns 0, both AGCs are off, the
    VGA is fixed, and the LNA and mixer index fields hold the first stop of
    the staircase LNA 1, mixer 1, LNA 2, ... whose gain reaches the request,
    or 15 and 15 for a request above all of them; in automatic mode both AGCs
    are on.  No other bit of the shadow registers changes. *)
Theorem r82xx_set_gain_fields (manual gain : Z) (s : r82xx_priv * D) :
  priv_ok s.1 ->
  wp (r82xx_set_gain manual gain)
    (fun rc s' => rc = 0 ->
       if truthy manual then exists i j, gain_choice gain i j /\
         fields_of s.1 s'.1 [(0x07, 0x0f, j); (0x05, 0x0f, i); (0x0c, 0x9f, 0x08); (0x07, 0x10, 0); (0x05, 0x10, 0x10)]
       else fields_of s.1 s'.1 [(0x0c, 0x9f, 0x0b); (0x07, 0x10, 0x10); (0x05, 0x10, 0)]) s.
Proof.
  intros Hok. pose proof (fields_init s Hok) as Hs. unfold r82xx_set_gain.
  match goal with |- wp _ ?Q _ => assert (Hneg : forall rc s', rc < 0 -> Q rc s') by (intros; lia) end.
  destruct (truthy manual).
  - do 2 run_field Hs Hneg. run_field Hs Hneg. destruct a as [rc' data].
    destruct (Z.ltb_spec rc' 0); [by apply wp_ret, Hneg|].
    run_field Hs Hneg. rewrite gain_loop_stops. cbn [from_option_trap]. wp_step. apply wp_ret.
    destruct (first_stop_choice gain) as (Hch & Hi & Hj).
    destruct (first_stop gain_stops gain) as [i j]. cbn [fst snd] in *.
    run_field Hs Hneg; [unfold is_u8; lia|]. run_field Hs Hneg; [unfold is_u8; lia|].
    intros _. exists i, j. split; [done|apply Hs].
  - do 3 run_field Hs Hneg. intros _. apply Hs.
Qed.
End gain.

Lemma r82xx_set_gain_fields_witness :
  wp (r82xx_set_gain 1 297)
    (fun rc s' => rc = 0 ->
       if truthy 1 then exists i j, gain_choice 297 i j /\
         fields_of st1.1 s'.1 [(0x07, 0x0f, j); (0x05, 0x0f, i); (0x0c, 0x9f, 0x08); (0x07, 0x10, 0); (0x05, 0x10, 0x10)]
       else fields_of st1.1 s'.1 [(0x0c, 0x9f, 0x0b); (0x07, 0x10, 0x10); (0x05, 0x10, 0)]) st1.
Proof. refine (r82xx_set_gain_fields 1 297 st1 _). exact st1_ok. Defined.

(** ** The bandwidth *)

Section bandwidth.
Context {D : Type} `{RtlsdrI2cLaws D}.

(** The filter that the registers 0x0a and 0x0b select, for a request of
    [bw] Hz, and the intermediate frequency [f] that goes with it. *)
Definition bandwidth_choice (bw reg_0a reg_0b f : Z) : Prop :=
  if 7000000 <? bw then reg_0a = 0x10 /\ reg_0b = 0x0b /\ f = 4570000
  else if 6000000 <? bw then reg_0a = 0x10 /\ reg_0b = 0x2a /\ f = 4570000
  else if narrow_bw <? bw then reg_0a = 0x10 /\ reg_0b = 0x6b /\ f = 3570000
  else
    reg_0a = 0x00 /\ f = 2300000 + high_pass_width reg_0b - Z.quot (real_width reg_0b) 2 /\
    bw <= real_width reg_0b /\
    (low_pass_index reg_0b = 9 \/
     byte_at r82xx_if_low_pass_bw_table (Z.to_nat (low_pass_index reg_0b + 1)) < bw - high_pass_width reg_0b).

Lemma narrow_regs bw reg_0b f :
  bandwidth_settings bw = Some (0x00, reg_0b, f) -> bw <= narrow_bw -> is_u8 reg_0b.
Proof.
  unfold bandwidth_settings, narrow_bw. change (byte_at r82xx_if_low_pass_bw_table 0) with 1700000.
  intros E Hbw. repeat case_match; simplify_eq; try lia; apply u8_range.
Qed.

Lemma low_pass_width_range r : is_u8 r -> 0 <= low_pass_width r <= 1700000.
Proof.
  intros Hr. assert (forallb (fun r => (0 <=? low_pass_width r) && (low_pass_width r <=? 1700000)) (zseq 256) = true)
    as Hall by (vm_compute; reflexivity).
  pose proof (u8_all _ Hall r Hr). cbv beta in *. lia.
Qed.

Lemma bandwidth_settings_choice bw :
  exists reg_0a reg_0b f, bandwidth_settings bw = Some (reg_0a, reg_0b, f) /\
    bandwidth_choice bw reg_0a reg_0b f /\ is_u8 reg_0a /\ is_u8 reg_0b /\ 1000000 <= f < 5000000.
Proof.
  unfold bandwidth_choice. destruct (Z.leb_spec bw narrow_bw) as [Hn|Hw].
  - destruct (bandwidth_narrow bw Hn) as (r & E & Hwide & Hnarrowest).
    pose proof (narrow_regs _ _ _ E Hn) as Hr. pose proof (low_pass_width_range r Hr).
    unfold narrow_bw, FILT_HP_BW1, FILT_HP_BW2 in Hn.
    replace (7000000 <? bw) with false by lia. replace (6000000 <? bw) with false by lia.
    replace (narrow_bw <? bw) with false by (unfold narrow_bw, FILT_HP_BW1, FILT_HP_BW2; lia).
    assert (Hf : 1000000 <= 2300000 + high_pass_width r - Z.quot (real_width r) 2 < 5000000).
    { unfold real_width, high_pass_width, FILT_HP_BW1, FILT_HP_BW2.
      rewrite Z.quot_div_nonneg by (repeat case_match; lia).
      pose proof (Z.div_mod ((if Z.testbit r 5 then 0 else 380000) + (if Z.testbit r 6 then 0 else 350000) +
        low_pass_width r) 2 ltac:(lia)). pose proof (Z.mod_pos_bound ((if Z.testbit r 5 then 0 else 380000) +
        (if Z.testbit r 6 then 0 else 350000) + low_pass_width r) 2 ltac:(lia)).
      repeat case_match; lia. }
    rewrite u32_small in E by (unfold is_u32; lia).
    do 3 eexists. split; [exact E|]. split_and!; try done; lia.
  - unfold bandwidth_settings. change (byte_at r82xx_if_low_pass_bw_table 0) with 1700000.
    unfold narrow_bw in *. rewrite (proj2 (Z.ltb_lt _ _) Hw).
    destruct (7000000 <? bw), (6000000 <? bw); do 3 eexists; split_and!; try reflexivity; try by_compute.
Qed.

(** R82xx_set_bandwidth, when it does not fail, returns the intermediate
    frequency of the filter it has set, stored as [int_freq].  Up to 2.43 MHz
    the combined low-pass and high-pass width is at least the request, the
    next narrower low-pass would be too narrow, and the IF is the centre of
    the pass band; above, one of the three wide settings is used.  No other
    bit of the shadow registers changes. *)
Theorem r82xx_set_bandwidth_fields (bw rate : Z) (s : r82xx_priv * D) :
  priv_ok s.1 ->
  wp (r82xx_set_bandwidth bw rate)
    (fun rc s' => 0 <= rc -> exists reg_0a reg_0b,
       bandwidth_choice bw reg_0a reg_0b rc /\ int_freq s'.1 = rc /\
       fields_of (set_int_freq rc s.1) s'.1 [(0x0b, 0xef, reg_0b); (0x0a, 0x10, reg_0a)]) s.
Proof.
  intros Hok. destruct (bandwidth_settings_choice bw) as (ra & rb & f & Hset & Hch & Ha & Hb & Hf).
  unfold r82xx_set_bandwidth. rewrite Hset. cbn [from_option_trap]. wp_step. apply wp_ret.
  match goal with |- wp _ ?Q _ => assert (Hneg : forall rc s', rc < 0 -> Q rc s') by (intros; lia) end.
  wp_step. apply wp_modify.
  pose proof (fields_init (set_int_freq f s.1, s.2) Hok) as Hs.
  do 2 (run_field Hs Hneg; [done..|]). wp_step. apply wp_gets.
  assert (int_freq s'0.1 = f) as -> by (destruct Hs as ((_ & -> & _) & _); done).
  rewrite i32_small by (unfold is_i32; lia). apply wp_ret.
  intros _. exists ra, rb. split_and!; [done| |apply Hs].
  destruct Hs as ((_ & -> & _) & _). done.
Qed.
End bandwidth.

Lemma r82xx_set_bandwidth_fields_witness :
  wp (r82xx_set_bandwidth 2000000 2400000)
    (fun rc s' => 0 <= rc -> exists reg_0a reg_0b,
       bandwidth_choice 2000000 reg_0a reg_0b rc /\ int_freq s'.1 = rc /\
       fields_of (set_int_freq rc st1.1) s'.1 [(0x0b, 0xef, reg_0b); (0x0a, 0x10, reg_0a)]) st1.
Proof. refine (r82xx_set_bandwidth_fields 2000000 2400000 st1 _). exact st1_ok. Defined.

(** The runs of the witnesses succeed. *)
Example set_bandwidth_returns : option_map fst (r82xx_set_bandwidth 2000000 2400000 st1) = Some 1625000.
Proof. vm_compute. reflexivity. Qed.
