(* ===== verification/E4k.v ===== *)
(** * The Elonics E4000 tuner driver (src/tuner_e4k.c): data and operations

    State: [e4k_state] and the device.  The driver keeps no shadow registers:
    a masked write reads the register from the chip first. *)

From S2P Require Import Prelude RtlsdrI2c.

Definition EINVAL : Z := 22.

(** ** Data (include/tuner_e4k.h) *)

Definition E4K_I2C_ADDR : Z := 0xc8.
Definition E4K_CHECK_ADDR : Z := 0x02.
Definition E4K_CHECK_VAL : Z := 0x40.

Definition E4K_REG_MASTER1 : Z := 0x00.
Definition E4K_REG_CLK_INP : Z := 0x05.
Definition E4K_REG_REF_CLK : Z := 0x06.
Definition E4K_REG_SYNTH1 : Z := 0x07.
Definition E4K_REG_SYNTH3 : Z := 0x09.
Definition E4K_REG_SYNTH4 : Z := 0x0a.
Definition E4K_REG_SYNTH5 : Z := 0x0b.
Definition E4K_REG_SYNTH7 : Z := 0x0d.
Definition E4K_REG_FILT1 : Z := 0x10.
Definition E4K_REG_FILT2 : Z := 0x11.
Definition E4K_REG_FILT3 : Z := 0x12.
Definition E4K_REG_GAIN1 : Z := 0x14.
Definition E4K_REG_GAIN2 : Z := 0x15.
Definition E4K_REG_GAIN3 : Z := 0x16.
Definition E4K_REG_GAIN4 : Z := 0x17.
Definition E4K_REG_AGC1 : Z := 0x1a.
Definition E4K_REG_AGC4 : Z := 0x1d.
Definition E4K_REG_AGC5 : Z := 0x1e.
Definition E4K_REG_AGC6 : Z := 0x1f.
Definition E4K_REG_AGC7 : Z := 0x20.
Definition E4K_REG_AGC11 : Z := 0x24.
Definition E4K_REG_DC1 : Z := 0x29.
Definition E4K_REG_DC2 : Z := 0x2a.
Definition E4K_REG_DC3 : Z := 0x2b.
Definition E4K_REG_DC4 : Z := 0x2c.
Definition E4K_REG_DC5 : Z := 0x2d.
Definition E4K_REG_DC7 : Z := 0x2f.
Definition E4K_REG_DCTIME1 : Z := 0x70.
Definition E4K_REG_DCTIME2 : Z := 0x71.
Definition E4K_REG_BIAS : Z := 0x78.
Definition E4K_REG_CLKOUT_PWDN : Z := 0x7a.

Definition E4K_MASTER1_RESET : Z := 1.
Definition E4K_MASTER1_NORM_STBY : Z := 2.
Definition E4K_MASTER1_POR_DET : Z := 4.
Definition E4K_FILT3_DISABLE : Z := 0x20.
Definition E4K_AGC7_MIX_GAIN_AUTO : Z := 1.
Definition E4K_AGC11_LNA_GAIN_ENH : Z := 1.
Definition E4K_DC5_RANGE_DET_EN : Z := 4.
Definition E4K_AGC1_MOD_MASK : Z := 0xf.
Definition E4K_AGC_MOD_SERIAL : Z := 0x0.
Definition E4K_AGC_MOD_IF_SERIAL_LNA_AUTON : Z := 0x9.

Definition MHZ (x : Z) : Z := x * 1000 * 1000.
Definition KHZ (x : Z) : Z := x * 1000.

(* include/tuner_e4k.h: e4k_band *)
Inductive e4k_band : Type := E4K_BAND_VHF2 | E4K_BAND_VHF3 | E4K_BAND_UHF | E4K_BAND_L.

#[export] Instance e4k_band_eq_dec : EqDecision e4k_band.
Proof. solve_decision. Defined.

Definition band_z (b : e4k_band) : Z :=
  match b with E4K_BAND_VHF2 => 0 | E4K_BAND_VHF3 => 1 | E4K_BAND_UHF => 2 | E4K_BAND_L => 3 end.

(** [enum e4k_if_filter], an unsigned int: the code checks its range. *)
Definition E4K_IF_FILTER_MIX : Z := 0.
Definition E4K_IF_FILTER_CHAN : Z := 1.
Definition E4K_IF_FILTER_RC : Z := 2.

(* include/tuner_e4k.h: e4k_pll_params *)
Record e4k_pll_params : Type := mk_pll {
  pll_fosc : Z;
  pll_intended_flo : Z;
  pll_flo : Z;
  pll_x : Z;
  pll_z : Z;
  pll_r : Z;
  pll_r_idx : Z;
  pll_threephase : Z;
}.

(* include/tuner_e4k.h: e4k_state *)
Record e4k_state : Type := mk_e4k {
  e4k_i2c_addr : Z;
  e4k_cur_band : e4k_band;
  e4k_vco : e4k_pll_params;
}.

Definition set_band (b : e4k_band) (p : e4k_state) : e4k_state := mk_e4k (e4k_i2c_addr p) b (e4k_vco p).
Definition set_vco (v : e4k_pll_params) (p : e4k_state) : e4k_state := mk_e4k (e4k_i2c_addr p) (e4k_cur_band p) v.

(* include/reg_field.h: reg_field *)
Record reg_field : Type := mk_field { fld_reg : Z; fld_shift : Z; fld_width : Z }.

(** ** Pure parts *)

(* src/tuner_e4k.c: unsigned_delta *)
Definition unsigned_delta (a b : Z) : Z := if b <? a then u32 (a - b) else u32 (b - a).

(* src/tuner_e4k.c: width2mask *)
Definition width2mask : list Z := [0; 1; 3; 7; 0xf; 0x1f; 0x3f; 0x7f; 0xff].

(* src/tuner_e4k.c: rf_filt_center_uhf *)
Definition rf_filt_center_uhf : list Z := map MHZ
  [360; 380; 405; 425; 450; 475; 505; 540; 575; 615; 670; 720; 760; 840; 890; 970].

(* src/tuner_e4k.c: rf_filt_center_l *)
Definition rf_filt_center_l : list Z := map MHZ
  [1300; 1320; 1360; 1410; 1445; 1460; 1490; 1530; 1560; 1590; 1640; 1660; 1680; 1700; 1720; 1750].

(** The loop of closest_arr_idx, at index [i]. *)
(* src/tuner_e4k.c:174-180 closest_arr_idx *)
Fixpoint closest_loop (arr : list Z) (freq i best_delta bi : Z) : Z :=
  match arr with
  | [] => bi
  | a :: arr' =>
      let delta := unsigned_delta freq a in
      if delta <? best_delta then closest_loop arr' freq (i + 1) delta i
      else closest_loop arr' freq (i + 1) best_delta bi
  end.

(* src/tuner_e4k.c: closest_arr_idx *)
Definition closest_arr_idx (arr : list Z) (freq : Z) : Z := closest_loop arr freq 0 0xffffffff 0.

(* src/tuner_e4k.c: choose_rf_filter *)
Definition choose_rf_filter (band : e4k_band) (freq : Z) : Z :=
  match band with
  | E4K_BAND_VHF2 | E4K_BAND_VHF3 => 0
  | E4K_BAND_UHF => closest_arr_idx rf_filt_center_uhf freq
  | E4K_BAND_L => closest_arr_idx rf_filt_center_l freq
  end.

(* src/tuner_e4k.c: mix_filter_bw *)
Definition mix_filter_bw : list Z := map KHZ
  [27000; 27000; 27000; 27000; 27000; 27000; 27000; 27000;
   4600; 4200; 3800; 3400; 3300; 2700; 2300; 1900].

(* src/tuner_e4k.c: ifrc_filter_bw *)
Definition ifrc_filter_bw : list Z := map KHZ
  [21400; 21000; 17600; 14700; 12400; 10600; 9000; 7700;
   6400; 5300; 4400; 3400; 2600; 1800; 1200; 1000].

(* src/tuner_e4k.c: ifch_filter_bw *)
Definition ifch_filter_bw : list Z := map KHZ
  [5500; 5300; 5000; 4800; 4600; 4400; 4300; 4100;
   3900; 3800; 3700; 3600; 3400; 3300; 3200; 3100;
   3000; 2950; 2900; 2800; 2750; 2700; 2600; 2550;
   2500; 2450; 2400; 2300; 2280; 2240; 2200; 2150].

(* src/tuner_e4k.c:253-263 if_filter_bw *)
Definition if_filter_bw : list (list Z) := [mix_filter_bw; ifch_filter_bw; ifrc_filter_bw].

(* src/tuner_e4k.c: if_filter_fields *)
Definition if_filter_fields : list reg_field :=
  [mk_field E4K_REG_FILT2 4 4; mk_field E4K_REG_FILT3 0 5; mk_field E4K_REG_FILT2 0 4].

(* src/tuner_e4k.c: find_if_bw *)
Definition find_if_bw (filter bw : Z) : option Z :=
  if Z.of_nat (length if_filter_bw) <=? filter then Some (- EINVAL) else
  match arr_get if_filter_bw filter with
  | None => None
  | Some arr => Some (closest_arr_idx arr bw)
  end.

(** frequency limit, reg_synth7, mult *)
(* src/tuner_e4k.c: pll_vars *)
Definition pll_vars : list (Z * Z * Z) :=
  [(KHZ 72400, 15, 48);
   (KHZ 81200, 14, 40);
   (KHZ 108300, 13, 32);
   (KHZ 162500, 12, 24);
   (KHZ 216600, 11, 16);
   (KHZ 325000, 10, 12);
   (KHZ 350000, 9, 8);
   (KHZ 432000, 3, 8);
   (KHZ 667000, 2, 6);
   (KHZ 1200000, 1, 4)].

(* src/tuner_e4k.c: is_fosc_valid *)
Definition is_fosc_valid (fosc : Z) : bool := negb ((fosc <? MHZ 16) || (MHZ 30 <? fosc)).

Definition E4K_PLL_Y : Z := 65536.

(* src/tuner_e4k.c: compute_fvco *)
Definition compute_fvco (f_osc z x : Z) : Z :=
  let fvco_z := u64 (f_osc * z) in
  let fvco_x := u64 (f_osc * x) / E4K_PLL_Y in
  u64 (fvco_z + fvco_x).

(* src/tuner_e4k.c: compute_flo *)
Definition compute_flo (f_osc z x r : Z) : Z :=
  let fvco := compute_fvco f_osc z x in
  if fvco =? 0 then u32 (- EINVAL) else u32 (fvco / r).

(** The loop over [pll_vars]: three-phase bit, r_idx and r of the first entry
    above the frequency, else the initial values. *)
(* src/tuner_e4k.c:497-504 e4k_compute_pll_params *)
Fixpoint find_pll_vars (l : list (Z * Z * Z)) (intended_flo : Z) : Z * Z * Z :=
  match l with
  | [] => (0, 0, 2)
  | (f, reg_synth7, mult) :: l' =>
      if intended_flo <? f then ((if truthy (reg_synth7 .& 0x08) then 1 else 0), reg_synth7, mult)
      else find_pll_vars l' intended_flo
  end.

(** The result and [*oscp]. *)
(* src/tuner_e4k.c: e4k_compute_pll_params *)
Definition e4k_compute_pll_params (oscp : e4k_pll_params) (fosc intended_flo : Z) : Z * e4k_pll_params :=
  let oscp := mk_pll (pll_fosc oscp) (pll_intended_flo oscp) (pll_flo oscp) (pll_x oscp) (pll_z oscp)
                (pll_r oscp) 0 (pll_threephase oscp) in
  if negb (is_fosc_valid fosc) then (0, oscp) else
  let '(three_phase_mixing, r_idx, r) := find_pll_vars pll_vars intended_flo in
  let intended_fvco := u64 (intended_flo * r) in
  let z := intended_fvco / fosc in
  let remainder := u64 (intended_fvco - u64 (fosc * z)) in
  let x := u32 (u64 (remainder * E4K_PLL_Y) / fosc) in
  let flo := i32 (compute_flo fosc (u8 z) (u16 x) r) in
  (u32 flo, mk_pll fosc intended_flo (u32 flo) (u16 x) (u8 z) r r_idx three_phase_mixing).

(* src/tuner_e4k.c: if_stage1_gain *)
Definition if_stage1_gain : list Z := [-3; 6].
(* src/tuner_e4k.c: if_stage23_gain *)
Definition if_stage23_gain : list Z := [0; 3; 6; 9].
(* src/tuner_e4k.c: if_stage4_gain *)
Definition if_stage4_gain : list Z := [0; 1; 2; 2].
(* src/tuner_e4k.c: if_stage56_gain *)
Definition if_stage56_gain : list Z := [3; 6; 9; 12; 15; 15; 15; 15].

(** Stage 0 is a null pointer with length 0. *)
(* src/tuner_e4k.c:616-634 if_stage_gain *)
Definition if_stage_gain : list (list Z) :=
  [[]; if_stage1_gain; if_stage23_gain; if_stage23_gain; if_stage4_gain; if_stage56_gain; if_stage56_gain].

(* src/tuner_e4k.c: if_stage_gain_regs *)
Definition if_stage_gain_regs : list reg_field :=
  [mk_field 0 0 0;
   mk_field E4K_REG_GAIN3 0 1;
   mk_field E4K_REG_GAIN3 1 2;
   mk_field E4K_REG_GAIN3 3 2;
   mk_field E4K_REG_GAIN3 5 2;
   mk_field E4K_REG_GAIN4 0 3;
   mk_field E4K_REG_GAIN4 3 3].

(** The pairs of the C array. *)
(* src/tuner_e4k.c: lnagain *)
Definition lnagain : list (Z * Z) :=
  [(-50, 0); (-25, 1); (0, 4); (25, 5); (50, 6); (75, 7); (100, 8); (125, 9);
   (150, 10); (175, 11); (200, 12); (250, 13); (300, 14)].

(* src/tuner_e4k.c: enhgain *)
Definition enhgain : list Z := [10; 30; 50; 70].

(** Index of the first entry equal to [val]. *)
(* src/tuner_e4k.c:726-730 find_stage_gain *)
Fixpoint index_of (l : list Z) (i val : Z) : option Z :=
  match l with
  | [] => None
  | a :: l' => if a =? val then Some i else index_of l' (i + 1) val
  end.

(* src/tuner_e4k.c: find_stage_gain *)
Definition find_stage_gain (stage val : Z) : option Z :=
  if Z.of_nat (length if_stage_gain) <=? stage then Some (- EINVAL) else
  match arr_get if_stage_gain stage with
  | None => None
  | Some arr => match index_of arr 0 val with Some i => Some i | None => Some (- EINVAL) end
  end.

(* src/tuner_e4k.c: if_gains_max *)
Definition if_gains_max : list Z := [0; 6; 9; 9; 2; 15; 15].

(** mixer_gain, if1_gain, reg *)
(* src/tuner_e4k.c: dc_gain_comb *)
Definition dc_gain_comb : list (Z * Z * Z) :=
  [(4, -3, 0x50); (4, 6, 0x51); (12, -3, 0x52); (12, 6, 0x53)].

(* src/tuner_e4k.c: TO_LUT *)
Definition TO_LUT (offset range : Z) : Z := offset .| (range ≪ 6).

(** ** Operations *)

Section e4k.
Context {D : Type} `{RtlsdrI2c D}.

(* src/tuner_e4k.c: e4k_reg_write *)
Definition e4k_reg_write (reg val : Z) : M (e4k_state * D) Z :=
  addr ← priv e4k_i2c_addr;
  r ← on_dev (rtlsdr_i2c_write_fn addr [u8 reg; u8 val]);
  mret (if r =? 2 then 0 else -1).

(* src/tuner_e4k.c: e4k_reg_read *)
Definition e4k_reg_read (reg : Z) : M (e4k_state * D) Z :=
  addr ← priv e4k_i2c_addr;
  r ← on_dev (rtlsdr_i2c_write_fn addr [u8 reg]);
  if r <? 1 then mret (-1) else
  p ← on_dev (rtlsdr_i2c_read_fn addr 1);
  if p.1 <? 1 then mret (-1) else
  from_option_trap (p.2 !! 0%nat).

(** A failed read gives -1, kept as the byte 0xff. *)
(* src/tuner_e4k.c: e4k_reg_set_mask *)
Definition e4k_reg_set_mask (reg mask val : Z) : M (e4k_state * D) Z :=
  r ← e4k_reg_read reg;
  let tmp := u8 r in
  if (tmp .& u8 mask) =? u8 val then mret 0 else
  e4k_reg_write reg ((tmp .& ~~ u8 mask) .| (u8 val .& u8 mask)).

(* src/tuner_e4k.c: e4k_field_write *)
Definition e4k_field_write (field : reg_field) (val : Z) : M (e4k_state * D) Z :=
  e4k_reg_read (fld_reg field) ;?
  w ← from_option_trap (arr_get width2mask (fld_width field));
  let mask := u8 (w ≪ fld_shift field) in
  e4k_reg_set_mask (fld_reg field) mask (u8 val ≪ fld_shift field).

(* src/tuner_e4k.c: e4k_field_read *)
Definition e4k_field_read (field : reg_field) : M (e4k_state * D) Z :=
  rc ← e4k_reg_read (fld_reg field);
  if rc <? 0 then mret rc else
  w ← from_option_trap (arr_get width2mask (fld_width field));
  mret ((rc ≫ fld_shift field) .& w).

(* src/tuner_e4k.c: e4k_rf_filter_set *)
Definition e4k_rf_filter_set : M (e4k_state * D) Z :=
  band ← priv e4k_cur_band;
  flo ← priv (fun p => pll_flo (e4k_vco p));
  let rc := choose_rf_filter band flo in
  if rc <? 0 then mret rc else e4k_reg_set_mask E4K_REG_FILT1 0xF rc.

(* src/tuner_e4k.c: e4k_if_filter_bw_set *)
Definition e4k_if_filter_bw_set (filter bandwidth : Z) : M (e4k_state * D) Z :=
  if Z.of_nat (length if_filter_bw) <=? filter then mret (- EINVAL) else
  bw_idx ← from_option_trap (find_if_bw filter bandwidth);
  field ← from_option_trap (arr_get if_filter_fields filter);
  e4k_field_write field bw_idx.

(* src/tuner_e4k.c: e4k_if_filter_chan_enable *)
Definition e4k_if_filter_chan_enable (on : Z) : M (e4k_state * D) Z :=
  e4k_reg_set_mask E4K_REG_FILT3 E4K_FILT3_DISABLE (if truthy on then 0 else E4K_FILT3_DISABLE).

(* src/tuner_e4k.c: e4k_if_filter_bw_get *)
Definition e4k_if_filter_bw_get (filter : Z) : M (e4k_state * D) Z :=
  if Z.of_nat (length if_filter_bw) <=? filter then mret (- EINVAL) else
  field ← from_option_trap (arr_get if_filter_fields filter);
  rc ← e4k_field_read field;
  if rc <? 0 then mret rc else
  arr ← from_option_trap (arr_get if_filter_bw filter);
  v ← from_option_trap (arr_get arr rc);
  mret (i32 v).

(* src/tuner_e4k.c: e4k_band_set *)
Definition e4k_band_set (band : e4k_band) : M (e4k_state * D) Z :=
  (match band with
   | E4K_BAND_VHF2 | E4K_BAND_VHF3 | E4K_BAND_UHF => e4k_reg_write E4K_REG_BIAS 3
   | E4K_BAND_L => e4k_reg_write E4K_REG_BIAS 0
   end);;
  (* workaround: if we don't reset this register before writing to it, we
     get a gap between 325-350 MHz *)
  e4k_reg_set_mask E4K_REG_SYNTH1 0x06 0;;
  rc ← e4k_reg_set_mask E4K_REG_SYNTH1 0x06 (band_z band ≪ 1);
  (if 0 <=? rc then upd (set_band band) else mret tt);;
  mret rc.

(* src/tuner_e4k.c: e4k_tune_params *)
Definition e4k_tune_params (p : e4k_pll_params) : M (e4k_state * D) Z :=
  (* program R + 3phase/2phase *)
  e4k_reg_write E4K_REG_SYNTH7 (pll_r_idx p);;
  (* program Z *)
  e4k_reg_write E4K_REG_SYNTH3 (pll_z p);;
  (* program X *)
  e4k_reg_write E4K_REG_SYNTH4 (pll_x p .& 0xff);;
  e4k_reg_write E4K_REG_SYNTH5 (pll_x p ≫ 8);;
  upd (set_vco p);;
  (* set the band *)
  flo ← priv (fun p => pll_flo (e4k_vco p));
  (if flo <? MHZ 140 then e4k_band_set E4K_BAND_VHF2
   else if flo <? MHZ 350 then e4k_band_set E4K_BAND_VHF3
   else if flo <? MHZ 1135 then e4k_band_set E4K_BAND_UHF
   else e4k_band_set E4K_BAND_L);;
  (* select and set proper RF filter *)
  e4k_rf_filter_set;;
  flo ← priv (fun p => pll_flo (e4k_vco p));
  mret (i32 flo).

(** The struct [p] is not initialised; it is read only after it was filled. *)
(* src/tuner_e4k.c: e4k_tune_freq *)
Definition e4k_tune_freq (freq : Z) : M (e4k_state * D) Z :=
  fosc ← priv (fun p => pll_fosc (e4k_vco p));
  let '(rc, p) := e4k_compute_pll_params (mk_pll 0 0 0 0 0 0 0 0) fosc freq in
  if rc =? 0 then mret (- EINVAL) else
  e4k_tune_params p;;
  rc ← e4k_reg_read E4K_REG_SYNTH1;
  if negb (truthy (u32 rc .& 0x01)) then mret (-1) else mret 0.

(** The loop of e4k_set_lna_gain. *)
(* src/tuner_e4k.c:669-674 e4k_set_lna_gain *)
Fixpoint lna_gain_loop (l : list (Z * Z)) (gain : Z) : M (e4k_state * D) Z :=
  match l with
  | [] => mret (- EINVAL)
  | (g, v) :: l' =>
      if g =? gain then e4k_reg_set_mask E4K_REG_GAIN1 0xf v;; mret gain
      else lna_gain_loop l' gain
  end.

(* src/tuner_e4k.c: e4k_set_lna_gain *)
Definition e4k_set_lna_gain (gain : Z) : M (e4k_state * D) Z := lna_gain_loop lnagain gain.

(* src/tuner_e4k.c: e4k_set_enh_gain *)
Definition e4k_set_enh_gain (gain : Z) : M (e4k_state * D) Z :=
  match index_of enhgain 0 gain with
  | Some i => e4k_reg_set_mask E4K_REG_AGC11 0x7 (E4K_AGC11_LNA_GAIN_ENH .| (i ≪ 1));; mret gain
  | None =>
      e4k_reg_set_mask E4K_REG_AGC11 0x7 0;;
      (* special case: 0 = off *)
      if 0 =? gain then mret 0 else mret (- EINVAL)
  end.

(* src/tuner_e4k.c: e4k_enable_manual_gain *)
Definition e4k_enable_manual_gain (manual : Z) : M (e4k_state * D) Z :=
  (if truthy manual then
     (* Set LNA mode to manual *)
     e4k_reg_set_mask E4K_REG_AGC1 E4K_AGC1_MOD_MASK E4K_AGC_MOD_SERIAL;;
     (* Set Mixer Gain Control to manual *)
     e4k_reg_set_mask E4K_REG_AGC7 E4K_AGC7_MIX_GAIN_AUTO 0
   else
     (* Set LNA mode to auto *)
     e4k_reg_set_mask E4K_REG_AGC1 E4K_AGC1_MOD_MASK E4K_AGC_MOD_IF_SERIAL_LNA_AUTON;;
     (* Set Mixer Gain Control to auto *)
     e4k_reg_set_mask E4K_REG_AGC7 E4K_AGC7_MIX_GAIN_AUTO 1;;
     e4k_reg_set_mask E4K_REG_AGC11 0x7 0);;
  mret 0.

(* src/tuner_e4k.c: e4k_if_gain_set *)
Definition e4k_if_gain_set (stage value : Z) : M (e4k_state * D) Z :=
  rc ← from_option_trap (find_stage_gain stage value);
  if rc <? 0 then mret rc else
  (* compute the bit-mask for the given gain field *)
  field ← from_option_trap (arr_get if_stage_gain_regs stage);
  w ← from_option_trap (arr_get width2mask (fld_width field));
  let mask := u8 (w ≪ fld_shift field) in
  e4k_reg_set_mask (fld_reg field) mask (rc ≪ fld_shift field).

(* src/tuner_e4k.c: e4k_mixer_gain_set *)
Definition e4k_mixer_gain_set (value : Z) : M (e4k_state * D) Z :=
  if value =? 4 then e4k_reg_set_mask E4K_REG_GAIN2 1 0
  else if value =? 12 then e4k_reg_set_mask E4K_REG_GAIN2 1 1
  else mret (- EINVAL).

(* src/tuner_e4k.c: e4k_commonmode_set *)
Definition e4k_commonmode_set (value : Z) : M (e4k_state * D) Z :=
  if value <? 0 then mret (- EINVAL)
  else if 7 <? value then mret (- EINVAL)
  else e4k_reg_set_mask E4K_REG_DC7 7 value.

(* src/tuner_e4k.c: e4k_manual_dc_offset *)
Definition e4k_manual_dc_offset (iofs irange qofs qrange : Z) : M (e4k_state * D) Z :=
  if (iofs <? 0x00) || (0x3f <? iofs) then mret (- EINVAL) else
  if (irange <? 0x00) || (0x03 <? irange) then mret (- EINVAL) else
  if (qofs <? 0x00) || (0x3f <? qofs) then mret (- EINVAL) else
  if (qrange <? 0x00) || (0x03 <? qrange) then mret (- EINVAL) else
  e4k_reg_set_mask E4K_REG_DC2 0x3f iofs ;?
  e4k_reg_set_mask E4K_REG_DC3 0x3f qofs ;?
  e4k_reg_set_mask E4K_REG_DC4 0x33 ((qrange ≪ 4) .| irange).

(* src/tuner_e4k.c: e4k_dc_offset_calibrate *)
Definition e4k_dc_offset_calibrate : M (e4k_state * D) Z :=
  (* make sure the DC range detector is enabled *)
  e4k_reg_set_mask E4K_REG_DC5 E4K_DC5_RANGE_DET_EN E4K_DC5_RANGE_DET_EN;;
  e4k_reg_write E4K_REG_DC1 0x01.

(* src/tuner_e4k.c: e4k_dc_offset_gen_table *)
Definition e4k_dc_offset_gen_table : M (e4k_state * D) Z :=
  (* disable auto mixer gain *)
  e4k_reg_set_mask E4K_REG_AGC7 E4K_AGC7_MIX_GAIN_AUTO 0;;
  (* set LNA/IF gain to full manual *)
  e4k_reg_set_mask E4K_REG_AGC1 E4K_AGC1_MOD_MASK E4K_AGC_MOD_SERIAL;;
  (* set all 'other' gains to maximum *)
  for_each [2; 3; 4; 5; 6] (fun i =>
    g ← from_option_trap (arr_get if_gains_max i);
    e4k_if_gain_set i g;; mret tt);;
  (* iterate over all mixer + if_stage_1 gain combinations *)
  for_each dc_gain_comb (fun '(mixer_gain, if1_gain, reg) =>
    (* set the combination of mixer / if1 gain *)
    e4k_mixer_gain_set mixer_gain;;
    e4k_if_gain_set 1 if1_gain;;
    (* perform actual calibration *)
    e4k_dc_offset_calibrate;;
    (* extract I/Q offset and range values *)
    ri ← e4k_reg_read E4K_REG_DC2;
    rq ← e4k_reg_read E4K_REG_DC3;
    rr ← e4k_reg_read E4K_REG_DC4;
    let offs_i := u8 (ri .& 0x3f) in
    let offs_q := u8 (rq .& 0x3f) in
    let range := u8 rr in
    let range_i := range .& 0x3 in
    let range_q := (range ≫ 4) .& 0x3 in
    (* write into the table *)
    e4k_reg_write reg (TO_LUT offs_q range_q);;
    e4k_reg_write (reg + 0x10) (TO_LUT offs_i range_i);;
    mret tt);;
  mret 0.

(* src/tuner_e4k.c: e4k_standby *)
Definition e4k_standby (enable : Z) : M (e4k_state * D) Z :=
  e4k_reg_set_mask E4K_REG_MASTER1 E4K_MASTER1_NORM_STBY
    (if truthy enable then 0 else E4K_MASTER1_NORM_STBY);;
  mret 0.

(* src/tuner_e4k.c: magic_init *)
Definition magic_init : M (e4k_state * D) Z :=
  for_each [(0x7e, 0x01); (0x7f, 0xfe); (0x82, 0x00); (0x86, 0x50); (0x87, 0x20); (0x88, 0x01);
            (0x9f, 0x7f); (0xa0, 0x07)] (fun '(reg, val) => e4k_reg_write reg val;; mret tt);;
  mret 0.

(* src/tuner_e4k.c: e4k_init *)
Definition e4k_init : M (e4k_state * D) Z :=
  (* make a dummy i2c read or write command, will not be ACKed! *)
  e4k_reg_read 0;;
  (* Make sure we reset everything and clear POR indicator *)
  e4k_reg_write E4K_REG_MASTER1 (E4K_MASTER1_RESET .| E4K_MASTER1_NORM_STBY .| E4K_MASTER1_POR_DET);;
  (* Configure clock input *)
  e4k_reg_write E4K_REG_CLK_INP 0x00;;
  (* Disable clock output *)
  e4k_reg_write E4K_REG_REF_CLK 0x00;;
  e4k_reg_write E4K_REG_CLKOUT_PWDN 0x96;;
  (* Write some magic values into registers *)
  magic_init;;
  (* Set LNA mode to manual *)
  e4k_reg_write E4K_REG_AGC4 0x10;;
  e4k_reg_write E4K_REG_AGC5 0x04;;
  e4k_reg_write E4K_REG_AGC6 0x1a;;
  e4k_reg_set_mask E4K_REG_AGC1 E4K_AGC1_MOD_MASK E4K_AGC_MOD_SERIAL;;
  (* Set Mixer Gain Control to manual *)
  e4k_reg_set_mask E4K_REG_AGC7 E4K_AGC7_MIX_GAIN_AUTO 0;;
  (* Use auto-gain as default *)
  e4k_enable_manual_gain 0;;
  (* Select moderate gain levels *)
  e4k_if_gain_set 1 6;;
  e4k_if_gain_set 2 0;;
  e4k_if_gain_set 3 0;;
  e4k_if_gain_set 4 0;;
  e4k_if_gain_set 5 9;;
  e4k_if_gain_set 6 9;;
  (* Set the most narrow filter we can possibly use *)
  e4k_if_filter_bw_set E4K_IF_FILTER_MIX (KHZ 1900);;
  e4k_if_filter_bw_set E4K_IF_FILTER_RC (KHZ 1000);;
  e4k_if_filter_bw_set E4K_IF_FILTER_CHAN (KHZ 2150);;
  e4k_if_filter_chan_enable 1;;
  (* Disable time variant DC correction and LUT *)
  e4k_reg_set_mask E4K_REG_DC5 0x03 0;;
  e4k_reg_set_mask E4K_REG_DCTIME1 0x03 0;;
  e4k_reg_set_mask E4K_REG_DCTIME2 0x03 0;;
  mret 0.
End e4k.
