(* ===== verification/E4kInv.v ===== *)
(** * E4000: register access, and every call has a defined result

    Each register access of the driver, on any device and on a chip that
    stores what is written ([knows], I2cSim.v). *)

From S2P Require Import Prelude RtlsdrI2c I2cSim E4k.

(** The bits that the chip stores: all but the self-clearing reset bits, the
    PLL lock and calibration status, and the DC offset block, which the chip
    updates itself. *)
Definition e4k_storage (reg : Z) : Z :=
  if reg =? E4K_REG_MASTER1 then 0x02
  else if reg =? E4K_REG_SYNTH1 then 0x06
  else if (E4K_REG_DC1 <=? reg) && (reg <=? E4K_REG_DC4) then 0
  else 0xff.

Section access.
Context {D : Type} `{RtlsdrI2cLaws D} (init : Z -> Z).
Implicit Types (p : e4k_state) (L : list field) (s : e4k_state * D).

Definition good_run s : Prop := good (e4k_i2c_addr s.1) init e4k_storage (i2c_log s.2).
Definition chip_of s : gmap Z Z := chip (e4k_i2c_addr s.1) init e4k_storage (i2c_log s.2).

(** The struct is [p], and the chip has the fields [L]. *)
Definition at_ p L s : Prop :=
  s.1 = p /\ is_u8 (e4k_i2c_addr p) /\ knows (e4k_i2c_addr p) init e4k_storage L s.2.

Lemma reg_write_at p L reg val s :
  at_ p L s -> is_u8 reg ->
  wp (e4k_reg_write reg val)
    (fun rc s' => at_ p ((reg, 0xff, u8 val) :: forget e4k_storage reg 0xff L) s' /\
       (good_run s' -> good_run s /\ rc = 0)) s.
Proof.
  destruct s as [p0 d]. intros (Hp & Haddr & Hk) Hreg. cbn [fst snd] in *. subst p0.
  unfold e4k_reg_write. wp_step. apply wp_gets. wp_step. apply wp_zoom. cbn [fst snd].
  rewrite (u8_small reg) by done. eapply wp_mono; [|apply (dev_set_wp _ init e4k_storage reg _ L); [done|exact Hk|apply u8_range]].
  intros rc d' (Hk' & _ & Hg). apply wp_ret. split; [by split_and!|].
  intros [Hg0 ->]%Hg. done.
Qed.

Lemma reg_read_at p L reg s :
  at_ p L s -> is_u8 reg ->
  wp (e4k_reg_read reg)
    (fun rc s' => at_ p L s' /\ (rc = -1 \/ is_u8 rc) /\
       (good_run s' -> good_run s /\ is_u8 rc /\
          rc .& e4k_storage reg = creg init (chip_of s') reg .& e4k_storage reg)) s.
Proof.
  destruct s as [p0 d]. intros (Hp & Haddr & Hk) Hreg. cbn [fst snd] in *. subst p0.
  unfold e4k_reg_read. wp_step. apply wp_gets. wp_step. apply wp_zoom. cbn [fst snd].
  rewrite (u8_small reg) by done.
  eapply wp_mono; [|by apply (dev_point_wp _ init e4k_storage reg L)].
  intros r1 d1 (Hk1 & Hpt & _ & Hg1). destruct (Z.ltb_spec r1 1).
  { split; [by split_and!|]. split; [by left|]. intros [_ ?]%Hg1. lia. }
  wp_step. apply wp_zoom. cbn [fst snd]. eapply wp_mono; [|by apply (dev_read_wp _ init e4k_storage reg L)].
  intros [r2 data] d2 (v & -> & Hv & Hk2 & _ & Hg2). cbn [fst snd] in *.
  destruct (Z.ltb_spec r2 1).
  { split; [by split_and!|]. split; [by left|]. intros (_ & ? & _)%Hg2. lia. }
  split; [by split_and!|]. split; [by right|]. intros (Hg & _ & E)%Hg2.
  split; [by apply Hg1|]. done.
Qed.

Lemma set_mask_at p L reg mask val s :
  at_ p L s -> is_u8 reg -> is_u8 mask -> is_u8 val ->
  mask .& e4k_storage reg = mask -> val .& mask = val ->
  wp (e4k_reg_set_mask reg mask val)
    (fun rc s' => at_ p ((reg, mask, val) :: forget e4k_storage reg mask L) s' /\
       (good_run s' -> good_run s /\ rc = 0)) s.
Proof.
  intros Hs Hreg Hmask Hval Hst Hvm. unfold e4k_reg_set_mask. wp_step.
  eapply wp_mono; [|by apply reg_read_at]. cbv beta.
  intros r s1 (Hs1 & Hr & Hg1). rewrite (u8_small mask), (u8_small val) by done.
  destruct s1 as [p1 d1]. destruct Hs1 as (Hp1 & Haddr & Hk). cbn [fst snd] in *. subst p1.
  destruct Hs as (Hp & _ & _). unfold good_run, chip_of in *. cbn [fst snd] in *.
  destruct (Z.eqb_spec (u8 r .& mask) val) as [E|_].
  - apply wp_ret. split; [|intros Hg; destruct (Hg1 Hg); auto].
    split; [done|]. split; [done|]. intros Hg.
    destruct (Hg1 Hg) as (_ & Hu & Hb). rewrite u8_small in E by done.
    by eapply has_already; [exact (Hk Hg)|exact Hb|..].
  - unfold e4k_reg_write. wp_step. apply wp_gets. wp_step. apply wp_zoom. cbn [fst snd].
    rewrite (u8_small reg) by done.
    change ((u8 r .& ~~ mask) .| (val .& mask)) with (masked (u8 r) val mask).
    rewrite (u8_small (masked (u8 r) val mask)) by (apply masked_u8; [apply u8_range|done]).
    eapply wp_mono; [|apply (dev_write_wp _ init e4k_storage reg val (u8 r) mask L); [done|exact Hk|apply u8_range|done|]].
    + intros rc d2 (Hk2 & _ & Hg2). apply wp_ret. split; [by split_and!|].
      intros [Hg ->]%Hg2. destruct (Hg1 Hg). done.
    + intros Hg. left. destruct (Hg1 Hg) as (_ & Hu & Hb). by rewrite u8_small.
Qed.

End access.

(** ** Definedness on any device

    [J] is a property of the device that transfers keep. *)
Section defined.
Context {D : Type} `{RtlsdrI2cLaws D} (J : D -> Prop) `{!DevInv J}.

Definition addr_ok (s : e4k_state * D) : Prop := is_u8 (e4k_i2c_addr s.1) /\ J s.2.

Lemma reg_write_ok reg val : preserves addr_ok (e4k_reg_write (D:=D) reg val).
Proof.
  intros [p d] [Ha HJ]. unfold e4k_reg_write. wp_step. apply wp_gets. wp_step. apply wp_zoom.
  eapply wp_mono; [|apply write_fn_inv; [exact Ha|cbn; lia|exact HJ]]. by intros.
Qed.

Lemma reg_read_ok reg : returns addr_ok (e4k_reg_read (D:=D) reg) (fun rc => rc = -1 \/ is_u8 rc).
Proof.
  intros [p d] [Ha HJ]. unfold e4k_reg_read. wp_step. apply wp_gets. wp_step. apply wp_zoom.
  eapply wp_mono; [|apply write_fn_inv; [exact Ha|cbn; lia|exact HJ]]. intros r1 d1 HJ1. cbv beta.
  destruct (r1 <? 1); [split; [by left|done]|]. wp_step. apply wp_zoom.
  eapply wp_mono; [|apply wp_conj; [apply read_fn_law|apply read_fn_inv]; [exact Ha|lia|exact Ha|lia|exact HJ1]].
  intros [r2 data] d2 [(_ & Hlen & Hu8 & _) HJ2]. cbn [fst snd] in *.
  destruct (r2 <? 1); [split; [by left|done]|].
  destruct data as [|v ?]; cbn [length] in Hlen; [lia|]. apply Forall_inv in Hu8. split; [by right|done].
Qed.

Lemma reg_read_pres reg : preserves addr_ok (e4k_reg_read (D:=D) reg).
Proof. eapply returns_preserves, reg_read_ok. Qed.
End defined.

#[export] Hint Resolve reg_write_ok reg_read_pres : pres.
