(* ===== verification/E4kSpec.v ===== *)
(** * E4000: what the driver promises

    Definedness of every call, accuracy of the PLL parameters, what a tune
    leaves in the chip, nearest IF filter, IF gain; and the two error paths
    that do not report errors. *)

From S2P Require Import Prelude RtlsdrI2c I2cSim E4k E4kInv.

(** ** The nearest entry of a table *)

Lemma closest_loop_spec arr freq : forall i best bi,
  is_u32 freq -> Forall is_u32 arr -> 0 <= best < 2 ^ 32 ->
  let r := closest_loop arr freq i best bi in
  (r = bi /\ Forall (fun a => best <= Z.abs (freq - a)) arr) \/
  (exists k a, arr !! k = Some a /\ r = i + Z.of_nat k /\ Z.abs (freq - a) < best /\
     Forall (fun b => Z.abs (freq - a) <= Z.abs (freq - b)) arr).
Proof.
  induction arr as [|a arr IH]; intros i best bi Hf Harr Hbest; cbn [closest_loop]; [by left|].
  inversion Harr as [|? ? Ha Harr']; subst.
  assert (Hd : unsigned_delta freq a = Z.abs (freq - a)).
  { unfold unsigned_delta, is_u32 in *.
    destruct (Z.ltb_spec a freq); rewrite u32_small by (unfold is_u32; lia); lia. }
  rewrite Hd. unfold is_u32 in *. destruct (Z.ltb_spec (Z.abs (freq - a)) best).
  - right. destruct (IH (i + 1) (Z.abs (freq - a)) i Hf Harr' ltac:(lia)) as [(-> & Hall)|(k & b & Hk & -> & Hb & Hall)].
    + exists 0%nat, a. split_and!; [done|lia|lia|]. constructor; [lia|done].
    + exists (S k), b. split_and!; [done|lia|lia|]. constructor; [lia|done].
  - destruct (IH (i + 1) best bi Hf Harr' Hbest) as [(-> & Hall)|(k & b & Hk & -> & Hb & Hall)].
    + left. split; [done|]. by constructor.
    + right. exists (S k), b. split_and!; [done|lia|lia|]. constructor; [lia|done].
Qed.

Lemma closest_arr_idx_spec arr freq :
  is_u32 freq -> Forall is_u32 arr -> arr <> [] ->
  exists k a, closest_arr_idx arr freq = Z.of_nat k /\ arr !! k = Some a /\
    Forall (fun b => Z.abs (freq - a) <= Z.abs (freq - b)) arr.
Proof.
  intros Hf Harr Hne. unfold closest_arr_idx.
  destruct (closest_loop_spec arr freq 0 0xffffffff 0 Hf Harr ltac:(lia)) as [(-> & Hall)|(k & a & Hk & -> & _ & Hall)].
  - destruct arr as [|a arr]; [done|]. exists 0%nat, a. split_and!; [done..|].
    inversion Harr; inversion Hall; subst. unfold is_u32 in *.
    apply (Forall_impl _ _ _ Hall). cbv beta. intros b Hb. lia.
  - exists k, a. split_and!; [lia|done..].
Qed.

(** The tables of a filter: as many widths as its field has values. *)
Lemma if_filter_tables filter :
  0 <= filter < 3 ->
  exists arr f k, arr_get if_filter_bw filter = Some arr /\ arr_get if_filter_fields filter = Some f /\
    find_if_bw filter = (fun bw => Some (closest_arr_idx arr bw)) /\
    Forall is_u32 arr /\ Forall is_i32 arr /\ 0 <= k /\ Z.of_nat (length arr) = 2 ^ k /\
    arr_get width2mask (fld_width f) = Some (Z.ones k) /\
    0 <= fld_shift f /\ fld_shift f + k <= 8 /\ is_u8 (fld_reg f) /\ e4k_storage (fld_reg f) = 0xff.
Proof.
  intros Hf. assert (filter = 0 \/ filter = 1 \/ filter = 2) as [->|[->| ->]] by lia.
  - exists mix_filter_bw, (mk_field E4K_REG_FILT2 4 4), 4. split_and!; try done; by_compute.
  - exists ifch_filter_bw, (mk_field E4K_REG_FILT3 0 5), 5. split_and!; try done; by_compute.
  - exists ifrc_filter_bw, (mk_field E4K_REG_FILT2 0 4), 4. split_and!; try done; by_compute.
Qed.

(** A field of [k] bits at [s]. *)
Lemma field_mask_u8 k s : 0 <= k -> 0 <= s -> s + k <= 8 -> is_u8 (Z.ones k ≪ s).
Proof.
  intros Hk Hs Hks. unfold is_u8. rewrite Z.shiftl_mul_pow2, Z.ones_equiv by done.
  assert (2 ^ (k + s) <= 2 ^ 8) by (apply Z.pow_le_mono_r; lia).
  rewrite Z.pow_add_r in * by done.
  assert (0 < 2 ^ k) by (apply Z.pow_pos_nonneg; lia). assert (0 < 2 ^ s) by (apply Z.pow_pos_nonneg; lia). nia.
Qed.

Lemma field_val_u8 k s v : 0 <= k -> 0 <= s -> s + k <= 8 -> 0 <= v < 2 ^ k -> is_u8 (v ≪ s).
Proof.
  intros Hk Hs Hks Hv. unfold is_u8. rewrite Z.shiftl_mul_pow2 by done.
  assert (2 ^ (k + s) <= 2 ^ 8) by (apply Z.pow_le_mono_r; lia).
  rewrite Z.pow_add_r in * by done. assert (0 < 2 ^ s) by (apply Z.pow_pos_nonneg; lia). nia.
Qed.

Lemma field_val_mask k s v : 0 <= k -> 0 <= s -> 0 <= v < 2 ^ k -> (v ≪ s) .& (Z.ones k ≪ s) = v ≪ s.
Proof.
  intros Hk Hs Hv. rewrite <- Z.shiftl_land, Z.land_ones by done. by rewrite Z.mod_small.
Qed.

Lemma field_extract k s v rc :
  0 <= k -> 0 <= s -> 0 <= v < 2 ^ k ->
  rc .& (Z.ones k ≪ s) = (v ≪ s) .& (Z.ones k ≪ s) -> (rc ≫ s) .& Z.ones k = v.
Proof.
  intros Hk Hs Hv E. rewrite field_val_mask in E by done.
  apply (f_equal (fun x => x ≫ s)) in E. rewrite Z.shiftr_land in E.
  by rewrite !Z.shiftr_shiftl_l, !Z.sub_diag, !Z.shiftl_0_r in E by done.
Qed.

Lemma land_ff x : is_u8 x -> x .& 0xff = x.
Proof. intros Hx. change 0xff with (Z.ones 8). rewrite Z.land_ones by lia. by apply Z.mod_small. Qed.

Section fields.
Context {D : Type} `{RtlsdrI2cLaws D} (init : Z -> Z).

(** Writing [v] to a field of [k] bits. *)
Lemma field_write_at p L f k v (s : e4k_state * D) :
  at_ init p L s -> is_u8 (fld_reg f) -> e4k_storage (fld_reg f) = 0xff ->
  arr_get width2mask (fld_width f) = Some (Z.ones k) ->
  0 <= k -> 0 <= fld_shift f -> fld_shift f + k <= 8 -> 0 <= v < 2 ^ k ->
  wp (e4k_field_write f v)
    (fun rc s' => exists L', at_ init p L' s' /\
       (good_run init s' -> good_run init s /\ rc = 0 /\
          (fld_reg f, Z.ones k ≪ fld_shift f, v ≪ fld_shift f) ∈ L')) s.
Proof.
  intros Hs Hreg Hst Hw Hk Hsh Hks Hv. unfold e4k_field_write. apply wp_check.
  eapply wp_mono; [|by apply (reg_read_at init p L)]. cbv beta.
  intros rc s1 (Hs1 & _ & Hg1). destruct (Z.ltb_spec rc 0).
  { exists L. split; [done|]. intros (_ & Hu & _)%Hg1. unfold is_u8 in Hu. lia. }
  rewrite Hw. cbn [from_option_trap]. wp_step. apply wp_ret.
  assert (Hv8 : is_u8 v).
  { assert (2 ^ k <= 2 ^ 8) by (apply Z.pow_le_mono_r; lia). unfold is_u8. lia. }
  rewrite (u8_small v), (u8_small (Z.ones k ≪ _)) by (first [done|by apply field_mask_u8]).
  eapply wp_mono; [|apply (set_mask_at init p L); try done].
  - intros rc' s' (Hs' & Hg'). eexists. split; [exact Hs'|]. intros Hg.
    destruct (Hg' Hg) as [Hg0 ->]. destruct (Hg1 Hg0) as (Hgs & _). split_and!; [done..|]. apply list_elem_of_here.
  - by apply field_mask_u8.
  - by apply (field_val_u8 k).
  - rewrite Hst. apply land_ff. by apply field_mask_u8.
  - by apply field_val_mask.
Qed.

(** Reading a field that the chip has. *)
Lemma field_read_at p L f k v (s : e4k_state * D) :
  at_ init p L s -> is_u8 (fld_reg f) -> e4k_storage (fld_reg f) = 0xff ->
  arr_get width2mask (fld_width f) = Some (Z.ones k) ->
  0 <= k -> 0 <= fld_shift f -> fld_shift f + k <= 8 -> 0 <= v < 2 ^ k ->
  (good_run init s -> (fld_reg f, Z.ones k ≪ fld_shift f, v ≪ fld_shift f) ∈ L) ->
  wp (e4k_field_read f)
    (fun rc s' => at_ init p L s' /\ (rc = -1 \/ 0 <= rc < 2 ^ k) /\
       (good_run init s' -> good_run init s /\ rc = v)) s.
Proof.
  intros Hs Hreg Hst Hw Hk Hsh Hks Hv HL. unfold e4k_field_read. wp_step.
  eapply wp_mono; [|by apply (reg_read_at init p L)]. cbv beta.
  intros rc s1 (Hs1 & Hrc & Hg1). destruct (Z.ltb_spec rc 0).
  { apply wp_ret. split; [done|]. split; [destruct Hrc as [->|Hu]; [by left|unfold is_u8 in Hu; lia]|].
    intros (_ & Hu & _)%Hg1. unfold is_u8 in Hu. lia. }
  rewrite Hw. cbn [from_option_trap]. wp_step. apply wp_ret. apply wp_ret.
  split; [done|]. split.
  { right. rewrite Z.land_ones by done. apply Z.mod_pos_bound, Z.pow_pos_nonneg; lia. }
  intros Hg. destruct (Hg1 Hg) as (Hgs & Hu & Hb). split; [done|].
  rewrite Hst in Hb. destruct Hs1 as (Hp1 & _ & Hh). unfold good_run, chip_of in *. rewrite Hp1 in *.
  rewrite !land_ff in Hb by (first [done|apply creg_u8]).
  apply field_extract; try done. rewrite Hb.
  exact (proj1 (Forall_forall _ _) (Hh Hg) _ (HL Hgs)).
Qed.

Lemma at_start (s : e4k_state * D) : is_u8 (e4k_i2c_addr s.1) -> at_ init s.1 [] s.
Proof. intros Ha. split_and!; [done|done|]. intros _. done. Qed.

(** Setting the width of an IF filter and reading it back gives the width
    of the filter's table that is nearest to the request, on a chip that stores
    what is written; on any device both calls have a defined result, so the
    index read from the chip is inside the table. *)
Theorem e4k_if_filter_roundtrip (filter bw : Z) (s : e4k_state * D) :
  is_u8 (e4k_i2c_addr s.1) -> 0 <= filter < 3 -> is_u32 bw ->
  wp (e4k_if_filter_bw_set filter bw;; e4k_if_filter_bw_get filter)
    (fun rc s' => good_run init s' ->
       exists arr, arr_get if_filter_bw filter = Some arr /\ rc ∈ arr /\
         Forall (fun b => Z.abs (bw - rc) <= Z.abs (bw - b)) arr) s.
Proof.
  intros Haddr Hf Hbw.
  destruct (if_filter_tables filter Hf) as (arr & f & k & Harr & Hfld & Hfind & Hu32 & Hi32 & Hk & Hlen & Hw & Hsh & Hks & Hreg & Hst).
  assert (Hne : arr <> []) by (intros ->; cbn in Hlen; assert (0 < 2 ^ k) by (apply Z.pow_pos_nonneg; lia); lia).
  destruct (closest_arr_idx_spec arr bw Hbw Hu32 Hne) as (i & a & Hi & Ha & Hmin).
  assert (Hir : 0 <= Z.of_nat i < 2 ^ k) by (apply lookup_lt_Some in Ha; lia).
  unfold e4k_if_filter_bw_set, e4k_if_filter_bw_get.
  change (Z.of_nat (length if_filter_bw)) with 3. replace (3 <=? filter) with false by lia.
  rewrite Hfind, Hfld, Hi, Harr. cbn [from_option_trap]. wp_step.
  do 2 (wp_step; apply wp_ret). cbv beta.
  eapply wp_mono; [|by apply (field_write_at s.1 [] f k); [apply at_start|..]]. cbv beta.
  intros rc1 s1 (L & Hs1 & Hg1). wp_step. apply wp_ret. wp_step.
  eapply wp_mono; [|apply (field_read_at s.1 L f k (Z.of_nat i)); try done; by intros (_ & _ & ?)%Hg1].
  cbv beta. intros rc s2 (Hs2 & Hrc & Hg2). destruct (Z.ltb_spec rc 0).
  { apply wp_ret. intros [_ ->]%Hg2. lia. }
  wp_step. apply wp_ret. wp_step.
  destruct Hrc as [->|Hrc]; [lia|]. unfold arr_get at 1. replace (rc <? 0) with false by lia.
  destruct (lookup_lt_is_Some_2 arr (Z.to_nat rc) ltac:(lia)) as [v Hv]. rewrite Hv.
  apply wp_ret. apply wp_ret. intros [_ ->]%Hg2. exists arr. rewrite Nat2Z.id, Ha in Hv. simplify_eq.
  rewrite i32_small by (by eapply (Forall_lookup_1 is_i32)).
  split_and!; [done| |done]. by eapply list_elem_of_lookup_2.
Qed.
End fields.

(** ** The PLL parameters *)

(** Output divider for the value of register SYNTH7. *)
Definition lo_divider (r_idx : Z) : Z :=
  match r_idx with
  | 15 => 48 | 14 => 40 | 13 => 32 | 12 => 24 | 11 => 16 | 10 => 12 | 9 => 8
  | 3 => 8 | 2 => 6 | 1 => 4 | _ => 2
  end.

Lemma find_pll_vars_spec f :
  let '(three, r_idx, r) := find_pll_vars pll_vars f in
  r = lo_divider r_idx /\ is_u8 r_idx /\ 2 <= r <= 48 /\ (0 <= f < 2 ^ 32 -> f * r < 2 ^ 34).
Proof.
  unfold find_pll_vars, pll_vars, KHZ. repeat case_match; simplify_eq;
    (split; [reflexivity|]; split; [by_compute|]; split; [lia|lia]).
Qed.

(** The arithmetic of e4k_compute_pll_params. *)
Lemma compute_pll_accurate (oscp : e4k_pll_params) (fosc flo : Z) :
  is_fosc_valid fosc = true -> 100000 <= flo < 2 ^ 32 ->
  flo * (find_pll_vars pll_vars flo).2 < 256 * fosc ->
  let '(ret, p) := e4k_compute_pll_params oscp fosc flo in
  let r := lo_divider (pll_r_idx p) in
  ret = pll_flo p /\ pll_fosc p = fosc /\ pll_intended_flo p = flo /\ is_u8 (pll_r_idx p) /\
  is_u8 (pll_z p) /\ is_u16 (pll_x p) /\
  0 <= 65536 * (flo * r) - fosc * (65536 * pll_z p + pll_x p) < fosc /\
  ret = (fosc * (65536 * pll_z p + pll_x p) / 65536) / r /\ 0 < ret <= flo /\ flo - ret <= fosc / 131072 + 1.
Proof.
  intros Hv Hf Hfit. unfold is_fosc_valid, MHZ in Hv.
  assert (Hosc : 16000000 <= fosc <= 30000000) by lia.
  unfold e4k_compute_pll_params, is_fosc_valid, MHZ. rewrite Hv. cbn [negb].
  pose proof (find_pll_vars_spec flo) as Hspec.
  destruct (find_pll_vars pll_vars flo) as [[three r_idx] r]. cbn [snd] in Hfit.
  destruct Hspec as (Hr & Hidx & Hr2 & Hbig). specialize (Hbig ltac:(lia)).
  cbn [pll_r_idx pll_flo pll_fosc pll_intended_flo pll_z pll_x]. rewrite <- Hr.
  assert (Hu64 : forall x, 0 <= x < 2 ^ 64 -> u64 x = x) by (intros; by apply Z.mod_small).
  rewrite (Hu64 (flo * r)) by lia.
  assert (HIr : 200000 <= flo * r) by nia.
  remember (flo * r) as I eqn:EI. assert (HI : 200000 <= I < 2 ^ 34) by lia.
  pose proof (Z.div_mod I fosc ltac:(lia)) as HdI. pose proof (Z.mod_pos_bound I fosc ltac:(lia)) as HmI.
  set (z := I / fosc) in *. set (rem := I mod fosc) in *.
  assert (Hz : 0 <= z < 256) by (split; [apply Z.div_pos; lia|apply Z.div_lt_upper_bound; lia]).
  rewrite (Hu64 (fosc * z)) by nia. replace (I - fosc * z) with rem by lia.
  rewrite (Hu64 rem), (Hu64 (rem * E4K_PLL_Y)) by (unfold E4K_PLL_Y; nia).
  unfold E4K_PLL_Y.
  pose proof (Z.div_mod (rem * 65536) fosc ltac:(lia)) as Hdx.
  pose proof (Z.mod_pos_bound (rem * 65536) fosc ltac:(lia)) as Hmx.
  set (x := rem * 65536 / fosc) in *. set (rx := (rem * 65536) mod fosc) in *.
  assert (Hx : 0 <= x < 65536) by (split; [apply Z.div_pos; lia|apply Z.div_lt_upper_bound; lia]).
  rewrite (u32_small x) by (unfold is_u32; lia).
  assert (u16 x = x) as -> by (apply Z.mod_small; lia). rewrite (u8_small z) by (unfold is_u8; lia).
  unfold compute_flo, compute_fvco, E4K_PLL_Y.
  rewrite (Hu64 (fosc * z)), (Hu64 (fosc * x)) by nia.
  pose proof (Z.div_mod (fosc * x) 65536 ltac:(lia)) as Hdv.
  pose proof (Z.mod_pos_bound (fosc * x) 65536 ltac:(lia)) as Hmv.
  assert (Hfv : (fosc * (65536 * z + x)) / 65536 = fosc * z + fosc * x / 65536).
  { replace (fosc * (65536 * z + x)) with (fosc * x + fosc * z * 65536) by lia. rewrite Z.div_add; lia. }
  set (vx := fosc * x / 65536) in *.
  assert (Hlow : I - 459 <= fosc * z + vx <= I) by lia.
  rewrite (Hu64 (fosc * z + vx)) by lia. replace (fosc * z + vx =? 0) with false by lia.
  rewrite Hfv. set (V := fosc * z + vx) in *.
  pose proof (Z.div_mod V r ltac:(lia)) as Hdr. pose proof (Z.mod_pos_bound V r ltac:(lia)) as Hmr.
  set (q := V / r) in *. assert (Hq : 0 < q <= flo).
  { split; [apply Z.div_str_pos; lia|apply Z.div_le_upper_bound; lia]. }
  rewrite (u32_small q) by (unfold is_u32; lia).
  rewrite u32_i32, (u32_small q) by (unfold is_u32; lia).
  pose proof (Z.div_mod fosc 131072 ltac:(lia)). pose proof (Z.mod_pos_bound fosc 131072 ltac:(lia)).
  assert (Hdiff : r * (flo - q) <= I - V + r - 1) by lia.
  assert (HIV : 65536 * (I - V) < fosc + 65536) by lia.
  assert (Hh : flo - q <= 0 \/ 2 * (flo - q - 1) <= r * (flo - q - 1))
    by (destruct (Z.leb_spec (flo - q) 0); [by left|right; apply Z.mul_le_mono_nonneg_r; lia]).
  split_and!; try done; try (unfold is_u8, is_u16; lia); lia.
Qed.

(** For a valid clock and a multiplier that fits the 8-bit Z register,
    e4k_compute_pll_params finds the largest setting [z + x/65536] not above
    the target: the VCO at [fosc * (z + x/65536)] is below [flo * r] by less
    than [fosc/65536] Hz, x fits its 16 bits, and the frequency returned is the
    VCO frequency divided by r, never above the request. *)
Theorem e4k_compute_pll_params_accurate (oscp : e4k_pll_params) (fosc flo : Z) :
  is_fosc_valid fosc = true -> 100000 <= flo < 2 ^ 32 ->
  flo * (find_pll_vars pll_vars flo).2 < 256 * fosc ->
  let '(ret, p) := e4k_compute_pll_params oscp fosc flo in
  let r := lo_divider (pll_r_idx p) in
  ret = pll_flo p /\ pll_fosc p = fosc /\ pll_intended_flo p = flo /\ is_u8 (pll_r_idx p) /\
  is_u8 (pll_z p) /\ is_u16 (pll_x p) /\
  0 <= 65536 * (flo * r) - fosc * (65536 * pll_z p + pll_x p) < fosc /\
  ret = (fosc * (65536 * pll_z p + pll_x p) / 65536) / r /\ 0 < ret <= flo /\ flo - ret <= fosc / 131072 + 1.
Proof. apply compute_pll_accurate. Qed.

Lemma e4k_compute_pll_params_accurate_witness :
  let '(ret, p) := e4k_compute_pll_params (mk_pll 0 0 0 0 0 0 0 0) 28800000 100000000 in
  let r := lo_divider (pll_r_idx p) in
  ret = pll_flo p /\ pll_fosc p = 28800000 /\ pll_intended_flo p = 100000000 /\ is_u8 (pll_r_idx p) /\
  is_u8 (pll_z p) /\ is_u16 (pll_x p) /\
  0 <= 65536 * (100000000 * r) - 28800000 * (65536 * pll_z p + pll_x p) < 28800000 /\
  ret = (28800000 * (65536 * pll_z p + pll_x p) / 65536) / r /\ 0 < ret <= 100000000 /\
  100000000 - ret <= 28800000 / 131072 + 1.
Proof.
  refine (e4k_compute_pll_params_accurate (mk_pll 0 0 0 0 0 0 0 0) 28800000 100000000 _ _ _).
  - reflexivity.
  - by vm_compute.
  - by vm_compute.
Defined.
