(* ===== verification/E4kTune.v ===== *)
(** * E4000: tuning, gain and the errors that are not seen *)

From S2P Require Import Prelude RtlsdrI2c I2cSim E4k E4kInv E4kSpec.

(** The band of a local oscillator frequency. *)
Definition band_of (flo : Z) : e4k_band :=
  if flo <? 140000000 then E4K_BAND_VHF2
  else if flo <? 350000000 then E4K_BAND_VHF3
  else if flo <? 1135000000 then E4K_BAND_UHF
  else E4K_BAND_L.

Definition bias_of (b : e4k_band) : Z := match b with E4K_BAND_L => 0 | _ => 3 end.

(** One register access of a run that is at [Hs] with the goodness [Hg]. *)
Ltac at_step Hs Hg :=
  cbv beta zeta;
  lazymatch type of Hs with
  | at_ ?init ?p ?L _ =>
      lazymatch goal with
      | |- wp (mbind _ (e4k_reg_write _ _)) _ _ => apply wp_bind; eapply wp_mono; [|apply (reg_write_at init p L); [exact Hs|by_compute]]
      | |- wp (mbind _ (e4k_reg_set_mask _ _ _)) _ _ => apply wp_bind; eapply wp_mono; [|apply (set_mask_at init p L); [exact Hs|..]]
      end
  end;
  [let Hg' := fresh "Hg" in cbv beta; clear Hs; intros ? ? [Hs Hg']|..].

Section tune.
Context {D : Type} `{RtlsdrI2cLaws D} (init : Z -> Z).
Implicit Types (p : e4k_state) (L : list field) (s : e4k_state * D).

Definition band_fields (b : e4k_band) (L : list field) : list field :=
  let L := (E4K_REG_BIAS, 0xff, bias_of b) :: forget e4k_storage E4K_REG_BIAS 0xff L in
  let L := (E4K_REG_SYNTH1, 0x06, 0) :: forget e4k_storage E4K_REG_SYNTH1 0x06 L in
  (E4K_REG_SYNTH1, 0x06, band_z b ≪ 1) :: forget e4k_storage E4K_REG_SYNTH1 0x06 L.

Lemma band_set_at p L b s :
  at_ init p L s ->
  wp (e4k_band_set b)
    (fun rc s' => exists q, at_ init q (band_fields b L) s' /\ e4k_i2c_addr q = e4k_i2c_addr p /\ e4k_vco q = e4k_vco p /\
       (good_run init s' -> good_run init s /\ q = set_band b p /\ rc = 0)) s.
Proof.
  intros Hs. unfold e4k_band_set.
  assert (Hb : forall (Q : Z -> e4k_state * D -> Prop), wp (e4k_reg_write E4K_REG_BIAS (bias_of b)) Q s ->
    wp (match b with
        | E4K_BAND_L => e4k_reg_write E4K_REG_BIAS 0
        | _ => e4k_reg_write E4K_REG_BIAS 3 end) Q s) by (by destruct b).
  wp_step. apply Hb. eapply wp_mono; [|apply (reg_write_at init p L); [exact Hs|by_compute]].
  intros r1 s1 [Hs1 Hg1]. rewrite u8_small in Hs1 by (destruct b; by_compute).
  at_step Hs1 Hg1; try by_compute.
  at_step Hs1 Hg1; try (destruct b; by_compute).
  destruct (Z.leb_spec 0 a0) as [Hle|Hlt].
  - wp_step. apply wp_modify. apply wp_ret. exists (set_band b p).
    destruct Hs1 as (Hp & Ha & Hk). split; [by split; [rewrite <- Hp|]|]. do 2 (split; [done|]).
    intros (Hx & ->)%Hg0. apply Hg in Hx as [Hx _]. by apply Hg1 in Hx as [Hx _].
  - wp_step. apply wp_ret. exists p. do 3 (split; [done|]).
    intros (_ & ->)%Hg0. lia.
Qed.

Lemma choose_rf_filter_range b f : is_u32 f -> 0 <= choose_rf_filter b f < 16.
Proof.
  intros Hf. destruct b; cbn [choose_rf_filter]; try lia.
  - destruct (closest_arr_idx_spec rf_filt_center_uhf f Hf ltac:(by_compute) ltac:(done)) as (k & a & -> & Hk & _).
    apply lookup_lt_Some in Hk. cbn in Hk. lia.
  - destruct (closest_arr_idx_spec rf_filt_center_l f Hf ltac:(by_compute) ltac:(done)) as (k & a & -> & Hk & _).
    apply lookup_lt_Some in Hk. cbn in Hk. lia.
Qed.

Lemma rf_filter_set_at p L s :
  at_ init p L s -> is_u32 (pll_flo (e4k_vco p)) ->
  wp e4k_rf_filter_set
    (fun _ s' => at_ init p ((E4K_REG_FILT1, 0xf, choose_rf_filter (e4k_cur_band p) (pll_flo (e4k_vco p)))
         :: forget e4k_storage E4K_REG_FILT1 0xf L) s' /\
       (good_run init s' -> good_run init s)) s.
Proof.
  intros Hs Hf. pose proof (choose_rf_filter_range (e4k_cur_band p) _ Hf) as Hr.
  unfold e4k_rf_filter_set. do 2 (wp_step; apply wp_gets). pose proof Hs as (-> & _).
  set (v := choose_rf_filter _ _) in *. replace (v <? 0) with false by lia.
  eapply wp_mono; [|apply (set_mask_at init p L); [exact Hs|by_compute|by_compute|unfold is_u8; lia|reflexivity|]].
  - intros rc s' (Hs' & Hg). split; [done|]. by intros [? _]%Hg.
  - change 0xf with (Z.ones 4). rewrite Z.land_ones by lia. apply Z.mod_small. lia.
Qed.

(** The registers that a tune sets. *)
Definition tune_fields (v : e4k_pll_params) : list field :=
  let b := band_of (pll_flo v) in
  [(E4K_REG_FILT1, 0xf, choose_rf_filter b (pll_flo v));
   (E4K_REG_SYNTH1, 0x06, band_z b ≪ 1);
   (E4K_REG_BIAS, 0xff, bias_of b);
   (E4K_REG_SYNTH5, 0xff, u8 (pll_x v ≫ 8));
   (E4K_REG_SYNTH4, 0xff, u8 (pll_x v .& 0xff));
   (E4K_REG_SYNTH3, 0xff, u8 (pll_z v));
   (E4K_REG_SYNTH7, 0xff, u8 (pll_r_idx v))].

Lemma tune_params_at p s v :
  at_ init p [] s -> is_u32 (pll_flo v) ->
  wp (e4k_tune_params v)
    (fun _ s' => exists q, at_ init q (tune_fields v) s' /\ e4k_i2c_addr q = e4k_i2c_addr p /\
       (good_run init s' -> good_run init s /\ e4k_cur_band q = band_of (pll_flo v) /\ e4k_vco q = v)) s.
Proof.
  intros Hs Hf. unfold e4k_tune_params.
  do 4 at_step Hs Hg0. wp_step. apply wp_modify. wp_step. apply wp_gets. cbn [fst].
  set (L := _ :: _) in Hs.
  assert (Hs1 : at_ init (set_vco v p) L (set_vco v s'2.1, s'2.2)).
  { destruct Hs as (Hp & Ha & Hk). split; [cbn [fst]; by rewrite <- Hp|by split]. }
  clear Hs. set (s3 := (set_vco v s'2.1, s'2.2)) in *.
  assert (Hgs : good_run init s3 -> good_run init s).
  { intros [Hx _]%Hg3. apply Hg2 in Hx as [Hx _]. apply Hg1 in Hx as [Hx _].
    by apply Hg in Hx as [Hx _]. }
  change (pll_flo (e4k_vco (set_vco v s'2.1))) with (pll_flo v).
  set (b := band_of (pll_flo v)). wp_step.
  assert (Hb : forall Q, wp (e4k_band_set (D:=D) b) Q s3 ->
    wp (if pll_flo v <? MHZ 140 then e4k_band_set E4K_BAND_VHF2
        else if pll_flo v <? MHZ 350 then e4k_band_set E4K_BAND_VHF3
        else if pll_flo v <? MHZ 1135 then e4k_band_set E4K_BAND_UHF
        else e4k_band_set E4K_BAND_L) Q s3).
  { subst b. unfold band_of. change (MHZ 140) with 140000000. change (MHZ 350) with 350000000.
    change (MHZ 1135) with 1135000000. intros Q.
    by destruct (pll_flo v <? 140000000), (pll_flo v <? 350000000), (pll_flo v <? 1135000000). }
  apply Hb. eapply wp_mono; [|by apply (band_set_at (set_vco v p) L)].
  intros rc s4 (q & Hs4 & Haq & Hvq & Hg4).
  change (e4k_vco (set_vco v p)) with v in Hvq.
  wp_step. eapply wp_mono; [|apply (rf_filter_set_at q); [exact Hs4|by rewrite Hvq]].
  intros rc' s5 [Hs5 Hg5]. wp_step. apply wp_gets. apply wp_ret. exists q. rewrite Hvq in Hs5.
  assert (Hfields : good_run init s5 -> good_run init s /\ q = set_band b (set_vco v p)).
  { intros Hx%Hg5. apply Hg4 in Hx as (Hx & -> & _). split; [by apply Hgs|done]. }
  split; [|split; [done|]].
  - destruct Hs5 as (Hp5 & Ha5 & Hk5). split; [done|]. split; [done|].
    intros Hx. specialize (Hk5 Hx). unfold good_run in Hfields. rewrite Hp5 in Hfields.
    destruct (Hfields Hx) as [_ ->]. exact Hk5.
  - intros Hx. destruct (Hfields Hx) as [Hx' ->]. done.
Qed.

(** C21: e4k_tune_freq on a chip that stores what is written, for a crystal of 16
    to 30 MHz and a frequency of at least 100 kHz whose divider fits in 8 bits
    (another crystal is refused with -EINVAL; a larger divider is cut).  The divider, Z and X
    registers stand for a local oscillator at most [fosc/65536] Hz of VCO
    frequency below the request, the band and bias registers and the struct agree
    with the band of the frequency, and the RF filter register selects the filter
    of that band; the result is 0, or -1 when the PLL does not lock.  (Its comment
    says that the actual frequency is returned; the result is never positive,
    [e4k_tune_freq_result].) *)
Theorem e4k_tune_freq_registers (freq : Z) s :
  let fosc := pll_fosc (e4k_vco s.1) in
  is_u8 (e4k_i2c_addr s.1) -> is_fosc_valid fosc = true -> 100000 <= freq < 2 ^ 32 ->
  freq * (find_pll_vars pll_vars freq).2 < 256 * fosc ->
  wp (e4k_tune_freq freq)
    (fun rc s' => (rc = 0 \/ rc = -1) /\ (good_run init s' ->
       let reg r := creg init (chip_of init s') r in
       let v := e4k_vco s'.1 in let b := e4k_cur_band s'.1 in
       0 <= 65536 * (freq * lo_divider (reg E4K_REG_SYNTH7)) -
            fosc * (65536 * reg E4K_REG_SYNTH3 + 256 * reg E4K_REG_SYNTH5 + reg E4K_REG_SYNTH4) < fosc /\
       pll_fosc v = fosc /\ freq - pll_flo v <= fosc / 131072 + 1 /\ pll_flo v <= freq /\
       b = band_of (pll_flo v) /\ reg E4K_REG_BIAS = bias_of b /\
       reg E4K_REG_SYNTH1 .& 0x06 = band_z b ≪ 1 /\
       reg E4K_REG_FILT1 .& 0xf = choose_rf_filter b (pll_flo v))) s.
Proof.
  intros fosc Ha Hv Hf Hfit.
  pose proof (compute_pll_accurate (mk_pll 0 0 0 0 0 0 0 0) fosc freq Hv Hf Hfit) as Hacc.
  unfold e4k_tune_freq. wp_step. apply wp_gets. fold fosc.
  destruct (e4k_compute_pll_params _ fosc freq) as [ret v].
  destruct Hacc as (-> & Hvf & _ & Hidx & Hz & Hx & Hsyn & _ & Hflo & Hdiff).
  replace (pll_flo v =? 0) with false by lia. wp_step.
  assert (Hu : is_u32 (pll_flo v)) by (unfold is_u32; lia).
  eapply wp_mono; [|apply (tune_params_at s.1); [by apply at_start|done]].
  intros rc1 s1 (q & Hs1 & Haq & Hg1). wp_step.
  eapply wp_mono; [|by apply (reg_read_at init q (tune_fields v))].
  intros rc s2 (Hs2 & _ & Hg2). cbv beta.
  match goal with |- wp (if ?c then _ else _) ?Q _ =>
    enough (Hfin : forall rc, rc = 0 \/ rc = -1 -> Q rc s2) by (destruct c; apply wp_ret, Hfin; auto) end.
  intros rc' Hrc'. split; [done|]. intros Hg. cbv zeta.
  destruct (Hg2 Hg) as (Hgs & _). destruct (Hg1 Hgs) as (_ & Hband & Hvco).
  destruct Hs2 as (Hp2 & _ & Hk). unfold chip_of, good_run in *. rewrite Hp2, Hband, Hvco in *.
  specialize (Hk Hg). unfold tune_fields in Hk. rewrite !Forall_cons in Hk. cbn [has] in Hk.
  destruct Hk as (E1 & E2 & E3 & E4 & E5 & E6 & E7 & _).
  rewrite !land_ff in E3, E4, E5, E6, E7 by (first [apply creg_u8|apply u8_range|destruct (band_of _); by_compute]).
  rewrite (u8_small _ Hidx) in E7. rewrite (u8_small _ Hz) in E6.
  assert (Hxs : 256 * u8 (pll_x v ≫ 8) + u8 (pll_x v .& 0xff) = pll_x v).
  { unfold is_u16 in Hx. change 0xff with (Z.ones 8). rewrite Z.land_ones, Z.shiftr_div_pow2 by lia.
    unfold u8. rewrite Z.mod_mod by lia. rewrite (Z.mod_small (pll_x v / 2 ^ 8)).
    - pose proof (Z.div_mod (pll_x v) (2 ^ 8) ltac:(lia)). lia.
    - split; [apply Z.div_pos; lia|apply Z.div_lt_upper_bound; lia]. }
  rewrite E3, E4, E5, E6, E7, E2.
  replace (65536 * pll_z v + 256 * u8 (pll_x v ≫ 8) + u8 (pll_x v .& 0xff)) with (65536 * pll_z v + pll_x v) by lia.
  split_and!; try done; try lia; [by destruct (band_of (pll_flo v))|].
  rewrite E1. change 0xf with (Z.ones 4). rewrite Z.land_ones by lia. apply Z.mod_small.
  apply choose_rf_filter_range. done.
Qed.
(** It does not return a frequency. *)
Lemma e4k_tune_freq_result freq s rc s' : e4k_tune_freq freq s = Some (rc, s') -> rc = 0 \/ rc = -1 \/ rc = - EINVAL.
Proof.
  unfold e4k_tune_freq, mbind, M_bind. destruct (priv _ s) as [[fosc s1]|]; [|done].
  destruct (e4k_compute_pll_params _ fosc freq) as [rc1 q]. destruct (rc1 =? 0); [intros [= <- _]; tauto|].
  destruct (e4k_tune_params q s1) as [[rc2 s2]|]; [|done]. destruct (e4k_reg_read E4K_REG_SYNTH1 s2) as [[rc3 s3]|]; [|done].
  destruct (negb _); intros [= <- _]; tauto.
Qed.

End tune.

(** An E4000 behind the simulated chip: all registers zero, the status bits
    of SYNTH1 read as one (PLL locked). *)
Definition rf_e4k : rf := mk_rf ∅ 0 (fun r => if r =? E4K_REG_SYNTH1 then 1 else 0) 28800000 [].
Definition e4k_st : e4k_state * rf :=
  (mk_e4k E4K_I2C_ADDR E4K_BAND_VHF2 (mk_pll 28800000 0 0 0 0 0 0 0), rf_e4k).

Lemma e4k_tune_freq_registers_witness :
  let fosc := pll_fosc (e4k_vco e4k_st.1) in
  wp (e4k_tune_freq 100000000)
    (fun rc s' => (rc = 0 \/ rc = -1) /\ (good_run (fun _ => 0) s' ->
       let reg r := creg (fun _ => 0) (chip_of (fun _ => 0) s') r in
       let v := e4k_vco s'.1 in let b := e4k_cur_band s'.1 in
       0 <= 65536 * (100000000 * lo_divider (reg E4K_REG_SYNTH7)) -
            fosc * (65536 * reg E4K_REG_SYNTH3 + 256 * reg E4K_REG_SYNTH5 + reg E4K_REG_SYNTH4) < fosc /\
       pll_fosc v = fosc /\ 100000000 - pll_flo v <= fosc / 131072 + 1 /\ pll_flo v <= 100000000 /\
       b = band_of (pll_flo v) /\ reg E4K_REG_BIAS = bias_of b /\
       reg E4K_REG_SYNTH1 .& 0x06 = band_z b ≪ 1 /\
       reg E4K_REG_FILT1 .& 0xf = choose_rf_filter b (pll_flo v))) e4k_st.
Proof.
  refine (e4k_tune_freq_registers (fun _ => 0) 100000000 e4k_st _ _ _ _).
  - by_compute.
  - reflexivity.
  - by vm_compute.
  - by vm_compute.
Defined.

(** The run of the witness is good and returns 0. *)
Example e4k_tune_good :
  match e4k_tune_freq 100000000 e4k_st with
  | Some (rc, s') => rc = 0 /\ good_run (fun _ => 0) s'
  | None => False
  end.
Proof. vm_compute. done. Qed.

Lemma e4k_if_filter_roundtrip_witness :
  wp (e4k_if_filter_bw_set 0 2500000;; e4k_if_filter_bw_get 0)
    (fun rc s' => good_run (fun _ => 0) s' ->
       exists arr, arr_get if_filter_bw 0 = Some arr /\ rc ∈ arr /\
         Forall (fun b => Z.abs (2500000 - rc) <= Z.abs (2500000 - b)) arr) e4k_st.
Proof.
  refine (e4k_if_filter_roundtrip (fun _ => 0) 0 2500000 e4k_st _ _ _).
  - by_compute.
  - lia.
  - by_compute.
Defined.
