(* ===== verification/E4kSession.v ===== *)
(** * E4000: every call is defined; gain stages; unreported errors *)

From S2P Require Import Prelude RtlsdrI2c I2cSim E4k E4kInv E4kSpec E4kTune.

(** ** Sessions *)

(** The driver's interface.  A filter is an [enum], a stage a [uint8_t]. *)
Inductive e4k_call : Type :=
  | E4kStandby (enable : Z)
  | E4kIfGain (stage value : Z)
  | E4kMixerGain (value : Z)
  | E4kCommonMode (value : Z)
  | E4kTuneFreq (freq : Z)
  | E4kFilterSet (filter bw : Z)
  | E4kFilterGet (filter : Z)
  | E4kChanEnable (on : Z)
  | E4kRfFilter
  | E4kDcOffset (iofs irange qofs qrange : Z)
  | E4kDcTable
  | E4kLnaGain (gain : Z)
  | E4kEnhGain (gain : Z)
  | E4kManualGain (manual : Z).

Definition e4k_call_ok (c : e4k_call) : Prop :=
  match c with
  | E4kIfGain stage _ => is_u8 stage
  | E4kFilterSet filter _ | E4kFilterGet filter => 0 <= filter
  | _ => True
  end.

Section session.
Context {D : Type} `{RtlsdrI2cLaws D}.

Definition run_e4k_call (c : e4k_call) : M (e4k_state * D) Z :=
  match c with
  | E4kStandby e => e4k_standby e
  | E4kIfGain s v => e4k_if_gain_set s v
  | E4kMixerGain v => e4k_mixer_gain_set v
  | E4kCommonMode v => e4k_commonmode_set v
  | E4kTuneFreq f => e4k_tune_freq f
  | E4kFilterSet f b => e4k_if_filter_bw_set f b
  | E4kFilterGet f => e4k_if_filter_bw_get f
  | E4kChanEnable o => e4k_if_filter_chan_enable o
  | E4kRfFilter => e4k_rf_filter_set
  | E4kDcOffset a b c d => e4k_manual_dc_offset a b c d
  | E4kDcTable => e4k_dc_offset_gen_table
  | E4kLnaGain g => e4k_set_lna_gain g
  | E4kEnhGain g => e4k_set_enh_gain g
  | E4kManualGain m => e4k_enable_manual_gain m
  end.

Definition e4k_session (calls : list e4k_call) : M (e4k_state * D) unit :=
  e4k_init;; for_each calls (fun c => run_e4k_call c;; mret tt).

End session.

(** A stage has a table, a field and a mask. *)
Lemma stage_tables stage :
  1 <= stage < 7 ->
  exists arr f k, arr_get if_stage_gain stage = Some arr /\ arr_get if_stage_gain_regs stage = Some f /\
    0 <= k /\ Z.of_nat (length arr) = 2 ^ k /\ arr_get width2mask (fld_width f) = Some (Z.ones k) /\
    0 <= fld_shift f /\ fld_shift f + k <= 8 /\ is_u8 (fld_reg f) /\ e4k_storage (fld_reg f) = 0xff.
Proof.
  intros Hs. assert (stage = 1 \/ stage = 2 \/ stage = 3 \/ stage = 4 \/ stage = 5 \/ stage = 6)
    as [->|[->|[->|[->|[->| ->]]]]] by lia.
  - exists if_stage1_gain, (mk_field E4K_REG_GAIN3 0 1), 1. split_and!; try done; by_compute.
  - exists if_stage23_gain, (mk_field E4K_REG_GAIN3 1 2), 2. split_and!; try done; by_compute.
  - exists if_stage23_gain, (mk_field E4K_REG_GAIN3 3 2), 2. split_and!; try done; by_compute.
  - exists if_stage4_gain, (mk_field E4K_REG_GAIN3 5 2), 2. split_and!; try done; by_compute.
  - exists if_stage56_gain, (mk_field E4K_REG_GAIN4 0 3), 3. split_and!; try done; by_compute.
  - exists if_stage56_gain, (mk_field E4K_REG_GAIN4 3 3), 3. split_and!; try done; by_compute.
Qed.

Lemma index_of_spec l : forall i v,
  match index_of l i v with
  | Some j => exists k, j = i + Z.of_nat k /\ l !! k = Some v
  | None => v ∉ l
  end.
Proof.
  induction l as [|a l IH]; intros i v; cbn [index_of]; [set_solver|].
  destruct (Z.eqb_spec a v) as [->|Hne].
  - exists 0%nat. split; [lia|done].
  - specialize (IH (i + 1) v). destruct (index_of l (i + 1) v) as [j|].
    + destruct IH as (k & -> & Hk). exists (S k). split; [lia|done].
    + rewrite not_elem_of_cons. split; [done|done].
Qed.

(** The outcome of find_stage_gain. *)
Lemma find_stage_gain_spec stage v :
  is_u8 stage ->
  (find_stage_gain stage v = Some (- EINVAL) /\
     forall arr, arr_get if_stage_gain stage = Some arr -> v ∉ arr) \/
  (1 <= stage < 7 /\ exists k arr, find_stage_gain stage v = Some (Z.of_nat k) /\
     arr_get if_stage_gain stage = Some arr /\ arr !! k = Some v).
Proof.
  unfold is_u8. intros Hs. unfold find_stage_gain. change (Z.of_nat (length if_stage_gain)) with 7.
  destruct (Z.leb_spec 7 stage) as [Hge|Hlt].
  { left. split; [done|]. intros arr Harr. unfold arr_get in Harr.
    replace (stage <? 0) with false in Harr by lia. apply lookup_lt_Some in Harr. cbn in Harr. lia. }
  destruct (decide (stage = 0)) as [->|Hne].
  { left. split; [done|]. intros arr [= <-]. set_solver. }
  destruct (stage_tables stage ltac:(lia)) as (arr & f & k & Harr & _). rewrite Harr.
  pose proof (index_of_spec arr 0 v) as Hi. destruct (index_of arr 0 v) as [j|].
  - right. split; [lia|]. destruct Hi as (i & -> & Hi). exists i, arr. split_and!; [f_equal; lia|done..].
  - left. split; [done|]. by intros ? [= <-].
Qed.

Section defined.
Context {D : Type} `{RtlsdrI2cLaws D} (J : D -> Prop) `{!DevInv J}.

Lemma upd_ok (f : e4k_state -> e4k_state) :
  (forall p, e4k_i2c_addr (f p) = e4k_i2c_addr p) -> preserves (addr_ok J) (upd (D:=D) f).
Proof. intros Hf [p d] [Ha HJ]. split; [|done]. cbn [fst snd] in *. by rewrite Hf. Qed.

Lemma priv_pres {A} (f : e4k_state -> A) : preserves (addr_ok J) (priv (D:=D) f).
Proof. apply preserves_gets. Qed.

Lemma set_mask_ok reg mask val : preserves (addr_ok J) (e4k_reg_set_mask (D:=D) reg mask val).
Proof. unfold e4k_reg_set_mask. solve_pres. Qed.

Lemma set_band_ok b : preserves (addr_ok J) (upd (D:=D) (set_band b)).
Proof. by apply upd_ok. Qed.
Lemma set_vco_ok v : preserves (addr_ok J) (upd (D:=D) (set_vco v)).
Proof. by apply upd_ok. Qed.
#[local] Hint Resolve priv_pres set_mask_ok set_band_ok set_vco_ok : pres.

Lemma band_set_ok b : preserves (addr_ok J) (e4k_band_set (D:=D) b).
Proof. unfold e4k_band_set. solve_pres. Qed.
Lemma rf_filter_set_ok : preserves (addr_ok J) (e4k_rf_filter_set (D:=D)).
Proof. unfold e4k_rf_filter_set. solve_pres. Qed.
#[local] Hint Resolve band_set_ok rf_filter_set_ok : pres.

Lemma tune_freq_ok f : preserves (addr_ok J) (e4k_tune_freq (D:=D) f).
Proof.
  unfold e4k_tune_freq. apply preserves_bind; [solve_pres|]. intros fosc.
  destruct (e4k_compute_pll_params _ fosc f) as [rc p]. unfold e4k_tune_params. solve_pres.
Qed.

Lemma opt_ok {A} (o : option A) : is_Some o -> preserves (S:=e4k_state * D) (addr_ok J) (from_option_trap o).
Proof. intros [a ->]. apply preserves_ret. Qed.

Lemma filter_set_ok f b : 0 <= f -> preserves (addr_ok J) (e4k_if_filter_bw_set (D:=D) f b).
Proof.
  intros Hf. unfold e4k_if_filter_bw_set. change (Z.of_nat (length if_filter_bw)) with 3.
  destruct (Z.leb_spec 3 f); [solve_pres|].
  destruct (if_filter_tables f ltac:(lia)) as (arr & fld & k & _ & Hfld & Hfind & _ & _ & _ & _ & Hw & _).
  rewrite Hfind. apply preserves_bind; [solve_pres|]. intros i.
  eapply preserves_trap_bind; [exact Hfld|]. unfold e4k_field_write. apply preserves_check; [solve_pres|].
  eapply preserves_trap_bind; [exact Hw|]. solve_pres.
Qed.

Lemma field_read_ok fld k :
  0 <= k -> arr_get width2mask (fld_width fld) = Some (Z.ones k) ->
  returns (addr_ok J) (e4k_field_read (D:=D) fld) (fun rc => rc = -1 \/ 0 <= rc < 2 ^ k).
Proof.
  intros Hk Hw. unfold e4k_field_read. eapply returns_bind; [by apply reg_read_ok|].
  intros rc Hrc. cbv beta in Hrc. destruct (Z.ltb_spec rc 0).
  - apply returns_ret. destruct Hrc as [->|Hrc]; [by left|unfold is_u8 in Hrc; lia].
  - rewrite Hw. apply returns_ret. right. rewrite Z.land_ones by done.
    apply Z.mod_pos_bound, Z.pow_pos_nonneg; lia.
Qed.

Lemma filter_get_ok f : 0 <= f -> preserves (addr_ok J) (e4k_if_filter_bw_get (D:=D) f).
Proof.
  intros Hf. unfold e4k_if_filter_bw_get. change (Z.of_nat (length if_filter_bw)) with 3.
  destruct (Z.leb_spec 3 f); [solve_pres|].
  destruct (if_filter_tables f ltac:(lia)) as (arr & fld & k & Harr & Hfld & _ & _ & _ & Hk & Hlen & Hw & _).
  eapply preserves_trap_bind; [exact Hfld|].
  eapply preserves_returns_bind; [by apply (field_read_ok _ k)|]. intros rc Hrc. cbv beta in Hrc.
  destruct (Z.ltb_spec rc 0); [solve_pres|]. eapply preserves_trap_bind; [exact Harr|].
  destruct Hrc as [->|Hrc]; [lia|].
  destruct (lookup_lt_is_Some_2 arr (Z.to_nat rc) ltac:(lia)) as [v Hv].
  eapply preserves_trap_bind; [|solve_pres]. unfold arr_get. by replace (rc <? 0) with false by lia.
Qed.

Lemma if_gain_ok stage v : is_u8 stage -> preserves (addr_ok J) (e4k_if_gain_set (D:=D) stage v).
Proof.
  intros Hs. unfold e4k_if_gain_set.
  destruct (find_stage_gain_spec stage v Hs) as [[E _]|(Hr & i & arr & E & _)];
    (eapply preserves_trap_bind; [exact E|]).
  - apply preserves_ret.
  - destruct (stage_tables stage Hr) as (arr' & f & k & _ & Hf & _ & _ & Hw & _).
    destruct (_ <? 0); [solve_pres|]. eapply preserves_trap_bind; [exact Hf|].
    eapply preserves_trap_bind; [exact Hw|]. solve_pres.
Qed.
#[local] Hint Resolve if_gain_ok filter_get_ok filter_set_ok tune_freq_ok : pres.
#[local] Hint Extern 1 (is_u8 _) => by_compute : pres.
#[local] Hint Extern 1 (0 <= _) => by_compute : pres.

Lemma lna_loop_ok l g : preserves (addr_ok J) (lna_gain_loop (D:=D) l g).
Proof. induction l as [|[a v] l IH]; cbn [lna_gain_loop]; solve_pres. Qed.

Lemma dc_table_ok : preserves (addr_ok J) (e4k_dc_offset_gen_table (D:=D)).
Proof.
  unfold e4k_dc_offset_gen_table, e4k_mixer_gain_set, e4k_dc_offset_calibrate.
  do 2 (apply preserves_bind; [solve_pres|]; intros _).
  apply preserves_bind; [|intros _; apply preserves_bind; [|solve_pres]].
  - apply preserves_for_each. intros i Hi.
    assert (is_Some (arr_get if_gains_max i) /\ is_u8 i) as [[g Hg] Hu].
    { rewrite !elem_of_cons in Hi. destruct Hi as [->|[->|[->|[->|[->|?%not_elem_of_nil]]]]]; [..|done];
        (split; [eexists; reflexivity|by_compute]). }
    eapply preserves_trap_bind; [exact Hg|]. solve_pres.
  - apply preserves_for_each. intros [[m g] r] _. solve_pres.
Qed.

Lemma e4k_init_ok : preserves (addr_ok J) (e4k_init (D:=D)).
Proof.
  unfold e4k_init, magic_init, e4k_enable_manual_gain, e4k_if_filter_chan_enable.
  repeat lazymatch goal with
    | |- preserves _ (mbind _ _) => apply preserves_bind; [|intros ?]
    | |- preserves _ (for_each _ _) => apply preserves_for_each; intros [r v] _
    end; solve_pres.
Qed.

Lemma run_e4k_call_ok c : e4k_call_ok c -> preserves (addr_ok J) (run_e4k_call c).
Proof.
  intros Hc. destruct c; cbn [run_e4k_call e4k_call_ok] in *;
    unfold e4k_standby, e4k_mixer_gain_set, e4k_commonmode_set, e4k_if_filter_chan_enable,
      e4k_manual_dc_offset, e4k_set_enh_gain, e4k_enable_manual_gain, e4k_set_lna_gain;
    try solve [solve_pres].
  - apply dc_table_ok.
  - apply lna_loop_ok.
Qed.

Lemma session_ok calls : Forall e4k_call_ok calls -> preserves (addr_ok J) (e4k_session (D:=D) calls).
Proof.
  intros Hc. unfold e4k_session. apply preserves_bind; [apply e4k_init_ok|]. intros _.
  apply preserves_for_each. intros c Hin. apply preserves_bind; [|solve_pres].
  apply run_e4k_call_ok. by apply (proj1 (Forall_forall _ _) Hc).
Qed.
End defined.

Section claims.
Context {D : Type} `{RtlsdrI2cLaws D}.

(** C22: e4k_init followed by any sequence of calls of the driver's interface
    has a defined result on any device, whatever transfers fail and whatever
    is read: no table is indexed outside its bounds and no loop hangs. *)
Theorem e4k_session_defined (calls : list e4k_call) (s : e4k_state * D) :
  is_u8 (e4k_i2c_addr s.1) -> Forall e4k_call_ok calls ->
  wp (e4k_session calls) (fun _ s' => is_u8 (e4k_i2c_addr s'.1)) s.
Proof.
  intros Ha Hc. eapply wp_mono; [|by apply (session_ok (fun _ => True) calls Hc s)].
  by intros _ s' [? _].
Qed.

(** E4k_if_gain_set refuses, without touching the chip, exactly the values
    that the table of the stage does not have; otherwise it returns 0 on a
    chip that stores what is written, and the gain field of the stage then
    selects an entry of the table equal to the value. *)
Theorem e4k_if_gain_set_selects (init : Z -> Z) (stage value : Z) (s : e4k_state * D) :
  is_u8 (e4k_i2c_addr s.1) -> is_u8 stage ->
  wp (e4k_if_gain_set stage value)
    (fun rc s' =>
       (s' = s /\ rc = - EINVAL /\ forall arr, arr_get if_stage_gain stage = Some arr -> value ∉ arr) \/
       (exists arr f k, arr_get if_stage_gain stage = Some arr /\ value ∈ arr /\
          arr_get if_stage_gain_regs stage = Some f /\ 0 <= k /\ Z.of_nat (length arr) = 2 ^ k /\
          (good_run init s' -> rc = 0 /\
             arr_get arr ((creg init (chip_of init s') (fld_reg f) ≫ fld_shift f) .& Z.ones k) = Some value))) s.
Proof.
  intros Ha Hs. unfold e4k_if_gain_set.
  destruct (find_stage_gain_spec stage value Hs) as [[E Hno]|(Hr & i & arr & E & Harr & Hi)]; rewrite E.
  { left. by split_and!. }
  wp_step. apply wp_ret. replace (Z.of_nat i <? 0) with false by lia.
  destruct (stage_tables stage Hr) as (arr' & f & k & Harr' & Hf & Hk & Hlen & Hw & Hsh & Hks & Hreg & Hst).
  assert (arr' = arr) as -> by congruence. rewrite Hf. wp_step. apply wp_ret. rewrite Hw. wp_step. apply wp_ret.
  assert (Hir : 0 <= Z.of_nat i < 2 ^ k) by (apply lookup_lt_Some in Hi; lia).
  pose proof (field_mask_u8 k _ Hk Hsh Hks) as Hm8. rewrite (u8_small _ Hm8).
  eapply wp_mono; [|apply (set_mask_at init s.1 []); [by apply at_start|done|done|by apply (field_val_u8 k)
    |rewrite Hst; by apply land_ff|by apply field_val_mask]].
  intros rc s' [(Hp & _ & Hkn) Hg]. right. exists arr, f, k.
  split_and!; [done|by eapply list_elem_of_lookup_2|done..|]. intros Hgood.
  destruct (Hg Hgood) as [_ ->]. split; [done|].
  unfold good_run, chip_of in *. rewrite Hp in *. specialize (Hkn Hgood).
  apply Forall_cons in Hkn as [Hh _]. cbn [has] in Hh.
  rewrite (field_extract k _ _ _ Hk Hsh Hir Hh). unfold arr_get.
  replace (Z.of_nat i <? 0) with false by lia. by rewrite Nat2Z.id.
Qed.
End claims.

Lemma e4k_session_defined_witness :
  wp (e4k_session [E4kTuneFreq 100000000; E4kIfGain 5 9; E4kFilterGet 2]) (fun _ s' => is_u8 (e4k_i2c_addr s'.1)) e4k_st.
Proof.
  refine (e4k_session_defined [E4kTuneFreq 100000000; E4kIfGain 5 9; E4kFilterGet 2] e4k_st _ _).
  - by_compute.
  - repeat constructor; by vm_compute.
Defined.

Lemma e4k_if_gain_set_selects_witness :
  wp (e4k_if_gain_set 5 9)
    (fun rc s' =>
       (s' = e4k_st /\ rc = - EINVAL /\ forall arr, arr_get if_stage_gain 5 = Some arr -> 9 ∉ arr) \/
       (exists arr f k, arr_get if_stage_gain 5 = Some arr /\ 9 ∈ arr /\
          arr_get if_stage_gain_regs 5 = Some f /\ 0 <= k /\ Z.of_nat (length arr) = 2 ^ k /\
          (good_run (fun _ => 0) s' -> rc = 0 /\
             arr_get arr ((creg (fun _ => 0) (chip_of (fun _ => 0) s') (fld_reg f) ≫ fld_shift f) .& Z.ones k) = Some 9))) e4k_st.
Proof. refine (e4k_if_gain_set_selects (fun _ => 0) 5 9 e4k_st _ _); by_compute. Defined.

(** ** Errors that are not reported *)

(** Every transfer of the bus fails. *)
Definition dead (s : e4k_state * sim) : Prop := sim_ack s.2 = fun _ => false.

Lemma dead_write reg val : preserves dead (e4k_reg_write reg val).
Proof. intros s Hs. exact Hs. Qed.

Lemma dead_read reg : returns dead (e4k_reg_read reg) (fun rc => rc = -1).
Proof.
  intros [p d] Hs. unfold e4k_reg_read. wp_step. apply wp_gets. wp_step. apply wp_zoom.
  apply wp_eq with (a := -1) (s' := sim_push (I2cWrite (e4k_i2c_addr p) [u8 reg] (-1)) d); [|done].
  unfold dead in Hs. cbn [snd] in Hs. cbn [rtlsdr_i2c_write_fn sim_i2c snd fst]. unfold sim_write. by rewrite Hs.
Qed.

Lemma dead_upd f : preserves dead (upd f).
Proof. intros s Hs. exact Hs. Qed.
Lemma dead_priv {A} (f : e4k_state -> A) : preserves dead (priv f).
Proof. intros s Hs. exact Hs. Qed.
Lemma dead_read_pres reg : preserves dead (e4k_reg_read reg).
Proof. eapply returns_preserves, dead_read. Qed.
#[local] Hint Resolve dead_write dead_read_pres dead_upd dead_priv : pres.
Lemma dead_set_mask reg mask val : preserves dead (e4k_reg_set_mask reg mask val).
Proof. unfold e4k_reg_set_mask. solve_pres. Qed.
#[local] Hint Resolve dead_set_mask : pres.

(** With a bus on which every transfer fails, e4k_tune_freq still returns
    0 for every frequency it can compute parameters for: the results of the
    register writes are not looked at, and the -1 of the failed read of SYNTH1
    has the lock bit set. *)
Theorem e4k_tune_freq_dead_bus (freq : Z) (s : e4k_state * sim) :
  dead s -> is_fosc_valid (pll_fosc (e4k_vco s.1)) = true -> 100000 <= freq < 2 ^ 32 ->
  freq * (find_pll_vars pll_vars freq).2 < 256 * pll_fosc (e4k_vco s.1) ->
  wp (e4k_tune_freq freq) (fun rc _ => rc = 0) s.
Proof.
  intros Hs Hv Hf Hfit.
  pose proof (compute_pll_accurate (mk_pll 0 0 0 0 0 0 0 0) (pll_fosc (e4k_vco s.1)) freq Hv Hf Hfit) as Hret.
  unfold e4k_tune_freq. wp_step. apply wp_gets.
  destruct (e4k_compute_pll_params _ _ freq) as [ret p]. destruct Hret as (-> & _ & _ & _ & _ & _ & _ & _ & Hpos & _).
  replace (pll_flo p =? 0) with false by lia.
  apply (wp_bind_keep dead); [unfold e4k_tune_params, e4k_band_set, e4k_rf_filter_set; solve_pres|done|].
  intros _ s1 Hs1. wp_step. eapply wp_mono; [|by apply dead_read]. by intros rc s2 [-> _].
Qed.

Definition e4k_dead_st : e4k_state * sim :=
  (mk_e4k E4K_I2C_ADDR E4K_BAND_VHF2 (mk_pll 28800000 0 0 0 0 0 0 0), mk_sim (fun _ => false) (fun _ => 0) 28800000 false []).

Lemma e4k_tune_freq_dead_bus_witness : wp (e4k_tune_freq 100000000) (fun rc _ => rc = 0) e4k_dead_st.
Proof.
  refine (e4k_tune_freq_dead_bus 100000000 e4k_dead_st _ _ _ _).
  - reflexivity.
  - reflexivity.
  - by vm_compute.
  - by vm_compute.
Defined.

