(* ===== verification/Fc0012.v ===== *)
(** * The Fitipower FC0012 tuner driver (src/tuner_fc0012.c): operations

    The driver has no struct: its functions are computations on the device. *)

From S2P Require Import Prelude RtlsdrI2c.

Definition FC0012_I2C_ADDR : Z := 0xc6.
Definition FC0012_CHECK_ADDR : Z := 0x00.
Definition FC0012_CHECK_VAL : Z := 0xa1.

(** ** Pure parts of fc0012_set_params *)

(** Frequency divider: multi, reg[5], reg[6]. *)
(* src/tuner_fc0012.c:159-200 fc0012_set_params *)
Definition fc0012_divider (freq : Z) : Z * Z * Z :=
  if freq <? 37084000 then (96, 0x82, 0x00)
  else if freq <? 55625000 then (64, 0x82, 0x02)
  else if freq <? 74167000 then (48, 0x42, 0x00)
  else if freq <? 111250000 then (32, 0x42, 0x02)
  else if freq <? 148334000 then (24, 0x22, 0x00)
  else if freq <? 222500000 then (16, 0x22, 0x02)
  else if freq <? 296667000 then (12, 0x12, 0x00)
  else if freq <? 445000000 then (8, 0x12, 0x02)
  else if freq <? 593334000 then (6, 0x0a, 0x00)
  else (4, 0x0a, 0x02).

(** xdiv, am, pm: [None] is a division by zero. *)
(* src/tuner_fc0012.c:209-220 fc0012_set_params *)
Definition fc0012_xdiv (f_vco xtal_freq_div_2 : Z) : option (Z * Z) :=
  if xtal_freq_div_2 =? 0 then None else
  let xdiv := u16 (f_vco / xtal_freq_div_2) in
  let xdiv := if xtal_freq_div_2 / 2 <=? u64 (f_vco - u32 (xdiv * xtal_freq_div_2)) then u16 (xdiv + 1) else xdiv in
  let pm := u8 (xdiv / 8) in
  let am := u8 (xdiv - 8 * pm) in
  if am <? 2 then Some (u8 (am + 8), u8 (pm - 1)) else Some (am, pm).

(** reg[1] and reg[2]. *)
(* src/tuner_fc0012.c:222-228 fc0012_set_params *)
Definition fc0012_am_pm (am pm : Z) : Z * Z :=
  if 31 <? pm then (u8 (am + 8 * (pm - 31)), 31) else (am, pm).

(** The fractional part. *)
(* src/tuner_fc0012.c:239-244 fc0012_set_params *)
Definition fc0012_xin (f_vco xtal_freq_div_2 : Z) : option Z :=
  if xtal_freq_div_2 / 1000 =? 0 then None else
  let xin := u16 (u64 (f_vco - u64 (f_vco / xtal_freq_div_2 * xtal_freq_div_2)) / 1000) in
  let xin := u16 (u32 (xin ≪ 15) / (xtal_freq_div_2 / 1000)) in
  Some (if 16384 <=? xin then u16 (xin + 32768) else xin).

(** The registers 1 to 6 and vco_select; [Some None] is the error return. *)
(* src/tuner_fc0012.c:202-263 fc0012_set_params *)
Definition fc0012_pll (divider : Z * Z * Z) (xtal_freq_div_2 freq bandwidth : Z)
  : option (option (Z * Z * Z * Z * Z * Z * bool)) :=
  let '(multi, reg5, reg6) := divider in
  let f_vco := u32 (freq * multi) in
  let vco_select := 3060000000 <=? f_vco in
  let reg6 := if vco_select then reg6 .| 0x08 else reg6 in
  match fc0012_xdiv f_vco xtal_freq_div_2 with
  | None => None
  | Some (am, pm) =>
      let '(reg1, reg2) := fc0012_am_pm am pm in
      if (15 <? reg1) || (reg2 <? 0x0b) then Some None else
      (* fix clock out *)
      let reg6 := reg6 .| 0x20 in
      match fc0012_xin f_vco xtal_freq_div_2 with
      | None => None
      | Some xin =>
          let reg3 := xin ≫ 8 in
          let reg4 := xin .& 0xff in
          (* bits 6 and 7 describe the bandwidth *)
          let reg6 := reg6 .& 0x3f in
          let reg6 :=
            if bandwidth =? 6000000 then reg6 .| 0x80
            else if bandwidth =? 7000000 then reg6 .| 0x40
            else reg6 in
          (* modified for Realtek demod *)
          let reg5 := reg5 .| 0x07 in
          Some (Some (reg1, reg2, reg3, reg4, reg5, reg6, vco_select))
      end
  end.

(** ** Operations *)

Section fc0012.
Context {D : Type} `{RtlsdrI2c D}.

(* src/tuner_fc0012.c: fc0012_writereg *)
Definition fc0012_writereg (reg val : Z) : M D Z :=
  rc ← rtlsdr_i2c_write_fn FC0012_I2C_ADDR [u8 reg; u8 val];
  mret (if rc <? 0 then -1 else 0).

(** The result and the new value of [*val], which is [val] when the read
    fails. *)
(* src/tuner_fc0012.c: fc0012_readreg *)
Definition fc0012_readreg (reg val : Z) : M D (Z * Z) :=
  rc ← rtlsdr_i2c_write_fn FC0012_I2C_ADDR [u8 reg];
  if rc <? 0 then mret (-1, val) else
  p ← rtlsdr_i2c_read_fn FC0012_I2C_ADDR 1;
  if p.1 <? 0 then mret (-1, val) else
  data ← from_option_trap (p.2 !! 0%nat);
  mret (0, data).

(** Registers 1, 2, ...; reg[0x07] and reg[0x0c] with the bits that are
    or-ed in. *)
(* src/tuner_fc0012.c:95-137 fc0012_init *)
Definition fc0012_init_regs : list Z :=
  [0x05; 0x10; 0x00; 0x00; 0x0f; 0x00; 0x00 .| 0x20; 0xff; 0x6e; 0xb8; 0x82; 0xfc .| 0x02;
   0x02; 0x00; 0x00; 0x00; 0x00; 0x1f; 0x08; 0x00; 0x04].

(* src/tuner_fc0012.c: fc0012_init *)
Definition fc0012_init : M D Z :=
  for_check_nz (zip (map (Z.add 1) (zseq 21)) fc0012_init_regs) (fun '(i, v) => fc0012_writereg i v).

(** Write register 6 and calibrate. *)
(* src/tuner_fc0012.c:292-297 fc0012_set_params *)
Definition fc0012_set_vco (reg6 : Z) : M D Z :=
  fc0012_writereg 0x06 reg6 ;!
  fc0012_writereg 0x0e 0x80 ;!
  fc0012_writereg 0x0e 0x00.

(* src/tuner_fc0012.c: fc0012_set_params *)
Definition fc0012_set_params (freq bandwidth : Z) : M D Z :=
  clock ← gets rtlsdr_get_tuner_clock;
  let xtal_freq_div_2 := clock / 2 in
  r ← from_option_trap (fc0012_pll (fc0012_divider freq) xtal_freq_div_2 freq bandwidth);
  match r with
  | None => mret (-1)
  | Some (reg1, reg2, reg3, reg4, reg5, reg6, vco_select) =>
      for_check_nz [(1, reg1); (2, reg2); (3, reg3); (4, reg4); (5, reg5); (6, reg6)]
        (fun '(i, v) => fc0012_writereg i v) ;!
      (* VCO Calibration *)
      fc0012_writereg 0x0e 0x80 ;!
      fc0012_writereg 0x0e 0x00 ;!
      (* VCO Re-Calibration if needed *)
      fc0012_writereg 0x0e 0x00 ;!
      '(ret, tmp) ← fc0012_readreg 0x0e 0;
      if truthy ret then mret ret else
      (* vco selection *)
      let tmp := tmp .& 0x3f in
      if (vco_select : bool) then
        if 0x3c <? tmp then fc0012_set_vco (reg6 .& ~~ 0x08) else mret ret
      else
        if tmp <? 0x02 then fc0012_set_vco (reg6 .| 0x08) else mret ret
  end.

(* src/tuner_fc0012.c: fc0012_set_gain *)
Definition fc0012_set_gain (gain : Z) : M D Z :=
  '(_, tmp) ← fc0012_readreg 0x13 0;
  (* mask bits off *)
  let tmp := tmp .& 0xe0 in
  let tmp :=
    if gain =? -99 then tmp .| 0x02
    else if gain =? -40 then tmp
    else if gain =? 71 then tmp .| 0x08
    else if gain =? 179 then tmp .| 0x17
    else tmp .| 0x10 in
  fc0012_writereg 0x13 tmp.
End fc0012.
