(* ===== verification/Fc0013.v ===== *)
(** * The Fitipower FC0013 tuner driver (src/tuner_fc0013.c): operations *)

From S2P Require Import Prelude RtlsdrI2c.

Definition FC0013_I2C_ADDR : Z := 0xc6.
Definition FC0013_CHECK_ADDR : Z := 0x00.
Definition FC0013_CHECK_VAL : Z := 0xa3.

(** ** Pure parts *)

(** Frequency divider: multi, reg[5], reg[6]. *)
(* src/tuner_fc0013.c:260-305 fc0013_set_params *)
Definition fc0013_divider (freq : Z) : Z * Z * Z :=
  if freq <? 37084000 then (96, 0x82, 0x00)
  else if freq <? 55625000 then (64, 0x02, 0x02)
  else if freq <? 74167000 then (48, 0x42, 0x00)
  else if freq <? 111250000 then (32, 0x82, 0x02)
  else if freq <? 148334000 then (24, 0x22, 0x00)
  else if freq <? 222500000 then (16, 0x42, 0x02)
  else if freq <? 296667000 then (12, 0x12, 0x00)
  else if freq <? 445000000 then (8, 0x22, 0x02)
  else if freq <? 593334000 then (6, 0x0a, 0x00)
  else if freq <? 950000000 then (4, 0x12, 0x02)
  else (2, 0x0a, 0x02).

(* src/tuner_fc0013.c:314-325 fc0013_set_params *)
Definition fc0013_xdiv (f_vco xtal_freq_div_2 : Z) : option (Z * Z) :=
  if xtal_freq_div_2 =? 0 then None else
  let xdiv := u16 (f_vco / xtal_freq_div_2) in
  let xdiv := if xtal_freq_div_2 / 2 <=? u64 (f_vco - u32 (xdiv * xtal_freq_div_2)) then u16 (xdiv + 1) else xdiv in
  let pm := u8 (xdiv / 8) in
  let am := u8 (xdiv - 8 * pm) in
  if am <? 2 then Some (u8 (am + 8), u8 (pm - 1)) else Some (am, pm).

(* src/tuner_fc0013.c:327-333 fc0013_set_params *)
Definition fc0013_am_pm (am pm : Z) : Z * Z :=
  if 31 <? pm then (u8 (am + 8 * (pm - 31)), 31) else (am, pm).

(* src/tuner_fc0013.c:344-349 fc0013_set_params *)
Definition fc0013_xin (f_vco xtal_freq_div_2 : Z) : option Z :=
  if xtal_freq_div_2 / 1000 =? 0 then None else
  let xin := u16 (u64 (f_vco - u64 (f_vco / xtal_freq_div_2 * xtal_freq_div_2)) / 1000) in
  let xin := u16 (u32 (xin ≪ 15) / (xtal_freq_div_2 / 1000)) in
  Some (if 16384 <=? xin then u16 (xin + 32768) else xin).

(** The registers 1 to 6 and vco_select; [Some None] is the error return. *)
(* src/tuner_fc0013.c:307-368 fc0013_set_params *)
Definition fc0013_pll (divider : Z * Z * Z) (xtal_freq_div_2 freq bandwidth : Z)
  : option (option (Z * Z * Z * Z * Z * Z * bool)) :=
  let '(multi, reg5, reg6) := divider in
  let f_vco := u32 (freq * multi) in
  let vco_select := 3060000000 <=? f_vco in
  let reg6 := if vco_select then reg6 .| 0x08 else reg6 in
  match fc0013_xdiv f_vco xtal_freq_div_2 with
  | None => None
  | Some (am, pm) =>
      let '(reg1, reg2) := fc0013_am_pm am pm in
      if (15 <? reg1) || (reg2 <? 0x0b) then Some None else
      (* fix clock out *)
      let reg6 := reg6 .| 0x20 in
      match fc0013_xin f_vco xtal_freq_div_2 with
      | None => None
      | Some xin =>
          let reg3 := xin ≫ 8 in
          let reg4 := xin .& 0xff in
          (* bits 6 and 7 describe the bandwidth *)
          let reg6 := reg6 .& 0x3f in
          let reg6 :=
            if bandwidth =? 6000000 then reg6 .| 0x80
            else if bandwidth =? 7000000 then reg6 .| 0x40
            else reg6 in
          (* modified for Realtek demod *)
          let reg5 := reg5 .| 0x07 in
          Some (Some (reg1, reg2, reg3, reg4, reg5, reg6, vco_select))
      end
  end.

(** gain (tenths of a dB) and register value *)
(* src/tuner_fc0013.c: fc0013_lna_gains *)
Definition fc0013_lna_gains : list (Z * Z) :=
  [(-99, 0x02); (-73, 0x03); (-65, 0x05); (-63, 0x04); (-63, 0x00); (-60, 0x07); (-58, 0x01); (-54, 0x06);
   (58, 0x0f); (61, 0x0e); (63, 0x0d); (65, 0x0c); (67, 0x0b); (68, 0x0a); (70, 0x09); (71, 0x08);
   (179, 0x17); (181, 0x16); (182, 0x15); (184, 0x14); (186, 0x13); (188, 0x12); (191, 0x11); (197, 0x10)].

(** The first entry whose gain is at least [gain], or the last one. *)
(* src/tuner_fc0013.c:489-494 fc0013_set_lna_gain *)
Fixpoint lna_gain_bits (l : list (Z * Z)) (gain : Z) : Z :=
  match l with
  | [] => 0
  | (g, v) :: l' => if (gain <=? g) || (match l' with [] => true | _ => false end) then v else lna_gain_bits l' gain
  end.

(** ** Operations *)

Section fc0013.
Context {D : Type} `{RtlsdrI2c D}.

(* src/tuner_fc0013.c: fc0013_writereg *)
Definition fc0013_writereg (reg val : Z) : M D Z :=
  rc ← rtlsdr_i2c_write_fn FC0013_I2C_ADDR [u8 reg; u8 val];
  mret (if rc <? 0 then -1 else 0).

(** The result and the new value of [*val]. *)
(* src/tuner_fc0013.c: fc0013_readreg *)
Definition fc0013_readreg (reg val : Z) : M D (Z * Z) :=
  rc ← rtlsdr_i2c_write_fn FC0013_I2C_ADDR [u8 reg];
  if rc <? 0 then mret (-1, val) else
  p ← rtlsdr_i2c_read_fn FC0013_I2C_ADDR 1;
  if p.1 <? 0 then mret (-1, val) else
  data ← from_option_trap (p.2 !! 0%nat);
  mret (0, data).

(** [ret = fc0013_readreg(dev, reg, &tmp); if (ret) return ret; k] *)
Definition with_reg (reg : Z) (k : Z -> M D Z) : M D Z :=
  '(ret, tmp) ← fc0013_readreg reg 0;
  if truthy ret then mret ret else k tmp.

(** Registers 1, 2, ... *)
(* src/tuner_fc0013.c:64-104 fc0013_init *)
Definition fc0013_init_regs : list Z :=
  [0x09; 0x16; 0x00; 0x00; 0x17; 0x02; 0x0a .| 0x20; 0xff; 0x6e; 0xb8; 0x82; 0xfc .| 0x02;
   0x01; 0x00; 0x00; 0x00; 0x00; 0x00; 0x00; 0x50; 0x01].

(* src/tuner_fc0013.c: fc0013_init *)
Definition fc0013_init : M D Z :=
  for_check (zip (map (Z.add 1) (zseq 21)) fc0013_init_regs) (fun '(i, v) => fc0013_writereg i v).

(* src/tuner_fc0013.c: fc0013_rc_cal_add *)
Definition fc0013_rc_cal_add (rc_val : Z) : M D Z :=
  (* push rc_cal value, get rc_cal value *)
  fc0013_writereg 0x10 0x00 ;!
  (* get rc_cal value *)
  with_reg 0x10 (fun rc_cal =>
  let rc_cal := rc_cal .& 0x0f in
  let val := i32 (rc_cal + rc_val) in
  (* forcing rc_cal *)
  fc0013_writereg 0x0d 0x11 ;!
  (* modify rc_cal value *)
  if 15 <? val then fc0013_writereg 0x10 0x0f
  else if val <? 0 then fc0013_writereg 0x10 0x00
  else fc0013_writereg 0x10 (u8 val)).

(* src/tuner_fc0013.c: fc0013_rc_cal_reset *)
Definition fc0013_rc_cal_reset : M D Z :=
  fc0013_writereg 0x0d 0x01 ;!
  fc0013_writereg 0x10 0x00.

(* src/tuner_fc0013.c: fc0013_set_vhf_track *)
Definition fc0013_set_vhf_track (freq : Z) : M D Z :=
  with_reg 0x1d (fun tmp =>
  let tmp := tmp .& 0xe3 in
  if freq <=? 177500000 then fc0013_writereg 0x1d (tmp .| 0x1c)
  else if freq <=? 184500000 then fc0013_writereg 0x1d (tmp .| 0x18)
  else if freq <=? 191500000 then fc0013_writereg 0x1d (tmp .| 0x14)
  else if freq <=? 198500000 then fc0013_writereg 0x1d (tmp .| 0x10)
  else if freq <=? 205500000 then fc0013_writereg 0x1d (tmp .| 0x0c)
  else if freq <=? 219500000 then fc0013_writereg 0x1d (tmp .| 0x08)
  else if freq <? 300000000 then fc0013_writereg 0x1d (tmp .| 0x04)
  else fc0013_writereg 0x1d (tmp .| 0x1c)).

(** The filter and band bits. *)
(* src/tuner_fc0013.c:210-258 fc0013_set_params *)
Definition fc0013_set_band (freq : Z) : M D Z :=
  if freq <? 300000000 then
    (* enable VHF filter *)
    with_reg 0x07 (fun tmp =>
    fc0013_writereg 0x07 (tmp .| 0x10) ;!
    (* disable UHF & disable GPS *)
    with_reg 0x14 (fun tmp =>
    fc0013_writereg 0x14 (tmp .& 0x1f)))
  else if freq <=? 862000000 then
    (* disable VHF filter *)
    with_reg 0x07 (fun tmp =>
    fc0013_writereg 0x07 (tmp .& 0xef) ;!
    (* enable UHF & disable GPS *)
    with_reg 0x14 (fun tmp =>
    fc0013_writereg 0x14 ((tmp .& 0x1f) .| 0x40)))
  else
    (* disable VHF filter *)
    with_reg 0x07 (fun tmp =>
    fc0013_writereg 0x07 (tmp .& 0xef) ;!
    (* enable UHF & disable GPS *)
    with_reg 0x14 (fun tmp =>
    fc0013_writereg 0x14 ((tmp .& 0x1f) .| 0x40))).

(** Write register 6 and calibrate. *)
(* src/tuner_fc0013.c:407-412 fc0013_set_params *)
Definition fc0013_set_vco (reg6 : Z) : M D Z :=
  fc0013_writereg 0x06 reg6 ;!
  fc0013_writereg 0x0e 0x80 ;!
  fc0013_writereg 0x0e 0x00.

(* src/tuner_fc0013.c: fc0013_set_params *)
Definition fc0013_set_params (freq bandwidth : Z) : M D Z :=
  clock ← gets rtlsdr_get_tuner_clock;
  let xtal_freq_div_2 := clock / 2 in
  (* set VHF track *)
  fc0013_set_vhf_track freq ;!
  fc0013_set_band freq ;!
  let divider := fc0013_divider freq in
  let '(multi, _, _) := divider in
  r ← from_option_trap (fc0013_pll divider xtal_freq_div_2 freq bandwidth);
  match r with
  | None => mret (-1)
  | Some (reg1, reg2, reg3, reg4, reg5, reg6, vco_select) =>
      for_check_nz [(1, reg1); (2, reg2); (3, reg3); (4, reg4); (5, reg5); (6, reg6)]
        (fun '(i, v) => fc0013_writereg i v) ;!
      with_reg 0x11 (fun tmp =>
      (if multi =? 64 then fc0013_writereg 0x11 (tmp .| 0x04) else fc0013_writereg 0x11 (tmp .& 0xfb)) ;!
      (* VCO Calibration *)
      fc0013_writereg 0x0e 0x80 ;!
      fc0013_writereg 0x0e 0x00 ;!
      (* VCO Re-Calibration if needed *)
      fc0013_writereg 0x0e 0x00 ;!
      '(ret, tmp) ← fc0013_readreg 0x0e 0;
      if truthy ret then mret ret else
      (* vco selection *)
      let tmp := tmp .& 0x3f in
      if (vco_select : bool) then
        if 0x3c <? tmp then fc0013_set_vco (reg6 .& ~~ 0x08) else mret ret
      else
        if tmp <? 0x02 then fc0013_set_vco (reg6 .| 0x08) else mret ret)
  end.

(* src/tuner_fc0013.c: fc0013_set_gain_mode *)
Definition fc0013_set_gain_mode (manual : Z) : M D Z :=
  '(r1, tmp) ← fc0013_readreg 0x0d 0;
  let tmp := if truthy manual then tmp .| (1 ≪ 3) else u8 (tmp .& ~~ (1 ≪ 3)) in
  r2 ← fc0013_writereg 0x0d tmp;
  (* set a fixed IF-gain for now *)
  r3 ← fc0013_writereg 0x13 0x0a;
  mret (r1 .| r2 .| r3).

(* src/tuner_fc0013.c: fc0013_set_lna_gain *)
Definition fc0013_set_lna_gain (gain : Z) : M D Z :=
  '(r1, tmp) ← fc0013_readreg 0x14 0;
  (* mask bits off *)
  let tmp := tmp .& 0xe0 in
  let tmp := tmp .| lna_gain_bits fc0013_lna_gains gain in
  (* set gain *)
  r2 ← fc0013_writereg 0x14 tmp;
  mret (r1 .| r2).
End fc0013.
