(* ===== verification/FcPll.v ===== *)
(** * FC0012 and FC0013: arithmetic of the PLL and register access

    The two drivers share their PLL arithmetic ([fc0013_xdiv] and the like
    are the same terms as the FC0012's), their bus address and their register
    access. *)

From S2P Require Import Prelude RtlsdrI2c I2cSim Fc0012 Fc0013.

(** ** Arithmetic *)

(** The VCO frequency (Hz, times 32768) that the registers 1 to 4 stand for:
    [reg1 + 8 * reg2] cycles and a signed 15-bit fraction. *)
Definition fc_vco (xd2 reg1 reg2 reg3 reg4 : Z) : Z :=
  xd2 * (32768 * (reg1 + 8 * reg2) + i16 (256 * reg3 + reg4)).

(** The rounded divider, split into [am] and [pm]. *)
Lemma fc_xdiv_spec f xd2 :
  10000000 <= xd2 <= 20000000 -> 2 * xd2 <= f < 2 ^ 32 ->
  exists am pm, fc0012_xdiv f xd2 = Some (am, pm) /\ 2 <= am <= 9 /\ 0 <= pm <= 54 /\
    am + 8 * pm = f / xd2 + (if xd2 / 2 <=? f mod xd2 then 1 else 0).
Proof.
  intros Hx Hf. unfold fc0012_xdiv. replace (xd2 =? 0) with false by lia.
  pose proof (Z.div_mod f xd2 ltac:(lia)) as Hd. pose proof (Z.mod_pos_bound f xd2 ltac:(lia)) as Hm.
  set (q := f / xd2) in *. set (r := f mod xd2) in *.
  assert (Hq : 2 <= q < 430) by nia.
  rewrite (u16_small q) by (unfold is_u16; lia).
  rewrite (u32_small (q * xd2)) by (unfold is_u32; nia).
  replace (f - q * xd2) with r by lia. rewrite u64_small by lia.
  set (x := if xd2 / 2 <=? r then u16 (q + 1) else q).
  assert (Hxq : x = q + (if xd2 / 2 <=? r then 1 else 0)).
  { subst x. destruct (_ <=? r); [rewrite u16_small by (unfold is_u16; lia)|]; lia. }
  rewrite <- Hxq. assert (Hxr : 2 <= x < 431) by (rewrite Hxq; destruct (_ <=? r); lia). clearbody x.
  pose proof (Z.div_mod x 8 ltac:(lia)) as H8. pose proof (Z.mod_pos_bound x 8 ltac:(lia)) as Hm8.
  assert (Hp8 : 0 <= x / 8 <= 53) by lia.
  rewrite (u8_small (x / 8)) by (unfold is_u8; lia).
  rewrite (u8_small (x - 8 * (x / 8))) by (unfold is_u8; lia).
  destruct (Z.ltb_spec (x - 8 * (x / 8)) 2).
  - rewrite !u8_small by (unfold is_u8; lia). do 2 eexists. split; [done|]. lia.
  - do 2 eexists. split; [done|]. lia.
Qed.

Lemma fc_am_pm_spec am pm :
  2 <= am <= 9 -> 0 <= pm <= 54 ->
  exists r1 r2, fc0012_am_pm am pm = (r1, r2) /\ r1 + 8 * r2 = am + 8 * pm /\ is_u8 r1 /\ is_u8 r2 /\ 2 <= r1.
Proof.
  intros Ha Hp. unfold fc0012_am_pm. destruct (Z.ltb_spec 31 pm).
  - rewrite u8_small by (unfold is_u8; lia). do 2 eexists. split; [done|]. unfold is_u8. lia.
  - do 2 eexists. split; [done|]. unfold is_u8. lia.
Qed.

(** The fraction, for a reference that is a multiple of 2 kHz: it agrees with
    the rounding of the divider. *)
Lemma fc_xin_spec f h :
  5000 <= h <= 10000 -> 0 <= f < 2 ^ 32 ->
  exists xin, fc0012_xin f (2000 * h) = Some xin /\ is_u16 xin /\
    0 <= 32768 * f - 2000 * h * (32768 * (f / (2000 * h) + (if 2000 * h / 2 <=? f mod (2000 * h) then 1 else 0)) + i16 xin)
      <= 32768 * 1000 + 2000 * h.
Proof.
  intros Hh Hf. unfold fc0012_xin. set (xd2 := 2000 * h).
  assert (Hk : xd2 / 1000 = 2 * h) by (unfold xd2; replace (2000 * h) with (2 * h * 1000) by lia; apply Z.div_mul; lia).
  assert (Hhalf : xd2 / 2 = 1000 * h) by (unfold xd2; replace (2000 * h) with (1000 * h * 2) by lia; apply Z.div_mul; lia).
  rewrite Hk, Hhalf. replace (2 * h =? 0) with false by lia.
  pose proof (Z.div_mod f xd2 ltac:(lia)) as Hd. pose proof (Z.mod_pos_bound f xd2 ltac:(lia)) as Hm.
  assert (Hq0 : 0 <= f / xd2) by (apply Z.div_pos; lia).
  set (q := f / xd2) in *. set (r := f mod xd2) in *.
  rewrite (u64_small (q * xd2)) by nia. replace (f - q * xd2) with r by lia. rewrite u64_small by lia.
  pose proof (Z.div_mod r 1000 ltac:(lia)) as Hdt. pose proof (Z.mod_pos_bound r 1000 ltac:(lia)) as Hmt.
  set (t := r / 1000) in *. assert (Ht : 0 <= t < 2 * h) by (unfold xd2 in *; lia).
  rewrite (u16_small t) by (unfold is_u16; lia).
  rewrite Z.shiftl_mul_pow2 by lia. change (2 ^ 15) with 32768.
  rewrite (u32_small (t * 32768)) by (unfold is_u32; lia).
  pose proof (Z.div_mod (t * 32768) (2 * h) ltac:(lia)) as HdX.
  pose proof (Z.mod_pos_bound (t * 32768) (2 * h) ltac:(lia)) as HmX.
  assert (HX : 0 <= t * 32768 / (2 * h) < 32768) by (split; [apply Z.div_pos; lia|apply Z.div_lt_upper_bound; lia]).
  set (X := t * 32768 / (2 * h)) in *. rewrite (u16_small X) by (unfold is_u16; lia).
  assert (Hround : (1000 * h <=? r) = (16384 <=? X)) 
  by (destruct (Z.ltb_spec t h);
      [assert (X < 16384) by (apply Z.div_lt_upper_bound; lia)
      |assert (16384 <= X) by (apply Z.div_le_lower_bound; lia)]; lia).
  rewrite Hround. clear Hround.
  assert (Hb : 0 <= 32768 * r - xd2 * X <= 32768 * 1000 + xd2) by (unfold xd2 in *; lia).
  exists (if 16384 <=? X then u16 (X + 32768) else X). split; [done|].
  destruct (Z.leb_spec 16384 X) as [Hge|Hlt].
  - rewrite u16_small by (unfold is_u16; lia). split; [unfold is_u16; lia|].
    assert (i16 (X + 32768) = X - 32768) as ->.
    { unfold i16. change (2 ^ 15) with 32768. replace (X + 32768 + 32768) with (X + 1 * 2 ^ 16) by lia.
      rewrite Z.mod_add, Z.mod_small; lia. }
    lia.
  - split; [unfold is_u16; lia|]. assert (i16 X = X) as ->.
    { unfold i16. change (2 ^ 15) with 32768. rewrite Z.mod_small; lia. }
    lia.
Qed.

(** The divider as it is rounded. *)
Definition fc_round (xd2 f : Z) : Z := f / xd2 + (if xd2 / 2 <=? f mod xd2 then 1 else 0).

(** Bits 6 and 7 of register 6. *)
Definition bandwidth_bits (bandwidth : Z) : Z :=
  if bandwidth =? 6000000 then 0x80 else if bandwidth =? 7000000 then 0x40 else 0.

(** The registers computed by the PLL arithmetic: an error exactly when the
    divider is out of range. *)
Lemma fc_pll_spec multi r5 r6 h freq bw :
  5000 <= h <= 10000 -> 0 <= freq * multi < 2 ^ 32 -> 2 * (2000 * h) <= freq * multi ->
  is_u8 r5 -> r6 = 0 \/ r6 = 2 ->
  let x := fc_round (2000 * h) (freq * multi) in
  match fc0012_pll (multi, r5, r6) (2000 * h) freq bw with
  | None => False
  | Some None => ~ 90 <= x <= 263
  | Some (Some (reg1, reg2, reg3, reg4, reg5, reg6, _)) =>
      90 <= x <= 263 /\ is_u8 reg1 /\ is_u8 reg2 /\ is_u8 reg3 /\ is_u8 reg4 /\ is_u8 reg6 /\
      reg5 = r5 .| 0x07 /\ reg6 .& 0xc2 = r6 .| bandwidth_bits bw /\
      0 <= 32768 * (freq * multi) - fc_vco (2000 * h) reg1 reg2 reg3 reg4 <= 32768 * 1000 + 2000 * h
  end.
Proof.
  intros Hh Hf Hlow Hr5 Hr6. cbv zeta. unfold fc0012_pll.
  rewrite (u32_small (freq * multi)) by (unfold is_u32; lia). set (f := freq * multi) in *.
  destruct (fc_xdiv_spec f (2000 * h) ltac:(lia) ltac:(lia)) as (am & pm & -> & Ham & Hpm & Hx).
  destruct (fc_am_pm_spec am pm Ham Hpm) as (r1 & r2 & E & Hsum & H1 & H2 & H1low). rewrite E.
  unfold fc_round. rewrite <- Hx.
  assert (Hguard : (15 <? r1) || (r2 <? 0x0b) = negb ((90 <=? am + 8 * pm) && (am + 8 * pm <=? 263))).
  { unfold fc0012_am_pm in E. destruct (Z.ltb_spec 31 pm); simplify_eq; [rewrite u8_small by (unfold is_u8; lia)|];
      apply eq_true_iff_eq; rewrite orb_true_iff, negb_true_iff, andb_false_iff; lia. }
  rewrite Hguard. destruct ((90 <=? am + 8 * pm) && (am + 8 * pm <=? 263)) eqn:Hr; cbn [negb]; [|lia].
  destruct (fc_xin_spec f h Hh Hf) as (xin & -> & Hxin & Hacc). rewrite <- Hx in Hacc.
  unfold is_u16 in Hxin.
  assert (Hhi : 0 <= xin / 2 ^ 8 < 2 ^ 8) by (split; [apply Z.div_pos; lia|apply Z.div_lt_upper_bound; lia]).
  rewrite Z.shiftr_div_pow2 by lia. change 0xff with (Z.ones 8). rewrite Z.land_ones by lia.
  pose proof (Z.mod_pos_bound xin (2 ^ 8) ltac:(lia)) as Hlo.
  split; [lia|]. do 2 (split; [done|]). split; [by unfold is_u8|]. split; [by unfold is_u8|].
  unfold bandwidth_bits. split; [|split; [done|split]].
  - destruct Hr6 as [-> | ->]; repeat case_match; by_compute.
  - destruct Hr6 as [-> | ->]; repeat case_match; reflexivity.
  - unfold fc_vco. rewrite Hsum.
    replace (256 * (xin / 2 ^ 8) + xin mod 2 ^ 8) with xin by (pose proof (Z.div_mod xin (2 ^ 8) ltac:(lia)); lia).
    exact Hacc.
Qed.

(** Switching the VCO range leaves the other bits of register 6 alone. *)
Lemma vco_bits b : is_u8 b -> is_u8 (b .& ~~ 0x08) /\ is_u8 (b .| 0x08) /\
  (b .& ~~ 0x08) .& 0xc2 = b .& 0xc2 /\ (b .| 0x08) .& 0xc2 = b .& 0xc2.
Proof.
  intros Hb. assert (forallb (fun b => bool_decide (is_u8 (b .& ~~ 0x08)) && bool_decide (is_u8 (b .| 0x08)) &&
    ((b .& ~~ 0x08) .& 0xc2 =? b .& 0xc2) && ((b .| 0x08) .& 0xc2 =? b .& 0xc2)) (zseq 256) = true) as Hall
    by (vm_compute; reflexivity).
  pose proof (u8_all _ Hall b Hb) as E. cbv beta in E. rewrite !andb_true_iff, !bool_decide_eq_true, !Z.eqb_eq in E. tauto.
Qed.

(** ** Register access *)

(** The VCO voltage (0x0e) and the calibration value (0x10) are status. *)
Definition fc_storage (reg : Z) : Z := if (reg =? 0x0e) || (reg =? 0x10) then 0 else 0xff.

Section access.
Context {D : Type} `{RtlsdrI2cLaws D} (init : Z -> Z).
Implicit Types (d : D) (L : list field).

Definition fc_knows L d : Prop := knows FC0012_I2C_ADDR init fc_storage L d.
Definition fc_good d : Prop := good FC0012_I2C_ADDR init fc_storage (i2c_log d).
Definition fc_reg d (r : Z) : Z := creg init (chip FC0012_I2C_ADDR init fc_storage (i2c_log d)) r.

Lemma fc_addr_u8 : is_u8 FC0012_I2C_ADDR.
Proof. by_compute. Qed.

Lemma fc_writereg reg val L d :
  fc_knows L d -> is_u8 reg ->
  wp (fc0012_writereg reg val)
    (fun rc d' => (rc = 0 \/ rc = -1) /\ fc_knows ((reg, 0xff, u8 val) :: forget fc_storage reg 0xff L) d' /\
       (fc_good d' -> fc_good d /\ rc = 0)) d.
Proof.
  intros Hk Hr. unfold fc0012_writereg. wp_step. rewrite (u8_small reg) by done.
  eapply wp_mono; [|apply (dev_set_wp _ init fc_storage reg _ L); [apply fc_addr_u8|exact Hk|apply u8_range]].
  intros rc d' (Hk' & _ & Hg). split; [destruct (rc <? 0); auto|]. split; [exact Hk'|].
  intros [Hgd ->]%Hg. done.
Qed.

Lemma fc_readreg reg v0 L d :
  fc_knows L d -> is_u8 reg ->
  wp (fc0012_readreg reg v0)
    (fun p d' => (p.1 = 0 \/ p.1 = -1) /\ (p.1 = 0 -> is_u8 p.2) /\ (p.1 <> 0 -> p.2 = v0) /\ fc_knows L d' /\
       (fc_good d' -> fc_good d /\ p.1 = 0 /\ p.2 .& fc_storage reg = fc_reg d' reg .& fc_storage reg)) d.
Proof.
  intros Hk Hr. unfold fc0012_readreg. wp_step. rewrite (u8_small reg) by done.
  eapply wp_mono; [|apply (dev_point_wp _ init fc_storage reg L); [apply fc_addr_u8|exact Hk]].
  intros r1 d1 (Hk1 & Hpt & _ & Hg1). destruct (Z.ltb_spec r1 0).
  { split; [by right|]. do 2 (split; [done|]). split; [done|]. intros [_ ?]%Hg1. lia. }
  wp_step. eapply wp_mono; [|by apply (dev_read_wp _ init fc_storage reg L); [apply fc_addr_u8|..]].
  intros [r2 data] d2 (v & -> & Hv & Hk2 & _ & Hg2). cbn [fst snd] in *.
  destruct (Z.ltb_spec r2 0).
  { split; [by right|]. do 2 (split; [done|]). split; [done|]. intros (_ & ? & _)%Hg2. lia. }
  split; [by left|]. do 2 (split; [done|]). split; [done|].
  intros (Hg & _ & E)%Hg2. by apply Hg1 in Hg as [Hg _].
Qed.

(** The same with the registers that the fields [F] avoid. *)
Lemma fc_write_keep reg regs val F d :
  fc_knows F d -> avoids regs F = true -> reg ∈ regs -> is_u8 reg ->
  wp (fc0012_writereg reg val)
    (fun rc d' => fc_knows ((reg, 0xff, u8 val) :: F) d' /\ (fc_good d' -> fc_good d /\ rc = 0)) d.
Proof.
  intros Hk HF Hin Hr. eapply wp_mono; [|by apply (fc_writereg reg val F)].
  intros rc d' (_ & Hk' & Hg). by rewrite (forget_avoids fc_storage reg regs) in Hk'.
Qed.

(** A field of the fields that the chip has. *)
Lemma fc_field L d r m v : fc_knows L d -> fc_good d -> (r, m, v) ∈ L -> fc_reg d r .& m = v .& m.
Proof. intros Hk Hg Hin. exact (proj1 (Forall_forall _ _) (Hk Hg) _ Hin). Qed.

Lemma fc_field_u8 L d r v : fc_knows L d -> fc_good d -> is_u8 v -> (r, 0xff, v) ∈ L -> fc_reg d r = v.
Proof.
  intros Hk Hg Hv Hin. pose proof (fc_field L d r 0xff v Hk Hg Hin) as E.
  change 0xff with (Z.ones 8) in E. rewrite !Z.land_ones in E by lia.
  rewrite !Z.mod_small in E by (first [exact Hv|apply creg_u8]). exact E.
Qed.

(** ** Calibration and the six PLL registers *)

(** The tail of the set_params functions. *)
Definition fc_tail (r6 : Z) (vs : bool) : M D Z :=
  fc0012_writereg 0x0e 0x80 ;!
  fc0012_writereg 0x0e 0x00 ;!
  fc0012_writereg 0x0e 0x00 ;!
  '(ret, tmp) ← fc0012_readreg 0x0e 0;
  if truthy ret then mret ret else
  let tmp := tmp .& 0x3f in
  if vs then if 0x3c <? tmp then fc0012_set_vco (r6 .& ~~ 0x08) else mret ret
  else if tmp <? 0x02 then fc0012_set_vco (r6 .| 0x08) else mret ret.

(** A checked write that is followed by the rest of the function. *)
Lemma fc_check_keep reg regs val F (k : M D Z) (Q : Z -> D -> Prop) d :
  fc_knows F d -> avoids regs F = true -> reg ∈ regs -> is_u8 reg ->
  (forall rc d', rc <> 0 -> Q rc d') ->
  (forall d', fc_knows ((reg, 0xff, u8 val) :: F) d' -> wp k Q d') ->
  wp (fc0012_writereg reg val ;! k) Q d.
Proof.
  intros Hk HF Hin Hr Hneg Hnext. eapply wp_check_nz_post; [by apply (fc_write_keep reg regs val F)| |].
  - intros rc d' _ Hrc. by apply Hneg.
  - intros d' [Hk' _]. by apply Hnext.
Qed.

Lemma fc_knows_tail f F d : fc_knows (f :: F) d -> fc_knows F d.
Proof. intros Hk Hg. specialize (Hk Hg). by apply Forall_cons in Hk as [_ Hk]. Qed.

(** The six registers are as before up to the VCO range bit. *)
Lemma fc_calibrate r6 vs F d :
  fc_knows ((6, 0xff, r6) :: F) d -> avoids [6; 0x0e] F = true -> is_u8 r6 ->
  wp (fc_tail r6 vs) (fun rc d' => rc = 0 -> fc_knows ((6, 0xc2, r6) :: F) d') d.
Proof.
  intros Hk HF H6. unfold fc_tail.
  match goal with |- wp _ ?Q _ => assert (Hneg : forall rc d', rc <> 0 -> Q rc d') by (intros; lia) end.
  assert (HF14 : avoids [0x0e] ((6, 0xff, r6) :: F) = true).
  { rewrite avoids_cons. apply (avoids_sub [6; 0x0e]); [done|]. intros ?. rewrite !elem_of_cons. tauto. }
  do 3 (eapply (fc_check_keep 0x0e [0x0e]); [exact Hk|exact HF14|rewrite !elem_of_cons; auto|by_compute|exact Hneg|];
    clear Hk; intros ? Hk%fc_knows_tail).
  wp_step. eapply wp_mono; [|apply (fc_readreg 0x0e 0 _ _ Hk); by_compute].
  intros [ret tmp] d1 (Hret & _ & _ & Hk1 & _). cbn [fst snd] in *. clear Hk.
  destruct (truthy ret) eqn:Et; [apply wp_ret; unfold truthy in Et; lia|]. cbv zeta.
  destruct (vco_bits r6 H6) as (Ha & Ho & Ea & Eo).
  assert (Hout : forall r6' d', r6' .& 0xc2 = r6 .& 0xc2 -> is_u8 r6' ->
    fc_knows ((6, 0xff, r6') :: F) d' -> fc_knows ((6, 0xc2, r6) :: F) d').
  { intros r6' dx E Hu Hk Hg. specialize (Hk Hg). apply Forall_cons in Hk as [H1 H2].
    constructor; [|done]. cbn [has] in *. rewrite <- E.
    assert (0xff .& 0xc2 = 0xc2) as <- by done. by rewrite !Z.land_assoc, H1. }
  assert (Hsame : wp (mret ret) (fun rc d' => rc = 0 -> fc_knows ((6, 0xc2, r6) :: F) d') d1).
  { apply wp_ret. intros _. by apply (Hout r6). }
  assert (Hset : forall r6', is_u8 r6' -> r6' .& 0xc2 = r6 .& 0xc2 ->
    wp (fc0012_set_vco r6') (fun rc d' => rc = 0 -> fc_knows ((6, 0xc2, r6) :: F) d') d1).
  { intros r6' Hr6 E. unfold fc0012_set_vco. apply fc_knows_tail in Hk1.
    eapply (fc_check_keep 6 [6; 0x0e]); [exact Hk1|exact HF|rewrite !elem_of_cons; auto|by_compute|exact Hneg|].
    intros d2 Hk2. rewrite (u8_small r6') in Hk2 by done.
    assert (HF14' : avoids [0x0e] ((6, 0xff, r6') :: F) = true) by exact HF14.
    eapply (fc_check_keep 0x0e [0x0e]); [exact Hk2|exact HF14'|rewrite !elem_of_cons; auto|by_compute|exact Hneg|].
    intros d3 Hk3%fc_knows_tail.
    eapply wp_mono; [|apply (fc_write_keep 0x0e [0x0e] 0 _ _ Hk3 HF14'); [apply list_elem_of_here|by_compute]].
    intros rc d4 [Hk4%fc_knows_tail _] _. by apply (Hout r6'). }
  destruct vs; [destruct (0x3c <? _)|destruct (_ <? 0x02)]; auto.
Qed.

Definition six_fields (reg1 reg2 reg3 reg4 reg5 reg6 : Z) : list field :=
  [(6, 0xff, reg6); (5, 0xff, reg5); (4, 0xff, reg4); (3, 0xff, reg3); (2, 0xff, reg2); (1, 0xff, reg1)].

Ltac six_step reg regs Hk :=
  lazymatch type of Hk with
  | fc_knows ?F ?d =>
      apply (fc_check_keep reg regs _ F);
      [exact Hk
      |rewrite ?avoids_cons; eapply (avoids_sub [1; 2; 3; 4; 5; 6]); [eassumption|intros ?; rewrite !elem_of_cons; tauto]
      |apply list_elem_of_here|by_compute|assumption|clear Hk; intros ? Hk]
  end.

Lemma fc_write_six r1 r2 r3 r4 r5 r6 F (k : M D Z) (Q : Z -> D -> Prop) d :
  fc_knows F d -> avoids [1; 2; 3; 4; 5; 6] F = true ->
  is_u8 r1 -> is_u8 r2 -> is_u8 r3 -> is_u8 r4 -> is_u8 r5 -> is_u8 r6 ->
  (forall rc d', rc <> 0 -> Q rc d') ->
  (forall d', fc_knows (six_fields r1 r2 r3 r4 r5 r6 ++ F) d' -> wp k Q d') ->
  wp (for_check_nz [(1, r1); (2, r2); (3, r3); (4, r4); (5, r5); (6, r6)] (fun '(i, v) => fc0012_writereg i v) ;! k) Q d.
Proof.
  intros Hk HF H1 H2 H3 H4 H5 H6 Hneg0 Hk0. apply wp_check_nz. cbn [for_check_nz].
  assert (Hneg : forall rc d', rc <> 0 -> (if truthy rc then Q rc d' else wp k Q d')).
  { intros rc d' Hrc. unfold truthy. replace (rc =? 0) with false by lia. cbn [negb]. auto. }
  six_step 1 [1; 2; 3; 4; 5; 6] Hk. six_step 2 [2; 3; 4; 5; 6] Hk. six_step 3 [3; 4; 5; 6] Hk.
  six_step 4 [4; 5; 6] Hk. six_step 5 [5; 6] Hk. six_step 6 [6] Hk.
  apply wp_ret. rewrite !u8_small in Hk by done. exact (Hk0 _ Hk).
Qed.
End access.

(** One register write of a run with the fields [Hk]. *)
Ltac fc_step Hk Hneg :=
  cbv beta zeta;
  lazymatch type of Hk with
  | fc_knows ?init ?L _ =>
      lazymatch goal with
      | |- wp (check_nz (_ _ _) _) _ _ =>
          eapply wp_check_nz_post; [apply (fc_writereg init _ _ L); [exact Hk|by_compute]|exact (Hneg _)|
                                    clear Hk; intros ? (_ & Hk & _)]
      end
  end.
