(* ===== verification/FcSpec.v ===== *)
(** * FC0012 and FC0013: what the drivers promise *)

From S2P Require Import Prelude RtlsdrI2c I2cSim Fc0012 Fc0013 FcPll.

(** The LO divider for the bits of registers 5 and 6 (and 0x11). *)
Definition fc0012_lo_divider (reg5 reg6 : Z) : Z :=
  match reg5 ≫ 3, Z.testbit reg6 1 with
  | 16, false => 96 | 16, true => 64
  | 8, false => 48 | 8, true => 32
  | 4, false => 24 | 4, true => 16
  | 2, false => 12 | 2, true => 8
  | _, false => 6 | _, true => 4
  end.

Lemma land_bit1 a b : a .& 0xc2 = b .& 0xc2 -> Z.testbit a 1 = Z.testbit b 1.
Proof.
  intros E. apply (f_equal (fun x => Z.testbit x 1)) in E. rewrite !Z.land_spec in E.
  change (Z.testbit 0xc2 1) with true in E. by rewrite !andb_true_r in E.
Qed.

Lemma land_bw a b : a .& 0xc2 = b -> a .& 0xc0 = b .& 0xc0.
Proof. intros <-. rewrite <- Z.land_assoc. reflexivity. Qed.

Lemma fc0012_divider_spec freq :
  let '(multi, r5, r6) := fc0012_divider freq in
  is_u8 r5 /\ (r6 = 0 \/ r6 = 2) /\ 4 <= multi <= 96 /\
  forall reg6 bw, reg6 .& 0xc2 = r6 .| bandwidth_bits bw ->
    fc0012_lo_divider (r5 .| 0x07) reg6 = multi /\ reg6 .& 0xc0 = bandwidth_bits bw.
Proof.
  unfold fc0012_divider, bandwidth_bits.
  repeat case_match; simplify_eq; (split; [by_compute|]; split; [auto|]; split; [lia|]); intros reg6 bw E;
    (split; [|apply land_bw in E; rewrite E; by repeat case_match]);
    unfold fc0012_lo_divider;
    (match type of E with _ = ?v => rewrite (land_bit1 reg6 v) by (rewrite E; by repeat case_match) end);
    by repeat case_match.
Qed.

Section fc0012.
Context {D : Type} `{RtlsdrI2cLaws D} (init : Z -> Z).
Implicit Types (d : D) (L : list field).

(** Fc0012_set_params, for a crystal that is a multiple of 4 kHz between 20
    and 40 MHz and a VCO frequency [freq * multi] that fits 32 bits: it is
    refused, without a transfer, exactly when the rounded ratio of VCO and half
    the crystal is not between 90 and 263.  Otherwise, when the result is 0, on
    a chip that stores what is written, the registers stand for a VCO
    frequency below [freq * multi] by at most 1 kHz plus [xd2/32768] Hz, with
    the output divider [multi] and the requested bandwidth. *)
Theorem fc0012_set_params_pll (freq bandwidth h : Z) d :
  let xd2 := 2000 * h in let multi := (fc0012_divider freq).1.1 in
  rtlsdr_get_tuner_clock d / 2 = xd2 -> 5000 <= h <= 10000 ->
  2 * xd2 <= freq * multi < 2 ^ 32 ->
  wp (fc0012_set_params freq bandwidth)
    (fun rc d' =>
       let reg := fc_reg init d' in
       if (90 <=? fc_round xd2 (freq * multi)) && (fc_round xd2 (freq * multi) <=? 263) then
         rc = 0 -> fc_good init d' ->
         0 <= 32768 * (freq * multi) - fc_vco xd2 (reg 1) (reg 2) (reg 3) (reg 4) <= 32768 * 1000 + xd2 /\
         fc0012_lo_divider (reg 5) (reg 6) = multi /\ reg 6 .& 0xc0 = bandwidth_bits bandwidth
       else rc = -1 /\ d' = d) d.
Proof.
  intros xd2 multi Hclk Hh Hf. unfold fc0012_set_params. wp_step. apply wp_gets. rewrite Hclk.
  pose proof (fc0012_divider_spec freq) as Hdiv. subst multi.
  destruct (fc0012_divider freq) as [[multi r5] r6]. cbn [fst] in *. destruct Hdiv as (H5 & H6 & Hmu & Hlo).
  pose proof (fc_pll_spec multi r5 r6 h freq bandwidth Hh ltac:(lia) ltac:(lia) H5 H6) as Hpll. cbv zeta in Hpll.
  fold xd2 in Hpll. destruct (fc0012_pll _ xd2 freq bandwidth) as [[[[[[[[r1 r2] r3] r4] r5'] r6'] vs]|]|]; [| |done].
  - destruct Hpll as (Hr & U1 & U2 & U3 & U4 & U6 & -> & E6 & Hacc).
    replace ((90 <=? _) && _) with true by lia. wp_step. apply wp_ret.
    assert (U5 : is_u8 (r5 .| 0x07)).
    { assert (forallb (fun b => bool_decide (is_u8 (b .| 0x07))) (zseq 256) = true) as Hall by (vm_compute; reflexivity).
      exact (bool_decide_eq_true_1 _ (u8_all _ Hall r5 H5)). }
    apply (fc_write_six init r1 r2 r3 r4 (r5 .| 0x07) r6' []); [intros _; constructor|done..|intros; lia|]. intros d1 Hk.
    eapply wp_mono; [|apply (fc_calibrate init r6' vs _ _ Hk); [reflexivity|done]].
    intros rc d' Hk' Hrc Hg. specialize (Hk' Hrc). cbv zeta.
    rewrite (fc_field_u8 init _ d' 1 r1 Hk' Hg U1), (fc_field_u8 init _ d' 2 r2 Hk' Hg U2),
      (fc_field_u8 init _ d' 3 r3 Hk' Hg U3), (fc_field_u8 init _ d' 4 r4 Hk' Hg U4),
      (fc_field_u8 init _ d' 5 _ Hk' Hg U5) by in_fields.
    split; [done|]. apply Hlo. rewrite <- E6. apply (fc_field init _ d' _ _ _ Hk' Hg). apply list_elem_of_here.
  - replace ((90 <=? _) && _) with false by lia. wp_step. apply wp_ret. by apply wp_ret.
Qed.
End fc0012.

(** A chip with all registers zero behind the simulated bus; the VCO voltage
    reads as 0x20, so the range is not switched. *)
Definition rf_fc (clock : Z) : rf := mk_rf ∅ 0 (fun r => if r =? 0x0e then 0x20 else 0) clock [].

Lemma fc0012_set_params_pll_witness :
  let xd2 := 2000 * 7200 in let multi := (fc0012_divider 650000000).1.1 in
  wp (fc0012_set_params 650000000 6000000)
    (fun rc d' =>
       let reg := fc_reg (fun _ => 0) d' in
       if (90 <=? fc_round xd2 (650000000 * multi)) && (fc_round xd2 (650000000 * multi) <=? 263) then
         rc = 0 -> fc_good (fun _ => 0) d' ->
         0 <= 32768 * (650000000 * multi) - fc_vco xd2 (reg 1) (reg 2) (reg 3) (reg 4) <= 32768 * 1000 + xd2 /\
         fc0012_lo_divider (reg 5) (reg 6) = multi /\ reg 6 .& 0xc0 = bandwidth_bits 6000000
       else rc = -1 /\ d' = rf_fc 28800000) (rf_fc 28800000).
Proof.
  refine (fc0012_set_params_pll (fun _ => 0) 650000000 6000000 7200 (rf_fc 28800000) _ _ _).
  - reflexivity.
  - lia.
  - by vm_compute.
Defined.

(** The run of the witness is good and returns 0. *)
Example fc0012_witness_good :
  match fc0012_set_params 650000000 6000000 (rf_fc 28800000) with
  | Some (rc, d') => rc = 0 /\ fc_good (fun _ => 0) d'
  | None => False
  end.
Proof. vm_compute. done. Qed.

(** With a crystal frequency corrected by 10 ppm the rounding of the
    divider and the sign of the fraction, which fc0012_set_params decides by two
    different divisions, can disagree: for 721.8072 MHz every transfer
    succeeds, the function returns 0, and the VCO is set more than 14 MHz away
    from [freq * 4] (half the crystal frequency), the LO more than 3.5 MHz. *)
Lemma fc0012_rounding_mismatch :
  exists d', fc0012_set_params 721807200 0 (rf_fc 28800288) = Some (0, d') /\ fc_good (fun _ => 0) d' /\
    let reg := fc_reg (fun _ => 0) d' in
    fc0012_lo_divider (reg 5) (reg 6) = 4 /\
    Z.abs (32768 * (721807200 * 4) - fc_vco 14400144 (reg 1) (reg 2) (reg 3) (reg 4)) > 32768 * 14000000.
Proof. eexists. split; [vm_compute; reflexivity|]. vm_compute. done. Qed.

(** Below 225 kHz the divider is 0 or 1 and the count of [pm] wraps to 255;
    the check for a valid PLL combination then passes, and fc0012_set_params
    returns 0 for 100 kHz with the VCO registers at 3.69 GHz instead of refusing. *)
Lemma fc0012_low_frequency_accepted :
  exists d', fc0012_set_params 100000 0 (rf_fc 28800000) = Some (0, d') /\ fc_good (fun _ => 0) d' /\
    let reg := fc_reg (fun _ => 0) d' in
    fc0012_lo_divider (reg 5) (reg 6) = 96 /\
    fc_vco 14400000 (reg 1) (reg 2) (reg 3) (reg 4) > 32768 * 3690000000 /\ 100000 * 96 = 9600000.
Proof. eexists. split; [vm_compute; reflexivity|]. vm_compute. done. Qed.
