(* ===== verification/Fc0013Spec.v ===== *)
(** * FC0013: what the driver promises *)

From S2P Require Import Prelude RtlsdrI2c I2cSim Fc0012 Fc0013 FcPll FcSpec.

(** The LO divider for the bits of registers 5, 6 and 0x11. *)
Definition fc0013_lo_divider (reg5 reg6 reg11 : Z) : Z :=
  match reg5 ≫ 3, Z.testbit reg6 1 with
  | 16, false => 96 | 8, false => 48 | 4, false => 24 | 2, false => 12 | _, false => 6
  | 0, true => 64
  | 16, true => 32 | 8, true => 16 | 4, true => 8 | 2, true => 4 | _, true => 2
  end.

(** Tracking filter bits of register 0x1d for a VHF frequency, else all ones. *)
Definition vhf_track (freq : Z) : Z :=
  if freq <=? 177500000 then 7 ≪ 2 else if freq <=? 184500000 then 6 ≪ 2
  else if freq <=? 191500000 then 5 ≪ 2 else if freq <=? 198500000 then 4 ≪ 2
  else if freq <=? 205500000 then 3 ≪ 2 else if freq <=? 219500000 then 2 ≪ 2
  else if freq <? 300000000 then 1 ≪ 2 else 7 ≪ 2.

Lemma fc0013_divider_spec freq :
  let '(multi, r5, r6) := fc0013_divider freq in
  is_u8 r5 /\ (r6 = 0 \/ r6 = 2) /\ 2 <= multi <= 96 /\
  forall reg6 reg11 bw, reg6 .& 0xc2 = r6 .| bandwidth_bits bw ->
    fc0013_lo_divider (r5 .| 0x07) reg6 reg11 = multi /\ reg6 .& 0xc0 = bandwidth_bits bw.
Proof.
  unfold fc0013_divider, bandwidth_bits.
  repeat case_match; simplify_eq; (split; [by_compute|]; split; [auto|]; split; [lia|]); intros reg6 reg11 bw E;
    (split; [|apply land_bw in E; rewrite E; by repeat case_match]);
    unfold fc0013_lo_divider;
    (match type of E with _ = ?v => rewrite (land_bit1 reg6 v) by (rewrite E; by repeat case_match) end);
    by repeat case_match.
Qed.

(** A byte with some bits replaced, as the driver writes it. *)
Lemma masked_forms b : is_u8 b ->
  (b .| 0x10 = masked b 0x10 0x10) /\ (b .& 0xef = masked b 0 0x10) /\
  (b .& 0x1f = masked b 0 0xe0) /\ ((b .& 0x1f) .| 0x40 = masked b 0x40 0xe0) /\
  (b .| 0x04 = masked b 0x04 0x04) /\ (b .& 0xfb = masked b 0 0x04) /\
  (b .& 0xe3 .| 0x1c = masked b 0x1c 0x1c) /\ (b .& 0xe3 .| 0x18 = masked b 0x18 0x1c) /\
  (b .& 0xe3 .| 0x14 = masked b 0x14 0x1c) /\ (b .& 0xe3 .| 0x10 = masked b 0x10 0x1c) /\
  (b .& 0xe3 .| 0x0c = masked b 0x0c 0x1c) /\ (b .& 0xe3 .| 0x08 = masked b 0x08 0x1c) /\
  (b .& 0xe3 .| 0x04 = masked b 0x04 0x1c).
Proof.
  intros Hb. assert (forallb (fun b =>
    (b .| 0x10 =? masked b 0x10 0x10) && (b .& 0xef =? masked b 0 0x10) &&
    (b .& 0x1f =? masked b 0 0xe0) && ((b .& 0x1f) .| 0x40 =? masked b 0x40 0xe0) &&
    (b .| 0x04 =? masked b 0x04 0x04) && (b .& 0xfb =? masked b 0 0x04) &&
    (b .& 0xe3 .| 0x1c =? masked b 0x1c 0x1c) && (b .& 0xe3 .| 0x18 =? masked b 0x18 0x1c) &&
    (b .& 0xe3 .| 0x14 =? masked b 0x14 0x1c) && (b .& 0xe3 .| 0x10 =? masked b 0x10 0x1c) &&
    (b .& 0xe3 .| 0x0c =? masked b 0x0c 0x1c) && (b .& 0xe3 .| 0x08 =? masked b 0x08 0x1c) &&
    (b .& 0xe3 .| 0x04 =? masked b 0x04 0x1c)) (zseq 256) = true) as Hall by (vm_compute; reflexivity).
  pose proof (u8_all _ Hall b Hb) as E. cbv beta in E. rewrite !andb_true_iff, !Z.eqb_eq in E. tauto.
Qed.

Section fc0013.
Context {D : Type} `{RtlsdrI2cLaws D} (init : Z -> Z).
Implicit Types (d : D) (F : list field).

(** [with_reg]: the read fails, or the rest runs with the byte. *)
Lemma fc_with_reg reg F (k : Z -> M D Z) (Q : Z -> D -> Prop) d :
  fc_knows init F d -> is_u8 reg -> (forall rc d', rc <> 0 -> Q rc d') ->
  (forall tmp d', is_u8 tmp -> fc_knows init F d' -> wp (k tmp) Q d') ->
  wp (with_reg reg k) Q d.
Proof.
  intros Hk Hr Hneg Hnext. unfold with_reg. wp_step.
  eapply wp_mono; [|by apply (fc_readreg init reg 0 F)].
  intros [ret tmp] d1 (Hret & Hu & _ & Hk1 & _). cbn [fst snd] in *.
  unfold truthy. destruct (Z.eqb_spec ret 0) as [->|Hne]; cbn [negb].
  - apply Hnext; auto.
  - apply wp_ret. by apply Hneg.
Qed.

(** A write of a byte with the bits [mask] replaced. *)
Lemma fc_write_bits reg tmp val mask F d :
  fc_knows init F d -> avoids [reg] F = true -> is_u8 reg -> is_u8 tmp -> is_u8 val ->
  wp (fc0013_writereg reg (masked tmp val mask)) (fun rc d' => fc_knows init ((reg, mask, val) :: F) d') d.
Proof.
  intros Hk HF Hr Ht Hv.
  eapply wp_mono; [|apply (fc_write_keep init reg [reg] _ F); [done..|apply list_elem_of_here|done]].
  intros rc d' [Hk' _] Hg. specialize (Hk' Hg). apply Forall_cons in Hk' as [H1 H2].
  constructor; [|done]. cbn [has] in *. rewrite u8_small in H1 by by apply masked_u8.
  change 0xff with (Z.ones 8) in H1. rewrite !Z.land_ones in H1 by lia.
  rewrite !Z.mod_small in H1 by (first [by apply masked_u8|apply creg_u8]).
  rewrite H1. apply masked_inside.
Qed.

(** The same, followed by the rest of the function. *)
Lemma fc_write_bits_then reg tmp val mask F (k : M D Z) (Q : Z -> D -> Prop) d :
  fc_knows init F d -> avoids [reg] F = true -> is_u8 reg -> is_u8 tmp -> is_u8 val ->
  (forall rc d', rc <> 0 -> Q rc d') ->
  (forall d', fc_knows init ((reg, mask, val) :: F) d' -> wp k Q d') ->
  wp (fc0013_writereg reg (masked tmp val mask) ;! k) Q d.
Proof.
  intros Hk HF Hr Ht Hv Hneg Hnext. eapply wp_check_nz_post; [by apply (fc_write_bits reg tmp val mask F)| |].
  - intros rc d' _. apply Hneg.
  - intros d' Hk'. by apply Hnext.
Qed.

Lemma set_vhf_track_wp freq d :
  wp (fc0013_set_vhf_track freq) (fun rc d' => rc = 0 -> fc_knows init [(0x1d, 0x1c, vhf_track freq)] d') d.
Proof.
  apply (fc_with_reg 0x1d []); [intros _; constructor|by_compute|intros; lia|]. intros tmp d1 Ht Hk.
  destruct (masked_forms tmp Ht) as (_ & _ & _ & _ & _ & _ & E7 & E6 & E5 & E4 & E3 & E2 & E1). cbv zeta.
  unfold vhf_track. rewrite E7, E6, E5, E4, E3, E2, E1.
  repeat case_match; (eapply wp_mono; [|apply (fc_write_bits 0x1d tmp _ _ []); [done..|by_compute|done|by_compute]]; auto).
Qed.

Definition uhf_bits (freq : Z) : Z := if freq <? 300000000 then 0 else 0x40.
Definition vhf_bits (freq : Z) : Z := if freq <? 300000000 then 0x10 else 0.

Lemma set_band_wp freq F d :
  fc_knows init F d -> avoids [0x07; 0x14] F = true ->
  wp (fc0013_set_band freq)
    (fun rc d' => rc = 0 -> fc_knows init ((0x14, 0xe0, uhf_bits freq) :: (0x07, 0x10, vhf_bits freq) :: F) d') d.
Proof.
  intros Hk HF.
  match goal with |- wp _ ?Q _ => assert (Hneg : forall rc d', rc <> 0 -> Q rc d') by (intros; lia) end.
  assert (HF7 : avoids [0x07] F = true)
    by (apply (avoids_sub [0x07; 0x14]); [done|intros ?; rewrite !elem_of_cons; tauto]).
  assert (HF14 : forall v, avoids [0x14] ((0x07, 0x10, v) :: F) = true)
    by (intros v; rewrite avoids_cons; apply (avoids_sub [0x07; 0x14]); [done|intros ?; rewrite !elem_of_cons; tauto]).
  unfold fc0013_set_band, uhf_bits, vhf_bits.
  destruct (freq <? 300000000); [|destruct (freq <=? 862000000)];
    (apply (fc_with_reg 0x07 F); [done|by_compute|done|]; intros tmp d1 Ht Hk1;
     destruct (masked_forms tmp Ht) as (E1 & E2 & _); rewrite ?E1, ?E2;
     apply (fc_write_bits_then 0x07 tmp _ _ F); [done|done|by_compute|done|by_compute|done|];
     intros d2 Hk2; apply (fc_with_reg 0x14 _ _ _ _ Hk2); [by_compute|done|]; intros tmp2 d3 Ht2 Hk3;
     destruct (masked_forms tmp2 Ht2) as (_ & _ & E3 & E4 & _); rewrite ?E4, ?E3;
     eapply wp_mono; [|apply (fc_write_bits 0x14 tmp2 _ _ _ _ Hk3); [apply HF14|by_compute|done|by_compute]]; auto).
Qed.

(** The tail: register 0x11, then calibration. *)
Lemma fc0013_finish multi r1 r2 r3 r4 r5 r6 vs F d :
  fc_knows init (six_fields r1 r2 r3 r4 r5 r6 ++ F) d -> avoids [6; 0x0e; 0x11] F = true -> is_u8 r6 ->
  wp (with_reg 0x11 (fun tmp =>
        (if multi =? 64 then fc0013_writereg 0x11 (tmp .| 0x04) else fc0013_writereg 0x11 (tmp .& 0xfb)) ;!
        fc_tail r6 vs))
    (fun rc d' => rc = 0 -> fc_knows init ([(6, 0xc2, r6); (0x11, 0x04, if multi =? 64 then 4 else 0);
       (5, 0xff, r5); (4, 0xff, r4); (3, 0xff, r3); (2, 0xff, r2); (1, 0xff, r1)] ++ F) d') d.
Proof.
  intros Hk HF H6.
  match goal with |- wp _ ?Q _ => assert (Hneg : forall rc d', rc <> 0 -> Q rc d') by (intros; lia) end.
  apply (fc_with_reg 0x11 _ _ _ _ Hk); [by_compute|done|]. intros tmp d1 Ht Hk1.
  destruct (masked_forms tmp Ht) as (_ & _ & _ & _ & E1 & E2 & _).
  set (v := if multi =? 64 then 4 else 0).
  assert (E : (if multi =? 64 then fc0013_writereg (D:=D) 0x11 (tmp .| 0x04) else fc0013_writereg 0x11 (tmp .& 0xfb)) =
    fc0013_writereg 0x11 (masked tmp v 0x04)) by (subst v; rewrite E1, E2; by destruct (multi =? 64)).
  rewrite E. assert (Hv : is_u8 v) by (subst v; destruct (multi =? 64); by_compute).
  apply (fc_write_bits_then 0x11 tmp v _ _ _ _ _ Hk1); [|by_compute|done|done|done|].
  { unfold six_fields. cbn [app]. rewrite !avoids_cons.
    apply (avoids_sub [6; 0x0e; 0x11]); [done|]. intros ?. rewrite !elem_of_cons. tauto. }
  intros d2 Hk2.
  assert (Hk3 : fc_knows init ((6, 0xff, r6) :: [(0x11, 0x04, v); (5, 0xff, r5); (4, 0xff, r4); (3, 0xff, r3);
    (2, 0xff, r2); (1, 0xff, r1)] ++ F) d2).
  { apply (knows_weaken _ _ _ _ _ _ Hk2). apply Forall_forall. intros f. unfold six_fields.
    cbn [app]. rewrite !elem_of_cons. tauto. }
  apply (fc_calibrate init r6 vs _ _ Hk3); [|done]. cbn [app]. rewrite !avoids_cons.
  apply (avoids_sub [6; 0x0e; 0x11]); [done|]. intros ?. rewrite !elem_of_cons. tauto.
Qed.

(** Fc0013_set_params, under the conditions of the FC0012: when it returns
    0, on a chip that stores what is written, the rounded divider is in range,
    the registers stand for a VCO frequency below [freq * multi] by at most 1
    kHz plus [xd2/32768] Hz, the output divider is [multi] (register 0x11 has
    the extra bit of the divider 64), the bandwidth is the requested one, and
    the tracking filter, the VHF filter and the band switch are those of the
    frequency. *)
Theorem fc0013_set_params_pll (freq bandwidth h : Z) d :
  let xd2 := 2000 * h in let multi := (fc0013_divider freq).1.1 in
  rtlsdr_get_tuner_clock d / 2 = xd2 -> 5000 <= h <= 10000 ->
  2 * xd2 <= freq * multi < 2 ^ 32 ->
  wp (fc0013_set_params freq bandwidth)
    (fun rc d' =>
       let reg := fc_reg init d' in
       rc = 0 -> 90 <= fc_round xd2 (freq * multi) <= 263 /\ (fc_good init d' ->
         0 <= 32768 * (freq * multi) - fc_vco xd2 (reg 1) (reg 2) (reg 3) (reg 4) <= 32768 * 1000 + xd2 /\
         fc0013_lo_divider (reg 5) (reg 6) (reg 0x11) = multi /\
         reg 0x11 .& 0x04 = (if multi =? 64 then 4 else 0) /\
         reg 6 .& 0xc0 = bandwidth_bits bandwidth /\
         reg 0x1d .& 0x1c = vhf_track freq /\ reg 0x07 .& 0x10 = vhf_bits freq /\
         reg 0x14 .& 0xe0 = uhf_bits freq)) d.
Proof.
  intros xd2 multi Hclk Hh Hf. unfold fc0013_set_params. wp_step. apply wp_gets. rewrite Hclk.
  match goal with |- wp _ ?Q _ => assert (Hneg : forall rc d', rc <> 0 -> Q rc d') by (intros; lia) end.
  eapply wp_check_nz_post; [apply set_vhf_track_wp|intros ? ? _ ?; by apply Hneg|]. intros d1 Hk1. specialize (Hk1 eq_refl).
  eapply wp_check_nz_post; [apply (set_band_wp freq _ d1 Hk1); reflexivity|intros ? ? _ ?; by apply Hneg|]. intros d2 Hk2.
  specialize (Hk2 eq_refl). set (F := _ :: _) in Hk2.
  pose proof (fc0013_divider_spec freq) as Hdiv. subst multi.
  destruct (fc0013_divider freq) as [[multi r5] r6]. cbn [fst] in *. destruct Hdiv as (H5 & H6 & Hmu & Hlo).
  pose proof (fc_pll_spec multi r5 r6 h freq bandwidth Hh ltac:(lia) ltac:(lia) H5 H6) as Hpll. cbv zeta in Hpll.
  fold xd2 in Hpll. change (fc0013_pll (multi, r5, r6)) with (fc0012_pll (multi, r5, r6)).
  destruct (fc0012_pll _ xd2 freq bandwidth) as [[[[[[[[r1 r2] r3] r4] r5'] r6'] vs]|]|]; [| |done].
  2: { wp_step. apply wp_ret. by apply wp_ret. }
  destruct Hpll as (Hr & U1 & U2 & U3 & U4 & U6 & -> & E6 & Hacc). wp_step. apply wp_ret.
  assert (U5 : is_u8 (r5 .| 0x07)).
  { assert (forallb (fun b => bool_decide (is_u8 (b .| 0x07))) (zseq 256) = true) as Hall by (vm_compute; reflexivity).
    exact (bool_decide_eq_true_1 _ (u8_all _ Hall r5 H5)). }
  apply (fc_write_six init r1 r2 r3 r4 (r5 .| 0x07) r6' F); [done..|exact Hneg|]. intros d3 Hk3.
  eapply wp_mono; [|apply (fc0013_finish multi r1 r2 r3 r4 (r5 .| 0x07) r6' vs F d3 Hk3); [reflexivity|done]].
  intros rc d' Hk' Hrc. split; [done|]. intros Hg. specialize (Hk' Hrc). cbv zeta.
  rewrite (fc_field_u8 init _ d' 1 r1 Hk' Hg U1), (fc_field_u8 init _ d' 2 r2 Hk' Hg U2),
    (fc_field_u8 init _ d' 3 r3 Hk' Hg U3), (fc_field_u8 init _ d' 4 r4 Hk' Hg U4),
    (fc_field_u8 init _ d' 5 _ Hk' Hg U5) by (cbn [app]; in_fields).
  pose proof (fc_field init _ d' 6 0xc2 r6' Hk' Hg ltac:(cbn [app]; in_fields)) as F6. rewrite E6 in F6.
  pose proof (fc_field init _ d' 0x11 0x04 _ Hk' Hg ltac:(cbn [app]; in_fields)) as F11.
  pose proof (fc_field init _ d' 0x1d 0x1c (vhf_track freq) Hk' Hg ltac:(cbn [app]; subst F; in_fields)) as F1d.
  pose proof (fc_field init _ d' 0x07 0x10 (vhf_bits freq) Hk' Hg ltac:(cbn [app]; subst F; in_fields)) as F7.
  pose proof (fc_field init _ d' 0x14 0xe0 (uhf_bits freq) Hk' Hg ltac:(cbn [app]; subst F; in_fields)) as F14.
  destruct (Hlo (fc_reg init d' 6) (fc_reg init d' 0x11) bandwidth F6) as [Hl Hb].
  rewrite F11, F1d, F7, F14. split_and!; try done; try lia.
  - by destruct (multi =? 64).
  - unfold vhf_track. by repeat case_match.
  - unfold vhf_bits. by destruct (freq <? 300000000).
  - unfold uhf_bits. by destruct (freq <? 300000000).
Qed.

(** ** Gain *)

(** The entry that fc0013_set_lna_gain takes: the first one whose gain is at
    least the request, or the last one. *)
Definition lna_choice (l : list (Z * Z)) (gain v : Z) : Prop :=
  exists k g, l !! k = Some (g, v) /\ (gain <= g \/ S k = length l) /\
    forall k' g' v', (k' < k)%nat -> l !! k' = Some (g', v') -> g' < gain.

Lemma lna_gain_bits_choice l gain : l <> [] -> lna_choice l gain (lna_gain_bits l gain).
Proof.
  induction l as [|[g v] l IH]; intros Hne; [done|]. cbn [lna_gain_bits].
  destruct (Z.leb_spec gain g).
  { cbn [orb]. exists 0%nat, g. split_and!; [done|auto|]. intros; lia. }
  destruct l as [|[g2 v2] l]; cbn [orb].
  { exists 0%nat, g. split_and!; [done|by right|]. intros; lia. }
  destruct IH as (k & g' & Hk & Hor & Hmin); [done|].
  exists (S k), g'. split_and!; [done| |].
  - destruct Hor; [by left|right; cbn [length] in *; lia].
  - intros [|k'] gk vk Hlt Hl; cbn in Hl; [by simplify_eq|]. eapply Hmin; [|done]. lia.
Qed.

(** fc0013_set_lna_gain, when it returns 0, leaves in the gain field of
    register 0x14 the value of the first table entry whose gain is at least
    the request (the last entry for a request above all of them), on a chip
    that stores what is written; the band bits of the register are those
    that were read. *)
Lemma fc0013_set_lna_gain_choice (gain : Z) d :
  wp (fc0013_set_lna_gain gain)
    (fun rc d' => rc = 0 -> fc_good init d' ->
       lna_choice fc0013_lna_gains gain (fc_reg init d' 0x14 .& 0x1f) /\
       fc_reg init d' 0x14 .& 0xe0 = fc_reg init d 0x14 .& 0xe0) d.
Proof.
  pose proof (lna_gain_bits_choice fc0013_lna_gains gain ltac:(done)) as Hch.
  set (v := lna_gain_bits fc0013_lna_gains gain) in *.
  assert (Hv : is_u8 v /\ v .& 0x1f = v).
  { destruct Hch as (k & g & Hk & _). revert Hk. generalize v. intros v' Hk.
    assert (Forall (fun '(_, v) => is_u8 v /\ v .& 0x1f = v) fc0013_lna_gains) as Hall by by_compute.
    exact (Forall_lookup_1 _ _ _ _ Hall Hk). }
  destruct Hv as [Hv8 Hvm]. unfold fc0013_set_lna_gain. wp_step.
  assert (Hk : fc_knows init [(0x14, 0xe0, fc_reg init d 0x14)] d) by (intros _; repeat constructor).
  eapply wp_mono; [|apply (fc_readreg init 0x14 0 _ d Hk); by_compute].
  intros [r1 tmp] d1 (_ & Hok & Herr & Hk1 & Hg1). cbn [fst snd] in *. fold v.
  assert (Htmp : is_u8 tmp).
  { destruct (decide (r1 = 0)) as [E|E]; [by apply Hok|rewrite (Herr E); by_compute]. }
  assert (E : (tmp .& 0xe0) .| v = masked tmp v 0x1f).
  { unfold masked. rewrite Hvm. f_equal.
    assert (forallb (fun b => b .& 0xe0 =? b .& ~~ 0x1f) (zseq 256) = true) as Hall by (vm_compute; reflexivity).
    pose proof (u8_all _ Hall tmp Htmp) as E. cbv beta in E. lia. }
  rewrite E. wp_step.
  eapply wp_mono; [|apply (fc_writereg init 0x14 _ _ d1 Hk1); by_compute].
  intros r2 d2 (_ & Hk2 & Hg2). apply wp_ret. intros _ Hg.
  destruct (Hg2 Hg) as [Hgd1 _]. destruct (Hg1 Hgd1) as (_ & _ & Hrd).
  pose proof (masked_u8 tmp v 0x1f Htmp Hv8) as Hm. rewrite (u8_small _ Hm) in Hk2.
  rewrite (fc_field_u8 init _ d2 0x14 _ Hk2 Hg Hm) by apply list_elem_of_here.
  rewrite masked_inside, Hvm, masked_outside by done. split; [done|].
  pose proof (fc_field init _ d1 0x14 0xe0 _ Hk1 Hgd1 ltac:(apply list_elem_of_here)) as Hold. rewrite <- Hold.
  change (fc_storage 0x14) with 0xff in Hrd. apply (f_equal (fun x => x .& 0xe0)) in Hrd.
  by rewrite <- !Z.land_assoc in Hrd.
Qed.
End fc0013.

Lemma fc0013_set_params_pll_witness :
  let xd2 := 2000 * 7200 in let multi := (fc0013_divider 650000000).1.1 in
  wp (fc0013_set_params 650000000 6000000)
    (fun rc d' =>
       let reg := fc_reg (fun _ => 0) d' in
       rc = 0 -> 90 <= fc_round xd2 (650000000 * multi) <= 263 /\ (fc_good (fun _ => 0) d' ->
         0 <= 32768 * (650000000 * multi) - fc_vco xd2 (reg 1) (reg 2) (reg 3) (reg 4) <= 32768 * 1000 + xd2 /\
         fc0013_lo_divider (reg 5) (reg 6) (reg 0x11) = multi /\
         reg 0x11 .& 0x04 = (if multi =? 64 then 4 else 0) /\
         reg 6 .& 0xc0 = bandwidth_bits 6000000 /\
         reg 0x1d .& 0x1c = vhf_track 650000000 /\ reg 0x07 .& 0x10 = vhf_bits 650000000 /\
         reg 0x14 .& 0xe0 = uhf_bits 650000000)) (rf_fc 28800000).
Proof.
  refine (fc0013_set_params_pll (fun _ => 0) 650000000 6000000 7200 (rf_fc 28800000) _ _ _).
  - reflexivity.
  - lia.
  - by vm_compute.
Defined.

(** The run of the witness is good and returns 0. *)
Example fc0013_witness_good :
  match fc0013_set_params 650000000 6000000 (rf_fc 28800000) with
  | Some (rc, d') => rc = 0 /\ fc_good (fun _ => 0) d'
  | None => False
  end.
Proof. vm_compute. done. Qed.

Lemma fc0013_set_lna_gain_choice_witness :
  wp (fc0013_set_lna_gain 179)
    (fun rc d' => rc = 0 -> fc_good (fun _ => 0) d' ->
       lna_choice fc0013_lna_gains 179 (fc_reg (fun _ => 0) d' 0x14 .& 0x1f) /\
       fc_reg (fun _ => 0) d' 0x14 .& 0xe0 = fc_reg (fun _ => 0) (rf_fc 28800000) 0x14 .& 0xe0) (rf_fc 28800000).
Proof. refine (fc0013_set_lna_gain_choice (fun _ => 0) 179 (rf_fc 28800000)). Defined.
