(* ===== verification/Fc2580.v ===== *)
(** * The FCI FC2580 tuner driver (src/tuner_fc2580.c): operations

    The functions collect the results of their transfers with [&=]: a result
    of 1 is success. *)

From S2P Require Import Prelude RtlsdrI2c.

Definition FC2580_I2C_ADDR : Z := 0xac.
Definition FC2580_CHECK_ADDR : Z := 0x01.
Definition FC2580_CHECK_VAL : Z := 0x56.
Definition BORDER_FREQ : Z := 2600000.
Definition USE_EXT_CLK : Z := 0.
Definition CRYSTAL_FREQ : Z := 16384000.

Definition FC2580_FCI_FAIL : Z := 0.
Definition FC2580_FCI_SUCCESS : Z := 1.
Definition FUNCTION_SUCCESS : Z := 0.
Definition FUNCTION_ERROR : Z := 1.
Definition FC2580_AGC_EXTERNAL : Z := 2.

(* include/tuner_fc2580.h:14-19 fc2580_band_type *)
Inductive fc2580_band_type : Type := FC2580_UHF_BAND | FC2580_L_BAND | FC2580_VHF_BAND.

#[export] Instance fc2580_band_type_eq_dec : EqDecision fc2580_band_type.
Proof. solve_decision. Defined.

(** ** Pure parts of fc2580_set_freq (kHz) *)

(* src/tuner_fc2580.c:203-203 fc2580_set_freq *)
Definition fc2580_band (f_lo : Z) : fc2580_band_type :=
  if 1000000 <? f_lo then FC2580_L_BAND else if 400000 <? f_lo then FC2580_UHF_BAND else FC2580_VHF_BAND.

(** f_vco, r_val, n_val, k_val; [None] is a division by zero. *)
(* src/tuner_fc2580.c:205-217 fc2580_set_freq *)
Definition fc2580_pll (f_lo freq_xtal : Z) : option (Z * Z * Z * Z) :=
  let pre_shift_bits := 4 in
  let f_vco :=
    match fc2580_band f_lo with
    | FC2580_UHF_BAND => u32 (f_lo * 4)
    | FC2580_L_BAND => u32 (f_lo * 2)
    | FC2580_VHF_BAND => u32 (f_lo * 12)
    end in
  let r_val :=
    if u32 (2 * 76 * freq_xtal) <=? f_vco then 1
    else if u32 (76 * freq_xtal) <=? f_vco then 2 else 4 in
  let f_comp := freq_xtal / r_val in
  if f_comp =? 0 then None else
  let n_val := (f_vco / 2) / f_comp in
  let f_diff := u32 (f_vco - u32 (u32 (2 * f_comp) * n_val)) in
  let f_diff_shifted := u32 (f_diff ≪ (20 - pre_shift_bits)) in
  let step := u32 (2 * f_comp) ≫ pre_shift_bits in
  if step =? 0 then None else
  let k_val := f_diff_shifted / step in
  let k_val :=
    if f_comp ≫ pre_shift_bits <=? u32 (f_diff_shifted - u32 (k_val * step)) then u32 (k_val + 1) else k_val in
  Some (f_vco, r_val, n_val, k_val).

(** The register settings of a band, before the filter is set. *)
(* src/tuner_fc2580.c:224-330 fc2580_set_freq *)
Definition fc2580_band_regs (f_lo : Z) : list (Z * Z) :=
  match fc2580_band f_lo with
  | FC2580_UHF_BAND =>
      [(0x25, 0xF0); (0x27, 0x77); (0x28, 0x53); (0x29, 0x60); (0x30, 0x09); (0x50, 0x8C); (0x53, 0x50);
       (0x5F, if f_lo <? 538000 then 0x13 else 0x15)] ++
      (if f_lo <? 538000 then
         [(0x61, 0x07); (0x62, 0x06); (0x67, 0x06); (0x68, 0x08); (0x69, 0x10); (0x6A, 0x12)]
       else if f_lo <? 794000 then
         [(0x61, 0x03); (0x62, 0x03); (0x67, 0x03); (0x68, 0x05); (0x69, 0x0C); (0x6A, 0x0E)]
       else
         [(0x61, 0x07); (0x62, 0x06); (0x67, 0x07); (0x68, 0x09); (0x69, 0x10); (0x6A, 0x12)]) ++
      [(0x63, 0x15); (0x6B, 0x0B); (0x6C, 0x0C); (0x6D, 0x78); (0x6E, 0x32); (0x6F, 0x14)]
  | FC2580_VHF_BAND =>
      [(0x27, 0x77); (0x28, 0x33); (0x29, 0x40); (0x30, 0x09); (0x50, 0x8C); (0x53, 0x50); (0x5F, 0x0F);
       (0x61, 0x07); (0x62, 0x00); (0x63, 0x15); (0x67, 0x03); (0x68, 0x05); (0x69, 0x10); (0x6A, 0x12);
       (0x6B, 0x08); (0x6C, 0x0A); (0x6D, 0x78); (0x6E, 0x32); (0x6F, 0x54)]
  | FC2580_L_BAND =>
      [(0x2B, 0x70); (0x2C, 0x37); (0x2D, 0xE7); (0x30, 0x09); (0x44, 0x20); (0x50, 0x8C); (0x53, 0x50);
       (0x5F, 0x0F); (0x61, 0x0F); (0x62, 0x00); (0x63, 0x13); (0x67, 0x00); (0x68, 0x02); (0x69, 0x0C);
       (0x6A, 0x0E); (0x6B, 0x08); (0x6C, 0x0A); (0x6D, 0xA0); (0x6E, 0x50); (0x6F, 0x14)]
  end.

(** Register 0x02. *)
(* src/tuner_fc2580.c:201-222 fc2580_set_freq *)
Definition fc2580_data_0x02 (f_lo f_vco : Z) : Z :=
  let d := (USE_EXT_CLK ≪ 5) .| 0x0E in
  let d := if BORDER_FREQ <=? f_vco then d .| 0x08 else d .& 0xF7 in
  match fc2580_band f_lo with
  | FC2580_UHF_BAND => d .& 0x3F
  | FC2580_VHF_BAND => (d .& 0x3F) .| 0x80
  | FC2580_L_BAND => (d .& 0x3F) .| 0x40
  end.

(** Filter mode of a band. *)
(* src/tuner_fc2580.c:224-330 fc2580_set_freq *)
Definition fc2580_band_filter (b : fc2580_band_type) : Z :=
  match b with FC2580_UHF_BAND => 8 | FC2580_VHF_BAND => 7 | FC2580_L_BAND => 1 end.

(** ** Operations *)

Section fc2580.
Context {D : Type} `{RtlsdrI2c D}.

(* src/tuner_fc2580.c: fc2580_i2c_write *)
Definition fc2580_i2c_write (reg val : Z) : M D Z :=
  rc ← rtlsdr_i2c_write_fn FC2580_I2C_ADDR [u8 reg; u8 val];
  mret (if rc <? 0 then FC2580_FCI_FAIL else FC2580_FCI_SUCCESS).

(** The result and the new value of [*read_data]. *)
(* src/tuner_fc2580.c: fc2580_i2c_read *)
Definition fc2580_i2c_read (reg read_data : Z) : M D (Z * Z) :=
  rc ← rtlsdr_i2c_write_fn FC2580_I2C_ADDR [u8 reg];
  if rc <? 0 then mret (FC2580_FCI_FAIL, read_data) else
  p ← rtlsdr_i2c_read_fn FC2580_I2C_ADDR 1;
  if p.1 <? 0 then mret (FC2580_FCI_FAIL, read_data) else
  data ← from_option_trap (p.2 !! 0%nat);
  mret (FC2580_FCI_SUCCESS, data).

(** A sequence of [result &= fc2580_i2c_write(pTuner, reg, val);]. *)
Fixpoint fc2580_writes (result : Z) (l : list (Z * Z)) : M D Z :=
  match l with
  | [] => mret result
  | (reg, val) :: l' => r ← fc2580_i2c_write reg val; fc2580_writes (result .& r) l'
  end.

(** The calibration loop of fc2580_set_filter. *)
(* src/tuner_fc2580.c:407-419 fc2580_set_filter *)
Fixpoint fc2580_cal_loop (n : nat) (result cal_mon : Z) : M D Z :=
  match n with
  | O => mret result
  | S n =>
      '(r, cal_mon) ← fc2580_i2c_read 0x2F cal_mon;
      let result := result .& r in
      if negb ((cal_mon .& 0xC0) =? 0xC0) then
        result ← fc2580_writes result [(0x2E, 0x01); (0x2E, 0x09)];
        fc2580_cal_loop n result cal_mon
      else mret result
  end.

(* src/tuner_fc2580.c: fc2580_set_filter *)
Definition fc2580_set_filter (filter_bw freq_xtal : Z) : M D Z :=
  result ← (if filter_bw =? 1 then
              fc2580_writes FC2580_FCI_SUCCESS
                [(0x36, 0x1C); (0x37, u32 (4151 * freq_xtal) / 1000000); (0x39, 0x00); (0x2E, 0x09)]
            else mret FC2580_FCI_SUCCESS);
  result ← (if filter_bw =? 6 then
              fc2580_writes result
                [(0x36, 0x18); (0x37, u32 (4400 * freq_xtal) / 1000000); (0x39, 0x00); (0x2E, 0x09)]
            else if filter_bw =? 7 then
              fc2580_writes result
                [(0x36, 0x18); (0x37, u32 (3910 * freq_xtal) / 1000000); (0x39, 0x80); (0x2E, 0x09)]
            else if filter_bw =? 8 then
              fc2580_writes result
                [(0x36, 0x18); (0x37, u32 (3300 * freq_xtal) / 1000000); (0x39, 0x80); (0x2E, 0x09)]
            else mret result);
  result ← fc2580_cal_loop 5 result 0;
  fc2580_writes result [(0x2E, 0x01)].

(* src/tuner_fc2580.c: fc2580_set_init *)
Definition fc2580_set_init (ifagc_mode freq_xtal : Z) : M D Z :=
  result ← fc2580_writes FC2580_FCI_SUCCESS
    [(0x00, 0x00); (0x12, 0x86); (0x14, 0x5C); (0x16, 0x3C); (0x1F, 0xD2); (0x09, 0xD7); (0x0B, 0xD5);
     (0x0C, 0x32); (0x0E, 0x43); (0x21, 0x0A); (0x22, 0x82)];
  result ← (if ifagc_mode =? 1 then fc2580_writes result [(0x45, 0x10); (0x4C, 0x00)]
            else if ifagc_mode =? 2 then fc2580_writes result [(0x45, 0x20); (0x4C, 0x02)]
            else mret result);
  result ← fc2580_writes result [(0x3F, 0x88); (0x02, 0x0E); (0x58, 0x14)];
  r ← fc2580_set_filter 8 freq_xtal;
  mret (result .& r).

(* src/tuner_fc2580.c: fc2580_set_freq *)
Definition fc2580_set_freq (f_lo freq_xtal : Z) : M D Z :=
  '(f_vco, r_val, n_val, k_val) ← from_option_trap (fc2580_pll f_lo freq_xtal);
  let band := fc2580_band f_lo in
  let data_0x02 := fc2580_data_0x02 f_lo f_vco in
  result ← fc2580_writes FC2580_FCI_SUCCESS (fc2580_band_regs f_lo);
  r ← fc2580_set_filter (fc2580_band_filter band) freq_xtal;
  let result := result .& r in
  (* A command about AGC clock's pre-divide ratio *)
  result ← (if 28000 <=? freq_xtal then fc2580_writes result [(0x4B, 0x22)] else mret result);
  (* Commands about VCO Band and PLL setting. *)
  let data_0x18 := u8 ((if r_val =? 1 then 0x00 else if r_val =? 2 then 0x10 else 0x20) + u8 (k_val ≫ 16)) in
  result ← fc2580_writes result
    [(0x02, data_0x02); (0x18, data_0x18); (0x1A, u8 (k_val ≫ 8)); (0x1B, u8 k_val); (0x1C, u8 n_val)];
  (* A command about UHF LNA Load Cap *)
  if decide (band = FC2580_UHF_BAND)
  then fc2580_writes result [(0x2D, if f_lo <=? 794000 then 0x9F else 0x8F)]
  else mret result.

(* src/tuner_fc2580.c: fc2580_Initialize *)
Definition fc2580_Initialize : M D Z :=
  let CrystalFreqKhz := (CRYSTAL_FREQ + 500) / 1000 in
  r ← fc2580_set_init FC2580_AGC_EXTERNAL CrystalFreqKhz;
  mret (if negb (r =? FC2580_FCI_SUCCESS) then FUNCTION_ERROR else FUNCTION_SUCCESS).

(* src/tuner_fc2580.c: fc2580_SetRfFreqHz *)
Definition fc2580_SetRfFreqHz (RfFreqHz : Z) : M D Z :=
  let RfFreqKhz := u32 (u64 (RfFreqHz + 500) / 1000) in
  let CrystalFreqKhz := (CRYSTAL_FREQ + 500) / 1000 in
  r ← fc2580_set_freq RfFreqKhz CrystalFreqKhz;
  mret (if negb (r =? FC2580_FCI_SUCCESS) then FUNCTION_ERROR else FUNCTION_SUCCESS).

(* src/tuner_fc2580.c: fc2580_SetBandwidthMode *)
Definition fc2580_SetBandwidthMode (BandwidthMode : Z) : M D Z :=
  let CrystalFreqKhz := (CRYSTAL_FREQ + 500) / 1000 in
  r ← fc2580_set_filter (u8 BandwidthMode) CrystalFreqKhz;
  mret (if negb (r =? FC2580_FCI_SUCCESS) then FUNCTION_ERROR else FUNCTION_SUCCESS).
End fc2580.
