(* ===== verification/Fc2580Spec.v ===== *)
(** * FC2580: what the driver promises *)

From S2P Require Import Prelude RtlsdrI2c I2cSim Fc2580 FcSpec.

(** ** The result of a function is the conjunction of its transfers *)

Definition ev_ok (ev : i2c_event) : bool :=
  match ev with I2cWrite _ _ rc | I2cRead _ _ rc => 0 <=? rc end.

Section fc2580.
Context {D : Type} `{RtlsdrI2cLaws D}.
Implicit Types (d : D).

(** [m], run with the results so far collected in [result], returns 1 exactly
    when they and all its own transfers are successes. *)
Definition collects (result : Z) (m : M D Z) : Prop :=
  forall d, wp m (fun r d' => exists evs, i2c_log d' = i2c_log d ++ evs /\ (r = 0 \/ r = 1) /\
    (r = 1 <-> result = 1 /\ forallb ev_ok evs = true)) d.

Lemma collects_ret r : r = 0 \/ r = 1 -> collects r (mret r).
Proof. intros Hr d. apply wp_ret. exists []. rewrite app_nil_r. cbn. tauto. Qed.

Lemma collects_bind res (m : M D Z) (k : Z -> M D Z) :
  collects res m -> (forall r, r = 0 \/ r = 1 -> collects r (k r)) -> collects res (m ≫= k).
Proof.
  intros Hm Hk d. wp_step. eapply wp_mono; [|apply Hm]. intros r d1 (evs & Hlog & Hr & Hiff).
  eapply wp_mono; [|by apply Hk]. intros r' d2 (evs' & Hlog' & Hr' & Hiff').
  exists (evs ++ evs'). rewrite Hlog', Hlog, app_assoc, forallb_app, andb_true_iff. split; [done|]. tauto.
Qed.

Lemma land01 a b : (a = 0 \/ a = 1) -> (b = 0 \/ b = 1) ->
  (a .& b = 0 \/ a .& b = 1) /\ (a .& b = 1 <-> a = 1 /\ b = 1).
Proof. intros [-> | ->] [-> | ->]; rewrite ?Z.land_0_l, ?Z.land_0_r, ?Z.land_diag; lia. Qed.

Lemma collects_land res (m : M D Z) (k : Z -> M D Z) :
  res = 0 \/ res = 1 -> collects 1 m -> (forall r, r = 0 \/ r = 1 -> collects r (k r)) ->
  collects res (r ← m; k (res .& r)).
Proof.
  intros Hres Hm Hk d. wp_step. eapply wp_mono; [|apply Hm]. intros r d1 (evs & Hlog & Hr & Hiff).
  destruct (land01 res r Hres Hr) as [Hl Hli].
  eapply wp_mono; [|by apply Hk]. intros r' d2 (evs' & Hlog' & Hr' & Hiff').
  exists (evs ++ evs'). rewrite Hlog', Hlog, app_assoc, forallb_app, andb_true_iff. split; [done|]. tauto.
Qed.

Lemma write_collects reg val : collects 1 (fc2580_i2c_write (D:=D) reg val).
Proof.
  intros d. unfold fc2580_i2c_write. wp_step.
  eapply wp_mono; [|apply write_fn_law; [by_compute|cbn; lia]]. intros rc d' [Hlog _].
  apply wp_ret. eexists. split; [exact Hlog|]. cbn.
  unfold FC2580_FCI_FAIL, FC2580_FCI_SUCCESS. destruct (Z.ltb_spec rc 0), (Z.leb_spec 0 rc); cbn; lia.
Qed.

Lemma writes_collects l : forall res, res = 0 \/ res = 1 -> collects res (fc2580_writes (D:=D) res l).
Proof.
  induction l as [|[reg val] l IH]; intros res Hres; cbn [fc2580_writes]; [by apply collects_ret|].
  apply (collects_land res _ (fun x => fc2580_writes x l)); [done|apply write_collects|]. intros r Hr. by apply IH.
Qed.

Lemma read_collects reg v d :
  wp (fc2580_i2c_read (D:=D) reg v)
    (fun p d' => exists evs, i2c_log d' = i2c_log d ++ evs /\ (p.1 = 0 \/ p.1 = 1) /\
       (p.1 = 1 <-> forallb ev_ok evs = true)) d.
Proof.
  unfold fc2580_i2c_read, FC2580_FCI_FAIL, FC2580_FCI_SUCCESS. wp_step.
  eapply wp_mono; [|apply write_fn_law; [by_compute|cbn; lia]]. intros r1 d1 [Hlog1 _].
  destruct (Z.ltb_spec r1 0).
  { apply wp_ret. eexists. split; [exact Hlog1|]. cbn. replace (0 <=? r1) with false by lia. cbn. lia. }
  wp_step. eapply wp_mono; [|apply read_fn_law; [by_compute|lia]].
  intros [r2 data] d2 (Hlog2 & Hlen & _). cbn [fst snd] in *. rewrite Hlog1, <- app_assoc in Hlog2. cbn [app] in Hlog2.
  destruct (Z.ltb_spec r2 0).
  { apply wp_ret. eexists. split; [exact Hlog2|]. cbn.
    replace (0 <=? r1) with true by lia. replace (0 <=? r2) with false by lia. cbn. lia. }
  destruct data as [|x data]; cbn [length] in Hlen; [lia|]. wp_step. apply wp_ret. apply wp_ret.
  eexists. split; [exact Hlog2|]. cbn. replace (0 <=? r1) with true by lia. replace (0 <=? r2) with true by lia. cbn. lia.
Qed.

Lemma cal_loop_collects n : forall res cal, res = 0 \/ res = 1 -> collects res (fc2580_cal_loop (D:=D) n res cal).
Proof.
  induction n as [|n IH]; intros res cal Hres; cbn [fc2580_cal_loop]; [by apply collects_ret|].
  intros d. wp_step. eapply wp_mono; [|apply read_collects]. intros [r cal'] d1 (evs & Hlog & Hr & Hiff).
  cbn [fst snd] in *. destruct (land01 res r Hres Hr) as [Hl Hli].
  assert (Hnext : collects (res .& r)
    (if negb (cal' .& 192 =? 192)
     then result ← fc2580_writes (res .& r) [(46, 1); (46, 9)]; fc2580_cal_loop n result cal'
     else mret (res .& r))).
  { destruct (negb _); [|by apply collects_ret].
    apply collects_bind; [by apply writes_collects|]. intros r' Hr'. by apply IH. }
  eapply wp_mono; [|apply Hnext]. intros r' d2 (evs' & Hlog' & Hr' & Hiff').
  exists (evs ++ evs'). rewrite Hlog', Hlog, app_assoc, forallb_app, andb_true_iff. split; [done|]. tauto.
Qed.

Lemma set_filter_collects bw x : collects 1 (fc2580_set_filter (D:=D) bw x).
Proof.
  unfold fc2580_set_filter, FC2580_FCI_SUCCESS.
  repeat (apply collects_bind;
    [repeat case_match; first [apply writes_collects; auto|apply collects_ret; auto|apply cal_loop_collects; auto]|];
    intros ? ?). by apply writes_collects.
Qed.

Lemma set_init_collects m x : collects 1 (fc2580_set_init (D:=D) m x).
Proof.
  unfold fc2580_set_init, FC2580_FCI_SUCCESS.
  apply collects_bind; [apply writes_collects; auto|]. intros r1 H1.
  apply collects_bind; [repeat case_match; first [by apply writes_collects|by apply collects_ret]|]. intros r2 H2.
  apply collects_bind; [by apply writes_collects|]. intros r3 H3.
  apply (collects_land r3 _ mret); [done|apply set_filter_collects|]. intros r Hr. by apply collects_ret.
Qed.
End fc2580.

(** ** The PLL arithmetic is exact *)

(** VCO cycles per LO cycle in a band. *)
Definition band_multi (b : fc2580_band_type) : Z :=
  match b with FC2580_UHF_BAND => 4 | FC2580_L_BAND => 2 | FC2580_VHF_BAND => 12 end.

(** The frequency of the VCO is even, and fits. *)
Lemma fc2580_vco f_lo : 0 <= f_lo <= 4194303 ->
  exists h, f_lo * band_multi (fc2580_band f_lo) = 2 * h /\ 0 <= h <= 4194303 /\
    match fc2580_band f_lo with
    | FC2580_UHF_BAND => u32 (f_lo * 4)
    | FC2580_L_BAND => u32 (f_lo * 2)
    | FC2580_VHF_BAND => u32 (f_lo * 12)
    end = 2 * h.
Proof.
  intros Hf. unfold fc2580_band, band_multi. destruct (Z.ltb_spec 1000000 f_lo); [|destruct (Z.ltb_spec 400000 f_lo)].
  - exists f_lo. rewrite u32_small by (unfold is_u32; lia). lia.
  - exists (f_lo * 2). rewrite u32_small by (unfold is_u32; lia). lia.
  - exists (f_lo * 6). rewrite u32_small by (unfold is_u32; lia). lia.
Qed.

(** The fraction, for a divider [r] whose comparison frequency is [c] kHz. *)
Lemma fc2580_fraction h r c : (r = 1 /\ c = 16384) \/ (r = 2 /\ c = 8192) \/ (r = 4 /\ c = 4096) ->
  0 <= h < 256 * c -> h <= 4194303 ->
  exists k, 0 <= k < 2 ^ 20 /\ 2 ^ 20 * (2 * h) = 2 * (16384 / r) * (2 ^ 20 * (h / c) + k) /\
    0 <= h / c < 256 /\ 16384 / r = c /\
    (let step := u32 (2 * c) ≫ 4 in let k0 := u32 (u32 (2 * h - u32 (u32 (2 * c) * (h / c))) ≪ (20 - 4)) / step in
     (step =? 0) = false /\
     (if c ≫ 4 <=? u32 (u32 (u32 (2 * h - u32 (u32 (2 * c) * (h / c))) ≪ (20 - 4)) - u32 (k0 * step))
      then u32 (k0 + 1) else k0) = k).
Proof.
  intros Hrc Hhc Hhr. cbv zeta. exists (2 ^ 20 * (h mod c) / c).
  pose proof (Z.div_mod h c ltac:(lia)) as Hd. pose proof (Z.mod_pos_bound h c ltac:(lia)) as Hm.
  set (q := h / c) in *. set (m := h mod c) in *.
  assert (Hq : 0 <= q < 256) by (subst q; split; [apply Z.div_pos; lia|apply Z.div_lt_upper_bound; lia]).
  assert (exists s, c = 32 * s /\ (r = 1 /\ s = 512 \/ r = 2 /\ s = 256 \/ r = 4 /\ s = 128)) as (s & Hs & Hrs).
  { destruct Hrc as [[-> ->]|[[-> ->]|[-> ->]]]; [exists 512|exists 256|exists 128]; lia. }
  assert (Hsh : (20 - 4) = 16) by lia. rewrite Hsh. rewrite !Z.shiftl_mul_pow2, !Z.shiftr_div_pow2 by lia.
  rewrite (u32_small (2 * c)) by (unfold is_u32; lia).
  rewrite (u32_small (2 * c * q)) by (unfold is_u32; lia).
  replace (2 * h - 2 * c * q) with (2 * m) by lia. rewrite (u32_small (2 * m)) by (unfold is_u32; lia).
  rewrite (u32_small (2 * m * 2 ^ 16)) by (unfold is_u32; lia).
  assert (Hst : 2 * c / 2 ^ 4 = 4 * s) by (rewrite Hs; replace (2 * (32 * s)) with (4 * s * 2 ^ 4) by lia; apply Z.div_mul; lia).
  rewrite Hst.
  assert (Hk : exists t, 2 * m * 2 ^ 16 = t * (4 * s) /\ 2 ^ 20 * m = t * c /\ 0 <= t < 2 ^ 20).
  { destruct Hrs as [[_ ->]|[[_ ->]|[_ ->]]]; [exists (64 * m)|exists (128 * m)|exists (256 * m)]; lia. }
  destruct Hk as (t & Et & Ec & Ht). rewrite Et, Ec, !Z.div_mul by lia.
  split; [done|].
  assert (Hr : 16384 / r = c) by (destruct Hrc as [[-> ->]|[[-> ->]|[-> ->]]]; reflexivity).
  rewrite Hr. split; [lia|]. split; [done|]. split; [done|]. split; [lia|].
  rewrite (u32_small (t * (4 * s))) by (unfold is_u32; lia). rewrite Z.sub_diag.
  assert (2 * s <= c / 2 ^ 4) by (rewrite Hs; replace (32 * s) with (2 * s * 2 ^ 4) by lia; rewrite Z.div_mul; lia).
  change (u32 0) with 0. replace (_ <=? 0) with false by lia. done.
Qed.

(** With the driver's crystal every division of fc2580_set_freq but that of
    the integer part is exact. *)
Lemma fc2580_pll_spec f_lo :
  0 <= f_lo <= 4194303 ->
  exists r n k, fc2580_pll f_lo 16384 = Some (f_lo * band_multi (fc2580_band f_lo), r, n, k) /\
    (r = 1 \/ r = 2 \/ r = 4) /\ 0 <= n < 256 /\ 0 <= k < 2 ^ 20 /\
    2 ^ 20 * (f_lo * band_multi (fc2580_band f_lo)) = 2 * (16384 / r) * (2 ^ 20 * n + k).
Proof.
  intros Hf. unfold fc2580_pll.
  destruct (fc2580_vco f_lo Hf) as (h & Hh & Hhr & E). rewrite E, Hh. clear E Hh Hf.
  change (u32 (2 * 76 * 16384)) with 2490368. change (u32 (76 * 16384)) with 1245184.
  assert (Hh2 : 2 * h / 2 = h) by (rewrite Z.mul_comm; apply Z.div_mul; lia). rewrite Hh2.
  destruct (Z.leb_spec 2490368 (2 * h)); [|destruct (Z.leb_spec 1245184 (2 * h))].
  - destruct (fc2580_fraction h 1 16384 ltac:(lia) ltac:(lia) ltac:(lia)) as (k & Hk & Hex & Hn & Hr & Hst & Hk').
    exists 1, (h / 16384), k. change (16384 / 1) with 16384 in *. change (16384 =? 0) with false. cbv iota.
    rewrite Hst, Hk'. split_and!; auto; lia.
  - destruct (fc2580_fraction h 2 8192 ltac:(lia) ltac:(lia) ltac:(lia)) as (k & Hk & Hex & Hn & Hr & Hst & Hk').
    exists 2, (h / 8192), k. change (16384 / 2) with 8192 in *. change (8192 =? 0) with false. cbv iota.
    rewrite Hst, Hk'. split_and!; auto; lia.
  - destruct (fc2580_fraction h 4 4096 ltac:(lia) ltac:(lia) ltac:(lia)) as (k & Hk & Hex & Hn & Hr & Hst & Hk').
    exists 4, (h / 4096), k. change (16384 / 4) with 4096 in *. change (4096 =? 0) with false. cbv iota.
    rewrite Hst, Hk'. split_and!; auto; lia.
Qed.

(** ** Sequences of calls and their results *)

Section claims.
Context {D : Type} `{RtlsdrI2cLaws D} (init : Z -> Z).
Implicit Types (d : D).

Lemma set_freq_collects f_lo : 0 <= f_lo <= 4194303 -> collects 1 (fc2580_set_freq (D:=D) f_lo 16384).
Proof.
  intros Hf. unfold fc2580_set_freq, FC2580_FCI_SUCCESS.
  destruct (fc2580_pll_spec f_lo Hf) as (r & n & k & -> & _).
  intros d. wp_step. apply wp_ret. revert d.
  apply collects_bind; [apply writes_collects; auto|]. intros r1 H1.
  apply (collects_land r1 _ (fun result =>
    result ← (if 28000 <=? 16384 then fc2580_writes result [(0x4B, 0x22)] else mret result);
    let data_0x18 := u8 ((if r =? 1 then 0x00 else if r =? 2 then 0x10 else 0x20) + u8 (k ≫ 16)) in
    result ← fc2580_writes result
      [(0x02, fc2580_data_0x02 f_lo (f_lo * band_multi (fc2580_band f_lo))); (0x18, data_0x18);
       (0x1A, u8 (k ≫ 8)); (0x1B, u8 k); (0x1C, u8 n)];
    if decide (fc2580_band f_lo = FC2580_UHF_BAND)
    then fc2580_writes result [(0x2D, if f_lo <=? 794000 then 0x9F else 0x8F)]
    else mret result)); [done|apply set_filter_collects|]. intros r2 H2. cbv zeta.
  apply collects_bind; [by apply collects_ret|]. intros r3 H3.
  apply collects_bind; [by apply writes_collects|]. intros r4 H4.
  destruct (decide _); [by apply writes_collects|by apply collects_ret].
Qed.

(** The driver's interface. *)
Inductive fc2580_call : Type :=
  | Fc2580Initialize
  | Fc2580SetRfFreqHz (hz : Z)
  | Fc2580SetBandwidthMode (mode : Z).

Definition fc2580_call_ok (c : fc2580_call) : Prop :=
  match c with Fc2580SetRfFreqHz hz => 0 <= hz < 4194303500 | _ => True end.

Definition run_fc2580 (c : fc2580_call) : M D Z :=
  match c with
  | Fc2580Initialize => fc2580_Initialize
  | Fc2580SetRfFreqHz hz => fc2580_SetRfFreqHz hz
  | Fc2580SetBandwidthMode m => fc2580_SetBandwidthMode m
  end.

(** The frequency in kHz, rounded. *)
Definition rf_khz (hz : Z) : Z := (hz + 500) / 1000.

Lemma rf_khz_spec hz : 0 <= hz < 4194303500 -> u32 (u64 (hz + 500) / 1000) = rf_khz hz /\ 0 <= rf_khz hz <= 4194303.
Proof.
  intros Hhz. rewrite u64_small by lia. unfold rf_khz.
  assert (0 <= (hz + 500) / 1000 <= 4194303)
    by (split; [apply Z.div_pos; lia|apply Z.lt_succ_r, Z.div_lt_upper_bound; lia]).
  rewrite u32_small by (unfold is_u32; lia). done.
Qed.

(** Each call of the FC2580 driver has a defined result, which is
    FUNCTION_SUCCESS exactly when no I2C transfer of the call failed: the
    results collected with [&=] lose no error. *)
Lemma fc2580_result_conjunction (c : fc2580_call) d :
  fc2580_call_ok c ->
  wp (run_fc2580 c)
    (fun rc d' => exists evs, i2c_log d' = i2c_log d ++ evs /\
       rc = if forallb ev_ok evs then FUNCTION_SUCCESS else FUNCTION_ERROR) d.
Proof.
  intros Hc.
  assert (Hgen : forall m : M D Z, collects 1 m ->
    wp (r ← m; mret (if negb (r =? FC2580_FCI_SUCCESS) then FUNCTION_ERROR else FUNCTION_SUCCESS))
      (fun rc d' => exists evs, i2c_log d' = i2c_log d ++ evs /\
         rc = if forallb ev_ok evs then FUNCTION_SUCCESS else FUNCTION_ERROR) d).
  { intros m Hm. wp_step. eapply wp_mono; [|apply Hm]. intros r d' (evs & Hlog & Hr & Hiff). apply wp_ret.
    exists evs. split; [done|]. unfold FC2580_FCI_SUCCESS, FUNCTION_ERROR, FUNCTION_SUCCESS.
    destruct Hr as [-> | ->], (forallb ev_ok evs); cbn; intuition lia. }
  destruct c as [|hz|m]; cbn [run_fc2580 fc2580_call_ok] in *.
  - apply Hgen, set_init_collects.
  - unfold fc2580_SetRfFreqHz. destruct (rf_khz_spec hz Hc) as [-> Hk].
    change ((CRYSTAL_FREQ + 500) / 1000) with 16384. by apply Hgen, set_freq_collects.
  - apply Hgen, set_filter_collects.
Qed.

(** ** The registers after a tune *)

Definition fc2580_storage (reg : Z) : Z := if reg =? 0x2F then 0 else 0xff.
Definition k2580 (L : list field) d : Prop := knows FC2580_I2C_ADDR init fc2580_storage L d.
Definition good2580 d : Prop := good FC2580_I2C_ADDR init fc2580_storage (i2c_log d).
Definition reg2580 d (r : Z) : Z := creg init (chip FC2580_I2C_ADDR init fc2580_storage (i2c_log d)) r.

Lemma writes_known l : forall res L d, k2580 L d -> Forall (fun f => is_u8 f.1) l ->
  wp (fc2580_writes res l)
    (fun _ d' => k2580 (fold_left (fun L '(r, v) => (r, 0xff, u8 v) :: forget fc2580_storage r 0xff L) l L) d') d.
Proof.
  induction l as [|[reg val] l IH]; intros res L d Hk Hl; cbn [fc2580_writes fold_left]; [by apply wp_ret|].
  inversion Hl as [|? ? Hr Hl']; subst. cbn [fst] in Hr. unfold fc2580_i2c_write at 1.
  wp_step. apply wp_bind. rewrite (u8_small reg) by done.
  eapply wp_mono; [|apply (dev_set_wp _ init fc2580_storage reg _ L); [by_compute|exact Hk|apply u8_range]].
  intros rc d1 (Hk1 & _). apply wp_ret. by apply IH.
Qed.

Lemma any_known d : k2580 [] d.
Proof. intros _. constructor. Qed.

(** VCO cycles per LO cycle, from the band bits of register 0x02, and the
    divider R of register 0x18. *)
Definition multi_of (reg02 : Z) : Z :=
  match reg02 .& 0xC0 with 0x00 => 4 | 0x40 => 2 | _ => 12 end.
Definition r_of (reg18 : Z) : Z := match reg18 ≫ 4 with 0 => 1 | 1 => 2 | _ => 4 end.

Lemma data_02_bits f_lo v : is_u8 (fc2580_data_0x02 f_lo v) /\
  multi_of (fc2580_data_0x02 f_lo v) = band_multi (fc2580_band f_lo) /\
  Z.testbit (fc2580_data_0x02 f_lo v) 3 = (BORDER_FREQ <=? v).
Proof.
  unfold fc2580_data_0x02. destruct (BORDER_FREQ <=? v), (fc2580_band f_lo);
    (split; [by_compute|split; reflexivity]).
Qed.

Lemma data_18_bits r h : r = 1 \/ r = 2 \/ r = 4 -> 0 <= h < 16 ->
  let b := u8 ((if r =? 1 then 0x00 else if r =? 2 then 0x10 else 0x20) + u8 h) in
  r_of b = r /\ b .& 0x0f = h.
Proof.
  intros Hr Hh. cbv zeta. rewrite (u8_small h) by (unfold is_u8; lia).
  rewrite u8_small by (unfold is_u8; destruct Hr as [-> | [-> | ->]]; cbn; lia).
  change 0x0f with (Z.ones 4). rewrite Z.land_ones by lia. unfold r_of. rewrite Z.shiftr_div_pow2 by lia.
  destruct Hr as [-> | [-> | ->]]; cbn [Z.eqb Pos.eqb].
  - rewrite Z.add_0_l, Z.mod_small, Z.div_small by lia. done.
  - replace (16 + h) with (h + 1 * 2 ^ 4) by lia. rewrite Z.mod_add, Z.div_add, Z.mod_small, Z.div_small by lia. done.
  - replace (32 + h) with (h + 2 * 2 ^ 4) by lia. rewrite Z.mod_add, Z.div_add, Z.mod_small, Z.div_small by lia. done.
Qed.

Lemma k_bytes k : 0 <= k < 2 ^ 20 ->
  65536 * (k ≫ 16) + 256 * u8 (u8 (k ≫ 8)) + u8 (u8 k) = k /\ 0 <= k ≫ 16 < 16.
Proof.
  intros Hk. rewrite !Z.shiftr_div_pow2 by lia. rewrite !(u8_small (u8 _)) by apply u8_range. unfold u8.
  assert (E : k / 2 ^ 16 = (k / 2 ^ 8) / 2 ^ 8) by (rewrite Z.div_div by lia; done).
  pose proof (Z.div_mod k (2 ^ 8) ltac:(lia)). pose proof (Z.div_mod (k / 2 ^ 8) (2 ^ 8) ltac:(lia)).
  split; [rewrite E; lia|]. split; [apply Z.div_pos; lia|apply Z.div_lt_upper_bound; lia].
Qed.

Lemma tune_known f_lo d :
  0 <= f_lo <= 4194303 ->
  wp (fc2580_set_freq f_lo 16384)
    (fun _ d' => good2580 d' -> exists r n k,
       (r = 1 \/ r = 2 \/ r = 4) /\ 0 <= n < 256 /\ 0 <= k < 2 ^ 20 /\
       2 ^ 20 * (f_lo * band_multi (fc2580_band f_lo)) = 2 * (16384 / r) * (2 ^ 20 * n + k) /\
       reg2580 d' 0x02 = fc2580_data_0x02 f_lo (f_lo * band_multi (fc2580_band f_lo)) /\
       r_of (reg2580 d' 0x18) = r /\ reg2580 d' 0x18 .& 0x0f = k ≫ 16 /\
       reg2580 d' 0x1A = u8 (u8 (k ≫ 8)) /\ reg2580 d' 0x1B = u8 (u8 k) /\ reg2580 d' 0x1C = n) d.
Proof.
  intros Hf. unfold fc2580_set_freq.
  destruct (fc2580_pll_spec f_lo Hf) as (r & n & k & -> & Hr & Hn & Hk & Hex).
  wp_step. apply wp_ret. wp_step. eapply wp_mono; [|apply (writes_collects (fc2580_band_regs f_lo)); by right].
  intros r1 d1 _. wp_step. eapply wp_mono; [|apply set_filter_collects]. intros r2 d2 _. cbv zeta.
  change (28000 <=? 16384) with false. wp_step. apply wp_ret. wp_step.
  set (x18 := u8 _). set (x02 := fc2580_data_0x02 _ _).
  eapply wp_mono; [|apply (writes_known _ _ [] d2 (any_known d2)); repeat (apply Forall_cons_2; [cbn [fst]; by_compute|]); apply Forall_nil_2].
  intros r3 d3 Hk3. cbn [fold_left] in Hk3. norm_fields Hk3.
  destruct (data_18_bits r (k ≫ 16) Hr (proj2 (k_bytes k Hk))) as [E18r E18k]. fold x18 in E18r, E18k.
  destruct (data_02_bits f_lo (f_lo * band_multi (fc2580_band f_lo))) as (U02 & _). fold x02 in U02.
  assert (Hfin : forall rc d', k2580 [(0x1C, 0xff, u8 (u8 n)); (0x1B, 0xff, u8 (u8 k)); (0x1A, 0xff, u8 (u8 (k ≫ 8)));
      (0x18, 0xff, u8 x18); (0x02, 0xff, u8 x02)] d' ->
    (fun _ d' => good2580 d' -> exists r n k,
       (r = 1 \/ r = 2 \/ r = 4) /\ 0 <= n < 256 /\ 0 <= k < 2 ^ 20 /\
       2 ^ 20 * (f_lo * band_multi (fc2580_band f_lo)) = 2 * (16384 / r) * (2 ^ 20 * n + k) /\
       reg2580 d' 0x02 = x02 /\
       r_of (reg2580 d' 0x18) = r /\ reg2580 d' 0x18 .& 0x0f = k ≫ 16 /\
       reg2580 d' 0x1A = u8 (u8 (k ≫ 8)) /\ reg2580 d' 0x1B = u8 (u8 k) /\ reg2580 d' 0x1C = n) (rc : Z) d').
  { intros rc d' Hk' Hg. specialize (Hk' Hg). rewrite !Forall_cons in Hk'. cbn [has] in Hk'.
    destruct Hk' as (E1C & E1B & E1A & E18 & E02 & _).
    assert (Hff : forall x v, creg init x v .& 0xff = creg init x v)
      by (intros x v; change 0xff with (Z.ones 8); rewrite Z.land_ones by lia; apply Z.mod_small, creg_u8).
    assert (Hff' : forall x, u8 x .& 0xff = u8 x)
      by (intros x; change 0xff with (Z.ones 8); rewrite Z.land_ones by lia; apply Z.mod_small, u8_range).
    rewrite Hff, Hff' in *. exists r, n, k. unfold reg2580.
    rewrite E1C, E1B, E1A, E18, E02. rewrite (u8_small n), (u8_small n) by (unfold is_u8; lia).
    rewrite (u8_small x02 U02), (u8_small x18) by apply u8_range. split_and!; try done; lia. }
  destruct (decide _).
  - eapply wp_mono; [|apply (writes_known _ _ _ d3 Hk3); repeat (apply Forall_cons_2; [cbn [fst]; by_compute|]); apply Forall_nil_2].
    intros rc d4 Hk4. cbn [fold_left] in Hk4. norm_fields Hk4. refine (Hfin rc d4 _).
    apply (knows_weaken _ _ _ _ _ _ Hk4). in_fields.
  - apply wp_ret. by apply (Hfin r3).
Qed.

(** C23: fc2580_SetRfFreqHz sets the local oscillator exactly: on a chip that
    stores what is written, R, N and the 20-bit K of the registers give a VCO
    frequency of [multi] times the frequency rounded to kHz, for every
    frequency below 4194.3 MHz; the band bits give [multi] and the VCO range
    bit is set from 2.6 GHz on. *)
Theorem fc2580_tune_exact (hz : Z) d :
  0 <= hz < 4194303500 ->
  wp (fc2580_SetRfFreqHz hz)
    (fun _ d' => good2580 d' ->
       let reg := reg2580 d' in let multi := multi_of (reg 0x02) in
       let k := 65536 * (reg 0x18 .& 0x0f) + 256 * reg 0x1A + reg 0x1B in
       2 ^ 20 * (multi * rf_khz hz) = 2 * (16384 / r_of (reg 0x18)) * (2 ^ 20 * reg 0x1C + k) /\
       multi = band_multi (fc2580_band (rf_khz hz)) /\
       Z.testbit (reg 0x02) 3 = (BORDER_FREQ <=? multi * rf_khz hz)) d.
Proof.
  intros Hhz. unfold fc2580_SetRfFreqHz. destruct (rf_khz_spec hz Hhz) as [-> Hk].
  change ((CRYSTAL_FREQ + 500) / 1000) with 16384. wp_step.
  eapply wp_mono; [|by apply tune_known]. intros r d' Hreg. apply wp_ret. intros Hg.
  destruct (Hreg Hg) as (r' & n & k & Hr & Hn & Hkr & Hex & E02 & E18r & E18k & E1A & E1B & E1C). cbv zeta.
  destruct (data_02_bits (rf_khz hz) (rf_khz hz * band_multi (fc2580_band (rf_khz hz)))) as (_ & Em & Eb).
  rewrite E02, Em, E18r, E18k, E1A, E1B, E1C, Eb. destruct (k_bytes k Hkr) as [-> _].
  rewrite (Z.mul_comm (band_multi _)). done.
Qed.
End claims.

Lemma fc2580_result_conjunction_witness :
  fc2580_call_ok (Fc2580SetRfFreqHz 100000000) /\
  wp (run_fc2580 (Fc2580SetRfFreqHz 100000000))
    (fun rc d' => exists evs, i2c_log d' = i2c_log (rf_fc 28800000) ++ evs /\
       rc = if forallb ev_ok evs then FUNCTION_SUCCESS else FUNCTION_ERROR) (rf_fc 28800000).
Proof.
  split; [by vm_compute|].
  refine (fc2580_result_conjunction (Fc2580SetRfFreqHz 100000000) (rf_fc 28800000) _). by vm_compute.
Defined.

Lemma fc2580_tune_exact_witness :
  wp (fc2580_SetRfFreqHz 100000000)
    (fun _ d' => good2580 (fun _ => 0) d' ->
       let reg := reg2580 (fun _ => 0) d' in let multi := multi_of (reg 0x02) in
       let k := 65536 * (reg 0x18 .& 0x0f) + 256 * reg 0x1A + reg 0x1B in
       2 ^ 20 * (multi * rf_khz 100000000) = 2 * (16384 / r_of (reg 0x18)) * (2 ^ 20 * reg 0x1C + k) /\
       multi = band_multi (fc2580_band (rf_khz 100000000)) /\
       Z.testbit (reg 0x02) 3 = (BORDER_FREQ <=? multi * rf_khz 100000000)) (rf_fc 28800000).
Proof. refine (fc2580_tune_exact (fun _ => 0) 100000000 (rf_fc 28800000) _). by vm_compute. Defined.

(** The run of the witness is good and succeeds. *)
Example fc2580_witness_good :
  match fc2580_SetRfFreqHz 100000000 (rf_fc 28800000) with
  | Some (rc, d') => rc = 0 /\ good2580 (fun _ => 0) d'
  | None => False
  end.
Proof. vm_compute. done. Qed.
