(* ===== verification/FcSafe.v ===== *)
(** * FC0012, FC0013, FC2580: every call has a defined result

    Whatever the device answers, each function of the three drivers has a
    defined result and keeps a property [J] of the device that transfers
    keep.  The one condition is a tuner clock of 2 kHz or more: both FC001x
    drivers divide by [xtal_freq_div_2 / 1000]. *)

From S2P Require Import Prelude RtlsdrI2c Fc0012 Fc0013 Fc2580.

(** One chip register: address and value, or address alone, in a transfer. *)
Section safe.
Context {D : Type} `{RtlsdrI2cLaws D} (J : D -> Prop) `{!DevInv J}.

Lemma write_bytes_J addr (bs : list Z) :
  is_u8 addr -> Z.of_nat (length bs) < 256 -> preserves J (rtlsdr_i2c_write_fn addr bs).
Proof. apply write_fn_inv. Qed.

(** A read of one byte that has arrived. *)
Lemma read_byte_J {A} addr (k : Z * list Z -> M D A) :
  is_u8 addr -> (forall rc v, preserves J (k (rc, [v]))) ->
  preserves J (rtlsdr_i2c_read_fn addr 1 ≫= k).
Proof.
  intros Ha Hk d HJ. apply wp_bind.
  eapply wp_mono; [|apply wp_conj; [apply read_fn_law|apply read_fn_inv]; [done|lia|done|lia|done]].
  intros [rc data] d' [(_ & Hlen & _) HJ']. cbn [fst snd] in *.
  destruct data as [|v [|? ?]]; cbn [length] in Hlen; [lia| |lia]. by apply Hk.
Qed.
#[local] Hint Extern 1 (preserves _ (rtlsdr_i2c_write_fn _ _)) =>
  apply write_bytes_J; [by vm_compute|cbn; lia] : pres.
Ltac reg_access := repeat (intros; lazymatch goal with
  | |- preserves _ (rtlsdr_i2c_read_fn _ 1 ≫= _) => apply read_byte_J; [by vm_compute|intros; cbn [fst snd]]
  | |- preserves _ (from_option_trap _ ≫= _) => eapply preserves_trap_bind; [reflexivity|]
  | |- preserves _ _ => pres_step
  end).

(** ** FC0012 *)

Lemma fc0012_write_J r v : preserves J (fc0012_writereg r v).
Proof. unfold fc0012_writereg. reg_access. Qed.
Lemma fc0012_read_J r v : preserves J (fc0012_readreg r v).
Proof. unfold fc0012_readreg. reg_access. Qed.
#[local] Hint Resolve fc0012_write_J fc0012_read_J : pres.

Lemma fc0012_init_J : preserves J fc0012_init.
Proof. unfold fc0012_init. apply preserves_for_check_nz. intros [i v] _. solve_pres. Qed.

Lemma fc0012_pll_defined dv x freq bw : 1000 <= x -> is_Some (fc0012_pll dv x freq bw).
Proof.
  intros Hx. unfold fc0012_pll, fc0012_xdiv, fc0012_xin. destruct dv as [[multi r5] r6].
  replace (x =? 0) with false by lia.
  assert (1 <= x / 1000) by (apply Z.div_le_lower_bound; lia).
  replace (x / 1000 =? 0) with false by lia.
  destruct (u8 _ <? 2); destruct (fc0012_am_pm _ _) as [a b]; destruct (_ || _); eauto.
Qed.

Lemma fc0012_set_vco_J v : preserves J (fc0012_set_vco v).
Proof. unfold fc0012_set_vco. solve_pres. Qed.
#[local] Hint Resolve fc0012_set_vco_J : pres.

Lemma fc0012_set_gain_J g : preserves J (fc0012_set_gain g).
Proof. unfold fc0012_set_gain. solve_pres. Qed.

Hypothesis clock : forall d, J d -> 2000 <= rtlsdr_get_tuner_clock d.

Lemma fc0012_set_params_J freq bw : preserves J (fc0012_set_params freq bw).
Proof.
  intros d HJ. unfold fc0012_set_params. wp_step. apply wp_gets. cbv zeta.
  assert (1000 <= rtlsdr_get_tuner_clock d / 2) as Hx
    by (apply Z.div_le_lower_bound; [lia|]; specialize (clock d HJ); lia).
  destruct (fc0012_pll_defined (fc0012_divider freq) _ freq bw Hx) as [r Hr].
  match goal with |- wp ?m _ _ => assert (preserves J m) as Hm; [|by apply Hm] end.
  eapply preserves_trap_bind; [exact Hr|]. destruct r as [[[[[[[r1 r2] r3] r4] r5] r6] vco]|]; [|solve_pres].
  apply preserves_check_nz; [apply preserves_for_check_nz; intros [i v] _; solve_pres|]. solve_pres.
Qed.

(** ** FC0013 *)

Lemma fc0013_write_J r v : preserves J (fc0013_writereg r v).
Proof. unfold fc0013_writereg. reg_access. Qed.
Lemma fc0013_read_J r v : preserves J (fc0013_readreg r v).
Proof. unfold fc0013_readreg. reg_access. Qed.
#[local] Hint Resolve fc0013_write_J fc0013_read_J : pres.

Lemma with_reg_J r k : (forall v, preserves J (k v)) -> preserves J (with_reg r k).
Proof. intros Hk. unfold with_reg. apply preserves_bind; [solve_pres|]. intros [ret tmp]. apply preserves_if; [solve_pres|apply Hk]. Qed.
#[local] Hint Resolve with_reg_J : pres.

Lemma fc0013_init_J : preserves J fc0013_init.
Proof. unfold fc0013_init. apply preserves_for_check. intros [i v] _. solve_pres. Qed.

Lemma fc0013_pll_defined dv x freq bw : 1000 <= x -> is_Some (fc0013_pll dv x freq bw).
Proof.
  intros Hx. unfold fc0013_pll, fc0013_xdiv, fc0013_xin. destruct dv as [[multi r5] r6].
  replace (x =? 0) with false by lia.
  assert (1 <= x / 1000) by (apply Z.div_le_lower_bound; lia).
  replace (x / 1000 =? 0) with false by lia.
  destruct (u8 _ <? 2); destruct (fc0013_am_pm _ _) as [a b]; destruct (_ || _); eauto.
Qed.

Lemma fc0013_set_vco_J v : preserves J (fc0013_set_vco v).
Proof. unfold fc0013_set_vco. solve_pres. Qed.
#[local] Hint Resolve fc0013_set_vco_J : pres.

Ltac with_regs := repeat (intros; lazymatch goal with
  | |- preserves _ (with_reg _ _) => apply with_reg_J; intros
  | |- preserves _ _ => pres_step
  end).

Lemma fc0013_set_vhf_track_J f : preserves J (fc0013_set_vhf_track f).
Proof. unfold fc0013_set_vhf_track. with_regs. Qed.
Lemma fc0013_set_band_J f : preserves J (fc0013_set_band f).
Proof. unfold fc0013_set_band. with_regs. Qed.
Lemma fc0013_set_gain_mode_J m : preserves J (fc0013_set_gain_mode m).
Proof. unfold fc0013_set_gain_mode. solve_pres. Qed.
Lemma fc0013_set_lna_gain_J g : preserves J (fc0013_set_lna_gain g).
Proof. unfold fc0013_set_lna_gain. solve_pres. Qed.
#[local] Hint Resolve fc0013_set_vhf_track_J fc0013_set_band_J : pres.

Lemma fc0013_set_params_J freq bw : preserves J (fc0013_set_params freq bw).
Proof.
  intros d HJ. unfold fc0013_set_params. wp_step. apply wp_gets. cbv zeta.
  assert (1000 <= rtlsdr_get_tuner_clock d / 2) as Hx
    by (apply Z.div_le_lower_bound; [lia|]; specialize (clock d HJ); lia).
  match goal with |- wp ?m _ _ => assert (preserves J m) as Hm; [|by apply Hm] end.
  do 2 (apply preserves_check_nz; [solve_pres|]).
  pose proof (fc0013_pll_defined (fc0013_divider freq) _ freq bw Hx) as [r Hr].
  destruct (fc0013_divider freq) as [[multi r5'] r6'].
  eapply preserves_trap_bind; [exact Hr|]. destruct r as [[[[[[[r1 r2] r3] r4] r5] r6] vco]|]; [|solve_pres].
  apply preserves_check_nz; [apply preserves_for_check_nz; intros [i v] _; solve_pres|]. with_regs.
Qed.

(** ** FC2580 *)

Lemma fc2580_write_J r v : preserves J (fc2580_i2c_write r v).
Proof. unfold fc2580_i2c_write. reg_access. Qed.
Lemma fc2580_read_J r v : preserves J (fc2580_i2c_read r v).
Proof. unfold fc2580_i2c_read. reg_access. Qed.
#[local] Hint Resolve fc2580_write_J fc2580_read_J : pres.

Lemma fc2580_writes_J r l : preserves J (fc2580_writes r l).
Proof. revert r. induction l as [|[a v] l IH]; intros r; cbn [fc2580_writes]; [solve_pres|].
  apply preserves_bind; [solve_pres|]. intros. apply IH. Qed.
#[local] Hint Resolve fc2580_writes_J : pres.

Lemma fc2580_cal_loop_J n r c : preserves J (fc2580_cal_loop n r c).
Proof.
  revert r c. induction n as [|n IH]; intros r c; cbn [fc2580_cal_loop]; [solve_pres|].
  apply preserves_bind; [solve_pres|]. intros [r' c']. apply preserves_if; [|solve_pres].
  apply preserves_bind; [solve_pres|]. intros. apply IH.
Qed.
#[local] Hint Resolve fc2580_cal_loop_J : pres.

Lemma fc2580_set_filter_J b x : preserves J (fc2580_set_filter b x).
Proof. unfold fc2580_set_filter. solve_pres. Qed.
#[local] Hint Resolve fc2580_set_filter_J : pres.

Lemma fc2580_SetBandwidthMode_J b : preserves J (fc2580_SetBandwidthMode b).
Proof. unfold fc2580_SetBandwidthMode. solve_pres. Qed.
Lemma fc2580_Initialize_J : preserves J fc2580_Initialize.
Proof. unfold fc2580_Initialize, fc2580_set_init. solve_pres. Qed.

(** The crystal frequency of the driver is a constant. *)
Lemma fc2580_pll_defined f : is_Some (fc2580_pll f 16384).
Proof.
  unfold fc2580_pll. destruct (u32 (2 * 76 * 16384) <=? _); [cbn; eauto|].
  destruct (u32 (76 * 16384) <=? _); cbn; eauto.
Qed.

Lemma fc2580_SetRfFreqHz_J f : preserves J (fc2580_SetRfFreqHz f).
Proof.
  unfold fc2580_SetRfFreqHz, fc2580_set_freq. change ((CRYSTAL_FREQ + 500) / 1000) with 16384.
  apply preserves_bind; [|solve_pres]. destruct (fc2580_pll_defined (u32 (u64 (f + 500) / 1000))) as [[[[a b] c] e] E].
  eapply preserves_trap_bind; [exact E|]. cbv zeta. do 3 (apply preserves_bind; [solve_pres|]; intros).
  apply preserves_bind; [solve_pres|]. intros. destruct (decide _); solve_pres.
Qed.
End safe.
