(* ===== verification/Double.v ===== *)
(** * IEEE double arithmetic

    librtlsdr computes register values in [double].  The operations are those
    of the Standard Library's SpecFloat at binary64 (round to nearest even);
    what is proved of them is what the register values need: an operation
    gives the exact result cut to 53 bits, or the next number up. *)

From S2P Require Import Prelude.
From Stdlib Require Import SpecFloat.

Definition double : Type := spec_float.

Definition d_of_Z (z : Z) : double := binary_normalize 53 1024 z 0 false.
Definition dadd : double -> double -> double := SFadd 53 1024.
Definition dmul : double -> double -> double := SFmul 53 1024.
Definition ddiv : double -> double -> double := SFdiv 53 1024.
Definition dsub : double -> double -> double := SFsub 53 1024.
Definition dsqrt : double -> double := SFsqrt 53 1024.

(** Conversion to an integer: towards zero; nothing for an infinity or a
    NaN. *)
Definition d_trunc (x : double) : option Z :=
  match x with
  | S754_zero _ => Some 0
  | S754_finite s m e =>
      let a := if 0 <=? e then Z.pos m * 2 ^ e else Z.pos m / 2 ^ (- e) in
      Some (if s then - a else a)
  | _ => None
  end.

(** Conversions to an integer type: in C there is no value when the truncated
    number is out of the range of the type; [oor] is what comes out then. *)
Definition d_to_u32 (oor : double -> Z) (x : double) : Z :=
  match d_trunc x with Some z => if decide (is_u32 z) then z else u32 (oor x) | None => u32 (oor x) end.
Definition d_to_i32 (oor : double -> Z) (x : double) : Z :=
  match d_trunc x with Some z => if decide (is_i32 z) then z else i32 (oor x) | None => i32 (oor x) end.
Definition d_to_i16 (oor : double -> Z) (x : double) : Z :=
  match d_trunc x with
  | Some z => if (- 2 ^ 15 <=? z) && (z <? 2 ^ 15) then z else i16 (oor x)
  | None => i16 (oor x)
  end.

(** [(int)round(x)]: to the nearest integer, halves away from zero. *)
Definition d_round (oor : double -> Z) (x : double) : Z :=
  match x with
  | S754_zero _ => 0
  | S754_finite s m e =>
      let v := if 0 <=? e then Z.pos m * 2 ^ e else (2 * Z.pos m + 2 ^ (- e)) / 2 ^ (1 - e) in
      let v := if s then - v else v in
      if decide (is_i32 v) then v else i32 (oor x)
  | _ => i32 (oor x)
  end.

(** ** Rounding *)

Lemma digits2_pos_bounds m : 2 ^ (Z.pos (digits2_pos m) - 1) <= Z.pos m < 2 ^ Z.pos (digits2_pos m).
Proof.
  induction m as [m IH|m IH|]; cbn [digits2_pos]; [| |done];
    rewrite Pos2Z.inj_succ, Z.pow_succ_r by lia;
    replace (Z.succ (Z.pos (digits2_pos m)) - 1) with (Z.succ (Z.pos (digits2_pos m) - 1)) by lia;
    rewrite Z.pow_succ_r by lia; lia.
Qed.

Lemma digits_unique m d : 0 < d -> 2 ^ (d - 1) <= Z.pos m < 2 ^ d -> Z.pos (digits2_pos m) = d.
Proof.
  intros Hd Hm. pose proof (digits2_pos_bounds m) as Hb.
  destruct (Z.lt_trichotomy (Z.pos (digits2_pos m)) d) as [H|[H|H]]; [|done|].
  - assert (2 ^ Z.pos (digits2_pos m) <= 2 ^ (d - 1)) by (apply Z.pow_le_mono_r; lia). lia.
  - assert (2 ^ d <= 2 ^ (Z.pos (digits2_pos m) - 1)) by (apply Z.pow_le_mono_r; lia). lia.
Qed.

(** [f] shifts the mantissa of a record by [n] bits; the two flags stay clear
    when nothing is lost. *)
Definition shifts (n : Z) (f : shr_record -> shr_record) : Prop :=
  forall r, 0 <= shr_m r ->
    shr_m (f r) = shr_m r / 2 ^ n /\
    (shr_r r = false -> shr_s r = false -> shr_m r mod 2 ^ n = 0 -> shr_r (f r) = false /\ shr_s (f r) = false).

Lemma shifts_1 : shifts 1 shr_1.
Proof.
  intros [[|[m|m|]|m] r s]; cbn; intros Hm; try lia; (split; [|intros -> -> H]); try done.
  - change (Z.pos m~1) with (2 * Z.pos m + 1). rewrite Z.add_comm, Z.mul_comm, Z.div_add by lia. done.
  - exfalso. change (Z.pow_pos 2 1) with 2 in H. change (Z.pos m~1) with (2 * Z.pos m + 1) in H.
    rewrite Z.add_comm, Z.mul_comm, Z.mod_add in H by lia. done.
  - change (Z.pow_pos 2 1) with 2. change (Z.pos m~0) with (2 * Z.pos m). rewrite Z.mul_comm, Z.div_mul by lia. done.
Qed.

Lemma shifts_comp a b f g : 0 <= a -> 0 <= b -> shifts a f -> shifts b g -> shifts (a + b) (fun r => g (f r)).
Proof.
  intros Ha Hb Hf Hg r Hr. destruct (Hf r Hr) as [Hm Hfl]. assert (0 < 2 ^ a) by lia. assert (0 < 2 ^ b) by lia.
  destruct (Hg (f r)) as [Hm2 Hfl2]; [rewrite Hm; by apply Z.div_pos|]. rewrite Z.pow_add_r by done. split.
  - rewrite Hm2, Hm, Z.div_div; lia.
  - intros Hr0 Hs0 Hmod. rewrite Z.rem_mul_r in Hmod by lia.
    pose proof (Z.mod_pos_bound (shr_m r) (2 ^ a)). pose proof (Z.mod_pos_bound (shr_m r / 2 ^ a) (2 ^ b)).
    assert (shr_m r mod 2 ^ a = 0) as E1 by nia. assert ((shr_m r / 2 ^ a) mod 2 ^ b = 0) as E2 by nia.
    destruct (Hfl Hr0 Hs0 E1) as [Hr1 Hs1]. apply Hfl2; [done..|]. by rewrite Hm.
Qed.

Lemma shifts_iter p : shifts (Z.pos p) (iter_pos shr_1 p).
Proof.
  induction p as [p IH|p IH|]; cbn [iter_pos].
  - replace (Z.pos p~1) with (1 + Z.pos p + Z.pos p) by lia.
    apply (shifts_comp _ _ (fun r => iter_pos shr_1 p (shr_1 r))); [lia..| |done].
    apply shifts_comp; [lia..|apply shifts_1|done].
  - replace (Z.pos p~0) with (Z.pos p + Z.pos p) by lia. apply shifts_comp; [lia..|done|done].
  - apply shifts_1.
Qed.

(** A shift to 53 digits. *)
Lemma shr_fexp_spec m ex l n :
  2 ^ (52 + n) <= m < 2 ^ (53 + n) -> 0 <= n -> -1074 <= ex + n ->
  let p := shr_fexp 53 1024 m ex l in
  p.2 = ex + n /\ shr_m p.1 = m / 2 ^ n /\
  (l = loc_Exact -> m mod 2 ^ n = 0 -> loc_of_shr_record p.1 = loc_Exact).
Proof.
  intros Hm Hn Hex. cbv zeta. unfold shr_fexp.
  assert (0 < 2 ^ (52 + n)) by (apply Z.pow_pos_nonneg; lia).
  destruct m as [|m|m]; [lia| |lia]. cbn [Zdigits2].
  assert (Z.pos (digits2_pos m) = 53 + n) as ->.
  { apply digits_unique; [lia|]. by replace (53 + n - 1) with (52 + n) by lia. }
  unfold fexp, emin. replace (Z.max (53 + n + ex - 53) (3 - 1024 - 53) - ex) with n by lia.
  destruct n as [|p|p]; cbn [shr]; [| |lia].
  - rewrite Z.add_0_r, Z.div_1_r. cbn [fst snd]. split; [done|].
    destruct l as [|[]]; cbn; (split; [done|]); by intros.
  - cbn [fst snd]. split; [done|].
    assert (Hs : shr_m (shr_record_of_loc (Z.pos m) l) = Z.pos m) by (by destruct l as [|[]]).
    destruct (shifts_iter p (shr_record_of_loc (Z.pos m) l)) as [E Hfl]; [by rewrite Hs|].
    rewrite Hs in *. split; [done|]. intros -> Hmod. destruct (Hfl eq_refl eq_refl Hmod) as [H1 H2].
    destruct (iter_pos _ _ _) as [? ? ?]. cbn in *. by subst.
Qed.

(** The double [r * 2^e], for [r] of 53 digits or 2^53. *)
Definition fl (s : bool) (r e : Z) : double :=
  if r =? 2 ^ 53 then S754_finite s (Z.to_pos (2 ^ 52)) (e + 1) else S754_finite s (Z.to_pos r) e.

(** [r] is [num / den] cut to an integer of 53 digits, or one more. *)
Definition cut (num den r : Z) : Prop :=
  2 ^ 52 <= num / den /\ (r = num / den \/ r = num / den + 1) /\ (num mod den = 0 -> r = num / den).

Lemma round_aux_spec s m ex l n :
  2 ^ (52 + n) <= m < 2 ^ (53 + n) -> 0 <= n -> -1074 <= ex + n <= 900 ->
  exists r, (r = m / 2 ^ n \/ r = m / 2 ^ n + 1) /\ (l = loc_Exact -> m mod 2 ^ n = 0 -> r = m / 2 ^ n) /\
    2 ^ 52 <= r <= 2 ^ 53 /\ binary_round_aux 53 1024 s m ex l = fl s r (ex + n).
Proof.
  intros Hm Hn Hex. unfold binary_round_aux.
  pose proof (shr_fexp_spec m ex l n Hm Hn ltac:(lia)) as (E1 & E2 & E3).
  destruct (shr_fexp 53 1024 m ex l) as [rec e]. cbn [fst snd] in *. subst e. rewrite E2.
  set (k := m / 2 ^ n) in *.
  assert (Hk : 2 ^ 52 <= k < 2 ^ 53).
  { unfold k. rewrite !Z.pow_add_r in Hm by lia. assert (0 < 2 ^ n) by (apply Z.pow_pos_nonneg; lia). split.
    - apply Z.div_le_lower_bound; lia.
    - apply Z.div_lt_upper_bound; lia. }
  set (r := round_nearest_even k (loc_of_shr_record rec)).
  assert (Hr : r = k \/ r = k + 1)
    by (unfold r, round_nearest_even; destruct (loc_of_shr_record rec) as [|[]]; auto; destruct (Z.even k); auto).
  exists r. split; [done|]. split; [intros Hl Hmod; unfold r; by rewrite E3|]. split; [lia|]. unfold fl.
  destruct (Z.eqb_spec r (2 ^ 53)) as [E|Hne].
  - pose proof (shr_fexp_spec r (ex + n) loc_Exact 1 ltac:(rewrite E; done) ltac:(lia) ltac:(lia)) as (F1 & F2 & _).
    destruct (shr_fexp 53 1024 r (ex + n) loc_Exact) as [rec2 e2]. cbn [fst snd] in *. subst e2. rewrite F2, E.
    change (2 ^ 53 / 2 ^ 1) with (2 ^ 52). cbn [Z.pow Z.pow_pos Pos.iter Z.mul Pos.mul Z.to_pos].
    by replace (ex + n + 1 <=? 1024 - 53) with true by lia.
  - pose proof (shr_fexp_spec r (ex + n) loc_Exact 0 ltac:(cbn [Z.add]; lia) ltac:(lia) ltac:(lia)) as (F1 & F2 & _).
    destruct (shr_fexp 53 1024 r (ex + n) loc_Exact) as [rec2 e2]. cbn [fst snd] in *. subst e2.
    rewrite F2, Z.div_1_r, Z.add_0_r. destruct r as [|r|r]; [lia| |lia]. cbn [Z.to_pos].
    by replace (ex + n <=? 1024 - 53) with true by lia.
Qed.

Lemma iter_xO a p : Z.pos (Pos.iter xO a p) = Z.pos a * 2 ^ Z.pos p.
Proof.
  induction p as [|p IH] using Pos.peano_ind; [cbn; lia|].
  rewrite Pos.iter_succ, Pos2Z.inj_succ, Z.pow_succ_r by lia.
  change (Z.pos (Pos.iter xO a p)~0) with (2 * Z.pos (Pos.iter xO a p)). rewrite IH. lia.
Qed.

(** [x] is the double [m * 2^e], negative when [s], with 53 digits. *)
Definition normal (s : bool) (x : double) (m e : Z) : Prop :=
  2 ^ 52 <= m < 2 ^ 53 /\ -420 <= e <= 420 /\ x = S754_finite s (Z.to_pos m) e.

Lemma binary_round_normal s a : Z.pos a < 2 ^ 53 ->
  exists k, 0 <= k <= 52 /\ normal s (binary_round 53 1024 s a 0) (Z.pos a * 2 ^ k) (- k).
Proof.
  intros Ha. unfold binary_round.
  pose proof (digits2_pos_bounds a) as Hd. set (d := Z.pos (digits2_pos a)) in *.
  assert (Hd53 : 1 <= d <= 53).
  { split; [lia|]. destruct (Z.leb_spec d 53); [done|]. assert (2 ^ 53 <= 2 ^ (d - 1)) by (apply Z.pow_le_mono_r; lia). lia. }
  exists (53 - d). split; [lia|]. rewrite Z.add_0_r. unfold shl_align.
  assert (Hf : fexp 53 1024 d = d - 53) by (unfold fexp, emin; lia). rewrite Hf, Z.sub_0_r.
  assert (Hm : 2 ^ 52 <= Z.pos a * 2 ^ (53 - d) < 2 ^ 53).
  { assert (0 < 2 ^ (53 - d)) by (apply Z.pow_pos_nonneg; lia).
    assert (2 ^ 52 = 2 ^ (d - 1) * 2 ^ (53 - d)) by (rewrite <- Z.pow_add_r by lia; f_equal; lia).
    assert (2 ^ 53 = 2 ^ d * 2 ^ (53 - d)) by (rewrite <- Z.pow_add_r by lia; f_equal; lia). nia. }
  assert (E : forall m, Z.pos m = Z.pos a * 2 ^ (53 - d) ->
    normal s (binary_round_aux 53 1024 s (Z.pos m) (d - 53) loc_Exact) (Z.pos a * 2 ^ (53 - d)) (- (53 - d))).
  { intros m E. rewrite E.
    destruct (round_aux_spec s (Z.pos a * 2 ^ (53 - d)) (d - 53) loc_Exact 0) as (r & _ & Hr & _ & ->); [lia..|].
    rewrite (Hr eq_refl (Z.mod_1_r _)), Z.div_1_r. unfold fl.
    replace (Z.pos a * 2 ^ (53 - d) =? 2 ^ 53) with false by lia. split; [done|]. split; [lia|]. f_equal. lia. }
  destruct (d - 53) as [|p|p] eqn:Hp; [|lia|].
  - apply E. replace (53 - d) with 0 by lia. lia.
  - apply E. rewrite iter_xO. do 2 f_equal. lia.
Qed.

(** An integer below 2^53 is a double. *)
Lemma d_of_Z_normal a : a <> 0 -> Z.abs a < 2 ^ 53 ->
  exists k, 0 <= k <= 52 /\ normal (a <? 0) (d_of_Z a) (Z.abs a * 2 ^ k) (- k).
Proof. intros Hne Ha. destruct a as [|a|a]; [done|..]; by apply binary_round_normal. Qed.

(** ** The operations *)

Lemma dmul_spec s1 s2 x y m1 e1 m2 e2 :
  normal s1 x m1 e1 -> normal s2 y m2 e2 ->
  exists n r, (n = 52 \/ n = 53) /\ cut (m1 * m2) (2 ^ n) r /\ 2 ^ 52 <= r <= 2 ^ 53 /\
    dmul x y = fl (xorb s1 s2) r (e1 + e2 + n).
Proof.
  intros (Hm1 & He1 & ->) (Hm2 & He2 & ->). unfold dmul, SFmul.
  replace (Z.pos (Z.to_pos m1 * Z.to_pos m2)) with (m1 * m2) by lia.
  assert (Hn : exists n, (n = 52 \/ n = 53) /\ 2 ^ (52 + n) <= m1 * m2 < 2 ^ (53 + n)).
  { destruct (Z.ltb_spec (m1 * m2) (2 ^ 105)); [exists 52|exists 53]; (split; [auto|]); cbn [Z.add]; nia. }
  destruct Hn as (n & Hn & Hb).
  destruct (round_aux_spec (xorb s1 s2) (m1 * m2) (e1 + e2) loc_Exact n Hb) as (r & Hr & Hex & Hrb & ->); [lia..|].
  exists n, r. split; [done|]. split; [|done]. split; [|split; [done|by apply Hex]].
  rewrite Z.pow_add_r in Hb by lia. apply Z.div_le_lower_bound; [apply Z.pow_pos_nonneg; lia|lia].
Qed.

Lemma ddiv_spec s1 s2 x y m1 e1 m2 e2 :
  normal s1 x m1 e1 -> normal s2 y m2 e2 ->
  exists n r, (n = 0 \/ n = 1) /\ cut (m1 * 2 ^ 53) (m2 * 2 ^ n) r /\ 2 ^ 52 <= r <= 2 ^ 53 /\
    ddiv x y = fl (xorb s1 s2) r (e1 - e2 - 53 + n).
Proof.
  intros (Hm1 & He1 & ->) (Hm2 & He2 & ->). unfold ddiv, SFdiv, SFdiv_core_binary.
  assert (Hd : forall m, 2 ^ 52 <= m < 2 ^ 53 -> Zdigits2 (Z.pos (Z.to_pos m)) = 53).
  { intros m Hm. cbn [Zdigits2]. apply digits_unique; [done|]. rewrite Z2Pos.id by lia. done. }
  rewrite !Hd, !Z2Pos.id by lia.
  assert (He : Z.min (fexp 53 1024 (53 + e1 - (53 + e2))) (e1 - e2) = e1 - e2 - 53) by (unfold fexp, emin; lia).
  rewrite He. replace (e1 - e2 - (e1 - e2 - 53)) with 53 by lia. rewrite Z.shiftl_mul_pow2 by done.
  set (a := m1 * 2 ^ 53) in *.
  destruct (Z.div_eucl a m2) as [q r0] eqn:Eq.
  assert (Hq : q = a / m2) by (unfold Z.div; by rewrite Eq).
  assert (Hr0 : r0 = a mod m2) by (unfold Z.modulo; by rewrite Eq).
  assert (Hqb : 2 ^ 52 <= q < 2 ^ 54).
  { rewrite Hq. split; [apply Z.div_le_lower_bound; lia|apply Z.div_lt_upper_bound; lia]. }
  assert (Hn : exists n, (n = 0 \/ n = 1) /\ 2 ^ (52 + n) <= q < 2 ^ (53 + n)).
  { destruct (Z.ltb_spec q (2 ^ 53)); [exists 0|exists 1]; (split; [auto|]); cbn [Z.add]; lia. }
  destruct Hn as (n & Hn & Hb).
  destruct (round_aux_spec (xorb s1 s2) q (e1 - e2 - 53) (new_location m2 r0) n Hb)
    as (r & Hr & Hex & Hrb & ->); [lia..|].
  assert (H2n : 0 < 2 ^ n) by (apply Z.pow_pos_nonneg; lia).
  exists n, r. split; [done|]. split; [|done].
  assert (Hk : q / 2 ^ n = a / (m2 * 2 ^ n)) by (rewrite Hq; apply Z.div_div; lia).
  rewrite Hk in *. split; [rewrite <- Hk, Z.pow_add_r in *; [apply Z.div_le_lower_bound; lia|lia..]|]. split; [done|]. intros Hmod. rewrite Z.rem_mul_r in Hmod by lia.
  rewrite <- Hq, <- Hr0 in Hmod. pose proof (Z.mod_pos_bound a m2 ltac:(lia)). pose proof (Z.mod_pos_bound q (2 ^ n) H2n).
  apply Hex; [|nia]. assert (r0 = 0) as -> by nia.
  unfold new_location, new_location_even, new_location_odd. by destruct (Z.even m2).
Qed.

(** ** Values

    [U] stands for 1: the double [m * 2^e] has the scaled value
    [m * 2^(e + 1000)], an integer. *)

Definition U : Z := 2 ^ 1000.

Definition scaled (e : Z) : Z := 2 ^ (e + 1000).

(** [x] has the sign [s] and the magnitude [w], with an exponent of at most
    [b] bits either way. *)
Definition repr (b : Z) (s : bool) (x : double) (w : Z) : Prop :=
  exists m e, 2 ^ 52 <= m < 2 ^ 53 /\ - b <= e <= b /\ x = S754_finite s (Z.to_pos m) e /\ w = m * scaled e.

Lemma U_pos : 0 < U.
Proof. by apply Z.pow_pos_nonneg. Qed.

Lemma scaled_pos e : -1000 <= e -> 0 < scaled e.
Proof. intros. apply Z.pow_pos_nonneg; lia. Qed.

Lemma scaled_add e k : -1000 <= e -> 0 <= k -> scaled (e + k) = scaled e * 2 ^ k.
Proof. intros. unfold scaled. rewrite <- Z.pow_add_r by lia. f_equal. lia. Qed.

Lemma scaled_mul a b : -500 <= a -> -500 <= b -> scaled a * scaled b = scaled (a + b) * U.
Proof. intros. unfold scaled, U. rewrite <- !Z.pow_add_r by lia. f_equal. lia. Qed.

Lemma repr_fl b s r e : 2 ^ 52 <= r <= 2 ^ 53 -> - b <= e < b -> b <= 1000 -> repr b s (fl s r e) (r * scaled e).
Proof.
  intros Hr He Hb. unfold fl. destruct (Z.eqb_spec r (2 ^ 53)) as [->|].
  - exists (2 ^ 52), (e + 1). split; [lia|]. split; [lia|]. split; [done|]. rewrite scaled_add by lia. lia.
  - exists r, e. split; [lia|]. split; [lia|]. done.
Qed.

Lemma repr_normal b s x w : repr b s x w -> b <= 420 -> exists m e, normal s x m e /\ - b <= e <= b /\ w = m * scaled e.
Proof. intros (m & e & Hm & He & Hx & Hw) Hb. exists m, e. split; [|done]. split; [done|]. split; [lia|done]. Qed.

Lemma repr_pos b s x w : repr b s x w -> b <= 1000 -> 0 < w.
Proof. intros (m & e & Hm & He & Hx & ->) Hb. apply Z.mul_pos_pos; [lia|]. apply scaled_pos. lia. Qed.

Lemma repr_of_Z a : a <> 0 -> Z.abs a < 2 ^ 53 -> repr 52 (a <? 0) (d_of_Z a) (Z.abs a * U).
Proof.
  intros Hne Ha. destruct (d_of_Z_normal a Hne Ha) as (k & Hk & Hm & He & Hx).
  exists (Z.abs a * 2 ^ k), (- k). split; [done|]. split; [lia|]. split; [done|].
  unfold U, scaled. rewrite <- Z.mul_assoc, <- Z.pow_add_r by lia. do 2 f_equal. lia.
Qed.

(** The truncated value of a positive double. *)
Lemma repr_trunc b x w : repr b false x w -> b <= 1000 -> d_trunc x = Some (w / U).
Proof.
  intros (m & e & Hm & He & -> & ->) Hb. cbn [d_trunc]. rewrite Z2Pos.id by lia. f_equal. unfold scaled, U.
  destruct (Z.leb_spec 0 e).
  - rewrite Z.pow_add_r, Z.mul_assoc, Z.div_mul by lia. done.
  - replace 1000 with (e + 1000 + - e) at 2 by lia. rewrite (Z.pow_add_r 2 (e + 1000) (- e)) by lia.
    rewrite (Z.mul_comm (2 ^ (e + 1000))), Z.div_mul_cancel_r; [done| |];
    apply Z.pow_nonzero; lia.
Qed.

Lemma repr_trunc_neg b x w : repr b true x w -> b <= 1000 -> d_trunc x = Some (- (w / U)).
Proof.
  intros (m & e & Hm & He & Hx & Hw) Hb.
  pose proof (repr_trunc b (S754_finite false (Z.to_pos m) e) w) as H. subst x. cbn [d_trunc] in *.
  specialize (H ltac:(exists m, e; split_and!; try done; lia) Hb). by injection H as ->.
Qed.

(** A result within one unit [u] of [num / den], where multiples of [u] are
    not crossed, and [u] is the last place of the 53 digits. *)
Definition close (num den u w : Z) : Prop :=
  Z.abs (w * den - num) <= u * den /\ 2 ^ 52 * u * den <= num /\ (exists e, -1000 <= e /\ u = scaled e) /\
  (forall j, j * u * den <= num -> j * u <= w) /\ (num mod (u * den) = 0 -> w * den = num).

Lemma cut_close num den e N D c r :
  let u := scaled e in
  cut N D r -> 0 < c -> 0 < D -> -1000 <= e -> num = N * c -> u * den = D * c -> close num den u (r * u).
Proof.
  cbv zeta. set (u := scaled e). intros (HN & Hr & Hex) Hc HD Hu -> Hud.
  pose proof (Z.div_mod N D ltac:(lia)) as Hdm. pose proof (Z.mod_pos_bound N D HD) as Hm.
  unfold close. replace (r * u * den) with (r * D * c) by (rewrite <- !Z.mul_assoc; congruence).
  rewrite <- !Z.mul_assoc, Hud. split; [|split; [|split; [by exists e|split]]].
  - replace (r * (D * c) - N * c) with ((r * D - N) * c) by lia. rewrite Z.abs_mul, (Z.abs_eq c) by lia.
    apply Z.mul_le_mono_nonneg_r; [lia|]. destruct Hr as [-> | ->]; lia.
  - rewrite Z.mul_assoc. apply Z.mul_le_mono_nonneg_r; [lia|]. rewrite Hdm. nia.
  - intros j Hj. apply Z.mul_le_mono_nonneg_r; [by apply Z.lt_le_incl, scaled_pos|]. rewrite <- Z.mul_assoc, Hud, Z.mul_assoc in Hj.
    apply Z.mul_le_mono_pos_r in Hj; [|done]. assert (j <= N / D) by (apply Z.div_le_lower_bound; lia). lia.
  - intros Hmod. rewrite Z.mul_mod_distr_r in Hmod by lia. apply Z.mul_eq_0 in Hmod as [E|]; [|lia].
    rewrite (Hex E), Z.mul_assoc. f_equal. lia.
Qed.

Lemma dmul_repr b1 b2 s1 s2 x y w1 w2 :
  repr b1 s1 x w1 -> repr b2 s2 y w2 -> 0 <= b1 -> 0 <= b2 -> b1 + b2 + 54 <= 420 ->
  exists u w, repr (b1 + b2 + 54) (xorb s1 s2) (dmul x y) w /\ close (w1 * w2) U u w.
Proof.
  intros H1 H2 Hb1 Hb2 Hb.
  destruct (repr_normal _ _ _ _ H1 ltac:(lia)) as (m1 & e1 & N1 & He1 & ->).
  destruct (repr_normal _ _ _ _ H2 ltac:(lia)) as (m2 & e2 & N2 & He2 & ->).
  destruct (dmul_spec _ _ _ _ _ _ _ _ N1 N2) as (n & r & Hn & Hcut & Hr & ->).
  exists (scaled (e1 + e2 + n)), (r * scaled (e1 + e2 + n)).
  split; [apply repr_fl; lia|].
  pose proof (scaled_pos (e1 + e2) ltac:(lia)). pose proof U_pos.
  apply (cut_close _ _ _ (m1 * m2) (2 ^ n) (scaled (e1 + e2) * U)); [done|lia| |lia| |].
  - apply Z.pow_pos_nonneg; lia.
  - rewrite <- scaled_mul by lia. lia.
  - rewrite scaled_add by lia. lia.
Qed.

Lemma ddiv_repr b1 b2 s1 s2 x y w1 w2 :
  repr b1 s1 x w1 -> repr b2 s2 y w2 -> 0 <= b1 -> 0 <= b2 -> b1 + b2 + 54 <= 420 ->
  exists u w, repr (b1 + b2 + 54) (xorb s1 s2) (ddiv x y) w /\ close (w1 * U) w2 u w.
Proof.
  intros H1 H2 Hb1 Hb2 Hb.
  destruct (repr_normal _ _ _ _ H1 ltac:(lia)) as (m1 & e1 & N1 & He1 & ->).
  destruct (repr_normal _ _ _ _ H2 ltac:(lia)) as (m2 & e2 & N2 & He2 & ->).
  destruct (ddiv_spec _ _ _ _ _ _ _ _ N1 N2) as (n & r & Hn & Hcut & Hr & ->).
  exists (scaled (e1 - e2 - 53 + n)), (r * scaled (e1 - e2 - 53 + n)).
  split; [apply repr_fl; lia|].
  pose proof (scaled_pos (e1 - 53) ltac:(lia)). pose proof U_pos. pose proof (Z.pow_pos_nonneg 2 n).
  apply (cut_close _ _ _ (m1 * 2 ^ 53) (m2 * 2 ^ n) (scaled (e1 - 53) * U)); [done|lia| |lia| |].
  - destruct N2 as [Hm2 _]. apply Z.mul_pos_pos; lia.
  - replace e1 with (e1 - 53 + 53) at 1 by lia. rewrite scaled_add by lia. lia.
  - rewrite scaled_add by lia.
    replace (scaled (e1 - e2 - 53) * 2 ^ n * (m2 * scaled e2)) with (m2 * 2 ^ n * (scaled (e1 - e2 - 53) * scaled e2)) by lia.
    rewrite scaled_mul by lia. do 2 f_equal. f_equal. lia.
Qed.

(** The rounding of any positive number [M * 2^e]. *)
Lemma binary_round_repr b s M e :
  53 - b <= e -> Z.pos M * scaled e <= 4 * U -> 54 <= b <= 500 ->
  exists u w, repr b s (binary_round 53 1024 s M e) w /\ close (Z.pos M * scaled e) 1 u w.
Proof.
  intros He HM Hb. pose proof (digits2_pos_bounds M) as Hd. set (d := Z.pos (digits2_pos M)) in *.
  assert (Hd1 : 1 <= d) by lia. pose proof U_pos as HU. pose proof (scaled_pos e ltac:(lia)) as Hse.
  assert (Hde : d - 1 + e <= 2).
  { assert (2 ^ (d - 1) * scaled e <= 4 * U) as H by nia.
    unfold scaled, U in H. rewrite <- Z.pow_add_r in H by lia. change (4 * 2 ^ 1000) with (2 ^ 1002) in H.
    apply Z.pow_le_mono_r_iff in H; lia. }
  assert (Hf : fexp 53 1024 (d + e) = d + e - 53) by (unfold fexp, emin; lia).
  unfold binary_round. fold d. rewrite Hf. unfold shl_align.
  replace (d + e - 53 - e) with (d - 53) by lia.
  destruct (d - 53) as [|p|p] eqn:Hp.
  3: { (* fewer than 53 digits: shifted left, exact *)
    assert (HMs : 2 ^ 52 <= Z.pos M * 2 ^ Z.pos p < 2 ^ 53).
    { assert (2 ^ 52 = 2 ^ (d - 1) * 2 ^ Z.pos p) by (rewrite <- Z.pow_add_r by lia; f_equal; lia).
      assert (2 ^ 53 = 2 ^ d * 2 ^ Z.pos p) by (rewrite <- Z.pow_add_r by lia; f_equal; lia). nia. }
    rewrite iter_xO.
    destruct (round_aux_spec s (Z.pos M * 2 ^ Z.pos p) (d + e - 53) loc_Exact 0) as (r & _ & Hr & Hrb & ->); [lia..|].
    rewrite (Hr eq_refl (Z.mod_1_r _)), Z.div_1_r in *. rewrite Z.add_0_r. eexists (scaled (d + e - 53)), _.
    split; [apply repr_fl; lia|].
    apply (cut_close _ _ _ (Z.pos M * 2 ^ Z.pos p) 1 (scaled (d + e - 53))); [|apply scaled_pos; lia|lia|lia| |lia].
    - split; [rewrite Z.div_1_r; lia|]. rewrite Z.div_1_r. auto.
    - replace e with (d + e - 53 + Z.pos p) at 1 by lia. rewrite scaled_add by lia. lia. }
  all: destruct (round_aux_spec s (Z.pos M) e loc_Exact (d - 53)) as (r & Hr & Hex & Hrb & ->);
    [replace (52 + (d - 53)) with (d - 1) by lia; replace (53 + (d - 53)) with d by lia; lia|lia|lia|];
    exists (scaled (e + (d - 53))), (r * scaled (e + (d - 53))); (split; [apply repr_fl; lia|]);
    apply (cut_close _ _ _ (Z.pos M) (2 ^ (d - 53)) (scaled e));
      [split; [|split; [done|by apply Hex]]|done|apply Z.pow_pos_nonneg; lia|lia|done|rewrite scaled_add by lia; lia].
  all: apply Z.div_le_lower_bound; [apply Z.pow_pos_nonneg; lia|].
  all: rewrite <- Z.pow_add_r by lia; replace (d - 53 + 52) with (d - 1) by lia; lia.
Qed.

Lemma shl_align_fst m e ez : ez <= e -> Z.pos (shl_align m e ez).1 = Z.pos m * 2 ^ (e - ez).
Proof.
  intros He. unfold shl_align. destruct (ez - e) as [|p|p] eqn:E; cbn [fst]; [|lia|].
  - replace (e - ez) with 0 by lia. lia.
  - rewrite iter_xO. do 2 f_equal. lia.
Qed.

Definition signed (s : bool) (w : Z) : Z := if s then - w else w.

Lemma dadd_repr b s1 s2 x y w1 w2 :
  repr b s1 x w1 -> repr b s2 y w2 -> 0 <= b <= 446 -> 0 < signed s1 w1 + signed s2 w2 <= 4 * U ->
  exists u w, repr (b + 54) false (dadd x y) w /\ close (signed s1 w1 + signed s2 w2) 1 u w.
Proof.
  intros (m1 & e1 & Hm1 & He1 & -> & ->) (m2 & e2 & Hm2 & He2 & -> & ->) Hb HS. unfold dadd, SFadd.
  set (ez := Z.min e1 e2).
  rewrite !shl_align_fst, !Z2Pos.id by lia.
  assert (E : (cond_Zopp s1 (m1 * 2 ^ (e1 - ez)) + cond_Zopp s2 (m2 * 2 ^ (e2 - ez))) * scaled ez
            = signed s1 (m1 * scaled e1) + signed s2 (m2 * scaled e2)).
  { replace e1 with (ez + (e1 - ez)) at 2 by lia. replace e2 with (ez + (e2 - ez)) at 2 by lia.
    rewrite !scaled_add by lia. unfold cond_Zopp, signed. destruct s1, s2; lia. }
  rewrite <- E in *. set (S := cond_Zopp s1 _ + cond_Zopp s2 _) in *.
  pose proof (scaled_pos ez ltac:(lia)) as Hse.
  destruct S as [|M|M] eqn:HSe; [lia| |lia]. apply binary_round_repr; lia.
Qed.

(** ** Division of integers *)

Lemma close_unit num den u w : close num den u w -> 0 < u.
Proof. intros (_ & _ & (e & He & ->) & _). by apply scaled_pos. Qed.

(** The double quotient of two integers, truncated, is the integer quotient. *)
Lemma close_trunc A B u w : 0 < A < 2 ^ 52 -> 0 < B -> close (A * U * U) (B * U) u w -> w / U = A / B.
Proof.
  intros HA HB Hc. pose proof (close_unit _ _ _ _ Hc) as Hu. destruct Hc as (Hd & Hs & (e & He & Hue) & Hm & _).
  pose proof U_pos as HU.
  assert (HuB : u * B < U).
  { assert (2 ^ 52 * (u * B) * U < 2 ^ 52 * U * U) as H by nia. nia. }
  assert (He0 : e <= 0).
  { destruct (Z.leb_spec e 0); [done|]. assert (U < scaled e) by (apply Z.pow_lt_mono_r; lia). nia. }
  assert (HUu : U = 2 ^ (- e) * u).
  { rewrite Hue. unfold scaled, U. rewrite <- Z.pow_add_r by lia. f_equal. lia. }
  pose proof (Z.div_mod A B ltac:(lia)) as Hdm. pose proof (Z.mod_pos_bound A B HB) as Hmb.
  symmetry. apply (Z.div_unique _ _ _ (w - U * (A / B))); [left|lia].
  assert (A / B * U <= w).
  { rewrite HUu at 1. rewrite Z.mul_assoc. apply Hm. rewrite <- (Z.mul_assoc (A / B)), <- HUu.
    replace (A / B * U * (B * U)) with (B * (A / B) * (U * U)) by lia. nia. }
  assert (Hup : w * B < (A / B + 1) * U * B).
  { assert (Z.abs (w * B - A * U) * U <= u * B * U).
    { rewrite <- (Z.abs_eq U) at 2 by lia. rewrite <- Z.abs_mul.
      replace ((w * B - A * U) * U) with (w * (B * U) - A * U * U) by lia. lia. }
    assert (Z.abs (w * B - A * U) <= u * B) by nia. nia. }
  assert (w < (A / B + 1) * U) by nia. lia.
Qed.

(** Multiplication by a power of two is exact. *)
Lemma dmul_pow2 b s1 s2 x y w1 e2 :
  repr b s1 x w1 -> normal s2 y (2 ^ 52) e2 -> 0 <= b -> - 60 <= e2 <= 60 -> b + 115 <= 420 ->
  exists w, repr (b + 115) (xorb s1 s2) (dmul x y) w /\ w * U = w1 * (2 ^ 52 * scaled e2).
Proof.
  intros H1 N2 Hb0 He2 Hb. destruct (repr_normal _ _ _ _ H1 ltac:(lia)) as (m1 & e1 & N1 & He1 & ->).
  destruct (dmul_spec _ _ _ _ _ _ _ _ N1 N2) as (n & r & Hn & (Hc1 & Hc2 & Hc3) & Hr & ->).
  destruct N1 as [Hm1 _]. assert (n = 52) as ->.
  { destruct Hn as [->|E]; [done|]. exfalso. subst n. change (2 ^ 53) with (2 * 2 ^ 52) in Hc1.
    rewrite Z.div_mul_cancel_r in Hc1 by lia. assert (m1 / 2 < 2 ^ 52) by (apply Z.div_lt_upper_bound; lia). lia. }
  rewrite Z.div_mul, Z.mod_mul in * by lia. rewrite (Hc3 eq_refl) in *.
  eexists. split; [apply repr_fl; lia|].
  replace (m1 * scaled e1 * (2 ^ 52 * scaled e2)) with (m1 * 2 ^ 52 * (scaled e1 * scaled e2)) by lia.
  rewrite scaled_mul, scaled_add by lia. lia.
Qed.

Lemma d_of_pow2_normal k : 0 <= k <= 52 -> normal false (d_of_Z (2 ^ k)) (2 ^ 52) (k - 52).
Proof.
  intros Hk. assert (Hp : 0 < 2 ^ k) by (apply Z.pow_pos_nonneg; lia).
  assert (Hp53 : 2 ^ k < 2 ^ 53) by (apply Z.pow_lt_mono_r; lia).
  destruct (d_of_Z_normal (2 ^ k)) as (j & Hj & Hm & He & Hx); [lia|lia|]. rewrite Z.abs_eq in Hm, Hx by lia.
  replace (2 ^ k <? 0) with false in Hx by lia. rewrite <- Z.pow_add_r in Hm, Hx by lia.
  assert (k + j = 52) as E.
  { destruct Hm as [H1 H2]. apply Z.pow_le_mono_r_iff in H1; [|lia..]. apply Z.pow_lt_mono_r_iff in H2; lia. }
  rewrite E in Hx. split; [done|]. split; [lia|]. rewrite Hx. f_equal. lia.
Qed.

(** [a * 2^k], for integers. *)
Lemma dmul_int_pow2 a k : a <> 0 -> Z.abs a < 2 ^ 53 -> 0 <= k <= 52 ->
  repr 167 (a <? 0) (dmul (d_of_Z a) (d_of_Z (2 ^ k))) (Z.abs a * 2 ^ k * U).
Proof.
  intros Hne Ha Hk. pose proof (repr_of_Z a Hne Ha) as Hr.
  destruct (dmul_pow2 _ _ _ _ _ _ _ Hr (d_of_pow2_normal k Hk)) as (w & Hw & E); [lia..|].
  rewrite xorb_false_r in Hw. replace (Z.abs a * 2 ^ k * U) with w; [done|].
  assert (2 ^ 52 * scaled (k - 52) = 2 ^ k * U) as E2.
  { unfold scaled, U. rewrite <- !Z.pow_add_r by lia. f_equal. lia. }
  rewrite E2 in E. pose proof U_pos. apply (Z.mul_cancel_r _ _ U); [lia|]. rewrite E. lia.
Qed.

(** [(a * 2^k) / b] in double arithmetic: truncated, the integer quotient. *)
Lemma ddiv_scaled_int a k b :
  a <> 0 -> Z.abs a * 2 ^ k < 2 ^ 52 -> 0 <= k <= 52 -> 0 < b < 2 ^ 53 ->
  exists w, repr 273 (a <? 0) (ddiv (dmul (d_of_Z a) (d_of_Z (2 ^ k))) (d_of_Z b)) w /\
    w / U = (Z.abs a * 2 ^ k) / b.
Proof.
  intros Hne Hak Hk Hb. assert (0 < 2 ^ k) by (apply Z.pow_pos_nonneg; lia).
  assert (Z.abs a <= Z.abs a * 2 ^ k) by nia.
  pose proof (dmul_int_pow2 a k Hne ltac:(lia) Hk) as H1.
  pose proof (repr_of_Z b ltac:(lia) ltac:(lia)) as H2.
  replace (b <? 0) with false in H2 by lia. rewrite (Z.abs_eq b) in H2 by lia.
  destruct (ddiv_repr _ _ _ _ _ _ _ _ H1 H2) as (u & w & Hw & Hc); [lia..|]. rewrite xorb_false_r in Hw.
  exists w. split; [done|]. apply (close_trunc _ _ u); [nia|lia|done].
Qed.

(** The same with the truncation, and of zero. *)
Lemma ddiv_scaled_trunc a k b :
  Z.abs a * 2 ^ k < 2 ^ 52 -> 0 <= k <= 52 -> 0 < b < 2 ^ 53 ->
  d_trunc (ddiv (dmul (d_of_Z a) (d_of_Z (2 ^ k))) (d_of_Z b)) = Some (Z.quot (a * 2 ^ k) b).
Proof.
  intros Hak Hk Hb. assert (Hp : 0 < 2 ^ k) by (apply Z.pow_pos_nonneg; lia).
  destruct (decide (a = 0)) as [->|Hne].
  - destruct (d_of_pow2_normal k Hk) as (_ & _ & ->).
    destruct (d_of_Z_normal b ltac:(lia) ltac:(lia)) as (j & _ & _ & _ & ->). done.
  - destruct (ddiv_scaled_int a k b Hne Hak Hk Hb) as (w & Hw & E).
    destruct (Z.ltb_spec a 0).
    + rewrite (repr_trunc_neg _ _ _ Hw), E by lia. rewrite Z.abs_neq by lia. f_equal.
      replace (a * 2 ^ k) with (- (- a * 2 ^ k)) by lia. by rewrite Z.quot_opp_l, Z.quot_div_nonneg by lia.
    + rewrite (repr_trunc _ _ _ Hw), E by lia. rewrite Z.abs_eq by lia. f_equal. by rewrite Z.quot_div_nonneg by lia.
Qed.

(** Multiplied by -1. *)
Lemma dmul_minus_one b s x w : repr b s x w -> 0 <= b <= 300 ->
  repr (b + 115) (negb s) (dmul x (d_of_Z (-1))) w.
Proof.
  intros H Hb. assert (N : normal true (d_of_Z (-1)) (2 ^ 52) (-52)) by (split; [lia|split; [lia|vm_compute; reflexivity]]).
  destruct (dmul_pow2 _ _ _ _ _ _ _ H N) as (w' & Hw & E); [lia..|]. rewrite xorb_true_r in Hw.
  replace w with w'; [done|]. pose proof U_pos.
  assert (2 ^ 52 * scaled (-52) = U) as E2 by (unfold scaled, U; rewrite <- Z.pow_add_r by lia; f_equal; lia).
  rewrite E2 in E. apply (Z.mul_cancel_r _ _ U); lia.
Qed.

(** ** Clock corrections *)

Lemma triangle_ppm val p M t u s0 s u' f u'' W :
  0 < val < 2 ^ 32 -> M = 1000000 -> 0 < W ->
  Z.abs (t * M - p * W) <= u * M -> Z.abs (s - s0) <= u' -> Z.abs (f - val * s) <= u'' ->
  s0 = W + t -> 2 ^ 52 * u <= W -> 2 ^ 52 * u' <= 3 * W -> 2 ^ 52 * u'' <= val * (4 * W) ->
  0 <= u -> 0 <= u' -> 0 <= u'' ->
  Z.abs (f * M - val * (M + p) * W) <= 8 * W.
Proof.
  intros Hv HM HW Ht Hs Hf -> Hu Hu' Hu'' Pu Pu' Pu''. subst M.
  replace (f * 1000000 - val * (1000000 + p) * W)
    with ((f - val * s) * 1000000 + (val * (s - (W + t)) * 1000000 + val * (t * 1000000 - p * W))) by lia.
  assert (Z.abs (val * (s - (W + t))) <= 2 ^ 32 * u') by (rewrite Z.abs_mul, (Z.abs_eq val) by lia; apply Z.mul_le_mono_nonneg; lia).
  assert (Z.abs (val * (t * 1000000 - p * W)) <= 2 ^ 32 * (u * 1000000)) by (rewrite Z.abs_mul, (Z.abs_eq val) by lia; apply Z.mul_le_mono_nonneg; lia).
  assert (val * (4 * W) <= 2 ^ 32 * (4 * W)) by (apply Z.mul_le_mono_nonneg_r; lia).
  lia.
Qed.

(** (val) * (1.0 + (ppm) / 1e6) *)
(* src/librtlsdr.c:778-778 APPLY_PPM_CORR *)
Definition APPLY_PPM_CORR (val ppm : Z) : double :=
  dmul (d_of_Z val) (dadd (d_of_Z 1) (ddiv (d_of_Z ppm) (d_of_Z 1000000))).

Lemma repr_one : repr 52 false (d_of_Z 1) U.
Proof. pose proof (repr_of_Z 1 ltac:(lia) ltac:(lia)) as H. by rewrite Z.mul_1_l in H. Qed.

(** 1.0 + ppm / 1e6 *)
Lemma ppm_factor ppm : ppm <> 0 -> Z.abs ppm < 1000000 ->
  exists t u s u', repr 212 false (dadd (d_of_Z 1) (ddiv (d_of_Z ppm) (d_of_Z 1000000))) s /\
    Z.abs (t * 1000000 - ppm * U) <= u * 1000000 /\ 2 ^ 52 * u <= U /\ 0 <= u /\
    Z.abs (s - (U + t)) <= u' /\ 2 ^ 52 * u' <= 3 * U /\ 0 <= u' /\ 0 < s <= 4 * U.
Proof.
  intros Hne Hppm. pose proof U_pos as HU.
  pose proof (repr_of_Z ppm Hne ltac:(lia)) as H1. pose proof (repr_of_Z 1000000 ltac:(lia) ltac:(lia)) as H2.
  destruct (ddiv_repr _ _ _ _ _ _ _ _ H1 H2) as (u & w & Hw & Hc); [lia..|].
  pose proof (close_unit _ _ _ _ Hc) as Hu0. destruct Hc as (Hd & Hs & _ & _ & _).
  replace (1000000 <? 0) with false in Hw by lia. rewrite xorb_false_r in Hw. rewrite (Z.abs_eq 1000000) in * by lia.
  assert (HdU : Z.abs (w * 1000000 - Z.abs ppm * U) <= u * 1000000).
  { assert (Z.abs (w * 1000000 - Z.abs ppm * U) * U <= u * 1000000 * U); [|nia].
    rewrite <- (Z.abs_eq U) at 2 by lia. rewrite <- Z.abs_mul.
    replace ((w * 1000000 - Z.abs ppm * U) * U) with (w * (1000000 * U) - Z.abs ppm * U * U) by lia. lia. }
  assert (HuU : 2 ^ 52 * u * 1000000 <= Z.abs ppm * U) by nia.
  pose proof (repr_pos _ _ _ _ Hw ltac:(lia)) as Hwpos.
  set (t := signed (ppm <? 0) w).
  assert (Ht : Z.abs (t * 1000000 - ppm * U) <= u * 1000000)
    by (unfold t, signed; destruct (Z.ltb_spec ppm 0); lia).
  assert (Hpb : - (999999 * U) <= ppm * U <= 999999 * U) by nia.
  assert (Hpa : Z.abs ppm * U <= 999999 * U) by nia.
  assert (Hone : repr 158 false (d_of_Z 1) U).
  { destruct repr_one as (m & e & Hm & He & Hx). exists m, e. split; [done|]. split; [lia|done]. }
  destruct (dadd_repr 158 false (ppm <? 0) _ _ U w Hone Hw) as (u' & s & Hs' & Hc'); [lia|cbn [signed]; fold t|].
  { lia. }
  cbn [signed] in Hc'. fold t in Hc'. pose proof (close_unit _ _ _ _ Hc') as Hu0'. destruct Hc' as (Hd' & Hsu' & _ & _ & _).
  exists t, u, s, u'. split; [exact Hs'|]. pose proof (repr_pos _ _ _ _ Hs' ltac:(lia)). split_and!; lia.
Qed.

(** The corrected value is exact to 8 / 1e6. *)
Lemma apply_ppm_close val ppm : 0 < val < 2 ^ 32 -> Z.abs ppm < 1000000 ->
  exists w, repr 318 false (APPLY_PPM_CORR val ppm) w /\
    Z.abs (w * 1000000 - val * (1000000 + ppm) * U) <= 8 * U /\ (ppm = 0 -> w = val * U).
Proof.
  intros Hv Hppm. unfold APPLY_PPM_CORR. pose proof U_pos as HU.
  pose proof (repr_of_Z val ltac:(lia) ltac:(lia)) as Hval.
  replace (val <? 0) with false in Hval by lia. rewrite Z.abs_eq in Hval by lia.
  destruct (decide (ppm = 0)) as [->|Hne].
  - replace (dadd (d_of_Z 1) (ddiv (d_of_Z 0) (d_of_Z 1000000))) with (d_of_Z (2 ^ 0)) by (vm_compute; reflexivity).
    pose proof (dmul_int_pow2 val 0 ltac:(lia) ltac:(lia) ltac:(lia)) as Hp.
    rewrite Z.mul_1_r, Z.abs_eq in Hp by lia. replace (val <? 0) with false in Hp by lia.
    exists (val * U). split; [|split; [lia|done]].
    destruct Hp as (m & e & Hm & He & Hx). exists m, e. split; [done|]. split; [lia|done].
  - destruct (ppm_factor ppm Hne Hppm) as (t & u & s & u' & Hs & Ht & Hu & Pu & Hs' & Hu' & Pu' & Hsb).
    destruct (dmul_repr _ _ _ _ _ _ _ _ Hval Hs) as (u'' & f & Hf & Hc); [lia..|].
    pose proof (close_unit _ _ _ _ Hc) as Pu''. destruct Hc as (Hd & Hsu & _ & _ & _).
    exists f. split; [exact Hf|]. split; [|done].
    assert (Hfd : Z.abs (f - val * s) <= u'').
    { apply (Z.mul_le_mono_pos_r _ _ U HU). rewrite <- (Z.abs_eq U) at 1 by lia. rewrite <- Z.abs_mul.
      replace ((f - val * s) * U) with (f * U - val * U * s) by lia. exact Hd. }
    assert (Hfu : 2 ^ 52 * u'' <= val * (4 * U)).
    { apply (Z.le_trans _ (val * s)); [|apply Z.mul_le_mono_nonneg_l; lia].
      apply (Z.mul_le_mono_pos_r _ _ U HU). lia. }
    exact (triangle_ppm val ppm 1000000 t u (U + t) s u' f u'' U Hv eq_refl HU Ht Hs' Hfd eq_refl
             Hu Hu' Hfu Pu Pu' (Z.lt_le_incl _ _ Pu'')).
Qed.

Lemma d_to_u32_trunc oor x z : d_trunc x = Some z -> is_u32 z -> d_to_u32 oor x = z.
Proof. unfold d_to_u32. intros -> Hz. by rewrite decide_True. Qed.

(** The corrected clock: exact without a correction, else the exact product
    rounded down, to within 8e-6 Hz. *)
Lemma ppm_corr_accurate oor val ppm :
  0 < val < 2 ^ 32 -> Z.abs ppm < 1000000 -> val * (1000000 + ppm) + 8 < 2 ^ 32 * 1000000 ->
  let r := d_to_u32 oor (APPLY_PPM_CORR val ppm) in
  is_u32 r /\ -8 <= val * (1000000 + ppm) - 1000000 * r < 1000000 + 8 /\ (ppm = 0 -> r = val).
Proof.
  intros Hv Hppm Hr. cbv zeta. destruct (apply_ppm_close val ppm Hv Hppm) as (w & Hw & Hc & H0).
  pose proof (repr_trunc _ _ _ Hw ltac:(lia)) as Ht. pose proof (repr_pos _ _ _ _ Hw ltac:(lia)) as Hp.
  pose proof U_pos as HU. pose proof (Z.div_mod w U ltac:(lia)) as Hdm. pose proof (Z.mod_pos_bound w U HU).
  set (q := w / U) in *.
  assert (Hq : -8 <= val * (1000000 + ppm) - 1000000 * q < 1000000 + 8) by nia.
  assert (0 <= q) by (apply Z.div_pos; lia).
  rewrite (d_to_u32_trunc _ _ q) by (try done; unfold is_u32; lia). split; [unfold is_u32; lia|]. split; [done|].
  intros E. unfold q. rewrite (H0 E), Z.div_mul by lia. done.
Qed.
