(* ===== verification/Usb.v ===== *)
(** * librtlsdr.c: USB control transfers and the registers behind them

    The lowest layer of the library: vendor control transfers to the RTL2832U
    (rtlsdr_read_array ... rtlsdr_init_baseband of src/librtlsdr.c).  libusb and
    the dongle are the environment [usb_env]: the result of a transfer and the
    bytes that arrive are functions of the transfers made before and of the
    request, and can be any.  Every transfer is recorded in the log. *)

From S2P Require Import Prelude RtlsdrI2c Double.

(** ** The environment *)

(** A transfer with its [wValue], its [wIndex], the bytes sent or the contents
    of the buffer afterwards, and the result.  [UsbReset] is
    libusb_reset_device. *)
Inductive usb_event : Type :=
  | CtrlOut (value index : Z) (data : list Z) (rc : Z)
  | CtrlIn (value index : Z) (data : list Z) (rc : Z)
  | UsbReset.

#[export] Instance usb_event_eq_dec : EqDecision usb_event.
Proof. solve_decision. Defined.

Inductive usb_request : Type :=
  | ReqOut (value index : Z) (data : list Z)
  | ReqIn (value index len : Z).

(** libusb and the device, by the history and the request: the result of a
    transfer; byte [i] of an IN transfer, when it arrived; the value an
    uninitialised byte of a buffer has; and what a conversion of a double out
    of the range of the integer type gives. *)
Record usb_env : Type := mk_env {
  env_rc : list usb_event -> usb_request -> Z;
  env_in : list usb_event -> usb_request -> nat -> option Z;
  env_junk : list usb_event -> nat -> Z;
  env_oor : double -> Z;
}.

(** The fields of [struct rtlsdr_dev] that the layers below the device API
    use, and libusb. *)
(* src/librtlsdr.c:95-132 rtlsdr_dev *)
Record core : Type := mk_core {
  env : usb_env;
  usb_log : list usb_event;
  rtl_xtal : Z;
  tun_xtal : Z;
  corr : Z;
  fir : list Z;
  manufact : string;
  product : string;
}.

Definition set_usb_log (v : list usb_event) (c : core) : core :=
  mk_core (env c) v (rtl_xtal c) (tun_xtal c) (corr c) (fir c) (manufact c) (product c).
Definition set_rtl_xtal (v : Z) (c : core) : core :=
  mk_core (env c) (usb_log c) v (tun_xtal c) (corr c) (fir c) (manufact c) (product c).
Definition set_tun_xtal (v : Z) (c : core) : core :=
  mk_core (env c) (usb_log c) (rtl_xtal c) v (corr c) (fir c) (manufact c) (product c).
Definition set_corr (v : Z) (c : core) : core :=
  mk_core (env c) (usb_log c) (rtl_xtal c) (tun_xtal c) v (fir c) (manufact c) (product c).
Definition set_strings (m p : string) (c : core) : core :=
  mk_core (env c) (usb_log c) (rtl_xtal c) (tun_xtal c) (corr c) (fir c) m p.

(** libusb_control_transfer with CTRL_OUT: [len] bytes from [array]. *)
Definition control_out (value index : Z) (array : list Z) (len : Z) : M core Z := fun c =>
  if Z.of_nat (length array) <? len then None
  else
    let data := take (Z.to_nat len) array in
    let rc := i32 (env_rc (env c) (usb_log c) (ReqOut value index data)) in
    Some (rc, set_usb_log (usb_log c ++ [CtrlOut value index data rc]) c).

(** The bytes of a buffer after an IN transfer: those that arrived, and the
    old contents. *)
Definition received (arrived : nat -> option Z) (buf : list Z) : list Z :=
  imap (fun i old => match arrived i with Some b => u8 b | None => old end) buf.

(** libusb_control_transfer with CTRL_IN: [len] bytes to [array]. *)
Definition control_in (value index : Z) (array : list Z) (len : Z) : M core (Z * list Z) := fun c =>
  if Z.of_nat (length array) <? len then None
  else
    let req := ReqIn value index len in
    let rc := i32 (env_rc (env c) (usb_log c) req) in
    let data := received (env_in (env c) (usb_log c) req) (take (Z.to_nat len) array) in
    Some ((rc, data ++ drop (Z.to_nat len) array),
          set_usb_log (usb_log c ++ [CtrlIn value index data rc]) c).

(** A local array that is not initialised. *)
Definition uninit (n : nat) : M core (list Z) := fun c =>
  Some (map (fun i => u8 (env_junk (env c) (usb_log c) i)) (seq 0 n), c).

(** ** Register access *)

(* src/librtlsdr.c:404-412 blocks *)
Definition DEMODB := 0.
Definition USBB := 1.
Definition SYSB := 2.
Definition TUNB := 3.
Definition ROMB := 4.
Definition IRB := 5.
Definition IICB := 6.

(* src/librtlsdr.c:377-386 usb_reg *)
Definition USB_SYSCTL := 0x2000.
Definition USB_EPA_CTL := 0x2148.
Definition USB_EPA_MAXPKT := 0x2158.

(* src/librtlsdr.c:388-402 sys_reg *)
Definition DEMOD_CTL := 0x3000.
Definition GPO := 0x3001.
Definition GPOE := 0x3003.
Definition GPD := 0x3004.
Definition DEMOD_CTL_1 := 0x300b.

Definition EEPROM_ADDR := 0xa0.
Definition EEPROM_SIZE := 256.

(* src/librtlsdr.c: rtlsdr_read_array *)
Definition rtlsdr_read_array (block addr : Z) (array : list Z) (len : Z) : M core (Z * list Z) :=
  let index := u16 (block ≪ 8) in
  control_in addr index array len.

(* src/librtlsdr.c: rtlsdr_write_array *)
Definition rtlsdr_write_array (block addr : Z) (array : list Z) (len : Z) : M core Z :=
  let index := u16 ((block ≪ 8) .| 0x10) in
  control_out addr index array len.

(* src/librtlsdr.c: rtlsdr_i2c_write_reg *)
Definition rtlsdr_i2c_write_reg (i2c_addr reg val : Z) : M core Z :=
  rtlsdr_write_array IICB i2c_addr [reg; val] 2.

(* src/librtlsdr.c: rtlsdr_i2c_read_reg *)
Definition rtlsdr_i2c_read_reg (i2c_addr reg : Z) : M core Z :=
  rtlsdr_write_array IICB i2c_addr [reg] 1;;
  p ← rtlsdr_read_array IICB i2c_addr [0] 1;
  from_option_trap (head p.2).

(** The [len] of a transfer is an [uint8_t]. *)
(* src/librtlsdr.c: rtlsdr_i2c_write *)
Definition rtlsdr_i2c_write (i2c_addr : Z) (buffer : list Z) (len : Z) : M core Z :=
  rtlsdr_write_array IICB i2c_addr buffer (u8 len).

(* src/librtlsdr.c: rtlsdr_i2c_read *)
Definition rtlsdr_i2c_read (i2c_addr : Z) (buffer : list Z) (len : Z) : M core (Z * list Z) :=
  rtlsdr_read_array IICB i2c_addr buffer (u8 len).

(** [data[0]] and [data[1]] as a register value. *)
Definition reg_of (data : list Z) : option Z :=
  match data with d0 :: d1 :: _ => Some (u16 ((d1 ≪ 8) .| d0)) | _ => None end.

(** The bytes of a register value, most significant first. *)
Definition reg_bytes (val len : Z) : list Z :=
  [if len =? 1 then val .& 0xff else u8 (val ≫ 8); val .& 0xff].

(* src/librtlsdr.c: rtlsdr_read_reg *)
Definition rtlsdr_read_reg (block addr len : Z) : M core Z :=
  let index := u16 (block ≪ 8) in
  data ← uninit 2;
  p ← control_in addr index data len;
  from_option_trap (reg_of p.2).

(* src/librtlsdr.c: rtlsdr_write_reg *)
Definition rtlsdr_write_reg (block addr val len : Z) : M core Z :=
  let index := u16 ((block ≪ 8) .| 0x10) in
  control_out addr index (reg_bytes val len) len.

(* src/librtlsdr.c: rtlsdr_demod_read_reg *)
Definition rtlsdr_demod_read_reg (page addr len : Z) : M core Z :=
  let index := page in
  let addr := u16 ((addr ≪ 8) .| 0x20) in
  data ← uninit 2;
  p ← control_in addr index data len;
  from_option_trap (reg_of p.2).

(* src/librtlsdr.c: rtlsdr_demod_write_reg *)
Definition rtlsdr_demod_write_reg (page addr val len : Z) : M core Z :=
  let index := 0x10 .| page in
  let addr := u16 ((addr ≪ 8) .| 0x20) in
  r ← control_out addr index (reg_bytes val len) len;
  rtlsdr_demod_read_reg 0x0a 0x01 1;;
  mret (if r =? len then 0 else -1).

(** ** GPIO, repeater, FIR filter, baseband *)

(** [1 << n] on int: no value from the width on. *)
Definition shl1 (n : Z) : M core Z := if n <? 32 then mret (u8 (1 ≪ n)) else trap.

(* src/librtlsdr.c: rtlsdr_set_gpio_bit *)
Definition rtlsdr_set_gpio_bit (gpio val : Z) : M core unit :=
  gpio ← shl1 gpio;
  r ← rtlsdr_read_reg SYSB GPO 1;
  let r := if truthy val then r .| gpio else r .& ~~ gpio in
  rtlsdr_write_reg SYSB GPO (u16 r) 1;; mret tt.

(* src/librtlsdr.c: rtlsdr_set_gpio_output *)
Definition rtlsdr_set_gpio_output (gpio : Z) : M core unit :=
  gpio ← shl1 gpio;
  r ← rtlsdr_read_reg SYSB GPD 1;
  rtlsdr_write_reg SYSB GPD (u16 (r .& ~~ gpio)) 1;;
  r ← rtlsdr_read_reg SYSB GPOE 1;
  rtlsdr_write_reg SYSB GPOE (u16 (r .| gpio)) 1;; mret tt.

(* src/librtlsdr.c: rtlsdr_set_i2c_repeater *)
Definition rtlsdr_set_i2c_repeater (on : Z) : M core unit :=
  rtlsdr_demod_write_reg 1 0x01 (if truthy on then 0x18 else 0x10) 1;; mret tt.

Definition FIR_LEN := 16.

(* src/librtlsdr.c: fir_default *)
Definition fir_default : list Z :=
  [-54; -36; -41; -40; -32; -14; 14; 53;
   101; 156; 215; 273; 327; 372; 404; 421].

(** format: int8_t[8] *)
(* src/librtlsdr.c:595-601 rtlsdr_set_fir *)
Fixpoint fir_pack8 (vals : list Z) : option (list Z) :=
  match vals with
  | [] => Some []
  | val :: vals' =>
      if (val <? -128) || (127 <? val) then None
      else rest ← fir_pack8 vals'; Some (u8 val :: rest)
  end.

(** format: int12_t[8] *)
(* src/librtlsdr.c:603-612 rtlsdr_set_fir *)
Fixpoint fir_pack12 (vals : list Z) : option (list Z) :=
  match vals with
  | val0 :: val1 :: vals' =>
      if (val0 <? -2048) || (2047 <? val0) || (val1 <? -2048) || (2047 <? val1) then None
      else rest ← fir_pack12 vals';
        Some (u8 (val0 ≫ 4) :: u8 ((val0 ≪ 4) .| ((val1 ≫ 8) .& 0x0f)) :: u8 val1 :: rest)
  | _ => Some []
  end.

(** The 20 bytes. *)
Definition fir_pack (coeffs : list Z) : option (list Z) :=
  a ← fir_pack8 (take 8 coeffs); b ← fir_pack12 (drop 8 coeffs); Some (a ++ b).

(** [for (i ...) if (write(0x1c + i, fir[i])) return -1;] *)
(* src/librtlsdr.c:614-617 rtlsdr_set_fir *)
Fixpoint fir_write (i : Z) (bytes : list Z) : M core Z :=
  match bytes with
  | [] => mret 0
  | b :: bytes' =>
      r ← rtlsdr_demod_write_reg 1 (0x1c + i) b 1;
      if truthy r then mret (-1) else fir_write (i + 1) bytes'
  end.

(* src/librtlsdr.c: rtlsdr_set_fir *)
Definition rtlsdr_set_fir : M core Z :=
  coeffs ← gets fir;
  match fir_pack coeffs with
  | None => mret (-1)
  | Some bytes => fir_write 0 bytes
  end.

(* src/librtlsdr.c: rtlsdr_init_baseband *)
Definition rtlsdr_init_baseband : M core unit :=
  (* initialize USB *)
  rtlsdr_write_reg USBB USB_SYSCTL 0x09 1;;
  rtlsdr_write_reg USBB USB_EPA_MAXPKT 0x0002 2;;
  rtlsdr_write_reg USBB USB_EPA_CTL 0x1002 2;;
  (* poweron demod *)
  rtlsdr_write_reg SYSB DEMOD_CTL_1 0x22 1;;
  rtlsdr_write_reg SYSB DEMOD_CTL 0xe8 1;;
  (* reset demod (bit 3, soft_rst) *)
  rtlsdr_demod_write_reg 1 0x01 0x14 1;;
  rtlsdr_demod_write_reg 1 0x01 0x10 1;;
  (* disable spectrum inversion and adjacent channel rejection *)
  rtlsdr_demod_write_reg 1 0x15 0x00 1;;
  rtlsdr_demod_write_reg 1 0x16 0x0000 2;;
  (* clear both DDC shift and IF frequency registers *)
  for_each (zseq 6) (fun i => rtlsdr_demod_write_reg 1 (0x16 + i) 0x00 1;; mret tt);;
  rtlsdr_set_fir;;
  (* enable SDR mode, disable DAGC (bit 5) *)
  rtlsdr_demod_write_reg 0 0x19 0x05 1;;
  (* init FSM state-holding register *)
  rtlsdr_demod_write_reg 1 0x93 0xf0 1;;
  rtlsdr_demod_write_reg 1 0x94 0x0f 1;;
  (* disable AGC (en_dagc, bit 0) *)
  rtlsdr_demod_write_reg 1 0x11 0x00 1;;
  (* disable RF and IF AGC loop *)
  rtlsdr_demod_write_reg 1 0x04 0x00 1;;
  (* disable PID filter (enable_PID = 0) *)
  rtlsdr_demod_write_reg 0 0x61 0x60 1;;
  (* opt_adc_iq = 0, default ADC_I/ADC_Q datapath *)
  rtlsdr_demod_write_reg 0 0x06 0x80 1;;
  (* zero-IF mode, DC cancellation, IQ estimation/compensation *)
  rtlsdr_demod_write_reg 1 0xb1 0x1b 1;;
  (* disable 4.096 MHz clock output on pin TP_CK0 *)
  rtlsdr_demod_write_reg 0 0x0d 0x83 1;; mret tt.

(** ** EEPROM *)

(** The loop, at index [i]; [cmd1] is what cmd[1] holds. *)
(* src/librtlsdr.c:842-864 rtlsdr_write_eeprom *)
Fixpoint write_eeprom_loop (data : list Z) (offset i cmd1 : Z) : M core Z :=
  match data with
  | [] => mret 0
  | b :: data' =>
      let cmd0 := u8 (i + offset) in
      rtlsdr_write_array IICB EEPROM_ADDR [cmd0] 1;;
      p ← rtlsdr_read_array IICB EEPROM_ADDR [cmd1] 1;
      cmd1 ← from_option_trap (head p.2);
      (* only write the byte if it differs *)
      if cmd1 =? b then write_eeprom_loop data' offset (i + 1) cmd1
      else
        r ← rtlsdr_write_array IICB EEPROM_ADDR [cmd0; b] 2;
        if r =? 2 then write_eeprom_loop data' offset (i + 1) b else mret (-3)
  end.

(* src/librtlsdr.c: rtlsdr_write_eeprom *)
Definition rtlsdr_write_eeprom (data : list Z) (offset len : Z) : M core Z :=
  if 256 <? len + offset then mret (-2)
  else if Z.of_nat (length data) <? len then trap
  else
    cmd ← uninit 2;
    cmd1 ← from_option_trap (cmd !! 1%nat);
    write_eeprom_loop (take (Z.to_nat len) data) offset 0 cmd1.

(** The loop: the bytes of [data] one by one. *)
(* src/librtlsdr.c:883-888 rtlsdr_read_eeprom *)
Fixpoint read_eeprom_loop (data : list Z) (r : Z) : M core (Z * list Z) :=
  match data with
  | [] => mret (r, [])
  | b :: data' =>
      p ← rtlsdr_read_array IICB EEPROM_ADDR [b] 1;
      b' ← from_option_trap (head p.2);
      if p.1 <? 0 then mret (-3, b' :: data')
      else
        q ← read_eeprom_loop data' p.1;
        mret (q.1, b' :: q.2)
  end.

(* src/librtlsdr.c: rtlsdr_read_eeprom *)
Definition rtlsdr_read_eeprom (data : list Z) (offset len : Z) : M core (Z * list Z) :=
  if 256 <? len + offset then mret (-2, data)
  else if Z.of_nat (length data) <? len then trap
  else
    r ← rtlsdr_write_array IICB EEPROM_ADDR [offset] 1;
    if r <? 0 then mret (-3, data)
    else
      p ← read_eeprom_loop (take (Z.to_nat len) data) r;
      mret (p.1, p.2 ++ drop (Z.to_nat len) data).
