(* ===== verification/UsbSpec.v ===== *)
(** * librtlsdr.c: what the register layer puts on the bus

    The demodulator seen through the log: [demod_regs] are the values last
    sent to its registers, [usb_acked] says that every control transfer that
    writes was accepted in full.  Each register access is one step of the log;
    the claims are about the GPIO lines, the FIR coefficients and the power-on
    table. *)

From S2P Require Import Prelude RtlsdrI2c Usb.

(** ** The demodulator *)

Definition demod_reg : Type := Z * Z.

Fixpoint write_page (m : gmap (Z * Z) Z) (page addr : Z) (data : list Z) : gmap (Z * Z) Z :=
  match data with
  | [] => m
  | v :: data' => write_page (<[(page, addr) := v]> m) page (addr + 1) data'
  end.

(** Pages 0 and 1 of the demodulator are written with index 0x10 and 0x11. *)
Definition demod_apply (m : gmap (Z * Z) Z) (ev : usb_event) : gmap (Z * Z) Z :=
  match ev with
  | CtrlOut value index data _ =>
      if (index ≫ 4 =? 1) && (value .& 0xff =? 0x20) then write_page m (index .& 0xf) (value ≫ 8) data else m
  | _ => m
  end.

Definition demod_regs (log : list usb_event) : gmap (Z * Z) Z := fold_left demod_apply log ∅.

Definition usb_ev_acked (ev : usb_event) : bool :=
  match ev with CtrlOut _ _ data rc => rc =? Z.of_nat (length data) | _ => true end.

Definition usb_acked (log : list usb_event) : Prop := Forall (fun ev => usb_ev_acked ev = true) log.

#[export] Instance usb_acked_dec log : Decision (usb_acked log).
Proof. unfold usb_acked. apply _. Defined.

Lemma demod_regs_app l1 l2 : demod_regs (l1 ++ l2) = fold_left demod_apply l2 (demod_regs l1).
Proof. unfold demod_regs. by rewrite fold_left_app. Qed.

Lemma usb_acked_app l1 l2 : usb_acked (l1 ++ l2) <-> usb_acked l1 /\ usb_acked l2.
Proof. unfold usb_acked. by rewrite Forall_app. Qed.

(** [c'] is [c] after the transfers [evs]. *)
Definition after (c : core) (evs : list usb_event) (c' : core) : Prop :=
  c' = set_usb_log (usb_log c ++ evs) c.

Lemma after_nil c : after c [] c.
Proof. unfold after. rewrite app_nil_r. by destruct c. Qed.

Lemma after_app c1 e1 c2 e2 c3 : after c1 e1 c2 -> after c2 e2 c3 -> after c1 (e1 ++ e2) c3.
Proof. unfold after. intros -> ->. cbn. by rewrite app_assoc. Qed.

Lemma after_log c evs c' : after c evs c' -> usb_log c' = usb_log c ++ evs.
Proof. by intros ->. Qed.

(** Only transfers happened. *)
Definition ext (c c' : core) : Prop := exists evs, after c evs c'.

#[export] Instance ext_preorder : PreOrder ext.
Proof.
  split.
  - intros c. exists []. apply after_nil.
  - intros c1 c2 c3 [e1 H1] [e2 H2]. exists (e1 ++ e2). exact (after_app _ _ _ _ _ H1 H2).
Qed.

Lemma after_ext c evs c' : after c evs c' -> ext c c'.
Proof. by exists evs. Qed.

(** ** Each access *)

Lemma control_out_wp value index array len c :
  len <= Z.of_nat (length array) ->
  wp (control_out value index array len)
    (fun rc c' => after c [CtrlOut value index (take (Z.to_nat len) array) rc] c') c.
Proof.
  intros Hlen. unfold wp, control_out. by replace (Z.of_nat (length array) <? len) with false by lia.
Qed.

Lemma received_u8 f buf : Forall is_u8 buf -> Forall is_u8 (received f buf).
Proof.
  intros Hb. apply Forall_lookup. intros i x. unfold received. rewrite list_lookup_imap.
  destruct (buf !! i) as [old|] eqn:E; [|done]. cbn. intros [= <-].
  destruct (f i); [apply u8_range|]. by apply (Forall_lookup_1 _ _ _ _ Hb E).
Qed.

Lemma control_in_wp value index array len c :
  0 <= len <= Z.of_nat (length array) -> Forall is_u8 array ->
  wp (control_in value index array len)
    (fun p c' => exists data, after c [CtrlIn value index data p.1] c' /\
       Z.of_nat (length data) = len /\ Forall is_u8 data /\ p.2 = data ++ drop (Z.to_nat len) array) c.
Proof.
  intros Hlen Hu8. unfold wp, control_in. replace (Z.of_nat (length array) <? len) with false by lia.
  cbn. eexists. split; [done|]. split; [|split; [|done]].
  - unfold received. rewrite length_imap, length_take. lia.
  - by apply received_u8, Forall_take.
Qed.

Lemma uninit_wp n c :
  wp (uninit n) (fun data c' => c' = c /\ length data = n /\ Forall is_u8 data) c.
Proof.
  unfold wp, uninit. split; [done|]. split; [by rewrite length_map, length_seq|].
  apply Forall_map, Forall_true. intros. apply u8_range.
Qed.

Lemma read_reg_wp block addr c :
  wp (rtlsdr_read_reg block addr 1)
    (fun r c' => exists d0 d1 rc, after c [CtrlIn addr (u16 (block ≪ 8)) [d0] rc] c' /\
       is_u8 d0 /\ is_u8 d1 /\ r = u16 ((d1 ≪ 8) .| d0)) c.
Proof.
  unfold rtlsdr_read_reg. wp_step. eapply wp_mono; [|apply uninit_wp].
  intros [|a [|b [|??]]] ? (-> & Hl & Hu); try done. wp_step.
  eapply wp_mono; [|apply control_in_wp; [cbn; lia|done]].
  intros [rc buf] c' (data & Ha & Hd & Hdu & ->). cbn [fst snd] in *.
  destruct data as [|d0 [|??]]; cbn [length] in Hd; try lia.
  cbn. eexists d0, b, rc. split; [done|]. inversion Hdu. inversion Hu as [|? ? ? Hu']. by inversion Hu'.
Qed.

Lemma write_reg1_wp block addr val c :
  wp (rtlsdr_write_reg block addr val 1)
    (fun rc c' => after c [CtrlOut addr (u16 ((block ≪ 8) .| 0x10)) [val .& 0xff] rc] c') c.
Proof. unfold rtlsdr_write_reg. cbv zeta. eapply wp_mono, control_out_wp; [done|cbn; lia]. Qed.

Lemma write_reg2_wp block addr val c :
  wp (rtlsdr_write_reg block addr val 2)
    (fun rc c' => after c [CtrlOut addr (u16 ((block ≪ 8) .| 0x10)) [u8 (val ≫ 8); val .& 0xff] rc] c') c.
Proof. unfold rtlsdr_write_reg. cbv zeta. eapply wp_mono, control_out_wp; [done|cbn; lia]. Qed.

(** The dummy read after a write to the demodulator. *)
Lemma demod_read_wp c :
  wp (rtlsdr_demod_read_reg 0x0a 0x01 1)
    (fun _ c' => exists d rc, after c [CtrlIn 0x120 0x0a [d] rc] c') c.
Proof.
  unfold rtlsdr_demod_read_reg. wp_step. eapply wp_mono; [|apply uninit_wp].
  intros [|a [|b [|??]]] ? (-> & Hl & Hu); try done. wp_step.
  eapply wp_mono; [|apply control_in_wp; [cbn; lia|done]].
  intros [rc buf] c' (data & Ha & Hd & Hdu & ->). cbn [fst snd] in *.
  destruct data as [|d0 [|??]]; cbn [length] in Hd; try lia.
  cbn. by exists d0, rc.
Qed.

Definition demod_page (page : Z) : Prop := page = 0 \/ page = 1.

#[export] Instance demod_page_dec page : Decision (demod_page page).
Proof. unfold demod_page. apply _. Defined.

(** The bytes sent for a register of [len] bytes. *)
Definition sent_bytes (val len : Z) : list Z := take (Z.to_nat len) (reg_bytes val len).

Lemma land_0xff x : x .& 0xff = u8 x.
Proof. change 0xff with (Z.ones 8). by rewrite Z.land_ones. Qed.

Lemma sent_bytes1 v : is_u8 v -> sent_bytes v 1 = [v].
Proof. intros Hv. unfold sent_bytes, reg_bytes. rewrite land_0xff, u8_small by done. done. Qed.

Lemma demod_value_bits addr : is_u8 addr ->
  let v := u16 ((addr ≪ 8) .| 0x20) in v .& 0xff = 0x20 /\ v ≫ 8 = addr.
Proof.
  intros Ha. cbv zeta.
  assert (forallb (fun a => (u16 ((a ≪ 8) .| 0x20) .& 0xff =? 0x20) && (u16 ((a ≪ 8) .| 0x20) ≫ 8 =? a))
            (zseq 256) = true) as Hall by (vm_compute; reflexivity).
  pose proof (u8_all _ Hall addr Ha) as E. cbv beta in E. lia.
Qed.

Lemma demod_write_wp page addr val len c :
  demod_page page -> is_u8 addr -> len = 1 \/ len = 2 ->
  wp (rtlsdr_demod_write_reg page addr val len)
    (fun r c' => exists evs, after c evs c' /\
       (forall m, fold_left demod_apply evs m = write_page m page addr (sent_bytes val len)) /\
       (r = 0 /\ usb_acked evs \/ r = -1 /\ ~ usb_acked evs)) c.
Proof.
  intros Hp Ha Hlen. unfold rtlsdr_demod_write_reg. wp_step.
  eapply wp_mono; [|apply control_out_wp; destruct Hlen as [-> | ->]; cbn; lia].
  intros rc c1 H1. wp_step. eapply wp_mono; [|apply demod_read_wp].
  intros ? c2 (d & rc2 & H2). apply wp_ret. eexists. split; [exact (after_app _ _ _ _ _ H1 H2)|]. split.
  - intros m. cbn [app fold_left demod_apply]. destruct (demod_value_bits addr Ha) as [E1 E2].
    rewrite E1, E2.
    by destruct Hp as [-> | ->].
  - assert (Hl : Z.of_nat (length (take (Z.to_nat len) (reg_bytes val len))) = len)
      by (rewrite length_take; destruct Hlen as [-> | ->]; cbn; lia).
    unfold usb_acked. rewrite Forall_app, !Forall_singleton. cbn [usb_ev_acked]. rewrite Hl.
    destruct (Z.eqb_spec rc len); [left|right]; (split; [done|]); [done|]. by intros [? _].
Qed.

(** A write whose effect alone matters. *)
Lemma demod_write_regs page addr val len c :
  demod_page page -> is_u8 addr -> len = 1 \/ len = 2 ->
  wp (rtlsdr_demod_write_reg page addr val len)
    (fun r c' => demod_regs (usb_log c') = write_page (demod_regs (usb_log c)) page addr (sent_bytes val len)) c.
Proof.
  intros Hp Ha Hl. eapply wp_mono; [|by apply demod_write_wp].
  intros r c' (evs & Hc & Hm & _). rewrite (after_log _ _ _ Hc), demod_regs_app. apply Hm.
Qed.

Lemma write_page_lookup data page addr m p a :
  write_page m page addr data !! (p, a) =
    if (p =? page) && (addr <=? a) && (a <? addr + Z.of_nat (length data))
    then data !! Z.to_nat (a - addr) else m !! (p, a).
Proof.
  revert addr m. induction data as [|v data IH]; intros addr m; cbn [write_page length].
  - replace ((p =? page) && (addr <=? a) && (a <? addr + Z.of_nat 0)) with false by lia. done.
  - rewrite IH. destruct (decide ((page, addr) = (p, a))) as [[= -> ->]|Hne].
    + replace ((p =? p) && (a + 1 <=? a) && (a <? a + 1 + Z.of_nat (length data))) with false by lia.
      replace ((p =? p) && (a <=? a) && (a <? a + Z.of_nat (S (length data)))) with true by lia.
      by rewrite lookup_insert_eq, Z.sub_diag.
    + rewrite lookup_insert_ne by done.
      assert (p <> page \/ a <> addr) as Hd by (destruct (decide (p = page)), (decide (a = addr)); [subst; done|by right|by left..]).
      replace ((p =? page) && (addr + 1 <=? a) && (a <? addr + 1 + Z.of_nat (length data)))
        with ((p =? page) && (addr <=? a) && (a <? addr + Z.of_nat (S (length data)))) by (apply eq_true_iff_eq; lia).
      destruct (_ && _) eqn:E; [|done].
      by replace (Z.to_nat (a - addr)) with (S (Z.to_nat (a - (addr + 1)))) by lia.
Qed.

(** ** FIR coefficients *)

Definition i12 (x : Z) : Z := (x + 2 ^ 11) mod 2 ^ 12 - 2 ^ 11.

(** The coefficients in the registers, as the demodulator reads them. *)
Fixpoint fir_unpack12 (bytes : list Z) : list Z :=
  match bytes with
  | b0 :: b1 :: b2 :: bytes' => i12 (16 * b0 + b1 / 16) :: i12 (256 * (b1 mod 16) + b2) :: fir_unpack12 bytes'
  | _ => []
  end.
Definition fir_unpack (bytes : list Z) : list Z := map i8 (take 8 bytes) ++ fir_unpack12 (drop 8 bytes).

Definition in_range (n : Z) (x : Z) : bool := (- n <=? x) && (x <? n).
Definition fir_ok (coeffs : list Z) : bool :=
  forallb (in_range 128) (take 8 coeffs) && forallb (in_range 2048) (drop 8 coeffs).

Lemma fir_pack8_spec vals :
  if forallb (in_range 128) vals
  then exists bytes, fir_pack8 vals = Some bytes /\ length bytes = length vals /\ map i8 bytes = vals /\ Forall is_u8 bytes
  else fir_pack8 vals = None.
Proof.
  induction vals as [|v vals IH]; cbn [forallb fir_pack8]; [by exists []|].
  assert ((v <? -128) || (127 <? v) = negb (in_range 128 v)) as -> by (unfold in_range; lia).
  destruct (in_range 128 v) eqn:Hv; cbn [negb andb]; [|done].
  destruct (forallb _ vals); [|by rewrite IH].
  destruct IH as (bytes & -> & Hl & Hm & Hu). exists (u8 v :: bytes). split; [done|].
  split; [cbn; lia|]. split; [|constructor; [apply u8_range|done]]. cbn [map]. f_equal; [|done].
  unfold in_range, i8, u8 in *. pose proof (Z.div_mod v (2 ^ 8) ltac:(lia)).
  pose proof (Z.mod_pos_bound v (2 ^ 8) ltac:(lia)). rewrite Z.add_mod_idemp_l by lia.
  rewrite Z.mod_small by lia. lia.
Qed.

(** Two 12-bit values in three bytes. *)
Lemma fir_pair_unpack v0 v1 :
  in_range 2048 v0 = true -> in_range 2048 v1 = true ->
  let b1 := u8 ((v0 ≪ 4) .| ((v1 ≫ 8) .& 0x0f)) in
  i12 (16 * u8 (v0 ≫ 4) + b1 / 16) = v0 /\ i12 (256 * (b1 mod 16) + u8 v1) = v1.
Proof.
  unfold in_range. intros H0 H1. cbv zeta.
  assert (E : u8 ((v0 ≪ 4) .| ((v1 ≫ 8) .& 0x0f)) = 16 * (v0 mod 16) + (v1 / 256) mod 16).
  { rewrite <- Z.add_nocarry_lor.
    2: { apply Z.bits_inj'. intros i Hi. rewrite !Z.land_spec, Z.bits_0. change 0x0f with (Z.ones 4).
         destruct (Z.ltb_spec i 4); [by rewrite Z.shiftl_spec_low|]. by rewrite Z.ones_spec_high, !andb_false_r by lia. }
    change 0x0f with (Z.ones 4). rewrite Z.land_ones, Z.shiftl_mul_pow2, Z.shiftr_div_pow2 by lia.
    change (2 ^ 8) with 256. change (2 ^ 4) with 16.
    unfold u8. pose proof (Z.div_mod v0 16 ltac:(lia)). pose proof (Z.mod_pos_bound v0 16 ltac:(lia)).
    pose proof (Z.mod_pos_bound (v1 / 256) 16 ltac:(lia)).
    replace (v0 * 16 + (v1 / 256) mod 16) with (16 * (v0 mod 16) + (v1 / 256) mod 16 + (v0 / 16) * 256) by lia.
    rewrite Z.mod_add by lia. apply Z.mod_small. lia. }
  rewrite E. pose proof (Z.mod_pos_bound v0 16 ltac:(lia)). pose proof (Z.mod_pos_bound (v1 / 256) 16 ltac:(lia)).
  rewrite (Z.mul_comm 16 (v0 mod 16)), Z.div_add_l, (Z.div_small ((v1 / 256) mod 16) 16), Z.add_0_r by lia.
  rewrite (Z.add_comm (v0 mod 16 * 16)), Z.mod_add, (Z.mod_small ((v1 / 256) mod 16) 16) by lia.
  rewrite Z.shiftr_div_pow2 by lia. unfold i12, u8. change (2 ^ 4) with 16. change (2 ^ 8) with 256.
  pose proof (Z.div_mod v0 16 ltac:(lia)). pose proof (Z.div_mod (v0 / 16) 256 ltac:(lia)).
  pose proof (Z.mod_pos_bound (v0 / 16) 256 ltac:(lia)).
  pose proof (Z.div_mod v1 256 ltac:(lia)). pose proof (Z.mod_pos_bound v1 256 ltac:(lia)).
  pose proof (Z.div_mod (v1 / 256) 16 ltac:(lia)).
  split; [rewrite <- (Z.mod_add _ (v0 / 16 / 256)) by lia|rewrite <- (Z.mod_add _ (v1 / 256 / 16)) by lia];
    rewrite Z.mod_small by lia; lia.
Qed.

Lemma fir_pack12_spec n vals :
  length vals = (2 * n)%nat ->
  if forallb (in_range 2048) vals
  then exists bytes, fir_pack12 vals = Some bytes /\ length bytes = (3 * n)%nat /\ fir_unpack12 bytes = vals /\ Forall is_u8 bytes
  else fir_pack12 vals = None.
Proof.
  revert vals. induction n as [|n IH]; intros [|v0 [|v1 vals]] Hl; cbn [length] in Hl; try lia; [by exists []|].
  cbn [forallb fir_pack12]. specialize (IH vals ltac:(lia)).
  assert ((v0 <? -2048) || (2047 <? v0) || (v1 <? -2048) || (2047 <? v1)
          = negb (in_range 2048 v0 && in_range 2048 v1)) as -> by (unfold in_range; lia).
  destruct (in_range 2048 v0) eqn:H0, (in_range 2048 v1) eqn:H1; cbn [negb andb]; try done.
  destruct (forallb _ vals); [|by rewrite IH].
  destruct IH as (bytes & -> & Hb & Hm & Hu). eexists. split; [done|]. split; [cbn; lia|].
  destruct (fir_pair_unpack v0 v1 H0 H1) as [E0 E1].
  split; [|repeat (constructor; [apply u8_range|]); done]. cbn [fir_unpack12]. by rewrite E0, E1, Hm.
Qed.

Lemma fir_pack_spec coeffs :
  Z.of_nat (length coeffs) = FIR_LEN ->
  if fir_ok coeffs
  then exists bytes, fir_pack coeffs = Some bytes /\ length bytes = 20%nat /\ fir_unpack bytes = coeffs /\ Forall is_u8 bytes
  else fir_pack coeffs = None.
Proof.
  unfold FIR_LEN, fir_ok, fir_pack. intros Hl. pose proof (fir_pack8_spec (take 8 coeffs)) as H8.
  pose proof (fir_pack12_spec 4 (drop 8 coeffs) ltac:(rewrite length_drop; lia)) as H12.
  destruct (forallb (in_range 128) _); cbn [andb]; [|by rewrite H8].
  destruct H8 as (a & -> & La & Ma & Ua). rewrite length_take in La. cbn [mbind option_bind].
  destruct (forallb (in_range 2048) _); [|by rewrite H12].
  destruct H12 as (b & -> & Lb & Mb & Ub). cbn [mbind option_bind]. eexists. split; [done|].
  split; [rewrite length_app; lia|]. split; [|by apply Forall_app].
  unfold fir_unpack. rewrite take_app_length', drop_app_length' by lia. by rewrite Ma, Mb, take_drop.
Qed.

Lemma fir_write_wp bytes i c :
  0 <= i -> i + Z.of_nat (length bytes) < 200 -> Forall is_u8 bytes ->
  wp (fir_write i bytes)
    (fun rc c' => exists evs, after c evs c' /\
       (rc = 0 /\ usb_acked evs /\ (forall m, fold_left demod_apply evs m = write_page m 1 (0x1c + i) bytes) \/
        rc = -1 /\ ~ usb_acked evs)) c.
Proof.
  revert i c. induction bytes as [|b bytes IH]; intros i c Hi Hlen Hu; cbn [fir_write length] in *.
  { apply wp_ret. exists []. split; [apply after_nil|]. left. split; [done|]. split; [constructor|done]. }
  inversion Hu as [|? ? Hb Hu']. subst. wp_step.
  eapply wp_mono; [|apply demod_write_wp; [by right|unfold is_u8; lia|by left]].
  intros r c1 (e1 & H1 & Hm1 & Hr). unfold truthy.
  destruct Hr as [[-> Hack]|[-> Hn]]; cbn [Z.eqb negb].
  2: { apply wp_ret. exists e1. split; [done|by right]. }
  eapply wp_mono; [|apply IH; [lia|lia|done]].
  intros rc c2 (e2 & H2 & Hok). exists (e1 ++ e2).
  split; [exact (after_app _ _ _ _ _ H1 H2)|]. rewrite usb_acked_app.
  destruct Hok as [(-> & Ha2 & Hm2)|[-> Hn]]; [left|right; tauto].
  split; [done|]. split; [done|]. intros m. rewrite fold_left_app, Hm1, Hm2.
  rewrite sent_bytes1 by done. cbn [write_page]. by rewrite Z.add_assoc.
Qed.

(** The 20 coefficient registers of the demodulator. *)
Definition fir_regs (m : gmap (Z * Z) Z) : list Z := map (fun i => default 0 (m !! (1, 0x1c + i))) (zseq 20).

Lemma fir_regs_written m bytes : length bytes = 20%nat -> fir_regs (write_page m 1 0x1c bytes) = bytes.
Proof.
  intros Hl. apply list_eq_same_length with 20%nat; [done| |].
  - unfold fir_regs, zseq. by rewrite !length_map, length_seq.
  - intros i x y Hi Hx Hy. unfold fir_regs, zseq in Hx. rewrite map_map in Hx.
    rewrite list_lookup_fmap, lookup_seq_lt in Hx by done. cbn in Hx. injection Hx as <-.
    rewrite write_page_lookup. replace (_ && _) with true by lia.
    replace (Z.to_nat _) with i by lia. by rewrite Hy.
Qed.

(** C24: rtlsdr_set_fir sends a filter exactly when its 8 outer coefficients are
    8-bit and its 8 inner ones 12-bit signed numbers; otherwise it fails without
    touching the device.  When it returns 0 every transfer was accepted, and the
    20 packed bytes in the demodulator decode to the 16 coefficients. *)
Theorem rtlsdr_set_fir_roundtrip (c : core) :
  Z.of_nat (length (fir c)) = FIR_LEN ->
  wp rtlsdr_set_fir
    (fun rc c' => exists evs, after c evs c' /\
       if fir_ok (fir c)
       then (rc = 0 \/ rc = -1) /\
            (rc = 0 -> usb_acked evs /\ fir_unpack (fir_regs (demod_regs (usb_log c'))) = fir c)
       else rc = -1 /\ evs = []) c.
Proof.
  intros Hl. pose proof (fir_pack_spec (fir c) Hl) as Hp. unfold rtlsdr_set_fir. wp_step. apply wp_gets.
  destruct (fir_ok (fir c)).
  - destruct Hp as (bytes & -> & Hlen & Hun & Hu8).
    eapply wp_mono; [|apply fir_write_wp; [done|lia|done]].
    intros rc c' (evs & Hc & [(-> & Hack & Hm)|[-> _]]); exists evs; (split; [done|]); [|split; [by right|done]].
    split; [by left|]. intros _. split; [done|]. rewrite (after_log _ _ _ Hc), demod_regs_app, Hm, fir_regs_written by done. done.
  - rewrite Hp. apply wp_ret. exists []. split; [apply after_nil|done].
Qed.

(** ** A simulated USB device

    Every transfer is accepted; a byte read is [sim_in] of the history, the
    request and its index. *)
Definition env_ok (sim_in : list usb_event -> usb_request -> nat -> Z) : usb_env :=
  mk_env
    (fun _ req => match req with ReqOut _ _ data => Z.of_nat (length data) | ReqIn _ _ len => len end)
    (fun log req i => Some (sim_in log req i))
    (fun _ _ => 0xaa)
    (fun _ => 0).

Definition core_ok sim_in : core := mk_core (env_ok sim_in) [] 28800000 28800000 0 fir_default "" "".

Lemma rtlsdr_set_fir_roundtrip_witness :
  wp rtlsdr_set_fir
    (fun rc c' => exists evs, after (core_ok (fun _ _ _ => 0)) evs c' /\
       if fir_ok fir_default
       then (rc = 0 \/ rc = -1) /\
            (rc = 0 -> usb_acked evs /\ fir_unpack (fir_regs (demod_regs (usb_log c'))) = fir_default)
       else rc = -1 /\ evs = []) (core_ok (fun _ _ _ => 0)).
Proof. refine (rtlsdr_set_fir_roundtrip (core_ok (fun _ _ _ => 0)) _). reflexivity. Defined.

(** The witness returns 0. *)
Example set_fir_default_ok :
  match rtlsdr_set_fir (core_ok (fun _ _ _ => 0)) with Some (rc, _) => rc = 0 | None => False end.
Proof. vm_compute. reflexivity. Qed.

(** ** GPIO lines *)

Lemma low_byte_bit x i : 0 <= i < 8 -> Z.testbit (u16 x .& 0xff) i = Z.testbit x i.
Proof.
  intros Hi. change 0xff with (Z.ones 8). unfold u16.
  rewrite Z.land_spec, Z.ones_spec_low, andb_true_r, Z.mod_pow2_bits_low by lia. done.
Qed.

Lemma reg_low_bit d0 d1 i : 0 <= i < 8 -> Z.testbit (u16 ((d1 ≪ 8) .| d0)) i = Z.testbit d0 i.
Proof.
  intros Hi. unfold u16. rewrite Z.mod_pow2_bits_low, Z.lor_spec, Z.shiftl_spec_low by lia. done.
Qed.

Lemma shl1_wp gpio c : 0 <= gpio < 8 -> wp (shl1 gpio) (fun m c' => c' = c /\ m = Z.shiftl 1 gpio) c.
Proof.
  intros Hg. unfold shl1. replace (gpio <? 32) with true by lia. apply wp_ret. split; [done|].
  apply u8_small. rewrite Z.shiftl_1_l. unfold is_u8. split; [lia|]. apply Z.pow_lt_mono_r; lia.
Qed.

Lemma shiftl_1_bit n i : 0 <= n -> 0 <= i -> Z.testbit (Z.shiftl 1 n) i = (i =? n).
Proof. intros. rewrite Z.shiftl_1_l, Z.pow2_bits_eqb by done. apply Z.eqb_sym. Qed.

(** [b'] is [b] with line [gpio] at level [v]. *)
Definition line_set (gpio : Z) (v : bool) (b b' : Z) : Prop :=
  is_u8 b' /\ forall i, 0 <= i < 8 -> Z.testbit b' i = if i =? gpio then v else Z.testbit b i.

Lemma line_set_intro gpio (v : bool) d0 d1 :
  0 <= gpio < 8 ->
  let r := u16 ((d1 ≪ 8) .| d0) in
  line_set gpio v d0 (u16 (if v then r .| Z.shiftl 1 gpio else r .& ~~ (Z.shiftl 1 gpio)) .& 0xff).
Proof.
  intros Hg. cbv zeta. split; [rewrite land_0xff; apply u8_range|]. intros i Hi. rewrite low_byte_bit by done.
  destruct v.
  - rewrite Z.lor_spec, reg_low_bit, shiftl_1_bit by lia. destruct (i =? gpio); [apply orb_true_r|apply orb_false_r].
  - rewrite Z.land_spec, Z.lnot_spec, reg_low_bit, shiftl_1_bit by lia.
    destruct (i =? gpio); [apply andb_false_r|apply andb_true_r].
Qed.

Lemma set_gpio_bit_wp gpio val c :
  0 <= gpio < 8 ->
  wp (rtlsdr_set_gpio_bit gpio val)
    (fun _ c' => exists b b' rc1 rc2, line_set gpio (truthy val) b b' /\
       after c [CtrlIn GPO 0x200 [b] rc1; CtrlOut GPO 0x210 [b'] rc2] c') c.
Proof.
  intros Hg. unfold rtlsdr_set_gpio_bit. wp_step. eapply wp_mono; [|by apply shl1_wp].
  intros m ? (-> & ->). wp_step. eapply wp_mono; [|apply read_reg_wp].
  intros r c1 (d0 & d1 & rc1 & H1 & _ & _ & ->). wp_step.
  eapply wp_mono; [|apply write_reg1_wp]. intros rc2 c2 H2. apply wp_ret.
  eexists d0, _, rc1, rc2. split; [by apply (line_set_intro gpio (truthy val) d0 d1)|].
  exact (after_app _ _ _ _ _ H1 H2).
Qed.

Lemma set_gpio_output_wp gpio c :
  0 <= gpio < 8 ->
  wp (rtlsdr_set_gpio_output gpio)
    (fun _ c' => exists d d' e e' rc1 rc2 rc3 rc4, line_set gpio false d d' /\ line_set gpio true e e' /\
       after c [CtrlIn GPD 0x200 [d] rc1; CtrlOut GPD 0x210 [d'] rc2;
                CtrlIn GPOE 0x200 [e] rc3; CtrlOut GPOE 0x210 [e'] rc4] c') c.
Proof.
  intros Hg. unfold rtlsdr_set_gpio_output. wp_step. eapply wp_mono; [|by apply shl1_wp].
  intros m ? (-> & ->). wp_step. eapply wp_mono; [|apply read_reg_wp].
  intros r c1 (d0 & d1 & rc1 & H1 & _ & _ & ->). wp_step.
  eapply wp_mono; [|apply write_reg1_wp]. intros rc2 c2 H2. wp_step.
  eapply wp_mono; [|apply read_reg_wp]. intros r c3 (e0 & e1 & rc3 & H3 & _ & _ & ->). wp_step.
  eapply wp_mono; [|apply write_reg1_wp]. intros rc4 c4 H4. apply wp_ret.
  eexists d0, _, e0, _, rc1, rc2, rc3, rc4.
  split; [by apply (line_set_intro gpio false d0 d1)|]. split; [by apply (line_set_intro gpio true e0 e1)|].
  exact (after_app _ _ _ _ _ H1 (after_app _ _ _ _ _ H2 (after_app _ _ _ _ _ H3 H4))).
Qed.

(** ** What the demodulator holds

    [sent n L c]: if every transfer since number [n] was accepted, the
    registers of the demodulator hold the values [L]. *)

Definition holds (m : gmap (Z * Z) Z) (f : Z * Z * Z) : Prop :=
  let '(page, addr, v) := f in m !! (page, addr) = Some v.

Definition sent (n : nat) (L : list (Z * Z * Z)) (c : core) : Prop :=
  (n <= length (usb_log c))%nat /\
  (usb_acked (drop n (usb_log c)) -> Forall (holds (demod_regs (usb_log c))) L).

(** The fields outside the [k] registers from [addr] on. *)
Definition others (page addr k : Z) (L : list (Z * Z * Z)) : list (Z * Z * Z) :=
  List.filter (fun '(p, a, _) => negb ((p =? page) && (addr <=? a) && (a <? addr + k))) L.

Lemma sent_now c : sent (length (usb_log c)) [] c.
Proof. split; [done|]. intros _. constructor. Qed.

Lemma sent_sub n L L' c : sent n L c -> Forall (fun f => f ∈ L) L' -> sent n L' c.
Proof.
  intros [Hn HL] Hsub. split; [done|]. intros Ha. apply Forall_forall. intros f Hf.
  apply (proj1 (Forall_forall _ _) (HL Ha)), (proj1 (Forall_forall _ _) Hsub f Hf).
Qed.

(** Transfers that write [data] to the registers from [addr] on. *)
Lemma sent_after n L c evs c' page addr data :
  sent n L c -> after c evs c' ->
  (usb_acked evs -> forall m, fold_left demod_apply evs m = write_page m page addr data) ->
  sent n (zip_with (fun i v => (page, addr + i, v)) (zseq (length data)) data
            ++ others page addr (Z.of_nat (length data)) L) c'.
Proof.
  intros [Hn HL] Hc Hm. unfold sent. rewrite (after_log _ _ _ Hc).
  split; [rewrite length_app; lia|]. rewrite drop_app_le, demod_regs_app by done.
  intros [Ha0 Ha]%usb_acked_app. specialize (HL Ha0). rewrite (Hm Ha). apply Forall_app. split.
  - apply Forall_lookup. intros i f Hf. apply lookup_zip_with_Some in Hf as (k & v & -> & Hk & Hv).
    unfold zseq in Hk. pose proof (lookup_lt_Some _ _ _ Hv).
    rewrite list_lookup_fmap, lookup_seq_lt in Hk by done. injection Hk as <-. cbn [holds].
    rewrite write_page_lookup. replace (_ && _) with true by lia. by replace (Z.to_nat _) with i by lia.
  - apply Forall_forall. intros [[p a] v] Hf. unfold others in Hf.
    apply list_elem_of_In, filter_In in Hf as [Hf Hne]. apply list_elem_of_In in Hf.
    pose proof (proj1 (Forall_forall _ _) HL _ Hf) as Hh. cbn [holds] in *. rewrite write_page_lookup.
    apply negb_true_iff in Hne. by rewrite Hne.
Qed.

(** A write of one byte and of two bytes. *)
Lemma sent_write1 n L page addr v c :
  demod_page page -> is_u8 addr -> is_u8 v -> sent n L c ->
  wp (rtlsdr_demod_write_reg page addr v 1)
    (fun r c' => sent n ((page, addr, v) :: others page addr 1 L) c' /\ ext c c' /\ (r = 0 \/ r = -1)) c.
Proof.
  intros Hp Ha Hv HL. eapply wp_mono; [|by apply demod_write_wp; [..|left]].
  intros r c' (evs & Hc & Hm & Hr). rewrite sent_bytes1 in Hm by done.
  split; [|split; [by exists evs|tauto]].
  pose proof (sent_after n L c evs c' page addr [v] HL Hc (fun _ => Hm)) as H. cbn in H.
  by rewrite Z.add_0_r in H.
Qed.

Lemma sent_write2 n L page addr v c :
  demod_page page -> is_u8 addr -> is_u16 v -> sent n L c ->
  wp (rtlsdr_demod_write_reg page addr v 2)
    (fun r c' => sent n ((page, addr, v / 256) :: (page, addr + 1, v mod 256) :: others page addr 2 L) c' /\
       ext c c' /\ (r = 0 \/ r = -1)) c.
Proof.
  intros Hp Ha Hv HL. eapply wp_mono; [|by apply demod_write_wp; [..|right]].
  intros r c' (evs & Hc & Hm & Hr). split; [|split; [by exists evs|tauto]].
  replace (sent_bytes v 2) with [v / 256; v mod 256] in Hm.
  - pose proof (sent_after n L c evs c' page addr _ HL Hc (fun _ => Hm)) as H. cbn in H.
    by rewrite Z.add_0_r in H.
  - unfold sent_bytes, reg_bytes. change (2 =? 1) with false. cbv iota.
    rewrite land_0xff, Z.shiftr_div_pow2, u8_small by (unfold is_u8, is_u16 in *; lia || (split; [apply Z.div_pos; lia|apply Z.div_lt_upper_bound; lia])).
    done.
Qed.

(** Transfers to another block. *)
Lemma sent_other n L c ev c' : sent n L c -> after c [ev] c' -> (forall m, demod_apply m ev = m) -> sent n L c'.
Proof.
  intros [Hn HL] Hc Hm. unfold sent. rewrite (after_log _ _ _ Hc). split; [rewrite length_app; lia|].
  rewrite drop_app_le, demod_regs_app by done. intros [Ha _]%usb_acked_app. cbn [fold_left]. rewrite Hm. auto.
Qed.

(** ** The power-on table

    What rtlsdr_init_baseband leaves in the demodulator, the FIR filter
    apart. *)
Definition baseband_table : list (Z * Z * Z) :=
  [(1, 0x01, 0x10); (1, 0x15, 0x00); (1, 0x16, 0x00); (1, 0x17, 0x00); (1, 0x18, 0x00); (1, 0x19, 0x00);
   (1, 0x1a, 0x00); (1, 0x1b, 0x00); (0, 0x19, 0x05); (1, 0x93, 0xf0); (1, 0x94, 0x0f); (1, 0x11, 0x00);
   (1, 0x04, 0x00); (0, 0x61, 0x60); (0, 0x06, 0x80); (1, 0xb1, 0x1b); (0, 0x0d, 0x83)].

(** A call that takes the demodulator from [L] to [L']. *)
Definition sends (n : nat) (L : list (Z * Z * Z)) {A} (m : M core A) (L' : list (Z * Z * Z)) : Prop :=
  forall c, sent n L c -> wp m (fun _ c' => sent n L' c' /\ ext c c') c.

Lemma sends_seq {A B} n L L1 L2 (m : M core A) (k : M core B) :
  sends n L m L1 -> sends n L1 k L2 -> sends n L (m;; k) L2.
Proof.
  intros Hm Hk c Hc. wp_step. eapply wp_mono; [|by apply Hm]. intros _ c1 [H1 Hf].
  eapply wp_mono; [|by apply Hk]. intros _ c2 [H2 Hf2]. split; [done|]. by etrans.
Qed.

Lemma sends_ret {A} n L (a : A) : sends n L (mret a) L.
Proof. intros c Hc. by apply wp_ret. Qed.

Lemma sends_demod1 n L page addr v :
  demod_page page -> is_u8 addr -> is_u8 v ->
  sends n L (rtlsdr_demod_write_reg page addr v 1) ((page, addr, v) :: others page addr 1 L).
Proof. intros Hp Ha Hv c Hc. eapply wp_mono; [|by apply sent_write1]. by intros ? ? (? & ? & _). Qed.

Lemma sends_demod2 n L page addr v :
  demod_page page -> is_u8 addr -> is_u16 v ->
  sends n L (rtlsdr_demod_write_reg page addr v 2)
    ((page, addr, v / 256) :: (page, addr + 1, v mod 256) :: others page addr 2 L).
Proof. intros Hp Ha Hv c Hc. eapply wp_mono; [|by apply sent_write2]. by intros ? ? (? & ? & _). Qed.

Definition not_demod (block : Z) : bool := negb (u16 ((block ≪ 8) .| 0x10) ≫ 4 =? 1).

Lemma sends_reg n L block addr val len :
  not_demod block = true -> len = 1 \/ len = 2 -> sends n L (rtlsdr_write_reg block addr val len) L.
Proof.
  unfold not_demod. intros Hb Hl c Hc.
  assert (wp (rtlsdr_write_reg block addr val len)
    (fun rc c' => exists data, after c [CtrlOut addr (u16 ((block ≪ 8) .| 0x10)) data rc] c') c) as Hw.
  { destruct Hl as [-> | ->]; (eapply wp_mono; [|apply write_reg1_wp || apply write_reg2_wp]);
    intros ? ? H; eexists; exact H. }
  eapply wp_mono; [|exact Hw]. intros rc c' (data & H). split; [|by eapply after_ext].
  eapply sent_other; [done..|]. intros m. cbn [demod_apply]. apply negb_true_iff in Hb. by rewrite Hb.
Qed.

(** One more write of a sequence of closed writes. *)
Ltac send_call :=
  lazymatch goal with
  | |- sends _ _ (rtlsdr_demod_write_reg _ _ _ 1) _ => apply sends_demod1; by_compute
  | |- sends _ _ (rtlsdr_demod_write_reg _ _ _ 2) _ => apply sends_demod2; by_compute
  | |- sends _ _ (rtlsdr_write_reg _ _ _ _) _ => apply sends_reg; [reflexivity|by_compute]
  | |- sends _ _ (mret _) _ => apply sends_ret
  end.
Ltac norm_sent :=
  lazy [others List.filter negb andb Z.eqb Z.leb Z.ltb Z.compare Pos.compare Pos.compare_cont
        Pos.eqb Z.add Pos.add Pos.succ CompOpp app].
Ltac send_step :=
  lazymatch goal with
  | |- sends _ _ (mbind _ _) _ => eapply sends_seq; [send_step|norm_sent]
  | _ => send_call
  end.

Definition fir_fields (bytes : list Z) : list (Z * Z * Z) :=
  zip_with (fun i v => (1, 0x1c + i, v)) (zseq (length bytes)) bytes.

Lemma set_fir_sends n L c :
  Z.of_nat (length (fir c)) = FIR_LEN -> fir_ok (fir c) = true -> sent n L c ->
  wp rtlsdr_set_fir
    (fun _ c' => ext c c' /\ exists bytes, fir_unpack bytes = fir c /\ length bytes = 20%nat /\
       sent n (fir_fields bytes ++ others 1 0x1c 20 L) c') c.
Proof.
  intros Hl Hok HL. pose proof (fir_pack_spec (fir c) Hl) as Hp. rewrite Hok in Hp.
  destruct Hp as (bytes & Hp & Hlen & Hun & Hu8). unfold rtlsdr_set_fir. wp_step. apply wp_gets. rewrite Hp.
  eapply wp_mono; [|apply fir_write_wp; [done|lia|done]].
  intros rc c' (evs & Hc & He). split; [by exists evs|]. exists bytes. split; [done|]. split; [done|].
  pose proof (sent_after n L c evs c' 1 0x1c bytes HL Hc) as H. rewrite Hlen in H. unfold fir_fields. rewrite Hlen. apply H.
  intros Ha. by destruct He as [(_ & _ & Hm)|[_ Hn]].
Qed.

Lemma fir_fields_regs m bytes : length bytes = 20%nat -> Forall (holds m) (fir_fields bytes) -> fir_regs m = bytes.
Proof.
  intros Hl Hf. apply list_eq_same_length with 20%nat; [done| |].
  - unfold fir_regs, zseq. by rewrite !length_map, length_seq.
  - intros i x y Hi Hx Hy. unfold fir_regs, zseq in Hx.
    rewrite list_lookup_fmap, list_lookup_fmap, lookup_seq_lt in Hx by done. cbn in Hx. injection Hx as <-.
    assert (holds m (1, 0x1c + Z.of_nat i, y)) as Hh.
    { apply (Forall_lookup_1 _ (fir_fields bytes) i); [done|]. unfold fir_fields, zseq.
      rewrite lookup_zip_with, list_lookup_fmap, lookup_seq_lt, Hy by lia. done. }
    cbn [holds] in Hh. by rewrite Hh.
Qed.

Lemma sends_bind {A B} n L L1 (m : M core A) (k : M core B) c Q :
  sends n L m L1 -> sent n L c -> (forall c1, sent n L1 c1 -> ext c c1 -> wp k Q c1) -> wp (m;; k) Q c.
Proof. intros Hm Hc Hk. wp_step. eapply wp_mono; [|by apply Hm]. intros _ c1 [??]. auto. Qed.

Lemma sends_wp {A} n L L1 (m : M core A) c Q :
  sends n L m L1 -> sent n L c -> (forall a c1, sent n L1 c1 -> ext c c1 -> Q a c1) -> wp m Q c.
Proof. intros Hm Hc Hk. eapply wp_mono; [|by apply Hm]. intros a c1 [??]. auto. Qed.

Lemma ext_fir c c' : ext c c' -> fir c' = fir c.
Proof. by intros [evs ->]. Qed.

Lemma sent_all c L c' evs :
  sent (length (usb_log c)) L c' -> after c evs c' -> usb_acked evs -> Forall (holds (demod_regs (usb_log c'))) L.
Proof. intros [_ H] Hc Ha. apply H. by rewrite (after_log _ _ _ Hc), drop_app_length. Qed.

(** Membership of fields in a list, one by one. *)
Ltac in_table :=
  lazymatch goal with |- Forall _ ?L => let L' := eval vm_compute in L in change L with L' end;
  repeat apply Forall_cons_2; try apply Forall_nil_2;
  repeat first [apply list_elem_of_here | apply list_elem_of_further].

(** One step of a run: [H] is the [sent] fact, [E] what is known of the
    transfers made. *)
Ltac run_send H E :=
  eapply sends_bind; [send_call|exact H|norm_sent; clear H];
  let c1 := fresh "c" in let E1 := fresh "E" in
  intros c1 H E1; pose proof (transitivity E E1) as E'; clear E E1; rename E' into E.

Lemma baseband_table_holds bytes m :
  length bytes = 20%nat -> Forall (holds m) (baseband_table ++ fir_fields bytes) ->
  Forall (holds m) baseband_table /\ fir_regs m = bytes.
Proof. intros Hl [Ht Hf]%Forall_app. split; [done|]. by apply fir_fields_regs. Qed.

(** Powering up: when every transfer of rtlsdr_init_baseband is accepted, the
    demodulator holds the power-on table (zero-IF mode, default ADC datapath,
    AGC loops off, no DDC shift, repeater closed) and the library's FIR
    filter, whatever it held before. *)
Theorem rtlsdr_init_baseband_registers (c : core) :
  Z.of_nat (length (fir c)) = FIR_LEN -> fir_ok (fir c) = true ->
  wp rtlsdr_init_baseband
    (fun _ c' => exists evs, after c evs c' /\
       (usb_acked evs -> Forall (holds (demod_regs (usb_log c'))) baseband_table /\
          fir_unpack (fir_regs (demod_regs (usb_log c'))) = fir c)) c.
Proof.
  intros Hl Hok. unfold rtlsdr_init_baseband. pose proof (sent_now c) as H. pose proof (reflexivity c : ext c c) as E.
  set (n := length (usb_log c)) in *.
  do 9 run_send H E.
  eapply sends_bind; [change (zseq 6) with [0;1;2;3;4;5]; cbn [for_each]; repeat send_step|exact H|].
  clear H. intros cb H E1. pose proof (transitivity E E1) as E2. clear E E1. pose proof (ext_fir _ _ E2) as Hfir.
  wp_step. eapply wp_mono; [|apply set_fir_sends; [by rewrite Hfir..|exact H]].
  intros ? cf (E3 & bytes & Hun & Hlen & H2). rewrite Hfir in Hun.
  do 20 (destruct bytes as [|? bytes]; [discriminate Hlen|]). destruct bytes; [|discriminate Hlen].
  pose proof (transitivity E2 E3) as E4. clear H E2 E3.
  match type of H2 with sent _ ?L _ => let L' := eval vm_compute in L in change L with L' in H2 end.
  eapply sends_wp; [repeat send_step|exact H2|]. clear H2. intros _ c' H E5.
  destruct (transitivity E4 E5) as [evs Hevs]. exists evs. split; [done|].
  lazymatch type of Hun with fir_unpack ?b = _ =>
    apply (sent_sub _ _ (baseband_table ++ fir_fields b)) in H; [|in_table] end.
  intros Ha. rewrite <- Hun.
  destruct (baseband_table_holds _ _ Hlen (sent_all _ _ _ _ H Hevs Ha)) as [Ht Hf]. split; [done|].
  by rewrite Hf.
Qed.

Lemma rtlsdr_init_baseband_registers_witness :
  wp rtlsdr_init_baseband
    (fun _ c' => exists evs, after (core_ok (fun _ _ _ => 0)) evs c' /\
       (usb_acked evs -> Forall (holds (demod_regs (usb_log c'))) baseband_table /\
          fir_unpack (fir_regs (demod_regs (usb_log c'))) = fir_default)) (core_ok (fun _ _ _ => 0)).
Proof. refine (rtlsdr_init_baseband_registers (core_ok (fun _ _ _ => 0)) _ _); reflexivity. Defined.

(** rtlsdr_set_gpio_bit reads the output register and writes it back with
    the line at the level asked for; every other line keeps the level that was
    read. *)
Lemma rtlsdr_set_gpio_bit_line (gpio val : Z) (c : core) :
  0 <= gpio < 8 ->
  wp (rtlsdr_set_gpio_bit gpio val)
    (fun _ c' => exists b b' rc1 rc2,
       after c [CtrlIn GPO 0x200 [b] rc1; CtrlOut GPO 0x210 [b'] rc2] c' /\
       is_u8 b' /\ forall i, 0 <= i < 8 ->
         Z.testbit b' i = if i =? gpio then truthy val else Z.testbit b i) c.
Proof.
  intros Hg. eapply wp_mono; [|by apply set_gpio_bit_wp].
  intros _ c' (b & b' & rc1 & rc2 & [Hb Hl] & Hc). by exists b, b', rc1, rc2.
Qed.

Lemma rtlsdr_set_gpio_bit_line_witness :
  wp (rtlsdr_set_gpio_bit 4 1)
    (fun _ c' => exists b b' rc1 rc2,
       after (core_ok (fun _ _ _ => 0x52)) [CtrlIn GPO 0x200 [b] rc1; CtrlOut GPO 0x210 [b'] rc2] c' /\
       is_u8 b' /\ forall i, 0 <= i < 8 ->
         Z.testbit b' i = if i =? 4 then truthy 1 else Z.testbit b i) (core_ok (fun _ _ _ => 0x52)).
Proof. refine (rtlsdr_set_gpio_bit_line 4 1 (core_ok (fun _ _ _ => 0x52)) _). lia. Defined.
