(* ===== verification/Demod.v ===== *)
(** * librtlsdr.c: clocks, IF frequency, and the tuner interface

    The corrected clocks (rtlsdr_get_xtal_freq), the registers computed from
    them, and the implementation of the interface of RtlsdrI2c.v by USB
    transfers: a transfer to the I2C block is an I2C transfer. *)

From S2P Require Import Prelude RtlsdrI2c Double Usb.

Definition DEF_RTL_XTAL_FREQ := 28800000.
Definition MIN_RTL_XTAL_FREQ := DEF_RTL_XTAL_FREQ - 1000.
Definition MAX_RTL_XTAL_FREQ := DEF_RTL_XTAL_FREQ + 1000.

(** two raised to the power of n *)
(* src/librtlsdr.c: TWO_POW *)
Definition TWO_POW (n : Z) : double := d_of_Z (2 ^ n).

(** The two clocks, corrected; the call itself cannot fail. *)
(* src/librtlsdr.c: rtlsdr_get_xtal_freq *)
Definition rtlsdr_get_xtal_freq (c : core) : Z * Z :=
  (d_to_u32 (env_oor (env c)) (APPLY_PPM_CORR (rtl_xtal c) (corr c)),
   d_to_u32 (env_oor (env c)) (APPLY_PPM_CORR (tun_xtal c) (corr c))).

(* src/librtlsdr.c: rtlsdr_get_tuner_clock *)
Definition get_tuner_clock (c : core) : Z := (rtlsdr_get_xtal_freq c).2.

(** [r |= a] on results. *)
Definition or_rc (a b : Z) : Z := a .| b.

(** if_freq = ((freq * TWO_POW(22)) / rtl_xtal) * (-1) *)
(* src/librtlsdr.c:709-709 rtlsdr_set_if_freq *)
Definition if_freq_value (oor : double -> Z) (freq rtl_xtal : Z) : Z :=
  d_to_i32 oor (dmul (ddiv (dmul (d_of_Z freq) (TWO_POW 22)) (d_of_Z rtl_xtal)) (d_of_Z (-1))).

(* src/librtlsdr.c: rtlsdr_set_if_freq *)
Definition rtlsdr_set_if_freq (freq : Z) : M core Z :=
  (* read corrected clock value *)
  rtl_xtal ← gets (fun c => (rtlsdr_get_xtal_freq c).1);
  oor ← gets (fun c => env_oor (env c));
  let if_freq := if_freq_value oor freq rtl_xtal in
  r ← rtlsdr_demod_write_reg 1 0x19 ((if_freq ≫ 16) .& 0x3f) 1;
  r2 ← rtlsdr_demod_write_reg 1 0x1a ((if_freq ≫ 8) .& 0xff) 1;
  r3 ← rtlsdr_demod_write_reg 1 0x1b (if_freq .& 0xff) 1;
  mret (or_rc (or_rc r r2) r3).

(** offs = ppm * (-1) * TWO_POW(24) / 1000000 *)
(* src/librtlsdr.c:725-725 rtlsdr_set_sample_freq_correction *)
Definition corr_offs (oor : double -> Z) (ppm : Z) : Z :=
  d_to_i16 oor (ddiv (dmul (d_of_Z (i32 (ppm * (-1)))) (TWO_POW 24)) (d_of_Z 1000000)).

(* src/librtlsdr.c: rtlsdr_set_sample_freq_correction *)
Definition rtlsdr_set_sample_freq_correction (ppm : Z) : M core Z :=
  oor ← gets (fun c => env_oor (env c));
  let offs := corr_offs oor ppm in
  r ← rtlsdr_demod_write_reg 1 0x3f (offs .& 0xff) 1;
  r2 ← rtlsdr_demod_write_reg 1 0x3e ((offs ≫ 8) .& 0x3f) 1;
  mret (or_rc r r2).

(** ** The interface of the tuner drivers *)

(* src/librtlsdr.c: rtlsdr_check_dongle_model *)
Definition check_dongle_model (c : core) (manufact_check product_check : string) : bool :=
  String.eqb (manufact c) manufact_check && String.eqb (product c) product_check.

(* src/librtlsdr.c: rtlsdr_i2c_write_fn *)
Definition i2c_write_fn (addr : Z) (buf : list Z) : M core Z :=
  rtlsdr_i2c_write addr buf (Z.of_nat (length buf)).

(** The buffers of the callers are not initialised. *)
(* src/librtlsdr.c: rtlsdr_i2c_read_fn *)
Definition i2c_read_fn (addr len : Z) : M core (Z * list Z) :=
  buf ← uninit (Z.to_nat len);
  rtlsdr_i2c_read addr buf len.

(** The transfers to the I2C block. *)
Definition usb_to_i2c (ev : usb_event) : option i2c_event :=
  match ev with
  | CtrlOut value 0x610 data rc => Some (I2cWrite value data rc)
  | CtrlIn value 0x600 data rc => Some (I2cRead value data rc)
  | _ => None
  end.
Definition core_i2c_log (c : core) : list i2c_event := omap usb_to_i2c (usb_log c).

#[export] Instance core_i2c : RtlsdrI2c core := {
  rtlsdr_get_tuner_clock := get_tuner_clock;
  rtlsdr_check_dongle_model := check_dongle_model;
  rtlsdr_i2c_write_fn := i2c_write_fn;
  rtlsdr_i2c_read_fn := i2c_read_fn;
  i2c_log := core_i2c_log;
}.
