(* ===== verification/DemodSpec.v ===== *)
(** * librtlsdr.c: clocks, IF frequency and EEPROM are right

    The interface laws of RtlsdrI2c.v hold of the USB implementation, the
    register values computed in double arithmetic are those of integer
    arithmetic, and the EEPROM holds what was written to it. *)

From S2P Require Import Prelude RtlsdrI2c I2cSim Double Usb UsbSpec Demod.

(** ** The implementation keeps the interface's promises *)

Lemma ext_same_dev c c' : ext c c' -> same_dev c c'.
Proof. by intros [evs ->]. Qed.

Lemma after_i2c_log c evs c' : after c evs c' -> i2c_log c' = i2c_log c ++ omap usb_to_i2c evs.
Proof. intros ->. cbn. unfold core_i2c_log. cbn [usb_log set_usb_log]. apply omap_app. Qed.

#[export] Instance core_laws : RtlsdrI2cLaws core.
Proof.
  split.
  - intros addr buf c Ha Hl. cbn [rtlsdr_i2c_write_fn core_i2c]. unfold i2c_write_fn, rtlsdr_i2c_write, rtlsdr_write_array.
    cbv zeta. rewrite u8_small by (unfold is_u8; lia).
    eapply wp_mono; [|apply control_out_wp; lia]. intros rc c' Hc.
    rewrite (after_i2c_log _ _ _ Hc), Nat2Z.id, firstn_all. split; [done|]. apply ext_same_dev, (after_ext _ _ _ Hc).
  - intros addr len c Ha Hl. cbn [rtlsdr_i2c_read_fn core_i2c]. unfold i2c_read_fn, rtlsdr_i2c_read, rtlsdr_read_array.
    wp_step. eapply wp_mono; [|apply uninit_wp]. intros buf c0 (-> & Hbl & Hbu). cbv zeta.
    rewrite u8_small by (unfold is_u8; lia).
    eapply wp_mono; [|apply control_in_wp; [lia|done]].
    intros [rc data] c' (d & Hc & Hd & Hdu & E). cbn [fst snd] in *. subst data.
    rewrite drop_ge, app_nil_r by lia.
    rewrite (after_i2c_log _ _ _ Hc). split; [done|]. split; [done|]. split; [done|]. apply ext_same_dev, (after_ext _ _ _ Hc).
Qed.

(** ** Register values computed in double arithmetic *)

Lemma if_freq_value_spec oor freq x :
  0 <= freq < 2 ^ 30 -> 0 < x < 2 ^ 32 -> freq * 2 ^ 22 < 2 ^ 31 * x ->
  if_freq_value oor freq x = - (freq * 2 ^ 22 / x).
Proof.
  intros Hf Hx Hq. unfold if_freq_value, TWO_POW, d_to_i32.
  assert (Hdiv : 0 <= freq * 2 ^ 22 / x < 2 ^ 31) by (split; [apply Z.div_pos; lia|apply Z.div_lt_upper_bound; lia]).
  assert (E : d_trunc (dmul (ddiv (dmul (d_of_Z freq) (d_of_Z (2 ^ 22))) (d_of_Z x)) (d_of_Z (-1)))
              = Some (- (freq * 2 ^ 22 / x))); [|by rewrite E, decide_True by (unfold is_i32; lia)].
  destruct (decide (freq = 0)) as [->|Hne].
  - destruct (d_of_Z_normal x ltac:(lia) ltac:(lia)) as (j & _ & _ & _ & ->). done.
  - destruct (ddiv_scaled_int freq 22 x Hne ltac:(lia) ltac:(lia) ltac:(lia)) as (w & Hw & E).
    replace (freq <? 0) with false in Hw by lia. rewrite Z.abs_eq in E by lia.
    apply dmul_minus_one in Hw; [|lia]. cbn [negb] in Hw. rewrite (repr_trunc_neg _ _ _ Hw), E by lia. done.
Qed.

(** The writes since transfer [n], with their or-ed result [r]. *)
Definition wrote (n : nat) (L : list (Z * Z * Z)) (r : Z) (c : core) : Prop :=
  sent n L c /\ (r = 0 /\ usb_acked (drop n (usb_log c)) \/ r = -1 /\ ~ usb_acked (drop n (usb_log c))).

Lemma wrote_now c : wrote (length (usb_log c)) [] 0 c.
Proof. split; [apply sent_now|left]. split; [done|]. rewrite drop_all. constructor. Qed.

Lemma wrote_step n L r page addr v c :
  demod_page page -> is_u8 addr -> is_u8 v -> wrote n L r c ->
  wp (rtlsdr_demod_write_reg page addr v 1)
    (fun r2 c' => wrote n ((page, addr, v) :: others page addr 1 L) (or_rc r r2) c' /\ ext c c') c.
Proof.
  intros Hp Ha Hv [HL Hr]. eapply wp_mono; [|by apply demod_write_wp; [..|left]].
  intros r2 c' (evs & Hc & Hm & Hr2). rewrite sent_bytes1 in Hm by done. split; [|by exists evs]. split.
  - pose proof (sent_after n L c evs c' page addr [v] HL Hc (fun _ => Hm)) as H. cbn in H. by rewrite Z.add_0_r in H.
  - rewrite (after_log _ _ _ Hc), drop_app_le, usb_acked_app by apply HL. unfold or_rc.
    destruct Hr as [[-> ?]|[-> ?]], Hr2 as [[-> ?]|[-> ?]]; cbn [Z.lor]; [left|right..]; tauto.
Qed.

Lemma wrote_end c L r c' :
  wrote (length (usb_log c)) L r c' -> ext c c' ->
  exists evs, after c evs c' /\
    (r = 0 /\ usb_acked evs /\ Forall (holds (demod_regs (usb_log c'))) L \/ r = -1 /\ ~ usb_acked evs).
Proof.
  intros [HL Hr] [evs Hc]. exists evs. split; [done|].
  rewrite (after_log _ _ _ Hc), drop_app_length in Hr. destruct Hr as [[-> Ha]|?]; [left|by right].
  split; [done|]. split; [done|]. by apply (sent_all c _ _ evs).
Qed.

Lemma land_low_bits x n : 0 <= n -> x .& Z.ones n = x mod 2 ^ n.
Proof. intros. by apply Z.land_ones. Qed.

Lemma mask_u8 x n : 0 <= n <= 8 -> is_u8 (x .& Z.ones n).
Proof.
  intros Hn. rewrite Z.land_ones by lia. unfold is_u8.
  pose proof (Z.mod_pos_bound x (2 ^ n) ltac:(apply Z.pow_pos_nonneg; lia)).
  assert (2 ^ n <= 2 ^ 8) by (apply Z.pow_le_mono_r; lia). lia.
Qed.

(** A value in three registers, the upper one of 6 bits; and in two. *)
Lemma split_22 v : 65536 * ((v ≫ 16) .& 0x3f) + 256 * ((v ≫ 8) .& 0xff) + (v .& 0xff) = v mod 2 ^ 22.
Proof.
  change 0x3f with (Z.ones 6). change 0xff with (Z.ones 8). rewrite !Z.land_ones, !Z.shiftr_div_pow2 by lia.
  change (2 ^ 16) with (2 ^ 8 * 2 ^ 8). rewrite <- Z.div_div by lia. change (2 ^ 22) with (2 ^ 8 * (2 ^ 8 * 2 ^ 6)).
  rewrite !Z.rem_mul_r by lia. lia.
Qed.

Lemma split_14 v : 256 * ((v ≫ 8) .& 0x3f) + (v .& 0xff) = v mod 2 ^ 14.
Proof.
  change 0x3f with (Z.ones 6). change 0xff with (Z.ones 8). rewrite !Z.land_ones, !Z.shiftr_div_pow2 by lia.
  change (2 ^ 14) with (2 ^ 8 * 2 ^ 6). rewrite Z.rem_mul_r by lia. lia.
Qed.

(** Rtlsdr_set_if_freq: for a frequency below 2^30 Hz the double arithmetic
    of the code gives the integer quotient freq * 2^22 / clock, and when the
    call returns 0 the 22-bit DDC register holds its two's complement, with
    the clock as corrected. *)
Theorem rtlsdr_set_if_freq_register (freq : Z) (c : core) :
  let x := (rtlsdr_get_xtal_freq c).1 in
  0 <= freq < 2 ^ 30 -> 0 < x < 2 ^ 32 -> freq * 2 ^ 22 < 2 ^ 31 * x ->
  wp (rtlsdr_set_if_freq freq)
    (fun r c' => exists evs, after c evs c' /\
       (r = 0 /\ usb_acked evs /\
          (exists b2 b1 b0, Forall (holds (demod_regs (usb_log c'))) [(1, 0x19, b2); (1, 0x1a, b1); (1, 0x1b, b0)] /\
             65536 * b2 + 256 * b1 + b0 = (- (freq * 2 ^ 22 / x)) mod 2 ^ 22) \/
        r = -1 /\ ~ usb_acked evs)) c.
Proof.
  cbv zeta. intros Hf Hx Hq. unfold rtlsdr_set_if_freq. do 2 (wp_step; apply wp_gets). cbv zeta.
  rewrite if_freq_value_spec by done. set (v := - (freq * 2 ^ 22 / _)) in *.
  pose proof (wrote_now c) as H.
  wp_step. eapply wp_mono; [|eapply wrote_step; [by right|done|by apply (mask_u8 _ 6)|exact H]].
  cbn [others List.filter]. intros r1 c1 [H1 E1]. unfold or_rc in H1. rewrite Z.lor_0_l in H1.
  wp_step. eapply wp_mono; [|eapply wrote_step; [by right|done|by apply (mask_u8 _ 8)|exact H1]].
  intros r2 c2 [H2 E2].
  wp_step. eapply wp_mono; [|eapply wrote_step; [by right|done|by apply (mask_u8 _ 8)|exact H2]].
  intros r3 c3 [H3 E3]. apply wp_ret.
  destruct (wrote_end c _ _ _ H3) as (evs & Hc & Hr); [by do 2 (etrans; [done|])|].
  exists evs. split; [done|]. destruct Hr as [(Hr & Ha & HL)|Hr]; [left|by right].
  split; [done|]. split; [done|]. do 3 eexists. split; [|apply split_22].
  revert HL. cbn. intros HL. inversion HL as [|? ? ? HL']. inversion HL' as [|? ? ? HL'']. inversion HL''.
  by repeat constructor.
Qed.

Lemma corr_offs_spec oor ppm : Z.abs ppm <= 1953 -> corr_offs oor ppm = - Z.quot (ppm * 2 ^ 24) 1000000.
Proof.
  intros Hp. unfold corr_offs, d_to_i16, TWO_POW. rewrite i32_small by (unfold is_i32; lia).
  rewrite ddiv_scaled_trunc by lia.
  replace (ppm * -1 * 2 ^ 24) with (- (ppm * 2 ^ 24)) by lia. rewrite Z.quot_opp_l by lia.
  assert (Z.abs (Z.quot (ppm * 2 ^ 24) 1000000) <= 32766).
  { rewrite <- Z.quot_abs by lia. rewrite Z.quot_div_nonneg by lia.
    assert (Z.abs (ppm * 2 ^ 24) / Z.abs 1000000 < 32767) by (apply Z.div_lt_upper_bound; lia). lia. }
  by replace (_ && _) with true by lia.
Qed.

(** Rtlsdr_set_sample_freq_correction: up to 1953 ppm either way, where the
    conversion to int16_t has a value, the double arithmetic gives the
    integer quotient; when the call returns 0 the 14 bits of the resampler
    correction register hold -ppm * 2^24 / 10^6 modulo 2^14. *)
Theorem rtlsdr_set_sample_freq_correction_register (ppm : Z) (c : core) :
  Z.abs ppm <= 1953 ->
  wp (rtlsdr_set_sample_freq_correction ppm)
    (fun r c' => exists evs, after c evs c' /\
       (r = 0 /\ usb_acked evs /\
          (exists b1 b0, Forall (holds (demod_regs (usb_log c'))) [(1, 0x3e, b1); (1, 0x3f, b0)] /\
             256 * b1 + b0 = (- Z.quot (ppm * 2 ^ 24) 1000000) mod 2 ^ 14) \/
        r = -1 /\ ~ usb_acked evs)) c.
Proof.
  intros Hp. unfold rtlsdr_set_sample_freq_correction. wp_step. apply wp_gets. cbv zeta.
  rewrite corr_offs_spec by done. set (v := - Z.quot _ _) in *.
  pose proof (wrote_now c) as H.
  wp_step. eapply wp_mono; [|eapply wrote_step; [by right|done|by apply (mask_u8 _ 8)|exact H]].
  cbn [others List.filter]. intros r1 c1 [H1 E1]. unfold or_rc in H1. rewrite Z.lor_0_l in H1.
  wp_step. eapply wp_mono; [|eapply wrote_step; [by right|done|by apply (mask_u8 _ 6)|exact H1]].
  intros r2 c2 [H2 E2]. apply wp_ret.
  destruct (wrote_end c _ _ _ H2) as (evs & Hc & Hr); [by etrans|].
  exists evs. split; [done|]. destruct Hr as [(Hr & Ha & HL)|Hr]; [left|by right].
  split; [done|]. split; [done|]. do 2 eexists. split; [|apply split_14].
  revert HL. cbn. intros HL. inversion HL as [|? ? ? HL']. inversion HL'. by repeat constructor.
Qed.

(** The register of the demodulator, read as a signed number. *)
Definition i14 (x : Z) : Z := (x + 2 ^ 13) mod 2 ^ 14 - 2 ^ 13.

(** The correction register has 14 bits, and nothing refuses a larger
    correction: from 489 to 976 ppm the value that reaches the demodulator has
    the wrong sign, although the call succeeds. *)
Lemma sample_freq_correction_wraps (oor : double -> Z) (ppm : Z) :
  489 <= Z.abs ppm <= 976 ->
  let offs := corr_offs oor ppm in
  Z.sgn offs = - Z.sgn ppm /\ Z.sgn (i14 (256 * ((offs ≫ 8) .& 0x3f) + (offs .& 0xff))) = Z.sgn ppm.
Proof.
  intros Hp. cbv zeta. rewrite corr_offs_spec, split_14 by lia. set (q := Z.quot (ppm * 2 ^ 24) 1000000).
  assert (Hq : 8204 <= Z.abs q < 16375 /\ Z.sgn q = Z.sgn ppm).
  { destruct (Z.ltb_spec ppm 0) as [Hn|Hn].
    - assert (E : q = - ((- ppm * 2 ^ 24) / 1000000)).
      { unfold q. rewrite <- Z.quot_div_nonneg by lia. rewrite <- Z.quot_opp_l by lia. f_equal. lia. }
      assert (8204 <= (- ppm * 2 ^ 24) / 1000000) by (apply Z.div_le_lower_bound; lia).
      assert ((- ppm * 2 ^ 24) / 1000000 < 16375) by (apply Z.div_lt_upper_bound; lia). lia.
    - assert (E : q = (ppm * 2 ^ 24) / 1000000) by (unfold q; rewrite Z.quot_div_nonneg; lia).
      assert (8204 <= (ppm * 2 ^ 24) / 1000000) by (apply Z.div_le_lower_bound; lia).
      assert ((ppm * 2 ^ 24) / 1000000 < 16375) by (apply Z.div_lt_upper_bound; lia). lia. }
  split; [lia|]. unfold i14. rewrite Z.add_mod_idemp_l by lia.
  destruct (Z.ltb_spec ppm 0).
  - replace (- q + 2 ^ 13) with ((- q - 2 ^ 13) + 1 * 2 ^ 14) by lia. rewrite Z.mod_add, Z.mod_small by lia. lia.
  - replace (- q + 2 ^ 13) with ((- q + 2 ^ 13 + 2 ^ 14) + (-1) * 2 ^ 14) by lia. rewrite Z.mod_add, Z.mod_small by lia. lia.
Qed.

(** The corrected clocks of rtlsdr_get_xtal_freq: without a correction they
    are the crystal frequencies; with one they are the exact product
    xtal * (1 + ppm / 10^6) rounded down, up to 8e-6 Hz of double rounding,
    and in the range of uint32_t. *)
Theorem rtlsdr_get_xtal_freq_accurate (c : core) :
  0 < rtl_xtal c < 2 ^ 31 -> 0 < tun_xtal c < 2 ^ 31 -> Z.abs (corr c) < 1000000 ->
  let '(r, t) := rtlsdr_get_xtal_freq c in
  is_u32 r /\ -8 <= rtl_xtal c * (1000000 + corr c) - 1000000 * r < 1000000 + 8 /\
  is_u32 t /\ -8 <= tun_xtal c * (1000000 + corr c) - 1000000 * t < 1000000 + 8 /\
  (corr c = 0 -> r = rtl_xtal c /\ t = tun_xtal c).
Proof.
  intros Hr Ht Hc. unfold rtlsdr_get_xtal_freq.
  destruct (ppm_corr_accurate (env_oor (env c)) (rtl_xtal c) (corr c)) as (H1 & H2 & H3); [lia|lia|nia|].
  destruct (ppm_corr_accurate (env_oor (env c)) (tun_xtal c) (corr c)) as (H4 & H5 & H6); [lia|lia|nia|].
  split_and!; try done; try tauto; lia.
Qed.

(** ** Witnesses *)

Definition demo : core := core_ok (fun _ _ _ => 0).

Lemma rtlsdr_set_if_freq_register_witness :
  let x := (rtlsdr_get_xtal_freq demo).1 in
  wp (rtlsdr_set_if_freq 3570000)
    (fun r c' => exists evs, after demo evs c' /\
       (r = 0 /\ usb_acked evs /\
          (exists b2 b1 b0, Forall (holds (demod_regs (usb_log c'))) [(1, 0x19, b2); (1, 0x1a, b1); (1, 0x1b, b0)] /\
             65536 * b2 + 256 * b1 + b0 = (- (3570000 * 2 ^ 22 / x)) mod 2 ^ 22) \/
        r = -1 /\ ~ usb_acked evs)) demo.
Proof. refine (rtlsdr_set_if_freq_register 3570000 demo _ _ _); [lia|split; by vm_compute|by vm_compute]. Defined.

Lemma rtlsdr_set_sample_freq_correction_register_witness :
  wp (rtlsdr_set_sample_freq_correction 52)
    (fun r c' => exists evs, after demo evs c' /\
       (r = 0 /\ usb_acked evs /\
          (exists b1 b0, Forall (holds (demod_regs (usb_log c'))) [(1, 0x3e, b1); (1, 0x3f, b0)] /\
             256 * b1 + b0 = (- Z.quot (52 * 2 ^ 24) 1000000) mod 2 ^ 14) \/
        r = -1 /\ ~ usb_acked evs)) demo.
Proof. refine (rtlsdr_set_sample_freq_correction_register 52 demo _). lia. Defined.

Lemma sample_freq_correction_wraps_witness :
  let offs := corr_offs (fun _ => 0) 500 in
  Z.sgn offs = - Z.sgn 500 /\ Z.sgn (i14 (256 * ((offs ≫ 8) .& 0x3f) + (offs .& 0xff))) = Z.sgn 500.
Proof. refine (sample_freq_correction_wraps (fun _ => 0) 500 _). lia. Defined.

Lemma rtlsdr_get_xtal_freq_accurate_witness :
  let c := set_corr (-52) demo in
  let '(r, t) := rtlsdr_get_xtal_freq c in
  is_u32 r /\ -8 <= rtl_xtal c * (1000000 + corr c) - 1000000 * r < 1000000 + 8 /\
  is_u32 t /\ -8 <= tun_xtal c * (1000000 + corr c) - 1000000 * t < 1000000 + 8 /\
  (corr c = 0 -> r = rtl_xtal c /\ t = tun_xtal c).
Proof. refine (rtlsdr_get_xtal_freq_accurate (set_corr (-52) demo) _ _ _); cbn; lia. Defined.
