(* ===== verification/Eeprom.v ===== *)
(** * The EEPROM

    rtlsdr_write_eeprom and rtlsdr_read_eeprom against an EEPROM that gives
    back what is written to it (I2cSim.v, at the address EEPROM_ADDR). *)

From S2P Require Import Prelude RtlsdrI2c I2cSim Double Usb UsbSpec Demod DemodSpec.

Section eeprom.
(** The contents before the first transfer of the log. *)
Context (init : Z -> Z).

Definition ee_storage (r : Z) : Z := 0xff.

(** The contents and the address counter: a write sets the counter, and bytes
    written or read move it on. *)
Definition ee_chip (st : gmap Z Z * Z) (ev : i2c_event) : gmap Z Z * Z :=
  match ev with
  | I2cWrite a (r :: vals) _ => if a =? EEPROM_ADDR then (write_regs st.1 r vals, r + Z.of_nat (length vals)) else st
  | I2cRead a data _ => if a =? EEPROM_ADDR then (st.1, st.2 + Z.of_nat (length data)) else st
  | _ => st
  end.
Definition ee_run_step (s : bool * (gmap Z Z * Z)) (ev : i2c_event) : bool * (gmap Z Z * Z) :=
  (s.1 && ev_good EEPROM_ADDR init ee_storage s.2 ev, ee_chip s.2 ev).
Definition ee_run (c : core) : bool * (gmap Z Z * Z) := fold_left ee_run_step (i2c_log c) (true, (∅, 0)).

(** Every transfer to the EEPROM succeeded, and reads gave its contents. *)
Definition ee_good (c : core) : Prop := (ee_run c).1 = true.

(** The byte at address [r]. *)
Definition ee_byte (c : core) (r : Z) : Z := creg init (ee_run c).2.1 r.

Lemma ee_step c ev evs c' :
  after c evs c' -> omap usb_to_i2c evs = [ev] -> ee_run c' = ee_run_step (ee_run c) ev.
Proof. intros Hc He. unfold ee_run. by rewrite (after_i2c_log _ _ _ Hc), He, fold_left_app. Qed.

(** Setting the address. *)
Lemma ee_point r c :
  wp (rtlsdr_write_array IICB EEPROM_ADDR [r] 1)
    (fun rc c' => i2c_log c' = i2c_log c ++ [I2cWrite EEPROM_ADDR [r] rc] /\ (forall a, ee_byte c' a = ee_byte c a) /\
       (ee_run c').2.2 = r /\ (ee_good c' -> ee_good c /\ rc = 1)) c.
Proof.
  unfold rtlsdr_write_array. cbv zeta. eapply wp_mono; [|apply control_out_wp; cbn; lia]. intros rc c' Hc.
  pose proof (ee_step _ (I2cWrite EEPROM_ADDR [r] rc) _ _ Hc eq_refl) as E.
  split; [apply (after_i2c_log _ _ _ Hc)|]. unfold ee_byte, ee_good. rewrite E.
  destruct (ee_run c) as [g [m p]]. split; [done|]. split; [cbn; lia|]. cbn. intros H. split; [|lia]. by destruct g.
Qed.

Lemma u8_land_ff v : is_u8 v -> v .& 0xff = v.
Proof. intros Hv. rewrite land_0xff. by apply u8_small. Qed.

(** Reading the byte at the address. *)
Lemma ee_read old c :
  is_u8 old ->
  wp (rtlsdr_read_array IICB EEPROM_ADDR [old] 1)
    (fun p c' => exists v, p.2 = [v] /\ is_u8 v /\ i2c_log c' = i2c_log c ++ [I2cRead EEPROM_ADDR [v] p.1] /\
       (forall a, ee_byte c' a = ee_byte c a) /\ (ee_run c').2.2 = (ee_run c).2.2 + 1 /\
       (ee_good c' -> ee_good c /\ p.1 = 1 /\ v = ee_byte c (ee_run c).2.2)) c.
Proof.
  intros Ho. unfold rtlsdr_read_array. cbv zeta. eapply wp_mono; [|apply control_in_wp; [cbn; lia|by constructor]].
  intros [rc data] c' (d & Hc & Hd & Hdu & E). cbn [fst snd] in *. subst data.
  destruct d as [|v [|??]]; cbn [length] in Hd; try lia. exists v. split; [done|]. split; [exact (Forall_inv Hdu)|].
  pose proof (Forall_inv Hdu) as Hv.
  pose proof (ee_step _ (I2cRead EEPROM_ADDR [v] rc) _ _ Hc eq_refl) as E.
  split; [apply (after_i2c_log _ _ _ Hc)|]. unfold ee_byte, ee_good. rewrite E.
  destruct (ee_run c) as [g [m p]]. split; [done|]. split; [done|].
  cbn [ee_run_step fst snd ev_good ee_chip reads_back]. change (ee_storage p) with 0xff.
  rewrite !u8_land_ff by (done || apply creg_u8).
  intros H. destruct g; [|done]. cbn in H. split; [done|]. lia.
Qed.

(** Writing a byte. *)
Lemma ee_write r v c :
  is_u8 v ->
  wp (rtlsdr_write_array IICB EEPROM_ADDR [r; v] 2)
    (fun rc c' => i2c_log c' = i2c_log c ++ [I2cWrite EEPROM_ADDR [r; v] rc] /\
       (forall a, ee_byte c' a = if a =? r then v else ee_byte c a) /\ (ee_good c' -> ee_good c /\ rc = 2)) c.
Proof.
  intros Hv. unfold rtlsdr_write_array. cbv zeta. eapply wp_mono; [|apply control_out_wp; cbn; lia]. intros rc c' Hc.
  pose proof (ee_step _ (I2cWrite EEPROM_ADDR [r; v] rc) _ _ Hc eq_refl) as E.
  split; [apply (after_i2c_log _ _ _ Hc)|]. unfold ee_byte, ee_good. rewrite E.
  destruct (ee_run c) as [g [m p]]. split.
  - intros a. cbn [ee_run_step ee_chip fst snd write_regs]. change (EEPROM_ADDR =? EEPROM_ADDR) with true. cbn [fst].
    rewrite creg_insert by done. destruct (decide (a = r)); destruct (Z.eqb_spec a r); done.
  - cbn. intros H. split; [|lia]. by destruct g.
Qed.

(** The byte of [data] at [r], when [data] starts at [base]. *)
Definition spliced (base : Z) (data : list Z) (old : Z -> Z) (r : Z) : Z :=
  if (base <=? r) && (r <? base + Z.of_nat (length data)) then default 0 (data !! Z.to_nat (r - base)) else old r.

Lemma spliced_cons base b data old r :
  spliced base (b :: data) old r = spliced (base + 1) data (fun a => if a =? base then b else old a) r.
Proof.
  unfold spliced. cbn [length]. destruct (Z.eqb_spec r base) as [->|Hne].
  - replace ((base <=? base) && (base <? base + Z.of_nat (S (length data)))) with true by lia.
    replace ((base + 1 <=? base) && (base <? base + 1 + Z.of_nat (length data))) with false by lia.
    by rewrite Z.sub_diag.
  - replace ((base <=? r) && (r <? base + Z.of_nat (S (length data))))
      with ((base + 1 <=? r) && (r <? base + 1 + Z.of_nat (length data))) by (apply eq_true_iff_eq; lia).
    destruct (_ && _) eqn:E; [|done].
    by replace (Z.to_nat (r - base)) with (S (Z.to_nat (r - (base + 1)))) by lia.
Qed.

(** The data writes among the transfers. *)
Definition ee_writes (evs : list i2c_event) : list (Z * Z) :=
  omap (fun ev => match ev with I2cWrite _ [r; v] _ => Some (r, v) | _ => None end) evs.

Lemma ee_writes_app l1 l2 : ee_writes (l1 ++ l2) = ee_writes l1 ++ ee_writes l2.
Proof. apply omap_app. Qed.

(** The bytes that differ from the old contents, with their addresses. *)
Fixpoint differing (base : Z) (data : list Z) (old : Z -> Z) : list (Z * Z) :=
  match data with
  | [] => []
  | b :: data' => (if old base =? b then [] else [(base, b)]) ++ differing (base + 1) data' old
  end.

Lemma differing_ext base data f g : (forall a, base <= a -> f a = g a) -> differing base data f = differing base data g.
Proof.
  revert base. induction data as [|b data IH]; intros base Hfg; cbn [differing]; [done|].
  rewrite Hfg by lia. f_equal. apply IH. intros. apply Hfg. lia.
Qed.

(** What a run of the write loop has done. *)
Definition written (base : Z) (data : list Z) (c : core) (rc : Z) (c' : core) : Prop :=
  (rc = 0 \/ rc = -3) /\ exists evs, i2c_log c' = i2c_log c ++ evs /\
    (ee_good c' -> ee_good c /\ rc = 0 /\ ee_writes evs = differing base data (ee_byte c) /\
       forall r, ee_byte c' r = spliced base data (ee_byte c) r).

Lemma written_cons base b data c e1 c1 rc c' :
  i2c_log c1 = i2c_log c ++ e1 ->
  (ee_good c1 -> ee_good c /\ ee_writes e1 = (if ee_byte c base =? b then [] else [(base, b)]) /\
     forall a, ee_byte c1 a = if a =? base then b else ee_byte c a) ->
  written (base + 1) data c1 rc c' -> written base (b :: data) c rc c'.
Proof.
  intros Hl Hg (Hrc & evs & Hl' & Hg'). split; [done|]. exists (e1 ++ evs). split; [by rewrite Hl', Hl, app_assoc|].
  intros H. destruct (Hg' H) as (H1 & -> & Hw & Hs). destruct (Hg H1) as (H2 & Hw1 & Hb). split; [done|]. split; [done|]. split.
  - rewrite ee_writes_app, Hw1, Hw. cbn [differing]. f_equal. apply differing_ext. intros a Ha. rewrite Hb.
    by rewrite (proj2 (Z.eqb_neq a base)) by lia.
  - intros r. rewrite Hs, spliced_cons. unfold spliced. destruct (_ && _); [done|]. apply Hb.
Qed.

Lemma write_eeprom_loop_wp data offset i cmd1 c :
  0 <= i -> 0 <= offset -> i + offset + Z.of_nat (length data) <= 256 -> Forall is_u8 data -> is_u8 cmd1 ->
  wp (write_eeprom_loop data offset i cmd1) (written (i + offset) data c) c.
Proof.
  revert i cmd1 c. induction data as [|b data IH]; intros i cmd1 c Hi Ho Hlen Hu Hc; cbn [write_eeprom_loop length] in *.
  { apply wp_ret. split; [by left|]. exists []. split; [by rewrite app_nil_r|]. intros Hg. split_and!; try done.
    intros r. unfold spliced. cbn [length]. by replace (_ && _) with false by lia. }
  inversion Hu as [|? ? Hb Hu']. subst. rewrite u8_small by (unfold is_u8; lia).
  wp_step. eapply wp_mono; [|apply ee_point]. intros rc1 c1 (L1 & B1 & P1 & G1).
  wp_step. eapply wp_mono; [|by apply ee_read]. intros [rc2 d2] c2 (v & -> & Hv & L2 & B2 & _ & G2). cbn [fst snd head] in *.
  wp_step. apply wp_ret. rewrite P1 in G2.
  assert (L12 : i2c_log c2 = i2c_log c ++ [I2cWrite EEPROM_ADDR [i + offset] rc1; I2cRead EEPROM_ADDR [v] rc2])
    by (rewrite L2, L1, <- app_assoc; done).
  assert (G12 : ee_good c2 -> ee_good c /\ v = ee_byte c (i + offset)).
  { intros Hg. destruct (G2 Hg) as (Hg1 & _ & ->). split; [by apply G1|]. apply B1. }
  destruct (Z.eqb_spec v b) as [->|Hne].
  - eapply wp_mono; [|apply IH; [lia..|done|done]]. intros rc c' Hw. replace (i + 1 + offset) with (i + offset + 1) in Hw by lia.
    eapply written_cons; [exact L12| |exact Hw]. intros Hg. destruct (G12 Hg) as [Hg0 <-]. split; [done|].
    rewrite Z.eqb_refl. split; [done|]. intros a. rewrite B2, B1. destruct (Z.eqb_spec a (i + offset)) as [->|]; [|done].
    destruct (G12 Hg) as [_ <-]. done.
  - wp_step. eapply wp_mono; [|by apply ee_write]. intros rc3 c3 (L3 & B3 & G3).
    assert (L13 : i2c_log c3 = i2c_log c ++ [I2cWrite EEPROM_ADDR [i + offset] rc1; I2cRead EEPROM_ADDR [v] rc2;
      I2cWrite EEPROM_ADDR [i + offset; b] rc3]) by (rewrite L3, L12, <- app_assoc; done).
    assert (HW : ee_good c3 -> ee_good c /\
      ee_writes [I2cWrite EEPROM_ADDR [i + offset] rc1; I2cRead EEPROM_ADDR [v] rc2; I2cWrite EEPROM_ADDR [i + offset; b] rc3]
        = (if ee_byte c (i + offset) =? b then [] else [(i + offset, b)]) /\
      forall a, ee_byte c3 a = if a =? i + offset then b else ee_byte c a).
    { intros [Hg _]%G3. destruct (G12 Hg) as [Hg0 <-]. split; [done|].
      rewrite (proj2 (Z.eqb_neq v b) Hne). split; [done|]. intros a. by rewrite B3, B2, B1. }
    destruct (Z.eqb_spec rc3 2) as [->|Hrc].
    + eapply wp_mono; [|apply IH; [lia..|done|done]]. intros rc c' Hw. replace (i + 1 + offset) with (i + offset + 1) in Hw by lia.
      by eapply written_cons.
    + apply wp_ret. split; [by right|]. eexists. split; [exact L13|]. intros Hg. by destruct (G3 Hg) as [_ ?].
Qed.

Lemma write_eeprom_wp data offset c :
  0 <= offset -> Z.of_nat (length data) + offset <= 256 -> Forall is_u8 data ->
  wp (rtlsdr_write_eeprom data offset (Z.of_nat (length data))) (written offset data c) c.
Proof.
  intros Ho Hfit Hu. unfold rtlsdr_write_eeprom. replace (256 <? _) with false by lia.
  rewrite Z.ltb_irrefl, Nat2Z.id, firstn_all. wp_step. eapply wp_mono; [|apply uninit_wp].
  intros [|a [|cmd1 [|??]]] ? (-> & Hl & Hb); try done. wp_step. apply wp_ret.
  apply (write_eeprom_loop_wp _ _ 0); [lia..|done|exact (Forall_inv (Forall_inv_tail Hb))].
Qed.

(** C25: rtlsdr_write_eeprom. A range that does not fit the 256 bytes is refused
    with -2 and no transfer. Otherwise, on an EEPROM that works, the result is
    0, the range then holds the data and every other byte is as before, and
    the bytes written are exactly those that differed. *)
Theorem rtlsdr_write_eeprom_contents (data : list Z) (offset : Z) (c : core) :
  0 <= offset -> Forall is_u8 data ->
  wp (rtlsdr_write_eeprom data offset (Z.of_nat (length data)))
    (fun rc c' =>
       if 256 <? Z.of_nat (length data) + offset then rc = -2 /\ c' = c
       else (rc = 0 \/ rc = -3) /\ exists evs, i2c_log c' = i2c_log c ++ evs /\
         (ee_good c' -> rc = 0 /\ ee_writes evs = differing offset data (ee_byte c) /\
            forall r, ee_byte c' r = spliced offset data (ee_byte c) r)) c.
Proof.
  intros Ho Hu. destruct (Z.ltb_spec 256 (Z.of_nat (length data) + offset)).
  { unfold rtlsdr_write_eeprom. replace (256 <? _) with true by lia. by apply wp_ret. }
  eapply wp_mono; [|apply write_eeprom_wp; [done|lia|done]].
  intros rc c' (Hrc & evs & Hlog & Hg). split; [done|]. exists evs. split; [done|]. by intros (_ & H')%Hg.
Qed.

(** The [n] bytes from [base] on. *)
Definition ee_range (c : core) (base : Z) (n : nat) : list Z := map (fun i => ee_byte c (base + i)) (zseq n).

Lemma ee_range_S c base n : ee_range c base (S n) = ee_byte c base :: ee_range c (base + 1) n.
Proof.
  unfold ee_range, zseq. cbn [seq map]. rewrite Z.add_0_r. f_equal. rewrite <- fmap_S_seq.
  rewrite !map_map. apply map_ext. intros k. f_equal. lia.
Qed.

Lemma ee_range_ext c c' base n : (forall a, ee_byte c a = ee_byte c' a) -> ee_range c base n = ee_range c' base n.
Proof. intros H. apply map_ext. intros. apply H. Qed.

Lemma read_eeprom_loop_wp data r c :
  Forall is_u8 data ->
  wp (read_eeprom_loop data r)
    (fun p c' => length p.2 = length data /\ Forall is_u8 p.2 /\ (forall a, ee_byte c' a = ee_byte c a) /\
       (exists evs, i2c_log c' = i2c_log c ++ evs /\ ee_writes evs = []) /\
       (ee_good c' -> ee_good c /\ p.1 = (if bool_decide (data = []) then r else 1) /\
          p.2 = ee_range c (ee_run c).2.2 (length data))) c.
Proof.
  revert r c. induction data as [|b data IH]; intros r c Hu; cbn [read_eeprom_loop length].
  { apply wp_ret. split_and!; try done. exists []. by rewrite app_nil_r. }
  inversion Hu as [|? ? Hb Hu']. subst. wp_step. eapply wp_mono; [|by apply ee_read].
  intros [rc d] c1 (v & -> & Hv & L1 & B1 & P1 & G1). cbn [fst snd head] in *. wp_step. apply wp_ret. cbn [fst].
  destruct (Z.ltb_spec rc 0).
  { apply wp_ret. cbn [fst snd length]. split_and!; [done|by constructor|done|eauto|]. intros Hg. destruct (G1 Hg) as (_ & ? & _). lia. }
  wp_step. eapply wp_mono; [|by apply IH].
  intros [rc2 d2] c2 (Hl2 & Hu2 & B2 & (e2 & L2 & W2) & G2). cbn [fst snd] in *. apply wp_ret. cbn [fst snd length].
  split; [lia|]. split; [by constructor|]. split; [intros a; by rewrite B2, B1|]. split.
  - exists (I2cRead EEPROM_ADDR [v] rc :: e2). split; [by rewrite L2, L1, <- app_assoc|done].
  - intros Hg. destruct (G2 Hg) as (Hg1 & E1 & E2). destruct (G1 Hg1) as (Hg0 & -> & ->).
    split; [done|]. rewrite bool_decide_false by done. split; [rewrite E1; by destruct (bool_decide _)|].
    rewrite ee_range_S, E2, P1. f_equal. by apply ee_range_ext.
Qed.

Lemma read_eeprom_wp data offset len c :
  0 <= len -> 0 <= offset -> len + offset <= 256 -> len <= Z.of_nat (length data) -> Forall is_u8 data ->
  wp (rtlsdr_read_eeprom data offset len)
    (fun p c' => length p.2 = length data /\ (forall a, ee_byte c' a = ee_byte c a) /\ Forall is_u8 p.2 /\
       (exists evs, i2c_log c' = i2c_log c ++ evs /\ ee_writes evs = []) /\
       (ee_good c' -> ee_good c /\ p.1 = 1 /\
          p.2 = ee_range c offset (Z.to_nat len) ++ drop (Z.to_nat len) data)) c.
Proof.
  intros Hl Ho Hfit Hd Hu. unfold rtlsdr_read_eeprom. replace (256 <? len + offset) with false by lia.
  replace (Z.of_nat (length data) <? len) with false by lia. wp_step. eapply wp_mono; [|apply ee_point].
  intros rc c1 (L1 & B1 & P1 & G1). destruct (Z.ltb_spec rc 0).
  { apply wp_ret. cbn [fst snd]. split_and!; [done|done|done|eauto|]. intros Hg. destruct (G1 Hg). lia. }
  wp_step. eapply wp_mono; [|apply read_eeprom_loop_wp; by apply Forall_take].
  intros [rc2 d2] c2 (Hl2 & Hu2 & B2 & (e2 & L2 & W2) & G2). cbn [fst snd] in *. apply wp_ret. cbn [fst snd].
  rewrite length_take in Hl2. split; [rewrite length_app, length_drop; lia|].
  split; [intros a; by rewrite B2, B1|]. split; [apply Forall_app; split; [done|by apply Forall_drop]|]. split.
  - exists (I2cWrite EEPROM_ADDR [offset] rc :: e2). split; [by rewrite L2, L1, <- app_assoc|done].
  - intros Hg. destruct (G2 Hg) as (Hg1 & -> & ->). destruct (G1 Hg1) as (Hg0 & ->).
    split; [done|]. split; [by destruct (bool_decide _)|]. rewrite P1, length_take. f_equal.
    rewrite (ee_range_ext c1 c) by done. f_equal. lia.
Qed.

Lemma ee_range_spliced c base data :
  (forall r, ee_byte c r = spliced base data (ee_byte c) r) -> ee_range c base (length data) = data.
Proof.
  intros H. apply list_eq_same_length with (length data); [done| |].
  - unfold ee_range, zseq. by rewrite !length_map, length_seq.
  - intros i x y Hi Hx Hy. unfold ee_range, zseq in Hx.
    rewrite list_lookup_fmap, list_lookup_fmap, lookup_seq_lt in Hx by done. cbn in Hx. injection Hx as <-.
    rewrite H. unfold spliced. replace (_ && _) with true by lia. replace (Z.to_nat _) with i by lia. by rewrite Hy.
Qed.

(** EEPROM round trip: what rtlsdr_write_eeprom wrote to a working EEPROM,
    rtlsdr_read_eeprom reads back; the read writes nothing. *)
Theorem eeprom_roundtrip (data buf : list Z) (offset : Z) (c : core) :
  0 <= offset -> Z.of_nat (length data) + offset <= 256 -> Forall is_u8 data ->
  length buf = length data -> Forall is_u8 buf ->
  let len := Z.of_nat (length data) in
  wp (rtlsdr_write_eeprom data offset len;; rtlsdr_read_eeprom buf offset len)
    (fun p c' => ee_good c' -> p.1 = 1 /\ p.2 = data /\ forall r, ee_byte c' r = spliced offset data (ee_byte c) r) c.
Proof.
  cbv zeta. intros Ho Hfit Hu Hlb Hub. wp_step.
  eapply wp_mono; [|by apply write_eeprom_wp].
  intros rc c1 (Hrc & evs & L1 & G1). eapply wp_mono; [|apply read_eeprom_wp; [lia..|done]].
  intros [rc2 d] c2 (_ & B2 & _ & _ & G2). cbn [fst snd] in *. intros Hg.
  destruct (G2 Hg) as (Hg1 & -> & ->). destruct (G1 Hg1) as (_ & _ & _ & Hs).
  split; [done|]. rewrite Nat2Z.id, drop_ge, app_nil_r by lia. split; [|intros r; by rewrite B2].
  apply ee_range_spliced. intros r. rewrite Hs at 1. unfold spliced. destruct (_ && _) eqn:E; [done|].
  rewrite Hs. unfold spliced. by rewrite E.
Qed.
End eeprom.

(** ** A simulated EEPROM *)

Definition ee_sim (init : Z -> Z) : core :=
  core_ok (fun log _ i =>
    let st := fold_left ee_chip (omap usb_to_i2c log) (∅, 0) in creg init st.1 (st.2 + Z.of_nat i)).

Definition ee_zero (_ : Z) : Z := 0.

Lemma rtlsdr_write_eeprom_contents_witness :
  wp (rtlsdr_write_eeprom [0x28; 0x32; 0; 0x0b] 7 4)
    (fun rc c' =>
       if 256 <? 4 + 7 then rc = -2 /\ c' = ee_sim ee_zero
       else (rc = 0 \/ rc = -3) /\ exists evs, i2c_log c' = i2c_log (ee_sim ee_zero) ++ evs /\
         (ee_good ee_zero c' -> rc = 0 /\
            ee_writes evs = differing 7 [0x28; 0x32; 0; 0x0b] (ee_byte ee_zero (ee_sim ee_zero)) /\
            forall r, ee_byte ee_zero c' r = spliced 7 [0x28; 0x32; 0; 0x0b] (ee_byte ee_zero (ee_sim ee_zero)) r))
    (ee_sim ee_zero).
Proof.
  refine (rtlsdr_write_eeprom_contents ee_zero [0x28; 0x32; 0; 0x0b] 7 (ee_sim ee_zero) _ _); [lia|by_compute].
Defined.

Lemma eeprom_roundtrip_witness :
  wp (rtlsdr_write_eeprom [1; 2; 0; 3] 250 4;; rtlsdr_read_eeprom [9; 9; 9; 9] 250 4)
    (fun p c' => ee_good ee_zero c' -> p.1 = 1 /\ p.2 = [1; 2; 0; 3] /\
       forall r, ee_byte ee_zero c' r = spliced 250 [1; 2; 0; 3] (ee_byte ee_zero (ee_sim ee_zero)) r) (ee_sim ee_zero).
Proof.
  refine (eeprom_roundtrip ee_zero [1; 2; 0; 3] [9; 9; 9; 9] 250 (ee_sim ee_zero) _ _ _ _ _);
    [lia|by_compute|by_compute|done|by_compute].
Defined.

(** The simulated EEPROM works: the run of the witness is good. *)
Example eeprom_roundtrip_good :
  match (rtlsdr_write_eeprom [1; 2; 0; 3] 250 4;; rtlsdr_read_eeprom [9; 9; 9; 9] 250 4) (ee_sim ee_zero) with
  | Some (p, c') => p = (1, [1; 2; 0; 3]) /\ ee_good ee_zero c'
  | None => False
  end.
Proof. vm_compute. done. Qed.

(** ** A read that fails while writing *)

(** The first byte can be read, then no read succeeds; writes are accepted. *)
Definition env_read_once (v : Z) : usb_env :=
  mk_env
    (fun log req => match req with ReqOut _ _ data => Z.of_nat (length data) | ReqIn _ _ len => if (length log <? 2)%nat then len else -1 end)
    (fun log _ _ => if (length log <? 2)%nat then Some v else None)
    (fun _ _ => 0) (fun _ => 0).

(** Runs a program on concrete lists. *)
Ltac run_closed :=
  repeat (progress (cbn;
    repeat match goal with
      | |- context [Z.of_nat ?n] => is_ground n; let k := eval vm_compute in (Z.of_nat n) in change (Z.of_nat n) with k
      | |- context [Z.to_nat ?z] => is_ground z; let k := eval vm_compute in (Z.to_nat z) in change (Z.to_nat z) with k
      | |- context [i32 ?z] => is_ground z; let k := eval vm_compute in (i32 z) in change (i32 z) with k
      end)).

Ltac exec_call :=
  wp_step; unfold wp at 1, uninit, rtlsdr_write_array, rtlsdr_read_array, control_out, control_in; run_closed.

(** rtlsdr_write_eeprom does not look at the results of its reads: when the
    read of a byte fails, the comparison uses the byte left in the buffer. Two
    equal bytes are written to an EEPROM whose second read fails: the second is
    never written, and the call returns 0. *)
Lemma write_eeprom_skips_unread (v b offset : Z) (c : core) :
  is_u8 v -> is_u8 b -> v <> b -> 0 <= offset <= 254 -> env c = env_read_once v -> usb_log c = [] ->
  wp (rtlsdr_write_eeprom [b; b] offset 2)
    (fun rc c' => rc = 0 /\ ee_writes (i2c_log c') = [(offset, b)]) c.
Proof.
  intros Hv Hb Hne Ho He Hl. destruct c as [e l rx tx co f m p]. cbn [env usb_log] in He, Hl. subst e l.
  unfold rtlsdr_write_eeprom. replace (256 <? 2 + offset) with false by lia. run_closed.
  do 5 exec_call. rewrite (u8_small v) by done. replace (v =? b) with false by lia. do 4 exec_call.
  rewrite Z.eqb_refl. apply wp_ret. split; [done|]. unfold core_i2c_log. cbn [usb_log set_usb_log].
  change (u16 ((IICB ≪ 8) .| 16)) with 0x610. change (u16 (IICB ≪ 8)) with 0x600.
  cbn. rewrite u8_small by (unfold is_u8; lia). done.
Qed.

Lemma write_eeprom_skips_unread_witness :
  wp (rtlsdr_write_eeprom [5; 5] 16 2)
    (fun rc c' => rc = 0 /\ ee_writes (i2c_log c') = [(16, 5)])
    (mk_core (env_read_once 0xff) [] 28800000 28800000 0 fir_default "" "").
Proof.
  refine (write_eeprom_skips_unread 0xff 5 16 (mk_core (env_read_once 0xff) [] 28800000 28800000 0 fir_default "" "")
            _ _ _ _ _ _); first [by_compute|lia|reflexivity].
Defined.
