(* ===== verification/Device.v ===== *)
(** * librtlsdr.c: the device API

    [rtlsdr_dev] is the device struct: the part the lower layers use ([core]),
    the structs of the tuner drivers, and the settings.  [tuners] is the table
    of tuner interfaces.  rtlsdr_set_center_freq and
    _rtlsdr_set_direct_sampling call each other; the model gives them fuel
    ([set_center_freq_fuel]), and DeviceInv.v proves that 3 is enough in every
    state. *)

From S2P Require Import Prelude RtlsdrI2c R82xx E4k Fc0012 Fc0013 Fc2580 Double Usb Demod.

(* include/rtl-sdr.h: rtlsdr_tuner *)
Inductive rtlsdr_tuner : Type :=
  | RTLSDR_TUNER_UNKNOWN
  | RTLSDR_TUNER_E4000
  | RTLSDR_TUNER_FC0012
  | RTLSDR_TUNER_FC0013
  | RTLSDR_TUNER_FC2580
  | RTLSDR_TUNER_R820T
  | RTLSDR_TUNER_R828D.

#[export] Instance rtlsdr_tuner_eq_dec : EqDecision rtlsdr_tuner.
Proof. solve_decision. Defined.

(** The settings and driver structs of [struct rtlsdr_dev].  [dev_r82xx]
    holds r82xx_p with the r82xx_c it points to. *)
(* src/librtlsdr.c:95-132 rtlsdr_dev *)
Record rtlsdr_dev : Type := mk_dev {
  dcore : core;
  dev_rate : Z;
  dev_direct_sampling : Z;
  dev_tuner_type : rtlsdr_tuner;
  dev_freq : Z;
  dev_bw : Z;
  dev_offs_freq : Z;
  dev_gain : Z;
  dev_e4k : e4k_state;
  dev_r82xx : r82xx_priv;
  dev_force_bt : Z;
  dev_direct_sampling_mode : Z;
}.

Definition set_core (v : core) (d : rtlsdr_dev) : rtlsdr_dev :=
  mk_dev v (dev_rate d) (dev_direct_sampling d) (dev_tuner_type d) (dev_freq d) (dev_bw d) (dev_offs_freq d) (dev_gain d) (dev_e4k d) (dev_r82xx d) (dev_force_bt d) (dev_direct_sampling_mode d).
Definition set_rate (v : Z) (d : rtlsdr_dev) : rtlsdr_dev :=
  mk_dev (dcore d) v (dev_direct_sampling d) (dev_tuner_type d) (dev_freq d) (dev_bw d) (dev_offs_freq d) (dev_gain d) (dev_e4k d) (dev_r82xx d) (dev_force_bt d) (dev_direct_sampling_mode d).
Definition set_ds (v : Z) (d : rtlsdr_dev) : rtlsdr_dev :=
  mk_dev (dcore d) (dev_rate d) v (dev_tuner_type d) (dev_freq d) (dev_bw d) (dev_offs_freq d) (dev_gain d) (dev_e4k d) (dev_r82xx d) (dev_force_bt d) (dev_direct_sampling_mode d).
Definition set_tuner_type (v : rtlsdr_tuner) (d : rtlsdr_dev) : rtlsdr_dev :=
  mk_dev (dcore d) (dev_rate d) (dev_direct_sampling d) v (dev_freq d) (dev_bw d) (dev_offs_freq d) (dev_gain d) (dev_e4k d) (dev_r82xx d) (dev_force_bt d) (dev_direct_sampling_mode d).
Definition set_freq (v : Z) (d : rtlsdr_dev) : rtlsdr_dev :=
  mk_dev (dcore d) (dev_rate d) (dev_direct_sampling d) (dev_tuner_type d) v (dev_bw d) (dev_offs_freq d) (dev_gain d) (dev_e4k d) (dev_r82xx d) (dev_force_bt d) (dev_direct_sampling_mode d).
Definition set_bw (v : Z) (d : rtlsdr_dev) : rtlsdr_dev :=
  mk_dev (dcore d) (dev_rate d) (dev_direct_sampling d) (dev_tuner_type d) (dev_freq d) v (dev_offs_freq d) (dev_gain d) (dev_e4k d) (dev_r82xx d) (dev_force_bt d) (dev_direct_sampling_mode d).
Definition set_offs_freq (v : Z) (d : rtlsdr_dev) : rtlsdr_dev :=
  mk_dev (dcore d) (dev_rate d) (dev_direct_sampling d) (dev_tuner_type d) (dev_freq d) (dev_bw d) v (dev_gain d) (dev_e4k d) (dev_r82xx d) (dev_force_bt d) (dev_direct_sampling_mode d).
Definition set_gain (v : Z) (d : rtlsdr_dev) : rtlsdr_dev :=
  mk_dev (dcore d) (dev_rate d) (dev_direct_sampling d) (dev_tuner_type d) (dev_freq d) (dev_bw d) (dev_offs_freq d) v (dev_e4k d) (dev_r82xx d) (dev_force_bt d) (dev_direct_sampling_mode d).
Definition set_e4k (v : e4k_state) (d : rtlsdr_dev) : rtlsdr_dev :=
  mk_dev (dcore d) (dev_rate d) (dev_direct_sampling d) (dev_tuner_type d) (dev_freq d) (dev_bw d) (dev_offs_freq d) (dev_gain d) v (dev_r82xx d) (dev_force_bt d) (dev_direct_sampling_mode d).
Definition set_r82xx (v : r82xx_priv) (d : rtlsdr_dev) : rtlsdr_dev :=
  mk_dev (dcore d) (dev_rate d) (dev_direct_sampling d) (dev_tuner_type d) (dev_freq d) (dev_bw d) (dev_offs_freq d) (dev_gain d) (dev_e4k d) v (dev_force_bt d) (dev_direct_sampling_mode d).
Definition set_force_bt (v : Z) (d : rtlsdr_dev) : rtlsdr_dev :=
  mk_dev (dcore d) (dev_rate d) (dev_direct_sampling d) (dev_tuner_type d) (dev_freq d) (dev_bw d) (dev_offs_freq d) (dev_gain d) (dev_e4k d) (dev_r82xx d) v (dev_direct_sampling_mode d).
Definition set_ds_mode (v : Z) (d : rtlsdr_dev) : rtlsdr_dev :=
  mk_dev (dcore d) (dev_rate d) (dev_direct_sampling d) (dev_tuner_type d) (dev_freq d) (dev_bw d) (dev_offs_freq d) (dev_gain d) (dev_e4k d) (dev_r82xx d) (dev_force_bt d) v.

(** The layers below, as calls on the device. *)
Definition on_core {A} (m : M core A) : M rtlsdr_dev A := zoom dcore set_core m.
Definition on_e4k {A} (m : M (e4k_state * core) A) : M rtlsdr_dev A :=
  zoom (fun d => (dev_e4k d, dcore d)) (fun s d => set_core s.2 (set_e4k s.1 d)) m.
Definition on_r82xx {A} (m : M (r82xx_priv * core) A) : M rtlsdr_dev A :=
  zoom (fun d => (dev_r82xx d, dcore d)) (fun s d => set_core s.2 (set_r82xx s.1 d)) m.

(** The corrected tuner clock, stored into the driver structs. *)
Definition set_fosc (v : Z) (p : e4k_state) : e4k_state :=
  mk_e4k (e4k_i2c_addr p) (e4k_cur_band p)
    (mk_pll v (pll_intended_flo (e4k_vco p)) (pll_flo (e4k_vco p)) (pll_x (e4k_vco p)) (pll_z (e4k_vco p))
       (pll_r (e4k_vco p)) (pll_r_idx (e4k_vco p)) (pll_threephase (e4k_vco p))).
Definition set_i2c_addr (v : Z) (p : e4k_state) : e4k_state := mk_e4k v (e4k_cur_band p) (e4k_vco p).
Definition set_xtal (v : Z) (p : r82xx_priv) : r82xx_priv :=
  let c := cfg p in
  set_cfg (mk_config (i2c_addr c) v (rafael_chip c) (max_i2c_msg_len c) (use_predetect c)) p.

(** The two calls rtlsdr_get_xtal_freq(dev, NULL, ...) of
    rtlsdr_set_xtal_freq and rtlsdr_set_freq_correction. *)
(* src/librtlsdr.c:760-762 rtlsdr_set_xtal_freq *)
Definition update_tuner_clocks : M rtlsdr_dev unit :=
  modify (fun d => let t := (rtlsdr_get_xtal_freq (dcore d)).2 in
    set_e4k (set_fosc t (dev_e4k d)) (set_r82xx (set_xtal t (dev_r82xx d)) d)).

(** ** The tuner interfaces *)

Definition E4K_I2C_ADDR := 0xc8.
Definition E4K_CHECK_ADDR := 0x02.
Definition E4K_CHECK_VAL := 0x40.
Definition FC0012_I2C_ADDR := 0xc6.
Definition FC0012_CHECK_ADDR := 0x00.
Definition FC0012_CHECK_VAL := 0xa1.
Definition FC0013_I2C_ADDR := 0xc6.
Definition FC0013_CHECK_ADDR := 0x00.
Definition FC0013_CHECK_VAL := 0xa3.
Definition FC2580_I2C_ADDR := 0xac.
Definition FC2580_CHECK_ADDR := 0x01.
Definition FC2580_CHECK_VAL := 0x56.
Definition R820T_I2C_ADDR := 0x34.
Definition R828D_I2C_ADDR := 0x74.
Definition R828D_XTAL_FREQ := 16000000.
Definition R82XX_CHECK_ADDR := 0x00.
Definition R82XX_CHECK_VAL := 0x69.
Definition R82XX_IF_FREQ := 3570000.

(* src/librtlsdr.c: e4000_init *)
Definition e4000_init : M rtlsdr_dev Z :=
  modify (fun d => set_e4k (set_fosc (rtlsdr_get_xtal_freq (dcore d)).2 (set_i2c_addr E4K_I2C_ADDR (dev_e4k d))) d);;
  on_e4k e4k_init.

(* src/librtlsdr.c: e4000_exit *)
Definition e4000_exit : M rtlsdr_dev Z := on_e4k (e4k_standby 1).

(* src/librtlsdr.c: e4000_set_freq *)
Definition e4000_set_freq (freq : Z) : M rtlsdr_dev Z := on_e4k (e4k_tune_freq freq).

(* src/librtlsdr.c: e4000_set_bw *)
Definition e4000_set_bw (bw : Z) : M rtlsdr_dev Z :=
  r1 ← on_e4k (e4k_if_filter_bw_set E4K_IF_FILTER_MIX (u32 bw));
  r2 ← on_e4k (e4k_if_filter_bw_set E4K_IF_FILTER_RC (u32 bw));
  r3 ← on_e4k (e4k_if_filter_bw_set E4K_IF_FILTER_CHAN (u32 bw));
  mret (or_rc (or_rc r1 r2) r3).

(* src/librtlsdr.c: e4000_set_gain *)
Definition e4000_set_gain (gain : Z) : M rtlsdr_dev Z :=
  let mixgain := if 340 <? gain then 12 else 4 in
  r ← on_e4k (e4k_set_lna_gain (Z.min 300 (i32 (gain - mixgain * 10))));
  if r =? - EINVAL then mret (-1) else
  r ← on_e4k (e4k_mixer_gain_set mixgain);
  if r =? - EINVAL then mret (-1) else mret 0.

(* src/librtlsdr.c: e4000_set_if_gain *)
Definition e4000_set_if_gain (stage gain : Z) : M rtlsdr_dev Z :=
  on_e4k (e4k_if_gain_set (u8 stage) (i8 (Z.quot gain 10))).

(* src/librtlsdr.c: e4000_set_gain_mode *)
Definition e4000_set_gain_mode (manual : Z) : M rtlsdr_dev Z := on_e4k (e4k_enable_manual_gain (u8 manual)).

(* src/librtlsdr.c: fc0012_set_freq *)
Definition fc0012_set_freq (freq : Z) : M rtlsdr_dev Z :=
  (* select V-band/U-band filter *)
  on_core (rtlsdr_set_gpio_bit 6 (if 300000000 <? freq then 1 else 0));;
  on_core (fc0012_set_params freq 6000000).

(* src/librtlsdr.c: fc0013_set_freq *)
Definition fc0013_set_freq (freq : Z) : M rtlsdr_dev Z := on_core (fc0013_set_params freq 6000000).

(* src/librtlsdr.c: _fc2580_set_freq *)
Definition _fc2580_set_freq (freq : Z) : M rtlsdr_dev Z := on_core (fc2580_SetRfFreqHz freq).

(* src/librtlsdr.c: r820t_init *)
Definition r820t_init : M rtlsdr_dev Z :=
  modify (fun d =>
    let '(addr, chip) :=
      if decide (dev_tuner_type d = RTLSDR_TUNER_R828D) then (R828D_I2C_ADDR, CHIP_R828D)
      else (R820T_I2C_ADDR, CHIP_R820T) in
    set_r82xx (set_cfg (mk_config addr (rtlsdr_get_xtal_freq (dcore d)).2 chip 8 0) (dev_r82xx d)) d);;
  on_r82xx r82xx_init.

(* src/librtlsdr.c: r820t_exit *)
Definition r820t_exit : M rtlsdr_dev Z := on_r82xx r82xx_standby.

(* src/librtlsdr.c: r820t_set_freq *)
Definition r820t_set_freq (freq : Z) : M rtlsdr_dev Z := on_r82xx (r82xx_set_freq freq).

(** [set_center_freq] is rtlsdr_set_center_freq. *)
(* src/librtlsdr.c: r820t_set_bw *)
Definition r820t_set_bw (set_center_freq : Z -> M rtlsdr_dev Z) (bw : Z) : M rtlsdr_dev Z :=
  rate ← gets dev_rate;
  r ← on_r82xx (r82xx_set_bandwidth bw rate);
  if r <? 0 then mret r else
  r ← on_core (rtlsdr_set_if_freq (u32 r));
  if truthy r then mret r else
  freq ← gets dev_freq;
  set_center_freq freq.

(* src/librtlsdr.c: r820t_set_gain *)
Definition r820t_set_gain (gain : Z) : M rtlsdr_dev Z := on_r82xx (r82xx_set_gain 1 gain).

(* src/librtlsdr.c: r820t_set_gain_mode *)
Definition r820t_set_gain_mode (manual : Z) : M rtlsdr_dev Z := on_r82xx (r82xx_set_gain manual 0).

(** Null pointers of the C struct are [None]. *)
(* src/librtlsdr.c: rtlsdr_tuner_iface_t *)
Record rtlsdr_tuner_iface : Type := mk_iface {
  tuner_init : option (M rtlsdr_dev Z);
  tuner_exit : option (M rtlsdr_dev Z);
  tuner_set_freq : option (Z -> M rtlsdr_dev Z);
  tuner_set_bw : option (Z -> M rtlsdr_dev Z);
  tuner_set_gain : option (Z -> M rtlsdr_dev Z);
  tuner_set_if_gain : option (Z -> Z -> M rtlsdr_dev Z);
  tuner_set_gain_mode : option (Z -> M rtlsdr_dev Z);
}.

(** Functions of the table that do nothing. *)
Definition ret0 {A} (_ : A) : M rtlsdr_dev Z := mret 0.

(* src/librtlsdr.c: tuners *)
Definition tuners (set_center_freq : Z -> M rtlsdr_dev Z) (t : rtlsdr_tuner) : rtlsdr_tuner_iface :=
  match t with
  | RTLSDR_TUNER_UNKNOWN => mk_iface None None None None None None None
  | RTLSDR_TUNER_E4000 =>
      mk_iface (Some e4000_init) (Some e4000_exit) (Some e4000_set_freq) (Some e4000_set_bw)
        (Some e4000_set_gain) (Some e4000_set_if_gain) (Some e4000_set_gain_mode)
  | RTLSDR_TUNER_FC0012 =>
      mk_iface (Some (on_core fc0012_init)) (Some (mret 0)) (Some fc0012_set_freq) (Some ret0)
        (Some (fun gain => on_core (fc0012_set_gain gain))) None (Some ret0)
  | RTLSDR_TUNER_FC0013 =>
      mk_iface (Some (on_core fc0013_init)) (Some (mret 0)) (Some fc0013_set_freq) (Some ret0)
        (Some (fun gain => on_core (fc0013_set_lna_gain gain))) None
        (Some (fun manual => on_core (fc0013_set_gain_mode manual)))
  | RTLSDR_TUNER_FC2580 =>
      mk_iface (Some (on_core fc2580_Initialize)) (Some (mret 0)) (Some _fc2580_set_freq)
        (Some (fun _ => on_core (fc2580_SetBandwidthMode 1))) (Some ret0) None (Some ret0)
  | RTLSDR_TUNER_R820T | RTLSDR_TUNER_R828D =>
      mk_iface (Some r820t_init) (Some r820t_exit) (Some r820t_set_freq) (Some (r820t_set_bw set_center_freq))
        (Some r820t_set_gain) None (Some r820t_set_gain_mode)
  end.

(** ** Tuning *)

(** [tuner_type == RTLSDR_TUNER_R820T || tuner_type == RTLSDR_TUNER_R828D] *)
Definition is_r82xx (t : rtlsdr_tuner) : bool :=
  bool_decide (t = RTLSDR_TUNER_R820T) || bool_decide (t = RTLSDR_TUNER_R828D).

(** An interface function that may be missing. *)
Definition if_some {A} (o : option A) (f : A -> M rtlsdr_dev Z) (none : Z) : M rtlsdr_dev Z :=
  match o with Some a => f a | None => mret none end.

Definition repeater (on : Z) : M rtlsdr_dev unit := on_core (rtlsdr_set_i2c_repeater on).
Definition demod_write (page addr val len : Z) : M rtlsdr_dev Z := on_core (rtlsdr_demod_write_reg page addr val len).

(** A call of the tuner with the repeater open, [r] when there is none. *)
Definition with_repeater (f : M rtlsdr_dev Z) : M rtlsdr_dev Z :=
  repeater 1;; r ← f; repeater 0;; mret r.

(** [set_center_freq] is rtlsdr_set_center_freq. *)
(* src/librtlsdr.c: _rtlsdr_set_direct_sampling *)
Definition set_direct_sampling_ (set_center_freq : Z -> M rtlsdr_dev Z) (on : Z) : M rtlsdr_dev Z :=
  t ← gets dev_tuner_type;
  r ← (if truthy on then
         r ← if_some (tuner_exit (tuners set_center_freq t)) with_repeater 0;
         (* disable Zero-IF mode *)
         r1 ← demod_write 1 0xb1 0x1a 1;
         (* disable spectrum inversion *)
         r2 ← demod_write 1 0x15 0x00 1;
         (* only enable In-phase ADC input *)
         r3 ← demod_write 0 0x08 0x4d 1;
         (* swap I and Q ADC, this allows to select between two inputs *)
         r4 ← demod_write 0 0x06 (if 1 <? on then 0x90 else 0x80) 1;
         modify (set_ds on);;
         mret (or_rc (or_rc (or_rc (or_rc r r1) r2) r3) r4)
       else
         r ← if_some (tuner_init (tuners set_center_freq t)) with_repeater 0;
         r ← (if is_r82xx t then
                r1 ← on_core (rtlsdr_set_if_freq R82XX_IF_FREQ);
                (* enable spectrum inversion *)
                r2 ← demod_write 1 0x15 0x01 1;
                mret (or_rc (or_rc r r1) r2)
              else
                r1 ← on_core (rtlsdr_set_if_freq 0);
                (* enable In-phase + Quadrature ADC input *)
                r2 ← demod_write 0 0x08 0xcd 1;
                (* Enable Zero-IF mode *)
                r3 ← demod_write 1 0xb1 0x1b 1;
                mret (or_rc (or_rc (or_rc r r1) r2) r3));
         (* opt_adc_iq = 0, default ADC_I/ADC_Q datapath *)
         r4 ← demod_write 0 0x06 0x80 1;
         modify (set_ds 0);;
         mret (or_rc r r4));
  freq ← gets dev_freq;
  r5 ← set_center_freq freq;
  mret (or_rc r r5).

(** The automatic choice of rtlsdr_set_center_freq. *)
(* src/librtlsdr.c:909-911 rtlsdr_set_center_freq *)
Definition auto_direct_sampling (freq : Z) (d : rtlsdr_dev) : rtlsdr_dev :=
  if dev_direct_sampling_mode d =? 0
  then set_ds (if (freq <? 24000000) && bool_decide (dev_tuner_type d = RTLSDR_TUNER_R820T) then 2 else 0) d
  else d.

(* src/librtlsdr.c: rtlsdr_set_center_freq *)
Fixpoint set_center_freq_fuel (fuel : nat) (freq : Z) : M rtlsdr_dev Z :=
  match fuel with
  | O => trap
  | S n =>
      (* Get the last direct sampling status *)
      last_ds ← gets dev_direct_sampling;
      if last_ds <? 0 then mret 1 else
      (* Check if direct sampling should be enabled *)
      modify (auto_direct_sampling freq);;
      ds ← gets dev_direct_sampling;
      t ← gets dev_tuner_type;
      r ← (if truthy ds then
             repeater 0;;
             on_core (rtlsdr_set_if_freq freq)
           else
             if_some (tuner_set_freq (tuners (set_center_freq_fuel n) t)) (fun f =>
               repeater 1;;
               offs ← gets dev_offs_freq;
               f (u32 (freq - offs))) (-1));
      modify (set_freq (if r =? 0 then freq else 0));;
      ds ← gets dev_direct_sampling;
      if negb (last_ds =? ds) then set_direct_sampling_ (set_center_freq_fuel n) ds
      else mret r
  end.

(** Three levels: see DeviceInv.v. *)
Definition rtlsdr_set_center_freq : Z -> M rtlsdr_dev Z := set_center_freq_fuel 3.

Definition rtlsdr_set_direct_sampling_inner : Z -> M rtlsdr_dev Z := set_direct_sampling_ rtlsdr_set_center_freq.

Definition dev_tuner (d : rtlsdr_dev) : rtlsdr_tuner_iface := tuners rtlsdr_set_center_freq (dev_tuner_type d).

(* src/librtlsdr.c: rtlsdr_get_center_freq *)
Definition rtlsdr_get_center_freq (d : rtlsdr_dev) : Z := dev_freq d.
(* src/librtlsdr.c: rtlsdr_get_freq_correction *)
Definition rtlsdr_get_freq_correction (d : rtlsdr_dev) : Z := corr (dcore d).
(* src/librtlsdr.c: rtlsdr_get_tuner_type *)
Definition rtlsdr_get_tuner_type (d : rtlsdr_dev) : rtlsdr_tuner := dev_tuner_type d.
(* src/librtlsdr.c: rtlsdr_get_tuner_gain *)
Definition rtlsdr_get_tuner_gain (d : rtlsdr_dev) : Z := dev_gain d.
(* src/librtlsdr.c: rtlsdr_get_sample_rate *)
Definition rtlsdr_get_sample_rate (d : rtlsdr_dev) : Z := dev_rate d.
(* src/librtlsdr.c: rtlsdr_get_direct_sampling *)
Definition rtlsdr_get_direct_sampling (d : rtlsdr_dev) : Z := dev_direct_sampling d.
(* src/librtlsdr.c: rtlsdr_get_offset_tuning *)
Definition rtlsdr_get_offset_tuning (d : rtlsdr_dev) : Z := if truthy (dev_offs_freq d) then 1 else 0.

(* src/librtlsdr.c: rtlsdr_set_freq_correction *)
Definition rtlsdr_set_freq_correction (ppm : Z) : M rtlsdr_dev Z :=
  c ← gets (fun d => corr (dcore d));
  if c =? ppm then mret (-2) else
  modify (fun d => set_core (set_corr ppm (dcore d)) d);;
  r ← on_core (rtlsdr_set_sample_freq_correction ppm);
  (* read corrected clock value into e4k and r82xx structure *)
  update_tuner_clocks;;
  freq ← gets dev_freq;
  if truthy freq then
    (* retune to apply new correction value *)
    r1 ← rtlsdr_set_center_freq freq;
    mret (or_rc r r1)
  else mret r.

(* src/librtlsdr.c: rtlsdr_set_direct_sampling *)
Definition rtlsdr_set_direct_sampling (on : Z) : M rtlsdr_dev Z :=
  (* When the UI sets the ds mode, remember the mode set *)
  modify (set_ds_mode on);;
  rtlsdr_set_direct_sampling_inner on.

(* src/librtlsdr.c: rtlsdr_set_testmode *)
Definition rtlsdr_set_testmode (on : Z) : M rtlsdr_dev Z := demod_write 0 0x19 (if truthy on then 0x03 else 0x05) 1.

(* src/librtlsdr.c: rtlsdr_set_agc_mode *)
Definition rtlsdr_set_agc_mode (on : Z) : M rtlsdr_dev Z := demod_write 0 0x19 (if truthy on then 0x25 else 0x05) 1.

(** ** Gains and bandwidth *)

(* src/librtlsdr.c: rtlsdr_get_tuner_gains *)
Definition rtlsdr_get_tuner_gains (t : rtlsdr_tuner) : list Z :=
  match t with
  | RTLSDR_TUNER_E4000 => [-10; 15; 40; 65; 90; 115; 140; 165; 190; 215; 240; 290; 340; 420]
  | RTLSDR_TUNER_FC0012 => [-99; -40; 71; 179; 192]
  | RTLSDR_TUNER_FC0013 =>
      [-99; -73; -65; -63; -60; -58; -54; 58; 61; 63; 65; 67; 68; 70; 71; 179; 181; 182; 184; 186; 188; 191; 197]
  | RTLSDR_TUNER_FC2580 => [0]
  | RTLSDR_TUNER_R820T | RTLSDR_TUNER_R828D =>
      [0; 9; 14; 27; 37; 77; 87; 125; 144; 157; 166; 197; 207; 229; 254; 280; 297; 328; 338; 364; 372; 386; 402;
       421; 434; 439; 445; 480; 496]
  | RTLSDR_TUNER_UNKNOWN => [0]
  end.

(* src/librtlsdr.c: rtlsdr_set_tuner_bandwidth *)
Definition rtlsdr_set_tuner_bandwidth (bw : Z) : M rtlsdr_dev Z :=
  tuner ← gets dev_tuner;
  rate ← gets dev_rate;
  if_some (tuner_set_bw tuner) (fun f =>
    r ← with_repeater (f (i32 (if 0 <? bw then bw else rate)));
    if truthy r then mret r else
    modify (set_bw bw);; mret r) 0.

(* src/librtlsdr.c: rtlsdr_set_tuner_gain *)
Definition rtlsdr_set_tuner_gain (gain : Z) : M rtlsdr_dev Z :=
  tuner ← gets dev_tuner;
  r ← if_some (tuner_set_gain tuner) (fun f => repeater 1;; f gain) 0;
  modify (set_gain (if truthy r then 0 else gain));;
  mret r.

(* src/librtlsdr.c: rtlsdr_set_tuner_if_gain *)
Definition rtlsdr_set_tuner_if_gain (stage gain : Z) : M rtlsdr_dev Z :=
  tuner ← gets dev_tuner;
  if_some (tuner_set_if_gain tuner) (fun f => repeater 1;; f stage gain) 0.

(* src/librtlsdr.c: rtlsdr_set_tuner_gain_mode *)
Definition rtlsdr_set_tuner_gain_mode (mode : Z) : M rtlsdr_dev Z :=
  tuner ← gets dev_tuner;
  if_some (tuner_set_gain_mode tuner) (fun f => repeater 1;; f mode) 0.

(** ** Bias tee, offset tuning *)

(* src/librtlsdr.c: rtlsdr_set_bias_tee_gpio *)
Definition rtlsdr_set_bias_tee_gpio (gpio on : Z) : M rtlsdr_dev Z :=
  bt ← gets dev_force_bt;
  (* don't allow a forced bias tee to turn off *)
  let on := if (gpio =? 0) && truthy bt then 1 else on in
  on_core (rtlsdr_set_gpio_output (u8 gpio));;
  on_core (rtlsdr_set_gpio_bit (u8 gpio) on);;
  mret 0.

(* src/librtlsdr.c: rtlsdr_set_bias_tee *)
Definition rtlsdr_set_bias_tee (on : Z) : M rtlsdr_dev Z := rtlsdr_set_bias_tee_gpio 0 on.

(* src/librtlsdr.c: rtlsdr_set_offset_tuning *)
Definition rtlsdr_set_offset_tuning (on : Z) : M rtlsdr_dev Z :=
  t ← gets dev_tuner_type;
  if is_r82xx t then
    rtlsdr_set_bias_tee on;; mret (-2)
  else
    ds ← gets dev_direct_sampling;
    if truthy ds then mret (-3) else
    (* based on keenerds 1/f noise measurements *)
    modify (fun d => set_offs_freq (if truthy on then u32 ((dev_rate d / 2) * 170) / 100 else 0) d);;
    offs ← gets dev_offs_freq;
    r ← on_core (rtlsdr_set_if_freq offs);
    tuner ← gets dev_tuner;
    bw ← gets dev_bw;
    rate ← gets dev_rate;
    if_some (tuner_set_bw tuner) (fun f =>
      with_repeater (f (i32 (if truthy on then 2 * offs else if 0 <? bw then bw else rate)))) 0;;
    freq ← gets dev_freq;
    offs ← gets dev_offs_freq;
    if offs <? freq then
      r1 ← rtlsdr_set_center_freq freq;
      mret (or_rc r r1)
    else mret r.

(** ** Sample rate and crystal frequencies *)

Definition invalid_rate (samp_rate : Z) : bool :=
  (samp_rate <=? 225000) || (3200000 <? samp_rate) || ((300000 <? samp_rate) && (samp_rate <=? 900000)).

(** rsamp_ratio, the ratio the resampler really uses, and the rate as stored. *)
(* src/librtlsdr.c:1134-1143 rtlsdr_set_sample_rate *)
Definition rsamp_ratio (oor : double -> Z) (rtl_xtal samp_rate : Z) : Z :=
  d_to_u32 oor (ddiv (dmul (d_of_Z rtl_xtal) (TWO_POW 22)) (d_of_Z samp_rate)) .& 0x0ffffffc.
Definition real_rsamp_ratio (ratio : Z) : Z := ratio .| u32 ((ratio .& 0x08000000) ≪ 1).
Definition real_rate (oor : double -> Z) (rtl_xtal real_ratio : Z) : Z :=
  d_to_u32 oor (ddiv (dmul (d_of_Z rtl_xtal) (TWO_POW 22)) (d_of_Z real_ratio)).

(* src/librtlsdr.c: rtlsdr_set_sample_rate *)
Definition rtlsdr_set_sample_rate (samp_rate : Z) : M rtlsdr_dev Z :=
  (* check if the rate is supported by the resampler *)
  if invalid_rate samp_rate then mret (- EINVAL) else
  xtal ← gets (fun d => rtl_xtal (dcore d));
  oor ← gets (fun d => env_oor (env (dcore d)));
  let ratio := rsamp_ratio oor xtal samp_rate in
  modify (set_rate (real_rate oor xtal (real_rsamp_ratio ratio)));;
  tuner ← gets dev_tuner;
  bw ← gets dev_bw;
  rate ← gets dev_rate;
  if_some (tuner_set_bw tuner) (fun f => with_repeater (f (i32 (if 0 <? bw then bw else rate)))) 0;;
  r1 ← demod_write 1 0x9f (u16 (ratio ≫ 16)) 2;
  r2 ← demod_write 1 0xa1 (ratio .& 0xffff) 2;
  ppm ← gets (fun d => corr (dcore d));
  r3 ← on_core (rtlsdr_set_sample_freq_correction ppm);
  (* reset demod (bit 3, soft_rst) *)
  r4 ← demod_write 1 0x01 0x14 1;
  r5 ← demod_write 1 0x01 0x10 1;
  (* recalculate offset frequency if offset tuning is enabled *)
  offs ← gets dev_offs_freq;
  (if truthy offs then rtlsdr_set_offset_tuning 1 else mret 0);;
  mret (or_rc (or_rc (or_rc (or_rc r1 r2) r3) r4) r5).

(* src/librtlsdr.c: rtlsdr_set_xtal_freq *)
Definition rtlsdr_set_xtal_freq (rtl_freq tuner_freq : Z) : M rtlsdr_dev Z :=
  if (0 <? rtl_freq) && ((rtl_freq <? MIN_RTL_XTAL_FREQ) || (MAX_RTL_XTAL_FREQ <? rtl_freq)) then mret (-2) else
  old_rtl ← gets (fun d => rtl_xtal (dcore d));
  r ← (if (0 <? rtl_freq) && negb (old_rtl =? rtl_freq) then
         modify (fun d => set_core (set_rtl_xtal rtl_freq (dcore d)) d);;
         (* update xtal-dependent settings *)
         rate ← gets dev_rate;
         if truthy rate then rtlsdr_set_sample_rate rate else mret 0
       else mret 0);
  old_tun ← gets (fun d => tun_xtal (dcore d));
  if negb (old_tun =? tuner_freq) then
    modify (fun d => set_core (set_tun_xtal (if 0 =? tuner_freq then rtl_xtal (dcore d) else tuner_freq) (dcore d)) d);;
    update_tuner_clocks;;
    (* update xtal-dependent settings *)
    freq ← gets dev_freq;
    if truthy freq then rtlsdr_set_center_freq freq else mret r
  else mret r.

(** ** Opening and closing *)

(* src/librtlsdr.c: rtlsdr_reset_buffer *)
Definition rtlsdr_reset_buffer : M rtlsdr_dev Z :=
  on_core (rtlsdr_write_reg USBB USB_EPA_CTL 0x1002 2);;
  on_core (rtlsdr_write_reg USBB USB_EPA_CTL 0x0000 2);;
  mret 0.

(* src/librtlsdr.c: rtlsdr_deinit_baseband *)
Definition rtlsdr_deinit_baseband : M rtlsdr_dev Z :=
  tuner ← gets dev_tuner;
  r ← if_some (tuner_exit tuner) with_repeater 0;
  (* poweroff demodulator and ADCs *)
  on_core (rtlsdr_write_reg SYSB DEMOD_CTL 0x20 1);;
  mret r.

(** A lost device is left alone; [dev_lost] is of Async.v.  Otherwise the code
    first waits for a read that is running, until [async_status] is inactive: this
    is the closing once that is so. *)
(* src/librtlsdr.c: rtlsdr_close *)
Definition rtlsdr_close (dev_lost : bool) : M rtlsdr_dev Z :=
  (if dev_lost then mret 0 else rtlsdr_deinit_baseband);;
  mret 0.

(** libusb_reset_device, recorded in the log. *)
Definition libusb_reset_device : M core unit :=
  modify (fun c => set_usb_log (usb_log c ++ [UsbReset]) c).

Definition is_blog_v4 (c : core) : bool := check_dongle_model c "RTLSDRBlog" "Blog V4".

(** The probes, in order; the tuner found. *)
(* src/librtlsdr.c:1598-1648 rtlsdr_open *)
Definition probe_tuner : M core rtlsdr_tuner :=
  reg ← rtlsdr_i2c_read_reg E4K_I2C_ADDR E4K_CHECK_ADDR;
  if reg =? E4K_CHECK_VAL then mret RTLSDR_TUNER_E4000 else
  reg ← rtlsdr_i2c_read_reg FC0013_I2C_ADDR FC0013_CHECK_ADDR;
  if reg =? FC0013_CHECK_VAL then mret RTLSDR_TUNER_FC0013 else
  reg ← rtlsdr_i2c_read_reg R820T_I2C_ADDR R82XX_CHECK_ADDR;
  if reg =? R82XX_CHECK_VAL then mret RTLSDR_TUNER_R820T else
  reg ← rtlsdr_i2c_read_reg R828D_I2C_ADDR R82XX_CHECK_ADDR;
  if reg =? R82XX_CHECK_VAL then mret RTLSDR_TUNER_R828D else
  (* initialise GPIOs *)
  rtlsdr_set_gpio_output 4;;
  (* reset tuner before probing *)
  rtlsdr_set_gpio_bit 4 1;;
  rtlsdr_set_gpio_bit 4 0;;
  reg ← rtlsdr_i2c_read_reg FC2580_I2C_ADDR FC2580_CHECK_ADDR;
  if (reg .& 0x7f) =? FC2580_CHECK_VAL then mret RTLSDR_TUNER_FC2580 else
  reg ← rtlsdr_i2c_read_reg FC0012_I2C_ADDR FC0012_CHECK_ADDR;
  if reg =? FC0012_CHECK_VAL then
    rtlsdr_set_gpio_output 6;;
    mret RTLSDR_TUNER_FC0012
  else mret RTLSDR_TUNER_UNKNOWN.

(** The settings that depend on the tuner. *)
(* src/librtlsdr.c:1650-1682 rtlsdr_open *)
Definition setup_tuner : M rtlsdr_dev unit :=
  modify (fun d => set_core (set_tun_xtal (rtl_xtal (dcore d)) (dcore d)) d);;
  t ← gets dev_tuner_type;
  (if decide (t = RTLSDR_TUNER_R828D) then
     (* If NOT an RTL-SDR Blog V4, set typical R828D 16 MHz freq *)
     modify (fun d => if is_blog_v4 (dcore d) then d else set_core (set_tun_xtal R828D_XTAL_FREQ (dcore d)) d)
   else mret tt);;
  match t with
  | RTLSDR_TUNER_R820T | RTLSDR_TUNER_R828D =>
      (* disable Zero-IF mode *)
      demod_write 1 0xb1 0x1a 1;;
      (* only enable In-phase ADC input *)
      demod_write 0 0x08 0x4d 1;;
      on_core (rtlsdr_set_if_freq R82XX_IF_FREQ);;
      (* enable spectrum inversion *)
      demod_write 1 0x15 0x01 1;; mret tt
  | RTLSDR_TUNER_UNKNOWN => rtlsdr_set_direct_sampling 1;; mret tt
  | _ => mret tt
  end.

(** rtlsdr_open once the interface is claimed; [m] and [p] are the strings
    that rtlsdr_get_usb_strings delivers. *)
(* src/librtlsdr.c:1582-1694 rtlsdr_open *)
Definition open_device (m p : string) : M rtlsdr_dev unit :=
  modify (fun d => set_core (set_rtl_xtal DEF_RTL_XTAL_FREQ (dcore d)) d);;
  (* perform a dummy write, if it fails, reset the device *)
  r ← on_core (rtlsdr_write_reg USBB USB_SYSCTL 0x09 1);
  (if r <? 0 then on_core libusb_reset_device else mret tt);;
  on_core rtlsdr_init_baseband;;
  (* Get device manufacturer and product id *)
  modify (fun d => set_core (set_strings m p (dcore d)) d);;
  (* Probe tuners *)
  repeater 1;;
  t ← on_core probe_tuner;
  modify (set_tuner_type t);;
  setup_tuner;;
  (* the bias tee is forced on when bit 1 of byte 7 of the EEPROM is 0 *)
  buf ← on_core (uninit 256);
  q ← on_core (rtlsdr_read_eeprom buf 0 EEPROM_SIZE);
  b7 ← from_option_trap (q.2 !! 7%nat);
  modify (set_force_bt (if truthy (b7 .& 0x02) then 0 else 1));;
  bt ← gets dev_force_bt;
  (if truthy bt then rtlsdr_set_bias_tee 1 else mret 0);;
  tuner ← gets dev_tuner;
  if_some (tuner_init tuner) (fun i => i) 0;;
  repeater 0.

(** memset(dev, 0, ...) and the FIR filter. *)
(* src/librtlsdr.c:1511-1512 rtlsdr_open *)
Definition new_dev (e : usb_env) : rtlsdr_dev :=
  mk_dev (mk_core e [] 0 0 0 fir_default "" "") 0 0 RTLSDR_TUNER_UNKNOWN 0 0 0 0
    (mk_e4k 0 E4K_BAND_VHF2 (mk_pll 0 0 0 0 0 0 0 0))
    (mk_priv (mk_config 0 0 CHIP_R820T 0 0) (replicate 30 0) XTAL_LOW_CAP_30P 0 0 0 0 0 0 0 0) 0 0.
