(* ===== verification/Repeater.v ===== *)
(** * librtlsdr.c: the I2C repeater

    The tuner sits behind an I2C repeater of the demodulator, which bit 3 of
    register 0x01 of page 1 opens; the EEPROM does not.  [disciplined] says of
    a history of USB transfers that the library only addressed a tuner while
    it had the repeater open.  The functions of the lower layer are classified
    by what they do to it: every one has a defined result, the tuner drivers'
    transfers need the repeater open, and everything but a write to that one
    register leaves it as it is. *)

From S2P Require Import Prelude RtlsdrI2c Double Usb UsbSpec Demod DemodSpec.

(** ** The discipline *)

(** What a transfer makes of the repeater. *)
Definition ev_repeater (ev : usb_event) : option bool :=
  match ev with
  | CtrlOut value index (v :: _) _ => if (value =? 0x120) && (index =? 0x11) then Some (Z.testbit v 3) else None
  | UsbReset => Some false
  | _ => None
  end.

(** The repeater as the transfers so far command it, whether or not the device
    has acknowledged them. *)
Definition repeater_open (log : list usb_event) : bool :=
  fold_left (fun b ev => default b (ev_repeater ev)) log false.

(** The tuner that a transfer addresses. *)
Definition ev_tuner (ev : usb_event) : option Z :=
  match ev with
  | CtrlOut value index _ _ => if (index =? 0x610) && negb (value =? EEPROM_ADDR) then Some value else None
  | CtrlIn value index _ _ => if (index =? 0x600) && negb (value =? EEPROM_ADDR) then Some value else None
  | UsbReset => None
  end.

Definition disciplined (log : list usb_event) : Prop :=
  forall pre ev post, log = pre ++ ev :: post -> is_Some (ev_tuner ev) -> repeater_open pre = true.

Lemma repeater_open_snoc log ev : repeater_open (log ++ [ev]) = default (repeater_open log) (ev_repeater ev).
Proof. unfold repeater_open. by rewrite fold_left_app. Qed.

Lemma disciplined_nil : disciplined [].
Proof. intros pre ev post E. by destruct pre. Qed.

Lemma disciplined_snoc log ev :
  disciplined log -> (is_Some (ev_tuner ev) -> repeater_open log = true) -> disciplined (log ++ [ev]).
Proof.
  intros Hlog Hev pre ev' post E Ht.
  destruct post as [|e post _] using rev_ind.
  - apply app_inj_tail in E as [-> ->]. auto.
  - rewrite app_comm_cons, app_assoc in E. apply app_inj_tail in E as [E _].
    by eapply Hlog.
Qed.

(** ** The invariant of the lower layer *)

(** Clock settings in the ranges of the API; the tuner clock of every dongle
    is between 2 and 32 MHz, once it is known ([clk]). *)
Definition clocks_ok (clk : bool) (c : core) : Prop :=
  MIN_RTL_XTAL_FREQ <= rtl_xtal c <= MAX_RTL_XTAL_FREQ /\ (clk = true -> 2000000 <= tun_xtal c <= 32000000) /\
  Z.abs (corr c) <= 20000 /\ Z.of_nat (length (fir c)) = FIR_LEN.

(** The history is disciplined; with [o], the repeater is open; with [clk], the
    tuner clock is known. *)
Definition core_inv (clk o : bool) (c : core) : Prop :=
  clocks_ok clk c /\ disciplined (usb_log c) /\ (o = true -> repeater_open (usb_log c) = true).

Lemma core_inv_weaken clk o c : core_inv clk o c -> core_inv clk false c.
Proof. by intros (? & ? & _). Qed.

Lemma tuner_clock_range o c : core_inv true o c -> 1000000 <= get_tuner_clock c < 32767500.
Proof.
  intros ((Hr & Ht & Hc & _) & _). specialize (Ht eq_refl). unfold MIN_RTL_XTAL_FREQ, MAX_RTL_XTAL_FREQ, DEF_RTL_XTAL_FREQ in Hr.
  unfold get_tuner_clock, rtlsdr_get_xtal_freq. cbn [snd].
  destruct (ppm_corr_accurate (env_oor (env c)) (tun_xtal c) (corr c)) as (_ & H & _); [lia|lia|nia|]. nia.
Qed.

(** One transfer. *)
Lemma core_inv_step clk o c ev c' :
  core_inv clk o c -> after c [ev] c' -> (is_Some (ev_tuner ev) -> o = true) ->
  core_inv clk (default o (ev_repeater ev)) c'.
Proof.
  intros (Hclk & Hd & Ho) -> Hev. split; [exact Hclk|]. cbn [usb_log set_usb_log]. split.
  - apply disciplined_snoc; auto.
  - rewrite repeater_open_snoc. destruct (ev_repeater ev); cbn [default]; auto.
Qed.

Definition not_repeater (value index : Z) : Prop := value <> 0x120 \/ index <> 0x11.

#[export] Instance not_repeater_dec value index : Decision (not_repeater value index).
Proof. unfold not_repeater. apply _. Defined.

Lemma control_out_inv clk o value index array len :
  len <= Z.of_nat (length array) -> not_repeater value index ->
  (index = 0x610 -> value = EEPROM_ADDR \/ o = true) ->
  preserves (core_inv clk o) (control_out value index array len).
Proof.
  intros Hlen Hnr Hi c Hc. eapply wp_mono; [|by apply control_out_wp]. intros rc c' Ha.
  refine (eq_ind _ (fun b => core_inv clk b c') (core_inv_step _ _ _ _ _ Hc Ha _) _ _).
  - cbn [ev_tuner]. destruct (Z.eqb_spec index 0x610) as [E|]; [|by intros []].
    destruct (Z.eqb_spec value EEPROM_ADDR); [by intros []|]. intros _. by destruct (Hi E).
  - cbn [ev_repeater]. destruct (take _ _); [done|].
    replace ((value =? 0x120) && (index =? 0x11)) with false; [done|]. destruct Hnr; lia.
Qed.

Lemma control_in_inv clk o value index array len :
  0 <= len <= Z.of_nat (length array) -> Forall is_u8 array ->
  (index = 0x600 -> value = EEPROM_ADDR \/ o = true) ->
  returns (core_inv clk o) (control_in value index array len)
    (fun p => length p.2 = length array /\ Forall is_u8 p.2).
Proof.
  intros Hlen Hu Hi c Hc. eapply wp_mono; [|by apply control_in_wp].
  intros [rc data] c' (d & Ha & Hd & Hdu & E). cbn [fst snd] in *. subst data. split.
  - split; [rewrite length_app, length_drop; lia|]. apply Forall_app. split; [done|by apply Forall_drop].
  - apply (core_inv_step _ _ _ _ _ Hc Ha). cbn [ev_tuner].
    destruct (Z.eqb_spec index 0x600) as [E|]; [|by intros []].
    destruct (Z.eqb_spec value EEPROM_ADDR); [by intros []|]. intros _. by destruct (Hi E).
Qed.

(** ** The functions of the lower layer *)

Lemma uninit_inv clk o n : returns (core_inv clk o) (uninit n) (fun d => length d = n /\ Forall is_u8 d).
Proof. intros c Hc. eapply wp_mono; [|apply uninit_wp]. by intros d c' (-> & ? & ?). Qed.

Definition reg_len (len : Z) : Prop := len = 1 \/ len = 2.

#[export] Instance reg_len_dec len : Decision (reg_len len).
Proof. unfold reg_len. apply _. Defined.

Lemma reg_bytes_len val len : reg_len len -> len <= Z.of_nat (length (reg_bytes val len)).
Proof. intros [-> | ->]; cbn; lia. Qed.

(** Blocks other than the I2C block. *)
Definition reg_block (block : Z) : Prop := block = USBB \/ block = SYSB.

#[export] Instance reg_block_dec block : Decision (reg_block block).
Proof. unfold reg_block. apply _. Defined.

Lemma usb_write_reg_inv clk o block addr val len :
  reg_block block -> reg_len len -> preserves (core_inv clk o) (rtlsdr_write_reg block addr val len).
Proof.
  intros Hb Hl. unfold rtlsdr_write_reg. cbv zeta.
  apply control_out_inv; [by apply reg_bytes_len|by destruct Hb as [-> | ->]; right|by destruct Hb as [-> | ->]].
Qed.

(** The two bytes of a register, read. *)
Lemma reg_of_inv clk o (data : list Z) : length data = 2%nat -> preserves (core_inv clk o) (from_option_trap (reg_of data)).
Proof. intros Hl. destruct data as [|d0 [|d1 ?]]; [done|done|]. apply preserves_ret. Qed.

Lemma read_reg_inv clk o block addr :
  reg_block block -> preserves (core_inv clk o) (rtlsdr_read_reg block addr 1).
Proof.
  intros Hb. unfold rtlsdr_read_reg. eapply preserves_returns_bind; [apply uninit_inv|]. intros d [Hl Hu].
  eapply preserves_returns_bind; [apply control_in_inv; [lia|done|by destruct Hb as [-> | ->]]|].
  intros p [Hp _]. apply reg_of_inv. congruence.
Qed.

Lemma demod_read_inv clk o : preserves (core_inv clk o) (rtlsdr_demod_read_reg 0x0a 0x01 1).
Proof.
  unfold rtlsdr_demod_read_reg. eapply preserves_returns_bind; [apply uninit_inv|]. intros d [Hl Hu].
  eapply preserves_returns_bind; [apply control_in_inv; [lia|done|done]|].
  intros p [Hp _]. apply reg_of_inv. congruence.
Qed.

Lemma demod_write_moves clk o o' page addr val len :
  moves (core_inv clk o) (control_out (u16 ((addr ≪ 8) .| 0x20)) (0x10 .| page) (reg_bytes val len) len) (core_inv clk o') ->
  moves (core_inv clk o) (rtlsdr_demod_write_reg page addr val len) (core_inv clk o').
Proof.
  intros Hc. unfold rtlsdr_demod_write_reg. eapply moves_bind; [exact Hc|]. intros r.
  eapply moves_bind; [apply demod_read_inv|]. intros. apply preserves_ret.
Qed.

Lemma demod_write_inv clk o page addr val len :
  demod_page page -> is_u8 addr -> reg_len len -> page <> 1 \/ addr <> 1 ->
  preserves (core_inv clk o) (rtlsdr_demod_write_reg page addr val len).
Proof.
  intros Hp Ha Hl Hne. apply demod_write_moves.
  apply control_out_inv; [by apply reg_bytes_len| |by destruct Hp as [-> | ->]].
  destruct (demod_value_bits addr Ha) as [_ E]. destruct (decide (addr = 1)) as [->|Hn].
  - right. destruct Hp as [-> | ->]; [done|lia].
  - left. intros E'. rewrite E' in E. by apply Hn.
Qed.

(** A write to the register of the repeater, with bit 3 as in [val]. *)
Lemma demod_ctl_moves clk val :
  moves (core_inv clk false) (rtlsdr_demod_write_reg 1 0x01 val 1) (core_inv clk (Z.testbit (val .& 0xff) 3)).
Proof.
  apply demod_write_moves. intros c Hc. eapply wp_mono; [|apply control_out_wp; cbn; lia]. intros rc c' Ha.
  apply (core_inv_step _ _ _ _ _ Hc Ha). by intros [].
Qed.

Lemma repeater_opens clk : moves (core_inv clk false) (rtlsdr_set_i2c_repeater 1) (core_inv clk true).
Proof. unfold rtlsdr_set_i2c_repeater. eapply moves_bind; [apply demod_ctl_moves|]. intros. apply preserves_ret. Qed.

Lemma repeater_closes clk : moves (core_inv clk false) (rtlsdr_set_i2c_repeater 0) (core_inv clk false).
Proof. unfold rtlsdr_set_i2c_repeater. eapply moves_bind; [apply demod_ctl_moves|]. intros. apply preserves_ret. Qed.

Lemma demod_ctl_inv clk val : preserves (core_inv clk false) (rtlsdr_demod_write_reg 1 0x01 val 1).
Proof. intros d Hd. eapply wp_mono; [|by apply (demod_ctl_moves clk val)]. intros ? d'. apply core_inv_weaken. Qed.

(** The obligations on a concrete register. *)
#[export] Hint Extern 1 (preserves (core_inv _ _) (rtlsdr_demod_write_reg 1 0x01 _ _)) => apply demod_ctl_inv : pres.
#[export] Hint Extern 2 (preserves (core_inv _ _) (rtlsdr_demod_write_reg _ _ _ _)) =>
  apply demod_write_inv; by_compute : pres.
#[export] Hint Extern 1 (preserves (core_inv _ _) (rtlsdr_write_reg _ _ _ _)) => apply usb_write_reg_inv; by_compute : pres.
#[export] Hint Extern 1 (preserves (core_inv _ _) (rtlsdr_read_reg _ _ 1)) => apply read_reg_inv; by_compute : pres.

Lemma gpio_bit_inv clk o gpio val : 0 <= gpio < 8 -> preserves (core_inv clk o) (rtlsdr_set_gpio_bit gpio val).
Proof.
  intros Hg. unfold rtlsdr_set_gpio_bit, shl1. replace (gpio <? 32) with true by lia. solve_pres.
Qed.

Lemma gpio_output_inv clk o gpio : 0 <= gpio < 8 -> preserves (core_inv clk o) (rtlsdr_set_gpio_output gpio).
Proof.
  intros Hg. unfold rtlsdr_set_gpio_output, shl1. replace (gpio <? 32) with true by lia. solve_pres.
Qed.

Lemma set_if_freq_inv clk o freq : preserves (core_inv clk o) (rtlsdr_set_if_freq freq).
Proof. unfold rtlsdr_set_if_freq. solve_pres. Qed.

Lemma set_sample_freq_correction_inv clk o ppm : preserves (core_inv clk o) (rtlsdr_set_sample_freq_correction ppm).
Proof. unfold rtlsdr_set_sample_freq_correction. solve_pres. Qed.

Lemma fir_write_inv clk o bytes i :
  0 <= i -> i + Z.of_nat (length bytes) <= 20 -> preserves (core_inv clk o) (fir_write i bytes).
Proof.
  revert i. induction bytes as [|b bytes IH]; intros i Hi Hl; cbn [fir_write length] in *; [solve_pres|].
  apply preserves_bind.
  - apply demod_write_inv; [by right|unfold is_u8; lia|by left|right; lia].
  - intros r. apply preserves_if; [solve_pres|]. apply IH; lia.
Qed.

Lemma set_fir_inv clk o : preserves (core_inv clk o) rtlsdr_set_fir.
Proof.
  intros c Hc. pose proof (fir_pack_spec (fir c) ltac:(apply Hc)) as Hp. unfold rtlsdr_set_fir. wp_step. apply wp_gets.
  destruct (fir_ok (fir c)); [|by rewrite Hp]. destruct Hp as (bytes & -> & Hl & _).
  apply fir_write_inv; [lia|lia|exact Hc].
Qed.
#[export] Hint Resolve set_if_freq_inv set_sample_freq_correction_inv set_fir_inv : pres.

Lemma init_baseband_inv clk : preserves (core_inv clk false) rtlsdr_init_baseband.
Proof.
  unfold rtlsdr_init_baseband. do 9 (apply preserves_bind; [solve_pres|intros _]).
  apply preserves_bind; [|intros _; solve_pres].
  apply preserves_for_each. intros i Hi%elem_of_zseq. apply preserves_bind; [|solve_pres].
  apply demod_write_inv; [by right|unfold is_u8; lia|by left|right; lia].
Qed.

(** ** I2C transfers *)

(** An I2C transfer needs the repeater, unless it is to the EEPROM. *)
Definition may_address (o : bool) (addr : Z) : Prop := addr = EEPROM_ADDR \/ o = true.

Lemma write_array_inv clk o addr array len :
  may_address o addr -> len <= Z.of_nat (length array) ->
  preserves (core_inv clk o) (rtlsdr_write_array IICB addr array len).
Proof. intros Ha Hl. unfold rtlsdr_write_array. cbv zeta. by apply control_out_inv; [|right|]. Qed.

Lemma read_array_inv clk o addr array len :
  may_address o addr -> 0 <= len <= Z.of_nat (length array) -> Forall is_u8 array ->
  returns (core_inv clk o) (rtlsdr_read_array IICB addr array len)
    (fun p => length p.2 = length array /\ Forall is_u8 p.2).
Proof. intros Ha Hl Hu. unfold rtlsdr_read_array. cbv zeta. by apply control_in_inv. Qed.

#[export] Instance core_dev_inv clk : DevInv (core_inv clk true).
Proof.
  split.
  - intros addr buf Ha Hl. cbn [rtlsdr_i2c_write_fn core_i2c]. unfold i2c_write_fn, rtlsdr_i2c_write.
    apply write_array_inv; [by right|]. rewrite u8_small by (unfold is_u8; lia). lia.
  - intros addr len Ha Hl. cbn [rtlsdr_i2c_read_fn core_i2c]. unfold i2c_read_fn, rtlsdr_i2c_read.
    eapply preserves_returns_bind; [apply uninit_inv|]. intros d [Hd Hu].
    eapply returns_preserves, read_array_inv; [by right| |done]. rewrite u8_small by (unfold is_u8; lia). lia.
Qed.

Lemma head_inv clk o (l : list Z) :
  length l = 1%nat -> Forall is_u8 l -> returns (core_inv clk o) (from_option_trap (head l)) is_u8.
Proof. intros Hl Hu. destruct l as [|v [|??]]; [done| |done]. apply returns_ret, (Forall_inv Hu). Qed.

Lemma i2c_read_reg_inv clk addr reg : preserves (core_inv clk true) (rtlsdr_i2c_read_reg addr reg).
Proof.
  unfold rtlsdr_i2c_read_reg. apply preserves_bind; [apply write_array_inv; [by right|cbn; lia]|]. intros _.
  eapply preserves_returns_bind; [apply read_array_inv; [by right|cbn; lia|by apply Forall_singleton]|].
  intros p [Hl Hu]. by eapply returns_preserves, head_inv.
Qed.

Lemma probe_read_inv clk {A} addr reg (k : Z -> M core A) o :
  (forall v, moves (core_inv clk true) (k v) (core_inv clk o)) ->
  moves (core_inv clk true) (rtlsdr_i2c_read_reg addr reg ≫= k) (core_inv clk o).
Proof. intros Hk. eapply moves_bind; [apply i2c_read_reg_inv|exact Hk]. Qed.

(** ** EEPROM *)

Lemma write_eeprom_loop_inv clk o data offset i cmd1 :
  is_u8 cmd1 -> Forall is_u8 data -> preserves (core_inv clk o) (write_eeprom_loop data offset i cmd1).
Proof.
  revert i cmd1. induction data as [|b data IH]; intros i cmd1 Hc Hd; cbn [write_eeprom_loop]; [solve_pres|].
  apply Forall_cons in Hd as [Hb Hd]. cbv zeta.
  apply preserves_bind; [apply write_array_inv; [by left|cbn; lia]|]. intros _.
  eapply preserves_returns_bind; [apply read_array_inv; [by left|cbn; lia|by apply Forall_singleton]|]. intros p [Hl Hu].
  eapply preserves_returns_bind; [by apply head_inv|]. intros v Hv. cbv beta.
  apply preserves_if; [by apply IH|].
  apply preserves_bind; [apply write_array_inv; [by left|cbn; lia]|]. intros r.
  apply preserves_if; [by apply IH|]. solve_pres.
Qed.

Lemma write_eeprom_inv clk o data offset len :
  0 <= len <= Z.of_nat (length data) -> Forall is_u8 data ->
  preserves (core_inv clk o) (rtlsdr_write_eeprom data offset len).
Proof.
  intros Hl Hu. unfold rtlsdr_write_eeprom. apply preserves_if; [solve_pres|].
  replace (Z.of_nat (length data) <? len) with false by lia.
  eapply preserves_returns_bind; [apply uninit_inv|]. intros [|c0 [|c1 [|??]]] [Hc Hcu]; try done.
  eapply preserves_trap_bind; [done|]. apply write_eeprom_loop_inv; [|by apply Forall_take].
  apply (Forall_inv (Forall_inv_tail Hcu)).
Qed.

Lemma read_eeprom_loop_inv clk o data r :
  Forall is_u8 data ->
  returns (core_inv clk o) (read_eeprom_loop data r) (fun q => length q.2 = length data /\ Forall is_u8 q.2).
Proof.
  revert r. induction data as [|b data IH]; intros r Hd; cbn [read_eeprom_loop]; [by apply returns_ret|].
  apply Forall_cons in Hd as [Hb Hd].
  eapply returns_bind; [apply read_array_inv; [by left|cbn; lia|by apply Forall_singleton]|]. intros p [Hl Hu].
  eapply returns_bind; [by apply head_inv|]. intros v Hv. cbv beta. destruct (p.1 <? 0).
  - apply returns_ret. cbn [snd length]. split; [done|by constructor].
  - eapply returns_bind; [by apply IH|]. intros q [Hq Hqu]. apply returns_ret. cbn [snd length].
    split; [by rewrite Hq|by constructor].
Qed.

Lemma read_eeprom_inv clk o data offset len :
  0 <= len <= Z.of_nat (length data) -> Forall is_u8 data ->
  returns (core_inv clk o) (rtlsdr_read_eeprom data offset len) (fun q => length q.2 = length data /\ Forall is_u8 q.2).
Proof.
  intros Hl Hu. unfold rtlsdr_read_eeprom. destruct (256 <? len + offset); [by apply returns_ret|].
  replace (Z.of_nat (length data) <? len) with false by lia.
  eapply returns_bind; [apply preserves_returns, write_array_inv; [by left|cbn; lia]|]. intros r _. cbv beta.
  destruct (r <? 0); [by apply returns_ret|].
  eapply returns_bind; [apply read_eeprom_loop_inv; by apply Forall_take|].
  intros p [Hp Hpu]. apply returns_ret. cbn [snd]. split.
  - rewrite length_app, length_drop, Hp, length_take. lia.
  - apply Forall_app. split; [done|by apply Forall_drop].
Qed.
