(* ===== verification/DeviceInv.v ===== *)
(** * librtlsdr.c: the device invariant, and tuning terminates

    [dev_inv] is kept by the functions under the device API: the structs of
    the tuner drivers are in the state that the drivers need, the history of
    transfers is disciplined (Repeater.v), and the settings that decide what a
    call does are known.  rtlsdr_set_center_freq and
    _rtlsdr_set_direct_sampling call each other; a call nests at most three
    deep. *)

From S2P Require Import Prelude RtlsdrI2c R82xx R82xxInv R82xxOps R82xxSpec E4k E4kInv E4kSession.
From S2P Require Import Fc0012 Fc0013 Fc2580 FcSafe Double Usb UsbSpec Demod DemodSpec Repeater Device.

(** ** The invariant *)

(** The settings that decide which branches tuning takes. *)
Record settings : Type := mk_settings {
  s_tuner : rtlsdr_tuner;
  s_ds : Z;
  s_mode : Z;
  s_freq : Z;
}.

Definition settings_of (d : rtlsdr_dev) : settings :=
  mk_settings (dev_tuner_type d) (dev_direct_sampling d) (dev_direct_sampling_mode d) (dev_freq d).

Definition with_ds (v : Z) (k : settings) : settings := mk_settings (s_tuner k) v (s_mode k) (s_freq k).
Definition with_freq (v : Z) (k : settings) : settings := mk_settings (s_tuner k) (s_ds k) (s_mode k) v.

Definition shadow_ok (p : r82xx_priv) : Prop := Z.of_nat (length (regs p)) = NUM_REGS /\ Forall is_u8 (regs p).

(** The driver structs; with [ready], the tuner has been initialised. *)
Definition structs_ok (ready : bool) (d : rtlsdr_dev) : Prop :=
  is_u8 (e4k_i2c_addr (dev_e4k d)) /\ shadow_ok (dev_r82xx d) /\
  (ready = true -> is_r82xx (dev_tuner_type d) = true -> cfg_ok (cfg (dev_r82xx d))).

(** With [o], the repeater is open. *)
Definition dev_inv (ready o : bool) (k : settings) (d : rtlsdr_dev) : Prop :=
  structs_ok ready d /\ core_inv true o (dcore d) /\ settings_of d = k.

(** Between the calls of the API, with tuner [t]; with some tuner. *)
Definition dev_at (t : rtlsdr_tuner) (d : rtlsdr_dev) : Prop := exists k, s_tuner k = t /\ dev_inv true false k d.
Definition dev_ok (d : rtlsdr_dev) : Prop := exists k, dev_inv true false k d.

Lemma dev_inv_weaken r o k d : dev_inv r o k d -> dev_inv r false k d.
Proof. intros (? & ? & ?). split_and!; [done|by eapply core_inv_weaken|done]. Qed.

Lemma dev_inv_ok o k d : dev_inv true o k d -> dev_ok d.
Proof. intros Hd. exists k. by eapply dev_inv_weaken. Qed.

Lemma dev_inv_at o k d : dev_inv true o k d -> dev_at (s_tuner k) d.
Proof. intros Hd. exists k. split; [done|]. by eapply dev_inv_weaken. Qed.

Lemma dev_at_ok t d : dev_at t d -> dev_ok d.
Proof. intros (k & _ & Hk). by exists k. Qed.

Lemma priv_ok_iff p : priv_ok p <-> cfg_ok (cfg p) /\ shadow_ok p.
Proof. done. Qed.

(** ** The layers below *)

Lemma on_core_moves {A} r o o' k (m : M core A) :
  moves (core_inv true o) m (core_inv true o') -> moves (dev_inv r o k) (on_core m) (dev_inv r o' k).
Proof.
  intros Hm d (Hs & Hc & Hk). apply wp_zoom. eapply wp_mono; [|by apply Hm].
  intros a c' Hc'. split_and!; [exact Hs|exact Hc'|exact Hk].
Qed.

Lemma on_core_inv {A} r o k (m : M core A) :
  preserves (core_inv true o) m -> preserves (dev_inv r o k) (on_core m).
Proof. apply on_core_moves. Qed.

Lemma on_e4k_inv {A} r k (m : M (e4k_state * core) A) :
  preserves (addr_ok (core_inv true true)) m -> preserves (dev_inv r true k) (on_e4k m).
Proof.
  intros Hm d ((Ha & Hsh & Hcfg) & Hc & Hk). apply wp_zoom. eapply wp_mono; [|by apply Hm].
  intros a [p c'] [Ha' Hc']. split_and!; done.
Qed.

Lemma on_r82xx_inv {A} k (m : M (r82xx_priv * core) A) :
  is_r82xx (s_tuner k) = true -> preserves (r82xx_inv (core_inv true true) None) m ->
  preserves (dev_inv true true k) (on_r82xx m).
Proof.
  intros Ht Hm d ((Ha & Hsh & Hcfg) & Hc & Hk). apply wp_zoom. rewrite <- Hk in Ht.
  eapply wp_mono; [|apply Hm; split; [by split; [apply Hcfg|]|by split]].
  intros a [p c'] ((Hcfg' & Hsh') & Hc' & _). split_and!; try done; apply Hsh'.
Qed.

Lemma repeater_on_moves r k : moves (dev_inv r false k) (repeater 1) (dev_inv r true k).
Proof. apply on_core_moves, repeater_opens. Qed.

Lemma repeater_off_inv r k : preserves (dev_inv r false k) (repeater 0).
Proof. apply on_core_inv, repeater_closes. Qed.

Lemma with_repeater_moves r r' k f :
  moves (dev_inv r true k) f (dev_inv r' true k) -> moves (dev_inv r false k) (with_repeater f) (dev_inv r' false k).
Proof.
  intros Hf. unfold with_repeater. eapply moves_bind; [apply repeater_on_moves|]. intros _.
  eapply moves_bind; [exact Hf|]. intros v. eapply (moves_bind _ (dev_inv r' false k)); [|intros; apply preserves_ret].
  eapply moves_mono; [apply repeater_off_inv| |done]. apply dev_inv_weaken.
Qed.

#[export] Hint Extern 1 (preserves (dev_inv _ _ _) (on_core _)) => apply on_core_inv : pres.
#[export] Hint Extern 1 (preserves (dev_inv _ _ _) (demod_write _ _ _ _)) => apply on_core_inv : pres.
#[export] Hint Resolve repeater_off_inv : pres.

(** The settings that a setter changes. *)
Lemma set_ds_moves r o k v : moves (dev_inv r o k) (modify (set_ds v)) (dev_inv r o (with_ds v k)).
Proof. apply moves_modify. intros d (Hs & Hc & Hk). split_and!; [exact Hs|exact Hc|by rewrite <- Hk]. Qed.

Lemma set_freq_moves r o k v : moves (dev_inv r o k) (modify (set_freq v)) (dev_inv r o (with_freq v k)).
Proof. apply moves_modify. intros d (Hs & Hc & Hk). split_and!; [exact Hs|exact Hc|by rewrite <- Hk]. Qed.

(** A setting that is read, and one that the invariant does not know. *)
Lemma get_setting {A B} r o k (f : rtlsdr_dev -> A) (g : settings -> A) (kont : A -> M rtlsdr_dev B) Q :
  (forall d, f d = g (settings_of d)) -> moves (dev_inv r o k) (kont (g k)) Q ->
  moves (dev_inv r o k) (gets f ≫= kont) Q.
Proof. intros Hf Hk d Hd. apply wp_bind, wp_gets. rewrite Hf. destruct Hd as (? & ? & E). rewrite E. by apply Hk. Qed.

Lemma get_any {A B} (P : rtlsdr_dev -> Prop) (f : rtlsdr_dev -> A) (kont : A -> M rtlsdr_dev B) Q :
  (forall a, moves P (kont a) Q) -> moves P (gets f ≫= kont) Q.
Proof. intros Hk d Hd. apply wp_bind, wp_gets. by apply Hk. Qed.

(** ** The tuner interfaces *)

(** Initialisation makes the structs ready. *)
Lemma ready_other r o k d :
  is_r82xx (s_tuner k) = false -> dev_inv r o k d -> dev_inv true o k d.
Proof.
  intros Ht ((Ha & Hsh & _) & Hc & <-). split; [split; [exact Ha|split; [exact Hsh|]]|by split].
  intros _ E. cbn in Ht. by rewrite Ht in E.
Qed.

Lemma e4000_init_moves r k : preserves (dev_inv r true k) e4000_init.
Proof.
  unfold e4000_init. eapply moves_bind; [apply (moves_modify _ (dev_inv r true k))|intros _; apply on_e4k_inv, e4k_init_ok; apply _].
  intros d ((Ha & Hsh & Hcfg) & Hc & Hk). split; [split; [by vm_compute|by split]|by split].
Qed.

Lemma r820t_init_moves r k : is_r82xx (s_tuner k) = true -> moves (dev_inv r true k) r820t_init (dev_inv true true k).
Proof.
  intros Ht. unfold r820t_init. eapply (moves_bind _ (dev_inv true true k)).
  - apply moves_modify. intros d ((Ha & Hsh & _) & Hc & Hk).
    destruct (decide _); (split; [split; [exact Ha|split; [exact Hsh|]]|by split]); intros _ _;
      (split; [by vm_compute|split; [by vm_compute|apply (tuner_clock_range _ _ Hc)]]).
  - intros _ d ((Ha & Hsh & Hcfg) & Hc & Hk). apply wp_zoom. rewrite <- Hk in Ht.
    eapply wp_mono; [|apply (init_wp (core_inv true true)); [by split; [apply Hcfg|]|exact Hc]].
    intros a [p c'] ((Hcfg' & Hsh') & Hc' & _). split_and!; try done; apply Hsh'.
Qed.

Lemma tuner_init_moves r k scf :
  moves (dev_inv r false k) (if_some (tuner_init (tuners scf (s_tuner k))) with_repeater 0) (dev_inv true false k).
Proof.
  destruct (is_r82xx (s_tuner k)) eqn:Ht.
  - assert (tuner_init (tuners scf (s_tuner k)) = Some r820t_init) as -> by (by destruct (s_tuner k)).
    cbn [if_some]. apply with_repeater_moves. by apply r820t_init_moves.
  - eapply moves_mono; [|done|intros d; by apply (ready_other r)].
    destruct (s_tuner k); try discriminate Ht; cbn [tuners tuner_init if_some].
    + apply preserves_ret.
    + apply with_repeater_moves. apply e4000_init_moves.
    + apply with_repeater_moves. apply on_core_inv. apply (fc0012_init_J (core_inv true true)).
    + apply with_repeater_moves. apply on_core_inv. apply (fc0013_init_J (core_inv true true)).
    + apply with_repeater_moves. apply on_core_inv. apply (fc2580_Initialize_J (core_inv true true)).
Qed.

Lemma tuner_exit_inv k scf :
  preserves (dev_inv true false k) (if_some (tuner_exit (tuners scf (s_tuner k))) with_repeater 0).
Proof.
  destruct (s_tuner k) eqn:Ht; cbn [tuners tuner_exit if_some]; try apply with_repeater_moves.
  - apply preserves_ret.
  - apply on_e4k_inv. apply (run_e4k_call_ok (core_inv true true) (E4kStandby 1)). exact I.
  - apply preserves_ret.
  - apply preserves_ret.
  - apply preserves_ret.
  - apply on_r82xx_inv; [by rewrite Ht|]. apply (standby_inv (core_inv true true)).
  - apply on_r82xx_inv; [by rewrite Ht|]. apply (standby_inv (core_inv true true)).
Qed.

Lemma clock_min (c : core) : core_inv true true c -> 2000 <= rtlsdr_get_tuner_clock c.
Proof. intros Hc. pose proof (tuner_clock_range _ _ Hc). cbn [rtlsdr_get_tuner_clock core_i2c]. lia. Qed.

(** [set_freq], where the tuner has it. *)
Lemma tuner_set_freq_inv k scf f freq :
  tuner_set_freq (tuners scf (s_tuner k)) = Some f -> preserves (dev_inv true true k) (f freq).
Proof.
  destruct (s_tuner k) eqn:Ht; cbn [tuners tuner_set_freq]; intros [= <-].
  - apply on_e4k_inv. apply (run_e4k_call_ok (core_inv true true) (E4kTuneFreq freq)). exact I.
  - unfold fc0012_set_freq. apply preserves_bind; [apply on_core_inv, gpio_bit_inv; lia|]. intros _.
    apply on_core_inv. apply (fc0012_set_params_J (core_inv true true) clock_min).
  - apply on_core_inv. apply (fc0013_set_params_J (core_inv true true) clock_min).
  - apply on_core_inv. apply (fc2580_SetRfFreqHz_J (core_inv true true)).
  - apply on_r82xx_inv; [by rewrite Ht|]. apply (set_freq_inv (core_inv true true)).
  - apply on_r82xx_inv; [by rewrite Ht|]. apply (set_freq_inv (core_inv true true)).
Qed.

(** ** Tuning *)

(** The direct sampling mode that rtlsdr_set_center_freq selects. *)
Definition auto_ds (k : settings) (freq : Z) : Z :=
  if s_mode k =? 0
  then (if (freq <? 24000000) && bool_decide (s_tuner k = RTLSDR_TUNER_R820T) then 2 else 0)
  else s_ds k.

Lemma auto_moves k freq :
  moves (dev_inv true false k) (modify (auto_direct_sampling freq)) (dev_inv true false (with_ds (auto_ds k freq) k)).
Proof.
  apply moves_modify. intros d (Hs & Hc & Hk). unfold auto_direct_sampling, auto_ds. rewrite <- Hk. cbn [s_mode s_tuner s_ds settings_of].
  destruct (dev_direct_sampling_mode d =? 0); (split; [exact Hs|by split]).
Qed.

(** The first half of rtlsdr_set_center_freq: the tuner or the DDC is set. *)
Lemma retune_moves k scf freq :
  moves (dev_inv true false k)
    (if truthy (s_ds k) then repeater 0;; on_core (rtlsdr_set_if_freq freq)
     else if_some (tuner_set_freq (tuners scf (s_tuner k)))
            (fun f => repeater 1;; offs ← gets dev_offs_freq; f (u32 (freq - offs))) (-1))
    (dev_inv true false k).
Proof.
  apply moves_if.
  - eapply moves_bind; [apply repeater_off_inv|]. intros _. apply on_core_inv, set_if_freq_inv.
  - destruct (tuner_set_freq _) as [f|] eqn:E; cbn [if_some]; [|apply preserves_ret].
    eapply moves_bind; [apply repeater_on_moves|]. intros _. apply get_any. intros offs.
    eapply moves_mono; [eapply tuner_set_freq_inv, E|done|apply dev_inv_weaken].
Qed.

(** _rtlsdr_set_direct_sampling, given what the call of
    rtlsdr_set_center_freq at its end does. *)
Lemma set_direct_sampling_moves k scf on Q :
  moves (dev_inv true false (with_ds on k)) (scf (s_freq k)) Q ->
  moves (dev_inv true false k) (set_direct_sampling_ scf on) Q.
Proof.
  intros Hscf. unfold set_direct_sampling_. apply (get_setting _ _ _ _ s_tuner); [done|].
  eapply (moves_bind _ (dev_inv true false (with_ds on k))).
  - destruct (truthy on) eqn:Hon.
    + eapply moves_bind; [apply tuner_exit_inv|]. intros r.
      do 4 (eapply moves_bind; [apply on_core_inv; solve_pres|]; intros ?).
      eapply moves_bind; [apply set_ds_moves|]. intros. apply preserves_ret.
    + assert (on = 0) as -> by (unfold truthy in Hon; destruct (Z.eqb_spec on 0); done).
      eapply moves_bind; [apply tuner_init_moves|]. intros r.
      eapply (moves_bind _ (dev_inv true false k)); [apply preserves_moves; solve_pres|]. intros r1.
      eapply moves_bind; [apply on_core_inv; solve_pres|]. intros r4.
      eapply moves_bind; [apply set_ds_moves|]. intros. apply preserves_ret.
  - intros r. apply (get_setting _ _ _ _ s_freq); [done|].
    eapply moves_bind; [exact Hscf|]. intros r5. by apply moves_ret.
Qed.

(** One level of rtlsdr_set_center_freq: the next one is entered when the
    mode changes, with the frequency that was set or, after an error, 0. *)
Lemma set_center_freq_step t n k freq :
  s_tuner k = t ->
  (auto_ds k freq <> s_ds k -> forall freq', freq' = freq \/ freq' = 0 ->
     moves (dev_inv true false (with_freq freq' (with_ds (auto_ds k freq) k))) (set_center_freq_fuel n freq') (dev_at t)) ->
  moves (dev_inv true false k) (set_center_freq_fuel (S n) freq) (dev_at t).
Proof.
  intros <- Hnext. cbn [set_center_freq_fuel]. apply (get_setting _ _ _ _ s_ds); [done|].
  destruct (s_ds k <? 0); [apply moves_ret; intros d; apply dev_inv_at|].
  eapply moves_bind; [apply auto_moves|]. intros _.
  apply (get_setting _ _ _ _ s_ds); [done|]. apply (get_setting _ _ _ _ s_tuner); [done|].
  eapply moves_bind; [apply (retune_moves (with_ds _ k))|]. intros r.
  eapply moves_bind; [apply set_freq_moves|]. intros _. apply (get_setting _ _ _ _ s_ds); [done|].
  cbn [s_ds with_ds with_freq]. destruct (Z.eqb_spec (s_ds k) (auto_ds k freq)) as [E|Hne]; cbn [negb].
  - apply moves_ret. intros d. apply (dev_inv_at _ (with_freq _ (with_ds _ k))).
  - apply set_direct_sampling_moves. cbn [s_freq with_freq].
    apply (Hnext (not_eq_sym Hne)). destruct (r =? 0); auto.
Qed.

(** Once the mode is the automatic one for a frequency, it stays. *)
Lemma auto_ds_again k freq freq' : auto_ds (with_freq freq' (with_ds (auto_ds k freq) k)) freq = auto_ds k freq.
Proof. unfold auto_ds, with_freq, with_ds. cbn. by destruct (s_mode k =? 0). Qed.

Lemma set_center_freq_moves n k freq :
  moves (dev_inv true false k) (set_center_freq_fuel (3 + n) freq) (dev_at (s_tuner k)).
Proof.
  apply set_center_freq_step; [done|]. intros _ f1 Hf1. apply set_center_freq_step; [done|].
  destruct Hf1 as [-> | ->]; [by rewrite auto_ds_again|]. intros _ f2 Hf2. apply set_center_freq_step; [done|].
  assert (f2 = 0) as -> by (by destruct Hf2). by rewrite auto_ds_again.
Qed.

Lemma set_center_freq_ok n freq : preserves dev_ok (set_center_freq_fuel (3 + n) freq).
Proof. intros d [k Hk]. eapply wp_mono; [|by apply (set_center_freq_moves n k)]. intros r d'. apply dev_at_ok. Qed.

(** *** More fuel gives the same result *)

Definition below {S A} (m1 m2 : M S A) : Prop := forall s r, m1 s = Some r -> m2 s = Some r.

Lemma below_refl {S A} (m : M S A) : below m m.
Proof. by intros s r. Qed.

Lemma below_bind {S A B} (m1 m2 : M S A) (k1 k2 : A -> M S B) :
  below m1 m2 -> (forall a, below (k1 a) (k2 a)) -> below (m1 ≫= k1) (m2 ≫= k2).
Proof.
  intros Hm Hk s r. unfold mbind, M_bind. destruct (m1 s) as [[a s']|] eqn:E; [|done].
  rewrite (Hm _ _ E). apply Hk.
Qed.

Lemma below_if {S A} (b : bool) (m1 m2 n1 n2 : M S A) :
  below m1 n1 -> below m2 n2 -> below (if b then m1 else m2) (if b then n1 else n2).
Proof. by destruct b. Qed.

(** Of the interface functions only [set_bw] retunes. *)
Lemma tuners_scf scf1 scf2 t :
  tuner_init (tuners scf1 t) = tuner_init (tuners scf2 t) /\ tuner_exit (tuners scf1 t) = tuner_exit (tuners scf2 t) /\
  tuner_set_freq (tuners scf1 t) = tuner_set_freq (tuners scf2 t).
Proof. destruct t; cbn [tuners tuner_init tuner_exit tuner_set_freq]; split_and!; reflexivity. Qed.

Lemma below_direct_sampling scf1 scf2 on :
  (forall f, below (scf1 f) (scf2 f)) -> below (set_direct_sampling_ scf1 on) (set_direct_sampling_ scf2 on).
Proof.
  intros Hscf. unfold set_direct_sampling_. apply below_bind; [apply below_refl|]. intros t.
  destruct (tuners_scf scf1 scf2 t) as (-> & -> & _). apply below_bind; [apply below_refl|]. intros r.
  apply below_bind; [apply below_refl|]. intros f. apply below_bind; [apply Hscf|]. intros. apply below_refl.
Qed.

Lemma below_set_center_freq n : forall freq, below (set_center_freq_fuel n freq) (set_center_freq_fuel (S n) freq).
Proof.
  induction n as [|n IH]; intros freq; [by intros s r|].
  unfold set_center_freq_fuel at 1 2; fold set_center_freq_fuel.
  apply below_bind; [apply below_refl|]. intros last. apply below_if; [apply below_refl|].
  apply below_bind; [apply below_refl|]. intros _. apply below_bind; [apply below_refl|]. intros ds.
  apply below_bind; [apply below_refl|]. intros t.
  destruct (tuners_scf (set_center_freq_fuel n) (set_center_freq_fuel (S n)) t) as (_ & _ & Hset).
  rewrite Hset. apply below_bind; [apply below_refl|]. intros r.
  apply below_bind; [apply below_refl|]. intros _. apply below_bind; [apply below_refl|]. intros ds'.
  apply below_if; [|apply below_refl]. by apply below_direct_sampling.
Qed.

Lemma more_fuel n m freq : (n <= m)%nat -> below (set_center_freq_fuel n freq) (set_center_freq_fuel m freq).
Proof. induction 1 as [|m _ IH]; [apply below_refl|]. intros d r Hr. by apply below_set_center_freq, IH. Qed.

(** C2: rtlsdr_set_center_freq and _rtlsdr_set_direct_sampling call each other.
    From every state the library can be in, for every frequency and whatever
    the transfers return, the recursion ends after at most three levels: all
    depths from three on give the same, defined result. *)
Theorem set_center_freq_terminates (freq : Z) (d : rtlsdr_dev) :
  dev_ok d ->
  exists r d', dev_ok d' /\ rtlsdr_set_center_freq freq d = Some (r, d') /\
    forall n, (3 <= n)%nat -> set_center_freq_fuel n freq d = Some (r, d').
Proof.
  intros Hd. destruct (wp_inv _ _ _ (set_center_freq_ok 0 freq d Hd)) as (r & d' & E & Hd').
  exists r, d'. split; [exact Hd'|]. split; [exact E|]. intros n Hn. by apply (more_fuel 3).
Qed.

(** An R820T in direct sampling mode on a bus where every transfer fails. *)
Definition dead_env : usb_env := mk_env (fun _ _ => -1) (fun _ _ _ => None) (fun _ _ => 0) (fun _ => 0).
Definition stuck_dev : rtlsdr_dev :=
  mk_dev (mk_core dead_env [] 28800000 28800000 0 fir_default "" "") 2048000 2 RTLSDR_TUNER_R820T 1000000 0 0 0
    (mk_e4k 0 E4K_BAND_VHF2 (mk_pll 0 0 0 0 0 0 0 0))
    (mk_priv (mk_config R820T_I2C_ADDR 28800000 CHIP_R820T 8 0) (replicate 30 0) XTAL_LOW_CAP_30P 0 0 0 0 0 0 0 0) 0 0.

Lemma stuck_dev_ok : dev_ok stuck_dev.
Proof.
  exists (settings_of stuck_dev). split; [|split; [|done]].
  - split; [by vm_compute|]. split; [split; [done|by_compute]|]. intros _ _. split_and!; by vm_compute.
  - split; [split_and!; by vm_compute|]. split; [apply disciplined_nil|done].
Qed.

Lemma set_center_freq_terminates_witness :
  exists r d', dev_ok d' /\ rtlsdr_set_center_freq 100000000 stuck_dev = Some (r, d') /\
    forall n, (3 <= n)%nat -> set_center_freq_fuel n 100000000 stuck_dev = Some (r, d').
Proof. exact (set_center_freq_terminates 100000000 stuck_dev stuck_dev_ok). Defined.

(** Three levels are needed: leaving direct sampling fails there, the
    frequency becomes 0, and 0 Hz selects direct sampling again. *)
Lemma two_levels_not_enough :
  set_center_freq_fuel 2 100000000 stuck_dev = None /\
  (p ← set_center_freq_fuel 3 100000000 stuck_dev; Some (dev_direct_sampling p.2)) = Some 2.
Proof. split; vm_compute; reflexivity. Qed.
