(* ===== verification/DeviceSession.v ===== *)
(** * librtlsdr.c: sessions

    The device API, opened and then called in any order: every call has a
    defined result, and the tuner is only ever addressed through an open
    repeater. *)

From S2P Require Import Prelude RtlsdrI2c R82xx R82xxInv R82xxOps R82xxSpec E4k E4kInv E4kSession.
From S2P Require Import Fc0012 Fc0013 Fc2580 FcSafe Double Usb UsbSpec Demod DemodSpec Repeater Device DeviceInv.

(** ** The tuner calls *)

(** From an open repeater to an arbitrary state of the library. *)
Definition tuner_call (k : settings) (m : M rtlsdr_dev Z) : Prop := moves (dev_inv true true k) m dev_ok.

Lemma keeps_tuner_call k m : preserves (dev_inv true true k) m -> tuner_call k m.
Proof. intros Hm. eapply moves_mono; [exact Hm|done|]. intros d. apply dev_inv_ok. Qed.

Lemma e4000_set_bw_inv r k bw : preserves (dev_inv r true k) (e4000_set_bw bw).
Proof.
  unfold e4000_set_bw. repeat (apply preserves_bind; [apply on_e4k_inv, filter_set_ok; [apply _|by vm_compute]|intros]).
  apply preserves_ret.
Qed.

Lemma e4000_set_gain_inv r k gain : preserves (dev_inv r true k) (e4000_set_gain gain).
Proof.
  unfold e4000_set_gain. cbv zeta. apply preserves_bind; [apply on_e4k_inv, (run_e4k_call_ok (core_inv true true) (E4kLnaGain _)); exact I|].
  intros rc. apply preserves_if; [apply preserves_ret|].
  apply preserves_bind; [apply on_e4k_inv, (run_e4k_call_ok (core_inv true true) (E4kMixerGain _)); exact I|].
  intros rc2. apply preserves_if; apply preserves_ret.
Qed.

Lemma r820t_set_bw_call k bw :
  is_r82xx (s_tuner k) = true -> tuner_call k (r820t_set_bw rtlsdr_set_center_freq bw).
Proof.
  intros Ht. unfold tuner_call, r820t_set_bw. apply get_any. intros rate.
  eapply moves_bind; [apply on_r82xx_inv; [done|apply (set_bandwidth_inv (core_inv true true))]|]. intros r.
  apply moves_if; [apply moves_ret; intros d; apply dev_inv_ok|].
  eapply moves_bind; [apply on_core_inv, set_if_freq_inv|]. intros r2.
  apply moves_if; [apply moves_ret; intros d; apply dev_inv_ok|].
  apply get_any. intros freq. eapply moves_mono; [apply (set_center_freq_ok 0)| |done]. intros d. apply dev_inv_ok.
Qed.

Lemma tuner_set_bw_call k f bw :
  tuner_set_bw (tuners rtlsdr_set_center_freq (s_tuner k)) = Some f -> tuner_call k (f bw).
Proof.
  destruct (s_tuner k) eqn:Ht; cbn [tuners tuner_set_bw]; intros [= <-];
    try (apply r820t_set_bw_call; by rewrite Ht); apply keeps_tuner_call.
  - apply e4000_set_bw_inv.
  - apply preserves_ret.
  - apply preserves_ret.
  - apply on_core_inv. apply (fc2580_SetBandwidthMode_J (core_inv true true)).
Qed.

Lemma tuner_set_gain_call k f gain :
  tuner_set_gain (tuners rtlsdr_set_center_freq (s_tuner k)) = Some f -> tuner_call k (f gain).
Proof.
  destruct (s_tuner k) eqn:Ht; cbn [tuners tuner_set_gain]; intros [= <-]; apply keeps_tuner_call.
  - apply e4000_set_gain_inv.
  - apply on_core_inv. apply (fc0012_set_gain_J (core_inv true true)).
  - apply on_core_inv. apply (fc0013_set_lna_gain_J (core_inv true true)).
  - apply preserves_ret.
  - apply on_r82xx_inv; [by rewrite Ht|apply (set_gain_inv (core_inv true true))].
  - apply on_r82xx_inv; [by rewrite Ht|apply (set_gain_inv (core_inv true true))].
Qed.

Lemma tuner_set_if_gain_call k f stage gain :
  tuner_set_if_gain (tuners rtlsdr_set_center_freq (s_tuner k)) = Some f -> tuner_call k (f stage gain).
Proof.
  destruct (s_tuner k) eqn:Ht; cbn [tuners tuner_set_if_gain]; intros [= <-]; apply keeps_tuner_call.
  apply on_e4k_inv, (run_e4k_call_ok (core_inv true true) (E4kIfGain _ _)). apply u8_range.
Qed.

Lemma tuner_set_gain_mode_call k f mode :
  tuner_set_gain_mode (tuners rtlsdr_set_center_freq (s_tuner k)) = Some f -> tuner_call k (f mode).
Proof.
  destruct (s_tuner k) eqn:Ht; cbn [tuners tuner_set_gain_mode]; intros [= <-]; apply keeps_tuner_call.
  - apply on_e4k_inv, (run_e4k_call_ok (core_inv true true) (E4kManualGain _)). exact I.
  - apply preserves_ret.
  - apply on_core_inv. apply (fc0013_set_gain_mode_J (core_inv true true)).
  - apply preserves_ret.
  - apply on_r82xx_inv; [by rewrite Ht|apply (set_gain_inv (core_inv true true))].
  - apply on_r82xx_inv; [by rewrite Ht|apply (set_gain_inv (core_inv true true))].
Qed.

(** ** The calls of the API keep the invariant *)

Lemma on_core_ok {A} (m : M core A) : preserves (core_inv true false) m -> preserves dev_ok (on_core m).
Proof. intros Hm d [k Hk]. eapply wp_mono; [|by apply (on_core_inv true false k m Hm)]. intros a d'. apply dev_inv_ok. Qed.

Lemma moves_ok {A} (m : M rtlsdr_dev A) : (forall k, moves (dev_inv true false k) m dev_ok) -> preserves dev_ok m.
Proof. intros Hm d [k Hk]. by apply (Hm k). Qed.

(** A setter of a field that the invariant does not mention. *)
Lemma setter_ok (f : rtlsdr_dev -> rtlsdr_dev) :
  (forall d, dev_tuner_type (f d) = dev_tuner_type d /\ dev_e4k (f d) = dev_e4k d /\
     dev_r82xx (f d) = dev_r82xx d /\ dcore (f d) = dcore d) ->
  preserves dev_ok (modify f).
Proof.
  intros Hf. apply preserves_modify. intros d [k ((Ha & Hsh & Hcfg) & Hc & _)].
  destruct (Hf d) as (Et & Ee & Er & Ec). exists (settings_of (f d)).
  split; [|split; [by rewrite Ec|done]]. unfold structs_ok. by rewrite Et, Ee, Er.
Qed.

#[export] Hint Extern 1 (preserves dev_ok (on_core _)) => apply on_core_ok : pres.
#[export] Hint Extern 1 (preserves dev_ok (demod_write _ _ _ _)) => apply on_core_ok : pres.
#[export] Hint Extern 1 (preserves dev_ok (repeater 0)) => apply on_core_ok, repeater_closes : pres.
#[export] Hint Extern 1 (preserves dev_ok (modify _)) => apply setter_ok; done : pres.
#[export] Hint Extern 1 (preserves dev_ok (rtlsdr_set_center_freq _)) => apply (set_center_freq_ok 0) : pres.

(** A call of the tuner, the repeater opened first, and closed or not. *)
Lemma opened_call {A} k (o : option A) (f : A -> M rtlsdr_dev Z) none :
  (forall g, o = Some g -> tuner_call k (f g)) ->
  moves (dev_inv true false k) (if_some o (fun g => repeater 1;; f g) none) dev_ok.
Proof.
  intros Hf. destruct o as [g|]; cbn [if_some]; [|apply moves_ret; intros d; apply dev_inv_ok].
  eapply moves_bind; [apply repeater_on_moves|]. intros _. by apply Hf.
Qed.

Lemma with_repeater_ok k m : tuner_call k m -> moves (dev_inv true false k) (with_repeater m) dev_ok.
Proof.
  intros Hm. unfold with_repeater. eapply moves_bind; [apply repeater_on_moves|]. intros _.
  eapply moves_bind; [exact Hm|]. intros r. apply preserves_moves. solve_pres.
Qed.

(** The tuner's bandwidth, as three functions of the API set it. *)
Lemma set_bw_ok k f bw :
  tuner_set_bw (tuners rtlsdr_set_center_freq (s_tuner k)) = Some f ->
  moves (dev_inv true false k) (with_repeater (f bw)) dev_ok.
Proof. intros Hf. by apply with_repeater_ok, tuner_set_bw_call. Qed.

Lemma get_tuner_ok {B} (kont : rtlsdr_tuner_iface -> M rtlsdr_dev B) :
  (forall k, moves (dev_inv true false k) (kont (tuners rtlsdr_set_center_freq (s_tuner k))) dev_ok) ->
  preserves dev_ok (gets dev_tuner ≫= kont).
Proof.
  intros Hk. apply moves_ok. intros k.
  by apply (get_setting _ _ _ _ (fun k => tuners rtlsdr_set_center_freq (s_tuner k))).
Qed.

Lemma set_tuner_bandwidth_ok bw : preserves dev_ok (rtlsdr_set_tuner_bandwidth bw).
Proof.
  apply get_tuner_ok. intros k. apply get_any. intros rate.
  destruct (tuner_set_bw _) as [f|] eqn:E; cbn [if_some]; [|apply moves_ret; intros d; apply dev_inv_ok].
  eapply moves_bind; [by eapply set_bw_ok|]. intros r. apply preserves_moves. solve_pres.
Qed.

Lemma set_tuner_gain_ok gain : preserves dev_ok (rtlsdr_set_tuner_gain gain).
Proof.
  apply get_tuner_ok. intros k. eapply moves_bind; [apply opened_call; intros g Hg; by apply tuner_set_gain_call|].
  intros r. apply preserves_moves. solve_pres.
Qed.

Lemma set_tuner_if_gain_ok stage gain : preserves dev_ok (rtlsdr_set_tuner_if_gain stage gain).
Proof. apply get_tuner_ok. intros k. apply opened_call. intros g Hg. by apply tuner_set_if_gain_call. Qed.

Lemma set_tuner_gain_mode_ok mode : preserves dev_ok (rtlsdr_set_tuner_gain_mode mode).
Proof. apply get_tuner_ok. intros k. apply opened_call. intros g Hg. by apply tuner_set_gain_mode_call. Qed.

Lemma bias_tee_gpio_ok gpio on : 0 <= gpio < 8 -> preserves dev_ok (rtlsdr_set_bias_tee_gpio gpio on).
Proof.
  intros Hg. unfold rtlsdr_set_bias_tee_gpio. rewrite (u8_small gpio) by (unfold is_u8; lia).
  apply preserves_bind; [solve_pres|]. intros bt.
  apply preserves_bind; [by apply on_core_ok, gpio_output_inv|]. intros _.
  apply preserves_bind; [by apply on_core_ok, gpio_bit_inv|]. solve_pres.
Qed.

Lemma bias_tee_ok on : preserves dev_ok (rtlsdr_set_bias_tee on).
Proof. apply bias_tee_gpio_ok. lia. Qed.
#[export] Hint Resolve bias_tee_ok : pres.

Lemma offset_tuning_ok on : preserves dev_ok (rtlsdr_set_offset_tuning on).
Proof.
  unfold rtlsdr_set_offset_tuning. apply preserves_bind; [solve_pres|]. intros t.
  apply preserves_if; [solve_pres|]. apply preserves_bind; [solve_pres|]. intros ds.
  apply preserves_if; [solve_pres|]. apply preserves_bind; [solve_pres|]. intros _.
  apply preserves_bind; [solve_pres|]. intros offs. apply preserves_bind; [solve_pres|]. intros r.
  apply get_tuner_ok. intros k. apply get_any. intros bw. apply get_any. intros rate.
  eapply moves_bind; [|intros _; apply preserves_moves; solve_pres].
  destruct (tuner_set_bw _) as [f|] eqn:E; cbn [if_some]; [by eapply set_bw_ok|apply moves_ret; intros d; apply dev_inv_ok].
Qed.
#[export] Hint Resolve offset_tuning_ok : pres.

Lemma set_sample_rate_ok rate : preserves dev_ok (rtlsdr_set_sample_rate rate).
Proof.
  unfold rtlsdr_set_sample_rate. apply preserves_if; [solve_pres|].
  apply preserves_bind; [solve_pres|]. intros xtal. apply preserves_bind; [solve_pres|]. intros oor. cbv zeta.
  apply preserves_bind; [solve_pres|]. intros _.
  apply get_tuner_ok. intros k. apply get_any. intros bw. apply get_any. intros rate'.
  eapply moves_bind; [|intros _; apply preserves_moves; solve_pres].
  destruct (tuner_set_bw _) as [f|] eqn:E; cbn [if_some]; [by eapply set_bw_ok|apply moves_ret; intros d; apply dev_inv_ok].
Qed.
#[export] Hint Resolve set_sample_rate_ok : pres.

Lemma direct_sampling_ok on : preserves dev_ok (rtlsdr_set_direct_sampling on).
Proof.
  unfold rtlsdr_set_direct_sampling. apply preserves_bind; [solve_pres|]. intros _.
  apply moves_ok. intros k. apply set_direct_sampling_moves.
  eapply moves_mono; [apply (set_center_freq_ok 0)| |done]. intros d. apply dev_inv_ok.
Qed.

(** The corrected tuner clock is in the range of the R82xx driver. *)
Lemma update_tuner_clocks_ok : preserves dev_ok update_tuner_clocks.
Proof.
  apply preserves_modify. intros d [k ((Ha & Hsh & Hcfg) & Hc & Hk)]. cbv zeta. exists k.
  split; [split; [exact Ha|split; [exact Hsh|]]|by split]. intros _ Ht. specialize (Hcfg eq_refl Ht).
  destruct Hcfg as (Hi & Hm & _). split; [exact Hi|]. split; [exact Hm|]. exact (tuner_clock_range _ _ Hc).
Qed.
#[export] Hint Resolve update_tuner_clocks_ok : pres.

(** A change of the lower layer's settings. *)
Lemma set_core_ok (f : rtlsdr_dev -> core) :
  (forall d, core_inv true false (dcore d) -> core_inv true false (f d)) -> preserves dev_ok (modify (fun d => set_core (f d) d)).
Proof. intros Hf. apply preserves_modify. intros d [k (Hs & Hc & Hk)]. exists k. split; [exact Hs|]. split; [by apply Hf|exact Hk]. Qed.

Lemma freq_correction_ok ppm : Z.abs ppm <= 20000 -> preserves dev_ok (rtlsdr_set_freq_correction ppm).
Proof.
  intros Hp. unfold rtlsdr_set_freq_correction. apply preserves_bind; [solve_pres|]. intros c.
  apply preserves_if; [solve_pres|]. apply preserves_bind; [|intros _; solve_pres].
  apply set_core_ok. intros d ((Hr & Ht & _ & Hf) & Hl). by split.
Qed.

(** A frequency of the tuner's crystal that the API may be given: 0 for the
    RTL2832's. *)
Definition tuner_xtal_ok (f : Z) : Prop := f = 0 \/ 2000000 <= f <= 32000000.

Lemma xtal_freq_ok rtl_freq tuner_freq : tuner_xtal_ok tuner_freq -> preserves dev_ok (rtlsdr_set_xtal_freq rtl_freq tuner_freq).
Proof.
  intros Ht. unfold rtlsdr_set_xtal_freq. destruct (_ && (_ || _)) eqn:Hrange; [solve_pres|].
  apply preserves_bind; [solve_pres|]. intros old_rtl. apply preserves_bind.
  - destruct ((0 <? rtl_freq) && negb _) eqn:Hset; [|solve_pres].
    apply preserves_bind; [|intros _; solve_pres].
    apply set_core_ok. intros d ((Hr & Htx & Hc) & Hl). split; [|done]. split; [|done]. cbn [rtl_xtal set_rtl_xtal]. lia.
  - intros r. apply preserves_bind; [solve_pres|]. intros old_tun. apply preserves_if; [|solve_pres].
    apply preserves_bind; [|intros _; solve_pres].
    apply set_core_ok. intros d ((Hr & Htx & Hc) & Hl). split; [|done]. split; [exact Hr|]. split; [|exact Hc].
    cbn [tun_xtal set_tun_xtal]. unfold MIN_RTL_XTAL_FREQ, MAX_RTL_XTAL_FREQ, DEF_RTL_XTAL_FREQ, tuner_xtal_ok in *.
    destruct (Z.eqb_spec 0 tuner_freq); lia.
Qed.

Lemma reset_buffer_ok : preserves dev_ok rtlsdr_reset_buffer.
Proof. unfold rtlsdr_reset_buffer. solve_pres. Qed.

Lemma deinit_baseband_ok : preserves dev_ok rtlsdr_deinit_baseband.
Proof.
  apply get_tuner_ok. intros k. eapply moves_bind; [|intros r; apply preserves_moves; solve_pres].
  eapply moves_mono; [apply tuner_exit_inv|done|apply dev_inv_ok].
Qed.

Lemma close_ok dev_lost : preserves dev_ok (rtlsdr_close dev_lost).
Proof.
  apply preserves_bind; [|intros _; apply preserves_ret]. apply preserves_if; [apply preserves_ret|apply deinit_baseband_ok].
Qed.

(** ** rtlsdr_open *)

(** While the device is opened, before the tuner's clock is known. *)
Definition opening (o : bool) (k : settings) (d : rtlsdr_dev) : Prop :=
  structs_ok false d /\ core_inv false o (dcore d) /\ settings_of d = k.

Lemma on_core_opening {A} o o' k (m : M core A) :
  moves (core_inv false o) m (core_inv false o') -> moves (opening o k) (on_core m) (opening o' k).
Proof.
  intros Hm d (Hs & Hc & Hk). apply wp_zoom. eapply wp_mono; [|by apply Hm].
  intros a c' Hc'. split; [exact Hs|]. by split.
Qed.

Lemma reset_device_inv clk : preserves (core_inv clk false) libusb_reset_device.
Proof.
  apply preserves_modify. intros c Hc. apply (core_inv_step clk false c UsbReset); [exact Hc|done|by intros []].
Qed.

Lemma probe_tuner_inv clk : preserves (core_inv clk true) probe_tuner.
Proof.
  unfold probe_tuner. repeat lazymatch goal with
    | |- preserves _ (mbind _ (rtlsdr_i2c_read_reg _ _)) => apply preserves_bind; [apply i2c_read_reg_inv|intros ?]
    | |- preserves _ (mbind _ (rtlsdr_set_gpio_output _)) => apply preserves_bind; [apply gpio_output_inv; lia|intros ?]
    | |- preserves _ (mbind _ (rtlsdr_set_gpio_bit _ _)) => apply preserves_bind; [apply gpio_bit_inv; lia|intros ?]
    | |- preserves _ (if _ then _ else _) => apply preserves_if
    | |- preserves _ (mret _) => apply preserves_ret
    end.
Qed.

(** The tuner's clock is known from the first line of [setup_tuner] on. *)
Lemma opening_clock o k f :
  (forall c, MIN_RTL_XTAL_FREQ <= rtl_xtal c <= MAX_RTL_XTAL_FREQ -> 2000000 <= f c <= 32000000) ->
  moves (opening o k) (modify (fun d => set_core (set_tun_xtal (f (dcore d)) (dcore d)) d)) (dev_inv false o k).
Proof.
  intros Hf. apply moves_modify. intros d (Hs & ((Hr & _ & Hc) & Hl) & Hk). split; [exact Hs|]. split; [|exact Hk].
  split; [|exact Hl]. split; [exact Hr|]. split; [intros _; by apply Hf|exact Hc].
Qed.

(** The state after [setup_tuner]: with a tuner, its structs are not ready,
    and the repeater is open; without one nothing is left to set up. *)
Definition probed (t : rtlsdr_tuner) (d : rtlsdr_dev) : Prop :=
  if decide (t = RTLSDR_TUNER_UNKNOWN) then dev_at t d else exists k, s_tuner k = t /\ dev_inv false true k d.

Lemma probed_known t k d : t <> RTLSDR_TUNER_UNKNOWN -> s_tuner k = t -> dev_inv false true k d -> probed t d.
Proof. intros Hne Ht Hd. unfold probed. destruct (decide _); [done|]. by exists k. Qed.

Lemma probed_unknown d : dev_at RTLSDR_TUNER_UNKNOWN d -> probed RTLSDR_TUNER_UNKNOWN d.
Proof. done. Qed.

Lemma setup_tuner_moves k : moves (opening true k) setup_tuner (probed (s_tuner k)).
Proof.
  unfold setup_tuner. eapply moves_bind; [apply opening_clock|intros _].
  { unfold MIN_RTL_XTAL_FREQ, MAX_RTL_XTAL_FREQ, DEF_RTL_XTAL_FREQ. intros. lia. }
  apply (get_setting _ _ _ _ s_tuner); [done|]. eapply (moves_bind _ (dev_inv false true k)).
  - destruct (decide _); [|apply preserves_ret]. apply preserves_modify.
    intros d (Hs & Hc & Hk). destruct (is_blog_v4 _); [done|]. split; [exact Hs|]. split; [|exact Hk].
    destruct Hc as ((Hr & _ & Hc) & Hl). split; [|exact Hl]. split; [exact Hr|]. split; [|exact Hc]. done.
  - intros _. destruct (s_tuner k) eqn:Ht;
      lazymatch goal with
      | |- moves _ (mret _) _ => apply moves_ret; intros d; by apply probed_known
      | |- moves _ _ (probed RTLSDR_TUNER_UNKNOWN) =>
          eapply moves_mono; [|intros d Hd; exact Hd|intros d; apply probed_unknown]
      | |- _ => eapply moves_mono; [|intros d Hd; exact Hd|intros d; by apply probed_known];
                apply (preserves_moves (dev_inv false true k)); solve_pres
      end.
    eapply moves_bind; [|intros; apply preserves_ret]. unfold rtlsdr_set_direct_sampling.
    set (k1 := mk_settings (s_tuner k) (s_ds k) 1 (s_freq k)).
    eapply (moves_bind _ (dev_inv true false k1)).
    + apply moves_modify. intros d Hd. apply (ready_other _ _ k) in Hd; [|by rewrite Ht].
      destruct Hd as (Hs & Hc & Hk). split; [exact Hs|]. split; [by eapply core_inv_weaken|].
      unfold k1. by rewrite <- Hk.
    + intros _. apply set_direct_sampling_moves. rewrite <- Ht. exact (set_center_freq_moves 0 (with_ds 1 k1) _).
Qed.

(** The bias tee, forced on by the EEPROM. *)
Lemma bias_tee_inv r o k on : preserves (dev_inv r o k) (rtlsdr_set_bias_tee on).
Proof.
  unfold rtlsdr_set_bias_tee, rtlsdr_set_bias_tee_gpio. rewrite (u8_small 0) by by_compute.
  apply preserves_bind; [solve_pres|]. intros bt.
  apply preserves_bind; [apply on_core_inv, gpio_output_inv; lia|]. intros _.
  apply preserves_bind; [apply on_core_inv, gpio_bit_inv; lia|]. solve_pres.
Qed.

Lemma force_bt_moves r o k (kont : M rtlsdr_dev unit) Q :
  moves (dev_inv r o k) kont Q ->
  moves (dev_inv r o k)
    (buf ← on_core (uninit 256);
     q ← on_core (rtlsdr_read_eeprom buf 0 EEPROM_SIZE);
     b7 ← from_option_trap (q.2 !! 7%nat);
     modify (set_force_bt (if truthy (b7 .& 0x02) then 0 else 1));;
     bt ← gets dev_force_bt;
     (if truthy bt then rtlsdr_set_bias_tee 1 else mret 0);;
     kont) Q.
Proof.
  intros Hk d (Hs & Hc & E). apply wp_bind, wp_zoom.
  eapply wp_mono; [|by apply (uninit_inv true o 256)]. intros buf c1 [[Hl Hu] Hc1].
  apply wp_bind, wp_zoom. cbn [dcore set_core].
  eapply wp_mono; [|apply (read_eeprom_inv true o buf 0 EEPROM_SIZE); [unfold EEPROM_SIZE; lia|done|done]].
  intros q c2 [[Hql _] Hc2]. destruct (lookup_lt_is_Some_2 q.2 7 ltac:(lia)) as [b7 ->].
  cbn [from_option_trap]. apply wp_bind, wp_ret.
  match goal with |- wp ?m _ _ => assert (moves (dev_inv r o k) m Q) as Hm; [|apply Hm] end.
  - eapply (moves_bind _ (dev_inv r o k)); [by apply moves_modify|]. intros _. apply get_any. intros bt.
    eapply moves_bind; [|intros _; exact Hk]. apply moves_if; [apply bias_tee_inv|apply preserves_ret].
  - split; [exact Hs|]. by split.
Qed.

(** The tuner's initialisation with the repeater open. *)
Lemma tuner_init_open k scf :
  moves (dev_inv false true k) (if_some (tuner_init (tuners scf (s_tuner k))) (fun i => i) 0) (dev_inv true true k).
Proof.
  destruct (is_r82xx (s_tuner k)) eqn:Ht.
  - assert (tuner_init (tuners scf (s_tuner k)) = Some r820t_init) as -> by (by destruct (s_tuner k)).
    by apply r820t_init_moves.
  - eapply moves_mono; [|intros d Hd; exact Hd|intros d; by apply (ready_other false)].
    destruct (s_tuner k); try discriminate Ht; cbn [tuners tuner_init if_some].
    + apply preserves_ret.
    + apply e4000_init_moves.
    + apply on_core_inv. apply (fc0012_init_J (core_inv true true)).
    + apply on_core_inv. apply (fc0013_init_J (core_inv true true)).
    + apply on_core_inv. apply (fc2580_Initialize_J (core_inv true true)).
Qed.

(** The last step: the tuner is initialised, and the repeater closed. *)
Definition open_tuner : M rtlsdr_dev unit :=
  tuner ← gets dev_tuner; if_some (tuner_init tuner) (fun i => i) 0;; repeater 0.

Lemma open_tuner_unknown k :
  s_tuner k = RTLSDR_TUNER_UNKNOWN -> moves (dev_inv true false k) open_tuner dev_ok.
Proof.
  intros Ht. apply (get_setting _ _ _ _ (fun k => tuners rtlsdr_set_center_freq (s_tuner k))); [done|]. rewrite Ht.
  cbn [tuners tuner_init if_some]. eapply moves_bind; [apply preserves_ret|]. intros _.
  eapply moves_mono; [apply repeater_off_inv|intros d Hd; exact Hd|intros d; apply dev_inv_ok].
Qed.

Lemma open_tuner_known k : moves (dev_inv false true k) open_tuner dev_ok.
Proof.
  apply (get_setting _ _ _ _ (fun k => tuners rtlsdr_set_center_freq (s_tuner k))); [done|].
  eapply moves_bind; [apply tuner_init_open|]. intros _.
  eapply moves_mono; [apply repeater_off_inv|apply dev_inv_weaken|intros d; apply dev_inv_ok].
Qed.

(** A device fresh from calloc, with the FIR filter in place. *)
Lemma new_dev_structs e : structs_ok false (new_dev e).
Proof. split; [by vm_compute|]. split; [|done]. split; [done|by_compute]. Qed.

Lemma open_device_ok m p e : wp (open_device m p) (fun _ => dev_ok) (new_dev e).
Proof.
  set (k0 := mk_settings RTLSDR_TUNER_UNKNOWN 0 0 0).
  assert (moves (fun d => d = new_dev e) (open_device m p) dev_ok) as Hm; [|by apply Hm].
  unfold open_device. eapply (moves_bind _ (opening false k0)).
  { apply moves_modify. intros d ->. split; [apply new_dev_structs|]. split; [|done].
    split; [by_compute|]. split; [apply disciplined_nil|done]. }
  intros _. eapply moves_bind; [apply on_core_opening, usb_write_reg_inv; by_compute|]. intros r.
  eapply (moves_bind _ (opening false k0)); [apply moves_if; [apply on_core_opening, reset_device_inv|apply preserves_ret]|].
  intros _. eapply moves_bind; [apply on_core_opening, init_baseband_inv|]. intros _.
  eapply (moves_bind _ (opening false k0)); [by apply moves_modify|]. intros _.
  eapply moves_bind; [apply on_core_opening, repeater_opens|]. intros _.
  eapply moves_bind; [apply on_core_opening, probe_tuner_inv|]. intros t.
  eapply (moves_bind _ (opening true (mk_settings t 0 0 0))).
  { apply moves_modify. intros d ((Ha & Hsh & _) & Hc & Hk). split; [by split|]. split; [exact Hc|].
    unfold settings_of, k0 in *. cbn in *. by inversion Hk. }
  intros _. eapply moves_bind; [apply setup_tuner_moves|]. intros _. cbn [s_tuner]. unfold probed.
  destruct (decide _) as [->|Hne]; intros d (k & Ht & Hd); revert d Hd; apply force_bt_moves.
  - by apply open_tuner_unknown.
  - apply open_tuner_known.
Qed.

(** ** Sessions *)

(** The API of include/rtl-sdr.h that talks to the device. *)
Inductive api_call : Type :=
  | SetCenterFreq (freq : Z)
  | SetFreqCorrection (ppm : Z)
  | SetXtalFreq (rtl_freq tuner_freq : Z)
  | SetSampleRate (rate : Z)
  | SetTunerBandwidth (bw : Z)
  | SetTunerGain (gain : Z)
  | SetTunerIfGain (stage gain : Z)
  | SetTunerGainMode (manual : Z)
  | SetTestmode (on : Z)
  | SetAgcMode (on : Z)
  | SetDirectSampling (on : Z)
  | SetOffsetTuning (on : Z)
  | SetBiasTee (on : Z)
  | SetBiasTeeGpio (gpio on : Z)
  | ResetBuffer
  | WriteEeprom (data : list Z) (offset len : Z)
  | ReadEeprom (data : list Z) (offset len : Z).

(** What a caller has to see to: a correction of at most 2 %, a crystal of the
    tuner between 2 and 32 MHz, one of the eight GPIO lines, a buffer as long
    as it is said to be. *)
Definition api_ok (c : api_call) : Prop :=
  match c with
  | SetFreqCorrection ppm => Z.abs ppm <= 20000
  | SetXtalFreq _ tuner_freq => tuner_xtal_ok tuner_freq
  | SetBiasTeeGpio gpio _ => 0 <= gpio < 8
  | WriteEeprom data _ len | ReadEeprom data _ len => 0 <= len <= Z.of_nat (length data) /\ Forall is_u8 data
  | _ => True
  end.

Definition run_api (c : api_call) : M rtlsdr_dev Z :=
  match c with
  | SetCenterFreq f => rtlsdr_set_center_freq f
  | SetFreqCorrection p => rtlsdr_set_freq_correction p
  | SetXtalFreq r t => rtlsdr_set_xtal_freq r t
  | SetSampleRate r => rtlsdr_set_sample_rate r
  | SetTunerBandwidth b => rtlsdr_set_tuner_bandwidth b
  | SetTunerGain g => rtlsdr_set_tuner_gain g
  | SetTunerIfGain s g => rtlsdr_set_tuner_if_gain s g
  | SetTunerGainMode m => rtlsdr_set_tuner_gain_mode m
  | SetTestmode o => rtlsdr_set_testmode o
  | SetAgcMode o => rtlsdr_set_agc_mode o
  | SetDirectSampling o => rtlsdr_set_direct_sampling o
  | SetOffsetTuning o => rtlsdr_set_offset_tuning o
  | SetBiasTee o => rtlsdr_set_bias_tee o
  | SetBiasTeeGpio g o => rtlsdr_set_bias_tee_gpio g o
  | ResetBuffer => rtlsdr_reset_buffer
  | WriteEeprom d o l => on_core (rtlsdr_write_eeprom d o l)
  | ReadEeprom d o l => p ← on_core (rtlsdr_read_eeprom d o l); mret p.1
  end.

Definition library_session (manufact product : string) (calls : list api_call) (dev_lost : bool) : M rtlsdr_dev Z :=
  open_device manufact product;;
  for_each calls (fun c => run_api c;; mret tt);;
  rtlsdr_close dev_lost.

Lemma run_api_ok c : api_ok c -> preserves dev_ok (run_api c).
Proof.
  intros Hc. destruct c; cbn [run_api api_ok] in *.
  - apply (set_center_freq_ok 0).
  - by apply freq_correction_ok.
  - by apply xtal_freq_ok.
  - apply set_sample_rate_ok.
  - apply set_tuner_bandwidth_ok.
  - apply set_tuner_gain_ok.
  - apply set_tuner_if_gain_ok.
  - apply set_tuner_gain_mode_ok.
  - unfold rtlsdr_set_testmode. solve_pres.
  - unfold rtlsdr_set_agc_mode. solve_pres.
  - apply direct_sampling_ok.
  - apply offset_tuning_ok.
  - apply bias_tee_ok.
  - by apply bias_tee_gpio_ok.
  - apply reset_buffer_ok.
  - destruct Hc as [Hl Hu]. by apply on_core_ok, write_eeprom_inv.
  - destruct Hc as [Hl Hu]. apply preserves_bind; [|solve_pres].
    by apply on_core_ok; eapply returns_preserves, read_eeprom_inv.
Qed.

Lemma agc_mode_ok on : preserves dev_ok (rtlsdr_set_agc_mode on).
Proof. by apply (run_api_ok (SetAgcMode on)). Qed.

(** C1: the library opened on a device, called in any order with parameters in
    range, and closed (also when it was lost), whatever the tuner and the EEPROM, whatever transfers
    fail and whatever is read: the run has a defined result (no division by
    zero, no access outside an array, no endless loop or recursion), and
    every I2C transfer to a tuner happens while the repeater is open. *)
Theorem library_session_safe (e : usb_env) (manufact product : string) (calls : list api_call) (dev_lost : bool) :
  Forall api_ok calls ->
  wp (library_session manufact product calls dev_lost) (fun _ d => disciplined (usb_log (dcore d))) (new_dev e).
Proof.
  intros Hcalls. apply wp_bind. eapply wp_mono; [|apply open_device_ok]. intros u d Hd. cbv beta.
  assert (preserves dev_ok (for_each calls (fun c => run_api c;; mret tt);; rtlsdr_close dev_lost)) as Hm.
  { apply preserves_bind; [|intros _; apply close_ok]. apply preserves_for_each. intros c Hin.
    apply preserves_bind; [|solve_pres]. apply run_api_ok. by apply (proj1 (Forall_forall _ _) Hcalls). }
  eapply wp_mono; [|by apply Hm]. intros r d' (k & _ & (_ & Hdis & _) & _). exact Hdis.
Qed.

Lemma library_session_safe_witness :
  wp (library_session "Realtek" "RTL2838UHIDIR" [SetSampleRate 2048000; SetTunerGainMode 1; SetCenterFreq 1000000; SetCenterFreq 100000000] false)
    (fun _ d => disciplined (usb_log (dcore d))) (new_dev (env_ok (fun _ _ _ => 0x69))).
Proof.
  refine (library_session_safe _ _ _ [SetSampleRate 2048000; SetTunerGainMode 1; SetCenterFreq 1000000; SetCenterFreq 100000000] false _).
  repeat constructor.
Defined.

(** The witness finds an R820T, tunes to 1 MHz by direct sampling, and back. *)
Lemma open_r820t_tunes :
  match (open_device "" "";; set_center_freq_fuel 3 1000000;; gets dev_direct_sampling) (new_dev (env_ok (fun _ _ _ => 0x69))) with
  | Some (ds, d) => (ds, dev_tuner_type d, dev_freq d)
  | None => (-1, RTLSDR_TUNER_UNKNOWN, 0)
  end = (2, RTLSDR_TUNER_R820T, 1000000).
Proof. vm_compute. reflexivity. Qed.
