(* ===== verification/Async.v ===== *)
(** * librtlsdr.c: asynchronous reading

    rtlsdr_read_async keeps a number of bulk transfers in flight, hands every
    completed one to the caller's callback and submits it again, until
    rtlsdr_cancel_async is called or the device is lost.  libusb is the
    environment [usb]: what a call of libusb_handle_events delivers and
    returns, whether a transfer can be submitted or cancelled.  A completion
    of a transfer that is not in flight does not happen (libusb's contract), so
    it is skipped.  malloc does not fail. *)

From S2P Require Import Prelude.

(** ** State *)

(** libusb's enum libusb_transfer_status. *)
Inductive transfer_status : Type :=
  | TRANSFER_COMPLETED
  | TRANSFER_ERROR
  | TRANSFER_TIMED_OUT
  | TRANSFER_CANCELLED
  | TRANSFER_STALL
  | TRANSFER_NO_DEVICE
  | TRANSFER_OVERFLOW.

#[export] Instance transfer_status_eq_dec : EqDecision transfer_status.
Proof. solve_decision. Defined.

(* src/librtlsdr.c: rtlsdr_async_status *)
Inductive rtlsdr_async_status : Type := RTLSDR_INACTIVE | RTLSDR_CANCELING | RTLSDR_RUNNING.

#[export] Instance async_status_eq_dec : EqDecision rtlsdr_async_status.
Proof. solve_decision. Defined.

(** A transfer: in flight or not, cancellation requested, and the status field
    of struct libusb_transfer (0, "completed", when allocated). *)
Record transfer : Type := mk_xfer { in_flight : bool; cancel_req : bool; status : transfer_status }.

Definition fresh_xfer : transfer := mk_xfer false false TRANSFER_COMPLETED.

Definition DEFAULT_BUF_NUMBER := 15.
Definition DEFAULT_BUF_LENGTH := 16 * 32 * 512.

(** What happens during a call of libusb_handle_events: transfer [i]
    completes, with the data that arrived and the result of submitting it
    again; or rtlsdr_cancel_async is called, by the callback or another
    thread. *)
Inductive usb_act : Type :=
  | Done (i : nat) (st : transfer_status) (data : list Z) (resubmitted : bool)
  | UserCancel.

(** libusb, by the number of the call and the transfers: the k-th submission of
    a transfer; the cancellation of a transfer in flight; a call of
    libusb_handle_events. *)
Record usb : Type := mk_usb {
  on_submit : nat -> Z;
  on_cancel : nat -> nat -> Z;
  on_events : nat -> list transfer -> Z * list usb_act;
}.

(** The fields of [struct rtlsdr_dev] for asynchronous reading; the number of
    calls of libusb_handle_events; the buffers handed to the callback; and
    the number of transfers that were freed while in flight. *)
(* src/librtlsdr.c:95-131 rtlsdr_dev *)
Record async : Type := mk_async {
  xfer_buf_num : Z;
  xfer_buf_len : Z;
  xfer : option (list transfer);
  xfer_buf : bool;
  async_status : rtlsdr_async_status;
  async_cancel : Z;
  dev_lost : Z;
  xfer_errors : Z;
  calls : nat;
  delivered : list (list Z);
  freed_in_flight : nat;
}.

Definition set_buf_num v s := mk_async v (xfer_buf_len s) (xfer s) (xfer_buf s) (async_status s) (async_cancel s) (dev_lost s) (xfer_errors s) (calls s) (delivered s) (freed_in_flight s).
Definition set_buf_len v s := mk_async (xfer_buf_num s) v (xfer s) (xfer_buf s) (async_status s) (async_cancel s) (dev_lost s) (xfer_errors s) (calls s) (delivered s) (freed_in_flight s).
Definition set_xfer v s := mk_async (xfer_buf_num s) (xfer_buf_len s) v (xfer_buf s) (async_status s) (async_cancel s) (dev_lost s) (xfer_errors s) (calls s) (delivered s) (freed_in_flight s).
Definition set_xfer_buf v s := mk_async (xfer_buf_num s) (xfer_buf_len s) (xfer s) v (async_status s) (async_cancel s) (dev_lost s) (xfer_errors s) (calls s) (delivered s) (freed_in_flight s).
Definition set_status v s := mk_async (xfer_buf_num s) (xfer_buf_len s) (xfer s) (xfer_buf s) v (async_cancel s) (dev_lost s) (xfer_errors s) (calls s) (delivered s) (freed_in_flight s).
Definition set_cancel v s := mk_async (xfer_buf_num s) (xfer_buf_len s) (xfer s) (xfer_buf s) (async_status s) v (dev_lost s) (xfer_errors s) (calls s) (delivered s) (freed_in_flight s).
Definition set_lost v s := mk_async (xfer_buf_num s) (xfer_buf_len s) (xfer s) (xfer_buf s) (async_status s) (async_cancel s) v (xfer_errors s) (calls s) (delivered s) (freed_in_flight s).
Definition set_errors v s := mk_async (xfer_buf_num s) (xfer_buf_len s) (xfer s) (xfer_buf s) (async_status s) (async_cancel s) (dev_lost s) v (calls s) (delivered s) (freed_in_flight s).
Definition set_calls v s := mk_async (xfer_buf_num s) (xfer_buf_len s) (xfer s) (xfer_buf s) (async_status s) (async_cancel s) (dev_lost s) (xfer_errors s) v (delivered s) (freed_in_flight s).
Definition set_delivered v s := mk_async (xfer_buf_num s) (xfer_buf_len s) (xfer s) (xfer_buf s) (async_status s) (async_cancel s) (dev_lost s) (xfer_errors s) (calls s) v (freed_in_flight s).
Definition set_freed v s := mk_async (xfer_buf_num s) (xfer_buf_len s) (xfer s) (xfer_buf s) (async_status s) (async_cancel s) (dev_lost s) (xfer_errors s) (calls s) (delivered s) v.

Definition xfers (s : async) : list transfer := match xfer s with Some l => l | None => [] end.
Definition xfer_at (i : nat) (s : async) : transfer := match xfers s !! i with Some x => x | None => fresh_xfer end.
Definition set_xfer_at (i : nat) (x : transfer) (s : async) : async := set_xfer (Some (<[i := x]> (xfers s))) s.

(** ** Cancelling and the completion callback *)

(* src/librtlsdr.c: rtlsdr_cancel_async *)
Definition rtlsdr_cancel_async (s : async) : Z * async :=
  if decide (async_status s = RTLSDR_RUNNING) then (0, set_cancel 1 (set_status RTLSDR_CANCELING s))
  else (-2, s).

(** _libusb_callback for transfer [i], whose status libusb has set to [st].
    A transfer that is not in flight does not complete. *)
(* src/librtlsdr.c: _libusb_callback *)
Definition libusb_callback (i : nat) (st : transfer_status) (data : list Z) (resubmitted : bool) (s : async) : async :=
  match xfers s !! i with
  | Some (mk_xfer true _ _) =>
      let s := set_xfer_at i (mk_xfer false false st) s in
      if decide (st = TRANSFER_COMPLETED) then
        let s := set_delivered (delivered s ++ [data]) s in
        (* resubmit transfer *)
        let s := if resubmitted then set_xfer_at i (mk_xfer true false st) s else s in
        set_errors 0 s
      else if decide (st <> TRANSFER_CANCELLED) then
        let s := if decide (st = TRANSFER_ERROR) then set_errors (u32 (xfer_errors s + 1)) s else s in
        if (xfer_buf_num s <=? xfer_errors s) || bool_decide (st = TRANSFER_NO_DEVICE)
        then (rtlsdr_cancel_async (set_lost 1 s)).2
        else s
      else s
  | _ => s
  end.

Definition run_act (s : async) (a : usb_act) : async :=
  match a with
  | Done i st data resubmitted => libusb_callback i st data resubmitted s
  | UserCancel => (rtlsdr_cancel_async s).2
  end.

(** ** Reading *)

Section read_async.
Context (u : usb).

(** libusb_handle_events_timeout_completed: the callbacks run inside it. *)
Definition handle_events : M async Z := fun s =>
  let '(rc, acts) := on_events u (calls s) (xfers s) in
  Some (rc, fold_left run_act acts (set_calls (S (calls s)) s)).

(** libusb_cancel_transfer: LIBUSB_ERROR_NOT_FOUND when the transfer is not in
    flight or already cancelled. *)
Definition libusb_cancel_transfer (i : nat) : M async Z := fun s =>
  match xfers s !! i with
  | Some (mk_xfer true false st) =>
      let rc := on_cancel u (calls s) i in
      Some (rc, if rc <? 0 then s else set_xfer_at i (mk_xfer true true st) s)
  | _ => Some (-5, s)
  end.

Definition libusb_submit_transfer (i : nat) : M async Z := fun s =>
  let rc := on_submit u i in
  Some (rc, if rc <? 0 then s else set_xfer_at i (mk_xfer true false (status (xfer_at i s))) s).

(* src/librtlsdr.c: _rtlsdr_alloc_async_buffers *)
Definition rtlsdr_alloc_async_buffers : M async Z :=
  x ← gets xfer;
  (match x with
   | None => modify (fun s => set_xfer (Some (replicate (Z.to_nat (xfer_buf_num s)) fresh_xfer)) s)
   | Some _ => mret tt
   end);;
  b ← gets xfer_buf;
  if (b : bool) then mret (-2) else
  modify (set_xfer_buf true);; mret 0.

(* src/librtlsdr.c: _rtlsdr_free_async_buffers *)
Definition rtlsdr_free_async_buffers : M async Z :=
  modify (fun s => set_xfer_buf false (set_xfer None
    (set_freed (freed_in_flight s + length (filter (fun x => in_flight x = true) (xfers s)))%nat s)));;
  mret 0.

(** The submissions, until one fails. *)
(* src/librtlsdr.c:1954-1975 rtlsdr_read_async *)
Fixpoint submit_loop (idx : list nat) (r : Z) : M async Z :=
  match idx with
  | [] => mret r
  | i :: idx' =>
      r ← libusb_submit_transfer i;
      if r <? 0 then modify (set_status RTLSDR_CANCELING);; mret r
      else submit_loop idx' r
  end.

(** The transfers that are not yet cancelled: [r] and [next_status]. *)
(* src/librtlsdr.c:1993-2013 rtlsdr_read_async *)
Fixpoint cancel_loop (idx : list nat) (r : Z) (next_status : rtlsdr_async_status) : M async (Z * rtlsdr_async_status) :=
  match idx with
  | [] => mret (r, next_status)
  | i :: idx' =>
      st ← gets (fun s => status (xfer_at i s));
      if decide (st = TRANSFER_CANCELLED) then cancel_loop idx' r next_status else
      r ← libusb_cancel_transfer i;
      (* handle events after canceling to allow transfer status to propagate *)
      handle_events;;
      if r <? 0 then cancel_loop idx' r next_status
      else cancel_loop idx' r RTLSDR_CANCELING
  end.

(** The event loop, with [r] and [next_status]. *)
(* src/librtlsdr.c:1977-2023 rtlsdr_read_async *)
Fixpoint event_loop (fuel : nat) (r : Z) (next_status : rtlsdr_async_status) : M async (Z * rtlsdr_async_status) :=
  match fuel with
  | O => trap
  | S fuel =>
      st ← gets async_status;
      if decide (st = RTLSDR_INACTIVE) then mret (r, next_status) else
      r ← handle_events;
      if r <? 0 then
        (* stray signal *)
        if r =? -10 then event_loop fuel r next_status else mret (r, next_status)
      else
        st ← gets async_status;
        if decide (st = RTLSDR_CANCELING) then
          x ← gets xfer;
          match x with
          | None => mret (r, RTLSDR_INACTIVE)
          | Some l =>
              n ← gets xfer_buf_num;
              '(r, next_status) ← cancel_loop (seq 0 (Z.to_nat n)) r RTLSDR_INACTIVE;
              lost ← gets dev_lost;
              if truthy lost || bool_decide (next_status = RTLSDR_INACTIVE) then
                (* handle any events that still need to be handled *)
                handle_events;; mret (r, next_status)
              else event_loop fuel r next_status
          end
        else event_loop fuel r next_status
  end.

(* src/librtlsdr.c: rtlsdr_read_async *)
Definition rtlsdr_read_async (fuel : nat) (buf_num buf_len : Z) : M async Z :=
  st ← gets async_status;
  if decide (st <> RTLSDR_INACTIVE) then mret (-2) else
  modify (set_status RTLSDR_RUNNING);;
  modify (set_cancel 0);;
  modify (set_buf_num (if 0 <? buf_num then buf_num else DEFAULT_BUF_NUMBER));;
  (* len must be multiple of 512 *)
  modify (set_buf_len (if (0 <? buf_len) && (buf_len mod 512 =? 0) then buf_len else DEFAULT_BUF_LENGTH));;
  rtlsdr_alloc_async_buffers;;
  n ← gets xfer_buf_num;
  r ← submit_loop (seq 0 (Z.to_nat n)) 0;
  '(r, next_status) ← event_loop fuel r RTLSDR_INACTIVE;
  rtlsdr_free_async_buffers;;
  modify (set_status next_status);;
  mret r.

(* src/librtlsdr.c: rtlsdr_wait_async *)
Definition rtlsdr_wait_async (fuel : nat) : M async Z := rtlsdr_read_async fuel 0 0.
End read_async.

(** A device that was just opened. *)
Definition dev0 : async := mk_async 0 0 None false RTLSDR_INACTIVE 0 0 0 0 [] 0.
