(* ===== verification/AsyncSpec.v ===== *)
(** * Asynchronous reading: cancellation ends it, errors can stall it

    The transfers of a run of rtlsdr_read_async, per transfer and per call of
    libusb_handle_events: one that is not in flight stays out of flight, and a
    round of cancellations leaves fewer that are neither cancelled nor done, so a
    cancelled stream ends.  A stream whose transfers have all failed drains
    as well, but nothing ends the event loop then. *)

From S2P Require Import Prelude Async.

(** ** Transfers *)

(** Transfer [i] exists and is not in flight; its status is final. *)
Definition settled (i : nat) (st : transfer_status) (s : async) : Prop :=
  exists x, xfers s !! i = Some x /\ in_flight x = false /\ status x = st.

(** There are [n] transfers; one with the status "cancelled" is not in
    flight. *)
Definition wf (n : nat) (s : async) : Prop :=
  exists l, xfer s = Some l /\ length l = n /\
    Forall (fun x => status x = TRANSFER_CANCELLED -> in_flight x = false) l.

Lemma wf_lookup n s i : wf n s -> (i < n)%nat -> exists x, xfers s !! i = Some x.
Proof. intros (l & E & <- & _) Hi. unfold xfers. rewrite E. by apply lookup_lt_is_Some_2. Qed.

Lemma wf_set n s i x :
  wf n s -> (status x = TRANSFER_CANCELLED -> in_flight x = false) -> wf n (set_xfer_at i x s).
Proof.
  intros (l & E & Hl & Hf) Hx. exists (<[i := x]> l). unfold set_xfer_at, xfers. rewrite E. cbn.
  split; [done|]. split; [by rewrite length_insert|]. by apply Forall_insert.
Qed.

Lemma xfers_set n s i j x :
  wf n s -> (i < n)%nat -> xfers (set_xfer_at i x s) !! j = if decide (j = i) then Some x else xfers s !! j.
Proof.
  intros (l & E & Hl & _) Hi. unfold set_xfer_at. unfold xfers at 1. cbn [xfer set_xfer].
  unfold xfers. rewrite E. destruct (decide (j = i)) as [->|Hne].
  - apply list_lookup_insert_eq. lia.
  - by apply list_lookup_insert_ne.
Qed.

(** Only the transfers differ. *)
Lemma set_at_status i x s : async_status (set_xfer_at i x s) = async_status s.
Proof. done. Qed.

(** ** What an event does *)

(** The status of the stream goes from running to canceling only. *)
Definition no_later (s s' : async) : Prop :=
  async_status s' = async_status s \/ (async_status s = RTLSDR_RUNNING /\ async_status s' = RTLSDR_CANCELING).

#[export] Instance no_later_preorder : PreOrder no_later.
Proof.
  split; [by left|]. intros s1 s2 s3. unfold no_later. intros [E1|[E1 E2]] [E3|[E3 E4]].
  - left. congruence.
  - right. split; congruence.
  - right. split; congruence.
  - congruence.
Qed.

(** A step of the run: [n] transfers stay, the settled ones stay settled. *)
Definition progress (n : nat) (s s' : async) : Prop :=
  wf n s' /\ no_later s s' /\ xfer_buf_num s' = xfer_buf_num s /\ freed_in_flight s' = freed_in_flight s /\
  xfer_buf s' = xfer_buf s /\ (calls s <= calls s')%nat /\
  (dev_lost s' = 0 -> dev_lost s = 0) /\
  forall i st, settled i st s -> settled i st s'.

Lemma progress_refl n s : wf n s -> progress n s s.
Proof. intros Hw. split; [done|]. split; [by left|]. by split_and!. Qed.

Lemma progress_trans n s1 s2 s3 : progress n s1 s2 -> progress n s2 s3 -> progress n s1 s3.
Proof.
  intros (W1 & N1 & B1 & F1 & U1 & C1 & L1 & H1) (W2 & N2 & B2 & F2 & U2 & C2 & L2 & H2).
  split; [done|]. split; [by etrans|]. split_and!; try congruence; [lia|auto|auto].
Qed.

Lemma cancel_progress n s : wf n s -> progress n s (rtlsdr_cancel_async s).2.
Proof.
  intros Hw. unfold rtlsdr_cancel_async. destruct (decide _) as [E|]; cbn [snd]; [|by apply progress_refl].
  split; [done|]. split; [by right|]. by split_and!.
Qed.

(** A change of a transfer in flight. *)
Lemma set_at_progress n s i x x' :
  wf n s -> xfers s !! i = Some x -> in_flight x = true ->
  (status x' = TRANSFER_CANCELLED -> in_flight x' = false) -> progress n s (set_xfer_at i x' s).
Proof.
  intros Hw Hi Hx Hx'. assert (i < n)%nat as Hlt.
  { destruct Hw as (l & E & Hl & _). unfold xfers in Hi. rewrite E in Hi. apply lookup_lt_Some in Hi. cbn in Hi. lia. }
  split; [by apply wf_set|]. split; [by left|]. split_and!; try done.
  intros j st (y & Hj & Hy & Hst). exists y. rewrite (xfers_set n) by done.
  destruct (decide (j = i)) as [->|]; [congruence|done].
Qed.

(** The fields that [progress] looks at, unchanged. *)
Lemma fields_progress n s s' :
  wf n s -> xfer s' = xfer s -> async_status s' = async_status s -> xfer_buf_num s' = xfer_buf_num s ->
  freed_in_flight s' = freed_in_flight s -> xfer_buf s' = xfer_buf s -> (calls s <= calls s')%nat -> (dev_lost s' = 0 -> dev_lost s = 0) -> progress n s s'.
Proof.
  intros Hw E1 E2 E3 E4 E5 E6 E7. split; [by unfold wf; rewrite E1|]. split; [by left|]. split_and!; try done.
  unfold settled, xfers. by rewrite E1.
Qed.

Lemma resubmit_eq i x y v s :
  set_xfer_at i x (set_delivered v (set_xfer_at i y s)) = set_delivered v (set_xfer_at i x s).
Proof. unfold set_xfer_at, set_delivered, set_xfer, xfers. cbn. by rewrite list_insert_insert_eq. Qed.

(** An error is counted, and the stream given up or not. *)
Lemma error_progress n (b c : bool) v s :
  wf n s ->
  let s1 := if c then set_errors v s else s in
  progress n s (if b then (rtlsdr_cancel_async (set_lost 1 s1)).2 else s1).
Proof.
  intros Hw. cbv zeta. set (s1 := if c then set_errors v s else s).
  assert (P1 : progress n s s1) by (unfold s1; destruct c; by apply fields_progress).
  destruct b; [|exact P1]. eapply progress_trans; [exact P1|]. pose proof P1 as (W1 & _).
  apply (progress_trans n s1 (set_lost 1 s1) _); [by apply fields_progress|]. by apply cancel_progress.
Qed.

Lemma callback_progress n i st data b s : wf n s -> progress n s (libusb_callback i st data b s).
Proof.
  intros Hw. unfold libusb_callback. destruct (xfers s !! i) as [[[] rq st0]|] eqn:Hi; try by apply progress_refl.
  assert (Pset : forall x', (status x' = TRANSFER_CANCELLED -> in_flight x' = false) -> progress n s (set_xfer_at i x' s))
    by (intros x'; by apply (set_at_progress n s i _ _ Hw Hi)).
  cbv zeta. destruct (decide (st = TRANSFER_COMPLETED)) as [->|Hne].
  - destruct b; [rewrite resubmit_eq|].
    + pose proof (Pset (mk_xfer true false TRANSFER_COMPLETED) ltac:(done)) as P.
      eapply progress_trans; [exact P|]. apply fields_progress; try done. apply P.
    + pose proof (Pset (mk_xfer false false TRANSFER_COMPLETED) ltac:(done)) as P.
      eapply progress_trans; [exact P|]. apply fields_progress; try done. apply P.
  - destruct (decide (st <> TRANSFER_CANCELLED)); [|by apply Pset].
    pose proof (Pset (mk_xfer false false st) (fun _ => eq_refl)) as P. eapply progress_trans; [exact P|].
    set (s1 := set_xfer_at i (mk_xfer false false st) s) in *. pose proof (proj1 P) as W1.
    destruct (decide (st = TRANSFER_ERROR)).
    + exact (error_progress n _ true (u32 (xfer_errors s1 + 1)) s1 W1).
    + exact (error_progress n _ false 0 s1 W1).
Qed.

Lemma act_progress n a s : wf n s -> progress n s (run_act s a).
Proof. intros Hw. destruct a; cbn [run_act]; [by apply callback_progress|by apply cancel_progress]. Qed.

Lemma acts_progress n l s : wf n s -> progress n s (fold_left run_act l s).
Proof.
  revert s. induction l as [|a l IH]; intros s Hw; cbn [fold_left]; [by apply progress_refl|].
  pose proof (act_progress n a s Hw) as P. eapply progress_trans; [exact P|]. apply IH, P.
Qed.

(** A transfer that completes as cancelled is settled. *)
Lemma cancelled_settles n i data b s :
  wf n s -> (i < n)%nat -> exists st, settled i st (libusb_callback i TRANSFER_CANCELLED data b s).
Proof.
  intros Hw Hi. destruct (wf_lookup n s i Hw Hi) as [[fl rq st] E]. unfold libusb_callback. rewrite E.
  destruct fl; [|by exists st, (mk_xfer false rq st)].
  exists TRANSFER_CANCELLED, (mk_xfer false false TRANSFER_CANCELLED). cbv zeta.
  rewrite decide_False by done. rewrite decide_False by tauto. rewrite (xfers_set n) by done. by rewrite decide_True.
Qed.

Lemma acts_settle n l i data b s :
  wf n s -> (i < n)%nat -> Done i TRANSFER_CANCELLED data b ∈ l -> exists st, settled i st (fold_left run_act l s).
Proof.
  intros Hw Hi. revert s Hw. induction l as [|a l IH]; intros s Hw; [by intros ?%not_elem_of_nil|].
  cbn [fold_left]. pose proof (act_progress n a s Hw) as P. rewrite elem_of_cons. intros [<-|Hin].
  - destruct (cancelled_settles n i data b s Hw Hi) as [st Hst]. exists st.
    apply (acts_progress n l _ (proj1 P)). exact Hst.
  - apply IH; [apply P|done].
Qed.

Lemma acts_calls l s : calls (fold_left run_act l s) = calls s.
Proof.
  revert s. induction l as [|a l IH]; intros s; cbn [fold_left]; [done|]. rewrite IH.
  destruct a as [i st data b|]; cbn [run_act]; unfold libusb_callback, rtlsdr_cancel_async; [|by destruct (decide _)].
  destruct (xfers s !! i) as [[[] ? ?]|]; cbv zeta; try done.
  repeat (destruct (decide _); try done); try (by destruct b); destruct (_ || _); try done; by destruct (decide _).
Qed.

(** A call to cancel, by whom ever, ends the running state. *)
Lemma cancel_not_running s : async_status (rtlsdr_cancel_async s).2 <> RTLSDR_RUNNING.
Proof. unfold rtlsdr_cancel_async. by destruct (decide _). Qed.

Lemma acts_cancel n l s :
  wf n s -> UserCancel ∈ l -> async_status (fold_left run_act l s) <> RTLSDR_RUNNING.
Proof.
  revert s. induction l as [|a l IH]; intros s Hw; [by intros ?%not_elem_of_nil|].
  cbn [fold_left]. pose proof (act_progress n a s Hw) as P. rewrite elem_of_cons. intros [<-|Hin].
  - pose proof (cancel_not_running s) as Hc. cbn [run_act] in *. destruct (acts_progress n l _ (proj1 P)) as (_ & [E|[E _]] & _); congruence.
  - apply IH; [apply P|done].
Qed.

Lemma seq_below n : Forall (fun i => i < n)%nat (seq 0 n).
Proof. apply Forall_forall. intros i Hi%elem_of_seq. lia. Qed.

(** ** That it ends *)

(** A transfer in flight whose cancellation was not asked for, or was refused. *)
Definition livex (x : transfer) : bool := in_flight x && negb (cancel_req x).

Definition live (s : async) (i : nat) : Prop := exists x, xfers s !! i = Some x /\ livex x = true.
Definition pending (s : async) (i : nat) : Prop := exists x, xfers s !! i = Some x /\ in_flight x = true /\ cancel_req x = true.

(** Nothing comes alive, and no cancellation is asked for. *)
Definition quieter (s s' : async) : Prop := forall i, live s' i -> live s i.
Definition calmer (s s' : async) : Prop := quieter s s' /\ forall i, pending s' i -> pending s i.

Lemma quieter_refl s : quieter s s.
Proof. intros i Hi. exact Hi. Qed.

Lemma quieter_trans s1 s2 s3 : quieter s1 s2 -> quieter s2 s3 -> quieter s1 s3.
Proof. unfold quieter. auto. Qed.

(** The number of live ones. *)
Definition live_count (s : async) : nat := length (filter (fun x => livex x = true) (xfers s)).

Lemma live_filter_le (l l' : list transfer) :
  length l' = length l -> (forall i x', l' !! i = Some x' -> livex x' = true -> exists x, l !! i = Some x /\ livex x = true) ->
  (length (filter (fun x => livex x = true) l') <= length (filter (fun x => livex x = true) l))%nat /\
  ((exists i x x', l !! i = Some x /\ livex x = true /\ l' !! i = Some x' /\ livex x' = false) ->
   (length (filter (fun x => livex x = true) l') < length (filter (fun x => livex x = true) l))%nat).
Proof.
  revert l'. induction l as [|x l IH]; intros [|x' l'] Hlen Hsub; try done.
  { split; [done|]. by intros (i & x & x' & Hi & _). }
  injection Hlen as Hlen. destruct (IH l' Hlen (fun i => Hsub (S i))) as [Hle Hlt].
  assert (livex x' = true -> livex x = true) as H0 by (intros E; destruct (Hsub 0%nat x' eq_refl E) as (y & [= ->] & Ey); exact Ey).
  rewrite !filter_cons. split.
  - destruct (decide (livex x' = true)), (decide (livex x = true)); cbn [length]; [lia|tauto|lia|lia].
  - intros ([|i] & y & y' & Hi & Ey & Hi' & Ey'); cbn in Hi, Hi'.
    + injection Hi as ->. injection Hi' as ->. destruct (decide (livex y' = true)), (decide (livex y = true)); cbn [length]; [congruence|congruence|lia|congruence].
    + assert (length (filter (fun x => livex x = true) l') < length (filter (fun x => livex x = true) l))%nat as Hl by (apply Hlt; eauto 10).
      destruct (decide (livex x' = true)), (decide (livex x = true)); cbn [length]; [lia|tauto|lia|lia].
Qed.

Lemma wf_length n s : wf n s -> length (xfers s) = n.
Proof. intros (l & E & Hl & _). unfold xfers. by rewrite E. Qed.

Lemma live_count_le n s s' : wf n s -> wf n s' -> quieter s s' -> (live_count s' <= live_count s)%nat.
Proof.
  intros Hw Hw' Hq. apply (live_filter_le (xfers s) (xfers s')); [rewrite !(wf_length n); done|].
  intros i x' Hi Hx. destruct (Hq i) as (x & ? & ?); [by exists x'|eauto].
Qed.

Lemma live_count_lt n s s' i : wf n s -> wf n s' -> quieter s s' -> live s i -> ~ live s' i -> (live_count s' < live_count s)%nat.
Proof.
  intros Hw Hw' Hq (x & Hx & Ex) Hn. apply (live_filter_le (xfers s) (xfers s')); [rewrite !(wf_length n); done| |].
  - intros j x' Hj Hx'. destruct (Hq j) as (y & ? & ?); [by exists x'|eauto].
  - destruct (wf_lookup n s' i Hw') as [x' Hx']; [rewrite <- (wf_length n s Hw); by eapply lookup_lt_Some|].
    exists i, x, x'. split_and!; [done|done|done|]. destruct (livex x') eqn:E; [|done]. destruct Hn. by exists x'.
Qed.

Lemma live_count_bound n s : wf n s -> (live_count s <= n)%nat.
Proof. intros Hw. rewrite <- (wf_length n s Hw). apply length_filter. Qed.

Lemma calmer_refl s : calmer s s.
Proof. split; intros i Hi; exact Hi. Qed.

Lemma calmer_trans s1 s2 s3 : calmer s1 s2 -> calmer s2 s3 -> calmer s1 s3.
Proof. unfold calmer, quieter. intros [H1 H2] [H3 H4]. split; intros i Hi; auto. Qed.

Lemma calmer_fields s s' : xfer s' = xfer s -> calmer s s'.
Proof. intros E. unfold calmer, quieter, live, pending, xfers. by rewrite E. Qed.

(** A change of transfer [i], which was live. *)
Lemma calmer_set n s i x s' :
  wf n s -> live s i -> cancel_req x = false -> xfer s' = xfer (set_xfer_at i x s) -> calmer s s'.
Proof.
  intros Hw Hl Hr E. assert (i < n)%nat as Hi.
  { destruct Hl as (y & Hy & _). rewrite <- (wf_length n s Hw). by eapply lookup_lt_Some. }
  assert (forall j, xfers s' !! j = if decide (j = i) then Some x else xfers s !! j) as Hx.
  { intros j. rewrite <- (xfers_set n) by done. unfold xfers. by rewrite E. }
  split; intros j (y & Hj & Hy); rewrite Hx in Hj; destruct (decide (j = i)) as [->|]; [done|by exists y| |by exists y].
  injection Hj as ->. destruct Hy. congruence.
Qed.

Lemma cancel_async_xfer s : xfer (rtlsdr_cancel_async s).2 = xfer s.
Proof. unfold rtlsdr_cancel_async. by destruct (decide _). Qed.

(** The transfers after a callback. *)
Lemma callback_xfer i st data b s x :
  xfers s !! i = Some x -> in_flight x = true ->
  xfer (libusb_callback i st data b s) = xfer (set_xfer_at i (mk_xfer (bool_decide (st = TRANSFER_COMPLETED) && b) false st) s).
Proof.
  intros Hi Hx. unfold libusb_callback. rewrite Hi. destruct x as [fl rq st0]. cbn in Hx. subst fl. cbv zeta.
  destruct (decide (st = TRANSFER_COMPLETED)) as [->|Hne].
  - rewrite bool_decide_eq_true_2 by done. destruct b; [by rewrite resubmit_eq|done].
  - rewrite (bool_decide_eq_false_2 _ Hne). cbn [andb]. repeat (destruct (decide _); try done); destruct (_ || _); try done; by rewrite cancel_async_xfer.
Qed.

Lemma callback_calmer n i st data b s :
  wf n s -> (pending s i -> st = TRANSFER_CANCELLED) -> calmer s (libusb_callback i st data b s).
Proof.
  intros Hw Hst. destruct (xfers s !! i) as [[[] rq st0]|] eqn:Hi; try (unfold libusb_callback; rewrite Hi; apply calmer_refl).
  pose proof (callback_xfer i st data b s _ Hi eq_refl) as E. destruct rq.
  - rewrite Hst in * by (by exists (mk_xfer true true st0)). cbn [bool_decide andb] in E.
    assert (i < n)%nat as Hlt by (rewrite <- (wf_length n s Hw); by eapply lookup_lt_Some).
    assert (forall j, xfers (libusb_callback i TRANSFER_CANCELLED data b s) !! j =
      if decide (j = i) then Some (mk_xfer false false TRANSFER_CANCELLED) else xfers s !! j) as Hx.
    { intros j. rewrite <- (xfers_set n) by done. unfold xfers at 1 2. by rewrite E. }
    split; intros j (y & Hj & Hy); rewrite Hx in Hj; destruct (decide (j = i)) as [->|]; try (by exists y);
      injection Hj as <-; [discriminate Hy|destruct Hy; discriminate].
  - eapply (calmer_set n); [done| | |exact E]; [by exists (mk_xfer true false st0)|done].
Qed.

(** What the documentation of libusb says of a transfer whose cancellation was
    accepted: it completes as cancelled, at some time. *)
Class documented (u : usb) : Prop := {
  cancelled_only c l i st0 st data b :
    l !! i = Some (mk_xfer true true st0) -> Done i st data b ∈ (on_events u c l).2 -> st = TRANSFER_CANCELLED;
}.

Section ends.
Context (u : usb) `{!documented u}.

Lemma acts_calmer n l s0 s :
  wf n s -> calmer s0 s -> (forall i st data b, pending s0 i -> Done i st data b ∈ l -> st = TRANSFER_CANCELLED) ->
  calmer s0 (fold_left run_act l s).
Proof.
  revert s. induction l as [|a l IH]; intros s Hw Hc Hl; cbn [fold_left]; [done|].
  apply IH; [by apply (act_progress n)| |intros i st data b Hp Hin; apply (Hl i st data b Hp), elem_of_cons; by right].
  eapply calmer_trans; [exact Hc|]. destruct a as [i st data b|]; cbn [run_act].
  - apply (callback_calmer n); [done|]. intros Hp. apply (Hl i st data b); [by apply Hc|apply elem_of_cons; by left].
  - apply calmer_fields, cancel_async_xfer.
Qed.

Lemma handle_events_ends n s :
  wf n s ->
  wp (handle_events u) (fun rc s' => progress n s s' /\ calls s' = S (calls s) /\ calmer s s' /\
    (UserCancel ∈ (on_events u (calls s) (xfers s)).2 -> async_status s' <> RTLSDR_RUNNING) /\
    rc = (on_events u (calls s) (xfers s)).1) s.
Proof.
  intros Hw. unfold wp, handle_events. pose proof (cancelled_only (calls s) (xfers s)) as Hc.
  destruct (on_events u (calls s) (xfers s)) as [rc acts]. cbn [fst snd] in *.
  assert (P0 : progress n s (set_calls (S (calls s)) s)) by (apply fields_progress; try done; cbn; lia).
  split; [eapply progress_trans; [exact P0|apply acts_progress, P0]|]. split; [apply acts_calls|].
  split; [|split; [apply (acts_cancel n), P0|done]].
  apply (acts_calmer n); [apply P0|by apply calmer_fields|].
  intros i st data b (x & Hx & Hf & Hr) Hin. destruct x as [fl rq st0]. cbn in Hf, Hr. subst fl rq. by apply (Hc i st0 st data b).
Qed.

Lemma cancel_transfer_ends n i s :
  wf n s -> (i < n)%nat ->
  wp (libusb_cancel_transfer u i)
    (fun rc s' => progress n s s' /\ calls s' = calls s /\ quieter s s' /\ (0 <= rc -> live s i /\ ~ live s' i)) s.
Proof.
  intros Hw Hi. unfold wp, libusb_cancel_transfer. destruct (wf_lookup n s i Hw Hi) as [[fl rq st] E]. rewrite E.
  destruct fl, rq; try (split; [by apply progress_refl|]; split; [done|]; split; [apply quieter_refl|lia]).
  assert (st <> TRANSFER_CANCELLED) as Hst.
  { intros ->. destruct Hw as (l & El & _ & Hf). unfold xfers in E. rewrite El in E.
    by specialize (Forall_lookup_1 _ _ _ _ Hf E eq_refl). }
  destruct (Z.ltb_spec (on_cancel u (calls s) i) 0); [split; [by apply progress_refl|]; split; [done|]; split; [apply quieter_refl|lia]|].
  split; [by eapply set_at_progress|]. split; [done|].
  assert (forall j, live (set_xfer_at i (mk_xfer true true st) s) j -> j <> i /\ live s j) as Hlive.
  { intros j (x & Hx & Hlx). rewrite (xfers_set n) in Hx by done. destruct (decide (j = i)) as [->|]; [by injection Hx as <-|].
    split; [done|by exists x]. }
  split; [intros j Hj; by apply Hlive|]. intros _. split; [by exists (mk_xfer true false st)|]. intros Hj. by apply Hlive in Hj as [? _].
Qed.

(** A round asks for another one only when a cancellation was accepted. *)
Lemma cancel_loop_ends n idx r next s :
  wf n s -> Forall (fun i => i < n)%nat idx ->
  wp (cancel_loop u idx r next)
    (fun p s' => progress n s s' /\ quieter s s' /\ (p.2 = next \/ exists i, live s i /\ ~ live s' i)) s.
Proof.
  intros Hw Hidx. revert r next s Hw. induction Hidx as [|i idx Hi Hidx IH]; intros r next s Hw; cbn [cancel_loop].
  { apply wp_ret. split; [by apply progress_refl|]. split; [apply quieter_refl|by left]. }
  wp_step. apply wp_gets. destruct (decide (status (xfer_at i s) = TRANSFER_CANCELLED)); [by apply IH|].
  wp_step. eapply wp_mono; [|by apply (cancel_transfer_ends n)]. intros rc s1 (P1 & _ & Q1 & Hrc). wp_step.
  eapply wp_mono; [|apply (handle_events_ends n), P1]. intros rc2 s2 (P2 & _ & [Q2 _] & _). cbv beta.
  pose proof (progress_trans _ _ _ _ P1 P2) as P12. pose proof (quieter_trans _ _ _ Q1 Q2) as Q12.
  destruct (Z.ltb_spec rc 0).
  - eapply wp_mono; [|apply IH, P12]. intros p s' (P & Q & Hn). split; [by eapply progress_trans|]. split; [by eapply quieter_trans|].
    destruct Hn as [|(j & Hj & Hj')]; [by left|right]. exists j. split; [by apply Q12|done].
  - eapply wp_mono; [|apply IH, P12]. intros p s' (P & Q & _). split; [by eapply progress_trans|]. split; [by eapply quieter_trans|].
    right. exists i. destruct (Hrc ltac:(lia)) as [Hl Hnl]. split; [done|]. intros Hl'. by apply Hnl, Q2, Q.
Qed.

(** From call [m] on no call is interrupted, and the stream is being cancelled:
    a round is the last one or leaves less alive. *)
Lemma event_loop_ends n k m f r next s :
  (forall l, UserCancel ∈ (on_events u k l).2) -> (k <= m)%nat -> (forall c l, (m < c)%nat -> (on_events u c l).1 <> -10) ->
  wf n s -> xfer_buf_num s = Z.of_nat n -> ((calls s <= k)%nat \/ async_status s <> RTLSDR_RUNNING) ->
  ((S m - calls s) + live_count s < f)%nat -> wp (event_loop u f r next) (fun _ s' => progress n s s') s.
Proof.
  intros Hk Hkm Hint. revert r next s. induction f as [|f IH]; intros r next s Hw Hn Hrun Hf; [lia|]. cbn [event_loop].
  wp_step. apply wp_gets. destruct (decide (async_status s = RTLSDR_INACTIVE)); [by apply wp_ret, progress_refl|].
  wp_step. eapply wp_mono; [|by apply (handle_events_ends n)]. intros rc s1 (P1 & C1 & [Q1 _] & Hu & Erc). cbv beta.
  pose proof P1 as (W1 & N1 & B1 & _). pose proof (live_count_le n s s1 Hw W1 Q1) as Hlive.
  assert ((calls s1 <= k)%nat \/ async_status s1 <> RTLSDR_RUNNING) as Hrun1.
  { destruct (decide (calls s = k)) as [E|Hne]; [right; apply Hu; rewrite E; apply Hk|].
    destruct Hrun as [|Hrun]; [left; lia|right]. destruct N1 as [E|[E _]]; congruence. }
  assert (forall r next s2, progress n s s2 -> (calls s1 <= calls s2)%nat -> ((calls s2 <= k)%nat \/ async_status s2 <> RTLSDR_RUNNING) ->
    ((calls s <= m)%nat /\ (live_count s2 <= live_count s1)%nat \/ (live_count s2 < live_count s1)%nat) ->
    wp (event_loop u f r next) (fun _ s' => progress n s s') s2) as Hgo.
  { intros r2 next2 s2 P2 C2 Hrun2 Hless. pose proof P2 as (W2 & _ & B2 & _).
    eapply wp_mono; [|apply IH; [done|congruence|done|lia]]. intros p s' P. by eapply progress_trans. }
  destruct (Z.ltb_spec rc 0) as [Hneg|Hpos].
  { destruct (Z.eqb_spec rc (-10)) as [E10|]; [|by apply wp_ret]. apply Hgo; [done|lia|done|]. left.
    split; [|lia]. destruct (le_lt_dec (calls s) m) as [|Hm]; [done|]. destruct (Hint _ (xfers s) Hm). congruence. }
  wp_step. apply wp_gets. destruct (decide (async_status s1 = RTLSDR_CANCELING)) as [Ec|Hnc].
  - wp_step. apply wp_gets. destruct (xfer s1) as [l|]; [|by apply wp_ret]. wp_step. apply wp_gets.
    replace (xfer_buf_num s1) with (Z.of_nat n) by congruence. rewrite Nat2Z.id.
    wp_step. eapply wp_mono; [|apply (cancel_loop_ends n); [done|apply seq_below]].
    intros [r2 next2] s2 (P2 & Q2 & Hnext). cbn [snd] in Hnext. cbv beta iota. wp_step. apply wp_gets.
    pose proof (progress_trans _ _ _ _ P1 P2) as P12. pose proof P2 as (W2 & N2 & _ & _ & _ & C2 & _).
    destruct (truthy (dev_lost s2) || bool_decide (next2 = RTLSDR_INACTIVE)) eqn:Hb.
    + wp_step. eapply wp_mono; [|by apply (handle_events_ends n)]. intros rc3 s3 (P3 & _). apply wp_ret. by eapply progress_trans.
    + apply orb_false_iff in Hb as [_ Hb%bool_decide_eq_false]. destruct Hnext as [|(i & Hi & Hi')]; [done|].
      apply Hgo; [done|done|right; destruct N2 as [E|[E _]]; congruence|]. right. by apply (live_count_lt n s1 s2 i).
  - apply Hgo; [done|done|done|]. left. split; [|lia]. destruct Hrun1 as [|Hr1]; [lia|]. exfalso.
    assert (async_status s1 <> RTLSDR_INACTIVE) by (destruct N1 as [E|[_ E]]; congruence). by destruct (async_status s1).
Qed.
End ends.

(** ** Cancelling *)

Section cancel.
Context (u : usb).

(** What the code relies on: events are handled without an error, the
    cancellation of a transfer in flight is accepted, and such a transfer
    completes as cancelled the next time events are handled.  (libusb promises
    that it completes as cancelled, at some time: [documented].) *)
Class prompt : Prop := {
  events_ok c l : 0 <= (on_events u c l).1;
  cancel_accepted c i : 0 <= on_cancel u c i;
  cancel_completes c l i st :
    l !! i = Some (mk_xfer true true st) -> exists data b, Done i TRANSFER_CANCELLED data b ∈ (on_events u c l).2;
}.
Context `{!prompt}.

Lemma handle_events_wp n s :
  wf n s ->
  wp (handle_events u) (fun rc s' => 0 <= rc /\ progress n s s' /\ calls s' = S (calls s) /\
    (UserCancel ∈ (on_events u (calls s) (xfers s)).2 -> async_status s' <> RTLSDR_RUNNING) /\
    (forall i st, xfers s !! i = Some (mk_xfer true true st) -> exists st', settled i st' s')) s.
Proof.
  intros Hw. unfold wp, handle_events. pose proof (events_ok (calls s) (xfers s)) as Hrc.
  pose proof (cancel_completes (calls s) (xfers s)) as Hc.
  destruct (on_events u (calls s) (xfers s)) as [rc acts]. cbn [fst snd] in *.
  assert (P0 : progress n s (set_calls (S (calls s)) s)) by (apply fields_progress; try done; cbn; lia).
  split; [done|]. split; [eapply progress_trans; [exact P0|apply acts_progress, P0]|]. split; [apply acts_calls|].
  split; [apply (acts_cancel n), P0|]. intros i st Hi. destruct (Hc i st Hi) as (data & b & Hin).
  apply (acts_settle n acts i data b); [apply P0| |done].
  destruct Hw as (l & E & Hl & _). unfold xfers in Hi. rewrite E in Hi. apply lookup_lt_Some in Hi. lia.
Qed.

(** Cancelling a transfer, and the events after it: it is settled. *)
Definition all_settled (idx : list nat) (s : async) : Prop := forall i, i ∈ idx -> exists st, settled i st s.

Lemma all_settled_progress idx n s s' : progress n s s' -> all_settled idx s -> all_settled idx s'.
Proof. intros (_ & _ & _ & _ & _ & _ & _ & Hk) Hs i Hi. destruct (Hs i Hi) as [st Hst]. exists st. auto. Qed.

Lemma cancel_transfer_wp n i s :
  wf n s -> (i < n)%nat ->
  wp (libusb_cancel_transfer u i)
    (fun rc s' => progress n s s' /\ calls s' = calls s /\
       ((exists st, settled i st s') /\ rc < 0 \/
        (exists st, xfers s' !! i = Some (mk_xfer true true st)) /\ (0 <= rc -> ~ exists st, settled i st s))) s.
Proof.
  intros Hw Hi. unfold wp, libusb_cancel_transfer. destruct (wf_lookup n s i Hw Hi) as [[fl rq st] E]. rewrite E.
  destruct fl.
  - destruct rq; [split; [by apply progress_refl|]; split; [done|]; right; split; [by exists st|lia]|].
    pose proof (cancel_accepted (calls s) i) as Hc. replace (on_cancel u (calls s) i <? 0) with false by lia.
    assert (st <> TRANSFER_CANCELLED) as Hst.
    { intros ->. destruct Hw as (l & El & _ & Hf). unfold xfers in E. rewrite El in E.
      by specialize (Forall_lookup_1 _ _ _ _ Hf E eq_refl). }
    split; [by eapply set_at_progress|]. split; [done|]. right. split.
    + exists st. rewrite (xfers_set n) by done. by rewrite decide_True.
    + intros _ (st' & x & Ex & Hx & _). rewrite E in Ex. by injection Ex as <-.
  - split; [by apply progress_refl|]. split; [done|]. left. split; [|done]. by exists st, (mk_xfer false rq st).
Qed.

(** The loop over the transfers settles them; it asks for another round when
    one was still in flight. *)
Lemma cancel_loop_wp n idx r next s :
  wf n s -> Forall (fun i => i < n)%nat idx ->
  wp (cancel_loop u idx r next)
    (fun p s' => progress n s s' /\ all_settled idx s' /\ (all_settled idx s -> p.2 = next)) s.
Proof.
  intros Hw Hidx. revert r next s Hw. induction Hidx as [|i idx Hi Hidx IH]; intros r next s Hw; cbn [cancel_loop].
  { apply wp_ret. split; [by apply progress_refl|]. split; [|done]. by intros i ?%not_elem_of_nil. }
  wp_step. apply wp_gets. destruct (wf_lookup n s i Hw Hi) as [x E]. unfold xfer_at. rewrite E.
  destruct (decide (status x = TRANSFER_CANCELLED)) as [Hx|_].
  - assert (Hfin : exists st, settled i st s).
    { exists TRANSFER_CANCELLED, x. split; [done|]. split; [|done].
      destruct Hw as (l & El & _ & Hf). unfold xfers in E. rewrite El in E. by apply (Forall_lookup_1 _ _ _ _ Hf E). }
    eapply wp_mono; [|by apply IH]. intros p s' (P & Hs & Hn). split; [done|]. split.
    + intros j [->|Hj]%elem_of_cons; [|by apply Hs]. destruct Hfin as [st Hst]. exists st. by apply P.
    + intros Hall. apply Hn. intros j Hj. apply Hall, elem_of_cons. by right.
  - wp_step. eapply wp_mono; [|by apply (cancel_transfer_wp n)]. intros rc s1 (P1 & _ & Hrc). wp_step.
    eapply wp_mono; [|apply (handle_events_wp n), P1]. intros rc2 s2 (_ & P2 & _ & _ & Hdone).
    assert (Hfin : exists st, settled i st s2).
    { destruct Hrc as [[[st Hst] _]|[[st Hst] _]]; [exists st; by apply P2|by apply (Hdone i st)]. }
    pose proof (progress_trans _ _ _ _ P1 P2) as P12. cbv beta.
    assert (Hrest : forall next', wp (cancel_loop u idx rc next')
      (fun p s' => progress n s s' /\ all_settled (i :: idx) s' /\ (all_settled idx s2 -> p.2 = next')) s2).
    { intros next'. eapply wp_mono; [|apply IH, P2]. intros p s' (P & Hs & Hn).
      split; [by eapply progress_trans|]. split; [|done].
      intros j [->|Hj]%elem_of_cons; [|by apply Hs]. destruct Hfin as [st Hst]. exists st. by apply P. }
    destruct (Z.ltb_spec rc 0) as [Hneg|Hpos].
    + eapply wp_mono; [|apply Hrest]. intros p s' (P & Hs & Hn).
      split; [done|]. split; [done|]. intros Hall. apply Hn. eapply all_settled_progress; [exact P12|].
      intros j Hj. apply Hall, elem_of_cons. by right.
    + eapply wp_mono; [|apply Hrest]. intros p s' (P & Hs & Hn).
      split; [done|]. split; [done|]. intros Hall. exfalso. destruct Hrc as [[_ ?]|[_ Hns]]; [lia|].
      apply (Hns Hpos), Hall, elem_of_cons. by left.
Qed.

(** ** The event loop *)

(** All transfers, by their number. *)
Definition sized (n : nat) (s : async) : Prop := wf n s /\ xfer_buf_num s = Z.of_nat n.

Lemma sized_progress n s s' : sized n s -> progress n s s' -> sized n s'.
Proof. intros [_ Hn] (W & _ & E & _). split; [done|congruence]. Qed.

(** What the loop leaves: no transfer in flight, and the status to store. *)
Definition drained (n : nat) (s : async) (p : Z * rtlsdr_async_status) (s' : async) : Prop :=
  progress n s s' /\ all_settled (seq 0 n) s' /\ (dev_lost s' = 0 -> p.2 = RTLSDR_INACTIVE).

Lemma drained_progress n s s1 p s' : progress n s s1 -> drained n s1 p s' -> drained n s p s'.
Proof. intros P (P' & Hd). split; [by eapply progress_trans|done]. Qed.

(** The second half of a round. *)
Definition cancel_round (f : nat) (r : Z) : M async (Z * rtlsdr_async_status) :=
  x ← gets xfer;
  match x with
  | None => mret (r, RTLSDR_INACTIVE)
  | Some l =>
      n ← gets xfer_buf_num;
      '(r, next_status) ← cancel_loop u (seq 0 (Z.to_nat n)) r RTLSDR_INACTIVE;
      lost ← gets dev_lost;
      if truthy lost || bool_decide (next_status = RTLSDR_INACTIVE) then
        handle_events u;; mret (r, next_status)
      else event_loop u f r next_status
  end.

Lemma cancel_round_wp n f r s :
  sized n s ->
  (forall r' next s', progress n s s' -> all_settled (seq 0 n) s' -> ~ all_settled (seq 0 n) s ->
     wp (event_loop u f r' next) (drained n s') s') ->
  wp (cancel_round f r) (drained n s) s.
Proof.
  intros [Hw Hn] Hnext. unfold cancel_round. wp_step. apply wp_gets. pose proof Hw as (l & E & _). rewrite E.
  wp_step. apply wp_gets. rewrite Hn, Nat2Z.id.
  wp_step. eapply wp_mono; [|apply (cancel_loop_wp n); [done|apply seq_below]].
  intros [r' next] s' (P & Hs & Hnx). cbn [snd] in *. cbv beta iota. wp_step. apply wp_gets.
  destruct (truthy (dev_lost s') || bool_decide (next = RTLSDR_INACTIVE)) eqn:Hb.
  - wp_step. eapply wp_mono; [|apply (handle_events_wp n), P]. intros rc s2 (_ & P2 & _). apply wp_ret.
    apply (drained_progress n s s'); [done|]. split; [done|]. split; [by eapply all_settled_progress|].
    intros Hl. destruct P2 as (_ & _ & _ & _ & _ & _ & L2 & _). cbn [snd].
    rewrite L2 in Hb by done. cbn [truthy negb orb Z.eqb] in Hb. by apply bool_decide_eq_true in Hb.
  - apply orb_false_iff in Hb as [_ Hb%bool_decide_eq_false].
    eapply wp_mono; [intros p s2; by apply (drained_progress n s s')|]. apply Hnext; try done. intros Hall. by apply Hb, Hnx.
Qed.

(** A round: the events, and the second half when the stream is being
    cancelled. *)
Lemma round_wp n f r next s Q :
  sized n s -> async_status s <> RTLSDR_INACTIVE ->
  (forall rc s', progress n s s' -> calls s' = S (calls s) ->
     (UserCancel ∈ (on_events u (calls s) (xfers s)).2 -> async_status s' <> RTLSDR_RUNNING) ->
     wp (if decide (async_status s' = RTLSDR_CANCELING) then cancel_round f rc else event_loop u f rc next) Q s') ->
  wp (event_loop u (S f) r next) Q s.
Proof.
  intros [Hw Hn] Hst Hk. cbn [event_loop]. wp_step. apply wp_gets. rewrite decide_False by done.
  wp_step. eapply wp_mono; [|by apply (handle_events_wp n)]. intros rc s' (Hrc & P & Hc & Hu & _).
  replace (rc <? 0) with false by lia. wp_step. apply wp_gets. by apply Hk.
Qed.

Lemma progress_active n s s' : progress n s s' -> async_status s <> RTLSDR_INACTIVE -> async_status s' <> RTLSDR_INACTIVE.
Proof. intros (_ & [E|[_ E]] & _); congruence. Qed.

Lemma progress_canceling n s s' : progress n s s' -> async_status s = RTLSDR_CANCELING -> async_status s' = RTLSDR_CANCELING.
Proof. intros (_ & [E|[E' E]] & _); congruence. Qed.

(** With everything settled, a round is the last one. *)
Lemma last_round_wp n f r next s :
  sized n s -> async_status s = RTLSDR_CANCELING -> all_settled (seq 0 n) s ->
  wp (event_loop u (S f) r next) (drained n s) s.
Proof.
  intros Hs Hst Hall. apply (round_wp n); [done|congruence|]. intros rc s' P _ _.
  rewrite decide_True by (by eapply progress_canceling). eapply wp_mono; [intros p s2; by apply (drained_progress n s s')|].
  apply cancel_round_wp; [by eapply sized_progress|]. intros r' next' s2 _ _ Hns. exfalso. apply Hns.
  by eapply all_settled_progress.
Qed.

(** While it is running: call number [k] is one during which the stream is
    cancelled. *)
Lemma event_loop_wp n k f r next s :
  (forall l, UserCancel ∈ (on_events u k l).2) ->
  sized n s -> async_status s <> RTLSDR_INACTIVE ->
  (async_status s = RTLSDR_RUNNING -> (calls s <= k)%nat) ->
  (S (k - calls s) < f)%nat -> wp (event_loop u f r next) (drained n s) s.
Proof.
  intros Hk. revert r next s. induction f as [|f IH]; intros r next s Hs Hst Hc Hf; [lia|].
  apply (round_wp n); [done..|]. intros rc s' P Hcalls Hu.
  eapply wp_mono; [intros p s2; by apply (drained_progress n s s')|].
  assert (Hs' : sized n s') by (by eapply sized_progress).
  destruct (decide (async_status s' = RTLSDR_CANCELING)) as [E|Hne].
  - apply cancel_round_wp; [done|]. intros r' next' s2 P2 Hall _. destruct f as [|f]; [lia|].
    apply last_round_wp; [by eapply sized_progress|by eapply progress_canceling|done].
  - assert (E' : async_status s' = RTLSDR_RUNNING).
    { pose proof (progress_active _ _ _ P Hst). by destruct (async_status s'). }
    assert (calls s <> k) by (intros <-; by apply (Hu (Hk _))).
    assert (async_status s = RTLSDR_RUNNING) by (destruct P as (_ & [?|[? ?]] & _); congruence).
    specialize (Hc ltac:(done)). apply IH; [done|congruence|lia|lia].
Qed.

(** Submitting the transfers: they were never cancelled. *)
Definition submitting (n : nat) (s0 s : async) : Prop :=
  (exists l, xfer s = Some l /\ length l = n /\ Forall (fun x => status x = TRANSFER_COMPLETED) l) /\
  async_status s <> RTLSDR_INACTIVE /\ xfer_buf_num s = xfer_buf_num s0 /\ calls s = calls s0 /\
  freed_in_flight s = freed_in_flight s0.

Lemma submitting_sized n s0 s : submitting n s0 s -> xfer_buf_num s0 = Z.of_nat n -> sized n s.
Proof.
  intros ((l & E & Hl & Hf) & _ & En & _) Hn. split; [|congruence]. exists l. split; [done|]. split; [done|].
  eapply Forall_impl; [exact Hf|]. intros x Hx Hc. congruence.
Qed.

Lemma submit_loop_pres n s0 idx r :
  Forall (fun i => i < n)%nat idx -> preserves (submitting n s0) (submit_loop u idx r).
Proof.
  intros Hidx. revert r. induction Hidx as [|i idx Hi _ IH]; intros r s Hs; cbn [submit_loop]; [by apply wp_ret|].
  wp_step. unfold wp at 1, libusb_submit_transfer. destruct (on_submit u i <? 0).
  - apply wp_bind, wp_modify, wp_ret. destruct Hs as (Hx & _ & H1 & H2 & H3). by split_and!.
  - apply IH. destruct Hs as ((l & E & Hl & Hf) & Hrest). split; [|exact Hrest].
    exists (<[i := mk_xfer true false (status (xfer_at i s))]> l).
    unfold set_xfer_at, xfers. cbn [xfer set_xfer]. rewrite E. split; [done|]. split; [by rewrite length_insert|].
    apply Forall_insert; [done|]. unfold xfer_at, xfers. rewrite E.
    destruct (l !! i) as [x|] eqn:Ex; [|done]. by apply (Forall_lookup_1 _ _ _ _ Hf Ex).
Qed.

(** Nothing that is settled is freed in flight. *)
Lemma settled_none_in_flight n s :
  wf n s -> all_settled (seq 0 n) s -> filter (fun x => in_flight x = true) (xfers s) = [].
Proof.
  intros (l & E & Hl & _) Hs. destruct (filter _ (xfers s)) as [|x l'] eqn:Ef; [done|]. exfalso.
  assert (x ∈ filter (fun x => in_flight x = true) (xfers s)) as Hin by (rewrite Ef; apply elem_of_cons; by left).
  apply list_elem_of_filter in Hin as [Hx Hin]. apply list_elem_of_lookup in Hin as [i Hi].
  destruct (Hs i) as (st & y & Hy & Hfl & _); [|congruence].
  apply elem_of_seq. unfold xfers in Hi. rewrite E in Hi. apply lookup_lt_Some in Hi. lia.
Qed.

End cancel.

(** ** A call of rtlsdr_read_async *)

(** The number of transfers. *)
Definition buffers (buf_num : Z) : nat := Z.to_nat (if 0 <? buf_num then buf_num else DEFAULT_BUF_NUMBER).

(** The end of the call, after the loop. *)
Definition finished (p : Z * rtlsdr_async_status) (s : async) : async :=
  set_status p.2 (set_xfer_buf false (set_xfer None
    (set_freed (freed_in_flight s + length (filter (fun x => in_flight x = true) (xfers s)))%nat s))).

Lemma read_async_wp u fuel buf_num buf_len s (Post : Z * rtlsdr_async_status -> async -> Prop) :
  async_status s = RTLSDR_INACTIVE -> xfer s = None ->
  (forall r s2, sized (buffers buf_num) s2 -> async_status s2 <> RTLSDR_INACTIVE -> calls s2 = calls s -> freed_in_flight s2 = freed_in_flight s ->
     wp (event_loop u fuel r RTLSDR_INACTIVE) Post s2) ->
  wp (rtlsdr_read_async u fuel buf_num buf_len) (fun r s' => exists p s3, Post p s3 /\ r = p.1 /\ s' = finished p s3) s.
Proof.
  intros Hst Hx Hloop. unfold rtlsdr_read_async. wp_step. apply wp_gets. rewrite decide_False by tauto.
  do 4 (wp_step; apply wp_modify). unfold rtlsdr_alloc_async_buffers.
  set (n := buffers buf_num). set (s0 := set_buf_len _ _).
  assert (Z.of_nat n = if 0 <? buf_num then buf_num else DEFAULT_BUF_NUMBER) as Hnum
    by (unfold n, buffers, DEFAULT_BUF_NUMBER; destruct (Z.ltb_spec 0 buf_num); lia).
  assert (Hsub : submitting n s0 (set_xfer (Some (replicate n fresh_xfer)) s0)).
  { split; [|by split_and!]. exists (replicate n fresh_xfer). split; [done|]. split; [apply length_replicate|].
    by apply Forall_replicate. }
  wp_step. eapply (wp_mono _ (fun _ s' => submitting n s0 s')).
  2: { wp_step. apply wp_gets. change (xfer s0) with (xfer s). rewrite Hx. wp_step. apply wp_modify.
    change (Z.to_nat (xfer_buf_num s0)) with n. wp_step. apply wp_gets.
    destruct (xfer_buf _); [exact Hsub|]. wp_step. apply wp_modify, wp_ret. exact Hsub. }
  intros _ s1 Hs1. wp_step. apply wp_gets. replace (xfer_buf_num s1) with (Z.of_nat n) by (rewrite Hnum; symmetry; apply Hs1).
  wp_step. eapply wp_mono; [|apply (submit_loop_pres u n s0); [rewrite Nat2Z.id; apply seq_below|exact Hs1]].
  intros r s2 Hs2. pose proof (submitting_sized n s0 s2 Hs2 ltac:(rewrite Hnum; done)) as Hsz.
  destruct Hs2 as (_ & Hact & _ & Hcalls & Hfreed). wp_step.
  eapply wp_mono; [|by apply Hloop]. intros [r' next] s3 Hp. cbv beta iota. unfold rtlsdr_free_async_buffers.
  wp_step. wp_step. apply wp_modify, wp_ret. wp_step. apply wp_modify, wp_ret. by exists (r', next), s3.
Qed.

(** With a prompt libusb, a cancelled stream ends one call later, and nothing is
    in flight then. *)
Lemma read_async_drains u `{!prompt u} (k fuel : nat) (buf_num buf_len : Z) (s : async) :
  async_status s = RTLSDR_INACTIVE -> xfer s = None -> (calls s <= k)%nat ->
  (forall l, UserCancel ∈ (on_events u k l).2) -> (S (k - calls s) < fuel)%nat ->
  wp (rtlsdr_read_async u fuel buf_num buf_len)
    (fun _ s' => freed_in_flight s' = freed_in_flight s /\ (dev_lost s' = 0 -> async_status s' = RTLSDR_INACTIVE)) s.
Proof.
  intros Hst Hx Hc Hk Hf. set (n := buffers buf_num).
  eapply wp_mono; [|apply (read_async_wp u fuel buf_num buf_len s (fun p s3 => exists s2, drained n s2 p s3 /\ freed_in_flight s2 = freed_in_flight s));
    [done|done|]].
  - intros r s' (p & s3 & (s2 & (P & Hall & Hnext) & Hfr) & _ & ->). unfold finished.
    rewrite (settled_none_in_flight n s3) by (done || apply P). cbn. split; [|exact Hnext].
    destruct P as (_ & _ & _ & Hfr3 & _). lia.
  - intros r s2 Hsz Hact Hcalls Hfr. eapply wp_mono; [|apply (event_loop_wp u n k); [exact Hk|exact Hsz|exact Hact|lia|lia]].
    intros p s3 Hd. by exists s2.
Qed.

(** C3: rtlsdr_cancel_async, called from the callback or from another thread
    during the k-th call of libusb_handle_events, ends rtlsdr_read_async: in at
    most one round more for each transfer, whatever completes, fails or arrives,
    whether cancellations are accepted or refused, and whatever errors libusb
    reports, if from some call on it is not interrupted by signals for ever, and
    if a transfer whose cancellation was accepted completes, whenever it does, as
    cancelled.  The transfers are freed.  None is in flight then, and unless the
    device was lost a new rtlsdr_read_async can follow, under the condition that
    the code relies on and libusb does not promise ([prompt]): no call reports an
    error, every cancellation is accepted and the transfer completes in the next
    call.  Without it transfers are freed in flight ([slow_cancellation_frees],
    [read_async_error_exit]). *)
Theorem read_async_cancelled u `{!documented u} (k m fuel : nat) (buf_num buf_len : Z) (s : async) :
  async_status s = RTLSDR_INACTIVE -> xfer s = None -> (calls s <= k <= m)%nat ->
  (forall l, UserCancel ∈ (on_events u k l).2) -> (forall c l, (m < c)%nat -> (on_events u c l).1 <> -10) ->
  (S m - calls s + buffers buf_num < fuel)%nat ->
  wp (rtlsdr_read_async u fuel buf_num buf_len)
    (fun _ s' => xfer s' = None /\ xfer_buf s' = false /\
       (prompt u -> freed_in_flight s' = freed_in_flight s /\ (dev_lost s' = 0 -> async_status s' = RTLSDR_INACTIVE))) s.
Proof.
  intros Hst Hx [Hc Hkm] Hk Hint Hf.
  assert (wp (rtlsdr_read_async u fuel buf_num buf_len) (fun _ s' => xfer s' = None /\ xfer_buf s' = false) s) as Hends.
  { eapply wp_mono; [|apply (read_async_wp u fuel buf_num buf_len s (fun _ _ => True)); [done|done|]].
    - by intros r s' (p & s3 & _ & _ & ->).
    - intros r s2 [Hw Hn] Hact Hcalls Hfr.
      eapply wp_mono; [|by apply (event_loop_ends u (buffers buf_num) k m); [| | | | |left; lia|
        pose proof (live_count_bound _ _ Hw); lia]]. done. }
  assert (prompt u -> wp (rtlsdr_read_async u fuel buf_num buf_len)
    (fun _ s' => freed_in_flight s' = freed_in_flight s /\ (dev_lost s' = 0 -> async_status s' = RTLSDR_INACTIVE)) s) as Hdrain
    by (intros Hp; apply (read_async_drains u k); [done..|lia]).
  unfold wp in *. destruct (rtlsdr_read_async u fuel buf_num buf_len s) as [[r s']|]; [|done].
  destruct Hends. split_and!; [done|done|exact Hdrain].
Qed.

(** ** Witnesses *)

(** A device that streams: transfer 0 delivers a buffer per call, and
    cancellations complete at once; the caller cancels during call 2. *)
Definition cancelled_acts (l : list transfer) : list usb_act :=
  omap (fun p : nat * transfer => if in_flight p.2 && cancel_req p.2 then Some (Done p.1 TRANSFER_CANCELLED [] false) else None)
    (imap pair l).

Definition streaming : usb :=
  mk_usb (fun _ => 0) (fun _ _ => 0)
    (fun c l => (0, (if (c =? 2)%nat then [UserCancel] else []) ++ cancelled_acts l ++
                    match l with mk_xfer true false _ :: _ => [Done 0 TRANSFER_COMPLETED [Z.of_nat c] true] | _ => [] end)).

#[export] Instance streaming_prompt : prompt streaming.
Proof.
  split; [done|done|]. intros c l i st Hi. exists [], false. cbn [streaming on_events snd].
  apply elem_of_app. right. apply elem_of_app. left. apply list_elem_of_omap.
  exists (i, mk_xfer true true st). split; [|done]. apply list_elem_of_lookup. exists i.
  by rewrite list_lookup_imap, Hi.
Qed.

#[export] Instance streaming_documented : documented streaming.
Proof.
  split. intros c l i st0 st data b Hi. cbn [streaming on_events snd]. rewrite !elem_of_app. intros [H|[H|H]].
  - destruct (c =? 2)%nat; [by apply list_elem_of_singleton in H|by apply not_elem_of_nil in H].
  - apply list_elem_of_omap in H as ([j x] & _ & H). cbn in H. destruct (in_flight x && cancel_req x); [by injection H as _ <- _ _|discriminate H].
  - destruct l as [|[[] [] st1] l]; try (by apply not_elem_of_nil in H).
    apply list_elem_of_singleton in H. injection H as -> _ _ _. by injection Hi.
Qed.

Lemma read_async_cancelled_witness :
  wp (rtlsdr_read_async streaming 10 4 0)
    (fun _ s' => xfer s' = None /\ xfer_buf s' = false /\
       (prompt streaming -> freed_in_flight s' = 0%nat /\ (dev_lost s' = 0 -> async_status s' = RTLSDR_INACTIVE))) dev0.
Proof.
  refine (read_async_cancelled streaming 2 2 10 4 0 dev0 _ _ _ _ _ _).
  - reflexivity.
  - reflexivity.
  - cbn. lia.
  - intros l. cbn. apply elem_of_cons. by left.
  - intros c l _. cbn. lia.
  - vm_compute. lia.
Defined.

(** ** A stream without transfers *)

Section stall.
Context (u : usb).

(** No transfer is in flight and nobody cancels. *)
Definition stalled (s : async) : Prop :=
  async_status s = RTLSDR_RUNNING /\ Forall (fun x => in_flight x = false) (xfers s).

Lemma stalled_act s a : stalled s -> a <> UserCancel -> run_act s a = s.
Proof.
  intros [Hst Hf] Ha. destruct a as [i st data b|]; [|done]. cbn [run_act]. unfold libusb_callback.
  destruct (xfers s !! i) as [[[] rq st0]|] eqn:Hi; [|done..]. by specialize (Forall_lookup_1 _ _ _ _ Hf Hi).
Qed.

Lemma stalled_events s :
  stalled s -> UserCancel ∉ (on_events u (calls s) (xfers s)).2 ->
  handle_events u s = Some ((on_events u (calls s) (xfers s)).1, set_calls (S (calls s)) s).
Proof.
  intros Hs Hu. unfold handle_events. destruct (on_events u (calls s) (xfers s)) as [rc acts]. cbn [fst snd] in *. do 2 f_equal.
  assert (Hs0 : stalled (set_calls (S (calls s)) s)) by exact Hs. clear Hs. revert Hs0.
  generalize (set_calls (S (calls s)) s) as s0. induction acts as [|a acts IH]; intros s0 Hs0; cbn [fold_left]; [done|].
  apply not_elem_of_cons in Hu as [Hne Hu]. rewrite stalled_act by (done || congruence). by apply IH.
Qed.

(** No call from now on fails, or cancels. *)
Definition uneventful (s : async) : Prop :=
  forall c l, (calls s <= c)%nat -> (0 <= (on_events u c l).1 \/ (on_events u c l).1 = -10) /\ UserCancel ∉ (on_events u c l).2.

Lemma stalled_round f r next s :
  stalled s -> uneventful s -> exists r', event_loop u (S f) r next s = event_loop u f r' next (set_calls (S (calls s)) s).
Proof.
  intros Hs Hu. cbn [event_loop]. unfold mbind, M_bind, gets. pose proof Hs as [Hst _]. rewrite Hst.
  destruct (Hu (calls s) (xfers s) ltac:(lia)) as [Hrc Hnc]. rewrite decide_False, (stalled_events s Hs Hnc) by done.
  destruct (Z.ltb_spec (on_events u (calls s) (xfers s)).1 0).
  - replace (_ =? -10) with true by lia. by eexists.
  - change (async_status (set_calls _ s)) with (async_status s). rewrite Hst, decide_False by done. by eexists.
Qed.

(** C26: a stream that is running with no transfer in flight ([stalled]) is stuck.
    Whatever libusb reports, as long as no call of libusb_handle_events ends with
    an error other than an interruption and nobody cancels ([uneventful]): after
    any number [m] of calls the event loop is still running, with nothing in
    flight, nothing more delivered to the callback, no error counted and the
    device not taken for lost if it was not.  (A stream gets there because a
    transfer that fails or times out is not submitted again, and one that completes
    resets the count of errors: [flaky_stalls], from a call with the default
    settings.) *)
Theorem read_async_stalls (m : nat) (r : Z) (next : rtlsdr_async_status) (s : async) :
  stalled s -> uneventful s ->
  exists s', calls s' = (calls s + m)%nat /\ stalled s' /\ delivered s' = delivered s /\ dev_lost s' = dev_lost s /\
    xfer_errors s' = xfer_errors s /\
    forall f, exists r', event_loop u (m + f) r next s = event_loop u f r' next s'.
Proof.
  intros Hs Hu. exists (set_calls (calls s + m) s). split_and!; [done|exact Hs|done|done|done|].
  intros f. revert r s Hs Hu. induction m as [|m IH]; intros r s Hs Hu.
  - exists r. rewrite Nat.add_0_r. by destruct s.
  - destruct (stalled_round (m + f) r next s Hs Hu) as [r1 E]. cbn [Nat.add]. rewrite E.
    destruct (IH r1 (set_calls (S (calls s)) s)) as [r' E']; [exact Hs|intros c l Hc; apply Hu; cbn in Hc; lia|].
    exists r'. rewrite E'. cbn [calls set_calls]. by rewrite <- Nat.add_succ_comm.
Qed.

Lemma stalled_forever f r next s : stalled s -> uneventful s -> event_loop u f r next s = None.
Proof.
  revert r s. induction f as [|f IH]; intros r s Hs Hu; [done|]. destruct (stalled_round f r next s Hs Hu) as [r' ->].
  apply IH; [exact Hs|]. intros c l Hc. apply Hu. cbn in Hc. lia.
Qed.
End stall.

(** A device on which the first 14 transfers fail, the last one completes, and
    then fails too; nothing more happens. *)
Definition flaky : usb :=
  mk_usb (fun _ => 0) (fun _ _ => 0)
    (fun c l => (0, match c with
                    | O => map (fun i => Done i TRANSFER_ERROR [] false) (seq 0 14) ++
                           [Done 14 TRANSFER_COMPLETED [] true; Done 14 TRANSFER_ERROR [] false]
                    | S _ => []
                    end)).

(** After the first call. *)
Definition flaky_stalled : async :=
  mk_async 15 DEFAULT_BUF_LENGTH (Some (replicate 15 (mk_xfer false false TRANSFER_ERROR))) true RTLSDR_RUNNING 0 0 1 1 [[]] 0.

(** From a device that was just opened and the default settings, one call is
    enough: 15 transfers have failed, and the device is not lost. *)
Lemma flaky_stalls f :
  rtlsdr_read_async flaky (S f) 0 0 dev0 =
  ('(r, next_status) ← event_loop flaky f 0 RTLSDR_INACTIVE;
   rtlsdr_free_async_buffers;; modify (set_status next_status);; mret r) flaky_stalled.
Proof.
  unfold rtlsdr_read_async. cbn [event_loop]. generalize (event_loop flaky f) as loop. intros loop. vm_compute. reflexivity.
Qed.

Lemma flaky_uneventful : stalled flaky_stalled /\ uneventful flaky flaky_stalled.
Proof.
  split; [split; [done|by apply Forall_replicate]|]. intros [|c] l Hc; [cbn in Hc; lia|]. split; [by left|]. cbn. apply not_elem_of_nil.
Qed.

Lemma read_async_stalls_witness :
  exists s', calls s' = 1000%nat /\ stalled s' /\ dev_lost s' = 0 /\
    forall f, exists r', event_loop flaky (999 + f) 0 RTLSDR_INACTIVE flaky_stalled = event_loop flaky f r' RTLSDR_INACTIVE s'.
Proof.
  destruct flaky_uneventful as [Hs Hu].
  destruct (read_async_stalls flaky 999 0 RTLSDR_INACTIVE flaky_stalled Hs Hu) as (s' & Hc & Hs' & _ & Hl & _ & Hf).
  exists s'. split; [exact Hc|]. split; [exact Hs'|]. split; [exact Hl|exact Hf].
Defined.

(** So this call never returns. *)
Lemma flaky_never_returns fuel : rtlsdr_read_async flaky fuel 0 0 dev0 = None.
Proof.
  destruct fuel as [|f]; [vm_compute; reflexivity|]. rewrite flaky_stalls. destruct flaky_uneventful as [Hs Hu].
  unfold mbind, M_bind. by rewrite stalled_forever.
Qed.

(** ** Leaving on an error *)

(** libusb accepts the cancellations of call 0 but completes none, and the
    next call of libusb_handle_events in the loop fails. *)
Definition failing : usb :=
  mk_usb (fun _ => 0) (fun _ _ => 0)
    (fun c l => match c with O => (0, [UserCancel]) | 1%nat | 2%nat => (0, []) | _ => (-99, []) end).

(** The loop is left with the status of the last round: the transfers are freed
    in flight, and the status stays "canceling", on which rtlsdr_close waits. *)
Lemma read_async_error_exit :
  match rtlsdr_read_async failing 5 2 0 dev0 with
  | Some (r, s) => (r, async_status s, freed_in_flight s, dev_lost s)
  | None => (0, RTLSDR_INACTIVE, 0%nat, 0)
  end = (-99, RTLSDR_CANCELING, 2%nat, 0).
Proof. vm_compute. reflexivity. Qed.

(** A libusb that accepts every cancellation and takes its time: it says "not
    found" when it is asked again, and the loop takes that for the end. *)
Definition slow : usb := mk_usb (fun _ => 0) (fun _ _ => 0) (fun c l => (0, if (c =? 0)%nat then [UserCancel] else [])).

Lemma slow_cancellation_frees :
  documented slow /\
  match rtlsdr_read_async slow 5 2 0 dev0 with
  | Some (r, s) => (r, async_status s, freed_in_flight s)
  | None => (0, RTLSDR_RUNNING, 0%nat)
  end = (-5, RTLSDR_INACTIVE, 2%nat).
Proof.
  split; [|vm_compute; reflexivity]. split. intros [|c] l i st0 st data b _ H; cbn in H.
  - by apply list_elem_of_singleton in H.
  - by apply not_elem_of_nil in H.
Qed.

(** So does an error of the first call, with the status "inactive". *)
Lemma read_async_error_frees :
  match rtlsdr_read_async (mk_usb (fun _ => 0) (fun _ _ => 0) (fun _ _ => (-99, []))) 5 2 0 dev0 with
  | Some (r, s) => (r, async_status s, freed_in_flight s)
  | None => (0, RTLSDR_RUNNING, 0%nat)
  end = (-99, RTLSDR_INACTIVE, 2%nat).
Proof. vm_compute. reflexivity. Qed.
