(* ===== verification/Enumerate.v ===== *)
(** * librtlsdr.c: finding the dongles

    The devices on the USB bus, the table of known dongles, and the functions
    that select one by its index or its serial number.  The bus does not
    change between the calls. *)

From S2P Require Import Prelude.

(** A device on the bus: its descriptor, the result of opening it and of
    reading its descriptor then, and its strings. *)
Record usb_device : Type := mk_usb_device {
  idVendor : Z;
  idProduct : Z;
  open_rc : Z;
  descriptor_rc : Z;
  usb_strings : string * string * string;
}.

(** The bus: libusb_init, and the list of devices. *)
Record usb_bus : Type := mk_bus { init_rc : Z; device_list : list usb_device }.

(* src/librtlsdr.c:311-315 rtlsdr_dongle *)
Record rtlsdr_dongle : Type := mk_dongle { vid : Z; pid : Z; name : string }.

(* src/librtlsdr.c:317-360 known_devices *)
Definition known_devices : list rtlsdr_dongle := [
   mk_dongle 0x0bda 0x2832 "Generic RTL2832U";
   mk_dongle 0x0bda 0x2838 "Generic RTL2832U OEM";
   mk_dongle 0x0413 0x6680 "DigitalNow Quad DVB-T PCI-E card";
   mk_dongle 0x0413 0x6f0f "Leadtek WinFast DTV Dongle mini D";
   mk_dongle 0x0458 0x707f "Genius TVGo DVB-T03 USB dongle (Ver. B)";
   mk_dongle 0x0ccd 0x00a9 "Terratec Cinergy T Stick Black (rev 1)";
   mk_dongle 0x0ccd 0x00b3 "Terratec NOXON DAB/DAB+ USB dongle (rev 1)";
   mk_dongle 0x0ccd 0x00b4 "Terratec Deutschlandradio DAB Stick";
   mk_dongle 0x0ccd 0x00b5 "Terratec NOXON DAB Stick - Radio Energy";
   mk_dongle 0x0ccd 0x00b7 "Terratec Media Broadcast DAB Stick";
   mk_dongle 0x0ccd 0x00b8 "Terratec BR DAB Stick";
   mk_dongle 0x0ccd 0x00b9 "Terratec WDR DAB Stick";
   mk_dongle 0x0ccd 0x00c0 "Terratec MuellerVerlag DAB Stick";
   mk_dongle 0x0ccd 0x00c6 "Terratec Fraunhofer DAB Stick";
   mk_dongle 0x0ccd 0x00d3 "Terratec Cinergy T Stick RC (Rev.3)";
   mk_dongle 0x0ccd 0x00d7 "Terratec T Stick PLUS";
   mk_dongle 0x0ccd 0x00e0 "Terratec NOXON DAB/DAB+ USB dongle (rev 2)";
   mk_dongle 0x1554 0x5020 "PixelView PV-DT235U(RN)";
   mk_dongle 0x15f4 0x0131 "Astrometa DVB-T/DVB-T2";
   mk_dongle 0x15f4 0x0133 "HanfTek DAB+FM+DVB-T";
   mk_dongle 0x185b 0x0620 "Compro Videomate U620F";
   mk_dongle 0x185b 0x0650 "Compro Videomate U650F";
   mk_dongle 0x185b 0x0680 "Compro Videomate U680F";
   mk_dongle 0x1b80 0xd393 "GIGABYTE GT-U7300";
   mk_dongle 0x1b80 0xd394 "DIKOM USB-DVBT HD";
   mk_dongle 0x1b80 0xd395 "Peak 102569AGPK";
   mk_dongle 0x1b80 0xd397 "KWorld KW-UB450-T USB DVB-T Pico TV";
   mk_dongle 0x1b80 0xd398 "Zaapa ZT-MINDVBZP";
   mk_dongle 0x1b80 0xd39d "SVEON STV20 DVB-T USB & FM";
   mk_dongle 0x1b80 0xd3a4 "Twintech UT-40";
   mk_dongle 0x1b80 0xd3a8 "ASUS U3100MINI_PLUS_V2";
   mk_dongle 0x1b80 0xd3af "SVEON STV27 DVB-T USB & FM";
   mk_dongle 0x1b80 0xd3b0 "SVEON STV21 DVB-T USB & FM";
   mk_dongle 0x1d19 0x1101 "Dexatek DK DVB-T Dongle (Logilink VG0002A)";
   mk_dongle 0x1d19 0x1102 "Dexatek DK DVB-T Dongle (MSI DigiVox mini II V3.0)";
   mk_dongle 0x1d19 0x1103 "Dexatek Technology Ltd. DK 5217 DVB-T Dongle";
   mk_dongle 0x1d19 0x1104 "MSI DigiVox Micro HD";
   mk_dongle 0x1f4d 0xa803 "Sweex DVB-T USB";
   mk_dongle 0x1f4d 0xb803 "GTek T803";
   mk_dongle 0x1f4d 0xc803 "Lifeview LV5TDeluxe";
   mk_dongle 0x1f4d 0xd286 "MyGica TD312";
   mk_dongle 0x1f4d 0xd803 "PROlectrix DV107669"].

(* src/librtlsdr.c: find_known_device *)
Definition find_known_device (v p : Z) : option rtlsdr_dongle :=
  head (filter (fun k => (vid k =? v) && (pid k =? p) = true) known_devices).

Definition known (d : usb_device) : option rtlsdr_dongle := find_known_device (idVendor d) (idProduct d).

(** The loop over the list: the devices counted so far. *)
(* src/librtlsdr.c:1363-1368 rtlsdr_get_device_count *)
Fixpoint count_loop (l : list usb_device) (device_count : Z) : Z :=
  match l with
  | [] => device_count
  | d :: l' => count_loop l' (match known d with Some _ => u32 (device_count + 1) | None => device_count end)
  end.

(* src/librtlsdr.c: rtlsdr_get_device_count *)
Definition rtlsdr_get_device_count (b : usb_bus) : Z :=
  if init_rc b <? 0 then 0 else count_loop (device_list b) 0.

(** [device] is the entry of the device looked at last. *)
(* src/librtlsdr.c:1395-1406 rtlsdr_get_device_name *)
Fixpoint name_loop (l : list usb_device) (index device_count : Z) (device : option rtlsdr_dongle) : option rtlsdr_dongle :=
  match l with
  | [] => device
  | d :: l' =>
      let device := known d in
      match device with
      | Some _ =>
          let device_count := u32 (device_count + 1) in
          if index =? u32 (device_count - 1) then device else name_loop l' index device_count device
      | None => name_loop l' index device_count device
      end
  end.

(* src/librtlsdr.c: rtlsdr_get_device_name *)
Definition rtlsdr_get_device_name (b : usb_bus) (index : Z) : string :=
  if init_rc b <? 0 then "" else
  match name_loop (device_list b) index 0 None with Some k => name k | None => "" end.

(** The strings, when the descriptor can be read. *)
(* src/librtlsdr.c: rtlsdr_get_usb_strings *)
Definition rtlsdr_get_usb_strings (d : usb_device) : Z * option (string * string * string) :=
  if descriptor_rc d <? 0 then (-1, None) else (0, Some (usb_strings d)).

(** The result, and the strings when they were written. *)
(* src/librtlsdr.c:1438-1457 rtlsdr_get_device_usb_strings *)
Fixpoint strings_loop (l : list usb_device) (index device_count r : Z) : Z * option (string * string * string) :=
  match l with
  | [] => (r, None)
  | d :: l' =>
      match known d with
      | Some _ =>
          let device_count := u32 (device_count + 1) in
          if index =? u32 (device_count - 1) then
            if open_rc d =? 0 then rtlsdr_get_usb_strings d else (open_rc d, None)
          else strings_loop l' index device_count r
      | None => strings_loop l' index device_count r
      end
  end.

(* src/librtlsdr.c: rtlsdr_get_device_usb_strings *)
Definition rtlsdr_get_device_usb_strings (b : usb_bus) (index : Z) : Z * option (string * string * string) :=
  if init_rc b <? 0 then (init_rc b, None) else strings_loop (device_list b) index 0 (init_rc b).

(** The loop; [str] is the local buffer, which keeps its contents when no
    strings are written. *)
(* src/librtlsdr.c:1480-1484 rtlsdr_get_index_by_serial *)
Fixpoint serial_loop (b : usb_bus) (serial str : string) (i : Z) (n : nat) : Z :=
  match n with
  | O => -3
  | S n =>
      let '(r, s) := rtlsdr_get_device_usb_strings b i in
      let str := match s with Some (_, _, serial') => serial' | None => str end in
      if (r =? 0) && String.eqb serial str then i else serial_loop b serial str (i + 1) n
  end.

(* src/librtlsdr.c: rtlsdr_get_index_by_serial *)
Definition rtlsdr_get_index_by_serial (b : usb_bus) (serial junk : string) : Z :=
  let cnt := rtlsdr_get_device_count b in
  if cnt =? 0 then -2 else serial_loop b serial junk 0 (Z.to_nat cnt).

(** The device that rtlsdr_open selects. *)
(* src/librtlsdr.c:1522-1537 rtlsdr_open *)
Fixpoint open_loop (l : list usb_device) (index device_count : Z) : option usb_device :=
  match l with
  | [] => None
  | d :: l' =>
      let device_count := match known d with Some _ => u32 (device_count + 1) | None => device_count end in
      if index =? u32 (device_count - 1) then Some d else open_loop l' index device_count
  end.

(** rtlsdr_open up to libusb_claim_interface: the device opened, or the error.
    The result of claiming the interface is [claim_rc]. *)
(* src/librtlsdr.c:1514-1580 rtlsdr_open *)
Definition open_select (b : usb_bus) (claim_rc index : Z) : Z * option usb_device :=
  if init_rc b <? 0 then (-1, None) else
  match open_loop (device_list b) index 0 with
  | None => (-1, None)
  | Some d =>
      if open_rc d <? 0 then (open_rc d, None)
      else if claim_rc <? 0 then (claim_rc, None)
      else (0, Some d)
  end.

(** ** One numbering *)

(** The strings of a dongle, once it is open. *)
Definition strings_of (d : usb_device) : Z * option (string * string * string) :=
  if open_rc d =? 0 then rtlsdr_get_usb_strings d else (open_rc d, None).

(** The known devices of a list. *)
Definition known_of (l : list usb_device) : list usb_device := filter (fun d => is_Some (known d)) l.

Lemma known_of_cons d l :
  known_of (d :: l) = match known d with Some _ => d :: known_of l | None => known_of l end.
Proof.
  unfold known_of. rewrite filter_cons.
  destruct (known d); [by rewrite decide_True|by rewrite decide_False by (by intros [])].
Qed.

Lemma count_loop_spec l c :
  0 <= c -> c + Z.of_nat (length l) < 2 ^ 32 -> count_loop l c = c + Z.of_nat (length (known_of l)).
Proof.
  revert c. induction l as [|d l IH]; intros c Hc Hl; cbn [count_loop length] in *; [cbn; lia|].
  rewrite known_of_cons. destruct (known d) as [k|].
  - rewrite u32_small by (unfold is_u32; lia). rewrite IH by lia. cbn [length]. lia.
  - rewrite IH by lia. lia.
Qed.

(** A loop that counts the known devices and stops at number [index]. *)
Lemma select_spec {S A} (loop : list usb_device -> Z -> S -> A) (hit : usb_device -> A) index :
  (forall d l c st, 0 <= c <= index -> index < 2 ^ 32 - 1 ->
     match known d with
     | Some _ => exists st', loop (d :: l) c st = if index =? c then hit d else loop l (c + 1) st'
     | None => exists st', loop (d :: l) c st = loop l c st'
     end) ->
  forall l c st d, 0 <= c <= index -> index < 2 ^ 32 - 1 ->
  known_of l !! Z.to_nat (index - c) = Some d -> loop l c st = hit d.
Proof.
  intros Hstep l. induction l as [|d l IH]; intros c st d0 Hc Hi; [done|].
  specialize (Hstep d l c st Hc Hi). rewrite known_of_cons. destruct (known d) as [k|].
  - destruct Hstep as [st' ->]. destruct (Z.eqb_spec index c) as [->|Hne].
    + rewrite Z.sub_diag. by intros [= ->].
    + replace (Z.to_nat (index - c)) with (Datatypes.S (Z.to_nat (index - (c + 1)))) by lia. cbn. apply IH; lia.
  - destruct Hstep as [st' ->]. by apply IH.
Qed.

(** The count in the loops. *)
Lemma next_count index c : 0 <= c <= index -> index < 2 ^ 32 - 1 -> (index =? u32 (u32 (c + 1) - 1)) = (index =? c).
Proof.
  intros Hc Hi. rewrite (u32_small (c + 1)) by (unfold is_u32; lia).
  rewrite (u32_small (c + 1 - 1)) by (unfold is_u32; lia). f_equal. lia.
Qed.

Lemma same_count index c : 0 <= c <= index -> index < 2 ^ 32 - 1 -> (index =? u32 (c - 1)) = false.
Proof.
  intros Hc Hi. destruct (decide (c = 0)) as [->|].
  - change (u32 (0 - 1)) with (2 ^ 32 - 1). lia.
  - rewrite u32_small by (unfold is_u32; lia). lia.
Qed.

Lemma next_u32 index c : 0 <= c <= index -> index < 2 ^ 32 - 1 -> u32 (c + 1) = c + 1.
Proof. intros. apply u32_small. unfold is_u32. lia. Qed.

Lemma name_loop_spec l index d :
  0 <= index < 2 ^ 32 - 1 -> known_of l !! Z.to_nat index = Some d -> name_loop l index 0 None = known d.
Proof.
  intros Hi Hd. apply (select_spec (fun l c st => name_loop l index c st) known index); [|lia|lia|by rewrite Z.sub_0_r].
  intros d' l' c st Hc Hi'. cbn [name_loop]. destruct (known d') eqn:E; [|by eexists].
  rewrite next_count by done. rewrite (next_u32 index) by done. by eexists.
Qed.

Lemma strings_loop_spec l index d r :
  0 <= index < 2 ^ 32 - 1 -> known_of l !! Z.to_nat index = Some d -> strings_loop l index 0 r = strings_of d.
Proof.
  intros Hi Hd. apply (select_spec (fun l c (_ : unit) => strings_loop l index c r) strings_of index); [|exact tt|lia|lia|by rewrite Z.sub_0_r].
  intros d' l' c st Hc Hi'. cbn [strings_loop]. destruct (known d') eqn:E; exists tt; [|done].
  rewrite next_count by done. by rewrite (next_u32 index) by done.
Qed.

Lemma open_loop_spec l index d :
  0 <= index < 2 ^ 32 - 1 -> known_of l !! Z.to_nat index = Some d -> open_loop l index 0 = Some d.
Proof.
  intros Hi Hd. apply (select_spec (fun l c (_ : unit) => open_loop l index c) Some index); [|exact tt|lia|lia|by rewrite Z.sub_0_r].
  intros d' l' c st Hc Hi'. cbn [open_loop]. destruct (known d') eqn:E; exists tt.
  - rewrite next_count by done. by rewrite (next_u32 index) by done.
  - by rewrite same_count.
Qed.

(** ** Serial numbers *)

(** The serial number that dongle [i] reports. *)
Definition serial_of (d : usb_device) : option string :=
  match strings_of d with (0, Some (_, _, serial)) => Some serial | _ => None end.

Lemma usb_strings_known b i d :
  0 <= init_rc b -> 0 <= i < 2 ^ 32 - 1 -> known_of (device_list b) !! Z.to_nat i = Some d ->
  rtlsdr_get_device_usb_strings b i = strings_of d.
Proof.
  intros Hr Hi Hd. unfold rtlsdr_get_device_usb_strings. replace (init_rc b <? 0) with false by lia.
  by apply strings_loop_spec.
Qed.

(** Only strings that were written are compared. *)
Lemma serial_matches d serial str :
  (let '(r, s) := strings_of d in
   (r =? 0) && String.eqb serial (match s with Some (_, _, serial') => serial' | None => str end))
  = bool_decide (serial_of d = Some serial).
Proof.
  unfold serial_of, strings_of, rtlsdr_get_usb_strings. destruct (Z.eqb_spec (open_rc d) 0) as [E|E].
  - destruct (descriptor_rc d <? 0); [done|]. destruct (usb_strings d) as [[m p] ser]. cbn [Z.eqb andb].
    destruct (String.eqb_spec serial ser) as [->|Hne]; symmetry; [by apply bool_decide_true|].
    apply bool_decide_false. intros [= ->]. done.
  - replace (open_rc d =? 0) with false by lia. cbn [andb]. symmetry. apply bool_decide_false.
    destruct (open_rc d); done.
Qed.

Lemma serial_loop_spec b serial str i n l :
  0 <= init_rc b -> 0 <= i -> i + Z.of_nat n < 2 ^ 31 -> drop (Z.to_nat i) (known_of (device_list b)) = l -> length l = n ->
  serial_loop b serial str i n =
    match list_find (fun d => serial_of d = Some serial) l with Some (j, _) => i + Z.of_nat j | None => -3 end.
Proof.
  intros Hr. revert str i n. induction l as [|d l IH]; intros str i n Hi Hn Hl <-; cbn [length serial_loop list_find]; [done|].
  assert (Hd : known_of (device_list b) !! Z.to_nat i = Some d).
  { rewrite <- (Nat.add_0_r (Z.to_nat i)), <- lookup_drop, Hl. done. }
  cbn [length] in Hn. rewrite (usb_strings_known b i d) by (done || lia).
  pose proof (serial_matches d serial str) as Hm. destruct (strings_of d) as [r s] eqn:Es. rewrite Hm.
  destruct (decide (serial_of d = Some serial)) as [E|E].
  - rewrite bool_decide_true by done. lia.
  - rewrite bool_decide_false by done. rewrite (IH _ (i + 1) (length l)); [|lia|lia| |done].
    + destruct (list_find _ l) as [[j d']|]; cbn; lia.
    + replace (Z.to_nat (i + 1)) with (Z.to_nat i + 1)%nat by lia. by rewrite <- drop_drop, Hl.
Qed.

(** C15: The functions that take a device index agree on the numbering: index
    [i] is the i-th device on the bus that the table of known dongles lists,
    and there are rtlsdr_get_device_count of them.  For it rtlsdr_get_device_name
    gives the name of its entry, rtlsdr_get_device_usb_strings opens and reads
    that device, and rtlsdr_open opens it; rtlsdr_get_index_by_serial gives
    the first one with the serial number, -3 when there is none and -2
    without dongles. *)
Theorem device_index_consistent (b : usb_bus) (claim_rc index : Z) (serial junk : string) :
  0 <= init_rc b -> Z.of_nat (length (device_list b)) < 2 ^ 31 ->
  rtlsdr_get_device_count b = Z.of_nat (length (known_of (device_list b))) /\
  (0 <= index < rtlsdr_get_device_count b ->
   exists d k, known_of (device_list b) !! Z.to_nat index = Some d /\ known d = Some k /\
     rtlsdr_get_device_name b index = name k /\
     rtlsdr_get_device_usb_strings b index = strings_of d /\
     open_select b claim_rc index =
       if open_rc d <? 0 then (open_rc d, None) else if claim_rc <? 0 then (claim_rc, None) else (0, Some d)) /\
  rtlsdr_get_index_by_serial b serial junk =
    match list_find (fun d => serial_of d = Some serial) (known_of (device_list b)) with
    | Some (i, _) => Z.of_nat i
    | None => if rtlsdr_get_device_count b =? 0 then -2 else -3
    end.
Proof.
  intros Hr Hl. unfold rtlsdr_get_index_by_serial, rtlsdr_get_device_count. replace (init_rc b <? 0) with false by lia.
  rewrite count_loop_spec by lia. split; [lia|].
  pose proof (length_filter (fun d => is_Some (known d)) (device_list b)) as Hle.
  fold (known_of (device_list b)) in Hle. split; [intros Hi|].
  2: { destruct (Z.eqb_spec (0 + Z.of_nat (length (known_of (device_list b)))) 0) as [E|E].
    - by rewrite (nil_length_inv (known_of (device_list b))) by lia.
    - rewrite (serial_loop_spec b serial junk 0 _ (known_of (device_list b))) by (done || lia).
      destruct (list_find _ _) as [[i d]|]; lia. }
  destruct (lookup_lt_is_Some_2 (known_of (device_list b)) (Z.to_nat index) ltac:(lia)) as [d Hd].
  assert (is_Some (known d)) as [k Hk].
  { apply list_elem_of_lookup_2, list_elem_of_filter in Hd. apply Hd. }
  exists d, k. split; [done|]. split; [done|].
  unfold rtlsdr_get_device_name, rtlsdr_get_device_usb_strings, open_select. replace (init_rc b <? 0) with false by lia.
  rewrite (name_loop_spec _ index d), (strings_loop_spec _ index d), (open_loop_spec _ index d) by (done || lia). by rewrite Hk.
Qed.

(** An index beyond the last dongle is not an error of
    rtlsdr_get_device_usb_strings: it returns 0 and writes nothing. *)
Lemma usb_strings_no_device b index :
  0 <= init_rc b -> Z.of_nat (length (device_list b)) < 2 ^ 31 ->
  rtlsdr_get_device_count b <= index < 2 ^ 32 - 1 ->
  rtlsdr_get_device_usb_strings b index = (init_rc b, None).
Proof.
  intros Hr Hl. unfold rtlsdr_get_device_count, rtlsdr_get_device_usb_strings. replace (init_rc b <? 0) with false by lia.
  rewrite count_loop_spec by lia. generalize (init_rc b) as r. intros r Hi.
  assert (forall l c, 0 <= c -> c + Z.of_nat (length (known_of l)) <= index -> strings_loop l index c r = (r, None)) as Hg; [|by apply Hg; lia].
  intros l. induction l as [|d l IH]; intros c Hc Hle; [done|]. cbn [strings_loop]. rewrite known_of_cons in Hle.
  destruct (known d); [|by apply IH]. cbn [length] in Hle. rewrite next_count by lia.
  replace (index =? c) with false by lia. rewrite (next_u32 index) by lia. apply IH; lia.
Qed.

(** ** Examples *)

Definition desk : usb_bus :=
  mk_bus 0 [mk_usb_device 0x046d 0xc077 0 0 ("Logitech", "Mouse", "");
            mk_usb_device 0x0bda 0x2838 0 0 ("Realtek", "RTL2838UHIDIR", "00000001");
            mk_usb_device 0x1d6b 0x0002 0 0 ("Linux", "Hub", "");
            mk_usb_device 0x0ccd 0x00b3 0 0 ("Terratec", "NOXON", "00000002")].

Lemma device_index_consistent_witness :
  rtlsdr_get_device_count desk = Z.of_nat (length (known_of (device_list desk))) /\
  (0 <= 1 < rtlsdr_get_device_count desk ->
   exists d k, known_of (device_list desk) !! Z.to_nat 1 = Some d /\ known d = Some k /\
     rtlsdr_get_device_name desk 1 = name k /\
     rtlsdr_get_device_usb_strings desk 1 = strings_of d /\
     open_select desk 0 1 =
       if open_rc d <? 0 then (open_rc d, None) else if 0 <? 0 then (0, None) else (0, Some d)) /\
  rtlsdr_get_index_by_serial desk "00000002" "" =
    match list_find (fun d => serial_of d = Some "00000002"%string) (known_of (device_list desk)) with
    | Some (i, _) => Z.of_nat i
    | None => if rtlsdr_get_device_count desk =? 0 then -2 else -3
    end.
Proof. refine (device_index_consistent desk 0 1 "00000002" "" _ _); by vm_compute. Defined.

Lemma desk_serial : rtlsdr_get_index_by_serial desk "00000002" "" = 1.
Proof. vm_compute. reflexivity. Qed.

(** Beyond the last dongle rtlsdr_get_device_name gives the name of the device
    listed last, when that is a dongle, and index 2^32 - 1 makes rtlsdr_open
    open the first device of the bus, the mouse. *)
Lemma index_out_of_range :
  rtlsdr_get_device_name desk 7 = "Terratec NOXON DAB/DAB+ USB dongle (rev 1)"%string /\
  open_loop (device_list desk) (2 ^ 32 - 1) 0 = head (device_list desk).
Proof. split; vm_compute; reflexivity. Qed.
