(* ===== verification/Convenience.v ===== *)
(** * convenience.c: what the command line programs share

    Numbers with suffixes, the selection of a device and of a gain, dates, and
    the command line of a background program.  A string is the list of its
    characters before the end, as bytes.  The messages to stderr are not
    modelled; [atof] of the C library is a parameter. *)

From S2P Require Import Prelude Arrays Double Device Enumerate.

Class libc : Type := mk_libc { atof : list Z -> double }.

(** ** Characters *)

(** The blanks of the C locale. *)
Definition isspace (c : Z) : bool := (c =? 32) || ((9 <=? c) && (c <=? 13)).
Definition isdigit (c : Z) : bool := (48 <=? c) && (c <=? 57).

(** The value of a digit or a letter. *)
Definition digit_value (c : Z) : option Z :=
  if isdigit c then Some (c - 48) else
  if (97 <=? c) && (c <=? 122) then Some (c - 87) else
  if (65 <=? c) && (c <=? 90) then Some (c - 55) else None.

(** The digits of the base at the front: their value and the rest. *)
Fixpoint digits (base acc : Z) (s : list Z) : Z * list Z :=
  match s with
  | [] => (acc, [])
  | c :: s' =>
      match digit_value c with
      | Some v => if v <? base then digits base (acc * base + v) s' else (acc, s)
      | None => (acc, s)
      end
  end.

Fixpoint skip_space (s : list Z) : list Z :=
  match s with c :: s' => if isspace c then skip_space s' else s | [] => [] end.

(** A sign, if there is one: whether it is a minus, and the rest. *)
Definition sign (s : list Z) : bool * list Z :=
  match s with
  | c :: s' => if c =? 45 then (true, s') else if c =? 43 then (false, s') else (false, s)
  | [] => (false, [])
  end.

Definition is_digit_of (base : Z) (s : list Z) : bool :=
  match s with c :: _ => match digit_value c with Some v => v <? base | None => false end | [] => false end.

(** The value clamped to the range of [long]. *)
Definition clamp_long (x : Z) : Z := Z.max (- 2 ^ 63) (Z.min (2 ^ 63 - 1) x).

(** strtol of the C library for a base of 0: the value, and the rest, which is
    the whole string when there is no number. *)
Definition strtol (s : list Z) : Z * list Z :=
  let '(neg, t) := sign (skip_space s) in
  let '(base, t) :=
    match t with
    | z :: x :: t' =>
        if (z =? 48) && ((x =? 120) || (x =? 88)) && is_digit_of 16 t' then (16, t')
        else if z =? 48 then (8, t) else (10, t)
    | [z] => if z =? 48 then (8, t) else (10, t)
    | [] => (10, t)
    end in
  if is_digit_of base t then
    let '(v, rest) := digits base 0 t in (clamp_long (if neg then - v else v), rest)
  else (0, s).

(** atoi of the C library. *)
Definition atoi (s : list Z) : Z :=
  let '(neg, t) := sign (skip_space s) in
  let v := (digits 10 0 t).1 in i32 (clamp_long (if neg then - v else v)).

(** strchr for a colon: what is before and behind it. *)
Fixpoint split_colon (s : list Z) : option (list Z * list Z) :=
  match s with
  | [] => None
  | c :: s' => if c =? 58 then Some ([], s') else '(a, b) ← split_colon s'; Some (c :: a, b)
  end.

(** ** Numbers with a suffix *)

Definition is_char (c : Z) (upper lower : Z) : bool := (c =? upper) || (c =? lower).

(** [while (len > 1 && isspace(s[len-1])) --len] *)
(* src/convenience/convenience.c:52-52 atofs *)
Fixpoint trimmed (len : nat) (s : list Z) : nat :=
  match len with
  | S (S n as m) => if isspace (default 0 (s !! m)) then trimmed m s else len
  | _ => len
  end.

(** The character [s[len-1]] and the string that ends before it; [before] is
    the character in front of the string, which is what an empty string has
    there. *)
Definition split_last (before : option Z) (s : list Z) (len : nat) : option (Z * list Z) :=
  match len with
  | O => last ← before; Some (last, s)
  | S n => last ← s !! n; Some (last, take n s)
  end.

Section suffixes.
Context `{libc}.

(* src/convenience/convenience.c: atofs *)
Definition atofs (before : option Z) (s : list Z) : option double :=
  '(last, s') ← split_last before s (trimmed (length s) s);
  let k suff := dmul suff (d_of_Z 1000) in
  Some (if is_char last 71 103 then dmul (k (k (k (d_of_Z 1)))) (atof s')
        else if is_char last 77 109 then dmul (k (k (d_of_Z 1))) (atof s')
        else if is_char last 75 107 then dmul (k (d_of_Z 1)) (atof s')
        else atof s).

(* src/convenience/convenience.c: atoft *)
Definition atoft (before : option Z) (s : list Z) : option double :=
  '(last, s') ← split_last before s (length s);
  let m suff := dmul suff (d_of_Z 60) in
  Some (if is_char last 72 104 then dmul (m (m (d_of_Z 1))) (atof s')
        else if is_char last 77 109 then dmul (m (d_of_Z 1)) (atof s')
        else if is_char last 83 115 then dmul (d_of_Z 1) (atof s')
        else atof s).

(* src/convenience/convenience.c: atofp *)
Definition atofp (before : option Z) (s : list Z) : option double :=
  '(last, s') ← split_last before s (length s);
  Some (if last =? 37 then dmul (dmul (d_of_Z 1) (ddiv (d_of_Z 1) (d_of_Z 100))) (atof s') else atof s).
End suffixes.

(** ** Settings *)

(** [err2 < err1]: the better of two gains. *)
(* src/convenience/convenience.c:140-144 nearest_gain *)
Definition nearer (target_gain nearest g : Z) : Z :=
  let err1 := i32 (Z.abs (i32 (target_gain - nearest))) in
  let err2 := i32 (Z.abs (i32 (target_gain - g))) in
  if err2 <? err1 then g else nearest.

(* src/convenience/convenience.c: nearest_gain *)
Definition nearest_gain (target_gain : Z) : M rtlsdr_dev Z :=
  r ← rtlsdr_set_tuner_gain_mode 1;
  if r <? 0 then mret r else
  t ← gets rtlsdr_get_tuner_type;
  match rtlsdr_get_tuner_gains t with
  | [] => mret 0
  | (g0 :: _) as gains => mret (foldl (nearer target_gain) g0 gains)
  end.

(* src/convenience/convenience.c: verbose_set_frequency *)
Definition verbose_set_frequency (frequency : Z) : M rtlsdr_dev Z := rtlsdr_set_center_freq frequency.

(* src/convenience/convenience.c: verbose_set_sample_rate *)
Definition verbose_set_sample_rate (samp_rate : Z) : M rtlsdr_dev Z := rtlsdr_set_sample_rate samp_rate.

(* src/convenience/convenience.c: verbose_direct_sampling *)
Definition verbose_direct_sampling (on : Z) : M rtlsdr_dev Z := rtlsdr_set_direct_sampling on.

(* src/convenience/convenience.c: verbose_offset_tuning *)
Definition verbose_offset_tuning : M rtlsdr_dev Z := rtlsdr_set_offset_tuning 1.

(* src/convenience/convenience.c: verbose_auto_gain *)
Definition verbose_auto_gain : M rtlsdr_dev Z := rtlsdr_set_tuner_gain_mode 0.

(* src/convenience/convenience.c: verbose_gain_set *)
Definition verbose_gain_set (gain : Z) : M rtlsdr_dev Z :=
  r ← rtlsdr_set_tuner_gain_mode 1;
  if r <? 0 then mret r else rtlsdr_set_tuner_gain gain.

(* src/convenience/convenience.c: verbose_ppm_set *)
Definition verbose_ppm_set (ppm_error : Z) : M rtlsdr_dev Z :=
  if ppm_error =? 0 then mret 0 else rtlsdr_set_freq_correction ppm_error.

(* src/convenience/convenience.c: verbose_reset_buffer *)
Definition verbose_reset_buffer : M rtlsdr_dev Z := rtlsdr_reset_buffer.

(** ** Selection of a device *)

(** The buffer [serial] after the strings of the device [i] were asked for. *)
Definition read_serial (b : usb_bus) (i : Z) (serial : list Z) : list Z :=
  match (rtlsdr_get_device_usb_strings b (u32 i)).2 with Some (_, _, s) => chars s | None => serial end.

(** The loop that lists the devices. *)
(* src/convenience/convenience.c:266-269 verbose_device_search *)
Fixpoint list_devices (b : usb_bus) (i : Z) (n : nat) (serial : list Z) : list Z :=
  match n with O => serial | S n => list_devices b (i + 1) n (read_serial b i serial) end.

(** One of the three loops that look for a serial number: the device, and the
    buffer [serial]. *)
(* src/convenience/convenience.c:279-287 verbose_device_search *)
Fixpoint search_loop (b : usb_bus) (matches : list Z -> bool) (i : Z) (n : nat) (serial : list Z) : option Z * list Z :=
  match n with
  | O => (None, serial)
  | S n =>
      let serial := read_serial b i serial in
      if matches serial then (Some i, serial) else search_loop b matches (i + 1) n serial
  end.

(** strcmp and strncmp with the length of [s]. *)
Definition str_eq (s serial : list Z) : bool := bool_decide (s = serial).
Definition is_prefix (s serial : list Z) : bool := bool_decide (take (length s) serial = s).

(* src/convenience/convenience.c:301-304 verbose_device_search *)
Definition is_suffix (s serial : list Z) : bool :=
  let offset := Z.of_nat (length serial) - Z.of_nat (length s) in
  if offset <? 0 then false else is_prefix s (drop (Z.to_nat offset) serial).

(** [junk] is what the buffer [serial] has at first. *)
(* src/convenience/convenience.c: verbose_device_search *)
Definition verbose_device_search (b : usb_bus) (junk s : list Z) : Z :=
  let device_count := rtlsdr_get_device_count b in
  if device_count =? 0 then -1 else
  let n := Z.to_nat device_count in
  let serial := list_devices b 0 n junk in
  (* does string look like raw id number *)
  let '(v, s2) := strtol s in
  let device := i32 v in
  if bool_decide (s2 = []) && (0 <=? device) && (device <? device_count) then device else
  match search_loop b (str_eq s) 0 n serial with
  | (Some i, _) => i
  | (None, serial) =>
      match search_loop b (is_prefix s) 0 n serial with
      | (Some i, _) => i
      | (None, serial) =>
          match search_loop b (is_suffix s) 0 n serial with
          | (Some i, _) => i
          | (None, _) => -1
          end
      end
  end.

(** ** Dates *)

(** [struct tm], without the fields that [str_to_tm] leaves constant. *)
Record tm : Type := mk_tm { tm_sec : Z; tm_min : Z; tm_hour : Z; tm_mday : Z; tm_mon : Z; tm_year : Z }.

(** [n] characters from [k] on; the end of the string can be read. *)
Fixpoint copy_chars (str : list Z) (k : Z) (n : nat) : option (list Z) :=
  match n with O => Some [] | S n => c ← arr_get (str ++ [0]) k; cs ← copy_chars str (k + 1) n; Some (c :: cs) end.

(** The number in the [n] characters from [k] on. *)
Definition number_at (str : list Z) (k : Z) (n : nat) : option Z := b ← copy_chars str k n; Some (atoi (c_string b)).

Definition in_range (lo v hi : Z) : bool := (lo <=? v) && (v <=? hi).

(** [*fraction] after the seconds. *)
(* src/convenience/convenience.c:385-392 str_to_tm *)
Definition fraction_at `{libc} (str : list Z) : option double :=
  c ← arr_get (str ++ [0]) 19;
  Some (if (c =? 46) || (c =? 44) then atof ([48; 46] ++ take 12 (drop 20 str)) else d_of_Z 0).

(** The hour, the minute and the second, when they are in range. *)
(* src/convenience/convenience.c:360-380 str_to_tm *)
Definition time_of_day (str : list Z) : option (option (Z * Z * Z)) :=
  c13 ← arr_get (str ++ [0]) 13;
  if negb ((c13 =? 58) || (c13 =? 47)) then Some None else
  c16 ← arr_get (str ++ [0]) 16;
  if negb (c13 =? c16) then Some None else
  h ← number_at str 11 2;
  if negb (in_range 0 h 23) then Some None else
  m ← number_at str 14 2;
  if negb (in_range 0 m 59) then Some None else
  s ← number_at str 17 2;
  if negb (in_range 0 s 61) then Some None else Some (Some (h, m, s)).

(** The year, the month and the day, when they are in range. *)
(* src/convenience/convenience.c:334-352 str_to_tm *)
Definition date (str : list Z) : option (option (Z * Z * Z)) :=
  c4 ← arr_get (str ++ [0]) 4;
  if negb ((c4 =? 45) || (c4 =? 47)) then Some None else
  c7 ← arr_get (str ++ [0]) 7;
  if negb (c4 =? c7) then Some None else
  y ← number_at str 0 4;
  m ← number_at str 5 2;
  if negb (in_range 1 m 12) then Some None else
  d ← number_at str 8 2;
  if negb (in_range 1 d 31) then Some None else Some (Some (y - 1900, m - 1, d)).

(** The time, or nothing for NULL, and [*fraction]. *)
(* src/convenience/convenience.c: str_to_tm *)
Definition str_to_tm `{libc} (str : list Z) : option (option tm * double) :=
  let zero := d_of_Z 0 in
  r ← date str;
  match r with
  | None => Some (None, zero)
  | Some (y, mo, d) =>
      c10 ← arr_get (str ++ [0]) 10;
      if c10 =? 0 then Some (Some (mk_tm 0 0 0 d mo y), zero) else
      if negb ((c10 =? 84) || (c10 =? 32) || (c10 =? 95)) then Some (None, zero) else
      r ← time_of_day str;
      match r with
      | None => Some (None, zero)
      | Some (h, mi, s) => f ← fraction_at str; Some (Some (mk_tm s mi h d mo y), f)
      end
  end.

(** timegm of the C library: the seconds since 1970, without leap seconds; the
    fields may be out of their ranges, but for the month. *)
Definition leap (y : Z) : bool := ((y mod 4 =? 0) && negb (y mod 100 =? 0)) || (y mod 400 =? 0).
Definition days_before_year (y : Z) : Z := 365 * (y - 1) + (y - 1) / 4 - (y - 1) / 100 + (y - 1) / 400.
Definition days_before_month (y m : Z) : Z :=
  default 0 (arr_get [0; 31; 59; 90; 120; 151; 181; 212; 243; 273; 304; 334] m) + (if leap y && (2 <=? m) then 1 else 0).
Definition timegm (t : tm) : Z :=
  let y := tm_year t + 1900 in
  let days := days_before_year y - days_before_year 1970 + days_before_month y (tm_mon t) + tm_mday t - 1 in
  ((days * 24 + tm_hour t) * 60 + tm_min t) * 60 + tm_sec t.

(* src/convenience/convenience.c: utctimestr_to_time *)
Definition utctimestr_to_time `{libc} (str : list Z) : option (Z * double) :=
  '(t, f) ← str_to_tm str; Some (match t with Some t => timegm t | None => 0 end, f).

(** ** Programs in the background *)

(** The tokens of strtok with the delimiter [d]; [word] is what there is of the
    first one. *)
Fixpoint tokens (d : Z) (s word : list Z) : list (list Z) :=
  match s with
  | [] => if bool_decide (word = []) then [] else [word]
  | c :: s' =>
      if c =? d then (if bool_decide (word = []) then tokens d s' [] else word :: tokens d s' [])
      else tokens d s' (word ++ [c])
  end.

Definition words : list Z -> list Z -> list (list Z) := tokens 32.

(* src/convenience/convenience.c:462-467 executeInBackground *)
Fixpoint replaced (searchStr replaceStr : list (list Z)) (arg : list Z) : list Z :=
  match searchStr, replaceStr with
  | s :: searchStr', r :: replaceStr' => if bool_decide (arg = s) then r else replaced searchStr' replaceStr' arg
  | _, _ => arg
  end.

(** [argv] from the word after the first on. *)
(* src/convenience/convenience.c:460-468 executeInBackground *)
Fixpoint args_loop (searchStr replaceStr : list (list Z)) (ws : list (list Z)) (argc : Z) (argv : list (option (list Z))) :
    option (list (option (list Z))) :=
  a ← (if argc <? 256 then arr_get argv argc else Some None);
  match a, ws with
  | None, _ => Some argv
  | Some _, [] => arr_set argv (argc + 1) None
  | Some _, w :: ws' =>
      argv ← arr_set argv (argc + 1) (Some (replaced searchStr replaceStr w));
      args_loop searchStr replaceStr ws' (argc + 1) argv
  end.

(** The arguments that the program is started with. *)
(* src/convenience/convenience.c:455-469 executeInBackground *)
Definition background_argv (file : list Z) (args : option (list Z)) (searchStr replaceStr : list (list Z)) :
    option (list (option (list Z))) :=
  argv ← arr_set (replicate 256 None) 0 (Some file);
  match args with
  | None => Some argv
  | Some args =>
      let ws := words args [] in
      argv ← arr_set argv 1 (head ws);
      args_loop searchStr replaceStr (tail ws) 1 argv
  end.
