(* ===== verification/ConvenienceSpec.v ===== *)
(** * The convenience functions: their results

    The gain chosen, the device found by a number or a serial, dates read back,
    and the words of a command line. *)

From S2P Require Import Prelude Arrays Double Usb Device Repeater DeviceInv DeviceSession Enumerate Convenience.

(** ** The nearest gain *)

Lemma nearer_spec t a b :
  Z.abs t < 2 ^ 30 -> Z.abs a < 2 ^ 30 -> Z.abs b < 2 ^ 30 ->
  nearer t a b = if Z.abs (t - b) <? Z.abs (t - a) then b else a.
Proof.
  intros Ht Ha Hb. unfold nearer. cbv zeta.
  rewrite !(i32_small (t - _)) by (unfold is_i32; lia). by rewrite !i32_small by (unfold is_i32; lia).
Qed.

Lemma nearest_fold t gains : Z.abs t < 2 ^ 30 -> forall a,
  Forall (fun g => Z.abs g < 2 ^ 30) (a :: gains) ->
  let v := foldl (nearer t) a gains in
  v ∈ a :: gains /\ Forall (fun g => Z.abs (t - v) <= Z.abs (t - g)) (a :: gains).
Proof.
  intros Ht. induction gains as [|b gains IH]; intros a Hg; cbv zeta; cbn [foldl].
  { split; [by apply list_elem_of_singleton|]. by repeat constructor. }
  apply Forall_cons in Hg as [Ha Hg]. apply Forall_cons in Hg as [Hb Hg].
  rewrite nearer_spec by done. set (c := if Z.abs (t - b) <? Z.abs (t - a) then b else a).
  destruct (IH c) as [Hin Hall]; [constructor; [unfold c; by destruct (_ <? _)|done]|]. cbv zeta in *.
  set (v := foldl (nearer t) c gains) in *. apply Forall_cons in Hall as [Hc Hall].
  split.
  - apply elem_of_cons in Hin as [E|Hin]; [|rewrite !elem_of_cons in *; tauto]. rewrite E. unfold c. destruct (Z.abs (t - b) <? _); rewrite !elem_of_cons; auto.
  - constructor; [|constructor; [|done]]; unfold c in Hc; destruct (Z.ltb_spec (Z.abs (t - b)) (Z.abs (t - a))); lia.
Qed.

Lemma tuner_gains_small t : Forall (fun g => Z.abs g < 2 ^ 30) (rtlsdr_get_tuner_gains t).
Proof. destruct t; by_compute. Qed.

(** The gain that [nearest_gain] picks for an open device (the device stays
    usable): the error when the manual mode is refused, else a gain of the
    tuner's table, and none of the table is nearer to the target. *)
Theorem nearest_gain_best (target : Z) (d : rtlsdr_dev) :
  Z.abs target < 2 ^ 30 -> dev_ok d ->
  wp (nearest_gain target) (fun v d' => dev_ok d' /\ exists r, rtlsdr_set_tuner_gain_mode 1 d = Some (r, d') /\
    let gains := rtlsdr_get_tuner_gains (rtlsdr_get_tuner_type d') in
    if r <? 0 then v = r else v ∈ gains /\ Forall (fun g => Z.abs (target - v) <= Z.abs (target - g)) gains) d.
Proof.
  intros Ht Hd. unfold nearest_gain. apply wp_bind.
  pose proof (set_tuner_gain_mode_ok 1 d Hd) as Hok. destruct (wp_inv _ _ _ Hok) as (r & d' & E & Hd').
  apply (wp_eq _ _ _ r d' E). destruct (Z.ltb_spec r 0) as [Hr|Hr].
  - apply wp_ret. split; [done|]. exists r. split; [done|]. by replace (r <? 0) with true by lia.
  - apply wp_bind, wp_gets. pose proof (tuner_gains_small (rtlsdr_get_tuner_type d')) as Hs.
    pose proof (nearest_fold target) as Hf.
    destruct (rtlsdr_get_tuner_gains (rtlsdr_get_tuner_type d')) as [|g gains] eqn:Eg.
    { by destruct (rtlsdr_get_tuner_type d'). }
    apply wp_ret. split; [done|]. exists r. split; [done|]. cbv zeta. replace (r <? 0) with false by lia. rewrite Eg.
    assert (foldl (nearer target) g (g :: gains) = foldl (nearer target) g gains) as ->
      by (cbn [foldl]; f_equal; unfold nearer; cbv zeta; by destruct (_ <? _)).
    apply Forall_cons in Hs as Hs'. by apply Hf.
Qed.

Lemma nearest_gain_best_witness :
  wp (nearest_gain 200) (fun v d' => dev_ok d' /\ exists r, rtlsdr_set_tuner_gain_mode 1 stuck_dev = Some (r, d') /\
    let gains := rtlsdr_get_tuner_gains (rtlsdr_get_tuner_type d') in
    if r <? 0 then v = r else v ∈ gains /\ Forall (fun g => Z.abs (200 - v) <= Z.abs (200 - g)) gains) stuck_dev.
Proof. refine (nearest_gain_best 200 stuck_dev _ stuck_dev_ok). reflexivity. Defined.

(** ** Devices by serial number *)

(** The serial numbers of the dongles, when all of them can be read. *)
Definition serials (b : usb_bus) (ss : list string) : Prop :=
  0 <= init_rc b /\ Z.of_nat (length (device_list b)) < 2 ^ 31 /\ Forall2 (fun d s => serial_of d = Some s) (known_of (device_list b)) ss.

Lemma serials_short b ss : serials b ss -> length (known_of (device_list b)) = length ss /\ Z.of_nat (length ss) < 2 ^ 31.
Proof.
  intros (_ & Hn & Hs). pose proof (Forall2_length _ _ _ Hs).
  pose proof (length_filter (fun d => is_Some (known d)) (device_list b)) as Hle.
  fold (known_of (device_list b)) in Hle. lia.
Qed.

Lemma read_serial_known b ss i serial s :
  serials b ss -> 0 <= i -> ss !! Z.to_nat i = Some s -> read_serial b i serial = chars s.
Proof.
  intros (Hr & Hn & Hs) Hi Hlk. destruct (Forall2_lookup_r _ _ _ _ _ Hs Hlk) as (d & Hd & Hser).
  apply lookup_lt_Some in Hlk. pose proof (serials_short _ _ (conj Hr (conj Hn Hs))). unfold read_serial. rewrite u32_small by (unfold is_u32; lia).
  rewrite (usb_strings_known b i d) by (done || lia). unfold serial_of in Hser.
  destruct (strings_of d) as [[|?|?] [[[m p] ser]|]]; try done. by injection Hser as ->.
Qed.

Lemma search_loop_spec b all (matches : list Z -> bool) : serials b all -> forall ss i serial,
  0 <= i -> drop (Z.to_nat i) all = ss ->
  (search_loop b matches i (length ss) serial).1 =
    match list_find (fun s => matches (chars s) = true) ss with Some (j, _) => Some (i + Z.of_nat j) | None => None end.
Proof.
  intros Hall. induction ss as [|s ss IH]; intros i serial Hi Hd; cbn [search_loop length list_find]; [done|].
  assert (Hs : all !! Z.to_nat i = Some s) by (rewrite <- (Nat.add_0_r (Z.to_nat i)), <- lookup_drop, Hd; done).
  rewrite (read_serial_known b all i serial s) by done. destruct (decide (matches (chars s) = true)) as [E|E].
  - rewrite E. cbn [fst]. f_equal. lia.
  - apply not_true_is_false in E. rewrite E, IH; [|lia|].
    + destruct (list_find _ ss) as [[j s']|]; cbn; [f_equal; lia|done].
    + replace (Z.to_nat (i + 1)) with (Z.to_nat i + 1)%nat by lia. by rewrite <- drop_drop, Hd.
Qed.

Definition first_match (ss : list string) (matches : list Z -> bool) : option Z :=
  match list_find (fun s => matches (chars s) = true) ss with Some (j, _) => Some (Z.of_nat j) | None => None end.

(** When all serial numbers can be read, [verbose_device_search] takes a
    number below the number of devices as an index; else the first device with
    that serial number, else the first whose serial number starts with it, else
    the first whose serial number ends with it; -1 for none of these. *)
Theorem device_search_spec (b : usb_bus) (junk s : list Z) (ss : list string) :
  serials b ss ->
  let number := i32 (strtol s).1 in
  verbose_device_search b junk s =
    if bool_decide (ss = []) then -1
    else if bool_decide ((strtol s).2 = []) && (0 <=? number) && (number <? Z.of_nat (length ss)) then number
    else match first_match ss (str_eq s), first_match ss (is_prefix s), first_match ss (is_suffix s) with
         | Some i, _, _ => i
         | None, Some i, _ => i
         | None, None, Some i => i
         | None, None, None => -1
         end.
Proof.
  intros Hs. cbv zeta. pose proof Hs as (Hr & Hn & Hf). destruct (serials_short b ss Hs) as [Hlen Hss].
  assert (Hc : rtlsdr_get_device_count b = Z.of_nat (length ss)).
  { unfold rtlsdr_get_device_count. replace (init_rc b <? 0) with false by lia.
    rewrite count_loop_spec by lia. lia. }
  unfold verbose_device_search. cbv zeta. rewrite Hc, Nat2Z.id.
  destruct ss as [|s0 ss']; [done|]. rewrite (bool_decide_false (s0 :: ss' = [])) by done.
  replace (Z.of_nat (length (s0 :: ss')) =? 0) with false by (cbn [length]; lia).
  destruct (strtol s) as [v s2]. cbn [fst snd]. destruct (bool_decide _ && _ && _); [done|].
  set (serial := list_devices _ _ _ _). clearbody serial.
  assert (H : forall m serial, exists serial', search_loop b m 0 (length (s0 :: ss')) serial = (first_match (s0 :: ss') m, serial')).
  { intros m ser. exists (search_loop b m 0 (length (s0 :: ss')) ser).2. rewrite <- (search_loop_spec b _ m Hs (s0 :: ss') 0 ser) at 1 by done.
    by destruct (search_loop _ _ _ _ _). }
  destruct (H (str_eq s) serial) as (ser1 & ->). destruct (first_match _ (str_eq s)); [done|].
  destruct (H (is_prefix s) ser1) as (ser2 & ->). destruct (first_match _ (is_prefix s)); [done|].
  destruct (H (is_suffix s) ser2) as (ser3 & ->). by destruct (first_match _ (is_suffix s)).
Qed.

Lemma device_search_spec_witness :
  let number := i32 (strtol (chars "02")).1 in
  verbose_device_search desk [] (chars "02") =
    if bool_decide (["00000001"; "00000002"]%string = []) then -1
    else if bool_decide ((strtol (chars "02")).2 = []) && (0 <=? number) && (number <? Z.of_nat (length ["00000001"; "00000002"]%string)) then number
    else match first_match ["00000001"; "00000002"] (str_eq (chars "02")), first_match ["00000001"; "00000002"] (is_prefix (chars "02")),
      first_match ["00000001"; "00000002"] (is_suffix (chars "02")) with
         | Some i, _, _ => i
         | None, Some i, _ => i
         | None, None, Some i => i
         | None, None, None => -1
         end.
Proof.
  refine (device_search_spec desk [] (chars "02") ["00000001"; "00000002"]%string _).
  split; [discriminate|]. split; [reflexivity|]. repeat constructor.
Defined.

(** "02" is not a device number here, it ends the second serial number; "08"
    is no octal number, so it is no device number either. *)
Lemma device_search_desk :
  verbose_device_search desk [] (chars "02") = 1 /\ verbose_device_search desk [] (chars "00") = 0 /\
  verbose_device_search desk [] (chars "0002") = 1 /\ verbose_device_search desk [] (chars "9") = -1.
Proof. vm_compute. done. Qed.

(** A device whose strings cannot be read is taken for the one that was read
    before it: the first dongle here is busy, and the serial number of the
    second finds it. *)
Lemma device_search_stale :
  let bus := mk_bus 0 [mk_usb_device 0x0bda 0x2838 (-3) 0 ("Realtek", "RTL2838UHIDIR", "00000001");
                       mk_usb_device 0x0ccd 0x00b3 0 0 ("Terratec", "NOXON", "00000077")] in
  verbose_device_search bus [] (chars "00000077") = 0 /\ rtlsdr_get_index_by_serial bus "00000077" "" = 1.
Proof. vm_compute. done. Qed.

(** ** Dates *)

Definition is_digit (d : Z) : Prop := 0 <= d <= 9.

(** The digits of [n], [k] of them. *)
Fixpoint decimal (k : nat) (n : Z) : list Z :=
  match k with O => [] | S k => decimal k (n / 10) ++ [48 + n mod 10] end.

Lemma digit_value_char d : is_digit d -> digit_value (48 + d) = Some d.
Proof.
  intros Hd. unfold is_digit, digit_value, isdigit in *. replace ((48 <=? 48 + d) && (48 + d <=? 57)) with true by lia.
  f_equal. lia.
Qed.

Lemma digits_app ds : forall acc rest, Forall (fun c => exists d, is_digit d /\ c = 48 + d) ds ->
  digits 10 acc (ds ++ rest) = digits 10 (fold_left (fun a c => a * 10 + (c - 48)) ds acc) rest.
Proof.
  induction ds as [|c ds IH]; intros acc rest Hds; [done|]. apply Forall_cons in Hds as [(d & Hd & ->) Hds].
  cbn [app digits fold_left]. rewrite digit_value_char by done. unfold is_digit in Hd.
  replace (d <? 10) with true by lia. rewrite IH by done. do 3 f_equal. lia.
Qed.

Lemma decimal_chars k n : Forall (fun c => exists d, is_digit d /\ c = 48 + d) (decimal k n).
Proof.
  revert n. induction k as [|k IH]; intros n; cbn [decimal]; [done|]. apply Forall_app. split; [done|].
  constructor; [|done]. exists (n mod 10). split; [|done]. pose proof (Z.mod_pos_bound n 10). unfold is_digit. lia.
Qed.

Lemma decimal_value k : forall n, 0 <= n < 10 ^ Z.of_nat k ->
  fold_left (fun a c => a * 10 + (c - 48)) (decimal k n) 0 = n.
Proof.
  induction k as [|k IH]; intros n Hn; cbn [decimal]; [cbn in *; lia|].
  rewrite Nat2Z.inj_succ, Z.pow_succ_r in Hn by lia. rewrite fold_left_app, IH.
  - cbn [fold_left]. pose proof (Z.div_mod n 10). lia.
  - split; [apply Z.div_pos; lia|apply Z.div_lt_upper_bound; lia].
Qed.

Lemma atoi_decimal k n : (k <> 0)%nat -> (k <= 9)%nat -> 0 <= n < 10 ^ Z.of_nat k -> atoi (decimal k n) = n.
Proof.
  intros Hk0 Hk Hn. pose proof (decimal_chars k n) as Hc. pose proof (decimal_value k n Hn) as Hv.
  assert (n < 10 ^ 9) by (assert (10 ^ Z.of_nat k <= 10 ^ 9) by (apply Z.pow_le_mono_r; lia); lia).
  assert (He : decimal k n <> []) by (destruct k; [done|]; cbn [decimal]; by intros [_ ?]%app_nil).
  destruct (decimal k n) as [|c ds] eqn:E; [done|]. apply Forall_cons in Hc as Hc'. destruct Hc' as [(d & Hd & ->) _].
  unfold atoi. unfold is_digit in Hd. cbn [skip_space]. unfold isspace.
  replace ((48 + d =? 32) || ((9 <=? 48 + d) && (48 + d <=? 13))) with false by lia. cbn [sign].
  replace (48 + d =? 45) with false by lia. replace (48 + d =? 43) with false by lia.
  rewrite <- (app_nil_r (48 + d :: ds)), digits_app by done. rewrite Hv. cbn [digits fst].
  assert (clamp_long n = n) as -> by (unfold clamp_long; lia). apply i32_small. unfold is_i32. lia.
Qed.

(** A date and a time as "2019-09-15T01:53:20". *)
Definition iso (t : tm) : list Z :=
  decimal 4 (tm_year t + 1900) ++ [45] ++ decimal 2 (tm_mon t + 1) ++ [45] ++ decimal 2 (tm_mday t) ++ [84] ++
  decimal 2 (tm_hour t) ++ [58] ++ decimal 2 (tm_min t) ++ [58] ++ decimal 2 (tm_sec t).

Definition tm_ok (t : tm) : Prop :=
  0 <= tm_year t + 1900 <= 9999 /\ 0 <= tm_mon t <= 11 /\ 1 <= tm_mday t <= 31 /\
  0 <= tm_hour t <= 23 /\ 0 <= tm_min t <= 59 /\ 0 <= tm_sec t <= 61.

Lemma copy_chars_take str k n : (k + n <= length str)%nat ->
  copy_chars str (Z.of_nat k) n = Some (take n (drop k str)).
Proof.
  revert k. induction n as [|n IH]; intros k Hk; [done|]. cbn [copy_chars].
  destruct (lookup_lt_is_Some_2 str k ltac:(lia)) as [c Hc].
  rewrite arr_get_nat, lookup_app_l, Hc by lia. cbn [mbind option_bind].
  replace (Z.of_nat k + 1) with (Z.of_nat (S k)) by lia. rewrite IH by lia. cbn [mbind option_bind].
  by rewrite (drop_S _ _ _ Hc).
Qed.

Lemma c_string_digits l : Forall (fun c => exists d, is_digit d /\ c = 48 + d) l -> c_string l = l.
Proof.
  induction l as [|c l IH]; intros Hl; [done|]. apply Forall_cons in Hl as [(d & Hd & ->) Hl]. cbn [c_string].
  unfold is_digit in Hd. replace (48 + d =? 0) with false by lia. by rewrite IH.
Qed.

(** A number of the date, given what is before and behind it. *)
Lemma number_at_spec str pre k n post (at_ : Z) :
  str = pre ++ decimal k n ++ post -> at_ = Z.of_nat (length pre) -> (k <> 0)%nat -> (k <= 9)%nat -> 0 <= n < 10 ^ Z.of_nat k ->
  number_at str at_ k = Some n.
Proof.
  intros -> -> Hk0 Hk Hn. unfold number_at.
  assert (Hl : length (decimal k n) = k).
  { clear. revert n. induction k as [|k IH]; intros n; cbn [decimal]; [done|]. rewrite length_app, IH. cbn. lia. }
  rewrite copy_chars_take by (rewrite !length_app; lia). rewrite drop_app_length. cbn [mbind option_bind].
  rewrite <- Hl at 1. rewrite take_app_length, c_string_digits by apply decimal_chars. by rewrite atoi_decimal.
Qed.

(** A date is read back: the text "YYYY-MM-DDThh:mm:ss" of a time whose
    fields are in range gives these fields, with a fraction of 0. *)
Theorem str_to_tm_iso `{libc} (t : tm) : tm_ok t -> str_to_tm (iso t) = Some (Some t, d_of_Z 0).
Proof.
  destruct t as [s mi h d mo y]. intros (Hy & Hmo & Hd & Hh & Hmi & Hs).
  cbn [tm_sec tm_min tm_hour tm_mday tm_mon tm_year] in Hy, Hmo, Hd, Hh, Hmi, Hs.
  unfold str_to_tm, date, time_of_day. cbv zeta. set (str := iso (mk_tm s mi h d mo y)).
  change (arr_get (str ++ [0]) 4) with (Some 45). change (arr_get (str ++ [0]) 7) with (Some 45).
  change (arr_get (str ++ [0]) 10) with (Some 84). change (arr_get (str ++ [0]) 13) with (Some 58).
  change (arr_get (str ++ [0]) 16) with (Some 58). unfold fraction_at. change (arr_get (str ++ [0]) 19) with (Some 0).
  cbn [mbind option_bind]. cbn [Z.eqb Pos.eqb orb negb].
  rewrite (number_at_spec str [] 4 (y + 1900) (drop 4 str) 0) by (done || cbn; lia).
  rewrite (number_at_spec str (take 5 str) 2 (mo + 1) (drop 7 str) 5) by (done || cbn; lia).
  rewrite (number_at_spec str (take 8 str) 2 d (drop 10 str) 8) by (done || cbn; lia).
  rewrite (number_at_spec str (take 11 str) 2 h (drop 13 str) 11) by (done || cbn; lia).
  rewrite (number_at_spec str (take 14 str) 2 mi (drop 16 str) 14) by (done || cbn; lia).
  rewrite (number_at_spec str (take 17 str) 2 s (drop 19 str) 17) by (done || cbn; lia).
  cbn [mbind option_bind]. unfold in_range.
  repeat match goal with |- context [negb ((?a <=? ?b) && (?b <=? ?c))] =>
    replace ((a <=? b) && (b <=? c)) with true by lia; cbn [negb mbind option_bind] end.
  cbn. do 4 f_equal; lia.
Qed.

Lemma str_to_tm_iso_witness :
  @str_to_tm (mk_libc (fun _ => d_of_Z 0)) (iso (mk_tm 20 53 1 15 8 119)) = Some (Some (mk_tm 20 53 1 15 8 119), d_of_Z 0).
Proof. refine (@str_to_tm_iso (mk_libc (fun _ => d_of_Z 0)) (mk_tm 20 53 1 15 8 119) _). unfold tm_ok; cbn; lia. Defined.

Lemma iso_text : iso (mk_tm 20 53 1 15 8 119) = chars "2019-09-15T01:53:20".
Proof. reflexivity. Qed.

(** 15 September 2019, 1:53:20, and the first second. *)
Lemma timegm_dates : timegm (mk_tm 20 53 1 15 8 119) = 1568512400 /\ timegm (mk_tm 0 0 0 1 0 70) = 0 /\ timegm (mk_tm 0 0 0 29 1 100) = 951782400.
Proof. done. Qed.

(** A day of one digit: the character after the end is looked at. *)
Lemma short_date_read_past_end `{libc} : str_to_tm (chars "2019-09-1") = None.
Proof. reflexivity. Qed.

(** ** Command lines *)

(** The words behind the first are looked up, the first is not. *)
Lemma first_word_kept :
  background_argv (chars "p") (Some (chars "%f %f")) [chars "%f"] [chars "98500000"] =
    Some ([Some (chars "p"); Some (chars "%f"); Some (chars "98500000")] ++ replicate 253 None).
Proof. vm_compute. reflexivity. Qed.

(** A command line of 255 words is stored past the end of [argv]: one of 254
    words is the longest. *)
Lemma background_argv_overflow :
  background_argv (chars "p") (Some (concat (replicate 255 (chars "a ")))) [] [] = None /\
  is_Some (background_argv (chars "p") (Some (concat (replicate 254 (chars "a ")))) [] []).
Proof. split; [vm_compute; reflexivity|]. vm_compute. by eexists. Qed.
