(* ===== verification/RtlEeprom.v ===== *)
(** * rtl_eeprom.c: the configuration in the EEPROM

    The program reads the 256 bytes of the EEPROM, takes the configuration out
    of them ([parse_eeprom_to_conf]), changes it and puts it back
    ([gen_eeprom_from_conf]).  An access outside the buffer has no value. *)

From S2P Require Import Prelude Arrays.

Definition EEPROM_SIZE := 256.
Definition MAX_STR_SIZE := 256.
Definition STR_OFFSET := 0x09.

(** A string is the list of its characters, as bytes, before the end. *)
(* src/rtl_eeprom.c: rtlsdr_config_t *)
Record rtlsdr_config : Type := mk_conf {
  vendor_id : Z;
  product_id : Z;
  manufacturer : list Z;
  product : list Z;
  serial : list Z;
  have_serial : Z;
  enable_bt : Z;
  remote_wakeup : Z;
}.

#[export] Instance config_eq_dec : EqDecision rtlsdr_config.
Proof. solve_decision. Defined.

(** ** Reading *)

(** [for (i = 2; i < len; i += 2)] from [i] on: the characters and the final
    [i]. *)
(* src/rtl_eeprom.c:101-102 get_string_descriptor *)
Fixpoint get_chars (fuel : nat) (data : list Z) (pos len i : Z) : option (list Z * Z) :=
  match fuel with
  | O => None
  | S fuel =>
      if i <? len then
        c ← arr_get data (pos + i);
        '(str, j) ← get_chars fuel data pos len (i + 2);
        Some (c :: str, j)
      else Some ([], i)
  end.

(** The position after the string, and the string. *)
(* src/rtl_eeprom.c: get_string_descriptor *)
Definition get_string_descriptor (pos : Z) (data : list Z) : option (Z * list Z) :=
  len ← arr_get data pos;
  _ ← arr_get data (pos + 1);
  '(str, i) ← get_chars 128 data pos len 2;
  Some (pos + i, c_string str).

(* src/rtl_eeprom.c: parse_eeprom_to_conf *)
Definition parse_eeprom_to_conf (dat : list Z) : option rtlsdr_config :=
  d2 ← arr_get dat 2; d3 ← arr_get dat 3; d4 ← arr_get dat 4; d5 ← arr_get dat 5;
  d6 ← arr_get dat 6; d7 ← arr_get dat 7;
  '(pos, m) ← get_string_descriptor STR_OFFSET dat;
  '(pos, p) ← get_string_descriptor pos dat;
  '(_, s) ← get_string_descriptor pos dat;
  Some (mk_conf (u16 (d2 .| (d3 ≪ 8))) (u16 (d4 .| (d5 ≪ 8))) m p s
          (if d6 =? 0xa5 then 1 else 0)
          (if truthy (d7 .& 0x02) then 1 else 0)
          (if truthy (d7 .& 0x01) then 1 else 0)).

(** ** Writing *)

(** The loop over the characters: the buffer, and [j] or the error. *)
(* src/rtl_eeprom.c:118-125 set_string_descriptor *)
Fixpoint set_chars (data : list Z) (pos j : Z) (str : list Z) : option (list Z * option Z) :=
  match str with
  | [] => Some (data, Some j)
  | c :: str' =>
      if 78 <=? pos + j then Some (data, None)
      else
        data ← arr_set data (pos + j) (u8 c);
        data ← arr_set data (pos + (j + 1)) 0x00;
        set_chars data pos (j + 2) str'
  end.

(** The result, and the buffer. *)
(* src/rtl_eeprom.c: set_string_descriptor *)
Definition set_string_descriptor (pos : Z) (data : list Z) (str : list Z) : option (Z * list Z) :=
  if pos <? 0 then Some (-1, data) else
  data ← arr_set data (pos + 1) 0x03;
  '(data, r) ← set_chars data pos 2 (c_string str);
  match r with
  | None => Some (-1, data)
  | Some j => data ← arr_set data pos (u8 j); Some (pos + j, data)
  end.

(** Consecutive assignments from [i] on. *)
Fixpoint arr_sets (data : list Z) (i : Z) (vals : list Z) : option (list Z) :=
  match vals with [] => Some data | v :: vals' => data ← arr_set data i v; arr_sets data (i + 1) vals' end.

(* src/rtl_eeprom.c: gen_eeprom_from_conf *)
Definition gen_eeprom_from_conf (conf : rtlsdr_config) (dat : list Z) : option (Z * list Z) :=
  dat ← arr_sets dat 0
    [0x28; 0x32; vendor_id conf .& 0xff; (vendor_id conf ≫ 8) .& 0xff;
     product_id conf .& 0xff; (product_id conf ≫ 8) .& 0xff;
     if truthy (have_serial conf) then 0xa5 else 0x00;
     (0x14 .| (if truthy (remote_wakeup conf) then 0x01 else 0x00)) .| (if truthy (enable_bt conf) then 0x02 else 0x00);
     0x02];
  '(pos, dat) ← set_string_descriptor STR_OFFSET dat (manufacturer conf);
  '(pos, dat) ← set_string_descriptor pos dat (product conf);
  '(pos, dat) ← set_string_descriptor pos dat (serial conf);
  (* length of IR config *)
  dat ← arr_set dat 78 0x00;
  Some (pos, dat).

(** ** Default configurations *)

(* src/rtl_eeprom.c: configs *)
Inductive configs : Type := CONF_NONE | REALTEK | REALTEK_EEPROM | TERRATEC_NOXON | TERRATEC_T_BLACK | TERRATEC_T_PLUS.

(* src/rtl_eeprom.c: gen_default_conf *)
Definition gen_default_conf (conf : rtlsdr_config) (config : configs) : rtlsdr_config :=
  match config with
  | REALTEK => mk_conf 0x0bda 0x2832 (chars "Generic") (chars "RTL2832U DVB-T") (chars "0") 1 0 1
  | REALTEK_EEPROM => mk_conf 0x0bda 0x2838 (chars "Realtek") (chars "RTL2838UHIDIR") (chars "00000001") 1 1 0
  | TERRATEC_NOXON => mk_conf 0x0ccd 0x00b3 (chars "NOXON") (chars "DAB Stick") (chars "0") 1 0 1
  | TERRATEC_T_BLACK => mk_conf 0x0ccd 0x00a9 (chars "Realtek") (chars "RTL2838UHIDIR") (chars "00000001") 1 1 0
  | TERRATEC_T_PLUS => mk_conf 0x0ccd 0x00d7 (chars "Realtek") (chars "RTL2838UHIDIR") (chars "00000001") 1 1 0
  | CONF_NONE => conf
  end.

(** ** The program *)

(** The options: the strings, and [enable_bt] of option -b (0 without it). *)
Record options : Type := mk_options {
  opt_manuf : option (list Z);
  opt_product : option (list Z);
  opt_serial : option (list Z);
  opt_bt : Z;
  opt_config : configs;
  opt_file : option (list Z);
}.

(** strncpy of at most 255 characters, into an array that ends with NUL. *)
Definition copied (o : option (list Z)) (old : list Z) : list Z :=
  match o with Some s => take (Z.to_nat (MAX_STR_SIZE - 1)) (c_string s) | None => old end.

(* src/rtl_eeprom.c:373-393 main *)
Definition edit_conf (o : options) (conf : rtlsdr_config) : rtlsdr_config :=
  let conf :=
    mk_conf (vendor_id conf) (product_id conf) (copied (opt_manuf o) (manufacturer conf))
      (copied (opt_product o) (product conf)) (copied (opt_serial o) (serial conf))
      (match opt_serial o with Some _ => 1 | None => have_serial conf end)
      (if opt_bt o =? 0 then enable_bt conf else if 0 <? opt_bt o then 1 else 0) (remote_wakeup conf) in
  gen_default_conf conf (opt_config o).

(** The bytes to write, from those read; [None] is no write.  With a file its
    contents are written, 256 bytes; otherwise 128. *)
(* src/rtl_eeprom.c:352-412 main *)
Definition new_contents (o : options) (buf : list Z) : option (option (list Z)) :=
  conf ← parse_eeprom_to_conf buf;
  let conf := edit_conf o conf in
  match opt_file o with
  | Some file => Some (Some (take (Z.to_nat EEPROM_SIZE) (take (Z.to_nat EEPROM_SIZE) file ++ drop (length file) buf)))
  | None =>
      '(pos, dat) ← gen_eeprom_from_conf conf buf;
      if pos <? 0 then Some None else
      (* the new configuration is shown *)
      _ ← parse_eeprom_to_conf dat;
      Some (Some (take 128 dat))
  end.

(** ** Round trip *)

(** The bytes of a string descriptor. *)
Fixpoint utf16 (str : list Z) : list Z := match str with [] => [] | c :: str' => u8 c :: 0 :: utf16 str' end.
Definition descriptor (str : list Z) : list Z := u8 (2 + 2 * Z.of_nat (length str)) :: 0x03 :: utf16 str.

Definition no_nul (str : list Z) : Prop := Forall (fun c => is_u8 c /\ c <> 0) str.

Lemma c_string_no_nul str : no_nul str -> c_string str = str.
Proof.
  induction 1 as [|c str [_ Hc] _ IH]; [done|]. cbn [c_string]. replace (c =? 0) with false by lia. by rewrite IH.
Qed.

Lemma length_utf16 str : length (utf16 str) = (2 * length str)%nat.
Proof. induction str; cbn [utf16 length]; lia. Qed.

(** [data] with [vals] from [i] on. *)
Definition spliced (data : list Z) (i : Z) (vals : list Z) : list Z := list_inserts (Z.to_nat i) vals data.

Lemma inserts_cons data i v vals :
  0 <= i -> spliced (<[Z.to_nat i := v]> data) (i + 1) vals = spliced data i (v :: vals).
Proof.
  intros Hi. unfold spliced. cbn [list_inserts]. replace (Z.to_nat (i + 1)) with (S (Z.to_nat i)) by lia.
  symmetry. apply list_insert_inserts_lt. lia.
Qed.

Lemma length_spliced data i vals : length (spliced data i vals) = length data.
Proof. apply length_inserts. Qed.

Lemma spliced_app data i v1 v2 :
  0 <= i -> spliced (spliced data i v1) (i + Z.of_nat (length v1)) v2 = spliced data i (v1 ++ v2).
Proof.
  intros Hi. unfold spliced. rewrite list_inserts_app_l. f_equal. lia.
Qed.

Lemma arr_sets_spec vals : forall data i,
  0 <= i -> i + Z.of_nat (length vals) <= Z.of_nat (length data) -> arr_sets data i vals = Some (spliced data i vals).
Proof.
  induction vals as [|v vals IH]; intros data i Hi Hl; cbn [arr_sets length] in *; [done|].
  rewrite arr_set_ok by lia. cbn [mbind option_bind]. rewrite IH by (rewrite ?length_insert; lia). by rewrite inserts_cons.
Qed.

(** A string fits when its last character is below byte 78; an empty one
    always does. *)
Definition fits (pos : Z) (str : list Z) : bool :=
  match str with [] => true | _ => pos + 2 * Z.of_nat (length str) <=? 79 end.

Lemma set_chars_spec str : forall data pos j,
  0 <= pos -> 2 <= j -> 80 <= Z.of_nat (length data) ->
  if fits (pos + j) str
  then set_chars data pos j str = Some (spliced data (pos + j) (utf16 str), Some (j + 2 * Z.of_nat (length str)))
  else exists data', set_chars data pos j str = Some (data', None) /\ length data' = length data.
Proof.
  induction str as [|c str IH]; intros data pos j Hp Hj Hl; cbn [set_chars utf16 fits].
  { cbn [length]. by rewrite Z.add_0_r. }
  destruct (Z.leb_spec 78 (pos + j)) as [Hge|Hlt].
  { cbn [length]. replace (pos + j + 2 * Z.of_nat (S (length str)) <=? 79) with false by lia. by exists data. }
  rewrite arr_set_ok by lia. cbn [mbind option_bind].
  rewrite arr_set_ok by (rewrite length_insert; lia). cbn [mbind option_bind].
  specialize (IH (<[Z.to_nat (pos + (j + 1)) := 0]> (<[Z.to_nat (pos + j) := u8 c]> data)) pos (j + 2) Hp ltac:(lia)).
  rewrite !length_insert in IH. specialize (IH Hl).
  replace (fits (pos + (j + 2)) str)
    with (pos + j + 2 * Z.of_nat (length (c :: str)) <=? 79) in IH
    by (destruct str; cbn [fits length]; apply eq_true_iff_eq; lia).
  destruct (pos + j + _ <=? 79).
  - rewrite IH. cbn [length]. f_equal. f_equal; [|f_equal; lia].
    replace (pos + (j + 2)) with (pos + (j + 1) + 1) by lia. rewrite inserts_cons by lia.
    replace (pos + (j + 1)) with (pos + j + 1) by lia. by rewrite inserts_cons by lia.
  - destruct IH as (data' & -> & E). by exists data'.
Qed.

Lemma length_utf16_descriptor str : length (descriptor str) = (2 + 2 * length str)%nat.
Proof. unfold descriptor. cbn [length]. by rewrite length_utf16. Qed.

Lemma set_string_descriptor_spec data pos str :
  0 <= pos <= 81 -> 84 <= Z.of_nat (length data) -> no_nul str ->
  if fits (pos + 2) str
  then set_string_descriptor pos data str =
         Some (pos + Z.of_nat (length (descriptor str)), spliced data pos (descriptor str))
  else exists data', set_string_descriptor pos data str = Some (-1, data') /\ length data' = length data.
Proof.
  intros Hp Hl Hs. unfold set_string_descriptor. replace (pos <? 0) with false by lia.
  rewrite arr_set_ok by lia. cbn [mbind option_bind]. rewrite c_string_no_nul by done.
  pose proof (set_chars_spec str (<[Z.to_nat (pos + 1) := 0x03]> data) pos 2 ltac:(lia) ltac:(lia)) as Hc.
  rewrite length_insert in Hc. specialize (Hc ltac:(lia)).
  destruct (fits (pos + 2) str).
  - rewrite Hc. cbn [mbind option_bind]. rewrite arr_set_ok by (rewrite length_spliced, length_insert; lia).
    cbn [mbind option_bind]. rewrite length_utf16_descriptor. f_equal. f_equal; [lia|]. unfold descriptor.
    replace (pos + 2) with (pos + 1 + 1) by lia. rewrite inserts_cons by lia. unfold spliced at 1.
    rewrite list_insert_inserts_lt by lia. by rewrite <- (inserts_cons data pos) by lia.
  - destruct Hc as (data' & -> & E). cbn [mbind option_bind]. by exists data'.
Qed.

(** *** Reading it back *)

(** [vals] in [data] from [i] on. *)
Definition segment (data : list Z) (i : Z) (vals : list Z) : Prop :=
  0 <= i /\ forall k v, vals !! k = Some v -> data !! Z.to_nat (i + Z.of_nat k) = Some v.

Lemma segment_spliced data i vals :
  0 <= i -> i + Z.of_nat (length vals) <= Z.of_nat (length data) -> segment (spliced data i vals) i vals.
Proof.
  intros Hi Hl. split; [done|]. intros k v Hk. pose proof (lookup_lt_Some _ _ _ Hk). unfold spliced.
  rewrite list_lookup_inserts by lia. rewrite <- Hk. f_equal. lia.
Qed.

Lemma segment_app data i v1 v2 :
  segment data i (v1 ++ v2) -> segment data i v1 /\ segment data (i + Z.of_nat (length v1)) v2.
Proof.
  intros [Hi Hs]. split; (split; [lia|]); intros k v Hk.
  - apply Hs. by apply lookup_app_l_Some.
  - replace (i + Z.of_nat (length v1) + Z.of_nat k) with (i + Z.of_nat (length v1 + k)) by lia. apply Hs.
    rewrite lookup_app_r by lia. rewrite <- Hk. f_equal. lia.
Qed.

Lemma segment_cons data i v vals :
  segment data i (v :: vals) -> arr_get data i = Some v /\ segment data (i + 1) vals.
Proof.
  intros Hs. destruct (segment_app data i [v] vals Hs) as [[Hi H1] H2]. split; [|exact H2].
  unfold arr_get. replace (i <? 0) with false by lia. rewrite <- (H1 O v eq_refl). f_equal. lia.
Qed.

Lemma get_chars_spec str : forall fuel data pos i,
  segment data (pos + i) (utf16 str) -> no_nul str -> (length str < fuel)%nat ->
  get_chars fuel data pos (i + 2 * Z.of_nat (length str)) i = Some (str, i + 2 * Z.of_nat (length str)).
Proof.
  induction str as [|c str IH]; intros [|fuel] data pos i Hs Hn Hf; cbn [length get_chars utf16] in *; try lia.
  - replace (i <? i + 2 * Z.of_nat 0) with false by lia. f_equal. f_equal. lia.
  - replace (i <? i + 2 * Z.of_nat (S (length str))) with true by lia.
    apply Forall_cons in Hn as [[Hc _] Hn]. rewrite u8_small in Hs by done.
    apply segment_cons in Hs as [Ec Hs]. apply segment_cons in Hs as [_ Hs].
    rewrite Ec. cbn [mbind option_bind].
    replace (pos + i + 1 + 1) with (pos + (i + 2)) in Hs by lia.
    specialize (IH fuel data pos (i + 2) Hs Hn ltac:(lia)).
    replace (i + 2 + 2 * Z.of_nat (length str)) with (i + 2 * Z.of_nat (S (length str))) in IH by lia.
    by rewrite IH.
Qed.

Lemma get_string_descriptor_spec data pos str :
  segment data pos (descriptor str) -> no_nul str -> (length str <= 126)%nat ->
  get_string_descriptor pos data = Some (pos + Z.of_nat (length (descriptor str)), str).
Proof.
  intros Hs Hn Hl. unfold get_string_descriptor, descriptor in *.
  apply segment_cons in Hs as [-> Hs]. apply segment_cons in Hs as [-> Hs]. cbn [mbind option_bind].
  rewrite u8_small by (unfold is_u8; lia). replace (pos + 1 + 1) with (pos + 2) in Hs by lia.
  rewrite (get_chars_spec str 128 data pos 2 Hs Hn) by lia.
  cbn [mbind option_bind length]. rewrite c_string_no_nul, length_utf16 by done. f_equal. f_equal. lia.
Qed.

(** A configuration as the program keeps it. *)
Definition conf_ok (c : rtlsdr_config) : Prop :=
  is_u16 (vendor_id c) /\ is_u16 (product_id c) /\ no_nul (manufacturer c) /\ no_nul (product c) /\ no_nul (serial c) /\
  (have_serial c = 0 \/ have_serial c = 1) /\ (enable_bt c = 0 \/ enable_bt c = 1) /\ (remote_wakeup c = 0 \/ remote_wakeup c = 1).

Definition string_bytes (c : rtlsdr_config) : Z :=
  Z.of_nat (length (manufacturer c) + length (product c) + length (serial c)).

Definition header (c : rtlsdr_config) : list Z :=
  [0x28; 0x32; vendor_id c .& 0xff; (vendor_id c ≫ 8) .& 0xff; product_id c .& 0xff; (product_id c ≫ 8) .& 0xff;
   if truthy (have_serial c) then 0xa5 else 0x00;
   (0x14 .| (if truthy (remote_wakeup c) then 0x01 else 0x00)) .| (if truthy (enable_bt c) then 0x02 else 0x00); 0x02].

Definition image (c : rtlsdr_config) : list Z :=
  header c ++ descriptor (manufacturer c) ++ descriptor (product c) ++ descriptor (serial c).

Lemma after_error data str : set_string_descriptor (-1) data str = Some (-1, data).
Proof. done. Qed.

(** The strings that have to fit, after one another. *)
Definition all_fit (c : rtlsdr_config) : bool :=
  let p1 := 9 + Z.of_nat (length (descriptor (manufacturer c))) in
  let p2 := p1 + Z.of_nat (length (descriptor (product c))) in
  fits (9 + 2) (manufacturer c) && fits (p1 + 2) (product c) && fits (p2 + 2) (serial c).

Lemma fits_end pos str : 0 <= pos <= 79 -> fits (pos + 2) str = true -> pos + Z.of_nat (length (descriptor str)) <= Z.max 79 (pos + 2).
Proof. rewrite length_utf16_descriptor. destruct str; cbn [fits length]; lia. Qed.

Lemma gen_spec c dat :
  conf_ok c -> 84 <= Z.of_nat (length dat) ->
  if all_fit c
  then gen_eeprom_from_conf c dat = Some (Z.of_nat (length (image c)), <[78%nat := 0]> (spliced dat 0 (image c)))
  else exists dat', gen_eeprom_from_conf c dat = Some (-1, dat').
Proof.
  intros (_ & _ & Hm & Hp & Hs & _) Hl. unfold gen_eeprom_from_conf, all_fit, STR_OFFSET. fold (header c). cbv zeta.
  rewrite arr_sets_spec by (cbn [length header]; lia). cbn [mbind option_bind].
  set (d0 := spliced dat 0 (header c)). assert (L0 : length d0 = length dat) by apply length_spliced.
  pose proof (set_string_descriptor_spec d0 9 (manufacturer c) ltac:(lia) ltac:(lia) Hm) as H1.
  pose proof (fits_end 9 (manufacturer c) ltac:(lia)) as F1.
  destruct (fits (9 + 2) (manufacturer c)); cbn [andb].
  2: { destruct H1 as (d1 & -> & L1). cbn [mbind option_bind]. rewrite after_error. cbn [mbind option_bind].
    rewrite after_error. cbn [mbind option_bind]. rewrite arr_set_ok by lia. by eexists. }
  rewrite H1. cbn [mbind option_bind]. specialize (F1 eq_refl).
  set (p1 := 9 + _) in *. set (d1 := spliced d0 9 _). assert (L1 : length d1 = length dat) by (unfold d1; by rewrite length_spliced).
  pose proof (set_string_descriptor_spec d1 p1 (product c) ltac:(lia) ltac:(lia) Hp) as H2.
  pose proof (fits_end p1 (product c) ltac:(lia)) as F2.
  destruct (fits (p1 + 2) (product c)); cbn [andb].
  2: { destruct H2 as (d2 & -> & L2). cbn [mbind option_bind]. rewrite after_error. cbn [mbind option_bind].
    rewrite arr_set_ok by lia. by eexists. }
  rewrite H2. cbn [mbind option_bind]. specialize (F2 eq_refl).
  set (p2 := p1 + _) in *. set (d2 := spliced d1 p1 _). assert (L2 : length d2 = length dat) by (unfold d2; by rewrite length_spliced).
  pose proof (set_string_descriptor_spec d2 p2 (serial c) ltac:(lia) ltac:(lia) Hs) as H3.
  destruct (fits (p2 + 2) (serial c)).
  2: { destruct H3 as (d3 & -> & L3). cbn [mbind option_bind]. rewrite arr_set_ok by lia. by eexists. }
  rewrite H3. cbn [mbind option_bind]. rewrite arr_set_ok by (rewrite length_spliced; lia). cbn [mbind option_bind].
  f_equal. f_equal.
  - unfold image, p2, p1. rewrite !length_app. cbn [length header]. lia.
  - change (Z.to_nat 78) with 78%nat. f_equal. unfold d2, d1, d0, image.
    rewrite <- (spliced_app dat 0 (header c)), <- (spliced_app _ _ (descriptor (manufacturer c))),
      <- (spliced_app _ _ (descriptor (product c))) by lia. reflexivity.
Qed.

(** Writing byte 78 changes nothing below it. *)
Lemma segment_insert data i vals n v :
  segment data i vals -> i + Z.of_nat (length vals) <= Z.of_nat n -> segment (<[n := v]> data) i vals.
Proof.
  intros [Hi Hs] Hn. split; [done|]. intros k x Hk. pose proof (lookup_lt_Some _ _ _ Hk).
  rewrite list_lookup_insert_ne by lia. by apply Hs.
Qed.

Lemma header_fields c :
  conf_ok c ->
  u16 ((vendor_id c .& 0xff) .| (((vendor_id c ≫ 8) .& 0xff) ≪ 8)) = vendor_id c /\
  u16 ((product_id c .& 0xff) .| (((product_id c ≫ 8) .& 0xff) ≪ 8)) = product_id c.
Proof.
  intros (Hv & Hp & _).
  assert (forall x, is_u16 x -> u16 ((x .& 0xff) .| (((x ≫ 8) .& 0xff) ≪ 8)) = x) as Hx; [|by split; apply Hx].
  intros x Hx. apply Z.bits_inj'. intros i Hi. unfold u16. change 0xff with (Z.ones 8).
  destruct (Z.ltb_spec i 16).
  - rewrite Z.mod_pow2_bits_low, Z.lor_spec, Z.land_spec by lia. destruct (Z.ltb_spec i 8).
    + rewrite Z.ones_spec_low, Z.shiftl_spec_low by lia. by rewrite andb_true_r, orb_false_r.
    + rewrite Z.ones_spec_high, Z.shiftl_spec, Z.land_spec, Z.shiftr_spec, Z.ones_spec_low by lia.
      rewrite andb_false_r, andb_true_r. cbn [orb]. f_equal. lia.
  - rewrite Z.mod_pow2_bits_high by lia. symmetry. unfold is_u16 in Hx. rewrite <- (Z.mod_small x (2 ^ 16)) by lia.
    by rewrite Z.mod_pow2_bits_high by lia.
Qed.

Lemma parse_spec c dat : conf_ok c -> string_bytes c <= 120 -> segment dat 0 (image c) -> parse_eeprom_to_conf dat = Some c.
Proof.
  intros Hc Hlen Hs. pose proof Hc as (_ & _ & Hm & Hp & Hse & Hhs & Hbt & Hrw). unfold string_bytes in Hlen.
  apply segment_app in Hs as [Hh Hs]. apply segment_app in Hs as [H1 Hs]. apply segment_app in Hs as [H2 H3].
  change (0 + Z.of_nat (length (header c))) with STR_OFFSET in *. unfold header in Hh.
  do 2 apply segment_cons in Hh as [_ Hh].
  do 6 (let E := fresh "E" in apply segment_cons in Hh as [E Hh]; cbv [Z.add Pos.add Pos.succ] in E).
  unfold parse_eeprom_to_conf. rewrite E, E0, E1, E2, E3, E4. cbn [mbind option_bind].
  rewrite (get_string_descriptor_spec dat _ (manufacturer c)) by (done || lia). cbn [mbind option_bind].
  rewrite (get_string_descriptor_spec dat _ (product c)) by (done || lia). cbn [mbind option_bind].
  rewrite (get_string_descriptor_spec dat _ (serial c)) by (done || lia). cbn [mbind option_bind].
  destruct (header_fields c Hc) as [-> ->]. destruct c as [v p m pr se hs bt rw]. cbn in *. f_equal.
  destruct Hhs as [-> | ->], Hbt as [-> | ->], Hrw as [-> | ->]; reflexivity.
Qed.

(** The image of a configuration with short strings. *)
Lemma gen_short c dat : conf_ok c -> Z.of_nat (length dat) = EEPROM_SIZE -> string_bytes c <= 31 ->
  let dat' := <[78%nat := 0]> (spliced dat 0 (image c)) in
  gen_eeprom_from_conf c dat = Some (Z.of_nat (length (image c)), dat') /\ Z.of_nat (length (image c)) <= 77 /\
  parse_eeprom_to_conf dat' = Some c.
Proof.
  unfold EEPROM_SIZE. intros Hc Hl Hs. cbv zeta. pose proof (gen_spec c dat Hc ltac:(lia)) as Hg.
  unfold all_fit, string_bytes in *. rewrite !length_utf16_descriptor in Hg.
  replace (_ && _ && _) with true in Hg
    by (destruct (manufacturer c), (product c), (serial c); cbn [fits length andb] in *; lia).
  assert (Hil : Z.of_nat (length (image c)) <= 77)
    by (unfold image; rewrite !length_app, !length_utf16_descriptor; cbn [length header]; lia).
  split; [exact Hg|]. split; [exact Hil|]. apply parse_spec; [done|unfold string_bytes; lia|].
  apply segment_insert; [|lia]. apply segment_spliced; lia.
Qed.

(** C4: rtl_eeprom's two directions: a configuration whose strings have at most
    31 characters together is put into the 256 bytes of the EEPROM and read
    back as it was; only the bytes up to the end of the strings and byte 78
    change.  With more than 32 characters and a serial number the generation
    fails, and nothing is written. *)
Theorem eeprom_conf_roundtrip (c : rtlsdr_config) (dat : list Z) :
  conf_ok c -> Z.of_nat (length dat) = EEPROM_SIZE ->
  (string_bytes c <= 31 ->
   exists pos dat', gen_eeprom_from_conf c dat = Some (pos, dat') /\ 0 <= pos <= 77 /\ length dat' = length dat /\
     parse_eeprom_to_conf dat' = Some c /\
     forall i : nat, pos <= Z.of_nat i -> i <> 78%nat -> dat' !! i = dat !! i) /\
  (32 < string_bytes c -> serial c <> [] -> exists dat', gen_eeprom_from_conf c dat = Some (-1, dat')).
Proof.
  intros Hc Hl. split; intros Hs.
  - destruct (gen_short c dat Hc Hl Hs) as (Hg & Hil & Hp). eexists _, _. split; [exact Hg|]. split; [lia|].
    split; [by rewrite length_insert, length_spliced|]. split; [exact Hp|].
    intros i Hi Hne. rewrite list_lookup_insert_ne by done. unfold spliced. apply list_lookup_inserts_ge. lia.
  - unfold EEPROM_SIZE in Hl. pose proof (gen_spec c dat Hc ltac:(lia)) as Hg.
    unfold all_fit, string_bytes in *. rewrite !length_utf16_descriptor in Hg. intros Hne.
    replace (_ && _ && _) with false in Hg; [exact Hg|].
    symmetry. apply andb_false_intro2. destruct (serial c) as [|x l]; [done|]. cbn [fits length] in *. lia.
Qed.

Lemma eeprom_conf_roundtrip_witness :
  (string_bytes (gen_default_conf (mk_conf 0 0 [] [] [] 0 0 0) REALTEK_EEPROM) <= 31 ->
   exists pos dat', gen_eeprom_from_conf (gen_default_conf (mk_conf 0 0 [] [] [] 0 0 0) REALTEK_EEPROM) (replicate 256 0xff) = Some (pos, dat') /\
     0 <= pos <= 77 /\ length dat' = length (replicate 256 0xff) /\
     parse_eeprom_to_conf dat' = Some (gen_default_conf (mk_conf 0 0 [] [] [] 0 0 0) REALTEK_EEPROM) /\
     forall i : nat, pos <= Z.of_nat i -> i <> 78%nat -> dat' !! i = replicate 256 0xff !! i) /\
  (32 < string_bytes (gen_default_conf (mk_conf 0 0 [] [] [] 0 0 0) REALTEK_EEPROM) ->
   serial (gen_default_conf (mk_conf 0 0 [] [] [] 0 0 0) REALTEK_EEPROM) <> [] ->
   exists dat', gen_eeprom_from_conf (gen_default_conf (mk_conf 0 0 [] [] [] 0 0 0) REALTEK_EEPROM) (replicate 256 0xff) = Some (-1, dat')).
Proof.
  refine (eeprom_conf_roundtrip (gen_default_conf (mk_conf 0 0 [] [] [] 0 0 0) REALTEK_EEPROM) (replicate 256 0xff) _ _).
  - split_and!; try by_compute; repeat constructor; by vm_compute.
  - reflexivity.
Defined.

(** With 33 characters and an empty product name, byte 78, the type of the
    descriptor, is overwritten. *)
Lemma type_byte_overwritten :
  match gen_eeprom_from_conf (mk_conf 0 0 (replicate 33 65) [] [] 0 0 0) (replicate 256 0xff) with
  | Some (pos, dat) => (pos, dat !! 77%nat, dat !! 78%nat)
  | None => (0, None, None)
  end = (81, Some 2, Some 0).
Proof. vm_compute. reflexivity. Qed.
