(* ===== verification/Adsb.v ===== *)
(** * rtl_adsb.c: the decoder of ADS-B messages

    The program turns the I/Q bytes into magnitudes ([magnitute]), replaces
    the samples of a message by its bits ([manchester]) and collects the bits
    of the messages ([messages]).  All three work on one array in place; an
    access outside of it has no value. *)

From stdpp Require Import pretty.
From S2P Require Import Prelude.

Definition MESSAGEGO := 253.
Definition OVERWRITE := 254.
Definition BADSAMPLE := 255.
Definition preamble_len := 16.
Definition long_frame := 112.
Definition short_frame := 56.

(** ** Magnitude *)

(* src/rtl_adsb.c: abs8 *)
Definition abs8 (x : Z) : Z := if 127 <=? x then x - 127 else 127 - x.

(** The table [squares], as [squares_precompute] fills it. *)
(* src/rtl_adsb.c: squares_precompute *)
Definition squares : list Z := map (fun i => u16 (abs8 i * abs8 i)) (zseq 256).

(** Each pair of bytes is replaced by a 16-bit value; the result is the array
    read as [uint16_t].  The length is even. *)
(* src/rtl_adsb.c: magnitute *)
Fixpoint magnitute (buf : list Z) : option (list Z) :=
  match buf with
  | i :: q :: buf' =>
      si ← arr_get squares i; sq ← arr_get squares q;
      m ← magnitute buf';
      Some (u16 (si + sq) :: m)
  | [] => Some []
  | [_] => None
  end.

(** ** Manchester code *)

(* src/rtl_adsb.c: single_manchester *)
Definition single_manchester (quality a b c d : Z) : Z :=
  let bit_p := b <? a in
  let bit := d <? c in
  if quality =? 0 then b2z bit else
  if quality =? 5 then
    if bit && bit_p && (c <? b) then BADSAMPLE else
    if negb bit && negb bit_p && (b <? c) then BADSAMPLE else b2z bit
  else if quality =? 10 then
    if bit && bit_p && (b <? c) then 1 else
    if bit && negb bit_p && (d <? b) then 1 else
    if negb bit && bit_p && (b <? d) then 0 else
    if negb bit && negb bit_p && (c <? b) then 0 else BADSAMPLE
  else
    if bit && bit_p && (b <? c) && (d <? a) then 1 else
    if bit && negb bit_p && (a <? c) && (d <? b) then 1 else
    if negb bit && bit_p && (c <? a) && (b <? d) then 0 else
    if negb bit && negb bit_p && (c <? b) && (a <? d) then 0 else BADSAMPLE.

(** The positions of the preamble that are high. *)
Definition is_high (i2 : Z) : bool := (i2 =? 0) || (i2 =? 2) || (i2 =? 7) || (i2 =? 9).

(* src/rtl_adsb.c:244-260 preamble *)
Fixpoint preamble_loop (is2 : list Z) (buf : list Z) (i low high : Z) : option Z :=
  match is2 with
  | [] => Some 1
  | i2 :: is2' =>
      x ← arr_get buf (i + i2);
      let high := if is_high i2 then x else high in
      let low := if is_high i2 then low else x in
      if high <=? low then Some 0 else preamble_loop is2' buf i low high
  end.

(* src/rtl_adsb.c: preamble *)
Definition preamble (buf : list Z) (i : Z) : option Z := preamble_loop (zseq 16) buf i 0 65535.

(** The array and the variables that live through the loops of [manchester]. *)
Record mstate : Type := mk_mstate { mbuf : list Z; mi : Z; ma : Z; mb : Z }.

(** [for (i2 = 0; i2 < preamble_len; i2++) buf[i + i2] = MESSAGEGO;] *)
Fixpoint mark_preamble (is2 : list Z) (buf : list Z) (i : Z) : option (list Z) :=
  match is2 with
  | [] => Some buf
  | i2 :: is2' => buf ← arr_set buf (i + i2) MESSAGEGO; mark_preamble is2' buf i
  end.

(* src/rtl_adsb.c:276-285 manchester *)
Fixpoint find_preamble (fuel : nat) (len : Z) (s : mstate) : option mstate :=
  match fuel with
  | O => None
  | S fuel =>
      if mi s <? len - preamble_len then
        p ← preamble (mbuf s) (mi s);
        if p =? 0 then find_preamble fuel len (mk_mstate (mbuf s) (mi s + 1) (ma s) (mb s))
        else
          a ← arr_get (mbuf s) (mi s);
          b ← arr_get (mbuf s) (mi s + 1);
          buf ← mark_preamble (zseq 16) (mbuf s) (mi s);
          Some (mk_mstate buf (mi s + preamble_len) a b)
      else Some s
  end.

(* src/rtl_adsb.c:286-306 manchester *)
Fixpoint mark_bits (fuel : nat) (quality allowed_errors len : Z) (s : mstate) (i2 errors : Z) : option mstate :=
  match fuel with
  | O => None
  | S fuel =>
      if mi s <? len - 1 then
        c ← arr_get (mbuf s) (mi s);
        d ← arr_get (mbuf s) (mi s + 1);
        let bit := single_manchester quality (ma s) (mb s) c d in
        let errors := if bit =? BADSAMPLE then errors + 1 else errors in
        if (bit =? BADSAMPLE) && (allowed_errors <? errors) then
          buf ← arr_set (mbuf s) i2 BADSAMPLE;
          Some (mk_mstate buf (mi s) c d)
        else
          let bad := bit =? BADSAMPLE in
          let bit := if bad then b2z (d <? c) else bit in
          (* these don't have to match the bit *)
          let a := if bad then 0 else c in
          let b := if bad then 65535 else d in
          buf ← arr_set (mbuf s) (mi s + 1) OVERWRITE;
          buf ← arr_set buf (mi s) OVERWRITE;
          buf ← arr_set buf i2 bit;
          mark_bits fuel quality allowed_errors len (mk_mstate buf (mi s + 2) a b) (i2 + 1) errors
      else Some s
  end.

(* src/rtl_adsb.c:274-308 manchester *)
Fixpoint manchester_loop (fuel : nat) (quality allowed_errors len : Z) (s : mstate) : option mstate :=
  match fuel with
  | O => None
  | S fuel =>
      if mi s <? len - 1 then
        s ← find_preamble (S (Z.to_nat len)) len s;
        s ← mark_bits (S (Z.to_nat len)) quality allowed_errors len s (mi s) 0;
        manchester_loop fuel quality allowed_errors len s
      else Some s
  end.

(** Every third turn of the loop goes on by a sample: see AdsbSpec.v. *)
(* src/rtl_adsb.c: manchester *)
Definition manchester (quality allowed_errors : Z) (buf : list Z) (len : Z) : option (list Z) :=
  s ← manchester_loop (3 * Z.to_nat len + 4) quality allowed_errors len (mk_mstate buf 0 0 0);
  Some (mbuf s).

(** ** Messages *)

(** The inner loop from the sample at the head of [l] on: the rest of the
    samples, [data_i], [frame_len] and [adsb_frame]. *)
(* src/rtl_adsb.c:322-337 messages *)
Fixpoint collect (l : list Z) (data_i frame_len : Z) (adsb_frame : list Z) : option (list Z * Z * Z * list Z) :=
  match l with
  | [] => Some (l, data_i, frame_len, adsb_frame)
  | x :: l' =>
      if (x <=? 1) && (data_i <? frame_len) then
        frame ← (if truthy x then
                   f ← arr_get adsb_frame (data_i / 8);
                   arr_set adsb_frame (data_i / 8) (f .| u8 (1 ≪ (7 - data_i mod 8)))
                 else Some adsb_frame);
        if data_i =? 7 then
          f0 ← arr_get frame 0;
          if f0 =? 0 then Some (l, data_i, frame_len, frame)
          else collect l' (data_i + 1) (if truthy (f0 .& 0x80) then long_frame else short_frame) frame
        else collect l' (data_i + 1) frame_len frame
      else Some (l, data_i, frame_len, adsb_frame)
  end.

(** The frames given to [display], with their lengths in bits.  The outer loop
    skips the sample at which the inner loop stopped. *)
(* src/rtl_adsb.c: messages *)
Fixpoint messages (fuel : nat) (l : list Z) : option (list (list Z * Z)) :=
  match fuel with
  | O => None
  | S fuel =>
      match l with
      | [] => Some []
      | x :: l' =>
          if 1 <? x then messages fuel l' else
          '(rest, data_i, frame_len, frame) ← collect l 0 long_frame (replicate 14 0);
          out ← messages fuel (tail rest);
          Some (if data_i <? frame_len - 1 then out else (frame, frame_len) :: out)
      end
  end.

(** ** Output *)

Definition hex_digit (x : Z) : string :=
  match String.get (Z.to_nat x) "0123456789abcdef" with Some c => String c "" | None => "" end.

(** The last [n] hexadecimal digits of a number. *)
Fixpoint hex (n : nat) (x : Z) : string :=
  match n with O => "" | S n => (hex n (x / 16) +:+ hex_digit (x mod 16))%string end.

(** The line end that is sent: carriage return and line feed. *)
Definition crlf : string := String (Ascii.ascii_of_nat 13) (String (Ascii.ascii_of_nat 10) "").
Definition lf : string := String (Ascii.ascii_of_nat 10) "".

Record display_options : Type := mk_display { short_output : bool; verbose_output : bool; d_quality : Z }.

(** The first line of a frame. *)
Definition raw_line (frame : list Z) (len : Z) : string :=
  ("*" +:+ String.concat "" (map (hex 2) (take (Z.to_nat ((len + 7) / 8)) frame)) +:+ ";" +:+ crlf)%string.

(** The lines that are added in verbose mode. *)
(* src/rtl_adsb.c:144-152 display *)
Definition verbose_lines (frame : list Z) (len : Z) : string :=
  let f k := nth k frame 0 in
  let df := (f 0%nat ≫ 3) .& 0x1f in
  let long := (if len <=? short_frame then "" else
    "PI=0x" +:+ hex 6 (((f 11%nat ≪ 16) .| (f 12%nat ≪ 8)) .| f 13%nat) +:+ lf +:+
    "Type Code=" +:+ pretty ((f 4%nat ≫ 3) .& 0x1f) +:+ " S.Type/Ant.=" +:+ hex 1 (f 4%nat .& 0x07) +:+ lf +:+
    "--------------" +:+ lf)%Z in
  "DF=" +:+ pretty df +:+ " CA=" +:+ pretty (f 0%nat .& 0x07) +:+ lf +:+
  "ICAO Address=" +:+ hex 6 (((f 1%nat ≪ 16) .| (f 2%nat ≪ 8)) .| f 3%nat) +:+ lf +:+ long.

(** The text printed for a frame. *)
(* src/rtl_adsb.c: display *)
Definition display (o : display_options) (frame : list Z) (len : Z) : string :=
  if negb (short_output o) && (len <=? short_frame) then "" else
  let df := (nth 0 frame 0 ≫ 3) .& 0x1f in
  if (d_quality o =? 0) && negb ((df =? 11) || (df =? 17) || (df =? 18) || (df =? 19)) then "" else
  raw_line frame len +:+ (if verbose_output o then verbose_lines frame len else "").

(** The work of the demodulation thread on a buffer of I/Q bytes: the text
    that is printed. *)
(* src/rtl_adsb.c: demod_thread_fn *)
Definition demod (o : display_options) (allowed_errors : Z) (iq : list Z) : option string :=
  m ← magnitute iq;
  m ← manchester (d_quality o) allowed_errors m (Z.of_nat (length m));
  fs ← messages (S (length m)) m;
  Some (String.concat "" (map (fun f => display o f.1 f.2) fs)).
