(* ===== verification/AdsbSpec.v ===== *)
(** * rtl_adsb.c: the decoder terminates and decodes

    [manchester] ends on every buffer of magnitudes, and a frame that is sent
    is the first one that is printed. *)

From S2P Require Import Prelude Arrays Adsb.

(** ** Termination *)

Section loops.
Context (quality allowed_errors len : Z).

(** [buf'] agrees with [buf] below [lo] and from [hi] on. *)
Definition kept (lo hi : Z) (buf buf' : list Z) : Prop :=
  length buf' = length buf /\ forall k, k < lo \/ hi <= k -> arr_get buf' k = arr_get buf k.

Lemma kept_refl lo hi buf : kept lo hi buf buf.
Proof. done. Qed.

Lemma kept_trans lo hi lo' hi' buf1 buf2 buf3 :
  kept lo hi buf1 buf2 -> kept lo' hi' buf2 buf3 -> kept (Z.min lo lo') (Z.max hi hi') buf1 buf3.
Proof. intros [L1 K1] [L2 K2]. split; [congruence|]. intros k Hk. rewrite K2, K1 by lia. done. Qed.

Lemma kept_weaken lo hi lo' hi' buf buf' : kept lo hi buf buf' -> lo' <= lo -> hi <= hi' -> kept lo' hi' buf buf'.
Proof. intros [L K] Hlo Hhi. split; [done|]. intros k Hk. apply K. lia. Qed.

Lemma kept_set lo hi buf i v buf' : arr_set buf i v = Some buf' -> lo <= i < hi -> kept lo hi buf buf'.
Proof.
  intros Hs Hi. split; [by eapply arr_set_length|]. intros k Hk. rewrite (arr_get_set _ _ _ _ _ Hs).
  by replace (k =? i) with false by lia.
Qed.

Lemma mark_preamble_ok is2 : forall buf i,
  0 <= i -> Forall (fun i2 => 0 <= i2 < 16) is2 -> i + 16 <= Z.of_nat (length buf) ->
  exists buf', mark_preamble is2 buf i = Some buf' /\ kept i (i + 16) buf buf' /\
    forall k, arr_get buf' k = if bool_decide (k - i ∈ is2) then Some MESSAGEGO else arr_get buf k.
Proof.
  induction is2 as [|i2 is2 IH]; intros buf i Hi Hf Hl; cbn [mark_preamble]; [by exists buf|].
  apply Forall_cons in Hf as [Hi2 Hf].
  destruct (arr_set buf (i + i2) MESSAGEGO) as [buf1|] eqn:E; [|rewrite arr_set_ok in E by lia; done].
  cbn [mbind option_bind]. destruct (IH buf1 i Hi Hf) as (buf' & -> & K & G).
  { by rewrite (arr_set_length _ _ _ _ E). }
  exists buf'. split; [done|]. split.
  - eapply kept_weaken; [eapply kept_trans; [eapply (kept_set i (i + 16)); [exact E|lia]|exact K]|lia|lia].
  - intros k. rewrite G, (arr_get_set _ _ _ _ _ E). destruct (Z.eqb_spec k (i + i2)) as [->|Hne].
    + replace (i + i2 - i) with i2 by lia. rewrite (bool_decide_true (i2 ∈ i2 :: is2)) by left. by destruct (bool_decide _).
    + erewrite bool_decide_ext; [reflexivity|]. rewrite elem_of_cons. split; [by right|intros [?|?]; [lia|done]].
Qed.

Lemma preamble_ok buf i : 0 <= i -> i + 16 <= Z.of_nat (length buf) -> exists p, preamble buf i = Some p.
Proof.
  intros Hi Hl. unfold preamble.
  assert (Hf : Forall (fun i2 => 0 <= i2 < 16) (zseq 16)) by (repeat constructor; lia).
  revert Hf. generalize 0 at 2 as low, 65535 as high. induction (zseq 16) as [|i2 is2 IH]; intros low high Hf; cbn [preamble_loop].
  { by eexists. }
  apply Forall_cons in Hf as [Hi2 Hf].
  destruct (arr_get_ok buf (i + i2) ltac:(lia)) as [x ->]. cbn [mbind option_bind].
  destruct (_ <=? _); [by eexists|]. by apply IH.
Qed.

(** The search goes on, or finds nothing more. *)
Lemma find_preamble_ok fuel s :
  len = Z.of_nat (length (mbuf s)) -> 0 <= mi s -> (Z.to_nat (len - mi s) < fuel)%nat ->
  exists s', find_preamble fuel len s = Some s' /\ mi s <= mi s' <= Z.max (mi s) len /\
    kept (mi s) (mi s') (mbuf s) (mbuf s') /\ (mi s' = mi s -> s' = s /\ len - 16 <= mi s).
Proof.
  intros Hl. revert s Hl. induction fuel as [|fuel IH]; intros s Hl Hi Hf; [lia|]. cbn [find_preamble]. unfold preamble_len.
  destruct (Z.ltb_spec (mi s) (len - 16)).
  2: { exists s. repeat split; lia. }
  destruct (preamble_ok (mbuf s) (mi s) Hi ltac:(lia)) as [p ->]. cbn [mbind option_bind].
  destruct (p =? 0).
  - destruct (IH (mk_mstate (mbuf s) (mi s + 1) (ma s) (mb s)) Hl) as (s' & E & Hm & K & _); cbn [mbuf mi] in *; [lia..|].
    exists s'. split; [done|]. split; [lia|]. split; [|lia]. eapply kept_weaken; [done|lia|lia].
  - destruct (arr_get_ok (mbuf s) (mi s) ltac:(lia)) as [a ->]. destruct (arr_get_ok (mbuf s) (mi s + 1) ltac:(lia)) as [b ->].
    cbn [mbind option_bind]. destruct (mark_preamble_ok (zseq 16) (mbuf s) (mi s) Hi) as (buf & -> & K & _).
    { repeat constructor; lia. }
    { lia. }
    cbn [mbind option_bind]. eexists. split; [done|]. cbn [mbuf mi]. split; [lia|]. split; [done|lia].
Qed.

(** The marks of one bit, below [i2 + 1] or at the samples of the bit. *)
Lemma mark_ok buf i i2 v :
  0 <= i2 <= i -> i + 1 < Z.of_nat (length buf) ->
  exists b1 b2 b3 : list Z, arr_set buf (i + 1) OVERWRITE = Some b1 /\ arr_set b1 i OVERWRITE = Some b2 /\ arr_set b2 i2 v = Some b3 /\
    kept i2 (i + 2) buf b3 /\ (forall k, k < i2 -> arr_get b3 k = arr_get buf k) /\ arr_get b3 i2 = Some v.
Proof.
  intros Hi Hl.
  destruct (arr_set buf (i + 1) OVERWRITE) as [b1|] eqn:E1; [|rewrite arr_set_ok in E1 by lia; done].
  pose proof (arr_set_length _ _ _ _ E1).
  destruct (arr_set b1 i OVERWRITE) as [b2|] eqn:E2; [|rewrite arr_set_ok in E2 by lia; done].
  pose proof (arr_set_length _ _ _ _ E2).
  destruct (arr_set b2 i2 v) as [b3|] eqn:E3; [|rewrite arr_set_ok in E3 by lia; done].
  exists b1, b2, b3. do 3 (split; [done|]).
  assert (K : kept i2 (i + 2) buf b3).
  { eapply kept_weaken; [eapply kept_trans; [eapply kept_trans|]|..].
    - apply (kept_set i2 (i + 2) _ _ _ _ E1). lia.
    - apply (kept_set i2 (i + 2) _ _ _ _ E2). lia.
    - apply (kept_set i2 (i + 2) _ _ _ _ E3). lia.
    - lia.
    - lia. }
  split; [exact K|]. split; [intros k Hk; apply K; lia|]. rewrite (arr_get_set _ _ _ _ _ E3). by rewrite Z.eqb_refl.
Qed.

(** What stops the marking without progress: an error at the first bit. *)
Definition no_progress (s s' : mstate) (i2 : Z) : Prop :=
  len - 1 <= mi s /\ s' = s \/
  exists c d, arr_get (mbuf s) (mi s) = Some c /\ arr_get (mbuf s) (mi s + 1) = Some d /\
    single_manchester quality (ma s) (mb s) c d = BADSAMPLE /\
    arr_set (mbuf s) i2 BADSAMPLE = Some (mbuf s') /\ ma s' = c /\ mb s' = d.

Lemma mark_bits_ok fuel s i2 errors :
  len = Z.of_nat (length (mbuf s)) -> 0 <= i2 <= mi s -> (Z.to_nat (len - mi s) < fuel)%nat ->
  exists s', mark_bits fuel quality allowed_errors len s i2 errors = Some s' /\ mi s <= mi s' <= Z.max (mi s) len /\
    kept i2 (mi s' + 1) (mbuf s) (mbuf s') /\ (mi s' = mi s -> no_progress s s' i2).
Proof.
  revert s i2 errors. induction fuel as [|fuel IH]; intros s i2 errors Hl Hi Hf; [lia|]. cbn [mark_bits].
  destruct (Z.ltb_spec (mi s) (len - 1)).
  2: { exists s. split; [done|]. split; [lia|]. split; [done|]. intros _. by left. }
  destruct (arr_get_ok (mbuf s) (mi s) ltac:(lia)) as [c Ec]. destruct (arr_get_ok (mbuf s) (mi s + 1) ltac:(lia)) as [d Ed].
  rewrite Ec, Ed. cbn [mbind option_bind].
  set (bit := single_manchester quality (ma s) (mb s) c d). set (errors' := if bit =? BADSAMPLE then _ else _).
  destruct ((bit =? BADSAMPLE) && (allowed_errors <? errors')) eqn:Eb.
  - destruct (arr_set (mbuf s) i2 BADSAMPLE) as [b'|] eqn:Es; [|rewrite arr_set_ok in Es by lia; done].
    cbn [mbind option_bind]. eexists. split; [done|]. cbn [mi mbuf]. split; [lia|].
    split; [eapply kept_set; [done|lia]|]. intros _. right. exists c, d. cbn [mbuf ma mb].
    split; [done|]. split; [done|]. split; [lia|done].
  - destruct (mark_ok (mbuf s) (mi s) i2 (if bit =? BADSAMPLE then b2z (d <? c) else bit) Hi ltac:(lia))
      as (b1 & b2 & b3 & -> & E2 & E3 & K & _).
    cbn [mbind option_bind]. rewrite E2. cbn [mbind option_bind]. rewrite E3. cbn [mbind option_bind].
    destruct (IH (mk_mstate b3 (mi s + 2) (if bit =? BADSAMPLE then 0 else c) (if bit =? BADSAMPLE then 65535 else d)) (i2 + 1) errors')
      as (s' & -> & Hm & K' & _); cbn [mbuf mi] in *.
    { destruct K as [-> _]. done. }
    { lia. }
    { lia. }
    exists s'. split; [done|]. split; [lia|]. split; [|lia].
    eapply kept_weaken; [eapply kept_trans; [exact K|exact K']|lia|lia].
Qed.

(** No sample is 255 from the next one on; the last turns made no progress. *)
Definition running (s : mstate) : Prop :=
  len = Z.of_nat (length (mbuf s)) /\ 0 <= mi s <= len /\ forall k, mi s < k -> arr_get (mbuf s) k <> Some BADSAMPLE.
Definition stuck (s : mstate) : Prop :=
  len - 16 <= mi s /\ arr_get (mbuf s) (mi s) = Some BADSAMPLE /\ arr_get (mbuf s) (mi s + 1) = Some (mb s).

(** The samples 255 and [b] after themselves are no error unless [b] is 255. *)
Lemma single_manchester_stuck b : b <> BADSAMPLE -> single_manchester quality BADSAMPLE b BADSAMPLE b <> BADSAMPLE.
Proof.
  unfold single_manchester, BADSAMPLE, b2z. intros Hb.
  destruct (quality =? 0), (quality =? 5), (quality =? 10); repeat case_match; lia.
Qed.

(** A turn of the loop goes on, or changes the sample to 255. *)
Lemma scan_turn_ok s :
  running s -> mi s < len - 1 ->
  exists s1 s', find_preamble (S (Z.to_nat len)) len s = Some s1 /\
    mark_bits (S (Z.to_nat len)) quality allowed_errors len s1 (mi s1) 0 = Some s' /\
    running s' /\ kept (mi s) (mi s' + 1) (mbuf s) (mbuf s') /\
    (mi s < mi s' \/ mi s' = mi s /\ stuck s' /\ (stuck s -> ma s' = BADSAMPLE /\ ma s <> BADSAMPLE)).
Proof.
  intros (Hl & Hi & Hn) Hlt.
  destruct (find_preamble_ok (S (Z.to_nat len)) s Hl) as (s1 & E1 & Hm1 & K1 & P1); [lia..|].
  destruct (mark_bits_ok (S (Z.to_nat len)) s1 (mi s1) 0) as (s' & E2 & Hm2 & K2 & P2).
  { destruct K1 as [-> _]. done. }
  { lia. }
  { lia. }
  exists s1, s'. split; [done|]. split; [done|].
  assert (K : kept (mi s) (mi s' + 1) (mbuf s) (mbuf s')).
  { eapply kept_weaken; [eapply kept_trans; [exact K1|exact K2]|lia|lia]. }
  split.
  { split; [destruct K as [-> _]; done|]. split; [lia|]. intros k Hk. destruct K as [_ K]. rewrite K by lia. apply Hn. lia. }
  split; [done|]. destruct (decide (mi s < mi s')); [by left|right].
  assert (mi s1 = mi s) as Em1 by lia. destruct (P1 Em1) as [-> Hp]. assert (mi s' = mi s) as Em by lia. split; [done|].
  destruct (P2 Em) as [[? _]|(c & d & Ec & Ed & Eb & Es & Ea' & Eb')]; [lia|].
  unfold stuck. rewrite Em, !(arr_get_set _ _ _ _ _ Es), Z.eqb_refl. replace (mi s + 1 =? mi s) with false by lia. split.
  { split; [done|]. split; [done|]. by rewrite Ed, Eb'. }
  intros (_ & Fc & Fd). rewrite Ec in Fc. rewrite Ed in Fd. injection Fc as ->. injection Fd as ->.
  split; [done|]. intros Ha. rewrite Ha in Eb. apply single_manchester_stuck in Eb; [done|].
  intros Hb. apply (Hn (mi s + 1)); [lia|]. by rewrite Ed, Hb.
Qed.

(** How many more turns a sample can take. *)
Definition turns (s : mstate) (p : Z) : Prop :=
  p = 0 /\ stuck s /\ ma s = BADSAMPLE \/ p = 1 /\ stuck s \/ p = 2.

Lemma manchester_loop_ok fuel s p :
  running s -> turns s p -> 3 * (len - mi s) + p < Z.of_nat fuel ->
  exists s', manchester_loop fuel quality allowed_errors len s = Some s' /\ kept (mi s) (len + 1) (mbuf s) (mbuf s').
Proof.
  revert s p. induction fuel as [|fuel IH]; intros s p Hr Hp Hf.
  { exfalso. destruct Hr as (_ & ? & _). unfold turns in Hp. lia. }
  cbn [manchester_loop]. destruct (Z.ltb_spec (mi s) (len - 1)); [|by exists s].
  destruct (scan_turn_ok s Hr) as (s1 & s' & -> & E & Hr' & K & Hgo); [done|]. cbn [mbind option_bind]. rewrite E. cbn [mbind option_bind].
  assert (exists p', turns s' p' /\ 3 * (len - mi s') + p' < Z.of_nat fuel) as (p' & Hp' & Hf').
  { destruct Hgo as [Hgo|(Em & Hs & Hgo)].
    - exists 2. split; [by do 2 right|]. unfold turns in Hp. lia.
    - rewrite Em. destruct Hp as [(-> & Hs0 & Ha)|[(-> & Hs0)| ->]].
      + by destruct (Hgo Hs0).
      + exists 0. destruct (Hgo Hs0). split; [by left|lia].
      + exists 1. split; [by right; left|lia]. }
  destruct (IH s' p' Hr' Hp' Hf') as (s'' & -> & K'). exists s''. split; [done|].
  assert (mi s <= mi s' <= len) by (destruct Hr' as (_ & ? & _); destruct Hgo as [|(? & _)]; lia).
  eapply kept_weaken; [eapply kept_trans; [exact K|exact K']|lia|lia].
Qed.
End loops.

(** ** Magnitudes *)

(** A magnitude is a sum of two squares: at most 2 * 128 * 128, and never 255. *)
Definition is_magnitude (x : Z) : Prop := 0 <= x <= 32768 /\ x mod 4 <> 3.

Lemma squares_ok i : is_u8 i -> exists s, arr_get squares i = Some s /\ 0 <= s <= 16384 /\ (s mod 4 = 0 \/ s mod 4 = 1).
Proof.
  intros Hi.
  pose proof (u8_all (fun i => match arr_get squares i with
    | Some s => (0 <=? s) && (s <=? 16384) && ((s mod 4 =? 0) || (s mod 4 =? 1)) | None => false end) eq_refl i Hi) as H.
  cbn beta in H. destruct (arr_get squares i) as [s|]; [|done]. exists s. split; [done|lia].
Qed.

Lemma magnitute_ok (iq : list Z) : forall n, length iq = (2 * n)%nat -> Forall is_u8 iq ->
  exists m, magnitute iq = Some m /\ length m = n /\ Forall is_magnitude m.
Proof.
  intros n. revert iq. induction n as [|n IH]; intros iq Hl Hu.
  { destruct iq; [|done]. by exists []. }
  destruct iq as [|i [|q iq]]; cbn [length] in Hl; [lia..|].
  apply Forall_cons in Hu as [Hi Hu]. apply Forall_cons in Hu as [Hq Hu]. cbn [magnitute].
  destruct (squares_ok i Hi) as (si & -> & Bi & Mi), (squares_ok q Hq) as (sq & -> & Bq & Mq). cbn [mbind option_bind].
  destruct (IH iq ltac:(lia) Hu) as (m & -> & Lm & Hm). cbn [mbind option_bind].
  eexists. split; [done|]. cbn [length]. split; [lia|]. constructor; [|done].
  rewrite u16_small by (unfold is_u16; lia). split; [lia|].
  rewrite Z.add_mod by lia. destruct Mi as [-> | ->], Mq as [-> | ->]; done.
Qed.

Lemma magnitudes_run m i : Forall is_magnitude m -> arr_get m i <> Some BADSAMPLE.
Proof.
  intros Hm Hi. pose proof (arr_get_range _ _ _ Hi) as Hr. rewrite arr_get_lookup in Hi by lia.
  eapply Forall_lookup_1 in Hi; [|done]. destruct Hi as [_ Hi]. by apply Hi.
Qed.

Lemma running_start m a b : Forall is_magnitude m -> running (Z.of_nat (length m)) (mk_mstate m 0 a b).
Proof. intros Hm. split; [done|]. cbn [mi mbuf]. split; [lia|]. intros k _. by apply magnitudes_run. Qed.

(** With a sample 255 and no allowed errors the loop does not end. *)
Lemma manchester_255_loops fuel :
  manchester_loop fuel 10 0 2 (mk_mstate [BADSAMPLE; BADSAMPLE] 0 BADSAMPLE BADSAMPLE) = None.
Proof. induction fuel as [|fuel IH]; [done|]. exact IH. Qed.

(** ** Frames *)

Lemma collect_ok l : forall data_i frame_len frame,
  0 <= data_i -> frame_len <= long_frame -> length frame = 14%nat ->
  exists rest d fl fr, collect l data_i frame_len frame = Some (rest, d, fl, fr) /\ (length rest <= length l)%nat.
Proof.
  induction l as [|x l IH]; intros data_i frame_len frame Hd Hf Hl; cbn [collect]; [by eexists _, _, _, _|].
  unfold long_frame in Hf. destruct ((x <=? 1) && (data_i <? frame_len)) eqn:E; [|by eexists _, _, _, _].
  assert (exists fr, (if truthy x then f ← arr_get frame (data_i / 8); arr_set frame (data_i / 8) (f .| u8 (1 ≪ (7 - data_i mod 8)))
                      else Some frame) = Some fr /\ length fr = 14%nat) as (fr & -> & Lf).
  { destruct (truthy x); [|by exists frame].
    assert (0 <= data_i / 8 < 14) by (split; [by apply Z.div_pos|apply Z.div_lt_upper_bound; lia]).
    destruct (arr_get_ok frame (data_i / 8) ltac:(lia)) as [f ->]. cbn [mbind option_bind].
    rewrite arr_set_ok by lia. eexists. split; [done|]. by rewrite length_insert. }
  cbn [mbind option_bind].
  assert (forall fl, fl <= 112 -> exists rest d fl' fr', collect l (data_i + 1) fl fr = Some (rest, d, fl', fr') /\ (length rest <= length (x :: l))%nat) as Hc.
  { intros fl Hfl. destruct (IH (data_i + 1) fl fr) as (rest & d & fl' & fr' & -> & ?); [lia|done|done|].
    eexists _, _, _, _. split; [done|]. cbn [length]. lia. }
  destruct (data_i =? 7); [|by apply Hc].
  destruct (arr_get_ok fr 0 ltac:(lia)) as [f0 ->]. cbn [mbind option_bind].
  destruct (f0 =? 0); [by eexists _, _, _, _|]. apply Hc. by destruct (truthy _).
Qed.

Lemma messages_ok fuel l : (length l < fuel)%nat -> exists fs, messages fuel l = Some fs.
Proof.
  revert l. induction fuel as [|fuel IH]; intros [|x l] Hl; cbn [length messages] in *; [lia..|by eexists|].
  destruct (1 <? x); [apply IH; lia|].
  destruct (collect_ok (x :: l) 0 long_frame (replicate 14 0)) as (rest & d & fl & fr & -> & Hr); [done..|].
  cbn [mbind option_bind]. destruct (IH (tail rest)) as [fs ->]; [destruct rest; cbn in *; lia|]. cbn [mbind option_bind]. by eexists.
Qed.

Lemma manchester_ok quality allowed_errors m : Forall is_magnitude m ->
  exists m', manchester quality allowed_errors m (Z.of_nat (length m)) = Some m' /\ length m' = length m.
Proof.
  intros Hm. unfold manchester. rewrite Nat2Z.id.
  destruct (manchester_loop_ok quality allowed_errors (Z.of_nat (length m)) (3 * length m + 4) (mk_mstate m 0 0 0) 2) as (s & -> & [Ls _]).
  { by apply running_start. }
  { by do 2 right. }
  { cbn [mi]. lia. }
  cbn [mbind option_bind]. eexists. split; [done|]. exact Ls.
Qed.

(** Rtl_adsb's demodulation ends on every buffer of I/Q bytes, with every
    quality and every number of allowed errors (also 0 or less), and reads and
    writes only inside the buffer and the frame.  The search for messages would
    not end with a sample of 255 when no errors are allowed
    ([manchester_255_loops]); a magnitude, being a sum of two squares, is never
    255. *)
Theorem adsb_demod_ends (o : display_options) (allowed_errors : Z) (iq : list Z) :
  Forall is_u8 iq -> Nat.Even (length iq) -> exists text, demod o allowed_errors iq = Some text.
Proof.
  intros Hu [n Hn]. destruct (magnitute_ok iq n Hn Hu) as (m & E & _ & Hm). unfold demod. rewrite E. cbn [mbind option_bind].
  destruct (manchester_ok (d_quality o) allowed_errors m Hm) as (m' & -> & _). cbn [mbind option_bind].
  destruct (messages_ok (S (length m')) m') as [fs ->]; [lia|]. by eexists.
Qed.

Lemma adsb_demod_ends_witness : exists text, demod (mk_display true true 10) 0 (replicate 64 127) = Some text.
Proof.
  refine (adsb_demod_ends (mk_display true true 10) 0 (replicate 64 127) _ _).
  - apply Forall_replicate. by compute.
  - exists 32%nat. reflexivity.
Defined.

(** ** A frame on the air *)

(** The samples of bits, each a pulse in the first or the second half; a sample
    is high above [lo]. *)
Fixpoint coded (lo : Z) (bits : list bool) (samples : list Z) : Prop :=
  match bits, samples with
  | [], [] => True
  | b :: bits', x :: y :: samples' => (if b then y <= lo < x else x <= lo < y) /\ coded lo bits' samples'
  | _, _ => False
  end.

(** The sixteen samples of a preamble. *)
Definition preamble_shape (lo : Z) (pre : list Z) : Prop :=
  length pre = 16%nat /\ forall k x, pre !! k = Some x -> if is_high (Z.of_nat k) then lo < x else x <= lo.

(** The bytes of a frame, the first bit of each the most significant. *)
Definition byte8 (b0 b1 b2 b3 b4 b5 b6 b7 : bool) : Z :=
  b2z b0 * 128 + b2z b1 * 64 + b2z b2 * 32 + b2z b3 * 16 + b2z b4 * 8 + b2z b5 * 4 + b2z b6 * 2 + b2z b7.
Definition byte_at (f : nat -> bool) (j : nat) : Z :=
  let g k := f (8 * j + k)%nat in byte8 (g 0%nat) (g 1%nat) (g 2%nat) (g 3%nat) (g 4%nat) (g 5%nat) (g 6%nat) (g 7%nat).
Definition pack (f : nat -> bool) : list Z := map (byte_at f) (seq 0 14).
Definition frame_bytes (bits : list bool) : list Z := pack (fun k => nth k bits false).

(** A frame is long or short by its first bit; the first byte is not zero. *)
Definition well_formed (bits : list bool) : Prop :=
  length bits = (if nth 0 bits false then 112 else 56)%nat /\ exists k, (k < 8)%nat /\ nth k bits false = true.

Section coded.
Context (quality allowed_errors len lo : Z).

Definition symbol (a b : Z) : Prop := b <= lo < a \/ a <= lo < b.

(** One bit after another is decoded, whatever the quality. *)
Lemma single_manchester_coded (bit : bool) a b c d :
  symbol a b -> (if bit then d <= lo < c else c <= lo < d) -> single_manchester quality a b c d = b2z bit.
Proof.
  unfold symbol, single_manchester. intros Hs Hb.
  destruct (quality =? 0), (quality =? 5), (quality =? 10), bit; unfold b2z, BADSAMPLE in *; repeat case_match; lia.
Qed.

Lemma mark_bits_coded bits : forall samples fuel s i2,
  coded lo bits samples -> symbol (ma s) (mb s) -> 0 <= i2 <= mi s -> has_at (mbuf s) (mi s) samples ->
  len = Z.of_nat (length (mbuf s)) ->
  exists s', mark_bits (length bits + fuel) quality allowed_errors len s i2 0
             = mark_bits fuel quality allowed_errors len s' (i2 + Z.of_nat (length bits)) 0 /\
    mi s' = mi s + 2 * Z.of_nat (length bits) /\ has_at (mbuf s') i2 (map b2z bits) /\
    kept i2 (mi s') (mbuf s) (mbuf s').
Proof.
  induction bits as [|bit bits IH]; intros samples fuel s i2 Hc Hs Hi Ha Hl.
  { exists s. cbn [length Nat.add]. rewrite Z.add_0_r. split; [done|]. split; [lia|]. split; [apply has_at_nil|done]. }
  destruct samples as [|c [|d samples]]; [done..|]. cbn [coded] in Hc. destruct Hc as [Hb Hc].
  apply has_at_cons in Ha as [Ec Ha]. apply has_at_cons in Ha as [Ed Ha].
  cbn [length Nat.add mark_bits]. pose proof (arr_get_range _ _ _ Ed). replace (mi s <? len - 1) with true by lia.
  rewrite Ec, Ed. cbn [mbind option_bind]. rewrite (single_manchester_coded bit _ _ _ _ Hs Hb).
  replace (b2z bit =? BADSAMPLE) with false by (by destruct bit). cbn [andb].
  destruct (mark_ok (mbuf s) (mi s) i2 (b2z bit) Hi ltac:(lia)) as (b1 & b2 & b3 & -> & E2 & E3 & K & Klo & Kb).
  cbn [mbind option_bind]. rewrite E2. cbn [mbind option_bind]. rewrite E3. cbn [mbind option_bind].
  destruct (IH samples fuel (mk_mstate b3 (mi s + 2) c d) (i2 + 1) Hc) as (s' & -> & Em & Hat & K'); cbn [ma mb mi mbuf] in *.
  { destruct bit; unfold symbol; lia. }
  { lia. }
  { replace (mi s + 1 + 1) with (mi s + 2) in Ha by lia. eapply has_at_ext; [exact Ha|]. intros k Hk. apply K. lia. }
  { destruct K as [-> _]. done. }
  exists s'. split; [f_equal; lia|]. split; [lia|]. split.
  - cbn [map]. apply has_at_cons. split; [|done]. destruct K' as [_ K']. rewrite K' by lia. done.
  - eapply kept_weaken; [eapply kept_trans; [exact K|exact K']|lia|lia].
Qed.

(** A preamble is found. *)
Lemma preamble_loop_shape buf i is2 : forall low high,
  Forall (fun i2 => exists x, arr_get buf (i + i2) = Some x /\ if is_high i2 then lo < x else x <= lo) is2 ->
  low <= lo -> lo < high -> preamble_loop is2 buf i low high = Some 1.
Proof.
  induction is2 as [|i2 is2 IH]; intros low high Hf Hlow Hhigh; cbn [preamble_loop]; [done|].
  apply Forall_cons in Hf as [(x & -> & Hx) Hf]. cbn [mbind option_bind].
  destruct (is_high i2); (replace (_ <=? _) with false by lia); by apply IH.
Qed.

Lemma preamble_shape_found buf i pre :
  preamble_shape lo pre -> has_at buf i pre -> 0 <= lo < 65535 -> preamble buf i = Some 1.
Proof.
  intros [Hl Hp] Ha Hlo. apply preamble_loop_shape; [|lia|lia].
  apply Forall_forall. intros i2 Hi2%elem_of_zseq.
  destruct (lookup_lt_is_Some_2 pre (Z.to_nat i2) ltac:(lia)) as [x Hx]. exists x. split.
  - rewrite <- (Z2Nat.id i2) by lia. by apply Ha.
  - specialize (Hp _ _ Hx). by rewrite Z2Nat.id in Hp by lia.
Qed.

Lemma find_preamble_found n : forall fuel s pre,
  (forall j, (j < n)%nat -> preamble (mbuf s) (mi s + Z.of_nat j) = Some 0) ->
  preamble_shape lo pre -> has_at (mbuf s) (mi s + Z.of_nat n) pre -> 0 <= lo < 65535 -> 0 <= mi s ->
  len = Z.of_nat (length (mbuf s)) -> mi s + Z.of_nat n < len - 16 ->
  exists s', find_preamble (S n + fuel) len s = Some s' /\ mi s' = mi s + Z.of_nat n + 16 /\ symbol (ma s') (mb s') /\
    kept (mi s + Z.of_nat n) (mi s') (mbuf s) (mbuf s') /\
    has_at (mbuf s') (mi s + Z.of_nat n) (replicate 16 MESSAGEGO).
Proof.
  induction n as [|n IH]; intros fuel s pre Hn Hp Ha Hlo Hi Hl Hlen; cbn [Nat.add find_preamble]; unfold preamble_len.
  - replace (mi s <? len - 16) with true by lia. rewrite Z.add_0_r in *.
    rewrite (preamble_shape_found _ _ pre) by done. cbn [mbind option_bind]. change (1 =? 0) with false. cbn match.
    assert (forall k x, pre !! k = Some x -> arr_get (mbuf s) (mi s + Z.of_nat k) = Some x) as Hk by done.
    destruct Hp as [Hpl Hp]. destruct pre as [|a [|b pre]]; [done..|].
    pose proof (Hk 0%nat a eq_refl) as Ea. rewrite Z.add_0_r in Ea. pose proof (Hk 1%nat b eq_refl) as Eb.
    change (Z.of_nat 1) with 1 in Eb. rewrite Ea, Eb. cbn [mbind option_bind].
    destruct (mark_preamble_ok (zseq 16) (mbuf s) (mi s) Hi) as (buf & -> & K & G).
    { repeat constructor; lia. }
    { lia. }
    cbn [mbind option_bind]. eexists. split; [done|]. cbn [mi ma mb mbuf]. split; [lia|]. split.
    { left. split; [apply (Hp 1%nat b eq_refl)|apply (Hp 0%nat a eq_refl)]. }
    split; [done|]. intros k v Hv. apply lookup_replicate in Hv as [-> Hv]. rewrite G, bool_decide_true; [done|].
    apply elem_of_zseq. lia.
  - replace (mi s <? len - 16) with true by lia. pose proof (Hn O ltac:(lia)) as H0. rewrite Z.add_0_r in H0. rewrite H0.
    cbn [mbind option_bind]. change (0 =? 0) with true. cbn match.
    destruct (IH fuel (mk_mstate (mbuf s) (mi s + 1) (ma s) (mb s)) pre) as (s' & E & Hs'); cbn [mi mbuf] in *.
    + intros j Hj. replace (mi s + 1 + Z.of_nat j) with (mi s + Z.of_nat (S j)) by lia. apply Hn. lia.
    + done.
    + replace (mi s + 1 + Z.of_nat n) with (mi s + Z.of_nat (S n)) by lia. done.
    + done.
    + lia.
    + done.
    + lia.
    + exists s'. split; [exact E|]. by replace (mi s + 1 + Z.of_nat n) with (mi s + Z.of_nat (S n)) in Hs' by lia.
Qed.
End coded.

(** ** Collecting the bits *)

Lemma byte_at_ext f g j : (forall k, (k < 8)%nat -> f (8 * j + k)%nat = g (8 * j + k)%nat) -> byte_at f j = byte_at g j.
Proof. intros H. unfold byte_at. cbv zeta. by rewrite !H by lia. Qed.

Lemma lookup_pack f j : (j < 14)%nat -> pack f !! j = Some (byte_at f j).
Proof. intros Hj. unfold pack. rewrite list_lookup_fmap, lookup_seq_lt by done. done. Qed.

(** The bits from 0 to [n], the others 0. *)
Definition upto (n : nat) (bits : list bool) : nat -> bool := fun k => bool_decide (k < n)%nat && nth k bits false.

Lemma byte8_set (b0 b1 b2 b3 b4 b5 b6 b7 : bool) :
  byte8 b0 b1 b2 b3 b4 b5 b6 true = byte8 b0 b1 b2 b3 b4 b5 b6 false .| 1 /\
  byte8 b0 b1 b2 b3 b4 b5 true false = byte8 b0 b1 b2 b3 b4 b5 false false .| 2 /\
  byte8 b0 b1 b2 b3 b4 true false false = byte8 b0 b1 b2 b3 b4 false false false .| 4 /\
  byte8 b0 b1 b2 b3 true false false false = byte8 b0 b1 b2 b3 false false false false .| 8 /\
  byte8 b0 b1 b2 true false false false false = byte8 b0 b1 b2 false false false false false .| 16 /\
  byte8 b0 b1 true false false false false false = byte8 b0 b1 false false false false false false .| 32 /\
  byte8 b0 true false false false false false false = byte8 b0 false false false false false false false .| 64 /\
  byte8 true false false false false false false false = byte8 false false false false false false false false .| 128.
Proof. split_and!; destruct b0, b1, b2, b3, b4, b5, b6; reflexivity. Qed.

(** Bit [8 * j + r] goes into byte [j]. *)
Lemma byte_at_upto bits j r :
  (r < 8)%nat -> nth (8 * j + r) bits false = true ->
  byte_at (upto (S (8 * j + r)) bits) j = byte_at (upto (8 * j + r) bits) j .| u8 (1 ≪ (7 - Z.of_nat r)).
Proof.
  intros Hr Hb. unfold byte_at, upto. cbv zeta.
  assert (r = 0 \/ r = 1 \/ r = 2 \/ r = 3 \/ r = 4 \/ r = 5 \/ r = 6 \/ r = 7)%nat as Er by lia.
  destruct_or! Er; subst r;
    repeat match goal with
    | |- context [bool_decide (?a < ?b)%nat] =>
        first [rewrite (bool_decide_true (a < b)%nat) by lia | rewrite (bool_decide_false (a < b)%nat) by lia] end;
    rewrite Hb; cbn [andb]; apply byte8_set.
  Unshelve. all: exact true.
Qed.

Lemma byte_at_other bits j n : n / 8 <> Z.of_nat j -> 0 <= n -> byte_at (upto (S (Z.to_nat n)) bits) j = byte_at (upto (Z.to_nat n) bits) j.
Proof.
  intros Hj Hn. apply byte_at_ext. intros k Hk. unfold upto. f_equal. apply bool_decide_ext.
  assert (n <> 8 * Z.of_nat j + Z.of_nat k); [|lia].
  intros ->. apply Hj. rewrite Z.mul_comm, Z.div_add_l, Z.div_small by lia. lia.
Qed.

(** A bit that is 0 changes nothing. *)
Lemma pack_zero bits n : nth n bits false = false -> pack (upto (S n) bits) = pack (upto n bits).
Proof.
  intros Hb. apply map_ext. intros j. apply byte_at_ext. intros k _. unfold upto.
  destruct (decide (8 * j + k = n)%nat) as [E|E].
  - rewrite E, Hb. by rewrite !andb_false_r.
  - f_equal. apply bool_decide_ext. lia.
Qed.

(** The step of [collect] that stores a bit. *)
Lemma store_bit bits n (b : bool) :
  (n < 112)%nat -> nth n bits false = b ->
  (if truthy (b2z b) then
     f ← arr_get (pack (upto n bits)) (Z.of_nat n / 8);
     arr_set (pack (upto n bits)) (Z.of_nat n / 8) (f .| u8 (1 ≪ (7 - Z.of_nat n mod 8)))
   else Some (pack (upto n bits))) = Some (pack (upto (S n) bits)).
Proof.
  intros Hn Hb. destruct b; cbn [b2z truthy]; [|by rewrite pack_zero].
  change (truthy 1) with true. cbn match.
  pose proof (Z.div_mod (Z.of_nat n) 8 ltac:(lia)) as Hdm. pose proof (Z.mod_pos_bound (Z.of_nat n) 8 ltac:(lia)) as Hm.
  set (q := Z.of_nat n / 8) in *. set (r := Z.of_nat n mod 8) in *.
  rewrite arr_get_lookup, lookup_pack by lia. cbn [mbind option_bind].
  rewrite arr_set_ok by (unfold pack; rewrite length_map, length_seq; lia). f_equal.
  assert (En : n = (8 * Z.to_nat q + Z.to_nat r)%nat) by lia.
  apply list_eq. intros j. destruct (decide (j < 14)%nat) as [Hj|Hj].
  - rewrite lookup_pack by done. destruct (decide (j = Z.to_nat q)) as [->|Hne].
    + rewrite list_lookup_insert_eq by (unfold pack; rewrite length_map, length_seq; lia). f_equal.
      rewrite En, byte_at_upto by (lia || by rewrite <- En). by rewrite Z2Nat.id by lia.
    + rewrite list_lookup_insert_ne by done. rewrite lookup_pack by done. f_equal.
      rewrite <- (Nat2Z.id n). rewrite byte_at_other; [done| |lia]. unfold q in Hne. lia.
  - rewrite !lookup_ge_None_2; [done|..]; rewrite ?length_insert; unfold pack; rewrite length_map, length_seq; lia.
Qed.

(** The first byte: the length of the frame, and not zero. *)
Lemma byte8_head b0 b1 b2 b3 b4 b5 b6 b7 : truthy (byte8 b0 b1 b2 b3 b4 b5 b6 b7 .& 0x80) = b0.
Proof. destruct b0, b1, b2, b3, b4, b5, b6, b7; reflexivity. Qed.

Lemma first_byte bits :
  well_formed bits ->
  arr_get (pack (upto 8 bits)) 0 = Some (byte_at (upto 8 bits) 0) /\ byte_at (upto 8 bits) 0 <> 0 /\
  (if truthy (byte_at (upto 8 bits) 0 .& 0x80) then long_frame else short_frame) = Z.of_nat (length bits).
Proof.
  intros [Hl (k & Hk & Hb)]. split; [done|]. split.
  - assert (upto 8 bits k = true) as Hu by (unfold upto; by rewrite bool_decide_true).
    assert (k = 0 \/ k = 1 \/ k = 2 \/ k = 3 \/ k = 4 \/ k = 5 \/ k = 6 \/ k = 7)%nat as Ek by lia.
    unfold byte_at. cbv zeta. cbn [Nat.mul Nat.add]. unfold byte8.
    assert (forall b, 0 <= b2z b) as H0 by (intros []; done).
    pose proof (fun j => H0 (upto 8 bits j)) as Hg.
    pose proof (Hg 0%nat). pose proof (Hg 1%nat). pose proof (Hg 2%nat). pose proof (Hg 3%nat).
    pose proof (Hg 4%nat). pose proof (Hg 5%nat). pose proof (Hg 6%nat). pose proof (Hg 7%nat).
    destruct_or! Ek; subst k; rewrite Hu; change (b2z true) with 1; lia.
  - unfold byte_at. cbv zeta. rewrite byte8_head. change (upto 8 bits (8 * 0 + 0)%nat) with (nth 0 bits false).
    rewrite Hl. by destruct (nth 0 bits false).
Qed.

(** The limit that is in force at bit [n]. *)
Definition limit (n : nat) (bits : list bool) : Z := if (n <? 8)%nat then long_frame else Z.of_nat (length bits).

Lemma collect_from bits rest k : well_formed bits -> forall n, (n + k = length bits)%nat ->
  collect (map b2z (drop n bits) ++ rest) (Z.of_nat n) (limit n bits) (pack (upto n bits))
  = Some (rest, Z.of_nat (length bits), Z.of_nat (length bits), frame_bytes bits).
Proof.
  intros Hw. assert (Hl : (56 <= length bits <= 112)%nat) by (destruct Hw as [-> _]; destruct (nth 0 bits false); lia).
  induction k as [|k IH]; intros n Hn.
  - rewrite drop_ge by lia. rewrite Nat.add_0_r in Hn. subst n. unfold limit.
    replace (length bits <? 8)%nat with false by lia.
    assert (pack (upto (length bits) bits) = frame_bytes bits) as ->.
    { apply map_ext. intros j. apply byte_at_ext. intros k _. unfold upto. case_bool_decide as E; [done|].
      by rewrite nth_overflow by lia. }
    destruct rest as [|x rest]; cbn [map app collect]; [done|]. by rewrite Z.ltb_irrefl, andb_false_r.
  - destruct (lookup_lt_is_Some_2 bits n ltac:(lia)) as [b Hb]. rewrite (drop_S _ _ _ Hb). cbn [map app collect].
    replace ((b2z b <=? 1) && (Z.of_nat n <? limit n bits)) with true
      by (unfold limit, long_frame; destruct b; cbn [b2z]; destruct (n <? 8)%nat eqn:?; lia).
    rewrite (store_bit bits n b) by (lia || by apply nth_lookup_Some). cbn [mbind option_bind].
    specialize (IH (S n) ltac:(lia)). replace (Z.of_nat (S n)) with (Z.of_nat n + 1) in IH by lia.
    destruct (Z.eqb_spec (Z.of_nat n) 7) as [E|E].
    + assert (n = 7%nat) as -> by lia. destruct (first_byte bits Hw) as (-> & Hne & Hlen). cbn [mbind option_bind].
      replace (byte_at (upto 8 bits) 0 =? 0) with false by lia. rewrite Hlen. exact IH.
    + rewrite <- IH. f_equal. unfold limit. destruct (n <? 8)%nat eqn:E1, (S n <? 8)%nat eqn:E2; done || lia.
Qed.

Lemma collect_bits bits rest :
  well_formed bits ->
  collect (map b2z bits ++ rest) 0 long_frame (replicate 14 0)
  = Some (rest, Z.of_nat (length bits), Z.of_nat (length bits), frame_bytes bits).
Proof. intros Hw. exact (collect_from bits rest (length bits) Hw 0 eq_refl). Qed.

Lemma messages_skip l : forall fuel rest,
  Forall (fun x => 1 < x) l -> (length (l ++ rest) < fuel)%nat ->
  exists fuel', messages fuel (l ++ rest) = messages fuel' rest /\ (length rest < fuel')%nat.
Proof.
  induction l as [|x l IH]; intros fuel rest Hf Hl; cbn [app length] in *; [by exists fuel|].
  apply Forall_cons in Hf as [Hx Hf]. destruct fuel as [|fuel]; [lia|]. cbn [messages].
  replace (1 <? x) with true by lia. apply IH; [done|lia].
Qed.

Lemma messages_frame fuel bits rest :
  well_formed bits -> (length (map b2z bits ++ rest) < fuel)%nat ->
  exists fs, messages fuel (map b2z bits ++ rest) = Some ((frame_bytes bits, Z.of_nat (length bits)) :: fs).
Proof.
  intros Hw Hl. pose proof (collect_bits bits rest Hw) as Hc.
  assert (Hn : (0 < length bits)%nat) by (destruct Hw as [-> _]; destruct (nth 0 bits false); lia).
  destruct fuel as [|fuel]; [lia|]. destruct bits as [|b bits]; [cbn in Hn; lia|]. cbn [map app length] in *. cbn [messages].
  replace (1 <? b2z b) with false by (by destruct b). rewrite Hc. cbn [mbind option_bind].
  destruct (messages_ok fuel (tail rest)) as [fs ->].
  { rewrite length_app in Hl. destruct rest; cbn [tail length] in *; lia. }
  cbn [mbind option_bind]. eexists. replace (_ <? _) with false by lia. done.
Qed.

(** ** A frame is decoded *)

Lemma coded_length lo bits : forall samples, coded lo bits samples -> length samples = (2 * length bits)%nat.
Proof.
  induction bits as [|b bits IH]; intros [|x [|y samples]]; cbn [coded length]; try done.
  intros [_ Hc]. rewrite (IH _ Hc). lia.
Qed.

Lemma manchester_frame quality allowed_errors lo prefix pre body rest bits :
  let m := prefix ++ pre ++ body ++ rest in
  Forall is_magnitude m -> (forall j, (j < length prefix)%nat -> preamble m (Z.of_nat j) = Some 0) ->
  preamble_shape lo pre -> coded lo bits body -> bits <> [] -> 0 <= lo < 65535 ->
  exists r, manchester quality allowed_errors m (Z.of_nat (length m))
            = Some (prefix ++ replicate 16 MESSAGEGO ++ map b2z bits ++ r).
Proof.
  intros m Hm Hpre Hp Hc Hb Hlo. pose proof (coded_length _ _ _ Hc) as Lb.
  assert (Lm : length m = (length prefix + (16 + (2 * length bits + length rest)))%nat)
    by (unfold m; rewrite !length_app; destruct Hp as [-> _]; lia).
  assert (length bits <> 0%nat) by (destruct bits; done).
  pose proof (has_at_self m) as Ha. unfold m at 2 in Ha.
  apply has_at_app in Ha as [Ha0 Ha]. apply has_at_app in Ha as [Ha1 Ha]. apply has_at_app in Ha as [Ha2 _].
  destruct Hp as [Hpl Hp]. rewrite Hpl in Ha2. rewrite Z.add_0_l in *.
  set (len := Z.of_nat (length m)) in *. set (n := length prefix) in *.
  assert (Ef : Z.to_nat len = length m) by lia.
  unfold manchester. rewrite Ef. replace (3 * length m + 4)%nat with (S (3 * length m + 3)) by lia.
  cbn [manchester_loop mi]. replace (0 <? len - 1) with true by lia.
  destruct (find_preamble_found len lo n (length m - n) (mk_mstate m 0 0 0) pre) as (s1 & E1 & Em1 & Hs1 & K1 & M1);
    cbn [mi mbuf] in *; try (done || lia).
  replace (S n + (length m - n))%nat with (S (length m)) in E1 by lia.
  rewrite Ef, E1. cbn [mbind option_bind]. rewrite Z.add_0_l in *.
  destruct (mark_bits_coded quality allowed_errors len lo bits body (S (length m) - length bits) s1 (mi s1))
    as (s2 & E2 & Em2 & B2 & K2); try (done || lia).
  { eapply has_at_ext; [replace (mi s1) with (Z.of_nat n + Z.of_nat 16) by lia; exact Ha2|]. intros k Hk. apply K1. lia. }
  { destruct K1 as [-> _]. done. }
  replace (length bits + (S (length m) - length bits))%nat with (S (length m)) in E2 by lia. rewrite E2.
  destruct (mark_bits_ok quality allowed_errors len (S (length m) - length bits) s2 (mi s1 + Z.of_nat (length bits)) 0)
    as (s3 & -> & Em3 & K3 & _); try lia.
  { destruct K2 as [-> _]. destruct K1 as [-> _]. done. }
  cbn [mbind option_bind].
  assert (K13 : kept (mi s1) (mi s3 + 1) (mbuf s1) (mbuf s3)).
  { eapply kept_weaken; [eapply kept_trans; [exact K2|exact K3]|lia|lia]. }
  assert (K03 : kept (Z.of_nat n) (mi s3 + 1) m (mbuf s3)).
  { eapply kept_weaken; [eapply kept_trans; [exact K1|exact K13]|lia|lia]. }
  destruct (manchester_loop_ok quality allowed_errors len (3 * length m + 3) s3 2) as (s4 & -> & K4).
  { split; [destruct K03 as [-> _]; done|]. split; [lia|]. intros k Hk. destruct K03 as [_ K03]. rewrite K03 by lia.
    by apply magnitudes_run. }
  { by do 2 right. }
  { lia. }
  cbn [mbind option_bind].
  assert (has_at (mbuf s4) 0 (prefix ++ replicate 16 MESSAGEGO ++ map b2z bits)) as [r Hr]%has_at_prefix.
  { apply has_at_app. split; [|apply has_at_app; split].
    - eapply has_at_ext; [exact Ha0|]. intros k Hk. destruct K4 as [_ K4], K03 as [_ K03]. rewrite K4, K03 by lia. done.
    - eapply has_at_ext; [exact M1|]. intros k Hk. rewrite length_replicate in Hk. destruct K4 as [_ K4], K13 as [_ K13].
      rewrite K4, K13 by lia. done.
    - rewrite length_replicate. fold n. replace (0 + Z.of_nat n + Z.of_nat 16) with (mi s1) by lia.
      eapply has_at_ext; [exact B2|]. intros k Hk. rewrite length_map in Hk. destruct K4 as [_ K4], K3 as [_ K3].
      rewrite K4, K3 by lia. done. }
  exists r. rewrite Hr. by rewrite <- !app_assoc.
Qed.

Lemma concat_cons x l : String.concat "" (x :: l) = (x +:+ String.concat "" l)%string.
Proof. destruct l as [|y l]; [|done]. change (x = (x +:+ "")%string). induction x as [|c x IH]; [done|]. exact (f_equal (String c) IH). Qed.

(** C8: rtl_adsb decodes: when the magnitudes of the I/Q bytes are noise in which
    there is no preamble, then a preamble, then the Manchester code of a frame
    (112 bits when the first bit is set, else 56, the first byte not zero), then
    anything, that frame is the first that is printed, bit for bit.  The pulses
    only have to be above some level [lo], the gaps not; this holds for every
    quality and every number of allowed errors.  The noise before has to be above 1,
    since the program takes samples of 0 and 1 for bits. *)
Theorem adsb_frame_decoded (o : display_options) (allowed_errors lo : Z) (iq prefix pre body rest : list Z) (bits : list bool) :
  Forall is_u8 iq -> Nat.Even (length iq) -> magnitute iq = Some (prefix ++ pre ++ body ++ rest) ->
  Forall (fun x => 1 < x) prefix ->
  (forall j, (j < length prefix)%nat -> preamble (prefix ++ pre ++ body ++ rest) (Z.of_nat j) = Some 0) ->
  preamble_shape lo pre -> coded lo bits body -> well_formed bits -> 0 <= lo < 65535 ->
  exists text, demod o allowed_errors iq = Some (display o (frame_bytes bits) (Z.of_nat (length bits)) +:+ text)%string.
Proof.
  intros Hu [n Hn] E Hnoise Hpre Hp Hc Hw Hlo. destruct (magnitute_ok iq n Hn Hu) as (m & E' & _ & Hm).
  rewrite E in E'. injection E' as <-. unfold demod. rewrite E. cbn [mbind option_bind].
  destruct (manchester_frame (d_quality o) allowed_errors lo prefix pre body rest bits) as [r Er]; [done..| |done|].
  { intros ->. destruct Hw as [Hl _]. by cbn in Hl. }
  rewrite Er. cbn [mbind option_bind].
  set (all := prefix ++ _). destruct (messages_skip (prefix ++ replicate 16 MESSAGEGO) (S (length all)) (map b2z bits ++ r)) as (fuel & Ef & Hf).
  { apply Forall_app. split; [done|]. by apply Forall_replicate. }
  { unfold all. rewrite <- app_assoc. lia. }
  unfold all at 2. rewrite <- app_assoc in Ef. rewrite Ef.
  destruct (messages_frame fuel bits r Hw Hf) as [fs ->]. cbn [mbind option_bind map].
  exists (String.concat "" (map (fun f => display o f.1 f.2) fs)). by rewrite concat_cons.
Qed.

(** A frame of an aircraft, sent as full pulses over a low level. *)
Definition sent_bits : list bool := map (fun k => Z.testbit 0x8D4840D6202CC371C32CE0576098 (111 - k)) (zseq 112).
Definition pulse (high : bool) : list Z := if high then [255; 127] else [140; 127].
Definition half_bits (bits : list bool) : list bool := concat (map (fun b : bool => [b; negb b]) bits).
Definition sent_iq : list Z :=
  concat (map pulse ([false; false] ++ map is_high (zseq 16) ++ half_bits sent_bits ++ [true; true; true])).
Definition level (high : bool) : Z := if high then 16384 else 169.

Lemma adsb_frame_decoded_witness :
  exists text, demod (mk_display false false 10) 5 sent_iq = Some ("*8d4840d6202cc371c32ce0576098;" +:+ crlf +:+ text)%string.
Proof.
  refine (adsb_frame_decoded (mk_display false false 10) 5 169 sent_iq [169; 169] (map level (map is_high (zseq 16)))
            (map level (half_bits sent_bits)) [16384; 16384; 16384] sent_bits _ _ _ _ _ _ _ _ _).
  - by_compute.
  - exists 245%nat. vm_compute. reflexivity.
  - vm_compute. reflexivity.
  - by_compute.
  - intros [|[|j]] Hj; [vm_compute; reflexivity..|cbn in Hj; lia].
  - split; [done|]. intros k x Hk. do 16 (destruct k as [|k]; [injection Hk as <-; by compute|]). done.
  - vm_compute. repeat (split; [split; [discriminate|reflexivity]|]). exact I.
  - split; [vm_compute; reflexivity|]. exists 0%nat. split; [lia|reflexivity].
  - lia.
Defined.

(** Samples that are not overwritten are taken for bits when their magnitude is
    0 or 1: an input that rests at 127 and 128 is printed as a frame. *)
Lemma quiet_input_printed :
  demod (mk_display true false 10) 5 (concat (replicate 16 [127; 127; 127; 128; 127; 127; 127; 127; 127; 127])) =
  Some ("*42108421084210;" +:+ crlf)%string.
Proof. vm_compute. reflexivity. Qed.
