(* ===== verification/AdsbThreads.v ===== *)
(** * rtl_adsb.c: the threads

    The callback copies a block into the one buffer, and the thread that
    demodulates works in this buffer, without a lock: it turns the bytes into
    magnitudes, the magnitudes into bits and prints the messages.  An [adsb_event]
    is what a thread does between two points at which the other can run; a block
    that comes in the middle lies over what is there. *)

From S2P Require Import Prelude Adsb AdsbSpec.

(* src/rtl_adsb.c:56-56 DEFAULT_BUF_LENGTH *)
Definition DEFAULT_BUF_LENGTH : Z := 16 * 16384.

(** The buffer, "also abused for uint16_t": bytes, or words with the lower byte
    first. *)
(* src/rtl_adsb.c:72-72 buffer *)
Inductive memory : Type := Bytes (l : list Z) | Words (l : list Z).

Fixpoint pairs (l : list Z) : list Z := match l with x :: y :: l' => x + 256 * y :: pairs l' | _ => [] end.
Definition bytes_in (m : memory) : list Z := match m with Bytes l => l | Words l => concat (map (fun w => [u8 w; u8 (w ≫ 8)]) l) end.
Definition words_in (m : memory) : list Z := match m with Bytes l => pairs l | Words l => l end.

Inductive adsb_at : Type := Adsb_loop (l : loop_at) | Magnitudes | Bits.

(** [a_copied]: the callback has copied a block and not yet signalled; [a_blocks]
    and [a_texts] are the blocks that came and what was printed for each turn. *)
Record adsb_threads : Type := mk_adsb_threads {
  a_memory : memory;
  a_exit : bool;
  a_copied : bool;
  a_at : adsb_at;
  a_blocks : list (list Z);
  a_texts : list string;
}.

Inductive adsb_event : Type :=
| Arrive (buf : list Z)
| Signal_ready
| Test_exit | Enter_wait | Wake_spurious
| Magnitute | Manchester | Messages
| Stop.

Section events.
Context (o : display_options) (allowed_errors : Z).

Definition is_at (l : loop_at) (s : adsb_threads) : bool := match a_at s with Adsb_loop l' => bool_decide (l' = l) | _ => false end.

Definition adsb_enabled (e : adsb_event) (s : adsb_threads) : bool :=
  match e with
  | Arrive _ => negb (a_copied s) && negb (a_exit s)
  | Signal_ready => a_copied s
  | Test_exit => is_at Testing s
  | Enter_wait => is_at Entering s
  | Wake_spurious => is_at Waiting s
  | Magnitute => is_at Woken s
  | Manchester => match a_at s with Magnitudes => true | _ => false end
  | Messages => match a_at s with Bits => true | _ => false end
  | Stop => negb (a_exit s)
  end.

Definition move (m : memory) (p : adsb_at) (s : adsb_threads) : adsb_threads :=
  mk_adsb_threads m (a_exit s) (a_copied s) p (a_blocks s) (a_texts s).

(* src/rtl_adsb.c:344-349 rtlsdr_callback *)
Definition arrive (buf : list Z) (s : adsb_threads) : option adsb_threads :=
  if DEFAULT_BUF_LENGTH <? Z.of_nat (length buf) then None else
  Some (mk_adsb_threads (Bytes (buf ++ drop (length buf) (bytes_in (a_memory s)))) (a_exit s) true (a_at s) (a_blocks s ++ [buf]) (a_texts s)).

(* src/rtl_adsb.c:349-349 rtlsdr_callback *)
Definition signal_ready (s : adsb_threads) : adsb_threads :=
  mk_adsb_threads (a_memory s) (a_exit s) false (match a_at s with Adsb_loop l => Adsb_loop (signal l) | p => p end) (a_blocks s) (a_texts s).

(* src/rtl_adsb.c:357-357 demod_thread_fn *)
Definition turn_magnitute (s : adsb_threads) : option adsb_threads :=
  m ← magnitute (bytes_in (a_memory s)); Some (move (Words m) Magnitudes s).

(* src/rtl_adsb.c:358-358 demod_thread_fn *)
Definition turn_manchester (s : adsb_threads) : option adsb_threads :=
  let ws := words_in (a_memory s) in
  m ← manchester (d_quality o) allowed_errors ws (Z.of_nat (length ws)); Some (move (Words m) Bits s).

(* src/rtl_adsb.c:359-359 demod_thread_fn *)
Definition turn_messages (s : adsb_threads) : option adsb_threads :=
  let ws := words_in (a_memory s) in
  fs ← messages (S (length ws)) ws;
  let text := String.concat "" (map (fun f => display o f.1 f.2) fs) in
  Some (mk_adsb_threads (a_memory s) (a_exit s) (a_copied s) (Adsb_loop Testing) (a_blocks s) (a_texts s ++ [text])).

Definition adsb_run (e : adsb_event) (s : adsb_threads) : option adsb_threads :=
  match e with
  | Arrive buf => arrive buf s
  | Signal_ready => Some (signal_ready s)
  | Test_exit => Some (move (a_memory s) (Adsb_loop (if a_exit s then Ended else Entering)) s)
  | Enter_wait => Some (move (a_memory s) (Adsb_loop Waiting) s)
  | Wake_spurious => Some (move (a_memory s) (Adsb_loop Woken) s)
  | Magnitute => turn_magnitute s
  | Manchester => turn_manchester s
  | Messages => turn_messages s
  | Stop => Some (mk_adsb_threads (a_memory s) true (a_copied s) (a_at s) (a_blocks s) (a_texts s))
  end.

(** The buffer comes from malloc. *)
Definition adsb_started (junk : list Z) : adsb_threads := mk_adsb_threads (Bytes junk) false false (Adsb_loop Testing) [] [].

(** ** In time *)

Definition full_block (b : list Z) : Prop := Z.of_nat (length b) = DEFAULT_BUF_LENGTH /\ Forall is_u8 b.

(** A block comes when the thread waits, and no wait returns without a signal. *)
Definition ready_in_time (e : adsb_event) (s : adsb_threads) : Prop :=
  match e with
  | Arrive buf => a_at s = Adsb_loop Waiting /\ full_block buf
  | Wake_spurious | Stop => False
  | _ => True
  end.

Definition printed (b : list Z) (text : string) : Prop := demod o allowed_errors b = Some text.

(** The three functions, one after the other, are [demod]. *)
Lemma stages b : full_block b -> exists m m' fs,
  magnitute b = Some m /\ manchester (d_quality o) allowed_errors m (Z.of_nat (length m)) = Some m' /\
  messages (S (length m')) m' = Some fs /\ 2 * Z.of_nat (length m') = DEFAULT_BUF_LENGTH /\
  printed b (String.concat "" (map (fun f => display o f.1 f.2) fs)).
Proof.
  intros [Hl Hu]. destruct (magnitute_ok b (Z.to_nat (8 * 16384)) ltac:(unfold DEFAULT_BUF_LENGTH in Hl; lia) Hu) as (m & E & Lm & Hm).
  destruct (manchester_ok (d_quality o) allowed_errors m Hm) as (m' & E' & Lm').
  destruct (messages_ok (S (length m')) m') as [fs Ef]; [lia|]. exists m, m', fs. split_and!; try done.
  - rewrite Lm', Lm. unfold DEFAULT_BUF_LENGTH. lia.
  - unfold printed, demod. rewrite E. cbn [mbind option_bind]. rewrite E'. cbn [mbind option_bind]. by rewrite Ef.
Qed.

(** [dones] are printed, [mid] is in the buffer. *)
Record on_time (dones : list (list Z)) (mid : option (list Z)) (s : adsb_threads) : Prop := {
  o_exit : a_exit s = false;
  o_blocks : a_blocks s = dones ++ option_list mid;
  o_full : Forall full_block (option_list mid);
  o_texts : Forall2 printed dones (a_texts s);
  o_memory : Z.of_nat (length (bytes_in (a_memory s))) = DEFAULT_BUF_LENGTH;
  o_at : match mid with
    | None => a_copied s = false /\ match a_at s with Adsb_loop (Testing | Entering | Waiting) => True | _ => False end
    | Some b => match a_at s with
        | Adsb_loop Waiting => a_copied s = true /\ a_memory s = Bytes b
        | Adsb_loop Woken => a_copied s = false /\ a_memory s = Bytes b
        | Magnitudes => a_copied s = false /\ exists m, magnitute b = Some m /\ a_memory s = Words m
        | Bits => a_copied s = false /\ exists m m', magnitute b = Some m /\
            manchester (d_quality o) allowed_errors m (Z.of_nat (length m)) = Some m' /\ a_memory s = Words m'
        | _ => False
        end
    end;
}.
Definition on_time_at (s : adsb_threads) : Prop := exists dones mid, on_time dones mid s.

Lemma length_words l : length (bytes_in (Words l)) = (2 * length l)%nat.
Proof. induction l as [|x l IH]; [done|]. cbn in *. lia. Qed.

Definition adsb_work (s : adsb_threads) : nat :=
  (if a_copied s then 6 else 0) +
  match a_at s with Adsb_loop Woken => 5 | Magnitudes => 4 | Bits => 3 | Adsb_loop Testing => 2 | Adsb_loop Entering => 1 | _ => 0 end.

Lemma on_time_work s : on_time_at s -> (adsb_work s <= 6)%nat.
Proof.
  intros (dones & mid & [_ _ _ _ _ Ha]). unfold adsb_work. destruct mid.
  - destruct (a_at s) as [[]| |]; try done; destruct Ha as [-> _]; lia.
  - destruct Ha as [-> Ha]. destruct (a_at s) as [[]| |]; try done; lia.
Qed.

(** The events that can happen in time are defined, and keep the invariant; all
    but a new block leave less to do. *)
Definition follows (e : adsb_event) (s s1 : adsb_threads) : Prop :=
  on_time_at s1 /\ (match e with Arrive _ => True | _ => (adsb_work s1 < adsb_work s)%nat /\ a_blocks s1 = a_blocks s end).

Lemma arrive_follows buf s : on_time_at s -> ready_in_time (Arrive buf) s -> adsb_enabled (Arrive buf) s = true ->
  exists s1, arrive buf s = Some s1 /\ follows (Arrive buf) s s1.
Proof.
  intros (dones & mid & [Hx Hb Hfu Ht Hm Ha]) [Hw Hbuf] He. destruct s as [m x c p bs ts]. cbn [a_memory a_exit a_copied a_at a_blocks a_texts ready_in_time adsb_enabled] in *. subst p.
  pose proof Hbuf as [Hl _]. destruct mid; [destruct Ha as [-> _]; done|]. destruct Ha as [-> _]. unfold arrive. rewrite Hl.
  rewrite Z.ltb_irrefl. cbn [a_memory a_exit a_at a_blocks a_texts]. rewrite drop_ge, app_nil_r by lia.
  eexists. split; [done|]. split; [|done]. exists dones, (Some buf).
  constructor; try done; [cbn; by rewrite Hb, app_nil_r|by constructor].
Qed.

Lemma signal_follows s : on_time_at s -> a_copied s = true -> follows Signal_ready s (signal_ready s).
Proof.
  intros (dones & mid & [Hx Hb Hfu Ht Hm Ha]) He. destruct s as [m x c p bs ts]. cbn [a_memory a_exit a_copied a_at a_blocks a_texts ready_in_time adsb_enabled] in *. subst c.
  destruct mid as [b|]; [|by destruct Ha]. destruct p as [[]| |]; try done; destruct Ha as [Hc Ha]; try done.
  split; [|split; [cbn; lia|done]]. by exists dones, (Some b).
Qed.

Lemma loop_follows l l' s : on_time_at s -> a_at s = Adsb_loop l -> (l = Testing /\ l' = Entering \/ l = Entering /\ l' = Waiting) ->
  follows Test_exit s (move (a_memory s) (Adsb_loop l') s).
Proof.
  intros (dones & mid & [Hx Hb Hfu Ht Hm Ha]) He Hl. destruct s as [m x c p bs ts]. cbn [a_memory a_exit a_copied a_at a_blocks a_texts ready_in_time adsb_enabled] in *. subst p.
  destruct mid; [by destruct Hl as [[-> ->]|[-> ->]]|]. split; [exists dones, None; constructor; try done; cbn|split; [|done]].
  - split; [apply Ha|]. by destruct Hl as [[-> ->]|[-> ->]].
  - unfold adsb_work. cbn. destruct Hl as [[-> ->]|[-> ->]]; lia.
Qed.

Lemma magnitute_follows s : on_time_at s -> a_at s = Adsb_loop Woken -> exists s1, turn_magnitute s = Some s1 /\ follows Magnitute s s1.
Proof.
  intros (dones & mid & [Hx Hb Hfu Ht Hm Ha]) He. destruct s as [m x c p bs ts]. cbn [a_memory a_exit a_copied a_at a_blocks a_texts ready_in_time adsb_enabled] in *. subst p.
  destruct mid as [b|]; [|by destruct Ha]. destruct Ha as [-> ->]. apply Forall_cons in Hfu as [Hfu _].
  destruct (stages b Hfu) as (w & w' & fs & E & E' & _ & Lw & _). unfold turn_magnitute. cbn [a_memory bytes_in]. rewrite E. eexists. split; [done|].
  split; [|split; [unfold adsb_work; cbn; lia|done]]. exists dones, (Some b). constructor; try done.
  - by constructor.
  - cbn [a_memory move]. rewrite length_words. destruct Hfu as [Hl Hu].
    destruct (magnitute_ok b (Z.to_nat (8 * 16384)) ltac:(unfold DEFAULT_BUF_LENGTH in Hl; lia) Hu) as (w2 & E2 & L2 & _).
    assert (w2 = w) as -> by congruence. rewrite L2. unfold DEFAULT_BUF_LENGTH. lia.
  - cbn. split; [done|]. by exists w.
Qed.

Lemma manchester_follows s : on_time_at s -> a_at s = Magnitudes -> exists s1, turn_manchester s = Some s1 /\ follows Manchester s s1.
Proof.
  intros (dones & mid & [Hx Hb Hfu Ht Hm Ha]) He. destruct s as [m x c p bs ts]. cbn [a_memory a_exit a_copied a_at a_blocks a_texts ready_in_time adsb_enabled] in *. subst p.
  destruct mid as [b|]; [|by destruct Ha]. destruct Ha as (-> & w & E & ->). apply Forall_cons in Hfu as [Hfu _].
  destruct (stages b Hfu) as (w2 & w' & fs & E2 & E' & _ & Lw & _). assert (w2 = w) as -> by congruence.
  unfold turn_manchester. cbv zeta. cbn [a_memory words_in]. rewrite E'. eexists. split; [done|].
  split; [|split; [unfold adsb_work; cbn; lia|done]]. exists dones, (Some b). constructor; try done.
  - by constructor.
  - cbn [a_memory move]. rewrite length_words. lia.
  - cbn. split; [done|]. by exists w, w'.
Qed.

Lemma messages_follows s : on_time_at s -> a_at s = Bits -> exists s1, turn_messages s = Some s1 /\ follows Messages s s1.
Proof.
  intros (dones & mid & [Hx Hb Hfu Ht Hm Ha]) He. destruct s as [m x c p bs ts]. cbn [a_memory a_exit a_copied a_at a_blocks a_texts ready_in_time adsb_enabled] in *. subst p.
  destruct mid as [b|]; [|by destruct Ha]. destruct Ha as (-> & w & w' & E & E' & ->). apply Forall_cons in Hfu as [Hfu _].
  destruct (stages b Hfu) as (w2 & w2' & fs & E2 & E2' & Ef & Lw & Hp). assert (w2 = w) as -> by congruence. assert (w2' = w') as -> by congruence.
  unfold turn_messages. cbv zeta. cbn [a_memory words_in]. rewrite Ef. eexists. split; [done|].
  split; [|split; [unfold adsb_work; cbn; lia|done]]. exists (dones ++ [b]), None. constructor; try done.
  - cbn. by rewrite app_nil_r.
  - cbn. apply Forall2_app; [done|]. by constructor.
Qed.

Lemma event_follows e s : on_time_at s -> ready_in_time e s -> adsb_enabled e s = true -> exists s1, adsb_run e s = Some s1 /\ follows e s s1.
Proof.
  intros Hi Ht He. unfold adsb_enabled, is_at in He. destruct e; try done.
  - by apply arrive_follows.
  - eexists. split; [done|]. by apply signal_follows.
  - destruct (a_at s) as [l| |] eqn:Ea; try done. apply bool_decide_eq_true in He as ->. eexists. split; [done|].
    destruct Hi as (dones & mid & Hi). rewrite (o_exit _ _ _ Hi). apply (loop_follows Testing); [by exists dones, mid|done|by left].
  - destruct (a_at s) as [l| |] eqn:Ea; try done. apply bool_decide_eq_true in He as ->. eexists. split; [done|].
    apply (loop_follows Entering); [done|done|by right].
  - destruct (a_at s) as [l| |] eqn:Ea; try done. apply bool_decide_eq_true in He as ->. by apply magnitute_follows.
  - apply manchester_follows; [done|]. by destruct (a_at s).
  - apply messages_follows; [done|]. by destruct (a_at s).
Qed.

Definition no_block (e : adsb_event) (s : adsb_threads) : Prop :=
  ready_in_time e s /\ match e with Arrive _ => False | _ => True end.
Definition idle (s : adsb_threads) : bool :=
  negb (a_copied s) && match a_at s with Adsb_loop Waiting => true | _ => false end.

Lemma no_block_progress s : on_time_at s -> idle s = false -> exists e s1, no_block e s /\ step_by adsb_enabled adsb_run e s s1.
Proof.
  intros Hi Hid. assert (exists e, no_block e s /\ adsb_enabled e s = true) as (e & Hn & He).
  { destruct Hi as (dones & mid & [_ _ _ _ _ Ha]). unfold idle in Hid. destruct s as [m x c p bs ts]. cbn in *.
    destruct c; [by exists Signal_ready|]. destruct p as [[]| |]; try done.
    - by exists Test_exit.
    - by exists Enter_wait.
    - by exists Magnitute.
    - by destruct mid, Ha.
    - by exists Manchester.
    - by exists Messages. }
  destruct (event_follows e s Hi (proj1 Hn) He) as (s1 & Hr & _). by exists e, s1.
Qed.

Lemma adsb_started_on_time junk : Z.of_nat (length junk) = DEFAULT_BUF_LENGTH -> on_time_at (adsb_started junk).
Proof. intros Hl. exists [], None. by constructor. Qed.
End events.

(** C12: rtl_adsb's threads in time.  A run is in time ([ready_in_time]) when each
    block is a whole one and comes while the thread waits, pthread_cond_wait does
    not return without a signal, and the program is not yet interrupted.  In every
    run in time the text that is printed is, block after block, what the decoder
    ([demod]) makes of the block; every event in time is defined; and without a
    new block every run in time ends after at most six events, with all blocks
    printed.  The code does not see to it that a run is in time, as its wait tests
    no condition: what happens otherwise is in [spurious_wake_prints],
    [missed_block] and [block_read_as_magnitudes]. *)
Theorem blocks_printed (o : display_options) (allowed_errors : Z) (junk : list Z) (es : list adsb_event) (s : adsb_threads) :
  Z.of_nat (length junk) = DEFAULT_BUF_LENGTH ->
  runs_by adsb_enabled (adsb_run o allowed_errors) ready_in_time es (adsb_started junk) s ->
  (exists dones mid, a_blocks s = dones ++ option_list mid /\ Forall2 (printed o allowed_errors) dones (a_texts s)) /\
  (forall e, ready_in_time e s -> adsb_enabled e s = true -> is_Some (adsb_run o allowed_errors e s)) /\
  (forall es' s', runs_by adsb_enabled (adsb_run o allowed_errors) no_block es' s s' ->
     (length es' <= 6)%nat /\
     (idle s' = false -> exists e s2, no_block e s' /\ step_by adsb_enabled (adsb_run o allowed_errors) e s' s2) /\
     (idle s' = true -> Forall2 (printed o allowed_errors) (a_blocks s) (a_texts s'))).
Proof.
  intros Hj Hr. pose (I := on_time_at o allowed_errors).
  assert (forall e a b, ready_in_time e a -> step_by adsb_enabled (adsb_run o allowed_errors) e a b -> I a -> follows o allowed_errors e a b) as Hf.
  { intros e a b Ht [He Hab] Ha. destruct (event_follows o allowed_errors e a Ha Ht He) as (b' & E & H). by rewrite Hab in E; injection E as ->. }
  assert (I s) as Hi by (eapply (runs_inv adsb_enabled (adsb_run o allowed_errors) ready_in_time I); [intros e a b Ht Hs Ha; exact (proj1 (Hf e a b Ht Hs Ha))|exact Hr|by apply adsb_started_on_time]).
  split; [destruct Hi as (dones & mid & Hi); exists dones, mid; split; apply Hi|]. split.
  { intros e Ht He. destruct (event_follows o allowed_errors e s Hi Ht He) as (s1 & -> & _). by eexists. }
  intros es' s' Hq. assert (I s' /\ a_blocks s' = a_blocks s) as [Hi' Hb].
  { apply (runs_inv adsb_enabled (adsb_run o allowed_errors) no_block (fun s' => I s' /\ a_blocks s' = a_blocks s)) with es' s; [|done|done].
    intros e a b [Ht Hn] Hs [Ha Eb]. destruct (Hf e a b Ht Hs Ha) as [Hb Hw]. split; [done|]. destruct e; try done; by rewrite (proj2 Hw). }
  split; [|split].
  - assert (length es' + adsb_work s' <= adsb_work s)%nat as Hw.
    { refine (runs_measure adsb_enabled (adsb_run o allowed_errors) no_block I adsb_work _ es' s s' Hq Hi). intros e a b [Ht Hn] Hs Ha.
      destruct (Hf e a b Ht Hs Ha) as [Hb' Hw]. split; [done|]. by destruct e; try done; apply Hw. }
    pose proof (on_time_work o allowed_errors s Hi). lia.
  - by apply no_block_progress.
  - intros Hid. destruct Hi' as (dones & mid & [_ Hbs _ Ht _ Ha]). unfold idle in Hid. destruct (a_copied s'); [done|].
    destruct (a_at s') as [[]| |]; try done. destruct mid; [by destruct Ha|]. rewrite <- Hb, Hbs. cbn. by rewrite app_nil_r.
Qed.

(** ** An example *)

Lemma one_block_run o allowed_errors b junk : full_block b -> Z.of_nat (length junk) = DEFAULT_BUF_LENGTH ->
  exists s, runs_by adsb_enabled (adsb_run o allowed_errors) ready_in_time [Test_exit; Enter_wait; Arrive b; Signal_ready] (adsb_started junk) s /\
    a_blocks s = [b].
Proof.
  intros Hb Hj. eexists. split.
  - eapply runs_cons; [done|by split|]. eapply runs_cons; [done|by split|].
    eapply runs_cons; [by split|split; [done|]|].
    { cbn [adsb_run]. unfold arrive. by rewrite (proj1 Hb), Z.ltb_irrefl. }
    eapply runs_cons; [done|by split|]. constructor.
  - done.
Qed.

Definition quiet_block : list Z := replicate (Z.to_nat DEFAULT_BUF_LENGTH) 127.

Lemma quiet_block_full : full_block quiet_block.
Proof. split; [unfold quiet_block; rewrite length_replicate; by rewrite Z2Nat.id|]. apply Forall_replicate. by compute. Qed.

Lemma blocks_printed_witness : let o := mk_display true true 10 in
  exists s, a_blocks s = [quiet_block] /\
    (exists dones mid, a_blocks s = dones ++ option_list mid /\ Forall2 (printed o 5) dones (a_texts s)) /\
    (forall e, ready_in_time e s -> adsb_enabled e s = true -> is_Some (adsb_run o 5 e s)) /\
    (forall es' s', runs_by adsb_enabled (adsb_run o 5) no_block es' s s' ->
       (length es' <= 6)%nat /\
       (idle s' = false -> exists e s2, no_block e s' /\ step_by adsb_enabled (adsb_run o 5) e s' s2) /\
       (idle s' = true -> Forall2 (printed o 5) (a_blocks s) (a_texts s'))).
Proof.
  cbv zeta. pose proof (proj1 quiet_block_full) as Hl.
  destruct (one_block_run (mk_display true true 10) 5 quiet_block quiet_block quiet_block_full Hl) as (s & Hr & Hb).
  exists s. split; [exact Hb|].
  exact (blocks_printed (mk_display true true 10) 5 quiet_block _ s Hl Hr).
Defined.

(** ** Out of time *)

(** A block that comes before the thread waits again is not printed: its signal
    is lost. *)
Lemma missed_block o allowed_errors b s : full_block b -> a_at s = Adsb_loop Testing -> a_copied s = false -> a_exit s = false ->
  exists s', run_if adsb_enabled (adsb_run o allowed_errors) (fun _ _ => true) [Arrive b; Signal_ready; Test_exit; Enter_wait] s = Some s' /\
    idle s' = true /\ a_blocks s' = a_blocks s ++ [b] /\ a_texts s' = a_texts s.
Proof.
  intros [Hl _] Ha Hc Hx. destruct s as [m x c p bs ts]. cbn [a_at a_copied a_exit] in *. subst x c p. cbn [run_if adsb_enabled a_copied a_exit negb andb].
  cbn [adsb_run]. unfold arrive at 1. rewrite Hl, Z.ltb_irrefl. by eexists.
Qed.

(** When the wait returns without a signal, what is in the buffer is decoded and
    printed: before the first block, what malloc left there. *)
Lemma spurious_wake_prints o allowed_errors junk : full_block junk ->
  exists s text, run_if adsb_enabled (adsb_run o allowed_errors) (fun _ _ => true)
      [Test_exit; Enter_wait; Wake_spurious; Magnitute; Manchester; Messages] (adsb_started junk) = Some s /\
    a_blocks s = [] /\ a_texts s = [text] /\ printed o allowed_errors junk text.
Proof.
  intros Hb. destruct (stages o allowed_errors junk Hb) as (m & m' & fs & E1 & E2 & E3 & _ & Hp).
  exists (mk_adsb_threads (Words m') false false (Adsb_loop Testing) [] [String.concat "" (map (fun f => display o f.1 f.2) fs)]).
  eexists. split; [|split; [reflexivity|split; [reflexivity|exact Hp]]].
  change (run_if adsb_enabled (adsb_run o allowed_errors) (fun _ _ => true) [Magnitute; Manchester; Messages]
    (mk_adsb_threads (Bytes junk) false false (Adsb_loop Woken) [] []) =
    Some (mk_adsb_threads (Words m') false false (Adsb_loop Testing) [] [String.concat "" (map (fun f => display o f.1 f.2) fs)])).
  unfold run_if, adsb_run, turn_magnitute, turn_manchester, turn_messages, move. cbn [a_memory bytes_in words_in adsb_enabled is_at a_at andb a_exit a_copied].
  rewrite E1. cbn [mbind option_bind a_memory words_in a_at a_exit a_copied]. rewrite E2. cbn [mbind option_bind a_memory words_in a_at a_exit a_copied].
  by rewrite E3.
Qed.

(** A block that comes when the magnitudes are computed is taken for magnitudes,
    two bytes for one.  These can be 255, which a magnitude never is, and then
    the search for messages does not end. *)
Lemma block_read_as_magnitudes b s : full_block b -> Z.of_nat (length (bytes_in (a_memory s))) = DEFAULT_BUF_LENGTH -> a_at s = Magnitudes ->
  exists s1, arrive b s = Some s1 /\ a_at s1 = Magnitudes /\ words_in (a_memory s1) = pairs b.
Proof.
  intros [Hl _] Hm Ha. unfold arrive. rewrite Hl, Z.ltb_irrefl. eexists. split; [done|]. split; [done|].
  cbn [a_memory words_in]. by rewrite drop_ge, app_nil_r by lia.
Qed.

Lemma bytes_loop fuel : manchester_loop fuel 10 0 2 (mk_mstate (pairs [255; 0; 255; 0]) 0 0 0) = None.
Proof. destruct fuel as [|fuel]; [done|]. exact (manchester_255_loops fuel). Qed.
