(* ===== verification/Streams.v ===== *)
(** * Streams: machines that take samples one by one

    A filter or demodulator keeps some state between two samples and gives a
    sample now and then.  What such a machine makes of a stream does not depend
    on how the stream is cut into buffers ([mealy_app]); two machines in a row
    are run one after the other. *)

From S2P Require Import Prelude Arrays.

Section mealy.
Context {S A B : Type} (step : S -> A -> option B * S).

Fixpoint mealy (s : S) (xs : list A) : list B * S :=
  match xs with
  | [] => ([], s)
  | x :: xs' =>
      let '(o, s) := step s x in
      let '(ys, s) := mealy s xs' in
      (match o with Some y => y :: ys | None => ys end, s)
  end.

Lemma mealy_app s xs ys :
  mealy s (xs ++ ys) = ((mealy s xs).1 ++ (mealy (mealy s xs).2 ys).1, (mealy (mealy s xs).2 ys).2).
Proof.
  revert s. induction xs as [|x xs IH]; intros s; cbn [app mealy fst snd]; [by destruct (mealy s ys)|].
  destruct (step s x) as [o s1]. rewrite IH. destruct (mealy s1 xs) as [o1 s2]. cbn [fst snd].
  by destruct o.
Qed.

(** An invariant of the state and what holds of the samples. *)
Lemma mealy_inv (I : S -> Prop) (P : A -> Prop) (Q : B -> Prop) s xs :
  (forall s x, I s -> P x -> I (step s x).2 /\ from_option Q True (step s x).1) -> I s -> Forall P xs ->
  I (mealy s xs).2 /\ Forall Q (mealy s xs).1.
Proof.
  intros Hstep. revert s. induction xs as [|x xs IH]; intros s HI Hxs; cbn [mealy]; [done|].
  apply Forall_cons in Hxs as [Hx Hxs]. destruct (Hstep s x HI Hx) as [HI' HQ].
  destruct (step s x) as [o s1]. cbn [fst snd] in *. destruct (IH s1 HI' Hxs) as [HI'' HQ'].
  destruct (mealy s1 xs) as [ys s2]. cbn [fst snd] in *. split; [done|]. destruct o; [|done]. by constructor.
Qed.
End mealy.

(** A machine that gives a sample for every sample, and has no state. *)
Definition each {A B} (f : A -> B) (s : unit) (x : A) : option B * unit := (Some (f x), s).

Lemma mealy_each {A B} (f : A -> B) xs s : mealy (each f) s xs = (map f xs, s).
Proof. induction xs as [|x xs IH]; [done|]. cbn [mealy each]. by rewrite IH. Qed.

(** ** Arrays in place *)

Section mid.
Context {A : Type}.
Implicit Types (x y l : list A).

Lemma arr_get_mid x v y i : i = Z.of_nat (length x) -> arr_get (x ++ v :: y) i = Some v.
Proof. intros ->. rewrite arr_get_nat. by apply list_lookup_middle. Qed.

Lemma arr_set_mid x v w y i : i = Z.of_nat (length x) -> arr_set (x ++ v :: y) i w = Some (x ++ w :: y).
Proof.
  intros ->. rewrite arr_set_ok by (rewrite length_app; cbn [length]; lia). rewrite Nat2Z.id. f_equal.
  rewrite insert_app_r_alt by lia. by rewrite Nat.sub_diag.
Qed.
End mid.
