(* ===== verification/RtlFm.v ===== *)
(** * rtl_fm.c: the demodulator

    The signal path of rtl_fm: the bytes of a USB buffer are rotated and
    centred ([rtlsdr_callback]), filtered and thinned out ([low_pass], or
    [fifth_order] and [generic_fir]), demodulated and filtered again, all in
    the arrays of [struct demod_state].  An access outside of an array, and a
    division by zero, have no value.  [int] arithmetic wraps around.  The
    functions of math.h are parameters. *)

From S2P Require Import Prelude Arrays Double.
From Stdlib Require Import SpecFloat.

Definition MAXIMUM_BUF_LENGTH := 16 * 16384.
Definition BUFFER_DUMP := 4096.

(** ** Samples *)

(** The body of the loop, for the eight bytes from [i] on. *)
(* src/rtl_fm.c:290-302 rotate_90 *)
Definition rotate_8 (i : Z) (buf : list Z) : option (list Z) :=
  b3 ← arr_get buf (i + 3); b2 ← arr_get buf (i + 2);
  buf ← arr_set buf (i + 3) b2;
  buf ← arr_set buf (i + 2) (u8 (255 - b3));
  b4 ← arr_get buf (i + 4); buf ← arr_set buf (i + 4) (u8 (255 - b4));
  b5 ← arr_get buf (i + 5); buf ← arr_set buf (i + 5) (u8 (255 - b5));
  b6 ← arr_get buf (i + 6); b7 ← arr_get buf (i + 7);
  buf ← arr_set buf (i + 6) b7;
  arr_set buf (i + 7) (u8 (255 - b6)).

(* src/rtl_fm.c: rotate_90 *)
Definition rotate_90 (buf : list Z) (len : Z) : option (list Z) := for_arr (stepped len 8) rotate_8 buf.

(** ** Filters *)

(** The array, [i2] and the sums; the loop from [i] on. *)
(* src/rtl_fm.c:309-323 low_pass *)
Fixpoint low_pass_loop (fuel : nat) (lp_len downsample : Z) (lp : list Z) (i i2 now_r now_j prev_index : Z) :
    option (list Z * Z * (Z * Z * Z)) :=
  match fuel with
  | O => None
  | S fuel =>
      if i <? lp_len then
        x ← arr_get lp i; y ← arr_get lp (i + 1);
        let now_r := i32 (now_r + x) in
        let now_j := i32 (now_j + y) in
        let prev_index := prev_index + 1 in
        if prev_index <? downsample then low_pass_loop fuel lp_len downsample lp (i + 2) i2 now_r now_j prev_index
        else
          lp ← arr_set lp i2 (i16 now_r);
          lp ← arr_set lp (i2 + 1) (i16 now_j);
          low_pass_loop fuel lp_len downsample lp (i + 2) (i2 + 2) 0 0 0
      else Some (lp, i2, (now_r, now_j, prev_index))
  end.

(** The inner sum of [low_pass_simple]. *)
Fixpoint sum_from (arr : list Z) (i : Z) (n : nat) (sum : Z) : option Z :=
  match n with O => Some sum | S n => x ← arr_get arr i; sum_from arr (i + 1) n (i32 (sum + x)) end.

(** The array and the new length.  After the loop [i] is the first multiple of
    [step] that is not below [len]. *)
(* src/rtl_fm.c: low_pass_simple *)
Definition low_pass_simple (signal2 : list Z) (len step : Z) : option (list Z * Z) :=
  if step <=? 0 then None else
  signal2 ← for_arr (stepped len step) (fun i arr => sum ← sum_from arr i (Z.to_nat step) 0; arr_set arr (i / step) (i16 sum)) signal2;
  let i := step * ((Z.max 0 len + step - 1) / step) in
  x ← arr_get signal2 (i / step);
  signal2 ← arr_set signal2 (i / step + 1) x;
  Some (signal2, Z.quot len step).

(* src/rtl_fm.c:350-360 low_pass_real *)
Fixpoint low_pass_real_loop (fuel : nat) (result_len fast slow : Z) (r : list Z) (i i2 now_lpr prev_lpr_index : Z) :
    option (list Z * Z * (Z * Z)) :=
  match fuel with
  | O => None
  | S fuel =>
      if i <? result_len then
        x ← arr_get r i;
        let now_lpr := i32 (now_lpr + x) in
        let prev_lpr_index := i32 (prev_lpr_index + slow) in
        if prev_lpr_index <? fast then low_pass_real_loop fuel result_len fast slow r (i + 1) i2 now_lpr prev_lpr_index
        else
          ratio ← c_div fast slow;
          v ← c_div now_lpr ratio;
          r ← arr_set r i2 (i16 v);
          low_pass_real_loop fuel result_len fast slow r (i + 1) (i2 + 1) 0 (i32 (prev_lpr_index - fast))
      else Some (r, i2, (now_lpr, prev_lpr_index))
  end.

(** [(a + (b+e)*5 + (c+d)*10 + f) >> 4], stored in 16 bits. *)
Definition fifth (a b c d e f : Z) : Z := i16 ((a + (b + e) * 5 + (c + d) * 10 + f) ≫ 4).

(** The loop, for the elements [i] of the array from [o] on. *)
(* src/rtl_fm.c:378-386 fifth_order *)
Fixpoint fifth_order_loop (ks : list Z) (o : Z) (data : list Z) (w : Z * Z * Z * Z * Z * Z) : option (list Z * (Z * Z * Z * Z * Z * Z)) :=
  match ks with
  | [] => Some (data, w)
  | i :: ks' =>
      let '(_, _, c, d, e, f) := w in
      e' ← arr_get data (o + (i - 2)); f' ← arr_get data (o + i);
      data ← arr_set data (o + i / 2) (fifth c d e f e' f');
      fifth_order_loop ks' o data (c, d, e, f, e', f')
  end.

(** [data] is the part of an array from [o] on; the new array and the history. *)
(* src/rtl_fm.c: fifth_order *)
Definition fifth_order (data : list Z) (o length : Z) (hist : list Z) : option (list Z * list Z) :=
  a ← arr_get hist 1; b ← arr_get hist 2; c ← arr_get hist 3; d ← arr_get hist 4; e ← arr_get hist 5;
  f ← arr_get data (o + 0);
  data ← arr_set data (o + 0) (fifth a b c d e f);
  '(data, (a, b, c, d, e, f)) ← fifth_order_loop (map (fun k => k + 4) (stepped (length - 4) 4)) o data (a, b, c, d, e, f);
  Some (data, [a; b; c; d; e; f]).

(** [sum], in [int]. *)
Definition fir_sum (fir hist : list Z) : option Z :=
  f1 ← arr_get fir 1; f2 ← arr_get fir 2; f3 ← arr_get fir 3; f4 ← arr_get fir 4; f5 ← arr_get fir 5;
  match hist with
  | [h0; h1; h2; h3; h4; h5; h6; h7; h8] =>
      Some (i32 ((h0 + h8) * f1 + (h1 + h7) * f2 + (h2 + h6) * f3 + (h3 + h5) * f4 + h4 * f5))
  | _ => None
  end.

(* src/rtl_fm.c:400-420 generic_fir *)
Fixpoint generic_fir_loop (ds : list Z) (o : Z) (fir : list Z) (data hist : list Z) : option (list Z * list Z) :=
  match ds with
  | [] => Some (data, hist)
  | d :: ds' =>
      temp ← arr_get data (o + d);
      sum ← fir_sum fir hist;
      data ← arr_set data (o + d) (i16 (sum ≫ 15));
      generic_fir_loop ds' o fir data (tail hist ++ [temp])
  end.

(* src/rtl_fm.c: generic_fir *)
Definition generic_fir (data : list Z) (o length : Z) (fir hist : list Z) : option (list Z * list Z) :=
  generic_fir_loop (stepped length 2) o fir data hist.

(* src/rtl_fm.c: cic_9_tables *)
Definition cic_9_tables : list (list Z) := [
  [0];
  [9; -156; -97; 2798; -15489; 61019; -15489; 2798; -97; -156];
  [9; -128; -568; 5593; -24125; 74126; -24125; 5593; -568; -128];
  [9; -129; -639; 6187; -26281; 77511; -26281; 6187; -639; -129];
  [9; -122; -612; 6082; -26353; 77818; -26353; 6082; -612; -122];
  [9; -120; -602; 6015; -26269; 77757; -26269; 6015; -602; -120];
  [9; -120; -582; 5951; -26128; 77542; -26128; 5951; -582; -120];
  [9; -119; -580; 5931; -26094; 77505; -26094; 5931; -580; -119];
  [9; -119; -578; 5921; -26077; 77484; -26077; 5921; -578; -119];
  [9; -119; -577; 5917; -26067; 77473; -26067; 5917; -577; -119];
  [9; -199; -362; 5303; -25505; 77489; -25505; 5303; -362; -199]].

(** ** Discriminators *)

(** The functions of math.h that the program uses, and the result of a
    conversion to an integer type that C does not define. *)
Class libm : Type := mk_libm { atan2 : double -> double -> double; atan : double -> double; oor : double -> Z }.

(** The constant 3.14159. *)
Definition pi_approx : double := ddiv (d_of_Z 314159) (d_of_Z 100000).

(** The two products, [cr] and [cj]. *)
(* src/rtl_fm.c: multiply *)
Definition multiply (ar aj br bj : Z) : Z * Z := (i32 (ar * br - aj * bj), i32 (aj * br + ar * bj)).

(* src/rtl_fm.c: polar_discriminant *)
Definition polar_discriminant `{libm} (ar aj br bj : Z) : Z :=
  let '(cr, cj) := multiply ar aj br (- bj) in
  let angle := atan2 (d_of_Z cj) (d_of_Z cr) in
  d_to_i32 oor (dmul (ddiv angle pi_approx) (d_of_Z (1 ≪ 14))).

(* src/rtl_fm.c: fast_atan2 *)
Definition fast_atan2 (y x : Z) : option Z :=
  let pi4 := 1 ≪ 12 in
  let pi34 := 3 * (1 ≪ 12) in
  if (x =? 0) && (y =? 0) then Some 0 else
  let yabs := if y <? 0 then i32 (- y) else y in
  angle ← (if 0 <=? x then q ← c_div (i32 (pi4 * i32 (x - yabs))) (i32 (x + yabs)); Some (i32 (pi4 - q))
           else q ← c_div (i32 (pi4 * i32 (x + yabs))) (i32 (yabs - x)); Some (i32 (pi34 - q)));
  Some (if y <? 0 then - angle else angle).

(* src/rtl_fm.c: polar_disc_fast *)
Definition polar_disc_fast (ar aj br bj : Z) : option Z :=
  let '(cr, cj) := multiply ar aj br (- bj) in fast_atan2 cj cr.

Definition atan_lut_size := 131072.
Definition atan_lut_coef := 8.

(** The table that [atan_lut_init] fills, at an index in it. *)
(* src/rtl_fm.c: atan_lut_init *)
Definition atan_lut `{libm} (i : Z) : option Z :=
  if (0 <=? i) && (i <? atan_lut_size)
  then Some (d_to_i32 oor (dmul (ddiv (atan (ddiv (d_of_Z i) (d_of_Z (1 ≪ atan_lut_coef)))) pi_approx) (d_of_Z (1 ≪ 14))))
  else None.

(* src/rtl_fm.c: polar_disc_lut *)
Definition polar_disc_lut `{libm} (ar aj br bj : Z) : option Z :=
  let '(cr, cj) := multiply ar aj br (- bj) in
  (* special cases *)
  if (cr =? 0) || (cj =? 0) then
    Some (if (cr =? 0) && (cj =? 0) then 0 else
          if (cr =? 0) && (0 <? cj) then 1 ≪ 13 else
          if (cr =? 0) && (cj <? 0) then - (1 ≪ 13) else
          if (cj =? 0) && (0 <? cr) then 0 else 1 ≪ 14)
  else
    x ← c_div (i32 (cj ≪ atan_lut_coef)) cr;
    let x_abs := i32 (Z.abs x) in
    if atan_lut_size <=? x_abs then Some (if 0 <? cj then 1 ≪ 13 else - (1 ≪ 13)) else
    if 0 <? x then a ← atan_lut x; Some (if 0 <? cj then a else a - (1 ≪ 14))
    else a ← atan_lut (- x); Some (if 0 <? cj then (1 ≪ 14) - a else - a).

(** ** struct demod_state *)

Inductive demod_mode : Type := fm_mode | raw_mode | am_mode | usb_mode | lsb_mode.

#[export] Instance demod_mode_eq_dec : EqDecision demod_mode.
Proof. solve_decision. Defined.

(** The fields that main and [optimal_settings] set. *)
(* src/rtl_fm.c:113-147 demod_state *)
Record demod_settings : Type := mk_settings {
  rate_out : Z;
  rate_out2 : Z;
  downsample : Z;
  post_downsample : Z;
  output_scale : Z;
  squelch_level : Z;
  conseq_squelch : Z;
  downsample_passes : Z;
  comp_fir_size : Z;
  custom_atan : Z;
  deemph : bool;
  deemph_a : Z;
  dc_block : bool;
  mode_demod : demod_mode;
}.

(** The fields that the demodulation changes; [avg] is the static variable of
    [deemph_filter]. *)
(* src/rtl_fm.c:113-147 demod_state *)
Record demod_state : Type := mk_demod {
  lowpassed : list Z;
  lp_len : Z;
  lp_i_hist : list (list Z);
  lp_q_hist : list (list Z);
  result : list Z;
  droop_i_hist : list Z;
  droop_q_hist : list Z;
  result_len : Z;
  now : Z * Z * Z;
  pre : Z * Z;
  squelch_hits : Z;
  now_lpr : Z * Z;
  dc_avg : Z;
  avg : Z;
}.

Definition set_lp (lp : list Z) (n : Z) (d : demod_state) : demod_state :=
  mk_demod lp n (lp_i_hist d) (lp_q_hist d) (result d) (droop_i_hist d) (droop_q_hist d) (result_len d) (now d) (pre d) (squelch_hits d) (now_lpr d) (dc_avg d) (avg d).
Definition set_lp_hist (hi hq : list (list Z)) (d : demod_state) : demod_state :=
  mk_demod (lowpassed d) (lp_len d) hi hq (result d) (droop_i_hist d) (droop_q_hist d) (result_len d) (now d) (pre d) (squelch_hits d) (now_lpr d) (dc_avg d) (avg d).
Definition set_droop (hi hq : list Z) (d : demod_state) : demod_state :=
  mk_demod (lowpassed d) (lp_len d) (lp_i_hist d) (lp_q_hist d) (result d) hi hq (result_len d) (now d) (pre d) (squelch_hits d) (now_lpr d) (dc_avg d) (avg d).
Definition set_result (r : list Z) (n : Z) (d : demod_state) : demod_state :=
  mk_demod (lowpassed d) (lp_len d) (lp_i_hist d) (lp_q_hist d) r (droop_i_hist d) (droop_q_hist d) n (now d) (pre d) (squelch_hits d) (now_lpr d) (dc_avg d) (avg d).
Definition set_now (n : Z * Z * Z) (d : demod_state) : demod_state :=
  mk_demod (lowpassed d) (lp_len d) (lp_i_hist d) (lp_q_hist d) (result d) (droop_i_hist d) (droop_q_hist d) (result_len d) n (pre d) (squelch_hits d) (now_lpr d) (dc_avg d) (avg d).
Definition set_pre (p : Z * Z) (d : demod_state) : demod_state :=
  mk_demod (lowpassed d) (lp_len d) (lp_i_hist d) (lp_q_hist d) (result d) (droop_i_hist d) (droop_q_hist d) (result_len d) (now d) p (squelch_hits d) (now_lpr d) (dc_avg d) (avg d).
Definition set_hits (h : Z) (d : demod_state) : demod_state :=
  mk_demod (lowpassed d) (lp_len d) (lp_i_hist d) (lp_q_hist d) (result d) (droop_i_hist d) (droop_q_hist d) (result_len d) (now d) (pre d) h (now_lpr d) (dc_avg d) (avg d).
Definition set_lpr (l : Z * Z) (d : demod_state) : demod_state :=
  mk_demod (lowpassed d) (lp_len d) (lp_i_hist d) (lp_q_hist d) (result d) (droop_i_hist d) (droop_q_hist d) (result_len d) (now d) (pre d) (squelch_hits d) l (dc_avg d) (avg d).
Definition set_dc (v : Z) (d : demod_state) : demod_state :=
  mk_demod (lowpassed d) (lp_len d) (lp_i_hist d) (lp_q_hist d) (result d) (droop_i_hist d) (droop_q_hist d) (result_len d) (now d) (pre d) (squelch_hits d) (now_lpr d) v (avg d).
Definition set_avg (v : Z) (d : demod_state) : demod_state :=
  mk_demod (lowpassed d) (lp_len d) (lp_i_hist d) (lp_q_hist d) (result d) (droop_i_hist d) (droop_q_hist d) (result_len d) (now d) (pre d) (squelch_hits d) (now_lpr d) (dc_avg d) v.

(** The values of [demod_init] and of static storage. *)
(* src/rtl_fm.c: demod_init *)
Definition demod_init : demod_state :=
  let zeros := replicate (Z.to_nat MAXIMUM_BUF_LENGTH) 0 in
  mk_demod zeros 0 (replicate 10 (replicate 6 0)) (replicate 10 (replicate 6 0)) zeros (replicate 9 0) (replicate 9 0) 0
    (0, 0, 0) (0, 0) 11 (0, 0) 0 0.

Section demod.
Context `{libm} (s : demod_settings).

(* src/rtl_fm.c: low_pass *)
Definition low_pass (d : demod_state) : option demod_state :=
  let '(r, j, p) := now d in
  '(lp, n, now') ← low_pass_loop (S (Z.to_nat (lp_len d))) (lp_len d) (downsample s) (lowpassed d) 0 0 r j p;
  Some (set_now now' (set_lp lp n d)).

(* src/rtl_fm.c: low_pass_real *)
Definition low_pass_real (d : demod_state) : option demod_state :=
  let '(r, p) := now_lpr d in
  '(res, n, now') ← low_pass_real_loop (S (Z.to_nat (result_len d))) (result_len d) (rate_out s) (rate_out2 s) (result d) 0 0 r p;
  Some (set_lpr now' (set_result res n d)).

(** The value of [pcm]; the first sample of a buffer does not look at
    [custom_atan]. *)
(* src/rtl_fm.c:528-541 fm_demod *)
Definition discriminate (pcm ar aj br bj : Z) : option Z :=
  if custom_atan s =? 0 then Some (polar_discriminant ar aj br bj)
  else if custom_atan s =? 1 then polar_disc_fast ar aj br bj
  else if custom_atan s =? 2 then polar_disc_lut ar aj br bj
  else Some pcm.

(* src/rtl_fm.c:527-543 fm_demod *)
Fixpoint fm_loop (is' : list Z) (lp res : list Z) (pcm : Z) : option (list Z) :=
  match is' with
  | [] => Some res
  | i :: is' =>
      ar ← arr_get lp i; aj ← arr_get lp (i + 1); br ← arr_get lp (i - 2); bj ← arr_get lp (i - 1);
      pcm ← discriminate pcm ar aj br bj;
      res ← arr_set res (i / 2) (i16 pcm);
      fm_loop is' lp res pcm
  end.

(* src/rtl_fm.c: fm_demod *)
Definition fm_demod (d : demod_state) : option demod_state :=
  let lp := lowpassed d in
  x ← arr_get lp 0; y ← arr_get lp 1;
  let pcm := polar_discriminant x y (pre d).1 (pre d).2 in
  res ← arr_set (result d) 0 (i16 pcm);
  res ← fm_loop (map (fun k => k + 2) (stepped (lp_len d - 1 - 2) 2)) lp res pcm;
  r ← arr_get lp (lp_len d - 2); j ← arr_get lp (lp_len d - 1);
  Some (set_result res (Z.quot (lp_len d) 2) (set_pre (r, j) d)).

(** A demodulation of the pairs of [lowpassed] one by one. *)
Definition pairwise (f : Z -> Z -> option Z) (d : demod_state) : option demod_state :=
  res ← for_arr (stepped (lp_len d) 2)
          (fun i r => x ← arr_get (lowpassed d) i; y ← arr_get (lowpassed d) (i + 1); v ← f x y; arr_set r (i / 2) v)
          (result d);
  Some (set_result res (Z.quot (lp_len d) 2) d).

(** The square root of a negative number and a result that does not fit in 16
    bits have no value; [sqrt] of an [int] cut to an integer is [Z.sqrt]. *)
(* src/rtl_fm.c:558-560 am_demod *)
Definition am_sample (x y : Z) : option Z :=
  let pcm := i32 (i32 (x * x) + y * y) in
  if (pcm <? 0) || (32767 <? Z.sqrt pcm) then None else Some (i16 (Z.sqrt pcm * output_scale s)).
(* src/rtl_fm.c: am_demod *)
Definition am_demod : demod_state -> option demod_state := pairwise am_sample.
(* src/rtl_fm.c: usb_demod *)
Definition usb_demod : demod_state -> option demod_state := pairwise (fun x y => Some (i16 (i16 (x + y) * output_scale s))).
(* src/rtl_fm.c: lsb_demod *)
Definition lsb_demod : demod_state -> option demod_state := pairwise (fun x y => Some (i16 (i16 (x - y) * output_scale s))).

(* src/rtl_fm.c: raw_demod *)
Definition raw_demod (d : demod_state) : option demod_state :=
  res ← for_arr (stepped (lp_len d) 1) (fun i r => x ← arr_get (lowpassed d) i; arr_set r i x) (result d);
  Some (set_result res (lp_len d) d).

Definition run_mode (d : demod_state) : option demod_state :=
  match mode_demod s with
  | fm_mode => fm_demod d | raw_mode => raw_demod d | am_mode => am_demod d | usb_mode => usb_demod d | lsb_mode => lsb_demod d
  end.

(* src/rtl_fm.c:604-610 deemph_filter *)
Definition deemph_step (avg x : Z) : option Z :=
  let d := i32 (x - avg) in
  half ← c_div (deemph_a s) 2;
  q ← c_div (i32 (if 0 <? d then d + half else d - half)) (deemph_a s);
  Some (i32 (avg + q)).

Fixpoint deemph_loop (is' : list Z) (r : list Z) (avg : Z) : option (list Z * Z) :=
  match is' with
  | [] => Some (r, avg)
  | i :: is' => x ← arr_get r i; avg ← deemph_step avg x; r ← arr_set r i (i16 avg); deemph_loop is' r avg
  end.

(* src/rtl_fm.c: deemph_filter *)
Definition deemph_filter (d : demod_state) : option demod_state :=
  '(r, a) ← deemph_loop (stepped (result_len d) 1) (result d) (avg d);
  Some (set_avg a (set_result r (result_len d) d)).

Definition sum_all (l : list Z) : Z := foldl Z.add 0 l.

(* src/rtl_fm.c: dc_block_filter *)
Definition dc_block_filter (d : demod_state) : option demod_state :=
  let sum := sum_all (take (Z.to_nat (result_len d)) (result d)) in
  if result_len d =? 0 then None else
  let a := i32 (Z.quot sum (result_len d)) in
  a ← c_div (i32 (a + i32 (dc_avg d * 9))) 10;
  r ← for_arr (stepped (result_len d) 1) (fun i r => x ← arr_get r i; arr_set r i (i16 (x - a))) (result d);
  Some (set_dc a (set_result r (result_len d) d)).

(** The sums are [long]. *)
(* src/rtl_fm.c: rms *)
Definition rms (samples : list Z) (len step : Z) : Z :=
  let xs := omap (fun i => samples !! Z.to_nat i) (stepped len step) in
  let t := sum_all xs in
  let p := sum_all (map (fun x => x * x) xs) in
  let dc := ddiv (d_of_Z (t * step)) (d_of_Z len) in
  let err := dsub (dmul (d_of_Z (t * 2)) dc) (dmul (dmul dc dc) (d_of_Z len)) in
  d_to_i32 oor (dsqrt (ddiv (dsub (d_of_Z p) err) (d_of_Z len))).

(** The passes of [fifth_order] over the two halves of the interleaved array. *)
(* src/rtl_fm.c:739-742 full_demod *)
Fixpoint half_bands (passes : list Z) (len : Z) (lp : list Z) (hi hq : list (list Z)) : option (list Z * list (list Z) * list (list Z)) :=
  match passes with
  | [] => Some (lp, hi, hq)
  | i :: passes' =>
      h ← arr_get hi i; '(lp, h) ← fifth_order lp 0 (len ≫ i) h; hi ← arr_set hi i h;
      h ← arr_get hq i; '(lp, h) ← fifth_order lp 1 ((len ≫ i) - 1) h; hq ← arr_set hq i h;
      half_bands passes' len lp hi hq
  end.

(* src/rtl_fm.c:737-753 full_demod *)
Definition thin_out (d : demod_state) : option demod_state :=
  let ds_p := downsample_passes s in
  if truthy ds_p then
    '(lp, hi, hq) ← half_bands (zseq (Z.to_nat ds_p)) (lp_len d) (lowpassed d) (lp_i_hist d) (lp_q_hist d);
    let d := set_lp_hist hi hq (set_lp lp (lp_len d ≫ ds_p) d) in
    (* droop compensation *)
    if (comp_fir_size s =? 9) && (ds_p <=? 10) then
      fir ← arr_get cic_9_tables ds_p;
      '(lp, hi) ← generic_fir (lowpassed d) 0 (lp_len d) fir (droop_i_hist d);
      '(lp, hq) ← generic_fir lp 1 (lp_len d - 1) fir (droop_q_hist d);
      Some (set_droop hi hq (set_lp lp (lp_len d) d))
    else Some d
  else low_pass d.

(** The power squelch. *)
(* src/rtl_fm.c:754-764 full_demod *)
Definition squelch (d : demod_state) : option demod_state :=
  if truthy (squelch_level s) then
    if rms (lowpassed d) (lp_len d) 1 <? squelch_level s then
      lp ← for_arr (stepped (lp_len d) 1) (fun i lp => arr_set lp i 0) (lowpassed d);
      Some (set_hits (squelch_hits d + 1) (set_lp lp (lp_len d) d))
    else Some (set_hits 0 d)
  else Some d.

(* src/rtl_fm.c: full_demod *)
Definition full_demod (d : demod_state) : option demod_state :=
  d ← thin_out d;
  d ← squelch d;
  d ← run_mode d;
  match mode_demod s with
  | raw_mode => Some d
  | _ =>
      d ← (if 1 <? post_downsample s
           then '(r, n) ← low_pass_simple (result d) (result_len d) (post_downsample s); Some (set_result r n d) else Some d);
      d ← (if deemph s then deemph_filter d else Some d);
      d ← (if dc_block s then dc_block_filter d else Some d);
      (if 0 <? rate_out2 s then low_pass_real d else Some d)
  end.

(** The turn of the demodulation thread after a buffer: what is handed to the
    output thread, or the request to hop to another frequency. *)
(* src/rtl_fm.c:820-837 demod_thread_fn *)
Definition demod_turn (d : demod_state) : option (demod_state * option (list Z)) :=
  d ← full_demod d;
  if truthy (squelch_level s) && (conseq_squelch s <? squelch_hits d)
  then Some (set_hits (conseq_squelch s + 1) d, None)
  else Some (d, Some (take (Z.to_nat (result_len d)) (result d))).
End demod.

(** The buffer of the callback goes into [lowpassed]; [mute] bytes are silenced
    first. *)
(* src/rtl_fm.c: rtlsdr_callback *)
Definition callback (offset_tuning : bool) (mute : Z) (buf : list Z) (d : demod_state) : option demod_state :=
  let len := Z.of_nat (length buf) in
  buf ← for_arr (stepped mute 1) (fun i b => arr_set b i 127) buf;
  buf ← (if offset_tuning then Some buf else rotate_90 buf len);
  let buf16 := map (fun b => i16 (b - 127)) buf in
  if Z.of_nat (length (lowpassed d)) <? len then None else
  Some (set_lp (buf16 ++ drop (length buf) (lowpassed d)) len d).

(** The buffers of the device one after the other, each demodulated before the
    next one arrives: the audio that is written. *)
Fixpoint play `{libm} (s : demod_settings) (offset_tuning : bool) (bufs : list (list Z)) (d : demod_state) : option (list Z) :=
  match bufs with
  | [] => Some []
  | buf :: bufs' =>
      d ← callback offset_tuning 0 buf d;
      '(d, out) ← demod_turn s d;
      rest ← play s offset_tuning bufs' d;
      Some (match out with Some o => o ++ rest | None => rest end)
  end.
