(* ===== verification/RtlFmSpec.v ===== *)
(** * rtl_fm.c: the audio stream

    The functions of the demodulator work on one buffer in place.  Each is
    shown to be a machine of Streams.v run over the buffer; the audio that is
    written is then what these machines make of the whole stream of samples. *)

From S2P Require Import Prelude Arrays Double Streams RtlFm.

(** ** Machines *)

(** I and Q samples in turn. *)
Fixpoint flat (l : list (Z * Z)) : list Z := match l with [] => [] | (x, y) :: l' => x :: y :: flat l' end.

Lemma flat_app l l' : flat (l ++ l') = flat l ++ flat l'.
Proof. induction l as [|[x y] l IH]; [done|]. cbn [flat app]. by rewrite IH. Qed.

Lemma length_flat l : length (flat l) = (2 * length l)%nat.
Proof. induction l as [|[x y] l IH]; cbn [flat length]; lia. Qed.

(** The square window: the sum of [ds] samples. *)
Definition box_step (ds : Z) (s : Z * Z * Z) (p : Z * Z) : option (Z * Z) * (Z * Z * Z) :=
  let '(r, j, n) := s in
  let r := i32 (r + p.1) in
  let j := i32 (j + p.2) in
  if n + 1 <? ds then (None, (r, j, n + 1)) else (Some (i16 r, i16 j), (0, 0, 0)).

(** The phase difference to the sample before. *)
Definition disc_step `{libm} (s p : Z * Z) : option Z * (Z * Z) := (Some (i16 (polar_discriminant p.1 p.2 s.1 s.2)), p).

(** De-emphasis, with a divisor that is not 0. *)
Definition deemph_next (a avg x : Z) : Z :=
  let d := i32 (x - avg) in
  i32 (avg + Z.quot (i32 (if 0 <? d then d + Z.quot a 2 else d - Z.quot a 2)) a).
Definition deemph_machine (a : Z) (avg x : Z) : option Z * Z := (Some (i16 (deemph_next a avg x)), deemph_next a avg x).

(** Resampling from [fast] to [slow]. *)
Definition lpr_step (fast slow : Z) (s : Z * Z) (x : Z) : option Z * (Z * Z) :=
  let r := i32 (s.1 + x) in
  let p := s.2 + slow in
  if p <? fast then (None, (r, p)) else (Some (i16 (Z.quot r (Z.quot fast slow))), (0, p - fast)).

(** ** The loops are the machines *)

Lemma low_pass_loop_spec ds iq : forall fuel len lp i i2 s,
  has_at lp i (flat iq) -> 0 <= i2 <= i -> len = i + 2 * Z.of_nat (length iq) -> (length iq < fuel)%nat ->
  let out := mealy (box_step ds) s iq in
  exists lp', low_pass_loop fuel len ds lp i i2 s.1.1 s.1.2 s.2 = Some (lp', i2 + 2 * Z.of_nat (length out.1), out.2) /\
    length lp' = length lp /\ (forall k, k < i2 -> arr_get lp' k = arr_get lp k) /\ has_at lp' i2 (flat out.1).
Proof.
  induction iq as [|[x y] iq IH]; intros [|fuel] len lp i i2 [[r j] n] Ha Hi -> Hf; cbn [length] in Hf; try lia;
    cbn [low_pass_loop fst snd].
  { replace (_ <? _) with false by (cbn [length]; lia). exists lp. cbn [mealy fst snd length flat]. rewrite Z.add_0_r.
    split; [done|]. split; [done|]. split; [done|apply has_at_nil]. }
  replace (_ <? _) with true by (cbn [length]; lia). cbn [flat] in Ha.
  apply has_at_cons in Ha as [Ex Ha]. apply has_at_cons in Ha as [Ey Ha]. rewrite Ex, Ey. cbn [mbind option_bind].
  replace (i + 1 + 1) with (i + 2) in Ha by lia. pose proof (arr_get_range _ _ _ Ey).
  assert (El : i + 2 * Z.of_nat (length ((x, y) :: iq)) = i + 2 + 2 * Z.of_nat (length iq)) by (cbn [length]; lia). rewrite El.
  cbn [mealy box_step fst snd]. destruct (n + 1 <? ds).
  - destruct (IH fuel _ lp (i + 2) i2 (i32 (r + x), i32 (j + y), n + 1) Ha ltac:(lia) eq_refl ltac:(lia)) as (lp' & E & Hlp').
    cbn [fst snd] in E. rewrite E. exists lp'.
    destruct (mealy (box_step ds) _ iq) as [ys s']. by cbn [app fst snd] in *.
  - destruct (arr_set_spec lp i2 (i16 (i32 (r + x))) ltac:(lia)) as (l1 & -> & L1 & G1). cbn [mbind option_bind].
    destruct (arr_set_spec l1 (i2 + 1) (i16 (i32 (j + y))) ltac:(lia)) as (l2 & -> & L2 & G2). cbn [mbind option_bind].
    destruct (IH fuel (i + 2 + 2 * Z.of_nat (length iq)) l2 (i + 2) (i2 + 2) (0, 0, 0)) as (lp' & E & L' & K' & H').
    { eapply has_at_ext; [exact Ha|]. intros k Hk. rewrite G2, G1. by rewrite !(proj2 (Z.eqb_neq _ _)) by lia. }
    { lia. }
    { done. }
    { lia. }
    cbn [fst snd] in E. rewrite E. exists lp'. destruct (mealy (box_step ds) (0, 0, 0) iq) as [ys s'].
    cbn [app fst snd length flat] in *. split; [replace (i2 + 2 * Z.of_nat (S (length ys))) with (i2 + 2 + 2 * Z.of_nat (length ys)) by lia; reflexivity|]. split; [lia|]. split.
    + intros k Hk. rewrite K', G2, G1 by lia. by rewrite !(proj2 (Z.eqb_neq _ _)) by lia.
    + apply has_at_cons. split; [|apply has_at_cons; split].
      * rewrite K', G2, G1 by lia. rewrite Z.eqb_refl. by rewrite (proj2 (Z.eqb_neq i2 (i2 + 1))) by lia.
      * rewrite K', G2 by lia. by rewrite Z.eqb_refl.
      * by replace (i2 + 1 + 1) with (i2 + 2) by lia.
Qed.

(** A loop that writes the values [vals] from [o] on. *)
Lemma for_arr_fill (body : Z -> list Z -> option (list Z)) vals : forall (g : Z -> Z) (o : Z) arr,
  (forall k v arr', vals !! k = Some v -> length arr' = length arr -> body (g (Z.of_nat k)) arr' = arr_set arr' (o + Z.of_nat k) v) ->
  0 <= o -> o + Z.of_nat (length vals) <= Z.of_nat (length arr) ->
  exists arr', for_arr (map g (zseq (length vals))) body arr = Some arr' /\ length arr' = length arr /\
    (forall k, k < o -> arr_get arr' k = arr_get arr k) /\ has_at arr' o vals.
Proof.
  induction vals as [|v vals IH]; intros g o arr Hb Ho Hl; cbn [length] in *.
  { exists arr. split; [done|]. split; [done|]. split; [done|apply has_at_nil]. }
  rewrite zseq_S. cbn [map for_arr]. rewrite map_map.
  pose proof (Hb O v arr eq_refl eq_refl) as H0. change (Z.of_nat 0) with 0 in H0.
  rewrite Z.add_0_r in H0. rewrite H0.
  destruct (arr_set_spec arr o v ltac:(lia)) as (l1 & -> & L1 & G1). cbn [mbind option_bind].
  destruct (IH (fun k => g (1 + k)) (o + 1) l1) as (arr' & -> & L' & K' & H'); [|lia..|].
  { intros k w arr' Hk Hl'. replace (1 + Z.of_nat k) with (Z.of_nat (S k)) by lia.
    replace (o + 1 + Z.of_nat k) with (o + Z.of_nat (S k)) by lia. apply Hb; [done|lia]. }
  exists arr'. split; [done|]. split; [lia|]. split.
  - intros k Hk. rewrite K', G1 by lia. by rewrite (proj2 (Z.eqb_neq _ _)) by lia.
  - apply has_at_cons. split; [|done]. rewrite K', G1 by lia. by rewrite Z.eqb_refl.
Qed.

Lemma fm_loop_spec `{libm} (s : demod_settings) lp L : custom_atan s = 0 -> forall h prev res pcm,
  has_at lp (2 * h - 2) (flat (prev :: L)) -> 0 <= h -> h + Z.of_nat (length L) <= Z.of_nat (length res) ->
  exists res', fm_loop s (map (fun k => 2 * (h + k)) (zseq (length L))) lp res pcm = Some res' /\ length res' = length res /\
    (forall k, k < h -> arr_get res' k = arr_get res k) /\ has_at res' h (mealy disc_step prev L).1.
Proof.
  intros Hc. induction L as [|[x y] L IH]; intros h [px py] res pcm Ha Hh Hl; cbn [length] in *.
  { exists res. split; [done|]. split; [done|]. split; [done|apply has_at_nil]. }
  rewrite zseq_S. cbn [map fm_loop flat] in *. rewrite map_map, Z.add_0_r.
  apply has_at_cons in Ha as [E1 Ha]. apply has_at_cons in Ha as [E2 Ha].
  pose proof Ha as [E3 [E4 _]%has_at_cons]%has_at_cons.
  replace (2 * h - 2 + 1) with (2 * h - 1) in * by lia. replace (2 * h - 1 + 1) with (2 * h) in * by lia.
  rewrite E1, E2, E3, E4. cbn [mbind option_bind]. unfold discriminate at 1. rewrite Hc. cbn [Z.eqb mbind option_bind].
  replace (2 * h / 2) with h by (by rewrite Z.mul_comm, Z.div_mul).
  destruct (arr_set_spec res h (i16 (polar_discriminant x y px py)) ltac:(lia)) as (l1 & -> & L1 & G1). cbn [mbind option_bind].
  destruct (IH (h + 1) (x, y) l1 (polar_discriminant x y px py)) as (res' & E & L' & K' & H'); [|lia..|].
  { cbn [flat]. by replace (2 * (h + 1) - 2) with (2 * h) by lia. }
  exists res'. rewrite <- E. split; [f_equal; apply map_ext; lia|]. split; [lia|]. split.
  - intros k Hk. rewrite K', G1 by lia. by rewrite (proj2 (Z.eqb_neq _ _)) by lia.
  - cbn [mealy disc_step fst snd]. destruct (mealy disc_step (x, y) L) as [ys s']. cbn [fst] in *.
    apply has_at_cons. split; [|done]. rewrite K', G1 by lia. by rewrite Z.eqb_refl.
Qed.

Lemma c_div_pos a b : 0 < b -> c_div a b = Some (Z.quot a b).
Proof. intros Hb. unfold c_div. by replace ((b =? 0) || _) with false by lia. Qed.

Lemma deemph_loop_spec (s : demod_settings) xs : 0 < deemph_a s -> forall o r a,
  has_at r o xs ->
  let out := mealy (deemph_machine (deemph_a s)) a xs in
  exists r', deemph_loop s (map (fun k => o + k) (zseq (length xs))) r a = Some (r', out.2) /\ length r' = length r /\
    (forall k, k < o -> arr_get r' k = arr_get r k) /\ has_at r' o out.1.
Proof.
  intros Ha. induction xs as [|x xs IH]; intros o r a Hx; cbn [length].
  { exists r. split; [done|]. split; [done|]. split; [done|apply has_at_nil]. }
  rewrite zseq_S. cbn [map deemph_loop]. rewrite map_map, Z.add_0_r. apply has_at_cons in Hx as [Ex Hx].
  rewrite Ex. cbn [mbind option_bind]. unfold deemph_step at 1. rewrite !c_div_pos by lia. cbn [mbind option_bind].
  rewrite c_div_pos by lia. cbn [mbind option_bind].
  fold (deemph_next (deemph_a s) a x). pose proof (arr_get_range _ _ _ Ex).
  destruct (arr_set_spec r o (i16 (deemph_next (deemph_a s) a x)) ltac:(lia)) as (l1 & -> & L1 & G1). cbn [mbind option_bind].
  destruct (IH (o + 1) l1 (deemph_next (deemph_a s) a x)) as (r' & E & L' & K' & H').
  { eapply has_at_ext; [exact Hx|]. intros k Hk. rewrite G1. by rewrite (proj2 (Z.eqb_neq _ _)) by lia. }
  exists r'. cbn [mealy deemph_machine fst snd] in *. destruct (mealy (deemph_machine (deemph_a s)) _ xs) as [ys a']. cbn [fst snd] in *.
  rewrite <- E. split; [f_equal; apply map_ext; lia|]. split; [lia|]. split.
  - intros k Hk. rewrite K', G1 by lia. by rewrite (proj2 (Z.eqb_neq _ _)) by lia.
  - apply has_at_cons. split; [|done]. rewrite K', G1 by lia. by rewrite Z.eqb_refl.
Qed.

Lemma low_pass_real_loop_spec fast slow xs : 0 < slow <= fast -> fast <= 2 ^ 30 -> forall fuel len r i i2 s,
  has_at r i xs -> 0 <= i2 <= i -> 0 <= s.2 < fast -> len = i + Z.of_nat (length xs) -> (length xs < fuel)%nat ->
  let out := mealy (lpr_step fast slow) s xs in
  exists r', low_pass_real_loop fuel len fast slow r i i2 s.1 s.2 = Some (r', i2 + Z.of_nat (length out.1), out.2) /\
    length r' = length r /\ (forall k, k < i2 -> arr_get r' k = arr_get r k) /\ has_at r' i2 out.1 /\ 0 <= out.2.2 < fast.
Proof.
  intros Hs Hm. induction xs as [|x xs IH]; intros [|fuel] len r i i2 [v p] Ha Hi Hp -> Hf; cbn [length fst snd] in *; try lia;
    cbn [low_pass_real_loop].
  { replace (_ <? _) with false by (cbn [length]; lia). exists r. cbn [mealy fst snd length]. rewrite Z.add_0_r.
    split; [done|]. split; [done|]. split; [done|]. split; [apply has_at_nil|done]. }
  replace (_ <? _) with true by (cbn [length]; lia). apply has_at_cons in Ha as [Ex Ha]. rewrite Ex. cbn [mbind option_bind].
  pose proof (arr_get_range _ _ _ Ex). rewrite (i32_small (p + slow)) by (unfold is_i32; lia).
  assert (El : i + Z.of_nat (S (length xs)) = i + 1 + Z.of_nat (length xs)) by lia. rewrite El.
  assert (Es : lpr_step fast slow (v, p) x = if p + slow <? fast then (None, (i32 (v + x), p + slow))
    else (Some (i16 (Z.quot (i32 (v + x)) (Z.quot fast slow))), (0, p + slow - fast))) by done.
  cbn [mealy fst snd]. rewrite Es. destruct (Z.ltb_spec (p + slow) fast).
  - destruct (IH fuel _ r (i + 1) i2 (i32 (v + x), p + slow) Ha ltac:(lia) ltac:(cbn; lia) eq_refl ltac:(lia)) as (r' & E & Hr').
    cbn [fst snd] in E. rewrite E. exists r'.
    destruct (mealy (lpr_step fast slow) _ xs) as [ys s']. by cbn [fst snd] in *.
  - assert (1 <= Z.quot fast slow) by (rewrite Z.quot_div_nonneg by lia; apply Z.div_le_lower_bound; lia).
    rewrite c_div_pos by lia. cbn [mbind option_bind]. rewrite c_div_pos by lia. cbn [mbind option_bind].
    set (w := i16 _). destruct (arr_set_spec r i2 w ltac:(lia)) as (l1 & -> & L1 & G1). cbn [mbind option_bind].
    rewrite (i32_small (p + slow - fast)) by (unfold is_i32; lia).
    destruct (IH fuel (i + 1 + Z.of_nat (length xs)) l1 (i + 1) (i2 + 1) (0, p + slow - fast)) as (r' & E & L' & K' & H' & P').
    { eapply has_at_ext; [exact Ha|]. intros k Hk. rewrite G1. by rewrite !(proj2 (Z.eqb_neq _ _)) by lia. }
    { lia. }
    { cbn [snd]. lia. }
    { done. }
    { lia. }
    cbn [fst snd] in E. rewrite E. exists r'. destruct (mealy (lpr_step fast slow) (0, p + slow - fast) xs) as [ys s'].
    cbn [fst snd length] in *. split; [|split; [lia|split; [|split; [|done]]]].
    + by replace (i2 + Z.of_nat (S (length ys))) with (i2 + 1 + Z.of_nat (length ys)) by lia.
    + intros k Hk. rewrite K', G1 by lia. by rewrite !(proj2 (Z.eqb_neq _ _)) by lia.
    + apply has_at_cons. split; [|done]. rewrite K', G1 by lia. by rewrite Z.eqb_refl.
Qed.

(** ** The rotation by 90 degrees *)

(** Sample [k] is turned by [k mod 4] quarters; the negative of a byte is
    [255 - x]. *)
Definition quarter (k : Z) (p : Z * Z) : Z * Z :=
  if k =? 0 then p else if k =? 1 then (u8 (255 - p.2), p.1)
  else if k =? 2 then (u8 (255 - p.1), u8 (255 - p.2)) else (p.2, u8 (255 - p.1)).
Definition rot_step (k : Z) (p : Z * Z) : option (Z * Z) * Z := (Some (quarter k p), (k + 1) mod 4).

Lemma rotate_8_spec buf i (b0 b1 b2 b3 b4 b5 b6 b7 : Z) :
  has_at buf i [b0; b1; b2; b3; b4; b5; b6; b7] ->
  exists buf', rotate_8 i buf = Some buf' /\ length buf' = length buf /\ (forall k, k < i \/ i + 8 <= k -> arr_get buf' k = arr_get buf k) /\
    has_at buf' i [b0; b1; u8 (255 - b3); b2; u8 (255 - b4); u8 (255 - b5); b7; u8 (255 - b6)].
Proof.
  intros Ha. pose proof (has_at_range _ _ _ Ha ltac:(done)) as [Hi Hl]. cbn [length] in Hl.
  assert (forall k v, [b0; b1; b2; b3; b4; b5; b6; b7] !! k = Some v -> arr_get buf (i + Z.of_nat k) = Some v) as Hk by done.
  pose proof (Hk 0%nat _ eq_refl) as E0. pose proof (Hk 1%nat _ eq_refl) as E1. pose proof (Hk 2%nat _ eq_refl) as E2.
  pose proof (Hk 3%nat _ eq_refl) as E3. pose proof (Hk 4%nat _ eq_refl) as E4. pose proof (Hk 5%nat _ eq_refl) as E5.
  pose proof (Hk 6%nat _ eq_refl) as E6. pose proof (Hk 7%nat _ eq_refl) as E7.
  change (Z.of_nat 0) with 0 in E0. change (Z.of_nat 1) with 1 in E1. change (Z.of_nat 2) with 2 in E2.
  change (Z.of_nat 3) with 3 in E3. change (Z.of_nat 4) with 4 in E4. change (Z.of_nat 5) with 5 in E5.
  change (Z.of_nat 6) with 6 in E6. change (Z.of_nat 7) with 7 in E7. rewrite Z.add_0_r in E0. clear Hk Ha.
  unfold rotate_8. rewrite E3, E2. cbn [mbind option_bind].
  destruct (arr_set_spec buf (i + 3) b2 ltac:(lia)) as (l1 & -> & L1 & G1). cbn [mbind option_bind].
  destruct (arr_set_spec l1 (i + 2) (u8 (255 - b3)) ltac:(lia)) as (l2 & -> & L2 & G2). cbn [mbind option_bind].
  assert (G : forall k, k <> i + 3 -> k <> i + 2 -> arr_get l2 k = arr_get buf k).
  { intros k H3 H2. rewrite G2, G1. by rewrite !(proj2 (Z.eqb_neq _ _)) by lia. }
  rewrite (G (i + 4)), E4 by lia. cbn [mbind option_bind].
  destruct (arr_set_spec l2 (i + 4) (u8 (255 - b4)) ltac:(lia)) as (l3 & -> & L3 & G3). cbn [mbind option_bind].
  rewrite G3, (proj2 (Z.eqb_neq _ _)), G, E5 by lia. cbn [mbind option_bind].
  destruct (arr_set_spec l3 (i + 5) (u8 (255 - b5)) ltac:(lia)) as (l4 & -> & L4 & G4). cbn [mbind option_bind].
  rewrite (G4 (i + 6)), (proj2 (Z.eqb_neq _ _)), G3, (proj2 (Z.eqb_neq _ _)), G, E6 by lia. cbn [mbind option_bind].
  rewrite (G4 (i + 7)), (proj2 (Z.eqb_neq _ _)), G3, (proj2 (Z.eqb_neq _ _)), G, E7 by lia. cbn [mbind option_bind].
  destruct (arr_set_spec l4 (i + 6) b7 ltac:(lia)) as (l5 & -> & L5 & G5). cbn [mbind option_bind].
  destruct (arr_set_spec l5 (i + 7) (u8 (255 - b6)) ltac:(lia)) as (l6 & -> & L6 & G6).
  exists l6. split; [done|]. split; [lia|]. split.
  - intros k Hk. rewrite G6, G5, G4, G3. rewrite !(proj2 (Z.eqb_neq _ _)) by lia. apply G; lia.
  - intros k v Hk. rewrite G6, G5, G4, G3, G2, G1.
    do 8 (destruct k as [|k]; [injection Hk as <-; repeat case_match; try lia; try congruence; rewrite ?Z.add_0_r; assumption|]).
    done.
Qed.

Lemma rotate_spec n : forall buf i (g : Z -> Z) iq,
  length iq = (4 * n)%nat -> has_at buf i (flat iq) -> (forall k, g k = i + k * 8) ->
  exists buf', for_arr (map g (zseq n)) rotate_8 buf = Some buf' /\ length buf' = length buf /\
    (forall k, k < i \/ i + 8 * Z.of_nat n <= k -> arr_get buf' k = arr_get buf k) /\
    has_at buf' i (flat (mealy rot_step 0 iq).1) /\ (mealy rot_step 0 iq).2 = 0.
Proof.
  induction n as [|n IH]; intros buf i g iq Hl Ha Hg.
  { destruct iq; [|done]. exists buf. split; [done|]. split; [done|]. split; [done|]. split; [apply has_at_nil|done]. }
  destruct iq as [|[b0 b1] [|[b2 b3] [|[b4 b5] [|[b6 b7] iq]]]]; cbn [length] in Hl; try lia.
  change (flat _) with ([b0; b1; b2; b3; b4; b5; b6; b7] ++ flat iq) in Ha. apply has_at_app in Ha as [H8 Ha].
  destruct (rotate_8_spec _ _ _ _ _ _ _ _ _ _ H8) as (l1 & E1 & L1 & K1 & H1).
  rewrite zseq_S. cbn [map for_arr]. rewrite map_map, Hg, Z.mul_0_l, Z.add_0_r, E1. cbn [mbind option_bind].
  change (Z.of_nat (length [b0; b1; b2; b3; b4; b5; b6; b7])) with 8 in Ha.
  destruct (IH l1 (i + 8) (fun k => g (1 + k)) iq) as (buf' & -> & L' & K' & H' & Z').
  { lia. }
  { eapply has_at_ext; [exact Ha|]. intros k Hk. apply K1. lia. }
  { intros k. rewrite Hg. lia. }
  exists buf'. split; [done|]. split; [lia|]. split; [intros k Hk; rewrite K', K1 by lia; done|].
  cbn [mealy rot_step]. change ((0 + 1) mod 4) with 1. change ((1 + 1) mod 4) with 2. change ((2 + 1) mod 4) with 3.
  change ((3 + 1) mod 4) with 0. destruct (mealy rot_step 0 iq) as [ys s']. cbn [fst snd] in *. split; [|done].
  change (flat _) with ([b0; b1; u8 (255 - b3); b2; u8 (255 - b4); u8 (255 - b5); b7; u8 (255 - b6)] ++ flat ys).
  apply has_at_app. split; [|done]. eapply has_at_ext; [exact H1|]. intros k Hk. cbn [length] in Hk. apply K'. lia.
Qed.

(** ** One buffer *)

Lemma pairwise_spec (f : Z -> Z -> option Z) (g : Z * Z -> Z) d L :
  has_at (lowpassed d) 0 (flat L) -> lp_len d = 2 * Z.of_nat (length L) -> Z.of_nat (length L) <= Z.of_nat (length (result d)) ->
  (forall p, p ∈ L -> f p.1 p.2 = Some (g p)) ->
  exists r', pairwise f d = Some (set_result r' (Z.of_nat (length L)) d) /\ length r' = length (result d) /\ has_at r' 0 (map g L).
Proof.
  intros Ha Hn Hl Hf. unfold pairwise. rewrite (stepped_eq _ 2 (length L)) by lia.
  destruct (for_arr_fill (fun i r => x ← arr_get (lowpassed d) i; y ← arr_get (lowpassed d) (i + 1); v ← f x y; arr_set r (i / 2) v)
              (map g L) (fun k => k * 2) 0 (result d)) as (r' & E & L' & _ & H').
  { intros k v arr' Hk Harr. rewrite list_lookup_fmap in Hk. destruct (L !! k) as [p|] eqn:Ep; [|done].
    injection Hk as <-.
    assert (forall j (v : Z), flat L !! j = Some v -> arr_get (lowpassed d) (Z.of_nat j) = Some v) as Hg by (intros j v Hj; by apply Ha in Hj).
    assert (flat L !! (2 * k)%nat = Some p.1 /\ flat L !! (2 * k + 1)%nat = Some p.2) as [E1 E2].
    { clear -Ep. revert L Ep. induction k as [|k IH]; intros [|[x y] L] Ep; try done; cbn [flat].
      - injection Ep as <-. done.
      - replace (2 * S k)%nat with (S (S (2 * k))) by lia. by apply IH. }
    apply Hg in E1, E2. replace (Z.of_nat (2 * k)) with (Z.of_nat k * 2) in E1 by lia.
    replace (Z.of_nat (2 * k + 1)) with (Z.of_nat k * 2 + 1) in E2 by lia. rewrite E1, E2. cbn [mbind option_bind].
    rewrite Hf by (by eapply list_elem_of_lookup_2). cbn [mbind option_bind]. by rewrite Z.div_mul by lia. }
  { lia. }
  { rewrite length_map. lia. }
  rewrite length_map in E. rewrite E. cbn [mbind option_bind]. exists r'. split; [|done].
  f_equal. f_equal. rewrite Hn, Z.mul_comm. by rewrite Z.quot_mul.
Qed.

Lemma raw_demod_spec d L :
  has_at (lowpassed d) 0 L -> lp_len d = Z.of_nat (length L) -> Z.of_nat (length L) <= Z.of_nat (length (result d)) ->
  exists r', raw_demod d = Some (set_result r' (Z.of_nat (length L)) d) /\ length r' = length (result d) /\ has_at r' 0 L.
Proof.
  intros Ha Hn Hl. unfold raw_demod. rewrite (stepped_eq _ 1 (length L)) by lia.
  destruct (for_arr_fill (fun i r => x ← arr_get (lowpassed d) i; arr_set r i x) L (fun k => k * 1) 0 (result d)) as (r' & E & L' & _ & H').
  { intros k v arr' Hk Harr. rewrite Z.mul_1_r. apply Ha in Hk. rewrite Z.add_0_l in Hk. by rewrite Hk. }
  { lia. }
  { lia. }
  rewrite E. cbn [mbind option_bind]. exists r'. by rewrite Hn.
Qed.

Lemma disc_state `{libm} L p : (mealy disc_step p L).2 = default p (last L).
Proof.
  revert p. induction L as [|q L IH]; intros p; [done|]. cbn [mealy disc_step]. specialize (IH q).
  destruct (mealy disc_step q L) as [ys s]. cbn [snd] in *. rewrite IH. destruct L as [|q' L]; [done|].
  change (last (q :: q' :: L)) with (last (q' :: L)). by destruct (last (q' :: L)) eqn:El; [|apply last_None in El].
Qed.

Lemma fm_demod_spec `{libm} (s : demod_settings) d L :
  custom_atan s = 0 -> L <> [] -> has_at (lowpassed d) 0 (flat L) -> lp_len d = 2 * Z.of_nat (length L) ->
  Z.of_nat (length L) <= Z.of_nat (length (result d)) ->
  let out := mealy disc_step (pre d) L in
  exists r', fm_demod s d = Some (set_result r' (Z.of_nat (length L)) (set_pre out.2 d)) /\ length r' = length (result d) /\ has_at r' 0 out.1.
Proof.
  intros Hc Hne Ha Hn Hl. cbv zeta. rewrite disc_state. destruct (exists_last Hne) as (L0 & [x' y'] & EL).
  assert (arr_get (lowpassed d) (lp_len d - 2) = Some x' /\ arr_get (lowpassed d) (lp_len d - 1) = Some y') as [Ex' Ey'].
  { rewrite EL, flat_app in Ha. apply has_at_app in Ha as [_ [E1 [E2 _]%has_at_cons]%has_at_cons].
    rewrite length_flat in *. rewrite Hn, EL, length_app. cbn [length]. split; [rewrite <- E1|rewrite <- E2]; f_equal; lia. }
  replace (default (pre d) (last L)) with (x', y') by (by rewrite EL, last_snoc).
  destruct L as [|[x y] L]; [done|]. clear EL. cbn [length] in *.
  pose proof Ha as [E1 [E2 _]%has_at_cons]%has_at_cons. unfold fm_demod. rewrite Z.add_0_l in E2. rewrite E1, E2. cbn [mbind option_bind].
  destruct (arr_set_spec (result d) 0 (i16 (polar_discriminant x y (pre d).1 (pre d).2)) ltac:(lia)) as (l1 & -> & L1 & G1).
  cbn [mbind option_bind]. rewrite (stepped_eq _ 2 (length L)) by lia. rewrite map_map.
  destruct (fm_loop_spec s (lowpassed d) L Hc 1 (x, y) l1 (polar_discriminant x y (pre d).1 (pre d).2)) as (r' & E & L' & K' & H').
  { done. }
  { lia. }
  { lia. }
  rewrite (map_ext _ (fun k => 2 * (1 + k))) by lia. rewrite E. cbn [mbind option_bind]. rewrite Ex', Ey'. cbn [mbind option_bind].
  exists r'. split; [|split; [lia|]].
  - f_equal. f_equal. rewrite Hn, Z.mul_comm. by rewrite Z.quot_mul.
  - cbn [mealy disc_step fst snd]. destruct (mealy disc_step (x, y) L) as [ys s']. cbn [fst] in *.
    apply has_at_cons. split; [|done]. rewrite K', G1 by lia. done.
Qed.

(** ** The reference *)

Definition sum (l : list Z) : Z := foldr Z.add 0 l.

(** A sample is turned by its number. *)
Definition rotated (l : list (Z * Z)) : list (Z * Z) := imap (fun k p => quarter (Z.of_nat (k mod 4)) p) l.

(** The bytes are centred at 127. *)
Definition centred (p : Z * Z) : Z * Z := (p.1 - 127, p.2 - 127).

(** The sums of [ds] samples each, in 16 bits; an incomplete window at the end
    gives nothing. *)
Definition window (l : list (Z * Z)) : Z * Z := (i16 (sum (map fst l)), i16 (sum (map snd l))).
Definition thinned (ds : Z) (l : list (Z * Z)) : list (Z * Z) :=
  let n := Z.to_nat ds in map (fun k => window (take n (drop (k * n) l))) (seq 0 (length l / n)).

(** FM: each sample against the one before, the first against 0. *)
Definition phases `{libm} (l : list (Z * Z)) : list Z :=
  zip_with (fun p q => i16 (polar_discriminant p.1 p.2 q.1 q.2)) l ((0, 0) :: l).

Definition am_value (scale : Z) (p : Z * Z) : Z := i16 (Z.sqrt (p.1 * p.1 + p.2 * p.2) * scale).

Definition detected `{libm} (s : demod_settings) (l : list (Z * Z)) : list Z :=
  match mode_demod s with
  | fm_mode => phases l
  | raw_mode => flat l
  | am_mode => map (am_value (output_scale s)) l
  | usb_mode => map (fun p => i16 (i16 (p.1 + p.2) * output_scale s)) l
  | lsb_mode => map (fun p => i16 (i16 (p.1 - p.2) * output_scale s)) l
  end.

(** De-emphasis and resampling are recursive filters. *)
Definition deemphasised (s : demod_settings) (l : list Z) : list Z :=
  if deemph s then (mealy (deemph_machine (deemph_a s)) 0 l).1 else l.
Definition resampled (s : demod_settings) (l : list Z) : list Z :=
  if 0 <? rate_out2 s then (mealy (lpr_step (rate_out s) (rate_out2 s)) (0, 0) l).1 else l.

(** The audio of a stream of I/Q bytes. *)
Definition audio `{libm} (s : demod_settings) (offset_tuning : bool) (iq : list (Z * Z)) : list Z :=
  let samples := map centred (if offset_tuning then iq else rotated iq) in
  let l := thinned (downsample s) samples in
  match mode_demod s with raw_mode => flat l | _ => resampled s (deemphasised s (detected s l)) end.

(** ** The machines and the reference *)

Lemma mealy_rotated k l :
  mealy rot_step (Z.of_nat (k mod 4)) l =
  (imap (fun i p => quarter (Z.of_nat ((k + i) mod 4)) p) l, Z.of_nat ((k + length l) mod 4)).
Proof.
  revert k. induction l as [|p l IH]; intros k; cbn [mealy rot_step imap length]; [by rewrite Nat.add_0_r|].
  assert ((Z.of_nat (k mod 4) + 1) mod 4 = Z.of_nat (S k mod 4)) as ->.
  { rewrite !Nat2Z.inj_mod. change (Z.of_nat 4) with 4. rewrite Zplus_mod_idemp_l. f_equal. lia. }
  rewrite IH. rewrite Nat.add_0_r. f_equal; [|f_equal; f_equal; lia]. f_equal. apply imap_ext. intros i p' _.
  unfold compose. by replace (S k + i)%nat with (k + S i)%nat by lia.
Qed.

(** The sums so far, from the start of a window. *)
Lemma box_short ds l : forall R J n,
  n + Z.of_nat (length l) < ds ->
  mealy (box_step ds) (i32 R, i32 J, n) l = ([], (i32 (R + sum (map fst l)), i32 (J + sum (map snd l)), n + Z.of_nat (length l))).
Proof.
  induction l as [|[x y] l IH]; intros R J n Hn; cbn [mealy box_step map length fst snd] in *.
  { unfold sum. cbn [foldr]. by rewrite !Z.add_0_r. }
  rewrite !i32_add. replace (n + 1 <? ds) with true by lia. rewrite IH by lia.
  unfold sum. cbn [foldr]. f_equal. f_equal; [f_equal; f_equal; lia|lia].
Qed.

Lemma i32_0 : i32 0 = 0.
Proof. reflexivity. Qed.

Lemma box_window ds l : 0 < ds -> Z.of_nat (length l) = ds -> mealy (box_step ds) (0, 0, 0) l = ([window l], (0, 0, 0)).
Proof.
  intros Hd Hl. destruct (exists_last (l := l)) as (l0 & [x y] & ->); [by intros ->; cbn in Hl; lia|].
  rewrite length_app in Hl. cbn [length] in Hl. rewrite mealy_app.
  pose proof (box_short ds l0 0 0 0 ltac:(lia)) as E. rewrite i32_0 in E. rewrite E. cbn [fst snd mealy box_step].
  replace (_ <? ds) with false by lia. cbn [app fst snd]. rewrite !i32_add, !i16_i32. unfold window, sum.
  rewrite !map_app, !foldr_app. cbn [map foldr]. f_equal. f_equal. rewrite !Z.add_0_r, !Z.add_0_l.
  assert (forall (u : list Z) z, foldr Z.add z u = foldr Z.add 0 u + z) as Hf by (induction u as [|w u IHu]; intros z; cbn [foldr]; [lia|rewrite IHu; lia]).
  by rewrite (Hf _ x), (Hf _ y).
Qed.

Lemma box_thinned ds : 0 < ds -> forall l, (mealy (box_step ds) (0, 0, 0) l).1 = thinned ds l.
Proof.
  intros Hd l. remember (length l) as m eqn:Em. revert l Em. induction m as [m IH] using lt_wf_ind. intros l ->.
  unfold thinned. set (n := Z.to_nat ds). assert (n <> 0)%nat by lia.
  destruct (decide (length l < n)%nat) as [Hlt|Hge].
  - rewrite Nat.div_small by done. pose proof (box_short ds l 0 0 0 ltac:(lia)) as E. rewrite i32_0 in E. by rewrite E.
  - rewrite <- (take_drop n l) at 1. rewrite mealy_app, (box_window ds (take n l)) by (rewrite ?length_take; lia). cbn [fst snd app].
    rewrite (IH (length (drop n l))) by (rewrite ?length_drop; lia). unfold thinned. fold n.
    replace (length l / n)%nat with (S (length (drop n l) / n))%nat.
    2: { rewrite length_drop. rewrite <- Nat.add_1_r, <- Nat.div_add by done. f_equal. lia. }
    cbn [seq map Nat.mul]. rewrite drop_0. f_equal. rewrite <- seq_shift, map_map. apply map_ext. intros k.
    by rewrite drop_drop, Nat.mul_succ_l, Nat.add_comm.
Qed.

Lemma disc_phases `{libm} l p :
  (mealy disc_step p l).1 = zip_with (fun a b => i16 (polar_discriminant a.1 a.2 b.1 b.2)) l (p :: l).
Proof.
  revert p. induction l as [|q l IH]; intros p; [done|]. cbn [mealy disc_step zip_with]. specialize (IH q).
  destruct (mealy disc_step q l) as [ys s]. cbn [fst] in *. by rewrite IH.
Qed.

(** ** Buffer after buffer *)

(** The states of the machines between two buffers. *)
Record chain_state : Type := mk_chain { c_box : Z * Z * Z; c_pre : Z * Z; c_avg : Z; c_lpr : Z * Z }.

Section chain.
Context `{libm} (s : demod_settings) (offset_tuning : bool).

(** A machine that is switched on by a flag. *)
Definition optional {S A} (on : bool) (step : S -> A -> option A * S) (st : S) (l : list A) : list A * S :=
  if on then mealy step st l else (l, st).

Definition detect (pre : Z * Z) (l : list (Z * Z)) : list Z * (Z * Z) :=
  match mode_demod s with fm_mode => mealy disc_step pre l | _ => (detected s l, pre) end.

Definition chain (st : chain_state) (iq : list (Z * Z)) : list Z * chain_state :=
  let b := mealy (box_step (downsample s)) (c_box st) (map centred (if offset_tuning then iq else (mealy rot_step 0 iq).1)) in
  let d := detect (c_pre st) b.1 in
  match mode_demod s with
  | raw_mode => (d.1, mk_chain b.2 d.2 (c_avg st) (c_lpr st))
  | _ =>
      let e := optional (deemph s) (deemph_machine (deemph_a s)) (c_avg st) d.1 in
      let r := optional (0 <? rate_out2 s) (lpr_step (rate_out s) (rate_out2 s)) (c_lpr st) e.1 in
      (r.1, mk_chain b.2 d.2 e.2 r.2)
  end.

Lemma optional_app {S A} on (step : S -> A -> option A * S) st l l' :
  optional on step st (l ++ l') =
  ((optional on step st l).1 ++ (optional on step (optional on step st l).2 l').1, (optional on step (optional on step st l).2 l').2).
Proof. unfold optional. destruct on; [apply mealy_app|done]. Qed.

Lemma detected_app l l' : mode_demod s <> fm_mode -> detected s (l ++ l') = detected s l ++ detected s l'.
Proof. unfold detected. intros Hm. destruct (mode_demod s); [done|apply flat_app|apply map_app..]. Qed.

Lemma detect_app pre l l' :
  detect pre (l ++ l') = ((detect pre l).1 ++ (detect (detect pre l).2 l').1, (detect (detect pre l).2 l').2).
Proof.
  unfold detect. pose proof (detected_app l l') as Hd.
  destruct (mode_demod s); [apply mealy_app|cbn [fst snd]; by rewrite Hd..].
Qed.

(** Cutting the stream after a multiple of four samples changes nothing. *)
Lemma chain_app st iq iq' n :
  length iq = (4 * n)%nat ->
  chain st (iq ++ iq') = ((chain st iq).1 ++ (chain (chain st iq).2 iq').1, (chain (chain st iq).2 iq').2).
Proof.
  intros Hl. unfold chain.
  assert ((if offset_tuning then iq ++ iq' else (mealy rot_step 0 (iq ++ iq')).1) =
          (if offset_tuning then iq else (mealy rot_step 0 iq).1) ++ (if offset_tuning then iq' else (mealy rot_step 0 iq').1)) as ->.
  { destruct offset_tuning; [done|]. rewrite mealy_app. cbn [fst]. f_equal. f_equal. f_equal.
    pose proof (mealy_rotated 0 iq) as E. change (Z.of_nat (0 mod 4)) with 0 in E. rewrite E. cbn [snd].
    rewrite Hl, Nat.add_0_l, Nat.mul_comm. by rewrite Nat.Div0.mod_mul. }
  rewrite map_app, mealy_app. cbn [fst snd]. set (b := mealy (box_step (downsample s)) (c_box st) _).
  set (b' := mealy (box_step (downsample s)) b.2 _). rewrite detect_app. cbn [fst snd].
  set (d := detect (c_pre st) b.1). set (d' := detect d.2 b'.1). rewrite optional_app. cbn [fst snd]. rewrite optional_app.
  by destruct (mode_demod s).
Qed.

Lemma chain_nil st : chain st [] = ([], st).
Proof.
  destruct st. unfold chain. destruct offset_tuning; cbn; destruct (mode_demod s) eqn:Em; cbn; unfold detect, detected, optional; rewrite Em;
    by destruct (deemph s), (0 <? rate_out2 s).
Qed.

(** From the start, the chain gives the audio. *)
Definition start : chain_state := mk_chain (0, 0, 0) (0, 0) 0 (0, 0).

Lemma chain_audio iq : 0 < downsample s -> (chain start iq).1 = audio s offset_tuning iq.
Proof.
  intros Hd. unfold chain, audio, resampled, deemphasised, optional, start. cbn [c_box c_pre c_avg c_lpr].
  pose proof (mealy_rotated 0 iq) as Er. change (Z.of_nat (0 mod 4)) with 0 in Er. rewrite Er. cbn [fst].
  rewrite (imap_ext _ (fun k p => quarter (Z.of_nat (k mod 4)) p)) by done. fold (rotated iq).
  rewrite box_thinned by done. set (l := thinned _ _).
  assert ((detect (0, 0) l).1 = detected s l) as Ed.
  { unfold detect, detected. destruct (mode_demod s); try done. apply disc_phases. }
  rewrite Ed. unfold detected. destruct (mode_demod s); try done; by destruct (deemph s), (0 <? rate_out2 s).
Qed.
End chain.

(** ** The code is the chain *)

(** The settings covered: the square low pass, no squelch, no oversampling of
    the output, no DC filter, the standard discriminator.  With more than 181
    samples in a window an AM amplitude need not fit in 16 bits. *)
Record plain (s : demod_settings) : Prop := mk_plain {
  plain_passes : downsample_passes s = 0;
  plain_squelch : squelch_level s = 0;
  plain_post : post_downsample s <= 1;
  plain_dc : dc_block s = false;
  plain_atan : mode_demod s = fm_mode -> custom_atan s = 0;
  plain_window : 1 <= downsample s <= 2 ^ 20;
  plain_am : mode_demod s = am_mode -> downsample s <= 181;
  plain_deemph : deemph s = true -> 0 < deemph_a s;
  plain_rates : 0 < rate_out2 s -> rate_out2 s <= rate_out s <= 2 ^ 30;
}.

Section code.
Context `{libm} (s : demod_settings) (offset_tuning : bool) (Hs : plain s).

(** A buffer: whole groups of four samples, enough for one window. *)
Definition good_buf (iq : list (Z * Z)) : Prop :=
  (exists n, length iq = (4 * n)%nat) /\ downsample s <= Z.of_nat (length iq) <= 2 ^ 17 /\
  Forall (fun p => is_u8 p.1 /\ is_u8 p.2) iq.

(** The sums of a window so far. *)
Definition box_ok (b : Z * Z * Z) : Prop :=
  0 <= b.2 < downsample s /\ (downsample s <= 181 -> Z.abs b.1.1 <= 128 * b.2 /\ Z.abs b.1.2 <= 128 * b.2).

(** The state of the program between two buffers is the state of the chain. *)
Record tracks (d : demod_state) (st : chain_state) : Prop := mk_tracks {
  tr_lp : length (lowpassed d) = Z.to_nat MAXIMUM_BUF_LENGTH;
  tr_res : length (result d) = Z.to_nat MAXIMUM_BUF_LENGTH;
  tr_box : now d = c_box st;
  tr_pre : pre d = c_pre st;
  tr_avg : avg d = c_avg st;
  tr_lpr : now_lpr d = c_lpr st;
  tr_box_ok : box_ok (c_box st);
  tr_lpr_ok : 0 < rate_out2 s -> 0 <= (c_lpr st).2 < rate_out s;
}.

Definition small (p : Z * Z) : Prop := Z.abs p.1 <= 128 /\ Z.abs p.2 <= 128.

Lemma centred_small p : is_u8 p.1 -> is_u8 p.2 -> small (centred p).
Proof. unfold is_u8, small, centred. cbn [fst snd]. lia. Qed.

Lemma quarter_u8 k p : is_u8 p.1 -> is_u8 p.2 -> is_u8 (quarter k p).1 /\ is_u8 (quarter k p).2.
Proof. intros H1 H2. unfold quarter. repeat case_match; cbn [fst snd]; auto using u8_range. Qed.

Lemma mealy_rot_u8 k iq :
  Forall (fun p => is_u8 p.1 /\ is_u8 p.2) iq -> Forall (fun p => is_u8 p.1 /\ is_u8 p.2) (mealy rot_step k iq).1.
Proof.
  intros Hu. apply (mealy_inv rot_step (fun _ => True) (fun p => is_u8 p.1 /\ is_u8 p.2)); [|done|done].
  intros k' p _ [H1 H2]. split; [done|]. by apply quarter_u8.
Qed.

(** The windows are bounded, and one is complete after enough samples. *)
Lemma box_bounds b l :
  box_ok b -> Forall small l ->
  box_ok (mealy (box_step (downsample s)) b l).2 /\
  Forall (fun p => downsample s <= 181 -> Z.abs p.1 <= 23168 /\ Z.abs p.2 <= 23168) (mealy (box_step (downsample s)) b l).1.
Proof.
  destruct (plain_window s Hs) as [Hw _]. intros Hb Hl. apply (mealy_inv _ box_ok small); [|done|done].
  intros [[r j] n] [x y] [Hn Hrj] [Hx Hy]. cbn [fst snd] in *. unfold box_step. cbn [fst snd].
  assert (downsample s <= 181 -> i32 (r + x) = r + x /\ i32 (j + y) = j + y) as Hi
    by (intros Hd; specialize (Hrj Hd); split; apply i32_small; unfold is_i32; lia).
  destruct (Z.ltb_spec (n + 1) (downsample s)); cbn [fst snd from_option].
  - split; [|done]. split; [cbn [snd]; lia|]. intros Hd. cbn [fst snd]. specialize (Hrj Hd). destruct (Hi Hd) as [-> ->]. lia.
  - split; [split; cbn [fst snd]; lia|]. intros Hd. specialize (Hrj Hd). destruct (Hi Hd) as [-> ->].
    unfold i16. rewrite !Z.mod_small by lia. lia.
Qed.

Lemma box_some b l : box_ok b -> downsample s <= Z.of_nat (length l) -> (mealy (box_step (downsample s)) b l).1 <> [].
Proof.
  destruct b as [[r j] n]. intros [Hn _] Hl. cbn [snd] in Hn. assert (Hc : downsample s - n <= Z.of_nat (length l)) by lia.
  clear Hl. revert r j n Hn Hc. induction l as [|p l IH]; intros r j n Hn Hc; cbn [length] in Hc; [lia|]. cbn [mealy box_step].
  destruct (Z.ltb_spec (n + 1) (downsample s)).
  - specialize (IH (i32 (r + p.1)) (i32 (j + p.2)) (n + 1) ltac:(lia) ltac:(lia)). by destruct (mealy _ _ l).
  - by destruct (mealy _ _ l).
Qed.

Lemma box_length b l : (length (mealy (box_step (downsample s)) b l).1 <= length l)%nat.
Proof.
  revert b. induction l as [|p l IH]; intros b; cbn [mealy length]; [done|].
  destruct (box_step _ b p) as [o b']. specialize (IH b'). destruct (mealy _ b' l) as [ys b'']. cbn [fst] in *.
  destruct o; cbn [length]; lia.
Qed.

(** The callback fills [lowpassed] with the samples. *)
Lemma callback_ok iq d :
  good_buf iq -> length (lowpassed d) = Z.to_nat MAXIMUM_BUF_LENGTH ->
  exists lp, callback offset_tuning 0 (flat iq) d = Some (set_lp lp (2 * Z.of_nat (length iq)) d) /\
    length lp = length (lowpassed d) /\
    has_at lp 0 (flat (map centred (if offset_tuning then iq else (mealy rot_step 0 iq).1))).
Proof.
  intros ((n & Hn) & [_ Hl] & Hu) Hm. unfold callback. change (stepped 0 1) with (@nil Z). cbn [for_arr mbind option_bind].
  assert (exists buf, (if offset_tuning then Some (flat iq) else rotate_90 (flat iq) (Z.of_nat (length (flat iq)))) = Some buf /\
    buf = flat (if offset_tuning then iq else (mealy rot_step 0 iq).1) /\ length buf = length (flat iq)) as (buf & -> & -> & Lb).
  { destruct offset_tuning; [by exists (flat iq)|]. unfold rotate_90. rewrite (stepped_eq _ 8 n) by (rewrite ?length_flat; lia).
    destruct (rotate_spec n (flat iq) 0 (fun k => k * 8) iq Hn (has_at_self _) ltac:(intros k; cbv beta; lia)) as (buf & E & L & _ & Ha & _).
    exists buf. split; [exact E|]. split; [|done]. pose proof (has_at_take _ _ Ha) as Ht. rewrite take_ge in Ht; [done|].
    rewrite length_flat. pose proof (mealy_rotated 0 iq) as Er. change (Z.of_nat (0 mod 4)) with 0 in Er.
    rewrite Er. cbn [fst]. rewrite length_imap, L, length_flat. done. }
  cbn [mbind option_bind]. rewrite length_flat in *. set (x := if offset_tuning then iq else _) in *.
  assert (Forall (fun p => is_u8 p.1 /\ is_u8 p.2) x) as Hx by (unfold x; destruct offset_tuning; [done|by apply mealy_rot_u8]).
  change MAXIMUM_BUF_LENGTH with (2 ^ 18) in Hm. replace (_ <? _) with false by lia.
  assert (map (fun b => i16 (b - 127)) (flat x) = flat (map centred x)) as ->.
  { clear -Hx. induction x as [|[a b] x IH]; [done|]. apply Forall_cons in Hx as [[Ha Hb] Hx]. cbn [flat map centred fst snd] in *.
    rewrite IH by done. unfold is_u8 in *. unfold i16. by rewrite !Z.mod_small, !Z.add_simpl_r by lia. }
  eexists. split; [do 2 f_equal; lia|]. split.
  - rewrite length_app, length_drop, !length_flat, length_map in *. lia.
  - exact (proj1 (proj1 (has_at_app _ 0 _ _) (has_at_self (flat (map centred x) ++ drop (length (flat x)) (lowpassed d))))).
Qed.

Lemma set_pre_id d : set_pre (pre d) d = d.
Proof. by destruct d. Qed.

(** The demodulation of the windows. *)
Lemma run_mode_ok d l :
  l <> [] -> has_at (lowpassed d) 0 (flat l) -> lp_len d = 2 * Z.of_nat (length l) -> 2 * Z.of_nat (length l) <= Z.of_nat (length (result d)) ->
  Forall (fun p => downsample s <= 181 -> Z.abs p.1 <= 23168 /\ Z.abs p.2 <= 23168) l ->
  let out := detect s (pre d) l in
  exists r', run_mode s d = Some (set_result r' (Z.of_nat (length out.1)) (set_pre out.2 d)) /\
    length r' = length (result d) /\ has_at r' 0 out.1.
Proof.
  intros Hne Ha Hn Hl Hb. unfold run_mode, detect. destruct (mode_demod s) eqn:Em; cbv zeta; cbn [fst snd]; unfold detected; rewrite ?Em.
  - destruct (fm_demod_spec s d l) as (r' & E & L & H'); try (done || lia); [by apply (plain_atan s Hs)|].
    exists r'. rewrite E. split; [|done]. do 3 f_equal. rewrite disc_phases, length_zip_with. cbn [length]. lia.
  - rewrite set_pre_id. apply raw_demod_spec; [done|rewrite length_flat; lia..].
  - rewrite set_pre_id, length_map. apply pairwise_spec; [done..|lia|].
    intros p Hp. rewrite Forall_forall in Hb. destruct (Hb p Hp (plain_am s Hs Em)) as [Hx Hy].
    assert (0 <= p.1 * p.1 + p.2 * p.2 <= 2 * (23168 * 23168)) by nia.
    unfold am_sample, am_value. rewrite (i32_small (p.1 * p.1)), i32_small by (unfold is_i32; nia).
    assert (Z.sqrt (p.1 * p.1 + p.2 * p.2) < 32768) by (apply Z.sqrt_lt_square; lia).
    by replace ((_ <? 0) || (32767 <? _)) with false by lia.
  - rewrite set_pre_id, length_map. apply pairwise_spec; [done..|lia|]. done.
  - rewrite set_pre_id, length_map. apply pairwise_spec; [done..|lia|]. done.
Qed.

Lemma deemph_ok d l :
  deemph s = true -> has_at (result d) 0 l -> result_len d = Z.of_nat (length l) ->
  let out := mealy (deemph_machine (deemph_a s)) (avg d) l in
  exists r', deemph_filter s d = Some (set_avg out.2 (set_result r' (Z.of_nat (length l)) d)) /\
    length r' = length (result d) /\ has_at r' 0 out.1 /\ length out.1 = length l.
Proof.
  intros Hd Ha Hn. unfold deemph_filter. rewrite (stepped_eq _ 1 (length l)) by lia.
  destruct (deemph_loop_spec s l (plain_deemph s Hs Hd) 0 (result d) (avg d) Ha) as (r' & E & L & _ & H').
  rewrite (map_ext _ (fun k => 0 + k)) by lia. rewrite E. cbn [mbind option_bind]. rewrite Hn. exists r'.
  do 3 (split; [done|]). clear. generalize (avg d). induction l as [|x l IH]; intros a; [done|]. cbn [mealy deemph_machine].
  specialize (IH (deemph_next (deemph_a s) a x)). destruct (mealy _ _ l) as [ys a']. cbn [fst length] in *. by rewrite IH.
Qed.

Lemma lpr_ok d l :
  0 < rate_out2 s -> 0 <= (now_lpr d).2 < rate_out s -> has_at (result d) 0 l -> result_len d = Z.of_nat (length l) ->
  let out := mealy (lpr_step (rate_out s) (rate_out2 s)) (now_lpr d) l in
  exists r', low_pass_real s d = Some (set_lpr out.2 (set_result r' (Z.of_nat (length out.1)) d)) /\
    length r' = length (result d) /\ has_at r' 0 out.1 /\ 0 <= out.2.2 < rate_out s.
Proof.
  intros Hr Hp Ha Hn. destruct (plain_rates s Hs Hr) as [Hr1 Hr2]. unfold low_pass_real. destruct (now_lpr d) as [v p] eqn:En.
  destruct (low_pass_real_loop_spec (rate_out s) (rate_out2 s) l ltac:(lia) ltac:(lia) (S (Z.to_nat (result_len d))) (result_len d)
              (result d) 0 0 (v, p) Ha) as (r' & E & L & _ & H' & P'); cbn [fst snd] in *; try lia.
  rewrite E. cbn [mbind option_bind]. exists r'. by rewrite Z.add_0_l.
Qed.

(** The filters after the demodulation. *)
Definition post (d : demod_state) : option demod_state :=
  d ← (if 1 <? post_downsample s
       then '(r, n) ← low_pass_simple (result d) (result_len d) (post_downsample s); Some (set_result r n d) else Some d);
  d ← (if deemph s then deemph_filter s d else Some d);
  d ← (if dc_block s then dc_block_filter d else Some d);
  (if 0 <? rate_out2 s then low_pass_real s d else Some d).

Lemma post_ok d l :
  has_at (result d) 0 l -> result_len d = Z.of_nat (length l) -> (0 < rate_out2 s -> 0 <= (now_lpr d).2 < rate_out s) ->
  let e := optional (deemph s) (deemph_machine (deemph_a s)) (avg d) l in
  let r := optional (0 <? rate_out2 s) (lpr_step (rate_out s) (rate_out2 s)) (now_lpr d) e.1 in
  exists r', post d = Some (set_lpr r.2 (set_avg e.2 (set_result r' (Z.of_nat (length r.1)) d))) /\
    length r' = length (result d) /\ has_at r' 0 r.1 /\ (0 < rate_out2 s -> 0 <= r.2.2 < rate_out s).
Proof.
  intros Ha Hn Hp. unfold post. pose proof (plain_post s Hs). replace (1 <? post_downsample s) with false by lia.
  cbn [mbind option_bind]. rewrite (plain_dc s Hs). cbv zeta.
  assert (exists r1, (if deemph s then deemph_filter s d else Some d) =
            Some (set_avg (optional (deemph s) (deemph_machine (deemph_a s)) (avg d) l).2 (set_result r1 (Z.of_nat (length l)) d)) /\
          length r1 = length (result d) /\ has_at r1 0 (optional (deemph s) (deemph_machine (deemph_a s)) (avg d) l).1 /\
          length (optional (deemph s) (deemph_machine (deemph_a s)) (avg d) l).1 = length l) as (r1 & -> & L1 & H1 & N1).
  { unfold optional. destruct (deemph s) eqn:Ed; [by apply deemph_ok|]. exists (result d). rewrite <- Hn. by destruct d. }
  set (e := optional (deemph s) _ _ _) in *. cbn [mbind option_bind]. unfold optional.
  destruct (Z.ltb_spec 0 (rate_out2 s)) as [Hr|Hr].
  - destruct (lpr_ok (set_avg e.2 (set_result r1 (Z.of_nat (length l)) d)) e.1 Hr (Hp Hr)) as (r' & E & L & H' & P').
    { done. }
    { cbn. by rewrite N1. }
    rewrite E. exists r'. split; [done|]. split; [by rewrite L|done].
  - exists r1. cbn [fst snd]. rewrite N1. split; [by destruct d|]. split; [done|]. split; [done|lia].
Qed.

Lemma not_raw {A} (x y : A) : mode_demod s <> raw_mode -> match mode_demod s with raw_mode => x | _ => y end = y.
Proof. by destruct (mode_demod s). Qed.

(** A buffer is demodulated as the chain does it. *)
Lemma turn_ok d st iq :
  tracks d st -> good_buf iq ->
  exists d1, callback offset_tuning 0 (flat iq) d = Some d1 /\
    exists d2, demod_turn s d1 = Some (d2, Some (chain s offset_tuning st iq).1) /\ tracks d2 (chain s offset_tuning st iq).2.
Proof.
  intros [Tl Tr Tb Tp Ta Tq Tbo Tqo] Hg. pose proof Hg as (_ & [Hw Hl] & Hu).
  destruct (callback_ok iq d Hg Tl) as (lp & -> & Llp & Hlp). eexists. split; [done|].
  unfold chain. set (x := map centred _) in *.
  assert (Hx : Forall small x /\ length x = length iq).
  { unfold x. rewrite length_map, Forall_map. split.
    - assert (Forall (fun p => is_u8 p.1 /\ is_u8 p.2) (if offset_tuning then iq else (mealy rot_step 0 iq).1)) as Hx.
      { destruct offset_tuning; [done|by apply mealy_rot_u8]. }
      eapply Forall_impl; [exact Hx|]. intros p [H1 H2]. by apply centred_small.
    - destruct offset_tuning; [done|]. pose proof (mealy_rotated 0 iq) as Er. change (Z.of_nat (0 mod 4)) with 0 in Er.
      rewrite Er. cbn [fst]. by rewrite length_imap. }
  destruct Hx as [Hxs Hxl]. destruct (box_bounds (c_box st) x Tbo Hxs) as [Hbo Hb].
  pose proof (box_some (c_box st) x Tbo ltac:(lia)) as Hne. pose proof (box_length (c_box st) x) as Hbl.
  unfold demod_turn, full_demod, thin_out, low_pass. rewrite (plain_passes s Hs). change (truthy 0) with false. cbn match.
  cbn [now set_lp lp_len lowpassed]. rewrite Tb. destruct (c_box st) as [[r j] n] eqn:Eb.
  destruct (low_pass_loop_spec (downsample s) x (S (Z.to_nat (2 * Z.of_nat (length iq)))) (2 * Z.of_nat (length iq)) lp 0 0 (r, j, n) Hlp)
    as (lp1 & E1 & L1 & _ & H1); [lia..|]. cbn [fst snd] in E1. rewrite E1. cbn [mbind option_bind]. clear E1.
  cbn [mbind option_bind]. set (b := mealy (box_step (downsample s)) _ x) in *.
  set (d1 := set_now _ _). assert (Es : squelch s d1 = Some d1) by (unfold squelch; by rewrite (plain_squelch s Hs)).
  rewrite Es. cbn [mbind option_bind]. change MAXIMUM_BUF_LENGTH with (2 ^ 18) in *.
  destruct (run_mode_ok d1 b.1) as (r1 & E & Lr & Hr); [done|done|done|cbn; lia|done|]. rewrite E. cbn [mbind option_bind].
  change (pre d1) with (pre d) in *. rewrite Tp in *. set (t := detect s (c_pre st) b.1) in *.
  set (d2 := set_result r1 _ _). rewrite (plain_squelch s Hs). change (truthy 0) with false. cbn [andb].
  assert (Hlen : length r1 = Z.to_nat (2 ^ 18)) by (rewrite Lr; exact Tr).
  pose proof (has_at_take r1 t.1) as Ht.
  destruct (decide (mode_demod s = raw_mode)) as [Em|Em].
  - rewrite Em. cbn [mbind option_bind fst snd result_len result set_result d2]. rewrite Nat2Z.id, Ht by done.
    eexists. split; [done|]. split; first [done|exact (eq_trans L1 (eq_trans Llp Tl))].
  - rewrite !not_raw by done.
    destruct (post_ok d2 t.1) as (r2 & E2 & L2 & H2 & P2).
    { exact Hr. }
    { done. }
    { change (now_lpr d2) with (now_lpr d). rewrite Tq. done. }
    fold (post d2). rewrite E2. cbn [mbind option_bind result_len result set_result set_lpr set_avg].
    change (avg d2) with (avg d) in *. change (now_lpr d2) with (now_lpr d) in *. rewrite Ta, Tq in *.
    pose proof (has_at_take _ _ H2) as Ht2. rewrite Nat2Z.id, Ht2. eexists. split; [done|].
    split; first [done|exact (eq_trans L1 (eq_trans Llp Tl))|exact (eq_trans L2 Hlen)].
Qed.

Lemma init_tracks : tracks demod_init start.
Proof.
  pose proof (plain_window s Hs). split; [apply length_replicate|apply length_replicate|reflexivity..|split; cbn; lia|].
  intros Hr. destruct (plain_rates s Hs Hr). cbn. lia.
Qed.

(** The buffers, one after the other. *)
Lemma play_ok bufs : forall d st, tracks d st -> Forall good_buf bufs ->
  play s offset_tuning (map flat bufs) d = Some (chain s offset_tuning st (concat bufs)).1.
Proof.
  induction bufs as [|iq bufs IH]; intros d st Ht Hb; cbn [map play concat].
  { by rewrite chain_nil. }
  apply Forall_cons in Hb as [Hiq Hb]. destruct (turn_ok d st iq Ht Hiq) as (d1 & -> & d2 & E & Ht').
  cbn [mbind option_bind]. rewrite E. cbn [mbind option_bind]. rewrite (IH d2 _ Ht' Hb). cbn [mbind option_bind].
  destruct Hiq as [(n & Hn) _]. by rewrite (chain_app s offset_tuning st iq (concat bufs) n Hn).
Qed.
End code.

(** C5: rtl_fm's audio on a plain signal path ([plain]): the square low pass (no
    half-band passes) over windows of 1 to [2 ^ 20] samples; FM with the standard
    discriminator ([custom_atan] 0, as with [-M fm]; not with [-A fast], which
    [-M wbfm] sets, or [-A lut], where the first sample of each buffer is computed
    otherwise), AM with windows of at most 181 samples, SSB or raw; no squelch,
    output oversampling or DC filter; a positive de-emphasis constant if there is
    de-emphasis, and if there is resampling then downwards and from at most
    [2 ^ 30] Hz.  Then the buffers that the device delivers, whatever their number
    and sizes (whole groups of four samples, at least one window and at most the
    arrays), give the audio of their concatenation, as if it had been one buffer:
    rotation by the number of the sample in the whole stream, sums of windows,
    then for FM the phase differences (also across buffers), for AM the
    amplitudes, for SSB sum or difference, then de-emphasis and resampling; and no
    access of the code is outside of its arrays. *)
Theorem demod_stream `{libm} (s : demod_settings) (offset_tuning : bool) (bufs : list (list (Z * Z))) :
  plain s -> Forall (good_buf s) bufs ->
  play s offset_tuning (map flat bufs) demod_init = Some (audio s offset_tuning (concat bufs)).
Proof.
  intros Hs Hb. pose proof (plain_window s Hs). rewrite (play_ok s offset_tuning Hs bufs demod_init start); [|by apply init_tracks|done].
  by rewrite chain_audio by lia.
Qed.

(** Functions for the examples, and an SSB receiver with a window of two. *)
Definition test_libm : libm := mk_libm (fun y _ => y) (fun x => x) (fun _ => 0).
Definition ssb_settings : demod_settings := mk_settings 24000 12000 2 1 8 0 10 0 0 0 true 3 false usb_mode.
Definition ssb_bufs : list (list (Z * Z)) :=
  [[(200, 100); (90, 160); (127, 127); (10, 255)]; [(0, 0); (255, 255); (130, 120); (90, 91)]].

Lemma demod_stream_witness :
  play (H := test_libm) ssb_settings false (map flat ssb_bufs) demod_init
  = Some (audio (H := test_libm) ssb_settings false (concat ssb_bufs)).
Proof.
  refine (demod_stream (H := test_libm) ssb_settings false ssb_bufs _ _).
  - split; cbn; done || lia.
  - repeat constructor; try (by compute); by exists 1%nat.
Defined.

(** The audio of the example. *)
Lemma ssb_audio : audio (H := test_libm) ssb_settings false (concat ssb_bufs) = [280; -207].
Proof. vm_compute. reflexivity. Qed.

(** ** What the other filters do *)

(** [fifth_order] does not look at the last sample of a buffer ([x3]) at all:
    neither the output nor the history depends on it. *)
Lemma fifth_order_last_sample x0 y0 x1 y1 x2 y2 x3 y3 h0 h1 h2 h3 h4 h5 :
  fifth_order [x0; y0; x1; y1; x2; y2; x3; y3] 0 8 [h0; h1; h2; h3; h4; h5] =
  Some ([fifth h1 h2 h3 h4 h5 x0; y0; fifth h3 h4 h5 x0 x1 x2; y1; x2; y2; x3; y3], [h3; h4; h5; x0; x1; x2]).
Proof. reflexivity. Qed.

(** [fast_atan2] overflows for strong signals: two equal samples of amplitude
    1000 have a phase difference of 4294 (94 degrees) instead of 0. *)
Lemma polar_disc_fast_overflows : polar_disc_fast 1000 0 1000 0 = Some 4294.
Proof. vm_compute. reflexivity. Qed.
