(* ===== verification/RtlTcp.v ===== *)
(** * rtl_tcp.c: the sample server

    Three threads share a list of buffers and the device: the callback of the
    asynchronous read appends a buffer to the list, [tcp_worker] takes the whole
    list and sends it, [command_worker] reads commands of five bytes and calls
    the library.  The list is only touched under a mutex, so that the threads
    are steps on one state ([tcp]); the calls of the device are those of
    Device.v. *)

From S2P Require Import Prelude Arrays Usb Device.

(** ** The queue *)

(** The list with its elements' data, the elements that the worker is sending
    with the position in the first, and the bytes that went out. *)
(* src/rtl_tcp.c:73-90 llist *)
Record tcp : Type := mk_tcp {
  ll_buffers : list (list Z);
  global_numq : Z;
  llbuf_num : Z;
  curelem : list (list Z);
  index : nat;
  sent : list Z;
  do_exit : bool;
}.

(** The mutex is held from the test of the list to the end.  To drop the head
    when it is the last element too leaves [cur] dangling. *)
(* src/rtl_tcp.c: rtlsdr_callback *)
Definition rtlsdr_callback (buf : list Z) (t : tcp) : option tcp :=
  if do_exit t then Some t else
  match ll_buffers t with
  | [] => Some (mk_tcp [buf] (global_numq t) (llbuf_num t) (curelem t) (index t) (sent t) false)
  | q =>
      let num_queued := Z.of_nat (length q) - 1 in
      let full := truthy (llbuf_num t) && (llbuf_num t =? num_queued - 2) in
      if full && (num_queued =? 0) then None else
      Some (mk_tcp ((if full then tail q else q) ++ [buf]) num_queued (llbuf_num t) (curelem t) (index t) (sent t) false)
  end.

(** The worker wakes up and takes the list. *)
(* src/rtl_tcp.c:214-228 tcp_worker *)
Definition worker_take (t : tcp) : tcp :=
  mk_tcp [] (global_numq t) (llbuf_num t) (ll_buffers t) 0 (sent t) (do_exit t).

(** [send] takes [n] of the bytes that are left in the buffer. *)
(* src/rtl_tcp.c:231-245 tcp_worker *)
Definition worker_send (n : nat) (t : tcp) : option tcp :=
  match curelem t with
  | [] => None
  | c :: _ =>
      let bytes := drop (index t) c in
      if (length bytes <? n)%nat then None else
      Some (mk_tcp (ll_buffers t) (global_numq t) (llbuf_num t) (curelem t) (index t + n) (sent t ++ take n bytes) (do_exit t))
  end.

(** A buffer that is sent is freed. *)
(* src/rtl_tcp.c:251-254 tcp_worker *)
Definition worker_free (t : tcp) : option tcp :=
  match curelem t with
  | c :: rest =>
      if (index t =? length c)%nat
      then Some (mk_tcp (ll_buffers t) (global_numq t) (llbuf_num t) rest 0 (sent t) (do_exit t)) else None
  | [] => None
  end.

(** A timeout, an error of the socket or a signal. *)
(* src/rtl_tcp.c:146-152 sighandler *)
Definition sighandler (t : tcp) : tcp :=
  mk_tcp (ll_buffers t) (global_numq t) (llbuf_num t) (curelem t) (index t) (sent t) true.

(** The server after [main] has started the threads. *)
Definition tcp_start (n : Z) : tcp := mk_tcp [] 0 n [] 0 [] false.

(** The states that the threads can reach, in any order of their steps, and the
    buffers that the device has delivered. *)
Inductive reachable (n : Z) : list (list Z) -> tcp -> Prop :=
  | reach_start : reachable n [] (tcp_start n)
  | reach_callback bufs t buf t' :
      reachable n bufs t -> do_exit t = false -> rtlsdr_callback buf t = Some t' -> reachable n (bufs ++ [buf]) t'
  | reach_take bufs t : reachable n bufs t -> curelem t = [] -> do_exit t = false -> reachable n bufs (worker_take t)
  | reach_send bufs t k t' : reachable n bufs t -> worker_send k t = Some t' -> reachable n bufs t'
  | reach_free bufs t t' : reachable n bufs t -> worker_free t = Some t' -> reachable n bufs t'
  | reach_exit bufs t : reachable n bufs t -> reachable n bufs (sighandler t).

(** ** Commands *)

(** The parameter in network order. *)
Definition ntohl (b1 b2 b3 b4 : Z) : Z := (((b1 ≪ 24) .| (b2 ≪ 16)) .| (b3 ≪ 8)) .| b4.

(* src/rtl_tcp.c: set_gain_by_index *)
Definition set_gain_by_index (index : Z) : M rtlsdr_dev Z :=
  t ← gets rtlsdr_get_tuner_type;
  let gains := rtlsdr_get_tuner_gains t in
  let count := Z.of_nat (length gains) in
  if (0 <? count) && (index <? count) then
    g ← from_option_trap (arr_get gains index);
    rtlsdr_set_tuner_gain g
  else mret 0.

(** The call for a command; the results are not looked at. *)
(* src/rtl_tcp.c:315-375 command_worker *)
Definition dispatch (cmd param : Z) : M rtlsdr_dev Z :=
  if cmd =? 0x01 then rtlsdr_set_center_freq param else
  if cmd =? 0x02 then rtlsdr_set_sample_rate param else
  if cmd =? 0x03 then rtlsdr_set_tuner_gain_mode (i32 param) else
  if cmd =? 0x04 then rtlsdr_set_tuner_gain (i32 param) else
  if cmd =? 0x05 then rtlsdr_set_freq_correction (i32 param) else
  if cmd =? 0x06 then rtlsdr_set_tuner_if_gain (i32 (param ≫ 16)) (i16 (param .& 0xffff)) else
  if cmd =? 0x07 then rtlsdr_set_testmode (i32 param) else
  if cmd =? 0x08 then rtlsdr_set_agc_mode (i32 param) else
  if cmd =? 0x09 then rtlsdr_set_direct_sampling (i32 param) else
  if cmd =? 0x0a then rtlsdr_set_offset_tuning (i32 param) else
  if cmd =? 0x0b then rtlsdr_set_xtal_freq param 0 else
  if cmd =? 0x0c then rtlsdr_set_xtal_freq 0 param else
  if cmd =? 0x0d then set_gain_by_index param else
  if cmd =? 0x0e then rtlsdr_set_bias_tee (i32 param) else mret 0.

(** What the system does at a turn of the receive loop: nothing within the
    second, at most [n] bytes, or an error. *)
Inductive recv_result : Type := Timeout | Got (n : nat) | RecvError.

(** [struct command]: the bytes received so far; [left] is 5 less their
    number. *)
Definition sizeof_cmd : nat := 5.

(** The worker with the results [rs] of the system on the bytes [input] of the
    client; what is left of them. *)
(* src/rtl_tcp.c: command_worker *)
Fixpoint command_worker (rs : list recv_result) (input cmd : list Z) : M rtlsdr_dev (list Z * list Z) :=
  match rs with
  | [] => mret (input, cmd)
  | Timeout :: rs' => command_worker rs' input cmd
  | RecvError :: _ => mret (input, cmd)
  | Got n :: rs' =>
      let k := Nat.min n (sizeof_cmd - length cmd) in
      let cmd := cmd ++ take k input in
      let input := drop k input in
      match cmd with
      | [c; b1; b2; b3; b4] => dispatch c (ntohl b1 b2 b3 b4);; command_worker rs' input []
      | _ => command_worker rs' input cmd
      end
  end.

(** ** The greeting *)

(** [dongle_info_t]: the magic, the tuner type and the number of gains. *)
Definition htonl (x : Z) : list Z := [u8 (x ≫ 24); u8 (x ≫ 16); u8 (x ≫ 8); u8 x].

Definition tuner_number (t : rtlsdr_tuner) : Z :=
  match t with
  | RTLSDR_TUNER_UNKNOWN => 0 | RTLSDR_TUNER_E4000 => 1 | RTLSDR_TUNER_FC0012 => 2 | RTLSDR_TUNER_FC0013 => 3
  | RTLSDR_TUNER_FC2580 => 4 | RTLSDR_TUNER_R820T => 5 | RTLSDR_TUNER_R828D => 6
  end.

(* src/rtl_tcp.c:617-630 main *)
Definition dongle_info (d : rtlsdr_dev) : list Z :=
  let t := rtlsdr_get_tuner_type d in
  [82; 84; 76; 48] ++ htonl (tuner_number t) ++ htonl (Z.of_nat (length (rtlsdr_get_tuner_gains t))).
