(* ===== verification/RtlTcpSpec.v ===== *)
(** * rtl_tcp.c: what the client gets and what it can do

    The client receives whole buffers in the order of the device; the list
    cannot grow without bound.  The commands of a client act on the device as
    calls of the library, however the bytes arrive. *)

From S2P Require Import Prelude Arrays Usb UsbSpec Demod Device Repeater DeviceInv DeviceSession RtlTcp.

(** ** The queue *)

(** The bytes that are still to be sent. *)
Definition pending (t : tcp) : list Z :=
  match curelem t with c :: rest => drop (index t) c ++ concat rest | [] => [] end ++ concat (ll_buffers t).

(** What holds of a state with the buffers delivered so far. *)
Definition queue_inv (n : Z) (bufs : list (list Z)) (t : tcp) : Prop :=
  llbuf_num t = n /\ (n <> 0 -> Z.of_nat (length (ll_buffers t)) <= n + 3) /\
  (length (ll_buffers t) <= length bufs)%nat /\ match curelem t with c :: _ => (index t <= length c)%nat | [] => True end /\
  exists pre, sublist (pre ++ ll_buffers t) bufs /\
    sent t ++ match curelem t with c :: rest => drop (index t) c ++ concat rest | [] => [] end = concat pre /\
    (n = 0 \/ Z.of_nat (length bufs) <= n + 3 -> pre ++ ll_buffers t = bufs).

Lemma queue_inv_callback n bufs t buf t' :
  0 <= n -> queue_inv n bufs t -> do_exit t = false -> rtlsdr_callback buf t = Some t' -> queue_inv n (bufs ++ [buf]) t'.
Proof.
  intros Hn (Hq & Hl & Hb & Hi & pre & Hs & Hc & He) Hx. unfold rtlsdr_callback. rewrite Hx.
  destruct (ll_buffers t) as [|q qs] eqn:Eq.
  - intros [= <-]. unfold queue_inv. cbn [ll_buffers llbuf_num curelem index sent]. split; [done|]. split; [cbn; lia|].
    split; [rewrite length_app; cbn; lia|]. split; [done|]. exists pre. rewrite app_nil_r in *. split; [by apply sublist_app|].
    split; [done|]. intros Hk. rewrite He; [done|]. rewrite length_app in Hk. cbn in Hk. lia.
  - destruct (truthy _ && _) eqn:Ef; cbn [andb].
    + destruct (_ =? 0) eqn:E0; [done|]. intros [= <-]. unfold queue_inv. cbn [ll_buffers llbuf_num curelem index sent tail].
      unfold truthy in Ef. cbn [length] in *. split; [done|]. split; [rewrite length_app; cbn; lia|].
      split; [rewrite !length_app; cbn; lia|]. split; [done|]. exists pre. split.
      * rewrite app_assoc. apply sublist_app; [|done]. etransitivity; [|exact Hs]. apply sublist_app; [done|]. by apply sublist_cons.
      * split; [done|]. rewrite length_app. cbn. lia.
    + intros [= <-]. unfold queue_inv. cbn [ll_buffers llbuf_num curelem index sent]. split; [done|].
      unfold truthy in Ef. cbn [length] in *. split; [rewrite length_app; cbn; lia|]. split; [rewrite !length_app; cbn; lia|].
      split; [done|]. exists pre. rewrite app_comm_cons, app_assoc. split; [by apply sublist_app|]. split; [done|].
      intros Hk. rewrite He; [done|]. rewrite length_app in Hk. cbn in Hk. lia.
Qed.

Lemma queue_inv_take n bufs t : queue_inv n bufs t -> curelem t = [] -> queue_inv n bufs (worker_take t).
Proof.
  intros (Hq & Hl & Hb & _ & pre & Hs & Hc & He) Hx. unfold queue_inv, worker_take. cbn [ll_buffers llbuf_num curelem index sent].
  split; [done|]. split; [cbn; lia|]. split; [cbn; lia|]. split; [destruct (ll_buffers t); [done|lia]|].
  exists (pre ++ ll_buffers t). rewrite app_nil_r. split; [done|]. split; [|done]. rewrite Hx, app_nil_r in Hc.
  rewrite concat_app, <- Hc. f_equal. by destruct (ll_buffers t) as [|q qs]; cbn; rewrite ?drop_0.
Qed.

Lemma queue_inv_send n bufs t k t' : queue_inv n bufs t -> worker_send k t = Some t' -> queue_inv n bufs t'.
Proof.
  intros (Hq & Hl & Hb & Hi & pre & Hs & Hc & He). unfold worker_send.
  destruct (curelem t) as [|c rest] eqn:Ec; [done|]. destruct (_ <? k)%nat eqn:Ek; [done|]. intros [= <-].
  unfold queue_inv. cbn [ll_buffers llbuf_num curelem index sent]. rewrite length_drop in Ek. split_and!; try done; [lia|].
  exists pre. split; [done|]. split; [|done]. rewrite <- Hc, <- app_assoc. f_equal. rewrite <- drop_drop, app_assoc. by rewrite take_drop.
Qed.

Lemma queue_inv_free n bufs t t' : queue_inv n bufs t -> worker_free t = Some t' -> queue_inv n bufs t'.
Proof.
  intros (Hq & Hl & Hb & Hi & pre & Hs & Hc & He). unfold worker_free.
  destruct (curelem t) as [|c rest] eqn:Ec; [done|]. destruct (_ =? _)%nat eqn:Ek; [|done]. intros [= <-].
  unfold queue_inv. cbn [ll_buffers llbuf_num curelem index sent]. split_and!; try done; [destruct rest; [done|lia]|].
  exists pre. split; [done|]. split; [|done]. rewrite <- Hc. rewrite drop_ge by lia. cbn [app]. f_equal.
  by destruct rest; cbn; rewrite ?drop_0.
Qed.

Lemma reachable_inv n bufs t : 0 <= n -> reachable n bufs t -> queue_inv n bufs t.
Proof.
  intros Hn. induction 1 as [|bufs t buf t' _ IH Hx Hc|bufs t _ IH Hx _|bufs t k t' _ IH Hs|bufs t t' _ IH Hf|bufs t _ IH].
  - split; [done|]. split; [cbn; lia|]. split; [done|]. split; [done|]. by exists [].
  - by eapply queue_inv_callback.
  - by apply queue_inv_take.
  - by eapply queue_inv_send.
  - by eapply queue_inv_free.
  - exact IH.
Qed.

(** The worker changes nothing of the stream: it moves it from the list to the
    socket. *)
Definition stream (t : tcp) : list Z := sent t ++ pending t.

Lemma take_stream t : curelem t = [] -> stream (worker_take t) = stream t.
Proof.
  intros Hc. unfold stream, pending, worker_take. cbn [ll_buffers curelem index sent]. rewrite Hc. f_equal. rewrite app_nil_r.
  by destruct (ll_buffers t); cbn [concat]; rewrite ?drop_0.
Qed.

Lemma send_stream t k t' : worker_send k t = Some t' -> stream t' = stream t.
Proof.
  unfold worker_send. destruct (curelem t) as [|c rest] eqn:Ec; [done|]. destruct (_ <? k)%nat; [done|]. intros [= <-].
  unfold stream, pending. cbn [ll_buffers curelem index sent]. rewrite Ec, <- !app_assoc. f_equal. rewrite <- drop_drop, app_assoc. by rewrite take_drop.
Qed.

Lemma free_stream t t' : worker_free t = Some t' -> stream t' = stream t.
Proof.
  unfold worker_free. destruct (curelem t) as [|c rest] eqn:Ec; [done|]. destruct (_ =? _)%nat eqn:Ek; [|done]. intros [= <-].
  unfold stream, pending. cbn [ll_buffers curelem index sent]. rewrite Ec. f_equal. rewrite (drop_ge c) by lia.
  by destruct rest; cbn [app concat]; rewrite ?drop_0.
Qed.

(** C7: rtl_tcp's queue, in every interleaving of the callback with the worker,
    however few bytes the socket takes at a time: what was sent and what is
    still to be sent is a sequence of whole buffers in the order of the device.
    A buffer is lost only when the list is full, and then it is the oldest of the
    list: the callback appends the new buffer to the list, and drops the head
    when there are [n + 3] (never with -n 0); no step of the worker loses or
    changes anything.  The callback touches no freed element.  So the list never
    has more than [n + 3] buffers, where the usage says that -n is the maximum
    ([list_keeps_more]). *)
Theorem tcp_stream (n : Z) (bufs : list (list Z)) (t : tcp) :
  0 <= n -> reachable n bufs t ->
  (exists kept, sublist kept bufs /\ stream t = concat kept /\ (n = 0 \/ Z.of_nat (length bufs) <= n + 3 -> kept = bufs)) /\
  (n <> 0 -> Z.of_nat (length (ll_buffers t)) <= n + 3) /\
  (forall buf, do_exit t = false -> exists t', rtlsdr_callback buf t = Some t' /\ sent t' = sent t /\
     curelem t' = curelem t /\ index t' = index t /\
     ll_buffers t' = (if bool_decide (n <> 0 /\ Z.of_nat (length (ll_buffers t)) = n + 3) then tail (ll_buffers t) else ll_buffers t) ++ [buf]) /\
  (curelem t = [] -> stream (worker_take t) = stream t) /\
  (forall k t', worker_send k t = Some t' -> stream t' = stream t) /\
  (forall t', worker_free t = Some t' -> stream t' = stream t).
Proof.
  intros Hn Hr. destruct (reachable_inv n bufs t Hn Hr) as (Hq & Hl & _ & _ & pre & Hs & Hc & He).
  split_and!; [|done| |by apply take_stream|by apply send_stream|by apply free_stream].
  - exists (pre ++ ll_buffers t). split; [done|]. split; [|done]. unfold stream, pending. rewrite concat_app, <- Hc. by rewrite app_assoc.
  - intros buf Hx. unfold rtlsdr_callback. rewrite Hx. destruct (ll_buffers t) as [|q qs] eqn:Eq.
    { eexists. split; [reflexivity|]. split_and!; try done. by destruct (bool_decide _). }
    rewrite Hq. assert (truthy n && (n =? Z.of_nat (length (q :: qs)) - 1 - 2) =
      bool_decide (n <> 0 /\ Z.of_nat (length (q :: qs)) = n + 3)) as ->.
    { unfold truthy. destruct (bool_decide_reflect (n <> 0 /\ Z.of_nat (length (q :: qs)) = n + 3)); lia. }
    replace (_ && _) with false by (cbn [length]; destruct (bool_decide_reflect (n <> 0 /\ Z.of_nat (S (length qs)) = n + 3)); lia).
    eexists. split; [reflexivity|]. by split_and!.
Qed.

(** Two buffers are delivered, the first is sent in two parts. *)
Definition tcp_example : tcp := mk_tcp [[4; 5]] 0 1 [[1; 2; 3]] 2 [1; 2] false.

Lemma tcp_stream_witness :
  exists kept, sublist kept [[1; 2; 3]; [4; 5]] /\ stream tcp_example = concat kept /\
    (1 = 0 \/ 2 <= 1 + 3 -> kept = [[1; 2; 3]; [4; 5]]).
Proof.
  refine (proj1 (tcp_stream 1 [[1; 2; 3]; [4; 5]] tcp_example _ _)); [lia|].
  eapply (reach_callback 1 [[1; 2; 3]] (mk_tcp [] 0 1 [[1; 2; 3]] 2 [1; 2] false) [4; 5]); [|reflexivity|reflexivity].
  eapply (reach_send 1 _ (mk_tcp [] 0 1 [[1; 2; 3]] 0 [] false) 2); [|reflexivity].
  eapply (reach_take 1 [[1; 2; 3]] (mk_tcp [[1; 2; 3]] 0 1 [] 0 [] false)); [|reflexivity|reflexivity].
  eapply (reach_callback 1 [] (tcp_start 1) [1; 2; 3]); [constructor|reflexivity|reflexivity].
Defined.

(** With -n 1 the list gets four buffers. *)
Lemma list_keeps_more :
  exists t, reachable 1 [[1]; [2]; [3]; [4]] t /\ ll_buffers t = [[1]; [2]; [3]; [4]].
Proof.
  eexists. split.
  - eapply (reach_callback 1 [[1]; [2]; [3]] (mk_tcp [[1]; [2]; [3]] 1 1 [] 0 [] false) [4]); [|reflexivity|reflexivity].
    eapply (reach_callback 1 [[1]; [2]] (mk_tcp [[1]; [2]] 0 1 [] 0 [] false) [3]); [|reflexivity|reflexivity].
    eapply (reach_callback 1 [[1]] (mk_tcp [[1]] 0 1 [] 0 [] false) [2]); [|reflexivity|reflexivity].
    eapply (reach_callback 1 [] (tcp_start 1) [1]); [constructor|reflexivity|reflexivity].
  - reflexivity.
Qed.

(** With -n -2 the second buffer is appended to a freed element. *)
Lemma use_after_free : rtlsdr_callback [2] (mk_tcp [[1]] 0 (-2) [] 0 [] false) = None.
Proof. reflexivity. Qed.

(** ** Commands *)

(** The commands in a stream of bytes. *)
Fixpoint parse (l : list Z) : list (Z * Z) :=
  match l with c :: b1 :: b2 :: b3 :: b4 :: l' => (c, ntohl b1 b2 b3 b4) :: parse l' | _ => [] end.

(** The bytes after the last command. *)
Fixpoint unparsed (l : list Z) : list Z := match l with _ :: _ :: _ :: _ :: _ :: l' => unparsed l' | _ => l end.

Definition run_commands (l : list (Z * Z)) : M rtlsdr_dev unit := for_each l (fun p => dispatch p.1 p.2;; mret tt).

(** How many turns of the loop receive something. *)
Fixpoint receipts (rs : list recv_result) : nat :=
  match rs with [] | RecvError :: _ => 0 | Got (S _) :: rs' => S (receipts rs') | _ :: rs' => receipts rs' end.

Lemma command_worker_spec rs : forall input cmd, (length cmd < 5)%nat ->
  exists n, (Nat.min (length input) (receipts rs) <= n <= length input)%nat /\
    forall d, command_worker rs input cmd d =
      (run_commands (parse (cmd ++ take n input));; mret (drop n input, unparsed (cmd ++ take n input))) d.
Proof.
  assert (forall cmd : list Z, (length cmd < 5)%nat -> parse cmd = [] /\ unparsed cmd = cmd) as Hshort.
  { intros cmd Hc. do 5 (destruct cmd as [|? cmd]; [done|]). cbn in Hc. lia. }
  induction rs as [|[|k|] rs IH]; intros input cmd Hc; cbn [command_worker receipts].
  - exists O. split; [lia|]. intros d. rewrite take_0, app_nil_r. by destruct (Hshort cmd Hc) as [-> ->].
  - by apply IH.
  - set (k' := Nat.min k (sizeof_cmd - length cmd)). set (got := take k' input).
    assert (length got <= k')%nat by (unfold got; rewrite length_take; lia). unfold sizeof_cmd in *.
    assert (Hgot : (Nat.min (length input) (if decide (k = 0%nat) then 0 else 1) <= length got <= length input)%nat)
      by (unfold got; rewrite length_take; destruct (decide (k = 0%nat)); lia).
    assert (Eg : forall m, take (length got + m) input = got ++ take m (drop k' input) /\ drop (length got + m) input = drop m (drop k' input)).
    { intros m. destruct (decide (k' <= length input)%nat).
      - assert (length got = k') as -> by (unfold got; rewrite length_take; lia). unfold got.
        by rewrite take_take_drop, drop_drop.
      - unfold got. rewrite (take_ge input k'), (drop_ge input k'), take_nil, drop_nil, app_nil_r by lia.
        rewrite take_ge, drop_ge by lia. done. }
    assert (Hr : (receipts (Got k :: rs) <= (if decide (k = 0%nat) then 0 else 1) + receipts rs)%nat) by (destruct k; cbn [receipts]; done || lia).
    cbn [receipts] in Hr. pose proof (IH (drop k' input)) as IHd. rewrite length_drop in IHd.
    destruct (decide (length (cmd ++ got) < 5)%nat) as [Hlt|Hge].
    + destruct (IHd (cmd ++ got) Hlt) as (m & Hm & E). exists (length got + m)%nat. split.
      { unfold got in *. rewrite length_take in *. lia. }
      intros d. destruct (Eg m) as [-> ->]. rewrite app_assoc, <- E.
      destruct (cmd ++ got) as [|? [|? [|? [|? [|? ?]]]]]; [done..|cbn in Hlt; lia].
    + destruct (IHd [] ltac:(cbn; lia)) as (m & Hm & E). exists (length got + m)%nat. split.
      { unfold got in *. rewrite length_take in *. lia. }
      intros d. destruct (Eg m) as [-> ->]. rewrite app_assoc. rewrite length_app in Hge.
      assert (exists c b1 b2 b3 b4, cmd ++ got = [c; b1; b2; b3; b4]) as (c & b1 & b2 & b3 & b4 & ->).
      { assert (length (cmd ++ got) = 5%nat) as L by (rewrite length_app; lia).
        destruct (cmd ++ got) as [|c [|b1 [|b2 [|b3 [|b4 [|]]]]]]; try done. by eexists _, _, _, _, _. }
      cbn [app parse unparsed]. unfold run_commands. cbn [for_each fst snd]. unfold mbind, M_bind.
      destruct (dispatch c _ d) as [[r d']|]; [|done]. apply E.
  - exists O. split; [lia|]. intros d. rewrite take_0, app_nil_r. by destruct (Hshort cmd Hc) as [-> ->].
Qed.

(** The commands that need a parameter in range: the correction (at most 2 %)
    and the crystal of the tuner. *)
Definition command_ok (p : Z * Z) : Prop :=
  (p.1 = 0x05 -> Z.abs (i32 p.2) <= 20000) /\ (p.1 = 0x0c -> tuner_xtal_ok p.2).

(** Each command is a call of the library, or nothing. *)
Lemma dispatch_ok p : 0 <= p.2 -> command_ok p -> preserves dev_ok (dispatch p.1 p.2).
Proof.
  destruct p as [c v]. intros Hv [H5 Hc]. cbn [fst snd] in *. unfold dispatch.
  repeat match goal with |- preserves _ (if ?b then _ else _) => destruct b eqn:? end.
  - apply (run_api_ok (SetCenterFreq v)). done.
  - apply (run_api_ok (SetSampleRate v)). done.
  - apply (run_api_ok (SetTunerGainMode (i32 v))). done.
  - apply (run_api_ok (SetTunerGain (i32 v))). done.
  - apply (run_api_ok (SetFreqCorrection (i32 v))), H5. lia.
  - apply (run_api_ok (SetTunerIfGain (i32 (v ≫ 16)) (i16 (v .& 0xffff)))). done.
  - apply (run_api_ok (SetTestmode (i32 v))). done.
  - apply (run_api_ok (SetAgcMode (i32 v))). done.
  - apply (run_api_ok (SetDirectSampling (i32 v))). done.
  - apply (run_api_ok (SetOffsetTuning (i32 v))). done.
  - apply (run_api_ok (SetXtalFreq v 0)). by left.
  - apply (run_api_ok (SetXtalFreq 0 v)), Hc. lia.
  - unfold set_gain_by_index. apply preserves_bind; [apply preserves_gets|]. intros t.
    destruct ((0 <? _) && _) eqn:Hi; [|apply preserves_ret].
    destruct (arr_get_ok (rtlsdr_get_tuner_gains t) v ltac:(lia)) as [g Hg].
    apply (preserves_trap_bind _ _ g); [done|]. apply (run_api_ok (SetTunerGain g)). done.
  - apply (run_api_ok (SetBiasTee (i32 v))). done.
  - apply preserves_ret.
Qed.

Lemma parse_nonneg l : Forall is_u8 l -> Forall (fun p => 0 <= p.2) (parse l).
Proof.
  remember (length l) as n eqn:En. revert l En. induction n as [n IH] using lt_wf_ind. intros l -> Hl.
  destruct l as [|c [|b1 [|b2 [|b3 [|b4 l]]]]]; try done. cbn [parse].
  do 5 apply Forall_cons in Hl as [? Hl]. constructor.
  - cbn [snd]. unfold ntohl, is_u8 in *. rewrite !Z.lor_nonneg, !Z.shiftl_nonneg. lia.
  - eapply IH; [|done|done]. cbn [length]. lia.
Qed.

Lemma parse_take (P : Z * Z -> Prop) l n : Forall P (parse l) -> Forall P (parse (take n l)).
Proof.
  remember (length l) as m eqn:Em. revert l n Em. induction m as [m IH] using lt_wf_ind. intros l n -> Hl.
  destruct l as [|c [|b1 [|b2 [|b3 [|b4 l]]]]]; do 5 (destruct n as [|n]; [constructor|]); try (by constructor).
  cbn [take parse] in *. apply Forall_cons in Hl as [Hp Hl]. constructor; [done|]. eapply IH; [|done|done]. cbn [length]. lia.
Qed.

(** Commands that are safe leave an open device usable, however they arrive. *)
Lemma run_commands_ok input n : Forall is_u8 input -> Forall command_ok (parse input) -> preserves dev_ok (run_commands (parse (take n input))).
Proof.
  intros Hu Hc. apply preserves_for_each. intros c Hin. apply preserves_bind; [|solve_pres]. apply dispatch_ok.
  - apply (proj1 (Forall_forall (fun p => 0 <= p.2) (parse (take n input)))); [by apply parse_nonneg, Forall_take|done].
  - apply (proj1 (Forall_forall command_ok (parse (take n input)))); [by apply parse_take|done].
Qed.

Lemma command_worker_ok rs input :
  Forall is_u8 input -> Forall command_ok (parse input) -> preserves dev_ok (command_worker rs input []).
Proof.
  intros Hu Hc d Hd. destruct (command_worker_spec rs input [] ltac:(cbn; lia)) as (n & _ & E). unfold wp. rewrite E. cbn [app].
  change (wp (run_commands (parse (take n input));; mret (drop n input, unparsed (take n input))) (fun _ => dev_ok) d).
  apply wp_bind. eapply wp_mono; [|by apply run_commands_ok]. intros [] d' Hd'. by apply wp_ret.
Qed.

(** C6: rtl_tcp's commands, however the bytes of the client arrive: the worker
    takes in a part [n] of the stream, at least as many bytes as there were
    receipts, and its effect on the device is that of the commands in that part,
    one after the other; nothing depends on how the stream was cut.  When the
    corrections are at most 2 % and the crystal frequencies of the tuner in
    range, then on an opened device, whatever fails, the run has a defined
    result and every transfer to the tuner happens while the repeater is open;
    all other commands and parameters are safe. *)
Theorem client_commands (rs : list recv_result) (input : list Z) :
  exists n, (Nat.min (length input) (receipts rs) <= n <= length input)%nat /\
    (forall d, command_worker rs input [] d =
       (run_commands (parse (take n input));; mret (drop n input, unparsed (take n input))) d) /\
    (Forall is_u8 input -> Forall command_ok (parse input) ->
     forall e manufact product,
       wp (open_device manufact product;; command_worker rs input []) (fun _ d => disciplined (usb_log (dcore d))) (new_dev e)).
Proof.
  destruct (command_worker_spec rs input [] ltac:(cbn; lia)) as (n & Hn & E). exists n. split; [done|]. split; [exact E|].
  intros Hu Hc e m p. apply wp_bind. eapply wp_mono; [|apply open_device_ok]. intros u d Hd. cbv beta.
  eapply wp_mono; [|by apply command_worker_ok]. intros x d' (k & _ & (_ & Hdis & _) & _). exact Hdis.
Qed.

(** A client that tunes and sets the sample rate, in three pieces. *)
Definition client_bytes : list Z := [0x01; 0x05; 0xf5; 0xe1; 0x00; 0x02; 0x00; 0x1f; 0x40; 0x00].

Lemma client_commands_witness :
  wp (open_device "" "";; command_worker [Got 3; Timeout; Got 4; Got 5] client_bytes [])
    (fun _ d => disciplined (usb_log (dcore d))) (new_dev (env_ok (fun _ _ _ => 0x69))).
Proof.
  refine (let 'ex_intro _ n (conj _ (conj _ H)) := client_commands [Got 3; Timeout; Got 4; Got 5] client_bytes in H _ _ _ _ _).
  - repeat constructor; by compute.
  - repeat constructor; done.
Defined.

(** A correction of -1000000 ppm makes the clock of the tuner 0; the command to
    tune that follows divides by it: a client can stop the server. *)
Lemma client_stops_server :
  (open_device "" "";; dispatch 0x05 (2 ^ 32 - 1000000);; dispatch 0x01 100000000) (new_dev (env_ok (fun _ _ _ => 0x69))) = None.
Proof. vm_compute. reflexivity. Qed.
