(* ===== verification/Fft.v ===== *)
(** * rtl_power.c: the fixed-point Fourier transform

    [fix_fft] works in place on interleaved 16-bit samples: a permutation by
    loops of swaps, then passes of butterflies that halve the data.  An access
    outside of an array has no value.  [sin] and the other functions of math.h
    are parameters. *)

From S2P Require Import Prelude Arrays Double.
From Stdlib Require Import SpecFloat.

(** The functions of math.h that the program uses, and the result of a
    conversion to an integer type that C does not define. *)
Class math : Type := mk_math {
  sin : double -> double;
  cos : double -> double;
  pow : double -> double -> double;
  log2 : double -> double;
  log10 : double -> double;
  round : double -> double;
  oor : double -> Z;
}.

(** The constant of math.h: pi rounded to 53 bits. *)
Definition M_PI : double := S754_finite false 7074237752028440 (-51).

(** [Sinewave] and [LOG2_N_WAVE]; [N_WAVE] is [1 << LOG2_N_WAVE]. *)
(* src/rtl_power.c:81-82 Sinewave, N_WAVE, LOG2_N_WAVE *)
Record wave : Type := mk_wave { Sinewave : list Z; LOG2_N_WAVE : Z }.
Definition N_WAVE (w : wave) : Z := 1 ≪ LOG2_N_WAVE w.

(* src/rtl_power.c: sine_table *)
Definition sine_table `{math} (size : Z) : wave :=
  let n_wave := 1 ≪ size in
  mk_wave (map (fun i =>
      let d := ddiv (dmul (dmul (d_of_Z i) (d_of_Z 2)) M_PI) (d_of_Z n_wave) in
      i16 (d_to_i32 oor (round (dmul (d_of_Z 32767) (sin d)))))
    (stepped (n_wave * 3 / 4) 1)) size.

(** Fixed point multiply and scale. *)
(* src/rtl_power.c: FIX_MPY *)
Definition FIX_MPY (a b : Z) : Z :=
  let c := i32 (a * b) ≫ 14 in
  let b := i16 (c .& 0x01) in
  i16 ((c ≫ 1) + b).

(** [do l >>= 1; while (mr + l > nn);] *)
(* src/rtl_power.c:269-272 fix_fft *)
Fixpoint halve_while (fuel : nat) (mr nn l : Z) : option Z :=
  match fuel with
  | O => None
  | S fuel => let l := l ≫ 1 in if nn <? mr + l then halve_while fuel mr nn l else Some l
  end.

(** Two elements change places. *)
(* src/rtl_power.c:277-279 fix_fft *)
Definition swap (i j : Z) (iq : list Z) : option (list Z) :=
  tr ← arr_get iq i; x ← arr_get iq j;
  iq ← arr_set iq i x; arr_set iq j tr.

(** The samples are those from [o] on. *)
(* src/rtl_power.c:268-283 fix_fft *)
Fixpoint reorder (ms : list Z) (n nn o : Z) (iq : list Z) (mr : Z) : option (list Z) :=
  match ms with
  | [] => Some iq
  | m :: ms' =>
      l ← halve_while 32 mr nn n;
      let mr := (mr .& (l - 1)) + l in
      if mr <=? m then reorder ms' n nn o iq mr else
      iq ← swap (o + 2 * m) (o + 2 * mr) iq;
      iq ← swap (o + (2 * m + 1)) (o + (2 * mr + 1)) iq;
      reorder ms' n nn o iq mr
  end.

(* src/rtl_power.c:295-307 fix_fft *)
Definition butterfly (shift o l wr wi i : Z) (iq : list Z) : option (list Z) :=
  let j := i + l in
  xr ← arr_get iq (o + 2 * j); xi ← arr_get iq (o + (2 * j + 1));
  let tr := i16 (FIX_MPY wr xr - FIX_MPY wi xi) in
  let ti := i16 (FIX_MPY wr xi + FIX_MPY wi xr) in
  qr ← arr_get iq (o + 2 * i); qi ← arr_get iq (o + (2 * i + 1));
  let '(qr, qi) := if truthy shift then (qr ≫ 1, qi ≫ 1) else (qr, qi) in
  iq ← arr_set iq (o + 2 * j) (i16 (qr - tr));
  iq ← arr_set iq (o + (2 * j + 1)) (i16 (qi - ti));
  iq ← arr_set iq (o + 2 * i) (i16 (qr + tr));
  arr_set iq (o + (2 * i + 1)) (i16 (qi + ti)).

(** One twiddle factor, and its butterflies. *)
(* src/rtl_power.c:289-308 fix_fft *)
Definition twiddle_turn (w : wave) (shift o n l k m : Z) (iq : list Z) : option (list Z) :=
  let istep := l ≪ 1 in
  let j := m ≪ k in
  wr ← arr_get (Sinewave w) (j + N_WAVE w / 4);
  s ← arr_get (Sinewave w) j;
  let wi := i16 (- s) in
  let '(wr, wi) := if truthy shift then (wr ≫ 1, wi ≫ 1) else (wr, wi) in
  for_arr (map (fun a => m + a) (stepped (n - m) istep)) (butterfly shift o l wr wi) iq.

(** [while (l < n)]. *)
(* src/rtl_power.c:286-312 fix_fft *)
Fixpoint passes (fuel : nat) (w : wave) (o n l k : Z) (iq : list Z) : option (list Z) :=
  match fuel with
  | O => None
  | S fuel =>
      if l <? n then
        let shift := 1 in
        iq ← for_arr (stepped l 1) (twiddle_turn w shift o n l k) iq;
        passes fuel w o n (l ≪ 1) (k - 1) iq
      else Some iq
  end.

(** The transform of the [2 ^ m] samples from [o] on: the result and the
    array. *)
(* src/rtl_power.c: fix_fft *)
Definition fix_fft (w : wave) (o m : Z) (iq : list Z) : option (Z * list Z) :=
  let n := 1 ≪ m in
  if N_WAVE w <? n then Some (-1, iq) else
  let nn := n - 1 in
  iq ← reorder (map (fun a => 1 + a) (stepped nn 1)) n nn o iq 0;
  iq ← passes 32 w o n 1 (LOG2_N_WAVE w - 1) iq;
  Some (0, iq).
