(* ===== verification/FftSpec.v ===== *)
(** * The fixed-point Fourier transform: what it computes

    [fix_fft], which works in place with a bit-reversed order and passes of
    butterflies, gives the same numbers as the recursive transform [dft]:
    the transforms of the even and of the odd samples, combined with the
    twiddle factors, in the same 16-bit arithmetic. *)

From S2P Require Import Prelude Arrays Streams Double Fft.

(** ** Complex samples of an array *)

(** The sample [p] of those from [o] on. *)
Definition cget (l : list Z) (o p : Z) : Z * Z := (getz l (o + 2 * p), getz l (o + (2 * p + 1))).

(** An array that has the samples [f] from [o] on, [n] of them, and is [old]
    elsewhere. *)
Definition holds (old : list Z) (o n : Z) (f : Z -> Z * Z) (l : list Z) : Prop :=
  length l = length old /\ (forall p, 0 <= p < n -> cget l o p = f p) /\
  forall k, k < o \/ o + 2 * n <= k -> getz l k = getz old k.

Definition fits (o n : Z) (l : list Z) : Prop := 0 <= o /\ o + 2 * n <= Z.of_nat (length l).

Lemma holds_ext old o n f g l : (forall p, 0 <= p < n -> f p = g p) -> holds old o n f l -> holds old o n g l.
Proof. intros Hfg (L & H & H'). split; [done|]. split; [|done]. intros p Hp. rewrite H by done. by apply Hfg. Qed.

Lemma holds_self o n l : holds l o n (cget l o) l.
Proof. done. Qed.

(** Two samples are written. *)
Lemma cset_spec old o n f l p v :
  holds old o n f l -> fits o n old -> 0 <= p < n ->
  exists l1 l2, arr_set l (o + 2 * p) v.1 = Some l1 /\ arr_set l1 (o + (2 * p + 1)) v.2 = Some l2 /\
    holds old o n (fun q => if q =? p then v else f q) l2.
Proof.
  intros (L & Hf & Ho) [Ho0 Hlen] Hp.
  destruct ((arr_set_get_or 0) l (o + 2 * p) v.1) as (l1 & E1 & L1 & G1); [lia|].
  destruct ((arr_set_get_or 0) l1 (o + (2 * p + 1)) v.2) as (l2 & E2 & L2 & G2); [lia|].
  exists l1, l2. split_and!; [done..|]. split; [congruence|]. split.
  - intros q Hq. unfold cget. rewrite !G2, !G1. destruct (Z.eqb_spec q p) as [->|Hne].
    + rewrite Z.eqb_refl. replace (o + 2 * p =? o + (2 * p + 1)) with false by lia. rewrite Z.eqb_refl. by destruct v.
    + replace (o + 2 * q =? o + (2 * p + 1)) with false by lia. replace (o + 2 * q =? o + 2 * p) with false by lia.
      replace (o + (2 * q + 1) =? o + (2 * p + 1)) with false by lia.
      replace (o + (2 * q + 1) =? o + 2 * p) with false by lia. by apply Hf.
  - intros k Hk. rewrite G2, G1. replace (k =? o + (2 * p + 1)) with false by lia.
    replace (k =? o + 2 * p) with false by lia. by apply Ho.
Qed.

Lemma cget_re old o n f l p : holds old o n f l -> fits o n old -> 0 <= p < n ->
  arr_get l (o + 2 * p) = Some (f p).1 /\ arr_get l (o + (2 * p + 1)) = Some (f p).2.
Proof.
  intros (L & Hf & _) [Ho0 Hlen] Hp. rewrite <- (Hf p Hp). cbn [cget fst snd]. split; apply (arr_get_get_or 0); lia.
Qed.

(** ** Bit reversal *)

(** The [n] low bits of [b] in reverse order. *)
Fixpoint rev (n : nat) (b : Z) : Z :=
  match n with O => 0 | S n => b mod 2 * 2 ^ Z.of_nat n + rev n (b / 2) end.

Lemma pow2_S (n : nat) : 2 ^ Z.of_nat (S n) = 2 * 2 ^ Z.of_nat n.
Proof. by rewrite Nat2Z.inj_succ, Z.pow_succ_r by lia. Qed.

Lemma pow2_pos (n : nat) : 0 < 2 ^ Z.of_nat n.
Proof. apply Z.pow_pos_nonneg; lia. Qed.

Lemma rev_range n : forall b, 0 <= rev n b < 2 ^ Z.of_nat n.
Proof.
  induction n as [|n IH]; intros b; cbn [rev]; [done|]. rewrite pow2_S. specialize (IH (b / 2)).
  pose proof (Z.mod_pos_bound b 2 ltac:(lia)). pose proof (pow2_pos n). nia.
Qed.

Lemma testbit_low_high (n : nat) a b i : 0 <= a < 2 ^ Z.of_nat n -> 0 <= b -> 0 <= i ->
  Z.testbit (b * 2 ^ Z.of_nat n + a) i = if i <? Z.of_nat n then Z.testbit a i else Z.testbit b (i - Z.of_nat n).
Proof.
  intros Ha Hb Hi. destruct (Z.ltb_spec i (Z.of_nat n)).
  - rewrite <- (Z.mod_pow2_bits_low (b * 2 ^ Z.of_nat n + a) (Z.of_nat n)) by done.
    rewrite Z.add_comm, Z.mod_add by (pose proof (pow2_pos n); lia). by rewrite Z.mod_small.
  - replace i with (i - Z.of_nat n + Z.of_nat n) at 1 by lia. rewrite <- Z.div_pow2_bits by lia.
    rewrite Z.div_add_l by (pose proof (pow2_pos n); lia). by rewrite Z.div_small, Z.add_0_r.
Qed.

Lemma rev_testbit n : forall b i, 0 <= b -> 0 <= i < Z.of_nat n -> Z.testbit (rev n b) i = Z.testbit b (Z.of_nat n - 1 - i).
Proof.
  induction n as [|n IH]; intros b i Hb Hi; [lia|]. cbn [rev].
  rewrite testbit_low_high; [|apply rev_range|by apply Z.mod_pos_bound|lia].
  destruct (Z.ltb_spec i (Z.of_nat n)).
  - rewrite IH by (try apply Z.div_pos; lia). change 2 with (2 ^ 1) at 1. rewrite Z.div_pow2_bits by lia. f_equal. lia.
  - replace (i - Z.of_nat n) with 0 by lia. replace (Z.of_nat (S n) - 1 - i) with 0 by lia.
    change 2 with (2 ^ 1). by rewrite Z.mod_pow2_bits_low.
Qed.

Lemma bits_above (n : nat) a i : 0 <= a < 2 ^ Z.of_nat n -> Z.of_nat n <= i -> Z.testbit a i = false.
Proof.
  intros Ha Hi. rewrite <- (Z.mod_small a (2 ^ Z.of_nat n)) by done. apply Z.mod_pow2_bits_high. lia.
Qed.

Lemma rev_involutive n b : 0 <= b < 2 ^ Z.of_nat n -> rev n (rev n b) = b.
Proof.
  intros Hb. apply Z.bits_inj'. intros i Hi. pose proof (rev_range n b) as Hr. pose proof (rev_range n (rev n b)).
  destruct (Z.ltb_spec i (Z.of_nat n)).
  - rewrite !rev_testbit by lia. f_equal. lia.
  - by rewrite !(bits_above n) by lia.
Qed.

Lemma halve_while_shift r n fuel : forall l, halve_while fuel (1 * n + r) (2 * n - 1) l = halve_while fuel r (n - 1) l.
Proof.
  induction fuel as [|fuel IH]; intros l; [done|]. cbn [halve_while]. rewrite IH.
  by replace (2 * n - 1 <? 1 * n + r + (l ≫ 1)) with (n - 1 <? r + (l ≫ 1)) by lia.
Qed.

(** The loop that looks for the next index counts upwards in reverse. *)
Lemma rev_next n : forall fuel m, (n <= fuel)%nat -> 0 <= m < 2 ^ Z.of_nat n - 1 ->
  exists l, halve_while fuel (rev n m) (2 ^ Z.of_nat n - 1) (2 ^ Z.of_nat n) = Some l /\
    (rev n m .& (l - 1)) + l = rev n (m + 1) /\ exists j : nat, (j < n)%nat /\ l = 2 ^ Z.of_nat j.
Proof.
  induction n as [|n IH]; intros fuel m Hf Hm; [cbn in Hm; lia|]. destruct fuel as [|fuel]; [lia|].
  rewrite pow2_S in *. cbn [halve_while]. rewrite Z.shiftr_div_pow2 by done.
  replace (2 * 2 ^ Z.of_nat n / 2 ^ 1) with (2 ^ Z.of_nat n) by (rewrite Z.mul_comm, Z.div_mul; done).
  pose proof (pow2_pos n) as Hp. pose proof (rev_range n (m / 2)) as Hr. cbn [rev].
  pose proof (Z.div_mod m 2 ltac:(lia)) as Hdm. pose proof (Z.mod_pos_bound m 2 ltac:(lia)) as Hmb.
  assert (m mod 2 = 0 \/ m mod 2 = 1) as [E|E] by lia; rewrite E.
  - replace (2 * 2 ^ Z.of_nat n - 1 <? 0 * 2 ^ Z.of_nat n + rev n (m / 2) + 2 ^ Z.of_nat n) with false by lia.
    exists (2 ^ Z.of_nat n). split; [done|]. split; [|exists n; lia].
    rewrite Z.mul_0_l, Z.add_0_l.
    replace (2 ^ Z.of_nat n - 1) with (Z.ones (Z.of_nat n)) by (rewrite Z.ones_equiv; lia).
    rewrite Z.land_ones, Z.mod_small by lia.
    assert ((m + 1) mod 2 = 1) as -> by (rewrite Z.add_mod, E by lia; done).
    assert ((m + 1) / 2 = m / 2) as -> by (symmetry; apply (Z.div_unique _ _ _ 1); lia). lia.
  - replace (2 * 2 ^ Z.of_nat n - 1 <? 1 * 2 ^ Z.of_nat n + rev n (m / 2) + 2 ^ Z.of_nat n) with true by lia.
    destruct (IH fuel (m / 2)) as (l & El & Hl & j & Hj & ->); [lia|lia|]. exists (2 ^ Z.of_nat j).
    split; [|split; [|exists j; lia]].
    + by rewrite halve_while_shift.
    + assert ((m + 1) mod 2 = 0) as -> by (rewrite Z.add_mod, E by lia; done).
      assert ((m + 1) / 2 = m / 2 + 1) as -> by (symmetry; apply (Z.div_unique _ _ _ 0); lia).
      rewrite <- Hl. rewrite Z.mul_0_l, Z.add_0_l, Z.mul_1_l. f_equal.
      replace (2 ^ Z.of_nat j - 1) with (Z.ones (Z.of_nat j)) by (rewrite Z.ones_equiv; lia).
      rewrite !Z.land_ones by lia.
      replace (Z.of_nat n) with (Z.of_nat (n - j) + Z.of_nat j) by lia.
      rewrite Z.pow_add_r, Z.add_comm, Z.mod_add by (pose proof (pow2_pos j); lia). done.
Qed.

(** ** The re-ordering *)

Lemma swap_spec i j l :
  0 <= i < Z.of_nat (length l) -> 0 <= j < Z.of_nat (length l) -> i <> j ->
  exists l', swap i j l = Some l' /\ length l' = length l /\
    forall k, getz l' k = if k =? i then getz l j else if k =? j then getz l i else getz l k.
Proof.
  intros Hi Hj Hne. unfold swap. rewrite !(arr_get_get_or 0) by done. cbn [mbind option_bind].
  destruct ((arr_set_get_or 0) l i (getz l j) Hi) as (l1 & -> & L1 & G1). cbn [mbind option_bind].
  destruct ((arr_set_get_or 0) l1 j (getz l i)) as (l2 & -> & L2 & G2); [lia|]. exists l2.
  split; [done|]. split; [congruence|]. intros k. rewrite G2, G1.
  destruct (Z.eqb_spec k j), (Z.eqb_spec k i); congruence.
Qed.

(** Two samples change places. *)
Lemma cswap_spec old o n f l p q :
  holds old o n f l -> fits o n old -> 0 <= p < n -> 0 <= q < n -> p <> q ->
  exists l1 l2, swap (o + 2 * p) (o + 2 * q) l = Some l1 /\ swap (o + (2 * p + 1)) (o + (2 * q + 1)) l1 = Some l2 /\
    holds old o n (fun r => if r =? p then f q else if r =? q then f p else f r) l2.
Proof.
  intros (L & Hf & Ho) [Ho0 Hlen] Hp Hq Hne.
  destruct (swap_spec (o + 2 * p) (o + 2 * q) l) as (l1 & E1 & L1 & G1); [lia..|].
  destruct (swap_spec (o + (2 * p + 1)) (o + (2 * q + 1)) l1) as (l2 & E2 & L2 & G2); [lia..|].
  exists l1, l2. split; [done|]. split; [done|]. split; [congruence|]. split.
  - intros r Hr. rewrite <- !Hf by done. unfold cget. rewrite !G2, !G1. clear - Hne.
    destruct (Z.eqb_spec r p) as [->|Hrp]; [|destruct (Z.eqb_spec r q) as [->|Hrq]];
      repeat match goal with |- context [?a =? ?b] => destruct (Z.eqb_spec a b); [try lia|try lia] end; done.
  - intros k Hk. rewrite G2, !G1. rewrite <- Ho by done.
    by repeat match goal with |- context [?a =? ?b] => destruct (Z.eqb_spec a b); [lia|] end.
Qed.

(** The samples below [k] have found their places. *)
Definition half_reversed (n : nat) (k : Z) (f : Z -> Z * Z) (p : Z) : Z * Z :=
  if Z.min p (rev n p) <? k then f (rev n p) else f p.

Lemma half_reversed_step n k f p :
  0 <= p < 2 ^ Z.of_nat n -> 0 <= k < 2 ^ Z.of_nat n ->
  half_reversed n (k + 1) f p =
    if rev n k <=? k then half_reversed n k f p
    else if p =? k then half_reversed n k f (rev n k) else if p =? rev n k then half_reversed n k f k else half_reversed n k f p.
Proof.
  intros Hp Hk. unfold half_reversed. pose proof (rev_involutive n p Hp). pose proof (rev_involutive n k Hk) as Ek.
  destruct (Z.leb_spec (rev n k) k) as [Hle|Hlt].
  - destruct (Z.ltb_spec (Z.min p (rev n p)) k), (Z.ltb_spec (Z.min p (rev n p)) (k + 1)); [done|lia| |done].
    destruct (Z.eqb_spec p k) as [->|Hne]; [f_equal; lia|].
    assert (k = rev n p) as E by lia. rewrite E in Hle, Hne. rewrite H in Hle. f_equal. lia.
  - destruct (Z.eqb_spec p k) as [->|Hne].
    { rewrite Ek. by replace (Z.min k (rev n k) <? k + 1) with true by lia; replace (Z.min (rev n k) k <? k) with false by lia. }
    destruct (Z.eqb_spec p (rev n k)) as [->|Hne'].
    { rewrite Ek. by replace (Z.min (rev n k) k <? k + 1) with true by lia; replace (Z.min k (rev n k) <? k) with false by lia. }
    destruct (Z.ltb_spec (Z.min p (rev n p)) k), (Z.ltb_spec (Z.min p (rev n p)) (k + 1)); [done|lia| |done].
    assert (rev n p = k) as E by lia. rewrite <- E, H in Hne'. done.
Qed.

Lemma reorder_loop (n : nat) old o f : (n <= 32)%nat -> fits o (2 ^ Z.of_nat n) old ->
  forall r k l, 1 <= k -> k + Z.of_nat r = 2 ^ Z.of_nat n -> holds old o (2 ^ Z.of_nat n) (half_reversed n k f) l ->
  exists l', reorder (map (fun a => k + a) (zseq r)) (2 ^ Z.of_nat n) (2 ^ Z.of_nat n - 1) o l (rev n (k - 1)) = Some l' /\
    holds old o (2 ^ Z.of_nat n) (fun p => f (rev n p)) l'.
Proof.
  intros Hn Hfit. induction r as [|r IH]; intros k l Hk Hr Hl.
  - exists l. split; [done|]. revert Hl. apply holds_ext. intros p Hp. unfold half_reversed.
    pose proof (rev_range n p). by replace (Z.min p (rev n p) <? k) with true by lia.
  - rewrite zseq_S. cbn [map reorder]. rewrite map_map, Z.add_0_r.
    destruct (rev_next n 32 (k - 1)) as (d & -> & E2 & _); [lia|lia|]. cbn [mbind option_bind]. rewrite E2.
    replace (k - 1 + 1) with k by lia.
    assert (Hnext : forall l, holds old o (2 ^ Z.of_nat n) (half_reversed n (k + 1) f) l -> exists l',
      reorder (map (fun a => k + (1 + a)) (zseq r)) (2 ^ Z.of_nat n) (2 ^ Z.of_nat n - 1) o l (rev n k) = Some l' /\
      holds old o (2 ^ Z.of_nat n) (fun p => f (rev n p)) l').
    { intros l0 Hl0. destruct (IH (k + 1) l0) as (l' & E & H); [lia..|done|]. exists l'. split; [|done]. rewrite <- E.
      replace (k + 1 - 1) with k by lia. f_equal. apply map_ext. intros a. lia. }
    pose proof (rev_range n k) as Hrk. pose proof (fun p Hp => half_reversed_step n k f p Hp ltac:(lia)) as Hst.
    destruct (Z.leb_spec (rev n k) k) as [Hle|Hlt].
    + apply Hnext. revert Hl. apply holds_ext. intros p Hp. by rewrite Hst.
    + destruct (cswap_spec _ _ _ _ l k (rev n k) Hl Hfit) as (l1 & l2 & -> & E3 & H2); [lia..|].
      cbn [mbind option_bind]. rewrite E3. cbn [mbind option_bind]. apply Hnext. revert H2. apply holds_ext.
      intros p Hp. by rewrite Hst.
Qed.

Lemma reorder_spec (n : nat) o l : (n <= 32)%nat -> fits o (2 ^ Z.of_nat n) l ->
  exists l', reorder (map (fun a => 1 + a) (stepped (2 ^ Z.of_nat n - 1) 1)) (2 ^ Z.of_nat n) (2 ^ Z.of_nat n - 1) o l 0 = Some l' /\
    holds l o (2 ^ Z.of_nat n) (fun p => cget l o (rev n p)) l'.
Proof.
  intros Hn Hfit. rewrite stepped_1. pose proof (pow2_pos n).
  assert (E0 : forall m, rev m 0 = 0) by (induction m as [|m IH]; cbn [rev]; [done|]; change (0 / 2) with 0; rewrite IH; done).
  pose proof (reorder_loop n l o (cget l o) Hn Hfit (Z.to_nat (2 ^ Z.of_nat n - 1)) 1 l) as H1.
  change (1 - 1) with 0 in H1. rewrite E0 in H1. apply H1; [done|lia|]. clear H1.
  apply (holds_ext _ _ _ (cget l o)); [|apply holds_self]. intros p Hp. unfold half_reversed.
  destruct (Z.ltb_spec (Z.min p (rev n p)) 1); [|done]. pose proof (rev_range n p).
  assert (p = 0 \/ rev n p = 0) as [->|E] by lia; [by rewrite E0|].
  rewrite <- (rev_involutive n p Hp), E, !E0. done.
Qed.

(** ** Butterflies *)

(** A sample times a twiddle factor. *)
Definition twiddle (w x : Z * Z) : Z * Z :=
  (i16 (FIX_MPY w.1 x.1 - FIX_MPY w.2 x.2), i16 (FIX_MPY w.1 x.2 + FIX_MPY w.2 x.1)).

(** The two outputs of a butterfly for the samples [q] and [x]. *)
Definition plus (w q x : Z * Z) : Z * Z := (i16 ((q.1 ≫ 1) + (twiddle w x).1), i16 ((q.2 ≫ 1) + (twiddle w x).2)).
Definition minus (w q x : Z * Z) : Z * Z := (i16 ((q.1 ≫ 1) - (twiddle w x).1), i16 ((q.2 ≫ 1) - (twiddle w x).2)).

Lemma out_eq w q x :
  let tr := i16 (FIX_MPY w.1 x.1 - FIX_MPY w.2 x.2) in let ti := i16 (FIX_MPY w.1 x.2 + FIX_MPY w.2 x.1) in
  (plus w q x).1 = i16 ((q.1 ≫ 1) + tr) /\ (plus w q x).2 = i16 ((q.2 ≫ 1) + ti) /\
  (minus w q x).1 = i16 ((q.1 ≫ 1) - tr) /\ (minus w q x).2 = i16 ((q.2 ≫ 1) - ti).
Proof. split_and!; reflexivity. Qed.

Lemma butterfly_spec old o n f a l w i :
  holds old o n f a -> fits o n old -> 0 <= i < n -> 0 <= i + l < n -> 0 < l ->
  exists a', butterfly 1 o l w.1 w.2 i a = Some a' /\
    holds old o n (fun p => if p =? i then plus w (f i) (f (i + l)) else if p =? i + l then minus w (f i) (f (i + l)) else f p) a'.
Proof.
  intros H Hfit Hi Hj Hl. unfold butterfly. cbv zeta.
  destruct (cget_re _ _ _ _ _ _ H Hfit Hi) as [-> ->]. destruct (cget_re _ _ _ _ _ _ H Hfit Hj) as [-> ->].
  change (truthy 1) with true. cbv beta iota delta [mbind option_bind].
  destruct (cset_spec _ _ _ _ _ (i + l) (minus w (f i) (f (i + l))) H Hfit Hj) as (a1 & a2 & E1 & E2 & H2).
  destruct (cset_spec _ _ _ _ _ i (plus w (f i) (f (i + l))) H2 Hfit Hi) as (a3 & a4 & E3 & E4 & H4).
  exists a4. split; [|exact H4]. destruct (out_eq w (f i) (f (i + l))) as (P1 & P2 & M1 & M2).
  rewrite M1 in E1. rewrite M2 in E2. rewrite P1 in E3. rewrite P2 in E4. by rewrite E1, E2, E3.
Qed.

(** A pass on blocks of [2 * l] samples, of which the butterflies [d] are done;
    [w b] is the factor of the butterfly [b] of a block. *)
Definition partial_pass (l : Z) (w : Z -> Z * Z) (d : Z -> bool) (f : Z -> Z * Z) (p : Z) : Z * Z :=
  let b := p mod (2 * l) in
  if b <? l then (if d p then plus (w b) (f p) (f (p + l)) else f p)
  else if d (p - l) then minus (w (b - l)) (f (p - l)) (f p) else f p.

Lemma mod_upper l p : 0 < l -> l <= p mod (2 * l) -> (p - l) mod (2 * l) = p mod (2 * l) - l.
Proof.
  intros Hl Hp. pose proof (Z.mod_pos_bound p (2 * l) ltac:(lia)). pose proof (Z.div_mod p (2 * l) ltac:(lia)).
  symmetry. apply (Z.mod_unique _ _ (p / (2 * l))); lia.
Qed.

Lemma mod_lower l p : 0 < l -> p mod (2 * l) < l -> (p + l) mod (2 * l) = p mod (2 * l) + l.
Proof.
  intros Hl Hp. pose proof (Z.mod_pos_bound p (2 * l) ltac:(lia)). pose proof (Z.div_mod p (2 * l) ltac:(lia)).
  symmetry. apply (Z.mod_unique _ _ (p / (2 * l))); lia.
Qed.

Lemma partial_pass_step old o n l w d d' f a i :
  holds old o n (partial_pass l w d f) a -> fits o n old -> 0 < l -> 0 <= i -> i + l < n -> i mod (2 * l) < l -> d i = false ->
  (forall p, p mod (2 * l) < l -> d' p = (p =? i) || d p) ->
  exists a', butterfly 1 o l (w (i mod (2 * l))).1 (w (i mod (2 * l))).2 i a = Some a' /\ holds old o n (partial_pass l w d' f) a'.
Proof.
  intros H Hfit Hl Hi0 Hin Hi Hd Hd'.
  destruct (butterfly_spec _ _ _ _ _ l (w (i mod (2 * l))) i H Hfit) as (a' & E & H'); [lia..|].
  exists a'. split; [done|]. revert H'. apply holds_ext. intros p Hp. unfold partial_pass.
  pose proof (mod_lower l i Hl Hi) as Ei. rewrite Ei, Z.add_simpl_r.
  replace (i mod (2 * l) <? l) with true by lia. replace (i mod (2 * l) + l <? l) with false by (pose proof (Z.mod_pos_bound i (2 * l)); lia).
  rewrite Hd. pose proof (Z.mod_pos_bound p (2 * l) ltac:(lia)) as Hb. pose proof (Z.mod_pos_bound i (2 * l) ltac:(lia)) as Hbi.
  destruct (Z.ltb_spec (p mod (2 * l)) l) as [Hlt|Hge].
  - rewrite Hd' by done. replace (p =? i + l) with false by (destruct (Z.eqb_spec p (i + l)) as [->|]; [lia|done]).
    destruct (Z.eqb_spec p i) as [->|]; done.
  - rewrite Hd' by (rewrite mod_upper; lia).
    replace (p =? i) with false by (destruct (Z.eqb_spec p i) as [->|]; [lia|done]).
    replace (p - l =? i) with (p =? i + l) by lia. destruct (Z.eqb_spec p (i + l)) as [->|]; [|done].
    rewrite Ei, !Z.add_simpl_r. done.
Qed.

(** The butterflies with the first [m] twiddle factors, and with the next one
    in the first [r] blocks. *)
Definition done_upto (l m r p : Z) : bool := (p mod (2 * l) <? m) || ((p mod (2 * l) =? m) && (p / (2 * l) <? r)).

(** The factors of the pass whose shift is [k]. *)
Definition factor (wv : wave) (k m : Z) : Z * Z :=
  (getz (Sinewave wv) ((m ≪ k) + N_WAVE wv / 4) ≫ 1, i16 (- getz (Sinewave wv) (m ≪ k)) ≫ 1).

Lemma twiddle_turn_spec old o l c wv k f a m :
  fits o (2 * l * c) old -> 0 < l -> 0 <= c -> 0 <= m < l -> 0 <= N_WAVE wv / 4 ->
  0 <= m ≪ k -> (m ≪ k) + N_WAVE wv / 4 < Z.of_nat (length (Sinewave wv)) ->
  holds old o (2 * l * c) (partial_pass l (factor wv k) (done_upto l m 0) f) a ->
  exists a', twiddle_turn wv 1 o (2 * l * c) l k m a = Some a' /\
    holds old o (2 * l * c) (partial_pass l (factor wv k) (done_upto l (m + 1) 0) f) a'.
Proof.
  intros Hfit Hl Hc Hm Hq Hj0 Hj Ha. unfold twiddle_turn. cbv zeta. rewrite !(arr_get_get_or 0) by lia.
  cbn [mbind option_bind truthy Z.eqb negb].
  rewrite Z.shiftl_mul_pow2 by done. change (2 ^ 1) with 2. rewrite (Z.mul_comm l 2).
  rewrite (stepped_eq _ (2 * l) (Z.to_nat c)) by nia. rewrite map_map.
  destruct (for_arr_inv (butterfly 1 o l (factor wv k m).1 (factor wv k m).2)
    (fun r => holds old o (2 * l * c) (partial_pass l (factor wv k) (done_upto l m r) f)) (Z.to_nat c)
    (fun r => m + r * (2 * l)) a Ha) as (a' & E & Ha').
  - intros r a1 Hr Ha1.
    assert (Em : (m + r * (2 * l)) mod (2 * l) = m) by (rewrite Z.mod_add by lia; apply Z.mod_small; lia).
    assert (Ed : (m + r * (2 * l)) / (2 * l) = r) by (rewrite Z.div_add by lia; rewrite Z.div_small; lia).
    destruct (partial_pass_step old o (2 * l * c) l (factor wv k) (done_upto l m r) (done_upto l m (r + 1)) f a1 (m + r * (2 * l)))
      as (a2 & E2 & H2); [done..|nia|nia|lia| | |].
    + unfold done_upto. rewrite Em, Ed. lia.
    + intros p Hp. unfold done_upto. pose proof (Z.div_mod p (2 * l) ltac:(lia)).
      destruct (Z.eqb_spec (p mod (2 * l)) m); destruct (Z.ltb_spec (p / (2 * l)) r), (Z.ltb_spec (p / (2 * l)) (r + 1)); nia.
    + exists a2. rewrite Em in E2. done.
  - exists a'. split; [exact E|]. revert Ha'. apply holds_ext. intros p Hp. unfold partial_pass.
    assert (Hd : forall p, 0 <= p < 2 * l * c -> done_upto l m (Z.of_nat (Z.to_nat c)) p = done_upto l (m + 1) 0 p).
    { intros q Hq'. unfold done_upto. assert (0 <= q / (2 * l) < c); [|lia].
      split; [apply Z.div_pos; lia|apply Z.div_lt_upper_bound; lia]. }
    pose proof (Z.mod_le p (2 * l) ltac:(lia) ltac:(lia)).
    destruct (Z.ltb_spec (p mod (2 * l)) l); rewrite Hd by lia; done.
Qed.

(** ** Passes *)

Definition full_pass (l : Z) (w : Z -> Z * Z) (f : Z -> Z * Z) (p : Z) : Z * Z :=
  let b := p mod (2 * l) in
  if b <? l then plus (w b) (f p) (f (p + l)) else minus (w (b - l)) (f (p - l)) (f p).

(** A table of sines of three quarters of a period. *)
Definition wave_ok (wv : wave) : Prop :=
  0 <= LOG2_N_WAVE wv <= 28 /\ Z.of_nat (length (Sinewave wv)) = N_WAVE wv * 3 / 4.

(** The shift of the indices of the factors in the pass after [t]. *)
Definition pass_shift (wv : wave) (t : nat) : Z := LOG2_N_WAVE wv - 1 - Z.of_nat t.

Lemma factor_index wv t m : wave_ok wv -> Z.of_nat t < LOG2_N_WAVE wv -> 0 <= m < 2 ^ Z.of_nat t ->
  0 <= N_WAVE wv / 4 /\ 0 <= m ≪ pass_shift wv t /\
  (m ≪ pass_shift wv t) + N_WAVE wv / 4 < Z.of_nat (length (Sinewave wv)).
Proof.
  intros [HL ->] Ht Hm. unfold pass_shift, N_WAVE. rewrite Z.shiftl_1_l, Z.shiftl_mul_pow2 by lia.
  set (k := LOG2_N_WAVE wv - 1 - Z.of_nat t).
  assert (Hk : 0 < 2 ^ k) by (apply Z.pow_pos_nonneg; lia).
  assert (E : 2 ^ LOG2_N_WAVE wv = 2 * (2 ^ Z.of_nat t * 2 ^ k)).
  { rewrite <- Z.pow_add_r, <- Z.pow_succ_r by lia. f_equal. lia. }
  split; [apply Z.div_pos; lia|]. split; [lia|].
  destruct (Z.eqb_spec (LOG2_N_WAVE wv) 1) as [E1|Hne].
  { assert (m = 0) as -> by (assert (Z.of_nat t = 0) as E0 by lia; rewrite E0 in Hm; lia). by rewrite E1. }
  assert (E4 : 2 ^ LOG2_N_WAVE wv = 2 ^ (LOG2_N_WAVE wv - 2) * 4).
  { change 4 with (2 ^ 2). rewrite <- Z.pow_add_r by lia. f_equal. lia. }
  rewrite E4 in *. rewrite Z.div_mul by lia. replace (2 ^ (LOG2_N_WAVE wv - 2) * 4 * 3) with (2 ^ (LOG2_N_WAVE wv - 2) * 3 * 4) by lia.
  rewrite Z.div_mul by lia. assert (m * 2 ^ k <= (2 ^ Z.of_nat t - 1) * 2 ^ k) by (apply Z.mul_le_mono_nonneg_r; lia). lia.
Qed.

Lemma pass_spec old o c wv t f a :
  wave_ok wv -> Z.of_nat t < LOG2_N_WAVE wv -> 0 <= c -> fits o (2 * 2 ^ Z.of_nat t * c) old ->
  holds old o (2 * 2 ^ Z.of_nat t * c) f a ->
  exists a', for_arr (stepped (2 ^ Z.of_nat t) 1) (twiddle_turn wv 1 o (2 * 2 ^ Z.of_nat t * c) (2 ^ Z.of_nat t) (pass_shift wv t)) a = Some a' /\
    holds old o (2 * 2 ^ Z.of_nat t * c) (full_pass (2 ^ Z.of_nat t) (factor wv (pass_shift wv t)) f) a'.
Proof.
  intros Hw Ht Hc Hfit Ha. pose proof (pow2_pos t) as Hl. set (l := 2 ^ Z.of_nat t) in *.
  rewrite stepped_1, <- (map_id (zseq (Z.to_nat l))).
  destruct (for_arr_inv (twiddle_turn wv 1 o (2 * l * c) l (pass_shift wv t))
    (fun m => holds old o (2 * l * c) (partial_pass l (factor wv (pass_shift wv t)) (done_upto l m 0) f)) (Z.to_nat l) id a)
    as (a' & E & Ha').
  - revert Ha. apply holds_ext. intros p Hp. unfold partial_pass, done_upto. pose proof (Z.mod_pos_bound p (2 * l)).
    pose proof (Z.mod_pos_bound (p - l) (2 * l)). pose proof (Z.div_pos p (2 * l)).
    destruct (Z.ltb_spec (p mod (2 * l)) l).
    + replace (p mod (2 * l) <? 0) with false by lia. by replace (p / (2 * l) <? 0) with false by lia; rewrite andb_false_r.
    + assert (0 <= p - l) by (pose proof (Z.mod_le p (2 * l)); lia). pose proof (Z.div_pos (p - l) (2 * l)).
      replace ((p - l) mod (2 * l) <? 0) with false by lia. by replace ((p - l) / (2 * l) <? 0) with false by lia; rewrite andb_false_r.
  - intros m a1 Hm Ha1. destruct (factor_index wv t m Hw Ht) as (H1 & H2 & H3); [fold l; lia|].
    apply twiddle_turn_spec; try done; lia.
  - exists a'. split; [exact E|]. revert Ha'. apply holds_ext. intros p Hp. unfold partial_pass, full_pass, done_upto.
    rewrite Z2Nat.id by lia. destruct (Z.ltb_spec (p mod (2 * l)) l) as [Hlt|Hge]; [done|].
    rewrite mod_upper by lia. pose proof (Z.mod_pos_bound p (2 * l)). by replace (p mod (2 * l) - l <? l) with true by lia.
Qed.

(** ** The recursive transform *)

(** The bin [r] of the [2 ^ t] samples [f]: the bins of the even and of the
    odd samples, halved and combined. *)
Fixpoint dft (wv : wave) (t : nat) (f : Z -> Z * Z) (r : Z) : Z * Z :=
  match t with
  | O => f 0
  | S t =>
      let l := 2 ^ Z.of_nat t in
      let even j := f (2 * j) in
      let odd j := f (2 * j + 1) in
      if r <? l then plus (factor wv (pass_shift wv t) r) (dft wv t even r) (dft wv t odd r)
      else minus (factor wv (pass_shift wv t) (r - l)) (dft wv t even (r - l)) (dft wv t odd (r - l))
  end.

(** It depends on the samples only. *)
Lemma dft_ext wv t : forall f g r, (forall j, 0 <= j < 2 ^ Z.of_nat t -> f j = g j) -> dft wv t f r = dft wv t g r.
Proof.
  induction t as [|t IH]; intros f g r Hfg; cbn [dft]; [apply Hfg; done|]. rewrite pow2_S in Hfg.
  destruct (r <? 2 ^ Z.of_nat t); (f_equal; apply IH; intros j Hj; apply Hfg; lia).
Qed.

(** After [t] passes over [2 ^ m] samples in the reversed order: each block of
    [2 ^ t] has the transform of the samples at a distance of [2 ^ (m - t)]. *)
Definition stage (wv : wave) (m t : nat) (x : Z -> Z * Z) (p : Z) : Z * Z :=
  dft wv t (fun j => x (rev (m - t) (p / 2 ^ Z.of_nat t) + j * 2 ^ Z.of_nat (m - t))) (p mod 2 ^ Z.of_nat t).

Lemma block_half (t : nat) q b h : 0 <= b < 2 ^ Z.of_nat t -> 
  (2 * 2 ^ Z.of_nat t * q + h * 2 ^ Z.of_nat t + b) / 2 ^ Z.of_nat t = 2 * q + h /\
  (2 * 2 ^ Z.of_nat t * q + h * 2 ^ Z.of_nat t + b) mod 2 ^ Z.of_nat t = b.
Proof.
  intros Hb. split; [symmetry; apply (Z.div_unique _ _ _ b)|symmetry; apply (Z.mod_unique _ _ (2 * q + h))]; lia.
Qed.

Lemma stage_step wv (m t : nat) x p : (t < m)%nat -> 0 <= p ->
  full_pass (2 ^ Z.of_nat t) (factor wv (pass_shift wv t)) (stage wv m t x) p = stage wv m (S t) x p.
Proof.
  intros Ht Hp. pose proof (pow2_pos t) as Hl. unfold full_pass, stage. cbv zeta. rewrite pow2_S. cbn [dft].
  assert (Hrev : forall q h, h = 0 \/ h = 1 -> rev (m - t) (2 * q + h) = h * 2 ^ Z.of_nat (m - S t) + rev (m - S t) q).
  { intros q h Hh. replace (m - t)%nat with (S (m - S t)) by lia. cbn [rev]. f_equal.
    - f_equal. symmetry. apply (Z.mod_unique _ _ q); lia.
    - f_equal. symmetry. apply (Z.div_unique _ _ _ h); lia. }
  assert (Hpow : 2 ^ Z.of_nat (m - t) = 2 * 2 ^ Z.of_nat (m - S t)) by (rewrite <- pow2_S; do 2 f_equal; lia).
  rewrite Hpow. set (d := 2 ^ Z.of_nat (m - S t)) in *.
  pose proof (Z.div_mod p (2 * 2 ^ Z.of_nat t) ltac:(lia)) as Hdm.
  pose proof (Z.mod_pos_bound p (2 * 2 ^ Z.of_nat t) ltac:(lia)) as Hb.
  set (q := p / (2 * 2 ^ Z.of_nat t)) in *. set (b := p mod (2 * 2 ^ Z.of_nat t)) in *.
  assert (Hx : forall y h e, y = 2 * 2 ^ Z.of_nat t * q + h * 2 ^ Z.of_nat t + e -> h = 0 \/ h = 1 -> 0 <= e < 2 ^ Z.of_nat t ->
    dft wv t (fun j => x (rev (m - t) (y / 2 ^ Z.of_nat t) + j * (2 * d))) (y mod 2 ^ Z.of_nat t) =
    dft wv t (fun j => x (rev (m - S t) q + (2 * j + h) * d)) e).
  { intros y h e -> Hh He. destruct (block_half t q e h He) as [-> ->]. apply dft_ext. intros j _.
    rewrite Hrev by done. f_equal. fold d. lia. }
  destruct (Z.ltb_spec b (2 ^ Z.of_nat t)).
  - rewrite (Hx p 0 b), (Hx (p + 2 ^ Z.of_nat t) 1 b) by lia. f_equal. apply dft_ext. intros j _. by rewrite Z.add_0_r.
  - rewrite (Hx (p - 2 ^ Z.of_nat t) 0 (b - 2 ^ Z.of_nat t)), (Hx p 1 (b - 2 ^ Z.of_nat t)) by lia.
    f_equal. apply dft_ext. intros j _. by rewrite Z.add_0_r.
Qed.

Lemma passes_spec wv old o (m : nat) x : wave_ok wv -> Z.of_nat m <= LOG2_N_WAVE wv -> fits o (2 ^ Z.of_nat m) old ->
  forall r fuel t a, (t + r = m)%nat -> (r < fuel)%nat -> holds old o (2 ^ Z.of_nat m) (stage wv m t x) a ->
  exists a', passes fuel wv o (2 ^ Z.of_nat m) (2 ^ Z.of_nat t) (pass_shift wv t) a = Some a' /\
    holds old o (2 ^ Z.of_nat m) (stage wv m m x) a'.
Proof.
  intros Hw Hm Hfit. induction r as [|r IH]; intros fuel t a Ht Hf Ha; (destruct fuel as [|fuel]; [lia|]); cbn [passes].
  - replace t with m in * by lia. rewrite Z.ltb_irrefl. by exists a.
  - assert (Hlt : 2 ^ Z.of_nat t < 2 ^ Z.of_nat m) by (apply Z.pow_lt_mono_r; lia).
    replace (2 ^ Z.of_nat t <? 2 ^ Z.of_nat m) with true by lia.
    assert (En : 2 ^ Z.of_nat m = 2 * 2 ^ Z.of_nat t * 2 ^ Z.of_nat r).
    { rewrite <- pow2_S, <- Z.pow_add_r by lia. f_equal. lia. }
    destruct (pass_spec old o (2 ^ Z.of_nat r) wv t (stage wv m t x) a Hw) as (a1 & E1 & H1); [lia|lia|by rewrite <- En..|].
    rewrite <- En in *. cbv zeta. rewrite E1. cbn [mbind option_bind].
    rewrite Z.shiftl_mul_pow2 by done. change (2 ^ 1) with 2. rewrite Z.mul_comm, <- pow2_S.
    replace (pass_shift wv t - 1) with (pass_shift wv (S t)) by (unfold pass_shift; lia).
    apply IH; [lia|lia|]. revert H1. apply holds_ext. intros p Hp. apply stage_step; lia.
Qed.

Lemma fix_fft_spec wv o (m : nat) iq : wave_ok wv -> Z.of_nat m <= LOG2_N_WAVE wv -> fits o (2 ^ Z.of_nat m) iq ->
  exists iq', fix_fft wv o (Z.of_nat m) iq = Some (0, iq') /\ holds iq o (2 ^ Z.of_nat m) (dft wv m (cget iq o)) iq'.
Proof.
  intros Hw Hle Hfit. unfold fix_fft. cbv zeta. unfold N_WAVE. rewrite !Z.shiftl_1_l.
  assert (2 ^ Z.of_nat m <= 2 ^ LOG2_N_WAVE wv) by (apply Z.pow_le_mono_r; lia).
  replace (2 ^ LOG2_N_WAVE wv <? 2 ^ Z.of_nat m) with false by lia. destruct Hw as [HL Hs].
  destruct (reorder_spec m o iq ltac:(lia) Hfit) as (a & -> & Ha). cbn [mbind option_bind].
  destruct (passes_spec wv iq o m (cget iq o) (conj HL Hs) Hle Hfit m 32 0 a) as (a' & E & Ha'); [lia|lia| |].
  - revert Ha. apply holds_ext. intros p Hp. unfold stage. cbn [dft].
    change (2 ^ Z.of_nat 0) with 1. by rewrite Z.div_1_r, Z.mul_0_l, Z.add_0_r, Nat.sub_0_r.
  - unfold pass_shift in E. change (2 ^ Z.of_nat 0) with 1 in E. rewrite Z.sub_0_r in E. rewrite E. cbn [mbind option_bind].
    exists a'. split; [done|]. revert Ha'. apply holds_ext. intros p Hp. unfold stage.
    rewrite Nat.sub_diag, Z.div_small, Z.mod_small by done. apply dft_ext. intros j _. cbn [rev].
    change (2 ^ Z.of_nat 0) with 1. f_equal. lia.
Qed.

(** C9: [fix_fft] in place computes the recursive transform: for a table of
    [2 ^ LOG2_N_WAVE] points and at most as many samples it returns 0, no access
    is outside of an array, the bin [r] of the samples from [o] on is
    [dft m ... r], and the rest of the array is untouched; for more samples it
    returns -1 and changes nothing. *)
Theorem fix_fft_is_dft (wv : wave) (o : Z) (m : nat) (iq : list Z) :
  wave_ok wv -> fits o (2 ^ Z.of_nat m) iq ->
  exists rc iq', fix_fft wv o (Z.of_nat m) iq = Some (rc, iq') /\
    if Z.of_nat m <=? LOG2_N_WAVE wv
    then rc = 0 /\ holds iq o (2 ^ Z.of_nat m) (dft wv m (cget iq o)) iq'
    else rc = -1 /\ iq' = iq.
Proof.
  intros Hw Hfit. destruct (Z.leb_spec (Z.of_nat m) (LOG2_N_WAVE wv)) as [Hle|Hgt].
  - destruct (fix_fft_spec wv o m iq Hw Hle Hfit) as (iq' & E & H). by exists 0, iq'.
  - destruct Hw as [HL _]. unfold fix_fft. cbv zeta. unfold N_WAVE. rewrite !Z.shiftl_1_l.
    assert (2 ^ LOG2_N_WAVE wv < 2 ^ Z.of_nat m) by (apply Z.pow_lt_mono_r; lia).
    replace (2 ^ LOG2_N_WAVE wv <? 2 ^ Z.of_nat m) with true by lia. by exists (-1), iq.
Qed.

(** The table of 16 points that [sine_table] computes. *)
Definition wave_16 : wave := mk_wave [0; 12539; 23170; 30273; 32767; 30273; 23170; 12539; 0; -12539; -23170; -30273] 4.

Lemma fix_fft_is_dft_witness :
  exists rc iq', fix_fft wave_16 2 (Z.of_nat 2) [7; 7; 1000; 0; 0; 1000; -1000; 0; 0; -1000; 7; 7] = Some (rc, iq') /\
    if Z.of_nat 2 <=? LOG2_N_WAVE wave_16
    then rc = 0 /\ holds [7; 7; 1000; 0; 0; 1000; -1000; 0; 0; -1000; 7; 7] 2 (2 ^ Z.of_nat 2)
      (dft wave_16 2 (cget [7; 7; 1000; 0; 0; 1000; -1000; 0; 0; -1000; 7; 7] 2)) iq'
    else rc = -1 /\ iq' = [7; 7; 1000; 0; 0; 1000; -1000; 0; 0; -1000; 7; 7].
Proof.
  refine (fix_fft_is_dft wave_16 2 2 [7; 7; 1000; 0; 0; 1000; -1000; 0; 0; -1000; 7; 7] _ _).
  - split; [split; discriminate|reflexivity].
  - split; discriminate.
Defined.

(** The samples of the witness turn once: all of them are in the bin 1. *)
Lemma fix_fft_turn :
  fix_fft wave_16 2 2 [7; 7; 1000; 0; 0; 1000; -1000; 0; 0; -1000; 7; 7] = Some (0, [7; 7; 0; 0; 1000; 0; 0; 0; 0; 0; 7; 7]).
Proof. vm_compute. reflexivity. Qed.

(** A transform of two samples: a quarter of the table is 0 points, so the
    sine of 0 is taken for the cosine and both bins have half of the first
    sample. *)
Lemma fft_of_two a b c d :
  fix_fft (mk_wave [0] 1) 0 1 [a; b; c; d] = Some (0, [i16 (a ≫ 1); i16 (b ≫ 1); i16 (a ≫ 1); i16 (b ≫ 1)]).
Proof.
  transitivity (Some (0, [i16 (a ≫ 1 + i16 (FIX_MPY 0 c - FIX_MPY 0 d)); i16 (b ≫ 1 + i16 (FIX_MPY 0 d + FIX_MPY 0 c));
    i16 (a ≫ 1 - i16 (FIX_MPY 0 c - FIX_MPY 0 d)); i16 (b ≫ 1 - i16 (FIX_MPY 0 d + FIX_MPY 0 c))])); [reflexivity|].
  change (FIX_MPY 0 c) with 0. change (FIX_MPY 0 d) with 0. cbn [Z.sub Z.add Z.opp]. change (i16 0) with 0.
  by rewrite !Z.add_0_r, !Z.sub_0_r.
Qed.
