(* ===== verification/DoubleOrder.v ===== *)
(** * Doubles: comparison and the quotient of integers

    The comparison of two doubles is that of their values, and the quotient of
    two integers compares with an integer as the exact quotient does. *)

From S2P Require Import Prelude Double.
From Stdlib Require Import SpecFloat.

(** Positive doubles of 53 digits are ordered like their values. *)
Lemma leb_repr b1 b2 x y w v : repr b1 false x w -> repr b2 false y v -> b1 <= 900 -> b2 <= 900 -> SFleb x y = (w <=? v).
Proof.
  intros (m1 & e1 & Hm1 & He1 & -> & ->) (m2 & e2 & Hm2 & He2 & -> & ->) Hb1 Hb2. unfold SFleb, SFcompare.
  pose proof (scaled_pos e1 ltac:(lia)) as P1. pose proof (scaled_pos e2 ltac:(lia)) as P2.
  assert (Hlt : forall e e' m m', -900 <= e -> e < e' -> 2 ^ 52 <= m < 2 ^ 53 -> 2 ^ 52 <= m' < 2 ^ 53 -> m * scaled e < m' * scaled e').
  { intros e e' m m' He Hee Hm Hm'. pose proof (scaled_pos e ltac:(lia)). 
    assert (scaled e' = scaled e * 2 ^ (e' - e)) as -> by (rewrite <- scaled_add by lia; f_equal; lia).
    assert (2 <= 2 ^ (e' - e)) by (change 2 with (2 ^ 1) at 1; apply Z.pow_le_mono_r; lia).
    assert (m < m' * 2 ^ (e' - e)) by nia. nia. }
  destruct (Z.compare_spec e1 e2) as [->|He|He].
  - rewrite Pos.compare_cont_spec. cbn. assert (E : (Z.to_pos m1 ?= Z.to_pos m2)%positive = (m1 ?= m2)).
    { rewrite <- (Z2Pos.id m1) at 2 by lia. rewrite <- (Z2Pos.id m2) at 2 by lia. done. }
    rewrite E. assert ((m1 * scaled e2 <=? m2 * scaled e2) = (m1 <=? m2)) as ->.
    { destruct (Z.leb_spec m1 m2), (Z.leb_spec (m1 * scaled e2) (m2 * scaled e2)); (done || nia). }
    destruct (Z.compare_spec m1 m2), (Z.leb_spec m1 m2); (done || lia).
  - pose proof (Hlt e1 e2 m1 m2). lia.
  - pose proof (Hlt e2 e1 m2 m1). lia.
Qed.

(** The quotient as in [ddiv_repr], a multiple of its last place. *)
Lemma ddiv_repr_places b1 b2 s1 s2 x y w1 w2 :
  repr b1 s1 x w1 -> repr b2 s2 y w2 -> 0 <= b1 -> 0 <= b2 -> b1 + b2 + 54 <= 420 ->
  exists u r, repr (b1 + b2 + 54) (xorb s1 s2) (ddiv x y) (r * u) /\ close (w1 * U) w2 u (r * u).
Proof.
  intros H1 H2 Hb1 Hb2 Hb.
  destruct (repr_normal _ _ _ _ H1 ltac:(lia)) as (m1 & e1 & N1 & He1 & ->).
  destruct (repr_normal _ _ _ _ H2 ltac:(lia)) as (m2 & e2 & N2 & He2 & ->).
  destruct (ddiv_spec _ _ _ _ _ _ _ _ N1 N2) as (n & r & Hn & Hcut & Hr & ->).
  exists (scaled (e1 - e2 - 53 + n)), r. split; [apply repr_fl; lia|].
  pose proof (scaled_pos (e1 - 53) ltac:(lia)). pose proof U_pos. pose proof (Z.pow_pos_nonneg 2 n).
  apply (cut_close _ _ _ (m1 * 2 ^ 53) (m2 * 2 ^ n) (scaled (e1 - 53) * U)); [done|lia| |lia| |].
  - destruct N2 as [Hm2 _]. apply Z.mul_pos_pos; lia.
  - replace e1 with (e1 - 53 + 53) at 1 by lia. rewrite scaled_add by lia. lia.
  - rewrite scaled_add by lia.
    replace (scaled (e1 - e2 - 53) * 2 ^ n * (m2 * scaled e2)) with (m2 * 2 ^ n * (scaled (e1 - e2 - 53) * scaled e2)) by lia.
    rewrite scaled_mul by lia. do 2 f_equal. f_equal. lia.
Qed.

Lemma close_leb a b m u r : 0 < a < 2 ^ 52 -> 0 < b -> 0 < m -> close (a * U * U) (b * U) u (r * u) -> (r * u <=? m * U) = (a <=? m * b).
Proof.
  intros Ha Hb Hm Hc. pose proof (close_unit _ _ _ _ Hc) as Hu. destruct Hc as (Hd & Hs & (e & He & Hue) & Hcross & Hex).
  pose proof U_pos as HU.
  assert (HuB : u * b < U).
  { assert (2 ^ 52 * (u * b) * U < 2 ^ 52 * U * U) as H by nia. nia. }
  assert (He0 : e <= 0).
  { destruct (Z.leb_spec e 0); [done|]. assert (U < scaled e) by (apply Z.pow_lt_mono_r; lia). nia. }
  assert (HUu : U = 2 ^ (- e) * u).
  { rewrite Hue. unfold scaled, U. rewrite <- Z.pow_add_r by lia. f_equal. lia. }
  set (M := m * 2 ^ (- e)). assert (HM : m * U = M * u) by (unfold M; rewrite HUu at 1; lia).
  assert (Hcancel : forall p q, p * U <= q * U -> p <= q) by (intros; nia).
  destruct (Z.leb_spec a (m * b)) as [Hle|Hgt].
  - apply Z.leb_le. rewrite HM. apply Z.mul_le_mono_nonneg_r; [lia|].
    destruct (Z.eq_dec a (m * b)) as [->|Hne].
    + assert (m * b * U * U = M * (u * (b * U))) as E by (rewrite (Z.mul_assoc M), <- HM; lia).
      rewrite E in Hex. rewrite Z.mod_mul in Hex by nia. specialize (Hex eq_refl). nia.
    + assert (HD : 0 < u * (b * U)) by (apply Z.mul_pos_pos; [lia|by apply Z.mul_pos_pos]).
      assert (a * U * U < M * u * (b * U)).
      { rewrite <- HM. replace (m * U * (b * U)) with (m * b * (U * U)) by lia. rewrite <- Z.mul_assoc.
        apply Z.mul_lt_mono_pos_r; [by apply Z.mul_pos_pos|lia]. }
      assert (r * (u * (b * U)) < (M + 1) * (u * (b * U))) by lia.
      apply (Z.mul_lt_mono_pos_r _ _ _ HD) in H0. lia.
  - apply Z.leb_gt. rewrite HM.
    assert (HUU : 0 < U * U) by (by apply Z.mul_pos_pos).
    assert ((m * b + 1) * (U * U) <= a * (U * U)) by (apply Z.mul_le_mono_nonneg_r; lia).
    assert (u * b * U < U * U) by (by apply Z.mul_lt_mono_pos_r).
    assert (M * u * (b * U) = m * b * (U * U)) by (rewrite <- HM; lia).
    assert (M * u * (b * U) < r * u * (b * U)) as Hlt by lia.
    apply Z.mul_lt_mono_pos_r in Hlt; [done|by apply Z.mul_pos_pos].
Qed.

(** [(double)a / (double)b <= (double)m] is exact. *)
Lemma div_leb a b m : 0 < a < 2 ^ 52 -> 0 < b < 2 ^ 53 -> 0 < m < 2 ^ 53 ->
  SFleb (ddiv (d_of_Z a) (d_of_Z b)) (d_of_Z m) = (a <=? m * b).
Proof.
  intros Ha Hb Hm. pose proof (repr_of_Z a ltac:(lia) ltac:(lia)) as H1. pose proof (repr_of_Z b ltac:(lia) ltac:(lia)) as H2.
  pose proof (repr_of_Z m ltac:(lia) ltac:(lia)) as H3.
  replace (a <? 0) with false in H1 by lia. replace (b <? 0) with false in H2 by lia. replace (m <? 0) with false in H3 by lia.
  rewrite Z.abs_eq in H1, H2, H3 by lia. destruct (ddiv_repr_places _ _ _ _ _ _ _ _ H1 H2) as (u & r & Hr & Hc); [lia..|].
  cbn [xorb] in Hr. rewrite (leb_repr _ _ _ _ _ _ Hr H3) by lia. by apply close_leb; [lia..|].
Qed.

(** An integer divided by 1.0. *)
Lemma div_one_trunc a : Z.abs a < 2 ^ 52 -> d_trunc (ddiv (d_of_Z a) (dsub (d_of_Z 1) (d_of_Z 0))) = Some a.
Proof.
  intros Ha. change (dsub (d_of_Z 1) (d_of_Z 0)) with (d_of_Z 1). destruct (Z.eq_dec a 0) as [->|Hne]; [vm_compute; reflexivity|].
  pose proof (repr_of_Z a Hne ltac:(lia)) as H1. destruct (ddiv_repr _ _ _ _ _ _ _ _ H1 repr_one) as (u & w & Hw & Hc); [lia..|].
  rewrite xorb_false_r in Hw. pose proof (close_trunc (Z.abs a) 1 u w ltac:(lia) ltac:(lia)) as Ht.
  rewrite Z.mul_1_l, Z.div_1_r in Ht. specialize (Ht Hc). destruct (Z.ltb_spec a 0).
  - rewrite (repr_trunc_neg _ _ _ Hw), Ht by lia. f_equal. lia.
  - rewrite (repr_trunc _ _ _ Hw), Ht by lia. f_equal. lia.
Qed.

(** An integer of at most 53 bits is exact. *)
Lemma d_trunc_of_Z a : Z.abs a < 2 ^ 53 -> d_trunc (d_of_Z a) = Some a.
Proof.
  intros Ha. destruct (Z.eq_dec a 0) as [->|Hne]; [vm_compute; reflexivity|].
  pose proof (repr_of_Z a Hne Ha) as H1. pose proof U_pos. destruct (Z.ltb_spec a 0).
  - rewrite (repr_trunc_neg _ _ _ H1), Z.div_mul by lia. f_equal. lia.
  - rewrite (repr_trunc _ _ _ H1), Z.div_mul by lia. f_equal. lia.
Qed.
