(* ===== verification/RtlPower.v ===== *)
(** * rtl_power.c: the scan

    The frequency range is cut into hops ([frequency_range]); for each hop a
    buffer of samples is read, thinned out, transformed and added up
    ([scanner]); the sums are printed as decibels ([csv_dbm]).  An access
    outside of an array, and a division by zero, have no value.  [int]
    arithmetic wraps around.  The functions of math.h and [atof] are
    parameters; memory is never short. *)

From S2P Require Import Prelude Arrays Double Usb Device Enumerate Convenience Fft.
From Stdlib Require Import SpecFloat.

Definition DEFAULT_BUF_LENGTH := 1 * 16384.
Definition BUFFER_DUMP := 4096.
Definition MAXIMUM_RATE := 2800000.
Definition MINIMUM_RATE := 1000000.
Definition MAX_TUNES := 3000.
Definition CIC_TABLE_MAX := 10.

(** [long] *)
Definition i64 (x : Z) : Z := (x + 2 ^ 63) mod 2 ^ 64 - 2 ^ 63.
Definition d_to_i64 (oor : double -> Z) (x : double) : Z :=
  match d_trunc x with Some z => if (- 2 ^ 63 <=? z) && (z <? 2 ^ 63) then z else i64 (oor x) | None => i64 (oor x) end.

(* src/rtl_power.c: tuning_state *)
Record tuning_state : Type := mk_ts {
  ts_freq : Z;
  ts_rate : Z;
  ts_bin_e : Z;
  ts_avg : list Z;
  ts_samples : Z;
  ts_downsample : Z;
  ts_downsample_passes : Z;
  ts_crop : double;
  ts_buf8 : list Z;
  ts_buf_len : Z;
}.

Definition set_buf8 (v : list Z) (t : tuning_state) : tuning_state :=
  mk_ts (ts_freq t) (ts_rate t) (ts_bin_e t) (ts_avg t) (ts_samples t) (ts_downsample t) (ts_downsample_passes t) (ts_crop t) v (ts_buf_len t).
Definition set_avg (v : list Z) (n : Z) (t : tuning_state) : tuning_state :=
  mk_ts (ts_freq t) (ts_rate t) (ts_bin_e t) v n (ts_downsample t) (ts_downsample_passes t) (ts_crop t) (ts_buf8 t) (ts_buf_len t).

(** The options and the tables. *)
(* src/rtl_power.c:81-118 boxcar, comp_fir_size, peak_hold *)
Record config : Type := mk_cfg {
  boxcar : bool;
  comp_fir_size : Z;
  peak_hold : bool;
  tables : wave;
  window_coefs : list Z;
}.

(* src/rtl_power.c: cic_9_tables *)
Definition cic_9_tables : list (list Z) := [
  [0];
  [9; -156; -97; 2798; -15489; 61019; -15489; 2798; -97; -156];
  [9; -128; -568; 5593; -24125; 74126; -24125; 5593; -568; -128];
  [9; -129; -639; 6187; -26281; 77511; -26281; 6187; -639; -129];
  [9; -122; -612; 6082; -26353; 77818; -26353; 6082; -612; -122];
  [9; -120; -602; 6015; -26269; 77757; -26269; 6015; -602; -120];
  [9; -120; -582; 5951; -26128; 77542; -26128; 5951; -582; -120];
  [9; -119; -580; 5931; -26094; 77505; -26094; 5931; -580; -119];
  [9; -119; -578; 5921; -26077; 77484; -26077; 5921; -578; -119];
  [9; -119; -577; 5917; -26067; 77473; -26067; 5917; -577; -119];
  [9; -199; -362; 5303; -25505; 77489; -25505; 5303; -362; -199]].

(** ** Windows *)

Section windows.
Context `{math}.

Definition lit (num den : Z) : double := ddiv (d_of_Z num) (d_of_Z den).
Definition N1 (length : Z) : double := d_of_Z (i32 (length - 1)).
(** [cos(k * i * M_PI / N1)] *)
Definition cosine (k i length : Z) : double := cos (ddiv (dmul (d_of_Z (i32 (k * i))) M_PI) (N1 length)).
(** The constant e of math.h. *)
Definition M_E : double := S754_finite false 6121026514868073 (-51).
(** [pow(M_E, (-a*(double)abs((int)(N1-1-2*i)))/N1)] *)
Definition poisson (a : double) (i length : Z) : double :=
  let d := d_to_i32 oor (dsub (dsub (N1 length) (d_of_Z 1)) (d_of_Z (i32 (2 * i)))) in
  pow M_E (ddiv (dmul (SFopp a) (d_of_Z (i32 (Z.abs d)))) (N1 length)).

(* src/rtl_power.c: rectangle *)
Definition rectangle (i length : Z) : double := d_of_Z 1.

(* src/rtl_power.c: hamming *)
Definition hamming (i length : Z) : double := dsub (lit 25 46) (dmul (lit 21 46) (cosine 2 i length)).

(* src/rtl_power.c: blackman *)
Definition blackman (i length : Z) : double :=
  dadd (dsub (lit 7938 18608) (dmul (lit 9240 18608) (cosine 2 i length))) (dmul (lit 1430 18608) (cosine 4 i length)).

(* src/rtl_power.c: blackman_harris *)
Definition blackman_harris (i length : Z) : double :=
  dsub (dadd (dsub (lit 35875 100000) (dmul (lit 48829 100000) (cosine 2 i length))) (dmul (lit 14128 100000) (cosine 4 i length)))
    (dmul (lit 1168 100000) (cosine 6 i length)).

(* src/rtl_power.c: hann_poisson *)
Definition hann_poisson (i length : Z) : double :=
  let c := cos (ddiv (dmul (dmul (d_of_Z 2) M_PI) (d_of_Z i)) (N1 length)) in
  dmul (dmul (lit 5 10) (dsub (d_of_Z 1) c)) (poisson (d_of_Z 2) i length).

(* src/rtl_power.c: youssef *)
Definition youssef (i length : Z) : double := dmul (blackman_harris i length) (poisson (lit 25 10000) i length).

(* src/rtl_power.c: kaiser *)
Definition kaiser (i length : Z) : double := d_of_Z 1.

(* src/rtl_power.c: bartlett *)
Definition bartlett (i length : Z) : double :=
  let L := d_of_Z length in
  let n1 := dsub L (d_of_Z 1) in
  let w := ddiv (dsub (d_of_Z i) (ddiv n1 (d_of_Z 2))) (ddiv L (d_of_Z 2)) in
  let w := if SFltb w (d_of_Z 0) then SFopp w else w in
  dsub (d_of_Z 1) w.

(** The coefficients that main computes. *)
(* src/rtl_power.c:970-974 main *)
Definition window_table (window_fn : Z -> Z -> double) (length : Z) : list Z :=
  map (fun i => d_to_i32 oor (dmul (d_of_Z 256) (window_fn i length))) (stepped length 1).
End windows.

(** ** The frequency range *)

(** A call of exit, which ends the program, or a value. *)
Inductive result (A : Type) : Type := Exit | Value (a : A).
Arguments Exit {A}.
Arguments Value {A} a.

Section range.
Context `{math}.

(** The loop over the number of hops: [bw_seen], [bw_used] and, when it is
    left by its break, [tune_count]. *)
(* src/rtl_power.c:461-468 frequency_range *)
Fixpoint hops_loop (fuel : nat) (width : Z) (crop : double) (i : Z) (last : Z * Z) : option (Z * Z * option Z) :=
  match fuel with
  | O => Some (last, None)
  | S fuel =>
      bw_seen ← c_div width i;
      let bw_used := d_to_i32 oor (ddiv (d_of_Z bw_seen) (dsub (d_of_Z 1) crop)) in
      if MAXIMUM_RATE <? bw_used then hops_loop fuel width crop (i + 1) (bw_seen, bw_used)
      else Some (bw_seen, bw_used, Some i)
  end.

(** The loop over the size of the transform: [bin_e]. *)
(* src/rtl_power.c:482-487 frequency_range *)
Fixpoint bins_loop (fuel : nat) (bw_used downsample max_size : Z) (i : Z) : Z :=
  let bin_size := ddiv (d_of_Z bw_used) (d_of_Z (i32 ((1 ≪ i) * downsample))) in
  match fuel with
  | O => i
  | S fuel => if SFleb bin_size (d_of_Z max_size) then i else bins_loop fuel bw_used downsample max_size (i + 1)
  end.

(** The hops for the bandwidths and sizes, up to the array. *)
Record plan : Type := mk_plan {
  p_tune_count : Z;
  p_bw_seen : Z;
  p_bw_used : Z;
  p_downsample : Z;
  p_downsample_passes : Z;
  p_bin_e : Z;
  p_crop : double;
}.

(** From the numbers to the plan. *)
(* src/rtl_power.c:457-499 frequency_range *)
Definition make_plan (boxcar : bool) (lower upper max_size : Z) (crop : double) : option (result plan) :=
  let width := i32 (upper - lower) in
  '(bw_seen, bw_used, count) ← hops_loop 1499 width crop 1 (0, 0);
  let tune_count := default 0 count in
  (* unless small bandwidth *)
  '(tune_count, downsample, bw_used) ←
    (if bw_used <? MINIMUM_RATE then
       downsample ← c_div MAXIMUM_RATE bw_used;
       Some (1, downsample, i32 (bw_used * downsample))
     else Some (tune_count, 1, bw_used));
  let '(downsample, passes, bw_used) :=
    if negb boxcar && (1 <? downsample) then
      let passes := d_to_i32 oor (log2 (d_of_Z downsample)) in
      let downsample := i32 (1 ≪ passes) in
      (downsample, passes, d_to_i32 oor (ddiv (d_of_Z (i32 (bw_seen * downsample))) (dsub (d_of_Z 1) crop)))
    else (downsample, 0, bw_used) in
  let bin_e := bins_loop 20 bw_used downsample max_size 1 in
  (* unless giant bins *)
  p ← (if MINIMUM_RATE <=? max_size then
         tune_count ← c_div width max_size;
         Some (mk_plan tune_count max_size max_size downsample passes 0 (d_of_Z 0))
       else Some (mk_plan tune_count bw_seen bw_used downsample passes bin_e crop));
  Some (if MAX_TUNES <? p_tune_count p then Exit else Value p).

(* src/rtl_power.c:500-503 frequency_range *)
Definition plan_buf_len (p : plan) : Z :=
  let buf_len := i32 (i32 (2 * (1 ≪ p_bin_e p)) * p_downsample p) in
  if buf_len <? DEFAULT_BUF_LENGTH then DEFAULT_BUF_LENGTH else buf_len.

(** The array of hops; what malloc gives for [buf8] is [junk]. *)
(* src/rtl_power.c:505-528 frequency_range *)
Definition make_tunes (junk : list Z) (lower : Z) (p : plan) : list tuning_state :=
  map (fun i =>
    mk_ts (i32 (lower + i * p_bw_seen p + Z.quot (p_bw_seen p) 2)) (p_bw_used p) (p_bin_e p) (replicate (Z.to_nat (1 ≪ p_bin_e p)) 0) 0
      (p_downsample p) (p_downsample_passes p) (p_crop p) junk (plan_buf_len p)) (stepped (p_tune_count p) 1).

(* src/rtl_power.c: frequency_range *)
Definition frequency_range `{libc} (boxcar : bool) (junk arg : list Z) (crop : double) : option (result (list tuning_state)) :=
  match split_colon arg with
  | None => Some Exit
  | Some (start, rest) =>
      match split_colon rest with
      | None => Some Exit
      | Some (stop, step) =>
          lower ← atofs None start; upper ← atofs (Some 0) stop; max_size ← atofs (Some 0) step;
          let lower := d_to_i32 oor lower in
          p ← make_plan boxcar lower (d_to_i32 oor upper) (d_to_i32 oor max_size) crop;
          Some (match p with Exit => Exit | Value p => Value (make_tunes junk lower p) end)
      end
  end.
End range.

(** ** Thinning out *)

(** [while (j < buf_len)] of the boxcar filter. *)
(* src/rtl_power.c:671-680 scanner *)
Fixpoint boxcar_loop (fuel : nat) (ds buf_len j j2 : Z) (buf : list Z) : option (list Z) :=
  match fuel with
  | O => None
  | S fuel =>
      if j <? buf_len then
        x ← arr_get buf j2; y ← arr_get buf j; buf ← arr_set buf j2 (i16 (x + y));
        x ← arr_get buf (j2 + 1); y ← arr_get buf (j + 1); buf ← arr_set buf (j2 + 1) (i16 (x + y));
        buf ← arr_set buf j 0;
        buf ← arr_set buf (j + 1) 0;
        let j := j + 2 in
        boxcar_loop fuel ds buf_len j (if Z.rem j (ds * 2) =? 0 then j2 + 2 else j2) buf
      else Some buf
  end.

(** [data] is the part of an array from [o] on. *)
(* src/rtl_power.c:569-577 fifth_order *)
Fixpoint fifth_order_loop (ks : list Z) (o : Z) (data : list Z) (c d e f : Z) : option (list Z) :=
  match ks with
  | [] => Some data
  | i :: ks' =>
      let '(a, b, c, d) := (c, d, e, f) in
      e ← arr_get data (o + (i - 2)); f ← arr_get data (o + i);
      data ← arr_set data (o + i / 2) (i16 ((a + (b + e) * 5 + (c + d) * 10 + f) ≫ 4));
      fifth_order_loop ks' o data c d e f
  end.

(* src/rtl_power.c: fifth_order *)
Definition fifth_order (o length : Z) (data : list Z) : option (list Z) :=
  a ← arr_get data (o + 0); b ← arr_get data (o + 2); c ← arr_get data (o + 4);
  d ← arr_get data (o + 6); e ← arr_get data (o + 8); f ← arr_get data (o + 10);
  data ← arr_set data (o + 0) (i16 (((a + b) * 10 + (c + d) * 5 + d + f) ≫ 4));
  data ← arr_set data (o + 2) (i16 (((b + c) * 10 + (a + d) * 5 + e + f) ≫ 4));
  data ← arr_set data (o + 4) (i16 ((a + (b + e) * 5 + (c + d) * 10 + f) ≫ 4));
  fifth_order_loop (map (fun k => 12 + k) (stepped (length - 12) 4)) o data c d e f.

(* src/rtl_power.c:586-588 remove_dc *)
Fixpoint dc_sum (ks : list Z) (o : Z) (data : list Z) (sum : Z) : option Z :=
  match ks with [] => Some sum | i :: ks' => x ← arr_get data (o + i); dc_sum ks' o data (i64 (sum + x)) end.

(* src/rtl_power.c: remove_dc *)
Definition remove_dc (o length : Z) (data : list Z) : option (list Z) :=
  sum ← dc_sum (stepped length 2) o data 0;
  if length =? 0 then None else
  let ave := i16 (Z.quot sum length) in
  if ave =? 0 then Some data else
  for_arr (stepped length 2) (fun i data => x ← arr_get data (o + i); arr_set data (o + i) (i16 (x - ave))) data.

(** [sum], in [int]. *)
(* src/rtl_power.c:608-613 generic_fir *)
Definition fir_sum (fir hist : list Z) : option Z :=
  f1 ← arr_get fir 1; f2 ← arr_get fir 2; f3 ← arr_get fir 3; f4 ← arr_get fir 4; f5 ← arr_get fir 5;
  match hist with
  | [h0; h1; h2; h3; h4; h5; h6; h7; h8] =>
      Some (i32 ((h0 + h8) * f1 + (h1 + h7) * f2 + (h2 + h6) * f3 + (h3 + h5) * f4 + h4 * f5))
  | _ => None
  end.

(* src/rtl_power.c:606-624 generic_fir *)
Fixpoint generic_fir_loop (ds : list Z) (o : Z) (fir data hist : list Z) : option (list Z) :=
  match ds with
  | [] => Some data
  | d :: ds' =>
      temp ← arr_get data (o + d);
      sum ← fir_sum fir hist;
      data ← arr_set data (o + d) (i16 (sum ≫ 15));
      generic_fir_loop ds' o fir data (tail hist ++ [temp])
  end.

(** The first nine samples go unfiltered. *)
(* src/rtl_power.c: generic_fir *)
Definition generic_fir (o length : Z) (fir data : list Z) : option (list Z) :=
  hist ← mapM (fun k => arr_get data (o + k)) (stepped 18 2);
  generic_fir_loop (map (fun k => 18 + k) (stepped (length - 18) 2)) o fir data hist.

(* src/rtl_power.c: downsample_iq *)
Definition downsample_iq (length : Z) (data : list Z) : option (list Z) :=
  data ← fifth_order 0 length data; fifth_order 1 (length - 1) data.

(** ** One buffer *)

(* src/rtl_power.c: real_conj *)
Definition real_conj (real imag : Z) : Z := i64 (real * real + imag * imag).

(* src/rtl_power.c:410-415 rms_power *)
Fixpoint rms_sums (ks : list Z) (buf : list Z) (t p : Z) : option (Z * Z) :=
  match ks with
  | [] => Some (t, p)
  | i :: ks' => x ← arr_get buf i; let s := x - 127 in rms_sums ks' buf (i64 (t + s)) (i64 (p + s * s))
  end.

Section buffers.
Context `{math} (cfg : config).

(** Peak hold or the sum. *)
(* src/rtl_power.c:707-715 scanner *)
Definition collect (a p : Z) : Z := if peak_hold cfg then Z.max p a else i64 (a + p).

(* src/rtl_power.c: rms_power *)
Definition rms_power (ts : tuning_state) : option tuning_state :=
  '(t, p) ← rms_sums (stepped (ts_buf_len ts) 1) (ts_buf8 ts) 0 0;
  let dc := ddiv (d_of_Z t) (d_of_Z (ts_buf_len ts)) in
  let err := dsub (dmul (d_of_Z (i64 (t * 2))) dc) (dmul (dmul dc dc) (d_of_Z (ts_buf_len ts))) in
  let p := i64 (p - d_to_i64 oor (round err)) in
  a ← arr_get (ts_avg ts) 0;
  avg ← arr_set (ts_avg ts) 0 (collect a p);
  Some (set_avg avg (i32 (ts_samples ts + 1)) ts).

(** The bytes, centred. *)
(* src/rtl_power.c:665-667 scanner *)
Definition prep (ts : tuning_state) (buf_len : Z) (buf : list Z) : option (list Z) :=
  for_arr (stepped buf_len 1) (fun j buf => b ← arr_get (ts_buf8 ts) j; arr_set buf j (i16 (i16 b - 127))) buf.

(* src/rtl_power.c:668-690 scanner *)
Definition thin_out (ts : tuning_state) (buf_len : Z) (buf : list Z) : option (list Z) :=
  let ds := ts_downsample ts in
  let ds_p := ts_downsample_passes ts in
  if boxcar cfg && (1 <? ds) then boxcar_loop (S (Z.to_nat buf_len)) ds buf_len 2 0 buf
  else if negb (ds_p =? 0) then
    buf ← for_arr (stepped ds_p 1) (fun j => downsample_iq (buf_len ≫ j)) buf;
    let j := Z.max 0 ds_p in
    if (comp_fir_size cfg =? 9) && (ds_p <=? CIC_TABLE_MAX) then
      fir ← arr_get cic_9_tables ds_p;
      buf ← generic_fir 0 (buf_len ≫ j) fir buf;
      generic_fir 1 ((buf_len ≫ j) - 1) fir buf
    else Some buf
  else Some buf.

(** The samples of a block times the window. *)
(* src/rtl_power.c:696-705 scanner *)
Definition window_block (offset bin_len : Z) (buf : list Z) : option (list Z) :=
  for_arr (stepped bin_len 1) (fun j buf =>
    c ← arr_get (window_coefs cfg) j;
    w ← arr_get buf (offset + j * 2);
    buf ← arr_set buf (offset + j * 2) (i16 (i32 (w * c)));
    w ← arr_get buf (offset + j * 2 + 1);
    arr_set buf (offset + j * 2 + 1) (i16 (i32 (w * c)))) buf.

(** The powers of the bins of a block, added to the averages. *)
(* src/rtl_power.c:707-715 scanner *)
Definition add_bins (offset bin_len : Z) (buf avg : list Z) : option (list Z) :=
  for_arr (stepped bin_len 1) (fun j avg =>
    re ← arr_get buf (offset + j * 2); im ← arr_get buf (offset + j * 2 + 1);
    a ← arr_get avg j; arr_set avg j (collect a (real_conj re im))) avg.

(** The blocks of a buffer: the buffer, the averages and the number of
    samples. *)
(* src/rtl_power.c:694-717 scanner *)
Fixpoint blocks (offsets : list Z) (bin_e ds : Z) (buf avg : list Z) (samples : Z) : option (list Z * list Z * Z) :=
  match offsets with
  | [] => Some (buf, avg, samples)
  | offset :: offsets' =>
      let bin_len := 1 ≪ bin_e in
      buf ← window_block offset bin_len buf;
      '(_, buf) ← fix_fft (tables cfg) offset bin_e buf;
      avg ← add_bins offset bin_len buf avg;
      blocks offsets' bin_e ds buf avg (i32 (samples + ds))
  end.

(** What is made of a buffer that was read: the hop and [fft_buf]. *)
(* src/rtl_power.c:659-717 scanner *)
Definition hop (bin_e buf_len : Z) (ts : tuning_state) (fft_buf : list Z) : option (tuning_state * list Z) :=
  let bin_len := 1 ≪ bin_e in
  if bin_len =? 1 then ts ← rms_power ts; Some (ts, fft_buf) else
  buf ← prep ts buf_len fft_buf;
  let ds := ts_downsample ts in
  buf ← thin_out ts buf_len buf;
  L ← c_div buf_len ds;
  buf ← remove_dc 0 L buf;
  buf ← remove_dc 1 (L - 1) buf;
  '(buf, avg, samples) ← blocks (stepped L (2 * bin_len)) bin_e ds buf (ts_avg ts) (ts_samples ts);
  Some (set_avg avg samples ts, buf).
End buffers.

(** ** The scan *)

(** The device, what the next bulk transfers bring, the buffer of the
    transform, and the values of [do_exit] when it is looked at. *)
Record scan : Type := mk_scan {
  sdev : rtlsdr_dev;
  bulk : list (list Z);
  fft_buf : list Z;
  hops : list tuning_state;
  do_exit : list Z;
}.

Definition set_sdev (v : rtlsdr_dev) (s : scan) : scan := mk_scan v (bulk s) (fft_buf s) (hops s) (do_exit s).
Definition set_bulk (v : list (list Z)) (s : scan) : scan := mk_scan (sdev s) v (fft_buf s) (hops s) (do_exit s).
Definition set_hop (b : list Z) (h : list tuning_state) (s : scan) : scan := mk_scan (sdev s) (bulk s) b h (do_exit s).
Definition set_exits (v : list Z) (s : scan) : scan := mk_scan (sdev s) (bulk s) (fft_buf s) (hops s) v.

Definition on_dev {A} (m : M rtlsdr_dev A) : M scan A := zoom sdev set_sdev m.

(** The buffer of [n] bytes after a transfer of at most [len]: its first bytes
    are replaced by what came. *)
(* src/librtlsdr.c: rtlsdr_read_sync *)
Definition rtlsdr_read_sync (buf : list Z) (len : Z) : M scan (list Z) :=
  b ← gets bulk;
  modify (set_bulk (tail b));;
  let data := take (Z.to_nat len) (default [] (head b)) in
  if bool_decide (length data <= length buf)%nat then mret (data ++ drop (length data) buf) else trap.

(** The contents of [dump] are not used. *)
(* src/rtl_power.c: retune *)
Definition retune (freq : Z) : M scan unit :=
  on_dev (rtlsdr_set_center_freq (u32 freq));;
  rtlsdr_read_sync (replicate 4096 0) BUFFER_DUMP;;
  mret tt.

Definition poll_exit : M scan Z :=
  e ← gets do_exit; modify (set_exits (tail e));; mret (default 0 (head e)).

Section scanner.
Context `{math} (cfg : config).

(** The hop [i]. *)
(* src/rtl_power.c:652-717 scanner *)
Definition scan_hop (bin_e buf_len i : Z) : M scan unit :=
  hs ← gets hops;
  ts ← from_option_trap (arr_get hs i);
  f ← gets (fun s => i32 (rtlsdr_get_center_freq (sdev s)));
  (if f =? ts_freq ts then mret tt else retune (ts_freq ts));;
  buf8 ← rtlsdr_read_sync (ts_buf8 ts) buf_len;
  b ← gets fft_buf;
  '(ts, b) ← from_option_trap (hop cfg bin_e buf_len (set_buf8 buf8 ts) b);
  hs ← from_option_trap (arr_set hs i ts);
  modify (set_hop b hs).

(* src/rtl_power.c:649-651 scanner *)
Fixpoint scan_hops (is' : list Z) (bin_e buf_len : Z) : M scan unit :=
  match is' with
  | [] => mret tt
  | i :: is' =>
      e ← poll_exit;
      if 2 <=? e then mret tt else
      scan_hop bin_e buf_len i;;
      scan_hops is' bin_e buf_len
  end.

(* src/rtl_power.c: scanner *)
Definition scanner : M scan unit :=
  hs ← gets hops;
  t0 ← from_option_trap (arr_get hs 0);
  scan_hops (zseq (length hs)) (ts_bin_e t0) (ts_buf_len t0).
End scanner.

(** The options and the tables that main computes for the first hop. *)
(* src/rtl_power.c:962-974 main *)
Definition main_config `{math} (boxcar : bool) (comp_fir_size : Z) (peak_hold : bool) (window_fn : Z -> Z -> double) (bin_e : Z) : config :=
  mk_cfg boxcar comp_fir_size peak_hold (sine_table bin_e) (window_table window_fn (1 ≪ bin_e)).

(** ** The report *)

(** A line: the frequencies of its ends, the distance of two bins, the number
    of samples, and the decibels. *)
Record row : Type := mk_row { hz_low : Z; hz_high : Z; hz_step : double; row_samples : Z; dbm : list double }.

Section report.
Context `{math}.

(* src/rtl_power.c:733-737 csv_dbm *)
Definition swap_halves (len : Z) (avg : list Z) : option (list Z) :=
  for_arr (stepped (len / 2) 1) (fun i avg => swap i (i + len / 2) avg) avg.

(** The bins in the order of their frequencies. *)
(* src/rtl_power.c:728-738 csv_dbm *)
Definition arrange (bin_e : Z) (avg : list Z) : option (list Z) :=
  if 0 <? bin_e then
    a ← arr_get avg 1;
    avg ← arr_set avg 0 a;
    swap_halves (1 ≪ bin_e) avg
  else Some avg.

Definition decibel (x : double) : double := dmul (d_of_Z 10) (log10 x).

(* src/rtl_power.c: csv_dbm *)
Definition csv_dbm (ts : tuning_state) : option (tuning_state * row) :=
  let len := 1 ≪ ts_bin_e ts in
  let ds := ts_downsample ts in
  avg ← arrange (ts_bin_e ts) (ts_avg ts);
  let bin_count := d_to_i32 oor (dmul (d_of_Z len) (dsub (d_of_Z 1) (ts_crop ts))) in
  let bw2 := d_to_i32 oor (ddiv (dmul (d_of_Z (ts_rate ts)) (d_of_Z bin_count)) (d_of_Z (i32 (i32 (len * 2) * ds)))) in
  let cut := d_to_i32 oor (dmul (dmul (d_of_Z len) (ts_crop ts)) (ddiv (d_of_Z 5) (d_of_Z 10))) in
  let i1 := cut in
  let i2 := i32 (len - 1 - cut) in
  ps ← mapM (fun i => a ← arr_get avg i; Some (decibel (ddiv (ddiv (d_of_Z a) (d_of_Z (ts_rate ts))) (d_of_Z (ts_samples ts)))))
    (map (fun k => i1 + k) (stepped (i2 + 1 - i1) 1));
  let per_sample a := ddiv (d_of_Z a) (dmul (d_of_Z (ts_rate ts)) (d_of_Z (ts_samples ts))) in
  a ← arr_get avg i2;
  last ← (if ts_bin_e ts =? 0 then a ← arr_get avg 0; Some (per_sample a) else Some (per_sample a));
  avg ← for_arr (stepped len 1) (fun i avg => arr_set avg i 0) avg;
  Some (set_avg avg 0 ts,
    mk_row (i32 (ts_freq ts - bw2)) (i32 (ts_freq ts + bw2)) (ddiv (d_of_Z (ts_rate ts)) (d_of_Z (i32 (len * ds))))
      (ts_samples ts) (ps ++ [decibel last])).
End report.

(** ** The main loop *)

Section main_loop.
Context `{math} (cfg : config).

(** The lines of all hops. *)
(* src/rtl_power.c:983-986 main *)
Definition report_hops : M scan (list row) :=
  hs ← gets hops;
  rs ← from_option_trap (mapM csv_dbm hs);
  b ← gets fft_buf;
  modify (set_hop b (map fst rs));;
  mret (map snd rs).

(** [while (time(NULL) >= next_tick)], while the clock stands still. *)
(* src/rtl_power.c:988-989 main *)
Fixpoint bump_tick (fuel : nat) (now interval next_tick : Z) : Z :=
  match fuel with
  | O => next_tick
  | S fuel => if next_tick <=? now then bump_tick fuel now interval (next_tick + interval) else next_tick
  end.

(** A turn: the lines, [next_tick], and whether [do_exit] is set; [now] is the
    time. *)
(* src/rtl_power.c:976-993 main *)
Definition main_turn (now interval exit_time : Z) (single : bool) (next_tick : Z) : M scan (list row * Z * bool) :=
  scanner cfg;;
  if now <? next_tick then mret ([], next_tick, false) else
  rows ← report_hops;
  let next_tick := bump_tick (S (Z.to_nat (now - next_tick))) now interval next_tick in
  mret (rows, next_tick, single || (truthy exit_time && (exit_time <=? now))).
End main_loop.
