(* ===== verification/RtlPowerSpec.v ===== *)
(** * rtl_power: what the scan computes

    The boxcar filter gives sums of samples, a buffer gives the powers of the
    recursive transforms of its blocks ([hop_spectrum]), the plan of the hops
    covers the range, and the scan stays inside of its arrays and keeps the
    device usable. *)

From S2P Require Import Prelude Arrays Streams Double Usb Device DeviceInv DeviceSession Convenience Fft FftSpec RtlPower.
From Stdlib Require Import SpecFloat.

(** ** Sums *)

Fixpoint zsum (n : nat) (f : Z -> Z) : Z := match n with O => 0 | S n => zsum n f + f (Z.of_nat n) end.

Lemma zsum_ext n f g : (forall i, 0 <= i < Z.of_nat n -> f i = g i) -> zsum n f = zsum n g.
Proof. induction n as [|n IH]; intros H; [done|]. cbn [zsum]. rewrite IH by (intros; apply H; lia). by rewrite H by lia. Qed.

Lemma zsum_0 n f : (forall i, 0 <= i < Z.of_nat n -> f i = 0) -> zsum n f = 0.
Proof. intros H. induction n as [|n IH]; [done|]. cbn [zsum]. rewrite IH, H; [done|lia|]. intros i Hi. apply H. lia. Qed.

Lemma zsum_front n f : zsum (S n) f = f 0 + zsum n (fun i => f (1 + i)).
Proof.
  induction n as [|n IH]; [cbn [zsum]; change (Z.of_nat 0) with 0; lia|].
  change (zsum (S (S n)) f) with (zsum (S n) f + f (Z.of_nat (S n))). rewrite IH. cbn [zsum].
  replace (1 + Z.of_nat n) with (Z.of_nat (S n)) by lia. lia.
Qed.

Lemma fold_left_map {A B C} (f : A -> B -> A) (g : C -> B) l x : fold_left f (map g l) x = fold_left (fun a c => f a (g c)) l x.
Proof. revert x. induction l as [|c l IH]; intros x; [done|]. apply IH. Qed.

(** One summand is changed. *)
Lemma zsum_update n f g k : 0 <= k < Z.of_nat n -> (forall i, 0 <= i < Z.of_nat n -> i <> k -> g i = f i) ->
  zsum n g = zsum n f + (g k - f k).
Proof.
  induction n as [|n IH]; intros Hk H; [lia|]. cbn [zsum]. destruct (Z.eq_dec k (Z.of_nat n)) as [->|Hne].
  - rewrite (zsum_ext n g f); [lia|]. intros i Hi. apply H; lia.
  - rewrite IH; [|lia|intros; apply H; lia]. rewrite (H (Z.of_nat n)) by lia. lia.
Qed.

Lemma zsum_bound n f b : (forall i, 0 <= i < Z.of_nat n -> Z.abs (f i) <= b) -> Z.abs (zsum n f) <= Z.of_nat n * b.
Proof.
  induction n as [|n IH]; intros H; cbn [zsum]; [lia|]. specialize (IH ltac:(intros; apply H; lia)).
  specialize (H (Z.of_nat n) ltac:(lia)). lia.
Qed.

(** ** Wrapping *)

Lemma i64_small x : - 2 ^ 63 <= x < 2 ^ 63 -> i64 x = x.
Proof. unfold i64. intros H. rewrite Z.mod_small; lia. Qed.

(** ** The boxcar filter *)

(** The sample [i] of the window of the element [k]. *)
Definition box_index (ds k i : Z) : Z := 2 * (k / 2 * ds + i) + k mod 2.

(** The sums of [ds] samples, of the two channels in turn. *)
Definition box (ds : Z) (f : Z -> Z) (k : Z) : Z := i16 (zsum (Z.to_nat ds) (fun i => f (box_index ds k i))).

(** The same with the elements before [j] only. *)
Definition box_upto (ds : Z) (f : Z -> Z) (j k : Z) : Z :=
  i16 (zsum (Z.to_nat ds) (fun i => if box_index ds k i <? j then f (box_index ds k i) else 0)).

Definition boxed (ds : Z) (f : Z -> Z) (j k : Z) : Z := if k <? j then box_upto ds f j k else f k.

Lemma split2 k : k = 2 * (k / 2) + k mod 2 /\ (k mod 2 = 0 \/ k mod 2 = 1).
Proof. pose proof (Z.div_mod k 2). pose proof (Z.mod_pos_bound k 2). lia. Qed.

(** The step for the pair [j] of samples, which belongs to the window [q]. *)
Lemma box_step ds f j q k : 2 <= ds -> 0 <= k -> 0 <= q -> j mod 2 = 0 -> 2 * ds * q <= j < 2 * ds * (q + 1) ->
  box_upto ds f (j + 2) k = if k / 2 =? q then i16 (box_upto ds f j k + f (j + k mod 2)) else box_upto ds f j k.
Proof.
  intros Hds Hk Hq Hj Hjq. unfold box_upto. destruct (split2 k) as [Ek Em]. destruct (split2 j) as [Ej _].
  destruct (Z.eqb_spec (k / 2) q) as [E|Hne].
  - rewrite i16_add. f_equal. set (i0 := j / 2 - q * ds).
    assert (Hi0 : box_index ds k i0 = j + k mod 2) by (unfold box_index, i0; lia).
    rewrite (zsum_update _ (fun i => if box_index ds k i <? j then f (box_index ds k i) else 0) _ i0).
    + rewrite Hi0. replace (j + k mod 2 <? j + 2) with true by lia. replace (j + k mod 2 <? j) with false by lia. lia.
    + unfold i0. lia.
    + intros i Hi Hne. cbv beta. assert (box_index ds k i <> j + k mod 2) by (rewrite <- Hi0; unfold box_index; lia).
      replace (box_index ds k i <? j + 2) with (box_index ds k i <? j); [done|].
      unfold box_index in *. destruct (Z.ltb_spec (2 * (k / 2 * ds + i) + k mod 2) j), (Z.ltb_spec (2 * (k / 2 * ds + i) + k mod 2) (j + 2)); lia.
  - f_equal. apply zsum_ext. intros i Hi. replace (box_index ds k i <? j + 2) with (box_index ds k i <? j); [done|].
    assert (box_index ds k i < 2 * ds * q \/ 2 * ds * (q + 1) <= box_index ds k i) as Hb; [unfold box_index|].
    + destruct (Z.lt_ge_cases (k / 2) q).
      * left. assert (ds * (k / 2 + 1) <= ds * q) by (apply Z.mul_le_mono_nonneg_l; lia). lia.
      * right. assert (ds * (q + 1) <= ds * (k / 2)) by (apply Z.mul_le_mono_nonneg_l; lia). lia.
    + assert (j + 2 <= 2 * ds * (q + 1)) by lia. lia.
Qed.

Lemma box_upto_0 ds f j k : (forall i, 0 <= i < ds -> j <= box_index ds k i) -> 0 <= ds -> box_upto ds f j k = 0.
Proof.
  intros H Hds. unfold box_upto. rewrite zsum_0; [done|]. intros i Hi.
  by replace (box_index ds k i <? j) with false by (specialize (H i ltac:(lia)); lia).
Qed.

(** A sample is added to an element. *)
Lemma add_at_spec buf i j v w :
  0 <= i < Z.of_nat (length buf) -> 0 <= j < Z.of_nat (length buf) -> getz buf i = v -> getz buf j = w ->
  exists buf', (x ← arr_get buf i; y ← arr_get buf j; arr_set buf i (i16 (x + y))) = Some buf' /\ length buf' = length buf /\
    forall k, getz buf' k = if k =? i then i16 (v + w) else getz buf k.
Proof.
  intros Hi Hj <- <-. rewrite !(arr_get_get_or 0) by done. cbn [mbind option_bind]. by apply (arr_set_get_or 0).
Qed.

(** A round of the loop. *)
Lemma boxcar_round ds a j q buf :
  2 <= ds -> 2 <= j -> j mod 2 = 0 -> 0 <= q -> 2 * ds * q <= j < 2 * ds * (q + 1) -> j + 1 < Z.of_nat (length buf) ->
  (forall k, 0 <= k -> getz buf k = boxed ds (getz a) j k) ->
  exists b1 b2 b3 b4,
    (x ← arr_get buf (2 * q); y ← arr_get buf j; arr_set buf (2 * q) (i16 (x + y))) = Some b1 /\
    (x ← arr_get b1 (2 * q + 1); y ← arr_get b1 (j + 1); arr_set b1 (2 * q + 1) (i16 (x + y))) = Some b2 /\
    arr_set b2 j 0 = Some b3 /\ arr_set b3 (j + 1) 0 = Some b4 /\ length b4 = length buf /\
    forall k, 0 <= k -> getz b4 k = boxed ds (getz a) (j + 2) k.
Proof.
  intros Hds Hj Hje Hq Hjq Hlen H. assert (Hqj : 2 * q + 1 < j) by nia.
  assert (Hjv : forall c, 0 <= c <= 1 -> getz buf (j + c) = getz a (j + c)).
  { intros c Hc. rewrite H by lia. unfold boxed. by replace (j + c <? j) with false by lia. }
  assert (Hqv : forall c, 0 <= c <= 1 -> getz buf (2 * q + c) = box_upto ds (getz a) j (2 * q + c)).
  { intros c Hc. rewrite H by lia. unfold boxed. by replace (2 * q + c <? j) with true by lia. }
  specialize (Hjv 0 ltac:(lia)) as Hj0. specialize (Hqv 0 ltac:(lia)) as Hq0. rewrite !Z.add_0_r in Hj0, Hq0.
  destruct (add_at_spec buf (2 * q) j _ _ ltac:(lia) ltac:(lia) Hq0 Hj0) as (b1 & E1 & L1 & G1).
  destruct (add_at_spec b1 (2 * q + 1) (j + 1) (box_upto ds (getz a) j (2 * q + 1)) (getz a (j + 1))) as (b2 & E2 & L2 & G2); [lia|lia| | |].
  { rewrite G1. replace (2 * q + 1 =? 2 * q) with false by lia. apply Hqv. lia. }
  { rewrite G1. replace (j + 1 =? 2 * q) with false by lia. apply Hjv. lia. }
  destruct ((arr_set_get_or 0) b2 j 0) as (b3 & E3 & L3 & G3); [lia|].
  destruct ((arr_set_get_or 0) b3 (j + 1) 0) as (b4 & E4 & L4 & G4); [lia|].
  exists b1, b2, b3, b4. split_and!; try done; [lia|]. intros k Hk. rewrite G4, G3, G2, G1, H by done. unfold boxed.
  destruct (Z.ltb_spec k (j + 2)) as [Hkj|Hkj].
  - destruct (Z.ltb_spec k j) as [Hlt|Hge].
    + rewrite (box_step ds (getz a) j q k) by lia. replace (k =? j + 1) with false by lia. replace (k =? j) with false by lia.
      destruct (split2 k) as [Ek Em]. destruct (Z.eqb_spec (k / 2) q) as [E|Hne].
      * destruct (Z.eqb_spec k (2 * q + 1)) as [->|]; [f_equal; f_equal; f_equal; lia|].
        assert (k = 2 * q) as -> by lia. rewrite Z.eqb_refl. f_equal. f_equal. f_equal. lia.
      * replace (k =? 2 * q + 1) with false by lia. by replace (k =? 2 * q) with false by lia.
    + rewrite (box_upto_0 ds (getz a) (j + 2) k); [|intros i Hi; unfold box_index; destruct (split2 k), (split2 j); nia|lia].
      destruct (Z.eqb_spec k (j + 1)); [done|]. by replace (k =? j) with true by lia.
  - replace (k =? j + 1) with false by lia. replace (k =? j) with false by lia. replace (k =? 2 * q + 1) with false by lia.
    replace (k =? 2 * q) with false by lia. by replace (k <? j) with false by lia.
Qed.

Lemma boxcar_loop_spec ds a : 2 <= ds -> Z.of_nat (length a) mod 2 = 0 -> forall fuel j q buf,
  2 <= j <= Z.of_nat (length a) -> Z.of_nat (length a) - j < Z.of_nat fuel -> j mod 2 = 0 -> 0 <= q -> 2 * ds * q <= j < 2 * ds * (q + 1) ->
  length buf = length a -> (forall k, 0 <= k -> getz buf k = boxed ds (getz a) j k) ->
  exists buf', boxcar_loop fuel ds (Z.of_nat (length a)) j (2 * q) buf = Some buf' /\ length buf' = length a /\
    forall k, 0 <= k -> getz buf' k = box ds (getz a) k.
Proof.
  intros Hds Hev. induction fuel as [|fuel IH]; intros j q buf Hj Hf Hje Hq Hjq Hl H; [lia|]. cbn [boxcar_loop].
  destruct (split2 j) as [Ej _]. destruct (split2 (Z.of_nat (length a))) as [El _].
  destruct (Z.ltb_spec j (Z.of_nat (length a))) as [Hlt|Hge].
  - destruct (boxcar_round ds a j q buf) as (b1 & b2 & b3 & b4 & E1 & E2 & E3 & E4 & L4 & H4); [(done || lia)..|].
    destruct (arr_get buf (2 * q)) as [x|]; [|done]. destruct (arr_get buf j) as [y|]; [|done].
    cbn [mbind option_bind] in E1 |- *. rewrite E1. cbn [mbind option_bind].
    destruct (arr_get b1 (2 * q + 1)) as [x'|]; [|done]. destruct (arr_get b1 (j + 1)) as [y'|]; [|done].
    cbn [mbind option_bind] in E2 |- *. rewrite E2. cbn [mbind option_bind]. rewrite E3. cbn [mbind option_bind]. rewrite E4.
    cbn [mbind option_bind]. cbv zeta.
    assert (Hrem : (Z.rem (j + 2) (ds * 2) =? 0) = (j + 2 =? 2 * ds * (q + 1))).
    { rewrite Z.rem_mod_nonneg by lia. destruct (Z.eqb_spec (j + 2) (2 * ds * (q + 1))) as [->|Hne].
      - replace (2 * ds * (q + 1)) with ((q + 1) * (ds * 2)) by lia. by rewrite Z.mod_mul by lia.
      - replace ((j + 2) mod (ds * 2)) with (j + 2 - 2 * ds * q); [lia|].
        apply (Z.mod_unique _ _ q); lia. }
    assert (Hmod : (j + 2) mod 2 = 0) by (replace (j + 2) with (j + 1 * 2) by lia; by rewrite Z.mod_add).
    rewrite Hrem. destruct (Z.eqb_spec (j + 2) (2 * ds * (q + 1))) as [E|Hne].
    + replace (2 * q + 2) with (2 * (q + 1)) by lia. apply IH; [lia|lia|done|lia|nia|lia|done].
    + apply IH; [lia|lia|done|done|lia|lia|done].
  - exists buf. split; [done|]. split; [done|]. intros k Hk. rewrite H by done. unfold boxed.
    assert (Hbox : forall m, m = Z.of_nat (length a) -> box_upto ds (getz a) m k = box ds (getz a) k).
    { intros m ->. unfold box_upto, box. f_equal. apply zsum_ext. intros i Hi.
      destruct (Z.ltb_spec (box_index ds k i) (Z.of_nat (length a))); [done|]. rewrite (get_or_outside 0); [done|lia]. }
    destruct (Z.ltb_spec k j); [apply Hbox; lia|]. rewrite <- (Hbox _ eq_refl), (get_or_outside 0), box_upto_0; [done| |lia|lia].
    intros i Hi. unfold box_index. destruct (split2 k). nia.
Qed.

Lemma boxcar_spec ds a : 2 <= ds -> 2 <= Z.of_nat (length a) -> Z.of_nat (length a) mod 2 = 0 -> (forall k, is_i16 (getz a k)) ->
  exists a', boxcar_loop (S (Z.to_nat (Z.of_nat (length a)))) ds (Z.of_nat (length a)) 2 0 a = Some a' /\ length a' = length a /\
    forall k, 0 <= k -> getz a' k = box ds (getz a) k.
Proof.
  intros Hds Hlen Hev Ha. rewrite Nat2Z.id. apply (boxcar_loop_spec ds a Hds Hev _ 2 0); [lia|lia|done|lia|nia|done|].
  intros k Hk. unfold boxed. destruct (Z.ltb_spec k 2); [|done]. unfold box_upto.
  assert (k / 2 = 0) as E by (apply Z.div_small; lia). assert (k mod 2 = k) as E' by (apply Z.mod_small; lia).
  rewrite (zsum_update _ (fun _ => 0) _ 0); [|lia|].
  - rewrite zsum_0 by done. unfold box_index. rewrite E, E'. replace (2 * (0 * ds + 0) + k) with k by lia.
    replace (k <? 2) with true by lia. rewrite Z.sub_0_r, Z.add_0_l. by rewrite i16_small.
  - intros i Hi Hne. replace (box_index ds k i <? 2) with false; [done|]. unfold box_index. rewrite E, E'. lia.
Qed.

(** ** The other steps on a buffer *)

Lemma prep_spec ts buf :
  Z.of_nat (length buf) <= Z.of_nat (length (ts_buf8 ts)) -> Forall is_u8 (ts_buf8 ts) ->
  exists a, prep ts (Z.of_nat (length buf)) buf = Some a /\ length a = length buf /\
    forall k, 0 <= k < Z.of_nat (length buf) -> getz a k = getz (ts_buf8 ts) k - 127.
Proof.
  intros Hlen Hu8. unfold prep. rewrite stepped_1, Nat2Z.id, <- (map_id (zseq _)).
  destruct (for_arr_pointwise 0 (fun j buf => b ← arr_get (ts_buf8 ts) j; arr_set buf j (i16 (i16 b - 127))) id (length buf) id
    (fun k _ => getz (ts_buf8 ts) k - 127) buf) as (a & E & L & H).
  - intros r a Hr La. unfold id. rewrite (arr_get_get_or 0) by lia. cbn [mbind option_bind].
    destruct ((arr_set_get_or 0) a r (i16 (i16 (getz (ts_buf8 ts) r) - 127)) ltac:(lia)) as (a' & E & L & H).
    exists a'. split; [done|]. split; [done|]. intros k. rewrite H. destruct (Z.eqb_spec k r) as [->|]; [|done].
    assert (is_u8 (getz (ts_buf8 ts) r)) as Hb.
    { destruct (arr_get_ok (ts_buf8 ts) r ltac:(lia)) as [x Hx]. rewrite ((get_or_some 0) _ _ _ Hx). unfold arr_get in Hx.
      destruct (r <? 0); [done|]. by eapply Forall_lookup in Hx. }
    unfold is_u8 in Hb. rewrite (i16_small (getz _ _)) by (unfold is_i16; lia). apply i16_small. unfold is_i16. lia.
  - exists a. split; [exact E|]. split; [done|]. intros k Hk. rewrite H. unfold id.
    by replace ((0 <=? k) && (k <? Z.of_nat (length buf))) with true by lia.
Qed.

(** The elements [o], [o + 2], ... of an array, below [o + len]. *)
Definition channel (o k : Z) : Z := if Z.even (k - o) then (k - o) / 2 else -1.

Lemma channel_at o k r : 0 <= r -> channel o k = r <-> k = o + r * 2.
Proof.
  intros Hr. unfold channel. rewrite Zeven_mod. destruct (split2 (k - o)) as [E Em].
  destruct (Z.eqb_spec ((k - o) mod 2) 0); lia.
Qed.

(** The owner of an element, as the index that is written. *)
Lemma owner_if (c r k i : Z) (f g : Z -> Z) : (c = r <-> k = i) -> (if k =? i then f i else g k) = if c =? r then f k else g k.
Proof. intros H. destruct (Z.eqb_spec k i) as [->|], (Z.eqb_spec c r); tauto || lia. Qed.

Definition rounds (len : Z) : nat := Z.to_nat ((len + 1) / 2).

Lemma stepped_2 len : stepped len 2 = map (fun k => k * 2) (zseq (rounds len)).
Proof. unfold stepped, rounds. by replace (len + 2 - 1) with (len + 1) by lia. Qed.

(** The mean that [remove_dc] takes off: the sum of the [len / 2] elements
    over [len]. *)
Definition dc (o len : Z) (f : Z -> Z) : Z := i16 (Z.quot (zsum (rounds len) (fun i => f (o + i * 2))) len).

Lemma dc_sum_spec o a n : forall g sum b,
  (forall i, 0 <= i < Z.of_nat n -> 0 <= o + g i < Z.of_nat (length a)) -> (forall k, is_i16 (getz a k)) ->
  Z.abs sum <= b * 2 ^ 15 -> (b + Z.of_nat n) < 2 ^ 40 -> 0 <= b ->
  dc_sum (map g (zseq n)) o a sum = Some (sum + zsum n (fun i => getz a (o + g i))).
Proof.
  induction n as [|n IH]; intros g sum b Hg Ha Hs Hb Hb0; [cbn; f_equal; lia|].
  rewrite zseq_S. cbn [map dc_sum]. rewrite map_map. rewrite (arr_get_get_or 0) by (apply Hg; lia). cbn [mbind option_bind].
  specialize (Ha (o + g 0)) as Ha0. unfold is_i16 in Ha0.
  rewrite i64_small by lia. rewrite (IH (fun k => g (1 + k)) _ (b + 1)); [|intros; apply Hg; lia|done|lia|lia|lia].
  f_equal. rewrite zsum_front. lia.
Qed.

Lemma remove_dc_spec o len a :
  0 <= o -> 0 < len < 2 ^ 31 -> o + len <= Z.of_nat (length a) -> (forall k, is_i16 (getz a k)) ->
  exists a', remove_dc o len a = Some a' /\ length a' = length a /\
    forall k, getz a' k = if (0 <=? channel o k) && (channel o k <? Z.of_nat (rounds len)) then i16 (getz a k - dc o len (getz a)) else getz a k.
Proof.
  intros Ho Hlen Hl Ha. unfold remove_dc. rewrite stepped_2.
  assert (Hr : Z.of_nat (rounds len) * 2 <= len + 1) by (unfold rounds; pose proof (Z.div_mod (len + 1) 2 ltac:(lia)); pose proof (Z.mod_pos_bound (len + 1) 2 ltac:(lia)); lia).
  rewrite (dc_sum_spec o a (rounds len) (fun k => k * 2) 0 0); [|intros i Hi; lia|done|lia|lia|lia].
  cbn [mbind option_bind]. replace (len =? 0) with false by lia. rewrite Z.add_0_l. fold (dc o len (getz a)). cbv zeta.
  destruct (Z.eqb_spec (dc o len (getz a)) 0) as [E|Hne].
  - exists a. split; [done|]. split; [done|]. intros k. rewrite E, Z.sub_0_r, i16_small by done. by destruct (_ && _).
  - apply (for_arr_pointwise 0) with (h := fun _ x => i16 (x - dc o len (getz a))). intros r b Hrb Lb.
    rewrite (arr_get_get_or 0) by lia. cbn [mbind option_bind].
    destruct ((arr_set_get_or 0) b (o + r * 2) (i16 (getz b (o + r * 2) - dc o len (getz a))) ltac:(lia)) as (b' & E & L & H).
    exists b'. split; [done|]. split; [done|]. intros k. rewrite H.
    apply (owner_if _ _ _ _ (fun k => i16 (getz b k - dc o len (getz a))) (getz b)). apply channel_at. lia.
Qed.

Lemma getz_i16_set l' l f (b : Z -> bool) : (forall k, getz l' k = if b k then i16 (f k) else getz l k) -> (forall k, is_i16 (getz l k)) ->
  forall k, is_i16 (getz l' k).
Proof. intros H Hl k. rewrite H. destruct (b k); [apply i16_range|done]. Qed.

(** ** The blocks of a buffer *)

Section spectrum.
Context {lib : math} (cfg : config).
Implicit Types (a buf avg : list Z).

(** The sample [p] of the block at [offset], times the window. *)
Definition windowed (f : Z -> Z) (offset p : Z) : Z * Z :=
  let c := getz (window_coefs cfg) p in
  (i16 (i32 (f (offset + 2 * p) * c)), i16 (i32 (f (offset + (2 * p + 1)) * c))).

Lemma window_block_spec offset n a :
  0 <= offset -> offset + 2 * Z.of_nat n <= Z.of_nat (length a) -> length (window_coefs cfg) = n ->
  exists a', window_block cfg offset (Z.of_nat n) a = Some a' /\ holds a offset (Z.of_nat n) (windowed (getz a) offset) a'.
Proof.
  intros Ho Hl Hc. unfold window_block. rewrite stepped_1, Nat2Z.id, <- (map_id (zseq n)).
  destruct (for_arr_pointwise 0 (fun j buf =>
    c ← arr_get (window_coefs cfg) j; w ← arr_get buf (offset + j * 2); buf ← arr_set buf (offset + j * 2) (i16 (i32 (w * c)));
    w ← arr_get buf (offset + j * 2 + 1); arr_set buf (offset + j * 2 + 1) (i16 (i32 (w * c)))) id n
    (fun k => (k - offset) / 2) (fun k x => i16 (i32 (x * getz (window_coefs cfg) ((k - offset) / 2)))) a) as (a' & E & L & H).
  - intros r b Hr Lb. unfold id. rewrite !(arr_get_get_or 0) by lia. cbn [mbind option_bind].
    set (c := getz (window_coefs cfg) r).
    destruct ((arr_set_get_or 0) b (offset + r * 2) (i16 (i32 (getz b (offset + r * 2) * c))) ltac:(lia)) as (b1 & -> & L1 & G1).
    cbn [mbind option_bind]. rewrite (arr_get_get_or 0) by lia. cbn [mbind option_bind].
    destruct ((arr_set_get_or 0) b1 (offset + r * 2 + 1) (i16 (i32 (getz b1 (offset + r * 2 + 1) * c))) ltac:(lia)) as (b2 & E2 & L2 & G2).
    exists b2. split; [done|]. split; [lia|]. intros k. rewrite G2, !G1.
    replace (offset + r * 2 + 1 =? offset + r * 2) with false by lia. destruct (split2 (k - offset)) as [Ek Em].
    destruct (Z.eqb_spec ((k - offset) / 2) r) as [Er|Nr].
    + rewrite Er. fold c. destruct (Z.eqb_spec k (offset + r * 2 + 1)) as [->|]; [done|].
      assert (k = offset + r * 2) as -> by lia. by rewrite Z.eqb_refl.
    + replace (k =? offset + r * 2 + 1) with false by lia. by replace (k =? offset + r * 2) with false by lia.
  - exists a'. split; [exact E|]. split; [done|].
    assert (Hin : forall p c, 0 <= c <= 1 -> (offset + (2 * p + c) - offset) / 2 = p)
      by (intros p c Hpc; symmetry; apply (Z.div_unique _ _ _ c); lia).
    split.
    + intros p Hp. unfold cget, windowed. cbv zeta. rewrite !H.
      replace (offset + 2 * p) with (offset + (2 * p + 0)) by lia. rewrite !Hin by lia.
      by replace ((0 <=? p) && (p <? Z.of_nat n)) with true by lia.
    + intros k Hk. rewrite H. destruct (split2 (k - offset)).
      by replace ((0 <=? (k - offset) / 2) && ((k - offset) / 2 <? Z.of_nat n)) with false by lia.
Qed.

Lemma add_bins_spec offset n buf avg f : holds buf offset (Z.of_nat n) f buf -> fits offset (Z.of_nat n) buf -> length avg = n ->
  exists avg', add_bins cfg offset (Z.of_nat n) buf avg = Some avg' /\ length avg' = n /\
    forall j, 0 <= j < Z.of_nat n -> getz avg' j = collect cfg (getz avg j) (real_conj (f j).1 (f j).2).
Proof.
  intros Hf [Ho Hl] Hn. unfold add_bins. rewrite stepped_1, Nat2Z.id, <- (map_id (zseq n)).
  destruct (for_arr_pointwise 0 (fun j avg =>
    re ← arr_get buf (offset + j * 2); im ← arr_get buf (offset + j * 2 + 1);
    x ← arr_get avg j; arr_set avg j (collect cfg x (real_conj re im))) id n id
    (fun j x => collect cfg x (real_conj (f j).1 (f j).2)) avg) as (avg' & E & L & G).
  - intros r b Hr Lb. unfold id. rewrite !(arr_get_get_or 0) by lia. cbn [mbind option_bind].
    destruct Hf as (_ & Hf & _). specialize (Hf r Hr). unfold cget in Hf.
    replace (offset + r * 2 + 1) with (offset + (2 * r + 1)) by lia. rewrite (Z.mul_comm r 2).
    destruct ((arr_set_get_or 0) b r (collect cfg (getz b r) (real_conj (getz buf (offset + 2 * r)) (getz buf (offset + (2 * r + 1)))))
      ltac:(lia)) as (b' & E & L & G).
    exists b'. split; [done|]. split; [done|]. intros k. rewrite G. destruct (Z.eqb_spec k r) as [->|]; [|done]. by rewrite <- Hf.
  - exists avg'. split; [exact E|]. split; [lia|]. intros j Hj. rewrite G. unfold id.
    by replace ((0 <=? j) && (j <? Z.of_nat n)) with true by lia.
Qed.

(** The power of the bin [j] of the block at [offset]. *)
Definition power (m : nat) (f : Z -> Z) (offset j : Z) : Z :=
  let z := dft (tables cfg) m (windowed f offset) j in real_conj z.1 z.2.

(** One block. *)
Lemma block_spec (m : nat) offset buf avg :
  wave_ok (tables cfg) -> Z.of_nat m <= LOG2_N_WAVE (tables cfg) -> fits offset (2 ^ Z.of_nat m) buf ->
  length (window_coefs cfg) = (2 ^ m)%nat -> length avg = (2 ^ m)%nat ->
  exists b1 b2 avg', window_block cfg offset (1 ≪ Z.of_nat m) buf = Some b1 /\ fix_fft (tables cfg) offset (Z.of_nat m) b1 = Some (0, b2) /\
    add_bins cfg offset (1 ≪ Z.of_nat m) b2 avg = Some avg' /\ length b2 = length buf /\ length avg' = (2 ^ m)%nat /\
    (forall k, offset + 2 * 2 ^ Z.of_nat m <= k -> getz b2 k = getz buf k) /\
    forall j, 0 <= j < 2 ^ Z.of_nat m -> getz avg' j = collect cfg (getz avg j) (power m (getz buf) offset j).
Proof.
  intros Hw Hm Hfit Hc Ha. rewrite Z.shiftl_1_l.
  assert (Hp : 2 ^ Z.of_nat m = Z.of_nat (2 ^ m)) by (by rewrite Nat2Z.inj_pow). rewrite Hp in *.
  destruct (window_block_spec offset (2 ^ m) buf) as (b1 & E1 & H1); [apply Hfit|apply Hfit|done|].
  assert (Hfit1 : fits offset (2 ^ Z.of_nat m) b1) by (destruct H1 as (L1 & _); unfold fits in *; lia).
  destruct (fix_fft_spec (tables cfg) offset m b1 Hw Hm Hfit1) as (b2 & E2 & H2). rewrite Hp in H2.
  set (f := dft (tables cfg) m (cget b1 offset)) in *.
  destruct (add_bins_spec offset (2 ^ m) b2 avg f) as (avg' & E3 & L3 & G3); [|destruct H1 as (L1 & _), H2 as (L2 & _); unfold fits in *; lia|done|].
  { destruct H2 as (L2 & H2 & _). split; [done|]. split; [done|]. done. }
  exists b1, b2, avg'. split_and!; try done.
  - destruct H1 as (L1 & _), H2 as (L2 & _). lia.
  - intros k Hk. destruct H1 as (_ & _ & O1), H2 as (_ & _ & O2). rewrite O2, O1 by lia. done.
  - intros j Hj. rewrite G3 by done. do 2 f_equal. unfold power. cbv zeta.
    assert (f j = dft (tables cfg) m (windowed (getz buf) offset) j) as ->; [|done].
    unfold f. apply dft_ext. intros p Hpr. rewrite Hp in Hpr. by apply H1.
Qed.

Lemma power_ext (m : nat) f g offset j :
  (forall k, offset <= k < offset + 2 * 2 ^ Z.of_nat m -> f k = g k) -> power m f offset j = power m g offset j.
Proof.
  intros Hfg. unfold power. rewrite (dft_ext _ m (windowed f offset) (windowed g offset)); [done|].
  intros p Hp. unfold windowed. by rewrite !Hfg by lia.
Qed.

(** The powers of [nb] blocks, collected in turn. *)
Definition spectrum (m : nat) (f : Z -> Z) (nb : nat) (j acc : Z) : Z :=
  fold_left (fun acc b => collect cfg acc (power m f (b * (2 * 2 ^ Z.of_nat m)) j)) (zseq nb) acc.

Lemma blocks_spec (m : nat) ds f len :
  wave_ok (tables cfg) -> Z.of_nat m <= LOG2_N_WAVE (tables cfg) -> length (window_coefs cfg) = (2 ^ m)%nat ->
  forall nb s buf avg samples, Z.of_nat (length buf) = len -> length avg = (2 ^ m)%nat -> 0 <= s ->
  (s + Z.of_nat nb) * (2 * 2 ^ Z.of_nat m) <= len -> (forall k, s * (2 * 2 ^ Z.of_nat m) <= k -> getz buf k = f k) ->
  exists buf' avg', blocks cfg (map (fun b => (s + b) * (2 * 2 ^ Z.of_nat m)) (zseq nb)) (Z.of_nat m) ds buf avg (i32 samples) =
      Some (buf', avg', i32 (samples + Z.of_nat nb * ds)) /\
    Z.of_nat (length buf') = len /\ length avg' = (2 ^ m)%nat /\
    forall j, 0 <= j < 2 ^ Z.of_nat m -> getz avg' j =
      fold_left (fun acc b => collect cfg acc (power m f ((s + b) * (2 * 2 ^ Z.of_nat m)) j)) (zseq nb) (getz avg j).
Proof.
  intros Hw Hm Hc. pose proof (pow2_pos m) as Hp. set (n := 2 ^ Z.of_nat m) in *.
  induction nb as [|nb IH]; intros s buf avg samples Hl Ha Hs Hnb Hf.
  { exists buf, avg. split; [|done]. cbn [zseq seq map blocks]. by replace (samples + Z.of_nat 0 * ds) with samples by lia. }
  rewrite zseq_S. cbn [map blocks fold_left]. rewrite map_map, Z.add_0_r.
  destruct (block_spec m (s * (2 * n)) buf avg Hw Hm) as (b1 & b2 & avg1 & E1 & E2 & E3 & L2 & L3 & Hrest & Hbins); [fold n; unfold fits; nia|done..|].
  rewrite E1. cbn [mbind option_bind]. rewrite E2. cbn [mbind option_bind]. rewrite E3. cbn [mbind option_bind].
  rewrite i32_add. fold n in Hrest, Hbins.
  destruct (IH (s + 1) b2 avg1 (samples + ds)) as (buf' & avg' & E & L' & LA & H'); [lia|done|lia|lia| |].
  { intros k Hk. rewrite Hrest, Hf by lia. done. }
  exists buf', avg'. split.
  - rewrite (map_ext _ (fun b => (s + 1 + b) * (2 * n))) by (intros; lia). rewrite E. do 3 f_equal. lia.
  - split; [done|]. split; [done|]. intros j Hj. rewrite H', Hbins by done. rewrite fold_left_map.
    rewrite (power_ext m (getz buf) f) by (fold n; intros k Hk; apply Hf; lia).
    assert (Hfold : forall l x, fold_left (fun acc b => collect cfg acc (power m f ((s + 1 + b) * (2 * n)) j)) l x =
      fold_left (fun acc b => collect cfg acc (power m f ((s + (1 + b)) * (2 * n)) j)) l x).
    { induction l as [|b l IHl]; intros x; cbn [fold_left]; [done|]. by rewrite IHl, Z.add_assoc. }
    apply Hfold.
Qed.

(** ** A whole buffer *)

(** The bytes, centred; 0 outside of the buffer. *)
Definition centred (buf8 : list Z) (len k : Z) : Z := if (0 <=? k) && (k <? len) then getz buf8 k - 127 else 0.

(** Sums of [ds] samples. *)
Definition thinned (ds : Z) (f : Z -> Z) (k : Z) : Z := if 1 <? ds then box ds f k else f k.

(** The two channels less their means, up to [L]. *)
Definition levelled (L : Z) (f : Z -> Z) (k : Z) : Z :=
  if (0 <=? k) && (k <? L) then i16 (f k - dc (k mod 2) (L - k mod 2) f) else f k.

Definition signal (buf8 : list Z) (len ds : Z) : Z -> Z := levelled (len / ds) (thinned ds (centred buf8 len)).

(** The sizes of the buffer and of its blocks. *)
Definition geometry (m : nat) (ds len : Z) : Prop :=
  1 <= ds /\ len mod 2 = 0 /\ 2 * 2 ^ Z.of_nat m * ds <= len < 2 ^ 31 /\ (ds = 1 -> len mod (2 * 2 ^ Z.of_nat m) = 0).

Definition block_count (m : nat) (ds len : Z) : nat :=
  Z.to_nat ((len / ds + 2 * 2 ^ Z.of_nat m - 1) / (2 * 2 ^ Z.of_nat m)).

Lemma geometry_blocks m ds len : geometry m ds len ->
  2 <= len / ds /\ len / ds <= len /\ Z.of_nat (block_count m ds len) * (2 * 2 ^ Z.of_nat m) <= len.
Proof.
  intros (Hds & Hev & Hlen & Hd1). pose proof (pow2_pos m) as Hp. unfold block_count. set (n2 := 2 * 2 ^ Z.of_nat m) in *.
  assert (HL : n2 <= len / ds) by (apply Z.div_le_lower_bound; lia).
  assert (0 < n2 * ds) by (apply Z.mul_pos_pos; lia).
  assert (HL' : len / ds <= len) by (apply Z.div_le_upper_bound; nia).
  split; [lia|]. split; [done|]. pose proof (Z.div_mod (len / ds + n2 - 1) n2 ltac:(lia)).
  pose proof (Z.mod_pos_bound (len / ds + n2 - 1) n2 ltac:(lia)). rewrite Z2Nat.id by (apply Z.div_pos; lia).
  destruct (Z.eq_dec ds 1) as [->|Hne].
  - rewrite Z.div_1_r in *. specialize (Hd1 eq_refl). pose proof (Z.div_mod len n2 ltac:(lia)).
    assert ((len + n2 - 1) / n2 = len / n2) as ->; [|lia]. symmetry. apply (Z.div_unique _ _ _ (n2 - 1)); lia.
  - assert (len / ds <= len / 2) by (apply Z.div_le_compat_l; lia). pose proof (Z.div_mod len 2 ltac:(lia)).
    assert (2 * n2 <= n2 * ds) by nia. lia.
Qed.

Lemma zsum_rounds_ext o len f g : (forall k, f k = g k) -> dc o len f = dc o len g.
Proof. intros Hfg. unfold dc. do 2 f_equal. by apply zsum_ext. Qed.

(** Both channels are levelled. *)
Lemma remove_dc_both L a : 2 <= L < 2 ^ 31 -> L <= Z.of_nat (length a) -> (forall k, is_i16 (getz a k)) ->
  exists a1 a2, remove_dc 0 L a = Some a1 /\ remove_dc 1 (L - 1) a1 = Some a2 /\ length a2 = length a /\
    forall k, 0 <= k -> getz a2 k = levelled L (getz a) k.
Proof.
  intros HL Hlen Ha. destruct (remove_dc_spec 0 L a ltac:(lia) ltac:(lia) ltac:(lia) Ha) as (a1 & E1 & L1 & G1).
  destruct (remove_dc_spec 1 (L - 1) a1) as (a2 & E2 & L2 & G2); [lia|lia|lia| |].
  { intros k. rewrite G1. destruct (_ && _); [apply i16_range|done]. }
  exists a1, a2. split_and!; [done|done|lia|]. intros k Hk. rewrite G2, G1. unfold levelled.
  destruct (split2 k) as [Ek [Em|Em]]; rewrite Em.
  - assert (channel 1 k = -1) as -> by (unfold channel; rewrite Zeven_mod, Zminus_mod, Em; done).
    cbn [Z.leb Z.compare andb]. assert (channel 0 k = k / 2) as -> by (rewrite channel_at; lia).
    rewrite !Z.sub_0_r. unfold rounds. pose proof (Z.div_mod (L + 1) 2 ltac:(lia)). pose proof (Z.mod_pos_bound (L + 1) 2 ltac:(lia)).
    by replace ((0 <=? k / 2) && (k / 2 <? Z.of_nat (Z.to_nat ((L + 1) / 2)))) with ((0 <=? k) && (k <? L)) by lia.
  - assert (channel 0 k = -1) as -> by (unfold channel; rewrite Zeven_mod, Z.sub_0_r, Em; done).
    cbn [Z.leb Z.compare andb]. assert (channel 1 k = k / 2) as -> by (rewrite channel_at; lia).
    unfold rounds at 1. pose proof (Z.div_mod (L - 1 + 1) 2 ltac:(lia)). pose proof (Z.mod_pos_bound (L - 1 + 1) 2 ltac:(lia)).
    replace ((0 <=? k / 2) && (k / 2 <? Z.of_nat (Z.to_nat ((L - 1 + 1) / 2)))) with ((0 <=? k) && (k <? L)) by lia.
    assert (dc 1 (L - 1) (getz a1) = dc 1 (L - 1) (getz a)) as ->; [|done].
    unfold dc. do 2 f_equal. apply zsum_ext. intros i Hi. rewrite G1.
    assert (channel 0 (1 + i * 2) = -1) as ->; [|done]. unfold channel. rewrite Z.sub_0_r, Zeven_mod.
    assert ((1 + i * 2) mod 2 = 1) as -> by (rewrite Z.mod_add; done). done.
Qed.

(** The tables of a hop, and the buffers. *)
Definition tables_ok (m : nat) : Prop :=
  wave_ok (tables cfg) /\ Z.of_nat m <= LOG2_N_WAVE (tables cfg) /\ length (window_coefs cfg) = (2 ^ m)%nat.

Definition hop_ok (m : nat) (len : Z) (ts : tuning_state) : Prop :=
  length (ts_avg ts) = (2 ^ m)%nat /\ Z.of_nat (length (ts_buf8 ts)) = len /\ Forall is_u8 (ts_buf8 ts) /\ is_i32 (ts_samples ts).

(** No filter, or the boxcar filter. *)
Definition boxcar_only (ts : tuning_state) : Prop :=
  if 1 <? ts_downsample ts then boxcar cfg = true else ts_downsample_passes ts = 0.

Lemma getz_u8 l k : Forall is_u8 l -> is_u8 (getz l k).
Proof.
  intros Hl. destruct (decide (0 <= k < Z.of_nat (length l))) as [Hk|Hk]; [|rewrite (get_or_outside 0) by done; done].
  destruct (arr_get_ok l k Hk) as [x Hx]. rewrite ((get_or_some 0) _ _ _ Hx). unfold arr_get in Hx.
  destruct (k <? 0); [done|]. by eapply Forall_lookup in Hx.
Qed.

Lemma thin_out_spec ts len a :
  boxcar_only ts -> Z.of_nat (length a) = len -> 2 <= len -> len mod 2 = 0 -> 1 <= ts_downsample ts ->
  (forall k, is_i16 (getz a k)) ->
  exists a', thin_out cfg ts len a = Some a' /\ length a' = length a /\ (forall k, is_i16 (getz a' k)) /\
    forall k, 0 <= k -> getz a' k = thinned (ts_downsample ts) (getz a) k.
Proof.
  intros Hb Hl Hlen Hev Hds Ha. unfold thin_out, boxcar_only, thinned in *. cbv zeta.
  destruct (Z.ltb_spec 1 (ts_downsample ts)) as [Hlt|Hge].
  - rewrite Hb. cbn [andb]. subst len. destruct (boxcar_spec (ts_downsample ts) a) as (a' & E & L & G); [lia|lia|done|done|].
    exists a'. split; [done|]. split; [done|]. split; [|done]. intros k. destruct (Z.lt_ge_cases k 0) as [Hk|Hk].
    + rewrite (get_or_outside 0) by lia. done.
    + rewrite G by done. apply i16_range.
  - rewrite Hb, andb_false_r. by exists a.
Qed.

Lemma levelled_ext L f g k : (forall k, 0 <= k -> f k = g k) -> 0 <= k -> levelled L f k = levelled L g k.
Proof.
  intros Hfg Hk. unfold levelled. rewrite !Hfg by done. assert (dc (k mod 2) (L - k mod 2) f = dc (k mod 2) (L - k mod 2) g) as ->; [|done].
  unfold dc. do 2 f_equal. apply zsum_ext. intros i Hi. apply Hfg. pose proof (Z.mod_pos_bound k 2). lia.
Qed.

Lemma thinned_ext ds f g k : (forall k, 0 <= k -> f k = g k) -> 0 <= k -> thinned ds f k = thinned ds g k.
Proof.
  intros Hfg Hk. unfold thinned, box. destruct (Z.ltb_spec 1 ds); [|by apply Hfg]. f_equal. apply zsum_ext. intros i Hi. apply Hfg.
  unfold box_index. destruct (split2 k). nia.
Qed.

Lemma hop_spectrum_of (m : nat) (len : Z) (ts : tuning_state) (fft_buf : list Z) :
  (1 <= m)%nat -> tables_ok m -> hop_ok m len ts -> boxcar_only ts -> geometry m (ts_downsample ts) len ->
  Z.of_nat (length fft_buf) = len ->
  let nb := block_count m (ts_downsample ts) len in
  exists avg' buf', hop cfg (Z.of_nat m) len ts fft_buf =
      Some (RtlPower.set_avg avg' (i32 (ts_samples ts + Z.of_nat nb * ts_downsample ts)) ts, buf') /\
    Z.of_nat (length buf') = len /\ length avg' = (2 ^ m)%nat /\
    forall j, 0 <= j < 2 ^ Z.of_nat m ->
      getz avg' j = spectrum m (signal (ts_buf8 ts) len (ts_downsample ts)) nb j (getz (ts_avg ts) j).
Proof.
  intros Hm (Hw & HL & Hc) (Havg & Hbuf & Hu8 & Hs) Hbox Hg Hfb. cbv zeta. pose proof (geometry_blocks m _ len Hg) as (HL2 & HLlen & Hnb).
  pose proof Hg as (Hds & Hev & Hlen & _). unfold hop. cbv zeta. rewrite Z.shiftl_1_l. pose proof (pow2_pos (m - 1)).
  assert (Hpm : 2 ^ Z.of_nat m = 2 * 2 ^ Z.of_nat (m - 1)) by (rewrite <- pow2_S; do 2 f_equal; lia).
  replace (2 ^ Z.of_nat m =? 1) with false by lia.
  destruct (prep_spec ts fft_buf) as (a0 & E0 & L0 & G0); [lia|done|]. rewrite Hfb in E0. rewrite E0. cbn [mbind option_bind].
  assert (Hc0 : forall k, getz a0 k = centred (ts_buf8 ts) len k).
  { intros k. unfold centred. destruct (Z.leb_spec 0 k), (Z.ltb_spec k len); cbn [andb]; [apply G0; lia|apply (get_or_outside 0); lia..]. }
  assert (Hi0 : forall k, is_i16 (getz a0 k)).
  { intros k. rewrite Hc0. unfold centred. pose proof (getz_u8 _ k Hu8) as Hk. unfold is_u8 in Hk. destruct (_ && _); unfold is_i16; lia. }
  destruct (thin_out_spec ts len a0 Hbox) as (a1 & E1 & L1 & Hi1 & G1); [lia|lia|done|lia|done|]. rewrite E1. cbn [mbind option_bind].
  unfold c_div. replace ((ts_downsample ts =? 0) || ((len =? - 2 ^ 31) && (ts_downsample ts =? -1))) with false by lia.
  rewrite Z.quot_div_nonneg by lia. cbn [mbind option_bind].
  destruct (remove_dc_both (len / ts_downsample ts) a1) as (a2 & a3 & E2 & E3 & L3 & G3); [lia|lia|done|].
  rewrite E2. cbn [mbind option_bind]. rewrite E3. cbn [mbind option_bind].
  rewrite (Z.mul_comm 2 (2 ^ Z.of_nat m)). unfold stepped. rewrite (Z.mul_comm (2 ^ Z.of_nat m) 2).
  fold (block_count m (ts_downsample ts) len). set (nb := block_count m (ts_downsample ts) len) in *.
  destruct (blocks_spec m (ts_downsample ts) (getz a3) len Hw HL Hc nb 0 a3 (ts_avg ts) (ts_samples ts)) as (buf' & avg' & E & LB & LA & GA);
    [lia|done|lia|lia|done|]. rewrite (i32_small (ts_samples ts)) in E by done.
  assert (E' : blocks cfg (map (fun k => k * (2 * 2 ^ Z.of_nat m)) (zseq nb)) (Z.of_nat m) (ts_downsample ts) a3 (ts_avg ts) (ts_samples ts)
    = Some (buf', avg', i32 (ts_samples ts + Z.of_nat nb * ts_downsample ts))) by exact E.
  rewrite E'. cbn [mbind option_bind]. exists avg', buf'. split; [done|]. split; [done|]. split; [done|].
  intros j Hj. rewrite GA by done. unfold spectrum.
  assert (Hsig : forall k, 0 <= k -> getz a3 k = signal (ts_buf8 ts) len (ts_downsample ts) k).
  { intros k Hk. rewrite G3 by done. unfold signal. apply levelled_ext; [|done]. intros i Hi. rewrite G1 by done.
    apply thinned_ext; [|done]. intros i' _. apply Hc0. }
  assert (Hfold : forall l x, Forall (fun b => 0 <= b) l ->
    fold_left (fun acc b => collect cfg acc (power m (getz a3) ((0 + b) * (2 * 2 ^ Z.of_nat m)) j)) l x =
    fold_left (fun acc b => collect cfg acc (power m (signal (ts_buf8 ts) len (ts_downsample ts)) (b * (2 * 2 ^ Z.of_nat m)) j)) l x).
  { induction l as [|b l IH]; intros x Hl; cbn [fold_left]; [done|]. apply Forall_cons in Hl as [Hb Hl]. rewrite IH by done.
    f_equal. f_equal. rewrite Z.add_0_l. apply power_ext. intros k Hk. apply Hsig. nia. }
  apply Hfold. apply Forall_forall. intros b Hb. apply elem_of_zseq in Hb. lia.
Qed.
End spectrum.
