(* ===== verification/RtlPowerPlan.v ===== *)
(** * rtl_power: the plan of the hops

    The hops of [make_plan] lie side by side and cover the range, the sample
    rate is one the dongle can do, the bins are as small as asked for, and the
    buffer has the geometry that the transforms need. *)

From S2P Require Import Prelude Arrays Double DoubleOrder Device Convenience Fft FftSpec RtlPower RtlPowerSpec.
From Stdlib Require Import SpecFloat.

Section plan.
Context {lib : math}.

Lemma d_to_i32_trunc f x z : d_trunc x = Some z -> is_i32 z -> d_to_i32 f x = z.
Proof. unfold d_to_i32. intros -> Hz. by rewrite decide_True. Qed.

Lemma hops_loop_spec w : 1 <= w < 2 ^ 31 -> forall fuel i last,
  1 <= i <= 767 -> 768 - i <= Z.of_nat fuel -> (forall j, 1 <= j < i -> MAXIMUM_RATE < w / j) ->
  exists n, hops_loop fuel w (d_of_Z 0) i last = Some (w / n, w / n, Some n) /\ i <= n <= 767 /\ w / n <= MAXIMUM_RATE /\
    forall j, 1 <= j < n -> MAXIMUM_RATE < w / j.
Proof.
  intros Hw. induction fuel as [|fuel IH]; intros i last Hi Hf Hj; [lia|]. cbn [hops_loop].
  unfold c_div. replace ((i =? 0) || ((w =? - 2 ^ 31) && (i =? -1))) with false by lia.
  rewrite Z.quot_div_nonneg by lia. cbn [mbind option_bind].
  assert (0 <= w / i <= w) by (split; [apply Z.div_pos; lia|apply Z.div_le_upper_bound; nia]).
  rewrite (d_to_i32_trunc _ _ (w / i)); [|apply div_one_trunc; lia|unfold is_i32; lia].
  destruct (Z.ltb_spec MAXIMUM_RATE (w / i)) as [Hlt|Hge].
  - assert (i <> 767).
    { intros ->. assert (w / 767 <= (2 ^ 31 - 1) / 767) by (apply Z.div_le_mono; lia).
      change ((2 ^ 31 - 1) / 767) with 2799848 in *. unfold MAXIMUM_RATE in *. lia. }
    destruct (IH (i + 1) (w / i, w / i)) as (n & E & Hn & Hr & Hmin); [lia|lia| |].
    + intros j Hj'. destruct (Z.eq_dec j i) as [->|]; [done|]. apply Hj. lia.
    + exists n. split; [done|]. split; [lia|done].
  - exists i. split; [done|]. split; [lia|]. by split.
Qed.

Lemma bins_loop_spec bw ds max_size : 0 < bw <= MAXIMUM_RATE -> 1 <= ds -> 1 <= max_size < 2 ^ 31 -> forall fuel i,
  1 <= i -> 2 ^ i * ds <= 2 * MAXIMUM_RATE ->
  let e := bins_loop fuel bw ds max_size i in
  i <= e <= i + Z.of_nat fuel /\ (bw <= max_size * (2 ^ e * ds) \/ e = i + Z.of_nat fuel) /\
  2 ^ e * ds <= 2 * MAXIMUM_RATE /\ forall j, i <= j < e -> max_size * (2 ^ j * ds) < bw.
Proof.
  intros Hbw Hds Hmax. unfold MAXIMUM_RATE in *. induction fuel as [|fuel IH]; intros i Hi Hd; cbv zeta; cbn [bins_loop].
  { split_and!; [lia|lia|right; lia|lia|intros; lia]. }
  assert (Hp : 0 < 2 ^ i) by (apply Z.pow_pos_nonneg; lia).
  rewrite Z.shiftl_1_l, i32_small by (unfold is_i32; nia). rewrite div_leb by nia.
  destruct (Z.leb_spec bw (max_size * (2 ^ i * ds))) as [Hle|Hgt].
  - split; [lia|]. split; [by left|]. split; [lia|]. intros; lia.
  - destruct (IH (i + 1)) as (H1 & H2 & H3 & H4); [lia|rewrite Z.pow_add_r by lia; nia|].
    split; [lia|]. split; [destruct H2; [by left|right; lia]|]. split; [done|].
    intros j Hj. destruct (Z.eq_dec j i) as [->|]; [done|]. apply H4. lia.
Qed.

(** What the plan for a range of [w] Hz and bins of at most [max_size] is. *)
Definition plan_spec (w max_size : Z) (p : plan) : Prop :=
  let n := p_tune_count p in
  let bw := p_bw_seen p in
  let bins := 2 ^ p_bin_e p * p_downsample p in
  (* as few hops of the same width as the dongle can do *)
  1 <= n <= 767 /\ bw = w / n /\ bw <= MAXIMUM_RATE /\ (forall j, 1 <= j < n -> MAXIMUM_RATE < w / j) /\
  (* a rate of 1 to 2.8 MHz, thinned out to the width *)
  p_bw_used p = bw * p_downsample p /\ MINIMUM_RATE <= p_bw_used p <= MAXIMUM_RATE /\ p_downsample_passes p = 0 /\ p_crop p = d_of_Z 0 /\
  (MINIMUM_RATE <= bw -> p_downsample p = 1) /\
  (* the largest bins that are small enough *)
  1 <= p_bin_e p <= 21 /\ (p_bw_used p <= max_size * bins \/ p_bin_e p = 21) /\
  (p_bin_e p = 1 \/ max_size * bins < 2 * p_bw_used p) /\
  geometry (Z.to_nat (p_bin_e p)) (p_downsample p) (plan_buf_len p).

Lemma pow2_multiple e b : 0 <= e <= b -> 2 ^ b mod 2 ^ e = 0.
Proof.
  intros He. replace b with (b - e + e) by lia. rewrite Z.pow_add_r by lia. apply Z.mod_mul.
  assert (0 < 2 ^ e) by (apply Z.pow_pos_nonneg; lia). lia.
Qed.

Lemma buf_geometry e ds : 1 <= e -> 1 <= ds -> 2 ^ e * ds <= 2 * MAXIMUM_RATE ->
  let b := i32 (i32 (2 * (1 ≪ e)) * ds) in
  geometry (Z.to_nat e) ds (if b <? DEFAULT_BUF_LENGTH then DEFAULT_BUF_LENGTH else b).
Proof.
  intros He Hds Hb. cbv zeta. unfold MAXIMUM_RATE in *. rewrite Z.shiftl_1_l. assert (Hp : 0 < 2 ^ e) by (apply Z.pow_pos_nonneg; lia).
  rewrite (i32_small (2 * 2 ^ e)) by (unfold is_i32; nia). rewrite i32_small by (unfold is_i32; nia).
  unfold geometry. rewrite Z2Nat.id by lia. unfold DEFAULT_BUF_LENGTH.
  assert (He1 : 2 ^ e = 2 * 2 ^ (e - 1)) by (rewrite <- Z.pow_succ_r by lia; f_equal; lia).
  destruct (Z.ltb_spec (2 * 2 ^ e * ds) (1 * 16384)) as [Hlt|Hge].
  - split; [done|]. split; [done|]. split; [lia|]. intros ->. change (1 * 16384) with (2 ^ 14). rewrite <- Z.pow_succ_r by lia.
    apply pow2_multiple. split; [lia|]. apply Z.lt_le_incl, (Z.pow_lt_mono_r_iff 2); [lia|lia|]. rewrite Z.pow_succ_r by lia. lia.
  - split; [done|]. split; [|split; [lia|]].
    + replace (2 * 2 ^ e * ds) with (2 ^ e * ds * 2) by lia. apply Z.mod_mul. lia.
    + intros ->. rewrite Z.mul_1_r. apply Z.mod_same. lia.
Qed.

Lemma make_plan_spec lower upper max_size :
  1 <= upper - lower < 2 ^ 31 -> 1 <= max_size < MINIMUM_RATE ->
  exists p, make_plan true lower upper max_size (d_of_Z 0) = Some (Value p) /\ plan_spec (upper - lower) max_size p.
Proof.
  intros Hw Hmax. unfold make_plan. cbv zeta. rewrite i32_small by (unfold is_i32; lia). set (w := upper - lower) in *.
  destruct (hops_loop_spec w Hw 1499 1 (0, 0)) as (n & -> & Hn & Hr & Hmin); [lia|lia|intros; lia|].
  cbn [mbind option_bind default from_option]. unfold id. set (bw := w / n) in *.
  assert (Hbw : 1 <= bw).
  { destruct (Z.eq_dec n 1) as [->|]; [unfold bw; rewrite Z.div_1_r; lia|]. specialize (Hmin (n - 1) ltac:(lia)).
    unfold MAXIMUM_RATE in *. apply Z.div_le_lower_bound; [lia|].
    assert (2800001 * (n - 1) <= w) by (apply (Z.le_trans _ ((n - 1) * (w / (n - 1)))); [nia|apply Z.mul_div_le; lia]). lia. }
  unfold MINIMUM_RATE, MAXIMUM_RATE, MAX_TUNES in *. replace (1000000 <=? max_size) with false by lia.
  destruct (Z.ltb_spec bw 1000000) as [Hsmall|Hbig].
  - (* one hop *)
    assert (n = 1) as ->.
    { destruct (Z.eq_dec n 1) as [|Hne]; [done|exfalso]. specialize (Hmin (n - 1) ltac:(lia)).
      assert (2800001 * (n - 1) <= w) by (apply (Z.le_trans _ ((n - 1) * (w / (n - 1)))); [nia|apply Z.mul_div_le; lia]).
      assert (w < (bw + 1) * n) by (unfold bw; pose proof (Z.mod_pos_bound w n ltac:(lia)); pose proof (Z.div_mod w n ltac:(lia)); nia). nia. }
    unfold c_div. replace ((bw =? 0) || ((2800000 =? - 2 ^ 31) && (bw =? -1))) with false by lia.
    rewrite Z.quot_div_nonneg by lia. cbn [mbind option_bind]. set (ds := 2800000 / bw).
    assert (Hds : ds * bw <= 2800000 < (ds + 1) * bw).
    { unfold ds. pose proof (Z.div_mod 2800000 bw ltac:(lia)). pose proof (Z.mod_pos_bound 2800000 bw ltac:(lia)). lia. }
    assert (Hds2 : 2 <= ds) by nia. rewrite (i32_small (bw * ds)) by (unfold is_i32; lia). cbn [negb andb].
    destruct (bins_loop_spec (bw * ds) ds max_size ltac:(unfold MAXIMUM_RATE; lia) ltac:(lia) ltac:(lia) 20 1) as (He & Hfit & Hb & Hmn);
      [lia|unfold MAXIMUM_RATE; nia|]. cbv zeta in *. set (e := bins_loop 20 (bw * ds) ds max_size 1) in *.
    eexists. split; [reflexivity|]. unfold plan_spec. cbn [p_tune_count p_bw_seen p_bw_used p_downsample p_downsample_passes p_bin_e p_crop]. fold e.
    unfold MAXIMUM_RATE, MINIMUM_RATE in *. split_and!; try done; try lia.
    + destruct (Z.eq_dec e 1) as [|Hne]; [by left|right]. specialize (Hmn (e - 1) ltac:(lia)).
      assert (2 ^ e = 2 * 2 ^ (e - 1)) as -> by (rewrite <- Z.pow_succ_r by lia; f_equal; lia). lia.
    + apply buf_geometry; [lia|lia|done].
  - cbn [negb andb].
    destruct (bins_loop_spec bw 1 max_size ltac:(unfold MAXIMUM_RATE; lia) ltac:(lia) ltac:(lia) 20 1) as (He & Hfit & Hb & Hmn);
      [lia|unfold MAXIMUM_RATE; lia|]. cbv zeta in *. set (e := bins_loop 20 bw 1 max_size 1) in *.
    cbn [mbind option_bind p_tune_count]. replace (3000 <? n) with false by lia.
    eexists. split; [reflexivity|]. unfold plan_spec. cbn [p_tune_count p_bw_seen p_bw_used p_downsample p_downsample_passes p_bin_e p_crop]. fold e.
    unfold MAXIMUM_RATE, MINIMUM_RATE in *. split_and!; try done; try lia.
    + destruct (Z.eq_dec e 1) as [|Hne]; [by left|right]. specialize (Hmn (e - 1) ltac:(lia)).
      assert (2 ^ e = 2 * 2 ^ (e - 1)) as -> by (rewrite <- Z.pow_succ_r by lia; f_equal; lia). lia.
    + apply buf_geometry; [lia|lia|done].
Qed.

Lemma make_tunes_lookup junk lower p i ts : make_tunes junk lower p !! i = Some ts ->
  0 <= Z.of_nat i < p_tune_count p /\
  ts = mk_ts (i32 (lower + Z.of_nat i * p_bw_seen p + Z.quot (p_bw_seen p) 2)) (p_bw_used p) (p_bin_e p)
    (replicate (Z.to_nat (1 ≪ p_bin_e p)) 0) 0 (p_downsample p) (p_downsample_passes p) (p_crop p) junk (plan_buf_len p).
Proof.
  unfold make_tunes. rewrite stepped_1, list_lookup_fmap. destruct (zseq _ !! i) as [k|] eqn:E; [|done].
  unfold zseq in E. rewrite list_lookup_fmap in E. destruct (seq _ _ !! i) as [j|] eqn:Ej; [|done].
  apply lookup_seq in Ej as [-> Hj]. injection E as <-. intros [= <-]. split; [lia|done].
Qed.

(** C14: the hops for a range of [upper - lower] Hz (not empty) and bins of at most
    [max_size] Hz below 1 MHz, without cropping ([-c]) and with the boxcar filter
    (no [-F]): [make_plan] gives a plan as [plan_spec] says; hop [i] is the middle
    of the band of [bw_seen] Hz that starts at [lower + i * bw_seen], at the plan's
    rate, and less than [tune_count] Hz are left at the upper end.  The number of
    bins of a hop is a power of two, so there can be up to twice as many as
    the range has room for: 256 for the example of the usage, which says 160
    ([plan_fm_band]). *)
Theorem scan_plan (junk : list Z) (lower upper max_size : Z) :
  is_i32 lower -> is_i32 upper -> 1 <= upper - lower < 2 ^ 31 -> 1 <= max_size < MINIMUM_RATE ->
  exists p, make_plan true lower upper max_size (d_of_Z 0) = Some (Value p) /\ plan_spec (upper - lower) max_size p /\
    let bw := p_bw_seen p in
    Z.of_nat (length (make_tunes junk lower p)) = p_tune_count p /\
    (forall i ts, make_tunes junk lower p !! i = Some ts ->
      ts_freq ts - bw / 2 = lower + Z.of_nat i * bw /\ ts_rate ts = p_bw_used p /\ ts_buf_len ts = plan_buf_len p /\
      length (ts_avg ts) = (2 ^ Z.to_nat (p_bin_e p))%nat) /\
    0 <= upper - (lower + p_tune_count p * bw) < p_tune_count p.
Proof.
  intros Hl Hu Hw Hm. destruct (make_plan_spec lower upper max_size Hw Hm) as (p & E & Hp). exists p. split; [done|]. split; [done|].
  destruct Hp as (Hn & Hbw & Hr & _ & _ & _ & _ & _ & _ & He & _). cbv zeta. unfold is_i32, MAXIMUM_RATE in *.
  pose proof (Z.div_mod (upper - lower) (p_tune_count p) ltac:(lia)) as Hdm.
  pose proof (Z.mod_pos_bound (upper - lower) (p_tune_count p) ltac:(lia)) as Hmb. rewrite <- Hbw in Hdm.
  assert (0 <= p_bw_seen p) by (rewrite Hbw; apply Z.div_pos; lia).
  split; [unfold make_tunes, zseq; rewrite stepped_1; unfold zseq; rewrite !length_map, length_seq; lia|].
  split; [|lia]. intros i ts Hts. apply make_tunes_lookup in Hts as [Hi ->]. cbn [ts_freq ts_rate ts_buf_len ts_avg].
  rewrite Z.quot_div_nonneg by lia. pose proof (Z.div_mod (p_bw_seen p) 2 ltac:(lia)). pose proof (Z.mod_pos_bound (p_bw_seen p) 2 ltac:(lia)).
  split; [|split; [done|]; split; [done|]].
  - rewrite i32_small; [lia|]. unfold is_i32. 
    assert (Z.of_nat i * p_bw_seen p <= (p_tune_count p - 1) * p_bw_seen p) by (apply Z.mul_le_mono_nonneg_r; lia). nia.
  - rewrite length_replicate, Z.shiftl_1_l. rewrite <- (Z2Nat.id (p_bin_e p)) at 1 by lia. rewrite <- (Nat2Z.inj_pow 2). lia.
Qed.
End plan.

Definition no_math : math := mk_math (fun x => x) (fun x => x) (fun x _ => x) (fun x => x) (fun x => x) (fun x => x) (fun _ => 0).

Lemma scan_plan_witness :
  exists p, @make_plan no_math true 88000000 108000000 125000 (d_of_Z 0) = Some (Value p) /\ plan_spec (108000000 - 88000000) 125000 p /\
    let bw := p_bw_seen p in
    Z.of_nat (length (make_tunes [] 88000000 p)) = p_tune_count p /\
    (forall i ts, make_tunes [] 88000000 p !! i = Some ts ->
      ts_freq ts - bw / 2 = 88000000 + Z.of_nat i * bw /\ ts_rate ts = p_bw_used p /\ ts_buf_len ts = plan_buf_len p /\
      length (ts_avg ts) = (2 ^ Z.to_nat (p_bin_e p))%nat) /\
    0 <= 108000000 - (88000000 + p_tune_count p * bw) < p_tune_count p.
Proof. refine (@scan_plan no_math [] 88000000 108000000 125000 _ _ _ _); (split; [vm_compute; congruence|reflexivity]). Defined.

(** The example of the usage: 8 hops of 2.5 MHz with 32 bins each. *)
Lemma plan_fm_band : exists p, @make_plan no_math true 88000000 108000000 125000 (d_of_Z 0) = Some (Value p) /\
  p_tune_count p * 2 ^ p_bin_e p = 256 /\ (p_tune_count p, p_bw_seen p, p_bw_used p, p_downsample p, p_bin_e p, plan_buf_len p) = (8, 2500000, 2500000, 1, 5, 16384).
Proof. exists (mk_plan 8 2500000 2500000 1 0 5 (d_of_Z 0)). split; [vm_compute; reflexivity|]. split; vm_compute; reflexivity. Qed.

(** An empty range: [MAXIMUM_RATE / bw_used] is a division by zero. *)
Lemma empty_range_divides_by_zero : @make_plan no_math true 100000000 100000000 1000 (d_of_Z 0) = None.
Proof. vm_compute. reflexivity. Qed.

(** Bins of 1 Hz, which the usage calls valid, are not reached: the loop stops
    at [2 ^ 21] bins for 2.8 MHz. *)
Lemma smallest_bins : exists p, @make_plan no_math true 100000000 102800000 1 (d_of_Z 0) = Some (Value p) /\
  p_bin_e p = 21 /\ 1 * 2 ^ p_bin_e p * p_downsample p < p_bw_used p.
Proof. exists (mk_plan 1 2800000 2800000 1 0 21 (d_of_Z 0)). split; [vm_compute; reflexivity|]. split; reflexivity. Qed.

(** Bins of 5 MHz, beyond the range that the usage gives, are not refused: the
    rate is one that the dongle cannot do. *)
Lemma giant_bins : exists p, @make_plan no_math true 100000000 150000000 5000000 (d_of_Z 0) = Some (Value p) /\
  p_tune_count p = 10 /\ p_bw_used p = 5000000 /\ invalid_rate (p_bw_used p) = true.
Proof. exists (mk_plan 10 5000000 5000000 1 0 0 (d_of_Z 0)). split; [vm_compute; reflexivity|]. split_and!; reflexivity. Qed.
