(* ===== verification/RtlPowerScan.v ===== *)
(** * rtl_power: a scan of the planned hops

    [scanner] over the hops of a plan: no access outside of an array, the
    device stays usable, and what is added to the averages of each hop is the
    spectrum of the samples that were read for it. *)

From S2P Require Import Prelude Arrays Double DoubleOrder Usb Device Repeater DeviceInv DeviceSession Convenience Fft FftSpec RtlPower RtlPowerSpec RtlPowerPlan.

Section scan.
Context {lib : math} (cfg : config) (m : nat) (ds len : Z).

(** A hop with the geometry of the plan. *)
Definition hop_inv (ts : tuning_state) : Prop :=
  hop_ok m len ts /\ ts_downsample ts = ds /\ boxcar_only cfg ts /\ ts_bin_e ts = Z.of_nat m /\ ts_buf_len ts = len /\ ts_crop ts = d_of_Z 0.

Definition scan_inv (s : scan) : Prop :=
  dev_ok (sdev s) /\ Z.of_nat (length (fft_buf s)) = len /\ Forall (Forall is_u8) (bulk s) /\ Forall hop_inv (hops s).

(** [ts'] is [ts] after a buffer: the bytes of [ts'] were read, and their
    spectrum is collected. *)
Definition scanned (ts ts' : tuning_state) : Prop :=
  ts_freq ts' = ts_freq ts /\ ts_rate ts' = ts_rate ts /\
  ts_samples ts' = i32 (ts_samples ts + Z.of_nat (block_count m ds len) * ds) /\
  forall j, 0 <= j < 2 ^ Z.of_nat m ->
    getz (ts_avg ts') j = spectrum cfg m (signal (ts_buf8 ts') len ds) (block_count m ds len) j (getz (ts_avg ts) j).

Context (Hm : (1 <= m)%nat) (Htab : tables_ok cfg m) (Hgeo : geometry m ds len).

Lemma read_sync_spec s buf n Q :
  scan_inv s -> Forall is_u8 buf -> 0 <= n -> Z.of_nat (length buf) = n ->
  (forall s' buf', scan_inv s' -> hops s' = hops s -> do_exit s' = do_exit s -> Forall is_u8 buf' -> Z.of_nat (length buf') = n -> Q buf' s') ->
  wp (rtlsdr_read_sync buf n) Q s.
Proof.
  intros (Hd & Hf & Hb & Hh) Hbuf Hn Hl HQ. unfold rtlsdr_read_sync. apply wp_bind, wp_gets, wp_bind, wp_modify.
  set (data := take (Z.to_nat n) (default [] (head (bulk s)))).
  assert (Hlen : (length data <= length buf)%nat) by (unfold data; rewrite length_take; lia).
  assert (Hu : Forall is_u8 data).
  { apply Forall_take. destruct (bulk s) as [|x l]; cbn; [done|]. by apply Forall_cons in Hb as [Hx _]. }
  rewrite bool_decide_true by done. apply wp_ret, HQ; cbn [hops do_exit set_bulk]; [|done|done| |].
  - split; [done|]. split; [done|]. split; [|done]. cbn [bulk set_bulk]. destruct (bulk s); [done|]. by apply Forall_cons in Hb as [_ Hb].
  - apply Forall_app. split; [done|]. by apply Forall_drop.
  - rewrite length_app, length_drop. lia.
Qed.

Lemma retune_spec s freq Q :
  scan_inv s -> (forall s', scan_inv s' -> hops s' = hops s -> do_exit s' = do_exit s -> Q tt s') -> wp (retune freq) Q s.
Proof.
  intros Hs HQ. pose proof Hs as (Hd & Hf & Hb & Hh). unfold retune. apply wp_bind, wp_zoom.
  eapply wp_mono; [|by apply (set_center_freq_ok 0)]. intros r d' Hd'. cbv beta.
  apply wp_bind, read_sync_spec; [done|by apply Forall_replicate|done|done|].
  intros s' buf' Hs' E1 E2 _ _. by apply wp_ret, HQ.
Qed.

Lemma scan_hop_spec s i ts Q :
  scan_inv s -> hops s !! i = Some ts ->
  (forall s' ts', scan_inv s' -> scanned ts ts' -> hops s' = <[i := ts']> (hops s) -> do_exit s' = do_exit s -> Q tt s') ->
  wp (scan_hop cfg (Z.of_nat m) len (Z.of_nat i)) Q s.
Proof.
  intros Hs Hts HQ. pose proof Hs as (_ & _ & _ & Hh). pose proof (Forall_lookup_1 _ _ _ _ Hh Hts) as (Hok & Hds & Hbox & He & Hlen & Hcrop).
  pose proof Hgeo as (_ & _ & Hlb & _). pose proof (pow2_pos m).
  unfold scan_hop. apply wp_bind, wp_gets, wp_bind. rewrite arr_get_nat, Hts. apply wp_ret, wp_bind, wp_gets.
  assert (Hrest : forall s1, scan_inv s1 -> hops s1 = hops s -> do_exit s1 = do_exit s ->
    wp (buf8 ← rtlsdr_read_sync (ts_buf8 ts) len; b ← gets fft_buf;
        '(ts, b) ← from_option_trap (hop cfg (Z.of_nat m) len (set_buf8 buf8 ts) b);
        hs ← from_option_trap (arr_set (hops s) (Z.of_nat i) ts); modify (set_hop b hs)) Q s1).
  { intros s1 Hs1 Eh Ee. destruct Hok as (Havg & Hb8 & Hu8 & Hsmp).
    apply wp_bind, read_sync_spec; [done|done|nia|done|]. intros s2 buf' Hs2 Eh2 Ee2 Hu2 Hl2. pose proof Hs2 as (Hd2 & Hf2 & Hb2 & Hh2).
    apply wp_bind, wp_gets, wp_bind.
    destruct (hop_spectrum_of cfg m len (set_buf8 buf' ts) (fft_buf s2) Hm Htab) as (avg' & fb & E & Lfb & Lavg & Havg');
      [done|done|by rewrite <- Hds in Hgeo|done|]. rewrite E. apply wp_ret. cbv beta iota. cbn [set_buf8 ts_samples ts_downsample] in *.
    rewrite Hds in *. set (ts' := RtlPower.set_avg avg' _ _).
    apply lookup_lt_Some in Hts as Hi. apply wp_bind. rewrite arr_set_ok, Nat2Z.id by lia. apply wp_ret, wp_modify.
    apply (HQ _ ts'); [|done|done|cbn; congruence].
    split; [done|]. split; [done|]. split; [done|]. cbn [hops set_hop]. apply Forall_insert; [done|].
    split; [|done]. split; [done|]. split; [done|]. split; [done|]. cbn [ts' RtlPower.set_avg ts_samples]. unfold is_i32, i32.
    pose proof (Z.mod_pos_bound (ts_samples ts + Z.of_nat (block_count m ds len) * ds + 2 ^ 31) (2 ^ 32) ltac:(lia)). lia. }
  destruct (_ =? ts_freq ts).
  - apply wp_bind, wp_ret. by apply Hrest.
  - apply wp_bind, retune_spec; [done|]. intros s1 Hs1 Eh Ee. by apply Hrest.
Qed.

(** The hops from [i] on. *)
Lemma scan_hops_spec n : forall i s Q,
  scan_inv s -> length (hops s) = (i + n)%nat ->
  (forall s', scan_inv s' -> length (hops s') = length (hops s) ->
    (forall k, (k < i)%nat -> hops s' !! k = hops s !! k) ->
    (forall k ts ts', (i <= k)%nat -> hops s !! k = Some ts -> hops s' !! k = Some ts' -> ts' = ts \/ scanned ts ts') ->
    (Forall (fun e => e < 2) (do_exit s) -> forall k ts ts', (i <= k)%nat -> hops s !! k = Some ts -> hops s' !! k = Some ts' -> scanned ts ts') ->
    Q tt s') ->
  wp (scan_hops cfg (map (fun k => Z.of_nat i + k) (zseq n)) (Z.of_nat m) len) Q s.
Proof.
  induction n as [|n IH]; intros i s Q Hs Hl HQ.
  { apply wp_ret, HQ; [done|done|done|intros k ts ts' _ E1 E2; left; congruence|].
    intros _ k ts ts' Hk Hlk. apply lookup_lt_Some in Hlk. lia. }
  rewrite zseq_S. cbn [map scan_hops]. rewrite map_map, Z.add_0_r. unfold poll_exit.
  apply wp_bind, wp_bind, wp_gets, wp_bind, wp_modify, wp_ret.
  set (s1 := set_exits (tail (do_exit s)) s). assert (Hs1 : scan_inv s1) by exact Hs.
  destruct (Z.leb_spec 2 (default 0 (head (do_exit s)))) as [He|He].
  - apply wp_ret, HQ; [done|done|done|intros k ts ts' _ E1 E2; left; cbn in *; congruence|].
    intros Hex. destruct (do_exit s) as [|e es]; cbn in He; [lia|]. apply Forall_cons in Hex as [? _]. lia.
  - destruct (lookup_lt_is_Some_2 (hops s) i ltac:(lia)) as [ts Hts].
    apply wp_bind, (scan_hop_spec s1 i ts); [done|done|]. intros s2 ts2 Hs2 Hsc Eh Ee. cbn [s1 set_exits hops do_exit] in *.
    assert (Hl2 : length (hops s2) = length (hops s)) by (rewrite Eh; apply length_insert).
    rewrite (map_ext _ (fun k => Z.of_nat (S i) + k)) by (intros; lia).
    apply (IH (S i)); [done|lia|]. intros s' Hs' Hl' Hlow Hup Hall. apply HQ; [done|lia| | |].
    + intros k Hk. rewrite (Hlow k) by lia. rewrite Eh. apply list_lookup_insert_ne. lia.
    + intros k t t' Hk Hlk Hlk'. destruct (decide (k = i)) as [->|Hne].
      * rewrite (Hlow i) in Hlk' by lia. rewrite Eh, list_lookup_insert_eq in Hlk' by lia.
        assert (ts = t) as <- by congruence. right. by injection Hlk' as <-.
      * apply (Hup k t t'); [lia| |done]. rewrite Eh. by rewrite list_lookup_insert_ne by lia.
    + intros Hex k t t' Hk Hlk Hlk'. destruct (decide (k = i)) as [->|Hne].
      * rewrite (Hlow i) in Hlk' by lia. rewrite Eh, list_lookup_insert_eq in Hlk' by lia.
        assert (ts = t) as <- by congruence. by injection Hlk' as <-.
      * apply (Hall) with (k := k) (ts := t); [|lia| |done].
        { rewrite Ee. destruct (do_exit s); [done|]. by apply Forall_cons in Hex as [_ ?]. }
        rewrite Eh. by rewrite list_lookup_insert_ne by lia.
Qed.
End scan.

Lemma main_tables `{math} b c ph wf e : 1 <= e <= 28 -> tables_ok (main_config b c ph wf e) (Z.to_nat e).
Proof.
  intros He. unfold tables_ok, main_config, wave_ok. cbn [tables window_coefs sine_table Sinewave LOG2_N_WAVE]. unfold N_WAVE. cbn [LOG2_N_WAVE].
  rewrite !Z.shiftl_1_l. assert (Hp : 0 < 2 ^ e) by (apply Z.pow_pos_nonneg; lia). split; [split; [lia|]|split; [lia|]].
  - rewrite length_map, stepped_1. unfold zseq. rewrite length_map, length_seq. rewrite Z2Nat.id; [done|]. apply Z.div_pos; lia.
  - unfold window_table. rewrite length_map, stepped_1. unfold zseq. rewrite length_map, length_seq.
    rewrite <- (Z2Nat.id e) at 1 by lia. rewrite <- (Nat2Z.inj_pow 2). lia.
Qed.

(** The hops of a plan, before the first scan. *)
Lemma planned_start `{math} cfg w lower max_size p d bytes junk buf exits :
  boxcar cfg = true -> plan_spec w max_size p -> dev_ok d -> Forall (Forall is_u8) bytes -> Forall is_u8 junk ->
  Z.of_nat (length junk) = plan_buf_len p -> Z.of_nat (length buf) = plan_buf_len p ->
  scan_inv cfg (Z.to_nat (p_bin_e p)) (p_downsample p) (plan_buf_len p) (mk_scan d bytes buf (make_tunes junk lower p) exits) /\
  make_tunes junk lower p <> [].
Proof.
  intros Hbox (Hn & _ & _ & _ & _ & _ & Hps & Hcr & _ & He & _) Hd Hbytes Hjunk Hlj Hlb. split.
  - split; [done|]. split; [done|]. split; [done|]. apply Forall_lookup. intros i ts Hts. cbn [hops] in Hts.
    apply make_tunes_lookup in Hts as [_ ->]. unfold hop_inv, hop_ok, boxcar_only. cbn. rewrite Hps, Hbox.
    split_and!; try done; [|by destruct (1 <? p_downsample p)|lia].
    rewrite length_replicate, Z.shiftl_1_l. rewrite <- (Z2Nat.id (p_bin_e p)) at 1 by lia. rewrite <- (Nat2Z.inj_pow 2). lia.
  - intros E. apply (f_equal length) in E. unfold make_tunes, zseq in E. rewrite stepped_1 in E. unfold zseq in E.
    rewrite !length_map, length_seq in E. cbn in E. lia.
Qed.

(** A scan of hops that are in order. *)
Lemma scanner_inv `{math} cfg m ds len s :
  (1 <= m)%nat -> tables_ok cfg m -> geometry m ds len -> scan_inv cfg m ds len s -> hops s <> [] ->
  wp (scanner cfg) (fun _ s' =>
    scan_inv cfg m ds len s' /\ length (hops s') = length (hops s) /\
    forall k ts ts', hops s !! k = Some ts -> hops s' !! k = Some ts' ->
      (ts' = ts \/ scanned cfg m ds len ts ts') /\
      (Forall (fun e => e < 2) (do_exit s) -> scanned cfg m ds len ts ts')) s.
Proof.
  intros Hm Htab Hgeo Hinv Hne. pose proof Hinv as (_ & _ & _ & Hh). unfold scanner. apply wp_bind, wp_gets, wp_bind.
  destruct (hops s) as [|t0 hs] eqn:Eh; [done|]. apply wp_ret. apply Forall_cons in Hh as [(_ & _ & _ & Ee & El & _) _].
  rewrite Ee, El. set (hs0 := t0 :: hs) in *.
  rewrite <- (map_id (zseq (length hs0))). rewrite (map_ext id (fun k => Z.of_nat 0 + k)) by (intros; unfold id; lia).
  apply (scan_hops_spec cfg m ds len Hm Htab Hgeo (length hs0) 0); [done|by rewrite Eh|].
  intros s' Hs' Hl' _ Hup Hall. rewrite Eh in *. split; [done|]. split; [done|]. intros k ts ts' Hk Hk'. split; [by apply (Hup k); [lia|..]|].
  intros Hex. by apply (Hall Hex k); [lia|..].
Qed.

(** C13: a scan of rtl_power with the boxcar filter, over the hops of a plan,
    with the tables of main, for any bytes that the bulk transfers bring and any
    signals: [scanner] returns, so no access is outside of an array; the device
    stays usable, and the hops keep their geometry; a hop is either left alone or
    scanned: the spectrum of the recursive transform of its thinned out, levelled
    and windowed samples is collected in its averages; without a second signal
    all hops are scanned. *)
Theorem planned_scan `{math} (peak : bool) (wf : Z -> Z -> double) (w lower max_size : Z) (p : plan)
    (d : rtlsdr_dev) (bytes : list (list Z)) (junk buf : list Z) (exits : list Z) :
  plan_spec w max_size p -> dev_ok d -> Forall (Forall is_u8) bytes -> Forall is_u8 junk ->
  Z.of_nat (length junk) = plan_buf_len p -> Z.of_nat (length buf) = plan_buf_len p ->
  let cfg := main_config true 0 peak wf (p_bin_e p) in
  let m := Z.to_nat (p_bin_e p) in
  let start := make_tunes junk lower p in
  wp (scanner cfg) (fun _ s' =>
    scan_inv cfg m (p_downsample p) (plan_buf_len p) s' /\ length (hops s') = length start /\
    forall k ts ts', start !! k = Some ts -> hops s' !! k = Some ts' ->
      (ts' = ts \/ scanned cfg m (p_downsample p) (plan_buf_len p) ts ts') /\
      (Forall (fun e => e < 2) exits -> scanned cfg m (p_downsample p) (plan_buf_len p) ts ts'))
    (mk_scan d bytes buf start exits).
Proof.
  intros Hp Hd Hbytes Hjunk Hlj Hlb cfg m start. pose proof Hp as (_ & _ & _ & _ & _ & _ & _ & _ & _ & He & _ & _ & Hgeo).
  destruct (planned_start cfg w lower max_size p d bytes junk buf exits) as [Hinv Hne]; [done..|].
  apply (scanner_inv cfg m (p_downsample p) (plan_buf_len p)); [unfold m; lia|apply main_tables; lia|done|exact Hinv|exact Hne].
Qed.

(** A range of 2 MHz with bins of 125 kHz: one hop of 16 bins. *)
Definition example_plan : plan := mk_plan 1 2000000 2000000 1 0 4 (d_of_Z 0).

Lemma example_plan_ok : plan_spec 2000000 125000 example_plan.
Proof.
  unfold plan_spec. split_and!; try (vm_compute; congruence); try (vm_compute; reflexivity); try (intros; cbn in *; lia).
  vm_compute. split_and!; congruence.
Qed.

Definition zeros : list Z := replicate (Z.to_nat 16384) 0.

Lemma planned_scan_witness :
  let cfg := @main_config no_math true 0 true (fun _ _ => d_of_Z 1) 4 in
  wp (@scanner no_math cfg) (fun _ s' =>
    scan_inv cfg 4 1 16384 s' /\ length (hops s') = length (make_tunes zeros 100000000 example_plan) /\
    forall k ts ts', make_tunes zeros 100000000 example_plan !! k = Some ts -> hops s' !! k = Some ts' ->
      (ts' = ts \/ scanned cfg 4 1 16384 ts ts') /\
      (Forall (fun e => e < 2) [] -> scanned cfg 4 1 16384 ts ts'))
    (mk_scan stuck_dev [[1; 2; 3]] zeros (make_tunes zeros 100000000 example_plan) []).
Proof.
  refine (@planned_scan no_math true (fun _ _ => d_of_Z 1) 2000000 100000000 125000 example_plan stuck_dev [[1; 2; 3]]
    zeros zeros [] example_plan_ok stuck_dev_ok _ _ _ _).
  - repeat constructor; discriminate.
  - by apply Forall_replicate.
  - unfold zeros. by rewrite length_replicate.
  - unfold zeros. by rewrite length_replicate.
Defined.

(** ** The report *)

(** The line has the bins in the order of their frequencies: the upper half of
    the transform first; bin 1 stands for bin 0. *)
Lemma arrange_spec (n : nat) avg : length avg = (2 ^ S n)%nat ->
  exists avg', arrange (Z.of_nat (S n)) avg = Some avg' /\ length avg' = length avg /\
    forall k, 0 <= k < 2 ^ Z.of_nat (S n) ->
      let b := (k + 2 ^ Z.of_nat n) mod 2 ^ Z.of_nat (S n) in getz avg' k = getz avg (if b =? 0 then 1 else b).
Proof.
  intros Hlen. pose proof (pow2_pos n) as Hp. pose proof (pow2_S n) as HS. unfold arrange.
  assert (HL : Z.of_nat (length avg) = 2 * 2 ^ Z.of_nat n) by (rewrite Hlen, Nat2Z.inj_pow; exact HS).
  replace (0 <? Z.of_nat (S n)) with true by lia. rewrite (arr_get_get_or 0) by lia. cbn [mbind option_bind].
  destruct ((arr_set_get_or 0) avg 0 (getz avg 1) ltac:(lia)) as (a1 & -> & L1 & G1). cbn [mbind option_bind].
  unfold swap_halves. rewrite Z.shiftl_1_l, HS. replace (2 * 2 ^ Z.of_nat n / 2) with (2 ^ Z.of_nat n) by (rewrite Z.mul_comm, Z.div_mul; done).
  set (h := 2 ^ Z.of_nat n) in *. rewrite stepped_1, <- (map_id (zseq _)).
  destruct (for_arr_inv (fun i avg => swap i (i + h) avg)
    (fun r a => length a = length avg /\ forall k, 0 <= k < 2 * h -> getz a k =
      if k <? h then getz a1 (if k <? r then k + h else k) else getz a1 (if k - h <? r then k - h else k)) (Z.to_nat h) id a1)
    as (a' & E & L' & G').
  - split; [done|]. intros k Hk. destruct (Z.ltb_spec k h); [by replace (k <? 0) with false by lia|by replace (k - h <? 0) with false by lia].
  - intros r a Hr [La Ga]. unfold id. destruct (swap_spec r (r + h) a) as (a' & E & L & G); [lia..|].
    exists a'. split; [done|]. split; [lia|]. intros k Hk. rewrite G. clear G E.
    destruct (Z.eqb_spec k r) as [->|N1].
    + rewrite Ga by lia. replace (r <? h) with true by lia. replace (r + h <? h) with false by lia.
      replace (r + h - h <? r) with false by lia. by replace (r <? r + 1) with true by lia.
    + destruct (Z.eqb_spec k (r + h)) as [->|N2].
      * rewrite Ga by lia. replace (r <? h) with true by lia. replace (r + h <? h) with false by lia.
        replace (r + h - h) with r by lia. replace (r <? r) with false by lia. by replace (r <? r + 1) with true by lia.
      * rewrite Ga by lia. destruct (Z.ltb_spec k h).
        -- by replace (k <? r + 1) with (k <? r) by lia.
        -- by replace (k - h <? r + 1) with (k - h <? r) by lia.
  - exists a'. split; [exact E|]. split; [done|]. intros k Hk. cbv zeta. rewrite G', Z2Nat.id by lia. rewrite !G1.
    destruct (Z.ltb_spec k h) as [Hkh|Hkh].
    + rewrite Z.mod_small by lia. replace (k <? h) with true by lia. by replace (k + h =? 0) with false by lia.
    + replace (k - h <? h) with true by lia.
      assert ((k + h) mod (2 * h) = k - h) as -> by (symmetry; apply (Z.mod_unique _ _ 1); lia). by destruct (k - h =? 0).
Qed.

(** A line of 4 bins has 5 columns: the last bin is printed twice. *)
Lemma last_bin_twice :
  match @csv_dbm no_math (mk_ts 100000000 2000000 2 [1; 2; 3; 4] 1 1 0 (d_of_Z 0) [] 0) with
  | Some (_, r) => (hz_low r, hz_high r, length (dbm r))
  | None => (0, 0, O)
  end = (99000000, 101000000, 5%nat).
Proof. vm_compute. reflexivity. Qed.

(** [remove_dc] divides the sum of half of the elements by all of them: half of
    a constant is left. *)
Lemma remove_dc_halves : remove_dc 0 8 [100; 7; 100; 7; 100; 7; 100; 7] = Some [50; 7; 50; 7; 50; 7; 50; 7].
Proof. vm_compute. reflexivity. Qed.

(** A byte of 255 is 128, and 256 times that is the most negative number; the
    sum of two samples of 65 is too large already. *)
Lemma full_scale_wraps :
  let cfg := mk_cfg true 0 false (mk_wave [0; 1; 2] 2) [256; 256] in
  window_block cfg 0 2 [255 - 127; 254 - 127; 65 + 65; 63 + 64] = Some [-32768; 32512; -32256; 32512].
Proof. vm_compute. reflexivity. Qed.

(** The next line is due after now, and at most one interval after. *)
Lemma bump_tick_spec now interval : 1 <= interval -> forall fuel tick, now - tick < Z.of_nat fuel -> tick <= now ->
  now < bump_tick fuel now interval tick <= now + interval /\ (bump_tick fuel now interval tick - tick) mod interval = 0.
Proof.
  intros Hi. induction fuel as [|fuel IH]; intros tick Hf Ht; [lia|]. cbn [bump_tick]. replace (tick <=? now) with true by lia.
  destruct (Z.leb_spec (tick + interval) now) as [Hle|Hgt].
  - destruct (IH (tick + interval) ltac:(lia) Hle) as [H1 H2]. split; [done|].
    replace (bump_tick fuel now interval (tick + interval) - tick) with (bump_tick fuel now interval (tick + interval) - (tick + interval) + 1 * interval) by lia.
    by rewrite Z.mod_add by lia.
  - assert (bump_tick fuel now interval (tick + interval) = tick + interval) as ->
      by (destruct fuel; cbn [bump_tick]; [done|]; by replace (tick + interval <=? now) with false by lia).
    split; [lia|]. rewrite Z.add_simpl_l. apply Z.mod_same. lia.
Qed.
