(* ===== verification/Single.v ===== *)
(** * IEEE single arithmetic

    rtl_hpsdr filters its samples in [float]: the operations of the Standard
    Library's SpecFloat at binary32, one rounding for each operation (no fused
    multiply-add, no [-ffast-math]). *)

From S2P Require Import Prelude Double.
From Stdlib Require Import SpecFloat.

Definition single : Type := spec_float.

Definition fzero : single := S754_zero false.
Definition f_of_Z (z : Z) : single := binary_normalize 24 128 z 0 false.
Definition fadd : single -> single -> single := SFadd 24 128.
Definition fsub : single -> single -> single := SFsub 24 128.
Definition fmul : single -> single -> single := SFmul 24 128.
Definition fdiv : single -> single -> single := SFdiv 24 128.

(** A double converted to a float. *)
Definition f_of_d (x : double) : single :=
  match x with
  | S754_finite s m e => binary_normalize 24 128 (if s then Z.neg m else Z.pos m) e s
  | _ => x
  end.

(** The double nearest to [m / n]. *)
Definition d_ratio (s : bool) (m n : positive) : double :=
  let '(q, e, l) := SFdiv_core_binary 53 1024 (Z.pos m) 0 (Z.pos n) 0 in binary_round_aux 53 1024 s q e l.

(** The decimal constant [m * 10^-k], which is a double. *)
Definition dec (m k : Z) : double :=
  match m with
  | 0 => S754_zero false
  | Z.pos p => d_ratio false p (Z.to_pos (10 ^ k))
  | Z.neg p => d_ratio true p (Z.to_pos (10 ^ k))
  end.

(** The constant as an initial value of a float; with the suffix [f], the
    rounding is straight to a float. *)
Definition lit (c : Z * Z) : single := f_of_d (dec (fst c) (snd c)).

Definition f_ratio (s : bool) (m n : positive) : single :=
  let '(q, e, l) := SFdiv_core_binary 24 128 (Z.pos m) 0 (Z.pos n) 0 in binary_round_aux 24 128 s q e l.
Definition fdec (m k : Z) : single :=
  match m with
  | 0 => S754_zero false
  | Z.pos p => f_ratio false p (Z.to_pos (10 ^ k))
  | Z.neg p => f_ratio true p (Z.to_pos (10 ^ k))
  end.

(** 0.1 and its two roundings. *)
Example dec_01 : dec 1 1 = S754_finite false 7205759403792794 (-56).
Proof. reflexivity. Qed.
Example lit_01 : lit (1, 1) = S754_finite false 13421773 (-27) /\ fdec 1 1 = S754_finite false 13421773 (-27).
Proof. split; reflexivity. Qed.
