(* ===== verification/Coeff.v ===== *)
(** * coeff.c: the filters of rtl_hpsdr

    The coefficients of the low-pass filters, decimal by decimal, and what makes
    them filters: each is symmetric (its phase is linear), lets a constant
    signal through with a gain between 0.89 and 1.28, and a signal at half of
    the sampling frequency not at all. *)

From S2P Require Import Prelude Double Single.
From Stdlib Require Import SpecFloat.


(* src/coeff.c:26-43 coeff3072_768_H_16 *)
Definition coeff3072_768_H_16 : list single := map lit [
  (9273441360506243, 18); (16647116642970215, 18); (17807828712343627, 20);
  (-4120881516829146, 17); (-54182354998635315, 18); (29186072429927865, 18);
  (19986560493298844, 17); (3445483364271308, 16); (3445483364271308, 16);
  (19986560493298844, 17); (29186072429927865, 18); (-54182354998635315, 18);
  (-4120881516829146, 17); (17807828712343627, 20); (16647116642970215, 18);
  (9273441360506243, 18)].

(* src/coeff.c:59-92 coeff1536_384_H_32 *)
Definition coeff1536_384_H_32 : list single := map lit [
  (-18813375437660432, 18); (-6245528066330151, 18); (2225837116892513, 17);
  (2542479094783578, 17); (-5640794972019027, 18); (-12689256912544498, 18);
  (22189644598742682, 18); (2694074050135046, 17); (-2278035343087979, 17);
  (-31038461875351708, 18); (38216616239274616, 18); (50231714731015474, 18);
  (-6031941099781234, 17); (-8957130195006367, 17); (14839312870816138, 17);
  (45191266878865377, 17); (45191266878865377, 17); (14839312870816138, 17);
  (-8957130195006367, 17); (-6031941099781234, 17); (50231714731015474, 18);
  (38216616239274616, 18); (-31038461875351708, 18); (-2278035343087979, 17);
  (2694074050135046, 17); (22189644598742682, 18); (-12689256912544498, 18);
  (-5640794972019027, 18); (2542479094783578, 17); (2225837116892513, 17);
  (-6245528066330151, 18); (-18813375437660432, 18)].

(* src/coeff.c:108-141 coeff1536_192_H_32 *)
Definition coeff1536_192_H_32 : list single := map lit [
  (-10042974482114305, 18); (-23419612995074016, 18); (-1704587811295064, 17);
  (-13595519567577328, 18); (4738092999209698, 18); (19741277216946216, 18);
  (26934187646518025, 18); (15691447421015893, 18); (-10353179647232053, 18);
  (-39415885401377665, 18); (-5142493084837827, 17); (-2988367769651434, 17);
  (2970163874460875, 17); (11419149328873458, 17); (1967846501935727, 16);
  (24774873746989148, 17); (24774873746989148, 17); (1967846501935727, 16);
  (11419149328873458, 17); (2970163874460875, 17); (-2988367769651434, 17);
  (-5142493084837827, 17); (-39415885401377665, 18); (-10353179647232053, 18);
  (15691447421015893, 18); (26934187646518025, 18); (19741277216946216, 18);
  (4738092999209698, 18); (-13595519567577328, 18); (-1704587811295064, 17);
  (-23419612995074016, 18); (-10042974482114305, 18)].

(* src/coeff.c:157-190 coeff1536_96_H_32 *)
Definition coeff1536_96_H_32 : list single := map lit [
  (-19744354306438096, 18); (-15506545711307839, 18); (-1925410128922757, 17);
  (-21493399566871418, 18); (-21345056921586145, 18); (-1806406451421989, 17);
  (-1115385429515886, 17); (-4477980642554994, 19); (13807116545973127, 18);
  (3090920205193141, 17); (49747010844936115, 18); (6892032225707885, 17);
  (8686969322593223, 17); (10200900320293706, 17); (11295785369204779, 17);
  (11872097296819287, 17); (11872097296819287, 17); (11295785369204779, 17);
  (10200900320293706, 17); (8686969322593223, 17); (6892032225707885, 17);
  (49747010844936115, 18); (3090920205193141, 17); (13807116545973127, 18);
  (-4477980642554994, 19); (-1115385429515886, 17); (-1806406451421989, 17);
  (-21345056921586145, 18); (-21493399566871418, 18); (-1925410128922757, 17);
  (-15506545711307839, 18); (-19744354306438096, 18)].

(* src/coeff.c:206-239 coeff1536_48_H_32 *)
Definition coeff1536_48_H_32 : list single := map lit [
  (2638580125835885, 19); (9790810578691002, 18); (9414466063966724, 18);
  (13631551091975282, 18); (1848634664234968, 17); (2401139026418836, 17);
  (30078953329934023, 18); (3652064137017532, 17); (4312893292488267, 17);
  (4968081967326505, 17); (5591992373138862, 17); (6160415916164228, 17);
  (6647785250512578, 17); (7034509358622862, 17); (730269248498467, 16);
  (7439089233305521, 17); (7439089233305521, 17); (730269248498467, 16);
  (7034509358622862, 17); (6647785250512578, 17); (6160415916164228, 17);
  (5591992373138862, 17); (4968081967326505, 17); (4312893292488267, 17);
  (3652064137017532, 17); (30078953329934023, 18); (2401139026418836, 17);
  (1848634664234968, 17); (13631551091975282, 18); (9414466063966724, 18);
  (9790810578691002, 18); (2638580125835885, 19)].

(* src/coeff.c:255-320 coeff1536_384_H_64 *)
Definition coeff1536_384_H_64 : list single := map lit [
  (-6749871284054873, 18); (4480925740369876, 18); (1484913649951335, 17);
  (1141731022874683, 17); (-21395270640331694, 19); (-4146112552536018, 18);
  (6108304018932493, 18); (6023128067669043, 18); (-6385590920724013, 18);
  (-6489590558851686, 18); (7672161073696956, 18); (76536235677186395, 19);
  (-8966828328483275, 18); (-9014764701078176, 18); (10553692980521202, 18);
  (10722878179753304, 18); (-12481901630215978, 18); (-12862783455557508, 18);
  (14911904711552218, 18); (15629462382057684, 18); (-18103314264455436, 18);
  (-19358200988217264, 18); (2252835451759192, 17); (24712778310252446, 18);
  (-29154241879223, 15); (-3316745807801754, 17); (4039633773067006, 17);
  (4888789948915267, 17); (-6410538838571432, 17); (-892335106077302, 16);
  (15017819477314162, 17); (44968698442469557, 17); (44968698442469557, 17);
  (15017819477314162, 17); (-892335106077302, 16); (-6410538838571432, 17);
  (4888789948915267, 17); (4039633773067006, 17); (-3316745807801754, 17);
  (-29154241879223, 15); (24712778310252446, 18); (2252835451759192, 17);
  (-19358200988217264, 18); (-18103314264455436, 18); (15629462382057684, 18);
  (14911904711552218, 18); (-12862783455557508, 18); (-12481901630215978, 18);
  (10722878179753304, 18); (10553692980521202, 18); (-9014764701078176, 18);
  (-8966828328483275, 18); (76536235677186395, 19); (7672161073696956, 18);
  (-6489590558851686, 18); (-6385590920724013, 18); (6023128067669043, 18);
  (6108304018932493, 18); (-4146112552536018, 18); (-21395270640331694, 19);
  (1141731022874683, 17); (1484913649951335, 17); (4480925740369876, 18);
  (-6749871284054873, 18)].

(* src/coeff.c:336-401 coeff1536_192_H_64 *)
Definition coeff1536_192_H_64 : list single := map lit [
  (-10861343163249607, 18); (-18869317372753413, 20); (38397866507845894, 19);
  (874283484070055, 17); (1191201638889358, 17); (11282422852842505, 18);
  (6424834873306104, 18); (-8014692537745406, 19); (-6952478489948671, 18);
  (-8683753210373287, 18); (-4679440396557242, 18); (33281946583610575, 19);
  (11078123345028841, 18); (13841539912365117, 18); (907043609384835, 17);
  (-1762715597699286, 18); (-13365798458316624, 18); (-19052763404783082, 18);
  (-14372799752652075, 18); (-7240060352242824, 20); (17348049196545607, 18);
  (28206736320385815, 18); (24468683175278203, 18); (46265889006657495, 19);
  (-2394839255527137, 17); (-467951590408317, 16); (-4800971319194729, 17);
  (-17509854725669075, 18); (43342515614600334, 18); (12056900886575762, 17);
  (19180649750128276, 17); (23446612587689916, 17); (23446612587689916, 17);
  (19180649750128276, 17); (12056900886575762, 17); (43342515614600334, 18);
  (-17509854725669075, 18); (-4800971319194729, 17); (-467951590408317, 16);
  (-2394839255527137, 17); (46265889006657495, 19); (24468683175278203, 18);
  (28206736320385815, 18); (17348049196545607, 18); (-7240060352242824, 20);
  (-14372799752652075, 18); (-19052763404783082, 18); (-13365798458316624, 18);
  (-1762715597699286, 18); (907043609384835, 17); (13841539912365117, 18);
  (11078123345028841, 18); (33281946583610575, 19); (-4679440396557242, 18);
  (-8683753210373287, 18); (-6952478489948671, 18); (-8014692537745406, 19);
  (6424834873306104, 18); (11282422852842505, 18); (1191201638889358, 17);
  (874283484070055, 17); (38397866507845894, 19); (-18869317372753413, 20);
  (-10861343163249607, 18)].

(* src/coeff.c:417-482 coeff1536_96_H_64 *)
Definition coeff1536_96_H_64 : list single := map lit [
  (-1071252749483098, 17); (-5596767001554159, 18); (-6134010497622714, 18);
  (-5932358028180867, 18); (-4903426703490449, 18); (-2987594254311014, 18);
  (-32198482516542, 17); (2838867548545009, 18); (61196328186719365, 19);
  (9067056230273823, 18); (11180510006145467, 18); (12006372127994101, 18);
  (11211344812046414, 18); (865134713119215, 17); (440832129964661, 17);
  (-11745304013948542, 19); (-7496596163064408, 18); (-13739689527000921, 18);
  (-18953804529181623, 18); (-2215844996076096, 17); (-2245960865939106, 17);
  (-19165008103936735, 18); (-11892104124015358, 18); (-6430580031297027, 19);
  (14159357426518738, 18); (31684756028006196, 18); (50753304724008914, 18);
  (6994068895712066, 17); (8771620731707629, 17); (1025991616107944, 16);
  (11331223097868615, 17); (11891723869590523, 17); (11891723869590523, 17);
  (11331223097868615, 17); (1025991616107944, 16); (8771620731707629, 17);
  (6994068895712066, 17); (50753304724008914, 18); (31684756028006196, 18);
  (14159357426518738, 18); (-6430580031297027, 19); (-11892104124015358, 18);
  (-19165008103936735, 18); (-2245960865939106, 17); (-2215844996076096, 17);
  (-18953804529181623, 18); (-13739689527000921, 18); (-7496596163064408, 18);
  (-11745304013948542, 19); (440832129964661, 17); (865134713119215, 17);
  (11211344812046414, 18); (12006372127994101, 18); (11180510006145467, 18);
  (9067056230273823, 18); (61196328186719365, 19); (2838867548545009, 18);
  (-32198482516542, 17); (-2987594254311014, 18); (-4903426703490449, 18);
  (-5932358028180867, 18); (-6134010497622714, 18); (-5596767001554159, 18);
  (-1071252749483098, 17)].

(* src/coeff.c:498-563 coeff1536_48_H_64 *)
Definition coeff1536_48_H_64 : list single := map lit [
  (16204784472223264, 18); (-5952326048019109, 18); (-5980133480946519, 18);
  (-6550587340783938, 18); (-7502349558746014, 18); (-8664905618739272, 18);
  (-9858201134284412, 18); (-11058172934685848, 18); (-12052095453511394, 18);
  (-12771304376233453, 18); (-13107166855460603, 18); (-12962322150519364, 18);
  (-12244684255291452, 18); (-1091202402746656, 17); (-8896557288651442, 18);
  (-6183978870649281, 18); (-27753248823173416, 19); (13053700995675575, 19);
  (6010078044350416, 18); (11250745337822507, 18); (1693463711646011, 17);
  (2293456274088121, 17); (2910743703535114, 17); (3530091736205998, 17);
  (4135453695003249, 17); (4709815437714355, 17); (5237637339324536, 17);
  (5703683825323971, 17); (6094137268623868, 17); (6397734150508055, 17);
  (6605476099202433, 17); (671076198746522, 16); (671076198746522, 16);
  (6605476099202433, 17); (6397734150508055, 17); (6094137268623868, 17);
  (5703683825323971, 17); (5237637339324536, 17); (4709815437714355, 17);
  (4135453695003249, 17); (3530091736205998, 17); (2910743703535114, 17);
  (2293456274088121, 17); (1693463711646011, 17); (11250745337822507, 18);
  (6010078044350416, 18); (13053700995675575, 19); (-27753248823173416, 19);
  (-6183978870649281, 18); (-8896557288651442, 18); (-1091202402746656, 17);
  (-12244684255291452, 18); (-12962322150519364, 18); (-13107166855460603, 18);
  (-12771304376233453, 18); (-12052095453511394, 18); (-11058172934685848, 18);
  (-9858201134284412, 18); (-8664905618739272, 18); (-7502349558746014, 18);
  (-6550587340783938, 18); (-5980133480946519, 18); (-5952326048019109, 18);
  (16204784472223264, 18)].

(** The value of a coefficient times 2^60, which is an integer. *)
Definition scaled (x : single) : Z :=
  match x with S754_finite s m e => (if s then - Z.pos m else Z.pos m) * 2 ^ (60 + e) | _ => 0 end.

(** The sum, and the sum with alternating signs. *)
Definition constant_gain (c : list single) : Z := foldr (fun x a => scaled x + a) 0 c.
Definition alternating_gain (c : list single) : Z := foldr (fun x a => scaled x - a) 0 c.

Definition all_filters : list (list single) :=
  [coeff3072_768_H_16; coeff1536_384_H_32; coeff1536_192_H_32; coeff1536_96_H_32; coeff1536_48_H_32;
   coeff1536_384_H_64; coeff1536_192_H_64; coeff1536_96_H_64; coeff1536_48_H_64].

Lemma filters_low_pass :
  Forall (fun c => reverse c = c /\ alternating_gain c = 0 /\ 89 * 2 ^ 60 <= 100 * constant_gain c <= 128 * 2 ^ 60) all_filters.
Proof. repeat (apply Forall_cons; split; [split_and!; vm_compute; done|]). constructor. Qed.
