(* ===== verification/Downsample.v ===== *)
(** * downsample.c: the two filters of rtl_hpsdr

    [down_loop] runs a low-pass filter over a buffer and keeps one result of
    [dsample]; [downsample] runs it twice, over the samples as they come from
    the dongle ([iq_buf]) and over the result ([iq_buf_final]).  The buffers are
    arrays of I/Q pairs; an access outside of them has no value.  The code is
    the one without SIMD: downsample.c undefines the two macros. *)

From S2P Require Import Prelude Arrays Double Single Coeff.
From Stdlib Require Import SpecFloat.

Definition DOWNSAMPLE_192 := 8.
Definition RTL_READ_COUNT := 2048 * DOWNSAMPLE_192.
Definition IQ_FRAME_DATA_LEN := 63.
Definition COEFF3072_H_16_LENGTH := 16.
Definition COEFF1536_H_32_LENGTH := 32.

(** The settings of the filters, in [struct main_cb]. *)
(* include/rtl_hpsdr.h:128-183 main_cb *)
Record filters : Type := mk_filters {
  output_rate : Z;
  length_fir : Z;
  coeff_48 : list single;
  coeff_96 : list single;
  coeff_192 : list single;
  coeff_384 : list single;
  coeff_768 : list single;
}.

(** The buffers of a receiver. *)
(* include/rtl_hpsdr.h:190-209 rcvr_cb *)
Record buffers : Type := mk_buffers {
  iqSample_offset : Z;
  iqSamples_remaining : Z;
  iqSamples : list single;
  iq_buf : list single;
  iq_buf_final : list single;
}.

(** The tables for a length of the filter; no others. *)
(* src/rtl_hpsdr.c:1645-1661 main *)
Definition make_filters (rate length_fir : Z) : filters :=
  if length_fir =? 32 then
    mk_filters rate length_fir coeff1536_48_H_32 coeff1536_96_H_32 coeff1536_192_H_32 coeff1536_384_H_32 coeff3072_768_H_16
  else if length_fir =? 64 then
    mk_filters rate length_fir coeff1536_48_H_64 coeff1536_96_H_64 coeff1536_192_H_64 coeff1536_384_H_64 coeff3072_768_H_16
  else mk_filters rate length_fir [] [] [] [] coeff3072_768_H_16.

(** The table and the decimation for a rate. *)
(* src/downsample.c:165-185 down_loop *)
Definition rate_coeff (f : filters) : option (list single) :=
  if output_rate f =? 48000 then Some (coeff_48 f)
  else if output_rate f =? 96000 then Some (coeff_96 f)
  else if output_rate f =? 192000 then Some (coeff_192 f)
  else if output_rate f =? 384000 then Some (coeff_384 f)
  else None.

(* src/downsample.c:67-83 down_loop *)
Definition rate_dsample (f : filters) : option Z :=
  if output_rate f =? 48000 then Some (DOWNSAMPLE_192 * 2)
  else if output_rate f =? 96000 then Some DOWNSAMPLE_192
  else if output_rate f =? 192000 then Some (DOWNSAMPLE_192 / 2)
  else if output_rate f =? 384000 then Some (DOWNSAMPLE_192 / 4)
  else None.

(** The sums of products of [n] I/Q pairs of [buf] from [pSrc] with the
    coefficients from [pFil]. *)
(* src/downsample.c:189-194 down_loop *)
Fixpoint fir (n : nat) (buf fil : list single) (pSrc pFil : Z) (sums : single * single) : option (single * single) :=
  match n with
  | O => Some sums
  | S n =>
      s0 ← arr_get buf pSrc; s1 ← arr_get buf (pSrc + 1); c ← arr_get fil pFil;
      fir n buf fil (pSrc + 2) (pFil + 1) (fadd sums.1 (fmul s0 c), fadd sums.2 (fmul s1 c))
  end.

(** One turn of the loop over [j] with the state of [k] and [out], which starts
    at [o] of its array; [buf] has moved to [j]. *)
(* src/downsample.c:161-202 down_loop *)
Definition down_turn (buf fil : list single) (coeff_len dsample o : Z) (IQ_swap : bool) (j : Z)
    (st : Z * list single) : option (Z * list single) :=
  let '(k, out) := st in
  sums ← fir (Z.to_nat coeff_len) buf fil j 0 (fzero, fzero);
  let '(sum1, sum2) := sums in
  if ((j + 2) / 2) mod dsample =? 0 then
    out ← arr_set out (o + k) (if IQ_swap then sum2 else sum1);
    out ← arr_set out (o + (k + 1)) (if IQ_swap then sum1 else sum2);
    Some (k + 2, out)
  else Some (k, out).

(** A pass: the settings, the loop, and the move of the history to the front
    (lines 205-207). *)
(* src/downsample.c:41-86 down_loop *)
Definition down_loop (f : filters) (r : buffers) (pass : Z) : option buffers :=
  if pass =? 1 then
    let count := RTL_READ_COUNT in
    let coeff_len := COEFF3072_H_16_LENGTH in
    st ← for_arr (stepped count 2) (down_turn (iq_buf r) (coeff_768 f) coeff_len 2 (COEFF1536_H_32_LENGTH * 2) true) (0, iq_buf_final r);
    buf ← copy_to (iq_buf r) 0 (iq_buf r) (count - coeff_len * 2) (coeff_len * 2);
    Some (mk_buffers (iqSample_offset r) (iqSamples_remaining r) (iqSamples r) buf (snd st))
  else
    let count := RTL_READ_COUNT / 2 in
    let coeff_len := length_fir f in
    dsample ← rate_dsample f;
    fil ← rate_coeff f;
    st ← for_arr (stepped count 2) (down_turn (iq_buf_final r) fil coeff_len dsample (iqSamples_remaining r * 2) false) (0, iqSamples r);
    buf ← copy_to (iq_buf_final r) 0 (iq_buf_final r) (count - coeff_len * 2) (coeff_len * 2);
    Some (mk_buffers (iqSample_offset r) (iqSamples_remaining r) (snd st) (iq_buf r) buf).

(* src/downsample.c: downsample *)
Definition downsample (f : filters) (r : buffers) : option buffers :=
  r ← down_loop f r 1; down_loop f r 2.
