(* ===== verification/DownsampleSpec.v ===== *)
(** * downsample.c: what the filters compute

    Each output of [down_loop] is a convolution of the buffer with the filter,
    at the positions that the decimation keeps; the two passes of [downsample]
    compose.  What the code keeps for the next buffer is not what comes before
    it. *)

From S2P Require Import Prelude Arrays Double Single Coeff Downsample.
From Stdlib Require Import SpecFloat.

Abbreviation getf := (get_or fzero).

(** Filter [c] over [g], one number of two from [p]. *)
Definition conv (c : list single) (g : Z -> single) (p : Z) : single :=
  fold_left (fun acc i => fadd acc (fmul (g (p + 2 * i)) (getf c i))) (zseq (length c)) fzero.

(** The number [m] of channel [h] that decimation by [ds] keeps. *)
Definition decimated (ds : Z) (c : list single) (g : Z -> single) (m h : Z) : single :=
  conv c g (2 * (ds * (m + 1) - 1) + h).

Lemma decimated_ext ds c g g' m h : (forall p, g p = g' p) -> decimated ds c g m h = decimated ds c g' m h.
Proof.
  intros Hg. unfold decimated, conv. set (P := 2 * (ds * (m + 1) - 1) + h).
  enough (forall l s, fold_left (fun acc i => fadd acc (fmul (g (P + 2 * i)) (getf c i))) l s =
    fold_left (fun acc i => fadd acc (fmul (g' (P + 2 * i)) (getf c i))) l s) as H by apply H.
  induction l as [|i l IH]; intros s; [done|]. cbn [fold_left]. by rewrite Hg, IH.
Qed.

Lemma fir_fold (buf fil : list single) n : forall p q s1 s2,
  0 <= p -> p + 2 * Z.of_nat n <= Z.of_nat (length buf) -> 0 <= q -> q + Z.of_nat n <= Z.of_nat (length fil) ->
  fir n buf fil p q (s1, s2) =
  Some (fold_left (fun acc i => fadd acc (fmul (getf buf (p + 2 * i)) (getf fil (q + i)))) (zseq n) s1,
        fold_left (fun acc i => fadd acc (fmul (getf buf (p + 1 + 2 * i)) (getf fil (q + i)))) (zseq n) s2).
Proof.
  induction n as [|n IH]; intros p q s1 s2 Hp Hb Hq Hf; [done|].
  cbn [fir]. rewrite !(arr_get_get_or fzero) by lia. cbn [mbind option_bind fst snd]. rewrite IH by lia.
  rewrite zseq_S. cbn [fold_left]. rewrite !Z.mul_0_r, !Z.add_0_r.
  assert (forall l (f f' : single -> Z -> single) s, (forall a i, f a i = f' a (1 + i)) ->
    fold_left f l s = fold_left f' (map (Z.add 1) l) s) as Hm.
  { induction l as [|i l IHl]; intros f f' s Hff; cbn [map fold_left]; [done|]. rewrite Hff. by apply IHl. }
  f_equal. f_equal; apply Hm; intros a i; do 3 f_equal; lia.
Qed.

Lemma fir_conv buf fil p :
  0 <= p -> p + 2 * Z.of_nat (length fil) <= Z.of_nat (length buf) ->
  fir (length fil) buf fil p 0 (fzero, fzero) = Some (conv fil (getf buf) p, conv fil (getf buf) (p + 1)).
Proof. intros Hp Hb. rewrite fir_fold by lia. reflexivity. Qed.

(** ** The loop *)

Section loop.
Context (buf fil : list single) (ds o : Z) (swap : bool).
Context (Hds : 0 < ds).

(** The output after [n] turns. *)
Definition filtered (out0 : list single) (n : Z) (st : Z * list single) : Prop :=
  fst st = 2 * (n / ds) /\ length (snd st) = length out0 /\
  forall p, getf (snd st) p =
    if (o <=? p) && (p <? o + 2 * (n / ds)) then
      let m := (p - o) / 2 in let h := (p - o) mod 2 in
      decimated ds fil (getf buf) m (if swap then 1 - h else h)
    else getf out0 p.

Lemma down_turn_filtered out0 n st :
  0 <= n -> 2 * n + 2 * Z.of_nat (length fil) <= Z.of_nat (length buf) ->
  0 <= o -> o + 2 * ((n + 1) / ds) <= Z.of_nat (length out0) -> filtered out0 n st ->
  exists st', down_turn buf fil (Z.of_nat (length fil)) ds o swap (n * 2) st = Some st' /\ filtered out0 (n + 1) st'.
Proof using Hds.
  intros Hn Hb Ho Hout (Hk & Hl & Hg). destruct st as [k out]. cbn [fst snd] in *. unfold down_turn.
  rewrite Nat2Z.id, fir_conv by lia. cbn [mbind option_bind].
  replace ((n * 2 + 2) / 2) with (n + 1) by (apply Z.div_unique with 0; lia).
  pose proof (Z.div_mod n ds ltac:(lia)) as En. pose proof (Z.mod_pos_bound n ds Hds) as Rn.
  pose proof (Z.div_mod (n + 1) ds ltac:(lia)) as En1. pose proof (Z.mod_pos_bound (n + 1) ds Hds) as Rn1.
  destruct (Z.eqb_spec ((n + 1) mod ds) 0) as [Hz|Hz].
  - assert ((n + 1) / ds = n / ds + 1) as Eq by nia. rewrite Eq in *.
    assert (0 <= n / ds) by (apply Z.div_pos; lia).
    edestruct (arr_set_get_or fzero out (o + k)) as (out1 & -> & L1 & G1); [lia|]. cbn [mbind option_bind].
    edestruct (arr_set_get_or fzero out1 (o + (k + 1))) as (out2 & -> & L2 & G2); [lia|]. cbn [mbind option_bind].
    eexists. split; [done|]. split_and!; cbn [fst snd]; [rewrite Eq; lia|congruence|].
    intros p. rewrite Eq, G2, G1, Hg. unfold decimated.
    destruct (Z.eqb_spec p (o + (k + 1))) as [->|H2]; [|destruct (Z.eqb_spec p (o + k)) as [->|H1]].
    + replace (_ && _) with true by lia. cbv zeta. replace (o + (k + 1) - o) with (k + 1) by lia.
      replace ((k + 1) / 2) with (n / ds) by (apply Z.div_unique with 1; lia).
      replace ((k + 1) mod 2) with 1 by (apply Z.mod_unique with (n / ds); lia).
      destruct swap; f_equal; lia.
    + replace (_ && _) with true by lia. cbv zeta. replace (o + k - o) with k by lia.
      replace (k / 2) with (n / ds) by (apply Z.div_unique with 0; lia).
      replace (k mod 2) with 0 by (apply Z.mod_unique with (n / ds); lia).
      destruct swap; f_equal; lia.
    + replace ((o <=? p) && (p <? o + 2 * (n / ds + 1))) with ((o <=? p) && (p <? o + 2 * (n / ds))) by lia. done.
  - assert ((n + 1) / ds = n / ds) as Eq by nia.
    eexists. split; [done|]. unfold filtered. rewrite Eq. split_and!; done.
Qed.

Lemma down_turns_filtered out0 N :
  2 * N + 2 * Z.of_nat (length fil) <= Z.of_nat (length buf) + 2 -> 0 <= N ->
  0 <= o -> o + 2 * (N / ds) <= Z.of_nat (length out0) ->
  exists st, for_arr (stepped (2 * N) 2) (down_turn buf fil (Z.of_nat (length fil)) ds o swap) (0, out0) = Some st /\
    filtered out0 N st.
Proof using Hds.
  intros Hb HN Ho Hout. rewrite (stepped_eq _ _ (Z.to_nat N)) by lia.
  destruct (for_arr_inv (down_turn buf fil (Z.of_nat (length fil)) ds o swap) (filtered out0) (Z.to_nat N)
    (fun k => k * 2) (0, out0)) as (st & E & H).
  - unfold filtered. cbn [fst snd]. rewrite Z.div_0_l by lia. split_and!; [done|done|].
    intros p. by replace ((o <=? p) && (p <? o + 2 * 0)) with false by lia.
  - intros n st Hn Hst. apply down_turn_filtered; [lia..| |done].
    assert ((n + 1) / ds <= N / ds) by (apply Z.div_le_mono; lia). lia.
  - exists st. split; [done|]. by rewrite Z2Nat.id in H by done.
Qed.
End loop.

(** ** Both passes *)

(** The tables have the lengths that go with [length_fir], and the buffers those
    that main allocates. *)
Record sized (f : filters) (r : buffers) : Prop := {
  sized_fir : length_fir f = 32 \/ length_fir f = 64;
  sized_768 : length (coeff_768 f) = 16%nat;
  sized_fil : forall fil, rate_coeff f = Some fil -> Z.of_nat (length fil) = length_fir f;
  sized_iq : Z.of_nat (length (iq_buf r)) = RTL_READ_COUNT + COEFF3072_H_16_LENGTH * 2;
  sized_final : Z.of_nat (length (iq_buf_final r)) = RTL_READ_COUNT / 2 + length_fir f * 2;
}.

(** The samples at half of the rate, in front of them what is left from
    before; I and Q have changed places. *)
Definition half_rate (f : filters) (r : buffers) (p : Z) : single :=
  if (64 <=? p) && (p <? 64 + RTL_READ_COUNT / 2) then
    decimated 2 (coeff_768 f) (getf (iq_buf r)) ((p - 64) / 2) (1 - (p - 64) mod 2)
  else getf (iq_buf_final r) p.

(** The number of samples that a buffer gives. *)
Definition block_samples (ds : Z) : Z := RTL_READ_COUNT / 4 / ds.

Lemma rate_dsample_values f ds : rate_dsample f = Some ds -> ds = 16 \/ ds = 8 \/ ds = 4 \/ ds = 2.
Proof.
  unfold rate_dsample. destruct (_ =? _); [intros [= <-]; by left|]. destruct (_ =? _); [intros [= <-]; by right; left|].
  destruct (_ =? _); [intros [= <-]; by right; right; left|]. destruct (_ =? _); [intros [= <-]; by right; right; right|done].
Qed.

Lemma sized_lengths f r r' :
  sized f r -> length (iq_buf r') = length (iq_buf r) -> length (iq_buf_final r') = length (iq_buf_final r) -> sized f r'.
Proof. intros [] E1 E2. constructor; rewrite ?E1, ?E2; done. Qed.

(** The length of an array of zeros. *)
Ltac alloc_length := rewrite length_replicate, Z2Nat.id by lia; reflexivity.

(** Arithmetic with the sizes evaluated. *)
Ltac sizes :=
  repeat match goal with H : for_arr _ _ _ = _ |- _ => clear H end;
  change RTL_READ_COUNT with 16384 in *; change COEFF3072_H_16_LENGTH with 16 in *;
  change COEFF1536_H_32_LENGTH with 32 in *; change (16384 / 2) with 8192 in *; change (16384 / 4) with 4096 in *; change (8192 / 2) with 4096 in *; lia.

Section passes.
Context (f : filters) (r : buffers) (Hs : sized f r).

Lemma first_pass :
  exists r', down_loop f r 1 = Some r' /\ iqSample_offset r' = iqSample_offset r /\
    iqSamples_remaining r' = iqSamples_remaining r /\ iqSamples r' = iqSamples r /\
    length (iq_buf r') = length (iq_buf r) /\ length (iq_buf_final r') = length (iq_buf_final r) /\
    (forall p, getf (iq_buf r') p = if (0 <=? p) && (p <? 32) then getf (iq_buf r) (RTL_READ_COUNT - 32 + p) else getf (iq_buf r) p) /\
    (forall p, getf (iq_buf_final r') p = half_rate f r p).
Proof using Hs.
  destruct Hs as [Hf H768 _ Hiq Hfin]. unfold down_loop. cbn [Z.eqb].
  destruct (down_turns_filtered (iq_buf r) (coeff_768 f) 2 (COEFF1536_H_32_LENGTH * 2) true ltac:(lia)
    (iq_buf_final r) (RTL_READ_COUNT / 2)) as (st & E & _ & L & G).
  { rewrite H768. sizes. }
  { done. } { done. }
  { sizes. }
  rewrite H768 in E. replace (2 * (RTL_READ_COUNT / 2)) with RTL_READ_COUNT in E by reflexivity.
  change (Z.of_nat 16) with COEFF3072_H_16_LENGTH in E. rewrite E. cbn [mbind option_bind].
  destruct (copy_to_get_or fzero (iq_buf r) 0 (iq_buf r) (RTL_READ_COUNT - COEFF3072_H_16_LENGTH * 2) (COEFF3072_H_16_LENGTH * 2)) as (b & -> & Lb & Gb);
    [sizes..|].
  cbn [mbind option_bind]. eexists. split; [done|]. cbn. split_and!; [done..|intros p; by rewrite Gb, Z.sub_0_r|].
  intros p. rewrite G. unfold half_rate. done.
Qed.

Context (ds : Z) (fil : list single) (Hds : rate_dsample f = Some ds) (Hfil : rate_coeff f = Some fil).

Lemma second_pass :
  0 <= iqSamples_remaining r ->
  2 * (iqSamples_remaining r + block_samples ds) <= Z.of_nat (length (iqSamples r)) ->
  exists r', down_loop f r 2 = Some r' /\ iqSample_offset r' = iqSample_offset r /\
    iqSamples_remaining r' = iqSamples_remaining r /\ iq_buf r' = iq_buf r /\
    length (iqSamples r') = length (iqSamples r) /\ length (iq_buf_final r') = length (iq_buf_final r) /\
    (forall p, getf (iq_buf_final r') p =
      if (0 <=? p) && (p <? length_fir f * 2) then getf (iq_buf_final r) (RTL_READ_COUNT / 2 - length_fir f * 2 + p)
      else getf (iq_buf_final r) p) /\
    (forall p, getf (iqSamples r') p =
      let q := p - iqSamples_remaining r * 2 in
      if (0 <=? q) && (q <? 2 * block_samples ds) then decimated ds fil (getf (iq_buf_final r)) (q / 2) (q mod 2)
      else getf (iqSamples r) p).
Proof using Hs Hds Hfil.
  intros Hrem Hlen. destruct Hs as [Hf _ Hl Hiq Hfin]. specialize (Hl _ Hfil). unfold down_loop. cbn [Z.eqb Pos.eqb].
  rewrite Hds, Hfil. cbn [mbind option_bind]. pose proof (rate_dsample_values _ _ Hds) as Hv.
  destruct (down_turns_filtered (iq_buf_final r) fil ds (iqSamples_remaining r * 2) false ltac:(lia)
    (iqSamples r) (RTL_READ_COUNT / 4)) as (st & E & _ & L & G).
  { rewrite Hfin, Hl. sizes. }
  { done. } { lia. }
  { fold (block_samples ds). lia. }
  rewrite Hl in E. replace (2 * (RTL_READ_COUNT / 4)) with (RTL_READ_COUNT / 2) in E by reflexivity. rewrite E. cbn [mbind option_bind].
  destruct (copy_to_get_or fzero (iq_buf_final r) 0 (iq_buf_final r) (RTL_READ_COUNT / 2 - length_fir f * 2) (length_fir f * 2)) as (b & -> & Lb & Gb);
    [sizes..|].
  cbn [mbind option_bind]. eexists. split; [done|]. cbn. split_and!; [done..|intros p; by rewrite Gb, Z.sub_0_r|].
  intros p. rewrite G. fold (block_samples ds). cbv zeta.
  replace ((0 <=? p - iqSamples_remaining r * 2) && (p - iqSamples_remaining r * 2 <? 2 * block_samples ds))
    with ((iqSamples_remaining r * 2 <=? p) && (p <? iqSamples_remaining r * 2 + 2 * block_samples ds)) by lia. done.
Qed.
End passes.

Lemma make_filters_sized rate L r :
  L = 32 \/ L = 64 ->
  Z.of_nat (length (iq_buf r)) = RTL_READ_COUNT + COEFF3072_H_16_LENGTH * 2 ->
  Z.of_nat (length (iq_buf_final r)) = RTL_READ_COUNT / 2 + L * 2 -> sized (make_filters rate L) r.
Proof.
  intros HL Hiq Hfin. assert (length_fir (make_filters rate L) = L) as E by (by destruct HL as [-> | ->]).
  constructor; rewrite ?E; [done| |intros fil|done..].
  - by destruct HL as [-> | ->].
  - unfold rate_coeff. destruct HL as [-> | ->]; cbn [make_filters Z.eqb Pos.eqb output_rate coeff_48 coeff_96 coeff_192 coeff_384];
      repeat (destruct (_ =? _); [intros [= <-]; reflexivity|]); done.
Qed.

(** C30: downsample appends [4096 / dsample] samples to what is left in
    iqSamples.  Each is the second filter over the samples at half of the rate,
    and each of those the first filter over the samples of the buffer, with I
    and Q exchanged; only the decimated positions are kept.  No access is outside
    of an array, at any of the four rates. *)
Theorem downsample_spec f r ds fil :
  sized f r -> rate_dsample f = Some ds -> rate_coeff f = Some fil -> 0 <= iqSamples_remaining r ->
  2 * (iqSamples_remaining r + block_samples ds) <= Z.of_nat (length (iqSamples r)) ->
  exists r', downsample f r = Some r' /\ sized f r' /\ iqSample_offset r' = iqSample_offset r /\
    iqSamples_remaining r' = iqSamples_remaining r /\ length (iqSamples r') = length (iqSamples r) /\
    forall p, getf (iqSamples r') p =
      let q := p - iqSamples_remaining r * 2 in
      if (0 <=? q) && (q <? 2 * block_samples ds) then decimated ds fil (half_rate f r) (q / 2) (q mod 2)
      else getf (iqSamples r) p.
Proof.
  intros Hs Hds Hfil Hrem Hlen. unfold downsample.
  destruct (first_pass f r Hs) as (r1 & -> & Eo & Er & Es & L1 & L2 & _ & G1). cbn [mbind option_bind].
  pose proof (sized_lengths _ _ _ Hs L1 L2) as Hs1.
  destruct (second_pass f r1 Hs1 ds fil Hds Hfil) as (r2 & E2 & Eo2 & Er2 & Ei2 & L3 & L4 & _ & G2); [congruence..|].
  exists r2. split; [done|]. split; [apply (sized_lengths _ _ _ Hs1); congruence|]. split_and!; [congruence..|].
  intros p. rewrite G2, Er, Es. cbv zeta. destruct (_ && _); [|done]. by apply decimated_ext.
Qed.

(** A downsampled buffer at 48 kHz: 256 samples after 3 that were left. *)
Lemma downsample_spec_witness :
  let f := make_filters 48000 32 in
  let r := mk_buffers 0 3 (replicate (Z.to_nat 16510) fzero) (replicate (Z.to_nat 16416) (f_of_Z 1)) (replicate (Z.to_nat 8256) fzero) in
  exists r', downsample f r = Some r' /\ getf (iqSamples r') 7 = decimated 16 (coeff_48 f) (half_rate f r) 0 1.
Proof.
  intros f r. 
  assert (sized f r) as Hs.
  { apply make_filters_sized; [by left| |]; cbn [iq_buf iq_buf_final r]; alloc_length. }
  assert (rate_coeff f = Some (coeff_48 f)) as Hc by reflexivity.
  assert (rate_dsample f = Some 16) as Hd by reflexivity.
  assert (0 <= iqSamples_remaining r) as H0 by done.
  assert (2 * (iqSamples_remaining r + block_samples 16) <= Z.of_nat (length (iqSamples r))) as H1.
  { cbn [iqSamples iqSamples_remaining r]. rewrite length_replicate, Z2Nat.id by lia. by vm_compute. }
  destruct (downsample_spec f r 16 (coeff_48 f) Hs Hd Hc H0 H1) as (r' & E & _ & _ & _ & _ & G).
  exists r'. split; [exact E|].
  rewrite G. cbv zeta. cbn [iqSamples_remaining r]. replace (7 - 3 * 2) with 1 by reflexivity.
  replace ((0 <=? 1) && (1 <? 2 * block_samples 16)) with true by reflexivity. cbv iota. reflexivity.
Defined.

(** What is kept for the next buffer is not its past: of the 4096 samples at
    half of the rate, the 32 kept are the numbers 4032 to 4063. *)
Lemma history_not_last f r ds fil :
  sized f r -> length_fir f = 32 -> rate_dsample f = Some ds -> rate_coeff f = Some fil -> 0 <= iqSamples_remaining r ->
  2 * (iqSamples_remaining r + block_samples ds) <= Z.of_nat (length (iqSamples r)) ->
  exists r', downsample f r = Some r' /\ forall p, 0 <= p < 64 ->
    getf (iq_buf_final r') p = decimated 2 (coeff_768 f) (getf (iq_buf r)) (4032 + p / 2) (1 - p mod 2).
Proof.
  intros Hs HL Hds Hfil Hrem Hlen. unfold downsample.
  destruct (first_pass f r Hs) as (r1 & -> & Eo & Er & Es & L1 & L2 & _ & G1). cbn [mbind option_bind].
  destruct (second_pass f r1 (sized_lengths _ _ _ Hs L1 L2) ds fil Hds Hfil) as (r2 & E2 & _ & _ & _ & _ & _ & G2 & _); [congruence..|].
  exists r2. split; [done|]. intros p Hp. rewrite G2, G1, HL. replace (_ && _) with true by lia.
  unfold half_rate. change (RTL_READ_COUNT / 2) with 8192. replace (_ && _) with true by lia.
  replace (8192 - 32 * 2 + p - 64) with (p + 4032 * 2) by lia. rewrite Z.div_add, Z.mod_add by lia. f_equal. lia.
Qed.
