(* ===== verification/HpsdrPacket.v ===== *)
(** * rtl_hpsdr.c: samples to packets

    A block of bytes from a dongle becomes floats ([rtlsdr_callback]), is
    downsampled, and cut into packets ([sendiq_turn]); each receiver writes its
    samples into its slots of the payload ([load_packet]).  A packet of 1032
    bytes has two frames of 512 bytes; a row of a frame has six bytes for each
    receiver and two for a microphone.  What a conversion of a float that is out
    of range gives is the parameter [oor]. *)

From S2P Require Import Prelude Arrays Double Single Coeff Downsample.
From Stdlib Require Import SpecFloat.

Definition HPSDR_FRAME_LEN := 1032.
Definition HERMES_FW_VER := 32.
Definition MAX_RCVRS := 7.

(* src/rtl_hpsdr.c: nsamps_packet *)
Definition nsamps_packet : list Z := [126; 72; 50; 38; 30; 26; 22; 20].
(* src/rtl_hpsdr.c: frame_offset1 *)
Definition frame_offset1 : list Z := [520; 520; 516; 510; 496; 510; 500; 516].
(* src/rtl_hpsdr.c: frame_offset2 *)
Definition frame_offset2 : list Z := [1032; 1032; 1028; 1022; 1008; 1022; 1012; 1028].

(** Which receivers there are: [struct main_cb] and the globals. *)
(* src/rtl_hpsdr.c:104-105 num_copy_rcvrs *)
Record receivers : Type := mk_receivers {
  active_num_rcvrs : Z;
  mcb_nsamps_packet : Z;
  mcb_frame_offset1 : Z;
  mcb_frame_offset2 : Z;
  num_copy_rcvrs : Z;
  copy_rcvr : list Z;
  using_IQfiles : bool;
}.

Section packet.
Context (oor : double -> Z).

(** A sample at [b] of the payload: 24 bits of an [int], or 16 of a [short]
    with the third byte left alone. *)
(* src/rtl_hpsdr.c:277-298 load_packet *)
Definition put_sample (files : bool) (x : single) (b : Z) (payload : list Z) : option (list Z) :=
  if files then
    let IQIData := u32 (d_to_i32 oor x) in
    payload ← arr_set payload b (Z.shiftr (IQIData .& 0xff00) 8);
    payload ← arr_set payload (b + 1) (Z.shiftr (IQIData .& 0xff0000) 16);
    arr_set payload (b + 2) (Z.shiftr (IQIData .& 0xff000000) 24)
  else
    let IQSData := d_to_i16 oor x in
    payload ← arr_set payload b (u8 (Z.shiftr IQSData 8));
    arr_set payload (b + 1) (u8 (IQSData .& 0xff)).

(** Slot [j] of a row: the state is [b], [i] and the payload. *)
(* src/rtl_hpsdr.c:273-314 load_packet *)
Definition put_slot (c : receivers) (rcvr_num : Z) (do_copy : bool) (copy_total : Z) (out_buf : list single) (o j : Z)
    (st : Z * Z * list Z) : option (Z * Z * list Z) :=
  let '(b, i, payload) := st in
  mine ← (if j =? rcvr_num then Some true
          else if do_copy then k ← arr_get (copy_rcvr c) j; Some (k =? j) else Some false);
  if (mine : bool) then
    x ← arr_get out_buf (o + i);
    payload ← put_sample (using_IQfiles c) x b payload;
    y ← arr_get out_buf (o + (i + 1));
    payload ← put_sample (using_IQfiles c) y (b + 3) payload;
    let i := if do_copy then if j =? copy_total then i + 2 else i else i + 2 in
    Some (b + 6, i, payload)
  else Some (b + 6, i, payload).

(** The rows up to [offsetx]. *)
(* src/rtl_hpsdr.c:271-316 load_packet *)
Fixpoint put_rows (fuel : nat) (row : Z * Z * list Z -> option (Z * Z * list Z)) (offsetx : Z) (st : Z * Z * list Z) :
    option (Z * Z * list Z) :=
  let '(b, i, payload) := st in
  if b <? offsetx then
    match fuel with
    | O => None
    | S fuel => '(b, i, payload) ← row (b, i, payload); put_rows fuel row offsetx (b + 2, i, payload)
    end
  else Some st.

(** [iqSamples] and the offset are those of receiver [rcvr_num]; what follows,
    waiting until the packet is sent, is in HpsdrThreads.v. *)
(* src/rtl_hpsdr.c: load_packet *)
Definition load_packet (c : receivers) (rcvr_num : Z) (r : buffers) (payload : list Z) : option (list Z) :=
  let copy_total := (active_num_rcvrs c - 1) + num_copy_rcvrs c in
  let do_copy := (0 <? num_copy_rcvrs c) && (rcvr_num =? active_num_rcvrs c - 1) in
  offset1 ← (if 0 <? num_copy_rcvrs c then arr_get frame_offset1 copy_total else Some (mcb_frame_offset1 c));
  offset2 ← (if 0 <? num_copy_rcvrs c then arr_get frame_offset2 copy_total else Some (mcb_frame_offset2 c));
  let row := for_arr (zseq (Z.to_nat (active_num_rcvrs c + num_copy_rcvrs c)))
    (put_slot c rcvr_num do_copy copy_total (iqSamples r) (iqSample_offset r * 2)) in
  let frame st :=
    let '(b, i, payload) := st in
    let offsetx := if i =? 0 then offset1 else offset2 in
    '(_, i, payload) ← put_rows (Z.to_nat HPSDR_FRAME_LEN) row offsetx (b, i, payload);
    Some (528, i, payload) in
  st ← frame (16, 0, payload);
  '(_, _, payload) ← frame st;
  Some payload.
End packet.

(** [payload[b], payload[b + 1], ...] set to [x]. *)
Fixpoint put_at (b : Z) (x payload : list Z) : option (list Z) :=
  match x with
  | [] => Some payload
  | v :: x => payload ← arr_set payload b v; put_at (b + 1) x payload
  end.

(* src/rtl_hpsdr.c: format_payload *)
Definition format_payload (payload : list Z) : option (list Z) :=
  let hpsdr_header := [0xEF; 0xFE; 1; 6; 0; 0; 0; 0] in
  let proto_header := [0x7f; 0x7f; 0x7f; 0; 0x1e; 0; 0; HERMES_FW_VER] in
  payload ← put_at 0 (replicate (Z.to_nat HPSDR_FRAME_LEN) 0) payload;
  payload ← put_at 0 hpsdr_header payload;
  payload ← put_at 8 proto_header payload;
  put_at 520 proto_header payload.

(** The number of the packet, in network order. *)
(* src/rtl_hpsdr.c:2299-2300 handler_ep6 *)
Definition plug_sequence (counter : Z) (payload : list Z) : option (list Z) :=
  put_at 4 [u8 (Z.shiftr counter 24); u8 (Z.shiftr counter 16); u8 (Z.shiftr counter 8); u8 counter] payload.
