(* ===== verification/HpsdrPacketSpec.v ===== *)
(** * rtl_hpsdr.c: what a client finds in a packet

    [load_packet] writes the samples of a receiver into its slots and nothing
    else; when all receivers have written theirs, a client that knows the format
    reads the samples back. *)

From S2P Require Import Prelude Arrays Double Single Coeff Downsample DownsampleSpec HpsdrPacket Streams.
From Stdlib Require Import SpecFloat.

(** ** The layout of a row *)

Section row.
Context (oor : double -> Z) (c : receivers) (rcvr_num : Z) (do_copy : bool) (copy_total : Z).
Context (out : list single) (o : Z).

(** The slots of the receiver, and the last one of them in a row. *)
Definition owns (j : Z) : bool := (j =? rcvr_num) || (do_copy && (getz (copy_rcvr c) j =? j)).
Definition last_slot : Z := if do_copy then copy_total else rcvr_num.

(** The bytes of a sample. *)
Definition sample_bytes (x : single) : list Z :=
  if using_IQfiles c then
    let v := u32 (d_to_i32 oor x) in [Z.shiftr (v .& 0xff00) 8; Z.shiftr (v .& 0xff0000) 16; Z.shiftr (v .& 0xff000000) 24]
  else let v := d_to_i16 oor x in [u8 (Z.shiftr v 8); u8 (v .& 0xff)].

Definition slots : Z := active_num_rcvrs c + num_copy_rcvrs c.
Definition row_size : Z := 6 * slots + 2.

(** Byte [p] of a frame that starts at [base] with the sample [s]. *)
Definition layout (base s p old : Z) : Z :=
  let n := (p - base) / row_size in
  let q := (p - base) mod row_size in
  if (q / 6 <? slots) && owns (q / 6) then
    match sample_bytes (getf out (o + 2 * (s + n) + q mod 6 / 3)) !! Z.to_nat (q mod 3) with Some v => v | None => old end
  else old.

Lemma put_sample_spec x b pay :
  0 <= b -> b + 3 <= Z.of_nat (length pay) ->
  exists pay', put_sample oor (using_IQfiles c) x b pay = Some pay' /\ length pay' = length pay /\
    forall p, getz pay' p =
      if (b <=? p) && (p <? b + 3) then
        match sample_bytes x !! Z.to_nat (p - b) with Some v => v | None => getz pay p end
      else getz pay p.
Proof.
  intros Hb Hl. unfold put_sample, sample_bytes. destruct (using_IQfiles c).
  - edestruct (arr_set_get_or 0 pay b) as (p1 & -> & L1 & G1); [lia|]. cbn [mbind option_bind].
    edestruct (arr_set_get_or 0 p1 (b + 1)) as (p2 & -> & L2 & G2); [lia|]. cbn [mbind option_bind].
    edestruct (arr_set_get_or 0 p2 (b + 2)) as (p3 & -> & L3 & G3); [lia|].
    exists p3. split_and!; [done|congruence|]. intros p. rewrite G3, G2, G1.
    destruct (Z.eqb_spec p (b + 2)) as [->|]; [|destruct (Z.eqb_spec p (b + 1)) as [->|]; [|destruct (Z.eqb_spec p b) as [->|]]].
    + replace (_ && _) with true by lia. by replace (b + 2 - b) with 2 by lia.
    + replace (_ && _) with true by lia. by replace (b + 1 - b) with 1 by lia.
    + replace (_ && _) with true by lia. by rewrite Z.sub_diag.
    + by replace (_ && _) with false by lia.
  - edestruct (arr_set_get_or 0 pay b) as (p1 & -> & L1 & G1); [lia|]. cbn [mbind option_bind].
    edestruct (arr_set_get_or 0 p1 (b + 1)) as (p2 & -> & L2 & G2); [lia|].
    exists p2. split_and!; [done|congruence|]. intros p. rewrite G2, G1.
    destruct (Z.eqb_spec p (b + 1)) as [->|]; [|destruct (Z.eqb_spec p b) as [->|]].
    + replace (_ && _) with true by lia. by replace (b + 1 - b) with 1 by lia.
    + replace (_ && _) with true by lia. by rewrite Z.sub_diag.
    + destruct (Z.eqb_spec p (b + 2)) as [->|].
      * replace (_ && _) with true by lia. by replace (b + 2 - b) with 2 by lia.
      * by replace (_ && _) with false by lia.
Qed.

(** The position of a byte in its frame. *)
Lemma row_position base n r p : 0 <= r < row_size -> p = base + n * row_size + r ->
  (p - base) / row_size = n /\ (p - base) mod row_size = r.
Proof.
  intros Hr ->. replace (base + n * row_size + r - base) with (r + n * row_size) by lia.
  rewrite Z.div_add, Z.mod_add by lia. rewrite Z.div_small, Z.mod_small by lia. lia.
Qed.

(** What a turn may rely on: the slots of the receiver end with [last_slot], and
    [copy_rcvr] has an entry for every slot. *)
Context (Hslots : 0 < slots <= Z.of_nat (length (copy_rcvr c))).
Context (Hlast : 0 <= last_slot < slots /\ owns last_slot = true).
Context (Howns : forall j, 0 <= j < slots -> owns j = true -> j <= last_slot).
Context (Hnext : forall j, do_copy = false -> owns j = true -> j = last_slot).

(** Part of the frame from [base] on is written, up to [b]. *)
Definition written (base s : Z) (pay0 : list Z) (b : Z) (pay : list Z) : Prop :=
  length pay = length pay0 /\
  forall p, getz pay p = if (base <=? p) && (p <? b) then layout base s p (getz pay0 p) else getz pay0 p.

(** Before slot [j] of row [n]. *)
Definition at_slot (base s n : Z) (pay0 : list Z) (j : Z) (st : Z * Z * list Z) : Prop :=
  let '(b, i, pay) := st in
  b = base + n * row_size + 6 * j /\ i = 2 * (s + n) + (if last_slot <? j then 2 else 0) /\ written base s pay0 b pay.

Lemma mine_spec j : 0 <= j < slots ->
  (if j =? rcvr_num then Some true else if do_copy then k ← arr_get (copy_rcvr c) j; Some (k =? j) else Some false) = Some (owns j).
Proof.
  intros Hj. unfold owns. destruct (j =? rcvr_num); [done|]. destruct do_copy; [|done].
  rewrite (arr_get_get_or 0) by lia. done.
Qed.

Lemma owned_slot_spec base s n j pay0 pay pay1 pay2 x y b :
  0 <= n -> 0 <= j < slots -> owns j = true -> b = base + n * row_size + 6 * j ->
  x = getf out (o + 2 * (s + n)) -> y = getf out (o + 2 * (s + n) + 1) ->
  written base s pay0 b pay -> length pay2 = length pay ->
  (forall p, getz pay1 p = if (b <=? p) && (p <? b + 3) then
     match sample_bytes x !! Z.to_nat (p - b) with Some v => v | None => getz pay p end else getz pay p) ->
  (forall p, getz pay2 p = if (b + 3 <=? p) && (p <? b + 3 + 3) then
     match sample_bytes y !! Z.to_nat (p - (b + 3)) with Some v => v | None => getz pay1 p end else getz pay1 p) ->
  written base s pay0 (b + 6) pay2.
Proof.
  intros Hn Hj Ho Hb -> -> [L H] L2 G1 G2. split; [congruence|]. intros p. rewrite G2, G1, H.
  destruct (Z.ltb_spec p b) as [Hp|Hp].
  { replace (b + 3 <=? p) with false by lia. replace (b <=? p) with false by lia. cbn [andb].
    by replace (p <? b + 6) with true by lia. }
  rewrite (andb_false_r (base <=? p)). destruct (Z.ltb_spec p (b + 6)) as [Hq|Hq].
  2:{ rewrite (andb_false_r (base <=? p)). replace (p <? b + 3 + 3) with false by lia. replace (p <? b + 3) with false by lia.
      by rewrite !andb_false_r. }
  assert (0 <= n * row_size) by (unfold row_size; nia).
  replace (base <=? p) with true by lia. cbn [andb]. unfold layout.
  destruct (row_position base n (6 * j + (p - b)) p) as [-> ->]; [unfold row_size; lia|lia|].
  replace ((6 * j + (p - b)) / 6) with j by (apply Z.div_unique with (p - b); lia).
  replace (j <? slots) with true by lia. rewrite Ho. cbn [andb].
  replace ((6 * j + (p - b)) mod 6) with (p - b) by (apply Z.mod_unique with j; lia).
  destruct (Z.ltb_spec p (b + 3)).
  - replace (b + 3 <=? p) with false by lia. replace (b <=? p) with true by lia. cbn [andb].
    replace ((p - b) / 3) with 0 by (apply Z.div_unique with (p - b); lia).
    replace ((6 * j + (p - b)) mod 3) with (p - b) by (apply Z.mod_unique with (2 * j); lia). by rewrite Z.add_0_r.
  - replace (b + 3 <=? p) with true by lia. replace (p <? b + 3 + 3) with true by lia. rewrite andb_false_r. cbn [andb].
    replace ((p - b) / 3) with 1 by (apply Z.div_unique with (p - b - 3); lia).
    replace ((6 * j + (p - b)) mod 3) with (p - (b + 3)) by (apply Z.mod_unique with (2 * j + 1); lia). done.
Qed.

Lemma other_slot_spec base s n j pay0 pay b :
  0 <= n -> 0 <= j < slots -> owns j = false -> b = base + n * row_size + 6 * j ->
  written base s pay0 b pay -> written base s pay0 (b + 6) pay.
Proof.
  intros Hn Hj Ho Hb [L H]. split; [done|]. intros p. rewrite H. destruct (Z.leb_spec base p) as [Hp|Hp]; [|done]. cbn [andb].
  destruct (Z.ltb_spec p b); [by replace (p <? b + 6) with true by lia|].
  destruct (Z.ltb_spec p (b + 6)); [|done]. unfold layout.
  destruct (row_position base n (6 * j + (p - b)) p) as [-> ->]; [unfold row_size; lia|lia|].
  replace ((6 * j + (p - b)) / 6) with j by (apply Z.div_unique with (p - b); lia). by rewrite Ho, andb_false_r.
Qed.

Lemma put_slot_spec base s n j pay0 st :
  0 <= base -> 0 <= n -> 0 <= j < slots -> 0 <= o + 2 * (s + n) -> o + 2 * (s + n) + 2 <= Z.of_nat (length out) ->
  base + (n + 1) * row_size <= Z.of_nat (length pay0) ->
  at_slot base s n pay0 j st ->
  exists st', put_slot oor c rcvr_num do_copy copy_total out o j st = Some st' /\ at_slot base s n pay0 (j + 1) st'.
Proof.
  intros Hbase Hn Hj Ho1 Ho2 Hl. destruct st as [[b i] pay]. intros (Eb & Ei & W). unfold put_slot. rewrite mine_spec by done.
  cbn [mbind option_bind]. destruct (owns j) eqn:Eo.
  - pose proof (Howns j Hj Eo). replace (last_slot <? j) with false in Ei by lia. rewrite Z.add_0_r in Ei. subst i.
    assert (0 <= n * row_size) by (unfold row_size; nia). assert (b + 6 <= Z.of_nat (length pay)).
    { destruct W as [-> _]. unfold row_size in *. lia. }
    rewrite (arr_get_get_or fzero out (o + 2 * (s + n))) by lia. cbn [mbind option_bind].
    destruct (put_sample_spec (getf out (o + 2 * (s + n))) b pay) as (p1 & -> & L1 & G1); [lia..|]. cbn [mbind option_bind].
    rewrite (arr_get_get_or fzero out (o + (2 * (s + n) + 1))) by lia. cbn [mbind option_bind].
    destruct (put_sample_spec (getf out (o + (2 * (s + n) + 1))) (b + 3) p1) as (p2 & -> & L2 & G2); [lia..|]. cbn [mbind option_bind].
    eexists. split; [done|]. split_and!; [lia| |].
    + unfold last_slot in *. destruct do_copy.
      * destruct (Z.eqb_spec j copy_total); [replace (_ <? _) with true by lia|replace (_ <? _) with false by lia]; lia.
      * specialize (Hnext j eq_refl Eo). replace (_ <? _) with true by lia. lia.
    + apply (owned_slot_spec base s n j pay0 pay p1 p2 _ _ b Hn Hj Eo Eb eq_refl (f_equal _ (Z.add_assoc _ _ _)) W); [congruence|done|done].
  - eexists. split; [done|]. split_and!; [lia| |by apply (other_slot_spec base s n j)].
    assert (j <> last_slot) by (intros E; rewrite E, (proj2 Hlast) in Eo; done).
    destruct (Z.ltb_spec last_slot j); [replace (_ <? _) with true by lia|replace (_ <? _) with false by lia]; lia.
Qed.

(** ** A frame *)

(** Before row [n]. *)
Definition at_row (base s : Z) (pay0 : list Z) (n : Z) (st : Z * Z * list Z) : Prop :=
  let '(b, i, pay) := st in b = base + n * row_size /\ i = 2 * (s + n) /\ written base s pay0 b pay.

Lemma put_row_spec base s pay0 n st :
  0 <= base -> 0 <= n -> 0 <= o + 2 * (s + n) -> o + 2 * (s + n) + 2 <= Z.of_nat (length out) ->
  base + (n + 1) * row_size <= Z.of_nat (length pay0) -> at_row base s pay0 n st ->
  exists b i pay, for_arr (zseq (Z.to_nat slots)) (put_slot oor c rcvr_num do_copy copy_total out o) st = Some (b, i, pay) /\
    at_row base s pay0 (n + 1) (b + 2, i, pay).
Proof.
  intros Hbase Hn Ho1 Ho2 Hl Hst. rewrite <- (map_id (zseq _)).
  destruct (for_arr_inv (put_slot oor c rcvr_num do_copy copy_total out o) (at_slot base s n pay0) (Z.to_nat slots) id st)
    as ([[b i] pay] & E & Hb & Hi & W).
  - destruct st as [[b i] pay]. destruct Hst as (-> & -> & W). split_and!; [lia| |done].
    replace (last_slot <? 0) with false by lia. lia.
  - intros j st' Hj Hst'. apply (put_slot_spec base s n j pay0); [lia..|done].
  - exists b, i, pay. rewrite Z2Nat.id in * by lia. replace (last_slot <? slots) with true in Hi by lia.
    split; [exact E|]. split; [unfold row_size in *; lia|]. split; [lia|]. destruct W as [L W]. split; [done|].
    intros p. rewrite W. destruct (Z.leb_spec base p) as [Hp|]; [|done]. cbn [andb].
    destruct (Z.ltb_spec p b); [by replace (p <? b + 2) with true by lia|]. destruct (Z.ltb_spec p (b + 2)); [|done].
    unfold layout. destruct (row_position base n (6 * slots + (p - b)) p) as [_ ->]; [unfold row_size; lia|lia|].
    replace ((6 * slots + (p - b)) / 6) with slots by (apply Z.div_unique with (p - b); lia). by rewrite Z.ltb_irrefl.
Qed.

Lemma put_rows_spec base s pay0 N : forall fuel n st,
  0 <= base -> 0 <= n <= N -> N - n <= Z.of_nat fuel -> 0 <= o + 2 * (s + n) -> o + 2 * (s + N) <= Z.of_nat (length out) ->
  base + N * row_size <= Z.of_nat (length pay0) -> at_row base s pay0 n st ->
  exists b i pay, put_rows fuel (for_arr (zseq (Z.to_nat slots)) (put_slot oor c rcvr_num do_copy copy_total out o))
      (base + N * row_size) st = Some (b, i, pay) /\ at_row base s pay0 N (b, i, pay).
Proof.
  assert (0 < row_size) as Hrow by (unfold row_size; lia).
  induction fuel as [|fuel IH]; intros n st Hbase Hn Hf Ho1 Ho2 Hl Hst; destruct st as [[b i] pay].
  - exists b, i, pay. assert (n = N) as -> by lia. split; [|done]. cbn [put_rows]. destruct Hst as (-> & _).
    by rewrite Z.ltb_irrefl.
  - cbn [put_rows]. destruct (Z.eq_dec n N) as [->|Hne].
    + exists b, i, pay. split; [|done]. destruct Hst as (-> & _). by rewrite Z.ltb_irrefl.
    + replace (b <? base + N * row_size) with true by (destruct Hst as (-> & _); nia).
      destruct (put_row_spec base s pay0 n (b, i, pay)) as (b' & i' & pay' & -> & H'); [lia..|nia|done|].
      cbn [mbind option_bind]. apply (IH (n + 1)); [lia..|done].
Qed.
End row.

(** ** A packet *)

(** The rows of a frame of 504 bytes for [R] receivers. *)
Definition rows (R : Z) : Z := 504 / (6 * R + 2).

Lemma frame_tables R : 1 <= R <= 8 ->
  arr_get nsamps_packet (R - 1) = Some (2 * rows R) /\
  arr_get frame_offset1 (R - 1) = Some (16 + rows R * (6 * R + 2)) /\
  arr_get frame_offset2 (R - 1) = Some (528 + rows R * (6 * R + 2)) /\
  0 < rows R /\ rows R * (6 * R + 2) <= 504.
Proof.
  intros HR. assert (R = 1 \/ R = 2 \/ R = 3 \/ R = 4 \/ R = 5 \/ R = 6 \/ R = 7 \/ R = 8) as H by lia.
  repeat (destruct H as [-> | H]; [split_and!; done|]). subst. split_and!; done.
Qed.

(** The receivers as process_ep2 leaves them: the copies have the slots after
    the active receivers. *)
Record receivers_ok (c : receivers) : Prop := {
  ok_active : 1 <= active_num_rcvrs c;
  ok_copies : 0 <= num_copy_rcvrs c;
  ok_slots : slots c <= MAX_RCVRS;
  ok_nsamps : mcb_nsamps_packet c = 2 * rows (active_num_rcvrs c);
  ok_offset1 : mcb_frame_offset1 c = 16 + rows (active_num_rcvrs c) * (6 * active_num_rcvrs c + 2);
  ok_offset2 : mcb_frame_offset2 c = 528 + rows (active_num_rcvrs c) * (6 * active_num_rcvrs c + 2);
  ok_length : length (copy_rcvr c) = 7%nat;
  ok_real : forall j, 0 <= j < active_num_rcvrs c -> getz (copy_rcvr c) j <> j;
  ok_copy : forall j, active_num_rcvrs c <= j < slots c -> getz (copy_rcvr c) j = j;
}.

(** The slot shows the receiver with the number, the last one for a copy. *)
Definition shown (c : receivers) (j : Z) : Z := Z.min j (active_num_rcvrs c - 1).

Definition do_copy (c : receivers) (k : Z) : bool := (0 <? num_copy_rcvrs c) && (k =? active_num_rcvrs c - 1).

Lemma owns_shown c k j : receivers_ok c -> 0 <= k < active_num_rcvrs c -> 0 <= j < slots c ->
  owns c k (do_copy c k) j = (shown c j =? k).
Proof.
  intros [H1 H2 _ _ _ _ _ Hr Hc] Hk Hj. unfold owns, do_copy, shown. unfold slots in *.
  destruct (Z.ltb_spec j (active_num_rcvrs c)) as [Ha|Ha].
  - specialize (Hr j ltac:(lia)). lia.
  - specialize (Hc j ltac:(lia)). lia.
Qed.

Section load.
Context (oor : double -> Z) (c : receivers) (Hc : receivers_ok c).

(** Byte [p] of the packet after receiver [k] wrote the samples from [o] of
    [out]. *)
Definition packet_byte (k : Z) (out : list single) (o p old : Z) : Z :=
  let N := rows (slots c) in
  if (16 <=? p) && (p <? 16 + N * row_size c) then layout oor c k (do_copy c k) out o 16 0 p old
  else if (528 <=? p) && (p <? 528 + N * row_size c) then layout oor c k (do_copy c k) out o 528 N p old
  else old.

Lemma offsets_ok :
  let R := slots c in let N := rows R in
  (if 0 <? num_copy_rcvrs c then arr_get frame_offset1 ((active_num_rcvrs c - 1) + num_copy_rcvrs c) else Some (mcb_frame_offset1 c)) =
    Some (16 + N * row_size c) /\
  (if 0 <? num_copy_rcvrs c then arr_get frame_offset2 ((active_num_rcvrs c - 1) + num_copy_rcvrs c) else Some (mcb_frame_offset2 c)) =
    Some (528 + N * row_size c) /\ 0 < N /\ N * row_size c <= 504.
Proof using Hc.
  destruct Hc as [H1 H2 H3 _ Ho1 Ho2 _ _ _]. cbv zeta. unfold row_size.
  assert (1 <= slots c <= 8) as HR by (unfold slots, MAX_RCVRS in *; lia).
  destruct (frame_tables _ HR) as (_ & E1 & E2 & HN & Hs).
  replace (active_num_rcvrs c - 1 + num_copy_rcvrs c) with (slots c - 1) by (unfold slots; lia).
  destruct (Z.ltb_spec 0 (num_copy_rcvrs c)); [done|].
  assert (active_num_rcvrs c = slots c) as E by (unfold slots; lia). rewrite Ho1, Ho2, E. by split_and!.
Qed.

Lemma load_packet_spec k r pay :
  0 <= k < active_num_rcvrs c -> 0 <= iqSample_offset r ->
  2 * (iqSample_offset r + 2 * rows (slots c)) <= Z.of_nat (length (iqSamples r)) -> length pay = 1032%nat ->
  exists pay', load_packet oor c k r pay = Some pay' /\ length pay' = 1032%nat /\
    forall p, getz pay' p = packet_byte k (iqSamples r) (iqSample_offset r * 2) p (getz pay p).
Proof using Hc.
  intros Hk Ho Hs Hl. destruct offsets_ok as (E1 & E2 & HN & Hsz). unfold load_packet. rewrite E1, E2.
  cbn [mbind option_bind]. fold (slots c). fold (do_copy c k). pose proof Hc as [H1 H2 H3 _ _ _ Hlen Hr Hcp].
  set (N := rows (slots c)) in *. assert (0 < row_size c) as Hrow by (unfold row_size, slots in *; lia).
  assert (0 < slots c <= Z.of_nat (length (copy_rcvr c))) as A1 by (rewrite Hlen; unfold slots, MAX_RCVRS in *; lia).
  set (T := active_num_rcvrs c - 1 + num_copy_rcvrs c).
  assert (0 <= last_slot k (do_copy c k) T < slots c) as A2 by (unfold last_slot, do_copy, slots in *; destruct (_ && _); lia).
  assert (owns c k (do_copy c k) (last_slot k (do_copy c k) T) = true) as A2'.
  { rewrite owns_shown by (done || unfold slots in *; lia). unfold shown, last_slot, do_copy, slots in *. destruct (_ && _) eqn:?; lia. }
  assert (forall j, 0 <= j < slots c -> owns c k (do_copy c k) j = true -> j <= last_slot k (do_copy c k) T) as A3.
  { intros j Hj. rewrite owns_shown by done. unfold shown, last_slot, do_copy, slots in *. destruct (_ && _) eqn:?; lia. }
  assert (forall j, do_copy c k = false -> owns c k (do_copy c k) j = true -> j = last_slot k (do_copy c k) T) as A4.
  { intros j Ed. unfold owns, last_slot. rewrite Ed. lia. }
  destruct (put_rows_spec oor c k (do_copy c k) T (iqSamples r) (iqSample_offset r * 2) A1 (conj A2 A2') A3 A4 16 0 pay N
    (Z.to_nat HPSDR_FRAME_LEN) 0 (16, 0, pay)) as (b1 & i1 & p1 & F1 & Hb1 & Hi1 & L1 & G1);
    [unfold HPSDR_FRAME_LEN; nia..| |].
  { split_and!; [lia|lia|]. split; [done|]. intros p. by replace ((16 <=? p) && (p <? 16)) with false by lia. }
  cbn [Z.eqb]. rewrite F1. cbn [mbind option_bind]. replace (i1 =? 0) with false by lia.
  destruct (put_rows_spec oor c k (do_copy c k) T (iqSamples r) (iqSample_offset r * 2) A1 (conj A2 A2') A3 A4 528 N p1 N
    (Z.to_nat HPSDR_FRAME_LEN) 0 (528, i1, p1)) as (b2 & i2 & p2 & F2 & Hb2 & Hi2 & L2 & G2);
    [unfold HPSDR_FRAME_LEN; nia..| |].
  { split_and!; [lia|lia|]. split; [done|]. intros p. by replace ((528 <=? p) && (p <? 528)) with false by lia. }
  rewrite F2. cbn [mbind option_bind]. exists p2. split; [done|]. split; [congruence|]. intros p.
  rewrite G2, G1, Hb1, Hb2. unfold packet_byte. fold N.
  destruct (Z.leb_spec 16 p), (Z.ltb_spec p (16 + N * row_size c)); cbn [andb]; [|done..].
  by replace (528 <=? p) with false by lia.
Qed.
End load.

(** ** All receivers *)

Section client.
Context (oor : double -> Z) (c : receivers) (Hc : receivers_ok c).

(** The receiver that writes byte [p], if one does. *)
Definition owner (p : Z) : option Z :=
  let area := rows (slots c) * row_size c in
  let q := if (16 <=? p) && (p <? 16 + area) then Some ((p - 16) mod row_size c)
           else if (528 <=? p) && (p <? 528 + area) then Some ((p - 528) mod row_size c) else None in
  q ← q; if q / 6 <? slots c then Some (shown c (q / 6)) else None.

Lemma row_size_pos : 0 < row_size c.
Proof using Hc. destruct Hc. unfold row_size, slots in *. lia. Qed.

Lemma layout_other k out o base s p old :
  0 <= k < active_num_rcvrs c -> base <= p ->
  (if (p - base) mod row_size c / 6 <? slots c then Some (shown c ((p - base) mod row_size c / 6)) else None) <> Some k ->
  layout oor c k (do_copy c k) out o base s p old = old.
Proof using Hc.
  intros Hk Hp Hne. unfold layout. pose proof row_size_pos. pose proof (Z.mod_pos_bound (p - base) (row_size c) ltac:(done)).
  assert (0 <= (p - base) mod row_size c / 6) by (apply Z.div_pos; lia).
  destruct (Z.ltb_spec ((p - base) mod row_size c / 6) (slots c)); [|done]. cbn [andb].
  rewrite owns_shown by (done || lia). destruct (Z.eqb_spec (shown c ((p - base) mod row_size c / 6)) k) as [E|]; [|done].
  by rewrite E in Hne.
Qed.

Lemma packet_byte_other k out o p old :
  0 <= k < active_num_rcvrs c -> owner p <> Some k -> packet_byte oor c k out o p old = old.
Proof using Hc.
  intros Hk. unfold packet_byte, owner. set (a := rows (slots c) * row_size c).
  destruct ((16 <=? p) && (p <? 16 + a)) eqn:E1; [apply layout_other; [done|lia]|].
  destruct ((528 <=? p) && (p <? 528 + a)) eqn:E2; [apply layout_other; [done|lia]|done].
Qed.

Context (rs : Z -> buffers).
Context (Hrs : forall k, 0 <= k < active_num_rcvrs c -> 0 <= iqSample_offset (rs k) /\
  2 * (iqSample_offset (rs k) + 2 * rows (slots c)) <= Z.of_nat (length (iqSamples (rs k)))).

(** The receivers write one after the other. *)
Definition load_all (ks : list Z) (pay : list Z) : option (list Z) :=
  for_arr ks (fun k pay => load_packet oor c k (rs k) pay) pay.

Definition byte_of (k p old : Z) : Z := packet_byte oor c k (iqSamples (rs k)) (iqSample_offset (rs k) * 2) p old.

Lemma load_all_spec ks : forall pay,
  NoDup ks -> (forall k, k ∈ ks -> 0 <= k < active_num_rcvrs c) -> length pay = 1032%nat ->
  exists pay', load_all ks pay = Some pay' /\ length pay' = 1032%nat /\
    forall p, getz pay' p = match owner p with
                            | Some k => if decide (k ∈ ks) then byte_of k p (getz pay p) else getz pay p
                            | None => getz pay p
                            end.
Proof using Hc Hrs.
  induction ks as [|k ks IH]; intros pay Hnd Hks Hl.
  { exists pay. split_and!; [done|done|]. intros p. destruct (owner p) as [k|]; [|done].
    by rewrite decide_False by apply not_elem_of_nil. }
  apply NoDup_cons in Hnd as [Hk Hnd]. assert (0 <= k < active_num_rcvrs c) as Hr by (apply Hks; left).
  destruct (load_packet_spec oor c Hc k (rs k) pay Hr) as (p1 & E1 & L1 & G1); [apply Hrs, Hr..|done|].
  unfold load_all. cbn [for_arr]. rewrite E1. cbn [mbind option_bind].
  destruct (IH p1 Hnd) as (p2 & E2 & L2 & G2); [intros k' Hk'; apply Hks; by right|done|].
  exists p2. split_and!; [done|done|]. intros p. rewrite G2, G1. fold (byte_of k p (getz pay p)).
  assert (owner p <> Some k -> byte_of k p (getz pay p) = getz pay p) as Ho by (intros; by apply packet_byte_other).
  destruct (owner p) as [k'|]; [|by apply Ho]. destruct (decide (k' = k)) as [->|Hne].
  - rewrite decide_False by done. rewrite decide_True by (by left). done.
  - rewrite Ho by congruence. destruct (decide (k' ∈ ks)) as [Hin|Hin].
    + by rewrite decide_True by (by right).
    + rewrite decide_False; [done|]. by apply not_elem_of_cons.
Qed.

(** ** The client *)

(** Where byte 0 of number [h] (I or Q) of sample [n] in slot [j] is. *)
Definition sample_position (j n h : Z) : Z :=
  let N := rows (slots c) in
  (if n <? N then 16 + n * row_size c else 528 + (n - N) * row_size c) + 6 * j + 3 * h.

(** A big-endian number of 24 bits. *)
Definition read24 (pay : list Z) (b : Z) : Z :=
  let v := getz pay b * 2 ^ 16 + getz pay (b + 1) * 2 ^ 8 + getz pay (b + 2) in
  if v <? 2 ^ 23 then v else v - 2 ^ 24.

(** Nothing is in the third bytes. *)
Definition clean (pay : list Z) : Prop :=
  length pay = 1032%nat /\
  forall j n h, 0 <= j < slots c -> 0 <= n < 2 * rows (slots c) -> 0 <= h < 2 -> getz pay (sample_position j n h + 2) = 0.

Lemma position_byte k p j n h d old :
  0 <= j < slots c -> 0 <= n < 2 * rows (slots c) -> 0 <= h < 2 -> 0 <= d < 3 -> k = shown c j ->
  p = sample_position j n h + d ->
  owner p = Some k /\
  byte_of k p old = match sample_bytes oor c (getf (iqSamples (rs k)) (2 * (iqSample_offset (rs k) + n) + h)) !! Z.to_nat d with
                    | Some v => v | None => old end.
Proof using Hc.
  intros Hj Hn Hh Hd -> ->. set (N := rows (slots c)) in *. pose proof row_size_pos as Hrow.
  destruct (offsets_ok c Hc) as (_ & _ & HN & Hsz). fold N in HN, Hsz.
  assert (0 <= shown c j < active_num_rcvrs c) as Hk by (destruct Hc; unfold shown; lia).
  assert (0 <= 6 * j + 3 * h + d < row_size c) as Hr by (unfold row_size; lia).
  assert ((6 * j + 3 * h + d) / 6 = j) as E6 by (symmetry; apply Z.div_unique with (3 * h + d); lia).
  assert (forall base s, layout oor c (shown c j) (do_copy c (shown c j)) (iqSamples (rs (shown c j))) (iqSample_offset (rs (shown c j)) * 2)
    base s (base + (n - s) * row_size c + (6 * j + 3 * h + d)) old =
    match sample_bytes oor c (getf (iqSamples (rs (shown c j))) (2 * (iqSample_offset (rs (shown c j)) + n) + h)) !! Z.to_nat d with
                    | Some v => v | None => old end) as Hlay.
  { intros base s. unfold layout. destruct (row_position c base (n - s) (6 * j + 3 * h + d) _ Hr eq_refl) as [-> ->].
    rewrite E6. replace (j <? slots c) with true by lia. rewrite owns_shown, Z.eqb_refl by (done || lia). cbn [andb].
    replace ((6 * j + 3 * h + d) mod 6) with (3 * h + d) by (apply Z.mod_unique with j; lia).
    replace ((3 * h + d) / 3) with h by (apply Z.div_unique with d; lia).
    replace ((6 * j + 3 * h + d) mod 3) with d by (apply Z.mod_unique with (2 * j + h); lia).
    by replace (iqSample_offset (rs (shown c j)) * 2 + 2 * (s + (n - s)) + h) with (2 * (iqSample_offset (rs (shown c j)) + n) + h) by lia. }
  unfold sample_position. fold N. destruct (Z.ltb_spec n N) as [Hlt|Hge].
  - set (p := 16 + n * row_size c + 6 * j + 3 * h + d). assert (16 <= p < 16 + N * row_size c) as Hp by (unfold p; nia).
    assert (p = 16 + (n - 0) * row_size c + (6 * j + 3 * h + d)) as Ep by (unfold p; lia). split.
    + unfold owner. fold N. replace (_ && _) with true by lia. cbn [mbind option_bind].
      destruct (row_position c 16 (n - 0) (6 * j + 3 * h + d) p Hr Ep) as [_ ->]. rewrite E6. by replace (j <? slots c) with true by lia.
    + unfold byte_of, packet_byte. fold N. replace (_ && _) with true by lia. by rewrite Ep, Hlay.
  - set (p := 528 + (n - N) * row_size c + 6 * j + 3 * h + d). assert (528 <= p < 528 + N * row_size c) as Hp by (unfold p; nia).
    assert (p = 528 + (n - N) * row_size c + (6 * j + 3 * h + d)) as Ep by (unfold p; lia). split.
    + unfold owner. fold N. replace (_ && _) with false by lia. replace (_ && _) with true by lia. cbn [mbind option_bind].
      destruct (row_position c 528 (n - N) (6 * j + 3 * h + d) p Hr Ep) as [_ ->]. rewrite E6. by replace (j <? slots c) with true by lia.
    + unfold byte_of, packet_byte. fold N. replace (_ && _) with false by lia. replace (_ && _) with true by lia. by rewrite Ep, Hlay.
Qed.
End client.

Lemma d_to_i16_range oor x : is_i16 (d_to_i16 oor x).
Proof.
  unfold d_to_i16. destruct (d_trunc x) as [z|]; [|apply i16_range]. destruct (_ && _) eqn:?; [unfold is_i16; lia|apply i16_range].
Qed.

Lemma read24_short pay b v : is_i16 v ->
  getz pay b = u8 (Z.shiftr v 8) -> getz pay (b + 1) = u8 (v .& 0xff) -> getz pay (b + 2) = 0 -> read24 pay b = 256 * v.
Proof.
  intros Hv E1 E2 E3. unfold read24. rewrite E1, E2, E3. change 0xff with (Z.ones 8). rewrite Z.land_ones, Z.shiftr_div_pow2 by lia.
  unfold u8, is_i16 in *. rewrite Z.mod_mod by lia. cbv zeta.
  pose proof (Z.div_mod v (2 ^ 8) ltac:(lia)). pose proof (Z.mod_pos_bound v (2 ^ 8) ltac:(lia)).
  pose proof (Z.div_mod (v / 2 ^ 8) (2 ^ 8) ltac:(lia)). pose proof (Z.mod_pos_bound (v / 2 ^ 8) (2 ^ 8) ltac:(lia)).
  destruct (Z.ltb_spec ((v / 2 ^ 8) mod 2 ^ 8 * 2 ^ 16 + v mod 2 ^ 8 * 2 ^ 8 + 0) (2 ^ 23)); lia.
Qed.

(** C29: the client gets the samples of dongles ([using_IQfiles] is 0: those of
    files have their bytes reversed, [file_bytes_reversed]), when the third bytes
    of all samples in the payload are 0 ([clean]: as [format_payload] leaves it; a
    layout for another number of receivers may have left others,
    [stale_third_bytes]).  When every active receiver has written its packet, in
    any order, the 24-bit numbers of the packet are the samples of the receivers
    (as 16-bit numbers, times 256): slot by slot, I before Q, the copies showing
    the last receiver.  The headers are as they were, and the payload is fit for
    the next round. *)
Theorem client_reads_samples oor c rs ks pay :
  receivers_ok c -> using_IQfiles c = false -> clean c pay ->
  NoDup ks -> (forall k, k ∈ ks <-> 0 <= k < active_num_rcvrs c) ->
  (forall k, 0 <= k < active_num_rcvrs c -> 0 <= iqSample_offset (rs k) /\
     2 * (iqSample_offset (rs k) + 2 * rows (slots c)) <= Z.of_nat (length (iqSamples (rs k)))) ->
  exists pay', load_all oor c rs ks pay = Some pay' /\ clean c pay' /\
    (forall p, p < 16 \/ 520 <= p < 528 -> getz pay' p = getz pay p) /\
    forall j n h, 0 <= j < slots c -> 0 <= n < 2 * rows (slots c) -> 0 <= h < 2 ->
      let r := rs (shown c j) in
      read24 pay' (sample_position c j n h) = 256 * d_to_i16 oor (getf (iqSamples r) (2 * (iqSample_offset r + n) + h)).
Proof.
  intros Hc Hf [Hl Hz] Hnd Hks Hrs.
  destruct (load_all_spec oor c Hc rs Hrs ks pay Hnd (fun k Hk => proj1 (Hks k) Hk) Hl) as (pay' & E & L & G).
  assert (forall j n h d, 0 <= j < slots c -> 0 <= n < 2 * rows (slots c) -> 0 <= h < 2 -> 0 <= d < 3 ->
    getz pay' (sample_position c j n h + d) =
    match sample_bytes oor c (getf (iqSamples (rs (shown c j))) (2 * (iqSample_offset (rs (shown c j)) + n) + h)) !! Z.to_nat d with
    | Some v => v | None => getz pay (sample_position c j n h + d) end) as Hb.
  { intros j n h d Hj Hn Hh Hd. rewrite G.
    destruct (position_byte oor c Hc rs (shown c j) _ j n h d (getz pay (sample_position c j n h + d)) Hj Hn Hh Hd eq_refl eq_refl) as [-> ->].
    rewrite decide_True; [done|]. apply Hks. destruct Hc. unfold shown. lia. }
  unfold sample_bytes in Hb. rewrite Hf in Hb.
  exists pay'. split_and!; [done| | |].
  - split; [done|]. intros j n h Hj Hn Hh. rewrite Hb by lia. cbn. by apply Hz.
  - intros p Hp. rewrite G. destruct (offsets_ok c Hc) as (_ & _ & HN & Hsz).
    unfold owner. replace ((16 <=? p) && (p <? 16 + rows (slots c) * row_size c)) with false by lia.
    by replace ((528 <=? p) && (p <? 528 + rows (slots c) * row_size c)) with false by lia.
  - intros j n h Hj Hn Hh. cbv zeta. apply read24_short; [apply d_to_i16_range| | |].
    + pose proof (Hb j n h 0 Hj Hn Hh ltac:(lia)) as H. by rewrite Z.add_0_r in H.
    + by rewrite Hb by lia.
    + rewrite Hb by lia. cbn. by apply Hz.
Qed.

(** ** The empty payload *)

Lemma put_at_app x : forall a y b, length y = length x -> put_at (Z.of_nat (length a)) x (a ++ y ++ b) = Some (a ++ x ++ b).
Proof.
  induction x as [|v x IH]; intros a y b Hy; destruct y as [|w y]; try done. cbn [put_at].
  cbn [app]. rewrite (arr_set_mid a w v (y ++ b)) by done. cbn [mbind option_bind].
  specialize (IH (a ++ [v]) y b ltac:(by injection Hy)). rewrite length_app in IH. cbn [length] in IH.
  rewrite <- !app_assoc in IH. cbn [app] in IH. by replace (Z.of_nat (length a) + 1) with (Z.of_nat (length a + 1)) by lia.
Qed.

(** The payload after [format_payload]. *)
Definition formatted : list Z := default [] (format_payload (replicate (Z.to_nat 1032) 0)).

Lemma format_payload_spec pay : length pay = 1032%nat -> format_payload pay = Some formatted.
Proof.
  intros Hl. assert (put_at 0 (replicate (Z.to_nat HPSDR_FRAME_LEN) 0) pay = Some (replicate (Z.to_nat HPSDR_FRAME_LEN) 0)) as E.
  { pose proof (put_at_app (replicate (Z.to_nat HPSDR_FRAME_LEN) 0) [] pay []) as H. rewrite !app_nil_r in H. apply H.
    by rewrite Hl, length_replicate. }
  unfold format_payload. rewrite E. cbn [mbind option_bind]. vm_compute. reflexivity.
Qed.

Lemma formatted_clean c : receivers_ok c -> clean c formatted.
Proof.
  intros Hc. split; [by vm_compute|]. intros j n h Hj Hn Hh.
  destruct (offsets_ok c Hc) as (_ & _ & HN & Hsz). pose proof (row_size_pos c Hc).
  assert (forall p, 16 <= p < 520 \/ 528 <= p < 1032 -> getz formatted p = 0) as Hz.
  { intros p Hp. assert (forallb (fun p => (p <? 16) || ((520 <=? p) && (p <? 528)) || (getz formatted p =? 0)) (zseq (Z.to_nat 1032)) = true) as Hall by by vm_compute.
    specialize (zseq_all _ _ Hall p ltac:(lia)). lia. }
  apply Hz. unfold sample_position. set (N := rows (slots c)) in *.
  assert (0 <= 6 * j + 3 * h + 2 < row_size c) by (unfold row_size; lia).
  destruct (Z.ltb_spec n N); nia.
Qed.

(** Two receivers, after formatting: the 37th sample of the second one. *)
Lemma client_reads_samples_witness :
  let c := mk_receivers 2 72 520 1032 0 (replicate 7 (-1)) false in
  let rs k := mk_buffers 0 72 (replicate 200 (f_of_Z (- 5 * (k + 1)))) [] [] in
  exists pay, load_all (fun _ => 0) c rs [1; 0] formatted = Some pay /\ read24 pay (sample_position c 1 37 0) = - 2560.
Proof.
  intros c rs. assert (receivers_ok c) as Hc.
  { constructor; [vm_compute; congruence..|reflexivity|reflexivity|reflexivity|reflexivity| |]; unfold slots; cbn [c active_num_rcvrs num_copy_rcvrs copy_rcvr]; intros j Hj; [|lia].
    assert (j = 0 \/ j = 1) as [-> | ->] by lia; vm_compute; discriminate. }
  destruct (client_reads_samples (fun _ => 0) c rs [1; 0] formatted Hc eq_refl (formatted_clean c Hc)) as (pay & E & _ & _ & G).
  - apply (bool_decide_unpack _). reflexivity.
  - intros k. rewrite !elem_of_cons, elem_of_nil. cbn [c active_num_rcvrs]. lia.
  - intros k _. split; [done|]. by vm_compute.
  - exists pay. split; [exact E|]. cbv zeta in G. rewrite (G 1 37 0); [vm_compute; reflexivity|split; vm_compute; congruence..].
Defined.

(** The payload is formatted once.  When a client asks for more receivers, the
    third bytes of the new slots are sample bytes of the old ones: here the
    client reads 255 and not 0 from the silent second receiver. *)
Lemma stale_third_bytes :
  let c1 := mk_receivers 1 126 520 1032 0 (replicate 7 (-1)) false in
  let c2 := mk_receivers 2 72 520 1032 0 (replicate 7 (-1)) false in
  let loud _ := mk_buffers 0 126 (replicate (Z.to_nat 252) (f_of_Z (-1))) [] [] in
  let quiet _ := mk_buffers 0 126 (replicate (Z.to_nat 252) fzero) [] [] in
  match (pay ← load_all (fun _ => 0) c1 loud [0] formatted; load_all (fun _ => 0) c2 quiet [0; 1] pay) with
  | Some pay => read24 pay (sample_position c2 1 0 0) = 255
  | None => False
  end.
Proof. vm_compute. reflexivity. Qed.

(** The bytes of a sample of a file are in the other order. *)
Lemma file_bytes_reversed :
  let c := mk_receivers 1 126 520 1032 0 (replicate 7 (-1)) true in
  let rs _ := mk_buffers 0 126 (replicate (Z.to_nat 252) (f_of_Z 0x12345600)) [] [] in
  match load_all (fun _ => 0) c rs [0] formatted with
  | Some pay => read24 pay (sample_position c 0 0 0) = 0x563412
  | None => False
  end.
Proof. vm_compute. reflexivity. Qed.
