(* ===== verification/HpsdrSend.v ===== *)
(** * rtl_hpsdr.c: from a block of bytes to packets

    [dc_block] is the part of [rtlsdr_callback] that makes floats of the bytes
    of a dongle; [sendiq_turn] is a turn of the thread of a receiver: the block
    is downsampled to the end of what is left from before, whole packets are
    handed to load_packet (the parameter [load], with its state), and the rest
    moves to the front.  Waiting for a block, and for a packet to be sent, is in
    HpsdrThreads.v. *)

From S2P Require Import Prelude Arrays Double Single Coeff Downsample HpsdrPacket.
From Stdlib Require Import SpecFloat.

(** The table for rate [r], byte [i]. *)
(* src/rtl_hpsdr.c:1697-1703 rtl_lut *)
Definition rtl_lut (signal_multiplier r i : Z) : single :=
  fmul (fdiv (fsub (f_of_Z i) (fdec 1274 1)) (f_of_Z 128)) (f_of_Z (256 / (r + 1) * signal_multiplier)).

(** One pair: [dcIlast], [dcQlast] and [iq_buf] are the state. *)
(* src/rtl_hpsdr.c:901-913 rtlsdr_callback *)
Definition dc_turn (lut : Z -> single) (buf : list Z) (i : Z) (st : single * single * list single) :
    option (single * single * list single) :=
  let '(dcIlast, dcQlast, iq_buf) := st in
  b0 ← arr_get buf i; b1 ← arr_get buf (i + 1);
  let dcI := fadd (lut b0) (fmul dcIlast (fdec 9999 4)) in
  let dcQ := fadd (lut b1) (fmul dcQlast (fdec 9999 4)) in
  iq_buf ← arr_set iq_buf i (fsub dcI dcIlast);
  iq_buf ← arr_set iq_buf (i + 1) (fsub dcQ dcQlast);
  Some (dcI, dcQ, iq_buf).

(* src/rtl_hpsdr.c:900-913 rtlsdr_callback *)
Definition dc_block (lut : Z -> single) (buf : list Z) (st : single * single * list single) :
    option (single * single * list single) :=
  for_arr (stepped RTL_READ_COUNT 2) (dc_turn lut buf) st.

Definition set_pos (offset remaining : Z) (r : buffers) : buffers :=
  mk_buffers offset remaining (iqSamples r) (iq_buf r) (iq_buf_final r).
Definition set_samples (offset : Z) (v : list single) (r : buffers) : buffers :=
  mk_buffers offset (iqSamples_remaining r) v (iq_buf r) (iq_buf_final r).

Section send.
Context {P : Type} (load : buffers -> P -> option P).

(** The whole packets. *)
(* src/rtl_hpsdr.c:403-408 hpsdrsim_sendiq_thr_func *)
Fixpoint load_loop (fuel : nat) (samps_packet : Z) (r : buffers) (p : P) : option (buffers * P) :=
  if samps_packet <? iqSamples_remaining r then
    match fuel with
    | O => None
    | S fuel =>
        p ← load r p;
        load_loop fuel samps_packet (set_pos (iqSample_offset r + samps_packet) (iqSamples_remaining r - samps_packet) r) p
    end
  else Some (r, p).

(** The samples that a block gives at a rate. *)
(* src/rtl_hpsdr.c:377-394 hpsdrsim_sendiq_thr_func *)
Definition rate_samples (rate : Z) : Z :=
  if rate =? 48000 then RTL_READ_COUNT / (DOWNSAMPLE_192 * 8)
  else if rate =? 96000 then RTL_READ_COUNT / (DOWNSAMPLE_192 * 4)
  else if rate =? 192000 then RTL_READ_COUNT / (DOWNSAMPLE_192 * 2)
  else if rate =? 384000 then RTL_READ_COUNT / DOWNSAMPLE_192
  else 0.

(** The block is in [iq_buf].  [memcpy] has no value when the parts overlap. *)
(* src/rtl_hpsdr.c:346-417 hpsdrsim_sendiq_thr_func *)
Definition sendiq_turn (f : filters) (files running : bool) (samps_packet : Z) (r : buffers) (p : P) :
    option (buffers * P) :=
  let r := if running then r else set_pos 0 0 r in
  let r := if iqSamples_remaining r <? 0 then set_pos (iqSample_offset r) 0 r else r in
  r ← (if negb files then
         r ← downsample f r;
         Some (set_pos (iqSample_offset r) (iqSamples_remaining r + rate_samples (output_rate f)) r)
       else
         s ← copy_to (iqSamples r) (iqSamples_remaining r * 2) (iq_buf r) 0 (9600 * 2);
         Some (set_pos (iqSample_offset r) (iqSamples_remaining r + 9600) (set_samples (iqSample_offset r) s r)));
  '(r, p) ← load_loop (Z.to_nat (iqSamples_remaining r)) samps_packet r p;
  if (0 <? iqSample_offset r) && (0 <? iqSamples_remaining r) then
    '_ ← (if iqSamples_remaining r <=? iqSample_offset r then Some tt else None);
    s ← copy_to (iqSamples r) 0 (iqSamples r) (iqSample_offset r * 2) (iqSamples_remaining r * 2);
    Some (set_samples 0 s r, p)
  else Some (r, p).
End send.

(** The packet size for the receivers. *)
(* src/rtl_hpsdr.c:348-350 hpsdrsim_sendiq_thr_func *)
Definition samps_packet (c : receivers) : option Z :=
  if 0 <? num_copy_rcvrs c then arr_get nsamps_packet ((active_num_rcvrs c - 1) + num_copy_rcvrs c)
  else Some (mcb_nsamps_packet c).

(** A block that [rtlsdr_callback] has stored, for a turn of the thread. *)
Definition set_iq_buf (v : list single) (r : buffers) : buffers :=
  mk_buffers (iqSample_offset r) (iqSamples_remaining r) (iqSamples r) v (iq_buf_final r).
