(* ===== verification/HpsdrSendSpec.v ===== *)
(** * rtl_hpsdr.c: the stream of a receiver

    What a receiver hands to load_packet, packet after packet, is the stream of
    its filtered samples: none is lost, repeated or moved, whatever the packet
    sizes are. *)

From S2P Require Import Prelude Arrays Double Single Coeff Downsample DownsampleSpec HpsdrPacket HpsdrPacketSpec HpsdrSend.
From Stdlib Require Import SpecFloat.

(** The [n] numbers of [l] from [i]. *)
Definition piece (l : list single) (i n : Z) : list single := map (fun k => getf l (i + k)) (zseq (Z.to_nat n)).

(** What is left, and what load_packet sends. *)
Definition pending (r : buffers) : list single := piece (iqSamples r) (iqSample_offset r * 2) (iqSamples_remaining r * 2).
Definition packet_samples (n : Z) (r : buffers) : list single := piece (iqSamples r) (iqSample_offset r * 2) (n * 2).

(** The samples that a block gives. *)
Definition block (f : filters) (ds : Z) (fil : list single) (r : buffers) : list single :=
  map (fun q => decimated ds fil (half_rate f r) (q / 2) (q mod 2)) (zseq (Z.to_nat (2 * block_samples ds))).

Lemma zseq_app m n : zseq (m + n) = zseq m ++ map (Z.add (Z.of_nat m)) (zseq n).
Proof.
  induction m as [|m IH]; [cbn [Nat.add app]; rewrite <- (map_id (zseq n)) at 1; apply map_ext; intros; unfold id; lia|].
  cbn [Nat.add]. rewrite !zseq_S, IH, map_app, map_map. cbn [app]. do 2 f_equal. apply map_ext. intros. lia.
Qed.

Lemma piece_app l i m n : 0 <= m -> 0 <= n -> piece l i (m + n) = piece l i m ++ piece l (i + m) n.
Proof.
  intros Hm Hn. unfold piece. rewrite Z2Nat.inj_add, zseq_app, map_app, map_map by done. f_equal. apply map_ext. intros k.
  f_equal. lia.
Qed.

Lemma piece_ext l l' i i' n : (forall k, 0 <= k < n -> getf l (i + k) = getf l' (i' + k)) -> piece l i n = piece l' i' n.
Proof.
  intros H. apply map_ext_in. intros k Hk%list_elem_of_In%elem_of_zseq. apply H. lia.
Qed.

Lemma rate_samples_block f ds : rate_dsample f = Some ds -> rate_samples (output_rate f) = block_samples ds.
Proof.
  unfold rate_dsample, rate_samples. destruct (_ =? _); [by intros [= <-]|]. destruct (_ =? _); [by intros [= <-]|].
  destruct (_ =? _); [by intros [= <-]|]. destruct (_ =? _); [by intros [= <-]|done].
Qed.

Section stream.
Context {P : Type} (ok : P -> Prop) (sent : P -> list (list single)).

(** The function takes a packet of [n] samples and logs it; [ok] is what it
    needs of its state. *)
Definition takes (n : Z) (load : buffers -> P -> option P) : Prop :=
  forall r p, ok p -> 0 <= iqSample_offset r -> 2 * (iqSample_offset r + n) <= Z.of_nat (length (iqSamples r)) ->
    exists p', load r p = Some p' /\ ok p' /\ sent p' = sent p ++ [packet_samples n r].

Lemma load_loop_spec load n : 0 < n -> takes n load -> forall fuel r p, ok p ->
  0 <= iqSample_offset r -> 0 <= iqSamples_remaining r <= Z.of_nat fuel ->
  2 * (iqSample_offset r + iqSamples_remaining r) <= Z.of_nat (length (iqSamples r)) ->
  exists p' k, load_loop load fuel n r p =
      Some (set_pos (iqSample_offset r + k * n) (iqSamples_remaining r - k * n) r, p') /\
    ok p' /\ 0 <= k /\ iqSamples_remaining r - k * n <= n /\ (0 < iqSamples_remaining r -> 0 < iqSamples_remaining r - k * n) /\
    0 <= iqSamples_remaining r - k * n /\
    exists chunks, sent p' = sent p ++ chunks /\ Forall (fun c => Z.of_nat (length c) = 2 * n) chunks /\
      pending r = concat chunks ++ pending (set_pos (iqSample_offset r + k * n) (iqSamples_remaining r - k * n) r).
Proof.
  intros Hn Hload. induction fuel as [|fuel IH]; intros r p Hok Ho Hr Hl; cbn [load_loop];
    destruct (Z.ltb_spec n (iqSamples_remaining r)) as [Hlt|Hge]; try lia.
  1,3: exists p, 0; replace (iqSample_offset r + 0 * n) with (iqSample_offset r) by lia;
    replace (iqSamples_remaining r - 0 * n) with (iqSamples_remaining r) by lia;
    split; [by destruct r|]; split_and!; [done|lia..|]; exists []; rewrite app_nil_r; by destruct r.
  destruct (Hload r p Hok Ho ltac:(lia)) as (p1 & -> & Hok1 & E1). cbn [mbind option_bind].
  set (r1 := set_pos (iqSample_offset r + n) (iqSamples_remaining r - n) r).
  destruct (IH r1 p1 Hok1) as (p2 & k & E & Hok2 & Hk & Hmax & Hpos & H0 & chunks & Es & Hc & Hp); [cbn; lia..|]. cbn in E, Hmax, Hpos, H0, Hp.
  exists p2, (k + 1). replace (iqSample_offset r + (k + 1) * n) with (iqSample_offset r + n + k * n) by lia.
  replace (iqSamples_remaining r - (k + 1) * n) with (iqSamples_remaining r - n - k * n) by lia.
  split; [done|]. split_and!; [done|lia..|]. exists (packet_samples n r :: chunks). split_and!.
  - by rewrite Es, E1, <- app_assoc.
  - constructor; [|done]. unfold packet_samples, piece. rewrite length_map. unfold zseq. rewrite length_map, length_seq. lia.
  - cbn [concat]. rewrite <- app_assoc. transitivity (packet_samples n r ++ pending r1); [|by rewrite Hp].
    unfold pending, packet_samples, r1. cbn.
    replace (iqSamples_remaining r * 2) with (n * 2 + (iqSamples_remaining r - n) * 2) by lia.
    rewrite piece_app by lia. do 2 f_equal. lia.
Qed.

(** The buffers between two turns. *)
Definition ready (f : filters) (r : buffers) : Prop :=
  sized f r /\ iqSample_offset r = 0 /\ 0 <= iqSamples_remaining r <= 126 /\
  Z.of_nat (length (iqSamples r)) = RTL_READ_COUNT + IQ_FRAME_DATA_LEN * 2.

Lemma sendiq_turn_spec load n f ds fil r p :
  0 < n <= 126 -> takes n load -> ok p -> ready f r -> rate_dsample f = Some ds -> rate_coeff f = Some fil ->
  exists r' p', sendiq_turn load f false true n r p = Some (r', p') /\ ok p' /\ ready f r' /\ 0 < iqSamples_remaining r' <= n /\
    exists chunks, sent p' = sent p ++ chunks /\ Forall (fun c => Z.of_nat (length c) = 2 * n) chunks /\
      pending r ++ block f ds fil r = concat chunks ++ pending r'.
Proof.
  intros Hn Hload Hok (Hs & Ho & Hr & Hl) Hds Hfil. pose proof (rate_dsample_values _ _ Hds) as Hv.
  assert (256 <= block_samples ds <= 2048) as Hb by (destruct Hv as [-> | [-> | [-> | ->]]]; by vm_compute).
  change (RTL_READ_COUNT + IQ_FRAME_DATA_LEN * 2) with 16510 in Hl. unfold sendiq_turn.
  replace (iqSamples_remaining r <? 0) with false by lia. cbn [negb].
  destruct (downsample_spec f r ds fil Hs Hds Hfil) as (r1 & -> & Hs1 & Eo & Er & El & G); [lia..|]. cbn [mbind option_bind].
  rewrite (rate_samples_block _ _ Hds), Er, Eo, Ho.
  set (r2 := set_pos 0 (iqSamples_remaining r + block_samples ds) r1).
  assert (pending r ++ block f ds fil r = pending r2) as Hpend.
  { unfold pending, block, r2. cbn [iqSamples iqSample_offset iqSamples_remaining set_pos]. rewrite Ho.
    rewrite Z.mul_add_distr_r, piece_app by lia. f_equal.
    - apply piece_ext. intros k Hk. rewrite G. cbv zeta. by replace (0 <=? 0 * 2 + k - iqSamples_remaining r * 2) with false by lia.
    - unfold piece. rewrite (Z.mul_comm 2). apply map_ext_in. intros q Hq%list_elem_of_In%elem_of_zseq. rewrite G. cbv zeta.
      replace (0 * 2 + iqSamples_remaining r * 2 + q - iqSamples_remaining r * 2) with q by lia.
      by replace ((0 <=? q) && (q <? 2 * block_samples ds)) with true by lia. }
  destruct (load_loop_spec load n ltac:(lia) Hload (Z.to_nat (iqSamples_remaining r2)) r2 p Hok) as
    (p' & k & E & Hok' & Hk & Hmax & Hpos & H0 & chunks & Es & Hc & Hp); [cbn; lia..|]. rewrite E. cbn [mbind option_bind].
  cbn in Hmax, Hpos, H0, Hp. set (R := iqSamples_remaining r + block_samples ds - k * n) in *. cbn [iqSample_offset iqSamples_remaining set_pos r2].
  fold R. assert (0 < k) by (unfold R in Hmax; nia). replace ((0 <? 0 + k * n) && (0 <? R)) with true by nia.
  replace (R <=? 0 + k * n) with true by nia. cbn [mbind option_bind].
  destruct (copy_to_get_or fzero (iqSamples r1) 0 (iqSamples r1) ((0 + k * n) * 2) (R * 2)) as (s & Es2 & Ls & Gs); [nia..|].
  unfold r2. cbn [iqSamples iqSample_offset iqSamples_remaining set_pos]. fold R. rewrite Es2. cbn [mbind option_bind]. eexists _, p'. split; [done|]. split; [done|]. split.
  - split; [by apply (sized_lengths _ _ _ Hs1)|]. cbn. rewrite Ls, El. change (RTL_READ_COUNT + IQ_FRAME_DATA_LEN * 2) with 16510. lia.
  - split; [cbn; lia|]. exists chunks. split_and!; [done|done|]. rewrite Hpend, Hp. f_equal. unfold pending. cbn.
    apply piece_ext. intros j Hj. rewrite Gs. replace (_ && _) with true by lia. f_equal. lia.
Qed.

(** ** Turn after turn *)

(** What a turn gets: the rate, the packet size, load_packet, and a block. *)
Record turn : Type := mk_turn { t_filters : filters; t_samps : Z; t_load : buffers -> P -> option P; t_block : list single }.

(** The turns with the samples that the blocks give. *)
Inductive sends : list turn -> buffers -> P -> list single -> buffers -> P -> Prop :=
| sends_nil r p : sends [] r p [] r p
| sends_cons t ts r p ds fil r1 p1 rest r2 p2 :
    rate_dsample (t_filters t) = Some ds -> rate_coeff (t_filters t) = Some fil ->
    sendiq_turn (t_load t) (t_filters t) false true (t_samps t) (set_iq_buf (t_block t) r) p = Some (r1, p1) ->
    sends ts r1 p1 rest r2 p2 ->
    sends (t :: ts) r p (block (t_filters t) ds fil (set_iq_buf (t_block t) r) ++ rest) r2 p2.

Definition turn_ok (t : turn) : Prop :=
  (exists rate, t_filters t = make_filters rate 32 /\ rate ∈ [48000; 96000; 192000; 384000]) /\
  0 < t_samps t <= 126 /\ takes (t_samps t) (t_load t) /\
  Z.of_nat (length (t_block t)) = RTL_READ_COUNT + COEFF3072_H_16_LENGTH * 2.

Lemma rate_found rate : rate ∈ [48000; 96000; 192000; 384000] ->
  exists ds fil, rate_dsample (make_filters rate 32) = Some ds /\ rate_coeff (make_filters rate 32) = Some fil.
Proof.
  rewrite !elem_of_cons, elem_of_nil. intros [-> | [-> | [-> | [-> | []]]]]; eexists _, _; split; reflexivity.
Qed.

(** Any rate will do. *)
Lemma ready_rate rate rate' r : ready (make_filters rate 32) r -> ready (make_filters rate' 32) r.
Proof.
  intros ([_ _ _ Hi Hf] & H). split; [|done]. apply make_filters_sized; [by left|done|exact Hf].
Qed.

(** C31: the stream.  Over any turns, with any rates and packet sizes, the thread
    of a receiver hands load_packet whole packets that, one after the other and
    followed by what is still left, are the samples left from before followed by
    the filtered samples of the blocks: nothing is lost, repeated or reordered.
    Nothing is read or written outside of the buffers, and the part that moves to
    the front never overlaps its place. *)
Theorem sendiq_stream ts : forall r p,
  Forall turn_ok ts -> ok p -> ready (make_filters 48000 32) r ->
  exists stream r' p' chunks, sends ts r p stream r' p' /\ ok p' /\ ready (make_filters 48000 32) r' /\
    sent p' = sent p ++ chunks /\ pending r ++ stream = concat chunks ++ pending r'.
Proof.
  induction ts as [|t ts IH]; intros r p Hts Hok Hr.
  { exists [], r, p, []. rewrite !app_nil_r. split_and!; [constructor|done|apply Hr..|done|done]. }
  apply Forall_cons in Hts as [((rate & Ef & Hrate) & Hn & Hload & Hb) Hts].
  destruct (rate_found rate Hrate) as (ds & fil & Hds & Hfil). rewrite <- Ef in Hds, Hfil.
  assert (ready (t_filters t) (set_iq_buf (t_block t) r)) as Hr1.
  { rewrite Ef. apply (ready_rate 48000). destruct Hr as ([_ _ _ Hi Hf] & H). split; [|done].
    apply make_filters_sized; [by left|done|exact Hf]. }
  destruct (sendiq_turn_spec (t_load t) (t_samps t) _ ds fil _ p Hn Hload Hok Hr1 Hds Hfil) as
    (r1 & p1 & E & Hok1 & Hr2 & _ & chunks & Es & _ & Ep).
  destruct (IH r1 p1 Hts Hok1) as (stream & r2 & p2 & chunks2 & Hs & Hok2 & Hr3 & Es2 & Ep2).
  { rewrite Ef in Hr2. by apply (ready_rate rate). }
  exists (block (t_filters t) ds fil (set_iq_buf (t_block t) r) ++ stream), r2, p2, (chunks ++ chunks2). split.
  - by eapply sends_cons.
  - split; [done|]. split; [done|]. split; [by rewrite Es2, Es, <- app_assoc|].
    rewrite app_assoc. change (pending r) with (pending (set_iq_buf (t_block t) r)). by rewrite Ep, concat_app, <- !app_assoc, Ep2.
Qed.
End stream.

(** One receiver at 384 kHz with the real load_packet, after 3 samples that
    were left: packets of 126 samples. *)
Lemma sendiq_stream_witness :
  let c := mk_receivers 1 126 520 1032 0 (replicate 7 (-1)) false in
  let load r p := pay ← load_packet (fun _ => 0) c 0 r (fst p); Some (pay, snd p ++ [packet_samples 126 r]) in
  let t := mk_turn (make_filters 384000 32) 126 load (replicate (Z.to_nat 16416) (f_of_Z 1)) in
  let r := mk_buffers 0 3 (replicate (Z.to_nat 16510) fzero) (replicate (Z.to_nat 16416) fzero) (replicate (Z.to_nat 8256) fzero) in
  exists stream r' p' chunks, sends [t; t] r (formatted, []) stream r' p' /\
    snd p' = chunks /\ pending r ++ stream = concat chunks ++ pending r'.
Proof.
  intros c load t r. assert (receivers_ok c) as Hc.
  { constructor; [vm_compute; congruence..|reflexivity|reflexivity|reflexivity|reflexivity| |]; unfold slots;
      cbn [c active_num_rcvrs num_copy_rcvrs copy_rcvr]; intros j Hj; [|lia]. assert (j = 0) as -> by lia. vm_compute. discriminate. }
  assert (takes (fun p => length (fst p) = 1032%nat) snd 126 load) as Hload.
  { intros b p Hp Ho Hl. destruct (load_packet_spec (fun _ => 0) c Hc 0 b (fst p)) as (pay & E & L & _); [done|done|exact Hl|done|].
    unfold load. rewrite E. cbn [mbind option_bind]. eexists. split; [reflexivity|]. by split. }
  assert (turn_ok (fun p => length (fst p) = 1032%nat) snd t) as Ht.
  { split; [exists 384000; split; [reflexivity|]; by do 3 right; left|]. split; [done|]. split; [exact Hload|].
    cbn [t_block t]. alloc_length. }
  destruct (sendiq_stream (fun p => length (fst p) = 1032%nat) snd [t; t] r (formatted, [])) as (stream & r' & p' & chunks & Hs & _ & _ & E & Ep).
  - apply Forall_cons. split; [exact Ht|]. apply Forall_cons. split; [exact Ht|by apply Forall_nil].
  - by vm_compute.
  - split; [apply make_filters_sized; [by left| |]; cbn [iq_buf iq_buf_final r]; alloc_length|].
    split; [reflexivity|]. split; [cbn [iqSamples_remaining r]; lia|]. cbn [iqSamples r]. alloc_length.
  - exists stream, r', p', chunks. by split_and!.
Defined.

(** ** What goes wrong *)

(** A block of a file, 9600 samples, is larger than iqSamples: the copy always
    writes past its end. *)
Lemma file_block_overflows {P} load f n (r : buffers) (p : P) :
  0 <= iqSamples_remaining r -> Z.of_nat (length (iqSamples r)) = RTL_READ_COUNT + IQ_FRAME_DATA_LEN * 2 ->
  sendiq_turn load f true true n r p = None.
Proof.
  intros Hr Hl. change (RTL_READ_COUNT + IQ_FRAME_DATA_LEN * 2) with 16510 in Hl. unfold sendiq_turn. cbn [negb].
  replace (iqSamples_remaining r <? 0) with false by lia. unfold copy_to. rewrite Hl.
  by replace (_ && (iqSamples_remaining r * 2 + 9600 * 2 <=? 16510)) with false by lia.
Qed.

(** The callback stores the block at the beginning of [iq_buf], over what
    downsample kept there. *)
Lemma dc_block_spec lut buf dI dQ iq :
  Z.of_nat (length buf) = RTL_READ_COUNT -> RTL_READ_COUNT <= Z.of_nat (length iq) ->
  exists dI' dQ' iq', dc_block lut buf (dI, dQ, iq) = Some (dI', dQ', iq') /\ length iq' = length iq /\
    forall p, RTL_READ_COUNT <= p -> getf iq' p = getf iq p.
Proof.
  intros Hb Hi. unfold dc_block. rewrite (stepped_eq _ _ (Z.to_nat 8192)) by by vm_compute.
  change RTL_READ_COUNT with 16384 in *.
  destruct (for_arr_inv (dc_turn lut buf) (fun _ st => length (snd st) = length iq /\ forall p, 16384 <= p -> getf (snd st) p = getf iq p)
    (Z.to_nat 8192) (fun k => k * 2) (dI, dQ, iq)) as ([[dI' dQ'] iq'] & E & L & H).
  - done.
  - intros k [[a b] l] Hk [L H]. cbn [snd] in *. unfold dc_turn. rewrite !(arr_get_get_or 0) by lia. cbn [mbind option_bind].
    edestruct (arr_set_get_or fzero l (k * 2)) as (l1 & -> & L1 & G1); [lia|]. cbn [mbind option_bind].
    edestruct (arr_set_get_or fzero l1 (k * 2 + 1)) as (l2 & -> & L2 & G2); [lia|]. cbn [mbind option_bind].
    eexists. split; [reflexivity|]. cbn [snd]. split; [congruence|]. intros p Hp. rewrite G2, G1.
    replace (p =? k * 2 + 1) with false by lia. replace (p =? k * 2) with false by lia. by apply H.
  - by exists dI', dQ', iq'.
Qed.

(** Nothing writes the end of [iq_buf], which the filter reads: a block and a
    turn leave the 32 numbers after it as malloc gave them. *)
Lemma tail_never_written f ds fil lut buf dI dQ r :
  sized f r -> rate_dsample f = Some ds -> rate_coeff f = Some fil -> 0 <= iqSamples_remaining r ->
  2 * (iqSamples_remaining r + block_samples ds) <= Z.of_nat (length (iqSamples r)) ->
  Z.of_nat (length buf) = RTL_READ_COUNT ->
  exists dI' dQ' iq' r', dc_block lut buf (dI, dQ, iq_buf r) = Some (dI', dQ', iq') /\
    downsample f (set_iq_buf iq' r) = Some r' /\
    forall p, RTL_READ_COUNT <= p -> getf (iq_buf r') p = getf (iq_buf r) p.
Proof.
  intros Hs Hds Hfil Hrem Hlen Hb.
  destruct (dc_block_spec lut buf dI dQ (iq_buf r) Hb) as (dI' & dQ' & iq' & E & L & G).
  { rewrite (sized_iq _ _ Hs). by vm_compute. }
  assert (sized f (set_iq_buf iq' r)) as Hs' by by apply (sized_lengths _ _ _ Hs).
  unfold downsample. destruct (first_pass f _ Hs') as (r1 & E1 & _ & Er & Ei & L1 & L2 & G1 & _).
  destruct (second_pass f r1 (sized_lengths _ _ _ Hs' L1 L2) ds fil Hds Hfil) as (r2 & E2 & _ & _ & Eb & _).
  { by rewrite Er. } { by rewrite Er, Ei. }
  exists dI', dQ', iq', r2. split; [done|]. rewrite E1. cbn [mbind option_bind]. split; [done|].
  intros p Hp. change RTL_READ_COUNT with 16384 in *. rewrite Eb, G1. replace (p <? 32) with false by lia. rewrite andb_false_r.
  by apply G.
Qed.
