(* ===== verification/HpsdrControl.v ===== *)
(** * rtl_hpsdr.c: what a client says

    The main loop takes a datagram at a time ([handle_datagram]): a client finds
    the server, starts and stops the stream, and sends packets whose control
    words set frequencies, the rate and the number of receivers ([process_ep2]).
    A receiver tunes to a new frequency at the end of its next turn
    ([tune_pending]).  An access outside of an array has no value. *)

From S2P Require Import Prelude Arrays Device HpsdrPacket.

(** [struct main_cb] and the globals that a client changes; the fields of a
    receiver are lists with an entry for each. *)
(* include/rtl_hpsdr.h:128-209 main_cb *)
Record control : Type := mk_control {
  total_num_rcvrs : Z;
  rcvrs : receivers;
  rcvrs_mask : Z;
  ctl_output_rate : Z;
  last_rate : Z;
  last_num_rcvrs : Z;
  cal_rcvr_mask : Z;
  last_freq : list Z;
  new_freq : list Z;
  rcvr_mask : list Z;
  rcb_output_rate : list Z;
}.

Definition set_freqs (last new : list Z) (c : control) : control :=
  mk_control (total_num_rcvrs c) (rcvrs c) (rcvrs_mask c) (ctl_output_rate c) (last_rate c) (last_num_rcvrs c) (cal_rcvr_mask c)
    last new (rcvr_mask c) (rcb_output_rate c).
Definition set_rates (out last : Z) (c : control) : control :=
  mk_control (total_num_rcvrs c) (rcvrs c) (rcvrs_mask c) out last (last_num_rcvrs c) (cal_rcvr_mask c)
    (last_freq c) (new_freq c) (rcvr_mask c) (rcb_output_rate c).
Definition set_last_num (n : Z) (c : control) : control :=
  mk_control (total_num_rcvrs c) (rcvrs c) (rcvrs_mask c) (ctl_output_rate c) (last_rate c) n (cal_rcvr_mask c)
    (last_freq c) (new_freq c) (rcvr_mask c) (rcb_output_rate c).
Definition set_active (r : receivers) (mask : Z) (masks rates : list Z) (c : control) : control :=
  mk_control (total_num_rcvrs c) r mask (ctl_output_rate c) (last_rate c) (last_num_rcvrs c) mask
    (last_freq c) (new_freq c) masks rates.

(** [exit] ends the program; what was done before stays. *)
Inductive outcome : Type := Goes | Exits.

(** The frequency of control word [ct] (0 or 1). *)
(* src/rtl_hpsdr.c:2127-2158 process_ep2 *)
Definition ep2_freq (buffer : list Z) (C0_1 C0_2 ct : Z) : M control unit := fun c =>
  let limit := 4 + (total_num_rcvrs c - 1) * 2 in
  let '(offset, freq, j) :=
    if (4 <=? C0_1) && (ct =? 0) && (C0_1 <=? limit) then (0, true, (C0_1 - 4) / 2)
    else if (4 <=? C0_2) && (ct =? 1) && (C0_2 <=? limit) then (512, true, (C0_2 - 4) / 2)
    else (0, false, 0) in
  if freq then
    b0 ← arr_get buffer (12 + offset); b1 ← arr_get buffer (13 + offset);
    b2 ← arr_get buffer (14 + offset); b3 ← arr_get buffer (15 + offset);
    let freq := i32 (((Z.shiftl b0 24 .| Z.shiftl b1 16) .| Z.shiftl b2 8) .| b3) in
    last ← arr_get (last_freq c) j;
    if negb (last =? freq) && negb (freq =? 0) then
      new ← (if j <? total_num_rcvrs c then arr_set (new_freq c) j freq else Some (new_freq c));
      last ← arr_set (last_freq c) j freq;
      Some (tt, set_freqs last new c)
    else Some (tt, c)
  else Some (tt, c).

(* src/rtl_hpsdr.c:2164-2192 process_ep2 *)
Definition ep2_rate (buffer : list Z) (offset : Z) : M control unit := fun c =>
  b ← arr_get buffer (12 + offset);
  let rate := b .& 3 in
  if negb (last_rate c =? rate) then
    let out := if rate =? 3 then 384000 else if rate =? 2 then 192000 else if rate =? 1 then 96000
               else if rate =? 0 then 48000 else ctl_output_rate c in
    Some (tt, set_rates out rate c)
  else Some (tt, c).

(** [l[i] = v] for [i] from [a] below [b]. *)
Definition set_range (a b : Z) (v : Z -> Z) (l : list Z) : option (list Z) :=
  for_arr (map (fun k => a + k) (zseq (Z.to_nat (b - a)))) (fun i l => arr_set l i (v i)) l.

(** The receivers for a number that the client asks for. *)
(* src/rtl_hpsdr.c:2207-2255 process_ep2 *)
Definition activate (num_rcvrs : Z) (c : control) : option control :=
  let total := total_num_rcvrs c in
  let '(copies, active) := if num_rcvrs <=? total then (0, num_rcvrs) else (num_rcvrs - total, total) in
  nsamps ← arr_get nsamps_packet (active - 1);
  offset1 ← arr_get frame_offset1 (active - 1);
  offset2 ← arr_get frame_offset2 (active - 1);
  masks ← set_range 1 total (fun _ => 0) (rcvr_mask c);
  let mask := fold_left (fun m i => m .| Z.shiftl 1 i) (map (fun k => 1 + k) (zseq (Z.to_nat (active - 1)))) 1 in
  masks ← set_range 1 active (fun i => Z.shiftl 1 i) masks;
  rates ← set_range 1 active (fun _ => 0) (rcb_output_rate c);
  copy ← (if 0 <? copies then set_range active num_rcvrs id (copy_rcvr (rcvrs c)) else Some (copy_rcvr (rcvrs c)));
  Some (set_active (mk_receivers active nsamps offset1 offset2 copies copy (using_IQfiles (rcvrs c))) mask masks rates c).

(* src/rtl_hpsdr.c:2194-2256 process_ep2 *)
Definition ep2_receivers (buffer : list Z) (offset : Z) : M control outcome := fun c =>
  b ← arr_get buffer (15 + offset);
  let wanted := b .& 0x38 in
  if negb (last_num_rcvrs c =? wanted) then
    let c := set_last_num wanted c in
    let num_rcvrs := Z.shiftr wanted 3 + 1 in
    if MAX_RCVRS <? num_rcvrs then Some (Exits, c)
    else c ← activate num_rcvrs c; Some (Goes, c)
  else Some (Goes, c).

(** A turn of the loop over the two words; then, without a sound device, the
    function ends. *)
(* src/rtl_hpsdr.c:2126-2258 process_ep2 *)
Definition ep2_word (buffer : list Z) (C0_1 C0_2 ct : Z) : M control outcome :=
  ep2_freq buffer C0_1 C0_2 ct;;
  if (C0_1 =? 0) || (C0_2 =? 0) then
    let offset := if C0_1 =? 0 then 0 else 512 in
    ep2_rate buffer offset;; ep2_receivers buffer offset
  else mret Goes.

(* src/rtl_hpsdr.c: process_ep2 *)
Definition process_ep2 (buffer : list Z) : M control outcome :=
  b1 ← from_option_trap (arr_get buffer 11);
  b2 ← from_option_trap (arr_get buffer 523);
  let C0_1 := b1 .& 0xFE in
  let C0_2 := b2 .& 0xFE in
  o ← ep2_word buffer C0_1 C0_2 0;
  match o with
  | Goes => ep2_word buffer C0_1 C0_2 1
  | Exits => mret Exits
  end.

(** The receivers when the program starts. *)
(* src/rtl_hpsdr.c:1719-1725 main *)
Definition initial_control (total : Z) : control :=
  mk_control total (mk_receivers 1 126 520 1032 0 (replicate 7 (-1)) false) 1 48000 0 0 0
    (replicate 7 0) (replicate 7 0) (1 :: replicate 6 0) (replicate 7 0).

(** ** The main loop *)

(** The socket, the buffer and the thread that sends ([handler_ep6]); [running]
    and [addr_old] are as the starting thread finds them. *)
(* src/rtl_hpsdr.c:70-83 sock_udp *)
Record server : Type := mk_server {
  ctl : control;
  buffer : list Z;
  last_seqnum : Z;
  enable_thread : Z;
  active_thread : Z;
  send_flags : Z;
  addr_old : Z;
}.

Definition set_buffer (b : list Z) (s : server) : server :=
  mk_server (ctl s) b (last_seqnum s) (enable_thread s) (active_thread s) (send_flags s) (addr_old s).

(** What the loop does besides: an answer to the sender of the datagram, a
    thread started, the program left. *)
Inductive effect : Type := Reply (bytes : list Z) | StartThread | Leave.

Definition oldnew := 1.
(* src/rtl_hpsdr.c: new_protocol_running *)
Definition new_protocol_running := 0.
Definition ODEV_ORION := 5.

(** [recvfrom] writes the datagram over the front of the buffer. *)
Definition receive (data buffer : list Z) : list Z := data ++ drop (length data) buffer.

(** The first four bytes as a number of the machine. *)
Definition le32 (b : list Z) : Z := getz b 0 + getz b 1 * 2 ^ 8 + getz b 2 * 2 ^ 16 + getz b 3 * 2 ^ 24.

(** The answer to a detection request. *)
(* src/rtl_hpsdr.c:1928-1949 main *)
Definition discovery_reply (buffer : list Z) : option (list Z) :=
  b ← put_at 0 (replicate 60 0) buffer;
  b ← put_at 0 [0xEF; 0xFE; 0x02; 0x00; 0x1C; 0xC0; 0xA2; 0x10; 0xDD] b;
  b ← arr_set b 2 2;
  b ← put_at 9 [HERMES_FW_VER; ODEV_ORION] b;
  Some b.

(** A datagram of 1 to 1032 bytes from [from].  The thread that is told to stop
    is waited for ([while (active_thread)]): it has stopped when the function
    goes on.  Packets of the other protocol are ignored ([oldnew] is 1), and
    unknown ones are printed. *)
(* src/rtl_hpsdr.c:1877-2078 main *)
Definition handle_datagram (data : list Z) (from : Z) (s : server) : option (list effect * server) :=
  b ← put_at 0 [0xef; 0xfe; 1; 6] (buffer s);
  let b := receive data b in
  let s := set_buffer b s in
  let bytes_read := Z.of_nat (length data) in
  let code := le32 b in
  if code =? 0x0201feef then
    if negb (bytes_read =? HPSDR_FRAME_LEN) then Some ([], s)
    else
      let seqnum := u32 (Z.shiftl (getz b 4) 24 + Z.shiftl (getz b 5) 16 + Z.shiftl (getz b 6) 8 + getz b 7) in
      '(o, c) ← process_ep2 b (ctl s);
      Some (match o with Goes => [] | Exits => [Leave] end,
            mk_server c b seqnum (enable_thread s) (active_thread s) (send_flags s) (addr_old s))
  else if code =? 0x0002feef then
    if negb (bytes_read =? 63) then Some ([], s)
    else
      b ← discovery_reply b;
      Some ([Reply (take 60 b)], set_buffer b s)
  else if code =? 0x0004feef then
    if negb (bytes_read =? 64) then Some ([], s)
    else Some ([], mk_server (ctl s) b (last_seqnum s) 0 0 (send_flags s) (addr_old s))
  else if (code =? 0x0104feef) || (code =? 0x0204feef) || (code =? 0x0304feef) then
    if negb (bytes_read =? 64) then Some ([], s)
    else Some ([StartThread], mk_server (ctl s) b (last_seqnum s) 1 1 (rcvrs_mask (ctl s)) from)
  else Some ([], s).

Definition leaves (e : list effect) : bool := existsb (fun x => match x with Leave => true | _ => false end) e.

(** The loop. *)
(* src/rtl_hpsdr.c:1844-1881 main *)
Fixpoint serve (ds : list (list Z * Z)) (s : server) : option (list effect * server) :=
  match ds with
  | [] => Some ([], s)
  | (d, from) :: ds =>
      '(e, s) ← handle_datagram d from s;
      if leaves e then Some (e, s) else '(e', s) ← serve ds s; Some (e ++ e', s)
  end.

(** ** A new frequency *)

(** [new_freq] and [curr_freq] of a receiver. *)
(* src/rtl_hpsdr.c:419-464 hpsdrsim_sendiq_thr_func *)
Definition tune_pending (freq_offset use_up up_xtal : Z) (freqs : Z * Z) : M rtlsdr_dev (Z * Z) :=
  let '(new_freq, curr_freq) := freqs in
  if negb (new_freq =? 0) && negb (new_freq =? 110000000) then
    let i := i32 (new_freq + freq_offset) in
    let i := i32 (i + (if use_up =? 0 then 0 else up_xtal)) in
    rtlsdr_set_center_freq (u32 i);;
    mret (0, new_freq)
  else mret (new_freq, curr_freq).
