(* ===== verification/HpsdrControlSpec.v ===== *)
(** * rtl_hpsdr.c: what a client can do

    Whatever datagrams come, the state of the receivers stays consistent: the
    masks, the layout of the packets, the copies and the rate.  The control words
    of a packet are carried out. *)

From S2P Require Import Prelude Arrays Device HpsdrPacket HpsdrPacketSpec HpsdrControl Streams.

(** The mask of the first [n] receivers. *)
Definition first (n : Z) : Z := 2 ^ n - 1.

Record control_ok (c : control) : Prop := {
  ctl_total : 1 <= total_num_rcvrs c <= MAX_RCVRS;
  ctl_rcvrs : receivers_ok (rcvrs c);
  ctl_active : active_num_rcvrs (rcvrs c) = Z.min (slots (rcvrs c)) (total_num_rcvrs c);
  ctl_slots : last_num_rcvrs c = 8 * (slots (rcvrs c) - 1);
  ctl_real : forall j, 0 <= j < total_num_rcvrs c -> getz (copy_rcvr (rcvrs c)) j <> j;
  ctl_mask : rcvrs_mask c = first (active_num_rcvrs (rcvrs c));
  ctl_rate : 0 <= last_rate c < 4 /\ ctl_output_rate c = 48000 * 2 ^ last_rate c;
  ctl_lengths : length (last_freq c) = 7%nat /\ length (new_freq c) = 7%nat /\ length (rcvr_mask c) = 7%nat /\
    length (rcb_output_rate c) = 7%nat;
  ctl_masks : forall i, 0 <= i < MAX_RCVRS -> getz (rcvr_mask c) i = if i <? active_num_rcvrs (rcvrs c) then 2 ^ i else 0;
}.

(** ** The parts of process_ep2 *)

Lemma set_range_spec a b v l : 0 <= a -> b <= Z.of_nat (length l) ->
  exists l', set_range a b v l = Some l' /\ length l' = length l /\
    forall k, getz l' k = if (a <=? k) && (k <? b) then v k else getz l k.
Proof.
  intros Ha Hb. unfold set_range.
  destruct (for_arr_pointwise 0 (fun i l => arr_set l i (v i)) (fun k => a + k) (Z.to_nat (b - a)) (fun k => k - a) (fun k _ => v k) l)
    as (l' & E & L & G).
  - intros r x Hr Lx. destruct (arr_set_get_or 0 x (a + r) (v (a + r))) as (x' & E & L & G); [lia|]. exists x'. split_and!; [done..|].
    intros k. rewrite G. destruct (Z.eqb_spec k (a + r)) as [->|]; [by replace (a + r - a =? r) with true by lia|].
    by replace (k - a =? r) with false by lia.
  - exists l'. split_and!; [done..|]. intros k. rewrite G.
    by replace ((0 <=? k - a) && (k - a <? Z.of_nat (Z.to_nat (b - a)))) with ((a <=? k) && (k <? b)) by lia.
Qed.

Lemma mask_fold n : 1 <= n <= 7 ->
  fold_left (fun m i => m .| Z.shiftl 1 i) (map (fun k => 1 + k) (zseq (Z.to_nat (n - 1)))) 1 = first n.
Proof.
  intros Hn. assert (n = 1 \/ n = 2 \/ n = 3 \/ n = 4 \/ n = 5 \/ n = 6 \/ n = 7) as H by lia.
  repeat (destruct H as [-> | H]; [done|]). by subst.
Qed.

(** [activate] gives the client the slots, as many receivers as there are, and
    copies for the rest. *)
Lemma activate_spec n c : control_ok c -> 1 <= n <= MAX_RCVRS ->
  exists c', activate n (set_last_num (8 * (n - 1)) c) = Some c' /\ control_ok c' /\ slots (rcvrs c') = n /\
    total_num_rcvrs c' = total_num_rcvrs c /\ last_rate c' = last_rate c /\
    last_freq c' = last_freq c /\ new_freq c' = new_freq c.
Proof.
  intros [Ht Hr Ha _ Hreal Hm Hrate (L1 & L2 & L3 & L4) Hms] Hn. unfold MAX_RCVRS in *. unfold activate.
  cbn [set_last_num total_num_rcvrs rcvrs rcvr_mask rcb_output_rate].
  set (active := Z.min n (total_num_rcvrs c)). set (copies := n - active).
  replace (if n <=? total_num_rcvrs c then (0, n) else (n - total_num_rcvrs c, total_num_rcvrs c)) with (copies, active)
    by (unfold copies, active; destruct (Z.leb_spec n (total_num_rcvrs c)); f_equal; lia).
  assert (1 <= active <= 7 /\ active <= total_num_rcvrs c /\ 0 <= copies) as (Hact & Hat & Hcop) by (unfold copies, active; lia).
  destruct (frame_tables active ltac:(lia)) as (-> & -> & -> & _). cbn [mbind option_bind].
  destruct (set_range_spec 1 (total_num_rcvrs c) (fun _ => 0) (rcvr_mask c)) as (m1 & -> & Lm1 & Gm1); [lia..|]. cbn [mbind option_bind].
  rewrite mask_fold by done.
  destruct (set_range_spec 1 active (fun i => Z.shiftl 1 i) m1) as (m2 & -> & Lm2 & Gm2); [lia..|]. cbn [mbind option_bind].
  destruct (set_range_spec 1 active (fun _ => 0) (rcb_output_rate c)) as (rt & -> & Lrt & _); [lia..|]. cbn [mbind option_bind].
  assert (exists cp, (if 0 <? copies then set_range active n id (copy_rcvr (rcvrs c)) else Some (copy_rcvr (rcvrs c))) = Some cp /\
    length cp = 7%nat /\ forall k, getz cp k = if (active <=? k) && (k <? n) then k else getz (copy_rcvr (rcvrs c)) k) as (cp & -> & Lcp & Gcp).
  { pose proof (ok_length _ Hr) as Lc. destruct (Z.ltb_spec 0 copies).
    - destruct (set_range_spec active n id (copy_rcvr (rcvrs c))) as (cp & E & L & G); [lia..|]. exists cp. by split_and!; [|lia|].
    - eexists. split_and!; [done|done|]. intros k. replace (_ && _) with false by (unfold copies in *; lia). done. }
  cbn [mbind option_bind]. eexists. split; [done|]. assert (slots (rcvrs (set_active (mk_receivers active (2 * rows active)
    (16 + rows active * (6 * active + 2)) (528 + rows active * (6 * active + 2)) copies cp (using_IQfiles (rcvrs c))) (first active) m2 rt (set_last_num (8 * (n - 1)) c))) = n) as Es
    by (unfold slots; cbn; unfold copies; lia).
  split; [|by split_and!].
  constructor; [done| |rewrite Es; cbn; unfold active; lia|rewrite Es; done| |done|done|by split_and!; cbn; lia|].
  - constructor; rewrite ?Es; cbn; [lia|lia|unfold MAX_RCVRS; lia|done|done|done|done| |].
    + intros j Hj. rewrite Gcp. replace (_ && _) with false by lia. apply Hreal. lia.
    + intros j Hj. rewrite Gcp. by replace (_ && _) with true by lia.
  - cbn. intros j Hj. rewrite Gcp. destruct (Z.leb_spec active j), (Z.ltb_spec j n); cbn [andb]; try (apply Hreal; lia).
    unfold active in *. lia.
  - cbn. intros i Hi. unfold MAX_RCVRS in Hi. rewrite Gm2, Gm1, Hms by (unfold MAX_RCVRS; lia).
    destruct (Z.leb_spec 1 i), (Z.ltb_spec i active); cbn [andb].
    + by rewrite Z.shiftl_1_l.
    + destruct (Z.ltb_spec i (total_num_rcvrs c)); cbn [andb]; [done|]. by replace (i <? active_num_rcvrs (rcvrs c)) with false by lia.
    + assert (i = 0) as -> by lia. pose proof (ok_active _ Hr). by replace (0 <? active_num_rcvrs (rcvrs c)) with true by lia.
    + lia.
Qed.

(** Four bytes from [p] as an [int]. *)
Definition freq32 (b : list Z) (p : Z) : Z :=
  i32 (((Z.shiftl (getz b p) 24 .| Z.shiftl (getz b (p + 1)) 16) .| Z.shiftl (getz b (p + 2)) 8) .| getz b (p + 3)).

Lemma set_freqs_ok last new c :
  control_ok c -> length last = 7%nat -> length new = 7%nat -> control_ok (set_freqs last new c).
Proof. intros [] ??. by constructor; cbn; try done; destruct ctl_lengths0 as (_ & _ & ? & ?). Qed.

Section ep2.
Context (b : list Z) (Hb : 1032 <= Z.of_nat (length b)).

(** The word [w] (0 or 1) of a packet asks for a frequency of receiver [k]. *)
Definition asks (c : control) (C0 w k : Z) : bool :=
  (C0 =? 4 + 2 * k) && negb (freq32 b (12 + 512 * w) =? 0) && (0 <=? k) && (k <? total_num_rcvrs c).

Lemma ep2_freq_spec C0_1 C0_2 w c :
  control_ok c -> w = 0 \/ w = 1 -> 0 <= C0_1 -> 0 <= C0_2 -> Z.even C0_1 = true -> Z.even C0_2 = true ->
  let C0 := if w =? 0 then C0_1 else C0_2 in let f := freq32 b (12 + 512 * w) in
  exists last new, ep2_freq b C0_1 C0_2 w c = Some (tt, set_freqs last new c) /\ length last = 7%nat /\ length new = 7%nat /\
    (forall k, getz last k = if asks c C0 w k then f else getz (last_freq c) k) /\
    (forall k, getz new k = if asks c C0 w k && negb (getz (last_freq c) k =? f) then f else getz (new_freq c) k).
Proof using Hb.
  intros Hc Hw H1 H2 E1 E2 C0 f. pose proof (ctl_total _ Hc) as Ht. destruct (ctl_lengths _ Hc) as (L1 & L2 & _).
  unfold MAX_RCVRS in Ht. assert (Z.even C0 = true) as E0 by (unfold C0; by destruct (w =? 0)).
  assert (0 <= C0) as H0 by (unfold C0; destruct (w =? 0); lia).
  assert (Hsel : (if (4 <=? C0_1) && (w =? 0) && (C0_1 <=? 4 + (total_num_rcvrs c - 1) * 2) then (0, true, (C0_1 - 4) / 2)
    else if (4 <=? C0_2) && (w =? 1) && (C0_2 <=? 4 + (total_num_rcvrs c - 1) * 2) then (512, true, (C0_2 - 4) / 2)
    else (0, false, 0)) =
    (if (4 <=? C0) && (C0 <=? 4 + (total_num_rcvrs c - 1) * 2) then (512 * w, true, (C0 - 4) / 2) else (0, false, 0))).
  { unfold C0. destruct Hw as [-> | ->]; cbn [Z.eqb]; rewrite !andb_true_r, !andb_false_r; cbn [andb]; [|done].
    by destruct (_ && _). }
  unfold ep2_freq. rewrite Hsel. apply Zeven_bool_iff, Zeven_ex in E0 as [m Em].
  destruct ((4 <=? C0) && (C0 <=? 4 + (total_num_rcvrs c - 1) * 2)) eqn:Ein.
  - replace ((C0 - 4) / 2) with (m - 2) by (apply Z.div_unique with 0; lia).
    rewrite !(arr_get_get_or 0) by lia. cbn [mbind option_bind].
    replace (13 + 512 * w) with (12 + 512 * w + 1) by lia. replace (14 + 512 * w) with (12 + 512 * w + 2) by lia.
    replace (15 + 512 * w) with (12 + 512 * w + 3) by lia. fold (freq32 b (12 + 512 * w)). fold f.
    assert (forall k, asks c C0 w k = (k =? m - 2) && negb (f =? 0)) as Ha.
    { intros k. unfold asks. fold f. destruct (Z.eqb_spec k (m - 2)) as [->|Hne].
      - replace (C0 =? 4 + 2 * (m - 2)) with true by lia. replace (0 <=? m - 2) with true by lia.
        replace (m - 2 <? total_num_rcvrs c) with true by lia. by rewrite !andb_true_r.
      - by replace (C0 =? 4 + 2 * k) with false by lia. }
    destruct (Z.eqb_spec (getz (last_freq c) (m - 2)) f) as [El|El]; [|destruct (Z.eqb_spec f 0) as [Ef|Ef]]; cbn [negb andb].
    + exists (last_freq c), (new_freq c). split; [by destruct c|]. split_and!; [done..| |]; intros k; rewrite Ha;
        destruct (Z.eqb_spec k (m - 2)) as [->|]; cbn [andb]; try done.
      * by destruct (f =? 0).
      * rewrite El, Z.eqb_refl. by rewrite andb_false_r.
    + exists (last_freq c), (new_freq c). split; [by destruct c|]. split_and!; [done..| |]; intros k; rewrite Ha, andb_false_r; done.
    + replace (m - 2 <? total_num_rcvrs c) with true by lia.
      destruct (arr_set_get_or 0 (new_freq c) (m - 2) f) as (new & -> & Ln & Gn); [lia|]. cbn [mbind option_bind].
      destruct (arr_set_get_or 0 (last_freq c) (m - 2) f) as (last & -> & Ll & Gl); [lia|]. cbn [mbind option_bind].
      exists last, new. split_and!; [done|lia|lia| |]; intros k; rewrite Ha, ?Gn, ?Gl, ?andb_true_r; destruct (Z.eqb_spec k (m - 2)) as [->|]; cbn [andb]; try done.
      by destruct (Z.eqb_spec (getz (last_freq c) (m - 2)) f).
  - exists (last_freq c), (new_freq c). split; [by destruct c|].
    assert (forall k, asks c C0 w k = false) as Ha by (intros k; unfold asks; lia).
    split_and!; [done..| |]; intros k; by rewrite Ha.
Qed.

Context (Hu8 : Forall is_u8 b).

Lemma byte_u8 p : is_u8 (getz b p).
Proof using Hu8.
  unfold get_or, arr_get. destruct (_ <? _); [done|]. destruct (b !! _) as [x|] eqn:E; [|done].
  by apply (Forall_lookup_1 _ _ _ _ Hu8 E).
Qed.

(** The rate and the number of receivers in the word at [off]. *)
Definition rate_bits (off : Z) : Z := getz b (12 + off) mod 4.
Definition rcvr_bits (off : Z) : Z := getz b (15 + off) / 8 mod 8.

Lemma rcvr_field p : getz b p .& 0x38 = 8 * (getz b p / 8 mod 8).
Proof using Hu8.
  pose proof (u8_all (fun x => x .& 0x38 =? 8 * (x / 8 mod 8)) eq_refl _ (byte_u8 p)) as H. cbv beta in H. lia.
Qed.

Lemma ep2_rate_spec off c : control_ok c -> 0 <= off <= 512 ->
  exists c', ep2_rate b off c = Some (tt, c') /\ control_ok c' /\ last_rate c' = rate_bits off /\
    total_num_rcvrs c' = total_num_rcvrs c /\ last_freq c' = last_freq c /\ new_freq c' = new_freq c.
Proof using Hb.
  intros Hc Ho. unfold ep2_rate. rewrite (arr_get_get_or 0) by lia. cbn [mbind option_bind].
  change 3 with (Z.ones 2). rewrite Z.land_ones by lia. change (2 ^ 2) with 4. fold (rate_bits off).
  assert (0 <= rate_bits off < 4) as Hr by (apply Z.mod_pos_bound; lia).
  destruct (Z.eqb_spec (last_rate c) (rate_bits off)) as [E|E]; cbn [negb].
  - by exists c.
  - eexists. split; [done|]. split; [|done]. destruct Hc. constructor; cbn; try done. split; [done|].
    assert (rate_bits off = 0 \/ rate_bits off = 1 \/ rate_bits off = 2 \/ rate_bits off = 3) as H by lia.
    repeat (destruct H as [-> | H]; [done|]). by rewrite H.
Qed.

Lemma ep2_receivers_spec off c : control_ok c -> 0 <= off <= 512 ->
  exists o c', ep2_receivers b off c = Some (o, c') /\
    match o with
    | Goes => control_ok c' /\ slots (rcvrs c') = rcvr_bits off + 1 /\ rcvr_bits off < 7
    | Exits => rcvr_bits off = 7
    end /\ total_num_rcvrs c' = total_num_rcvrs c /\
    last_rate c' = last_rate c /\ last_freq c' = last_freq c /\ new_freq c' = new_freq c.
Proof using Hb Hu8.
  intros Hc Ho. unfold ep2_receivers. rewrite (arr_get_get_or 0) by lia. cbn [mbind option_bind].
  rewrite rcvr_field. fold (rcvr_bits off). assert (0 <= rcvr_bits off < 8) as Hr by (apply Z.mod_pos_bound; lia).
  pose proof (ok_slots _ (ctl_rcvrs _ Hc)) as Hs. unfold MAX_RCVRS in *. pose proof (ctl_slots _ Hc) as Hl.
  destruct (Z.eqb_spec (last_num_rcvrs c) (8 * rcvr_bits off)) as [E|E]; cbn [negb].
  - exists Goes, c. split_and!; [done|done|lia|lia|done..].
  - rewrite Z.shiftr_div_pow2, (Z.mul_comm 8), Z.div_mul by lia. destruct (Z.ltb_spec 7 (rcvr_bits off + 1)).
    { exists Exits, (set_last_num (rcvr_bits off * 8) c). split_and!; [done|lia|done..]. }
    destruct (activate_spec (rcvr_bits off + 1) c Hc ltac:(unfold MAX_RCVRS; lia)) as (c2 & E2 & H2 & H3 & H4).
    replace (8 * (rcvr_bits off + 1 - 1)) with (rcvr_bits off * 8) in E2 by lia. rewrite E2. cbn [mbind option_bind].
    exists Goes, c2. split_and!; [done|done|done|lia|apply H4..].
Qed.

(** The word with the settings, if there is one. *)
Definition settings_at (C0_1 C0_2 : Z) : option Z :=
  if C0_1 =? 0 then Some 0 else if C0_2 =? 0 then Some 512 else None.

(** What a word makes of the frequencies. *)
Definition asked (c : control) (C0 w : Z) (last new : Z -> Z) : (Z -> Z) * (Z -> Z) :=
  let f := freq32 b (12 + 512 * w) in
  (fun k => if asks c C0 w k then f else last k,
   fun k => if asks c C0 w k && negb (last k =? f) then f else new k).

Lemma ep2_word_spec C0_1 C0_2 w c :
  control_ok c -> w = 0 \/ w = 1 -> 0 <= C0_1 -> 0 <= C0_2 -> Z.even C0_1 = true -> Z.even C0_2 = true ->
  exists o c', ep2_word b C0_1 C0_2 w c = Some (o, c') /\ total_num_rcvrs c' = total_num_rcvrs c /\
    (forall k, getz (last_freq c') k = fst (asked c (if w =? 0 then C0_1 else C0_2) w (getz (last_freq c)) (getz (new_freq c))) k) /\
    (forall k, getz (new_freq c') k = snd (asked c (if w =? 0 then C0_1 else C0_2) w (getz (last_freq c)) (getz (new_freq c))) k) /\
    match settings_at C0_1 C0_2, o with
    | None, Goes => control_ok c'
    | Some off, Goes => control_ok c' /\ last_rate c' = rate_bits off /\ slots (rcvrs c') = rcvr_bits off + 1 /\ rcvr_bits off < 7
    | Some off, Exits => rcvr_bits off = 7
    | None, Exits => False
    end.
Proof using Hb Hu8.
  intros Hc Hw H1 H2 E1 E2. unfold ep2_word.
  destruct (ep2_freq_spec C0_1 C0_2 w c Hc Hw H1 H2 E1 E2) as (last & new & E & L1 & L2 & G1 & G2).
  cbv beta delta [mbind M_bind]. rewrite E. pose proof (set_freqs_ok last new c Hc L1 L2) as Hc1.
  unfold settings_at. set (c1 := set_freqs last new c) in *.
  assert (forall off, 0 <= off <= 512 -> exists o c', (ep2_rate b off;; ep2_receivers b off) c1 = Some (o, c') /\
    match o with
    | Goes => control_ok c' /\ last_rate c' = rate_bits off /\ slots (rcvrs c') = rcvr_bits off + 1 /\ rcvr_bits off < 7
    | Exits => rcvr_bits off = 7
    end /\ total_num_rcvrs c' = total_num_rcvrs c /\ last_freq c' = last /\ new_freq c' = new) as Hset.
  { intros off Ho. destruct (ep2_rate_spec off c1 Hc1 Ho) as (c2 & Er & Hc2 & Erate & Et & El & En).
    destruct (ep2_receivers_spec off c2 Hc2 Ho) as (o & c3 & Ec & Hm & Et3 & Er3 & El3 & En3).
    exists o, c3. cbv beta delta [mbind M_bind]. rewrite Er. split; [exact Ec|]. split; [|by rewrite Et3, El3, En3].
    destruct o; [|done]. destruct Hm as (? & ? & ?). split_and!; congruence. }
  destruct (Z.eqb_spec C0_1 0) as [Z1|Z1]; [|destruct (Z.eqb_spec C0_2 0) as [Z2|Z2]]; cbn [orb].
  - destruct (Hset 0 ltac:(lia)) as (o & c' & Ec & Hm & Et & El & En). exists o, c'. rewrite El, En. by split_and!.
  - destruct (Hset 512 ltac:(lia)) as (o & c' & Ec & Hm & Et & El & En). exists o, c'. rewrite El, En. by split_and!.
  - exists Goes, c1. by split_and!.
Qed.
End ep2.

(** ** A packet *)

Definition word1 (b : list Z) : Z := getz b 11 .& 0xFE.
Definition word2 (b : list Z) : Z := getz b 523 .& 0xFE.

Lemma word_even b p : Forall is_u8 b -> 0 <= getz b p .& 0xFE /\ Z.even (getz b p .& 0xFE) = true.
Proof.
  intros Hb. pose proof (u8_all (fun x => (0 <=? x .& 0xFE) && Z.even (x .& 0xFE)) eq_refl _ (byte_u8 b Hb p)) as H.
  apply andb_true_iff in H as [H1 H2]. split; [lia|done].
Qed.

(** C33: the control words of a packet are carried out.  A word with settings
    sets the rate to 48 kHz times a power of two and the number of slots to what
    the client asks for, with as many receivers as there are and copies of the
    last one for the rest; a word with a frequency stores it for its receiver
    when it is new, the second word after the first; and the masks and the
    layout stay consistent.  Only the request for eight receivers ends the
    program. *)
Theorem process_ep2_words c b :
  control_ok c -> 1032 <= Z.of_nat (length b) -> Forall is_u8 b ->
  exists o c', process_ep2 b c = Some (o, c') /\
    match o with
    | Goes =>
        control_ok c' /\ total_num_rcvrs c' = total_num_rcvrs c /\
        (forall off, settings_at (word1 b) (word2 b) = Some off ->
           ctl_output_rate c' = 48000 * 2 ^ rate_bits b off /\ slots (rcvrs c') = rcvr_bits b off + 1 /\
           active_num_rcvrs (rcvrs c') = Z.min (rcvr_bits b off + 1) (total_num_rcvrs c)) /\
        let '(last1, new1) := asked b c (word1 b) 0 (getz (last_freq c)) (getz (new_freq c)) in
        let '(last2, new2) := asked b c (word2 b) 1 last1 new1 in
        (forall k, getz (last_freq c') k = last2 k) /\ (forall k, getz (new_freq c') k = new2 k)
    | Exits => exists off, settings_at (word1 b) (word2 b) = Some off /\ rcvr_bits b off = 7
    end.
Proof.
  intros Hc Hl Hb. unfold process_ep2, mbind, M_bind, from_option_trap, mret, M_ret. rewrite !(arr_get_get_or 0) by lia. cbv beta iota.
  fold (word1 b) (word2 b). destruct (word_even b 11 Hb) as [H1 E1]. destruct (word_even b 523 Hb) as [H2 E2].
  fold (word1 b) in H1, E1. fold (word2 b) in H2, E2.
  destruct (ep2_word_spec b Hl Hb (word1 b) (word2 b) 0 c Hc (or_introl eq_refl) H1 H2 E1 E2) as (o & c1 & -> & Et & El & En & Hm).
  destruct o.
  2:{ exists Exits, c1. split; [done|]. destruct (settings_at _ _) as [off|]; [by exists off|done]. }
  assert (control_ok c1) as Hc1 by (destruct (settings_at _ _); [by destruct Hm|done]).
  destruct (ep2_word_spec b Hl Hb (word1 b) (word2 b) 1 c1 Hc1 (or_intror eq_refl) H1 H2 E1 E2) as (o & c2 & -> & Et2 & El2 & En2 & Hm2).
  exists o, c2. split; [done|]. destruct o.
  2:{ destruct (settings_at _ _) as [off|]; [by exists off|done]. }
  assert (control_ok c2) as Hc2 by (destruct (settings_at _ _); [by destruct Hm2|done]).
  split; [done|]. split; [congruence|]. split.
  - intros off Eoff. rewrite Eoff in Hm2. destruct Hm2 as (_ & Er & Es & _). pose proof (ctl_rate _ Hc2) as [_ Eo].
    pose proof (ctl_active _ Hc2) as Ea. split_and!; [by rewrite Eo, Er|done|]. rewrite Ea, Es. congruence.
  - cbn [asked Z.eqb fst snd] in *. split; intros k; rewrite ?El2, ?En2; unfold asks in *; rewrite Et, El; [done|]. by rewrite En.
Qed.

Lemma initial_control_ok total : 1 <= total <= MAX_RCVRS -> control_ok (initial_control total).
Proof.
  intros Ht. assert (forall j, 0 <= j -> getz (replicate 7 (-1)) j <> j) as Hm.
  { intros j Hj. destruct (Z.lt_ge_cases j 7).
    - rewrite <- (Z2Nat.id j) by done. unfold get_or. rewrite arr_get_nat, lookup_replicate_2 by lia. cbn. lia.
    - rewrite get_or_outside by (rewrite length_replicate; lia). lia. }
  constructor; cbn; try done.
  - constructor; cbn; try done; unfold slots; cbn; [intros j Hj; apply Hm; lia|lia].
  - unfold slots. cbn. lia.
  - intros j Hj. apply Hm. lia.
  - unfold MAX_RCVRS. intros i Hi. assert (i = 0 \/ i = 1 \/ i = 2 \/ i = 3 \/ i = 4 \/ i = 5 \/ i = 6) as H by lia.
    repeat (destruct H as [-> | H]; [done|]). by subst.
Qed.

(** Four receivers; the client asks for six slots at 192 kHz, and 7.1 MHz for
    the third receiver. *)
Definition sample_packet : list Z :=
  replicate (Z.to_nat 12) 0 ++ [2; 0; 0; 0x28] ++ replicate (Z.to_nat 507) 0 ++ [8; 0; 0x6c; 0x56; 0x60] ++ replicate (Z.to_nat 1520) 0.

Lemma process_ep2_words_witness :
  exists c', process_ep2 sample_packet (initial_control 4) = Some (Goes, c') /\ ctl_output_rate c' = 192000 /\
    slots (rcvrs c') = 6 /\ active_num_rcvrs (rcvrs c') = 4 /\ getz (new_freq c') 2 = 7100000.
Proof.
  destruct (process_ep2_words (initial_control 4) sample_packet) as (o & c' & E & H).
  - by apply initial_control_ok.
  - by vm_compute.
  - apply (bool_decide_unpack _). vm_compute. exact I.
  - exists c'. destruct o.
    + destruct H as (_ & _ & Hs & _ & Hn). destruct (Hs 0 eq_refl) as (H1 & H2 & H3). split_and!; [exact E|exact H1|exact H2|exact H3|].
      rewrite Hn. vm_compute. reflexivity.
    + destruct H as (off & Eo & Hr). vm_compute in Eo. injection Eo as <-. vm_compute in Hr. discriminate Hr.
Defined.

(** ** Datagrams *)

Definition server_buffer (b : list Z) : Prop := Z.of_nat (length b) = 2048 /\ Forall is_u8 b.
Definition server_ok (s : server) : Prop := control_ok (ctl s) /\ server_buffer (buffer s).

(** What the socket can deliver. *)
Definition datagram (d : list Z * Z) : Prop :=
  Forall is_u8 (fst d) /\ 0 < Z.of_nat (length (fst d)) <= HPSDR_FRAME_LEN.

(** The answer: a board of type Orion with version 32 of the firmware. *)
Definition board : list Z := [0xEF; 0xFE; 2; 0; 0x1C; 0xC0; 0xA2; 0x10; 0xDD; 32; 5] ++ replicate 49 0.

Lemma put_at_front x y l : length y = length x -> put_at 0 x (y ++ l) = Some (x ++ l).
Proof. intros H. exact (put_at_app x [] y l H). Qed.

Lemma discovery_reply_spec b : 60 <= Z.of_nat (length b) -> discovery_reply b = Some (board ++ drop 60 b).
Proof.
  intros Hl. rewrite <- (take_drop 60 b) at 1. unfold discovery_reply.
  rewrite put_at_front by (rewrite length_take, length_replicate; lia). cbn [mbind option_bind].
  change (replicate 60 0 ++ drop 60 b) with (replicate 9 0 ++ (replicate 51 0 ++ drop 60 b)). rewrite put_at_front by done.
  cbn [mbind option_bind]. set (l := replicate 51 0 ++ drop 60 b).
  change ([239; 254; 2; 0; 28; 192; 162; 16; 221] ++ l) with ([239; 254] ++ 2 :: ([0; 28; 192; 162; 16; 221] ++ l)).
  rewrite arr_set_mid by done. cbn [mbind option_bind]. unfold l.
  change ([239; 254] ++ 2 :: ([0; 28; 192; 162; 16; 221] ++ replicate 51 0 ++ drop 60 b))
    with ([239; 254; 2; 0; 28; 192; 162; 16; 221] ++ replicate 2 0 ++ (replicate 49 0 ++ drop 60 b)).
  change 9 with (Z.of_nat (length [239; 254; 2; 0; 28; 192; 162; 16; 221])). rewrite put_at_app by done. reflexivity.
Qed.

Lemma receive_ok d b : server_buffer b -> datagram d -> server_buffer (receive (fst d) b).
Proof.
  intros [Hl Hb] [Hd Hn]. unfold HPSDR_FRAME_LEN in Hn. unfold receive. split.
  - rewrite length_app, length_drop. lia.
  - apply Forall_app. split; [done|]. by apply Forall_drop.
Qed.

Lemma getz_receive d b k : 0 <= k -> getz (receive d b) k = if k <? Z.of_nat (length d) then getz d k else getz b k.
Proof.
  intros Hk. unfold receive, get_or. rewrite !arr_get_lookup by done. destruct (Z.ltb_spec k (Z.of_nat (length d))).
  - by rewrite lookup_app_l by lia.
  - rewrite lookup_app_r, lookup_drop by lia. do 2 f_equal. lia.
Qed.

(** The code of a datagram; what is missing in a short one is that of the
    program's own packets. *)
Definition code_of (data : list Z) : Z := le32 (receive data [0xef; 0xfe; 1; 6]).

Lemma code_of_received data l : le32 (receive data ([0xef; 0xfe; 1; 6] ++ l)) = code_of data.
Proof.
  unfold code_of, le32. rewrite !getz_receive by lia.
  assert (forall k, 0 <= k < 4 -> getz ([0xef; 0xfe; 1; 6] ++ l) k = getz [0xef; 0xfe; 1; 6] k) as E; [|by rewrite !E by lia].
  intros k Hk. unfold get_or. rewrite !arr_get_lookup by lia. by rewrite lookup_app_l by (cbn [length]; lia).
Qed.

(** A datagram is for the loop only with the right length for its code. *)
Definition accepted (data : list Z) : bool :=
  let n := Z.of_nat (length data) in let code := code_of data in
  (code =? 0x0201feef) && (n =? HPSDR_FRAME_LEN) || (code =? 0x0002feef) && (n =? 63) ||
  ((code =? 0x0004feef) || (code =? 0x0104feef) || (code =? 0x0204feef) || (code =? 0x0304feef)) && (n =? 64).

Lemma handle_datagram_spec d from s :
  server_ok s -> datagram (d, from) ->
  exists e s', handle_datagram d from s = Some (e, s') /\ (leaves e = true \/ server_ok s') /\
    (forall r, Reply r ∈ e -> r = board) /\ (accepted d = false -> e = [] /\ s' = set_buffer (buffer s') s).
Proof.
  intros (Hc & Hb) Hd. unfold handle_datagram. pose proof Hb as [Hl Hu].
  assert (put_at 0 [239; 254; 1; 6] (buffer s) = Some ([239; 254; 1; 6] ++ drop 4 (buffer s))) as ->.
  { rewrite <- (take_drop 4 (buffer s)) at 1. by rewrite put_at_front by (rewrite length_take; cbn [length]; lia). }
  cbn [mbind option_bind]. set (b0 := [239; 254; 1; 6] ++ drop 4 (buffer s)).
  assert (server_buffer b0) as Hb0.
  { split; [unfold b0; rewrite length_app, length_drop; cbn [length]; lia|].
    apply Forall_app. split; [apply (bool_decide_unpack _); vm_compute; exact I|by apply Forall_drop]. }
  pose proof (receive_ok (d, from) b0 Hb0 Hd) as Hb1. cbn [fst] in Hb1.
  assert (le32 (receive d b0) = code_of d) as Ec by apply code_of_received. cbv zeta. rewrite !Ec.
  set (b1 := receive d b0) in *. unfold accepted. set (n := Z.of_nat (length d)). set (code := code_of d).
  assert (forall a : bool, exists e s', Some ([], set_buffer b1 s) = Some (e, s') /\ (leaves e = true \/ server_ok s') /\
    (forall r, Reply r ∈ e -> r = board) /\ (a = false -> e = [] /\ s' = set_buffer (buffer s') s)) as Hignore.
  { intros a. exists [], (set_buffer b1 s). split_and!; [done|right; by split|intros r Hr; by apply not_elem_of_nil in Hr|done]. }
  destruct (Z.eqb_spec code 0x0201feef) as [->|H1]; [|destruct (Z.eqb_spec code 0x0002feef) as [->|H2];
    [|destruct (Z.eqb_spec code 0x0004feef) as [->|H3]]].
  - destruct (Z.eqb_spec n HPSDR_FRAME_LEN) as [Hn|Hn]; cbn [negb]; [|apply Hignore].
    destruct (process_ep2_words (ctl s) b1 Hc ltac:(destruct Hb1; lia) (proj2 Hb1)) as (o & c & E & Ho).
    cbn [ctl set_buffer]. rewrite E. cbn [mbind option_bind]. eexists _, _. split; [done|].
    destruct o; (split; [|split; [|done]]).
    + right. by destruct Ho.
    + intros r Hr. by apply not_elem_of_nil in Hr.
    + by left.
    + intros r Hr. apply list_elem_of_singleton in Hr. done.
  - destruct (Z.eqb_spec n 63) as [Hn|Hn]; cbn [negb]; [|apply Hignore].
    rewrite discovery_reply_spec by (destruct Hb1; lia). cbn [mbind option_bind].
    replace (take 60 (board ++ drop 60 b1)) with board by (symmetry; by apply take_app_length'). eexists _, _. split; [done|]. split_and!.
    + right. split; [done|]. cbn [buffer set_buffer]. destruct Hb1 as [L U]. split; [rewrite length_app, length_drop; cbn [length board app replicate]; lia|].
      apply Forall_app. split; [apply (bool_decide_unpack _); vm_compute; exact I|by apply Forall_drop].
    + intros r Hr. apply list_elem_of_singleton in Hr. by injection Hr as ->.
    + done.
  - destruct (Z.eqb_spec n 64) as [Hn|Hn]; cbn [negb]; [|apply Hignore].
    eexists _, _. split; [done|]. split_and!; [right; by split|intros r Hr; by apply not_elem_of_nil in Hr|done].
  - destruct ((code =? 17104623) || (code =? 33881839) || (code =? 50659055)) eqn:E; [|apply Hignore].
    destruct (Z.eqb_spec n 64) as [Hn|Hn]; cbn [negb]; [|apply Hignore].
    eexists _, _. split; [done|]. split_and!; [right; by split| |].
    + intros r Hr. apply list_elem_of_singleton in Hr. done.
    + cbn [andb orb]. rewrite E. done.
Qed.

(** C32: any datagrams are served.  However many come, well formed or not, the
    loop has a defined result: it leaves the program (a client asked for eight
    receivers) or the receivers are consistent; every answer it sends is the
    description of the board; and a datagram that is not one of the accepted
    lengths for its code changes nothing but the buffer. *)
Theorem hpsdr_serves ds : forall s,
  server_ok s -> Forall datagram ds ->
  exists e s', serve ds s = Some (e, s') /\ (leaves e = true \/ server_ok s') /\ (forall r, Reply r ∈ e -> r = board) /\
    (Forall (fun d => accepted (fst d) = false) ds -> e = [] /\ s' = set_buffer (buffer s') s).
Proof.
  induction ds as [|[d from] ds IH]; intros s Hs Hds.
  { exists [], s. split_and!; [done|by right|intros r Hr; by apply not_elem_of_nil in Hr|]. intros _. by destruct s. }
  apply Forall_cons in Hds as [Hd Hds]. cbn [serve].
  destruct (handle_datagram_spec d from s Hs Hd) as (e1 & s1 & -> & Hok & Hr1 & Ha1). cbn [mbind option_bind].
  destruct (leaves e1) eqn:El.
  { exists e1, s1. split_and!; [done|by left|done|]. intros [Ha _]%Forall_cons. by destruct (Ha1 Ha) as [-> _]. }
  destruct Hok as [|Hok]; [done|]. destruct (IH s1 Hok Hds) as (e2 & s2 & -> & Hok2 & Hr2 & Ha2). cbn [mbind option_bind].
  exists (e1 ++ e2), s2. split_and!; [done| | |].
  - destruct Hok2 as [H|H]; [left|by right]. unfold leaves in *. by rewrite existsb_app, H, orb_true_r.
  - intros r [H|H]%elem_of_app; auto.
  - intros [Ha Hrest]%Forall_cons. destruct (Ha1 Ha) as [-> E1]. destruct (Ha2 Hrest) as [-> E2]. split; [done|].
    by rewrite E2, E1.
Qed.

Definition first_server : server := mk_server (initial_control 2) (replicate (Z.to_nat 2048) 0) 0xffffffff 0 0 0 0.
Definition discovery : list Z := [0xEF; 0xFE; 2] ++ replicate 60 0.

(** A short packet and a request: nothing but the answer. *)
Lemma hpsdr_serves_witness :
  exists e s', serve [([1; 2; 3], 7); (discovery, 7)] first_server = Some (e, s') /\ (leaves e = true \/ server_ok s') /\
    (forall r, Reply r ∈ e -> r = board).
Proof.
  destruct (hpsdr_serves [([1; 2; 3], 7); (discovery, 7)] first_server) as (e & s' & E & H1 & H2 & _).
  - split; [by apply initial_control_ok|]. split; [cbn [first_server buffer]; rewrite length_replicate, Z2Nat.id by lia; reflexivity|].
    apply (bool_decide_unpack _). vm_compute. exact I.
  - apply (bool_decide_unpack _). vm_compute. exact I.
  - exists e, s'. by split_and!.
Defined.

(** The bits for eight receivers end the program. *)
Lemma client_stops_hpsdr :
  let packet := [0xEF; 0xFE; 1; 2] ++ replicate 11 0 ++ [0x38] ++ replicate (Z.to_nat 1016) 0 in
  exists s', serve [(packet, 7)] first_server = Some ([Leave], s').
Proof. vm_compute. eexists. reflexivity. Qed.

(** A request for 110 MHz is never carried out. *)
Lemma freq_110MHz_ignored offset use_up up_xtal curr d :
  tune_pending offset use_up up_xtal (110000000, curr) d = Some ((110000000, curr), d).
Proof. reflexivity. Qed.
