(* ===== verification/HpsdrThreads.v ===== *)
(** * rtl_hpsdr.c: the threads

    The threads of the receivers fill the payload ([load_packet]) and wait; the
    thread of the stream ([handler_ep6]) sends it when all have.  The steps are
    the critical sections between which other threads can run; a wait on a
    condition is a step with a guard. *)

From S2P Require Import Prelude Arrays Double Single Downsample DownsampleSpec HpsdrPacket HpsdrPacketSpec HpsdrControl HpsdrControlSpec.
From Stdlib Require Import SpecFloat.

(** A receiver is about to load its packet [i]; has loaded it and read
    [send_flags], and is about to store them with its bit, holding [send_lock]; or
    waits until the packet is sent. *)
Inductive phase : Type := Loading (i : nat) | Storing (i : nat) (read : Z) | Waiting (i : nat).

(** The thread of the stream waits for the packets, or has sent one and not yet
    cleared the flags: [done_send_lock] is its own, but [send_lock] is free
    again. *)
Inductive stage : Type := Collecting | Clearing.

(** What the threads share, and where each is; [sent] is the log of the
    datagrams. *)
(* src/rtl_hpsdr.c:88-97 send_flags *)
Record threads : Type := mk_threads {
  thr_flags : Z;
  thr_payload : list Z;
  thr_counter : Z;
  thr_enable : bool;
  thr_stage : stage;
  thr_phases : list phase;
  thr_sent : list (list Z);
}.

Section threads.
Context (oor : double -> Z) (c : receivers).

(** The buffers of receiver [k] when it loads its packet [i]. *)
Context (chunks : nat -> nat -> buffers).

(** All active receivers have their bit ([rcvrs_mask]). *)
Definition all_flags : Z := first (active_num_rcvrs c).

(** Nobody holds [send_lock]. *)
Definition unlocked (s : threads) : Prop := forall k i r, thr_phases s !! k <> Some (Storing i r).

(** [send_flags |= rcvr_mask] reads and then writes; [send_flags = 0] is under
    the other lock and can come between. *)
(* src/rtl_hpsdr.c: handler_ep6 *)
Inductive step : threads -> threads -> Prop :=
| step_load s k i pay :
    unlocked s ->
    thr_phases s !! k = Some (Loading i) ->
    load_packet oor c (Z.of_nat k) (chunks k i) (thr_payload s) = Some pay ->
    step s (mk_threads (thr_flags s) pay (thr_counter s) (thr_enable s) (thr_stage s)
      (<[k := Storing i (thr_flags s)]> (thr_phases s)) (thr_sent s))
| step_store s k i r :
    thr_phases s !! k = Some (Storing i r) ->
    step s (mk_threads (r .| Z.shiftl 1 (Z.of_nat k)) (thr_payload s) (thr_counter s) (thr_enable s) (thr_stage s)
      (<[k := Waiting i]> (thr_phases s)) (thr_sent s))
| step_done s k i :
    thr_stage s = Collecting ->
    thr_phases s !! k = Some (Waiting i) ->
    thr_flags s .& Z.shiftl 1 (Z.of_nat k) = 0 ->
    step s (mk_threads (thr_flags s) (thr_payload s) (thr_counter s) (thr_enable s) (thr_stage s)
      (<[k := Loading (S i)]> (thr_phases s)) (thr_sent s))
| step_send s pay :
    thr_stage s = Collecting ->
    unlocked s ->
    thr_flags s = all_flags \/ thr_enable s = false ->
    plug_sequence (thr_counter s) (thr_payload s) = Some pay ->
    step s (mk_threads (thr_flags s) pay (u32 (thr_counter s + 1)) (thr_enable s) Clearing (thr_phases s) (thr_sent s ++ [pay]))
| step_clear s :
    thr_stage s = Clearing ->
    step s (mk_threads 0 (thr_payload s) (thr_counter s) (thr_enable s) Collecting (thr_phases s) (thr_sent s)).

(** The main loop clears [enable_thread]. *)
(* src/rtl_hpsdr.c:1963-1963 main *)
Definition stop (s : threads) : threads :=
  mk_threads (thr_flags s) (thr_payload s) (thr_counter s) false (thr_stage s) (thr_phases s) (thr_sent s).

Definition reachable (s0 s : threads) : Prop := rtc (fun s s' => step s s' \/ s' = stop s) s0 s.

(** A receiver has read the flags of others and not yet stored them: a clear is
    undone. *)
Definition torn (s : threads) : Prop :=
  exists k i r j, thr_phases s !! k = Some (Storing i r) /\ j <> Z.of_nat k /\ Z.testbit r j = true.

(** A step that is not a clear that is undone. *)
Definition calm (s s' : threads) : Prop :=
  (step s s' \/ s' = stop s) /\ (thr_stage s = Clearing -> thr_stage s' = Collecting -> ~ torn s).

Definition calm_reachable : threads -> threads -> Prop := rtc calm.

(** When a client starts the stream: the main loop has set all flags, to free
    an older thread. *)
Definition started (pay : list Z) : threads :=
  mk_threads all_flags pay 0 true Collecting (replicate (Z.to_nat (active_num_rcvrs c)) (Loading 0)) [].

(** ** What a datagram carries *)

(** The slots of receiver [k] show the samples of [r]. *)
Definition carries (pay : list Z) (k : Z) (r : buffers) : Prop :=
  forall j n h, 0 <= j < slots c -> 0 <= n < 2 * rows (slots c) -> 0 <= h < 2 -> shown c j = k ->
    read24 pay (sample_position c j n h) = 256 * d_to_i16 oor (getf (iqSamples r) (2 * (iqSample_offset r + n) + h)).

Context (Hc : receivers_ok c) (Hfiles : using_IQfiles c = false).

Definition enough (r : buffers) : Prop :=
  0 <= iqSample_offset r /\ 2 * (iqSample_offset r + 2 * rows (slots c)) <= Z.of_nat (length (iqSamples r)).

Lemma load_carries k r pay :
  0 <= k < active_num_rcvrs c -> enough r -> clean c pay ->
  exists pay', load_packet oor c k r pay = Some pay' /\ clean c pay' /\ carries pay' k r /\
    forall k' r', k' <> k -> carries pay k' r' -> carries pay' k' r'.
Proof.
  intros Hk [Ho Hl] [L Hz]. destruct (load_packet_spec oor c Hc k r pay Hk Ho Hl L) as (pay' & E & L' & G).
  assert (forall j n h d, 0 <= j < slots c -> 0 <= n < 2 * rows (slots c) -> 0 <= h < 2 -> 0 <= d < 3 ->
    getz pay' (sample_position c j n h + d) = if shown c j =? k then
      match sample_bytes oor c (getf (iqSamples r) (2 * (iqSample_offset r + n) + h)) !! Z.to_nat d with
      | Some v => v | None => getz pay (sample_position c j n h + d) end else getz pay (sample_position c j n h + d)) as Hb.
  { intros j n h d Hj Hn Hh Hd. rewrite G.
    destruct (position_byte oor c Hc (fun _ => r) (shown c j) _ j n h d (getz pay (sample_position c j n h + d)) Hj Hn Hh Hd eq_refl eq_refl)
      as [Hown Hbyte].
    destruct (Z.eqb_spec (shown c j) k) as [<-|Hne]; [exact Hbyte|]. apply packet_byte_other; [done|done|]. congruence. }
  unfold sample_bytes in Hb. rewrite Hfiles in Hb. exists pay'. split; [done|]. split; [|split].
  - split; [done|]. intros j n h Hj Hn Hh. rewrite Hb by lia. cbn. rewrite Hz by done. by destruct (_ =? _).
  - intros j n h Hj Hn Hh <-. apply read24_short; [apply d_to_i16_range| | |].
    + pose proof (Hb j n h 0 Hj Hn Hh ltac:(lia)) as H. rewrite Z.add_0_r, Z.eqb_refl in H. exact H.
    + by rewrite Hb, Z.eqb_refl by lia.
    + rewrite Hb, Z.eqb_refl by lia. cbn. by apply Hz.
  - intros k' r' Hne Hcar j n h Hj Hn Hh Es. rewrite <- (Hcar j n h Hj Hn Hh Es). unfold read24.
    assert ((shown c j =? k) = false) as Ef by lia.
    pose proof (Hb j n h 0 Hj Hn Hh ltac:(lia)) as H0. rewrite Z.add_0_r, Ef in H0. rewrite H0, !Hb, Ef by lia. done.
Qed.

Lemma position_large j n h : 0 <= j < slots c -> 0 <= n < 2 * rows (slots c) -> 0 <= h < 2 -> 16 <= sample_position c j n h.
Proof.
  intros Hj Hn Hh. pose proof (row_size_pos c Hc). unfold sample_position. destruct (_ <? _) eqn:?; nia.
Qed.

(** The number of a datagram. *)
Definition sequence_of (pay : list Z) : Z := getz pay 4 * 2 ^ 24 + getz pay 5 * 2 ^ 16 + getz pay 6 * 2 ^ 8 + getz pay 7.

Lemma plug_sequence_spec n pay :
  0 <= n < 2 ^ 32 -> clean c pay ->
  exists pay', plug_sequence n pay = Some pay' /\ clean c pay' /\ sequence_of pay' = n /\
    forall k r, carries pay k r -> carries pay' k r.
Proof.
  intros Hn [L Hz]. unfold plug_sequence. cbn [put_at]. change (4 + 1 + 1 + 1) with 7. change (4 + 1 + 1) with 6. change (4 + 1) with 5.
  destruct (arr_set_get_or 0 pay 4 (u8 (Z.shiftr n 24))) as (p1 & -> & L1 & G1); [lia|]. cbn [mbind option_bind].
  destruct (arr_set_get_or 0 p1 5 (u8 (Z.shiftr n 16))) as (p2 & -> & L2 & G2); [lia|]. cbn [mbind option_bind].
  destruct (arr_set_get_or 0 p2 6 (u8 (Z.shiftr n 8))) as (p3 & -> & L3 & G3); [lia|]. cbn [mbind option_bind].
  destruct (arr_set_get_or 0 p3 7 (u8 n)) as (p4 & -> & L4 & G4); [lia|]. cbn [mbind option_bind].
  assert (forall p, 8 <= p -> getz p4 p = getz pay p) as Hsame.
  { intros p Hp. rewrite G4, G3, G2, G1. 
    by replace (p =? 7) with false by lia; replace (p =? 6) with false by lia; replace (p =? 5) with false by lia; replace (p =? 4) with false by lia. }
  exists p4. split; [done|]. split; [|split].
  - split; [lia|]. intros j n' h Hj Hn' Hh. rewrite Hsame; [by apply Hz|]. pose proof (position_large j n' h Hj Hn' Hh). lia.
  - unfold sequence_of. rewrite !G4, !G3, !G2, !G1. cbn [Z.eqb Pos.eqb]. rewrite !Z.shiftr_div_pow2 by lia. unfold u8.
    pose proof (Z.div_mod n (2 ^ 8) ltac:(lia)). pose proof (Z.div_mod (n / 2 ^ 8) (2 ^ 8) ltac:(lia)).
    pose proof (Z.div_mod (n / 2 ^ 16) (2 ^ 8) ltac:(lia)).
    assert (n / 2 ^ 8 / 2 ^ 8 = n / 2 ^ 16) as E2 by by rewrite Z.div_div. assert (n / 2 ^ 16 / 2 ^ 8 = n / 2 ^ 24) as E3 by by rewrite Z.div_div.
    assert (0 <= n / 2 ^ 24 < 2 ^ 8) as Hr by (split; [apply Z.div_pos; lia|apply Z.div_lt_upper_bound; lia]).
    rewrite (Z.mod_small (n / 2 ^ 24)) by lia. lia.
  - intros k r Hcar j n' h Hj Hn' Hh Es. rewrite <- (Hcar j n' h Hj Hn' Hh Es). pose proof (position_large j n' h Hj Hn' Hh).
    unfold read24. by rewrite !Hsame by lia.
Qed.

(** ** What always holds *)

Context (Hchunks : forall k i, Z.of_nat k < active_num_rcvrs c -> enough (chunks k i)).

(** Flags are those of active receivers. *)
Definition flags_ok (flags : Z) : Prop := 0 <= flags /\ forall i, active_num_rcvrs c <= i -> Z.testbit flags i = false.

(** What a receiver has read is what there was, or the flags are cleared since. *)
Record base (s : threads) : Prop := {
  base_length : Z.of_nat (length (thr_phases s)) = active_num_rcvrs c;
  base_clean : clean c (thr_payload s);
  base_counter : thr_counter s = Z.of_nat (length (thr_sent s)) mod 2 ^ 32;
  base_flags : flags_ok (thr_flags s);
  base_one : forall k i r k' i' r', thr_phases s !! k = Some (Storing i r) -> thr_phases s !! k' = Some (Storing i' r') -> k = k';
  base_read : forall k i r, thr_phases s !! k = Some (Storing i r) -> flags_ok r /\ (thr_flags s = r \/ thr_flags s = 0);
  base_numbers : forall i d, thr_sent s !! i = Some d -> sequence_of d = Z.of_nat i mod 2 ^ 32;
}.

Lemma phase_range s k p : base s -> thr_phases s !! k = Some p -> Z.of_nat k < active_num_rcvrs c.
Proof. intros Hb Hk. apply lookup_lt_Some in Hk. pose proof (base_length _ Hb). lia. Qed.

Lemma all_flags_bits k : Z.of_nat k < active_num_rcvrs c -> Z.testbit all_flags (Z.of_nat k) = true.
Proof.
  intros Hk. unfold all_flags, first. replace (2 ^ active_num_rcvrs c - 1) with (Z.ones (active_num_rcvrs c)) by (rewrite Z.ones_equiv; lia).
  apply Z.ones_spec_low. lia.
Qed.

Lemma all_flags_ok : flags_ok all_flags.
Proof.
  pose proof (ok_active _ Hc). unfold all_flags, first. split; [pose proof (Z.pow_pos_nonneg 2 (active_num_rcvrs c)); lia|].
  intros i Hi. replace (2 ^ active_num_rcvrs c - 1) with (Z.ones (active_num_rcvrs c)) by (rewrite Z.ones_equiv; lia).
  apply Z.ones_spec_high. lia.
Qed.

Lemma no_flags_ok : flags_ok 0.
Proof. split; [done|]. intros. apply Z.testbit_0_l. Qed.

Lemma flag_bit flags k j : Z.testbit (flags .| Z.shiftl 1 (Z.of_nat k)) j = Z.testbit flags j || (j =? Z.of_nat k).
Proof.
  rewrite Z.lor_spec, Z.shiftl_1_l. f_equal. destruct (Z.eqb_spec j (Z.of_nat k)) as [->|Hne].
  - apply Z.pow2_bits_true. lia.
  - destruct (Z.lt_ge_cases j 0); [by apply Z.testbit_neg_r|]. apply Z.pow2_bits_false. lia.
Qed.

Lemma flag_ok flags k : flags_ok flags -> Z.of_nat k < active_num_rcvrs c -> flags_ok (flags .| Z.shiftl 1 (Z.of_nat k)).
Proof.
  intros [F1 F2] Hk. split; [apply Z.lor_nonneg; split; [done|]; rewrite Z.shiftl_1_l; lia|].
  intros j Hj. rewrite flag_bit, F2 by done. lia.
Qed.

Lemma flag_clear flags k : Z.testbit flags (Z.of_nat k) = false <-> flags .& Z.shiftl 1 (Z.of_nat k) = 0.
Proof.
  rewrite Z.shiftl_1_l. split; intros H.
  - apply Z.bits_inj'. intros j Hj. rewrite Z.land_spec, Z.bits_0. destruct (Z.eq_dec j (Z.of_nat k)) as [->|Hne]; [by rewrite H|].
    by rewrite Z.pow2_bits_false, andb_false_r by lia.
  - assert (Z.testbit (flags .& 2 ^ Z.of_nat k) (Z.of_nat k) = false) as H' by (rewrite H; apply Z.testbit_0_l).
    by rewrite Z.land_spec, Z.pow2_bits_true, andb_true_r in H' by lia.
Qed.

(** The receivers other than the one that has moved. *)
Lemma moved (l : list phase) k x y : l !! k = Some x -> forall j p, <[k := y]> l !! j = Some p -> j = k /\ p = y \/ j <> k /\ l !! j = Some p.
Proof.
  intros Hk j p Hj. destruct (decide (j = k)) as [->|Hne].
  - rewrite list_lookup_insert_eq in Hj by (by eapply lookup_lt_Some). injection Hj as <-. by left.
  - rewrite list_lookup_insert_ne in Hj by done. by right.
Qed.

Lemma started_base pay : clean c pay -> base (started pay).
Proof.
  intros Hp. pose proof (ok_active _ Hc). constructor; cbn; [rewrite length_replicate; lia|done|done|apply all_flags_ok| | |done].
  - intros k i r k' i' r' [? _]%lookup_replicate_1. done.
  - intros k i r [? _]%lookup_replicate_1. done.
Qed.

Lemma sent_next s pay : base s -> plug_sequence (thr_counter s) (thr_payload s) = Some pay ->
  clean c pay /\ sequence_of pay = thr_counter s /\ (forall k r, carries (thr_payload s) k r -> carries pay k r) /\
  u32 (thr_counter s + 1) = Z.of_nat (length (thr_sent s ++ [pay])) mod 2 ^ 32.
Proof.
  intros Hb Hpl. pose proof (base_counter _ Hb) as Hcn.
  destruct (plug_sequence_spec (thr_counter s) (thr_payload s)) as (pay' & E & Hcl & Hseq & Hcar);
    [rewrite Hcn; by apply Z.mod_pos_bound|apply Hb|].
  rewrite Hpl in E. injection E as <-. split_and!; [done|done|done|].
  rewrite Hcn, length_app. unfold u32. cbn [length]. by rewrite Nat2Z.inj_add, Z.add_mod_idemp_l by lia.
Qed.

Lemma step_base s s' : base s -> step s s' -> base s'.
Proof.
  intros Hb Hstep. pose proof Hb as [L Hcl Hcn HF Hone Hread Hnum].
  destruct Hstep as [s k i pay Hun Hk Hl|s k i r Hk|s k i Est Hk Hz|s pay Est Hun Hfl Hpl|s Est]; constructor; cbn;
    try (first [by rewrite length_insert|done|exact Hcl|exact HF|exact Hnum]).
  - destruct (load_carries (Z.of_nat k) (chunks k i) (thr_payload s)) as (pay' & E & Hcl' & _);
      [pose proof (phase_range _ _ _ Hb Hk); lia|apply Hchunks; by eapply phase_range|done|]. rewrite Hl in E. by injection E as <-.
  - intros k1 i1 r1 k2 i2 r2 H1 H2. apply (moved _ _ _ _ Hk) in H1 as [[-> _]|[_ H1]]; [|by destruct (Hun _ _ _ H1)].
    apply (moved _ _ _ _ Hk) in H2 as [[-> _]|[_ H2]]; [done|by destruct (Hun _ _ _ H2)].
  - intros k1 i1 r1 H1. apply (moved _ _ _ _ Hk) in H1 as [[_ H1]|[_ H1]]; [|by destruct (Hun _ _ _ H1)]. injection H1 as _ ->.
    split; [done|by left].
  - apply flag_ok; [by apply (Hread k i r)|by eapply phase_range].
  - intros k1 i1 r1 k2 i2 r2 H1 H2. apply (moved _ _ _ _ Hk) in H1 as [[_ ?]|[_ H1]]; [done|].
    apply (moved _ _ _ _ Hk) in H2 as [[_ ?]|[_ H2]]; [done|]. by apply (Hone k1 i1 r1 k2 i2 r2).
  - intros k1 i1 r1 H1. apply (moved _ _ _ _ Hk) in H1 as [[_ ?]|[Hne H1]]; [done|]. destruct Hne. by apply (Hone k1 i1 r1 k i r).
  - intros k1 i1 r1 k2 i2 r2 H1 H2. apply (moved _ _ _ _ Hk) in H1 as [[_ ?]|[_ H1]]; [done|].
    apply (moved _ _ _ _ Hk) in H2 as [[_ ?]|[_ H2]]; [done|]. by apply (Hone k1 i1 r1 k2 i2 r2).
  - intros k1 i1 r1 H1. apply (moved _ _ _ _ Hk) in H1 as [[_ ?]|[_ H1]]; [done|]. by apply (Hread k1 i1 r1).
  - by apply (sent_next s pay).
  - by apply (sent_next s pay).
  - intros i d Hi. apply lookup_app_Some in Hi as [Hi|[Hge Hi]]; [by apply Hnum|].
    destruct (i - length (thr_sent s))%nat eqn:Ei; [|by rewrite lookup_cons_ne_0 in Hi]. injection Hi as <-.
    assert (i = length (thr_sent s)) as -> by lia. rewrite <- Hcn. by apply (sent_next s pay).
  - apply no_flags_ok.
  - intros k1 i1 r1 H1. split; [by apply (Hread k1 i1 r1)|by right].
Qed.

Lemma stop_base s : base s -> base (stop s).
Proof. by intros []. Qed.

Lemma reachable_base pay s : clean c pay -> reachable (started pay) s -> base s.
Proof.
  intros Hp. revert s. apply (rtc_ind_r base); [by apply started_base|].
  intros s s' _ [Hstep| ->] Hb; [by apply (step_base s)|by apply stop_base].
Qed.

(** The datagrams are numbered, whatever the threads do. *)
Lemma datagrams_numbered pay s i d :
  clean c pay -> reachable (started pay) s -> thr_sent s !! i = Some d -> sequence_of d = Z.of_nat i mod 2 ^ 32.
Proof. intros Hp Hr. apply (reachable_base pay s Hp Hr). Qed.

(** ** In step *)

Definition bit (s : threads) (k : nat) : bool := Z.testbit (thr_flags s) (Z.of_nat k).

(** Where receiver [k] can be when [m] datagrams are out.  The first datagram
    goes out at once; a receiver that was not in time for it is late by one
    packet from then on. *)
Definition phase_ok (late : nat -> nat) (s : threads) (k : nat) (p : phase) : Prop :=
  let m := length (thr_sent s) in
  match thr_stage s, p with
  | Collecting, Loading i => (i + late k = m)%nat /\ bit s k = (m =? 0)%nat
  | Collecting, Storing i r =>
      (i + late k = m)%nat /\ carries (thr_payload s) (Z.of_nat k) (chunks k i) /\
      forall j, j <> Z.of_nat k -> Z.testbit r j = Z.testbit (thr_flags s) j
  | Collecting, Waiting i =>
      (i + late k = m)%nat /\ bit s k = true /\ carries (thr_payload s) (Z.of_nat k) (chunks k i) \/
      (S i + late k = m)%nat /\ bit s k = false
  | Clearing, Loading i => m = 1%nat /\ i = 0%nat /\ late k = 1%nat
  | Clearing, Storing i r => m = 1%nat /\ i = 0%nat /\ late k = 1%nat /\ carries (thr_payload s) (Z.of_nat k) (chunks k i)
  | Clearing, Waiting i => (S i + late k = m)%nat
  end.

(** From the second on, a datagram has the packets of every receiver in turn. *)
Definition sent_ok (late : nat -> nat) (s : threads) : Prop :=
  forall i pay, thr_sent s !! i = Some pay -> (1 <= i)%nat ->
    forall k, Z.of_nat k < active_num_rcvrs c -> carries pay (Z.of_nat k) (chunks k (i - late k)).

Record inv (late : nat -> nat) (s : threads) : Prop := {
  inv_base : base s;
  inv_late : forall k, (late k <= 1)%nat;
  inv_first : thr_sent s = [] -> forall k, late k = 0%nat;
  inv_phases : forall k p, thr_phases s !! k = Some p -> phase_ok late s k p;
  inv_sent : sent_ok late s;
}.

Lemma started_inv pay : clean c pay -> inv (fun _ => 0%nat) (started pay).
Proof.
  intros Hp. pose proof (ok_active _ Hc). constructor; [by apply started_base|cbn; lia|done| |].
  - intros k p [-> Hk]%lookup_replicate_1. split; [done|]. apply all_flags_bits. lia.
  - intros i pay' Hi. cbn in Hi. by rewrite lookup_nil in Hi.
Qed.

Lemma load_inv late s k i pay :
  inv late s -> unlocked s -> thr_phases s !! k = Some (Loading i) ->
  load_packet oor c (Z.of_nat k) (chunks k i) (thr_payload s) = Some pay ->
  inv late (mk_threads (thr_flags s) pay (thr_counter s) (thr_enable s) (thr_stage s)
    (<[k := Storing i (thr_flags s)]> (thr_phases s)) (thr_sent s)).
Proof.
  intros [Hb Hlate Hfirst Hph Hs] Hun Hk Hl. pose proof (phase_range _ _ _ Hb Hk) as Hr.
  constructor; [by apply (step_base s _ Hb), (step_load s k i)|done|done| |done].
  destruct (load_carries (Z.of_nat k) (chunks k i) (thr_payload s)) as (pay' & E & _ & Hcar & Hothers); [lia|by apply Hchunks|apply Hb|].
  rewrite Hl in E. injection E as <-. pose proof (Hph _ _ Hk) as Hpk. cbn. intros k' p' Hk'.
  apply (moved _ _ _ _ Hk) in Hk' as [[-> ->]|[Hne Hk']].
  - unfold phase_ok in *. cbn. destruct (thr_stage s); [|by destruct Hpk as (? & -> & ?)]. by destruct Hpk.
  - specialize (Hph _ _ Hk'). unfold phase_ok, bit in *. cbn. destruct p' as [i'|i' r'|i']; [done|by destruct (Hun _ _ _ Hk')|].
    destruct (thr_stage s); [|done]. destruct Hph as [(? & ? & ?)|?]; [left|by right]. split_and!; [done|done|]. apply Hothers; [lia|done].
Qed.

Lemma flags_inv late s k i r :
  inv late s -> thr_phases s !! k = Some (Storing i r) ->
  exists late', inv late' (mk_threads (r .| Z.shiftl 1 (Z.of_nat k)) (thr_payload s) (thr_counter s) (thr_enable s) (thr_stage s)
    (<[k := Waiting i]> (thr_phases s)) (thr_sent s)).
Proof.
  intros [Hb Hlate Hfirst Hph Hs] Hk. pose proof (step_base s _ Hb (step_store s k i r Hk)) as Hb'. pose proof (Hph _ _ Hk) as Hpk.
  unfold phase_ok in Hpk. destruct (thr_stage s) eqn:Est.
  - exists late. constructor; [done|done|done| |done]. cbn. destruct Hpk as (Hm & Hcar & Hold). intros k' p' Hk'.
    assert (forall j, j <> k -> Z.testbit (r .| Z.shiftl 1 (Z.of_nat k)) (Z.of_nat j) = Z.testbit (thr_flags s) (Z.of_nat j)) as Hbit.
    { intros j Hj. rewrite flag_bit, Hold by lia. replace (Z.of_nat j =? Z.of_nat k) with false by lia. apply orb_false_r. }
    apply (moved _ _ _ _ Hk) in Hk' as [[-> ->]|[Hne Hk']].
    + unfold phase_ok, bit. cbn. left. split_and!; [done| |done]. by rewrite flag_bit, Z.eqb_refl, orb_true_r.
    + specialize (Hph _ _ Hk'). unfold phase_ok, bit in *. rewrite Est in Hph. cbn. rewrite Hbit by done.
      destruct p' as [i'|i' r'|i']; [done| |done]. destruct Hne. by apply (base_one _ Hb k' i' r' k i r).
  - destruct Hpk as (Hm & -> & Hlk & _). exists (fun j => if decide (j = k) then 0%nat else late j). constructor; [done| | | |].
    + intros j. destruct (decide (j = k)); [lia|done].
    + cbn. intros Hnil. by rewrite Hnil in Hm.
    + cbn. intros k' p' Hk'. unfold phase_ok. cbn. apply (moved _ _ _ _ Hk) in Hk' as [[-> ->]|[Hne Hk']].
      * rewrite decide_True by done. lia.
      * rewrite decide_False by done. specialize (Hph _ _ Hk'). unfold phase_ok in Hph. by rewrite Est in Hph.
    + intros j d Hj Hpos. cbn in Hj. apply lookup_lt_Some in Hj. lia.
Qed.

Lemma done_inv late s k i :
  inv late s -> thr_stage s = Collecting -> thr_phases s !! k = Some (Waiting i) -> thr_flags s .& Z.shiftl 1 (Z.of_nat k) = 0 ->
  inv late (mk_threads (thr_flags s) (thr_payload s) (thr_counter s) (thr_enable s) (thr_stage s)
    (<[k := Loading (S i)]> (thr_phases s)) (thr_sent s)).
Proof.
  intros [Hb Hlate Hfirst Hph Hs] Est Hk Hz. constructor; [by apply (step_base s _ Hb), step_done|done|done| |done].
  apply flag_clear in Hz. cbn. intros k' p' Hk'. unfold phase_ok, bit in *. cbn. rewrite Est in *.
  apply (moved _ _ _ _ Hk) in Hk' as [[-> ->]|[Hne Hk']]; [|exact (Hph _ _ Hk')].
  destruct (Hph _ _ Hk) as [(_ & Hbit & _)|[Hm _]]; [congruence|]. split; [done|]. rewrite Hz. symmetry. apply Nat.eqb_neq. lia.
Qed.

Lemma send_inv late s pay :
  inv late s -> thr_stage s = Collecting -> unlocked s -> thr_flags s = all_flags ->
  plug_sequence (thr_counter s) (thr_payload s) = Some pay ->
  exists late', inv late' (mk_threads (thr_flags s) pay (u32 (thr_counter s + 1)) (thr_enable s) Clearing (thr_phases s) (thr_sent s ++ [pay])).
Proof.
  intros [Hb Hlate Hfirst Hph Hs] Est Hun Hfl Hpl.
  pose proof (step_base s _ Hb (step_send s pay Est Hun (or_introl Hfl) Hpl)) as Hb'.
  destruct (sent_next s pay Hb Hpl) as (_ & _ & Hcar & _).
  assert (forall k p, thr_phases s !! k = Some p -> bit s k = true) as Hbit.
  { intros k p Hk. unfold bit. rewrite Hfl. apply all_flags_bits. by eapply phase_range. }
  assert (forall late', (forall i d, thr_sent s !! i = Some d -> (1 <= i)%nat -> forall k, late' k = late k) ->
    ((1 <= length (thr_sent s))%nat -> forall k, Z.of_nat k < active_num_rcvrs c ->
       carries (thr_payload s) (Z.of_nat k) (chunks k (length (thr_sent s) - late' k))) ->
    forall fl st ph, sent_ok late' (mk_threads fl pay (u32 (thr_counter s + 1)) (thr_enable s) st ph (thr_sent s ++ [pay]))) as Hsent.
  { intros late' Heq Hnew fl st ph i d Hi Hpos k Hk. cbn in Hi. apply lookup_app_Some in Hi as [Hi|[Hge Hi]].
    - rewrite (Heq i d Hi Hpos). by apply (Hs i).
    - destruct (i - length (thr_sent s))%nat eqn:Ei; [|by rewrite lookup_cons_ne_0 in Hi]. injection Hi as <-.
      assert (i = length (thr_sent s)) as -> by lia. by apply Hcar, Hnew. }
  destruct (thr_sent s) as [|d0 ds] eqn:Esent.
  - exists (fun k => match thr_phases s !! k with Some (Loading _) => 1%nat | _ => 0%nat end).
    constructor; [done| |done| |].
    + intros k. destruct (thr_phases s !! k) as [[]|]; lia.
    + cbn [thr_phases]. intros k p Hk. specialize (Hph _ _ Hk). unfold phase_ok in *. rewrite Est, Esent in Hph. cbn in *. rewrite Hk.
      destruct p as [i|i r|i]; [split_and!; lia|by destruct (Hun _ _ _ Hk)|]. destruct Hph as [(Hm & _)|[Hm _]]; lia.
    + apply Hsent; [intros i d Hi; by rewrite lookup_nil in Hi|intros Hpos; cbn in Hpos; lia].
  - assert (forall k p, thr_phases s !! k = Some p -> exists i, p = Waiting i /\ (i + late k = S (length ds))%nat /\
      carries (thr_payload s) (Z.of_nat k) (chunks k i)) as Hall.
    { intros k p Hk. pose proof (Hbit k p Hk) as Hbk. specialize (Hph _ _ Hk). unfold phase_ok in Hph. rewrite Est, Esent in Hph. cbn in Hph.
      destruct p as [i|i r|i]; [destruct Hph; congruence|by destruct (Hun _ _ _ Hk)|].
      destruct Hph as [(Hm & _ & Hx)|[_ Hx]]; [by exists i|congruence]. }
    exists late. constructor; [done|done|done| |].
    + cbn [thr_phases]. intros k p Hk. destruct (Hall k p Hk) as (i & -> & Hm & _). unfold phase_ok. cbn. rewrite length_app. cbn. lia.
    + apply Hsent; [done|]. intros _ k Hk. destruct (lookup_lt_is_Some_2 (thr_phases s) k) as [p Hp]; [pose proof (base_length _ Hb); lia|].
      destruct (Hall k p Hp) as (i & -> & Hm & Hx). cbn [length]. by replace (S (length ds) - late k)%nat with i by lia.
Qed.

Lemma clear_inv late s :
  inv late s -> thr_stage s = Clearing -> ~ torn s ->
  inv late (mk_threads 0 (thr_payload s) (thr_counter s) (thr_enable s) Collecting (thr_phases s) (thr_sent s)).
Proof.
  intros [Hb Hlate Hfirst Hph Hs] Est Hnt. constructor; [by apply (step_base s _ Hb), step_clear|done|done| |done].
  cbn. intros k p Hk. specialize (Hph _ _ Hk). unfold phase_ok, bit in *. rewrite Est in Hph. cbn. destruct p as [i|i r|i].
  - destruct Hph as (-> & -> & ->). split; [done|]. apply Z.testbit_0_l.
  - destruct Hph as (-> & -> & -> & Hcar). split_and!; [done|done|]. intros j Hj. rewrite Z.testbit_0_l.
    apply not_true_is_false. intros Hr. apply Hnt. by exists k, 0%nat, r, j.
  - right. split; [done|]. apply Z.testbit_0_l.
Qed.

Lemma calm_inv late s s' : inv late s -> thr_enable s = true -> calm s s' -> thr_enable s' = true -> exists late', inv late' s'.
Proof.
  intros Hi He [[Hstep| ->] Hnt] He'; [|done].
  destruct Hstep as [s k i pay Hun Hk Hl|s k i r Hk|s k i Est Hk Hz|s pay Est Hun Hfl Hpl|s Est].
  - exists late. by apply load_inv.
  - by apply (flags_inv late).
  - exists late. by apply (done_inv late s k i).
  - apply (send_inv late); [done|done|done| |done]. destruct Hfl; [done|congruence].
  - exists late. apply clear_inv; [done|done|]. by apply Hnt.
Qed.

Lemma step_enable s s' : step s s' -> thr_enable s' = thr_enable s.
Proof. by destruct 1. Qed.

Lemma calm_enable s s' : calm s s' -> thr_enable s' = true -> thr_enable s = true.
Proof. intros [[Hstep| ->] _] He; [by rewrite <- (step_enable s s')|done]. Qed.

Lemma threads_inv pay s : clean c pay -> calm_reachable (started pay) s -> thr_enable s = true -> exists late, inv late s.
Proof.
  intros Hp. revert s. apply (rtc_ind_r (fun s => thr_enable s = true -> exists late, inv late s)).
  { intros. eexists. by apply started_inv. }
  intros s s' _ Hstep IH He. pose proof (calm_enable _ _ Hstep He) as He1. destruct (IH He1) as [late Hi]. by apply (calm_inv late s).
Qed.

(** A clear can only be undone when it is the first, and there are others to
    read the flags of. *)
Lemma torn_first late s :
  inv late s -> thr_stage s = Clearing -> torn s -> length (thr_sent s) = 1%nat /\ active_num_rcvrs c <> 1.
Proof.
  intros Hi Est (k & i & r & j & Hk & Hj & Hr). pose proof (inv_phases _ _ Hi _ _ Hk) as Hp. unfold phase_ok in Hp. rewrite Est in Hp.
  split; [apply Hp|]. intros E. destruct (base_read _ (inv_base _ _ Hi) k i r Hk) as [[_ Hhigh] _].
  pose proof (phase_range _ _ _ (inv_base _ _ Hi) Hk). destruct (Z.lt_ge_cases j 0); [by rewrite Z.testbit_neg_r in Hr|].
  rewrite Hhigh in Hr by lia. done.
Qed.

(** ** Progress *)

(** The steps of a receiver before the next datagram. *)
Definition steps_left (flags : Z) (k : nat) (p : phase) : nat :=
  match p with Loading _ => 2 | Storing _ _ => 1 | Waiting _ => if Z.testbit flags (Z.of_nat k) then 0 else 3 end.

Definition to_load (_ : nat) (p : phase) : nat := match p with Loading _ => 2 | Storing _ _ => 1 | Waiting _ => 0 end.

Definition work (s : threads) : nat :=
  match thr_stage s with
  | Collecting => sum_list (imap (steps_left (thr_flags s)) (thr_phases s))
  | Clearing => 3 * length (thr_phases s) + 1 + sum_list (imap to_load (thr_phases s))
  end.

Lemma sum_imap_le (f g : nat -> phase -> nat) l : (forall j z, g j z <= f j z)%nat -> (sum_list (imap g l) <= sum_list (imap f l))%nat.
Proof.
  revert f g. induction l as [|z l IH]; intros f g Hfg; [cbn; lia|]. rewrite !imap_cons.
  change (g 0%nat z + sum_list (imap (g ∘ S) l) <= f 0%nat z + sum_list (imap (f ∘ S) l))%nat.
  specialize (IH (f ∘ S) (g ∘ S) (fun j w => Hfg (S j) w)). specialize (Hfg 0%nat z). lia.
Qed.

Lemma sum_imap_insert (f g : nat -> phase -> nat) (l : list phase) : forall k x y,
  l !! k = Some x -> (forall j z, j <> k -> g j z <= f j z)%nat ->
  (sum_list (imap g (<[k := y]> l)) + f k x <= sum_list (imap f l) + g k y)%nat.
Proof.
  revert f g. induction l as [|z l IH]; intros f g k x y Hk Hfg; [done|]. destruct k as [|k]; cbn in Hk.
  - injection Hk as ->. cbn. pose proof (sum_imap_le (f ∘ S) (g ∘ S) l (fun j w => Hfg (S j) w ltac:(lia))). lia.
  - assert (forall j w, j <> k -> (g ∘ S) j w <= (f ∘ S) j w)%nat as Hfg' by (intros j w Hj; apply Hfg; lia).
    specialize (IH (f ∘ S) (g ∘ S) k x y Hk Hfg').
    change ((f ∘ S) k x) with (f (S k) x) in IH. change ((g ∘ S) k y) with (g (S k) y) in IH.
    change (<[S k := y]> (z :: l)) with (z :: <[k := y]> l). rewrite !imap_cons.
    change (g 0%nat z + sum_list (imap (g ∘ S) (<[k := y]> l)) + f (S k) x <= f 0%nat z + sum_list (imap (f ∘ S) l) + g (S k) y)%nat.
    specialize (Hfg 0%nat z ltac:(done)). lia.
Qed.

Lemma sum_imap_const n (l : list phase) : sum_list (imap (fun _ _ => n) l) = (n * length l)%nat.
Proof.
  induction l as [|z l IH]; [cbn; lia|]. rewrite imap_cons. change (n + sum_list (imap (fun _ _ => n) l) = n * S (length l))%nat. lia.
Qed.

Lemma steps_left_sum flags l : (sum_list (imap (steps_left flags) l) <= 3 * length l)%nat.
Proof.
  rewrite <- sum_imap_const. apply sum_imap_le. intros j p. unfold steps_left. destruct p; [lia|lia|]. destruct (Z.testbit _ _); lia.
Qed.

Lemma work_bound s : base s -> (work s <= 5 * Z.to_nat (active_num_rcvrs c) + 1)%nat.
Proof.
  intros Hb. pose proof (base_length _ Hb) as L. unfold work. destruct (thr_stage s).
  - pose proof (steps_left_sum (thr_flags s) (thr_phases s)). lia.
  - pose proof (sum_imap_le (fun _ _ => 2%nat) to_load (thr_phases s)) as H. rewrite sum_imap_const in H.
    specialize (H ltac:(intros j []; cbn; lia)). lia.
Qed.

(** Storing flags that were cleared since sets bits, and clears none. *)
Lemma store_bits s k i r j z :
  base s -> thr_phases s !! k = Some (Storing i r) ->
  (steps_left (r .| Z.shiftl 1 (Z.of_nat k)) j z <= steps_left (thr_flags s) j z)%nat.
Proof.
  intros Hb Hk. unfold steps_left. destruct z; [lia|lia|]. rewrite flag_bit.
  destruct (base_read _ Hb k i r Hk) as [_ [->| ->]]; [|rewrite Z.testbit_0_l]; repeat destruct (Z.testbit _ _); destruct (_ =? _); cbn; lia.
Qed.

(** A step sends a datagram or leaves less to do. *)
Lemma step_work s s' : base s -> step s s' ->
  length (thr_sent s') = S (length (thr_sent s)) \/ length (thr_sent s') = length (thr_sent s) /\ (work s' < work s)%nat.
Proof.
  intros Hb Hstep. destruct Hstep as [s k i pay Hun Hk Hl|s k i r Hk|s k i Est Hk Hz|s pay Est Hun Hfl Hpl|s Est].
  - right. split; [done|]. unfold work. cbn [thr_stage thr_phases thr_flags]. destruct (thr_stage s).
    + pose proof (sum_imap_insert (steps_left (thr_flags s)) (steps_left (thr_flags s)) _ _ _ (Storing i (thr_flags s)) Hk ltac:(done)) as E.
      cbn [steps_left] in E. lia.
    + pose proof (sum_imap_insert to_load to_load _ _ _ (Storing i (thr_flags s)) Hk ltac:(done)) as E.
      cbn [to_load] in E. rewrite length_insert. lia.
  - right. split; [done|]. unfold work. cbn [thr_stage thr_phases thr_flags]. destruct (thr_stage s).
    + pose proof (sum_imap_insert (steps_left (thr_flags s)) (steps_left (r .| Z.shiftl 1 (Z.of_nat k))) _ _ _ (Waiting i) Hk
        ltac:(intros; by eapply store_bits)) as E.
      cbn [steps_left] in E. rewrite flag_bit, Z.eqb_refl, orb_true_r in E. lia.
    + pose proof (sum_imap_insert to_load to_load _ _ _ (Waiting i) Hk ltac:(done)) as E. cbn [to_load] in E. rewrite length_insert. lia.
  - right. split; [done|]. unfold work. cbn [thr_stage thr_phases thr_flags]. rewrite Est.
    pose proof (sum_imap_insert (steps_left (thr_flags s)) (steps_left (thr_flags s)) _ _ _ (Loading (S i)) Hk ltac:(done)) as E.
    apply flag_clear in Hz. cbn [steps_left] in E. rewrite Hz in E. lia.
  - left. cbn. rewrite length_app. cbn. lia.
  - right. split; [done|]. unfold work. rewrite Est. cbn [thr_stage thr_phases thr_flags].
    pose proof (steps_left_sum 0 (thr_phases s)). lia.
Qed.

(** Some thread can go on. *)
Lemma step_exists s : base s -> exists s', step s s'.
Proof.
  intros Hb. destruct (thr_stage s) eqn:Est; [|eexists; by apply step_clear].
  destruct (decide (Exists (fun p => to_load 0 p = 1%nat) (thr_phases s))) as [Hex|Hun].
  { apply Exists_exists in Hex as ([i|i r|i] & Hin & Hload); [done| |done]. apply list_elem_of_lookup in Hin as [k Hk].
    eexists. by apply (step_store s k i r). }
  assert (unlocked s) as Hu by (intros k i r Hk; apply Hun, Exists_exists; exists (Storing i r); split; [by eapply list_elem_of_lookup_2|done]).
  destruct (decide (Exists (fun p => to_load 0 p = 2%nat) (thr_phases s))) as [Hex|Hno].
  { apply Exists_exists in Hex as ([i|i r|i] & Hin & Hload); [|done|done]. apply list_elem_of_lookup in Hin as [k Hk].
    pose proof (phase_range _ _ _ Hb Hk) as Hr.
    destruct (load_carries (Z.of_nat k) (chunks k i) (thr_payload s)) as (pay & E & _); [lia|by apply Hchunks|apply Hb|].
    eexists. by apply (step_load s k i pay). }
  destruct (decide (Exists (fun k => Z.testbit (thr_flags s) (Z.of_nat k) = false) (seq 0 (length (thr_phases s))))) as [Hex|Hall].
  { apply Exists_exists in Hex as (k & Hin & Hbit). apply elem_of_seq in Hin.
    destruct (lookup_lt_is_Some_2 (thr_phases s) k ltac:(lia)) as [p Hp]. destruct p as [i|i r|i].
    - exfalso. apply Hno, Exists_exists. exists (Loading i). split; [by eapply list_elem_of_lookup_2|done].
    - by destruct (Hu k i r).
    - eexists. apply (step_done s k i); [done|done|]. by apply flag_clear. }
  assert (thr_flags s = all_flags) as Hfl.
  { apply Z.bits_inj'. intros j Hj. pose proof (base_length _ Hb) as L.
    destruct (Z.lt_ge_cases j (active_num_rcvrs c)) as [Hlt|Hge].
    - rewrite <- (Z2Nat.id j) by done. rewrite all_flags_bits by lia. apply not_false_is_true. intros Hbit. apply Hall, Exists_exists.
      exists (Z.to_nat j). split; [apply elem_of_seq; lia|done].
    - rewrite (proj2 all_flags_ok) by done. by apply (base_flags _ Hb). }
  destruct (plug_sequence_spec (thr_counter s) (thr_payload s)) as (pay & E & _); [rewrite (base_counter _ Hb); by apply Z.mod_pos_bound|apply Hb|].
  eexists. apply (step_send s pay); [done|done|by left|done].
Qed.

(** C27: what the datagrams of dongles carry ([using_IQfiles] is 0, and the third
    bytes of the samples in [payload] start as 0, as [format_payload] leaves
    them).  Datagram [i] has number [i], and from the second on a client reads in
    it exactly the next packet of every receiver: none is missing, repeated or
    out of order; the first datagram goes out before the receivers are ready, and
    a receiver that missed it is late by one packet.  This is for every
    interleaving of the threads, up to a stop, in which no clear of [send_flags]
    comes between the read and the write of [send_flags |= rcvr_mask] in another
    thread: the two are under different locks.  Such a clear can only be the one
    after the first datagram, and with one dongle it does no harm; with two,
    [clear_undone] shows what it does. *)
Theorem datagrams_in_step pay s :
  clean c pay -> calm_reachable (started pay) s -> thr_enable s = true ->
  (exists late, (forall k, (late k <= 1)%nat) /\
    forall i d, thr_sent s !! i = Some d ->
      sequence_of d = Z.of_nat i mod 2 ^ 32 /\
      ((1 <= i)%nat -> forall k, Z.of_nat k < active_num_rcvrs c -> carries d (Z.of_nat k) (chunks k (i - late k)))) /\
  forall s', step s s' -> length (thr_sent s) <> 1%nat \/ active_num_rcvrs c = 1 -> calm s s'.
Proof.
  intros Hp Hr He. destruct (threads_inv pay s Hp Hr He) as [late Hi]. split.
  - exists late. split; [apply Hi|]. intros i d Hd. split; [by apply (base_numbers _ (inv_base _ _ Hi))|]. by apply (inv_sent _ _ Hi).
  - intros s' Hs Hsafe. split; [by left|]. intros Est _ Ht. destruct (torn_first late s Hi Est Ht). tauto.
Qed.

(** C28: the threads never block each other.  While the stream is enabled some
    thread can go on, and whichever do, after at most five steps for each
    receiver and two more there is another datagram: also when a clear of the
    flags is undone. *)
Theorem datagrams_keep_coming pay s :
  clean c pay -> reachable (started pay) s -> thr_enable s = true ->
  (exists s', step s s') /\
  forall n s', nsteps step n s s' -> (5 * Z.to_nat (active_num_rcvrs c) + 2 <= n)%nat -> (length (thr_sent s) < length (thr_sent s'))%nat.
Proof.
  intros Hp Hr He. pose proof (reachable_base pay s Hp Hr) as Hb. split; [by apply step_exists|].
  intros n s' Hn Hlen. enough (length (thr_sent s) < length (thr_sent s') \/ (length (thr_sent s) = length (thr_sent s') /\ n + work s' <= work s))%nat as H.
  { destruct H as [H|[_ H]]; [done|]. pose proof (work_bound s Hb). lia. }
  clear Hlen Hr He. induction Hn as [s|n s s1 s' H1 Hn IH]; [right; lia|].
  specialize (IH (step_base _ _ Hb H1)). destruct (step_work _ _ Hb H1) as [E|[E Hw]]; lia.
Qed.
End threads.

(** ** One receiver *)

Definition one : receivers := mk_receivers 1 126 520 1032 0 (replicate 7 (-1)) false.
Definition one_chunks (k i : nat) : buffers := mk_buffers 0 126 (replicate (Z.to_nat 252) (f_of_Z (Z.of_nat i))) [] [].

Lemma one_ok : receivers_ok one.
Proof.
  constructor; [vm_compute; congruence..|reflexivity|reflexivity|reflexivity|reflexivity| |]; unfold slots;
    cbn [one active_num_rcvrs num_copy_rcvrs copy_rcvr]; intros j Hj; [|lia]. assert (j = 0) as -> by lia. vm_compute. discriminate.
Qed.

Lemma one_enough k i : Z.of_nat k < active_num_rcvrs one -> enough one (one_chunks k i).
Proof. intros _. split; [done|]. cbn [one_chunks iqSamples iqSample_offset]. rewrite length_replicate. by vm_compute. Qed.

(** No receiver is storing its flags. *)
Lemma phases_unlocked s :
  forallb (fun p => match p with Storing _ _ => false | _ => true end) (thr_phases s) = true -> unlocked s.
Proof. intros H k i r Hk. by pose proof (proj1 (forallb_forall _ _) H _ (proj1 (list_elem_of_In _ _) (list_elem_of_lookup_2 _ _ _ Hk))). Qed.

(** The first two datagrams: one at once, and one with a packet. *)
Lemma one_runs oor : exists s, calm_reachable oor one one_chunks (started one formatted) s /\ thr_enable s = true /\ length (thr_sent s) = 2%nat.
Proof.
  pose proof one_ok as Hc. pose proof (formatted_clean one Hc) as Hcl.
  destruct (plug_sequence_spec oor one Hc eq_refl 0 formatted ltac:(lia) Hcl) as (p1 & E1 & Hcl1 & _).
  destruct (load_carries oor one Hc eq_refl 0 (one_chunks 0 0) p1) as (p2 & E2 & Hcl2 & _);
    [by split|exact (one_enough 0 0 eq_refl)|exact Hcl1|].
  destruct (plug_sequence_spec oor one Hc eq_refl 1 p2 ltac:(lia) Hcl2) as (p3 & E3 & _).
  eexists. split; [|split].
  - eapply rtc_l; [split; [left; apply (step_send _ _ _ _ p1); [reflexivity|by apply phases_unlocked|by left|exact E1]|done]|].
    eapply rtc_l; [split; [left; apply step_clear; reflexivity|]|].
    { intros _ _ (k & i & r & j & Hk & _). by apply (phases_unlocked (mk_threads 1 p1 1 true Clearing [Loading 0] [p1]) eq_refl k i r). }
    eapply rtc_l; [split; [left; apply (step_load _ _ _ _ 0 0 p2); [by apply phases_unlocked|reflexivity|exact E2]|done]|].
    eapply rtc_l; [split; [left; apply (step_store _ _ _ _ 0 0 0); reflexivity|done]|].
    eapply rtc_l; [split; [left; apply (step_send _ _ _ _ p3); [reflexivity|by apply phases_unlocked|left; reflexivity|exact E3]|done]|]. apply rtc_refl.
  - reflexivity.
  - reflexivity.
Qed.

Lemma calm_is_reachable oor c chunks s0 s : calm_reachable oor c chunks s0 s -> reachable oor c chunks s0 s.
Proof. apply rtc_subrel. intros s1 s2 [H _]. exact H. Qed.

Lemma datagrams_in_step_witness :
  exists s late, calm_reachable (fun _ => 0) one one_chunks (started one formatted) s /\ (late <= 1)%nat /\
    exists d, thr_sent s !! 1%nat = Some d /\ sequence_of d = 1 /\ carries (fun _ => 0) one d 0 (one_chunks 0 (1 - late)).
Proof.
  destruct (one_runs (fun _ => 0)) as (s & Hr & He & Hl).
  destruct (datagrams_in_step (fun _ => 0) one one_chunks one_ok eq_refl one_enough formatted s (formatted_clean one one_ok) Hr He)
    as [(late & Hlate & Hsent) _].
  destruct (lookup_lt_is_Some_2 (thr_sent s) 1 ltac:(lia)) as [d Hd]. destruct (Hsent 1%nat d Hd) as [Hseq Hcar].
  exists s, (late 0%nat). split; [exact Hr|]. split; [apply Hlate|]. exists d. split; [exact Hd|]. split; [exact Hseq|].
  exact (Hcar (le_n 1) 0%nat eq_refl).
Defined.

Lemma datagrams_keep_coming_witness :
  exists s s', reachable (fun _ => 0) one one_chunks (started one formatted) s /\ step (fun _ => 0) one one_chunks s s'.
Proof.
  destruct (one_runs (fun _ => 0)) as (s & Hr & He & _).
  destruct (datagrams_keep_coming (fun _ => 0) one one_chunks one_ok eq_refl one_enough formatted s (formatted_clean one one_ok)
    (calm_is_reachable _ _ _ _ _ Hr) He) as [[s' Hs] _].
  exists s, s'. split; [exact (calm_is_reachable _ _ _ _ _ Hr)|exact Hs].
Defined.

(** The start of the stream has set all flags: without any other step a
    datagram goes out, and it is empty. *)
Lemma first_datagram_empty oor c chunks d :
  plug_sequence 0 formatted = Some d ->
  exists s, step oor c chunks (started c formatted) s /\ thr_sent s = [d] /\ forall p, 16 <= p < 520 -> getz d p = 0.
Proof.
  intros Hp. eexists. split; [apply (step_send _ _ _ _ d); [reflexivity| |by left|exact Hp]|].
  { intros k i r [? _]%lookup_replicate_1. done. }
  split; [done|]. intros p Hpos. vm_compute in Hp. injection Hp as <-.
  match goal with |- getz ?l p = 0 =>
    pose proof (zseq_all (fun p => (p <? 16) || (getz l p =? 0)) 520 ltac:(vm_compute; reflexivity) p ltac:(lia)) as H end.
  cbv beta in H. lia.
Qed.

(** After a stop the thread sends what there is before it ends. *)
Lemma stopped_datagram oor c chunks s d :
  thr_stage s = Collecting -> unlocked s -> plug_sequence (thr_counter s) (thr_payload s) = Some d ->
  exists s', step oor c chunks (stop s) s' /\ thr_sent s' = thr_sent s ++ [d].
Proof. intros Est Hu Hp. eexists. split; [apply (step_send _ _ _ _ d); [exact Est|exact Hu|by right|exact Hp]|done]. Qed.

(** ** A clear that is undone *)

(** Two dongles. *)
Definition two : receivers := mk_receivers 2 72 520 1032 0 (replicate 7 (-1)) false.
Definition two_chunks (k i : nat) : buffers := mk_buffers 0 72 (replicate (Z.to_nat 144) (f_of_Z 1)) [] [].

(** The first dongle loads its packet while the first datagram is out, and
    stores the flags that it has read before they were cleared: the next datagram
    goes out with nothing from the second dongle, which is still loading. *)
Lemma clear_undone :
  exists s d0 d1, reachable (fun _ => 0) two two_chunks (started two formatted) s /\ thr_sent s = [d0; d1] /\
    thr_phases s = [Waiting 0; Loading 0] /\
    read24 d1 (sample_position two 0 0 0) = 256 /\ read24 d1 (sample_position two 1 0 0) = 0.
Proof.
  assert (exists d0 p d1, plug_sequence 0 formatted = Some d0 /\ load_packet (fun _ => 0) two 0 (two_chunks 0 0) d0 = Some p /\
    plug_sequence 1 p = Some d1 /\ read24 d1 (sample_position two 0 0 0) = 256 /\ read24 d1 (sample_position two 1 0 0) = 0)
    as (d0 & p & d1 & E0 & E1 & E2 & R).
  { do 3 eexists. split; [vm_compute; reflexivity|]. split; [vm_compute; reflexivity|]. split; [vm_compute; reflexivity|].
    split; vm_compute; reflexivity. }
  exists (mk_threads 3 d1 2 true Clearing [Waiting 0; Loading 0] [d0; d1]), d0, d1. split_and!; [|reflexivity|reflexivity|apply R|apply R].
  eapply rtc_l; [left; apply (step_send _ _ _ _ d0); [reflexivity|by apply phases_unlocked|by left|exact E0]|].
  eapply rtc_l; [left; apply (step_load _ _ _ _ 0 0 p); [by apply phases_unlocked|reflexivity|exact E1]|].
  eapply rtc_l; [left; apply step_clear; reflexivity|].
  eapply rtc_l; [left; apply (step_store _ _ _ _ 0 0 3); reflexivity|].
  eapply rtc_l; [left; apply (step_send _ _ _ _ d1); [reflexivity|by apply phases_unlocked|left; reflexivity|exact E2]|]. apply rtc_refl.
Qed.
