(* ===== verification/HpsdrConf.v ===== *)
(** * rtl_hpsdr.c: options and devices

    The options come from the command line ([options_loop]) or from a file
    ([parse_config]); a value with commas has a number for each receiver
    ([set_option]).  Then the dongles are counted, one may be singled out by its
    serial number, and each is set up ([init_rtl]).  Strings are lists of
    characters before the end; a string that does not fit its array has no
    value.  getopt, which takes the command line apart, is outside: its results
    are the input.  So are the files, as a function of the name. *)

From S2P Require Import Prelude Arrays Double Device Enumerate Convenience HpsdrPacket HpsdrControl.

Definition MAXSTR := 128.
Definition RTL_BANDWIDTH := 300000.
Definition RTL_SAMPLE_RATE := 192000 * 8.

(** The options, in [struct main_cb] and globals; the arrays of numbers have one
    element more, which remembers the last setting. *)
(* include/rtl_hpsdr.h:128-160 main_cb *)
Record options : Type := mk_options {
  o_direct_mode : list Z;
  o_gain : list Z;
  o_freq_offset : list Z;
  o_agc_mode : list Z;
  o_bias_t : list Z;
  o_rcvr_order : list Z;
  o_use_up : list Z;
  o_if_bw : list Z;
  o_gain_mode : list Z;
  o_sound_dev : list Z;
  o_ip_addr : list Z;
  o_serialstr : list Z;
  o_filename : list (list Z);
  o_total_num_rcvrs : Z;
  o_up_xtal : Z;
  o_calibrate : Z;
  o_using_IQfiles : bool;
  o_using_IQrewind : bool;
  o_conf_file : list Z;
}.

Definition set_direct_mode (v : list Z) (o : options) : options :=
  mk_options v (o_gain o) (o_freq_offset o) (o_agc_mode o) (o_bias_t o) (o_rcvr_order o) (o_use_up o) (o_if_bw o) (o_gain_mode o) (o_sound_dev o) (o_ip_addr o) (o_serialstr o) (o_filename o) (o_total_num_rcvrs o) (o_up_xtal o) (o_calibrate o) (o_using_IQfiles o) (o_using_IQrewind o) (o_conf_file o).
Definition set_gain (v : list Z) (o : options) : options :=
  mk_options (o_direct_mode o) v (o_freq_offset o) (o_agc_mode o) (o_bias_t o) (o_rcvr_order o) (o_use_up o) (o_if_bw o) (o_gain_mode o) (o_sound_dev o) (o_ip_addr o) (o_serialstr o) (o_filename o) (o_total_num_rcvrs o) (o_up_xtal o) (o_calibrate o) (o_using_IQfiles o) (o_using_IQrewind o) (o_conf_file o).
Definition set_freq_offset (v : list Z) (o : options) : options :=
  mk_options (o_direct_mode o) (o_gain o) v (o_agc_mode o) (o_bias_t o) (o_rcvr_order o) (o_use_up o) (o_if_bw o) (o_gain_mode o) (o_sound_dev o) (o_ip_addr o) (o_serialstr o) (o_filename o) (o_total_num_rcvrs o) (o_up_xtal o) (o_calibrate o) (o_using_IQfiles o) (o_using_IQrewind o) (o_conf_file o).
Definition set_agc_mode (v : list Z) (o : options) : options :=
  mk_options (o_direct_mode o) (o_gain o) (o_freq_offset o) v (o_bias_t o) (o_rcvr_order o) (o_use_up o) (o_if_bw o) (o_gain_mode o) (o_sound_dev o) (o_ip_addr o) (o_serialstr o) (o_filename o) (o_total_num_rcvrs o) (o_up_xtal o) (o_calibrate o) (o_using_IQfiles o) (o_using_IQrewind o) (o_conf_file o).
Definition set_bias_t (v : list Z) (o : options) : options :=
  mk_options (o_direct_mode o) (o_gain o) (o_freq_offset o) (o_agc_mode o) v (o_rcvr_order o) (o_use_up o) (o_if_bw o) (o_gain_mode o) (o_sound_dev o) (o_ip_addr o) (o_serialstr o) (o_filename o) (o_total_num_rcvrs o) (o_up_xtal o) (o_calibrate o) (o_using_IQfiles o) (o_using_IQrewind o) (o_conf_file o).
Definition set_rcvr_order (v : list Z) (o : options) : options :=
  mk_options (o_direct_mode o) (o_gain o) (o_freq_offset o) (o_agc_mode o) (o_bias_t o) v (o_use_up o) (o_if_bw o) (o_gain_mode o) (o_sound_dev o) (o_ip_addr o) (o_serialstr o) (o_filename o) (o_total_num_rcvrs o) (o_up_xtal o) (o_calibrate o) (o_using_IQfiles o) (o_using_IQrewind o) (o_conf_file o).
Definition set_use_up (v : list Z) (o : options) : options :=
  mk_options (o_direct_mode o) (o_gain o) (o_freq_offset o) (o_agc_mode o) (o_bias_t o) (o_rcvr_order o) v (o_if_bw o) (o_gain_mode o) (o_sound_dev o) (o_ip_addr o) (o_serialstr o) (o_filename o) (o_total_num_rcvrs o) (o_up_xtal o) (o_calibrate o) (o_using_IQfiles o) (o_using_IQrewind o) (o_conf_file o).
Definition set_if_bw (v : list Z) (o : options) : options :=
  mk_options (o_direct_mode o) (o_gain o) (o_freq_offset o) (o_agc_mode o) (o_bias_t o) (o_rcvr_order o) (o_use_up o) v (o_gain_mode o) (o_sound_dev o) (o_ip_addr o) (o_serialstr o) (o_filename o) (o_total_num_rcvrs o) (o_up_xtal o) (o_calibrate o) (o_using_IQfiles o) (o_using_IQrewind o) (o_conf_file o).
Definition set_gain_mode (v : list Z) (o : options) : options :=
  mk_options (o_direct_mode o) (o_gain o) (o_freq_offset o) (o_agc_mode o) (o_bias_t o) (o_rcvr_order o) (o_use_up o) (o_if_bw o) v (o_sound_dev o) (o_ip_addr o) (o_serialstr o) (o_filename o) (o_total_num_rcvrs o) (o_up_xtal o) (o_calibrate o) (o_using_IQfiles o) (o_using_IQrewind o) (o_conf_file o).
Definition set_sound_dev (v : list Z) (o : options) : options :=
  mk_options (o_direct_mode o) (o_gain o) (o_freq_offset o) (o_agc_mode o) (o_bias_t o) (o_rcvr_order o) (o_use_up o) (o_if_bw o) (o_gain_mode o) v (o_ip_addr o) (o_serialstr o) (o_filename o) (o_total_num_rcvrs o) (o_up_xtal o) (o_calibrate o) (o_using_IQfiles o) (o_using_IQrewind o) (o_conf_file o).
Definition set_ip_addr (v : list Z) (o : options) : options :=
  mk_options (o_direct_mode o) (o_gain o) (o_freq_offset o) (o_agc_mode o) (o_bias_t o) (o_rcvr_order o) (o_use_up o) (o_if_bw o) (o_gain_mode o) (o_sound_dev o) v (o_serialstr o) (o_filename o) (o_total_num_rcvrs o) (o_up_xtal o) (o_calibrate o) (o_using_IQfiles o) (o_using_IQrewind o) (o_conf_file o).
Definition set_serialstr (v : list Z) (o : options) : options :=
  mk_options (o_direct_mode o) (o_gain o) (o_freq_offset o) (o_agc_mode o) (o_bias_t o) (o_rcvr_order o) (o_use_up o) (o_if_bw o) (o_gain_mode o) (o_sound_dev o) (o_ip_addr o) v (o_filename o) (o_total_num_rcvrs o) (o_up_xtal o) (o_calibrate o) (o_using_IQfiles o) (o_using_IQrewind o) (o_conf_file o).
Definition set_filename (v : list (list Z)) (o : options) : options :=
  mk_options (o_direct_mode o) (o_gain o) (o_freq_offset o) (o_agc_mode o) (o_bias_t o) (o_rcvr_order o) (o_use_up o) (o_if_bw o) (o_gain_mode o) (o_sound_dev o) (o_ip_addr o) (o_serialstr o) v (o_total_num_rcvrs o) (o_up_xtal o) (o_calibrate o) (o_using_IQfiles o) (o_using_IQrewind o) (o_conf_file o).
Definition set_total_num_rcvrs (v : Z) (o : options) : options :=
  mk_options (o_direct_mode o) (o_gain o) (o_freq_offset o) (o_agc_mode o) (o_bias_t o) (o_rcvr_order o) (o_use_up o) (o_if_bw o) (o_gain_mode o) (o_sound_dev o) (o_ip_addr o) (o_serialstr o) (o_filename o) v (o_up_xtal o) (o_calibrate o) (o_using_IQfiles o) (o_using_IQrewind o) (o_conf_file o).
Definition set_up_xtal (v : Z) (o : options) : options :=
  mk_options (o_direct_mode o) (o_gain o) (o_freq_offset o) (o_agc_mode o) (o_bias_t o) (o_rcvr_order o) (o_use_up o) (o_if_bw o) (o_gain_mode o) (o_sound_dev o) (o_ip_addr o) (o_serialstr o) (o_filename o) (o_total_num_rcvrs o) v (o_calibrate o) (o_using_IQfiles o) (o_using_IQrewind o) (o_conf_file o).
Definition set_calibrate (v : Z) (o : options) : options :=
  mk_options (o_direct_mode o) (o_gain o) (o_freq_offset o) (o_agc_mode o) (o_bias_t o) (o_rcvr_order o) (o_use_up o) (o_if_bw o) (o_gain_mode o) (o_sound_dev o) (o_ip_addr o) (o_serialstr o) (o_filename o) (o_total_num_rcvrs o) (o_up_xtal o) v (o_using_IQfiles o) (o_using_IQrewind o) (o_conf_file o).
Definition set_using_IQfiles (v : bool) (o : options) : options :=
  mk_options (o_direct_mode o) (o_gain o) (o_freq_offset o) (o_agc_mode o) (o_bias_t o) (o_rcvr_order o) (o_use_up o) (o_if_bw o) (o_gain_mode o) (o_sound_dev o) (o_ip_addr o) (o_serialstr o) (o_filename o) (o_total_num_rcvrs o) (o_up_xtal o) (o_calibrate o) v (o_using_IQrewind o) (o_conf_file o).
Definition set_using_IQrewind (v : bool) (o : options) : options :=
  mk_options (o_direct_mode o) (o_gain o) (o_freq_offset o) (o_agc_mode o) (o_bias_t o) (o_rcvr_order o) (o_use_up o) (o_if_bw o) (o_gain_mode o) (o_sound_dev o) (o_ip_addr o) (o_serialstr o) (o_filename o) (o_total_num_rcvrs o) (o_up_xtal o) (o_calibrate o) (o_using_IQfiles o) v (o_conf_file o).
Definition set_conf_file (v : list Z) (o : options) : options :=
  mk_options (o_direct_mode o) (o_gain o) (o_freq_offset o) (o_agc_mode o) (o_bias_t o) (o_rcvr_order o) (o_use_up o) (o_if_bw o) (o_gain_mode o) (o_sound_dev o) (o_ip_addr o) (o_serialstr o) (o_filename o) (o_total_num_rcvrs o) (o_up_xtal o) (o_calibrate o) (o_using_IQfiles o) (o_using_IQrewind o) v.

(** [strcpy] to an array of [n] characters. *)
Definition strcpy (n : Z) (s : list Z) : option (list Z) := if Z.of_nat (length s) <? n then Some s else None.

(** At most seven parameters between commas. *)
(* src/rtl_hpsdr.c:1238-1249 set_option *)
Definition params (value : list Z) : option (list (list Z)) := mapM (strcpy MAXSTR) (take 7 (tokens 44 value [])).

(** Parameter [i] sets element [i] and the last element, which sets the
    elements without a parameter. *)
(* src/rtl_hpsdr.c:1251-1260 set_option *)
Definition store_param (num : list Z -> Z) (ps : list (list Z)) (i : Z) (arr : list Z) : option (list Z) :=
  match arr_get ps i with
  | Some p => arr ← arr_set arr i (num p); v ← arr_get arr i; arr_set arr MAX_RCVRS v
  | None => v ← arr_get arr MAX_RCVRS; arr_set arr i v
  end.

(** The loop over the receivers, with the reading of a parameter. *)
Definition set_numbers (num : list Z -> Z) (arr value : list Z) : option (Z * list Z) :=
  ps ← params value;
  arr ← for_arr (zseq 7) (store_param num ps) arr;
  Some (Z.of_nat (length ps), arr).

(* src/rtl_hpsdr.c: set_option *)
Definition set_option : list Z -> list Z -> option (Z * list Z) := set_numbers atoi.

Section conf.
Context `{libc} (oor : double -> Z) (files : list Z -> option (list Z)).

(* src/rtl_hpsdr.c: set_gain_option *)
Definition set_gain_option : list Z -> list Z -> option (Z * list Z) :=
  set_numbers (fun p => d_to_i32 oor (dmul (atof p) (d_of_Z 10))).

(** ** The file *)

(** [fgets] with room for [n] characters: a line with its end, or the characters
    at the front; and the rest of the file. *)
Fixpoint fgets (n : nat) (s : list Z) : list Z * list Z :=
  match n, s with
  | S n, c :: s => if c =? 10 then ([c], s) else let '(l, r) := fgets n s in (c :: l, r)
  | _, _ => ([], s)
  end.

(** [%s] of sscanf: the characters before the next blank. *)
Fixpoint word (s : list Z) : list Z * list Z :=
  match s with
  | c :: s' => if isspace c then ([], s) else let '(w, r) := word s' in (c :: w, r)
  | [] => ([], [])
  end.

(** [sscanf (confbuf, "%s %s", option, value)], into empty strings. *)
Definition sscanf2 (s : list Z) : list Z * list Z :=
  let '(a, r) := word (skip_space s) in (a, (word (skip_space r)).1).

(** A setting of an array of numbers. *)
Definition update (get : options -> list Z) (set : list Z -> options -> options)
    (parse : list Z -> list Z -> option (Z * list Z)) (value : list Z) (o : options) : option options :=
  '(_, v) ← parse (get o) value; Some (set v o).

Definition named (name : list Z) (s : string) : bool := bool_decide (name = chars s).

(* src/rtl_hpsdr.c:1354-1405 parse_config *)
Definition config_option (name value : list Z) (o : options) : option options :=
  if named name "direct_mode" then update o_direct_mode set_direct_mode set_option value o
  else if named name "tuner_gain" then update o_gain set_gain set_gain_option value o
  else if named name "freq_offset" then update o_freq_offset set_freq_offset set_option value o
  else if named name "agc_mode" then update o_agc_mode set_agc_mode set_option value o
  else if named name "bias_t" then update o_bias_t set_bias_t set_option value o
  else if named name "rcvr_order" then update o_rcvr_order set_rcvr_order set_option value o
  else if named name "sound_dev" then v ← strcpy MAXSTR value; Some (set_sound_dev v o)
  else if named name "total_num_rcvrs" then Some (set_total_num_rcvrs (atoi value) o)
  else if named name "up_xtal" then Some (set_up_xtal (atoi value) o)
  else if named name "use_up" then update o_use_up set_use_up set_option value o
  else if named name "calibrate" then Some (set_calibrate (atoi value) o)
  else if named name "if_bw" then update o_if_bw set_if_bw set_option value o
  else if named name "gain_mode" then update o_gain_mode set_gain_mode set_option value o
  else Some o.

(** A line that [fgets] delivers; one with a [#] is passed over. *)
(* src/rtl_hpsdr.c:1346-1406 parse_config *)
Definition config_line (confbuf : list Z) (o : options) : option options :=
  if bool_decide (35 ∈ confbuf) then Some o
  else let '(name, value) := sscanf2 confbuf in config_option name value o.

(** [fuel] bounds the number of lines. *)
(* src/rtl_hpsdr.c:1344-1346 parse_config *)
Fixpoint lines_loop (fuel : nat) (s : list Z) (o : options) : option options :=
  match fuel, s with
  | _, [] => Some o
  | O, _ => None
  | S fuel, _ => let '(l, r) := fgets 127 s in o ← config_line l o; lines_loop fuel r o
  end.

(* src/rtl_hpsdr.c: parse_config *)
Definition parse_config (conf_file : list Z) (o : options) : option (outcome * options) :=
  match files conf_file with
  | None => Some (Exits, o)
  | Some s => o ← lines_loop (length s) s o; Some (Goes, o)
  end.

(** ** The command line *)

(** The names of the files; the program ends when one is not there. *)
(* src/rtl_hpsdr.c: set_filename_option *)
Fixpoint set_filenames (i : Z) (ps : list (list Z)) (o : options) : option (outcome * options) :=
  match ps with
  | [] => Some (Goes, o)
  | p :: ps =>
      names ← arr_set (o_filename o) i p;
      let o := set_filename names o in
      match files p with
      | None => Some (Exits, o)
      | Some _ => set_filenames (i + 1) ps (set_total_num_rcvrs (i32 (o_total_num_rcvrs o + 1)) o)
      end
  end.

(** An option with its argument; [None] for an outcome goes on with the next.
    [-b], [-m], [-p] and [-v] are not options that go on, nor is an unknown one. *)
(* src/rtl_hpsdr.c:1505-1584 main *)
Definition option_turn (opt : Z) (optarg : list Z) (o : options) : option (option outcome * options) :=
  let next (r : option options) := o ← r; Some (None, o) in
  if opt =? 97 then next (update o_agc_mode set_agc_mode set_option optarg o)
  else if (opt =? 87) || (opt =? 119) then
    let o := if opt =? 87 then set_using_IQrewind true o else o in
    ps ← params optarg;
    '(r, o) ← set_filenames 0 ps o;
    match r with Exits => Some (Some Exits, o) | Goes => Some (None, set_using_IQfiles true o) end
  else if opt =? 100 then next (update o_direct_mode set_direct_mode set_option optarg o)
  else if opt =? 67 then next (Some (set_calibrate (atoi optarg) o))
  else if opt =? 99 then
    f ← strcpy MAXSTR optarg;
    '(r, o) ← parse_config f (set_conf_file f o);
    Some (Some r, o)
  else if opt =? 101 then s ← strcpy MAXSTR optarg; next (Some (set_serialstr s o))
  else if opt =? 102 then next (update o_freq_offset set_freq_offset set_option optarg o)
  else if opt =? 103 then next (update o_gain set_gain set_option optarg o)
  else if opt =? 105 then s ← strcpy MAXSTR optarg; next (Some (set_ip_addr s o))
  else if opt =? 108 then next (Some (set_up_xtal (atoi optarg) o))
  else if opt =? 111 then next (update o_rcvr_order set_rcvr_order set_option optarg o)
  else if opt =? 114 then next (Some (set_total_num_rcvrs (atoi optarg) o))
  else if opt =? 115 then s ← strcpy MAXSTR optarg; next (Some (set_sound_dev s o))
  else if opt =? 117 then next (update o_use_up set_use_up set_option optarg o)
  else Some (Some Exits, o).

(** The loop over what getopt delivers, until the configuration file. *)
(* src/rtl_hpsdr.c:1501-1585 main *)
Fixpoint options_loop (args : list (Z * list Z)) (o : options) : option (outcome * options) :=
  match args with
  | [] => Some (Goes, o)
  | (opt, optarg) :: args =>
      '(r, o) ← option_turn opt optarg o;
      match r with Some r => Some (r, o) | None => options_loop args o end
  end.
End conf.

(* src/rtl_hpsdr.c:1466-1499 main *)
Definition default_options : options :=
  let zeros := replicate 8 0 in
  mk_options zeros zeros zeros zeros zeros [1; 2; 3; 4; 5; 6; 7; 0] [1; 1; 1; 1; 1; 1; 1; 0] zeros [1; 1; 1; 1; 1; 1; 1; 0]
    [] [] [] (replicate 7 []) 0 0 0 false false [].

(** ** The dongles *)

(** How many are used; the program ends when there are none. *)
(* src/rtl_hpsdr.c:1587-1607 main *)
Definition count_receivers (b : usb_bus) (o : options) : outcome * options :=
  if o_using_IQfiles o then (Goes, o) else
  let r := i32 (rtlsdr_get_device_count b) in
  if r =? 0 then (Exits, o) else
  let n := o_total_num_rcvrs o in
  let n := if (r <? n) || (n =? 0) then r else n in
  (Goes, set_total_num_rcvrs (if MAX_RCVRS <? n then MAX_RCVRS else n) o).

(** The device among the first [n] whose serial number is [-e]'s; [serial] is
    the buffer. *)
(* src/rtl_hpsdr.c:1731-1742 main *)
Definition singled_out (b : usb_bus) (o : options) : option Z :=
  (search_loop b (str_eq (o_serialstr o)) 0 (Z.to_nat (o_total_num_rcvrs o)) []).1.

(* src/rtl_hpsdr.c:1730-1748 main *)
Definition single_out (b : usb_bus) (o : options) : option (outcome * options) :=
  match singled_out b o with
  | Some i =>
      v ← arr_get (o_rcvr_order o) i;
      order ← arr_set (o_rcvr_order o) 0 v;
      Some (Goes, set_total_num_rcvrs 1 (set_rcvr_order order o))
  | None => Some (if bool_decide (o_serialstr o = []) then Goes else Exits, o)
  end.

(** The settings of an open device: the bandwidth of its filter is noted when it
    was chosen here.  The result of the frequency is not looked at. *)
(* src/rtl_hpsdr.c:1104-1198 init_rtl *)
Definition setup_rtl (o : options) (rcvr_num : Z) : M rtlsdr_dev (Z * options) :=
  let option_of (l : list Z) : M rtlsdr_dev Z := from_option_trap (arr_get l rcvr_num) in
  let try (m : M rtlsdr_dev Z) (o : options) (k : M rtlsdr_dev (Z * options)) : M rtlsdr_dev (Z * options) :=
    r ← m; if r <? 0 then mret (-1, o) else k in
  if_bw ← option_of (o_if_bw o);
  r ← rtlsdr_set_tuner_bandwidth (u32 (if if_bw =? 0 then RTL_BANDWIDTH else if_bw));
  if r <? 0 then mret (-1, o) else
  bws ← from_option_trap (arr_set (o_if_bw o) rcvr_num (if if_bw =? 0 then RTL_BANDWIDTH else if_bw));
  let o := set_if_bw bws o in
  try (rtlsdr_set_sample_rate RTL_SAMPLE_RATE) o (
  gain_mode ← option_of (o_gain_mode o);
  gain ← option_of (o_gain o);
  try (if 0 <? gain_mode then verbose_auto_gain else verbose_gain_set gain) o (
  rtlsdr_set_center_freq (u32 (110000000 + o_up_xtal o));;
  direct_mode ← option_of (o_direct_mode o);
  try (rtlsdr_set_direct_sampling direct_mode) o (
  agc_mode ← option_of (o_agc_mode o);
  try (rtlsdr_set_agc_mode agc_mode) o (
  bias_t ← option_of (o_bias_t o);
  try (rtlsdr_set_bias_tee bias_t) o (
  try rtlsdr_reset_buffer o (mret (0, o))))))).

(** rtlsdr_open finds the device, with the result [claim_rc] of claiming its
    interface. *)
(* src/rtl_hpsdr.c: init_rtl *)
Definition init_rtl (b : usb_bus) (claim_rc : Z) (o : options) (rcvr_num dev_index : Z) : M rtlsdr_dev (Z * options) :=
  match open_select b claim_rc (u32 dev_index) with
  | (_, None) => mret (-1, o)
  | (r, Some d) =>
      if r <? 0 then mret (-1, o) else
      let '(m, p) := match (rtlsdr_get_usb_strings d).2 with Some (m, p, _) => (m, p) | None => (EmptyString, EmptyString) end in
      open_device m p;; setup_rtl o rcvr_num
  end.
