(* ===== verification/HpsdrConfSpec.v ===== *)
(** * rtl_hpsdr.c: what the options do

    The numbers of an option reach the receivers, the lines of a configuration
    file take effect one after the other, and a receiver that is set up and then
    tuned by the client has a safe session with its dongle.  Cases in which the
    wrong dongle, or none, is chosen are at the end. *)

From S2P Require Import Prelude Arrays Double RtlsdrI2c Usb UsbSpec Repeater Device DeviceInv DeviceSession Enumerate Convenience ConvenienceSpec.
From S2P Require Import HpsdrPacket HpsdrControl HpsdrConf.

(** ** Options with commas *)

(** Words with a separator between. *)
Fixpoint joined (d : Z) (ws : list (list Z)) : list Z :=
  match ws with
  | [] => []
  | [w] => w
  | w :: ws => w ++ d :: joined d ws
  end.

Lemma tokens_word d w s acc : d ∉ w -> tokens d (w ++ s) acc = tokens d s (acc ++ w).
Proof.
  revert acc. induction w as [|c w IH]; intros acc Hd; [by rewrite app_nil_r|].
  apply not_elem_of_cons in Hd as [Hc Hd]. cbn [app tokens]. replace (c =? d) with false by lia.
  rewrite IH by done. by rewrite <- app_assoc.
Qed.

Definition is_word (d : Z) (w : list Z) : Prop := w <> [] /\ d ∉ w.

Lemma tokens_joined d ws : Forall (is_word d) ws -> tokens d (joined d ws) [] = ws.
Proof.
  induction ws as [|w [|w2 ws] IH]; intros Hws; [done|apply Forall_cons in Hws as [[Hw Hd] Hws]..].
  - cbn [joined]. rewrite <- (app_nil_r w) at 1. rewrite tokens_word by done. cbn [tokens app]. by rewrite bool_decide_false.
  - cbn [joined]. rewrite tokens_word by done. cbn [tokens app]. rewrite Z.eqb_refl, bool_decide_false by done. f_equal. by apply IH.
Qed.

Lemma params_joined ws :
  Forall (is_word 44) ws -> Forall (fun w => Z.of_nat (length w) < MAXSTR) ws -> params (joined 44 ws) = Some (take 7 ws).
Proof.
  intros Hws Hl. unfold params. rewrite tokens_joined by done. apply mapM_Some. clear Hws.
  assert (Forall (fun w => Z.of_nat (length w) < MAXSTR) (take 7 ws)) as H7 by (by apply Forall_take). induction H7 as [|w l Hw _ IH]; [done|]. constructor; [|done].
  unfold strcpy. by replace (Z.of_nat (length w) <? MAXSTR) with true by lia.
Qed.

(** Number [i] of at least one, the last one from there on. *)
Definition numbered (ps : list (list Z)) (i : nat) : list Z := default [] (ps !! Nat.min i (length ps - 1)).

Lemma set_numbers_spec num ws arr :
  length arr = 8%nat -> ws <> [] -> Forall (is_word 44) ws -> Forall (fun w => Z.of_nat (length w) < MAXSTR) ws ->
  set_numbers num arr (joined 44 ws) =
    Some (Z.of_nat (length (take 7 ws)), map (fun i => num (numbered (take 7 ws) i)) (seq 0 8)).
Proof.
  intros Ha Hne Hws Hl. unfold set_numbers. rewrite params_joined by done. cbn [mbind option_bind].
  assert (Hl7 : (length (take 7 ws) <= 7)%nat) by (rewrite length_take; lia).
  assert (Hne7 : take 7 ws <> []) by (by destruct ws).
  revert Hl7 Hne7. generalize (take 7 ws). intros ps Hl7 Hps.
  do 9 (destruct arr as [|? arr]; try done). clear Ha.
  do 8 (destruct ps as [|? ps]; try done); try (cbn [length] in Hl7; lia).
Qed.

(** A number of at most nine digits, [k] of them. *)
Definition printed (kz : nat * Z) : list Z := if kz.2 <? 0 then 45 :: decimal kz.1 (- kz.2) else decimal kz.1 kz.2.
Definition printable (kz : nat * Z) : Prop := (0 < kz.1 <= 9)%nat /\ Z.abs kz.2 < 10 ^ Z.of_nat kz.1.

Lemma digits_decimal k n : 0 <= n < 10 ^ Z.of_nat k -> (digits 10 0 (decimal k n)).1 = n.
Proof.
  intros Hn. rewrite <- (app_nil_r (decimal k n)), digits_app by apply decimal_chars. by rewrite decimal_value.
Qed.

Lemma atoi_printed kz : printable kz -> atoi (printed kz) = kz.2.
Proof.
  destruct kz as [k z]. intros [Hk Hz]. unfold printed. cbn [fst snd] in *.
  destruct (Z.ltb_spec z 0); [|by apply atoi_decimal; lia].
  assert (10 ^ Z.of_nat k <= 10 ^ 9) by (apply Z.pow_le_mono_r; lia).
  assert (atoi (45 :: decimal k (- z)) = i32 (clamp_long (- (digits 10 0 (decimal k (- z))).1))) as -> by reflexivity.
  rewrite digits_decimal by lia. rewrite Z.opp_involutive.
  assert (clamp_long z = z) as -> by (unfold clamp_long; lia). apply i32_small. unfold is_i32. lia.
Qed.

Lemma decimal_length k n : length (decimal k n) = k.
Proof. revert n. induction k as [|k IH]; intros n; [done|]. cbn [decimal]. rewrite length_app, IH. cbn. lia. Qed.

Lemma printed_word kz : printable kz -> is_word 44 (printed kz) /\ Z.of_nat (length (printed kz)) < MAXSTR.
Proof.
  destruct kz as [k z]. intros [Hk Hz]. cbn [fst snd] in *.
  assert (forall n, 44 ∉ decimal k n) as Hn.
  { intros n Hin. destruct (proj1 (Forall_forall _ _) (decimal_chars k n) _ Hin) as (d & Hd & E). unfold is_digit in Hd. lia. }
  assert (forall n, decimal k n <> []) as He by (intros n E; apply (f_equal length) in E; rewrite decimal_length in E; cbn in E; lia).
  unfold printed, is_word, MAXSTR. cbn [fst snd]. destruct (z <? 0); cbn [length]; rewrite decimal_length;
    (split; [split; [done|]|lia]); [|done]. by apply not_elem_of_cons.
Qed.

(** The setting of receiver [i] (and of the memory, number 7) when the numbers
    [zs] are given. *)
Definition setting_of (zs : list Z) (i : nat) : Z := default 0 (zs !! Nat.min i (Nat.min 7 (length zs) - 1)).

(** Numbers with commas between reach the receivers: the first is for the
    first receiver, and so on; when there are fewer than seven, the last one is
    for all others, and further ones are ignored.  The last number used is also
    remembered, whatever the settings were before. *)
Theorem set_option_fills (arr : list Z) (kzs : list (nat * Z)) :
  length arr = 8%nat -> kzs <> [] -> Forall printable kzs ->
  set_option arr (joined 44 (map printed kzs)) =
    Some (Z.of_nat (Nat.min 7 (length kzs)), map (setting_of (map snd kzs)) (seq 0 8)).
Proof.
  intros Ha Hne Hp. unfold set_option. rewrite set_numbers_spec; [|done|by destruct kzs|..].
  - rewrite length_take, length_map. do 2 f_equal. apply map_ext_in. intros i Hi%in_seq.
    unfold numbered, setting_of. rewrite length_take, !length_map.
    assert (Hlt : (Nat.min i (Nat.min 7 (length kzs) - 1) < length kzs)%nat) by (destruct kzs; [done|]; cbn [length]; lia).
    rewrite lookup_take_lt by (destruct kzs; [done|]; cbn [length]; lia). rewrite !list_lookup_fmap.
    destruct (lookup_lt_is_Some_2 _ _ Hlt) as [kz E]. rewrite E. cbn [fmap option_fmap option_map default].
    apply atoi_printed. by eapply Forall_lookup_1.
  - apply Forall_map. eapply Forall_impl; [exact Hp|]. intros kz Hkz. by apply printed_word.
  - apply Forall_map. eapply Forall_impl; [exact Hp|]. intros kz Hkz. by apply printed_word.
Qed.

Lemma set_option_fills_witness :
  set_option (replicate 8 0) (chars "-2500,0120,7") = Some (3, [-2500; 120; 7; 7; 7; 7; 7; 7]).
Proof.
  refine (set_option_fills (replicate 8 0) [(4%nat, -2500); (4%nat, 120); (1%nat, 7)] eq_refl _ _); [done|].
  repeat constructor; cbn; lia.
Defined.

(** ** The configuration file *)

(** A line of a file: a setting, or a comment. *)
Inductive conf_line : Type := Setting (name value : list Z) | Comment (text : list Z).

Definition text_of (l : conf_line) : list Z :=
  match l with Setting name value => name ++ 32 :: value | Comment text => text end.

Definition conf_word (w : list Z) : Prop := w <> [] /\ Forall (fun c => isspace c = false /\ c <> 35) w.

(** A line as the program expects it, short enough for its buffer. *)
Definition conf_line_ok (l : conf_line) : Prop :=
  Z.of_nat (length (text_of l)) < MAXSTR - 1 /\
  match l with Setting name value => conf_word name /\ conf_word value | Comment text => 35 ∈ text /\ 10 ∉ text end.

Lemma fgets_line n l r : 10 ∉ l -> (length l < n)%nat -> fgets n (l ++ 10 :: r) = (l ++ [10], r).
Proof.
  revert n. induction l as [|c l IH]; intros [|n] Hl Hn; cbn [length] in Hn; try lia; [done|].
  apply not_elem_of_cons in Hl as [Hc Hl]. cbn [app fgets]. replace (c =? 10) with false by lia. by rewrite IH by (done || lia).
Qed.

Lemma word_blank w c r : Forall (fun c => isspace c = false) w -> isspace c = true -> word (w ++ c :: r) = (w, c :: r).
Proof.
  intros Hw Hc. induction Hw as [|d w Hd _ IH]; cbn [app word]; [by rewrite Hc|]. by rewrite Hd, IH.
Qed.

Lemma skip_space_word w r : w <> [] -> Forall (fun c => isspace c = false) w -> skip_space (w ++ r) = w ++ r.
Proof. destruct w as [|c w]; [done|]. intros _ [Hc _]%Forall_cons. cbn [app skip_space]. by rewrite Hc. Qed.

Lemma sscanf2_setting name value : conf_word name -> conf_word value -> sscanf2 ((name ++ 32 :: value) ++ [10]) = (name, value).
Proof.
  intros [Hn Hnc] [Hv Hvc]. assert (forall w, Forall (fun c => isspace c = false /\ c <> 35) w -> Forall (fun c => isspace c = false) w)
    as Hblank by (intros w Hw; eapply Forall_impl; [exact Hw|by intros c []]).
  unfold sscanf2. rewrite <- app_assoc. rewrite skip_space_word by auto. cbn [app]. rewrite word_blank by auto.
  cbn [skip_space]. change (isspace 32) with true. cbv iota. rewrite skip_space_word by auto. by rewrite word_blank by auto.
Qed.

Section conf.
Context `{libc} (oor : double -> Z) (files : list Z -> option (list Z)).

(** What a line is to do. *)
Definition effect_of (l : conf_line) (o : options) : option options :=
  match l with Setting name value => config_option oor name value o | Comment _ => Some o end.

Lemma line_no_newline l : conf_line_ok l -> 10 ∉ text_of l.
Proof.
  intros [_ Hl]. destruct l as [name value|text]; cbn [text_of]; [|tauto]. destruct Hl as [[_ Hn] [_ Hv]].
  assert (forall w, Forall (fun c => isspace c = false /\ c <> 35) w -> 10 ∉ w) as Hw.
  { intros w Hw Hin. by destruct (proj1 (Forall_forall _ _) Hw _ Hin). }
  intros [Hin|[E|Hin]%elem_of_cons]%elem_of_app; [exact (Hw _ Hn Hin)|done|exact (Hw _ Hv Hin)].
Qed.

Lemma config_line_effect l o : conf_line_ok l -> config_line oor (text_of l ++ [10]) o = effect_of l o.
Proof.
  intros [_ Hl]. unfold config_line. destruct l as [name value|text]; cbn [text_of effect_of].
  - destruct Hl as [Hn Hv]. rewrite sscanf2_setting by done. rewrite bool_decide_false; [done|].
    assert (forall w, Forall (fun c => isspace c = false /\ c <> 35) w -> 35 ∉ w) as Hw.
    { intros w Hw Hin. by destruct (proj1 (Forall_forall _ _) Hw _ Hin). }
    rewrite !elem_of_app, elem_of_cons, list_elem_of_singleton.
    intros [[Hin|[E|Hin]]|E]; try done; [exact (Hw _ (proj2 Hn) Hin)|exact (Hw _ (proj2 Hv) Hin)].
  - rewrite bool_decide_true; [done|]. apply elem_of_app. tauto.
Qed.

Lemma lines_loop_spec ls o fuel :
  Forall conf_line_ok ls -> (length ls <= fuel)%nat ->
  lines_loop oor fuel (concat (map (fun l => text_of l ++ [10]) ls)) o = foldl (fun o l => o ← o; effect_of l o) (Some o) ls.
Proof.
  revert o fuel. induction ls as [|l ls IH]; intros o fuel Hls Hf; [by destruct fuel|].
  apply Forall_cons in Hls as [Hl Hls]. destruct fuel as [|fuel]; cbn [length] in Hf; [lia|].
  cbn [map concat foldl mbind option_bind]. rewrite <- app_assoc. cbn [app].
  assert (lines_loop oor (S fuel) (text_of l ++ 10 :: concat (map (fun l => text_of l ++ [10]) ls)) o =
    (o ← config_line oor (text_of l ++ [10]) o; lines_loop oor fuel (concat (map (fun l => text_of l ++ [10]) ls)) o)) as ->.
  { cbn [lines_loop]. rewrite fgets_line; [|by apply line_no_newline|destruct Hl; unfold MAXSTR in *; lia]. by destruct (text_of l). }
  rewrite config_line_effect by done. destruct (effect_of l o) as [o'|]; cbn [mbind option_bind]; [by apply IH; [|lia]|].
  clear. induction ls as [|l ls IH]; [done|exact IH].
Qed.

(** A configuration file with lines that fit the buffer of the program: the
    settings take effect in the order of the lines, each as [config_option] has
    it, comments are passed over, and the program goes on. *)
Theorem parse_config_lines (conf_file : list Z) (ls : list conf_line) (o : options) :
  Forall conf_line_ok ls ->
  files conf_file = Some (concat (map (fun l => text_of l ++ [10]) ls)) ->
  parse_config oor files conf_file o =
    (o ← foldl (fun o l => o ← o; effect_of l o) (Some o) ls; Some (Goes, o)).
Proof.
  intros Hls Hf. unfold parse_config. rewrite Hf, lines_loop_spec; [done|done|].
  clear. induction ls as [|l ls IH]; [done|]. cbn [map concat length]. rewrite !length_app. cbn. lia.
Qed.
End conf.

(** A part of the file that the program comes with. *)
Definition shipped : list conf_line :=
  [Comment (chars "## Global options"); Setting (chars "total_num_rcvrs") (chars "7");
   Setting (chars "up_xtal") (chars "125000000"); Setting (chars "freq_offset") (chars "-2500,-2550,120")].

Lemma conf_word_chars w : (negb (bool_decide (w = [])) && forallb (fun c => negb (isspace c) && negb (c =? 35)) w) = true -> conf_word w.
Proof.
  intros [Hw H]%andb_prop. split; [intros ->; by vm_compute in Hw|]. apply Forall_forall. intros c Hc.
  apply forallb_forall with (x := c) in H; [|by apply list_elem_of_In]. destruct (isspace c); [done|]. by split; [|lia].
Qed.

Lemma parse_config_lines_witness :
  option_map (fun r => (o_total_num_rcvrs r.2, o_up_xtal r.2, o_freq_offset r.2))
    (parse_config (H := mk_libc (fun _ => d_of_Z 0)) (fun _ => 0)
       (fun f => if bool_decide (f = chars "conf") then Some (concat (map (fun l => text_of l ++ [10]) shipped)) else None)
       (chars "conf") default_options) =
    Some (7, 125000000, [-2500; -2550; 120; 120; 120; 120; 120; 120]).
Proof.
  rewrite (parse_config_lines (H := mk_libc (fun _ => d_of_Z 0)) _ _ (chars "conf") shipped default_options).
  - vm_compute. reflexivity.
  - unfold shipped. repeat (apply Forall_cons; split; [split; [by vm_compute|]|]); [|split; apply conf_word_chars; reflexivity..|constructor].
    split; apply (bool_decide_eq_true_1 _); vm_compute; reflexivity.
  - rewrite bool_decide_true by done. reflexivity.
Defined.

(** ** The session with a dongle *)

(** The arrays of the options have their length. *)
Definition options_ok (o : options) : Prop :=
  length (o_direct_mode o) = 8%nat /\ length (o_gain o) = 8%nat /\ length (o_agc_mode o) = 8%nat /\
  length (o_bias_t o) = 8%nat /\ length (o_if_bw o) = 8%nat /\ length (o_gain_mode o) = 8%nat.

#[local] Hint Resolve set_tuner_bandwidth_ok set_tuner_gain_ok set_tuner_gain_mode_ok direct_sampling_ok reset_buffer_ok : pres.

#[local] Hint Resolve agc_mode_ok : pres.

Lemma setup_rtl_ok o rcvr_num : options_ok o -> 0 <= rcvr_num < 7 -> preserves dev_ok (setup_rtl o rcvr_num).
Proof.
  intros (Ld & Lg & La & Lb & Li & Lm) Hr.
  assert (forall l, length l = 8%nat -> exists v : Z, arr_get l rcvr_num = Some v) as Hget by (intros l Hl; apply arr_get_ok; lia).
  unfold setup_rtl. cbv zeta.
  destruct (Hget _ Li) as [bw Ebw]. rewrite Ebw. apply (preserves_trap_bind _ _ bw); [done|].
  apply preserves_bind; [apply set_tuner_bandwidth_ok|]. intros r. apply preserves_if; [apply preserves_ret|].
  destruct (arr_set_spec (o_if_bw o) rcvr_num (if bw =? 0 then RTL_BANDWIDTH else bw)) as (bws & Eb & _ & _); [lia|].
  apply (preserves_trap_bind _ _ bws); [done|]. cbn [o_gain_mode o_gain o_up_xtal o_direct_mode o_agc_mode o_bias_t set_if_bw].
  destruct (Hget _ Lm) as [gm Egm], (Hget _ Lg) as [g Eg], (Hget _ Ld) as [dm Edm], (Hget _ La) as [ag Eag], (Hget _ Lb) as [bt Ebt].
  rewrite Egm, Eg, Edm, Eag, Ebt. unfold from_option_trap, verbose_auto_gain, verbose_gain_set.
  solve_pres.
Qed.

(** A new frequency with the setting of the receiver: the offset, whether the
    converter is used, its crystal. *)
Definition tuned (use_up up_xtal : Z) (f : Z * Z) : M rtlsdr_dev unit :=
  tune_pending f.1 use_up up_xtal (f.2, 0);; mret tt.

(** C34: the session of a receiver of rtl_hpsdr with its dongle: opened with
    any options, set up, and tuned to whatever frequencies its client and the
    calibration ask for, whatever is on the bus and whatever fails: the run has a
    defined result, and the tuner is only reached through the open repeater. *)
Theorem receiver_session_safe (e : usb_env) (b : usb_bus) (claim_rc dev_index rcvr_num use_up : Z) (o : options) (freqs : list (Z * Z)) :
  options_ok o -> 0 <= rcvr_num < 7 ->
  wp (r ← init_rtl b claim_rc o rcvr_num dev_index;
      if negb (r.1 =? 0) then mret tt else for_each freqs (tuned use_up (o_up_xtal o)))
    (fun _ d => disciplined (usb_log (dcore d))) (new_dev e).
Proof.
  intros Ho Hr. apply wp_bind. unfold init_rtl. destruct (open_select b claim_rc (u32 dev_index)) as [rc [d|]].
  2: { apply wp_ret. cbn [fst]. apply wp_ret. apply disciplined_nil. }
  destruct (rc <? 0); [apply wp_ret; cbn [fst]; apply wp_ret; apply disciplined_nil|].
  destruct (match (rtlsdr_get_usb_strings d).2 with Some (m, p, _) => (m, p) | None => (EmptyString, EmptyString) end) as [m p].
  apply wp_bind. eapply wp_mono; [|apply open_device_ok]. intros u dev Hdev.
  eapply wp_mono; [|exact (setup_rtl_ok o rcvr_num Ho Hr dev Hdev)]. intros [r o'] dev' Hdev'. cbn [fst].
  assert (preserves dev_ok (if negb (r =? 0) then mret tt else for_each freqs (tuned use_up (o_up_xtal o)))) as Hm.
  { apply preserves_if; [apply preserves_ret|]. apply preserves_for_each. intros f _. unfold tuned, tune_pending. solve_pres. }
  eapply wp_mono; [|by apply Hm]. intros x dev2 (k & _ & (_ & Hdis & _) & _). exact Hdis.
Qed.

Definition dongle (serial : string) (open_rc : Z) : usb_device := mk_usb_device 0x0bda 0x2838 open_rc 0 ("Realtek", "RTL2838UHIDIR", serial)%string.

Lemma receiver_session_safe_witness :
  wp (r ← init_rtl (mk_bus 0 [dongle "00000001" 0]) 0 default_options 0 0;
      if negb (r.1 =? 0) then mret tt else for_each [(0, 7100000); (-2500, 3600000)] (tuned 1 0))
    (fun _ d => disciplined (usb_log (dcore d))) (new_dev (env_ok (fun _ _ _ => 0x69))).
Proof.
  refine (receiver_session_safe (env_ok (fun _ _ _ => 0x69)) (mk_bus 0 [dongle "00000001" 0]) 0 0 0 1 default_options
    [(0, 7100000); (-2500, 3600000)] _ _); [by split_and!|lia].
Defined.

(** With the files of two receivers and no dongle there is no serial number to
    compare, the empty one is found equal to the empty [-e], and one receiver is
    left. *)
Lemma files_one_receiver :
  let o := set_using_IQfiles true (set_total_num_rcvrs 2 default_options) in
  option_map (fun r => (r.1, o_total_num_rcvrs r.2)) (single_out (mk_bus 0 []) o) = Some (Goes, 1).
Proof. vm_compute. reflexivity. Qed.

(** Two dongles, the first in use by another program: it alone is taken. *)
Lemma busy_dongle_singled_out :
  let b := mk_bus 0 [dongle "00000001" (-6); dongle "00000002" 0] in
  option_map (fun r => (r.1, o_total_num_rcvrs r.2, arr_get (o_rcvr_order r.2) 0))
    (single_out b (set_total_num_rcvrs 2 default_options)) = Some (Goes, 1, Some 1).
Proof. vm_compute. reflexivity. Qed.

(** With the order 2,1 the dongle with the serial number asked for is number 1,
    and number 2 is opened. *)
Lemma other_dongle_opened :
  let b := mk_bus 0 [dongle "00000001" 0; dongle "00000002" 0] in
  let o := set_serialstr (chars "00000001") (set_rcvr_order [2; 1; 1; 1; 1; 1; 1; 1] (set_total_num_rcvrs 2 default_options)) in
  singled_out b o = Some 0 /\
  option_map (fun r => (r.1, arr_get (o_rcvr_order r.2) 0)) (single_out b o) = Some (Goes, Some 2).
Proof. split; vm_compute; reflexivity. Qed.

(** A comment of more characters than the buffer has: what comes after the first
    127 is taken for a line. *)
Lemma long_comment_parsed `{libc} oor :
  option_map o_up_xtal
    (lines_loop oor 200 (chars "#" ++ replicate 126 46 ++ chars "up_xtal 125000000" ++ [10]) default_options) = Some 125000000.
Proof. vm_compute. reflexivity. Qed.

(** The options [-b] and [-m], and [-p], end the program. *)
Lemma listed_options_exit `{libc} oor files arg :
  Forall (fun opt => option_turn oor files opt arg default_options = Some (Some Exits, default_options)) [98; 109; 112].
Proof. repeat constructor. Qed.
