(* ===== verification/HpsdrCal.v ===== *)
(** * rtl_hpsdr.c: calibration

    With [-C] each dongle is tuned to a known frequency from time to time, and
    where its spectrum has the peak should tell the offset of its crystal.  The
    callback of a receiver and the calibration thread pass [cal_state] to and fro
    ([callback_cal], [thread_cal], in any order by [cal_run]); [calibrate_block] is
    what the thread makes of a block.  The transform of FFTW and the logarithm are
    a parameter; tuning with its delay and [reset_cal] are left out. *)

From S2P Require Import Prelude Arrays Double Single HpsdrPacket HpsdrConf.
From Stdlib Require Import SpecFloat.

Definition RTL_READ_COUNT := 2048 * 8.
Definition FFT_SIZE := 65536.
Definition CAL_STATE_0 := -1.
Definition CAL_STATE_1 := -2.
Definition CAL_STATE_2 := -3.
Definition CAL_STATE_3 := -4.

(** ** Passing a receiver to and fro *)

(* src/rtl_hpsdr.c:108-132 cal_rcvr_mask *)
Record cal : Type := mk_cal {
  cal_state : Z;
  cal_rcvr : Z;
  cal_rcvr_mask : Z;
  cal_count : list Z;
  do_cal_time : Z;
  fft_buf : option Z;  (** the receiver whose block it is *)
}.

Definition set_cal_state (state : Z) (c : cal) : cal :=
  mk_cal state (cal_rcvr c) (cal_rcvr_mask c) (cal_count c) (do_cal_time c) (fft_buf c).
Definition set_cal_rcvr (rcvr : Z) (c : cal) : cal :=
  mk_cal (cal_state c) rcvr (cal_rcvr_mask c) (cal_count c) (do_cal_time c) (fft_buf c).
Definition set_cal_mask (mask time : Z) (c : cal) : cal := mk_cal (cal_state c) (cal_rcvr c) mask (cal_count c) time (fft_buf c).
Definition set_cal_count (count : list Z) (c : cal) : cal :=
  mk_cal (cal_state c) (cal_rcvr c) (cal_rcvr_mask c) count (do_cal_time c) (fft_buf c).
Definition set_fft_buf (buf : option Z) (c : cal) : cal :=
  mk_cal (cal_state c) (cal_rcvr c) (cal_rcvr_mask c) (cal_count c) (do_cal_time c) buf.

(** [cal_rcvr_mask & (1 << rcvr_num)]. *)
Definition due (c : cal) (k : Z) : bool := negb ((cal_rcvr_mask c .& Z.shiftl 1 k) =? 0).

(** A new round when all receivers have had their turn. *)
(* src/rtl_hpsdr.c:888-890 rtlsdr_callback *)
Definition next_round (rcvrs_mask : Z) (c : cal) : cal :=
  set_cal_mask rcvrs_mask (if 1800 <=? do_cal_time c then 1800 else do_cal_time c + 180) c.

(** Where the callback of a receiver is.  Each dongle has its own thread, and
    what they share is read and written without a lock (the one of [cal_state] is
    held for one write): each read and each write is a step, between which the
    other receivers and the calibration thread can run. *)
Inductive cb_pc : Type :=
| Outside                                      (** not in the callback *)
| AskIdle | AskDue | Claim | Mark              (** [CAL_STATE_0] *)
| AskBlock | Keep | Kept                       (** [CAL_STATE_1] *)
| AskDone | Reset | Release | Recount          (** [CAL_STATE_3] *)
| AskRound | NewRound.

#[export] Instance cb_pc_eq_dec : EqDecision cb_pc.
Proof. solve_decision. Defined.

(** A step of the callback of receiver [k].  From [Kept] it returns: the block is
    not for the client. *)
(* src/rtl_hpsdr.c:839-893 rtlsdr_callback *)
Definition callback_cal (rcvrs_mask k : Z) (pc : cb_pc) : M cal cb_pc := fun c =>
  match pc with
  | Outside =>
      n ← arr_get (cal_count c) k;
      count ← arr_set (cal_count c) k (n + 1);
      Some (if (cal_rcvr c <? 0) || (cal_rcvr c =? k) then AskIdle else Outside, set_cal_count count c)
  | AskIdle => Some (if cal_state c =? CAL_STATE_0 then AskDue else AskBlock, c)
  | AskDue =>
      n ← arr_get (cal_count c) k;
      Some (if due c k && (do_cal_time c * 20 <? n) then Claim else AskRound, c)
  | Claim => Some (Mark, set_cal_rcvr k c)
  | Mark => Some (AskRound, set_cal_state k c)
  | AskBlock => Some (if cal_state c =? CAL_STATE_1 then Keep else AskDone, c)
  | Keep => Some (Kept, set_fft_buf (Some k) c)
  | Kept => Some (Outside, set_cal_state CAL_STATE_2 c)
  | AskDone => Some (if cal_state c =? CAL_STATE_3 then Reset else AskRound, c)
  | Reset => Some (Release, set_cal_state CAL_STATE_0 c)
  | Release => Some (Recount, set_cal_rcvr (-1) c)
  | Recount =>
      if due c k then Some (AskRound, c)
      else count ← arr_set (cal_count c) k 0; Some (AskRound, set_cal_count count c)
  | AskRound => Some (if cal_rcvr_mask c =? 0 then NewRound else Outside, c)
  | NewRound => Some (Outside, next_round rcvrs_mask c)
  end.

(** Where the calibration thread is: it waits for a receiver, takes it, has tuned
    it, waits for a block of its samples, works on it, is done with it. *)
Inductive cal_phase : Type := CalWait | CalTake | CalTuned (k : Z) | CalWaitBlock (k : Z) | CalBlock (k : Z) | CalDone (k : Z).

(** A step of the thread; a wait that is not over stays.  [CAL_STATE_EXIT], which is
    [MAX_RCVRS], is only set in code that is not compiled. *)
(* src/rtl_hpsdr.c:655-805 do_cal_thr_func *)
Definition thread_cal (ph : cal_phase) : M cal cal_phase := fun c =>
  match ph with
  | CalWait => Some (if cal_state c <? 0 then CalWait else CalTake, c)
  | CalTake => if (0 <=? cal_state c) && (cal_state c <? MAX_RCVRS) then Some (CalTuned (cal_state c), c) else None
  | CalTuned k => Some (CalWaitBlock k, set_cal_state CAL_STATE_1 c)
  | CalWaitBlock k => Some (if cal_state c =? CAL_STATE_1 then CalWaitBlock k else CalBlock k, c)
  | CalBlock k => Some (CalDone k, set_cal_mask (Z.lxor (cal_rcvr_mask c) (Z.shiftl 1 k)) (do_cal_time c) c)
  | CalDone k => Some (CalWait, set_cal_state CAL_STATE_3 c)
  end.

(** The threads of the receivers and the calibration thread. *)
(* src/rtl_hpsdr.c:101-103 rtl_read_thr *)
Record turns : Type := mk_turns {
  tn_cal : cal;
  tn_pcs : list cb_pc;
  tn_thread : cal_phase;
}.

(** Who runs next. *)
Inductive cal_event : Type := Receiver (k : nat) | CalThread.

Definition cal_exec (rcvrs_mask : Z) (e : cal_event) (s : turns) : option turns :=
  match e with
  | Receiver k =>
      pc ← tn_pcs s !! k;
      '(pc, c) ← callback_cal rcvrs_mask (Z.of_nat k) pc (tn_cal s);
      Some (mk_turns c (<[k := pc]> (tn_pcs s)) (tn_thread s))
  | CalThread =>
      '(ph, c) ← thread_cal (tn_thread s) (tn_cal s);
      Some (mk_turns c (tn_pcs s) ph)
  end.

Fixpoint cal_run (rcvrs_mask : Z) (es : list cal_event) (s : turns) : option turns :=
  match es with [] => Some s | e :: es => s ← cal_exec rcvrs_mask e s; cal_run rcvrs_mask es s end.

(** ** A block of samples *)

(** The offsets found so far, for a receiver, and what an offset may be. *)
(* src/rtl_hpsdr.c:633-636 do_cal_thr_func *)
Record offsets : Type := mk_offsets {
  freq_offset : Z;
  flip_offset : Z * Z;
  flip : Z;
  min_offset : Z;
  max_offset : Z;
  first_pass : bool;
  first_pass_mask : Z;
}.

Section block.
Context (oor : double -> Z) (fft_pass : Z -> list single -> list single).

Definition bin : single := fdiv (f_of_Z RTL_SAMPLE_RATE) (f_of_Z FFT_SIZE).
Definition var : single := f_of_Z 3000.

(** How many bins to each side of the middle are looked at. *)
Definition span : Z := d_to_i32 oor (fdiv var bin).

(** [n] and [fft_averaged] after the loop over the transforms. *)
(* src/rtl_hpsdr.c:705-725 do_cal_thr_func *)
Definition transforms (fft_averaged : list single) : Z * list single :=
  let count := (RTL_READ_COUNT / 2) / FFT_SIZE in
  (count, fold_left (fun a n => fft_pass n a) (zseq (Z.to_nat count)) fft_averaged).

(** The peak around the middle: [n] stays when there is none above 0. *)
(* src/rtl_hpsdr.c:728-739 do_cal_thr_func *)
Definition find_peak (fft_averaged : list single) (n : Z) : option Z :=
  '(_, n) ← for_arr (map (fun j => FFT_SIZE / 2 - span + j) (zseq (Z.to_nat (2 * span))))
    (fun i '(last, n) =>
       current ← arr_get fft_averaged ((i + FFT_SIZE / 2) mod FFT_SIZE);
       Some (if SFltb last current then (current, i) else (last, n)))
    (fzero, n);
  Some n.

(** [(int) current - mcb.calibrate]. *)
(* src/rtl_hpsdr.c:740-741 do_cal_thr_func *)
Definition peak_offset (calibrate n : Z) : Z :=
  i32 (d_to_i32 oor (fadd (f_of_Z calibrate) (fmul (f_of_Z (n - FFT_SIZE / 2)) bin)) - calibrate).

(** Offset [i] of receiver [k] becomes its setting, when it is plausible. *)
(* src/rtl_hpsdr.c:755-803 do_cal_thr_func *)
Definition update_offset (rcvrs_mask k i : Z) (o : offsets) : offsets :=
  let n := i32 (Z.abs (i32 (freq_offset o - i))) in
  if negb (i =? 0) && (n <? max_offset o) && (min_offset o <? n) && negb (i =? (flip_offset o).2) && negb (i =? (flip_offset o).1) then
    let '(flips, flip) :=
      if flip o =? 2 then (((flip_offset o).2, i), flip o)
      else (if flip o =? 0 then (i, (flip_offset o).2) else ((flip_offset o).1, i), flip o + 1) in
    let mask := if first_pass o then first_pass_mask o .| Z.shiftl 1 k else first_pass_mask o in
    if first_pass o && (mask =? rcvrs_mask) then mk_offsets i flips flip (d_to_i32 oor bin - 1) 200 false mask
    else mk_offsets i flips flip (min_offset o) (max_offset o) (first_pass o) mask
  else o.

(* src/rtl_hpsdr.c:705-803 do_cal_thr_func *)
Definition calibrate_block (rcvrs_mask k calibrate : Z) (fft_averaged : list single) (o : offsets) : option (list single * offsets) :=
  let '(n, averaged) := transforms fft_averaged in
  n ← find_peak averaged n;
  Some (averaged, update_offset rcvrs_mask k (peak_offset calibrate n) o).
End block.

Definition first_offsets (freq_offset : Z) : offsets := mk_offsets freq_offset (0, 0) 0 0 3000 true 0.
