(* ===== verification/HpsdrCalSpec.v ===== *)
(** * rtl_hpsdr.c: what calibration does

    While their callbacks do not overlap, the receivers take turns and none is left
    waiting; but two that overlap can both take the turn, and the transform is
    never run: the offsets stay as they are. *)

From S2P Require Import Prelude Arrays Double Single HpsdrPacket HpsdrConf HpsdrCal.
From Stdlib Require Import SpecFloat.

(** ** Turns *)

(** Before any block. *)
Definition cal_start : turns := mk_turns (mk_cal CAL_STATE_0 (-1) 0 (replicate 7 0) 5 None) (replicate 7 Outside) CalWait.

(** At most one receiver is in its callback. *)
Definition serial (s : turns) : Prop :=
  forall j k p q, tn_pcs s !! j = Some p -> tn_pcs s !! k = Some q -> p <> Outside -> q <> Outside -> j = k.

Section turns.
Context (rcvrs_mask : Z) (Hmask : 0 <= rcvrs_mask < 128).

(** A step of some thread after which there still is at most one. *)
Definition serial_step (s s' : turns) : Prop := exists e, cal_exec rcvrs_mask e s = Some s' /\ serial s'.

(** Nobody has a turn, and nobody is in a callback. *)
Definition quiet (s : turns) : Prop :=
  tn_thread s = CalWait /\ cal_state (tn_cal s) = CAL_STATE_0 /\ cal_rcvr (tn_cal s) = -1 /\ tn_pcs s = replicate 7 Outside.

(** ** The invariant *)

Definition waited (k : Z) (c : cal) : Prop := cal_rcvr c = k /\ 0 <= k < 7 /\ due c k = true.

(** Who is waited for, in each state of the thread. *)
Definition thread_ok (ph : cal_phase) (c : cal) : Prop :=
  match ph with
  | CalWait =>
      cal_state c = -1 /\ -1 <= cal_rcvr c < 7 \/
      cal_state c = cal_rcvr c /\ waited (cal_rcvr c) c \/
      cal_state c = -4 /\ 0 <= cal_rcvr c < 7
  | CalTake => cal_state c = cal_rcvr c /\ waited (cal_rcvr c) c
  | CalTuned k => cal_state c = k /\ waited k c
  | CalWaitBlock k => waited k c /\ (cal_state c = -2 \/ cal_state c = -3 /\ fft_buf c = Some k)
  | CalBlock k => waited k c /\ cal_state c = -3 /\ fft_buf c = Some k
  | CalDone k => cal_rcvr c = k /\ 0 <= k < 7 /\ cal_state c = -3
  end.

(** What the callback of receiver [k] relies on. *)
Definition pc_ok (ph : cal_phase) (c : cal) (k : Z) (p : cb_pc) : Prop :=
  match p with
  | Outside => cal_state c = -1 -> cal_rcvr c = -1
  | AskIdle | AskRound => cal_rcvr c = -1 /\ cal_state c = -1 \/ cal_rcvr c = k /\ cal_state c <> -1
  | AskDue | Recount => cal_rcvr c = -1 /\ cal_state c = -1
  | Claim => cal_rcvr c = -1 /\ cal_state c = -1 /\ due c k = true
  | Mark => cal_rcvr c = k /\ cal_state c = -1 /\ due c k = true
  | AskBlock | AskDone => cal_rcvr c = k /\ cal_state c <> -1
  | Keep => cal_rcvr c = k /\ cal_state c = -2 /\ ph = CalWaitBlock k
  | Kept => cal_rcvr c = k /\ cal_state c = -2 /\ ph = CalWaitBlock k /\ fft_buf c = Some k
  | Reset => cal_rcvr c = k /\ cal_state c = -4
  | Release => cal_rcvr c = k /\ cal_state c = -1
  | NewRound => (cal_rcvr c = -1 /\ cal_state c = -1 \/ cal_rcvr c = k /\ cal_state c <> -1) /\ cal_rcvr_mask c = 0
  end.

(** Receiver [k] is at [p], and the others are outside. *)
Record turn (s : turns) (k : nat) (p : cb_pc) : Prop := {
  turn_range : (k < 7)%nat;
  turn_pcs : tn_pcs s = <[k := p]> (replicate 7 Outside);
  turn_count : length (cal_count (tn_cal s)) = 7%nat;
  turn_mask : 0 <= cal_rcvr_mask (tn_cal s) < 128;
  turn_thread : thread_ok (tn_thread s) (tn_cal s);
  turn_pc : pc_ok (tn_thread s) (tn_cal s) (Z.of_nat k) p;
}.

(** A mask and the bit of a receiver. *)
Lemma mask_toggled m k : 0 <= m < 128 -> 0 <= k < 7 -> 0 <= Z.lxor m (Z.shiftl 1 k) < 128.
Proof.
  intros Hm Hk.
  pose proof (zseq_all (fun m => forallb (fun k => (0 <=? Z.lxor m (Z.shiftl 1 k)) && (Z.lxor m (Z.shiftl 1 k) <? 128)) (zseq 7)) 128
    ltac:(vm_compute; reflexivity) m ltac:(lia)) as H.
  pose proof (zseq_all _ 7 H k ltac:(lia)) as Hb. cbv beta in Hb. lia.
Qed.

Lemma due_mask c k : due c k = true -> cal_rcvr_mask c <> 0.
Proof. unfold due. intros H E. rewrite E, Z.land_0_l in H. done. Qed.

Lemma turn_lookup s k p : turn s k p -> tn_pcs s !! k = Some p.
Proof. intros H. rewrite (turn_pcs _ _ _ H). apply list_lookup_insert_eq. rewrite length_replicate. apply (turn_range _ _ _ H). Qed.

Lemma turn_others s k p j : turn s k p -> (j < 7)%nat -> j <> k -> tn_pcs s !! j = Some Outside.
Proof. intros H Hj Hne. rewrite (turn_pcs _ _ _ H). rewrite list_lookup_insert_ne by done. by apply lookup_replicate_2. Qed.

Ltac turn_goal := intros; first [done|lia|congruence|split; turn_goal|left; turn_goal|right; turn_goal].

Ltac turn_solve :=
  try clear Hmask;
  repeat match goal with
  | H : forall p c, length _ = _ -> _ |- _ => clear H
  end;
  unfold thread_ok, pc_ok, waited, due in *; destruct (tn_cal _); cbn in *;
  unfold CAL_STATE_0, CAL_STATE_1, CAL_STATE_2, CAL_STATE_3 in *;
  repeat match goal with
  | |- context [if ?b then _ else _] => destruct b eqn:?
  | |- context [match tn_thread ?s with _ => _ end] => destruct (tn_thread s) eqn:?
  | H : context [match tn_thread ?s with _ => _ end] |- _ => destruct (tn_thread s) eqn:?
  end;
  rewrite ?andb_true_iff, ?andb_false_iff in *; repeat match goal with H : _ /\ _ |- _ => destruct H | H : _ \/ _ |- _ => destruct H end; subst; rewrite ?Z.land_0_l in *; turn_goal.

(** A step of the receiver that is in its callback, or enters it. *)
Lemma callback_turn s k p :
  turn s k p -> exists p' c', callback_cal rcvrs_mask (Z.of_nat k) p (tn_cal s) = Some (p', c') /\
    turn (mk_turns c' (<[k := p']> (tn_pcs s)) (tn_thread s)) k p'.
Proof.
  intros [Hk Hpcs L Hm Ht Hp].
  assert (forall p' c', length (cal_count c') = 7%nat -> 0 <= cal_rcvr_mask c' < 128 -> thread_ok (tn_thread s) c' ->
    pc_ok (tn_thread s) c' (Z.of_nat k) p' -> turn (mk_turns c' (<[k := p']> (tn_pcs s)) (tn_thread s)) k p') as Hmk.
  { intros p' c' H1 H2 H3 H4. constructor; cbn; [done| |done..]. by rewrite Hpcs, list_insert_insert_eq. }
  destruct p; cbn [callback_cal].
  - destruct (arr_get_ok (cal_count (tn_cal s)) (Z.of_nat k)) as [n ->]; [lia|]. cbn [mbind option_bind].
    destruct (arr_set_spec (cal_count (tn_cal s)) (Z.of_nat k) (n + 1)) as (count & -> & L1 & _); [lia|]. cbn [mbind option_bind].
    eexists _, _. split; [reflexivity|]. apply Hmk; [cbn; congruence|done|by destruct (tn_thread s)|].
    destruct (Z.ltb_spec (cal_rcvr (tn_cal s)) 0), (Z.eqb_spec (cal_rcvr (tn_cal s)) (Z.of_nat k)); turn_solve.
  - eexists _, _. split; [reflexivity|]. apply Hmk; [done|done|done|]. turn_solve.
  - destruct (arr_get_ok (cal_count (tn_cal s)) (Z.of_nat k)) as [n ->]; [lia|]. cbn [mbind option_bind].
    eexists _, _. split; [reflexivity|]. apply Hmk; [done|done|done|]. turn_solve.
  - eexists _, _. split; [reflexivity|]. apply Hmk; [done|done| |]; turn_solve.
  - eexists _, _. split; [reflexivity|]. apply Hmk; [done|done| |]; turn_solve.
  - eexists _, _. split; [reflexivity|]. apply Hmk; [done|done|done|]. turn_solve.
  - eexists _, _. split; [reflexivity|]. apply Hmk; [done|done| |]; turn_solve.
  - eexists _, _. split; [reflexivity|]. apply Hmk; [done|done| |]; turn_solve.
  - eexists _, _. split; [reflexivity|]. apply Hmk; [done|done|done|]. turn_solve.
  - eexists _, _. split; [reflexivity|]. apply Hmk; [done|done| |]; turn_solve.
  - eexists _, _. split; [reflexivity|]. apply Hmk; [done|done| |]; turn_solve.
  - destruct (due (tn_cal s) (Z.of_nat k)); [eexists _, _; split; [reflexivity|]; apply Hmk; [done|done|done|]; turn_solve|].
    destruct (arr_set_spec (cal_count (tn_cal s)) (Z.of_nat k) 0) as (count & -> & L1 & _); [lia|]. cbn [mbind option_bind].
    eexists _, _. split; [reflexivity|]. apply Hmk; [cbn; congruence|done|by destruct (tn_thread s)|]. turn_solve.
  - eexists _, _. split; [reflexivity|]. apply Hmk; [done|done|done|]. turn_solve.
  - eexists _, _. split; [reflexivity|]. apply Hmk; [done|done| |]; turn_solve.
Qed.

(** A step of the calibration thread. *)
Lemma thread_turn s k p :
  turn s k p -> exists ph c', thread_cal (tn_thread s) (tn_cal s) = Some (ph, c') /\ turn (mk_turns c' (tn_pcs s) ph) k p.
Proof.
  intros [Hk Hpcs L Hm Ht Hp].
  assert (forall ph c', length (cal_count c') = 7%nat -> 0 <= cal_rcvr_mask c' < 128 -> thread_ok ph c' ->
    pc_ok ph c' (Z.of_nat k) p -> turn (mk_turns c' (tn_pcs s) ph) k p) as Hmk by (intros; by constructor).
  destruct (tn_thread s) as [| |k'|k'|k'|k'] eqn:Eth; cbn [thread_cal].
  - eexists _, _. split; [reflexivity|]. apply Hmk; [done|done| |]; destruct p; turn_solve.
  - replace ((0 <=? cal_state (tn_cal s)) && (cal_state (tn_cal s) <? MAX_RCVRS)) with true by (cbn in Ht; unfold waited, MAX_RCVRS in *; lia).
    eexists _, _. split; [reflexivity|]. apply Hmk; [done|done| |]; destruct p; turn_solve.
  - eexists _, _. split; [reflexivity|]. apply Hmk; [done|done| |]; destruct p; turn_solve.
  - eexists _, _. split; [reflexivity|]. apply Hmk; [done|done| |]; destruct p; turn_solve.
  - eexists _, _. split; [reflexivity|]. apply Hmk; [done|apply mask_toggled; turn_solve| |]; destruct p; turn_solve.
  - eexists _, _. split; [reflexivity|]. apply Hmk; [done|done| |]; destruct p; turn_solve.
Qed.

(** *** Serial steps *)

Lemma turn_any s k j : turn s k Outside -> (j < 7)%nat -> turn s j Outside.
Proof.
  intros [Hk Hpcs L Hm Ht Hp] Hj. constructor; [done| |done..]. rewrite Hpcs.
  rewrite !list_insert_id by (by apply lookup_replicate_2). done.
Qed.

Lemma turn_serial s k p : turn s k p -> serial s.
Proof.
  intros Ht. assert (forall j q, tn_pcs s !! j = Some q -> q <> Outside -> j = k) as H; [|intros i j q r Hi Hj Hq Hr; by rewrite (H i q), (H j r)].
  intros j q Hj Hq. destruct (decide (j = k)) as [|Hne]; [done|]. assert (j < 7)%nat as Hlt.
  { apply lookup_lt_Some in Hj. by rewrite (turn_pcs _ _ _ Ht), length_insert, length_replicate in Hj. }
  rewrite (turn_others s k p j Ht Hlt Hne) in Hj. by injection Hj as <-.
Qed.

(** A receiver whose turn it is not, while another one is in its callback. *)
Lemma other_turn s k p j q c' :
  turn s k p -> p <> Outside -> (j < 7)%nat -> j <> k -> callback_cal rcvrs_mask (Z.of_nat j) Outside (tn_cal s) = Some (q, c') ->
  serial (mk_turns c' (<[j := q]> (tn_pcs s)) (tn_thread s)) -> turn (mk_turns c' (<[j := q]> (tn_pcs s)) (tn_thread s)) k p.
Proof.
  intros Ht Hp Hj Hne E Hs. pose proof Ht as [Hk Hpcs L Hm Hth Hpc].
  cbn [callback_cal] in E. destruct (arr_get (cal_count (tn_cal s)) (Z.of_nat j)) as [n|]; [|done]. cbn [mbind option_bind] in E.
  destruct (arr_set_spec (cal_count (tn_cal s)) (Z.of_nat j) (n + 1)) as (count & E' & L1 & _); [lia|]. rewrite E' in E. cbn [mbind option_bind] in E.
  injection E as Eq <-. assert (tn_pcs s !! j = Some Outside) as Ej by (by apply (turn_others s k p)).
  assert (q = Outside) as ->.
  { destruct (decide (q = Outside)) as [|Hq]; [done|]. exfalso. apply Hne. apply (Hs j k q p); cbn [tn_pcs]; [| |done|done].
    - apply list_lookup_insert_eq. by eapply lookup_lt_Some.
    - rewrite list_lookup_insert_ne by done. exact (turn_lookup _ _ _ Ht). }
  rewrite list_insert_id by done. constructor; cbn; [done|done|congruence|done|by destruct (tn_thread s)|by destruct p].
Qed.

Lemma serial_turn s s' : (exists k p, turn s k p) -> serial_step s s' -> exists k p, turn s' k p.
Proof.
  intros (k & p & Ht) ([j|] & E & Hs); cbn [cal_exec] in E.
  - destruct (tn_pcs s !! j) as [q|] eqn:Ej; [|done]. cbn [mbind option_bind] in E.
    assert (j < 7)%nat as Hj by (apply lookup_lt_Some in Ej; by rewrite (turn_pcs _ _ _ Ht), length_insert, length_replicate in Ej).
    assert (turn s j q -> exists k p, turn s' k p) as Hown.
    { intros Hq. destruct (callback_turn s j q Hq) as (q' & c' & E' & Hq'). rewrite E' in E. cbn [mbind option_bind] in E. injection E as <-. eauto. }
    destruct (decide (j = k)) as [->|Hne]; [rewrite (turn_lookup _ _ _ Ht) in Ej; injection Ej as ->; by apply Hown|].
    rewrite (turn_others s k p j Ht Hj Hne) in Ej. injection Ej as <-.
    destruct (decide (p = Outside)) as [->|Hp]; [apply Hown; by apply (turn_any s k)|].
    destruct (callback_cal rcvrs_mask (Z.of_nat j) Outside (tn_cal s)) as [[q c']|] eqn:Ec; [|done]. cbn [mbind option_bind] in E.
    injection E as <-. exists k, p. by apply other_turn.
  - destruct (thread_turn s k p Ht) as (ph & c' & E' & Ht'). rewrite E' in E. cbn [mbind option_bind] in E. injection E as <-. eauto.
Qed.

Lemma start_turn : turn cal_start 0 Outside.
Proof. constructor; [lia|done|done|done| |done]. left. split; [done|cbn; lia]. Qed.

Lemma reachable_turn s : rtc serial_step cal_start s -> exists k p, turn s k p.
Proof.
  revert s. apply (rtc_ind_r (fun s => exists k p, turn s k p)); [exists 0%nat, Outside; apply start_turn|].
  intros s s' _ Hs H. by apply (serial_turn s).
Qed.

Lemma exec_defined s k p e :
  turn s k p -> match e with Receiver j => (j < 7)%nat | CalThread => True end -> exists s', cal_exec rcvrs_mask e s = Some s'.
Proof.
  intros Ht He. destruct e as [j|]; cbn [cal_exec].
  - destruct (decide (j = k)) as [->|Hne].
    + rewrite (turn_lookup _ _ _ Ht). destruct (callback_turn s k p Ht) as (q & c' & E & _). cbn [mbind option_bind]. rewrite E. cbn [mbind option_bind]. eauto.
    + rewrite (turn_others s k p j Ht He Hne). cbn [mbind option_bind callback_cal]. pose proof (turn_count _ _ _ Ht).
      destruct (arr_get_ok (cal_count (tn_cal s)) (Z.of_nat j)) as [n ->]; [lia|]. cbn [mbind option_bind].
      destruct (arr_set_spec (cal_count (tn_cal s)) (Z.of_nat j) (n + 1)) as (count & -> & _); [lia|]. cbn [mbind option_bind]. eauto.
  - destruct (thread_turn s k p Ht) as (ph & c' & -> & _). cbn [mbind option_bind]. eauto.
Qed.

(** ** A turn can be brought to its end *)

#[local] Instance cal_phase_eq_dec : EqDecision cal_phase.
Proof. solve_decision. Defined.

#[local] Instance quiet_dec s : Decision (quiet s).
Proof. unfold quiet. apply _. Defined.

(** How far it is, when the callback is at [p]. *)
Definition rank (ph : cal_phase) (c : cal) (p : cb_pc) : Z :=
  let out := match p with AskIdle => 5 | AskBlock => 4 | AskDone => 3 | AskRound => 2 | NewRound => 1 | _ => 0 end in
  if cal_state c =? -1 then
    match p with AskIdle => 60 | AskDue => 59 | Claim => 58 | Mark => 57 | Release => 5 | Recount => 4 | AskRound => 3 | NewRound => 2 | _ => 0 end
  else if 0 <=? cal_state c then match ph with CalWait => 45 | CalTake => 44 | _ => 43 end + out
  else if cal_state c =? -2 then
    30 + match p with AskDone => 7 | AskRound => 6 | NewRound => 5 | Outside => 4 | AskIdle => 3 | AskBlock => 2 | Keep => 1 | _ => 0 end
  else if cal_state c =? -3 then match ph with CalWaitBlock _ => 20 | CalBlock _ => 19 | _ => 18 end + out
  else 6 + match p with AskRound => 6 | NewRound => 5 | Outside => 4 | AskIdle => 3 | AskBlock => 2 | AskDone => 1 | _ => 0 end.

Ltac rank_solve :=
  try clear Hmask; unfold thread_ok, pc_ok, waited, due, rank in *; destruct (tn_cal _); cbn in *;
  unfold CAL_STATE_0, CAL_STATE_1, CAL_STATE_2, CAL_STATE_3 in *;
  repeat match goal with H : _ /\ _ |- _ => destruct H | H : _ \/ _ |- _ => destruct H end; subst; try lia;
  repeat match goal with
  | |- context [if ?b then _ else _] => destruct b eqn:?
  | |- context [match tn_thread ?s with _ => _ end] => destruct (tn_thread s) eqn:?
  | H : context [match tn_thread ?s with _ => _ end] |- _ => destruct (tn_thread s) eqn:?
  end; cbn; try lia; try congruence.

Lemma callback_rank s k p p' c' :
  turn s k p -> (p = Outside -> cal_rcvr (tn_cal s) = Z.of_nat k /\ (cal_state (tn_cal s) = -2 \/ cal_state (tn_cal s) = -4)) ->
  callback_cal rcvrs_mask (Z.of_nat k) p (tn_cal s) = Some (p', c') -> rank (tn_thread s) c' p' < rank (tn_thread s) (tn_cal s) p.
Proof.
  intros [Hk Hpcs L Hm Ht Hp] Hout E. destruct p; cbn [callback_cal] in E.
  1: { specialize (Hout eq_refl) as [Er Est].
    destruct (arr_get_ok (cal_count (tn_cal s)) (Z.of_nat k)) as [n Hn]; [lia|]. rewrite Hn in E. cbn [mbind option_bind] in E.
    destruct (arr_set_spec (cal_count (tn_cal s)) (Z.of_nat k) (n + 1)) as (count & Hc & _); [lia|]. rewrite Hc in E. cbn [mbind option_bind] in E.
    injection E as <- <-. rewrite Er, Z.eqb_refl, orb_true_r. rank_solve. }
  all: repeat match type of E with
    | context [arr_get (cal_count ?c) ?k] => destruct (arr_get (cal_count c) k); [|done]; cbn [mbind option_bind] in E
    | context [if due ?c ?k then _ else _] => destruct (due c k) eqn:?
    | context [arr_set (cal_count ?c) ?k ?v] => destruct (arr_set (cal_count c) k v); [|done]; cbn [mbind option_bind] in E
    end; injection E as <- <-; clear Hout; rank_solve.
Qed.

(** The thread, when it does not wait. *)
Lemma thread_rank s k ph c' :
  turn s k Outside -> 0 <= cal_state (tn_cal s) \/ cal_state (tn_cal s) = -3 ->
  thread_cal (tn_thread s) (tn_cal s) = Some (ph, c') -> rank ph c' Outside < rank (tn_thread s) (tn_cal s) Outside.
Proof.
  intros [Hk Hpcs L Hm Ht Hp] Hst E. destruct (tn_thread s) as [| |k'|k'|k'|k'] eqn:Eth; cbn [thread_cal] in E;
    try (destruct ((0 <=? cal_state (tn_cal s)) && (cal_state (tn_cal s) <? MAX_RCVRS)); [|done]);
    injection E as <- <-; rank_solve.
Qed.

Lemma turn_next s k p :
  turn s k p -> ~ quiet s -> exists s' k' p', serial_step s s' /\ turn s' k' p' /\
    rank (tn_thread s') (tn_cal s') p' < rank (tn_thread s) (tn_cal s) p.
Proof.
  intros Ht Hq.
  assert (forall j q, turn s j q ->
    (q = Outside -> cal_rcvr (tn_cal s) = Z.of_nat j /\ (cal_state (tn_cal s) = -2 \/ cal_state (tn_cal s) = -4)) ->
    exists s' k' p', serial_step s s' /\ turn s' k' p' /\ rank (tn_thread s') (tn_cal s') p' < rank (tn_thread s) (tn_cal s) q) as Hcb.
  { intros j q Htj Hq'. destruct (callback_turn s j q Htj) as (q' & c' & E & Htj').
    eexists _, j, q'. split; [|split; [exact Htj'|by apply (callback_rank s j q q' c')]].
    exists (Receiver j). split; [|by eapply turn_serial]. cbn [cal_exec]. rewrite (turn_lookup _ _ _ Htj). cbn [mbind option_bind]. by rewrite E. }
  destruct (decide (p = Outside)) as [->|Hp]; [|by apply (Hcb k p)].
  destruct (decide (0 <= cal_state (tn_cal s) \/ cal_state (tn_cal s) = -3)) as [Hst|Hst].
  - destruct (thread_turn s k Outside Ht) as (ph & c' & E & Ht'). eexists _, k, Outside.
    split; [|split; [exact Ht'|by apply (thread_rank s k ph c')]].
    exists CalThread. split; [|by eapply turn_serial]. cbn [cal_exec]. by rewrite E.
  - assert (0 <= cal_rcvr (tn_cal s) < 7 /\ (cal_state (tn_cal s) = -2 \/ cal_state (tn_cal s) = -4)) as [Hr Hst'].
    { pose proof (turn_thread _ _ _ Ht) as Hth. pose proof (turn_pc _ _ _ Ht) as Hpc. cbn in Hpc. unfold quiet in Hq.
      rewrite (turn_pcs _ _ _ Ht), list_insert_id in Hq by (apply lookup_replicate_2, (turn_range _ _ _ Ht)).
      unfold thread_ok, waited in Hth. destruct (tn_thread s) eqn:Eth; unfold CAL_STATE_0 in *; try lia.
      destruct Hth as [[E _]|[|]]; [|lia|lia]. exfalso. apply Hq. auto. }
    destruct (Hcb (Z.to_nat (cal_rcvr (tn_cal s))) Outside) as (s' & k' & p' & H); [apply (turn_any s k); [done|lia]| |by eauto].
    intros _. split; [lia|done].
Qed.

Lemma rank_nonneg ph c p : 0 <= rank ph c p.
Proof.
  unfold rank. repeat match goal with |- context [if ?b then _ else _] => destruct b end; destruct ph, p; lia.
Qed.

Lemma turn_ends s k p : turn s k p -> exists s', rtc serial_step s s' /\ quiet s'.
Proof.
  remember (Z.to_nat (rank (tn_thread s) (tn_cal s) p)) as n eqn:En. revert s k p En. induction n as [n IH] using lt_wf_ind.
  intros s k p -> Ht. destruct (decide (quiet s)) as [Hq|Hq]; [by exists s|].
  destruct (turn_next s k p Ht Hq) as (s' & k' & p' & Hs & Ht' & Hlt).
  destruct (IH (Z.to_nat (rank (tn_thread s') (tn_cal s') p')) ltac:(pose proof (rank_nonneg (tn_thread s') (tn_cal s') p'); lia) s' k' p' eq_refl Ht')
    as (s2 & Hr & Hq2).
  exists s2. split; [|done]. by eapply rtc_l.
Qed.


(** C35: calibration by turns, for any order of the steps of the callbacks of the
    receivers and of the calibration thread in which no two receivers are in
    their callbacks at once (the callbacks test and set [cal_rcvr] and
    [cal_state] without a lock: [turns_collide] shows two that are; with one
    dongle there are none, [one_receiver]).  Only a receiver that is due gets a
    turn; a block is only kept from the receiver whose turn it is, and the thread
    works on no other; nothing undefined is done; and no state is a dead end: the
    turn can always be brought to its end, to where the next receiver is
    chosen. *)
Theorem calibration_turns (s : turns) :
  rtc serial_step cal_start s ->
  (0 <= cal_state (tn_cal s) -> due (tn_cal s) (cal_state (tn_cal s)) = true) /\
  (forall k, tn_pcs s !! k = Some Keep \/ tn_pcs s !! k = Some Kept -> tn_thread s = CalWaitBlock (Z.of_nat k)) /\
  (forall k, tn_thread s = CalBlock k -> fft_buf (tn_cal s) = Some k) /\
  (forall e, match e with Receiver k => (k < 7)%nat | CalThread => True end -> exists s', cal_exec rcvrs_mask e s = Some s') /\
  exists s', rtc serial_step s s' /\ quiet s'.
Proof.
  intros Hr. destruct (reachable_turn s Hr) as (k & p & Ht). split_and!; [| | |by intros; eapply exec_defined|by eapply turn_ends].
  - pose proof (turn_thread _ _ _ Ht) as Hth. unfold thread_ok, waited in Hth. intros Hst.
    destruct (tn_thread s); [destruct Hth as [|[(E & _ & _ & Hd)|]]; [lia| |lia]| | | | |]; try lia.
    + by rewrite E.
    + destruct Hth as (E & _ & _ & Hd). by rewrite E.
    + destruct Hth as (E & _ & _ & Hd). by rewrite E.
  - intros j Hj. pose proof (turn_pc _ _ _ Ht) as Hpc. pose proof (turn_lookup _ _ _ Ht) as Hk.
    assert (j = k) as ->.
    { pose proof (turn_serial _ _ _ Ht) as Hser. destruct (decide (j = k)) as [|Hne]; [done|]. exfalso.
      assert (j < 7)%nat as Hlt by (destruct Hj as [Hj|Hj]; apply lookup_lt_Some in Hj;
        by rewrite (turn_pcs _ _ _ Ht), length_insert, length_replicate in Hj).
      rewrite (turn_others s k p j Ht Hlt Hne) in Hj. by destruct Hj. }
    rewrite Hk in Hj. by destruct Hj as [[= ->]|[= ->]]; apply Hpc.
  - intros j Hj. pose proof (turn_thread _ _ _ Ht) as Hth. rewrite Hj in Hth. apply Hth.
Qed.
End turns.

(** With one dongle, every run is serial. *)
Lemma one_receiver rcvrs_mask es s :
  Forall (fun e => e = Receiver 0 \/ e = CalThread) es -> cal_run rcvrs_mask es cal_start = Some s -> rtc (serial_step rcvrs_mask) cal_start s.
Proof.
  assert (forall s0 p, tn_pcs s0 = <[0%nat := p]> (replicate 7 Outside) -> serial s0) as Hser.
  { intros s0 p E [|j] [|k] q r; rewrite E; cbn; [done| | |]; intros Hj Hk Hq Hr; exfalso.
    - apply lookup_replicate_1 with (n := 6%nat) in Hk as [-> _]. done.
    - apply lookup_replicate_1 with (n := 6%nat) in Hj as [-> _]. done.
    - apply lookup_replicate_1 with (n := 6%nat) in Hj as [-> _]. done. }
  intros Hes. assert (exists p, tn_pcs cal_start = <[0%nat := p]> (replicate 7 Outside)) as Hp by by exists Outside.
  revert Hp. generalize cal_start. induction Hes as [|e es He Hes IH]; intros s0 [p Hp] Hr; cbn [cal_run] in Hr; [injection Hr as ->; done|].
  destruct (cal_exec rcvrs_mask e s0) as [s1|] eqn:E; [|done]. cbn [mbind option_bind] in Hr.
  assert (exists p1, tn_pcs s1 = <[0%nat := p1]> (replicate 7 Outside)) as [p1 Hp1].
  { destruct He as [-> | ->]; cbn [cal_exec] in E.
    - rewrite Hp in E. cbn [mbind option_bind] in E.
      change ((<[0%nat := p]> (replicate 7 Outside)) !! 0%nat) with (Some p) in E. cbn [mbind option_bind] in E.
      destruct (callback_cal _ _ _ _) as [[q c']|]; [|done]. cbn [mbind option_bind] in E. injection E as <-. by exists q.
    - destruct (thread_cal _ _) as [[ph c']|]; [|done]. cbn [mbind option_bind] in E. injection E as <-. by exists p. }
  eapply rtc_l; [|by apply (IH s1); [exists p1|]]. exists e. split; [done|by apply (Hser s1 p1)].
Qed.

(** [n] blocks of receiver [k] while it is not chosen: four steps each. *)
Definition counting (k n : nat) : list cal_event := Nat.iter n (app (replicate 4 (Receiver k))) [].

(** The first receiver calls back until it is due, the thread takes it, and has
    a block of it. *)
Definition first_turn : list cal_event :=
  Receiver 0 :: counting 0 3700 ++ replicate 6 (Receiver 0) ++ replicate 3 CalThread ++ replicate 5 (Receiver 0) ++ [CalThread].

Lemma first_turn_run : exists s, cal_run 1 first_turn cal_start = Some s /\ tn_thread s = CalBlock 0 /\ cal_rcvr (tn_cal s) = 0.
Proof. eexists. split; [vm_compute; reflexivity|]. split; reflexivity. Qed.

Lemma first_turn_events : Forall (fun e => e = Receiver 0 \/ e = CalThread) first_turn.
Proof.
  assert (forall n, Forall (fun e => e = Receiver 0 \/ e = CalThread) (counting 0 n)) as Hc.
  { intros n. induction n as [|n IH]; cbn; [by constructor|]. repeat (constructor; [by left|]). exact IH. }
  unfold first_turn. constructor; [by left|]. apply Forall_app. split; [apply Hc|]. cbn. repeat (constructor; [by auto|]). constructor.
Qed.

Lemma calibration_turns_witness :
  exists s s', rtc (serial_step 1) cal_start s /\ tn_thread s = CalBlock 0 /\ fft_buf (tn_cal s) = Some 0 /\ rtc (serial_step 1) s s' /\ quiet s'.
Proof.
  destruct first_turn_run as (s & E & Hth & _). pose proof (one_receiver 1 _ s first_turn_events E) as Hr.
  destruct (calibration_turns 1 ltac:(lia) s Hr) as (_ & _ & Hbuf & _ & s' & Hend & Hq).
  exists s, s'. split; [exact Hr|]. split; [exact Hth|]. split; [exact (Hbuf 0 Hth)|]. split; [exact Hend|exact Hq].
Defined.

(** Two receivers both find [cal_rcvr] below 0: the first one gets the turn, the
    second one overwrites it, and the thread goes on with a block that nobody has
    kept. *)
Lemma turns_collide :
  exists es s, cal_run 3 es cal_start = Some s /\
    tn_thread s = CalBlock 0 /\ cal_rcvr (tn_cal s) = 1 /\ cal_state (tn_cal s) = 1 /\ fft_buf (tn_cal s) = None.
Proof.
  exists (Receiver 0 :: counting 0 3700 ++ counting 1 3700 ++ [Receiver 0; Receiver 1; Receiver 0; Receiver 1; Receiver 0; Receiver 1;
    Receiver 0; Receiver 0; CalThread; CalThread; CalThread; Receiver 1; Receiver 1; CalThread]).
  eexists. split; [vm_compute; reflexivity|]. split_and!; reflexivity.
Qed.

(** A callback between the two last steps of the thread begins the next round:
    the receiver is still due when its turn ends, and its count is not reset. *)
Lemma round_begins_early :
  exists s, rtc (serial_step 1) cal_start s /\ cal_state (tn_cal s) = CAL_STATE_0 /\ cal_rcvr (tn_cal s) = -1 /\
    due (tn_cal s) 0 = true /\ arr_get (cal_count (tn_cal s)) 0 = Some 3704.
Proof.
  destruct (cal_run 1 (first_turn ++ [CalThread] ++ replicate 6 (Receiver 0) ++ [CalThread] ++ replicate 7 (Receiver 0)) cal_start) as [s|] eqn:E;
    [|vm_compute in E; discriminate].
  exists s. split.
  - apply (one_receiver 1 _ _) in E; [exact E|]. apply Forall_app. split; [apply first_turn_events|]. cbn. repeat (constructor; [by auto|]). constructor.
  - vm_compute in E. injection E as <-. by split_and!.
Qed.

(** ** The offset *)

Section block.
Context (oor : double -> Z) (fft_pass : Z -> list single -> list single).

Lemma span_128 : span oor = 128.
Proof. reflexivity. Qed.

(** A block has fewer samples than the transform: it is never run. *)
Lemma transforms_none averaged : transforms fft_pass averaged = (0, averaged).
Proof. reflexivity. Qed.

Definition silent (averaged : list single) : Prop :=
  forall i, 0 <= i < FFT_SIZE -> arr_get averaged i = Some fzero.

Lemma find_peak_silent averaged n : silent averaged -> find_peak oor averaged n = Some n.
Proof.
  intros Hs. unfold find_peak. generalize (map (fun j => FFT_SIZE / 2 - span oor + j) (zseq (Z.to_nat (2 * span oor)))). intros is_.
  induction is_ as [|i is_ IH]; [done|]. cbn [for_arr].
  rewrite Hs by (apply Z.mod_pos_bound; reflexivity). cbn [mbind option_bind]. exact IH.
Qed.

(** The frequencies that the documentation gives as examples. *)
Definition examples : list Z := [5000000; 10000000; 15000000; 20000000; 125000000; 124999700].

(** Whatever a dongle hears, a block leaves its offset, and there is nothing in
    [fft_averaged] for the next one. *)
Lemma calibration_never_updates rcvrs_mask k calibrate averaged o :
  calibrate ∈ examples -> silent averaged -> Z.abs (freq_offset o) <= 700000 -> max_offset o <= 3000 ->
  calibrate_block oor fft_pass rcvrs_mask k calibrate averaged o = Some (averaged, o).
Proof.
  intros Hc Hs Ho Hmax. unfold calibrate_block. rewrite transforms_none, find_peak_silent by done. cbn [mbind option_bind]. do 2 f_equal.
  assert (Z.abs (peak_offset oor calibrate 0 + 768000) <= 8) as Hp.
  { unfold examples in Hc. repeat (apply elem_of_cons in Hc as [->|Hc]; [vm_compute; done|]). by apply not_elem_of_nil in Hc. }
  unfold update_offset. rewrite (i32_small (freq_offset o - _)), i32_small by (unfold is_i32; lia).
  replace (Z.abs (freq_offset o - peak_offset oor calibrate 0) <? max_offset o) with false by lia. by rewrite andb_false_r.
Qed.
End block.
