(* ===== verification/RtlSdr.v ===== *)
(** * rtl_sdr.c and rtl_biast.c: recording, and the bias tee

    rtl_sdr sets up a dongle and writes what it delivers to a file, up to the
    number of samples asked for ([rtlsdr_callback], [sync_loop]); rtl_biast
    switches a line of the dongle.  The options are what getopt delivers; the
    file takes bytes until there is no more room. *)

From S2P Require Import Prelude Arrays RtlsdrI2c Double Usb UsbSpec Device Repeater DeviceInv DeviceSession Enumerate.
From S2P Require Import Convenience.

Definition DEFAULT_SAMPLE_RATE := 2048000.
Definition DEFAULT_BUF_LENGTH := 16 * 16384.
Definition MINIMAL_BUF_LENGTH := 512.
Definition MAXIMAL_BUF_LENGTH := 256 * 16384.

(** ** Options *)

(* src/rtl_sdr.c:114-124 main *)
Record sdr_options : Type := mk_sdr_options {
  gain : Z;
  ppm_error : Z;
  direct_sampling : Z;
  sync_mode : Z;
  dev_index : Z;
  dev_given : Z;
  frequency : Z;
  samp_rate : Z;
  out_block_size : Z;
  opt_bytes_to_read : Z;
}.

Definition default_sdr : sdr_options := mk_sdr_options 0 0 0 0 0 0 100000000 DEFAULT_SAMPLE_RATE DEFAULT_BUF_LENGTH 0.

(** A size out of the range falls back to the default. *)
(* src/rtl_sdr.c:168-176 main *)
Definition checked_size (size : Z) : Z :=
  if (size <? MINIMAL_BUF_LENGTH) || (MAXIMAL_BUF_LENGTH <? size) then DEFAULT_BUF_LENGTH else size.

Section options.
Context `{libc} (oor : double -> Z) (b : usb_bus) (junk : list Z).

(** An option with its argument and the character before it in memory; the
    second component is false for an option that prints the usage and ends the
    program. *)
(* src/rtl_sdr.c:127-160 main *)
Definition sdr_option (opt : Z) (before : option Z) (optarg : list Z) (o : sdr_options) : option (sdr_options * bool) :=
  let 'mk_sdr_options g p d s i v f r z n := o in
  if opt =? 100 then Some (mk_sdr_options g p d s (verbose_device_search b junk optarg) 1 f r z n, true)
  else if opt =? 102 then x ← atofs before optarg; Some (mk_sdr_options g p d s i v (d_to_u32 oor x) r z n, true)
  else if opt =? 103 then Some (mk_sdr_options (d_to_i32 oor (dmul (atof optarg) (d_of_Z 10))) p d s i v f r z n, true)
  else if opt =? 115 then x ← atofs before optarg; Some (mk_sdr_options g p d s i v f (d_to_u32 oor x) z n, true)
  else if opt =? 112 then Some (mk_sdr_options g (atoi optarg) d s i v f r z n, true)
  else if opt =? 98 then Some (mk_sdr_options g p d s i v f r (d_to_u32 oor (atof optarg)) n, true)
  else if opt =? 110 then Some (mk_sdr_options g p d s i v f r z (u32 (d_to_u32 oor (atof optarg) * 2)), true)
  else if opt =? 83 then Some (mk_sdr_options g p d 1 i v f r z n, true)
  else if opt =? 68 then Some (mk_sdr_options g p 1 s i v f r z n, true)
  else Some (o, false).

(** The device that is opened, unless it is negative. *)
(* src/rtl_sdr.c:180-186 main *)
Definition sdr_device (o : sdr_options) : Z :=
  if dev_given o =? 0 then verbose_device_search b junk (chars "0") else dev_index o.
End options.

(** ** The dongle *)

(** Once it is open; what goes wrong is only printed. *)
(* src/rtl_sdr.c:203-239 main *)
Definition sdr_setup (o : sdr_options) : M rtlsdr_dev unit :=
  (if direct_sampling o =? 0 then mret 0 else verbose_direct_sampling 2);;
  verbose_set_sample_rate (samp_rate o);;
  verbose_set_frequency (frequency o);;
  (if gain o =? 0 then verbose_auto_gain
   else g ← nearest_gain (gain o); verbose_gain_set g);;
  verbose_ppm_set (ppm_error o);;
  verbose_reset_buffer;;
  mret tt.

(** rtl_biast, with the options [-b] and [-g], on an open device. *)
(* src/rtl_biast.c:84-100 main *)
Definition biast_session (gpio_pin bias_on : Z) : M rtlsdr_dev Z :=
  rtlsdr_set_bias_tee_gpio (u32 gpio_pin) (i32 bias_on);;
  rtlsdr_close false.

(** ** The recording *)

(** [bytes_to_read] is 0 for no end; [file] has the bytes written, [room] is
    left; [cancelled] says that rtlsdr_cancel_async was called. *)
(* src/rtl_sdr.c:42-44 bytes_to_read *)
Record recording : Type := mk_recording {
  do_exit : bool;
  bytes_to_read : Z;
  file : list Z;
  room : nat;
  cancelled : bool;
}.

(** fwrite of the C library: the number of bytes written. *)
Definition fwrite (bytes : list Z) (s : recording) : Z * recording :=
  let out := take (room s) bytes in
  (Z.of_nat (length out),
   mk_recording (do_exit s) (bytes_to_read s) (file s ++ out) (room s - length out) (cancelled s)).

Definition set_exit (s : recording) : recording := mk_recording true (bytes_to_read s) (file s) (room s) (cancelled s).
Definition set_cancelled (s : recording) : recording := mk_recording (do_exit s) (bytes_to_read s) (file s) (room s) true.
Definition set_to_read (n : Z) (s : recording) : recording := mk_recording (do_exit s) n (file s) (room s) (cancelled s).

(* src/rtl_sdr.c: rtlsdr_callback *)
Definition rtlsdr_callback (buf : list Z) (s : recording) : recording :=
  if do_exit s then s else
  let len := Z.of_nat (length buf) in
  let last := (0 <? bytes_to_read s) && (bytes_to_read s <? len) in
  let len := if last then bytes_to_read s else len in
  let s := if last then set_cancelled (set_exit s) else s in
  let '(n, s) := fwrite (take (Z.to_nat len) buf) s in
  let s := if n =? len then s else set_cancelled s in
  if 0 <? bytes_to_read s then set_to_read (u32 (bytes_to_read s - len)) s else s.

(** The callbacks of an asynchronous read. *)
Definition record_async (bufs : list (list Z)) (s : recording) : recording := fold_left (fun s buf => rtlsdr_callback buf s) bufs s.

(** The loop of the synchronous mode; a read delivers bytes or fails. *)
(* src/rtl_sdr.c:241-268 main *)
Fixpoint sync_loop (out_block_size : Z) (reads : list (option (list Z))) (s : recording) : recording :=
  match reads with
  | [] => s
  | None :: _ => s
  | Some buf :: reads =>
      if do_exit s then s else
      let n_read := Z.of_nat (length buf) in
      let last := (0 <? bytes_to_read s) && (bytes_to_read s <? n_read) in
      let n_read := if last then bytes_to_read s else n_read in
      let s := if last then set_exit s else s in
      let '(n, s) := fwrite (take (Z.to_nat n_read) buf) s in
      if negb (n =? n_read) then s
      else if n_read <? out_block_size then s
      else sync_loop out_block_size reads (if 0 <? bytes_to_read s then set_to_read (u32 (bytes_to_read s - n_read)) s else s)
  end.

(** ** What is recorded

    The file has the bytes that were asked for, except in the case of a whole
    number of blocks; the setup of the dongle is safe. *)

(** ** The file *)

Section recording.
Implicit Types (bufs : list (list Z)) (s : recording).

Lemma record_done bufs s : do_exit s = true -> record_async bufs s = s.
Proof.
  intros Hs. induction bufs as [|buf bufs IH]; [done|]. cbn [record_async fold_left] in *.
  unfold rtlsdr_callback at 2. by rewrite Hs.
Qed.

(** A callback that has room, for a whole block and for the last one. *)
Lemma callback_block buf s :
  do_exit s = false -> (length buf <= room s)%nat -> 0 <= bytes_to_read s < 2 ^ 32 ->
  bytes_to_read s = 0 \/ Z.of_nat (length buf) <= bytes_to_read s ->
  rtlsdr_callback buf s =
    mk_recording false (if bytes_to_read s =? 0 then 0 else bytes_to_read s - Z.of_nat (length buf)) (file s ++ buf)
      (room s - length buf) (cancelled s).
Proof.
  destruct s as [e n f r c]. cbn [do_exit room bytes_to_read file cancelled]. intros -> Hr Hn Hb. unfold rtlsdr_callback.
  cbn [do_exit bytes_to_read]. replace ((0 <? n) && (n <? Z.of_nat (length buf))) with false by lia.
  unfold fwrite. cbn [do_exit room bytes_to_read file cancelled]. rewrite Nat2Z.id, (take_ge buf (length buf)) by lia. rewrite take_ge by lia.
  rewrite Z.eqb_refl. cbn [bytes_to_read]. destruct (Z.ltb_spec 0 n).
  - unfold set_to_read. cbn. rewrite u32_small by (unfold is_u32; lia). by replace (n =? 0) with false by lia.
  - by assert (n = 0) as -> by lia.
Qed.

Lemma callback_last buf s :
  do_exit s = false -> (length buf <= room s)%nat -> 0 < bytes_to_read s < Z.of_nat (length buf) ->
  rtlsdr_callback buf s =
    mk_recording true 0 (file s ++ take (Z.to_nat (bytes_to_read s)) buf) (room s - Z.to_nat (bytes_to_read s)) true.
Proof.
  destruct s as [e n f r c]. cbn [do_exit room bytes_to_read file cancelled]. intros -> Hr Hn. unfold rtlsdr_callback.
  cbn [do_exit bytes_to_read]. replace ((0 <? n) && (n <? Z.of_nat (length buf))) with true by lia.
  unfold fwrite. cbn [set_cancelled set_exit do_exit room bytes_to_read file cancelled].
  rewrite (take_ge (take (Z.to_nat n) buf) r) by (rewrite length_take; lia). rewrite length_take.
  replace (Z.of_nat (Z.to_nat n `min` length buf)%nat) with n by lia.
  rewrite Z.eqb_refl. cbn [bytes_to_read]. replace (0 <? n) with true by lia.
  unfold set_to_read. cbn. rewrite Z.sub_diag. f_equal. lia.
Qed.

(** No number of whole blocks has [n] bytes. *)
Definition between (n : Z) bufs : Prop := forall k, Z.of_nat (length (concat (take k bufs))) <> n.

Lemma between_tail n buf bufs : between n (buf :: bufs) -> between (n - Z.of_nat (length buf)) bufs.
Proof. intros H k E. apply (H (S k)). cbn [take concat]. rewrite length_app. lia. Qed.

Lemma record_endless bufs : forall s,
  do_exit s = false -> bytes_to_read s = 0 -> (length (concat bufs) <= room s)%nat ->
  file (record_async bufs s) = file s ++ concat bufs /\ do_exit (record_async bufs s) = false.
Proof.
  induction bufs as [|buf bufs IH]; intros s He Hn Hr; [by rewrite app_nil_r|].
  cbn [concat] in *. rewrite length_app in Hr. cbn [record_async fold_left]. rewrite callback_block by (lia || done || (rewrite Hn; lia)).
  destruct (IH (mk_recording false (if bytes_to_read s =? 0 then 0 else bytes_to_read s - Z.of_nat (length buf)) (file s ++ buf)
    (room s - length buf) (cancelled s))) as [Hf Hd]; cbn; [done|by rewrite Hn|lia|].
  unfold record_async in *. rewrite Hf, Hd. cbn. by rewrite app_assoc.
Qed.

Lemma record_until bufs : forall s,
  do_exit s = false -> 0 < bytes_to_read s < 2 ^ 32 -> (length (concat bufs) <= room s)%nat -> between (bytes_to_read s) bufs ->
  file (record_async bufs s) = file s ++ take (Z.to_nat (bytes_to_read s)) (concat bufs) /\
  do_exit (record_async bufs s) = (bytes_to_read s <? Z.of_nat (length (concat bufs))).
Proof.
  induction bufs as [|buf bufs IH]; intros s He Hn Hr Hb.
  - cbn. rewrite take_nil, app_nil_r. split; [done|]. rewrite He. lia.
  - cbn [concat] in *. rewrite length_app in Hr. cbn [record_async fold_left]. fold (record_async bufs (rtlsdr_callback buf s)).
    pose proof (Hb 1%nat) as H1. cbn [take concat] in H1. rewrite take_0 in H1. cbn [concat] in H1. rewrite app_nil_r in H1.
    rewrite length_app. destruct (Z.ltb_spec (bytes_to_read s) (Z.of_nat (length buf))) as [Hl|Hl].
    + rewrite callback_last by (done || lia). rewrite record_done by done. cbn [file do_exit].
      split; [|lia]. by rewrite take_app_le by lia.
    + rewrite callback_block by (done || lia || (right; lia)). replace (bytes_to_read s =? 0) with false by lia.
      match goal with |- context [record_async bufs ?st] => destruct (IH st) as [-> ->] end; cbn; [done|lia|lia|by apply between_tail|].
      split; [|lia]. rewrite <- app_assoc. f_equal. rewrite take_app_ge by lia. do 2 f_equal. lia.
Qed.
End recording.

Lemma record_boundary bufs : forall s k,
  do_exit s = false -> 0 < bytes_to_read s < 2 ^ 32 -> (length (concat bufs) <= room s)%nat ->
  Z.of_nat (length (concat (take k bufs))) = bytes_to_read s ->
  file (record_async bufs s) = file s ++ concat bufs /\ do_exit (record_async bufs s) = false.
Proof.
  induction bufs as [|buf bufs IH]; intros s k He Hn Hr Hk; [rewrite take_nil in Hk; cbn in Hk; lia|].
  destruct k as [|k]; [rewrite take_0 in Hk; cbn in Hk; lia|]. cbn [take concat] in Hk. rewrite length_app in Hk.
  cbn [concat] in *. rewrite length_app in Hr. cbn [record_async fold_left]. fold (record_async bufs (rtlsdr_callback buf s)).
  rewrite callback_block by (done || lia || (right; lia)). replace (bytes_to_read s =? 0) with false by lia.
  rewrite app_assoc. destruct (Z.eqb_spec (bytes_to_read s) (Z.of_nat (length buf))) as [E|Hne].
  - match goal with |- context [record_async bufs ?st] => destruct (record_endless bufs st) as [-> ->] end; cbn; [done|lia|lia|done].
  - match goal with |- context [record_async bufs ?st] => destruct (IH st k) as [-> ->] end; cbn; [done|lia|lia|lia|done].
Qed.

(** The two modes of reading. *)
Lemma sync_async B bufs : forall s,
  Forall (fun buf => Z.of_nat (length buf) = B) bufs -> 0 <= bytes_to_read s < 2 ^ 32 -> (length (concat bufs) <= room s)%nat ->
  file (sync_loop B (map Some bufs) s) = file (record_async bufs s) /\
  do_exit (sync_loop B (map Some bufs) s) = do_exit (record_async bufs s).
Proof.
  induction bufs as [|buf bufs IH]; intros s HB Hn Hr; [done|]. apply Forall_cons in HB as [HB HBs].
  cbn [concat] in Hr. rewrite length_app in Hr. destruct (do_exit s) eqn:He; [by rewrite record_done; [cbn; rewrite He|]|].
  cbn [record_async fold_left]. fold (record_async bufs (rtlsdr_callback buf s)). cbn [map sync_loop]. rewrite He, HB.
  destruct ((0 <? bytes_to_read s) && (bytes_to_read s <? B)) eqn:Elast.
  - rewrite callback_last by (done || lia). rewrite record_done by done. unfold fwrite. cbn [set_exit do_exit bytes_to_read file room].
    rewrite (take_ge (take _ buf) (room s)) by (rewrite length_take; lia). rewrite length_take.
    replace (Z.of_nat _ =? bytes_to_read s) with true by lia. cbn [negb]. by replace (bytes_to_read s <? B) with true by lia.
  - rewrite callback_block by (done || lia). unfold fwrite. rewrite (take_ge buf (Z.to_nat B)), take_ge by lia. rewrite HB, Z.eqb_refl.
    cbn [negb]. rewrite Z.ltb_irrefl. cbn [bytes_to_read do_exit file room]. rewrite He.
    assert ((if 0 <? bytes_to_read s then set_to_read (u32 (bytes_to_read s - B)) (mk_recording false (bytes_to_read s) (file s ++ buf)
        (room s - length buf) (cancelled s)) else mk_recording false (bytes_to_read s) (file s ++ buf) (room s - length buf) (cancelled s)) =
      mk_recording false (if bytes_to_read s =? 0 then 0 else bytes_to_read s - B) (file s ++ buf) (room s - length buf) (cancelled s)) as ->.
    { destruct (Z.ltb_spec 0 (bytes_to_read s)).
      - unfold set_to_read. cbn. rewrite u32_small by (unfold is_u32; lia). by replace (bytes_to_read s =? 0) with false by lia.
      - by assert (bytes_to_read s = 0) as -> by lia. }
    apply IH; [done|cbn; destruct (Z.eqb_spec (bytes_to_read s) 0); lia|cbn; lia].
Qed.

(** C36: a recording with room in the file.  With a number of bytes asked for
    that is not the size of some whole blocks, the file has exactly those bytes
    and the program ends once there are more; without one, everything.  When the
    number is the size of some whole blocks, everything as well: the program goes
    on for ever.  The synchronous mode, with whole blocks, records the same. *)
Theorem recording_bytes (bufs : list (list Z)) (n : Z) (room : nat) :
  0 <= n < 2 ^ 32 -> (length (concat bufs) <= room)%nat ->
  let s0 := mk_recording false n [] room false in
  let s := record_async bufs s0 in
  (0 < n -> between n bufs ->
     file s = take (Z.to_nat n) (concat bufs) /\ do_exit s = (n <? Z.of_nat (length (concat bufs)))) /\
  (n = 0 \/ 0 < n /\ (exists k, Z.of_nat (length (concat (take k bufs))) = n) -> file s = concat bufs /\ do_exit s = false) /\
  forall B, Forall (fun buf => Z.of_nat (length buf) = B) bufs ->
    file (sync_loop B (map Some bufs) s0) = file s /\ do_exit (sync_loop B (map Some bufs) s0) = do_exit s.
Proof.
  intros Hn Hr s0 s. split_and!.
  - intros Hpos Hb. exact (record_until bufs s0 eq_refl ltac:(cbn; lia) Hr Hb).
  - intros [->|[Hpos [k Hk]]]; [by apply record_endless|]. by apply (record_boundary bufs s0 k); cbn; [|lia|..].
  - intros B HB. by apply sync_async.
Qed.

Lemma recording_bytes_witness :
  file (record_async [[1; 2; 3; 4]; [5; 6; 7; 8]] (mk_recording false 6 [] 100 false)) = [1; 2; 3; 4; 5; 6] /\
  do_exit (record_async [[1; 2; 3; 4]; [5; 6; 7; 8]] (mk_recording false 4 [] 100 false)) = false.
Proof.
  destruct (recording_bytes [[1; 2; 3; 4]; [5; 6; 7; 8]] 6 100) as [H _]; [lia|cbn; lia|].
  destruct (recording_bytes [[1; 2; 3; 4]; [5; 6; 7; 8]] 4 100) as (_ & H4 & _); [lia|cbn; lia|].
  split; [|by apply H4; right; split; [|exists 1%nat]].
  apply H; [lia|]. intros [|[|[|k]]]; cbn; lia.
Defined.

(** 131072 samples are the bytes of one block of the default size: the recording
    does not end. *)
Lemma one_block_never_ends bufs room :
  Forall (fun buf => Z.of_nat (length buf) = DEFAULT_BUF_LENGTH) bufs -> bufs <> [] -> (length (concat bufs) <= room)%nat ->
  file (record_async bufs (mk_recording false (131072 * 2) [] room false)) = concat bufs.
Proof.
  intros HB Hne Hr. destruct bufs as [|buf bufs]; [done|]. apply Forall_cons in HB as [HB _].
  refine (proj1 (record_boundary (buf :: bufs) (mk_recording false (131072 * 2) [] room false) 1 eq_refl _ Hr _)); [cbn; lia|].
  cbn [take concat]. rewrite take_0. cbn [concat]. by rewrite app_nil_r, HB.
Qed.

(** -n counts samples of two bytes: 2^31 of them are no end. *)
Lemma large_count_wraps (L : libc) oor b junk optarg before :
  atof optarg = d_of_Z (2 ^ 31) ->
  option_map (fun r => opt_bytes_to_read r.1) (sdr_option oor b junk 110 before optarg default_sdr) = Some 0.
Proof. intros E. cbn [sdr_option default_sdr Z.eqb Pos.eqb option_map fst opt_bytes_to_read]. rewrite E. reflexivity. Qed.

(** ** The dongle *)

#[local] Hint Resolve set_tuner_gain_ok set_tuner_gain_mode_ok direct_sampling_ok reset_buffer_ok : pres.

Lemma nearest_gain_ok g : preserves dev_ok (nearest_gain g).
Proof. unfold nearest_gain. solve_pres. Qed.

Lemma verbose_gain_set_ok g : preserves dev_ok (verbose_gain_set g).
Proof. unfold verbose_gain_set. solve_pres. Qed.

Lemma verbose_ppm_set_ok ppm : Z.abs ppm <= 20000 -> preserves dev_ok (verbose_ppm_set ppm).
Proof. intros H. unfold verbose_ppm_set. apply preserves_if; [apply preserves_ret|by apply freq_correction_ok]. Qed.

#[local] Hint Resolve nearest_gain_ok verbose_gain_set_ok verbose_ppm_set_ok : pres.

Lemma sdr_setup_ok o : Z.abs (ppm_error o) <= 20000 -> preserves dev_ok (sdr_setup o).
Proof.
  intros H. unfold sdr_setup, verbose_direct_sampling, verbose_set_sample_rate, verbose_set_frequency, verbose_auto_gain, verbose_reset_buffer.
  solve_pres.
Qed.

(** From an open device on, what keeps the invariant is safe. *)
Lemma opened_safe {A} (e : usb_env) (m p : string) (k : M rtlsdr_dev A) :
  preserves dev_ok k -> wp (open_device m p;; k) (fun _ d => disciplined (usb_log (dcore d))) (new_dev e).
Proof.
  intros Hk. apply wp_bind. eapply wp_mono; [|apply open_device_ok]. intros u d Hd.
  eapply wp_mono; [|by apply Hk]. intros x d' (s & _ & (_ & Hdis & _) & _). exact Hdis.
Qed.

(** The sessions of the two programs with their dongle, whatever fails. *)
Lemma programs_safe (e : usb_env) (m p : string) (o : sdr_options) (gpio_pin bias_on : Z) :
  (Z.abs (ppm_error o) <= 20000 -> wp (open_device m p;; sdr_setup o) (fun _ d => disciplined (usb_log (dcore d))) (new_dev e)) /\
  (0 <= gpio_pin < 8 -> wp (open_device m p;; biast_session gpio_pin bias_on) (fun _ d => disciplined (usb_log (dcore d))) (new_dev e)).
Proof.
  split; intros H; apply opened_safe; [by apply sdr_setup_ok|]. unfold biast_session.
  apply preserves_bind; [|intros _; apply close_ok]. apply bias_tee_gpio_ok. rewrite u32_small; [done|unfold is_u32; lia].
Qed.
