(* ===== verification/RtlTest.v ===== *)
(** * rtl_test.c: tests of a dongle

    With the test mode on the dongle counts its bytes; [underrun_test] finds
    gaps.  [ppm_test] compares the number of samples with a clock,
    [e4k_benchmark] looks for the limits of an E4000.  The clock is an input. *)

From S2P Require Import Prelude Arrays RtlsdrI2c Double Usb UsbSpec Device Repeater DeviceInv DeviceSession Enumerate.
From S2P Require Import Convenience RtlSdr.
From Stdlib Require Import SpecFloat.

Definition PPM_DURATION := 10.
Definition PPM_DUMP_TIME := 5.
Definition MHZ (x : Z) : Z := x * 1000 * 1000.

(** ** Lost bytes *)

(** The static variables of [underrun_test] and the two sums. *)
(* src/rtl_test.c:82-83 total_samples *)
Record counting : Type := mk_counting {
  bcnt : Z;
  uninit : bool;
  total_samples : Z;
  dropped_samples : Z;
}.

Definition counting0 : counting := mk_counting 0 true 0 0.

(** A byte: [bcnt] and [lost]. *)
(* src/rtl_test.c:135-140 underrun_test *)
Definition count_byte (st : Z * Z) (x : Z) : Z * Z :=
  let '(bcnt, lost) := st in
  let '(bcnt, lost) :=
    if negb (bcnt =? x) then (x, u32 (lost + (if bcnt <? x then x - bcnt else bcnt - x))) else (bcnt, lost) in
  (u8 (bcnt + 1), lost).

(** The new state, and what is printed as lost. *)
(* src/rtl_test.c: underrun_test *)
Definition underrun_test (buf : list Z) (c : counting) : option (counting * Z) :=
  b0 ← (if uninit c then arr_get buf 0 else Some (bcnt c));
  let '(bcnt, lost) := fold_left count_byte buf (b0, 0) in
  Some (mk_counting bcnt false (u32 (total_samples c + Z.of_nat (length buf))) (u32 (dropped_samples c + lost)), lost).

(** What is printed at the end. *)
(* src/rtl_test.c:448-448 main *)
Definition lost_per_million (c : counting) : option Z :=
  if total_samples c =? 0 then None else Some (i32 (Z.quot (1000000 * dropped_samples c) (total_samples c))).

(** ** The sample rate *)

(* src/rtl_test.c: ppm_report *)
Definition ppm_report (oor : double -> Z) (samp_rate nsamples interval : Z) : Z :=
  let real_rate := ddiv (dmul (d_of_Z nsamples) (d_of_Z 1000000000)) (d_of_Z interval) in
  d_round oor (dmul (d_of_Z 1000000) (dsub (ddiv real_rate (d_of_Z samp_rate)) (d_of_Z 1))).

(* src/rtl_test.c:207-211 ppm_test *)
Inductive ppm_init : Type := PPM_INIT_NO | PPM_INIT_DUMP | PPM_INIT_RUN.

(** The static variables; [recent] is [ppm_recent], seconds and nanoseconds. *)
(* src/rtl_test.c:201-211 ppm_test *)
Record measuring : Type := mk_measuring {
  init : ppm_init;
  recent : Z * Z;
  nsamples : Z;
  nsamples_total : Z;
  interval_total : Z;
}.

Definition measuring0 : measuring := mk_measuring PPM_INIT_NO (0, 0) 0 0 0.

(** A block of [len] bytes at the time [now]: the line printed is the rate and
    the two errors. *)
(* src/rtl_test.c: ppm_test *)
Definition ppm_test (oor : double -> Z) (samp_rate ppm_duration len : Z) (now : Z * Z) (s : measuring) :
    option (measuring * option (Z * Z * Z)) :=
  match init s with
  | PPM_INIT_NO =>
      Some (mk_measuring PPM_INIT_DUMP (now.1 + PPM_DUMP_TIME, (recent s).2) (nsamples s) (nsamples_total s) (interval_total s), None)
  | PPM_INIT_DUMP =>
      if (recent s).1 <? now.1 then Some (s, None)
      else Some (mk_measuring PPM_INIT_RUN now (nsamples s) (nsamples_total s) (interval_total s), None)
  | PPM_INIT_RUN =>
      let n := u64 (nsamples s + len / 2) in
      let interval := u64 (now.1 - (recent s).1) in
      if interval <? ppm_duration then Some (mk_measuring PPM_INIT_RUN (recent s) n (nsamples_total s) (interval_total s), None)
      else
        let interval := u64 (u64 (interval * 1000000000) + (now.2 - (recent s).2)) in
        let nt := u64 (nsamples_total s + n) in
        let it := u64 (interval_total s + interval) in
        if interval =? 0 then None else
        Some (mk_measuring PPM_INIT_RUN now 0 nt it,
              Some (i32 (u64 (1000000000 * n) / interval), ppm_report oor samp_rate n interval, ppm_report oor samp_rate nt it))
  end.

(** ** The limits of an E4000 *)

(** A loop over frequencies up to the first that the dongle refuses; 0 when
    there is none. *)
(* src/rtl_test.c:267-272 e4k_benchmark *)
Fixpoint first_refused (freqs : list Z) : M rtlsdr_dev Z :=
  match freqs with
  | [] => mret 0
  | freq :: freqs => r ← rtlsdr_set_center_freq freq; if r <? 0 then mret freq else first_refused freqs
  end.

(** From [a] up, or down, in steps of 1 MHz: [n] frequencies. *)
Definition upward (a : Z) (n : nat) : list Z := map (fun k => a + MHZ k) (zseq n).
Definition downward (a : Z) (n : nat) : list Z := map (fun k => a - MHZ k) (zseq n).

(** The range and the gap, in MHz. *)
(* src/rtl_test.c: e4k_benchmark *)
Definition e4k_benchmark : M rtlsdr_dev (Z * Z * Z * Z) :=
  range_start ← first_refused (downward (MHZ 70) 69);
  range_end ← first_refused (upward (MHZ 2000) 300);
  gap_start ← first_refused (upward (MHZ 1000) 300);
  gap_end ← first_refused (downward (MHZ 1300) 300);
  mret (i32 (range_start / MHZ 1 + 1), i32 (u32 (range_end / MHZ 1 - 1)), gap_start / MHZ 1, gap_end / MHZ 1).

(** ** The program *)

(* src/rtl_test.c:71-75 test_mode *)
Inductive test_mode : Type := NO_BENCHMARK | TUNER_BENCHMARK | PPM_BENCHMARK.

(** The open dongle, up to the reading; whether the program goes on to read. *)
(* src/rtl_test.c:394-410 main *)
Definition test_setup (samp_rate : Z) (mode : test_mode) : M rtlsdr_dev bool :=
  verbose_set_sample_rate samp_rate;;
  match mode with
  | TUNER_BENCHMARK =>
      t ← gets rtlsdr_get_tuner_type;
      (if decide (t = RTLSDR_TUNER_E4000) then e4k_benchmark;; mret tt else mret tt);;
      mret false
  | _ =>
      rtlsdr_set_testmode 1;;
      verbose_reset_buffer;;
      mret true
  end.

(** A block of the asynchronous mode. *)
(* src/rtl_test.c: rtlsdr_callback *)
Definition rtlsdr_callback (oor : double -> Z) (samp_rate ppm_duration : Z) (mode : test_mode) (buf : list Z) (now : Z * Z)
    (st : counting * measuring) : option (counting * measuring) :=
  let '(c, m) := st in
  '(c, _) ← underrun_test buf c;
  match mode with
  | PPM_BENCHMARK => '(m, _) ← ppm_test oor samp_rate ppm_duration (Z.of_nat (length buf)) now m; Some (c, m)
  | _ => Some (c, m)
  end.

(** ** What the tests measure

    The count of lost bytes does not depend on the blocks and is 0 just for a
    stream without gaps; the benchmark is safe.  Where the numbers mislead is
    shown at the end. *)

(** ** Lost bytes *)

(** The jumps of a stream in which [e] is expected next. *)
Fixpoint jumps (e : Z) (l : list Z) : Z :=
  match l with [] => 0 | x :: l => Z.abs (x - e) + jumps ((x + 1) mod 256) l end.

(** What is expected after [l]. *)
Definition next_byte (e : Z) (l : list Z) : Z := match last l with Some x => (x + 1) mod 256 | None => e end.

Lemma next_byte_cons e x l : next_byte e (x :: l) = next_byte ((x + 1) mod 256) l.
Proof. unfold next_byte. rewrite last_cons. by destruct (last l). Qed.

Lemma jumps_app e l l' : jumps e (l ++ l') = jumps e l + jumps (next_byte e l) l'.
Proof.
  revert e. induction l as [|x l IH]; intros e; [done|]. cbn [app jumps]. rewrite IH.
  assert (next_byte e (x :: l) = next_byte ((x + 1) mod 256) l) as -> by apply next_byte_cons. lia.
Qed.

Lemma next_byte_app e l l' : next_byte e (l ++ l') = next_byte (next_byte e l) l'.
Proof. unfold next_byte. rewrite last_app. by destruct (last l'). Qed.

Lemma jumps_range e l : is_u8 e -> Forall is_u8 l -> 0 <= jumps e l <= 255 * Z.of_nat (length l).
Proof.
  intros He Hl. revert e He. induction Hl as [|x l Hx _ IH]; intros e He; cbn [jumps length]; [lia|].
  pose proof (IH ((x + 1) mod 256) (Z.mod_pos_bound (x + 1) 256 eq_refl)). unfold is_u8 in *. lia.
Qed.

Lemma count_bytes l : forall e lost, 
  fold_left count_byte l (e, u32 lost) = (next_byte e l, u32 (lost + jumps e l)).
Proof.
  induction l as [|x l IH]; intros e lost; cbn [fold_left jumps]; [by rewrite Z.add_0_r|].
  assert (count_byte (e, u32 lost) x = (u8 (x + 1), u32 (lost + Z.abs (x - e)))) as ->.
  { unfold count_byte. destruct (Z.eqb_spec e x) as [->|Hne]; cbn [negb].
    - do 2 f_equal. lia.
    - f_equal. unfold u32. rewrite Zplus_mod_idemp_l. f_equal. destruct (Z.ltb_spec e x); lia. }
  rewrite IH. unfold u8. f_equal; [|f_equal; change (2 ^ 8) with 256; lia].
  symmetry. apply next_byte_cons.
Qed.

(** A test of some blocks. *)
Definition underrun_tests (bufs : list (list Z)) (c : counting) : option counting :=
  foldl (fun c buf => c ← c; '(c, _) ← underrun_test buf c; Some c) (Some c) bufs.

Lemma u32_plus x y : u32 (u32 x + y) = u32 (x + y).
Proof. apply Zplus_mod_idemp_l. Qed.

Lemma u32_sum x y : u32 (u32 x + u32 y) = u32 (x + y).
Proof. symmetry. apply Zplus_mod. Qed.

Lemma underrun_tests_from bufs : forall e t d,
  underrun_tests bufs (mk_counting e false (u32 t) (u32 d)) =
    Some (mk_counting (next_byte e (concat bufs)) false (u32 (t + Z.of_nat (length (concat bufs)))) (u32 (d + jumps e (concat bufs)))).
Proof.
  induction bufs as [|buf bufs IH]; intros e t d; [cbn; by rewrite !Z.add_0_r|].
  unfold underrun_tests in *. cbn [foldl mbind option_bind]. unfold underrun_test at 2. cbn [uninit bcnt mbind option_bind].
  change 0 with (u32 0) at 1. rewrite count_bytes. cbn [mbind option_bind total_samples dropped_samples].
  rewrite u32_plus, u32_sum, IH. cbn [concat]. rewrite next_byte_app, jumps_app, length_app.
  do 3 f_equal; lia.
Qed.

Definition follows (l : list Z) : Prop := forall i x y, l !! i = Some x -> l !! S i = Some y -> y = (x + 1) mod 256.

Lemma jumps_follows e l : is_u8 e -> Forall is_u8 l -> jumps e l = 0 <-> (forall x, head l = Some x -> x = e) /\ follows l.
Proof.
  intros He Hl. revert e He. induction Hl as [|x l Hx Hl IH]; intros e He; cbn [jumps head]; [by split|].
  assert (is_u8 ((x + 1) mod 256)) as Hn by exact (Z.mod_pos_bound (x + 1) 256 eq_refl).
  pose proof (jumps_range _ l Hn Hl). specialize (IH _ Hn).
  assert (Z.abs (x - e) + jumps ((x + 1) mod 256) l = 0 <-> x = e /\ jumps ((x + 1) mod 256) l = 0) as -> by lia.
  rewrite IH. clear - l. split.
  - intros (-> & Hh & Hf). split; [by intros ? [= <-]|]. intros [|i] a b; cbn [lookup list_lookup]; [|apply Hf].
    intros [= <-] Hb. apply Hh. by rewrite head_lookup.
  - intros [Hx Hf]. split; [by apply Hx|]. split; [|intros i a b Ha Hb; by apply (Hf (S i))].
    intros y Hy. apply (Hf O x y); [done|]. change (l !! 0%nat = Some y). by rewrite <- head_lookup.
Qed.

(** C37: the count of lost bytes, for any blocks.  However the stream of the
    dongle is cut into blocks, the sum of the bytes is its length, and that of
    the lost bytes is the sum of its jumps, modulo 2^32; in 16 MB nothing is
    reported lost just when each byte is the one before plus 1, modulo 256. *)
Theorem lost_bytes (bufs : list (list Z)) (c : counting) :
  bufs <> [] -> Forall (fun buf => buf <> [] /\ Forall is_u8 buf) bufs ->
  underrun_tests bufs counting0 = Some c ->
  let l := concat bufs in
  total_samples c = u32 (Z.of_nat (length l)) /\
  dropped_samples c = u32 (jumps (default 0 (head l)) l) /\
  (Z.of_nat (length l) <= 2 ^ 24 -> dropped_samples c = 0 <-> follows l).
Proof.
  intros Hne Hbufs Hrun l. destruct bufs as [|[|b0 buf] bufs]; [done|by apply Forall_cons in Hbufs as [[? _] _]|].
  assert (underrun_tests ((b0 :: buf) :: bufs) counting0 = underrun_tests ((b0 :: buf) :: bufs) (mk_counting b0 false (u32 0) (u32 0))) as E by done.
  rewrite E, underrun_tests_from in Hrun. apply (inj Some) in Hrun as <-. cbn [total_samples dropped_samples]. rewrite !Z.add_0_l.
  split; [done|]. split; [done|]. intros Hlen.
  assert (Forall is_u8 l) as Hl by (apply Forall_concat; eapply Forall_impl; [exact Hbufs|by intros ? []]).
  change (concat ((b0 :: buf) :: bufs)) with l. assert (is_u8 b0) as Hb0 by (by apply Forall_cons in Hl as [? _]).
  pose proof (jumps_range b0 l Hb0 Hl). change (default 0 (head l)) with b0. rewrite u32_small by (unfold is_u32; lia). rewrite jumps_follows by done.
  split; [tauto|]. intros Hf. split; [|done]. by intros x [= <-].
Qed.

Lemma lost_bytes_witness :
  exists c, underrun_tests [[254; 255]; [0; 1; 4]] counting0 = Some c /\ total_samples c = 5 /\ dropped_samples c = 2.
Proof.
  eexists. split; [reflexivity|].
  destruct (lost_bytes [[254; 255]; [0; 1; 4]] (mk_counting 5 false 5 2)) as (Ht & Hd & _); [done| |reflexivity|by split].
  repeat constructor; done.
Defined.

(** "lost at least": one byte lost where the count wraps around is reported as
    255. *)
Lemma one_byte_reported_255 :
  option_map snd (underrun_test [253; 254; 0; 1] counting0) = Some 255.
Proof. reflexivity. Qed.

(** Stopped before the first block, the program divides by 0. *)
Lemma early_stop_divides_by_zero : lost_per_million counting0 = None.
Proof. reflexivity. Qed.

(** ** The clock *)

(** The first [PPM_DUMP_TIME] seconds should be thrown away; the measurement
    starts with the second block when it comes within this time, and never
    otherwise. *)
Lemma nothing_is_dumped oor rate duration len len' now now' s o s' o' :
  init s = PPM_INIT_NO ->
  ppm_test oor rate duration len now s = Some (s', o) ->
  now'.1 <= now.1 + PPM_DUMP_TIME ->
  option_map (fun r => (init r.1, recent r.1)) (ppm_test oor rate duration len' now' s') = Some (PPM_INIT_RUN, now') /\
  (forall now2 s2, now.1 + PPM_DUMP_TIME < now2.1 -> ppm_test oor rate duration len' now2 s' = Some (s2, o') -> s2 = s').
Proof.
  intros Hi E Hn. unfold ppm_test in E. rewrite Hi in E. injection E as <- <-. unfold ppm_test. cbn [init recent fst].
  split; [by replace (now.1 + PPM_DUMP_TIME <? now'.1) with false by lia|].
  intros now2 s2 H2. replace (now.1 + PPM_DUMP_TIME <? now2.1) with true by lia. by intros [= <- _].
Qed.

(** A dongle that is exact, and one that is 20 ppm fast. *)
Lemma ppm_examples oor :
  ppm_report oor 2048000 20480000 10000000000 = 0 /\ ppm_report oor 2048000 20480410 10000000000 = 20 /\
  ppm_report oor 2048000 20479590 10000000000 = -20.
Proof. repeat split; vm_compute; reflexivity. Qed.

(** ** The dongle *)

Lemma first_refused_ok freqs : preserves dev_ok (first_refused freqs).
Proof.
  induction freqs as [|f freqs IH]; [apply preserves_ret|]. cbn [first_refused].
  apply preserves_bind; [apply (set_center_freq_ok 0)|]. intros r. apply preserves_if; [apply preserves_ret|exact IH].
Qed.

Lemma test_setup_ok rate mode : preserves dev_ok (test_setup rate mode).
Proof.
  assert (preserves dev_ok e4k_benchmark) as Hb.
  { unfold e4k_benchmark. do 4 (apply preserves_bind; [apply first_refused_ok|intros ?]). apply preserves_ret. }
  unfold test_setup, verbose_set_sample_rate, verbose_reset_buffer. apply preserves_bind; [apply set_sample_rate_ok|]. intros _.
  destruct mode; [|apply preserves_bind; [apply preserves_gets|]; intros t; apply preserves_bind; [|intros _; apply preserves_ret];
    destruct (decide _); [by apply preserves_bind; [|intros; apply preserves_ret]|apply preserves_ret]|];
    (apply preserves_bind; [apply (run_api_ok (SetTestmode 1)); exact I|]; intros _;
     apply preserves_bind; [apply reset_buffer_ok|]; intros _; apply preserves_ret).
Qed.

(** The test of a dongle is safe, whatever it is and whatever fails. *)
Lemma test_safe (e : usb_env) (m p : string) (rate : Z) (mode : test_mode) :
  wp (open_device m p;; test_setup rate mode) (fun _ d => disciplined (usb_log (dcore d))) (new_dev e).
Proof. apply opened_safe, test_setup_ok. Qed.
