(* ===== verification/RtlFmControl.v ===== *)
(** * rtl_fm.c: settings and frequencies

    The options of rtl_fm, its list of frequencies ([frequency_range]), the rate
    and the frequency that the dongle is set to for a signal
    ([optimal_settings]), and the thread that tunes and hops ([controller_start],
    [controller_hop]).  What getopt delivers is the input; [log2] and [exp] of
    math.h are parameters. *)

From S2P Require Import Prelude Arrays Double Device Enumerate Convenience RtlFm.

Definition DEFAULT_SAMPLE_RATE := 24000.
Definition DEFAULT_BUF_LENGTH := 1 * 16384.
Definition MAXIMUM_OVERSAMPLE := 16.
Definition AUTO_GAIN := -100.
Definition FREQUENCIES_LIMIT := 1000.

(* src/rtl_fm.c: lcm_post *)
Definition lcm_post : list Z := [1; 1; 1; 3; 1; 5; 3; 7; 1; 9; 5; 11; 3; 13; 7; 15; 1].

(* src/rtl_fm.c:95-111 dongle_state *)
Record dongle_state : Type := mk_dongle_state {
  dg_dev_index : Z;
  dg_freq : Z;
  dg_rate : Z;
  dg_gain : Z;
  dg_ppm_error : Z;
  dg_offset_tuning : bool;
  dg_direct_sampling : Z;
  dg_mute : Z;
}.

(* src/rtl_fm.c:163-174 controller_state *)
Record controller_state : Type := mk_controller {
  freqs : list Z;
  freq_len : Z;
  freq_now : Z;
  edge : Z;
  wb_mode : bool;
}.

(** The program: [rate_in], [terminate_on_squelch] are fields of the
    demodulator, [output_rate] one of the output. *)
(* src/rtl_fm.c:176-180 dongle *)
Record fm : Type := mk_fm {
  dongle : dongle_state;
  demod : demod_settings;
  rate_in : Z;
  terminate_on_squelch : bool;
  controller : controller_state;
  output_rate : Z;
  dev_given : bool;
  enable_biastee : Z;
}.

Definition set_dongle (v : dongle_state) (f : fm) : fm :=
  mk_fm v (demod f) (rate_in f) (terminate_on_squelch f) (controller f) (output_rate f) (dev_given f) (enable_biastee f).
Definition set_demod (v : demod_settings) (f : fm) : fm :=
  mk_fm (dongle f) v (rate_in f) (terminate_on_squelch f) (controller f) (output_rate f) (dev_given f) (enable_biastee f).
Definition set_rate_in (v : Z) (f : fm) : fm :=
  mk_fm (dongle f) (demod f) v (terminate_on_squelch f) (controller f) (output_rate f) (dev_given f) (enable_biastee f).
Definition set_terminate (v : bool) (f : fm) : fm :=
  mk_fm (dongle f) (demod f) (rate_in f) v (controller f) (output_rate f) (dev_given f) (enable_biastee f).
Definition set_controller (v : controller_state) (f : fm) : fm :=
  mk_fm (dongle f) (demod f) (rate_in f) (terminate_on_squelch f) v (output_rate f) (dev_given f) (enable_biastee f).
Definition set_output_rate (v : Z) (f : fm) : fm :=
  mk_fm (dongle f) (demod f) (rate_in f) (terminate_on_squelch f) (controller f) v (dev_given f) (enable_biastee f).

(** ** Frequencies *)

(** [s->freqs[s->freq_len] = v; s->freq_len++]. *)
Definition push (v : Z) (c : controller_state) : option controller_state :=
  l ← arr_set (freqs c) (freq_len c) v; Some (mk_controller l (freq_len c + 1) (freq_now c) (edge c) (wb_mode c)).

Section range.
Context `{libc, libm}.

(** The loop from [i] up to [stop]; [fuel] bounds the number of frequencies. *)
(* src/rtl_fm.c:947-953 frequency_range *)
Fixpoint range_loop (fuel : nat) (i stop step : Z) (c : controller_state) : option controller_state :=
  if i <=? stop then
    match fuel with
    | O => None
    | S fuel =>
        c ← push (u32 i) c;
        if FREQUENCIES_LIMIT <=? freq_len c then Some c else range_loop fuel (i32 (i + step)) stop step c
    end
  else Some c.

(* src/rtl_fm.c: frequency_range *)
Definition frequency_range (arg : list Z) (c : controller_state) : option controller_state :=
  match split_colon arg with
  | None => x ← atofs None arg; push (d_to_u32 oor x) c
  | Some (start, rest) =>
      match split_colon rest with
      | None =>
          x ← atofs None start; c ← push (d_to_u32 oor x) c;
          y ← atofs (Some 0) rest; push (d_to_u32 oor y) c
      | Some (stop, step) =>
          x ← atofs None start; y ← atofs (Some 0) stop; z ← atofs (Some 0) step;
          range_loop (Z.to_nat (FREQUENCIES_LIMIT - freq_len c)) (d_to_i32 oor x) (d_to_i32 oor y) (d_to_i32 oor z) c
      end
  end.
End range.

(** ** Rate and frequency *)

Section settings.
Context `{libm} (log2 : double -> double).

(* src/rtl_fm.c: optimal_settings *)
Definition optimal_settings (freq : Z) : M fm unit := fun f =>
  q ← c_div 1000000 (rate_in f);
  let s := demod f in
  let downsample := i32 (q + 1) in
  let passes := if downsample_passes s =? 0 then 0 else i32 (d_to_i32 oor (log2 (d_of_Z downsample)) + 1) in
  let downsample := if downsample_passes s =? 0 then downsample else i32 (Z.shiftl 1 passes) in
  let capture_rate := i32 (downsample * rate_in f) in
  let capture_freq := if dg_offset_tuning (dongle f) then freq else i32 (freq + Z.quot capture_rate 4) in
  let capture_freq := i32 (capture_freq + Z.quot (i32 (edge (controller f) * rate_in f)) 2) in
  scale ← c_div (Z.shiftl 1 15) (i32 (128 * downsample));
  let scale := if (scale <? 1) || bool_decide (mode_demod s = fm_mode) then 1 else scale in
  let s := mk_settings (rate_out s) (rate_out2 s) downsample (post_downsample s) scale (squelch_level s) (conseq_squelch s) passes
    (comp_fir_size s) (custom_atan s) (deemph s) (deemph_a s) (dc_block s) (mode_demod s) in
  let d := dongle f in
  let d := mk_dongle_state (dg_dev_index d) (u32 capture_freq) (u32 capture_rate) (dg_gain d) (dg_ppm_error d) (dg_offset_tuning d)
    (dg_direct_sampling d) (dg_mute d) in
  Some (tt, set_demod s (set_dongle d f)).

(** ** The controller *)

Definition on_fm {A} (m : M fm A) : M (fm * rtlsdr_dev) A := zoom fst (fun f s => (f, s.2)) m.
Definition on_dev {A} (m : M rtlsdr_dev A) : M (fm * rtlsdr_dev) A := zoom snd (fun d s => (s.1, d)) m.

Definition set_freqs (v : list Z) (now : Z) (c : controller_state) : controller_state :=
  mk_controller v (freq_len c) now (edge c) (wb_mode c).
Definition set_mute (v : Z) (d : dongle_state) : dongle_state :=
  mk_dongle_state (dg_dev_index d) (dg_freq d) (dg_rate d) (dg_gain d) (dg_ppm_error d) (dg_offset_tuning d) (dg_direct_sampling d) v.

(** [s->freqs[i] += 16000] for wide band FM. *)
(* src/rtl_fm.c:889-891 controller_thread_fn *)
Definition widen : M fm unit := fun f =>
  let c := controller f in
  if wb_mode c then
    l ← for_arr (zseq (Z.to_nat (freq_len c))) (fun i l => v ← arr_get l i; arr_set l i (u32 (v + 16000))) (freqs c);
    Some (tt, set_controller (set_freqs l (freq_now c) c) f)
  else Some (tt, f).

(** Up to the loop. *)
(* src/rtl_fm.c:889-910 controller_thread_fn *)
Definition controller_start : M (fm * rtlsdr_dev) unit :=
  on_fm widen;;
  f ← gets fst;
  freq0 ← from_option_trap (arr_get (freqs (controller f)) 0);
  on_fm (optimal_settings (i32 freq0));;
  d ← gets (fun s => dongle (fst s));
  (if dg_direct_sampling d =? 0 then mret 0 else on_dev (verbose_direct_sampling (dg_direct_sampling d)));;
  (if dg_offset_tuning d then on_dev verbose_offset_tuning else mret 0);;
  on_dev (verbose_set_frequency (dg_freq d));;
  on_dev (verbose_set_sample_rate (dg_rate d));;
  mret tt.

(** A turn of the loop, after the demodulator asked for another frequency. *)
(* src/rtl_fm.c:912-921 controller_thread_fn *)
Definition controller_hop : M (fm * rtlsdr_dev) unit :=
  c ← gets (fun s => controller (fst s));
  if freq_len c <=? 1 then mret tt else
  let now := Z.rem (i32 (freq_now c + 1)) (freq_len c) in
  on_fm (modify (set_controller (set_freqs (freqs c) now c)));;
  freq ← from_option_trap (arr_get (freqs c) now);
  on_fm (optimal_settings (i32 freq));;
  d ← gets (fun s => dongle (fst s));
  on_dev (rtlsdr_set_center_freq (dg_freq d));;
  on_fm (modify (fun f => set_dongle (set_mute BUFFER_DUMP (dongle f)) f)).

(* src/rtl_fm.c: controller_thread_fn *)
Definition controller_thread_fn (hops : nat) : M (fm * rtlsdr_dev) unit :=
  controller_start;; for_each (replicate hops tt) (fun _ => controller_hop).
End settings.

(** ** Options *)

Section options.
Context `{libc, libm} (b : usb_bus) (junk : list Z).

Definition is_word (s : list Z) (w : string) : bool := bool_decide (s = chars w).

Definition map_demod (g : demod_settings -> demod_settings) (f : fm) : fm := set_demod (g (demod f)) f.
Definition map_dongle (g : dongle_state -> dongle_state) (f : fm) : fm := set_dongle (g (dongle f)) f.
Definition map_controller (g : controller_state -> controller_state) (f : fm) : fm := set_controller (g (controller f)) f.

(* src/rtl_fm.c:1115-1128 main *)
Definition option_E (w : list Z) (f : fm) : fm :=
  if is_word w "edge" then map_controller (fun c => mk_controller (freqs c) (freq_len c) (freq_now c) 1 (wb_mode c)) f
  else if is_word w "dc" then map_demod (fun s => mk_settings (rate_out s) (rate_out2 s) (downsample s) (post_downsample s) (output_scale s)
    (squelch_level s) (conseq_squelch s) (downsample_passes s) (comp_fir_size s) (custom_atan s) (deemph s) (deemph_a s) true (mode_demod s)) f
  else if is_word w "deemp" then map_demod (fun s => mk_settings (rate_out s) (rate_out2 s) (downsample s) (post_downsample s) (output_scale s)
    (squelch_level s) (conseq_squelch s) (downsample_passes s) (comp_fir_size s) (custom_atan s) true (deemph_a s) (dc_block s) (mode_demod s)) f
  else if is_word w "direct" || is_word w "direct2" then map_dongle (fun d => mk_dongle_state (dg_dev_index d) (dg_freq d) (dg_rate d)
    (dg_gain d) (dg_ppm_error d) (dg_offset_tuning d) (if is_word w "direct" then 1 else 2) (dg_mute d)) f
  else if is_word w "offset" then map_dongle (fun d => mk_dongle_state (dg_dev_index d) (dg_freq d) (dg_rate d)
    (dg_gain d) (dg_ppm_error d) true (dg_direct_sampling d) (dg_mute d)) f
  else f.

Definition set_atan (v : Z) : fm -> fm := map_demod (fun s => mk_settings (rate_out s) (rate_out2 s) (downsample s) (post_downsample s)
  (output_scale s) (squelch_level s) (conseq_squelch s) (downsample_passes s) (comp_fir_size s) v (deemph s) (deemph_a s) (dc_block s) (mode_demod s)).
Definition set_mode (m : demod_mode) : fm -> fm := map_demod (fun s => mk_settings (rate_out s) (rate_out2 s) (downsample s) (post_downsample s)
  (output_scale s) (squelch_level s) (conseq_squelch s) (downsample_passes s) (comp_fir_size s) (custom_atan s) (deemph s) (deemph_a s) (dc_block s) m).

(* src/rtl_fm.c:1133-1140 main *)
Definition option_A (w : list Z) (f : fm) : fm :=
  if is_word w "std" then set_atan 0 f else if is_word w "fast" then set_atan 1 f else if is_word w "lut" then set_atan 2 f else f.

(* src/rtl_fm.c:1141-1163 main *)
Definition option_M (w : list Z) (f : fm) : fm :=
  if is_word w "fm" then set_mode fm_mode f
  else if is_word w "raw" then set_mode raw_mode f
  else if is_word w "am" then set_mode am_mode f
  else if is_word w "usb" then set_mode usb_mode f
  else if is_word w "lsb" then set_mode lsb_mode f
  else if is_word w "wbfm" then
    map_controller (fun c => mk_controller (freqs c) (freq_len c) (freq_now c) (edge c) true)
      (set_rate_in 170000
         (map_demod (fun s => mk_settings 170000 32000 (downsample s) (post_downsample s) (output_scale s) 0 (conseq_squelch s)
            (downsample_passes s) (comp_fir_size s) 1 true (deemph_a s) (dc_block s) fm_mode) f))
  else f.

(** The options that set numbers of the demodulator; [-r] also sets the rate of
    the output. *)
Definition set_squelch (level conseq : Z) : fm -> fm := map_demod (fun s => mk_settings (rate_out s) (rate_out2 s) (downsample s)
  (post_downsample s) (output_scale s) level conseq (downsample_passes s) (comp_fir_size s) (custom_atan s) (deemph s) (deemph_a s) (dc_block s) (mode_demod s)).
Definition set_rates (out out2 post : Z) : fm -> fm := map_demod (fun s => mk_settings out out2 (downsample s)
  post (output_scale s) (squelch_level s) (conseq_squelch s) (downsample_passes s) (comp_fir_size s) (custom_atan s) (deemph s) (deemph_a s) (dc_block s) (mode_demod s)).
Definition set_passes (size : Z) : fm -> fm := map_demod (fun s => mk_settings (rate_out s) (rate_out2 s) (downsample s)
  (post_downsample s) (output_scale s) (squelch_level s) (conseq_squelch s) 1 size (custom_atan s) (deemph s) (deemph_a s) (dc_block s) (mode_demod s)).

(** An option with its argument and the character before it in memory; false
    for one that prints the usage and ends the program. *)
(* src/rtl_fm.c:1068-1171 main *)
Definition fm_option (opt : Z) (before : option Z) (optarg : list Z) (f : fm) : option (fm * bool) :=
  let s := demod f in
  let goes f : option (fm * bool) := Some (f, true) in
  if opt =? 100 then
    goes (mk_fm (mk_dongle_state (verbose_device_search b junk optarg) (dg_freq (dongle f)) (dg_rate (dongle f)) (dg_gain (dongle f))
            (dg_ppm_error (dongle f)) (dg_offset_tuning (dongle f)) (dg_direct_sampling (dongle f)) (dg_mute (dongle f)))
          s (rate_in f) (terminate_on_squelch f) (controller f) (output_rate f) true (enable_biastee f))
  else if opt =? 102 then
    if FREQUENCIES_LIMIT <=? freq_len (controller f) then goes f
    else c ← (match split_colon optarg with
              | Some _ => frequency_range optarg (controller f)
              | None => x ← atofs before optarg; push (d_to_u32 oor x) (controller f)
              end); goes (set_controller c f)
  else if opt =? 103 then
    goes (map_dongle (fun d => mk_dongle_state (dg_dev_index d) (dg_freq d) (dg_rate d) (d_to_i32 oor (dmul (atof optarg) (d_of_Z 10)))
      (dg_ppm_error d) (dg_offset_tuning d) (dg_direct_sampling d) (dg_mute d)) f)
  else if opt =? 108 then goes (set_squelch (d_to_i32 oor (atof optarg)) (conseq_squelch s) f)
  else if opt =? 115 then
    x ← atofs before optarg; let r := i32 (d_to_u32 oor x) in goes (set_rate_in r (set_rates r (rate_out2 s) (post_downsample s) f))
  else if opt =? 114 then
    x ← atofs before optarg; let r := d_to_i32 oor x in goes (set_output_rate r (set_rates (rate_out s) r (post_downsample s) f))
  else if opt =? 111 then goes (set_rates (rate_out s) (rate_out2 s) (d_to_i32 oor (atof optarg)) f)
  else if opt =? 116 then
    let c := d_to_i32 oor (atof optarg) in
    goes (if c <? 0 then set_terminate true (set_squelch (squelch_level s) (i32 (- c)) f) else set_squelch (squelch_level s) c f)
  else if opt =? 112 then
    goes (map_dongle (fun d => mk_dongle_state (dg_dev_index d) (dg_freq d) (dg_rate d) (dg_gain d)
      (atoi optarg) (dg_offset_tuning d) (dg_direct_sampling d) (dg_mute d)) f)
  else if opt =? 69 then goes (option_E optarg f)
  else if opt =? 70 then goes (set_passes (atoi optarg) f)
  else if opt =? 65 then goes (option_A optarg f)
  else if opt =? 77 then goes (option_M optarg f)
  else if opt =? 84 then
    goes (mk_fm (dongle f) s (rate_in f) (terminate_on_squelch f) (controller f) (output_rate f) (dev_given f) 1)
  else Some (f, false).

(** All options; then the rate is that before the oversampling, and what is
    missing ends the program.  The size of a buffer comes from a table. *)
(* src/rtl_fm.c: sanity_checks *)
Definition sanity_checks (f : fm) : bool :=
  let c := controller f in
  negb ((freq_len c =? 0) || (FREQUENCIES_LIMIT <=? freq_len c) || ((1 <? freq_len c) && (squelch_level (demod f) =? 0))).

(* src/rtl_fm.c:1174-1191 main *)
Definition after_options (f : fm) : option (option (fm * Z)) :=
  let f := set_rate_in (i32 (rate_in f * post_downsample (demod f))) f in
  let f := if output_rate f =? 0 then set_output_rate (rate_out (demod f)) f else f in
  if negb (sanity_checks f) then Some None else
  let f := if 1 <? freq_len (controller f) then set_terminate false f else f in
  n ← arr_get lcm_post (post_downsample (demod f));
  Some (Some (f, n * DEFAULT_BUF_LENGTH)).
End options.

(** The values of [dongle_init], [demod_init], [output_init] and
    [controller_init], and of static storage. *)
(* src/rtl_fm.c:958-966 dongle_init *)
Definition dongle_init : dongle_state := mk_dongle_state 0 0 DEFAULT_SAMPLE_RATE AUTO_GAIN 0 false 0 0.
(* src/rtl_fm.c:1018-1026 controller_init *)
Definition controller_init : controller_state := mk_controller (100000000 :: replicate 999 0) 0 0 0 false.
(* src/rtl_fm.c:968-989 demod_init *)
Definition settings_init : demod_settings := mk_settings DEFAULT_SAMPLE_RATE (-1) 0 1 0 0 10 0 0 0 false 0 false fm_mode.
Definition fm_init : fm := mk_fm dongle_init settings_init DEFAULT_SAMPLE_RATE false controller_init DEFAULT_SAMPLE_RATE false 0.

(** The dongle, before the threads are started. *)
(* src/rtl_fm.c:1222-1252 main *)
Definition fm_setup (f : fm) : M rtlsdr_dev unit :=
  (if dg_gain (dongle f) =? AUTO_GAIN then verbose_auto_gain
   else g ← nearest_gain (dg_gain (dongle f)); verbose_gain_set g);;
  rtlsdr_set_bias_tee (enable_biastee f);;
  verbose_ppm_set (dg_ppm_error (dongle f));;
  verbose_reset_buffer;;
  mret tt.

(** [deemph_a], the constant of the deemphasis. *)
(* src/rtl_fm.c:1218-1220 main *)
Definition deemph_constant `{libm} (exp : double -> double) (rate_out : Z) : Z :=
  let tau := dmul (d_of_Z rate_out) (ddiv (d_of_Z 75) (d_of_Z 1000000)) in
  d_round oor (ddiv (d_of_Z 1) (dsub (d_of_Z 1) (exp (ddiv (d_of_Z (-1)) tau)))).
