(* ===== verification/RtlFmThreads.v ===== *)
(** * rtl_fm.c: the threads

    The thread of the dongle stores a block for the thread that demodulates, which
    stores its result for the thread that writes it to the file; a fourth one
    changes the frequency, and main waits for the end.  A thread that has
    something for another one signals a condition; the waits have no predicate
    ([safe_cond_wait]), so that a signal to a thread that does not wait yet is
    lost.  An [event] is what a thread does between two points at which others
    can run: a critical section, a test of [do_exit], the start of a wait. *)

From S2P Require Import Prelude Arrays Double Usb UsbSpec Device Streams RtlFm RtlFmSpec RtlFmControl.

(** ** The threads *)

Inductive dongle_at : Type := Reading | Filled (mute : Z) (buf : list Z) | Stored | Dongle_ended.

Inductive demod_at : Type := In_loop (l : loop_at) | Demodulated | Handed.

(* src/rtl_fm.c:1260-1278 main *)
Inductive main_at : Type :=
  Sleeping | Cancelled | Dongle_joined | Demod_signalled | Demod_joined | Output_signalled | Output_joined | Hop_signalled | All_joined.

Inductive thread : Type := Demod_thread | Output_thread | Controller_thread.

#[global] Instance demod_at_dec : EqDecision demod_at.
Proof. solve_decision. Defined.
#[global] Instance main_at_dec : EqDecision main_at.
Proof. solve_decision. Defined.

(** What the threads share and where each is; [t_blocks], [t_handed] and [t_file]
    are the blocks that arrived, the results given to the output (the first is
    the empty one before there is any) and what was written. *)
(* src/rtl_fm.c:149-160 output_state *)
Record threads : Type := mk_threads {
  t_radio : fm * rtlsdr_dev;
  t_demod : demod_state;
  t_result : list Z;
  t_exit : bool;
  t_main : main_at;
  t_dongle : dongle_at;
  t_demod_at : demod_at;
  t_output : loop_at;
  t_controller : loop_at;
  t_blocks : list (list Z);
  t_handed : list (list Z);
  t_file : list (list Z);
}.

Definition set_radio v s := let 'mk_threads _ d r e m g p o c b h f := s in mk_threads v d r e m g p o c b h f.
Definition set_demod_state v s := let 'mk_threads a _ r e m g p o c b h f := s in mk_threads a v r e m g p o c b h f.
Definition set_exit v s := let 'mk_threads a d r _ m g p o c b h f := s in mk_threads a d r v m g p o c b h f.
Definition set_main v s := let 'mk_threads a d r e _ g p o c b h f := s in mk_threads a d r e v g p o c b h f.
Definition set_dongle_at v s := let 'mk_threads a d r e m _ p o c b h f := s in mk_threads a d r e m v p o c b h f.
Definition set_demod_at v s := let 'mk_threads a d r e m g _ o c b h f := s in mk_threads a d r e m g v o c b h f.
Definition set_output v s := let 'mk_threads a d r e m g p _ c b h f := s in mk_threads a d r e m g p v c b h f.
Definition set_controller_at v s := let 'mk_threads a d r e m g p o _ b h f := s in mk_threads a d r e m g p o v b h f.
Definition log_block v s := let 'mk_threads a d r e m g p o c b h f := s in mk_threads a d r e m g p o c (b ++ [v]) h f.
(** [memcpy(o->result, ..)] *)
Definition hand v s := let 'mk_threads a d _ e m g p o c b h f := s in mk_threads a d v e m g p o c b (h ++ [v]) f.
(* src/rtl_fm.c:848-850 output_thread_fn *)
Definition write_result s := let 'mk_threads a d r e m g p o c b h f := s in mk_threads a d r e m g p o c b h (f ++ [r]).

Definition settings (s : threads) : demod_settings := demod (t_radio s).1.
Definition offset (s : threads) : bool := dg_offset_tuning (dongle (t_radio s).1).

(** ** Signals *)

Definition demod_loop (s : threads) : option loop_at := if t_demod_at s is In_loop l then Some l else None.
Definition loop_of (w : thread) (s : threads) : option loop_at :=
  match w with Demod_thread => demod_loop s | Output_thread => Some (t_output s) | Controller_thread => Some (t_controller s) end.
Definition set_loop (w : thread) (l : loop_at) (s : threads) : threads :=
  match w with Demod_thread => set_demod_at (In_loop l) s | Output_thread => set_output l s | Controller_thread => set_controller_at l s end.
Definition wake (w : thread) (s : threads) : threads := if loop_of w s is Some l then set_loop w (signal l) s else s.

(** ** Events *)

Inductive event : Type :=
| Fill (buf : list Z)    (* a block of the dongle, into buf16 *)
| Store                  (* and into lowpassed *)
| Signal_demod
| Dongle_end             (* rtlsdr_read_async returns: cancelled, or after an error *)
| Test (w : thread)      (* while (!do_exit) *)
| Enter (w : thread)     (* pthread_cond_wait *)
| Spurious (w : thread)  (* which may return without a signal *)
| Demodulate
| Ask_hop
| Hand_over
| Signal_output
| Write
| Hop
| Interrupt              (* sighandler *)
| Main_turn.

Section events.
Context `{libm} (log2 : double -> double).

(** The squelch has been closed for long enough. *)
Definition silent (s : threads) : bool :=
  truthy (squelch_level (settings s)) && (conseq_squelch (settings s) <? squelch_hits (t_demod s)).

Definition in_loop (w : thread) (l : loop_at) (s : threads) : bool := bool_decide (loop_of w s = Some l).

Definition is_demodulated (s : threads) : bool := if t_demod_at s is Demodulated then true else false.

(** When main goes on. *)
Definition main_enabled (s : threads) : bool :=
  match t_main s with
  | Sleeping => t_exit s
  | Cancelled => if t_dongle s is Dongle_ended then true else false
  | Demod_signalled => in_loop Demod_thread Ended s
  | Output_signalled => in_loop Output_thread Ended s
  | Hop_signalled => in_loop Controller_thread Ended s
  | All_joined => false
  | _ => true
  end.

Definition enabled (e : event) (s : threads) : bool :=
  match e with
  | Fill _ => if t_dongle s is Reading then negb (t_exit s) else false
  | Store => if t_dongle s is Filled _ _ then true else false
  | Signal_demod => if t_dongle s is Stored then true else false
  | Dongle_end => if t_dongle s is Reading then true else false
  | Test w => in_loop w Testing s
  | Enter w => in_loop w Entering s
  | Spurious w => in_loop w Waiting s
  | Demodulate => in_loop Demod_thread Woken s
  | Ask_hop => is_demodulated s && silent s
  | Hand_over => is_demodulated s && negb (silent s)
  | Signal_output => if t_demod_at s is Handed then true else false
  | Write => in_loop Output_thread Woken s
  | Hop => in_loop Controller_thread Woken s
  | Interrupt => negb (t_exit s)
  | Main_turn => main_enabled s
  end.

(** main cancels the transfers, then signals and joins one thread after the other. *)
(* src/rtl_fm.c:1260-1278 main *)
Definition main_turn (s : threads) : threads :=
  match t_main s with
  | Sleeping => set_main Cancelled s
  | Cancelled => set_main Dongle_joined s
  | Dongle_joined => set_main Demod_signalled (wake Demod_thread s)
  | Demod_signalled => set_main Demod_joined s
  | Demod_joined => set_main Output_signalled (wake Output_thread s)
  | Output_signalled => set_main Output_joined s
  | Output_joined => set_main Hop_signalled (wake Controller_thread s)
  | Hop_signalled | All_joined => set_main All_joined s
  end.

(** rtlsdr_callback up to the lock: the silenced bytes are counted, the block is
    the thread's own. *)
(* src/rtl_fm.c:789-802 rtlsdr_callback *)
Definition fill (buf : list Z) (s : threads) : threads :=
  let f := (t_radio s).1 in
  set_dongle_at (Filled (dg_mute (dongle f)) buf)
    (log_block buf (set_radio (RtlFmControl.set_dongle (set_mute 0 (dongle f)) f, (t_radio s).2) s)).

(* src/rtl_fm.c:802-806 rtlsdr_callback *)
Definition store (s : threads) : option threads :=
  match t_dongle s with
  | Filled mute buf => d ← callback (offset s) mute buf (t_demod s); Some (set_dongle_at Stored (set_demod_state d s))
  | _ => None
  end.

(** The critical section of demod_thread_fn, and what follows it. *)
(* src/rtl_fm.c:821-824 demod_thread_fn *)
Definition demodulate (s : threads) : option threads :=
  d ← full_demod (settings s) (t_demod s); Some (set_demod_at Demodulated (set_demod_state d s)).

(* src/rtl_fm.c:828-832 demod_thread_fn *)
Definition ask_hop (s : threads) : threads :=
  set_demod_at (In_loop Testing) (wake Controller_thread
    (set_demod_state (set_hits (conseq_squelch (settings s) + 1) (t_demod s)) s)).

(* src/rtl_fm.c:833-836 demod_thread_fn *)
Definition hand_over (s : threads) : threads :=
  set_demod_at Handed (hand (take (Z.to_nat (result_len (t_demod s))) (result (t_demod s))) s).

(** [do_exit] is tested before each turn. *)
Definition test (w : thread) (s : threads) : threads := set_loop w (if t_exit s then Ended else Entering) s.

(* src/rtl_fm.c:912-921 controller_thread_fn *)
Definition hop (s : threads) : option threads :=
  r ← controller_hop log2 (t_radio s); Some (set_controller_at Testing (set_radio r.2 s)).

(** What an event does; [None] where the code has no defined result. *)
Definition run (e : event) (s : threads) : option threads :=
  match e with
  | Fill buf => Some (fill buf s)
  | Store => store s
  | Signal_demod => Some (set_dongle_at Reading (wake Demod_thread s))
  | Dongle_end => Some (set_dongle_at Dongle_ended s)
  | Test w => Some (test w s)
  | Enter w => Some (set_loop w Waiting s)
  | Spurious w => Some (set_loop w Woken s)
  | Demodulate => demodulate s
  | Ask_hop => Some (ask_hop s)
  | Hand_over => Some (hand_over s)
  | Signal_output => Some (set_demod_at (In_loop Testing) (wake Output_thread s))
  | Write => Some (set_output Testing (write_result s))
  | Hop => hop s
  | Interrupt => Some (set_exit true s)
  | Main_turn => Some (main_turn s)
  end.

Abbreviation step := (step_by enabled run).
Abbreviation runs := (runs_by enabled run).

(** When main has started the threads. *)
(* src/rtl_fm.c:1254-1258 main *)
Definition started (radio : fm * rtlsdr_dev) : threads :=
  mk_threads radio demod_init [] false Sleeping Reading (In_loop Testing) Testing Testing [] [[]] [].

(** ** In time *)

Section in_time.
Context (s0 : demod_settings) (off : bool) (Hs : plain s0).

(** A block is stored when the demodulation waits, a result when the output
    waits, and no wait returns without a signal. *)
Definition in_time (e : event) (s : threads) : Prop :=
  match e with
  | Fill buf => exists iq, buf = flat iq /\ good_buf s0 iq
  | Store => t_demod_at s = In_loop Waiting
  | Hand_over => t_output s = Waiting
  | Spurious _ | Interrupt => False
  | _ => True
  end.

Definition chained (iqs : list (list (Z * Z))) := chain s0 off start (concat iqs).

Lemma blocks_of_four iqs : Forall (good_buf s0) iqs -> exists n, length (concat iqs) = (4 * n)%nat.
Proof.
  induction 1 as [|x l ((k & Hk) & _) _ [n IH]]; [by exists 0%nat|]. exists (k + n)%nat. cbn [concat]. rewrite length_app. lia.
Qed.

Lemma chained_snoc iqs iq : Forall (good_buf s0) iqs ->
  chained (iqs ++ [iq]) = ((chained iqs).1 ++ (chain s0 off (chained iqs).2 iq).1, (chain s0 off (chained iqs).2 iq).2).
Proof.
  intros Hg. unfold chained. rewrite concat_app. cbn [concat]. rewrite app_nil_r.
  destruct (blocks_of_four iqs Hg) as [n Hn]. by apply (chain_app s0 off start _ iq n).
Qed.

Lemma turn_parts d st iq : tracks s0 d st -> good_buf s0 iq ->
  exists d1, callback off 0 (flat iq) d = Some d1 /\
    exists d2, full_demod s0 d1 = Some d2 /\ take (Z.to_nat (result_len d2)) (result d2) = (chain s0 off st iq).1 /\
      tracks s0 d2 (chain s0 off st iq).2.
Proof.
  intros Ht Hg. destruct (turn_ok s0 off Hs d st iq Ht Hg) as (d1 & E1 & d2 & E2 & Ht2). exists d1. split; [done|].
  unfold demod_turn in E2. destruct (full_demod s0 d1) as [d2'|]; [|done]. cbn [mbind option_bind] in E2.
  rewrite (plain_squelch s0 Hs) in E2. injection E2 as -> E2. by exists d2.
Qed.

(** A result is on its way to the file; a block is stored and not demodulated. *)
Definition pending (s : threads) : bool :=
  match t_demod_at s with Handed => true | _ => match t_output s with Woken => true | _ => false end end.
Definition working (s : threads) : bool :=
  match t_demod_at s with In_loop Woken | Demodulated => true | _ => match t_dongle s with Stored => true | _ => false end end.

(** [iqs] are demodulated, [mid] is stored for the demodulation, [next] is in
    the callback. *)
Record inv (iqs : list (list (Z * Z))) (mid next : option (list (Z * Z))) (s : threads) : Prop := {
  i_settings : settings s = s0 /\ offset s = off /\ dg_mute (dongle (t_radio s).1) = 0;
  i_calm : t_exit s = false /\ t_main s = Sleeping /\ match t_controller s with Woken | Ended => False | _ => True end;
  i_blocks : t_blocks s = map flat (iqs ++ option_list mid ++ option_list next);
  i_good : Forall (good_buf s0) (iqs ++ option_list mid ++ option_list next);
  i_handed : concat (t_handed s) = (chained iqs).1;
  i_demod : exists d0, tracks s0 d0 (chained iqs).2 /\
    match mid with
    | None => t_demod s = d0
    | Some iq => exists d1, callback off 0 (flat iq) d0 = Some d1 /\
        match t_demod_at s with Demodulated => full_demod s0 d1 = Some (t_demod s) | _ => t_demod s = d1 end
    end;
  i_next : match t_dongle s with Filled m b => m = 0 /\ exists iq, next = Some iq /\ b = flat iq | _ => next = None end;
  i_stored : match t_dongle s with Stored => t_demod_at s = In_loop Waiting | _ => True end;
  i_mid : working s = match mid with Some _ => true | None => false end;
  i_output : concat (t_file s) ++ (if pending s then t_result s else []) = concat (t_handed s);
  i_handing : match t_demod_at s with Handed => t_output s = Waiting | In_loop Ended => False | _ => True end;
  i_out : t_output s <> Ended;
}.

Definition inv_at (s : threads) : Prop := exists iqs mid next, inv iqs mid next s.

(** Opens the state and the invariant. *)
Ltac open_inv Hi :=
  destruct Hi as [(Hset & Hoff & Hm) (Hex & Hma & Hc) Hb Hg Hh Hd Hn Hst Hmid Ho Hha Hout];
  unfold settings, offset, working, pending in *;
  cbn [t_radio t_demod t_result t_exit t_main t_dongle t_demod_at t_output t_controller t_blocks t_handed t_file fst snd] in *.
Ltac close_inv := constructor; unfold settings, offset, working, pending; cbn; try done.

Lemma fill_inv buf iqs mid next s : in_time (Fill buf) s -> enabled (Fill buf) s = true -> inv iqs mid next s -> inv_at (fill buf s).
Proof.
  intros (iq & -> & Hiq) He Hi. destruct s as [[f dev] d r ex m g p o c b h fi]. open_inv Hi. cbn in He. destruct g; try done.
  subst next. exists iqs, mid, (Some iq). close_inv.
  - rewrite Hb, !map_app. cbn. by rewrite app_nil_r, app_assoc.
  - rewrite app_nil_r in Hg. rewrite app_assoc. by apply Forall_app; split; [|constructor].
  - split; [done|]. by exists iq.
Qed.

Lemma store_inv iqs mid next s s1 : in_time Store s -> store s = Some s1 -> inv iqs mid next s -> inv_at s1.
Proof.
  intros Ht Hr Hi. destruct s as [[f dev] d r ex m g p o c b h fi]. open_inv Hi. cbn in Ht. subst p. unfold store in Hr. cbn in Hr.
  destruct g as [|mu buf| |]; try done. destruct Hn as (-> & iq & -> & ->). destruct mid; [done|]. destruct Hd as (d0 & Ht & ->).
  unfold offset in Hr. cbn in Hr. rewrite Hoff in Hr. destruct (callback off 0 (flat iq) d0) as [d1|] eqn:E; [|done]. injection Hr as <-.
  exists iqs, (Some iq), None. close_inv. exists d0. split; [done|]. by exists d1.
Qed.

Lemma demodulate_inv iqs mid next s s1 : enabled Demodulate s = true -> demodulate s = Some s1 -> inv iqs mid next s -> inv_at s1.
Proof.
  intros He Hr Hi. destruct s as [[f dev] d r ex m g p o c b h fi]. open_inv Hi. unfold demodulate, settings in Hr. cbn in Hr.
  apply bool_decide_eq_true in He. cbn in He. destruct p as [l| |]; try done. injection He as ->. rewrite Hset in Hr.
  destruct mid as [iq|]; [|done]. destruct Hd as (d0 & Ht & d1 & E & ->). destruct (full_demod s0 d1) as [d2|] eqn:E2; [|done].
  injection Hr as <-. exists iqs, (Some iq), next. close_inv; [|by destruct g]. exists d0. split; [done|]. by exists d1.
Qed.

Lemma hand_inv iqs mid next s : in_time Hand_over s -> enabled Hand_over s = true -> inv iqs mid next s -> inv_at (hand_over s).
Proof.
  intros Ht He Hi. destruct s as [[f dev] d r ex m g p o c b h fi]. open_inv Hi. cbn in Ht, He. subst o.
  destruct p; try done. destruct mid as [iq|]; [|done]. destruct Hd as (d0 & Htr & d1 & E & E2).
  pose proof (proj1 (Forall_app _ _ _) Hg) as [Hg1 Hg2]. cbn in Hg2. apply Forall_cons in Hg2 as [Hiq Hg2].
  destruct (turn_parts d0 _ iq Htr Hiq) as (d1' & E' & d2 & E2' & Er & Htr2). assert (d1' = d1) as -> by congruence. assert (d2 = d) as -> by congruence.
  exists (iqs ++ [iq]), None, next. close_inv.
  - rewrite Hb. by rewrite <- app_assoc.
  - by rewrite <- app_assoc.
  - rewrite concat_app, chained_snoc by done. cbn. by rewrite app_nil_r, Hh, Er.
  - exists d. split; [|done]. by rewrite chained_snoc.
  - by destruct g.
  - by destruct g.
  - rewrite concat_app. cbn. rewrite !app_nil_r in *. by rewrite Ho.
Qed.

Lemma not_silent s : settings s = s0 -> silent s = false.
Proof. unfold silent. intros ->. by rewrite (plain_squelch s0 Hs). Qed.

(** The other events leave the data alone. *)
Lemma other_inv e iqs mid next s s1 : match e with Fill _ | Store | Demodulate | Hand_over => False | _ => True end ->
  in_time e s -> step e s s1 -> inv iqs mid next s -> inv iqs mid next s1.
Proof.
  intros Hne Ht [He Hr] Hi. destruct (i_settings _ _ _ _ Hi) as [Hset0 _]. pose proof (not_silent s Hset0) as Hsil.
  destruct s as [[f dev] d r ex m g p o c b h fi]. open_inv Hi. subst ex m.
  destruct e; cbn in Hne, Ht, He, Hr; try done; try (rewrite Hsil, andb_false_r in He; done); unfold in_loop in He; rewrite ?bool_decide_eq_true in He;
    try (unfold hop in Hr; cbn in He; injection He as ->; done); try injection Hr as <-.
  - destruct g; try done; subst p; close_inv.
  - destruct g; try done; close_inv.
  - destruct w; cbn in He.
    + destruct p; try done. injection He as ->. destruct g; try done; close_inv.
    + injection He as ->. close_inv. by destruct p.
    + injection He as ->. close_inv.
  - destruct w; cbn in He.
    + destruct p; try done. injection He as ->. destruct g; try done; close_inv.
    + injection He as ->. close_inv. by destruct p.
    + injection He as ->. close_inv.
  - destruct p; try done. subst o. close_inv. by destruct g.
  - cbn in He. injection He as ->. close_inv.
    + rewrite concat_app. cbn. rewrite app_nil_r. destruct p; by rewrite ?app_nil_r.
    + by destruct p.
Qed.

Lemma inv_step e s s1 : in_time e s -> step e s s1 -> inv_at s -> inv_at s1.
Proof.
  intros Ht [He Hr] (iqs & mid & next & Hi). destruct e.
  all: try (exists iqs, mid, next; match type of Hr with run ?e _ = _ => exact (other_inv e iqs mid next s s1 I Ht (conj He Hr) Hi) end).
  - injection Hr as <-. exact (fill_inv buf iqs mid next s Ht He Hi).
  - exact (store_inv iqs mid next s s1 Ht Hr Hi).
  - exact (demodulate_inv iqs mid next s s1 He Hr Hi).
  - injection Hr as <-. exact (hand_inv iqs mid next s Ht He Hi).
Qed.

Lemma started_in_time radio : demod radio.1 = s0 -> dg_offset_tuning (dongle radio.1) = off -> dg_mute (dongle radio.1) = 0 ->
  inv_at (started radio).
Proof.
  intros Hset Hoff Hm. exists [], None, None. constructor; try done; unfold chained; cbn [concat]; rewrite chain_nil; [done|].
  exists demod_init. split; [by apply init_tracks|done].
Qed.

(** A block is on its way, or everything waits. *)
Definition at_rest (s : threads) : bool :=
  match t_dongle s, t_demod_at s, t_output s with (Reading | Dongle_ended), In_loop Waiting, Waiting => true | _, _, _ => false end.

Lemma inv_defined e s : inv_at s -> in_time e s -> enabled e s = true -> is_Some (run e s).
Proof.
  intros (iqs & mid & next & Hi) Ht He. destruct (i_settings _ _ _ _ Hi) as (Hset & Hoff & _).
  destruct e; try (by eexists); cbn in He; cbn [run].
  - pose proof (i_next _ _ _ _ Hi) as Hn. pose proof (i_mid _ _ _ _ Hi) as Hmid. unfold working in Hmid. cbn in Ht. rewrite Ht in Hmid.
    pose proof (i_good _ _ _ _ Hi) as Hg. destruct (i_demod _ _ _ _ Hi) as (d0 & Htr & Hd). unfold store.
    destruct (t_dongle s); try done. destruct Hn as (-> & iq & -> & ->). destruct mid; [done|]. subst d0. rewrite Hoff.
    apply Forall_app in Hg as [_ Hg]. cbn in Hg. apply Forall_cons in Hg as [Hiq _].
    destruct (turn_parts _ _ iq Htr Hiq) as (d1 & -> & _). by eexists.
  - unfold demodulate. rewrite Hset. pose proof (i_mid _ _ _ _ Hi) as Hmid. unfold in_loop, loop_of, demod_loop in He.
    rewrite bool_decide_eq_true in He. unfold working in Hmid. pose proof (i_demod _ _ _ _ Hi) as Hd. pose proof (i_good _ _ _ _ Hi) as Hg.
    destruct (t_demod_at s) as [l| |]; try done. injection He as ->. destruct mid as [iq|]; [|done].
    destruct Hd as (d0 & Htr & d1 & E & ->). apply Forall_app in Hg as [_ Hg]. cbn in Hg. apply Forall_cons in Hg as [Hiq _].
    destruct (turn_parts _ _ iq Htr Hiq) as (d1' & E' & d2 & E2 & _). assert (d1' = d1) as -> by congruence. rewrite E2. by eexists.
  - unfold in_loop in He. rewrite bool_decide_eq_true in He. cbn in He. injection He as He.
    destruct (i_calm _ _ _ _ Hi) as (_ & _ & Hc). by rewrite He in Hc.
Qed.

(** All events but the arrival of a block. *)
Definition quiet (e : event) (s : threads) : Prop := in_time e s /\ match e with Fill _ => False | _ => True end.

Definition loop_work (l : loop_at) : nat := match l with Testing => 2 | Entering => 1 | Woken => 3 | _ => 0 end.
Definition work (s : threads) : nat :=
  match t_dongle s with Reading => 1 | Filled _ _ => 12 | Stored => 11 | Dongle_ended => 0 end +
  match t_demod_at s with In_loop Woken => 9 | In_loop l => loop_work l | Demodulated => 8 | Handed => 7 end +
  loop_work (t_output s) + loop_work (t_controller s).

Lemma quiet_step e s s1 : quiet e s -> step e s s1 -> inv_at s -> inv_at s1 /\ (work s1 < work s)%nat.
Proof.
  intros [Ht Hq] Hst Hi. split; [by apply (inv_step e s)|]. destruct Hst as [He Hr], Hi as (iqs & mid & next & Hi).
  destruct (i_settings _ _ _ _ Hi) as [Hset0 _]. pose proof (not_silent s Hset0) as Hsil.
  destruct s as [[f dev] d r ex m g p o c b h fi]. open_inv Hi. subst ex m. unfold work.
  destruct e; cbn in Hq, Ht, He, Hr; try done; try (rewrite Hsil, andb_false_r in He; done); unfold in_loop in He;
    rewrite ?bool_decide_eq_true in He; cbn in He; try (injection He as ->; done).
  - unfold store in Hr. cbn in Hr. destruct g; try done. destruct (callback _ _ _ _); [|done]. injection Hr as <-. cbn. lia.
  - injection Hr as <-. destruct g; try done. subst p. cbn. lia.
  - injection Hr as <-. destruct g; try done. cbn. lia.
  - injection Hr as <-. destruct w; cbn in He; [destruct p; try done|..]; injection He as ->; cbn; lia.
  - injection Hr as <-. destruct w; cbn in He; [destruct p; try done|..]; injection He as ->; cbn; lia.
  - unfold demodulate in Hr. cbn in Hr. destruct p as [l| |]; try done. injection He as ->. destruct (full_demod _ _); [|done].
    injection Hr as <-. cbn. lia.
  - injection Hr as <-. destruct p; try done. cbn. lia.
  - injection Hr as <-. destruct p; try done. subst o. cbn. lia.
  - injection Hr as <-. injection He as ->. cbn. lia.
Qed.

Lemma quiet_work_bound s : (work s <= 27)%nat.
Proof. unfold work, loop_work. destruct (t_dongle s), (t_demod_at s) as [[]| |], (t_output s), (t_controller s); lia. Qed.

Lemma step_blocks e s s1 : match e with Fill _ => False | _ => True end -> step e s s1 -> t_blocks s1 = t_blocks s.
Proof.
  intros Hne [_ Hr]. destruct s as [rd d r ex m g p o c b h fi]. destruct e; cbn in Hne, Hr; try done; try (injection Hr as <-; try done).
  - unfold store in Hr. cbn in Hr. destruct g; try done. destruct (callback _ _ _ _); [|done]. by injection Hr as <-.
  - unfold wake. cbn. by destruct p.
  - by destruct w.
  - by destruct w.
  - by destruct w.
  - unfold demodulate in Hr. cbn in Hr. destruct (full_demod _ _); [|done]. by injection Hr as <-.
  - unfold hop in Hr. cbn in Hr. destruct (controller_hop _ _) as [[u rd']|]; [|done]. by injection Hr as <-.
  - destruct m; unfold main_turn, wake; cbn; by try destruct p.
Qed.

Lemma quiet_blocks es s s' : runs quiet es s s' -> t_blocks s' = t_blocks s.
Proof. induction 1 as [|e es s s1 s2 [_ Hq] Hst _ IH]; [done|]. by rewrite IH, (step_blocks e s). Qed.

Lemma quiet_progress s : inv_at s -> at_rest s = false -> exists e s1, quiet e s /\ step e s s1.
Proof.
  intros Hi Hr. assert (exists e, quiet e s /\ enabled e s = true) as (e & Hq & He).
  { destruct Hi as (iqs & mid & next & Hi). destruct (i_settings _ _ _ _ Hi) as [Hset0 _]. pose proof (not_silent s Hset0) as Hsil.
    destruct s as [[f dev] d r ex m g p o c b h fi]. open_inv Hi. unfold at_rest in Hr. cbn in Hr.
    destruct p as [[]| |].
    - by exists (Test Demod_thread).
    - by exists (Enter Demod_thread).
    - destruct g; [..|by exists Store|by exists Signal_demod|].
      all: destruct o; [by exists (Test Output_thread)|by exists (Enter Output_thread)|done|by exists Write|done].
    - by exists Demodulate.
    - done.
    - destruct o; [by exists (Test Output_thread)|by exists (Enter Output_thread)| |by exists Write|done].
      exists Hand_over. split; [done|]. cbn. by rewrite Hsil.
    - by exists Signal_output. }
  destruct (inv_defined e s Hi (proj1 Hq) He) as [s1 Hs1]. by exists e, s1.
Qed.

#[local] Instance flat_inj : Inj (=) (=) flat.
Proof. intros l. induction l as [|[x y] l IH]; intros [|[x' y'] l'] E; try done. cbn in E. injection E as -> -> E. by rewrite (IH l' E). Qed.

(** What is in the file. *)
Lemma inv_file s iqs : inv_at s -> t_blocks s = map flat iqs ->
  let whole := audio s0 off (concat iqs) in
  concat (t_file s) `prefix_of` whole /\ (at_rest s = true -> concat (t_file s) = whole).
Proof.
  intros (done_ & mid & next & Hi) Hb. pose proof (plain_window s0 Hs). cbv zeta. rewrite <- chain_audio by lia.
  assert (iqs = done_ ++ option_list mid ++ option_list next) as -> by (apply (inj (map flat)); by rewrite <- Hb, (i_blocks _ _ _ _ Hi)).
  destruct (Forall_app (good_buf s0) done_ (option_list mid ++ option_list next)) as [Hg _].
  destruct (Hg (i_good _ _ _ _ Hi)) as [Hg1 _]. clear Hg.
  pose proof (i_output _ _ _ _ Hi) as Ho. rewrite (i_handed _ _ _ _ Hi) in Ho. split.
  - rewrite concat_app. assert (exists n, length (concat done_) = (4 * n)%nat) as [n Hn] by (by apply blocks_of_four).
    rewrite (chain_app s0 off start _ _ n Hn). cbn [fst]. unfold chained in Ho. rewrite <- Ho, <- app_assoc. by eexists.
  - intros Hr. unfold at_rest in Hr. pose proof (i_mid _ _ _ _ Hi) as Hmid. pose proof (i_next _ _ _ _ Hi) as Hn.
    unfold working, pending in *. destruct (t_dongle s); try done; destruct (t_demod_at s) as [[]| |]; try done; destruct (t_output s); try done;
      destruct mid; try done; subst next; cbn in *; rewrite !app_nil_r in *; exact Ho.
Qed.
End in_time.

(** ** The end *)

(** [do_exit] is set, no thread is between its test and its wait, and what main
    joins was woken if it waited. *)
Definition main_after (m : main_at) : nat :=
  match m with
  | Sleeping => 0 | Cancelled => 1 | Dongle_joined => 2 | Demod_signalled => 3 | Demod_joined => 4
  | Output_signalled => 5 | Output_joined => 6 | Hop_signalled => 7 | All_joined => 8
  end.

(** A loop that main will signal at its turn [n]. *)
Definition ends (n : nat) (m : main_at) (l : loop_at) : Prop :=
  match l with Entering => False | Waiting => (main_after m <= n)%nat | _ => True end.

Record ending (s : threads) : Prop := {
  e_exit : t_exit s = true;
  e_demod : match t_demod_at s with In_loop l => ends 2 (t_main s) l | _ => True end;
  e_output : ends 4 (t_main s) (t_output s);
  e_controller : ends 6 (t_main s) (t_controller s);
  e_joined : (2 <= main_after (t_main s))%nat -> t_dongle s = Dongle_ended;
}.

Definition end_loop (l : loop_at) : nat := match l with Waiting => 3 | Woken => 2 | Testing => 1 | _ => 0 end.
Definition demod_end (l : loop_at) : nat := match l with Waiting => 6 | Woken => 5 | Testing => 1 | _ => 0 end.
Definition end_work (s : threads) : nat :=
  match t_dongle s with Reading => 1 | Filled _ _ => 3 | Stored => 2 | Dongle_ended => 0 end +
  match t_demod_at s with In_loop l => demod_end l | Demodulated => 4 | Handed => 3 end +
  end_loop (t_output s) + end_loop (t_controller s) + (8 - main_after (t_main s)).

Lemma end_signal l : (end_loop (signal l) <= end_loop l)%nat.
Proof. destruct l; cbn; lia. Qed.
Lemma ends_signal n m m' l : ends n m l -> ends n m' (signal l).
Proof. by destruct l. Qed.
Lemma ends_weaken n m m' l : ends n m l -> ((main_after m <= n)%nat -> (main_after m' <= n)%nat) -> ends n m' l.
Proof. destruct l; cbn; auto. Qed.

Lemma demod_end_signal l : (demod_end (signal l) <= demod_end l)%nat.
Proof. destruct l; cbn; lia. Qed.

Lemma main_ending s : main_enabled s = true -> ending s -> ending (main_turn s) /\ (end_work (main_turn s) < end_work s)%nat.
Proof.
  intros He [Hx Hd Ho Hc Hj]. destruct s as [rd d r ex m g p o c b h fi].
  cbn [t_radio t_demod t_result t_exit t_main t_dongle t_demod_at t_output t_controller t_blocks t_handed t_file] in *. subst ex.
  unfold end_work. pose proof (end_signal o). pose proof (end_signal c).
  destruct p as [l| |]; [pose proof (demod_end_signal l)|..];
    destruct m; unfold main_turn, wake, main_enabled in *; cbn in He |- *; try done;
    (split; [constructor; cbn; try done; try (by eapply ends_signal); try (eapply ends_weaken; [eassumption|cbn; lia]);
      try (intros; apply Hj; cbn; lia); try (by destruct g)|cbn in *; lia]).
Qed.

Lemma ending_step e s s1 : step e s s1 -> ending s -> ending s1 /\ (end_work s1 < end_work s)%nat.
Proof.
  intros [He Hr] Hen. destruct e; try (injection Hr as <-; by apply main_ending); destruct Hen as [Hx Hd Ho Hc Hj].
  all: destruct s as [rd d r ex m g p o c b h fi].
  all: cbn [t_radio t_demod t_result t_exit t_main t_dongle t_demod_at t_output t_controller t_blocks t_handed t_file] in *; subst ex.
  all: unfold end_work; pose proof (end_signal o); pose proof (end_signal c).
  all: cbn in He, Hr; unfold in_loop in He; rewrite ?bool_decide_eq_true in He; cbn in He; try done.
  - by destruct g.
  - unfold store in Hr. cbn in Hr. destruct g; try done. destruct (callback _ _ _ _); [|done]. injection Hr as <-.
    split; [constructor; cbn; try done; intros Hm; by discriminate (Hj Hm)|cbn in *; lia].
  - injection Hr as <-. destruct g; try done. unfold wake. destruct p as [l| |]; [pose proof (demod_end_signal l)|..];
      (split; [constructor; cbn; try done; try (by eapply ends_signal); intros Hm; by discriminate (Hj Hm)|cbn in *; lia]).
  - injection Hr as <-. destruct g; try done. split; [constructor; cbn; done|cbn in *; lia].
  - injection Hr as <-. destruct w; cbn in He; [destruct p; try done|..]; injection He as ->; (split; [constructor; cbn; done|cbn in *; lia]).
  - destruct w; cbn in He; [destruct p; try done|..]; by injection He as ->.
  - injection Hr as <-. destruct w; cbn in He; [destruct p; try done|..]; injection He as ->; (split; [constructor; cbn; done|cbn in *; lia]).
  - unfold demodulate in Hr. cbn in Hr. destruct p; try done. injection He as ->. destruct (full_demod _ _); [|done]. injection Hr as <-.
    split; [constructor; cbn; done|cbn in *; lia].
  - injection Hr as <-. destruct p; try done. split; [constructor; cbn; try done; by eapply ends_signal|cbn in *; lia].
  - injection Hr as <-. destruct p; try done. split; [constructor; cbn; done|cbn in *; lia].
  - injection Hr as <-. destruct p; try done. split; [constructor; cbn; try done; by eapply ends_signal|cbn in *; lia].
  - injection Hr as <-. injection He as ->. split; [constructor; cbn; done|cbn in *; lia].
  - unfold hop in Hr. cbn in Hr. injection He as ->. destruct (controller_hop _ _) as [[u rd']|]; [|done]. injection Hr as <-.
    split; [constructor; cbn; done|cbn in *; lia].
Qed.

Lemma end_work_bound s : (end_work s <= 23)%nat.
Proof. unfold end_work, demod_end, end_loop. destruct (t_dongle s), (t_demod_at s) as [[]| |], (t_output s), (t_controller s); lia. Qed.

(** Some thread can go on until main has joined all. *)
Lemma ending_progress s : ending s -> t_main s <> All_joined -> exists e, enabled e s = true.
Proof.
  intros [Hx Hd Ho Hc Hj] Hm. destruct s as [rd d r ex m g p o c b h fi].
  cbn [t_radio t_demod t_result t_exit t_main t_dongle t_demod_at t_output t_controller t_blocks t_handed t_file] in *. subst ex.
  assert (forall w l, loop_of w (mk_threads rd d r true m g p o c b h fi) = Some l -> l = Testing \/ l = Woken ->
    exists e, enabled e (mk_threads rd d r true m g p o c b h fi) = true) as Hloop.
  { intros w l Hl [-> | ->].
    - exists (Test w). by apply bool_decide_eq_true.
    - destruct w; [exists Demodulate|exists Write|exists Hop]; by apply bool_decide_eq_true. }
  destruct m; try (by exists Main_turn); try done.
  - destruct g; [by exists Dongle_end|by exists Store|by exists Signal_demod|by exists Main_turn].
  - destruct p as [l| |].
    + destruct l; cbn in Hd; try lia; try done; try (by eapply (Hloop Demod_thread); eauto). by exists Main_turn.
    + destruct (silent (mk_threads rd d r true Demod_signalled g Demodulated o c b h fi)) eqn:Es; [exists Ask_hop|exists Hand_over]; cbn; by rewrite Es.
    + by exists Signal_output.
  - destruct o; cbn in Ho; try lia; try done; try (by eapply (Hloop Output_thread); eauto). by exists Main_turn.
  - destruct c; cbn in Hc; try lia; try done; try (by eapply (Hloop Controller_thread); eauto). by exists Main_turn.
Qed.

(** When everything waits, an interrupt ends the program. *)
Lemma interrupted_ending s : at_rest s = true -> t_controller s = Waiting -> t_main s = Sleeping -> ending (set_exit true s).
Proof.
  destruct s as [rd d r ex m g p o c b h fi]. unfold at_rest. cbn. intros Hr -> ->.
  destruct g; try done; destruct p as [[]| |]; try done; destruct o; try done; constructor; cbn; done || lia.
Qed.

(** ** In any order *)

(** Each result was written some number of times, in their order. *)
Definition in_order (s : threads) : Prop :=
  exists ns hs n, t_handed s = hs ++ [t_result s] /\ length ns = length hs /\
    t_file s = concat (zip_with replicate ns hs) ++ replicate n (t_result s).

Lemma in_order_step e s s1 : step e s s1 -> in_order s -> in_order s1.
Proof.
  intros [He Hr] (ns & hs & n & Hh & Hl & Hf). destruct s as [rd d r ex m g p o c b h fi]. cbn in Hh, Hf. subst h fi.
  assert (forall s, t_handed s = hs ++ [r] -> t_result s = r -> t_file s = concat (zip_with replicate ns hs) ++ replicate n r -> in_order s) as Hsame
    by (intros s E1 E2 E3; exists ns, hs, n; by rewrite E1, E2, E3).
  destruct e; cbn in Hr; try (injection Hr as <-).
  - by apply Hsame.
  - unfold store in Hr. cbn in Hr. destruct g; try done. destruct (callback _ _ _ _); [|done]. injection Hr as <-. by apply Hsame.
  - apply Hsame; unfold wake; cbn; by destruct p.
  - by apply Hsame.
  - by destruct w; apply Hsame.
  - by destruct w; apply Hsame.
  - by destruct w; apply Hsame.
  - unfold demodulate in Hr. cbn in Hr. destruct (full_demod _ _); [|done]. injection Hr as <-. by apply Hsame.
  - by apply Hsame.
  - exists (ns ++ [n]), (hs ++ [r]), 0%nat. cbn. split; [done|]. rewrite !length_app, Hl. split; [done|].
    rewrite zip_with_app by done. rewrite concat_app. cbn. by rewrite !app_nil_r.
  - by apply Hsame.
  - exists ns, hs, (n + 1)%nat. cbn. split; [done|]. split; [done|]. by rewrite replicate_add, app_assoc.
  - unfold hop in Hr. cbn in Hr. destruct (controller_hop _ _) as [[u rd']|]; [|done]. injection Hr as <-. by apply Hsame.
  - by apply Hsame.
  - apply Hsame; destruct m; unfold main_turn, wake; cbn; by try destruct p.
Qed.

(** Whatever the order of events, the file has whole results in their order;
    some may be missing, some repeated. *)
Lemma written_in_order radio es s : runs any es (started radio) s ->
  exists ns, length ns = length (t_handed s) /\ t_file s = concat (zip_with replicate ns (t_handed s)).
Proof.
  intros Hr. assert (in_order s) as (ns & hs & n & -> & Hl & ->).
  { apply (runs_inv enabled run any in_order (fun e s1 s2 _ => in_order_step e s1 s2) es (started radio) s Hr). by exists [], [], 0%nat. }
  exists (ns ++ [n]). rewrite !length_app, Hl. split; [done|]. rewrite zip_with_app by done. rewrite concat_app. cbn. by rewrite app_nil_r.
Qed.
End events.

(** C10: rtl_fm's threads in time, with a plain signal path (as in
    [demod_stream]).  A run is in time ([in_time]) when each block that is
    delivered is one that the path takes, a block is stored only while the
    demodulation waits and a result only while the output waits, no
    pthread_cond_wait returns without a signal, and the program is not yet
    interrupted.  In every order of the threads that is in time, every event in
    time is defined; what was written is at any time the beginning of the audio of
    all blocks that arrived; and without a new block every run in time ends after
    at most 27 events, with the whole audio written.  The code does not see to it
    that a run is in time, as its waits test no condition: what happens otherwise
    is in [spurious_demodulates_again], [exit_demodulates_again],
    [block_demodulated_twice] and [result_lost_and_repeated]. *)
Theorem audio_in_time `{libm} (log2 : double -> double) (s0 : demod_settings) (radio : fm * rtlsdr_dev) (es : list event) (s : threads) :
  plain s0 -> demod radio.1 = s0 -> dg_mute (dongle radio.1) = 0 ->
  runs_by enabled (run log2) (in_time s0) es (started radio) s ->
  exists iqs, t_blocks s = map flat iqs /\
    let whole := audio s0 (dg_offset_tuning (dongle radio.1)) (concat iqs) in
    concat (t_file s) `prefix_of` whole /\
    (forall e, in_time s0 e s -> enabled e s = true -> is_Some (run log2 e s)) /\
    (forall es' s', runs_by enabled (run log2) (quiet s0) es' s s' ->
       (length es' <= 27)%nat /\
       (at_rest s' = false -> exists e s2, quiet s0 e s' /\ step_by enabled (run log2) e s' s2) /\
       (at_rest s' = true -> concat (t_file s') = whole)).
Proof.
  intros Hs Hset Hm Hr. set (off := dg_offset_tuning (dongle radio.1)).
  assert (forall es s s', runs_by enabled (run log2) (in_time s0) es s s' -> inv_at s0 off s -> inv_at s0 off s') as Hinv
    by (intros es1 s1 s2; apply runs_inv; intros; by eapply (inv_step log2 s0 off Hs)).
  assert (inv_at s0 off s) as Hi by (eapply Hinv; [done|by apply (started_in_time s0 off Hs)]).
  destruct Hi as (iqs0 & mid & next & Hi0). exists (iqs0 ++ option_list mid ++ option_list next). pose proof (i_blocks _ _ _ _ _ _ Hi0) as Hb.
  assert (inv_at s0 off s) as Hi by (by exists iqs0, mid, next). split; [done|]. cbv zeta.
  destruct (inv_file s0 off Hs s _ Hi Hb) as [Hp _]. split; [done|]. split; [intros e; by apply (inv_defined log2 s0 off Hs)|].
  intros es' s' Hq. assert (inv_at s0 off s' /\ t_blocks s' = t_blocks s) as [Hi' Hb'].
  { split; [eapply (runs_inv enabled (run log2) (quiet s0) (inv_at s0 off)); [|done|done]; intros e a b' [Ht _]; by apply (inv_step log2 s0 off Hs)|].
    by apply (quiet_blocks log2 s0 es'). }
  split; [|split].
  - pose proof (runs_measure enabled (run log2) (quiet s0) (inv_at s0 off) work (quiet_step log2 s0 off Hs) es' s s' Hq Hi). pose proof (quiet_work_bound s). lia.
  - by apply (quiet_progress log2 s0 off Hs).
  - apply (inv_file s0 off Hs s' _ Hi'). by rewrite Hb'.
Qed.

(** C11: rtl_fm's end: once [do_exit] is set while no thread is between its test
    of it and its wait, every run of the threads and of main, also with waits
    that return by themselves, has at most 23 events, and it goes on until main
    has joined all threads. *)
Theorem main_joins_all `{libm} (log2 : double -> double) (es : list event) (s s' : threads) :
  ending s -> runs_by enabled (run log2) any es s s' ->
  (length es <= 23)%nat /\ ((forall e, enabled e s' = false) -> t_main s' = All_joined).
Proof.
  intros He Hr. assert (forall e s1 s2, any e s1 -> step_by enabled (run log2) e s1 s2 -> ending s1 -> ending s2 /\ (end_work s2 < end_work s1)%nat) as Hstep
    by (intros e s1 s2 _; apply ending_step).
  split.
  - pose proof (runs_measure enabled (run log2) any ending end_work Hstep es s s' Hr He). pose proof (end_work_bound s). lia.
  - intros Hno. assert (ending s') as He' by (apply (runs_inv enabled (run log2) any ending (fun e a b Ha Hab Hen => proj1 (Hstep e a b Ha Hab Hen)) es s s' Hr He)).
    destruct (decide (t_main s' = All_joined)) as [|Hm]; [done|]. destruct (ending_progress s' He' Hm) as [e Hen]. by rewrite Hno in Hen.
Qed.

(** ** Examples *)

(** A run that is in time, computed; [known] are blocks that are good. *)
Definition in_timeb (known : list (list Z)) (e : event) (s : threads) : bool :=
  match e with
  | Fill buf => bool_decide (buf ∈ known)
  | Store => bool_decide (t_demod_at s = In_loop Waiting)
  | Hand_over => bool_decide (t_output s = Waiting)
  | Spurious _ | Interrupt => false
  | _ => true
  end.
Lemma in_timeb_ok s0 iqs : Forall (good_buf s0) iqs -> forall e s, in_timeb (map flat iqs) e s = true -> in_time s0 e s.
Proof.
  intros Hg e s He. destruct e; cbn in *; try done; rewrite ?bool_decide_eq_true in He; try done.
  apply list_elem_of_fmap in He as (iq & -> & Hiq). exists iq. split; [done|]. by apply (proj1 (Forall_forall _ _) Hg).
Qed.

Definition ssb_radio : fm * rtlsdr_dev := (RtlFmControl.set_demod ssb_settings fm_init, new_dev (env_ok (fun _ _ _ => 0x69))).

(** A thread goes round its loop to its wait. *)
Definition round (w : thread) : list event := [Test w; Enter w].

Definition ssb_run : list event :=
  match map flat ssb_bufs with
  | [b1; b2] =>
      round Output_thread ++ round Demod_thread ++ [Fill b1; Store; Signal_demod; Demodulate; Fill b2; Hand_over; Signal_output] ++
      round Demod_thread ++ [Store; Signal_demod; Write; Demodulate] ++ round Output_thread ++ [Hand_over; Signal_output; Write]
  | _ => []
  end.

Abbreviation test_run := (run (H := test_libm) (fun x => x)).
Abbreviation ssb_threads := (run_if enabled test_run (in_timeb (map flat ssb_bufs)) ssb_run (started ssb_radio)).

Lemma ssb_file : match ssb_threads with Some s => t_file s | None => [] end = [[280]; [-207]].
Proof. vm_compute. reflexivity. Qed.

Lemma ssb_plain : plain ssb_settings.
Proof. split; cbn; done || lia. Qed.
Lemma ssb_good : Forall (good_buf ssb_settings) ssb_bufs.
Proof. repeat constructor; try (by compute); by exists 1%nat. Qed.

Lemma audio_in_time_witness :
  match ssb_threads with
  | Some s => exists iqs, t_blocks s = map flat iqs /\
      let whole := audio (H := test_libm) ssb_settings false (concat iqs) in
      concat (t_file s) `prefix_of` whole /\
      (forall e, in_time ssb_settings e s -> enabled e s = true -> is_Some (test_run e s)) /\
      (forall es' s', runs_by enabled test_run (quiet ssb_settings) es' s s' ->
         (length es' <= 27)%nat /\
         (at_rest s' = false -> exists e s2, quiet ssb_settings e s' /\ step_by enabled test_run e s' s2) /\
         (at_rest s' = true -> concat (t_file s') = whole))
  | None => False
  end.
Proof.
  destruct ssb_threads as [s|] eqn:E; [|pose proof ssb_file as F; rewrite E in F; discriminate F].
  refine (audio_in_time (H := test_libm) (fun x => x) ssb_settings ssb_radio ssb_run s _ eq_refl eq_refl _).
  - exact ssb_plain.
  - exact (run_if_runs enabled test_run (in_time ssb_settings) _ (in_timeb_ok ssb_settings ssb_bufs ssb_good) ssb_run (started ssb_radio) s E).
Defined.

(** Everything waits when the signal comes. *)
Definition interrupted : threads :=
  set_exit true (mk_threads ssb_radio demod_init [] false Sleeping Reading (In_loop Waiting) Waiting Waiting [] [[]] []).
Definition first_turns : list event := [Main_turn; Dongle_end; Main_turn; Main_turn].

Lemma main_joins_all_witness :
  exists s, run_if enabled test_run (fun _ _ => true) first_turns interrupted = Some s /\
    (length first_turns <= 23)%nat /\ ((forall e, enabled e s = false) -> t_main s = All_joined).
Proof.
  eexists. split; [reflexivity|].
  apply (main_joins_all (H := test_libm) (fun x => x) first_turns interrupted).
  - by apply interrupted_ending.
  - by apply (run_if_runs enabled test_run any (fun _ _ => true)).
Defined.

(** ** What can go wrong *)

Section wrong.
Context `{libm} (log2 : double -> double).

(** The signal comes between the test of [do_exit] and the wait: main wakes nobody,
    and joins a thread that waits for ever. *)
Lemma exit_can_hang radio : exists s,
  run_if enabled (run log2) (fun _ _ => true) [Test Demod_thread; Interrupt; Main_turn; Dongle_end; Main_turn; Main_turn; Enter Demod_thread; Test Output_thread;
    Test Controller_thread] (started radio) = Some s /\
  t_main s = Demod_signalled /\ forall e, enabled e s = true -> e = Spurious Demod_thread.
Proof. eexists. split; [reflexivity|]. split; [done|]. by intros [| | | |[]|[]|[]| | | | | | | |] He. Qed.

(** The demodulation is faster than the output once: the result in between is
    lost, and the next one is written twice. *)
Lemma result_lost_and_repeated s : t_demod_at s = Demodulated -> silent s = false -> t_output s = Woken -> t_exit s = false ->
  let r := take (Z.to_nat (result_len (t_demod s))) (result (t_demod s)) in
  exists s', run_if enabled (run log2) (fun _ _ => true) [Hand_over; Write; Test Output_thread; Enter Output_thread; Signal_output; Write] s = Some s' /\
    t_file s' = t_file s ++ [r; r] /\ t_handed s' = t_handed s ++ [r].
Proof.
  intros Hd Hs Ho Hx. destruct s as [rd d r ex m g p o c b h fi]. cbn in Hd, Ho, Hx. subst p o ex. unfold run_if.
  replace (enabled Hand_over _) with true by (symmetry; cbn; by rewrite Hs). eexists. split; [reflexivity|]. cbn. by rewrite <- app_assoc.
Qed.

(** A block that comes before the demodulation has begun takes the place of the
    one before, and is demodulated a second time. *)
Lemma block_demodulated_twice s mute buf d1 d2 d3 : t_dongle s = Filled mute buf -> t_demod_at s = In_loop Woken -> t_exit s = false ->
  silent (set_demod_state d2 s) = false ->
  callback (offset s) mute buf (t_demod s) = Some d1 -> full_demod (settings s) d1 = Some d2 -> full_demod (settings s) d2 = Some d3 ->
  exists s', run_if enabled (run log2) (fun _ _ => true) [Store; Demodulate; Hand_over; Signal_output; Test Demod_thread; Enter Demod_thread; Signal_demod; Demodulate] s = Some s' /\
    t_demod s' = d3.
Proof.
  intros Hg Hp Hx Hs E1 E2 E3. destruct s as [rd d r ex m g p o c b h fi]. cbn in Hg, Hp, Hx. subst g p ex. unfold offset, settings in *. cbn in E1, E2, E3.
  cbn [run_if]. cbn [enabled t_dongle run]. unfold store, offset. cbn. rewrite E1. cbn. unfold demodulate, settings. cbn. rewrite E2. cbn.
  unfold silent, settings in *. cbn in Hs |- *. rewrite Hs. cbn. rewrite E3. by eexists.
Qed.

(** A wait that returns without a signal: the old block is demodulated again, and
    its audio is written. *)
Lemma spurious_demodulates_again s d1 : at_rest s = true -> t_exit s = false ->
  full_demod (settings s) (t_demod s) = Some d1 -> silent (set_demod_state d1 s) = false ->
  exists s', run_if enabled (run log2) (fun _ _ => true) [Spurious Demod_thread; Demodulate; Hand_over; Signal_output; Write] s = Some s' /\
    t_blocks s' = t_blocks s /\ t_file s' = t_file s ++ [take (Z.to_nat (result_len d1)) (result d1)].
Proof.
  intros Hr Hx E Hs. destruct s as [rd d r ex m g p o c b h fi]. unfold at_rest in Hr. cbn in Hr, Hx. subst ex.
  destruct p as [[]| |]; try done; try (by destruct g). destruct o; try (by destruct g). unfold settings in *. cbn in E. cbn. unfold demodulate, settings. cbn. rewrite E. cbn.
  unfold silent, settings in *. cbn in Hs |- *. rewrite Hs. by eexists.
Qed.

(** At the end main wakes the demodulation although there is no new block: the
    old one is demodulated again, and its audio is written. *)
Lemma exit_demodulates_again s d1 : at_rest s = true -> t_dongle s = Reading -> t_exit s = false -> t_main s = Sleeping ->
  full_demod (settings s) (t_demod s) = Some d1 -> silent (set_demod_state d1 s) = false ->
  exists s', run_if enabled (run log2) (fun _ _ => true) [Interrupt; Main_turn; Dongle_end; Main_turn; Main_turn; Demodulate; Hand_over; Signal_output; Write] s = Some s' /\
    t_blocks s' = t_blocks s /\ t_file s' = t_file s ++ [take (Z.to_nat (result_len d1)) (result d1)].
Proof.
  intros Hr Hg Hx Hm E Hs. destruct s as [rd d r ex m g p o c b h fi]. unfold at_rest in Hr. cbn in Hr, Hg, Hx, Hm. subst g ex m.
  destruct p as [[]| |]; try done. destruct o; try done. unfold settings in *. cbn in E. cbn. unfold demodulate, settings. cbn. rewrite E. cbn.
  unfold silent, settings in *. cbn in Hs |- *. rewrite Hs. by eexists.
Qed.
End wrong.
