(* ===== verification/RtlFmControlSpec.v ===== *)
(** * rtl_fm.c: tuning and hopping

    The rate and the frequency of the dongle put the wanted signal where the
    signal path of RtlFm.v expects it; hops go round the list of frequencies;
    the sessions are safe.  Options that lead out of arrays are at the end. *)

From S2P Require Import Prelude Arrays Double DoubleOrder RtlsdrI2c Usb UsbSpec Repeater Device DeviceInv DeviceSession Enumerate Convenience.
From S2P Require Import RtlSdr RtlFm RtlFmControl.

(** ** The list of frequencies *)

Definition controller_ok (c : controller_state) : Prop := length (freqs c) = 1000%nat /\ 0 <= freq_len c <= 1000.

Lemma push_spec v c : length (freqs c) = 1000%nat -> 0 <= freq_len c < 1000 ->
  exists c', push v c = Some c' /\ controller_ok c' /\ freq_len c' = freq_len c + 1 /\
    (freq_now c', edge c', wb_mode c') = (freq_now c, edge c, wb_mode c) /\
    forall k, arr_get (freqs c') k = if k =? freq_len c then Some v else arr_get (freqs c) k.
Proof.
  intros L Hn. unfold push. destruct (arr_set_spec (freqs c) (freq_len c) v) as (l & -> & Ll & G); [lia|].
  eexists. split; [reflexivity|]. split; [split; cbn; lia|]. done.
Qed.

(** The frequencies [i], [i + step], ... up to [stop]. *)
Lemma range_loop_spec stop step n : forall fuel i c,
  0 < step -> 0 <= i -> stop + step < 2 ^ 31 -> i + Z.of_nat n * step <= stop + step ->
  stop < i + Z.of_nat n * step -> length (freqs c) = 1000%nat -> 0 <= freq_len c -> freq_len c + Z.of_nat n <= 1000 -> (n <= fuel)%nat ->
  exists c', range_loop fuel i stop step c = Some c' /\ controller_ok c' /\ freq_len c' = freq_len c + Z.of_nat n /\
    (forall k, k < freq_len c -> arr_get (freqs c') k = arr_get (freqs c) k) /\
    (forall k, 0 <= k < Z.of_nat n -> arr_get (freqs c') (freq_len c + k) = Some (i + k * step)).
Proof.
  induction n as [|n IH]; intros fuel i c Hstep Hi Hs Hle Hlt L Hn Hmax Hf.
  - exists c. destruct fuel; cbn [range_loop]; replace (i <=? stop) with false by lia; (split; [done|]);
      (split; [split; [done|lia]|]); split_and!; (lia || done || (intros; lia)).
  - destruct fuel as [|fuel]; [lia|]. cbn [range_loop]. replace (i <=? stop) with true by nia.
    destruct (push_spec (u32 i) c L ltac:(lia)) as (c1 & -> & [L1 Hn1] & E1 & _ & G1). cbn [mbind option_bind].
    rewrite u32_small in G1 by (unfold is_u32; nia). unfold FREQUENCIES_LIMIT.
    destruct (Z.leb_spec 1000 (freq_len c1)).
    + assert (n = O) as -> by lia. exists c1. split; [done|]. split; [by split|]. split; [lia|]. split.
      * intros k Hk. rewrite G1. by replace (k =? freq_len c) with false by lia.
      * intros k Hk. rewrite G1. replace (freq_len c + k =? freq_len c) with true by lia. f_equal. nia.
    + rewrite i32_small by (unfold is_i32; nia).
      destruct (IH fuel (i + step) c1) as (c' & -> & Hc' & E' & Hkeep & Hnew); try (lia || nia || done).
      exists c'. split; [done|]. split; [done|]. split; [lia|]. split.
      * intros k Hk. rewrite Hkeep by lia. rewrite G1. by replace (k =? freq_len c) with false by lia.
      * intros k Hk. destruct (Z.eqb_spec k 0) as [->|Hk0].
        -- rewrite Hkeep by lia. rewrite G1. replace (freq_len c + 0 =? freq_len c) with true by lia. f_equal. lia.
        -- replace (freq_len c + k) with (freq_len c1 + (k - 1)) by lia. rewrite Hnew by lia. f_equal. lia.
Qed.

(** ** Rate and frequency *)

(** How many samples of the dongle make one of the rate [r]: the least number
    that gives more than 1 MHz; with the half-band filters, the power of two
    after it. *)
Definition oversampling (half_band : bool) (r : Z) : Z :=
  let n := 1000000 / r + 1 in if half_band then 2 ^ (Z.log2 n + 1) else n.

Lemma oversampling_least half r : 0 < r <= 3200000 -> (half = true -> r <= 600000) ->
  let n := oversampling half r in
  0 < n <= 2097152 /\ 1000000 < n * r <= 3200000 /\
  (forall k, 0 < k -> 1000000 < k * r -> if half then n <= 2 * k else n <= k).
Proof.
  intros Hr Hh. cbv zeta. unfold oversampling.
  pose proof (Z.mul_div_le 1000000 r ltac:(lia)). pose proof (Z.mul_succ_div_gt 1000000 r ltac:(lia)).
  assert (0 <= 1000000 / r) by (apply Z.div_pos; lia).
  assert (1000000 / r <= 1000000) by (apply Z.div_le_upper_bound; nia).
  set (q := 1000000 / r) in *. clearbody q. assert (forall k, 0 < k -> 1000000 < k * r -> q + 1 <= k) as Hk by (intros; nia).
  destruct half; [|split_and!; (lia || nia || done)]. specialize (Hh eq_refl).
  pose proof (Z.log2_spec (q + 1) ltac:(lia)) as Hl. pose proof (Z.log2_nonneg (q + 1)).
  rewrite <- Z.add_1_r, Z.pow_add_r in Hl by lia. rewrite Z.pow_add_r by lia. change (2 ^ 1) with 2 in *.
  split_and!; [lia|lia|nia|nia|]. intros k Hk0 Hkr. specialize (Hk k Hk0 Hkr). lia.
Qed.

Section settings.
Context `{libm} (log2 : double -> double).

(** What [log2] of the C library is relied on for. *)
Definition log2_floor : Prop := forall n, 0 < n < 2 ^ 31 -> d_to_i32 oor (log2 (d_of_Z n)) = Z.log2 n.

(** The wanted signal has the rate [r] and the frequency [freq]: the settings
    with which the dongle sees it, a quarter of its rate below the middle. *)
Definition half_band (s : demod_settings) : bool := negb (downsample_passes s =? 0).
Definition sees (edge : Z) (offset : bool) (r freq : Z) (s : demod_settings) (d : dongle_state) : Prop :=
  downsample s = oversampling (half_band s) r /\ dg_rate d = downsample s * r /\
  (half_band s = true -> downsample s = 2 ^ downsample_passes s) /\
  dg_freq d = freq + (if offset then 0 else dg_rate d / 4) + edge * r / 2 /\
  output_scale s = (if decide (mode_demod s = fm_mode) then 1 else Z.max 1 (2 ^ 15 / (128 * downsample s))).

(** What does not change. *)
Definition same_but_settings (f f' : fm) : Prop :=
  controller f' = controller f /\ rate_in f' = rate_in f /\ dg_offset_tuning (dongle f') = dg_offset_tuning (dongle f) /\
  dg_direct_sampling (dongle f') = dg_direct_sampling (dongle f) /\ dg_mute (dongle f') = dg_mute (dongle f) /\
  half_band (demod f') = half_band (demod f) /\ mode_demod (demod f') = mode_demod (demod f).

Definition tunable (f : fm) : Prop :=
  0 < rate_in f <= 3200000 /\ (half_band (demod f) = true -> rate_in f <= 600000) /\ 0 <= edge (controller f) <= 1.

(** What the two branches compute. *)
Lemma oversampling_computed (Hlog : log2_floor) passes r : 0 < r <= 3200000 ->
  let n := i32 (Z.quot 1000000 r + 1) in
  let p := if passes =? 0 then 0 else i32 (d_to_i32 oor (log2 (d_of_Z n)) + 1) in
  (if passes =? 0 then n else i32 (Z.shiftl 1 p)) = oversampling (negb (passes =? 0)) r /\
  (p =? 0) = (passes =? 0) /\ (passes <> 0 -> oversampling true r = 2 ^ p).
Proof.
  intros Hr. cbv zeta. unfold oversampling. rewrite Z.quot_div_nonneg by lia.
  assert (0 <= 1000000 / r) by (apply Z.div_pos; lia).
  assert (1000000 / r <= 1000000) by (apply Z.div_le_upper_bound; nia).
  rewrite (i32_small (1000000 / r + 1)) by (unfold is_i32; lia). destruct (Z.eqb_spec passes 0) as [|Hp]; cbn [negb]; [done|].
  set (q := 1000000 / r) in *. clearbody q. rewrite Hlog by lia. pose proof (Z.log2_nonneg (q + 1)).
  assert (Z.log2 (q + 1) <= Z.log2 (2 ^ 20)) as H20 by (apply Z.log2_le_mono; lia). rewrite Z.log2_pow2 in H20 by lia.
  rewrite (i32_small (Z.log2 (q + 1) + 1)) by (unfold is_i32; lia). rewrite Z.shiftl_mul_pow2, Z.mul_1_l by lia.
  assert (0 < 2 ^ (Z.log2 (q + 1) + 1) <= 2 ^ 21) by (split; [lia|apply Z.pow_le_mono_r; lia]).
  rewrite i32_small by (unfold is_i32; lia). split_and!; [done|lia|done].
Qed.

Lemma optimal_settings_spec (Hlog : log2_floor) freq f : tunable f -> 0 <= freq < 2 ^ 31 - 4000000 ->
  exists f', optimal_settings log2 freq f = Some (tt, f') /\ same_but_settings f f' /\
    sees (edge (controller f)) (dg_offset_tuning (dongle f)) (rate_in f) freq (demod f') (dongle f').
Proof.
  intros (Hr & Hp & He) Hf. unfold optimal_settings.
  assert (c_div 1000000 (rate_in f) = Some (Z.quot 1000000 (rate_in f))) as ->.
  { unfold c_div. replace (rate_in f =? 0) with false by lia. replace (rate_in f =? -1) with false by lia. by rewrite andb_false_r. }
  cbn [mbind option_bind]. destruct (oversampling_computed Hlog (downsample_passes (demod f)) (rate_in f) Hr) as (Eds & Ep & Epow).
  cbv zeta in *. rewrite Eds. destruct (oversampling_least (half_band (demod f)) (rate_in f) Hr Hp) as (Hn & Hcap & _).
  unfold half_band in Hn, Hcap. set (n := oversampling _ _) in *. rewrite (i32_small (n * rate_in f)) by (unfold is_i32; lia).
  rewrite (i32_small (edge (controller f) * rate_in f)), (i32_small (128 * n)) by (unfold is_i32; nia).
  assert (Z.quot (edge (controller f) * rate_in f) 2 = edge (controller f) * rate_in f / 2) as -> by (apply Z.quot_div_nonneg; nia).
  assert (0 <= edge (controller f) * rate_in f / 2 <= 1600000) by (split; [apply Z.div_pos; nia|apply Z.div_le_upper_bound; nia]).
  assert (Z.quot (n * rate_in f) 4 = n * rate_in f / 4) as -> by (apply Z.quot_div_nonneg; lia).
  assert (0 <= n * rate_in f / 4 <= 800000) by (split; [apply Z.div_pos; lia|apply Z.div_le_upper_bound; lia]).
  assert (c_div (Z.shiftl 1 15) (128 * n) = Some (2 ^ 15 / (128 * n))) as ->.
  { unfold c_div. replace (128 * n =? 0) with false by lia. change (Z.shiftl 1 15) with (2 ^ 15). cbn [orb andb].
    by rewrite Z.quot_div_nonneg by lia. }
  cbn [mbind option_bind]. eexists. split; [reflexivity|]. split.
  - split_and!; try done. unfold half_band. cbn. by rewrite Ep.
  - unfold sees, half_band. cbn [demod dongle set_demod set_dongle dg_rate dg_freq downsample downsample_passes output_scale mode_demod].
    rewrite Ep, (u32_small (n * rate_in f)) by (unfold is_u32; lia). split_and!; [done|done| | |].
    + intros Hb. unfold n. rewrite Hb. apply Epow. lia.
    + destruct (dg_offset_tuning (dongle f)); rewrite ?(i32_small (freq + _)), u32_small, ?i32_small by (unfold is_i32, is_u32; rewrite ?i32_small by (unfold is_i32; lia); lia); lia.
    + case_decide as Hm; [by rewrite bool_decide_eq_true_2, orb_true_r by done|].
      rewrite bool_decide_eq_false_2 by done. rewrite orb_false_r. destruct (Z.ltb_spec (2 ^ 15 / (128 * n)) 1); lia.
Qed.

(** ** Hopping *)

(** The list of frequencies [c] as the thread uses it. *)
Definition channel (c : controller_state) (i : Z) : option Z :=
  v ← arr_get (freqs c) i; Some (if wb_mode c then v + 16000 else v).
Definition channels_of (c c' : controller_state) : Prop :=
  freq_len c' = freq_len c /\ edge c' = edge c /\
  forall i, 0 <= i < freq_len c -> arr_get (freqs c') i = channel c i.

(** A list that the options can have filled. *)
Definition list_ok (c : controller_state) : Prop :=
  length (freqs c) = 1000%nat /\ 0 < freq_len c <= 1000 /\ freq_now c = 0 /\
  Forall (fun v => 0 <= v < 2 ^ 31 - 5000000) (freqs c).

Lemma widen_spec f : list_ok (controller f) ->
  exists c, widen f = Some (tt, set_controller c f) /\ channels_of (controller f) c /\ freq_now c = freq_now (controller f).
Proof.
  intros (L & Hn & _ & Hv). unfold widen, channels_of, channel. destruct f as [d s r t c o g b]. cbn [controller] in *.
  destruct (wb_mode c) eqn:Hwb.
  2: { exists c. split; [done|]. split; [|done]. split_and!; [done..|]. intros i Hi. destruct (arr_get_ok (freqs c) i) as [v ->]; [lia|done]. }
  destruct (for_arr_inv (fun i l => v ← arr_get l i; arr_set l i (u32 (v + 16000)))
    (fun i l => length l = 1000%nat /\ forall k, arr_get l k = if (0 <=? k) && (k <? i) then channel c k else arr_get (freqs c) k)
    (Z.to_nat (freq_len c)) id (freqs c)) as (l & E & _ & Hl).
  - split; [done|]. intros k. by replace ((0 <=? k) && (k <? 0)) with false by lia.
  - intros i l Hi [Ll Hl]. unfold id. rewrite Hl. replace ((0 <=? i) && (i <? i)) with false by lia.
    destruct (arr_get_ok (freqs c) i) as [v Ev]; [lia|]. rewrite Ev. cbn [mbind option_bind].
    destruct (arr_set_spec l i (u32 (v + 16000))) as (l' & -> & Ll' & Hl'); [lia|]. exists l'. split; [done|]. split; [lia|].
    assert (0 <= v < 2 ^ 31 - 5000000) as Hvi.
    { rewrite arr_get_lookup in Ev by lia. exact (proj1 (Forall_lookup _ _) Hv _ _ Ev). }
    intros k. rewrite Hl', Hl. destruct (Z.eqb_spec k i) as [->|Hne].
    + replace ((0 <=? i) && (i <? i + 1)) with true by lia. unfold channel. rewrite Ev, Hwb. cbn [mbind option_bind].
      by rewrite u32_small by (unfold is_u32; lia).
    + by replace ((0 <=? k) && (k <? i + 1)) with ((0 <=? k) && (k <? i)) by lia.
  - rewrite map_id in E. rewrite E. cbn [mbind option_bind]. eexists. split; [reflexivity|]. split; [|done]. split_and!; [done..|].
    intros i Hi. cbn [freqs set_freqs]. rewrite Hl. replace ((0 <=? i) && (i <? Z.of_nat (Z.to_nat (freq_len c)))) with true by lia.
    unfold channel. by rewrite Hwb.
Qed.

(** The settings of [f0] that the thread keeps. *)
Definition keeps (f0 f : fm) : Prop :=
  channels_of (controller f0) (controller f) /\ rate_in f = rate_in f0 /\ dg_offset_tuning (dongle f) = dg_offset_tuning (dongle f0) /\
  half_band (demod f) = half_band (demod f0) /\ mode_demod (demod f) = mode_demod (demod f0).

Definition on_channel (f0 : fm) (i : Z) (f : fm) : Prop :=
  exists v, channel (controller f0) i = Some v /\
    sees (edge (controller f0)) (dg_offset_tuning (dongle f0)) (rate_in f0) v (demod f) (dongle f).

(** After [k] hops. *)
Definition hopped (f0 : fm) (k : nat) (f : fm) : Prop :=
  let i := Z.of_nat k mod freq_len (controller f0) in
  keeps f0 f /\ freq_now (controller f) = i /\ on_channel f0 i f /\
  dg_mute (dongle f) = if (freq_len (controller f0) <=? 1) || (k =? 0)%nat then dg_mute (dongle f0) else BUFFER_DUMP.

Lemma tune_channel (Hlog : log2_floor) f0 f i : tunable f0 -> list_ok (controller f0) -> keeps f0 f -> 0 <= i < freq_len (controller f0) ->
  exists v f', arr_get (freqs (controller f)) i = Some v /\ optimal_settings log2 (i32 v) f = Some (tt, f') /\
    keeps f0 f' /\ on_channel f0 i f' /\ freq_now (controller f') = freq_now (controller f) /\ dg_mute (dongle f') = dg_mute (dongle f).
Proof.
  intros (Hr & Hh & He) (L & Hn & _ & Hv) ((Cn & Ce & Hc) & Er & Eo & Eh & Em) Hi. rewrite Hc by done. unfold on_channel, channel.
  destruct (arr_get_ok (freqs (controller f0)) i) as [v Ev]; [lia|]. rewrite Ev. cbn [mbind option_bind].
  assert (0 <= v < 2 ^ 31 - 5000000) as Hvi.
  { rewrite arr_get_lookup in Ev by lia. exact (proj1 (Forall_lookup _ _) Hv _ _ Ev). }
  set (w := if wb_mode (controller f0) then v + 16000 else v).
  assert (0 <= w < 2 ^ 31 - 4000000) as Hw by (unfold w; destruct (wb_mode _); lia).
  destruct (optimal_settings_spec Hlog w f) as (f' & E & (Sc & Sr & So & Sd & Sm & Sh & Smd) & Hs); [|done|].
  { split; [by rewrite Er|]. split; [by rewrite Er, Eh|by rewrite Ce]. }
  exists w, f'. split; [done|]. rewrite i32_small by (unfold is_i32; lia). split; [done|]. split; [|split; [|by rewrite Sc]].
  - split; [by rewrite Sc|]. by rewrite Sr, So, Sh, Smd.
  - exists w. split; [done|]. by rewrite Ce, Eo, Er in Hs.
Qed.

Lemma wp_on_fm {A} (m : M fm A) f d a f' (Q : A -> fm * rtlsdr_dev -> Prop) :
  m f = Some (a, f') -> Q a (f', d) -> wp (on_fm m) Q (f, d).
Proof. intros E HQ. unfold wp, on_fm, zoom. cbn [fst]. by rewrite E. Qed.

(** What is done to the dongle is safe, and the program's own state stays. *)
Definition safe_at (P : fm -> Prop) (s : fm * rtlsdr_dev) : Prop := P s.1 /\ dev_ok s.2.

Lemma on_dev_safe {A} P (m : M rtlsdr_dev A) : preserves dev_ok m -> preserves (safe_at P) (on_dev m).
Proof. intros Hm [f d] [HP Hd]. apply wp_zoom. eapply wp_mono, Hm, Hd. intros a d' Hd'. by split. Qed.

Lemma wp_trap {S A} (o : option A) a (Q : A -> S -> Prop) s : o = Some a -> Q a s -> wp (from_option_trap o) Q s.
Proof. by intros ->. Qed.

Lemma start_hopped (Hlog : log2_floor) f0 : tunable f0 -> list_ok (controller f0) ->
  moves (safe_at (fun f => f = f0)) (controller_start log2) (safe_at (hopped f0 0)).
Proof.
  intros Ht Hl [f d] [E Hd]. cbn in E. subst f. destruct (widen_spec f0 Hl) as (c & Ew & Hc & Hnow).
  destruct (tune_channel Hlog f0 (set_controller c f0) 0) as (v & f' & Ev & Eo & Hk & Hon & Hfn & Hm); [done..|destruct Hl as (_ & ? & _); lia|].
  unfold controller_start. apply wp_bind. eapply wp_on_fm; [exact Ew|]. apply wp_bind, wp_gets. cbn [fst controller set_controller].
  apply wp_bind. eapply wp_trap; [exact Ev|]. apply wp_bind. eapply wp_on_fm; [exact Eo|]. apply wp_bind, wp_gets. cbn [fst].
  assert (hopped f0 0 f') as Hh.
  { unfold hopped. cbn [Z.of_nat]. rewrite Z.mod_0_l by (destruct Hl as (_ & ? & _); lia). split_and!; [apply Hk..| | |].
    - rewrite Hfn. cbn [controller set_controller]. rewrite Hnow. apply Hl.
    - exact Hon.
    - by rewrite Hm, orb_true_r. }
  match goal with |- wp ?m _ _ => assert (preserves (safe_at (hopped f0 0)) m) as Hp; [|apply Hp; by split] end.
  unfold verbose_direct_sampling, verbose_set_frequency, verbose_set_sample_rate.
  apply preserves_bind; [apply preserves_if; [apply preserves_ret|apply on_dev_safe, direct_sampling_ok]|]. intros _.
  apply preserves_bind; [apply preserves_if; [apply on_dev_safe, offset_tuning_ok|apply preserves_ret]|]. intros _.
  apply preserves_bind; [apply on_dev_safe, (set_center_freq_ok 0)|]. intros _.
  apply preserves_bind; [apply on_dev_safe, set_sample_rate_ok|]. intros _. apply preserves_ret.
Qed.

Lemma hop_hopped (Hlog : log2_floor) f0 k : tunable f0 -> list_ok (controller f0) ->
  moves (safe_at (hopped f0 k)) (controller_hop log2) (safe_at (hopped f0 (S k))).
Proof.
  intros Ht Hl [f d] [(Hk & Hnow & Hon & Hm) Hd]. cbn [fst snd] in *. pose proof (proj1 (proj2 Hl)) as Hn.
  pose proof (proj1 (proj1 Hk)) as Cn. unfold controller_hop. apply wp_bind, wp_gets. cbn [fst]. rewrite Cn.
  destruct (Z.leb_spec (freq_len (controller f0)) 1) as [H1|H1].
  - apply wp_ret. split; [|done]. assert (freq_len (controller f0) = 1) as E1 by lia. unfold hopped. rewrite E1, Z.mod_1_r in *.
    split_and!; [apply Hk..|done|done|done].
  - set (len := freq_len (controller f0)) in *. pose proof (Z.mod_pos_bound (Z.of_nat k) len ltac:(lia)).
    assert (Z.rem (i32 (freq_now (controller f) + 1)) len = Z.of_nat (S k) mod len) as ->.
    { rewrite Hnow, i32_small by (unfold is_i32; lia). rewrite Z.rem_mod_nonneg, Zplus_mod_idemp_l by lia. f_equal. lia. }
    pose proof (Z.mod_pos_bound (Z.of_nat (S k)) len ltac:(lia)). set (now := Z.of_nat (S k) mod len) in *.
    destruct (tune_channel Hlog f0 (set_controller (set_freqs (freqs (controller f)) now (controller f)) f) now)
      as (v & f' & Ev & Eo & Hk' & Hon' & Hfn & Hm'); [done|done|apply Hk|done|].
    apply wp_bind. eapply wp_on_fm; [reflexivity|]. apply wp_bind. eapply wp_trap; [exact Ev|].
    apply wp_bind. eapply wp_on_fm; [exact Eo|]. apply wp_bind, wp_gets. cbn [fst].
    apply wp_bind. eapply wp_mono; [|refine (on_dev_safe (fun g => g = f') _ (set_center_freq_ok 0 _) (f', d) _); by split].
    intros r [g d'] [Eg Hd']. cbn [fst] in Eg. subst g. eapply wp_on_fm; [reflexivity|]. split; [|done]. cbn [fst]. split; [exact Hk'|]. split; [exact Hfn|].
    split; [exact Hon'|]. fold len. by replace (len <=? 1) with false by lia.
Qed.

Lemma controller_hopped (Hlog : log2_floor) f0 hops : tunable f0 -> list_ok (controller f0) ->
  moves (safe_at (fun f => f = f0)) (controller_thread_fn log2 hops) (safe_at (hopped f0 hops)).
Proof.
  intros Ht Hl. unfold controller_thread_fn. eapply moves_bind; [by apply start_hopped|]. intros _.
  assert (forall n k, moves (safe_at (hopped f0 k)) (for_each (replicate n tt) (fun _ => controller_hop log2))
    (safe_at (hopped f0 (n + k)))) as Hn; [|by rewrite <- (Nat.add_0_r hops) at 2; apply Hn].
  induction n as [|n IH]; intros k; [by apply moves_ret|]. cbn [replicate for_each].
  eapply moves_bind; [by apply hop_hopped|]. intros _. replace (S n + k)%nat with (n + S k)%nat by lia. apply IH.
Qed.
End settings.

(** C18: the settings for a signal of the rate [rate_in] at [freq], when the rate is
    above 0 and at most 3.2 MHz, or 600 kHz with half-band filters ([tunable];
    above that the dongle can refuse, [half_band_rate_refused]).  Then the dongle
    accepts its rate, which is a multiple of that of the signal: with more than
    1 MHz the least one, or with half-band filters a power of two of at most
    twice the least (the struct's comment says at most 256, but below 3.9 kHz it is
    more: [downsample_above_256]).  It sees the signal a quarter of its rate below
    the middle, or in the middle with offset tuning, or half the signal's rate
    lower with [-E edge]; the scale of the output fits 15 bits. *)
Theorem optimal_settings_tunes `{libm} (log2 : double -> double) (freq : Z) (f : fm) :
  log2_floor log2 -> tunable f -> 0 <= freq < 2 ^ 31 - 4000000 ->
  exists f', optimal_settings log2 freq f = Some (tt, f') /\
    let n := downsample (demod f') in let rate := dg_rate (dongle f') in
    invalid_rate rate = false /\ rate = n * rate_in f /\
    (forall k, 0 < k -> 1000000 < k * rate_in f -> if half_band (demod f) then n <= 2 * k else n <= k) /\
    (half_band (demod f) = true -> n = 2 ^ downsample_passes (demod f')) /\
    freq = dg_freq (dongle f') - (if dg_offset_tuning (dongle f) then 0 else rate / 4) - edge (controller f) * rate_in f / 2 /\
    1 <= output_scale (demod f') /\ (output_scale (demod f') = 1 \/ 128 * n * output_scale (demod f') <= 2 ^ 15) /\
    (mode_demod (demod f) = fm_mode -> output_scale (demod f') = 1).
Proof.
  intros Hlog Ht Hf. pose proof Ht as (Hr & Hh & _).
  destruct (optimal_settings_spec log2 Hlog freq f Ht Hf) as (f' & E & Hs & Hds & Hrate & Hpow & Hfreq & Hsc).
  destruct Hs as (_ & _ & _ & _ & _ & Hb & Hm). exists f'. split; [done|]. cbv zeta. rewrite Hb in *. rewrite Hm in Hsc.
  destruct (oversampling_least _ _ Hr Hh) as (Hn & Hcap & Hmin). rewrite <- Hds in Hn, Hcap, Hmin. rewrite <- Hrate in Hcap.
  split_and!; [unfold invalid_rate; lia|done|done|done|rewrite Hfreq; lia|..]; rewrite Hsc; case_decide; try lia; try done.
  destruct (Z.max_spec 1 (2 ^ 15 / (128 * downsample (demod f')))) as [[_ ->]|[_ ->]]; [right|by left].
  apply Z.mul_div_le. lia.
Qed.

(** A logarithm for the examples. *)
Definition sample_log2 (x : double) : double := d_of_Z (Z.log2 (default 0 (d_trunc x))).
Definition sample_libm : libm := mk_libm (fun x _ => x) (fun x => x) (fun _ => 0).

Lemma sample_log2_floor : log2_floor (H := sample_libm) sample_log2.
Proof.
  intros n Hn. unfold sample_log2. rewrite d_trunc_of_Z by lia. cbn [default from_option id]. pose proof (Z.log2_nonneg n).
  assert (Z.log2 n < 31) by (apply Z.log2_lt_pow2; lia). unfold d_to_i32. rewrite d_trunc_of_Z by lia.
  by rewrite decide_True by (unfold is_i32; lia).
Qed.

(** FM at 100 MHz with a rate of 24 kHz; with half-band filters. *)
Lemma optimal_settings_tunes_witness :
  (exists f', optimal_settings (H := sample_libm) sample_log2 100000000 fm_init = Some (tt, f') /\ dg_rate (dongle f') = 42 * 24000) /\
  (exists f', optimal_settings (H := sample_libm) sample_log2 100000000 (set_passes 9 fm_init) = Some (tt, f') /\
    dg_rate (dongle f') = 64 * 24000).
Proof.
  split.
  - destruct (@optimal_settings_tunes sample_libm sample_log2 100000000 fm_init sample_log2_floor) as (f' & E & _);
      [repeat split; cbn; lia || done|lia|]. exists f'. split; [exact E|]. vm_compute in E. by injection E as <-.
  - destruct (@optimal_settings_tunes sample_libm sample_log2 100000000 (set_passes 9 fm_init) sample_log2_floor) as (f' & E & _);
      [repeat split; cbn; lia || done|lia|]. exists f'. split; [exact E|]. vm_compute in E. by injection E as <-.
Defined.

(** ** The session *)

Lemma fm_setup_ok f : Z.abs (dg_ppm_error (dongle f)) <= 20000 -> preserves dev_ok (fm_setup f).
Proof.
  intros Hp. unfold fm_setup, verbose_auto_gain, verbose_reset_buffer.
  apply preserves_bind; [apply preserves_if; [apply set_tuner_gain_mode_ok|apply preserves_bind; [apply nearest_gain_ok|apply verbose_gain_set_ok]]|].
  intros _. apply preserves_bind; [apply bias_tee_ok|]. intros _.
  apply preserves_bind; [by apply verbose_ppm_set_ok|]. intros _.
  apply preserves_bind; [apply reset_buffer_ok|]. intros _. apply preserves_ret.
Qed.

(** C17: the dongle opened and set up, and the thread that tunes, for a signal
    whose rate a dongle can give ([tunable]: above 0 and up to 3.2 MHz, or 600 kHz
    with half-band filters), a list of 1 to 1000 frequencies below
    [2 ^ 31 - 5000000] Hz ([list_ok]) and a correction of at most 2 %.  After any
    number of hops the program is on the next frequency of the list, round and
    round ([hopped]: with the settings of [optimal_settings_tunes] for it, 16 kHz
    higher for wide band FM); whatever the tuner and whatever transfers fail,
    nothing undefined is done and the tuner is reached through the open repeater.
    (Without the conditions there can be divisions by zero:
    [rate_zero_divides], [RtlTcpSpec.client_stops_server].) *)
Theorem controller_hops `{libm} (log2 : double -> double) (e : usb_env) (m p : string) (f : fm) (hops : nat) :
  log2_floor log2 -> tunable f -> list_ok (controller f) -> Z.abs (dg_ppm_error (dongle f)) <= 20000 ->
  wp (open_device m p;; fm_setup f)
    (fun _ d => wp (controller_thread_fn log2 hops) (fun _ s => hopped f hops s.1 /\ disciplined (usb_log (dcore s.2))) (f, d)) (new_dev e).
Proof.
  intros Hlog Ht Hl Hp. apply wp_bind. eapply wp_mono; [|apply open_device_ok]. intros u d Hd.
  eapply wp_mono; [|by apply (fm_setup_ok f)]. intros u' d' Hd'.
  eapply wp_mono; [|by apply (controller_hopped log2 Hlog f hops Ht Hl (f, d'))].
  intros u'' [f' d''] [Hh (k & _ & (_ & Hdis & _) & _)]. by split.
Qed.

(** Two frequencies: after three hops the second. *)
Definition two_channels : fm :=
  set_controller (mk_controller (100000000 :: 101000000 :: replicate 998 0) 2 0 0 false) fm_init.

Lemma controller_hops_witness :
  wp (open_device "" "";; fm_setup two_channels)
    (fun _ d => wp (controller_thread_fn (H := sample_libm) sample_log2 3) (fun _ s => freq_now (controller s.1) = 1) (two_channels, d))
    (new_dev (env_ok (fun _ _ _ => 0x69))).
Proof.
  eapply wp_mono; [|apply (@controller_hops sample_libm sample_log2 (env_ok (fun _ _ _ => 0x69)) "" "" two_channels 3 sample_log2_floor)].
  - intros u d Hw. eapply wp_mono; [|exact Hw]. intros v s [(_ & Hn & _) _]. exact Hn.
  - repeat split; cbn; lia || done.
  - split; [reflexivity|]. split; [cbn; lia|]. split; [reflexivity|]. apply (bool_decide_eq_true_1 _). vm_compute. reflexivity.
  - cbn. lia.
Defined.

(** ** Options *)

(** Three numbers [a:b:s] give the frequencies [a], [a + s], ... up to [b]. *)
Lemma frequency_range_steps `{libc, libm} arg start rest stop step a b s x y z n c :
  split_colon arg = Some (start, rest) -> split_colon rest = Some (stop, step) ->
  atofs None start = Some x -> atofs (Some 0) stop = Some y -> atofs (Some 0) step = Some z ->
  d_to_i32 oor x = a -> d_to_i32 oor y = b -> d_to_i32 oor z = s ->
  0 < s -> 0 <= a -> b + s < 2 ^ 31 -> b < a + Z.of_nat n * s <= b + s ->
  length (freqs c) = 1000%nat -> 0 <= freq_len c -> freq_len c + Z.of_nat n <= 1000 ->
  exists c', frequency_range arg c = Some c' /\ freq_len c' = freq_len c + Z.of_nat n /\
    forall k, 0 <= k < Z.of_nat n -> arr_get (freqs c') (freq_len c + k) = Some (a + k * s).
Proof.
  intros E1 E2 Ex Ey Ez <- <- <- Hs Ha Hb Hn L Hlen Hmax. unfold frequency_range. rewrite E1, E2, Ex, Ey, Ez. cbn [mbind option_bind].
  unfold FREQUENCIES_LIMIT. destruct (range_loop_spec (d_to_i32 oor y) (d_to_i32 oor z) n (Z.to_nat (1000 - freq_len c)) (d_to_i32 oor x) c)
    as (c' & -> & _ & En & _ & Hk); [lia..|]. by exists c'.
Qed.

(** The limit is tested before an option, not in it: [a:b] when there are 999. *)
Lemma range_past_end `{libc, libm} arg start rest x y c :
  split_colon arg = Some (start, rest) -> split_colon rest = None -> atofs None start = Some x -> atofs (Some 0) rest = Some y ->
  length (freqs c) = 1000%nat -> freq_len c = 999 -> frequency_range arg c = None.
Proof.
  intros E1 E2 Ex Ey L Hn. unfold frequency_range. rewrite E1, E2, Ex. cbn [mbind option_bind].
  destruct (push_spec (d_to_u32 oor x) c L ltac:(lia)) as (c1 & -> & [L1 _] & E & _). cbn [mbind option_bind]. rewrite Ey. cbn [mbind option_bind].
  unfold push, arr_set. rewrite E, Hn, L1. reflexivity.
Qed.

(** [-o] is only warned about: the table is read past its end. *)
Lemma oversample_past_table f : 16 < post_downsample (demod f) ->
  sanity_checks f = true -> output_rate f <> 0 -> after_options f = None.
Proof.
  intros Hp Hs Ho. unfold after_options. cbn [output_rate set_rate_in]. replace (output_rate f =? 0) with false by lia.
  assert (sanity_checks (set_rate_in (i32 (rate_in f * post_downsample (demod f))) f) = true) as -> by exact Hs. cbn [negb].
  assert (arr_get lcm_post (post_downsample (demod f)) = None) as E.
  { rewrite arr_get_lookup by lia. apply lookup_ge_None_2. change (length lcm_post) with 17%nat. lia. }
  by destruct (1 <? _); cbn [demod set_terminate set_rate_in]; rewrite E.
Qed.

(** A rate of 0, from [-s 0] or [-o 0]. *)
Lemma rate_zero_divides `{libm} log2 freq f : rate_in f = 0 -> optimal_settings log2 freq f = None.
Proof. intros E. unfold optimal_settings. by rewrite E. Qed.

(** With the half-band filters and a rate above 800 kHz the dongle refuses. *)
Lemma half_band_rate_refused :
  option_map (fun r => invalid_rate (dg_rate (dongle r.2)))
    (optimal_settings (H := sample_libm) sample_log2 100000000 (set_passes 9 (set_rate_in 900000 fm_init))) = Some true.
Proof. vm_compute. reflexivity. Qed.

(** A signal of 3 kHz: the comment of the struct has 256 for the maximum. *)
Lemma downsample_above_256 :
  option_map (fun r => downsample (demod r.2)) (optimal_settings (H := sample_libm) sample_log2 100000000 (set_rate_in 3000 fm_init)) = Some 334.
Proof. vm_compute. reflexivity. Qed.

(** [-l] has to come after [-M wbfm], which resets the level. *)
Lemma wbfm_resets_squelch level conseq f :
  squelch_level (demod (option_M (chars "wbfm") (set_squelch level conseq f))) = 0.
Proof. reflexivity. Qed.
