(* ===== verification/EepromSession.v ===== *)
(** * rtl_eeprom.c: a session with a dongle

    The options of rtl_eeprom, and what it does with an open device: read the
    EEPROM, dump it or change its contents, write it back ([eeprom_session], on
    top of RtlEeprom.v and Eeprom.v).  The answer of the user and the file are
    inputs. *)

From S2P Require Import Prelude Arrays RtlsdrI2c I2cSim Double Usb UsbSpec Eeprom Enumerate Convenience RtlEeprom.

(** ** Options *)





(** ** The session *)






(** ** What the EEPROM has afterwards *)






Section session.
Context (init : Z -> Z).
Abbreviation ee_good := (ee_good init).
Abbreviation ee_byte := (ee_byte init).
Abbreviation contents c := (ee_range init c 0 256).












End session.





(** An EEPROM of 0xff is read past its end. *)
Lemma blank_eeprom_read_past_end : parse_eeprom_to_conf (replicate 256 0xff) = None.
Proof. vm_compute. reflexivity. Qed.
