(* ===== verification/Mains.v ===== *)
(** * rtl_adsb.c, rtl_tcp.c, rtl_power.c, rtl_test.c: options and setup

    For each program the options that getopt delivers, the checks after them, and
    what is done to the open dongle before it is read; for rtl_tcp also the
    clients, one after the other.  What goes wrong with the dongle is only
    printed. *)

From S2P Require Import Prelude Arrays RtlsdrI2c Double Usb UsbSpec Device Repeater DeviceInv DeviceSession Enumerate.
From S2P Require Import Convenience RtlTcp RtlTcpSpec RtlSdr RtlTest.
From S2P Require Adsb RtlFm Fft RtlPower.

Definition AUTO_GAIN := -100.

(** An option with its argument and the character before it in memory gives the
    new settings; false for one that prints the usage and ends the program. *)
Definition option_result (A : Type) : Type := option (A * bool).

Definition is_word (s : list Z) (w : string) : bool := bool_decide (s = chars w).

Module AdsbMain.
Definition ADSB_RATE := 2000000.
Definition ADSB_FREQ := 1090000000.

(* src/rtl_adsb.c:372-376 main *)
Record adsb_settings : Type := mk_adsb {
  gain : Z;
  dev_index : Z;
  dev_given : Z;
  ppm_error : Z;
  enable_biastee : Z;
  verbose_output : bool;
  short_output : bool;
  allowed_errors : Z;
  quality : Z;
}.

Definition default_adsb : adsb_settings := mk_adsb AUTO_GAIN 0 0 0 0 false false 5 10.

(* src/rtl_adsb.c:384-412 main *)
Definition adsb_option `{libc} (oor : double -> Z) (b : usb_bus) (junk : list Z) (opt : Z) (optarg : list Z) (s : adsb_settings) :
    adsb_settings * bool :=
  let 'mk_adsb g i v p t vo so e q := s in
  if opt =? 100 then (mk_adsb g (verbose_device_search b junk optarg) 1 p t vo so e q, true)
  else if opt =? 103 then (mk_adsb (d_to_i32 oor (dmul (atof optarg) (d_of_Z 10))) i v p t vo so e q, true)
  else if opt =? 112 then (mk_adsb g i v (atoi optarg) t vo so e q, true)
  else if opt =? 86 then (mk_adsb g i v p t true so e q, true)
  else if opt =? 83 then (mk_adsb g i v p t vo true e q, true)
  else if opt =? 101 then (mk_adsb g i v p t vo so (atoi optarg) q, true)
  else if opt =? 81 then (mk_adsb g i v p t vo so e (d_to_i32 oor (dmul (atof optarg) (d_of_Z 10))), true)
  else if opt =? 84 then (mk_adsb g i v p 1 vo so e q, true)
  else (s, false).

(* src/rtl_adsb.c:462-484 main *)
Definition adsb_setup (s : adsb_settings) : M rtlsdr_dev unit :=
  (if gain s =? AUTO_GAIN then verbose_auto_gain else g ← nearest_gain (gain s); verbose_gain_set g);;
  verbose_ppm_set (ppm_error s);;
  rtlsdr_set_agc_mode 1;;
  verbose_set_frequency ADSB_FREQ;;
  verbose_set_sample_rate ADSB_RATE;;
  rtlsdr_set_bias_tee (enable_biastee s);;
  verbose_reset_buffer;;
  mret tt.

(** A turn of the thread that demodulates: the text for the buffer. *)
(* src/rtl_adsb.c:356-359 demod_thread_fn *)
Definition adsb_turn (s : adsb_settings) (buffer : list Z) : option string :=
  Adsb.demod (Adsb.mk_display (short_output s) (verbose_output s) (quality s)) (allowed_errors s) buffer.
End AdsbMain.

Module TcpMain.
(* src/rtl_tcp.c:382-399 main *)
Record tcp_settings : Type := mk_tcp {
  addr : list Z;
  port : list Z;
  frequency : Z;
  samp_rate : Z;
  buf_num : Z;
  dev_index : Z;
  dev_given : Z;
  gain : Z;
  ppm_error : Z;
  direct_sampling : Z;
  llbuf_num : Z;
  enable_biastee : Z;
}.

Definition default_tcp : tcp_settings :=
  mk_tcp (chars "127.0.0.1") (chars "1234") 100000000 2048000 0 0 0 0 0 0 500 0.

(* src/rtl_tcp.c:420-456 main *)
Definition tcp_option `{libc} (oor : double -> Z) (b : usb_bus) (junk : list Z) (opt : Z) (before : option Z) (optarg : list Z)
    (s : tcp_settings) : option_result tcp_settings :=
  let 'mk_tcp a o f r n i v g p d l t := s in
  if opt =? 100 then Some (mk_tcp a o f r n (verbose_device_search b junk optarg) 1 g p d l t, true)
  else if opt =? 102 then x ← atofs before optarg; Some (mk_tcp a o (d_to_u32 oor x) r n i v g p d l t, true)
  else if opt =? 103 then Some (mk_tcp a o f r n i v (d_to_i32 oor (dmul (atof optarg) (d_of_Z 10))) p d l t, true)
  else if opt =? 115 then x ← atofs before optarg; Some (mk_tcp a o f (d_to_u32 oor x) n i v g p d l t, true)
  else if opt =? 97 then Some (mk_tcp optarg o f r n i v g p d l t, true)
  else if opt =? 112 then Some (mk_tcp a optarg f r n i v g p d l t, true)
  else if opt =? 98 then Some (mk_tcp a o f r (u32 (atoi optarg)) i v g p d l t, true)
  else if opt =? 110 then Some (mk_tcp a o f r n i v g p d (atoi optarg) t, true)
  else if opt =? 80 then Some (mk_tcp a o f r n i v g (atoi optarg) d l t, true)
  else if opt =? 84 then Some (mk_tcp a o f r n i v g p d l 1, true)
  else if opt =? 68 then Some (mk_tcp a o f r n i v g p 1 l t, true)
  else Some (s, false).

(* src/rtl_tcp.c:490-534 main *)
Definition tcp_setup (s : tcp_settings) : M rtlsdr_dev unit :=
  (if direct_sampling s =? 0 then mret 0 else verbose_direct_sampling 2);;
  verbose_ppm_set (ppm_error s);;
  rtlsdr_set_sample_rate (samp_rate s);;
  rtlsdr_set_center_freq (frequency s);;
  (if gain s =? 0 then rtlsdr_set_tuner_gain_mode 0 else rtlsdr_set_tuner_gain_mode 1;; rtlsdr_set_tuner_gain (gain s));;
  rtlsdr_set_bias_tee (enable_biastee s);;
  rtlsdr_reset_buffer;;
  mret tt.

(** A client sends bytes, which arrive as the results of recv say; it is sent the
    greeting. *)
Definition client : Type := list RtlTcp.recv_result * list Z.

(* src/rtl_tcp.c:617-641 main *)
Definition serve_client (c : client) : M rtlsdr_dev (list Z) :=
  greeting ← gets RtlTcp.dongle_info;
  RtlTcp.command_worker c.1 c.2 [];;
  mret greeting.

(** The clients that are accepted, one after the other; the greetings. *)
Fixpoint serve_clients (cs : list client) : M rtlsdr_dev (list (list Z)) :=
  match cs with
  | [] => mret []
  | c :: cs => g ← serve_client c; gs ← serve_clients cs; mret (g :: gs)
  end.
End TcpMain.

Module PowerMain.
Inductive power_window : Type := w_rectangle | w_hamming | w_blackman | w_blackman_harris | w_hann_poisson | w_youssef | w_kaiser | w_bartlett.

(* src/rtl_power.c:772-793 main *)
Record power_settings : Type := mk_power {
  freq_optarg : option (list Z);
  gain : Z;
  dev_index : Z;
  dev_given : Z;
  ppm_error : Z;
  interval : Z;
  exit_time : Z;
  smoothing : Z;
  single : bool;
  direct_sampling : bool;
  offset_tuning : bool;
  enable_biastee : Z;
  crop : double;
  window_fn : power_window;
  fft_threads : Z;
  peak_hold : bool;
  boxcar : bool;
  comp_fir_size : Z;
}.

Definition default_power : power_settings :=
  mk_power None AUTO_GAIN 0 0 0 10 0 0 false false false 0 (d_of_Z 0) w_rectangle 1 false true 0.

(* src/rtl_power.c:823-840 main *)
Definition window_named (s : list Z) (old : power_window) : power_window :=
  if is_word s "rectangle" then w_rectangle
  else if is_word s "hamming" then w_hamming
  else if is_word s "blackman" then w_blackman
  else if is_word s "blackman-harris" then w_blackman_harris
  else if is_word s "hann-poisson" then w_hann_poisson
  else if is_word s "youssef" then w_youssef
  else if is_word s "kaiser" then w_kaiser
  else if is_word s "bartlett" then w_bartlett
  else old.

(** A duration in seconds: [(int)round(atoft(optarg))]. *)
Definition seconds `{libc, Fft.math} (before : option Z) (optarg : list Z) : option Z :=
  x ← atoft before optarg; Some (d_to_i32 Fft.oor (Fft.round x)).

(* src/rtl_power.c:797-870 main *)
Definition power_option `{libc, Fft.math} (b : usb_bus) (junk : list Z) (opt : Z) (before : option Z) (optarg : list Z) (s : power_settings) :
    option_result power_settings :=
  let 'mk_power f g dv gv pp it et sm si ds ot bt cr wf th ph bx fs := s in
  if opt =? 102 then Some (mk_power (Some optarg) g dv gv pp it et sm si ds ot bt cr wf th ph bx fs, true)
  else if opt =? 100 then Some (mk_power f g (verbose_device_search b junk optarg) 1 pp it et sm si ds ot bt cr wf th ph bx fs, true)
  else if opt =? 103 then
    Some (mk_power f (d_to_i32 Fft.oor (dmul (atof optarg) (d_of_Z 10))) dv gv pp it et sm si ds ot bt cr wf th ph bx fs, true)
  else if opt =? 99 then x ← atofp before optarg; Some (mk_power f g dv gv pp it et sm si ds ot bt x wf th ph bx fs, true)
  else if opt =? 105 then n ← seconds before optarg; Some (mk_power f g dv gv pp n et sm si ds ot bt cr wf th ph bx fs, true)
  else if opt =? 101 then n ← seconds before optarg; Some (mk_power f g dv gv pp it n sm si ds ot bt cr wf th ph bx fs, true)
  else if opt =? 115 then
    let sm := if is_word optarg "avg" then 0 else if is_word optarg "iir" then 1 else sm in
    Some (mk_power f g dv gv pp it et sm si ds ot bt cr wf th ph bx fs, true)
  else if opt =? 119 then Some (mk_power f g dv gv pp it et sm si ds ot bt cr (window_named optarg wf) th ph bx fs, true)
  else if opt =? 116 then Some (mk_power f g dv gv pp it et sm si ds ot bt cr wf (atoi optarg) ph bx fs, true)
  else if opt =? 112 then Some (mk_power f g dv gv (atoi optarg) it et sm si ds ot bt cr wf th ph bx fs, true)
  else if opt =? 49 then Some (mk_power f g dv gv pp it et sm true ds ot bt cr wf th ph bx fs, true)
  else if opt =? 80 then Some (mk_power f g dv gv pp it et sm si ds ot bt cr wf th true bx fs, true)
  else if opt =? 68 then Some (mk_power f g dv gv pp it et sm si true ot bt cr wf th ph bx fs, true)
  else if opt =? 79 then Some (mk_power f g dv gv pp it et sm si ds true bt cr wf th ph bx fs, true)
  else if opt =? 70 then Some (mk_power f g dv gv pp it et sm si ds ot bt cr wf th ph false (atoi optarg), true)
  else if opt =? 84 then Some (mk_power f g dv gv pp it et sm si ds ot 1 cr wf th ph bx fs, true)
  else Some (s, false).

(** The checks, and the hops: [Exit] ends the program. *)
(* src/rtl_power.c:873-886 main *)
Definition prepare `{libc, Fft.math} (junk : list Z) (s : power_settings) : option (RtlPower.result (list RtlPower.tuning_state)) :=
  match freq_optarg s with
  | None => Some RtlPower.Exit
  | Some f =>
      if SpecFloat.SFltb (crop s) (d_of_Z 0) || SpecFloat.SFltb (d_of_Z 1) (crop s) then Some RtlPower.Exit else
      tunes ← RtlPower.frequency_range (boxcar s) junk f (crop s);
      Some (match tunes with RtlPower.Value [] => RtlPower.Exit | _ => tunes end)
  end.

(* src/rtl_power.c:894-895 main *)
Definition report_interval (s : power_settings) : Z := if interval s <? 1 then 1 else interval s.

Definition window_function `{Fft.math} (w : power_window) : Z -> Z -> double :=
  match w with
  | w_rectangle => RtlPower.rectangle | w_hamming => RtlPower.hamming | w_blackman => RtlPower.blackman
  | w_blackman_harris => RtlPower.blackman_harris | w_hann_poisson => RtlPower.hann_poisson
  | w_youssef => RtlPower.youssef | w_kaiser => RtlPower.kaiser | w_bartlett => RtlPower.bartlett
  end.

(** The dongle, with the rate of the first hop. *)
(* src/rtl_power.c:924-964 main *)
Definition power_setup (s : power_settings) (rate : Z) : M rtlsdr_dev unit :=
  (if direct_sampling s then verbose_direct_sampling 1 else mret 0);;
  (if offset_tuning s then verbose_offset_tuning else mret 0);;
  (if gain s =? AUTO_GAIN then verbose_auto_gain else g ← nearest_gain (gain s); verbose_gain_set g);;
  verbose_ppm_set (ppm_error s);;
  rtlsdr_set_bias_tee (enable_biastee s);;
  verbose_reset_buffer;;
  rtlsdr_set_sample_rate (u32 rate);;
  mret tt.

(** The loop, at the times [times]; it ends with the clock or with a signal.
    All lines that are written. *)
(* src/rtl_power.c:976-993 main *)
Fixpoint report_loop `{Fft.math} (cfg : RtlPower.config) (interval exit_time : Z) (single : bool) (next_tick : Z) (times : list Z) :
    M RtlPower.scan (list RtlPower.row) :=
  match times with
  | [] => mret []
  | now :: times =>
      r ← RtlPower.main_turn cfg now interval exit_time single next_tick;
      let '(rows, next_tick, ends) := (r : list RtlPower.row * Z * bool) in
      if ends then mret rows else
      rest ← report_loop cfg interval exit_time single next_tick times;
      mret (rows ++ rest)
  end.
End PowerMain.

Module TestMain.
(* src/rtl_test.c:307-315 main *)
Record test_settings : Type := mk_test {
  sync_mode : Z;
  dev_index : Z;
  dev_given : Z;
  out_block_size : Z;
  samp_rate : Z;
  test_mode : RtlTest.test_mode;
  ppm_duration : Z;
}.

Definition default_test : test_settings := mk_test 0 0 0 262144 2048000 RtlTest.NO_BENCHMARK RtlTest.PPM_DURATION.

(** [-p] has an optional argument. *)
(* src/rtl_test.c:321-343 main *)
Definition test_option `{libc} (oor : double -> Z) (b : usb_bus) (junk : list Z) (opt : Z) (optarg : option (list Z)) (s : test_settings) :
    test_settings * bool :=
  let 'mk_test m i v z r t p := s in
  let arg := default [] optarg in
  if opt =? 100 then (mk_test m (verbose_device_search b junk arg) 1 z r t p, true)
  else if opt =? 115 then (mk_test m i v z (d_to_u32 oor (atof arg)) t p, true)
  else if opt =? 98 then (mk_test m i v (d_to_u32 oor (atof arg)) r t p, true)
  else if opt =? 116 then (mk_test m i v z r RtlTest.TUNER_BENCHMARK p, true)
  else if opt =? 112 then
    (mk_test m i v z r RtlTest.PPM_BENCHMARK (match optarg with Some a => u32 (atoi a) | None => p end), true)
  else if opt =? 83 then (mk_test 1 i v z r t p, true)
  else (s, false).

(* src/rtl_test.c:350-358 main *)
Definition test_size (size : Z) : Z := if (size <? 512) || (256 * 16384 <? size) then 262144 else size.
End TestMain.

(** ** Sessions

    The setups of the programs are safe with any dongle; rtl_tcp stays so with one
    client after the other.  Options whose values have no effect are at the end.
    (rtl_power is in RtlPowerSession.v.) *)

#[local] Hint Resolve set_tuner_gain_ok set_tuner_gain_mode_ok direct_sampling_ok reset_buffer_ok nearest_gain_ok verbose_gain_set_ok
  bias_tee_ok set_sample_rate_ok : pres.

#[local] Hint Resolve agc_mode_ok verbose_ppm_set_ok : pres.

Lemma adsb_setup_ok s : Z.abs (AdsbMain.ppm_error s) <= 20000 -> preserves dev_ok (AdsbMain.adsb_setup s).
Proof.
  intros Hp. unfold AdsbMain.adsb_setup, verbose_auto_gain, verbose_set_frequency, verbose_set_sample_rate, verbose_reset_buffer. solve_pres.
Qed.

Lemma tcp_setup_ok s : Z.abs (TcpMain.ppm_error s) <= 20000 -> preserves dev_ok (TcpMain.tcp_setup s).
Proof. intros Hp. unfold TcpMain.tcp_setup, verbose_direct_sampling. solve_pres. Qed.

(** rtl_adsb, from the opening of any dongle on. *)
Lemma adsb_safe (e : usb_env) (m p : string) (s : AdsbMain.adsb_settings) : Z.abs (AdsbMain.ppm_error s) <= 20000 ->
  wp (open_device m p;; AdsbMain.adsb_setup s) (fun _ d => disciplined (usb_log (dcore d))) (new_dev e).
Proof. intros Hp. by apply opened_safe, adsb_setup_ok. Qed.

(** ** rtl_tcp *)

(** Bytes whose commands are safe. *)
Definition client_ok (c : TcpMain.client) : Prop := Forall is_u8 c.2 /\ Forall command_ok (parse c.2).

(** A greeting tells a client the tuner and how many gains it has. *)
Definition greets (g : list Z) : Prop :=
  exists t, g = chars "RTL0" ++ htonl (tuner_number t) ++ htonl (Z.of_nat (length (rtlsdr_get_tuner_gains t))).

Lemma serve_clients_ok cs : Forall client_ok cs ->
  forall d, dev_ok d -> wp (TcpMain.serve_clients cs) (fun gs d' => dev_ok d' /\ length gs = length cs /\ Forall greets gs) d.
Proof.
  induction 1 as [|c cs [Hu Hc] _ IH]; intros d Hd; [by apply wp_ret|]. cbn [TcpMain.serve_clients]. unfold TcpMain.serve_client.
  apply wp_bind, wp_bind, wp_gets, wp_bind. eapply wp_mono; [|by apply (command_worker_ok c.1)]. intros x d1 Hd1.
  apply wp_ret, wp_bind. eapply wp_mono; [|by apply IH]. intros gs d2 (Hd2 & Hl & Hg). apply wp_ret. split; [done|].
  split; [cbn [length]; by rewrite Hl|]. constructor; [|done]. by exists (rtlsdr_get_tuner_type d).
Qed.

(** The server with any options and any number of clients, one after the other:
    each is greeted, and the dongle is used safely whatever fails. *)
Lemma server_session_safe (e : usb_env) (m p : string) (s : TcpMain.tcp_settings) (cs : list TcpMain.client) :
  Z.abs (TcpMain.ppm_error s) <= 20000 -> Forall client_ok cs ->
  wp (open_device m p;; TcpMain.tcp_setup s;; TcpMain.serve_clients cs)
    (fun gs d => disciplined (usb_log (dcore d)) /\ length gs = length cs /\ Forall greets gs) (new_dev e).
Proof.
  intros Hp Hcs. apply wp_bind. eapply wp_mono; [|apply open_device_ok]. intros u d Hd. apply wp_bind.
  eapply wp_mono; [|by apply tcp_setup_ok]. intros u' d' Hd'. eapply wp_mono; [|by apply serve_clients_ok].
  intros gs d2 [(k & _ & (_ & Hdis & _) & _) Hgs]. by split.
Qed.

(** ** Options *)

(** rtl_power takes [-s iir] and [-t], which are in its usage, and does the
    same as without. *)
Lemma smoothing_ignored `{libc, Fft.math} b junk word s s' :
  PowerMain.power_option b junk 115 None word s = Some (s', true) ->
  (forall tunes_junk, PowerMain.prepare tunes_junk s' = PowerMain.prepare tunes_junk s) /\
  (forall rate, PowerMain.power_setup s' rate = PowerMain.power_setup s rate) /\ PowerMain.report_interval s' = PowerMain.report_interval s.
Proof. destruct s. intros E. cbn in E. by injection E as <-. Qed.
