(* ===== verification/RtlPowerSession.v ===== *)
(** * rtl_power: a session

    The lines of a report ([csv_dbm]), and the whole run: options, plan, setup of
    the dongle, scans and reports. *)

From S2P Require Import Prelude Arrays Double DoubleOrder RtlsdrI2c Usb UsbSpec Repeater Device DeviceInv DeviceSession Enumerate Convenience.
From S2P Require Import RtlSdr Fft FftSpec RtlPower RtlPowerSpec RtlPowerPlan RtlPowerScan Mains.
From Stdlib Require Import SpecFloat.

(** ** A line of the report *)

Lemma mapM_all {A B} (f : A -> option B) (g : A -> B) (l : list A) :
  (forall x, x ∈ l -> f x = Some (g x)) -> mapM f l = Some (map g l).
Proof.
  induction l as [|x l IH]; intros H; [done|]. cbn [mapM]. rewrite (H x) by apply list_elem_of_here. cbn [mbind option_bind].
  rewrite IH; [done|]. intros y Hy. apply H. by apply list_elem_of_further.
Qed.

Lemma d_of_pow2_times_0 m : 0 <= m <= 52 -> d_trunc (dmul (dmul (d_of_Z (2 ^ m)) (d_of_Z 0)) (ddiv (d_of_Z 5) (d_of_Z 10))) = Some 0.
Proof. intros Hm. destruct (d_of_pow2_normal m Hm) as (_ & _ & ->). reflexivity. Qed.

Lemma d_of_pow2_times_1 m : 0 <= m <= 30 -> d_trunc (dmul (d_of_Z (2 ^ m)) (dsub (d_of_Z 1) (d_of_Z 0))) = Some (2 ^ m).
Proof.
  intros Hm. change (dsub (d_of_Z 1) (d_of_Z 0)) with (d_of_Z (2 ^ 0)).
  assert (0 < 2 ^ m < 2 ^ 31) by (split; [apply Z.pow_pos_nonneg|apply Z.pow_lt_mono_r]; lia).
  pose proof (dmul_int_pow2 (2 ^ m) 0 ltac:(lia) ltac:(lia) ltac:(lia)) as Hr. replace (2 ^ m <? 0) with false in Hr by lia.
  rewrite (repr_trunc _ _ _ Hr) by lia. change (2 ^ 0) with 1. rewrite Z.mul_1_r, Z.abs_eq by lia.
  pose proof U_pos. by rewrite Z.div_mul by lia.
Qed.

Section report.
Context {lib : math} (cfg : config) (m : nat) (ds len : Z).
Context (Hm : (1 <= m <= 28)%nat) (Hgeo : geometry m ds len).

(** The bin of column [k]: bin 1 stands for bin 0. *)
Definition bin_of (k : Z) : Z :=
  let b := (k + 2 ^ Z.of_nat (m - 1)) mod 2 ^ Z.of_nat m in if b =? 0 then 1 else b.

(** The columns of a hop: the powers by rate and number of samples, in
    decibels; the last one twice, divided in another order. *)
Definition columns (ts : tuning_state) : list double :=
  map (fun k => decibel (ddiv (ddiv (d_of_Z (getz (ts_avg ts) (bin_of k))) (d_of_Z (ts_rate ts))) (d_of_Z (ts_samples ts)))) (zseq (2 ^ m)) ++
  [decibel (ddiv (d_of_Z (getz (ts_avg ts) (bin_of (2 ^ Z.of_nat m - 1)))) (dmul (d_of_Z (ts_rate ts)) (d_of_Z (ts_samples ts))))].

Definition line_of (ts : tuning_state) (r : row) : Prop :=
  (0 < ts_rate ts < 2 ^ 22 -> let w := ts_rate ts / (2 * ds) in hz_low r = i32 (ts_freq ts - w) /\ hz_high r = i32 (ts_freq ts + w)) /\
  row_samples r = ts_samples ts /\ dbm r = columns ts.

Definition cleared (ts ts' : tuning_state) : Prop :=
  ts_freq ts' = ts_freq ts /\ ts_rate ts' = ts_rate ts /\ ts_samples ts' = 0 /\ Forall (fun x => x = 0) (ts_avg ts').

(** The loop that clears the averages. *)
Lemma clear_loop (a : list Z) n : (n <= length a)%nat ->
  exists a', for_arr (stepped (Z.of_nat n) 1) (fun i avg => arr_set avg i 0) a = Some a' /\ length a' = length a /\
    forall k, getz a' k = if (0 <=? k) && (k <? Z.of_nat n) then 0 else getz a k.
Proof.
  intros Hn. rewrite stepped_1, Nat2Z.id, <- (map_id (zseq n)).
  destruct (for_arr_inv (fun i avg => arr_set avg i 0)
    (fun r b => length b = length a /\ forall k, getz b k = if (0 <=? k) && (k <? r) then 0 else getz a k) n id a) as (a' & E & L & G).
  - split; [done|]. intros k. by replace ((0 <=? k) && (k <? 0)) with false by lia.
  - intros r b Hr [L G]. unfold id. destruct ((arr_set_get_or 0) b r 0 ltac:(lia)) as (b' & -> & L' & G'). exists b'. split; [done|].
    split; [lia|]. intros k. rewrite G', G. destruct (Z.eqb_spec k r) as [->|Hne].
    + by replace ((0 <=? r) && (r <? r + 1)) with true by lia.
    + by replace ((0 <=? k) && (k <? r + 1)) with ((0 <=? k) && (k <? r)) by lia.
  - by exists a'.
Qed.

Lemma csv_dbm_spec ts : hop_inv cfg m ds len ts ->
  exists ts' r, csv_dbm ts = Some (ts', r) /\ hop_inv cfg m ds len ts' /\ cleared ts ts' /\ line_of ts r.
Proof.
  intros ((Havg & Hb8 & Hu8 & Hsmp) & Hds & Hbox & He & Hbl & Hcr). pose proof Hgeo as (Hds1 & _ & Hlen & _). pose proof (pow2_pos m) as Hp.
  assert (Hp28 : 2 ^ Z.of_nat m <= 2 ^ 28) by (apply Z.pow_le_mono_r; lia).
  assert (HmS : m = S (m - 1)) by lia. unfold csv_dbm. rewrite He, Hds, Hcr, Z.shiftl_1_l. cbv zeta.
  destruct (arrange_spec (m - 1) (ts_avg ts)) as (avg & Ea & La & Ga); [by rewrite <- HmS|]. rewrite <- HmS in Ea, Ga. rewrite Ea.
  cbn [mbind option_bind]. cbv zeta in Ga. fold (bin_of) in Ga.
  assert (forall k, 0 <= k < 2 ^ Z.of_nat m -> arr_get avg k = Some (getz (ts_avg ts) (bin_of k))) as Hget.
  { intros k Hk. assert (Z.of_nat (length avg) = 2 ^ Z.of_nat m) as Hl by (rewrite La, Havg, Nat2Z.inj_pow; done).
    rewrite (arr_get_get_or 0) by lia. by rewrite Ga. }
  rewrite (d_to_i32_trunc oor _ 0 (d_of_pow2_times_0 (Z.of_nat m) ltac:(lia)) ltac:(done)).
  rewrite Z.sub_0_r, (i32_small (2 ^ Z.of_nat m - 1)) by (unfold is_i32; lia).
  replace (2 ^ Z.of_nat m - 1 + 1 - 0) with (2 ^ Z.of_nat m) by lia. rewrite stepped_1.
  rewrite (map_ext _ id), map_id by (intros; unfold id; lia).
  assert (Z.to_nat (2 ^ Z.of_nat m) = (2 ^ m)%nat) as En by (change 2 with (Z.of_nat 2); rewrite <- Nat2Z.inj_pow; lia). rewrite En.
  erewrite mapM_all.
  2: { intros k Hk%elem_of_zseq. rewrite Hget by (rewrite <- En, Z2Nat.id in Hk by lia; exact Hk). reflexivity. }
  cbn [mbind option_bind]. rewrite (Hget (2 ^ Z.of_nat m - 1)) by lia. replace (Z.of_nat m =? 0) with false by lia. cbn [mbind option_bind].
  destruct (clear_loop avg (2 ^ m)) as (a' & E & L' & G'); [lia|]. rewrite stepped_1, Nat2Z.id in E. rewrite E. cbn [mbind option_bind].
  eexists _, _. split; [reflexivity|]. split; [|split; [|split; [|done]]].
  - split; [|done]. split; [cbn; lia|]. done.
  - split_and!; [done..|]. apply Forall_forall. intros x (i & Hx)%list_elem_of_lookup. assert (i < length a')%nat by exact (lookup_lt_Some _ _ _ Hx).
    assert (getz a' (Z.of_nat i) = x) as <- by (apply (get_or_some 0); by rewrite arr_get_nat).
    rewrite G'. replace ((0 <=? Z.of_nat i) && (Z.of_nat i <? Z.of_nat (2 ^ m))) with true; [done|]. rewrite <- Havg, <- La, <- L'. lia.
  - intros Hr. cbv zeta. cbn [hz_low hz_high]. rewrite (d_to_i32_trunc oor _ (2 ^ Z.of_nat m) (d_of_pow2_times_1 (Z.of_nat m) ltac:(lia))) by (unfold is_i32; lia).
    rewrite (i32_small (2 ^ Z.of_nat m * 2)) by (unfold is_i32; lia). rewrite (i32_small (2 ^ Z.of_nat m * 2 * ds)) by (unfold is_i32; lia).
    assert (d_to_i32 oor (ddiv (dmul (d_of_Z (ts_rate ts)) (d_of_Z (2 ^ Z.of_nat m))) (d_of_Z (2 ^ Z.of_nat m * 2 * ds))) = ts_rate ts / (2 * ds)) as ->; [|done].
    assert (0 <= ts_rate ts / (2 * ds) <= ts_rate ts) by (split; [apply Z.div_pos; lia|apply Z.div_le_upper_bound; nia]).
    apply d_to_i32_trunc; [|unfold is_i32; lia]. rewrite ddiv_scaled_trunc by nia. f_equal. rewrite Z.quot_div_nonneg by nia.
    rewrite <- (Z.div_mul_cancel_r (ts_rate ts) (2 * ds) (2 ^ Z.of_nat m)) by lia. f_equal. lia.
Qed.

(** ** Scans and reports *)

(** The hops at the frequencies [fs]. *)
Definition run_inv (fs : list Z) (rate : Z) (s : scan) : Prop :=
  scan_inv cfg m ds len s /\ map ts_freq (hops s) = fs /\ Forall (fun ts => ts_rate ts = rate) (hops s).

(** The line of the hop at [f]. *)
Definition line_at (rate f : Z) (r : row) : Prop :=
  hz_low r = i32 (f - rate / (2 * ds)) /\ hz_high r = i32 (f + rate / (2 * ds)) /\ length (dbm r) = S (2 ^ m).

Context (Htab : tables_ok cfg m).

Lemma scanner_run fs rate : fs <> [] -> moves (run_inv fs rate) (scanner cfg) (run_inv fs rate).
Proof.
  intros Hne s (Hs & Hf & Hr). eapply wp_mono; [|apply (scanner_inv cfg m ds len); [lia|done|done|done|by destruct (hops s); subst fs]].
  intros _ s' (Hs' & Hl & H). split; [done|].
  assert (forall k ts ts', hops s !! k = Some ts -> hops s' !! k = Some ts' -> ts_freq ts' = ts_freq ts /\ ts_rate ts' = ts_rate ts) as Hk.
  { intros k ts ts' E E'. destruct (H k ts ts' E E') as [[->|(-> & -> & _)] _]; done. }
  split.
  - rewrite <- Hf. apply list_eq_same_length with (length (hops s)); [by rewrite length_map|by rewrite length_map|].
    intros k x y _ Hx Hy. rewrite list_lookup_fmap in Hx, Hy.
    destruct (hops s' !! k) as [ts'|] eqn:E'; [|done]. destruct (hops s !! k) as [ts|] eqn:E; [|done].
    cbn in Hx, Hy. injection Hx as <-. injection Hy as <-. by apply (Hk k).
  - apply Forall_lookup. intros k ts' E'. destruct (lookup_lt_is_Some_2 (hops s) k) as [ts E]; [rewrite <- Hl; by eapply lookup_lt_Some|].
    rewrite (proj2 (Hk k ts ts' E E')). exact (proj1 (Forall_lookup _ _) Hr _ _ E).
Qed.

Lemma lines_of_hops hs : Forall (hop_inv cfg m ds len) hs ->
  exists rs, mapM csv_dbm hs = Some rs /\ Forall2 (fun ts p => hop_inv cfg m ds len p.1 /\ cleared ts p.1 /\ line_of ts p.2) hs rs.
Proof.
  induction 1 as [|ts hs Hts _ (rs & E & H)]; [by exists []|]. destruct (csv_dbm_spec ts Hts) as (ts' & r & E1 & H1 & H2 & H3).
  exists ((ts', r) :: rs). cbn [mapM]. rewrite E1. cbn [mbind option_bind]. rewrite E. by split; [|constructor].
Qed.

Lemma report_run fs rate s : 0 < rate < 2 ^ 22 -> run_inv fs rate s ->
  wp report_hops (fun rows s' => run_inv fs rate s' /\ Forall2 (line_at rate) fs rows) s.
Proof.
  intros Hrate ((Hd & Hb & Hby & Hh) & Hf & Hr). destruct (lines_of_hops (hops s) Hh) as (rs & E & H).
  unfold report_hops. apply wp_bind, wp_gets, wp_bind. rewrite E. apply wp_ret, wp_bind, wp_gets, wp_bind, wp_modify, wp_ret.
  unfold run_inv, scan_inv. cbn [sdev fft_buf bulk hops set_hop]. clear E. revert fs Hf Hr. clear Hh.
  assert (forall fs, map ts_freq (hops s) = fs -> Forall (fun ts => ts_rate ts = rate) (hops s) ->
    Forall (hop_inv cfg m ds len) (map fst rs) /\ map ts_freq (map fst rs) = fs /\ Forall (fun ts => ts_rate ts = rate) (map fst rs) /\
    Forall2 (line_at rate) fs (map snd rs)) as Hall; [|intros fs Hf Hr; by destruct (Hall fs Hf Hr) as (? & ? & ? & ?)].
  induction H as [|ts [ts' r] hs rs (H1 & (Ef & Er & _) & Hline) _ IH]; intros fs <- Hr; [by cbn|]. cbn [map fst snd] in *.
  apply Forall_cons in Hr as [Hr0 Hr]. destruct (IH _ eq_refl Hr) as (IH1 & IH2 & IH3 & IH4). rewrite Ef, IH2.
  split; [by constructor|]. split; [done|]. split; [constructor; [congruence|done]|]. constructor; [|done].
  destruct Hline as (Hw & _ & Hc). rewrite Hr0 in Hw. destruct (Hw Hrate) as [Hl Hu]. split; [done|]. split; [done|].
  rewrite Hc. unfold columns, zseq. rewrite length_app, !length_map, length_seq. cbn [length]. lia.
Qed.

Lemma report_loop_run fs rate interval exit_time single : fs <> [] -> 0 < rate < 2 ^ 22 -> forall times next_tick s, run_inv fs rate s ->
  wp (PowerMain.report_loop cfg interval exit_time single next_tick times)
    (fun rows s' => run_inv fs rate s' /\ exists reports, rows = concat reports /\ Forall (Forall2 (line_at rate) fs) reports) s.
Proof.
  intros Hne Hrate. induction times as [|now times IH]; intros next_tick s Hs.
  { apply wp_ret. split; [done|]. by exists []. }
  cbn [PowerMain.report_loop]. apply wp_bind. unfold main_turn. apply wp_bind.
  eapply wp_mono; [|by apply (scanner_run fs rate)]. intros u s1 Hs1. destruct (Z.ltb_spec now next_tick).
  - apply wp_ret, wp_bind. eapply wp_mono; [|by apply (IH next_tick)]. intros rows s2 [Hs2 Hrows]. apply wp_ret. by split.
  - apply wp_bind. eapply wp_mono; [|by apply (report_run fs rate)]. intros rows s2 [Hs2 Hrows]. apply wp_ret.
    destruct (_ || _).
    + apply wp_ret. split; [done|]. exists [rows]. cbn [concat]. rewrite app_nil_r. by split; [|constructor].
    + apply wp_bind. eapply wp_mono; [|by apply IH]. intros rest s3 [Hs3 (reports & -> & Hrep)]. apply wp_ret. split; [done|].
      exists (rows :: reports). by split; [|constructor].
Qed.
End report.

(** ** The whole run *)

Lemma power_setup_ok s rate : Z.abs (PowerMain.ppm_error s) <= 20000 -> preserves dev_ok (PowerMain.power_setup s rate).
Proof.
  intros Hp. unfold PowerMain.power_setup, verbose_direct_sampling, verbose_offset_tuning, verbose_auto_gain, verbose_reset_buffer.
  apply preserves_bind; [apply preserves_if; [apply direct_sampling_ok|apply preserves_ret]|]. intros _.
  apply preserves_bind; [apply preserves_if; [apply offset_tuning_ok|apply preserves_ret]|]. intros _.
  apply preserves_bind; [apply preserves_if; [apply set_tuner_gain_mode_ok|apply preserves_bind; [apply nearest_gain_ok|apply verbose_gain_set_ok]]|].
  intros _. apply preserves_bind; [by apply verbose_ppm_set_ok|]. intros _.
  apply preserves_bind; [apply bias_tee_ok|]. intros _. apply preserves_bind; [apply reset_buffer_ok|]. intros _.
  apply preserves_bind; [apply set_sample_rate_ok|]. intros _. apply preserves_ret.
Qed.

(** The argument of [-f] stands for a range and a size of bins, without [-c] and
    [-F]. *)
Definition asks_for `{libc, math} (s : PowerMain.power_settings) (lower upper size : Z) : Prop :=
  PowerMain.boxcar s = true /\ PowerMain.crop s = d_of_Z 0 /\
  exists f start rest stop step x y z, PowerMain.freq_optarg s = Some f /\
    split_colon f = Some (start, rest) /\ split_colon rest = Some (stop, step) /\
    atofs None start = Some x /\ atofs (Some 0) stop = Some y /\ atofs (Some 0) step = Some z /\
    d_to_i32 oor x = lower /\ d_to_i32 oor y = upper /\ d_to_i32 oor z = size.

Lemma prepare_plan `{libc, math} s lower upper size junk pl :
  asks_for s lower upper size -> make_plan true lower upper size (d_of_Z 0) = Some (Value pl) -> make_tunes junk lower pl <> [] ->
  PowerMain.prepare junk s = Some (Value (make_tunes junk lower pl)).
Proof.
  intros (Hb & Hc & f & start & rest & stop & step & x & y & z & Ef & E1 & E2 & Ex & Ey & Ez & <- & <- & <-) Hp Hne.
  unfold PowerMain.prepare. rewrite Ef, Hc, Hb. change (SFltb (d_of_Z 0) (d_of_Z 0) || SFltb (d_of_Z 1) (d_of_Z 0)) with false.
  unfold frequency_range. rewrite E1, E2, Ex, Ey, Ez. cbn [mbind option_bind]. rewrite Hp. cbn [mbind option_bind].
  by destruct (make_tunes _ _ _).
Qed.

(** Report by report, the lines lie side by side. *)
Definition tiles (lower : Z) (pl : plan) (lines : list row) : Prop :=
  Z.of_nat (length lines) = p_tune_count pl /\
  forall i r, lines !! i = Some r ->
    let at_ := lower + Z.of_nat i * p_bw_seen pl in
    hz_low r = at_ /\ hz_high r = at_ + 2 * (p_bw_seen pl / 2) /\ Z.of_nat (length (dbm r)) = 2 ^ p_bin_e pl + 1.

Lemma lines_tile lower upper size pl junk lines :
  is_i32 lower -> is_i32 upper -> plan_spec (upper - lower) size pl ->
  Forall2 (line_at (Z.to_nat (p_bin_e pl)) (p_downsample pl) (p_bw_used pl)) (map ts_freq (make_tunes junk lower pl)) lines ->
  tiles lower pl lines.
Proof.
  intros Hl Hu (Hn & Hbw & _ & _ & Hrate & Hrr & _ & _ & _ & He & _ & _ & Hds & _) H. unfold is_i32 in *.
  assert (length (make_tunes junk lower pl) = Z.to_nat (p_tune_count pl)) as Hlen
    by (unfold make_tunes; rewrite stepped_1; unfold zseq; by rewrite !length_map, length_seq).
  pose proof (Forall2_length _ _ _ H) as HL. rewrite length_map, Hlen in HL. split; [lia|].
  intros i r Hr. destruct (Forall2_lookup_r _ _ _ _ _ H Hr) as (f & Hf & Hlo & Hhi & Hd). rewrite list_lookup_fmap in Hf.
  destruct (make_tunes junk lower pl !! i) as [ts|] eqn:Ets; [|done]. cbn in Hf. injection Hf as <-.
  apply make_tunes_lookup in Ets as [Hi ->]. cbn [ts_freq] in *. unfold MINIMUM_RATE in Hrr.
  assert (0 <= p_bw_seen pl) as Hbw0 by nia.
  assert (p_tune_count pl * p_bw_seen pl <= upper - lower) by (rewrite Hbw; apply Z.mul_div_le; lia).
  assert ((Z.of_nat i + 1) * p_bw_seen pl <= p_tune_count pl * p_bw_seen pl) by (apply Z.mul_le_mono_nonneg_r; lia).
  assert (p_bw_used pl / (2 * p_downsample pl) = p_bw_seen pl / 2) as Ew by (rewrite Hrate; by rewrite Z.div_mul_cancel_r by lia).
  rewrite Ew in *. rewrite Z.quot_div_nonneg in * by lia. pose proof (Z.div_mod (p_bw_seen pl) 2 ltac:(lia)).
  pose proof (Z.mod_pos_bound (p_bw_seen pl) 2 ltac:(lia)).
  rewrite (i32_small (lower + _ + _)) in * by (unfold is_i32; lia). rewrite i32_small in Hlo, Hhi by (unfold is_i32; lia).
  split; [lia|]. split; [lia|]. rewrite Hd, Nat2Z.inj_succ, Nat2Z.inj_pow, Z2Nat.id by lia. lia.
Qed.

(** C39: rtl_power with [-f lower:upper:size] for a range that is not empty and
    bins below 1 MHz (the case of [frequency_range] that the usage calls normal; a
    larger size, as in the survey of its second example, takes another one), without
    [-c] and [-F] and with a correction of at most 2 %.  The options become a plan
    as [plan_spec] says; then with any dongle, whatever transfers fail and whatever
    samples and times come, the setup and all scans and reports are defined and
    reach the tuner through the open repeater.  Every report has a line for each
    hop, with the bins of [bw_seen] Hz from [lower] on, side by side.  (An empty
    range divides by zero, [empty_range_divides_by_zero]; for the first example of
    the usage these are 256 bins, not its 160, [plan_fm_band].) *)
Theorem power_session `{libc, math} (s : PowerMain.power_settings) (lower upper size : Z) (e : usb_env) (mf pr : string) :
  asks_for s lower upper size -> is_i32 lower -> is_i32 upper -> 1 <= upper - lower < 2 ^ 31 -> 1 <= size < MINIMUM_RATE ->
  Z.abs (PowerMain.ppm_error s) <= 20000 ->
  exists pl, plan_spec (upper - lower) size pl /\ forall junk buf bytes exits times tick exit_time,
    Z.of_nat (length junk) = plan_buf_len pl -> Z.of_nat (length buf) = plan_buf_len pl ->
    Forall is_u8 junk -> Forall (Forall is_u8) bytes ->
    PowerMain.prepare junk s = Some (Value (make_tunes junk lower pl)) /\
    let cfg := main_config (PowerMain.boxcar s) (PowerMain.comp_fir_size s) (PowerMain.peak_hold s)
                 (PowerMain.window_function (PowerMain.window_fn s)) (p_bin_e pl) in
    wp (open_device mf pr;; PowerMain.power_setup s (p_bw_used pl))
      (fun _ d => wp (PowerMain.report_loop cfg (PowerMain.report_interval s) exit_time (PowerMain.single s) tick times)
         (fun rows s' => disciplined (usb_log (dcore (sdev s'))) /\
            exists reports, rows = concat reports /\ Forall (tiles lower pl) reports)
         (mk_scan d bytes buf (make_tunes junk lower pl) exits)) (new_dev e).
Proof.
  intros Hs Hl Hu Hw Hm Hppm. destruct (make_plan_spec lower upper size Hw Hm) as (pl & E & Hpl). exists pl. split; [done|].
  intros junk buf bytes exits times tick et Hlj Hlb Hju Hby. pose proof Hpl as (_ & _ & _ & _ & _ & Hrr & _ & _ & _ & He & _ & _ & Hgeo).
  pose proof (proj1 Hs) as Hbox. rewrite Hbox. set (cfg := main_config _ _ _ _ _).
  assert (forall d, dev_ok d -> scan_inv cfg (Z.to_nat (p_bin_e pl)) (p_downsample pl) (plan_buf_len pl)
    (mk_scan d bytes buf (make_tunes junk lower pl) exits) /\ make_tunes junk lower pl <> []) as Hstart
    by (intros d Hd; by apply (planned_start cfg (upper - lower) lower size)).
  assert (make_tunes junk lower pl <> []) as Hne.
  { destruct (wp_inv _ _ _ (open_device_ok mf pr e)) as (u & d & _ & Hd). by destruct (Hstart d Hd). }
  split; [by apply (prepare_plan s lower upper size)|]. cbv zeta. apply wp_bind. eapply wp_mono; [|apply open_device_ok]. intros u d Hd.
  eapply wp_mono; [|by apply (power_setup_ok s)]. intros u' d' Hd'. destruct (Hstart d' Hd') as [Hinv _].
  unfold MINIMUM_RATE, MAXIMUM_RATE in *.
  eapply wp_mono; [|apply (report_loop_run cfg (Z.to_nat (p_bin_e pl)) (p_downsample pl) (plan_buf_len pl) ltac:(lia) Hgeo
    ltac:(apply main_tables; lia) (map ts_freq (make_tunes junk lower pl)) (p_bw_used pl))].
  - intros rows s' [[((k & _ & (_ & Hdis & _) & _) & _) _] (reports & -> & Hrep)]. split; [exact Hdis|]. exists reports. split; [done|].
    eapply Forall_impl; [exact Hrep|]. intros lines Hlines. by eapply lines_tile.
  - by destruct (make_tunes junk lower pl).
  - lia.
  - split; [exact Hinv|]. split; [done|]. apply Forall_lookup. intros i ts Hts. cbn [hops] in Hts. by apply make_tunes_lookup in Hts as [_ ->].
Qed.

(** The FM band in bins of 125 kHz. *)
Definition atof_int : libc := mk_libc (fun s => d_of_Z (atoi s)).
Definition fm_band : PowerMain.power_settings :=
  match PowerMain.power_option (H := atof_int) (H0 := no_math) (mk_bus 0 []) [] 102 None (chars "88000000:108000000:125000") PowerMain.default_power with
  | Some (s, _) => s
  | None => PowerMain.default_power
  end.

Lemma fm_band_fields :
  PowerMain.boxcar fm_band = true /\ PowerMain.comp_fir_size fm_band = 0 /\ PowerMain.peak_hold fm_band = false /\
  PowerMain.window_fn fm_band = PowerMain.w_rectangle /\ PowerMain.report_interval fm_band = 10 /\ PowerMain.single fm_band = false.
Proof. repeat split; vm_compute; reflexivity. Qed.

Lemma fm_band_asks : @asks_for atof_int no_math fm_band 88000000 108000000 125000.
Proof.
  split; [reflexivity|]. split; [reflexivity|]. exists (chars "88000000:108000000:125000"), (chars "88000000"), (chars "108000000:125000"),
    (chars "108000000"), (chars "125000"), (d_of_Z 88000000), (d_of_Z 108000000), (d_of_Z 125000).
  repeat split; vm_compute; reflexivity.
Qed.

(** Three scans, with a report after the second. *)
Lemma power_session_witness :
  exists pl, @plan_spec (108000000 - 88000000) 125000 pl /\
    let blank := replicate (Z.to_nat (plan_buf_len pl)) 0 in
    let cfg := @main_config no_math true 0 false (PowerMain.window_function (H := no_math) PowerMain.w_rectangle) (p_bin_e pl) in
    wp (open_device "" "";; PowerMain.power_setup fm_band (p_bw_used pl))
      (fun _ d => wp (@PowerMain.report_loop no_math cfg 10 0 false 10 [1; 11; 12])
         (fun rows _ => exists reports, rows = concat reports /\ Forall (tiles 88000000 pl) reports)
         (mk_scan d [[1; 2; 3]] blank (make_tunes blank 88000000 pl) [])) (new_dev (env_ok (fun _ _ _ => 0x69))).
Proof.
  destruct (@power_session atof_int no_math fm_band 88000000 108000000 125000 (env_ok (fun _ _ _ => 0x69)) "" "" fm_band_asks)
    as (pl & Hpl & H); [split; [vm_compute; congruence|reflexivity]..|split; [vm_compute; congruence|reflexivity]|split; [vm_compute; congruence|reflexivity]|
      cbn; lia|].
  exists pl. split; [exact Hpl|]. cbv zeta. set (blank := replicate (Z.to_nat (plan_buf_len pl)) 0).
  assert (Z.of_nat (length blank) = plan_buf_len pl) as Hlen.
  { unfold blank. rewrite length_replicate, Z2Nat.id; [done|]. unfold plan_buf_len. cbv zeta. destruct (Z.ltb_spec (i32 (i32 (2 * (1 ≪ p_bin_e pl)) * p_downsample pl)) DEFAULT_BUF_LENGTH); unfold DEFAULT_BUF_LENGTH in *; lia. }
  destruct (H blank blank [[1; 2; 3]] [] [1; 11; 12] 10 0 Hlen Hlen) as [_ Hw]; [by apply Forall_replicate|by_compute|].
  destruct fm_band_fields as (E1 & E2 & E3 & E4 & E5 & E6). rewrite E1, E2, E3, E4, E5, E6 in Hw. cbv zeta in Hw.
  eapply wp_mono; [|exact Hw]. intros u d Hd. eapply wp_mono; [|exact Hd]. intros rows s' [_ Hr]. exact Hr.
Defined.
