(* ===== verification/HpsdrFile.v ===== *)
(** * rtl_hpsdr.c: samples from files, and changed settings

    The thread that reads a receiver's samples from a file instead of a dongle
    ([file_turn] of rtl_read_thr_func, with -w and -W), and the two functions for
    a configuration file that changes while the program runs ([update_config],
    [update_dongle]), which nothing calls yet.

    A short is two bytes, the lower one first.  Reading the file after it was
    closed, and a short of which the file has only one byte, have no value. *)

From S2P Require Import Prelude Arrays RtlsdrI2c Double Usb UsbSpec Device Repeater DeviceInv DeviceSession Enumerate.
From S2P Require Import Convenience Single RtlSdr.
From Stdlib Require Import SpecFloat.

(** ** The file *)

Definition SIZEOF_WavHeader : nat := 44.

(** What is left of the file, the state of the stream, and the variables of the
    thread; [message] is the last one printed. *)
Inductive message : Type := Silent | Rewinding | Ending.

(* src/rtl_hpsdr.c:945-956 rtl_read_thr_func *)
Record reader : Type := mk_reader {
  rest : list Z;
  at_eof : bool;
  closed : bool;
  said : message;
  do_zero : bool;
  wav : bool;
  sIQ : Z;
  sIQm : Z;
  sIQl : Z;
  iq_buf : list single;
}.

Definition set_stream (l : list Z) (e : bool) (r : reader) : reader :=
  mk_reader l e (closed r) (said r) (do_zero r) (wav r) (sIQ r) (sIQm r) (sIQl r) (iq_buf r).
Definition set_words (iq iqm iql : Z) (r : reader) : reader :=
  mk_reader (rest r) (at_eof r) (closed r) (said r) (do_zero r) (wav r) iq iqm iql (iq_buf r).
Definition set_wav (r : reader) : reader :=
  mk_reader (rest r) (at_eof r) (closed r) (said r) (do_zero r) true (sIQ r) (sIQm r) (sIQl r) (iq_buf r).
Definition set_iq_buf (b : list single) (r : reader) : reader :=
  mk_reader (rest r) (at_eof r) (closed r) (said r) (do_zero r) (wav r) (sIQ r) (sIQm r) (sIQl r) b.

(** [fread(&x, 2, 1, fp)] into a variable that holds [old]. *)
Definition fread_short (old : Z) : M reader Z := fun r =>
  if closed r then None else
  match rest r with
  | b0 :: b1 :: rest => Some (b0 + 256 * b1, set_stream rest (at_eof r) r)
  | [] => Some (old, set_stream [] true r)
  | _ => None
  end.

(** [fread(&header, sizeof(WavHeader), 1, fp)]: what it says is not used. *)
Definition fread_header : M reader unit := fun r =>
  if closed r then None else
  Some (tt, set_stream (drop SIZEOF_WavHeader (rest r)) (at_eof r || (length (rest r) <? SIZEOF_WavHeader)%nat) r).

(** The numbers from a short of a WAV file, which the mask makes unsigned, and
    from two shorts of another file. *)
(* src/rtl_hpsdr.c:979-983 rtl_read_thr_func *)
Definition wav_value (iq : Z) : single := f_of_Z (u32 (Z.shiftl (i16 iq) 16) .& 0xffff0000).
(* src/rtl_hpsdr.c:987-989 rtl_read_thr_func *)
Definition raw_value (iqm iql : Z) : single := f_of_Z (i32 (Z.shiftl iqm 16 .| iql)).

(** The noise for a number that rand() delivers. *)
(* src/rtl_hpsdr.c:976-976 rtl_read_thr_func *)
Definition noise (r : Z) : single := fmul (fdiv (f_of_Z r) (f_of_Z (2 ^ 31 - 1))) (f_of_Z 65536).

(** A number of the sample: both are read the same way. *)
(* src/rtl_hpsdr.c:977-993 rtl_read_thr_func *)
Definition read_number : M reader single :=
  w ← gets wav;
  if (w : bool) then
    iq ← gets sIQ; iq ← fread_short iq;
    modify (fun r => set_words iq (sIQm r) (sIQl r) r);; mret (wav_value iq)
  else
    iqm ← gets sIQm; iqm ← fread_short iqm;
    iql ← gets sIQl; iql ← fread_short iql;
    modify (fun r => set_words (sIQ r) iqm iql r);; mret (raw_value iqm iql).

Definition store (j : Z) (x : single) : M reader unit := fun r =>
  b ← arr_set (iq_buf r) j x; Some (tt, set_iq_buf b r).

(** At the end of the file, once: it is read again from its first byte, or
    closed. *)
(* src/rtl_hpsdr.c:1005-1029 rtl_read_thr_func *)
Definition check_eof (using_IQrewind : bool) (contents : list Z) : M reader unit := fun r =>
  match said r with
  | Silent =>
      if at_eof r then
        if using_IQrewind
        then Some (tt, mk_reader contents false (closed r) Rewinding (do_zero r) (wav r) (sIQ r) (sIQm r) (sIQl r) (iq_buf r))
        else Some (tt, mk_reader (rest r) (at_eof r) true Ending true (wav r) (sIQ r) (sIQm r) (sIQl r) (iq_buf r))
      else Some (tt, r)
  | _ => Some (tt, r)
  end.

Section thread.
Context (using_IQrewind : bool) (contents : list Z) (rnd : Z -> Z).

(** The sample at [j]; the file is looked at after it, except after the last of
    a block. *)
(* src/rtl_hpsdr.c:974-1031 rtl_read_thr_func *)
Definition sample_turn (last : bool) (j : Z) : M reader unit :=
  z ← gets do_zero;
  (if (z : bool) then store (j + 1) (noise (rnd j));; store j (noise (rnd j))
   else x ← read_number; store j x;; y ← read_number; store (j + 1) y);;
  if last then mret tt else check_eof using_IQrewind contents.

(** [n] turns of the inner loop, from the sample [k] of a block of [block] on. *)
Fixpoint samples_loop (block : Z) (n : nat) (k : Z) : M reader unit :=
  match n with
  | O => mret tt
  | S n => sample_turn (k + 1 =? block) (2 * k);; samples_loop block n (k + 1)
  end.

(** A turn of the outer loop: [n] turns until [running] is cleared, 9600 when it
    is not; whether the block is announced.  [is_wav] says that the name of the
    file has ".wav". *)
(* src/rtl_hpsdr.c:966-1032 rtl_read_thr_func *)
Definition file_turn (is_wav : bool) (n : Z) : M reader bool :=
  (if is_wav then fread_header;; modify set_wav else mret tt);;
  samples_loop 9600 (Z.to_nat (Z.min n 9600)) 0;;
  mret (9600 <=? n).
End thread.

(** ** Changed settings *)

(** The settings of the receivers, now and before. *)
Record tuning : Type := mk_tuning {
  t_if_bw : list Z;
  t_gain : list Z;
  t_gain_mode : list Z;
  t_freq_offset : list Z;
  t_agc_mode : list Z;
  t_bias_t : list Z;
  t_direct_mode : list Z;
  t_center_freq : list Z;
}.

Definition copy_first (n : nat) (src dst : list Z) : option (list Z) :=
  for_arr (zseq n) (fun i dst => v ← arr_get src i; arr_set dst i v) dst.

(* src/rtl_hpsdr.c: update_config *)
Definition update_config (total : nat) (now last : tuning) : option tuning :=
  bw ← copy_first total (t_if_bw now) (t_if_bw last);
  g ← copy_first total (t_gain now) (t_gain last);
  gm ← copy_first total (t_gain_mode now) (t_gain_mode last);
  fo ← copy_first total (t_freq_offset now) (t_freq_offset last);
  am ← copy_first total (t_agc_mode now) (t_agc_mode last);
  bt ← copy_first total (t_bias_t now) (t_bias_t last);
  dm ← copy_first total (t_direct_mode now) (t_direct_mode last);
  cf ← copy_first total (t_center_freq now) (t_center_freq last);
  Some (mk_tuning bw g gm fo am bt dm cf).

(** A receiver's part of update_dongle, with its settings: the result and, when
    they were computed, the new [last_center_freq] and [center_freq]. *)
(* src/rtl_hpsdr.c:542-601 update_dongle *)
Definition update_dongle (gain_mode gain last_freq_offset freq_offset direct_mode agc_mode bias_t : Z) :
    M rtlsdr_dev (Z * option (Z * Z)) :=
  r ← (if 0 <? gain_mode then verbose_auto_gain else verbose_gain_set gain);
  if r <? 0 then mret (-1, None) else
  last ← gets dev_freq;
  let last := i32 last in
  let center := i32 (i32 (last - last_freq_offset) + freq_offset) in
  let fs := Some (last, center) in
  r ← rtlsdr_set_center_freq (u32 center);
  if r <? 0 then mret (-1, fs) else
  r ← rtlsdr_set_direct_sampling direct_mode;
  if r <? 0 then mret (-1, fs) else
  r ← rtlsdr_set_agc_mode agc_mode;
  if r <? 0 then mret (-1, fs) else
  r ← rtlsdr_set_bias_tee bias_t;
  if r <? 0 then mret (-1, fs) else mret (0, fs).

(** ** What a block of a file is

    A turn of the reading thread stores the numbers of the file.  What goes wrong
    with WAV files and at the end of the file is at the end. *)

(** The bytes of a short, and of a number: a WAV file has shorts; another file
    has 32 bits, the upper short first. *)
Definition short_bytes (x : Z) : list Z := [u8 x; u8 (x / 2 ^ 8)].
Definition number_bytes (is_wav : bool) (x : Z) : list Z :=
  if is_wav then short_bytes (u16 x) else short_bytes (u16 (x / 2 ^ 16)) ++ short_bytes (u16 x).
Definition number_ok (is_wav : bool) (x : Z) : Prop := if is_wav then is_i16 x else is_i32 x.

(** What the number becomes: 32 bits as they are; a short is moved to the upper
    half, and taken for unsigned. *)
Definition number_value (is_wav : bool) (x : Z) : single := f_of_Z (if is_wav then u16 x * 2 ^ 16 else x).

(** The state while all reads succeed. *)
Definition reading (is_wav : bool) (r : reader) : Prop :=
  closed r = false /\ do_zero r = false /\ wav r = is_wav /\ at_eof r = false.

Lemma fread_short_spec old x tail r : is_u16 x -> closed r = false -> rest r = short_bytes x ++ tail ->
  fread_short old r = Some (x, set_stream tail (at_eof r) r).
Proof.
  intros Hx Hc Hr. unfold fread_short. rewrite Hc, Hr. cbn [short_bytes app]. do 2 f_equal. unfold is_u16, u8 in *.
  rewrite (Z.mod_small (x / 2 ^ 8)); [|split; [apply Z.div_pos; lia|apply Z.div_lt_upper_bound; lia]].
  pose proof (Z.div_mod x 256 ltac:(lia)). change (2 ^ 8) with 256. lia.
Qed.

Lemma u16_is x : is_u16 (u16 x).
Proof. unfold is_u16, u16. apply Z.mod_pos_bound. lia. Qed.

Lemma wav_value_spec x : is_i16 x -> wav_value (u16 x) = number_value true x.
Proof.
  intros Hx. unfold wav_value, number_value. f_equal. rewrite Z.shiftl_mul_pow2 by lia.
  assert (i16 (u16 x) = x) as ->.
  { unfold i16, u16. rewrite Zplus_mod_idemp_l. unfold is_i16 in Hx. rewrite Z.mod_small; lia. }
  assert (u32 (x * 2 ^ 16) = u16 x * 2 ^ 16) as ->.
  { unfold u32, u16. change (2 ^ 32) with (2 ^ 16 * 2 ^ 16). by rewrite Z.mul_mod_distr_r by lia. }
  change 0xffff0000 with (Z.shiftl (Z.ones 16) 16). rewrite <- Z.shiftl_mul_pow2, <- Z.shiftl_land by lia.
  rewrite Z.land_ones by lia. unfold u16. by rewrite Z.mod_mod by lia.
Qed.

Lemma lor_low a l : 0 <= l < 2 ^ 16 -> a * 2 ^ 16 .| l = a * 2 ^ 16 + l.
Proof.
  intros Hl. symmetry. apply Z.add_nocarry_lor. apply Z.bits_inj'. intros i Hi. rewrite Z.land_spec, Z.bits_0.
  destruct (Z.ltb_spec i 16).
  - by rewrite Z.mul_pow2_bits_low by lia.
  - rewrite <- (Z.mod_small l (2 ^ 16)) by lia. by rewrite Z.mod_pow2_bits_high, andb_false_r by lia.
Qed.

Lemma raw_value_spec x : is_i32 x -> raw_value (u16 (x / 2 ^ 16)) (u16 x) = number_value false x.
Proof.
  intros Hx. unfold raw_value, number_value. f_equal. rewrite Z.shiftl_mul_pow2 by lia. pose proof (u16_is x) as Hl. unfold is_u16 in Hl.
  rewrite lor_low by lia. unfold is_i32 in Hx. unfold i32, u16. pose proof (Z.div_mod x (2 ^ 16) ltac:(lia)) as Ex.
  pose proof (Z.div_mod (x / 2 ^ 16) (2 ^ 16) ltac:(lia)) as Eq. set (q := x / 2 ^ 16) in *.
  replace (q mod 2 ^ 16 * 2 ^ 16 + x mod 2 ^ 16) with (x + - (q / 2 ^ 16) * 2 ^ 32) by lia.
  replace (x + - (q / 2 ^ 16) * 2 ^ 32 + 2 ^ 31) with (x + 2 ^ 31 + - (q / 2 ^ 16) * 2 ^ 32) by lia.
  rewrite Z.mod_add, Z.mod_small by lia. lia.
Qed.

(** ** The numbers of a block *)

Lemma read_number_spec w x tail r : reading w r -> number_ok w x -> rest r = number_bytes w x ++ tail ->
  wp read_number (fun v r' => v = number_value w x /\ reading w r' /\ rest r' = tail /\ iq_buf r' = iq_buf r /\ said r' = said r) r.
Proof.
  intros (Hc & Hz & <- & He) Hx Hr. unfold read_number. apply wp_bind, wp_gets. unfold number_ok in Hx. destruct (wav r) eqn:Hw.
  - apply wp_bind, wp_gets, wp_bind. unfold wp at 1. rewrite (fread_short_spec _ (u16 x) tail) by (done || apply u16_is).
    apply wp_bind, wp_modify, wp_ret. split; [by apply wav_value_spec|]. done.
  - cbn [number_bytes] in Hr. rewrite <- app_assoc in Hr.
    apply wp_bind, wp_gets, wp_bind. unfold wp at 1. rewrite (fread_short_spec _ (u16 (x / 2 ^ 16)) (short_bytes (u16 x) ++ tail)) by (done || apply u16_is).
    apply wp_bind, wp_gets, wp_bind. unfold wp at 1. rewrite (fread_short_spec _ (u16 x) tail) by (done || apply u16_is).
    apply wp_bind, wp_modify, wp_ret. split; [by apply raw_value_spec|]. done.
Qed.

Lemma store_spec j x r : 0 <= j < Z.of_nat (length (iq_buf r)) ->
  wp (store j x) (fun _ r' => (forall i, arr_get (iq_buf r') i = if i =? j then Some x else arr_get (iq_buf r) i) /\
    length (iq_buf r') = length (iq_buf r) /\ rest r' = rest r /\ said r' = said r /\ (forall w, reading w r -> reading w r')) r.
Proof.
  intros Hj. unfold store, wp. destruct (arr_set_spec (iq_buf r) j x Hj) as (b & -> & L & G). cbn [mbind option_bind]. done.
Qed.

Section numbers.
Context (using_IQrewind : bool) (contents : list Z) (rnd : Z -> Z) (w : bool).

(** The buffer [b'] has the numbers [xs] from [j] on. *)
Definition holds (b b' : list single) (j : Z) (xs : list Z) : Prop :=
  length b' = length b /\ forall i, arr_get b' i =
    if (j <=? i) && (i <? j + Z.of_nat (length xs)) then number_value w <$> (xs !! Z.to_nat (i - j)) else arr_get b i.

Lemma sample_turn_spec last j x y tail r :
  reading w r -> number_ok w x -> number_ok w y -> rest r = number_bytes w x ++ number_bytes w y ++ tail ->
  0 <= j -> j + 1 < Z.of_nat (length (iq_buf r)) ->
  wp (sample_turn using_IQrewind contents rnd last j)
    (fun _ r' => reading w r' /\ rest r' = tail /\ holds (iq_buf r) (iq_buf r') j [x; y]) r.
Proof.
  intros Hr Hx Hy Hrest Hj Hl. unfold sample_turn. apply wp_bind, wp_gets. rewrite (proj1 (proj2 Hr)). apply wp_bind.
  apply wp_bind. eapply wp_mono; [|by apply (read_number_spec w x (number_bytes w y ++ tail))]. intros v r1 (-> & Hr1 & E1 & B1 & S1).
  apply wp_bind. eapply wp_mono; [|apply store_spec; rewrite B1; lia]. intros u1 r2 (G2 & L2 & E2 & S2 & Hk2). specialize (Hk2 w Hr1).
  apply wp_bind. eapply wp_mono; [|apply (read_number_spec w y tail); [done|done|congruence]]. intros v r3 (-> & Hr3 & E3 & B3 & S3).
  eapply wp_mono; [|apply store_spec; rewrite B3, L2, B1; lia]. intros u4 r4 (G4 & L4 & E4 & S4 & Hk4). specialize (Hk4 w Hr3).
  assert (holds (iq_buf r) (iq_buf r4) j [x; y]) as Hh.
  { split; [congruence|]. intros i. rewrite G4, B3, G2, B1. cbn [length]. destruct (Z.eqb_spec i (j + 1)) as [->|N1].
    - replace (_ && _) with true by lia. by replace (Z.to_nat (j + 1 - j)) with 1%nat by lia.
    - destruct (Z.eqb_spec i j) as [->|N2]; [|by replace (_ && _) with false by lia].
      replace (_ && _) with true by lia. by rewrite Z.sub_diag. }
  destruct last; [apply wp_ret; split; [done|]; split; [congruence|done]|].
  unfold check_eof, wp. rewrite (proj2 (proj2 (proj2 Hk4))). destruct (said r4); (split; [done|]; split; [congruence|done]).
Qed.

Lemma samples_loop_spec block n : forall k xs tail r,
  reading w r -> Forall (number_ok w) xs -> length xs = (2 * n)%nat -> rest r = concat (map (number_bytes w) xs) ++ tail ->
  0 <= k -> 2 * (k + Z.of_nat n) <= Z.of_nat (length (iq_buf r)) ->
  wp (samples_loop using_IQrewind contents rnd block n k)
    (fun _ r' => reading w r' /\ rest r' = tail /\ holds (iq_buf r) (iq_buf r') (2 * k) xs) r.
Proof.
  induction n as [|n IH]; intros k xs tail r Hr Hxs Hl Hrest Hk Hb.
  - destruct xs; [|done]. apply wp_ret. split; [done|]. split; [done|]. split; [done|]. intros i. cbn [length].
    by replace (_ && _) with false by lia.
  - destruct xs as [|x [|y xs]]; [done|cbn in Hl; lia|]. apply Forall_cons in Hxs as [Hx Hxs]. apply Forall_cons in Hxs as [Hy Hxs].
    cbn [map concat] in Hrest. rewrite <- !app_assoc in Hrest. cbn [samples_loop]. apply wp_bind.
    eapply wp_mono; [|by apply (sample_turn_spec _ (2 * k) x y (concat (map (number_bytes w) xs) ++ tail)); try lia].
    intros u r1 (Hr1 & E1 & L1 & G1).
    eapply wp_mono; [|apply (IH (k + 1) xs tail); [done|done|cbn in Hl; lia|done|lia|rewrite L1; lia]].
    intros u' r2 (Hr2 & E2 & L2 & G2). split; [done|]. split; [done|]. split; [congruence|]. intros i. rewrite G2, G1. cbn [length].
    destruct (decide (2 * k <= i < 2 * k + 2)) as [Hi|Hi].
    + replace ((2 * (k + 1) <=? i) && _) with false by lia. rewrite !(proj2 (andb_true_iff _ _)) by (split; lia).
      destruct (decide (i = 2 * k)) as [->|]; [by rewrite Z.sub_diag|]. by replace (Z.to_nat (i - 2 * k)) with 1%nat by lia.
    + replace ((2 * k <=? i) && (i <? 2 * k + Z.of_nat 2)) with false by lia.
      replace ((2 * k <=? i) && (i <? 2 * k + Z.of_nat (S (S (length xs))))) with ((2 * (k + 1) <=? i) && (i <? 2 * (k + 1) + Z.of_nat (length xs)))
        by (apply eq_true_iff_eq; lia).
      destruct (_ && _) eqn:E; [|done]. replace (Z.to_nat (i - 2 * k)) with (S (S (Z.to_nat (i - 2 * (k + 1))))) by lia. done.
Qed.
End numbers.

(** C40: a turn of the thread that reads from a file, as long as there are bytes:
    the numbers of the file are stored in their order at the beginning of
    [iq_buf], nothing else of it changes, exactly their bytes are consumed, and
    the block is announced when it is complete.  In a WAV file every turn skips
    44 bytes first, those of the header at the first turn only. *)
Theorem file_turn_samples (using_IQrewind : bool) (contents : list Z) (rnd : Z -> Z) (w : bool) (n : Z) (xs header tail : list Z) (r : reader) :
  closed r = false -> do_zero r = false -> at_eof r = false -> (wav r = true -> w = true) ->
  0 <= n -> Z.of_nat (length xs) = 2 * Z.min n 9600 -> Forall (number_ok w) xs ->
  length header = (if w then SIZEOF_WavHeader else 0%nat) -> rest r = header ++ concat (map (number_bytes w) xs) ++ tail ->
  (Z.to_nat 19200 <= length (iq_buf r))%nat ->
  wp (file_turn using_IQrewind contents rnd w n)
    (fun full r' => full = (9600 <=? n) /\ rest r' = tail /\ reading w r' /\ holds w (iq_buf r) (iq_buf r') 0 xs) r.
Proof.
  intros Hc Hz He Hw Hn Hlx Hxs Hlh Hr Hb. unfold file_turn.
  assert (forall r1, reading w r1 -> rest r1 = concat (map (number_bytes w) xs) ++ tail -> iq_buf r1 = iq_buf r ->
    wp (samples_loop using_IQrewind contents rnd 9600 (Z.to_nat (Z.min n 9600)) 0;; mret (9600 <=? n))
      (fun full r' => full = (9600 <=? n) /\ rest r' = tail /\ reading w r' /\ holds w (iq_buf r) (iq_buf r') 0 xs) r1) as Hloop.
  { intros r1 Hr1 E1 B1. apply wp_bind. eapply wp_mono; [|apply (samples_loop_spec _ _ _ w 9600 _ 0 xs tail); [done|done|lia|done|lia|rewrite B1; lia]].
    intros u r2 (Hr2 & E2 & H2). rewrite B1 in H2. by apply wp_ret. }
  destruct w.
  - apply wp_bind, wp_bind. unfold fread_header, wp at 1. rewrite Hc, He, Hr. apply wp_modify. apply Hloop.
    + split_and!; try done. cbn [at_eof set_wav set_stream]. apply Nat.ltb_ge. rewrite length_app. lia.
    + cbn [set_wav set_stream rest]. by rewrite drop_app_length'.
    + done.
  - apply wp_bind, wp_ret. apply Hloop; [|by destruct header|done]. split_and!; try done. destruct (wav r); [by specialize (Hw eq_refl)|done].
Qed.

Definition blank_reader (bytes : list Z) : reader := mk_reader bytes false false Silent false false 0 0 0 (replicate (Z.to_nat 19200) fzero).

Lemma file_turn_samples_witness :
  wp (file_turn false [] (fun _ => 0) false 1)
    (fun full r' => full = false /\ rest r' = [9; 9] /\ reading false r' /\
       holds false (replicate (Z.to_nat 19200) fzero) (iq_buf r') 0 [-65536; 3])
    (blank_reader [0xff; 0xff; 0; 0; 0; 0; 3; 0; 9; 9]).
Proof.
  refine (file_turn_samples false [] (fun _ => 0) false 1 [-65536; 3] [] [9; 9] (blank_reader [0xff; 0xff; 0; 0; 0; 0; 3; 0; 9; 9])
    eq_refl eq_refl eq_refl _ _ eq_refl _ eq_refl eq_refl _); [done|lia| |].
  - repeat constructor; done.
  - cbn [blank_reader iq_buf]. by rewrite length_replicate.
Defined.

(** ** WAV files, and ends of files *)

(** A negative sample of a WAV file becomes a large positive number. *)
Lemma wav_negative : number_value true (-1) = f_of_Z 4294901760 /\ wav_value (u16 (-1)) = number_value true (-1).
Proof. split; [reflexivity|]. by apply wav_value_spec. Qed.

(** A file is read again once: at its second end the last numbers are repeated,
    for ever. *)
Definition stuck (r : reader) : Prop :=
  said r = Rewinding /\ rest r = [] /\ closed r = false /\ do_zero r = false /\ wav r = false.

Lemma read_number_stuck r : stuck r ->
  wp read_number (fun v r' => v = raw_value (sIQm r) (sIQl r) /\ stuck r' /\ iq_buf r' = iq_buf r /\ sIQm r' = sIQm r /\ sIQl r' = sIQl r) r.
Proof.
  intros (Hs & Hr & Hc & Hz & Hw). unfold read_number. apply wp_bind, wp_gets. rewrite Hw.
  apply wp_bind, wp_gets, wp_bind. unfold fread_short at 1. unfold wp at 1. rewrite Hc, Hr.
  apply wp_bind, wp_gets, wp_bind. unfold fread_short at 1. unfold wp at 1. cbn [closed rest set_stream]. rewrite Hc.
  apply wp_bind, wp_modify, wp_ret. done.
Qed.

Lemma second_end_repeats using_IQrewind contents rnd last j r : stuck r -> 0 <= j -> j + 1 < Z.of_nat (length (iq_buf r)) ->
  wp (sample_turn using_IQrewind contents rnd last j)
    (fun _ r' => stuck r' /\ arr_get (iq_buf r') j = Some (raw_value (sIQm r) (sIQl r)) /\
       arr_get (iq_buf r') (j + 1) = Some (raw_value (sIQm r) (sIQl r)) /\ sIQm r' = sIQm r /\ sIQl r' = sIQl r) r.
Proof.
  intros Hst Hj Hl. pose proof Hst as (_ & _ & _ & Hz & _). unfold sample_turn. apply wp_bind, wp_gets. rewrite Hz. apply wp_bind.
  apply wp_bind. eapply wp_mono; [|by apply read_number_stuck]. intros v r1 (-> & H1 & B1 & M1 & L1).
  apply wp_bind. unfold store, wp at 1. destruct (arr_set_spec (iq_buf r1) j (raw_value (sIQm r) (sIQl r))) as (b & -> & Lb & G); [rewrite B1; lia|].
  apply wp_bind. eapply wp_mono; [|apply read_number_stuck; exact H1]. intros v r3 (-> & H3 & B3 & M3 & L3). cbn [iq_buf set_iq_buf sIQm sIQl] in *.
  unfold wp. cbv beta. destruct (arr_set_spec (iq_buf r3) (j + 1) (raw_value (sIQm r1) (sIQl r1))) as (b' & -> & Lb' & G'); [rewrite B3, Lb, B1; lia|].
  cbn [mbind option_bind].
  assert (stuck (set_iq_buf b' r3) /\ arr_get b' j = Some (raw_value (sIQm r) (sIQl r)) /\ arr_get b' (j + 1) = Some (raw_value (sIQm r) (sIQl r)) /\
    sIQm r3 = sIQm r /\ sIQl r3 = sIQl r) as Hall.
  { split; [done|]. rewrite !G', B3, G, M1, L1. rewrite (Z.eqb_refl (j + 1)), Z.eqb_refl. replace (j =? j + 1) with false by lia.
    split; [done|]. split; [done|]. split; congruence. }
  destruct last; [exact Hall|]. unfold check_eof. cbn [said set_iq_buf]. rewrite (proj1 H3). exact Hall.
Qed.

(** With -w a WAV file is read after it was closed. *)
Lemma closed_file_read using_IQrewind contents rnd n r : closed r = true -> file_turn using_IQrewind contents rnd true n r = None.
Proof. intros Hc. unfold file_turn, fread_header, mbind, M_bind. by rewrite Hc. Qed.

(** ** Changed settings *)

Lemma update_dongle_ok gain_mode gain last_offset offset direct_mode agc_mode bias_t :
  preserves dev_ok (update_dongle gain_mode gain last_offset offset direct_mode agc_mode bias_t).
Proof.
  unfold update_dongle, verbose_auto_gain.
  apply preserves_bind; [apply preserves_if; [apply set_tuner_gain_mode_ok|apply verbose_gain_set_ok]|]. intros r.
  apply preserves_if; [apply preserves_ret|]. apply preserves_bind; [apply preserves_gets|]. intros last. cbv zeta.
  apply preserves_bind; [apply (set_center_freq_ok 0)|]. intros r1. apply preserves_if; [apply preserves_ret|].
  apply preserves_bind; [apply direct_sampling_ok|]. intros r2. apply preserves_if; [apply preserves_ret|].
  apply preserves_bind; [by apply (run_api_ok (SetAgcMode agc_mode))|]. intros r3. apply preserves_if; [apply preserves_ret|].
  apply preserves_bind; [apply bias_tee_ok|]. intros r4. apply preserves_if; apply preserves_ret.
Qed.
