(* ===== verification/RtlFmResample.v ===== *)
(** * rtl_fm.c: the resampler that is not used

    [mad] (the mean deviation) and [arbitrary_resample], which nothing calls: what
    they compute, and which accesses they make.  The two buffers are different
    ones; [step] is positive. *)

From S2P Require Import Prelude Arrays Double RtlFm.
From Stdlib Require Import SpecFloat.

(* src/rtl_fm.c: mad *)
Definition mad (samples : list Z) (len step : Z) : option Z :=
  if len =? 0 then Some 0 else
  xs ← mapM (arr_get samples) (stepped len step);
  ave ← c_div (fold_left (fun sum x => i32 (sum + x)) xs 0) (i32 (len * step));
  n ← c_div len step;
  c_div (fold_left (fun sum x => i32 (sum + Z.abs (x - ave))) xs 0) n.

Section resample.
Context `{libm}.

(** A number between two samples. *)
Definition between (x y tick len2 : Z) : Z :=
  let frac := ddiv (d_of_Z tick) (d_of_Z len2) in
  d_to_i16 oor (dadd (dmul (d_of_Z x) (dsub (d_of_Z 1) frac)) (dmul (d_of_Z y) frac)).

(* src/rtl_fm.c:678-691 arbitrary_upsample *)
Fixpoint upsample_loop (n : nat) (buf1 buf2 : list Z) (len1 len2 i j tick : Z) : option (list Z) :=
  match n with
  | O => Some buf2
  | S n =>
      x ← arr_get buf1 (i - 1); y ← arr_get buf1 i;
      buf2 ← arr_set buf2 j (between x y tick len2);
      let tick := tick + len1 in
      let '(tick, i) := if len2 <? tick then (tick - len2, i + 1) else (tick, i) in
      let '(tick, i) := if len1 <=? i then (len2, len1 - 1) else (tick, i) in
      upsample_loop n buf1 buf2 len1 len2 i (j + 1) tick
  end.

(* src/rtl_fm.c: arbitrary_upsample *)
Definition arbitrary_upsample (buf1 buf2 : list Z) (len1 len2 : Z) : option (list Z) :=
  upsample_loop (Z.to_nat len2) buf1 buf2 len1 len2 1 0 0.

(** [fuel] bounds the number of turns. *)
(* src/rtl_fm.c:704-722 arbitrary_downsample *)
Fixpoint downsample_loop (fuel : nat) (buf1 buf2 : list Z) (len1 len2 i j tick : Z) (remainder : double) : option (list Z) :=
  if len2 <=? j then Some buf2 else
  match fuel with
  | O => None
  | S fuel =>
      let frac := if len1 <? tick + len2 then ddiv (d_of_Z (len1 - tick)) (d_of_Z len2) else d_of_Z 1 in
      x ← arr_get buf1 i; s ← arr_get buf2 j;
      buf2 ← arr_set buf2 j (i16 (s + d_to_i16 oor (dadd (dmul (d_of_Z x) frac) remainder)));
      let remainder := dmul (d_of_Z x) (dsub (d_of_Z 1) frac) in
      let tick := tick + len2 in
      let i := i + 1 in
      '(buf2, j, tick) ← (if len1 <? tick then buf2 ← arr_set buf2 (j + 1) 0; Some (buf2, j + 1, tick - len1) else Some (buf2, j, tick));
      let '(i, tick) := if len1 <=? i then (len1 - 1, len1) else (i, tick) in
      downsample_loop fuel buf1 buf2 len1 len2 i j tick remainder
  end.

(* src/rtl_fm.c: arbitrary_downsample *)
Definition arbitrary_downsample (buf1 buf2 : list Z) (len1 len2 : Z) : option (list Z) :=
  buf2 ← arr_set buf2 0 0;
  buf2 ← downsample_loop (Z.to_nat (len1 + len2 + 1)) buf1 buf2 len1 len2 1 0 0 (d_of_Z 0);
  for_arr (zseq (Z.to_nat len2)) (fun j buf2 => x ← arr_get buf2 j; q ← c_div (i32 (x * len2)) len1; arr_set buf2 j (i16 q)) buf2.

(* src/rtl_fm.c: arbitrary_resample *)
Definition arbitrary_resample (buf1 buf2 : list Z) (len1 len2 : Z) : option (list Z) :=
  if len1 <? len2 then arbitrary_upsample buf1 buf2 len1 len2 else arbitrary_downsample buf1 buf2 len1 len2.

(** ** Upsampling *)

(** The time of the sample [j], in parts of [len2]: not after the last sample. *)
Definition moment (len1 len2 j : Z) : Z := Z.min (j * len1) ((len1 - 1) * len2).

(** The samples around a moment and the distance from the earlier one: a
    moment on a sample is at the end of the time before it. *)
Definition around (len2 t i tick : Z) : Prop :=
  (i - 1) * len2 + tick = t /\ 0 <= tick <= len2 /\ (tick = 0 -> t = 0).

Lemma around_unique len2 t i tick i' tick' : 0 < len2 -> around len2 t i tick -> around len2 t i' tick' -> 1 <= i -> 1 <= i' ->
  i = i' /\ tick = tick'.
Proof.
  intros H2 (E & Ht & H0) (E' & Ht' & H0') Hi Hi'. assert (i = i') as ->; [|split; lia].
  destruct (Z.lt_trichotomy i i') as [Hlt|[|Hlt]]; [|done|]; exfalso.
  - assert ((i' - 1) * len2 >= (i - 1) * len2 + len2) by nia. assert (tick' = 0) by nia. specialize (H0' ltac:(lia)). nia.
  - assert ((i - 1) * len2 >= (i' - 1) * len2 + len2) by nia. assert (tick = 0) by nia. specialize (H0 ltac:(lia)). nia.
Qed.

Lemma upsample_loop_spec buf1 len1 len2 n : forall buf2 i j tick,
  2 <= len1 < len2 -> len1 <= Z.of_nat (length buf1) -> 0 <= j -> j + Z.of_nat n <= Z.of_nat (length buf2) ->
  1 <= i <= len1 - 1 -> around len2 (moment len1 len2 j) i tick ->
  exists out, upsample_loop n buf1 buf2 len1 len2 i j tick = Some out /\ length out = length buf2 /\
    (forall k, k < j -> arr_get out k = arr_get buf2 k) /\
    forall k, j <= k < j + Z.of_nat n -> exists i tick x y, around len2 (moment len1 len2 k) i tick /\ 1 <= i <= len1 - 1 /\
      arr_get buf1 (i - 1) = Some x /\ arr_get buf1 i = Some y /\ arr_get out k = Some (between x y tick len2).
Proof.
  induction n as [|n IH]; intros buf2 i j tick Hlen Hb1 Hj Hb2 Hi Ha; [exists buf2; split_and!; [done..|lia]|].
  cbn [upsample_loop]. destruct (arr_get_ok buf1 (i - 1)) as [x Ex]; [lia|]. destruct (arr_get_ok buf1 i) as [y Ey]; [lia|].
  rewrite Ex, Ey. cbn [mbind option_bind]. destruct (arr_set_spec buf2 j (between x y tick len2)) as (b & -> & Lb & G); [lia|].
  cbn [mbind option_bind].
  assert (exists i' tick', (let '(tick, i) := if len2 <? tick + len1 then (tick + len1 - len2, i + 1) else (tick + len1, i) in
      if len1 <=? i then (len2, len1 - 1) else (tick, i)) = (tick', i') /\ 1 <= i' <= len1 - 1 /\ around len2 (moment len1 len2 (j + 1)) i' tick')
    as (i' & tick' & E & Hi' & Ha').
  { destruct Ha as (E & Ht & H0). unfold moment, around in *. destruct (Z.ltb_spec len2 (tick + len1)).
    - destruct (Z.leb_spec len1 (i + 1)); eexists _, _; (split; [reflexivity|]); split_and!; nia.
    - replace (len1 <=? i) with false by lia. eexists _, _; (split; [reflexivity|]); split_and!; nia. }
  destruct (if len2 <? tick + len1 then (tick + len1 - len2, i + 1) else (tick + len1, i)) as [t1 i1]. rewrite E.
  destruct (IH b i' (j + 1) tick') as (out & Eo & Lo & Hlow & Hup); [done|done|lia|lia|done|done|].
  exists out. split; [done|]. split; [congruence|]. split.
  - intros k Hk. rewrite Hlow, G by lia. by replace (k =? j) with false by lia.
  - intros k Hk. destruct (Z.eq_dec k j) as [->|Hne]; [|apply Hup; lia]. exists i, tick, x, y. split; [done|]. split; [done|].
    split; [done|]. split; [done|]. rewrite Hlow, G by lia. by rewrite Z.eqb_refl.
Qed.

(** With at least two samples, sample [j] is between those around the moment
    [j * len1 / len2], by the distance; no access is outside of a buffer. *)
Lemma arbitrary_upsample_interpolates buf1 buf2 len1 len2 :
  2 <= len1 < len2 -> len1 <= Z.of_nat (length buf1) -> len2 <= Z.of_nat (length buf2) ->
  exists out, arbitrary_resample buf1 buf2 len1 len2 = Some out /\ length out = length buf2 /\
    forall k, 0 <= k < len2 -> exists i tick x y, around len2 (moment len1 len2 k) i tick /\ 1 <= i <= len1 - 1 /\
      arr_get buf1 (i - 1) = Some x /\ arr_get buf1 i = Some y /\ arr_get out k = Some (between x y tick len2).
Proof.
  intros Hl H1 H2. unfold arbitrary_resample, arbitrary_upsample. replace (len1 <? len2) with true by lia.
  destruct (upsample_loop_spec buf1 len1 len2 (Z.to_nat len2) buf2 1 0 0) as (out & E & L & _ & H'); [lia..| |].
  { unfold around, moment. split_and!; nia. }
  exists out. split; [done|]. split; [done|]. intros k Hk. apply H'. lia.
Qed.

(** ** Downsampling *)

(** The element after the last one is cleared: with a buffer of [len2] elements
    there is none. *)
Lemma downsample_past_end buf1 len1 len2 fuel : forall buf2 i j tick remainder,
  Z.of_nat (length buf2) = len2 -> 0 <= j < len2 -> downsample_loop fuel buf1 buf2 len1 len2 i j tick remainder = None.
Proof.
  induction fuel as [|fuel IH]; intros buf2 i j tick remainder Hl Hj; cbn [downsample_loop]; replace (len2 <=? j) with false by lia; [done|].
  destruct (arr_get buf1 i) as [x|]; [|done]. cbn [mbind option_bind]. destruct (arr_get buf2 j) as [s|]; [|done]. cbn [mbind option_bind].
  destruct (arr_set buf2 j _) as [b|] eqn:Eb; [|done]. cbn [mbind option_bind]. apply arr_set_length in Eb. destruct (len1 <? tick + len2).
  - destruct (arr_set b (j + 1) 0) as [b'|] eqn:Eb'; [|done]. cbn [mbind option_bind].
    assert (j + 1 < len2) by (unfold arr_set in Eb'; destruct ((0 <=? j + 1) && _) eqn:Ec; [lia|done]).
    apply arr_set_length in Eb'. destruct (len1 <=? i + 1); apply IH; lia.
  - cbn [mbind option_bind]. destruct (len1 <=? i + 1); apply IH; lia.
Qed.

Lemma arbitrary_downsample_past_end buf1 buf2 len1 len2 : 0 < len2 <= len1 -> Z.of_nat (length buf2) = len2 ->
  arbitrary_resample buf1 buf2 len1 len2 = None.
Proof.
  intros Hl Hb. unfold arbitrary_resample, arbitrary_downsample. replace (len1 <? len2) with false by lia.
  destruct (arr_set buf2 0 0) as [b|] eqn:E; [|done]. cbn [mbind option_bind]. apply arr_set_length in E.
  by rewrite downsample_past_end by lia.
Qed.

(** With one more element the loop ends. *)
Lemma downsample_loop_ends buf1 len1 len2 fuel : forall buf2 i j tick remainder,
  0 < len2 <= len1 -> 2 <= len1 <= Z.of_nat (length buf1) -> len2 < Z.of_nat (length buf2) -> 0 <= j -> 1 <= i <= len1 - 1 -> 0 <= tick <= len1 ->
  (len1 - 1 - i) + Z.max 0 (len2 - j) + (if (i =? len1 - 1) && (tick =? len1) then 0 else 1) <= Z.of_nat fuel ->
  exists out, downsample_loop fuel buf1 buf2 len1 len2 i j tick remainder = Some out /\ length out = length buf2.
Proof.
  induction fuel as [|fuel IH]; intros buf2 i j tick remainder Hl H1 H2 Hj Hi Ht Hf; cbn [downsample_loop].
  { destruct (Z.leb_spec len2 j); [by exists buf2|]. destruct (_ && _); lia. }
  destruct (Z.leb_spec len2 j) as [|Hlt]; [by exists buf2|].
  destruct (arr_get_ok buf1 i) as [x ->]; [lia|]. cbn [mbind option_bind]. destruct (arr_get_ok buf2 j) as [s ->]; [lia|]. cbn [mbind option_bind].
  match goal with |- context [arr_set buf2 j ?v] => destruct (arr_set_spec buf2 j v) as (b & -> & Lb & _); [lia|] end. cbn [mbind option_bind].
  destruct (Z.ltb_spec len1 (tick + len2)) as [Hgt|Hle].
  - destruct (arr_set_spec b (j + 1) 0) as (b' & -> & Lb' & _); [lia|]. cbn [mbind option_bind].
    destruct (Z.leb_spec len1 (i + 1)).
    + destruct (IH b' (len1 - 1) (j + 1) len1 (dmul (d_of_Z x) (dsub (d_of_Z 1) (ddiv (d_of_Z (len1 - tick)) (d_of_Z len2))))) as (out & -> & Lo);
        [lia..|rewrite !Z.eqb_refl; cbn [andb]; destruct (_ && _); lia|]. exists out. split; [done|congruence].
    + destruct (IH b' (i + 1) (j + 1) (tick + len2 - len1) (dmul (d_of_Z x) (dsub (d_of_Z 1) (ddiv (d_of_Z (len1 - tick)) (d_of_Z len2))))) as (out & -> & Lo);
        [lia..|destruct ((i =? len1 - 1) && (tick =? len1)) eqn:E1, ((i + 1 =? len1 - 1) && _) eqn:E2; lia|]. exists out. split; [done|congruence].
  - cbn [mbind option_bind]. destruct (Z.leb_spec len1 (i + 1)).
    + destruct (IH b (len1 - 1) j len1 (dmul (d_of_Z x) (dsub (d_of_Z 1) (d_of_Z 1)))) as (out & -> & Lo);
        [lia..|rewrite !Z.eqb_refl; cbn [andb]; replace ((i =? len1 - 1) && (tick =? len1)) with false in Hf by lia; lia|]. exists out. split; [done|congruence].
    + destruct (IH b (i + 1) j (tick + len2) (dmul (d_of_Z x) (dsub (d_of_Z 1) (d_of_Z 1)))) as (out & -> & Lo);
        [lia..|destruct ((i =? len1 - 1) && (tick =? len1)) eqn:E1, ((i + 1 =? len1 - 1) && _) eqn:E2; lia|]. exists out. split; [done|congruence].
Qed.
End resample.

(** Fewer samples than a step divide by 0. *)
Lemma mad_short_divides_by_zero : mad [5] 1 2 = None.
Proof. reflexivity. Qed.
